(* ===== verification/_CoqProject ===== *)
-Q . S2P
Prelude.v
KList.v
KString.v
Coop.v
Sched.v
Proc.v
KMutex.v
ProcTable.v
Vnode.v
Ramfs.v
RamfsSpec.v
RamfsDir.v
RamfsDemo.v
Namev.v
VfsSyscall.v
VfsFiles.v
VfsDents.v
NamevSpec.v
NamevPath.v
VfsNames.v
VfsDemo.v
PathDemo.v
Page.v
PageSpec.v
PageDemo.v
PageTable.v
PageTableSpec.v
PageTableOps.v
PageTableRange.v
PageTableDirs.v
PageTableDemo.v
PFrame.v
PFrameSpec.v
PFrameOps.v
PFrameMove.v
PFrameOut.v
BlockPages.v
PFrameDemo.v
BlockDemo.v
S5.v
S5Spec.v
S5Lists.v
S5Ops.v
S5Inode.v
S5Free.v
S5Demo.v
Slab.v
SlabSpec.v
SlabAlloc.v
Kmalloc.v
SlabBoot.v
SlabDemo.v
VirtTerm.v
VirtTermSpec.v
Keyboard.v
TtyDemo.v
Init.v
InitSpec.v
InitDemo.v
Dev.v
Gdt.v
KErrno.v
Math.v
MathSpec.v
Printf.v
PrintfSpec.v
PrintfRef.v
PrintfFmt.v
PrintfScan.v
PrintfDemo.v
Debug.v
DebugSpec.v
DebugDemo.v
KShell.v
KShellSpec.v
KShellLine.v
KShellCmds.v
KShellOut.v
KShellNext.v
KShellDemo.v
