(* ===== verification/Prelude.v ===== *)
(** * A verification of the Weenix kernel

    Weenix is a small teaching kernel in C ([src/Weenix/weenix/kernel]).  In the
    configuration of the repository ([Config.mk]: DRIVERS and VFS on, S5FS, VM,
    MTP, MOUNTING, GETCWD and SHADOWD off) a processor runs kernel threads under a
    cooperative scheduler, processes own threads and open files, and files live
    in a RAM file system behind the VFS layer.  This library models that core and
    proves what makes it correct.

    ** The parts and how they fit together

    - [util/list.h] gives every queue and table its doubly linked list;
      [util/string.c] gives names and paths their string functions.
    - [proc/sched.c] keeps the run queue and the wait queues.  A thread that
      sleeps calls [sched_switch], which picks another thread; [proc/kmutex.c]
      builds mutexes on sleeping and waking; [proc/kthread.c] and [proc/proc.c]
      create, cancel, exit and reap threads and processes.
    - [fs/vnode.c] counts the references to the vnodes in memory and calls the
      file system below through [fs_ops_t]; [fs/ramfs/ramfs.c] is that file
      system; [fs/namev.c] resolves paths; [fs/file.c], [fs/open.c] and
      [fs/vfs_syscall.c] are descriptors, open files and the system calls.
    - [mm/page.c] is the buddy allocator pages come from; [mm/slab.c] cuts blocks
      of pages into objects and gives [kmalloc] its buckets; [mm/pagetable.c] sets
      up paging and maps pages in address spaces; [mm/phys.c] finds the memory;
      [mm/pframe.c] caches the pages of memory objects and pages them out.
    - [drivers/tty/virtterm.c] keeps the text of each terminal in a circular
      buffer and shows one of them on the screen ([screen.c]); the interrupt
      handler of [keyboard.c] turns scan codes into characters, switches and
      scrolls; [drivers/bytedev.c] and [blockdev.c] are the tables of devices.
    - [util/init.c] calls the initialisation functions in the order of their
      dependencies; [util/printf.c] formats and scans text with the 64-bit division
      of [util/math.c]; [util/debug.c] keeps the debugging modes.
    - [test/kshell/] is the shell the first process runs: it reads a line, makes
      its redirections and calls a command, all through the system calls.

    ** Which file models what

    - [Prelude]: outcomes ([Done], [Panic], [Stuck], [Blocked]), the state and
      failure monad [kern], total-correctness triples [runs], machine integers,
      shared tactics and hints.  [Stuck] is what C gives no meaning to: a NULL or
      dangling dereference, an index out of range, an uninitialised variable.
    - [KList]: [list.h] on a heap of cells; every macro a function.  Theorems: the
      operations implement sequences; iteration survives removal of the current
      element.
    - [KString]: [string.c] on arrays of signed characters, [None] past the end of
      an array.  Theorems: [strstr] finds the first occurrence, [strtok] cuts into
      fields, names survive being stored in directory entries.
    - [Coop]: resumptions.  Code that can give up the CPU returns [Yield] with the
      state and the rest of the computation.
    - [Sched]: threads, queues, interrupt level, wake-ups ([sched.c] up to
      [sched_switch]); the well-formedness [sched_wf] with its checker.  The state
      has the coming interrupts with their vectors; waiting for one takes the
      first that the interrupt level does not mask.
    - [Proc]: [sched_switch] with processes, exit, cancellation, [do_waitpid]
      ([proc.c], [kthread.c], the rest of [sched.c]).  The functions of the C
      sources that call each other in a circle ([sched_switch], [do_exit],
      [kthread_exit], [proc_cleanup]) take the one they go back to as an argument
      and are tied together with fuel, one unit per nested [sched_switch].  With
      nothing to run, [sched_switch] waits with the level low, so that the
      interrupt arrives whatever level it was called with.
    - [KMutex]: [kmutex.c] and a step relation for the interleavings of the
      threads using one mutex; mutual exclusion by induction on the steps.
    - [ProcTable]: the well-formedness of the process table; the first process
      identifier free from [next_pid] on, creation (which is [Stuck] without
      memory, since the result of the allocator is not tested), reparenting and
      reaping.
    - [Vnode]: the state of the VFS layer for one process and one file system,
      reference counting ([vnode.c]) against the interface [FsOps] with its laws
      [FsLaws].
    - [Ramfs]: the RAM file system, an instance of [FsOps] and [FsLaws];
      [RamfsSpec]: the invariant that the link count of an inode is the number of
      its names, plus one for the root, plus one while its vnode is in memory,
      and directories as partial functions from names to inodes; [RamfsDir]: what
      create, mknod, mkdir, unlink and rmdir do to them; [RamfsDemo]: mounting, a
      checker for the invariant and concrete instances.
    - [Namev]: path resolution; [VfsSyscall]: files, [do_open] and the system
      calls; [VfsFiles]: the counts of descriptors, files and vnodes agree, and
      [do_close], [do_dup], [do_dup2], [do_lseek], [do_read] and [do_write] keep
      them so; [VfsDents]: [do_getdent] enumerates a directory; [NamevSpec]: the
      passes over a path and names in the root; [NamevPath]: paths of several
      components, and [do_mkdir] from the path to the inode; [VfsNames]:
      [do_unlink] and [do_rmdir] by path, down to the inode, its link count and the
      references to its vnode; [VfsDemo]: a process with open files on which the
      theorems are applied; [PathDemo]: deep paths, two on which the code goes
      wrong, and names removed by path.
    - [Page]: the buddy allocator of [page.c] and its free lists and bit maps;
      [PageSpec]: its invariant, allocation and release as operations on the set
      of free pages; [PageDemo]: a range of 129 pages.
    - [PageTable]: [pagetable.c] and [phys.c] on physical memory behind the
      processor's two-level walk; [PageTableSpec]: kernel memory as the kernel
      sees it; [PageTableOps]: the invariant over all page directories, address
      spaces as functions from pages to entries, [pt_map] and [pt_unmap];
      [PageTableRange]: [pt_unmap_range], with the page tables it frees; [PageTableDirs]: making, switching and
      destroying directories; [PageTableDemo]: [pt_init] from the boot loader's
      memory establishes the invariant.
    - [PFrame]: the page frames of [pframe.c] in their lists and hash table, against
      the interface [MmobjOps]; [PFrameSpec]: the invariant that ties them to the
      objects, the page allocator and the page tables, and the lookup of a resident
      page; [PFrameOps]: allocation, release, dirtying and cleaning; [PFrameMove]:
      migration; [PFrameOut]: synchronisation, the pageout daemon and shutdown, and
      that each dirty page is written once before it is freed;
      [PFrameDemo]: instances, on a disk that works and on one that does not.
    - [BlockPages]: block devices as memory objects ([blockdev.c]), over a driver behind
      the interface [BlockOps], and flushing one; [BlockDemo]: an instance.
    - [S5]: the free lists of the System V file system ([s5fs_subr.c]) on the pages of
      a block device, over a page cache behind the interface [BlockCache]; [S5Spec]:
      the laws of the cache, which may drop what is neither pinned nor marked dirty;
      [S5Lists]: the lists on the device and their invariant; [S5Ops]: freeing a
      block, and the check of the superblock; [S5Inode]: taking an inode; [S5Free]:
      returning an inode with its blocks; [S5Demo]: a cache that drops all it may.
    - [Slab]: the slab allocator of [slab.c], its structures in maps by address,
      with red zones, free flags and poisoning; [SlabSpec]: the layout of a slab,
      the invariant of all allocators over the slabs of each and the free objects
      of each slab, reclaiming; [SlabAlloc]: growth, allocation, release and the
      separation of the objects in use after any sequence of them; [Kmalloc]: [kmalloc] and [kfree];
      [SlabBoot]: [slab_init] establishes the invariant; [SlabDemo]: the state
      after [slab_init] on 128 pages.
    - [VirtTerm]: terminals and screen; [VirtTermSpec]: the circular buffer
      implements a text of rows, drawing character by character shows what a redraw
      shows; [Keyboard]: the interrupt handler and the invariant of all terminals
      over any sequence of interrupts and of writes that leave a terminal's text
      within 8000 cells; [TtyDemo]: instances, and what longer texts do.
    - [Init]: the section of initialisation records and the calls; [InitSpec]: the
      records survive the section, the calls are in order; [InitDemo]: instances.
    - [Dev]: device numbers and tables, an instance of the interface [Devs].
    - [Gdt]: segment descriptors and the task state segment of [gdt.c], and how the
      processor reads them.
    - [Math]: the division routines with their arrays of 16-bit digits;
      [MathSpec]: they divide (Knuth's Algorithm D).
    - [Printf]: formatted output and input and the character classes;
      [PrintfSpec]: output as a list of chars, numbers in a field; [PrintfRef]: a
      reference that reads formats and arguments on its own and gives the text and
      what [%n] stores; [PrintfFmt]: [vsnprintf] implements it; [PrintfScan]:
      numbers are read back; [PrintfDemo]: instances.
    - [Debug]: the debugging modes of [util/debug.c], their table and lists of their
      names; [DebugSpec]: the options of a list are applied in order, and the list
      written for a set of modes sets them again; [DebugDemo]: instances.
    - [KErrno]: the messages of [strerror].
    - [KShell]: the scanner of the kernel shell on its line buffer, redirection
      and dispatch, against the interface [SysCalls]; [KShellSpec]: a reference
      lexer and parser, which the two passes over the buffer implement;
      [KShellLine]: a line from the buffer to the command, and the streams;
      [KShellCmds]: the commands, and the VFS as an instance of [SysCalls];
      [KShellOut]: what [echo] prints on any system that keeps a log
      ([Console]); [KShellNext]: a whole round, from the prompt to the closing of
      what was redirected, on any system that counts its descriptors
      ([Descriptors]); [KShellDemo]: instances, and lines that stop the kernel.

    ** Conventions

    Pointers to kernel objects are numbers; the objects are in finite maps of the
    state ([gmap]), so that aliasing is what it is in C.  Allocation takes the
    next fresh number, and a list of booleans in the state says which coming
    allocations fail.  [int] and [size_t] are [Z], wrapped with [s32] and [u32]
    where a value can leave its range.  Debugging output has no counterpart.  The
    VFS model has one process: the descriptor table and current directory are
    those of [curproc].

    Every definition is executable; a theorem with hypotheses has a witness that
    applies it to a concrete state, evaluated by [vm_compute].  Theorems state
    total correctness: that the code returns is part of the claim.  Fuel occurs in
    [Proc] ([sched_switch], one unit per nested call), in the loop over a path in
    [Namev] (more than the length of the path), in the client of [VfsDents] (129
    calls for 128 entries), in the loops of [Page] (at most eight orders), in
    [pt_init] ([PageTable], at most 1024 page tables) and in
    the lists of [Slab] (one more than there are structures in the state; two
    rounds of growth are always enough), in the passes of [KShell] over a line
    (one more than its bytes, one more than its arguments) and in the commands of
    [KShellCmds] that read until a system call reports the end;
    a run that would need more is [Blocked] or [RBlocked], which the theorems
    exclude.  The loops of [PFrame] take their fuel as an argument: one more than
    the dirty pages, or than twice the pages, is enough.

    ** What is not modelled

    Files and directories of the System V file system, virtual memory, [fork], the
    memory devices and the tty line discipline are [NOT_YET_IMPLEMENTED] stubs in the sources; system call
    entry rests on [range_perm], which is one of them, and so is [pframe_get], the
    only caller of the allocation of page frames.  Threads that sleep on a busy page
    frame are not interleaved with the one that has it.  The translation buffer and the protection bits are not part of
    the model of paging.  Interrupt and boot code, disk
    drivers, ELF loading and user programs are left out; device lookups and the read
    and write entry points of byte devices are interfaces ([Devs], [CdevOps]), and so
    is what a caller sees when a function ends without a return statement ([Abi]).

    ** Plan

    The remaining system calls on deep paths against the directory specification;
    [pt_init] from any boot memory. *)

From Stdlib Require Import ZArith Lia.
From stdpp Require Import base list gmap.

(** ** Outcomes of kernel code

    A piece of kernel code run in a state either returns, calls [panic]
    (directly or through a failing [KASSERT]), does something the C standard
    gives no meaning to (a NULL or dangling dereference, an index outside an
    array, the use of an uninitialised variable), or waits for an event that
    never comes. *)

Inductive outcome (S A : Type) : Type :=
| Done (a : A) (s : S)
| Panic
| Stuck
| Blocked.
Arguments Done {S A} a s.
Arguments Panic {S A}.
Arguments Stuck {S A}.
Arguments Blocked {S A}.

(** The state-and-failure monad the components are written in. *)
Definition kern (S A : Type) : Type := S -> outcome S A.

Section Monad.
Context {S : Type}.

Definition ret {A} (a : A) : kern S A := fun s => Done a s.

Definition bind {A B} (m : kern S A) (f : A -> kern S B) : kern S B :=
  fun s => match m s with
           | Done a s' => f a s'
           | Panic => Panic
           | Stuck => Stuck
           | Blocked => Blocked
           end.

Definition panic {A} : kern S A := fun _ => Panic.
Definition stuck {A} : kern S A := fun _ => Stuck.
Definition blocked {A} : kern S A := fun _ => Blocked.

(** [KASSERT(b)]: debug builds panic when the condition is false. *)
Definition kassert (b : bool) : kern S unit :=
  fun s => if b then Done tt s else Panic.

Definition gets {A} (f : S -> A) : kern S A := fun s => Done (f s) s.
Definition modify (f : S -> S) : kern S unit := fun s => Done tt (f s).

(** A dereference: [None] is a NULL, dangling or out-of-range access. *)
Definition deref {A} (o : option A) : kern S A :=
  fun s => match o with Some a => Done a s | None => Stuck end.

(** Total correctness: the run returns and its result satisfies [Q]. *)
Definition runs {A} (m : kern S A) (s : S) (Q : A -> S -> Prop) : Prop :=
  match m s with Done a s' => Q a s' | _ => False end.
End Monad.

Declare Scope kern_scope.
Delimit Scope kern_scope with kern.
Notation "'let*' x ':=' m 'in' k" := (bind m (fun x => k))
  (at level 10, x binder, m at level 100, k at level 200,
   format "'[v' 'let*'  x  ':='  m  'in' '/' k ']'") : kern_scope.
Notation "m ';;' k" := (bind m (fun _ => k))
  (at level 100, k at level 200, right associativity) : kern_scope.
Open Scope kern_scope.

Create HintDb kern discriminated.

Section MonadLemmas.
Context {S : Type}.

Lemma bind_done {A B} (m : kern S A) (f : A -> kern S B) s a s' :
  m s = Done a s' -> bind m f s = f a s'.
Proof. unfold bind. by intros ->. Qed.

Lemma bind_inv {A B} (m : kern S A) (f : A -> kern S B) s b s' :
  bind m f s = Done b s' -> exists a s1, m s = Done a s1 /\ f a s1 = Done b s'.
Proof. unfold bind. destruct (m s); try done. eauto. Qed.

Lemma bind_assoc {A B C} (m : kern S A) (f : A -> kern S B) (g : B -> kern S C) s :
  bind (bind m f) g s = bind m (fun a => bind (f a) g) s.
Proof. unfold bind. by destruct (m s). Qed.

Lemma runs_ret {A} (a : A) s (Q : A -> S -> Prop) : Q a s -> runs (ret a) s Q.
Proof. done. Qed.

Lemma runs_bind {A B} (m : kern S A) (f : A -> kern S B) s (Q : B -> S -> Prop) :
  runs m s (fun a s' => runs (f a) s' Q) -> runs (bind m f) s Q.
Proof. unfold runs, bind. by destruct (m s). Qed.

Lemma runs_mono {A} (m : kern S A) s (P Q : A -> S -> Prop) :
  runs m s P -> (forall a s', P a s' -> Q a s') -> runs m s Q.
Proof. unfold runs. destruct (m s); naive_solver. Qed.

Lemma runs_done {A} (m : kern S A) s (Q : A -> S -> Prop) :
  runs m s Q -> exists a s', m s = Done a s' /\ Q a s'.
Proof. unfold runs. destruct (m s); try done. eauto. Qed.

Lemma runs_intro {A} (m : kern S A) s a s' (Q : A -> S -> Prop) :
  m s = Done a s' -> Q a s' -> runs m s Q.
Proof. unfold runs. by intros ->. Qed.

Lemma runs_gets {A} (f : S -> A) s (Q : A -> S -> Prop) :
  Q (f s) s -> runs (gets f) s Q.
Proof. done. Qed.

Lemma runs_modify (f : S -> S) s (Q : unit -> S -> Prop) :
  Q tt (f s) -> runs (modify f) s Q.
Proof. done. Qed.

Lemma runs_kassert (b : bool) s (Q : unit -> S -> Prop) :
  b = true -> Q tt s -> runs (kassert b) s Q.
Proof. intros -> HQ. done. Qed.

Lemma kassert_true (b : bool) (s : S) : b = true -> kassert b s = Done tt s.
Proof. by intros ->. Qed.

Lemma seq_done {A} (m1 m2 m3 m4 : kern S unit) (m : kern S A) s a s' :
  bind m1 (fun _ => bind m2 (fun _ => bind m3 (fun _ => m4))) s = Done a s' ->
  bind m1 (fun _ => bind m2 (fun _ => bind m3 (fun _ => bind m4 (fun _ => m)))) s = m s'.
Proof.
  unfold bind. destruct (m1 s) as [? s1| | |]; try done. destruct (m2 s1) as [? s2| | |]; try done.
  destruct (m3 s2) as [? s3| | |]; try done. by intros ->.
Qed.

Lemma runs_deref {A} (o : option A) a s (Q : A -> S -> Prop) :
  o = Some a -> Q a s -> runs (deref o) s Q.
Proof. intros -> HQ. done. Qed.
End MonadLemmas.

(** [krun H] advances the leading bind of the goal with the equation [H]. *)
Ltac krun H := erewrite (bind_done _ _ _ _ _ H); cbn beta iota.

(** [kinv H] splits a successful run of a bind into its two halves. *)
Ltac kinv H :=
  let a := fresh "r" in let s1 := fresh "st" in
  let H1 := fresh "Hrun" in let H2 := fresh "Hrest" in
  apply bind_inv in H as (a & s1 & H1 & H2).

(** ** Machine integers *)
Definition u32 (z : Z) : Z := z mod 2 ^ 32.
Definition s32 (z : Z) : Z := (z + 2 ^ 31) mod 2 ^ 32 - 2 ^ 31.

Lemma u32_small z : (0 <= z < 2 ^ 32)%Z -> u32 z = z.
Proof. intros. by apply Z.mod_small. Qed.

Lemma s32_small z : (- 2 ^ 31 <= z < 2 ^ 31)%Z -> s32 z = z.
Proof. intros. unfold s32. rewrite Z.mod_small; lia. Qed.

Lemma s32_range z : (- 2 ^ 31 <= s32 z < 2 ^ 31)%Z.
Proof. unfold s32. pose proof (Z.mod_pos_bound (z + 2 ^ 31) (2 ^ 32)). lia. Qed.

Lemma u32_range z : (0 <= u32 z < 2 ^ 32)%Z.
Proof. unfold u32. apply Z.mod_pos_bound. lia. Qed.

(** Clearing the low [k] bits of a 32-bit word. *)
Lemma land_high x k : (0 <= x < 2 ^ 32 -> 0 <= k <= 32 -> Z.land x (2 ^ 32 - 2 ^ k) = x - x mod 2 ^ k)%Z.
Proof.
  intros Hx Hk. replace (2 ^ 32 - 2 ^ k)%Z with (Z.shiftl (Z.ones (32 - k)) k).
  2:{ rewrite Z.shiftl_mul_pow2, Z.ones_equiv by lia. rewrite Z.mul_pred_l, <- Z.pow_add_r by lia. f_equal. f_equal. lia. }
  assert (0 < 2 ^ k)%Z by (apply Z.pow_pos_nonneg; lia).
  replace (x - x mod 2 ^ k)%Z with (Z.shiftl (Z.shiftr x k) k).
  2:{ rewrite Z.shiftl_mul_pow2, Z.shiftr_div_pow2 by lia. rewrite (Z.div_mod x (2 ^ k)) at 2 by lia. lia. }
  apply Z.bits_inj'. intros n Hn. rewrite Z.land_spec. destruct (decide (n < k)%Z).
  { rewrite !(Z.shiftl_spec_low _ k n) by lia. apply andb_false_r. }
  rewrite !Z.shiftl_spec, Z.shiftr_spec by lia. replace (n - k + k)%Z with n by lia. destruct (decide (n < 32)%Z).
  { rewrite Z.ones_spec_low by lia. apply andb_true_r. }
  rewrite Z.ones_spec_high by lia. rewrite andb_false_r. symmetry. destruct (decide (x = 0)%Z) as [->|]; [apply Z.bits_0|].
  apply Z.bits_above_log2; [lia|]. apply Z.log2_lt_pow2; [lia|]. apply Z.lt_le_trans with (2 ^ 32)%Z; [lia|].
  apply Z.pow_le_mono_r; lia.
Qed.

(** [lia] with quotients and remainders by constants. *)
Ltac dlia := Z.to_euclidean_division_equations; lia.

(** ** Lists *)
Lemma not_elem_of_drop {A} (x : A) n l : x ∉ l -> x ∉ drop n l.
Proof. intros H Hd. apply H. rewrite <- (take_drop n l). apply elem_of_app. by right. Qed.

Lemma not_elem_of_take {A} (x : A) n l : x ∉ l -> x ∉ take n l.
Proof. intros H Hd. apply H. rewrite <- (take_drop n l). apply elem_of_app. by left. Qed.
#[export] Hint Resolve not_elem_of_drop not_elem_of_take : kern.

Lemma filter_ne_id (t : Z) (l : list Z) : t ∉ l -> filter (fun x => x <> t) l = l.
Proof.
  induction l as [|a l IH]; [done|]. intros [? ?]%not_elem_of_cons.
  rewrite filter_cons_True by done. by rewrite IH.
Qed.

Lemma filter_ne_length (t : Z) (l : list Z) :
  NoDup l -> t ∈ l -> length l = S (length (filter (fun x => x <> t) l)).
Proof.
  intros Hnd (l' & HP)%elem_of_Permutation. rewrite HP in Hnd. apply NoDup_cons in Hnd as [Hni _].
  rewrite (filter_Permutation (fun x => x <> t) _ _ HP), HP.
  rewrite filter_cons_False by naive_solver. by rewrite filter_ne_id.
Qed.

Lemma filter_ne_perm (a : Z) (l : list Z) : NoDup l -> a ∈ l -> l ≡ₚ a :: filter (fun b => b <> a) l.
Proof.
  intros Hnd Ha. apply NoDup_Permutation; [done| |].
  - apply NoDup_cons. split; [rewrite list_elem_of_filter; naive_solver|by apply NoDup_filter].
  - intros x. rewrite elem_of_cons, list_elem_of_filter. destruct (decide (x = a)) as [->|]; naive_solver.
Qed.

(** The first number of a range that passes a test. *)
Lemma find_seq (f : nat -> bool) a n :
  match List.find f (seq a n) with
  | Some k => (a <= k < a + n)%nat /\ f k = true /\ forall j, (a <= j < k)%nat -> f j = false
  | None => forall j, (a <= j < a + n)%nat -> f j = false
  end.
Proof.
  revert a. induction n as [|n IH]; intros a; cbn [seq List.find]; [intros; lia|].
  destruct (f a) eqn:Ha; [split_and!; [lia|lia|done|intros; lia]|].
  specialize (IH (S a)). destruct (List.find f (seq (S a) n)) as [k|].
  - destruct IH as (? & ? & Hlt). split_and!; [lia|lia|done|]. intros j Hj. destruct (decide (j = a)) as [->|]; [done|]. apply Hlt. lia.
  - intros j Hj. destruct (decide (j = a)) as [->|]; [done|]. apply IH. lia.
Qed.
