(* ===== verification/KList.v ===== *)
(** * The kernel's intrusive doubly linked lists ([include/util/list.h])

    The macros of list.h are translated to operations on a memory of links,
    and proved to implement the operations of finite sequences: [is_list h l xs]
    says that the circular list headed at [l] links the addresses [xs] in
    order.  The other components use [list] for a [list_t]; this file is what
    entitles them to. *)

From Stdlib Require Import ZArith Lia.
From stdpp Require Import base list gmap.
From S2P Require Import Prelude.

Module KList.

(** [struct list]: a link, or the head of a list. *)
Record link := Link { l_next : Z; l_prev : Z }.

(** The memory that holds the links, by address; [NULL] is 0. *)
Abbreviation heap := (gmap Z link).
Definition NULL : Z := 0.

Definition load (p : Z) : kern heap link := fun h => deref (h !! p) h.
Definition set_next (p n : Z) : kern heap unit :=
  let* k := load p in modify (fun h => <[p := Link n (l_prev k)]> h).
Definition set_prev (p q : Z) : kern heap unit :=
  let* k := load p in modify (fun h => <[p := Link (l_next k) q]> h).

Definition list_link_init (p : Z) : kern heap unit :=
  set_prev p NULL ;; set_next p NULL.

Definition list_link_is_linked (p : Z) : kern heap bool :=
  let* k := load p in
  ret (negb (l_next k =? NULL)%Z && negb (l_prev k =? NULL)%Z).

Definition list_init (l : Z) : kern heap unit :=
  set_prev l l ;; set_next l l.

Definition list_empty (l : Z) : kern heap bool :=
  let* k := load l in ret (l_next k =? l)%Z.

Definition list_insert_before (old new : Z) : kern heap unit :=
  let prev := new in
  let next := old in
  set_next prev next ;;
  let* kn := load next in
  set_prev prev (l_prev kn) ;;
  let* kn := load next in
  set_next (l_prev kn) prev ;;
  set_prev next prev.

Definition list_insert_head (l p : Z) : kern heap unit :=
  let* k := load l in list_insert_before (l_next k) p.

Definition list_insert_tail (l p : Z) : kern heap unit :=
  list_insert_before l p.

Definition list_remove (p : Z) : kern heap unit :=
  let* kp := load p in
  let prev := l_prev kp in
  let next := l_next kp in
  set_next prev next ;;
  set_prev next prev ;;
  set_prev p NULL ;;
  set_next p NULL.

Definition list_remove_head (l : Z) : kern heap unit :=
  let* k := load l in list_remove (l_next k).

Definition list_remove_tail (l : Z) : kern heap unit :=
  let* k := load l in list_remove (l_prev k).

(** [list_head]/[list_tail]: the link at either end (the [list_item] pointer
    adjustment does not change which element it is). *)
Definition list_head (l : Z) : kern heap Z := let* k := load l in ret (l_next k).
Definition list_tail (l : Z) : kern heap Z := let* k := load l in ret (l_prev k).

(** [list_iterate_begin(list, var, ...) body list_iterate_end()]: the next link
    is read before the body runs.  [fuel] bounds the number of links walked. *)
Fixpoint list_iterate_from (fuel : nat) (lnk l : Z) (body : Z -> kern heap unit)
  : kern heap unit :=
  if (lnk =? l)%Z then ret tt
  else match fuel with
       | O => blocked
       | S fuel => let* k := load lnk in
                   body lnk ;; list_iterate_from fuel (l_next k) l body
       end.

Definition list_iterate (fuel : nat) (l : Z) (body : Z -> kern heap unit) : kern heap unit :=
  let* k := load l in list_iterate_from fuel (l_next k) l body.

(** [list_iterate_reverse]: the same from the other end. *)
Fixpoint list_iterate_reverse_from (fuel : nat) (lnk l : Z) (body : Z -> kern heap unit)
  : kern heap unit :=
  if (lnk =? l)%Z then ret tt
  else match fuel with
       | O => blocked
       | S fuel => let* k := load lnk in
                   body lnk ;; list_iterate_reverse_from fuel (l_prev k) l body
       end.

Definition list_iterate_reverse (fuel : nat) (l : Z) (body : Z -> kern heap unit)
  : kern heap unit :=
  let* k := load l in list_iterate_reverse_from fuel (l_prev k) l body.

(** ** Representation *)

(** What a link's two fields hold ([None]: no such link). *)
Definition nx (h : heap) (p : Z) : option Z := l_next <$> (h !! p).
Definition pv (h : heap) (p : Z) : option Z := l_prev <$> (h !! p).

(** [seg h p xs q]: starting from [p], the next pointers lead through [xs] to
    [q], and every prev pointer undoes the next pointer before it. *)
Fixpoint seg (h : heap) (p : Z) (xs : list Z) (q : Z) : Prop :=
  match xs with
  | [] => nx h p = Some q /\ pv h q = Some p
  | x :: xs => nx h p = Some x /\ pv h x = Some p /\ seg h x xs q
  end.

Definition is_list (h : heap) (l : Z) (xs : list Z) : Prop :=
  NoDup (l :: xs) /\ NULL ∉ l :: xs /\ seg h l xs l.

(** The last link of the segment that starts at [p] with interior [xs]. *)
Definition lastp (p : Z) (xs : list Z) : Z := default p (last xs).

Lemma lastp_cons p x xs : lastp p (x :: xs) = lastp x xs.
Proof. unfold lastp. rewrite last_cons. by destruct (last xs). Qed.

Lemma lastp_snoc p xs x : lastp p (xs ++ [x]) = x.
Proof. unfold lastp. by rewrite last_snoc. Qed.

Lemma lastp_elem p xs : lastp p xs ∈ p :: xs.
Proof.
  revert p. induction xs as [|x xs IH]; intros p; [left|].
  rewrite lastp_cons. right. apply IH.
Qed.

(** A segment only depends on the next field of its links but the end, and on
    the prev field of its links but the start. *)
Lemma seg_frame h h' p xs q :
  (forall a, a ∈ p :: xs -> nx h' a = nx h a) ->
  (forall b, b ∈ xs ++ [q] -> pv h' b = pv h b) -> seg h p xs q -> seg h' p xs q.
Proof.
  revert p. induction xs as [|x xs IH]; intros p Hn Hp; simpl.
  - rewrite Hn, Hp by set_solver. done.
  - rewrite (Hn p), (Hp x) by set_solver. intros (?&?&?).
    repeat split; try done. apply IH; [set_solver..|done].
Qed.

Lemma seg_app h p xs q ys r :
  seg h p (xs ++ q :: ys) r <-> seg h p xs q /\ seg h q ys r.
Proof.
  revert p. induction xs as [|x xs IH]; intros p; simpl; [tauto|].
  rewrite IH. tauto.
Qed.

Lemma seg_ends h p xs q :
  seg h p xs q ->
  nx h p = Some (default q (head xs)) /\ nx h (lastp p xs) = Some q /\
  pv h q = Some (lastp p xs).
Proof.
  revert p. induction xs as [|x xs IH]; intros p; [simpl; tauto|].
  simpl seg. rewrite lastp_cons. intros (?&?&Hs%IH). simpl. tauto.
Qed.

(** Redirecting the end of a segment to another link. *)
Lemma seg_retarget h h' p xs q q' :
  NoDup (p :: xs) -> seg h p xs q ->
  (forall a, a ∈ p :: xs -> a <> lastp p xs -> nx h' a = nx h a) ->
  nx h' (lastp p xs) = Some q' ->
  (forall b, b ∈ xs -> pv h' b = pv h b) ->
  pv h' q' = Some (lastp p xs) -> seg h' p xs q'.
Proof.
  revert p. induction xs as [|x xs IH]; intros p Hnd; [done|].
  simpl seg. rewrite lastp_cons. intros (?&?&Hs) Hn Hl Hp Hq.
  inversion Hnd as [|?? Hni Hnd']; subst.
  assert (p <> lastp x xs) by (pose proof (lastp_elem x xs); set_solver).
  rewrite Hn, Hp by set_solver. repeat split; try done.
  apply IH; try done; set_solver.
Qed.

(** ** The effect of the pointer updates, field by field *)

Lemma set_next_run (h : heap) p n :
  is_Some (h !! p) ->
  exists h', set_next p n h = Done tt h' /\
    (forall a, nx h' a = if decide (a = p) then Some n else nx h a) /\
    (forall a, pv h' a = pv h a).
Proof.
  intros [k Hk]. unfold set_next, load, bind, deref, modify. rewrite Hk.
  eexists. split; [done|]. unfold nx, pv.
  split; intros a; rewrite lookup_insert; case_decide; subst; rewrite ?decide_True by done;
    try rewrite decide_False by done; simplify_option_eq; try done.
Qed.

Lemma set_prev_run (h : heap) p q :
  is_Some (h !! p) ->
  exists h', set_prev p q h = Done tt h' /\
    (forall a, pv h' a = if decide (a = p) then Some q else pv h a) /\
    (forall a, nx h' a = nx h a).
Proof.
  intros [k Hk]. unfold set_prev, load, bind, deref, modify. rewrite Hk.
  eexists. split; [done|]. unfold nx, pv.
  split; intros a; rewrite lookup_insert; case_decide; subst; rewrite ?decide_True by done;
    try rewrite decide_False by done; simplify_option_eq; try done.
Qed.

Lemma nx_is_Some h p n : nx h p = Some n -> is_Some (h !! p).
Proof. unfold nx. destruct (h !! p); naive_solver. Qed.

Lemma pv_is_Some h p n : pv h p = Some n -> is_Some (h !! p).
Proof. unfold pv. destruct (h !! p); naive_solver. Qed.

Lemma nx_Some_iff h p : is_Some (h !! p) <-> is_Some (nx h p).
Proof. unfold nx. by rewrite fmap_is_Some. Qed.

Lemma load_run h p n q : nx h p = Some n -> pv h p = Some q -> load p h = Done (Link n q) h.
Proof.
  unfold load, nx, pv, deref. destruct (h !! p) as [[]|]; simpl; naive_solver.
Qed.

Lemma load_run_ex h p : is_Some (h !! p) ->
  exists k, load p h = Done k h /\ nx h p = Some (l_next k) /\ pv h p = Some (l_prev k).
Proof. intros [k Hk]. exists k. unfold load, nx, pv, deref. by rewrite Hk. Qed.

#[local] Ltac fields :=
  repeat match goal with
  | H : forall a, nx ?h a = _ |- context [nx ?h _] => rewrite H
  | H : forall a, pv ?h a = _ |- context [pv ?h _] => rewrite H
  end.

(** The net effect of [list_insert_before(old, new)]. *)
Lemma insert_before_run h old new pred :
  pv h old = Some pred -> is_Some (h !! new) -> is_Some (h !! pred) ->
  new <> old -> new <> pred ->
  exists h', list_insert_before old new h = Done tt h' /\
    (forall a, nx h' a = if decide (a = pred) then Some new
                         else if decide (a = new) then Some old else nx h a) /\
    (forall a, pv h' a = if decide (a = old) then Some new
                         else if decide (a = new) then Some pred else pv h a).
Proof.
  intros Hold Hnew Hpred Hno Hnp. unfold list_insert_before.
  destruct (set_next_run h new old Hnew) as (h1 & E1 & N1 & P1). krun E1.
  assert (pv h1 old = Some pred) as Hold1 by by rewrite P1.
  destruct (load_run_ex h1 old) as (k1 & L1 & _ & Pk1); [by eapply pv_is_Some|]. krun L1.
  assert (l_prev k1 = pred) as -> by congruence.
  destruct (set_prev_run h1 new pred) as (h2 & E2 & P2 & N2).
  { eapply nx_is_Some. by rewrite N1, decide_True. }
  krun E2.
  assert (pv h2 old = Some pred) as Hold2 by by rewrite P2, decide_False.
  destruct (load_run_ex h2 old) as (k2 & L2 & _ & Pk2); [by eapply pv_is_Some|]. krun L2.
  assert (l_prev k2 = pred) as -> by congruence.
  destruct (set_next_run h2 pred new) as (h3 & E3 & N3 & P3).
  { apply nx_Some_iff. rewrite N2, N1, decide_False by done. by apply nx_Some_iff. }
  krun E3.
  destruct (set_prev_run h3 old new) as (h4 & E4 & P4 & N4).
  { eapply pv_is_Some. by rewrite P3. }
  exists h4. split; [done|]. split; intros a; fields; repeat case_decide; congruence.
Qed.

(** The net effect of [list_remove(p)]. *)
Lemma cell_remove_run h p prev next :
  nx h p = Some next -> pv h p = Some prev ->
  is_Some (h !! prev) -> is_Some (h !! next) -> p <> prev -> p <> next ->
  exists h', list_remove p h = Done tt h' /\
    (forall a, nx h' a = if decide (a = p) then Some NULL
                         else if decide (a = prev) then Some next else nx h a) /\
    (forall a, pv h' a = if decide (a = p) then Some NULL
                         else if decide (a = next) then Some prev else pv h a).
Proof.
  intros Hn Hp Hpd Hnd Hpp Hpn. unfold list_remove.
  krun (load_run _ _ _ _ Hn Hp).
  destruct (set_next_run h prev next Hpd) as (h1 & E1 & N1 & P1). krun E1.
  destruct (set_prev_run h1 next prev) as (h2 & E2 & P2 & N2).
  { apply nx_Some_iff. rewrite N1. case_decide; [done|by apply nx_Some_iff]. }
  krun E2.
  destruct (set_prev_run h2 p NULL) as (h3 & E3 & P3 & N3).
  { eapply nx_is_Some. by rewrite N2, N1, decide_False. }
  krun E3.
  destruct (set_next_run h3 p NULL) as (h4 & E4 & N4 & P4).
  { eapply nx_is_Some. by rewrite N3, N2, N1, decide_False. }
  exists h4. split; [done|]. split; intros a; fields; repeat case_decide; congruence.
Qed.

(** ** Refinement of finite sequences *)

Lemma is_list_dom h l xs a : is_list h l xs -> a ∈ l :: xs -> is_Some (h !! a).
Proof.
  intros (_&_&Hs). revert Hs. generalize l at 1 3. intros p Hs Ha.
  revert p Hs Ha. induction xs as [|x xs IH]; intros p Hs Ha.
  - simpl in Hs. apply list_elem_of_singleton in Ha as ->. destruct Hs. by eapply nx_is_Some.
  - simpl in Hs. destruct Hs as (?&?&?). apply elem_of_cons in Ha as [->|Ha].
    + by eapply nx_is_Some.
    + eauto.
Qed.

(** Another list, disjoint from the links that were written, is untouched. *)
Lemma is_list_frame h h' l xs :
  (forall a, a ∈ l :: xs -> nx h' a = nx h a /\ pv h' a = pv h a) ->
  is_list h l xs -> is_list h' l xs.
Proof.
  intros Hf (?&?&Hs). repeat split; try done.
  eapply seg_frame; [..|done]; intros a Ha; apply Hf; set_solver.
Qed.

Definition others_kept (h h' : heap) (touched : list Z) : Prop :=
  forall l xs, is_list h l xs -> (forall a, a ∈ l :: xs -> a ∉ touched) -> is_list h' l xs.


(** What the absence of duplicates gives around a cut of the list. *)
Lemma cut_facts l ys zs :
  NoDup (l :: ys ++ zs) ->
  NoDup (l :: ys) /\ NoDup (l :: zs) /\
  (forall a b, a ∈ ys -> b ∈ l :: zs -> a <> b) /\
  (forall a, a ∈ zs -> a <> lastp l ys) /\
  (forall b, b ∈ tail zs ++ [l] -> zs <> [] -> b <> default l (head zs)).
Proof.
  rewrite NoDup_cons, NoDup_app. intros (Hl & Hy & Hd & Hz).
  rewrite not_elem_of_app in Hl. destruct Hl as [Hl1 Hl2].
  repeat split; try (by apply NoDup_cons).
  - intros a b Ha Hb ->. apply elem_of_cons in Hb as [->|Hb]; [done|]. by eapply Hd.
  - intros a Ha ->. pose proof (lastp_elem l ys) as [E|E]%elem_of_cons.
    + rewrite E in Ha. done.
    + by eapply Hd.
  - intros b Hb Hne ->. destruct zs as [|z zs]; [done|]. simpl in *.
    apply elem_of_app in Hb as [Hb|Hb%list_elem_of_singleton].
    + by apply NoDup_cons in Hz as [].
    + subst. set_solver.
Qed.

Lemma cut_seg h l ys zs :
  is_list h l (ys ++ zs) ->
  seg h l ys (default l (head zs)) /\
  (zs <> [] -> seg h (default l (head zs)) (tail zs) l) /\
  lastp l ys ∈ l :: ys ++ zs /\ default l (head zs) ∈ l :: ys ++ zs.
Proof.
  intros (_ & _ & Hs). split; [|split; [|split]].
  - destruct zs as [|z zs]; simpl in *; [by rewrite app_nil_r in Hs|by apply seg_app in Hs as [??]].
  - intros Hne. destruct zs as [|z zs]; [done|]. by apply seg_app in Hs as [??].
  - pose proof (lastp_elem l ys) as H. rewrite elem_of_cons in H.
    rewrite elem_of_cons, elem_of_app. tauto.
  - destruct zs; simpl; [by left|]. right. apply elem_of_app. right. by left.
Qed.

(** Inserting [new] before the link [old] (the head of the list stands for its
    end) puts it between the links before and after, changes no other list. *)
Lemma list_insert_before_refines h l ys zs new :
  is_list h l (ys ++ zs) -> is_Some (h !! new) -> new <> NULL -> new ∉ l :: ys ++ zs ->
  runs (list_insert_before (default l (head zs)) new) h (fun _ h' =>
    is_list h' l (ys ++ new :: zs) /\ others_kept h h' (new :: l :: ys ++ zs)).
Proof.
  intros HL Hnew Hnn Hni. pose proof HL as (Hnd & Hnull & _).
  destruct (cut_facts _ _ _ Hnd) as (Hndl & Hndz & Hdis & Hpz & Hoz).
  destruct (cut_seg _ _ _ _ HL) as (Hs1 & Hs2 & Hpm & Hom).
  set (old := default l (head zs)) in *. set (pred := lastp l ys) in *.
  destruct (seg_ends _ _ _ _ Hs1) as (_ & _ & Hpo).
  assert (new <> old) by congruence. assert (new <> pred) by congruence.
  destruct (insert_before_run h old new pred) as (h' & E & N & P); try done.
  { by eapply is_list_dom. }
  eapply runs_intro; [exact E|].
  assert (forall a, a ∈ ys ++ zs -> a <> new) as Hnew' by (intros a Ha ->; by apply Hni; right).
  assert (l <> new) as Hln by (intros ->; apply Hni; by left).
  split; [split; [|split]|].
  - assert (l :: ys ++ new :: zs ≡ₚ new :: l :: ys ++ zs) as -> by solve_Permutation.
    by apply NoDup_cons.
  - clear -Hnull Hnn. set_solver.
  - apply seg_app. split.
    + eapply seg_retarget; [done|exact Hs1|..].
      * intros a Ha Hp. rewrite N, !decide_False; [done| |done].
        apply elem_of_cons in Ha as [->|Ha]; [done|]. apply Hnew', elem_of_app. by left.
      * by rewrite N, decide_True.
      * intros b Hb. rewrite P, !decide_False; [done| |].
        -- apply Hnew', elem_of_app. by left.
        -- apply Hdis; [done|]. subst old. destruct zs; simpl; clear; set_solver.
      * rewrite P, decide_False, decide_True; done.
    + assert (nx h' new = Some old) by (rewrite N, decide_False, decide_True; done).
      assert (pv h' old = Some new) by (rewrite P, decide_True; done).
      destruct zs as [|z zs]; [done|]. simpl. split; [done|split; [done|]].
      eapply seg_frame; [..|by apply Hs2].
      * intros a Ha. rewrite N, !decide_False; [done| |by apply Hpz].
        apply Hnew', elem_of_app. by right.
      * intros b Hb. rewrite P, !decide_False; [done| |by apply Hoz].
        intros ->. clear -Hni Hb. set_solver.
  - intros l2 xs2 HL2 Hd. eapply is_list_frame; [|done]. intros a Ha%Hd.
    rewrite N, P, !decide_False; [done|..]; intros ->; apply Ha; [by left|by right|by left|by right].
Qed.

(** Removing a link takes exactly it out of its list and leaves it unlinked. *)
Lemma list_remove_refines h l ys x zs :
  is_list h l (ys ++ x :: zs) ->
  runs (list_remove x) h (fun _ h' =>
    is_list h' l (ys ++ zs) /\ list_link_is_linked x h' = Done false h' /\
    others_kept h h' (l :: ys ++ x :: zs)).
Proof.
  intros HL. pose proof HL as (Hnd & Hnull & Hs).
  assert (l :: ys ++ x :: zs ≡ₚ x :: l :: ys ++ zs) as Hperm by solve_Permutation.
  rewrite Hperm in Hnd. apply NoDup_cons in Hnd as [Hx Hnd].
  destruct (cut_facts _ _ _ Hnd) as (Hndl & Hndz & Hdis & Hpz & Hoz).
  apply seg_app in Hs as [Hs1 Hs2].
  destruct (seg_ends _ _ _ _ Hs1) as (_ & Hpn & Hpx).
  destruct (seg_ends _ _ _ _ Hs2) as (Hxn & _ & Hlp).
  set (pred := lastp l ys) in *. set (next := default l (head zs)) in *.
  assert (pred ∈ l :: ys ++ zs) as Hpm.
  { pose proof (lastp_elem l ys) as H. rewrite elem_of_cons in H.
    rewrite elem_of_cons, elem_of_app. tauto. }
  assert (next ∈ l :: ys ++ zs) as Hnm.
  { destruct zs; simpl; [by left|]. right. apply elem_of_app. right. by left. }
  assert (forall a, a ∈ l :: ys ++ zs -> a <> x) as Hx' by (by intros a Ha ->).
  destruct (cell_remove_run h x pred next) as (h' & E & N & P); try done.
  { eapply is_list_dom; [done|]. rewrite Hperm. by right. }
  { eapply is_list_dom; [done|]. rewrite Hperm. by right. }
  { symmetry. by apply Hx'. } { symmetry. by apply Hx'. }
  eapply runs_intro; [exact E|]. split; [split; [done|split]|split].
  - rewrite Hperm in Hnull. clear -Hnull. set_solver.
  - assert (seg h' l ys next) as G1.
    { eapply seg_retarget; [done|exact Hs1|..].
      - intros a Ha Hp. rewrite N, !decide_False; [done..|]. apply Hx'. clear -Ha. set_solver.
      - rewrite N, decide_False, decide_True; [done..|]. by apply Hx'.
      - intros b Hb. rewrite P, !decide_False; [done| |].
        + apply Hdis; [done|]. subst next. destruct zs; simpl; clear; set_solver.
        + apply Hx'. clear -Hb. set_solver.
      - rewrite P, decide_False, decide_True; [done..|]. by apply Hx'. }
    destruct zs as [|z zs]; [by rewrite app_nil_r|]. apply seg_app. split; [exact G1|].
    simpl in Hs2. destruct Hs2 as (_&_&Hs2). eapply seg_frame; [..|exact Hs2].
    + intros a Ha. rewrite N, !decide_False; [done|by apply Hpz|].
      apply Hx'. clear -Ha. set_solver.
    + intros b Hb. rewrite P, !decide_False; [done|by apply Hoz|].
      apply Hx'. clear -Hb. set_solver.
  - assert (nx h' x = Some NULL) by (rewrite N, decide_True; done).
    assert (pv h' x = Some NULL) by (rewrite P, decide_True; done).
    unfold list_link_is_linked. erewrite bind_done by (by apply load_run). done.
  - intros l2 xs2 HL2 Hd. eapply is_list_frame; [|done]. intros a Ha%Hd. rewrite Hperm in Ha.
    rewrite N, P, !decide_False; [done|..]; intros ->; apply Ha; (by left) || (by right).
Qed.

Definition remove_if (rm : Z -> bool) (x : Z) : kern heap unit :=
  if rm x then list_remove x else ret tt.

Lemma list_iterate_from_removing h l (rm : Z -> bool) ys zs fuel :
  is_list h l (ys ++ zs) -> length zs <= fuel ->
  runs (list_iterate_from fuel (default l (head zs)) l (remove_if rm)) h
       (fun _ h' => is_list h' l (ys ++ filter (fun x => rm x = false) zs)).
Proof.
  revert h ys fuel. induction zs as [|z zs IH]; intros h ys fuel HL Hf.
  - destruct fuel; simpl; rewrite Z.eqb_refl; by apply runs_ret.
  - destruct fuel as [|fuel]; [simpl in Hf; lia|]. simpl list_iterate_from.
    pose proof HL as (Hnd & _ & Hs).
    assert (l <> z) as Hlz. { intros ->. apply NoDup_cons in Hnd as [Hn _]. set_solver. }
    destruct (Z.eqb_spec z l); [congruence|].
    apply seg_app in Hs as [_ Hs]. destruct (seg_ends _ _ _ _ Hs) as (Hn & _ & _).
    destruct (load_run_ex h z) as (k & L & Nk & _); [by eapply nx_is_Some|].
    apply runs_bind. eapply runs_intro; [exact L|]. cbn beta.
    assert (l_next k = default l (head zs)) as -> by congruence.
    apply runs_bind. unfold remove_if at 1. rewrite filter_cons.
    destruct (rm z) eqn:Erm.
    + eapply runs_mono; [by apply list_remove_refines|]. intros [] h1 (HL1 & _ & _).
      rewrite decide_False by done. apply IH; [done|simpl in Hf; lia].
    + apply runs_ret. rewrite decide_True by done.
      assert (ys ++ z :: zs = (ys ++ [z]) ++ zs) as E by by rewrite <- app_assoc.
      rewrite E in HL. eapply runs_mono; [apply IH; [exact HL|simpl in Hf; lia]|].
      intros [] h1. by rewrite <- app_assoc.
Qed.

(** Iterating while removing the current link visits every link of the list
    once, in order, and ends with the links that were kept. *)
Theorem list_iterate_removing h l (rm : Z -> bool) xs fuel :
  is_list h l xs -> length xs <= fuel ->
  runs (list_iterate fuel l (remove_if rm)) h
       (fun _ h' => is_list h' l (filter (fun x => rm x = false) xs)).
Proof.
  intros HL Hf. pose proof HL as (_ & _ & Hs). destruct (seg_ends _ _ _ _ Hs) as (Hn & _ & _).
  destruct (load_run_ex h l) as (k & L & Nk & _); [by eapply nx_is_Some|].
  apply runs_bind. eapply runs_intro; [exact L|]. cbn beta.
  assert (l_next k = default l (head xs)) as -> by congruence.
  by apply (list_iterate_from_removing h l rm [] xs).
Qed.

Lemma list_init_refines h l :
  is_Some (h !! l) -> l <> NULL -> runs (list_init l) h (fun _ h' => is_list h' l []).
Proof.
  intros Hl Hn. unfold list_init.
  destruct (set_prev_run h l l Hl) as (h1 & E1 & P1 & N1).
  apply runs_bind. eapply runs_intro; [exact E1|].
  destruct (set_next_run h1 l l) as (h2 & E2 & N2 & P2).
  { apply nx_Some_iff. rewrite N1. by apply nx_Some_iff. }
  eapply runs_intro; [exact E2|]. split; [apply NoDup_singleton|split].
  - by rewrite list_elem_of_singleton.
  - simpl. rewrite N2, P2, P1, !decide_True by done. done.
Qed.

Lemma is_list_ends h l xs :
  is_list h l xs ->
  exists k, load l h = Done k h /\ l_next k = default l (head xs) /\ l_prev k = lastp l xs.
Proof.
  intros HL. pose proof HL as (_ & _ & Hs). destruct (seg_ends _ _ _ _ Hs) as (Hn & _ & Hp).
  destruct (load_run_ex h l) as (k & L & Nk & Pk); [by eapply nx_is_Some|].
  exists k. split; [done|]. split; congruence.
Qed.

Lemma list_empty_refines h l xs :
  is_list h l xs -> list_empty l h = Done (bool_decide (xs = [])) h.
Proof.
  intros HL. destruct (is_list_ends _ _ _ HL) as (k & L & Nk & _). unfold list_empty. krun L.
  rewrite Nk. destruct xs as [|x xs]; simpl; [by rewrite Z.eqb_refl|].
  destruct HL as (Hnd & _). apply NoDup_cons in Hnd as [Hl _].
  destruct (Z.eqb_spec x l) as [->|]; [exfalso; apply Hl; by left|done].
Qed.

(** C36: list.h implements finite sequences: [list_init] makes the empty one,
    [list_empty] tells whether it is empty, [list_insert_head] and
    [list_insert_tail] add a link at either end, [list_remove] takes out a
    link from anywhere and leaves it unlinked, [list_head]/[list_tail] give
    the two ends; and none of them changes another list of the heap. *)
Theorem klist_refines_seq h l xs :
  is_list h l xs ->
  runs (list_init l) h (fun _ h' => is_list h' l []) /\
  list_empty l h = Done (bool_decide (xs = [])) h /\
  (forall new, is_Some (h !! new) -> new <> NULL -> new ∉ l :: xs ->
     runs (list_insert_head l new) h (fun _ h' =>
       is_list h' l (new :: xs) /\ others_kept h h' (new :: l :: xs)) /\
     runs (list_insert_tail l new) h (fun _ h' =>
       is_list h' l (xs ++ [new]) /\ others_kept h h' (new :: l :: xs))) /\
  (forall ys x zs, xs = ys ++ x :: zs ->
     runs (list_remove x) h (fun _ h' =>
       is_list h' l (ys ++ zs) /\ list_link_is_linked x h' = Done false h' /\
       others_kept h h' (l :: xs))) /\
  list_head l h = Done (default l (head xs)) h /\
  list_tail l h = Done (default l (last xs)) h.
Proof.
  intros HL. destruct (is_list_ends _ _ _ HL) as (k & L & Nk & Pk).
  split; [|split; [by apply list_empty_refines|split; [|split; [|split]]]].
  - apply list_init_refines; [by eapply is_list_dom; [|left]|].
    destruct HL as (_ & Hn & _). intros ->. apply Hn. by left.
  - intros new Hs Hn Hni. split.
    + unfold list_insert_head. apply runs_bind. eapply runs_intro; [exact L|]. cbn beta.
      rewrite Nk. by apply (list_insert_before_refines h l [] xs).
    + unfold list_insert_tail.
      pose proof (list_insert_before_refines h l xs [] new) as H. rewrite app_nil_r in H.
      by apply H.
  - intros ys x zs ->. by apply list_remove_refines.
  - unfold list_head. krun L. by rewrite Nk.
  - unfold list_tail. krun L. by rewrite Pk.
Qed.

(** A list of two links (headed at address 16) and a link off any list. *)
Definition heap0 : heap :=
  list_to_map [(16, Link 32 48); (32, Link 48 16); (48, Link 16 32); (64, Link 0 0)]%Z.

Lemma heap0_list : is_list heap0 16 [32; 48]%Z.
Proof.
  split; [|split].
  - apply (bool_decide_unpack _). by vm_compute.
  - apply (bool_decide_unpack _). by vm_compute.
  - by vm_compute.
Qed.

Lemma klist_refines_seq_witness :
  runs (list_insert_tail 16 64) heap0 (fun _ h' =>
    is_list h' 16 [32; 48; 64]%Z /\ others_kept heap0 h' [64; 16; 32; 48]%Z).
Proof.
  apply (klist_refines_seq heap0 16 [32; 48]%Z heap0_list).
  - eexists. vm_compute. reflexivity.
  - discriminate.
  - apply (bool_decide_unpack _). by vm_compute.
Defined.

Lemma list_iterate_removing_witness :
  runs (list_iterate 2 16 (remove_if (fun x => (x =? 32)%Z))) heap0
    (fun _ h' => is_list h' 16 [48]%Z).
Proof.
  apply (list_iterate_removing heap0 16 (fun x => (x =? 32)%Z) [32; 48]%Z 2 heap0_list).
  simpl. lia.
Defined.

End KList.
