(* ===== verification/KString.v ===== *)
(** * The kernel's string routines ([util/string.c])

    A [char *] is the list of the chars from the pointer to the end of the
    object it points into; a [char] is a signed 8-bit value.  A routine that
    would read or write past the end of the object returns [None].  A NUL
    terminated string [s] in an object is [s ++ 0 :: rest] with [0 ∉ s]. *)

From Stdlib Require Import ZArith Lia.
From stdpp Require Import base list option.
From S2P Require Import Prelude.

Module KString.
Local Open Scope Z_scope.

(** Conversion to [signed char]. *)
Definition s8 (z : Z) : Z := (z + 128) mod 256 - 128.
Definition is_char (c : Z) : Prop := -128 <= c < 128.

Fixpoint strlen (s : list Z) : option nat :=
  match s with
  | [] => None
  | c :: s => if c =? 0 then Some O else S <$> strlen s
  end.

Fixpoint strnlen (s : list Z) (count : nat) {struct count} : option nat :=
  match count with
  | O => Some O
  | S count => match s with
               | [] => None
               | c :: s => if c =? 0 then Some O else S <$> strnlen s count
               end
  end.

(** [while (1) { if ((__res = *cs - *ct++) != 0 || !*cs++) break; }] *)
Fixpoint strcmp (cs ct : list Z) : option Z :=
  match cs, ct with
  | c :: cs, d :: ct =>
      let res := s8 (c - d) in
      if negb (res =? 0) || (c =? 0) then Some res else strcmp cs ct
  | _, _ => None
  end.

(** [__res] starts at 0 and keeps its value when the count runs out. *)
Fixpoint strncmp_loop (res : Z) (cs ct : list Z) (count : nat) {struct count} : option Z :=
  match count with
  | O => Some res
  | S count =>
      match cs, ct with
      | c :: cs, d :: ct =>
          let res := s8 (c - d) in
          if negb (res =? 0) || (c =? 0) then Some res else strncmp_loop res cs ct count
      | _, _ => None
      end
  end.
Definition strncmp (cs ct : list Z) (count : nat) : option Z := strncmp_loop 0 cs ct count.

(** The object [dest] after the copy. *)
Fixpoint strcpy (dest src : list Z) : option (list Z) :=
  match dest, src with
  | _ :: dest, c :: src =>
      if c =? 0 then Some (c :: dest) else cons c <$> strcpy dest src
  | _, _ => None
  end.

(** Stops after the terminator: the rest of [dest] is not cleared. *)
Fixpoint strncpy (dest src : list Z) (count : nat) {struct count} : option (list Z) :=
  match count with
  | O => Some dest
  | S count =>
      match dest, src with
      | _ :: dest, c :: src =>
          if c =? 0 then Some (c :: dest) else cons c <$> strncpy dest src count
      | _, _ => None
      end
  end.

Fixpoint strcat (dest src : list Z) : option (list Z) :=
  match dest with
  | [] => None
  | d :: dest' => if d =? 0 then strcpy dest src else cons d <$> strcat dest' src
  end.

(** Pointer results are suffixes of the argument's object: the outer option is
    the out-of-bounds read, the inner one the returned NULL. *)
Fixpoint strchr (s : list Z) (c : Z) : option (option (list Z)) :=
  match s with
  | [] => None
  | d :: s' => if d =? s8 c then Some (Some s)
               else if d =? 0 then Some None else strchr s' c
  end.

Fixpoint strrchr_loop (r : option (list Z)) (s : list Z) (c : Z)
  : option (option (list Z)) :=
  match s with
  | [] => None
  | d :: s' => if d =? 0 then Some r
               else strrchr_loop (if d =? s8 c then Some s else r) s' c
  end.
Definition strrchr (s : list Z) (c : Z) : option (option (list Z)) := strrchr_loop None s c.

(** [repe cmpsb]: the sign flag of the last byte subtraction decides the sign. *)
Fixpoint memcmp (cs ct : list Z) (count : nat) {struct count} : option Z :=
  match count with
  | O => Some 0
  | S count =>
      match cs, ct with
      | c :: cs, d :: ct => if c =? d then memcmp cs ct count
                            else Some (if s8 (c - d) <? 0 then -1 else 1)
      | _, _ => None
      end
  end.

Fixpoint memcpy (dest src : list Z) (count : nat) {struct count} : option (list Z) :=
  match count with
  | O => Some dest
  | S count => match dest, src with
               | _ :: dest, c :: src => cons c <$> memcpy dest src count
               | _, _ => None
               end
  end.

Fixpoint memset (s : list Z) (c : Z) (count : nat) {struct count} : option (list Z) :=
  match count with
  | O => Some s
  | S count => match s with
               | _ :: s => cons (s8 c) <$> memset s c count
               | [] => None
               end
  end.

(** The search loop of [strstr] tries the [l1 - l2 + 1] start positions. *)
Fixpoint strstr_loop (tries : nat) (s1 s2 : list Z) (l2 : nat)
  {struct tries} : option (option (list Z)) :=
  match tries with
  | O => Some None
  | S tries =>
      r ← memcmp s1 s2 l2;
      if r =? 0 then Some (Some s1)
      else match s1 with
           | [] => None
           | _ :: s1 => strstr_loop tries s1 s2 l2
           end
  end.

Definition strstr (s1 s2 : list Z) : option (option (list Z)) :=
  l2 ← strlen s2;
  if Nat.eqb l2 0 then Some (Some s1)
  else l1 ← strlen s1; strstr_loop (S l1 - l2) s1 s2 l2.

(** [for (p = set; *p != '\0' && *p != c; ++p);] then [*p != '\0']. *)
Fixpoint in_set (set : list Z) (c : Z) : option bool :=
  match set with
  | [] => None
  | p :: set => if p =? 0 then Some false else if p =? c then Some true else in_set set c
  end.

Fixpoint strpbrk (s brkset : list Z) : option (option (list Z)) :=
  match s with
  | [] => None
  | c :: s' =>
      b ← in_set brkset c;
      if b : bool then Some (Some s)
      else if c =? 0 then Some None else strpbrk s' brkset
  end.

Fixpoint strspn (s charset : list Z) : option nat :=
  match s with
  | [] => None
  | c :: s' =>
      if c =? 0 then Some O
      else b ← in_set charset c;
           if b : bool then S <$> strspn s' charset else Some O
  end.

(** [strtok]: [savept] is the static pointer into the buffer being cut, [string]
    the argument (NULL to continue).  The token returned is the text up to the
    separator, which the code overwrites by NUL, so that the text is what the
    returned pointer designates as a string.  The result is the token and the
    new value of [savept]. *)
Definition strtok (savept string : option (list Z)) (sepset : list Z)
  : option (option (list Z) * option (list Z)) :=
  match (match string with None => savept | Some s => Some s end) with
  | None => Some (None, savept)
  | Some p =>
      n ← strspn p sepset;
      let q := drop n p in
      match q with
      | [] => None
      | c :: _ =>
          if c =? 0 then Some (None, savept)
          else r ← strpbrk q sepset;
               match r with
               | None => m ← strlen q; Some (Some (take m q), None)
               | Some r => let m := (length q - length r)%nat in
                           Some (Some (take m q), Some (drop 1 r))
               end
      end
  end.

(** [name_match(fname, name, namelen)] of [include/fs/vfs.h]. *)
Definition name_match (fname name : list Z) (namelen : nat) : option bool :=
  l ← strlen fname;
  if Nat.eqb l namelen
  then r ← strncmp fname name namelen; Some (r =? 0)
  else Some false.

(** A string as an object that holds it and its terminator. *)
Definition cstring (s : list Z) : list Z := s ++ [0].

(** ** Lemmas *)

Lemma s8_zero c d : is_char c -> is_char d -> s8 (c - d) = 0 <-> c = d.
Proof. unfold s8, is_char. intros. split; dlia. Qed.

Lemma strlen_cstring s r : 0 ∉ s -> strlen (s ++ 0 :: r) = Some (length s).
Proof.
  induction s as [|c s IH]; intros Hs; simpl; [done|].
  apply not_elem_of_cons in Hs as [Hc Hs].
  destruct (Z.eqb_spec c 0); [congruence|]. by rewrite IH.
Qed.

Lemma cons_iff (c : Z) a b (P : Prop) : (P <-> a = b) -> (P <-> c :: a = c :: b).
Proof. intros ->. split; [by intros ->|by intros [= ->]]. Qed.

#[local] Ltac eqb_tac :=
  repeat match goal with
  | |- context [?a =? ?b] => destruct (Z.eqb_spec a b); subst; simpl
  end.

Lemma strcmp_zero a b r t :
  Forall is_char a -> Forall is_char b -> 0 ∉ a -> 0 ∉ b ->
  exists v, strcmp (a ++ 0 :: r) (b ++ 0 :: t) = Some v /\ (v = 0 <-> a = b).
Proof.
  revert b. induction a as [|c a IH]; intros [|d b] Ha Hb Na Nb; simpl.
  - exists 0. done.
  - apply not_elem_of_cons in Nb as [? _]. apply Forall_cons_1 in Hb as [Hd _].
    pose proof (s8_zero 0 d ltac:(done) Hd). exists (s8 (0 - d)).
    rewrite orb_true_r. naive_solver.
  - apply not_elem_of_cons in Na as [? _]. apply Forall_cons_1 in Ha as [Hd _].
    pose proof (s8_zero c 0 Hd ltac:(done)). exists (s8 (c - 0)).
    destruct (Z.eqb_spec (s8 (c - 0)) 0); simpl; [exfalso; intuition congruence|].
    naive_solver.
  - apply not_elem_of_cons in Na as [? Na], Nb as [? Nb].
    apply Forall_cons_1 in Ha as [Hc Ha], Hb as [Hd Hb].
    pose proof (s8_zero c d Hc Hd) as H8.
    destruct (Z.eqb_spec (s8 (c - d)) 0) as [E|E]; simpl.
    + destruct (Z.eqb_spec c 0); [congruence|].
      destruct (IH b Ha Hb Na Nb) as (v & -> & Hv). exists v. rewrite (proj1 H8 E). split; [done|]. by apply cons_iff.
    + eexists. split; [done|]. split; [done|]. intros [= -> _]. exfalso. by apply E, H8.
Qed.

Lemma strncmp_loop_take n : forall a b,
  Forall is_char a -> Forall is_char b -> 0 ∉ take n a -> (n <= length a)%nat -> (n <= length b)%nat ->
  exists v, strncmp_loop 0 a b n = Some v /\ (v = 0 <-> take n a = take n b).
Proof.
  induction n as [|n IH]; intros a b Ha Hb Na La Lb; simpl; [by exists 0|].
  destruct a as [|c a]; [simpl in La; lia|]. destruct b as [|d b]; [simpl in Lb; lia|].
  simpl in *. apply not_elem_of_cons in Na as [? Na].
  apply Forall_cons_1 in Ha as [Hc Ha], Hb as [Hd Hb].
  pose proof (s8_zero c d Hc Hd) as H8.
  destruct (Z.eqb_spec (s8 (c - d)) 0) as [E|E]; simpl.
  - destruct (Z.eqb_spec c 0); [congruence|]. rewrite E.
    destruct (IH a b Ha Hb Na) as (v & -> & Hv); [lia..|]. exists v. rewrite (proj1 H8 E). split; [done|]. by apply cons_iff.
  - eexists. split; [done|]. split; [done|]. intros [= -> _]. exfalso. by apply E, H8.
Qed.

(** [name_match] decides equality of the stored string and the name. *)
Lemma name_match_spec f r name n :
  Forall is_char f -> Forall is_char name -> 0 ∉ f -> (n <= length name)%nat ->
  name_match (f ++ 0 :: r) name n = Some (bool_decide (f = take n name)).
Proof.
  intros Hf Hn Nf Ln. unfold name_match. rewrite strlen_cstring by done. simpl.
  destruct (Nat.eqb_spec (length f) n) as [<-|Hne].
  - assert (exists v, strncmp (f ++ 0 :: r) name (length f) = Some v /\
                      (v = 0 <-> f = take (length f) name)) as (v & E & Hv).
    { unfold strncmp. clear -Hf Hn Nf Ln. revert name Hn Ln.
      induction f as [|c f IH]; intros name Hn Ln; [exists 0; done|].
      destruct name as [|d name]; [simpl in Ln; lia|].
      apply Forall_cons_1 in Hf as [Hc Hf], Hn as [Hd Hn].
      apply not_elem_of_cons in Nf as [? Nf]. simpl.
      pose proof (s8_zero c d Hc Hd) as H8.
      destruct (Z.eqb_spec (s8 (c - d)) 0) as [E|E]; simpl.
      - destruct (Z.eqb_spec c 0); [congruence|]. rewrite E.
        destruct (IH Hf Nf name Hn) as (v & -> & Hv); [simpl in Ln; lia|].
        exists v. rewrite (proj1 H8 E). split; [done|]. by apply cons_iff.
      - eexists. split; [done|]. split; [done|]. intros [= -> _]. exfalso. by apply E, H8. }
    rewrite E. simpl. f_equal.
    destruct (Z.eqb_spec v 0); symmetry; [apply bool_decide_eq_true_2|apply bool_decide_eq_false_2]; tauto.
  - rewrite bool_decide_eq_false_2; [done|]. intros ->.
    rewrite length_take in Hne. lia.
Qed.

(** [strncpy] followed by storing NUL at the count. *)
Lemma strncpy_terminate s r m : forall dest,
  0 ∉ s -> (m < length dest)%nat ->
  exists dest' rest, strncpy dest (s ++ 0 :: r) m = Some dest' /\
    <[m := 0]> dest' = take m s ++ 0 :: rest /\ length dest' = length dest.
Proof.
  revert m. induction s as [|c s IH]; intros m dest Hs Hm.
  - destruct m as [|m]; simpl.
    + destruct dest as [|x dest]; [simpl in Hm; lia|]. simpl. eauto.
    + destruct dest as [|x dest]; simpl in *; [lia|]. eauto.
  - apply not_elem_of_cons in Hs as [? Hs]. destruct m as [|m].
    + destruct dest as [|x dest]; [simpl in Hm; lia|]. simpl. eauto.
    + destruct dest as [|x dest]; simpl in *; [lia|].
      destruct (Z.eqb_spec c 0); [congruence|].
      destruct (IH m dest Hs) as (d' & rest & -> & E & L); [lia|].
      exists (c :: d'), rest. simpl. rewrite E. auto with lia.
Qed.

(** *** Searching *)

Lemma memcmp_zero n : forall s t,
  Forall is_char s -> Forall is_char t -> (n <= length s)%nat -> (n <= length t)%nat ->
  exists v, memcmp s t n = Some v /\ (v = 0 <-> take n s = take n t).
Proof.
  induction n as [|n IH]; intros s t Hs Ht Ls Lt; [by exists 0|].
  destruct s as [|c s]; [simpl in Ls; lia|]. destruct t as [|d t]; [simpl in Lt; lia|].
  apply Forall_cons_1 in Hs as [Hc Hs], Ht as [Hd Ht]. simpl in *.
  destruct (Z.eqb_spec c d) as [->|Hne].
  - destruct (IH s t Hs Ht) as (v & -> & Hv); [lia..|]. exists v. split; [done|].
    by apply cons_iff.
  - eexists. split; [done|]. split.
    + destruct (s8 (c - d) <? 0); done.
    + congruence.
Qed.

(** [occurs t s i]: the string [t] occurs at position [i] of the object [s]. *)
Definition occurs (t s : list Z) (i : nat) : Prop := take (length t) (drop i s) = t.

Lemma strstr_loop_spec tries : forall s t r,
  Forall is_char s -> Forall is_char t -> Forall is_char r ->
  (tries = 0 \/ tries + length t <= S (length s))%nat ->
  exists res, strstr_loop tries s (t ++ r) (length t) = Some res /\
    match res with
    | Some q => exists i, (i < tries)%nat /\ q = drop i s /\ occurs t s i /\
                          forall j, (j < i)%nat -> ~ occurs t s j
    | None => forall j, (j < tries)%nat -> ~ occurs t s j
    end.
Proof.
  induction tries as [|tries IH]; intros s t r Hs Ht Hr Hlen.
  { exists None. split; [done|]. lia. }
  destruct (memcmp_zero (length t) s (t ++ r) Hs) as (v & E & Hv).
  { by apply Forall_app. } { lia. } { rewrite length_app. lia. }
  simpl. rewrite E. simpl. rewrite take_app_length in Hv.
  destruct (Z.eqb_spec v 0) as [->|Hne].
  - eexists. split; [done|]. exists O. split; [lia|]. split; [done|]. split; [by apply Hv|lia].
  - assert (~ occurs t s 0) as H0 by (unfold occurs; simpl; tauto).
    destruct s as [|c s].
    { simpl in Hlen. assert (t = []) as -> by (destruct t; simpl in *; [done|lia]).
      exfalso. apply Hne. by apply Hv. }
    apply Forall_cons_1 in Hs as [_ Hs].
    destruct (IH s t r Hs Ht Hr) as (res & -> & Hres); [simpl in Hlen; lia|].
    exists res. split; [done|]. destruct res as [q|].
    + destruct Hres as (i & Hi & -> & Ho & Hmin). exists (S i). split; [lia|].
      split; [done|]. split; [done|]. intros [|j] Hj; [done|]. apply Hmin. lia.
    + intros [|j] Hj; [done|]. apply Hres. lia.
Qed.

(** [strstr(s, t)] returns the first place where [t] occurs in [s], and NULL
    exactly when there is none. *)
Theorem strstr_first s t r1 r2 :
  Forall is_char s -> Forall is_char t -> 0 ∉ s -> 0 ∉ t -> Forall is_char r1 ->
  Forall is_char r2 ->
  exists res, strstr (s ++ 0 :: r1) (t ++ 0 :: r2) = Some res /\
    match res with
    | Some q => exists i, (i + length t <= length s)%nat /\ q = drop i (s ++ 0 :: r1) /\
                  occurs t s i /\ forall j, (j < i)%nat -> ~ occurs t s j
    | None => forall j, ~ occurs t s j
    end.
Proof.
  intros Hs Ht Ns Nt Hr1 Hr2. unfold strstr. rewrite !strlen_cstring by done. simpl.
  assert (forall j, (j + length t <= length s)%nat ->
            occurs t (s ++ 0 :: r1) j <-> occurs t s j) as Hocc.
  { intros j Hj. unfold occurs. rewrite drop_app_le by lia.
    rewrite take_app_le; [done|]. rewrite length_drop. lia. }
  assert (forall j, occurs t s j -> (j + length t <= length s)%nat \/ t = []) as Hb.
  { intros j Hj%(f_equal length). rewrite length_take, length_drop in Hj.
    destruct t; [by right|left]. cbn [length] in *. lia. }
  destruct (Nat.eqb_spec (length t) 0) as [E|E].
  - destruct t; [|done]. eexists. split; [done|]. exists O. simpl. split; [lia|].
    split; [done|]. split; [done|lia].
  - destruct (strstr_loop_spec (S (length s) - length t) (s ++ 0 :: r1) t (0 :: r2))
      as (res & -> & Hres).
    { apply Forall_app. split; [done|]. by constructor. } { done. } { by constructor. }
    { rewrite length_app. cbn [length]. lia. }
    exists res. split; [done|]. destruct res as [q|].
    + destruct Hres as (i & Hi & -> & Ho & Hmin). exists i. split; [lia|]. split; [done|].
      split; [by apply Hocc; [lia|]|]. intros j Hj Hoj. eapply Hmin; [done|].
      apply Hocc; [lia|done].
    + intros j Hoj. destruct (Hb _ Hoj) as [Hj| ->]; [|done].
      eapply (Hres j); [lia|]. by apply Hocc.
Qed.

(** *** Tokens *)

Section Tokens.
Context (seps sr : list Z) (Hseps : 0 ∉ seps).
Let sep (c : Z) : bool := bool_decide (c ∈ seps).

(** The reference: the maximal runs of non-separators, in order. *)
Fixpoint fields (cur s : list Z) : list (list Z) :=
  match s with
  | [] => match cur with [] => [] | _ => [cur] end
  | c :: s => if sep c
              then match cur with [] => fields [] s | _ => cur :: fields [] s end
              else fields (cur ++ [c]) s
  end.

(** Number of leading separators, and of leading non-separators. *)
Fixpoint spn (s : list Z) : nat :=
  match s with c :: s => if sep c then S (spn s) else O | [] => O end.
Fixpoint brk (s : list Z) : nat :=
  match s with c :: s => if sep c then O else S (brk s) | [] => O end.

Lemma in_set_spec c : in_set (seps ++ 0 :: sr) c = Some (sep c).
Proof using Hseps.
  unfold sep. clear sep. induction seps as [|p ps IH]; simpl.
  - done.
  - apply not_elem_of_cons in Hseps as [? Hps]. rewrite IH by done.
    destruct (Z.eqb_spec p 0); [congruence|]. destruct (Z.eqb_spec p c) as [->|Hne].
    + f_equal. symmetry. apply bool_decide_eq_true_2. by left.
    + f_equal. apply bool_decide_ext. rewrite elem_of_cons. naive_solver.
Qed.

Lemma strspn_spec s r : 0 ∉ s -> strspn (s ++ 0 :: r) (seps ++ 0 :: sr) = Some (spn s).
Proof using Hseps.
  induction s as [|c s IH]; intros Hs; simpl; [done|].
  apply not_elem_of_cons in Hs as [? Hs]. destruct (Z.eqb_spec c 0); [congruence|].
  rewrite in_set_spec. simpl. rewrite IH by done. by destruct (sep c).
Qed.

Lemma strpbrk_spec s r : 0 ∉ s ->
  strpbrk (s ++ 0 :: r) (seps ++ 0 :: sr) =
  Some (if decide (brk s = length s) then None else Some (drop (brk s) (s ++ 0 :: r))).
Proof using Hseps.
  induction s as [|c s IH]; intros Hs.
  - simpl. rewrite in_set_spec. unfold sep. rewrite bool_decide_eq_false_2 by done. done.
  - apply not_elem_of_cons in Hs as [? Hs]. simpl.
    rewrite in_set_spec. simpl. destruct (sep c); [done|].
    destruct (Z.eqb_spec c 0); [congruence|]. rewrite IH by done.
    f_equal. repeat case_decide; try lia; done.
Qed.

Lemma brk_le s : (brk s <= length s)%nat.
Proof. induction s as [|c s IH]; simpl; [done|]. destruct (sep c); lia. Qed.

Lemma fields_nonempty cur s : cur <> [] ->
  fields cur s = (cur ++ take (brk s) s) :: fields [] (drop (S (brk s)) s).
Proof.
  revert cur. induction s as [|c s IH]; intros cur Hc; simpl.
  - rewrite app_nil_r. by destruct cur.
  - destruct (sep c).
    + rewrite app_nil_r. by destruct cur.
    + rewrite IH by (by destruct cur). simpl. by rewrite <- app_assoc.
Qed.

Lemma fields_step s :
  fields [] s = let q := drop (spn s) s in
                if decide (q = []) then []
                else take (brk q) q :: fields [] (drop (S (brk q)) q).
Proof.
  induction s as [|c s IH]; simpl; [done|]. destruct (sep c) eqn:E; [done|].
  simpl. rewrite E. simpl. by rewrite fields_nonempty.
Qed.

(** All the tokens: one [strtok(s, sep)], then [strtok(NULL, sep)] until NULL. *)
Fixpoint strtok_all (fuel : nat) (savept string : option (list Z)) (sepset : list Z)
  : option (list (list Z)) :=
  match fuel with
  | O => None
  | S fuel =>
      '(tok, savept) ← strtok savept string sepset;
      match tok with
      | None => Some []
      | Some t => cons t <$> strtok_all fuel savept None sepset
      end
  end.

Lemma spn_le s : (spn s <= length s)%nat.
Proof. induction s as [|c s IH]; simpl; [done|]. destruct (sep c); lia. Qed.

(** One call: where it finds the token and where it leaves [savept]. *)
Lemma strtok_step s sv str r :
  (match str with None => sv | Some p => Some p end) = Some (s ++ 0 :: r) -> 0 ∉ s ->
  strtok sv str (seps ++ 0 :: sr) =
  let q := drop (spn s) s in
  Some (if decide (q = []) then (None, sv)
        else if decide (brk q = length q) then (Some q, None)
        else (Some (take (brk q) q), Some (drop (S (brk q)) q ++ 0 :: r))).
Proof using Hseps.
  intros E1 Hs. unfold strtok. rewrite E1, strspn_spec by done.
  cbn [mbind option_bind]. rewrite drop_app_le by apply spn_le.
  assert (0 ∉ drop (spn s) s) as Hq by by apply not_elem_of_drop.
  destruct (drop (spn s) s) as [|c q] eqn:Eq; [done|].
  cbv zeta. rewrite <- Eq in *. rewrite decide_False by (by rewrite Eq).
  set (q1 := drop (spn s) s) in *. clearbody q1. subst q1.
  rewrite <- app_comm_cons. destruct (Z.eqb_spec c 0); [exfalso; subst; apply Hq; left|].
  rewrite app_comm_cons, strpbrk_spec by done. cbn [mbind option_bind].
  pose proof (brk_le (c :: q)) as Hb. remember (c :: q) as q1 eqn:E2. clear E2.
  case_decide as Hd.
  - rewrite strlen_cstring by done. cbn [mbind option_bind]. by rewrite take_app_length.
  - rewrite length_drop.
    replace (length (q1 ++ 0%Z :: r) - (length (q1 ++ 0%Z :: r) - brk q1))%nat
      with (brk q1) by (rewrite length_app; simpl; lia).
    rewrite take_app_le by done. rewrite drop_drop, Nat.add_1_r.
    by rewrite drop_app_le by lia.
Qed.

Lemma strtok_all_spec n : forall s sv str r fuel,
  (match str with None => sv | Some p => Some p end) = Some (s ++ 0 :: r) ->
  0 ∉ s -> (length s <= n)%nat -> (S n < fuel)%nat ->
  strtok_all fuel sv str (seps ++ 0 :: sr) = Some (fields [] s).
Proof using Hseps.
  induction n as [n IH] using lt_wf_ind. intros s sv str r fuel Hp Hs Hn Hf.
  destruct fuel as [|fuel]; [lia|]. cbn [strtok_all].
  rewrite (strtok_step s sv str r Hp Hs). rewrite (fields_step s). cbv zeta.
  assert (0 ∉ drop (spn s) s) as Hq by by apply not_elem_of_drop.
  assert (length (drop (spn s) s) <= n)%nat as Hql by (rewrite length_drop; lia).
  set (q := drop (spn s) s) in *. clearbody q. cbn [mbind option_bind].
  case_decide as Hq0; [done|]. pose proof (brk_le q) as Hb.
  case_decide as Hd.
  - rewrite Hd, firstn_all, drop_ge by lia. destruct fuel as [|fuel]; [lia|]. done.
  - assert (0 < length q)%nat by (destruct q; [done|simpl; lia]).
    rewrite (IH (length q - 1)%nat) with (s := drop (S (brk q)) q) (r := r);
      [done|lia|done|by apply not_elem_of_drop|rewrite length_drop; lia|lia].
Qed.
End Tokens.

(** Calling [strtok] until it returns NULL cuts a string into its maximal runs
    of non-separators; [length s + 2] calls are enough. *)
Theorem strtok_fields s r seps sr sv :
  0 ∉ s -> 0 ∉ seps ->
  strtok_all (length s + 2) sv (Some (s ++ 0 :: r)) (seps ++ 0 :: sr) = Some (fields seps [] s).
Proof. intros Hs Hseps. by apply strtok_all_spec with (n := length s) (r := r); [..|lia|lia]. Qed.

(** Storing a name in a directory entry (copy at most [m] chars, then store
    NUL) and matching a name against it decides equality of the stored prefix:
    what [ramfs] relies on for [rd_name]. *)
Theorem name_store_match (dest s r t : list Z) (m n : nat) :
  Forall is_char s -> Forall is_char t -> 0 ∉ s -> (m < length dest)%nat -> (n <= length t)%nat ->
  exists dest', strncpy dest (s ++ 0 :: r) m = Some dest' /\ length dest' = length dest /\
    name_match (<[m := 0]> dest') t n = Some (bool_decide (take m s = take n t)).
Proof.
  intros Hs Ht Ns Hm Hn. destruct (strncpy_terminate s r m dest Ns Hm) as (d' & rest & E & E' & L).
  exists d'. split; [done|]. split; [done|]. rewrite E'. apply name_match_spec; try done.
  - by apply Forall_take.
  - by apply not_elem_of_take.
Qed.

(** *** On concrete strings *)
Lemma chars_of l : forallb (fun c => (-128 <=? c) && (c <? 128)) l = true -> Forall is_char l.
Proof.
  induction l as [|c l IH]; [constructor|]. cbn. intros [? ?]%andb_prop. constructor; [unfold is_char; lia|auto].
Qed.

Lemma no_nul l : forallb (fun c => negb (c =? 0)) l = true -> 0 ∉ l.
Proof.
  induction l as [|c l IH]; [intros _; apply not_elem_of_nil|]. cbn. intros [? ?]%andb_prop.
  apply not_elem_of_cons. split; [lia|auto].
Qed.

(** ["ll"] in ["hello"]. *)
Lemma strstr_first_witness :
  exists q i, strstr [104; 101; 108; 108; 111; 0] [108; 108; 0] = Some (Some q) /\
    q = drop i [104; 101; 108; 108; 111; 0] /\ occurs [108; 108] [104; 101; 108; 108; 111] i.
Proof.
  destruct (strstr_first [104; 101; 108; 108; 111] [108; 108] [] []
    ltac:(by apply chars_of) ltac:(by apply chars_of) ltac:(by apply no_nul) ltac:(by apply no_nul) ltac:(by apply chars_of)
    ltac:(by apply chars_of)) as (res & E & Hres).
  destruct res as [q|]; [|exfalso; by apply (Hres 2%nat)].
  destruct Hres as (i & _ & Hq & Ho & _). exists q, i. split_and!; [exact E|exact Hq|exact Ho].
Defined.

(** ["/usr//bin"] cut at slashes. *)
Lemma strtok_fields_witness :
  strtok_all 11 None (Some [47; 117; 115; 114; 47; 47; 98; 105; 110; 0]) [47; 0] =
  Some [[117; 115; 114]; [98; 105; 110]].
Proof.
  exact (strtok_fields [47; 117; 115; 114; 47; 47; 98; 105; 110] [] [47] [] None ltac:(by apply no_nul) ltac:(by apply no_nul)).
Defined.

Lemma name_store_match_witness :
  exists d, strncpy [1; 1; 1; 1] [97; 98; 99; 0] 2 = Some d /\
    name_match (<[2%nat := 0]> d) [97; 98; 0] 2 = Some true.
Proof.
  destruct (name_store_match [1; 1; 1; 1] [97; 98; 99] [] [97; 98; 0] 2 2 ltac:(by apply chars_of) ltac:(by apply chars_of)
    ltac:(by apply no_nul) ltac:(cbn; lia) ltac:(cbn; lia)) as (d & E & _ & Hm).
  exists d. split; [exact E|exact Hm].
Defined.

End KString.
