(* ===== verification/Coop.v ===== *)
(** * Cooperative kernel code

    The kernel is not preemptible: a thread runs until it calls
    [context_switch].  Code that may switch is written in a resumption monad:
    [Yield old s k] is the point inside [context_switch(&old->kt_ctx, ...)]
    where the CPU leaves, in state [s], and [k] is what the saved context
    [old->kt_ctx] continues with when a later switch restores it. *)

From Stdlib Require Import ZArith.
From stdpp Require Import base tactics.
From S2P Require Import Prelude.

Inductive res (S A : Type) : Type :=
| RDone (a : A) (s : S)
| RPanic
| RStuck
| RBlocked
| Yield (old : Z) (s : S) (k : S -> res S A).
Arguments RDone {S A} a s.
Arguments RPanic {S A}.
Arguments RStuck {S A}.
Arguments RBlocked {S A}.
Arguments Yield {S A} old s k.

Definition coop (S A : Type) : Type := S -> res S A.

Section Coop.
Context {S : Type}.

Definition cret {A} (a : A) : coop S A := fun s => RDone a s.

Fixpoint rbind {A B} (r : res S A) (f : A -> coop S B) : res S B :=
  match r with
  | RDone a s => f a s
  | RPanic => RPanic
  | RStuck => RStuck
  | RBlocked => RBlocked
  | Yield old s k => Yield old s (fun s' => rbind (k s') f)
  end.

Definition cbind {A B} (m : coop S A) (f : A -> coop S B) : coop S B :=
  fun s => rbind (m s) f.

Definition cpanic {A} : coop S A := fun _ => RPanic.
Definition cstuck {A} : coop S A := fun _ => RStuck.
Definition cblocked {A} : coop S A := fun _ => RBlocked.
Definition cassert (b : bool) : coop S unit := fun s => if b then RDone tt s else RPanic.
Definition cgets {A} (f : S -> A) : coop S A := fun s => RDone (f s) s.
Definition cmodify (f : S -> S) : coop S unit := fun s => RDone tt (f s).
Definition cderef {A} (o : option A) : coop S A :=
  fun s => match o with Some a => RDone a s | None => RStuck end.

(** Straight-line kernel code used where a switch is possible. *)
Definition lift {A} (m : kern S A) : coop S A :=
  fun s => match m s with
           | Done a s' => RDone a s'
           | Panic => RPanic
           | Stuck => RStuck
           | Blocked => RBlocked
           end.

Lemma cbind_done {A B} (m : coop S A) (f : A -> coop S B) s a s' :
  m s = RDone a s' -> cbind m f s = f a s'.
Proof. unfold cbind. by intros ->. Qed.

Lemma cbind_yield {A B} (m : coop S A) (f : A -> coop S B) s old s' k :
  m s = Yield old s' k -> cbind m f s = Yield old s' (fun s2 => rbind (k s2) f).
Proof. unfold cbind. by intros ->. Qed.

Lemma lift_done {A} (m : kern S A) s a s' : m s = Done a s' -> lift m s = RDone a s'.
Proof. unfold lift. by intros ->. Qed.
End Coop.

Declare Scope coop_scope.
Delimit Scope coop_scope with coop.
Notation "'let!' x ':=' m 'in' k" := (cbind m (fun x => k))
  (at level 10, x binder, m at level 100, k at level 200,
   format "'[v' 'let!'  x  ':='  m  'in' '/' k ']'") : coop_scope.
Notation "m ';!' k" := (cbind m (fun _ => k))
  (at level 100, k at level 200, right associativity) : coop_scope.
Open Scope coop_scope.

Ltac crun H := erewrite (cbind_done _ _ _ _ _ H); cbn beta iota.

(** [clift H]: the same for a leading [lift] whose run is [H]. *)
Ltac clift H := erewrite (cbind_done _ _ _ _ _ (lift_done _ _ _ _ H)); cbn beta iota.
