(* ===== verification/Sched.v ===== *)
(** * Threads, queues and the scheduler's non-blocking half
      ([proc/sched.c], [include/proc/{sched,kthread,proc,kmutex}.h])

    The state of the process subsystem, the [ktqueue_t] operations and the
    scheduler functions that do not switch contexts.  Lists are sequences, in
    the order of [l_next] ([KList] proves list.h implements them). *)

From Stdlib Require Import ZArith Lia.
From stdpp Require Import base list gmap.
From S2P Require Import Prelude Coop.

Module Sched.
Local Open Scope Z_scope.

(** Thread states ([KT_*] of kthread.h). *)
Inductive kt_state_t :=
| KT_NO_STATE | KT_RUN | KT_SLEEP | KT_SLEEP_CANCELLABLE | KT_EXITED.
#[export] Instance kt_state_eq_dec : EqDecision kt_state_t.
Proof. solve_decision. Defined.

(** Where a thread's [kt_qlink] is: both pointers NULL, initialised by
    [list_init] to point to itself, or in the list of a queue. *)
Inductive qlink := Unlinked | SelfLinked | OnQueue (q : Z).
#[export] Instance qlink_eq_dec : EqDecision qlink.
Proof. solve_decision. Defined.

(** [kthread_t]; threads, processes, queues and mutexes are named by the
    address of their struct.  [kt_retval] is the [int] the return value points
    to, [None] when it is NULL.  The saved context [kt_ctx] is the continuation
    kept by the running system, not a field. *)
Record kthread := Kthread {
  kt_kstack : Z;
  kt_retval : option Z;
  kt_proc : Z;
  kt_cancelled : Z;
  kt_wchan : option Z;
  kt_state : kt_state_t;
  kt_qlink : qlink
}.

(** [ktqueue_t] *)
Record ktqueue := Ktqueue { tq_list : list Z; tq_size : Z }.

(** [kmutex_t]: the address of the embedded wait queue, and the holder. *)
Record kmutex := Kmutex { km_waitq : Z; km_holder : option Z }.

(** Process states. *)
Inductive p_state_t := PROC_RUNNING | PROC_DEAD.
#[export] Instance p_state_eq_dec : EqDecision p_state_t.
Proof. solve_decision. Defined.

(** [proc_t] (the VM fields are unused in this configuration). *)
Record proc := Proc {
  p_pid : Z;
  p_comm : list Z;
  p_threads : list Z;
  p_children : list Z;
  p_pproc : option Z;
  p_status : Z;
  p_state : p_state_t;
  p_wait : Z;
  p_pagedir : Z;
  p_files : list (option Z);
  p_cwd : option Z
}.

(** What an interrupt handler does to the scheduler: [sched_wakeup_on] or
    [sched_broadcast_on] of some queues. *)
Inductive wake := WakeOne (q : Z) | WakeAll (q : Z).

(** Calls the process code makes into the file layer, in order. *)
Inductive vfs_call := CallFput (f : Z) | CallVput (v : Z) | CallVref (v : Z).

(** The globals of [proc/]. [k_intrs] are the interrupts still to come, in the
    order in which they are raised, each with its vector; [k_fresh] is the next
    address the slab allocators give out, [k_oom] says which of the coming
    allocations fail, and [k_pagedir] is the current page directory of
    [mm/pagetable.c], 0 when it is NULL. *)
Record kstate := Kstate {
  k_threads : gmap Z kthread;
  k_queues : gmap Z ktqueue;
  k_mutexes : gmap Z kmutex;
  k_procs : gmap Z proc;
  curthr : option Z;
  curproc : option Z;
  proc_list : list Z;
  proc_initproc : option Z;
  next_pid : Z;
  k_ipl : Z;
  runq_first : bool;
  k_intrs : list (Z * list wake);
  k_calls : list vfs_call;
  k_fresh : Z;
  k_oom : list bool;
  k_pagedir : Z
}.

Abbreviation K := (kern kstate).
Abbreviation C := (coop kstate).

Definition IPL_LOW : Z := 0.
Definition IPL_HIGH : Z := 255.
Definition EINTR : Z := 4.

(** The address of [kt_runq]. *)
Definition kt_runq : Z := 1.

(** ** Field updates *)
Definition upd_threads (f : gmap Z kthread -> gmap Z kthread) (x : kstate) : kstate :=
  Kstate
    (f (k_threads x)) (k_queues x) (k_mutexes x) (k_procs x) (curthr x)
    (curproc x) (proc_list x) (proc_initproc x) (next_pid x) (k_ipl x)
    (runq_first x) (k_intrs x) (k_calls x) (k_fresh x) (k_oom x) (k_pagedir x).
Definition upd_queues (f : gmap Z ktqueue -> gmap Z ktqueue) (x : kstate) : kstate :=
  Kstate
    (k_threads x) (f (k_queues x)) (k_mutexes x) (k_procs x) (curthr x)
    (curproc x) (proc_list x) (proc_initproc x) (next_pid x) (k_ipl x)
    (runq_first x) (k_intrs x) (k_calls x) (k_fresh x) (k_oom x) (k_pagedir x).
Definition upd_mutexes (f : gmap Z kmutex -> gmap Z kmutex) (x : kstate) : kstate :=
  Kstate
    (k_threads x) (k_queues x) (f (k_mutexes x)) (k_procs x) (curthr x)
    (curproc x) (proc_list x) (proc_initproc x) (next_pid x) (k_ipl x)
    (runq_first x) (k_intrs x) (k_calls x) (k_fresh x) (k_oom x) (k_pagedir x).
Definition upd_procs (f : gmap Z proc -> gmap Z proc) (x : kstate) : kstate :=
  Kstate
    (k_threads x) (k_queues x) (k_mutexes x) (f (k_procs x)) (curthr x)
    (curproc x) (proc_list x) (proc_initproc x) (next_pid x) (k_ipl x)
    (runq_first x) (k_intrs x) (k_calls x) (k_fresh x) (k_oom x) (k_pagedir x).
Definition set_cur (ct cp : option Z) (x : kstate) : kstate :=
  Kstate
    (k_threads x) (k_queues x) (k_mutexes x) (k_procs x) ct
    cp (proc_list x) (proc_initproc x) (next_pid x) (k_ipl x)
    (runq_first x) (k_intrs x) (k_calls x) (k_fresh x) (k_oom x) (k_pagedir x).
Definition set_proc_list (pl : list Z) (x : kstate) : kstate :=
  Kstate
    (k_threads x) (k_queues x) (k_mutexes x) (k_procs x) (curthr x)
    (curproc x) pl (proc_initproc x) (next_pid x) (k_ipl x)
    (runq_first x) (k_intrs x) (k_calls x) (k_fresh x) (k_oom x) (k_pagedir x).
Definition set_initproc (ip : option Z) (x : kstate) : kstate :=
  Kstate
    (k_threads x) (k_queues x) (k_mutexes x) (k_procs x) (curthr x)
    (curproc x) (proc_list x) ip (next_pid x) (k_ipl x)
    (runq_first x) (k_intrs x) (k_calls x) (k_fresh x) (k_oom x) (k_pagedir x).
Definition set_next_pid (np : Z) (x : kstate) : kstate :=
  Kstate
    (k_threads x) (k_queues x) (k_mutexes x) (k_procs x) (curthr x)
    (curproc x) (proc_list x) (proc_initproc x) np (k_ipl x)
    (runq_first x) (k_intrs x) (k_calls x) (k_fresh x) (k_oom x) (k_pagedir x).
Definition set_ipl (i : Z) (x : kstate) : kstate :=
  Kstate
    (k_threads x) (k_queues x) (k_mutexes x) (k_procs x) (curthr x)
    (curproc x) (proc_list x) (proc_initproc x) (next_pid x) i
    (runq_first x) (k_intrs x) (k_calls x) (k_fresh x) (k_oom x) (k_pagedir x).
Definition set_runq_first (rf : bool) (x : kstate) : kstate :=
  Kstate
    (k_threads x) (k_queues x) (k_mutexes x) (k_procs x) (curthr x)
    (curproc x) (proc_list x) (proc_initproc x) (next_pid x) (k_ipl x)
    rf (k_intrs x) (k_calls x) (k_fresh x) (k_oom x) (k_pagedir x).
Definition set_intrs (ints : list (Z * list wake)) (x : kstate) : kstate :=
  Kstate
    (k_threads x) (k_queues x) (k_mutexes x) (k_procs x) (curthr x)
    (curproc x) (proc_list x) (proc_initproc x) (next_pid x) (k_ipl x)
    (runq_first x) ints (k_calls x) (k_fresh x) (k_oom x) (k_pagedir x).
Definition add_call (c : vfs_call) (x : kstate) : kstate :=
  Kstate
    (k_threads x) (k_queues x) (k_mutexes x) (k_procs x) (curthr x)
    (curproc x) (proc_list x) (proc_initproc x) (next_pid x) (k_ipl x)
    (runq_first x) (k_intrs x) (k_calls x ++ [c]) (k_fresh x) (k_oom x) (k_pagedir x).
Definition set_fresh (fr : Z) (x : kstate) : kstate :=
  Kstate
    (k_threads x) (k_queues x) (k_mutexes x) (k_procs x) (curthr x)
    (curproc x) (proc_list x) (proc_initproc x) (next_pid x) (k_ipl x)
    (runq_first x) (k_intrs x) (k_calls x) fr (k_oom x) (k_pagedir x).

Definition set_oom (o : list bool) (x : kstate) : kstate :=
  Kstate
    (k_threads x) (k_queues x) (k_mutexes x) (k_procs x) (curthr x)
    (curproc x) (proc_list x) (proc_initproc x) (next_pid x) (k_ipl x)
    (runq_first x) (k_intrs x) (k_calls x) (k_fresh x) o (k_pagedir x).

Definition t_state (v : kt_state_t) (x : kthread) : kthread :=
  Kthread
    (kt_kstack x) (kt_retval x) (kt_proc x) (kt_cancelled x) (kt_wchan x)
    v (kt_qlink x).
Definition t_wchan (v : option Z) (x : kthread) : kthread :=
  Kthread
    (kt_kstack x) (kt_retval x) (kt_proc x) (kt_cancelled x) v
    (kt_state x) (kt_qlink x).
Definition t_qlink (v : qlink) (x : kthread) : kthread :=
  Kthread
    (kt_kstack x) (kt_retval x) (kt_proc x) (kt_cancelled x) (kt_wchan x)
    (kt_state x) v.
Definition t_cancelled (v : Z) (x : kthread) : kthread :=
  Kthread
    (kt_kstack x) (kt_retval x) (kt_proc x) v (kt_wchan x)
    (kt_state x) (kt_qlink x).
Definition t_retval (v : option Z) (x : kthread) : kthread :=
  Kthread
    (kt_kstack x) v (kt_proc x) (kt_cancelled x) (kt_wchan x)
    (kt_state x) (kt_qlink x).

Definition get_thread (t : Z) : K kthread := fun s => deref (k_threads s !! t) s.
Definition set_thread (t : Z) (f : kthread -> kthread) : K unit :=
  let* th := get_thread t in modify (upd_threads <[t := f th]>).
Definition get_queue (q : Z) : K ktqueue := fun s => deref (k_queues s !! q) s.
Definition set_queue (q : Z) (x : ktqueue) : K unit := modify (upd_queues <[q := x]>).

(** [apic_getipl] and [apic_setipl] (main/apic.c): the task priority register. *)
Definition apic_getipl : K Z := gets k_ipl.
Definition apic_setipl (i : Z) : K unit := modify (set_ipl i).

(** ** Private queue manipulation *)

(** A link that is already in a list cannot be inserted again: the lists would
    be corrupted. *)
Definition ktqueue_enqueue (q thr : Z) : K unit :=
  let* t := get_thread thr in
  kassert (bool_decide (kt_wchan t = None)) ;;
  match kt_qlink t with
  | OnQueue _ => stuck
  | _ =>
      let* tq := get_queue q in
      set_queue q (Ktqueue (thr :: tq_list tq) (tq_size tq)) ;;
      set_thread thr (fun t => t_wchan (Some q) (t_qlink (OnQueue q) t)) ;;
      let* tq := get_queue q in
      set_queue q (Ktqueue (tq_list tq) (s32 (tq_size tq + 1)))
  end.

Definition ktqueue_dequeue (q : Z) : K (option Z) :=
  let* tq := get_queue q in
  match last (tq_list tq) with
  | None => ret None
  | Some thr =>
      set_queue q (Ktqueue (removelast (tq_list tq)) (s32 (tq_size tq - 1))) ;;
      set_thread thr (fun t => t_wchan None (t_qlink Unlinked t)) ;;
      ret (Some thr)
  end.

(** [list_remove(&thr->kt_qlink)]: out of whatever list it is in. *)
Definition qlink_remove (thr : Z) : K unit :=
  let* t := get_thread thr in
  match kt_qlink t with
  | Unlinked => stuck
  | SelfLinked => set_thread thr (t_qlink Unlinked)
  | OnQueue q =>
      let* tq := get_queue q in
      set_queue q (Ktqueue (filter (fun x => x <> thr) (tq_list tq)) (tq_size tq)) ;;
      set_thread thr (t_qlink Unlinked)
  end.

(** [q] is the pointer the caller passes; NULL is [None]. *)
Definition ktqueue_remove (q : option Z) (thr : Z) : K unit :=
  let* t := get_thread thr in
  kassert (bool_decide (kt_qlink t <> Unlinked)) ;;
  qlink_remove thr ;;
  set_thread thr (t_wchan None) ;;
  let* q := deref q in
  let* tq := get_queue q in
  set_queue q (Ktqueue (tq_list tq) (s32 (tq_size tq - 1))).

(** ** Public queue manipulation *)
Definition sched_queue_init (q : Z) : K unit := set_queue q (Ktqueue [] 0).

Definition sched_queue_empty (q : Z) : K bool :=
  let* tq := get_queue q in ret (bool_decide (tq_list tq = [])).

Definition sched_init : K unit := sched_queue_init kt_runq.

Definition sched_wakeup_on (q : Z) : K (option Z) :=
  let* empty := sched_queue_empty q in
  if empty : bool then ret None
  else
    let* thr := ktqueue_dequeue q in
    let* thr := deref thr in
    let* t := get_thread thr in
    kassert (bool_decide (kt_state t = KT_SLEEP \/ kt_state t = KT_SLEEP_CANCELLABLE)) ;;
    set_thread thr (t_state KT_RUN) ;;
    ktqueue_enqueue kt_runq thr ;;
    ret (Some thr).

(** The loop of [sched_broadcast_on]; [fuel] is at least the queue's length. *)
Fixpoint broadcast_loop (fuel : nat) (q : Z) : K unit :=
  let* empty := sched_queue_empty q in
  if empty : bool then ret tt
  else match fuel with
       | O => blocked
       | S fuel =>
           let* thr := ktqueue_dequeue q in
           let* thr := deref thr in
           set_thread thr (t_state KT_RUN) ;;
           ktqueue_enqueue kt_runq thr ;;
           broadcast_loop fuel q
       end.

Definition sched_broadcast_on (q : Z) : K unit :=
  let* tq := get_queue q in
  broadcast_loop (length (tq_list tq)) q ;;
  sched_queue_init q.

Definition sched_cancel (kthr : Z) : K unit :=
  let* t := get_thread kthr in
  if bool_decide (kt_state t = KT_SLEEP_CANCELLABLE) then
    set_thread kthr (t_cancelled 1) ;;
    set_thread kthr (t_state KT_RUN) ;;
    let* t := get_thread kthr in
    let q := kt_wchan t in
    ktqueue_remove q kthr ;;
    ktqueue_enqueue kt_runq kthr
  else ret tt.

Definition sched_make_runnable (thr : Z) : K unit :=
  let* t := get_thread thr in
  kassert (bool_decide (kt_wchan t <> Some kt_runq)) ;;
  let* p := (fun s => deref (k_procs s !! kt_proc t) s) in
  let* first := gets runq_first in
  (if bool_decide (p_pid p = 0) && first
   then sched_queue_init kt_runq ;; modify (set_runq_first false)
   else ret tt) ;;
  let* lvl := apic_getipl in
  apic_setipl IPL_HIGH ;;
  set_thread thr (t_state KT_RUN) ;;
  ktqueue_enqueue kt_runq thr ;;
  apic_setipl lvl.

(** An interrupt handler's effect on the scheduler. *)
Fixpoint run_wakes (ws : list wake) : K unit :=
  match ws with
  | [] => ret tt
  | WakeOne q :: ws => sched_wakeup_on q ;; run_wakes ws
  | WakeAll q :: ws => sched_broadcast_on q ;; run_wakes ws
  end.

(** An interrupt is taken when the priority class of its vector, the upper four
    bits, is above that of the task priority register; until then it is pending. *)
Definition masked (ipl vec : Z) : bool := Z.shiftr vec 4 <=? Z.shiftr ipl 4.

(** The first interrupt the processor takes, and the others. *)
Fixpoint next_intr (ipl : Z) (l : list (Z * list wake)) : option (list wake * list (Z * list wake)) :=
  match l with
  | [] => None
  | i :: l =>
      if masked ipl i.1 then
        match next_intr ipl l with Some (ws, rest) => Some (ws, i :: rest) | None => None end
      else Some (i.2, l)
  end.

(** [sti; hlt]: sleep until the next interrupt that is not masked and run its
    handler.  With none to come the CPU stays halted. *)
Definition intr_wait : K unit :=
  let* ipl := apic_getipl in
  let* ints := gets k_intrs in
  match next_intr ipl ints with
  | None => blocked
  | Some (ws, rest) => modify (set_intrs rest) ;; run_wakes ws
  end.

(** ** The queue invariant *)

(** The states a thread may have while it is on a queue. *)
Definition state_ok (q : Z) (st : kt_state_t) : Prop :=
  if decide (q = kt_runq) then st = KT_RUN \/ st = KT_EXITED
  else st = KT_SLEEP \/ st = KT_SLEEP_CANCELLABLE.

(** Every queue lists, once, exactly the threads whose wait channel it is, and
    its size is their number. *)
Record sched_wf (s : kstate) : Prop := {
  wf_runq : is_Some (k_queues s !! kt_runq);
  wf_size : Z.of_nat (size (k_threads s)) < 2 ^ 31;
  wf_queue : forall q tq, k_queues s !! q = Some tq ->
    NoDup (tq_list tq) /\ tq_size tq = Z.of_nat (length (tq_list tq));
  wf_member : forall q tq t, k_queues s !! q = Some tq -> t ∈ tq_list tq ->
    exists th, k_threads s !! t = Some th /\ kt_wchan th = Some q /\ state_ok q (kt_state th);
  wf_wchan : forall t th q, k_threads s !! t = Some th -> kt_wchan th = Some q ->
    exists tq, k_queues s !! q = Some tq /\ t ∈ tq_list tq;
  wf_link : forall t th q, k_threads s !! t = Some th ->
    kt_wchan th = Some q <-> kt_qlink th = OnQueue q
}.

(** The queue as a sequence, oldest sleeper first. *)
Definition fifo (s : kstate) (q : Z) : option (list Z) :=
  (fun tq => reverse (tq_list tq)) <$> (k_queues s !! q).

(** The states the queue primitives lead to. *)
Definition enq (q thr : Z) (th : kthread) (tq : ktqueue) (s : kstate) : kstate :=
  upd_queues <[q := Ktqueue (thr :: tq_list tq) (tq_size tq + 1)]>
    (upd_threads <[thr := t_wchan (Some q) (t_qlink (OnQueue q) th)]> s).

Definition deq (q thr : Z) (th : kthread) (l : list Z) (n : Z) (s : kstate) : kstate :=
  upd_threads <[thr := t_wchan None (t_qlink Unlinked th)]>
    (upd_queues <[q := Ktqueue l n]> s).

Lemma queue_length_bound s q tq :
  sched_wf s -> k_queues s !! q = Some tq ->
  (length (tq_list tq) <= size (k_threads s))%nat.
Proof.
  intros Hwf Hq. destruct (wf_queue s Hwf _ _ Hq) as [Hnd _].
  rewrite <- (size_dom (k_threads s)), <- (size_list_to_set (C := gset Z) (tq_list tq)) by done.
  apply subseteq_size. intros t Ht%elem_of_list_to_set. apply elem_of_dom.
  destruct (wf_member s Hwf _ _ _ Hq Ht) as (th & -> & _). done.
Qed.

Lemma enqueue_run s q thr th tq :
  sched_wf s -> k_threads s !! thr = Some th -> k_queues s !! q = Some tq ->
  kt_wchan th = None ->
  ktqueue_enqueue q thr s = Done tt (enq q thr th tq s).
Proof.
  intros Hwf Ht Hq Hw.
  assert (thr ∉ tq_list tq) as Hni.
  { intros Hin. destruct (wf_member s Hwf _ _ _ Hq Hin) as (th' & E & Hw' & _). congruence. }
  assert (length (thr :: tq_list tq) <= size (k_threads s))%nat as Hlen.
  { rewrite <- (size_dom (k_threads s)), <- (size_list_to_set (C := gset Z) (thr :: tq_list tq)).
    2:{ apply NoDup_cons. split; [done|]. by eapply wf_queue. }
    apply subseteq_size. intros t Hin%elem_of_list_to_set. apply elem_of_dom.
    apply elem_of_cons in Hin as [->|Hin]; [by eexists|].
    destruct (wf_member s Hwf _ _ _ Hq Hin) as (th' & -> & _). done. }
  pose proof (wf_size s Hwf). destruct (wf_queue s Hwf _ _ Hq) as [_ Hsz].
  unfold ktqueue_enqueue, get_thread, set_thread, get_queue, set_queue.
  unfold bind, deref, kassert, modify. rewrite Ht, Hw. simpl.
  assert (forall x, kt_qlink th <> OnQueue x) as Hl.
  { intros x Hx. apply (wf_link s Hwf _ _ x Ht) in Hx. congruence. }
  destruct (kt_qlink th) eqn:E; [..|by edestruct Hl];
    rewrite Hq; simpl; unfold get_thread, deref; simpl; rewrite Ht; simpl;
    rewrite lookup_insert_eq; simpl; simpl in Hlen;
    unfold enq, upd_queues, upd_threads; simpl;
    rewrite insert_insert_eq, s32_small by lia; done.
Qed.

Lemma enq_wf s q thr th tq :
  sched_wf s -> k_threads s !! thr = Some th -> k_queues s !! q = Some tq ->
  kt_wchan th = None -> state_ok q (kt_state th) ->
  sched_wf (enq q thr th tq s).
Proof.
  intros Hwf Ht Hq Hw Hst.
  assert (forall q' tq', k_queues s !! q' = Some tq' -> thr ∉ tq_list tq') as Hni.
  { intros q' tq' Hq' Hin. destruct (wf_member s Hwf _ _ _ Hq' Hin) as (th' & E & Hw' & _).
    congruence. }
  split; simpl.
  - destruct (decide (q = kt_runq)) as [->|]; [by rewrite lookup_insert_eq|].
    rewrite lookup_insert_ne by done. apply Hwf.
  - rewrite map_size_insert, Ht. apply Hwf.
  - intros q' tq'. destruct (decide (q = q')) as [->|].
    + rewrite lookup_insert_eq. intros [= <-]. simpl.
      destruct (wf_queue s Hwf _ _ Hq) as [Hnd ->].
      split; [apply NoDup_cons; eauto|lia].
    + rewrite lookup_insert_ne by done. apply Hwf.
  - intros q' tq' t. destruct (decide (q = q')) as [->|Hne].
    + rewrite lookup_insert_eq. intros [= <-] [->|Hin]%elem_of_cons.
      * rewrite lookup_insert_eq. eexists. split; [done|]. done.
      * rewrite lookup_insert_ne by (intros ->; by eapply Hni). by eapply wf_member.
    + rewrite lookup_insert_ne by done. intros Hq' Hin.
      rewrite lookup_insert_ne by (intros ->; by eapply Hni). by eapply wf_member.
  - intros t th' q'. destruct (decide (thr = t)) as [->|Hne].
    + rewrite lookup_insert_eq. intros [= <-] [= <-]. rewrite lookup_insert_eq.
      eexists. split; [done|]. by left.
    + rewrite lookup_insert_ne by done. intros Ht' Hw'.
      destruct (wf_wchan s Hwf _ _ _ Ht' Hw') as (tq' & Hq' & Hin).
      destruct (decide (q = q')) as [->|].
      * rewrite lookup_insert_eq. eexists. split; [done|]. right. congruence.
      * rewrite lookup_insert_ne by done. eauto.
  - intros t th' q'. destruct (decide (thr = t)) as [->|Hne].
    + rewrite lookup_insert_eq. intros [= <-]. simpl. naive_solver.
    + rewrite lookup_insert_ne by done. apply Hwf.
Qed.

Lemma dequeue_run s q l t n th :
  k_queues s !! q = Some (Ktqueue (l ++ [t]) n) -> k_threads s !! t = Some th ->
  sched_wf s ->
  ktqueue_dequeue q s = Done (Some t) (deq q t th l (n - 1) s).
Proof.
  intros Hq Ht Hwf. destruct (wf_queue s Hwf _ _ Hq) as [_ Hsz]. simpl in Hsz.
  pose proof (queue_length_bound s q _ Hwf Hq) as Hb. pose proof (wf_size s Hwf). simpl in Hb.
  unfold ktqueue_dequeue, get_queue, bind, deref. rewrite Hq. simpl.
  rewrite last_snoc, removelast_last. unfold set_queue, set_thread, get_thread, bind, deref, modify.
  simpl. rewrite Ht. simpl. rewrite s32_small by lia. done.
Qed.

Lemma deq_wf s q l t n th :
  k_queues s !! q = Some (Ktqueue (l ++ [t]) n) -> k_threads s !! t = Some th ->
  sched_wf s -> sched_wf (deq q t th l (n - 1) s).
Proof.
  intros Hq Ht Hwf. destruct (wf_queue s Hwf _ _ Hq) as [Hnd Hsz]. simpl in Hnd, Hsz.
  apply NoDup_app in Hnd as (Hnd & Hdis & _).
  assert (t ∉ l) as Hni by (intros Hin; eapply Hdis; [done|by left]).
  assert (kt_wchan th = Some q) as Hw.
  { destruct (wf_member s Hwf _ _ t Hq) as (th' & E & ? & _); [simpl; set_solver|congruence]. }
  assert (forall q' tq', q' <> q -> k_queues s !! q' = Some tq' -> t ∉ tq_list tq') as Hoth.
  { intros q' tq' Hne Hq' Hin. destruct (wf_member s Hwf _ _ _ Hq' Hin) as (th' & E & ? & _).
    congruence. }
  split; simpl.
  - destruct (decide (q = kt_runq)) as [->|]; [by rewrite lookup_insert_eq|].
    rewrite lookup_insert_ne by done. apply Hwf.
  - rewrite map_size_insert, Ht. apply Hwf.
  - intros q' tq'. destruct (decide (q = q')) as [->|].
    + rewrite lookup_insert_eq. intros [= <-]. simpl. split; [done|].
      rewrite length_app in Hsz. simpl in Hsz. lia.
    + rewrite lookup_insert_ne by done. apply Hwf.
  - intros q' tq' t'. destruct (decide (q = q')) as [->|Hne].
    + rewrite lookup_insert_eq. intros [= <-] Hin. simpl in Hin.
      rewrite lookup_insert_ne by congruence.
      eapply wf_member; [done|exact Hq|]. simpl. set_solver.
    + rewrite lookup_insert_ne by done. intros Hq' Hin.
      rewrite lookup_insert_ne by (intros ->; by eapply Hoth). by eapply wf_member.
  - intros t' th' q'. destruct (decide (t = t')) as [->|Hne].
    + rewrite lookup_insert_eq. by intros [= <-].
    + rewrite lookup_insert_ne by done. intros Ht' Hw'.
      destruct (wf_wchan s Hwf _ _ _ Ht' Hw') as (tq' & Hq' & Hin).
      destruct (decide (q = q')) as [->|].
      * rewrite lookup_insert_eq. eexists. split; [done|]. simplify_eq. simpl in *. set_solver.
      * rewrite lookup_insert_ne by done. eauto.
  - intros t' th' q'. destruct (decide (t = t')) as [->|Hne].
    + rewrite lookup_insert_eq. intros [= <-]. simpl. naive_solver.
    + rewrite lookup_insert_ne by done. apply Hwf.
Qed.

(** Changing a thread's fields other than its queue position. *)
Lemma set_thread_run s t th f :
  k_threads s !! t = Some th -> set_thread t f s = Done tt (upd_threads <[t := f th]> s).
Proof. intros Ht. unfold set_thread, get_thread, bind, deref. by rewrite Ht. Qed.

Lemma upd_thread_wf s t th th' :
  sched_wf s -> k_threads s !! t = Some th ->
  kt_wchan th' = kt_wchan th -> kt_qlink th' = kt_qlink th ->
  (forall q, kt_wchan th = Some q -> state_ok q (kt_state th')) ->
  sched_wf (upd_threads <[t := th']> s).
Proof.
  intros Hwf Ht Hw Hl Hst. split; simpl; try apply Hwf.
  - rewrite map_size_insert, Ht. apply Hwf.
  - intros q tq t' Hq Hin. destruct (wf_member s Hwf _ _ _ Hq Hin) as (th1 & E & ? & ?).
    destruct (decide (t = t')) as [->|].
    + rewrite lookup_insert_eq. eexists. split; [done|]. simplify_eq. split; [congruence|auto].
    + rewrite lookup_insert_ne by done. eauto.
  - intros t' th1 q. destruct (decide (t = t')) as [->|].
    + rewrite lookup_insert_eq. intros [= <-]. rewrite Hw. by eapply wf_wchan.
    + rewrite lookup_insert_ne by done. by apply wf_wchan.
  - intros t' th1 q. destruct (decide (t = t')) as [->|].
    + rewrite lookup_insert_eq. intros [= <-]. rewrite Hw, Hl. by eapply wf_link.
    + rewrite lookup_insert_ne by done. by apply wf_link.
Qed.

(** Everything but the threads and the queues. *)
Definition same_rest (s s' : kstate) : Prop :=
  k_mutexes s' = k_mutexes s /\ k_procs s' = k_procs s /\ curthr s' = curthr s /\
  curproc s' = curproc s /\ proc_list s' = proc_list s /\ proc_initproc s' = proc_initproc s /\
  next_pid s' = next_pid s /\ k_ipl s' = k_ipl s /\ runq_first s' = runq_first s /\
  k_intrs s' = k_intrs s /\ k_calls s' = k_calls s /\ k_fresh s' = k_fresh s /\
  k_oom s' = k_oom s /\ k_pagedir s' = k_pagedir s.

#[export] Instance same_rest_trans : Transitive same_rest.
Proof. intros s1 s2 s3. unfold same_rest. intros H1 H2. destruct_and!. repeat split; congruence. Qed.
#[export] Instance same_rest_refl : Reflexive same_rest.
Proof. done. Qed.

(** A thread made runnable. *)
Definition woken (th : kthread) : kthread :=
  t_wchan (Some kt_runq) (t_qlink (OnQueue kt_runq) (t_state KT_RUN th)).

(** The threads [ts] have left the front of queue [q] (where [rest] remains) for
    the back of the run queue, runnable, and nothing else has changed. *)
Record moved (ts rest : list Z) (q : Z) (s s' : kstate) : Prop := {
  mv_wf : sched_wf s';
  mv_from : fifo s' q = Some rest;
  mv_to : fifo s' kt_runq = (fun l => l ++ ts) <$> fifo s kt_runq;
  mv_others : forall q', q' <> q -> q' <> kt_runq -> k_queues s' !! q' = k_queues s !! q';
  mv_woken : forall t, t ∈ ts -> k_threads s' !! t = woken <$> (k_threads s !! t);
  mv_threads : forall t, t ∉ ts -> k_threads s' !! t = k_threads s !! t;
  mv_rest : same_rest s s'
}.

Lemma fifo_front s q t rest :
  fifo s q = Some (t :: rest) ->
  exists n, k_queues s !! q = Some (Ktqueue (reverse rest ++ [t]) n).
Proof.
  unfold fifo. intros ([l n] & Hq & E)%fmap_Some. simpl in *.
  exists n. rewrite Hq. f_equal. f_equal. by rewrite <- (reverse_involutive l), <- E, reverse_cons.
Qed.

Lemma fifo_empty s q tq : k_queues s !! q = Some tq -> fifo s q = Some [] <-> tq_list tq = [].
Proof.
  unfold fifo. intros ->. simpl. split; [|by intros ->].
  intros [= E]. rewrite <- (reverse_involutive (tq_list tq)), E. done.
Qed.

(** The common tail of wakeup and broadcast: dequeue, mark runnable, enqueue on
    the run queue. *)
Lemma move_one s q t rest :
  sched_wf s -> q <> kt_runq -> fifo s q = Some (t :: rest) ->
  exists th s1, k_threads s !! t = Some th /\ (kt_state th = KT_SLEEP \/ kt_state th = KT_SLEEP_CANCELLABLE) /\
    ktqueue_dequeue q s = Done (Some t) s1 /\
    k_threads s1 !! t = Some (t_wchan None (t_qlink Unlinked th)) /\
    exists s2, (set_thread t (t_state KT_RUN) ;; ktqueue_enqueue kt_runq t) s1 = Done tt s2 /\
      moved [t] rest q s s2.
Proof.
  intros Hwf Hne Hf. destruct (fifo_front _ _ _ _ Hf) as [n Hq].
  destruct (wf_member s Hwf _ _ t Hq) as (th & Ht & Hw & Hst); [simpl; set_solver|].
  unfold state_ok in Hst. rewrite decide_False in Hst by done.
  pose proof (dequeue_run s q _ t n th Hq Ht Hwf) as Ed.
  pose proof (deq_wf s q _ t n th Hq Ht Hwf) as Hwf1.
  set (s1 := deq q t th (reverse rest) (n - 1) s) in *.
  assert (k_threads s1 !! t = Some (t_wchan None (t_qlink Unlinked th))) as Ht1
    by apply lookup_insert_eq.
  exists th, s1. do 4 (split; [done|]).
  destruct (wf_runq s Hwf) as [tqr Hr].
  assert (k_queues s1 !! kt_runq = Some tqr) as Hr1 by (simpl; by rewrite lookup_insert_ne).
  set (s2 := upd_threads <[t := t_state KT_RUN (t_wchan None (t_qlink Unlinked th))]> s1).
  assert (sched_wf s2) as Hwf2 by (eapply upd_thread_wf; done).
  assert (k_threads s2 !! t = Some (t_state KT_RUN (t_wchan None (t_qlink Unlinked th)))) as Ht2
    by apply lookup_insert_eq.
  exists (enq kt_runq t (t_state KT_RUN (t_wchan None (t_qlink Unlinked th))) tqr s2). split.
  { erewrite bind_done by (by apply set_thread_run). by apply enqueue_run. }
  split.
  - apply enq_wf; try done. left. done.
  - unfold fifo. simpl. rewrite lookup_insert_ne, lookup_insert_eq by done. simpl.
    by rewrite reverse_involutive.
  - unfold fifo. simpl. rewrite lookup_insert_eq, Hr. simpl. by rewrite reverse_cons.
  - intros q' Hq1 Hq2. simpl. by rewrite !lookup_insert_ne.
  - intros t' ->%list_elem_of_singleton. simpl. rewrite lookup_insert_eq, Ht. done.
  - intros t' Hne'. rewrite list_elem_of_singleton in Hne'. simpl.
    by rewrite !lookup_insert_ne by done.
  - done.
Qed.

Lemma queue_empty_run s q l :
  fifo s q = Some l -> sched_queue_empty q s = Done (bool_decide (l = [])) s.
Proof.
  unfold fifo. intros ([l' n] & Hq & ->)%fmap_Some.
  unfold sched_queue_empty, get_queue, bind, deref. rewrite Hq. simpl. unfold ret. f_equal.
  apply bool_decide_ext. split; [by intros ->|]. intros E.
  rewrite <- (reverse_involutive l'), E. done.
Qed.

Lemma wakeup_run s q t rest :
  sched_wf s -> q <> kt_runq -> fifo s q = Some (t :: rest) ->
  runs (sched_wakeup_on q) s (fun r s' => r = Some t /\ moved [t] rest q s s').
Proof.
  intros Hwf Hne Hf. destruct (move_one s q t rest Hwf Hne Hf)
    as (th & s1 & Ht & Hst & Ed & Ht1 & s2 & E2 & Hm).
  eapply runs_intro; [|split; [reflexivity|exact Hm]].
  unfold sched_wakeup_on. krun (queue_empty_run s q _ Hf).
  rewrite bool_decide_eq_false_2 by done. krun Ed.
  unfold bind at 1. unfold deref at 1. erewrite bind_done.
  2:{ unfold get_thread, deref. by rewrite Ht1. }
  cbv beta. unfold bind at 1. unfold kassert. simpl kt_state. rewrite bool_decide_eq_true_2 by done.
  unfold bind in E2 |- *. destruct (set_thread t (t_state KT_RUN) s1) as [[] s3| | |]; try done.
  by rewrite E2.
Qed.

Lemma moved_trans t ts rest q s s1 s2 :
  moved [t] (ts ++ rest) q s s1 -> moved ts rest q s1 s2 -> t ∉ ts -> moved (t :: ts) rest q s s2.
Proof.
  intros H1 H2 Hni. split.
  - apply H2.
  - apply H2.
  - rewrite (mv_to _ _ _ _ _ H2), (mv_to _ _ _ _ _ H1). destruct (fifo s kt_runq); simpl; [|done].
    by rewrite <- app_assoc.
  - intros q' Hq1 Hq2. by rewrite (mv_others _ _ _ _ _ H2), (mv_others _ _ _ _ _ H1).
  - intros t' [->|Hin]%elem_of_cons.
    + rewrite (mv_threads _ _ _ _ _ H2) by done. apply (mv_woken _ _ _ _ _ H1). by left.
    + rewrite (mv_woken _ _ _ _ _ H2) by done. f_equal. apply (mv_threads _ _ _ _ _ H1).
      rewrite list_elem_of_singleton. congruence.
  - intros t' [? ?]%not_elem_of_cons. rewrite (mv_threads _ _ _ _ _ H2) by done.
    apply (mv_threads _ _ _ _ _ H1). by rewrite list_elem_of_singleton.
  - etrans; [apply H1|apply H2].
Qed.

Lemma moved_nil q rest s : sched_wf s -> fifo s q = Some rest -> moved [] rest q s s.
Proof.
  intros Hwf Hf. split; try done.
  - destruct (fifo s kt_runq); simpl; [by rewrite app_nil_r|done].
  - by intros t ?%not_elem_of_nil.
Qed.

Lemma broadcast_loop_run ts : forall s q fuel,
  sched_wf s -> q <> kt_runq -> fifo s q = Some ts -> (length ts <= fuel)%nat ->
  runs (broadcast_loop fuel q) s (fun _ s' => moved ts [] q s s').
Proof.
  induction ts as [|t ts IH]; intros s q fuel Hwf Hne Hf Hlen.
  - destruct fuel; simpl broadcast_loop; apply runs_bind;
      (eapply runs_intro; [by apply queue_empty_run|]); simpl; by apply moved_nil.
  - destruct fuel as [|fuel]; [simpl in Hlen; lia|]. simpl broadcast_loop.
    apply runs_bind. eapply runs_intro; [by apply queue_empty_run|].
    rewrite bool_decide_eq_false_2 by done.
    assert (NoDup (t :: ts)) as Hnd.
    { destruct (fifo_front _ _ _ _ Hf) as [n Hq]. destruct (wf_queue s Hwf _ _ Hq) as [Hnd _].
      simpl in Hnd. apply (NoDup_Permutation_proper (reverse ts ++ [t])); [|done].
      rewrite <- reverse_cons. apply reverse_Permutation. }
    destruct (move_one s q t ts Hwf Hne Hf) as (th & s1 & Ht & Hst & Ed & Ht1 & s2 & E2 & Hm).
    apply runs_bind. eapply runs_intro; [exact Ed|]. cbv beta.
    apply runs_bind. apply runs_deref with (a := t); [done|].
    unfold runs. rewrite <- (bind_assoc (set_thread t (t_state KT_RUN)) (fun _ => ktqueue_enqueue kt_runq t)
      (fun _ => broadcast_loop fuel q)). krun E2. fold (runs (broadcast_loop fuel q) s2 (fun _ s' => moved (t :: ts) [] q s s')).
    eapply runs_mono; [apply IH; [apply Hm|done|apply Hm|simpl in Hlen; lia]|].
    intros [] s' Hm'. cbv beta in Hm'. apply NoDup_cons in Hnd as [Hni _].
    eapply moved_trans; [|exact Hm'|done]. by rewrite app_nil_r.
Qed.

(** A queue reset when it is already empty. *)
Lemma queue_init_empty s q :
  sched_wf s -> fifo s q = Some [] -> sched_queue_init q s = Done tt s.
Proof.
  intros Hwf Hf. unfold fifo in Hf. apply fmap_Some in Hf as ([l n] & Hq & E). simpl in E.
  assert (l = []) as -> by (rewrite <- (reverse_involutive l), <- E; done).
  destruct (wf_queue s Hwf _ _ Hq) as [_ Hsz]. simpl in Hsz. subst n.
  unfold sched_queue_init, set_queue, modify, upd_queues. rewrite insert_id by done. by destruct s.
Qed.

(** ** Removal from the middle of a queue *)
(** The thread [t] taken off queue [q], with its record replaced by [th']. *)
Definition rmq (q t : Z) (th' : kthread) (tq : ktqueue) (s : kstate) : kstate :=
  upd_threads <[t := th']>
    (upd_queues <[q := Ktqueue (filter (fun x => x <> t) (tq_list tq)) (tq_size tq - 1)]> s).

Lemma rmq_wf s q t th th' tq :
  sched_wf s -> k_threads s !! t = Some th -> kt_wchan th = Some q -> k_queues s !! q = Some tq ->
  kt_wchan th' = None -> kt_qlink th' = Unlinked -> sched_wf (rmq q t th' tq s).
Proof.
  intros Hwf Ht Hw Hq Hw' Hl'.
  assert (t ∈ tq_list tq) as Hin.
  { destruct (wf_wchan s Hwf _ _ _ Ht Hw) as (tq1 & E & ?). congruence. }
  assert (forall q' tq' t', k_queues s !! q' = Some tq' -> t' ∈ tq_list tq' -> q' <> q -> t' <> t) as Hoth.
  { intros q' tq' t' Hq' Hin' Hne ->. destruct (wf_member s Hwf _ _ _ Hq' Hin') as (? & ? & ? & _).
    congruence. }
  destruct (wf_queue s Hwf _ _ Hq) as [Hnd Hsz].
  split; simpl.
  - destruct (decide (q = kt_runq)) as [->|]; [by rewrite lookup_insert_eq|].
    rewrite lookup_insert_ne by done. apply Hwf.
  - rewrite map_size_insert, Ht. apply Hwf.
  - intros q' tq'. destruct (decide (q = q')) as [->|].
    + rewrite lookup_insert_eq. intros [= <-]. simpl. split; [by apply NoDup_filter|].
      rewrite (filter_ne_length t) in Hsz by done. lia.
    + rewrite lookup_insert_ne by done. apply Hwf.
  - intros q' tq' t'. destruct (decide (q = q')) as [->|].
    + rewrite lookup_insert_eq. intros [= <-]. simpl. intros [? ?]%list_elem_of_filter.
      rewrite lookup_insert_ne by done. by eapply wf_member.
    + rewrite lookup_insert_ne by done. intros Hq' Hin'.
      rewrite lookup_insert_ne by (apply not_eq_sym; eauto). by eapply wf_member.
  - intros t' th1 q'. destruct (decide (t = t')) as [->|].
    + rewrite lookup_insert_eq. intros [= <-]. congruence.
    + rewrite lookup_insert_ne by done. intros Ht' Hw1.
      destruct (wf_wchan s Hwf _ _ _ Ht' Hw1) as (tq' & Hq' & Hin').
      destruct (decide (q = q')) as [->|].
      * rewrite lookup_insert_eq. eexists. split; [done|]. simplify_eq. by apply list_elem_of_filter.
      * rewrite lookup_insert_ne by done. eauto.
  - intros t' th1 q'. destruct (decide (t = t')) as [->|].
    + rewrite lookup_insert_eq. intros [= <-]. rewrite Hw', Hl'. naive_solver.
    + rewrite lookup_insert_ne by done. apply Hwf.
Qed.

(** The invariant only speaks of threads and queues. *)
Lemma sched_wf_ext s s' :
  sched_wf s -> k_threads s' = k_threads s -> k_queues s' = k_queues s -> sched_wf s'.
Proof. intros [] Et Eq. split; rewrite ?Et, ?Eq; done. Qed.

Lemma filter_reverse (t : Z) (l : list Z) :
  filter (fun x => x <> t) (reverse l) = reverse (filter (fun x => x <> t) l).
Proof.
  induction l as [|a l IH]; [done|]. rewrite reverse_cons, filter_app, IH.
  destruct (decide (a = t)) as [->|Hne].
  - rewrite !filter_cons_False by naive_solver. by rewrite filter_nil, app_nil_r.
  - rewrite !filter_cons_True, filter_nil by done. by rewrite reverse_cons.
Qed.

(** [ktqueue_remove] of a thread whose record is [th1]: equal to the one of a
    well-formed state up to its run state and cancel flag. *)
Lemma remove_run s q t th th1 tq :
  sched_wf s -> k_threads s !! t = Some th -> kt_wchan th = Some q -> k_queues s !! q = Some tq ->
  kt_wchan th1 = kt_wchan th -> kt_qlink th1 = kt_qlink th ->
  ktqueue_remove (Some q) t (upd_threads <[t := th1]> s) =
  Done tt (rmq q t (t_wchan None (t_qlink Unlinked th1)) tq s).
Proof.
  intros Hwf Ht Hw Hq Hw1 Hl1.
  assert (kt_qlink th1 = OnQueue q) as Hl by (rewrite Hl1; by apply (wf_link s Hwf _ _ _ Ht)).
  assert (t ∈ tq_list tq) as Hin.
  { destruct (wf_wchan s Hwf _ _ _ Ht Hw) as (tq1 & E & ?). congruence. }
  destruct (wf_queue s Hwf _ _ Hq) as [Hnd Hsz].
  pose proof (queue_length_bound s q _ Hwf Hq) as Hb. pose proof (wf_size s Hwf).
  rewrite (filter_ne_length t) in Hsz by done. rewrite (filter_ne_length t) in Hb by done.
  unfold ktqueue_remove, qlink_remove, set_thread, get_thread, get_queue, set_queue, modify, bind,
    kassert, deref.
  cbn [k_threads upd_threads]. rewrite lookup_insert_eq, Hl. rewrite bool_decide_eq_true_2 by done.
  cbn. rewrite lookup_insert_eq, Hl. cbn. rewrite Hq. cbn. rewrite lookup_insert_eq. cbn.
  rewrite lookup_insert_eq. cbn. rewrite lookup_insert_eq. cbn. rewrite s32_small by lia.
  unfold rmq, upd_threads, upd_queues. cbn. rewrite !insert_insert_eq. done.
Qed.

Lemma broadcast_run s q ts :
  sched_wf s -> q <> kt_runq -> fifo s q = Some ts ->
  runs (sched_broadcast_on q) s (fun _ s' => moved ts [] q s s').
Proof.
  intros Hwf Hne Hf. unfold sched_broadcast_on.
  assert (exists tq, k_queues s !! q = Some tq /\ length (tq_list tq) = length ts) as (tq & Hq & Hl).
  { unfold fifo in Hf. apply fmap_Some in Hf as (tq & Hq & ->). exists tq.
    by rewrite length_reverse. }
  apply runs_bind. eapply runs_intro; [unfold get_queue, deref; by rewrite Hq|]. cbv beta.
  apply runs_bind. rewrite Hl. eapply runs_mono; [by apply broadcast_loop_run|].
  intros [] s' Hm. cbv beta in Hm. eapply runs_intro; [|exact Hm].
  apply queue_init_empty; apply Hm.
Qed.

(** ** A decision procedure for the invariant *)
Definition member_ok (s : kstate) (q t : Z) : bool :=
  match k_threads s !! t with
  | Some th => bool_decide (kt_wchan th = Some q) &&
      (if decide (q = kt_runq)
       then bool_decide (kt_state th = KT_RUN) || bool_decide (kt_state th = KT_EXITED)
       else bool_decide (kt_state th = KT_SLEEP) || bool_decide (kt_state th = KT_SLEEP_CANCELLABLE))
  | None => false
  end.

Definition thread_ok (s : kstate) (t : Z) (th : kthread) : bool :=
  match kt_wchan th, kt_qlink th with
  | Some q, OnQueue q' =>
      bool_decide (q = q') &&
      match k_queues s !! q with Some tq => bool_decide (t ∈ tq_list tq) | None => false end
  | None, Unlinked | None, SelfLinked => true
  | _, _ => false
  end.

Definition sched_check (s : kstate) : bool :=
  bool_decide (is_Some (k_queues s !! kt_runq)) &&
  (Z.of_nat (size (k_threads s)) <? 2 ^ 31) &&
  bool_decide (map_Forall (fun q tq => NoDup (tq_list tq) /\
    tq_size tq = Z.of_nat (length (tq_list tq)) /\
    Forall (fun t => member_ok s q t = true) (tq_list tq)) (k_queues s)) &&
  bool_decide (map_Forall (fun t th => thread_ok s t th = true) (k_threads s)).

Lemma member_ok_sound s q t :
  member_ok s q t = true ->
  exists th, k_threads s !! t = Some th /\ kt_wchan th = Some q /\ state_ok q (kt_state th).
Proof.
  unfold member_ok, state_ok. destruct (k_threads s !! t) as [th|]; [|done].
  intros [Hw Hst]%andb_prop. apply bool_decide_eq_true_1 in Hw. exists th. split_and!; try done.
  destruct (decide (q = kt_runq)); apply orb_prop in Hst as [H|H];
    apply bool_decide_eq_true_1 in H; auto.
Qed.

Lemma thread_ok_sound s t th :
  thread_ok s t th = true ->
  (forall q, kt_wchan th = Some q -> exists tq, k_queues s !! q = Some tq /\ t ∈ tq_list tq) /\
  (forall q, kt_wchan th = Some q <-> kt_qlink th = OnQueue q).
Proof.
  unfold thread_ok. destruct (kt_wchan th) as [q|]; destruct (kt_qlink th) as [| |q']; try done.
  intros [->%bool_decide_eq_true_1 Hq]%andb_prop.
  destruct (k_queues s !! q') as [tq|] eqn:E; [|done]. apply bool_decide_eq_true_1 in Hq.
  split; naive_solver.
Qed.

Lemma sched_check_sound s : sched_check s = true -> sched_wf s.
Proof.
  unfold sched_check. intros [[[H1 H2]%andb_prop H3]%andb_prop H4]%andb_prop.
  apply bool_decide_eq_true_1 in H1, H3, H4. split; [done|lia| | | |].
  - intros q tq Hq. by destruct (H3 q tq Hq) as (? & ? & _).
  - intros q tq t Hq Hin. destruct (H3 q tq Hq) as (_ & _ & Hall).
    rewrite Forall_forall in Hall. by apply member_ok_sound, Hall.
  - intros t th q Ht. apply (proj1 (thread_ok_sound s t th (H4 _ _ Ht))).
  - intros t th q Ht. apply (proj2 (thread_ok_sound s t th (H4 _ _ Ht))).
Qed.

(** A system in which thread 10 runs, 11 is ready and 12, 13 and 14 sleep on
    queue 5, the last one cancellably. *)
Definition demo_thread (p : Z) (st : kt_state_t) (q : option Z) : kthread :=
  Kthread 4096 None p 0 q st (match q with Some q => OnQueue q | None => Unlinked end).

Definition demo : kstate :=
  Kstate
    (list_to_map [(10, demo_thread 100 KT_RUN None); (11, demo_thread 101 KT_RUN (Some kt_runq));
                  (12, demo_thread 102 KT_SLEEP (Some 5)); (13, demo_thread 103 KT_SLEEP (Some 5));
                  (14, demo_thread 104 KT_SLEEP_CANCELLABLE (Some 5))])
    (list_to_map [(kt_runq, Ktqueue [11] 1); (5, Ktqueue [14; 13; 12] 3); (6, Ktqueue [] 0)])
    (list_to_map [(7, Kmutex 6 None); (8, Kmutex 5 (Some 10))])
    ∅ (Some 10) (Some 100) [] None 0 0 false [(0xe0, []); (0xd0, [WakeOne 5])] [] 1000 [] 4096.

Lemma demo_wf : sched_wf demo.
Proof. apply sched_check_sound. by vm_compute. Qed.

(** [sched_wakeup_on] takes the thread that has slept longest on the queue,
    makes it runnable and puts it at the back of the run queue; on an empty
    queue it returns NULL and does nothing. *)
Theorem sched_wakeup_on_fifo s q l :
  sched_wf s -> q <> kt_runq -> fifo s q = Some l ->
  match l with
  | [] => sched_wakeup_on q s = Done None s
  | t :: rest => runs (sched_wakeup_on q) s (fun r s' => r = Some t /\ moved [t] rest q s s')
  end.
Proof.
  intros Hwf Hne Hf. destruct l as [|t rest]; [|by apply wakeup_run].
  unfold sched_wakeup_on. by krun (queue_empty_run s q _ Hf).
Qed.

Lemma sched_wakeup_on_fifo_witness :
  runs (sched_wakeup_on 5) demo (fun r s' => r = Some 12 /\ moved [12] [13; 14] 5 demo s').
Proof.
  apply (sched_wakeup_on_fifo demo 5 [12; 13; 14]); [apply demo_wf|done|by vm_compute].
Defined.

(** [sched_broadcast_on] moves every sleeper of the queue to the run queue, in
    the order in which they went to sleep, and leaves the queue empty. *)
Theorem sched_broadcast_on_all s q ts :
  sched_wf s -> q <> kt_runq -> fifo s q = Some ts ->
  runs (sched_broadcast_on q) s (fun _ s' => moved ts [] q s s').
Proof. apply broadcast_run. Qed.

Lemma sched_broadcast_on_all_witness :
  runs (sched_broadcast_on 5) demo (fun _ s' => moved [12; 13; 14] [] 5 demo s').
Proof. apply (sched_broadcast_on_all demo 5 [12; 13; 14]); [apply demo_wf|done|by vm_compute]. Defined.

(** [sched_cancel] of a cancellable sleeper flags it and moves it, wherever it
    was in its queue, to the back of the run queue; the others keep their
    places.  Any other thread is left alone. *)
Theorem sched_cancel_spec s t th :
  sched_wf s -> k_threads s !! t = Some th ->
  match kt_state th, kt_wchan th with
  | KT_SLEEP_CANCELLABLE, Some q =>
      runs (sched_cancel t) s (fun _ s' =>
        sched_wf s' /\
        fifo s' q = (fun l => filter (fun x => x <> t) l) <$> fifo s q /\
        fifo s' kt_runq = (fun l => l ++ [t]) <$> fifo s kt_runq /\
        k_threads s' !! t = Some (t_cancelled 1 (woken th)) /\
        (forall t', t' <> t -> k_threads s' !! t' = k_threads s !! t') /\ same_rest s s')
  | KT_SLEEP_CANCELLABLE, None => True
  | _, _ => sched_cancel t s = Done tt s
  end.
Proof.
  intros Hwf Ht. unfold sched_cancel.
  destruct (kt_state th) eqn:Est; try (destruct (kt_wchan th) as [q|] eqn:Hw);
    try exact I; try (unfold get_thread, bind, deref; rewrite Ht, Est; done).
  destruct (wf_wchan s Hwf _ _ _ Ht Hw) as (tq & Hq & Hin).
  assert (q <> kt_runq) as Hne.
  { destruct (wf_member s Hwf _ _ _ Hq Hin) as (? & ? & ? & Hst). simplify_eq.
    rewrite Est in Hst. unfold state_ok in Hst. destruct (decide (q = kt_runq)); naive_solver. }
  set (th1 := t_state KT_RUN (t_cancelled 1 th)).
  set (th2 := t_wchan None (t_qlink Unlinked th1)).
  assert (sched_wf (rmq q t th2 tq s)) as Hwf2 by (by eapply rmq_wf).
  destruct (wf_runq s Hwf) as [tqr Hr].
  assert (k_queues (rmq q t th2 tq s) !! kt_runq = Some tqr) as Hr2
    by (simpl; by rewrite lookup_insert_ne).
  assert (k_threads (rmq q t th2 tq s) !! t = Some th2) as Ht2 by apply lookup_insert_eq.
  eapply runs_intro with (a := tt) (s' := enq kt_runq t th2 tqr (rmq q t th2 tq s)).
  { erewrite bind_done by (unfold get_thread, deref; by rewrite Ht). cbv beta.
    rewrite Est, bool_decide_eq_true_2 by done.
    krun (set_thread_run s t th (t_cancelled 1) Ht).
    erewrite bind_done by (apply set_thread_run; apply lookup_insert_eq). cbv beta.
    erewrite bind_done by (unfold get_thread, deref; cbn; by rewrite lookup_insert_eq).
    cbv beta zeta.
    replace (upd_threads <[t:=t_state KT_RUN (t_cancelled 1 th)]> (upd_threads <[t:=t_cancelled 1 th]> s))
      with (upd_threads <[t:=th1]> s) by (unfold upd_threads; cbn; by rewrite insert_insert_eq).
    replace (kt_wchan (t_state KT_RUN (t_cancelled 1 th))) with (Some q) by done.
    krun (remove_run s q t th th1 tq Hwf Ht Hw Hq eq_refl eq_refl).
    by apply enqueue_run. }
  split_and!.
  - apply enq_wf; try done. by left.
  - unfold fifo. simpl. rewrite lookup_insert_ne, lookup_insert_eq, Hq by done. simpl.
    by rewrite filter_reverse.
  - unfold fifo. simpl. rewrite lookup_insert_eq, Hr. simpl. by rewrite reverse_cons.
  - simpl. by rewrite lookup_insert_eq.
  - intros t' Hne'. simpl. by rewrite !lookup_insert_ne by done.
  - done.
Qed.

Lemma sched_cancel_spec_witness :
  runs (sched_cancel 14) demo (fun _ s' =>
    sched_wf s' /\ fifo s' 5 = Some [12; 13] /\ fifo s' kt_runq = Some [11; 14]).
Proof.
  eapply runs_mono.
  - apply (sched_cancel_spec demo 14 (demo_thread 104 KT_SLEEP_CANCELLABLE (Some 5)));
      [apply demo_wf|by vm_compute].
  - intros [] s' (H1 & -> & -> & _). by vm_compute.
Defined.
End Sched.
