(* ===== verification/Proc.v ===== *)
(** * Processes, threads and the context switch
      ([proc/proc.c], [proc/kthread.c], [proc/sched.c])

    The functions that may give up the CPU, in the resumption monad of [Coop].
    [sched_switch], [do_exit], [kthread_exit] and [proc_cleanup] call each other;
    the recursion is tied through [sched_switch], on fuel: one unit per nested
    or repeated call. *)

From Stdlib Require Import ZArith Lia.
From stdpp Require Import base list gmap.
From S2P Require Import Prelude Coop Sched.

Module Proc.
Import Sched.
Local Open Scope Z_scope.

Definition NFILES : nat := 32.
Definition PROC_MAX_COUNT : Z := 65536.
Definition PROC_NAME_LEN : Z := 256.
Definition PAGE_SIZE : Z := 4096.
Definition PID_IDLE : Z := 0.
Definition PID_INIT : Z := 1.
Definition ECHILD : Z := 10.

(** ** Field updates *)
Definition pr_threads (v : list Z) (x : proc) : proc :=
  Proc
    (p_pid x) (p_comm x) v (p_children x) (p_pproc x)
    (p_status x) (p_state x) (p_wait x) (p_pagedir x) (p_files x)
    (p_cwd x).
Definition pr_children (v : list Z) (x : proc) : proc :=
  Proc
    (p_pid x) (p_comm x) (p_threads x) v (p_pproc x)
    (p_status x) (p_state x) (p_wait x) (p_pagedir x) (p_files x)
    (p_cwd x).
Definition pr_pproc (v : option Z) (x : proc) : proc :=
  Proc
    (p_pid x) (p_comm x) (p_threads x) (p_children x) v
    (p_status x) (p_state x) (p_wait x) (p_pagedir x) (p_files x)
    (p_cwd x).
Definition pr_status (v : Z) (x : proc) : proc :=
  Proc
    (p_pid x) (p_comm x) (p_threads x) (p_children x) (p_pproc x)
    v (p_state x) (p_wait x) (p_pagedir x) (p_files x)
    (p_cwd x).
Definition pr_state (v : p_state_t) (x : proc) : proc :=
  Proc
    (p_pid x) (p_comm x) (p_threads x) (p_children x) (p_pproc x)
    (p_status x) v (p_wait x) (p_pagedir x) (p_files x)
    (p_cwd x).
Definition pr_files (v : list (option Z)) (x : proc) : proc :=
  Proc
    (p_pid x) (p_comm x) (p_threads x) (p_children x) (p_pproc x)
    (p_status x) (p_state x) (p_wait x) (p_pagedir x) v
    (p_cwd x).

Definition get_proc (p : Z) : K proc := fun s => deref (k_procs s !! p) s.
Definition set_proc (p : Z) (f : proc -> proc) : K unit :=
  let* pr := get_proc p in modify (upd_procs <[p := f pr]>).
Definition get_curproc : K Z := fun s => deref (curproc s) s.
Definition get_curthr : K Z := fun s => deref (curthr s) s.

(** A new object from a slab allocator or the page allocator, [None] when there is
    no memory. *)
Definition alloc : K (option Z) :=
  let* oom := gets k_oom in
  let* a := gets k_fresh in
  modify (set_oom (tail oom)) ;;
  if default false (head oom) then ret None
  else modify (set_fresh (a + 1)) ;; ret (Some a).

(** The address of an object inside a new one. *)
Definition fresh : K Z :=
  let* a := gets k_fresh in modify (set_fresh (a + 1)) ;; ret a.

(** [pt_get] *)
Definition pt_get : K Z := gets k_pagedir.

(** [list_link_is_linked(&p->p_child_link)]: the link is in the list of children
    of the process [p_pproc] names. *)
Definition child_linked (p : Z) : K bool :=
  let* pr := get_proc p in
  match p_pproc pr with
  | None => ret false
  | Some pp => let* ppr := get_proc pp in ret (bool_decide (p ∈ p_children ppr))
  end.

(** [list_remove(&p->p_child_link)] *)
Definition child_remove (p : Z) : K unit :=
  let* pr := get_proc p in
  let* pp := deref (p_pproc pr) in
  set_proc pp (fun ppr => pr_children (filter (fun c => c <> p) (p_children ppr)) ppr).

(** ** [_proc_getid] *)

(** The search from [pid]: [start] is [next_pid]; a whole turn finds nothing. *)
Fixpoint getid_loop (fuel : nat) (used : list Z) (start pid : Z) : option Z :=
  match fuel with
  | O => None
  | S fuel =>
      if bool_decide (pid ∈ used) then
        let pid := (pid + 1) mod PROC_MAX_COUNT in
        if pid =? start then Some (-1) else getid_loop fuel used start pid
      else Some pid
  end.

(** The pids of the processes in [_proc_list]. *)
Fixpoint list_pids (ps : list Z) : K (list Z) :=
  match ps with
  | [] => ret []
  | p :: ps => let* pr := get_proc p in let* r := list_pids ps in ret (p_pid pr :: r)
  end.

Definition _proc_getid : K Z :=
  let* ps := gets proc_list in
  let* used := list_pids ps in
  let* start := gets next_pid in
  match getid_loop (Z.to_nat PROC_MAX_COUNT) used start start with
  | None => blocked
  | Some (-1) => ret (-1)
  | Some pid => modify (set_next_pid ((pid + 1) mod PROC_MAX_COUNT)) ;; ret pid
  end.

(** ** [proc_create]: [name] is the C string without its terminator.  The result of
    the allocator is cleared without being compared with NULL. *)
Definition proc_create (name : list Z) : K Z :=
  let* new := alloc in
  let* pid := _proc_getid in
  let* new := deref new in
  (if pid =? PID_IDLE then let* pl := gets proc_list in kassert (bool_decide (pl = []))
   else ret tt) ;;
  (if pid =? PID_INIT then
     let* cp := get_curproc in
     let* cpr := get_proc cp in
     kassert (p_pid cpr =? PID_IDLE) ;;
     modify (set_initproc (Some new))
   else ret tt) ;;
  let* cwd :=
    (if pid >? 2 then
       let* cp := get_curproc in
       let* cpr := get_proc cp in
       match p_cwd cpr with
       | None => panic
       | Some v => modify (add_call (CallVref v)) ;; ret (Some v)
       end
     else ret None) in
  let* parent := gets curproc in
  let* pagedir := pt_get in
  let* wait := fresh in
  (if Z.of_nat (length name) <? PROC_NAME_LEN then ret tt else stuck) ;;
  modify (upd_procs <[new := Proc pid name [] [] parent 0 PROC_RUNNING wait pagedir
                               (replicate NFILES None) cwd]>) ;;
  sched_queue_init wait ;;
  let* pl := gets proc_list in
  modify (set_proc_list (pl ++ [new])) ;;
  (if pid >? 0 then
     let* pp := deref parent in
     set_proc pp (fun ppr => pr_children (p_children ppr ++ [new]) ppr)
   else ret tt) ;;
  ret new.

Fixpoint proc_find (pid : Z) (ps : list Z) : K (option Z) :=
  match ps with
  | [] => ret None
  | p :: ps =>
      let* pr := get_proc p in
      if p_pid pr =? pid then ret (Some p) else proc_find pid ps
  end.

Definition proc_lookup (pid : Z) : K (option Z) :=
  let* ps := gets proc_list in proc_find pid ps.

(** ** Threads *)

(** [kthread_create]: the entry function and its arguments are the new context,
    which the running system keeps.  Of [context_setup] it is the assertions, and
    the stack it writes to, which is not compared with NULL; the page allocator
    gives out multiples of the page size. *)
Definition kthread_create (p : option Z) : K Z :=
  kassert (bool_decide (p <> None)) ;;
  let* p := deref p in
  let* new_thread := alloc in
  let* new_thread := deref new_thread in
  let* stack := alloc in
  let* pr := get_proc p in
  kassert (negb (p_pagedir pr =? 0)) ;;
  let* stack := deref stack in
  let kstack := PAGE_SIZE * stack in
  modify (upd_threads <[new_thread := Kthread kstack None p 0 None KT_RUN SelfLinked]>) ;;
  set_proc p (fun pr => pr_threads (p_threads pr ++ [new_thread]) pr) ;;
  ret new_thread.

Definition kthread_destroy (t : Z) : K unit :=
  let* th := get_thread t in
  kassert (negb (kt_kstack th =? 0)) ;;
  let* pr := get_proc (kt_proc th) in
  (if bool_decide (t ∈ p_threads pr)
   then set_proc (kt_proc th) (pr_threads (filter (fun x => x <> t) (p_threads pr)))
   else ret tt) ;;
  modify (upd_threads (delete t)).

(** [context_switch]: the CPU leaves [old] and continues with the context saved
    in [curthr]. *)
Definition context_switch (old : Z) : C unit := fun s => Yield old s (fun s' => RDone tt s').

(** ** The part of [proc_cleanup] after the init process has waited *)

(** Closing the open files: [do_close(i)] clears the descriptor and calls
    [fput]. *)
Fixpoint close_files (n : nat) (i : nat) : K unit :=
  match n with
  | O => ret tt
  | S n =>
      let* cp := get_curproc in
      let* pr := get_proc cp in
      match p_files pr !! i with
      | Some (Some f) =>
          set_proc cp (fun pr => pr_files (<[i := None]> (p_files pr)) pr) ;;
          modify (add_call (CallFput f))
      | Some None => ret tt
      | None => stuck
      end ;;
      close_files n (S i)
  end.

(** The reparenting loop, over the children the list had when it began. *)
Fixpoint reparent (cs : list Z) : K unit :=
  match cs with
  | [] => ret tt
  | c :: cs =>
      let* linked := child_linked c in
      (if linked : bool then
         child_remove c ;;
         let* ip := gets proc_initproc in
         set_proc c (pr_pproc ip) ;;
         let* ip := deref ip in
         set_proc ip (fun ipr => pr_children (p_children ipr ++ [c]) ipr)
       else ret tt) ;;
      reparent cs
  end.

(** Waking the parent: one [sched_wakeup_on] per sleeping thread it has. *)
Fixpoint wake_parent (wait : Z) (ts : list Z) : K unit :=
  match ts with
  | [] => ret tt
  | t :: ts =>
      let* th := get_thread t in
      (if bool_decide (kt_state th = KT_SLEEP) then sched_wakeup_on wait ;; ret tt else ret tt) ;;
      wake_parent wait ts
  end.

Definition cleanup_tail (status : Z) : K unit :=
  close_files NFILES 0 ;;
  let* cp := get_curproc in
  let* pr := get_proc cp in
  match p_cwd pr with
  | None => panic
  | Some v => modify (add_call (CallVput v))
  end ;;
  reparent (p_children pr) ;;
  set_proc cp (pr_state PROC_DEAD) ;;
  set_proc cp (pr_status status) ;;
  let* pr := get_proc cp in
  let* pp := deref (p_pproc pr) in
  let* ppr := get_proc pp in
  wake_parent (p_wait ppr) (p_threads ppr).

(** ** The mutually recursive functions, over [sw], the call of [sched_switch] *)
Section Knot.
Variable fuel : nat.
Variable sw : C unit.

(** [while (1) { if (list_empty(children)) break; else sched_switch(); }] *)
Fixpoint wait_no_children (n : nat) : C unit :=
  match n with
  | O => cblocked
  | S n =>
      let! cp := lift get_curproc in
      let! pr := lift (get_proc cp) in
      if bool_decide (p_children pr = []) then cret tt else sw ;! wait_no_children n
  end.

Definition proc_cleanup_with (status : Z) : C unit :=
  let! cp := lift get_curproc in
  let! pr := lift (get_proc cp) in
  cassert (1 <=? p_pid pr) ;!
  cassert (bool_decide (p_pproc pr <> None)) ;!
  let! ip := cgets proc_initproc in
  (if bool_decide (ip = Some cp) then wait_no_children fuel else cret tt) ;!
  lift (cleanup_tail status).

(** [retval] is dereferenced as a pointer to the exit status. *)
Definition proc_thread_exited_with (retval : option Z) : C unit :=
  let! status := cderef retval in proc_cleanup_with status.

Definition kthread_exit_with (retval : option Z) : C unit :=
  let! ct := lift get_curthr in
  let! th := lift (get_thread ct) in
  cassert (bool_decide (kt_wchan th = None)) ;!
  cassert (bool_decide (kt_qlink th = Unlinked)) ;!
  let! cp := cgets curproc in
  cassert (bool_decide (Some (kt_proc th) = cp)) ;!
  lift (set_thread ct (t_retval retval)) ;!
  lift (set_thread ct (t_state KT_EXITED)) ;!
  proc_thread_exited_with retval ;!
  sw.

Definition kthread_cancel_with (kthr : option Z) (retval : option Z) : C unit :=
  cassert (bool_decide (kthr <> None)) ;!
  let! k := cderef kthr in
  let! ct := cgets curthr in
  if bool_decide (ct = Some k) then kthread_exit_with retval
  else
    let! th := lift (get_thread k) in
    match kt_state th with
    | KT_SLEEP_CANCELLABLE => lift (set_thread k (t_retval retval) ;; sched_cancel k)
    | KT_SLEEP | KT_RUN =>
        lift (set_thread k (t_cancelled 1) ;; set_thread k (t_retval retval))
    | _ => cret tt
    end.

Definition do_exit_with (status : Z) : C unit :=
  let! ct := cgets curthr in kthread_cancel_with ct (Some status).

(** The loop that takes threads off the run queue until one has not exited;
    [n] is more than the queue holds. *)
Fixpoint pick_loop (n : nat) : K unit :=
  match n with
  | O => stuck
  | S n =>
      let* thr := ktqueue_dequeue kt_runq in
      let* cp := gets curproc in
      modify (set_cur thr cp) ;;
      let* t := deref thr in
      let* th := get_thread t in
      modify (set_cur thr (Some (kt_proc th))) ;;
      if bool_decide (kt_state th = KT_EXITED) then pick_loop n else ret tt
  end.

Definition sched_switch_body : C unit :=
  let! curr_intr_level := lift apic_getipl in
  lift (apic_setipl IPL_HIGH) ;!
  let! empty := lift (sched_queue_empty kt_runq) in
  if empty : bool then
    lift (apic_setipl IPL_LOW) ;!
    lift intr_wait ;!
    lift (apic_setipl curr_intr_level) ;!
    sw
  else
    let! old_thr := cgets curthr in
    let! tq := lift (get_queue kt_runq) in
    (if tq_size tq >? 0 then lift (pick_loop (S (length (tq_list tq)))) else sw) ;!
    let! ct := lift get_curthr in
    let! th := lift (get_thread ct) in
    (if kt_cancelled th =? 1 then do_exit_with 0 else cret tt) ;!
    lift (apic_setipl curr_intr_level) ;!
    let! old := cderef old_thr in
    context_switch old.
End Knot.

Fixpoint sched_switch (fuel : nat) : C unit :=
  match fuel with
  | O => cblocked
  | S fuel => sched_switch_body fuel (sched_switch fuel)
  end.

Definition proc_cleanup (fuel : nat) := proc_cleanup_with fuel (sched_switch fuel).
Definition proc_thread_exited (fuel : nat) := proc_thread_exited_with fuel (sched_switch fuel).
Definition kthread_exit (fuel : nat) := kthread_exit_with fuel (sched_switch fuel).
Definition kthread_cancel (fuel : nat) := kthread_cancel_with fuel (sched_switch fuel).
Definition do_exit (fuel : nat) := do_exit_with fuel (sched_switch fuel).

(** ** Sleeping *)
Definition sched_sleep_on (fuel : nat) (q : Z) : C unit :=
  let! temp := lift get_curthr in
  lift (set_thread temp (t_state KT_SLEEP)) ;!
  lift (ktqueue_enqueue q temp) ;!
  sched_switch fuel.

Definition sched_cancellable_sleep_on (fuel : nat) (q : Z) : C Z :=
  let! temp := lift get_curthr in
  lift (set_thread temp (t_state KT_SLEEP_CANCELLABLE)) ;!
  let! th := lift (get_thread temp) in
  if kt_cancelled th =? 1 then cret (- EINTR)
  else
    lift (ktqueue_enqueue q temp) ;!
    sched_switch fuel ;!
    cret 0.

(** ** Killing *)
Fixpoint kill_threads (fuel : nat) (status : Z) (ts : list Z) : C unit :=
  match ts with
  | [] => cret tt
  | t :: ts =>
      let! th := lift (get_thread t) in
      (if bool_decide (kt_state th <> KT_EXITED)
       then kthread_cancel fuel (Some t) (Some status) else cret tt) ;!
      kill_threads fuel status ts
  end.

Definition proc_kill (fuel : nat) (p : Z) (status : Z) : C unit :=
  let! cp := cgets curproc in
  if bool_decide (Some p = cp) then do_exit fuel status
  else
    let! pr := lift (get_proc p) in
    kill_threads fuel status (p_threads pr).

Fixpoint exit_threads (ts : list Z) : K unit :=
  match ts with
  | [] => ret tt
  | t :: ts => set_thread t (t_state KT_EXITED) ;; exit_threads ts
  end.

(** The loop of [proc_kill_all]: marks every process but idle, init and the
    children of idle, and finds init's (last) thread. *)
Fixpoint kill_all_loop (ps : list Z) (init : option Z) : K (option Z) :=
  match ps with
  | [] => ret init
  | p :: ps =>
      let* pr := get_proc p in
      (if negb (p_pid pr =? PID_INIT) && negb (p_pid pr =? PID_IDLE) then
         let* pp := deref (p_pproc pr) in
         let* ppr := get_proc pp in
         if negb (p_pid ppr =? PID_IDLE) then
           set_proc p (pr_state PROC_DEAD) ;; exit_threads (p_threads pr)
         else ret tt
       else ret tt) ;;
      kill_all_loop ps
        (if p_pid pr =? PID_INIT
         then match last (p_threads pr) with Some t => Some t | None => init end
         else init)
  end.

Definition proc_kill_all : C unit :=
  let! ps := cgets proc_list in
  let! init := lift (kill_all_loop ps None) in
  let! old_thr := lift get_curthr in
  let! init := cderef init in
  let! th := lift (get_thread init) in
  cmodify (set_cur (Some init) (Some (kt_proc th))) ;!
  (if bool_decide (old_thr <> init)
   then lift (qlink_remove init) ;! lift (set_thread init (t_wchan None))
   else cret tt) ;!
  context_switch old_thr.

(** ** [do_waitpid] *)

(** Taking a dead child off its parent's list.  The loop that follows in the
    source inserts the links of the child's own children into init's list
    without removing them from the list they are in. *)
Definition unlink_child (p : Z) : K unit :=
  let* linked := child_linked p in
  if linked : bool then
    child_remove p ;;
    let* pr := get_proc p in
    match p_children pr with [] => ret tt | _ => stuck end
  else ret tt.

(** The last lines of both branches: off the lists, and freed.  The wait queue
    is part of the [proc_t]. *)
Definition proc_free (p : Z) : K unit :=
  let* pl := gets proc_list in
  modify (set_proc_list (filter (fun x => x <> p) pl)) ;;
  let* linked := child_linked p in
  (if linked : bool then child_remove p else ret tt) ;;
  let* pr := get_proc p in
  modify (upd_queues (delete (p_wait pr))) ;;
  modify (upd_procs (delete p)).

(** Destroys the first exited thread; tells whether there was one. *)
Fixpoint destroy_first_exited (ts : list Z) : K bool :=
  match ts with
  | [] => ret false
  | t :: ts =>
      let* th := get_thread t in
      if bool_decide (kt_state th = KT_EXITED) then kthread_destroy t ;; ret true
      else destroy_first_exited ts
  end.

Fixpoint destroy_all_exited (ts : list Z) : K unit :=
  match ts with
  | [] => ret tt
  | t :: ts =>
      let* th := get_thread t in
      (if bool_decide (kt_state th = KT_EXITED) then kthread_destroy t else ret tt) ;;
      destroy_all_exited ts
  end.

(** One pass over the children for [pid = -1]: the number of dead children
    seen, the pid of the last one and the last value of [p]. *)
Fixpoint wait_scan (cs : list Z) (count pid : Z) (p : option Z) : K (Z * Z * option Z) :=
  match cs with
  | [] => ret (count, pid, p)
  | c :: cs =>
      let* pr := get_proc c in
      kassert (negb (p_pagedir pr =? 0)) ;;
      if bool_decide (p_state pr = PROC_DEAD) then
        unlink_child c ;;
        let* pr := get_proc c in
        let* found := destroy_first_exited (p_threads pr) in
        if found : bool then ret (count + 1, p_pid pr, Some c)
        else wait_scan cs (count + 1) (p_pid pr) (Some c)
      else wait_scan cs count pid (Some c)
  end.

(** The [for (;;)] loop for [pid = -1], one unit of [n] per pass. *)
Fixpoint wait_any (fuel n : nat) (pid : Z) : C Z :=
  match n with
  | O => cblocked
  | S n =>
      let! cp := lift get_curproc in
      let! cpr := lift (get_proc cp) in
      if bool_decide (p_children cpr = []) then cret pid
      else
        let! r := lift (wait_scan (p_children cpr) 0 pid None) in
        let '(count, pid, p) := r in
        if count =? 0 then
          let! cp := lift get_curproc in
          let! cpr := lift (get_proc cp) in
          sched_sleep_on fuel (p_wait cpr) ;! wait_any fuel n pid
        else
          let! p := cderef p in
          lift (proc_free p) ;! cret pid
  end.

(** The loop that waits for [p] to die, for a given pid. *)
Fixpoint wait_dead (fuel n : nat) (p : Z) : C unit :=
  match n with
  | O => cblocked
  | S n =>
      let! pr := lift (get_proc p) in
      if bool_decide (p_state pr = PROC_DEAD) then lift (unlink_child p)
      else
        let! cp := lift get_curproc in
        let! cpr := lift (get_proc cp) in
        sched_sleep_on fuel (p_wait cpr) ;! wait_dead fuel n p
  end.

(** The search for [pid] among the children: the [break] inside
    [list_iterate_begin ... list_iterate_end] only leaves the [do ... while(0)]
    of the body, so [p] ends as the last child. *)
Fixpoint wait_find (cs : list Z) (pid : Z) (count : Z) (p : Z) : K (Z * Z) :=
  match cs with
  | [] => ret (count, p)
  | c :: cs =>
      let* pr := get_proc c in
      wait_find cs pid (if p_pid pr =? pid then 1 else count) c
  end.

Definition wait_one (fuel : nat) (pid : Z) : C Z :=
  let! p := lift (proc_lookup pid) in
  let! p := cderef p in
  let! pr := lift (get_proc p) in
  let! cp := cgets curproc in
  if bool_decide (p_pproc pr <> cp) then cret (- ECHILD)
  else
    let! cp := cderef cp in
    let! cpr := lift (get_proc cp) in
    let! r := lift (wait_find (p_children cpr) pid 0 p) in
    let '(count, p) := r in
    if count =? 0 then cret (- ECHILD)
    else
      wait_dead fuel fuel p ;!
      let! pr := lift (get_proc p) in
      lift (destroy_all_exited (p_threads pr)) ;!
      lift (proc_free p) ;!
      cret pid.

(** [*status] is never written: the parameter is overwritten by a pointer. *)
Definition do_waitpid (fuel : nat) (pid options : Z) : C Z :=
  let! r := lift (proc_lookup pid) in
  (match r with
   | None => if pid =? -1 then cret tt else cstuck
   | Some _ => cret tt
   end) ;!
  if negb (options =? 0) && (pid <? -1) then cret (- ECHILD)
  else if pid =? -1 then
    let! cp := lift get_curproc in
    let! cpr := lift (get_proc cp) in
    if bool_decide (p_children cpr = []) then cret (- ECHILD)
    else wait_any fuel fuel pid
  else wait_one fuel pid.

(** ** The context switch *)

Lemma get_thread_run s t th : k_threads s !! t = Some th -> get_thread t s = Done th s.
Proof. unfold get_thread, deref. by intros ->. Qed.

Lemma get_queue_run s q tq : k_queues s !! q = Some tq -> get_queue q s = Done tq s.
Proof. unfold get_queue, deref. by intros ->. Qed.

Lemma get_proc_run s p pr : k_procs s !! p = Some pr -> get_proc p s = Done pr s.
Proof. unfold get_proc, deref. by intros ->. Qed.

Lemma get_curthr_run s t : curthr s = Some t -> get_curthr s = Done t s.
Proof. unfold get_curthr, deref. by intros ->. Qed.

Lemma get_curproc_run s p : curproc s = Some p -> get_curproc s = Done p s.
Proof. unfold get_curproc, deref. by intros ->. Qed.

(** A thread off every queue. *)
Definition unqueued (th : kthread) : kthread := t_wchan None (t_qlink Unlinked th).

(** [s'] is [s] after the threads [gone] have left the front of the run queue
    and [t], the last of them, has become the current thread. *)
Record switched (gone : list Z) (t : Z) (rest : list Z) (s s' : kstate) : Prop := {
  sw_wf : sched_wf s';
  sw_runq : fifo s' kt_runq = Some rest;
  sw_cur : curthr s' = Some t;
  sw_proc : curproc s' = kt_proc <$> (k_threads s !! t);
  sw_queues : forall q, q <> kt_runq -> k_queues s' !! q = k_queues s !! q;
  sw_gone : forall x, x ∈ gone -> k_threads s' !! x = unqueued <$> (k_threads s !! x);
  sw_threads : forall x, x ∉ gone -> k_threads s' !! x = k_threads s !! x;
  sw_rest : same_rest s (set_cur (curthr s) (curproc s) s')
}.

Lemma pick_one s t rest th n :
  sched_wf s -> fifo s kt_runq = Some (t :: rest) -> k_threads s !! t = Some th ->
  exists s1, switched [t] t rest s s1 /\
    pick_loop (S n) s =
    (if bool_decide (kt_state th = KT_EXITED) then pick_loop n else ret tt) s1.
Proof.
  intros Hwf Hf Ht. destruct (fifo_front _ _ _ _ Hf) as [m Hq].
  pose proof (dequeue_run s kt_runq _ t m th Hq Ht Hwf) as Ed.
  pose proof (deq_wf s kt_runq _ t m th Hq Ht Hwf) as Hwf1.
  exists (set_cur (Some t) (Some (kt_proc th)) (deq kt_runq t th (reverse rest) (m - 1) s)).
  split.
  - split; try done.
    + by eapply sched_wf_ext.
    + unfold fifo. simpl. rewrite lookup_insert_eq. simpl. by rewrite reverse_involutive.
    + simpl. by rewrite Ht.
    + intros q Hne. simpl. by rewrite lookup_insert_ne.
    + intros x ->%list_elem_of_singleton. simpl. by rewrite lookup_insert_eq, Ht.
    + intros x Hx. rewrite list_elem_of_singleton in Hx. simpl. by rewrite lookup_insert_ne.
  - cbn [pick_loop]. krun Ed. unfold gets, modify, deref, bind at 1 2 3.
    erewrite bind_done by (apply get_thread_run; apply lookup_insert_eq). done.
Qed.

Lemma switched_trans x t gone rest s s1 s2 :
  switched [x] x (gone ++ rest) s s1 -> switched gone t rest s1 s2 ->
  x ∉ gone -> t ∈ gone -> switched (x :: gone) t rest s s2.
Proof.
  intros H1 H2 Hx Ht. split; try apply H2.
  - rewrite (sw_proc _ _ _ _ _ H2). rewrite (sw_threads _ _ _ _ _ H1); [done|].
    rewrite list_elem_of_singleton. by intros ->.
  - intros q Hne. by rewrite (sw_queues _ _ _ _ _ H2), (sw_queues _ _ _ _ _ H1).
  - intros y [->|Hin]%elem_of_cons.
    + rewrite (sw_threads _ _ _ _ _ H2) by done. apply (sw_gone _ _ _ _ _ H1). by left.
    + rewrite (sw_gone _ _ _ _ _ H2) by done. f_equal. apply (sw_threads _ _ _ _ _ H1).
      rewrite list_elem_of_singleton. congruence.
  - intros y [? ?]%not_elem_of_cons. rewrite (sw_threads _ _ _ _ _ H2) by done.
    apply (sw_threads _ _ _ _ _ H1). by rewrite list_elem_of_singleton.
  - pose proof (sw_rest _ _ _ _ _ H1) as R1. pose proof (sw_rest _ _ _ _ _ H2) as R2.
    unfold same_rest in *. simpl in *. destruct_and!. repeat split; congruence.
Qed.

(** The loop skips the exited threads at the front of the run queue. *)
Lemma pick_run ex : forall s t rest th n,
  sched_wf s -> fifo s kt_runq = Some (ex ++ t :: rest) -> NoDup (ex ++ [t]) ->
  (forall x, x ∈ ex -> exists xth, k_threads s !! x = Some xth /\ kt_state xth = KT_EXITED) ->
  k_threads s !! t = Some th -> kt_state th <> KT_EXITED -> (length ex < n)%nat ->
  exists s', pick_loop n s = Done tt s' /\ switched (ex ++ [t]) t rest s s'.
Proof.
  induction ex as [|x ex IH]; intros s t rest th n Hwf Hf Hnd Hex Ht Hst Hn;
    (destruct n as [|n]; [lia|]); cbn [app] in Hf.
  - destruct (pick_one s t rest th n Hwf Hf Ht) as (s1 & Hsw & E). exists s1.
    rewrite E, bool_decide_eq_false_2 by done. done.
  - destruct (Hex x) as (xth & Hx & Hxst); [by left|].
    destruct (pick_one s x (ex ++ t :: rest) xth n Hwf Hf Hx) as (s1 & Hsw & E).
    cbn [app] in Hnd. apply NoDup_cons in Hnd as [Hxni Hnd].
    assert (forall y, y ∈ ex ++ [t] -> k_threads s1 !! y = k_threads s !! y) as Hsame.
    { intros y Hy. apply (sw_threads _ _ _ _ _ Hsw). rewrite list_elem_of_singleton. congruence. }
    destruct (IH s1 t rest th n) as (s2 & E2 & Hsw2); try done.
    + apply Hsw.
    + apply Hsw.
    + intros y Hy. rewrite Hsame by (apply elem_of_app; by left). apply Hex. by right.
    + rewrite Hsame; [done|]. apply elem_of_app. right. by left.
    + simpl in Hn. lia.
    + exists s2. split; [by rewrite E, bool_decide_eq_true_2|].
      cbn [app]. eapply switched_trans; [|exact Hsw2|done|].
      * rewrite <- app_assoc. done.
      * apply elem_of_app. right. by left.
Qed.

Lemma fifo_nodup s q l : sched_wf s -> fifo s q = Some l -> NoDup l.
Proof.
  intros Hwf. unfold fifo. intros (tq & Hq & ->)%fmap_Some.
  destruct (wf_queue s Hwf _ _ Hq) as [Hnd _].
  eapply NoDup_Permutation_proper; [apply reverse_Permutation|done].
Qed.

Lemma set_ipl_switched i j gone t rest s s' :
  switched gone t rest (set_ipl i s) s' -> k_ipl s = j ->
  switched gone t rest s (set_ipl j s').
Proof.
  intros H Hj. split; try apply H.
  - eapply sched_wf_ext; [apply H|done|done].
  - pose proof (sw_rest _ _ _ _ _ H) as R. unfold same_rest in *. simpl in *. destruct_and!.
    repeat split; congruence.
Qed.

Lemma switch_run fuel s old ex t rest th :
  sched_wf s -> curthr s = Some old -> fifo s kt_runq = Some (ex ++ t :: rest) ->
  (forall x, x ∈ ex -> exists xth, k_threads s !! x = Some xth /\ kt_state xth = KT_EXITED) ->
  k_threads s !! t = Some th -> kt_state th <> KT_EXITED -> kt_cancelled th <> 1 ->
  exists s', sched_switch (S fuel) s = Yield old s' (fun s2 => RDone tt s2) /\
    switched (ex ++ [t]) t rest s s'.
Proof.
  intros Hwf Hcur Hf Hex Ht Hst Hc.
  pose proof (fifo_nodup s kt_runq _ Hwf Hf) as Hnd.
  assert (NoDup (ex ++ [t])) as Hnd1.
  { replace (ex ++ t :: rest) with ((ex ++ [t]) ++ rest) in Hnd by (by rewrite <- app_assoc).
    by apply NoDup_app in Hnd as (? & _ & _). }
  set (s0 := set_ipl IPL_HIGH s).
  assert (sched_wf s0) as Hwf0 by (by eapply sched_wf_ext).
  assert (exists tq, k_queues s0 !! kt_runq = Some tq /\ tq_size tq > 0 /\
            (length ex < S (length (tq_list tq)))%nat) as (tq & Hq & Hsz & Hlen).
  { unfold fifo in Hf. apply fmap_Some in Hf as (tq & Hq & E). exists tq. split; [done|].
    destruct (wf_queue s Hwf _ _ Hq) as [_ Hsz]. apply (f_equal length) in E.
    rewrite length_reverse, length_app in E. simpl in E. lia. }
  destruct (pick_run ex s0 t rest th _ Hwf0 Hf Hnd1 Hex Ht Hst Hlen) as (s1 & E1 & Hsw).
  exists (set_ipl (k_ipl s) s1). split; [|by eapply set_ipl_switched].
  cbn [sched_switch]. unfold sched_switch_body.
  unfold apic_getipl, apic_setipl, lift at 1, gets, cbind at 1. cbn [rbind].
  unfold lift at 1, modify, cbind at 1. cbn [rbind]. fold s0.
  clift (queue_empty_run s0 kt_runq _ Hf).
  rewrite bool_decide_eq_false_2 by (by destruct ex).
  unfold cgets at 1, cbind at 1. cbn [rbind].
  clift (get_queue_run s0 kt_runq tq Hq).
  replace (tq_size tq >? 0) with true by lia.
  clift E1. clift (get_curthr_run s1 t (sw_cur _ _ _ _ _ Hsw)).
  assert (k_threads s1 !! t = Some (unqueued th)) as Ht1.
  { rewrite (sw_gone _ _ _ _ _ Hsw) by (apply elem_of_app; right; by left). simpl. by rewrite Ht. }
  clift (get_thread_run s1 t _ Ht1). cbn [kt_cancelled unqueued t_wchan t_qlink].
  replace (kt_cancelled th =? 1) with false by lia.
  unfold s0. cbn [curthr set_ipl]. rewrite Hcur. done.
Qed.

(** At [IPL_LOW] every interrupt of the hardware is taken. *)
Lemma unmasked_low vec : 16 <= vec -> masked IPL_LOW vec = false.
Proof. intros Hv. unfold masked, IPL_LOW. rewrite Z.shiftr_div_pow2 by lia. change (Z.shiftr 0 4) with 0. apply Z.leb_gt. change (2 ^ 4) with 16. dlia. Qed.

(** With nothing to run, the switch waits for an interrupt and tries again. *)
Lemma switch_idle fuel s vec ws ints s1 :
  fifo s kt_runq = Some [] -> k_intrs s = (vec, ws) :: ints -> 16 <= vec ->
  run_wakes ws (set_intrs ints (set_ipl IPL_LOW (set_ipl IPL_HIGH s))) = Done tt s1 ->
  sched_switch (S fuel) s = sched_switch fuel (set_ipl (k_ipl s) s1).
Proof.
  intros Hf Hi Hv Hw. cbn [sched_switch]. unfold sched_switch_body.
  unfold apic_getipl, apic_setipl, lift at 1, gets, cbind at 1. cbn [rbind].
  unfold lift at 1, modify, cbind at 1. cbn [rbind].
  clift (queue_empty_run (set_ipl IPL_HIGH s) kt_runq _ Hf).
  rewrite bool_decide_eq_true_2 by done.
  unfold lift at 1, cbind at 1. cbn [rbind].
  erewrite cbind_done.
  2:{ apply lift_done with (a := tt) (s' := s1).
      unfold intr_wait, apic_getipl, gets, bind, modify. cbn [k_intrs k_ipl set_ipl]. rewrite Hi. cbn [next_intr fst snd].
      by rewrite unmasked_low. }
  done.
Qed.

(** [sched_switch] runs the longest-waiting runnable thread: the exited threads
    ahead of it are dropped from the run queue, it becomes [curthr] and its
    process [curproc], the IPL is as before, the caller's context is saved, and
    when that context is resumed the call returns. *)
Theorem sched_switch_next fuel s old ex t rest th :
  sched_wf s -> curthr s = Some old -> fifo s kt_runq = Some (ex ++ t :: rest) ->
  (forall x, x ∈ ex -> exists xth, k_threads s !! x = Some xth /\ kt_state xth = KT_EXITED) ->
  k_threads s !! t = Some th -> kt_state th <> KT_EXITED -> kt_cancelled th <> 1 ->
  exists s', sched_switch (S fuel) s = Yield old s' (fun s2 => RDone tt s2) /\
    switched (ex ++ [t]) t rest s s'.
Proof. apply switch_run. Qed.

Lemma sched_switch_next_witness :
  exists s', sched_switch 1 demo = Yield 10 s' (fun s2 => RDone tt s2) /\ switched [11] 11 [] demo s'.
Proof.
  apply (sched_switch_next 0 demo 10 [] 11 [] (demo_thread 101 KT_RUN (Some kt_runq)));
    [apply demo_wf|done|by vm_compute| |by vm_compute|done|done].
  by intros x ?%not_elem_of_nil.
Defined.

(** Interrupts that wake nobody leave an idle processor idle. *)
Lemma switch_idle_skip idle : forall fuel s ints,
  Forall (fun i => 16 <= i.1 /\ i.2 = []) idle -> fifo s kt_runq = Some [] -> k_intrs s = idle ++ ints ->
  sched_switch (length idle + fuel) s = sched_switch fuel (set_intrs ints s).
Proof.
  induction idle as [|[vec ws] idle IH]; intros fuel s ints Hidle Hf Hi.
  - simpl in *. f_equal. destruct s; simpl in *; by subst.
  - apply Forall_cons in Hidle as [[Hv Hw] Hidle]. cbn in Hv, Hw. subst ws.
    cbn [length Nat.add]. erewrite switch_idle; [|done|exact Hi|done|done].
    rewrite (IH fuel _ ints); [|done|done|done]. by destruct s.
Qed.

(** C39: An idle processor wakes up: when no thread is runnable, [sched_switch] lowers
    the IPL, so that an interrupt of any vector from 16 on is taken, and halts
    through any number of interrupts that wake nobody; when one wakes the
    queue [q] it switches to the thread that has slept there longest, with the IPL
    as it was. *)
Theorem sched_switch_idle_wakes fuel s old q t rest th idle vec ints :
  sched_wf s -> curthr s = Some old -> fifo s kt_runq = Some [] -> q <> kt_runq ->
  fifo s q = Some (t :: rest) -> k_threads s !! t = Some th -> kt_cancelled th <> 1 ->
  k_intrs s = idle ++ (vec, [WakeOne q]) :: ints -> Forall (fun i => 16 <= i.1 /\ i.2 = []) idle -> 16 <= vec ->
  exists s', sched_switch (length idle + S (S fuel)) s = Yield old s' (fun s2 => RDone tt s2) /\
    sched_wf s' /\ curthr s' = Some t /\ curproc s' = Some (kt_proc th) /\
    k_threads s' !! t = Some (unqueued (t_state KT_RUN th)) /\
    fifo s' q = Some rest /\ fifo s' kt_runq = Some [] /\ k_ipl s' = k_ipl s /\ k_intrs s' = ints.
Proof.
  intros Hwf Hcur Hf Hne Hq Ht Hc Hi Hidle Hv.
  rewrite (switch_idle_skip idle _ s ((vec, [WakeOne q]) :: ints) Hidle Hf Hi).
  set (s0 := set_intrs ints (set_ipl IPL_LOW (set_ipl IPL_HIGH (set_intrs ((vec, [WakeOne q]) :: ints) s)))).
  assert (sched_wf s0) as Hwf0 by (by eapply sched_wf_ext).
  destruct (runs_done _ _ _ (wakeup_run s0 q t rest Hwf0 Hne Hq)) as (r & s1 & E1 & -> & Hm).
  erewrite switch_idle with (s1 := s1) (vec := vec) (ws := [WakeOne q]) (ints := ints); [|done|done|done|].
  2:{ cbn [run_wakes]. krun E1. done. }
  assert (k_threads s1 !! t = Some (woken th)) as Ht1.
  { rewrite (mv_woken _ _ _ _ _ Hm) by (by left). simpl. by rewrite Ht. }
  destruct (mv_rest _ _ _ _ _ Hm) as (_ & _ & Ec & _ & _ & _ & _ & Ei & _ & Eints & _).
  set (s2 := set_ipl (k_ipl (set_intrs ((vec, [WakeOne q]) :: ints) s)) s1).
  destruct (switch_run fuel s2 old [] t [] (woken th)) as (s3 & E3 & Hsw); try done.
  - eapply sched_wf_ext; [apply Hm|done|done].
  - unfold s2. cbn. by rewrite Ec.
  - change (fifo s1 kt_runq = Some [t]). rewrite (mv_to _ _ _ _ _ Hm).
    change (fifo s0 kt_runq) with (fifo s kt_runq). by rewrite Hf.
  - by intros x ?%not_elem_of_nil.
  - destruct (sw_rest _ _ _ _ _ Hsw) as (_ & _ & _ & _ & _ & _ & _ & Ei3 & _ & Eints3 & _).
    exists s3. split_and!; try done; try apply Hsw.
    + rewrite (sw_proc _ _ _ _ _ Hsw). cbn. by rewrite Ht1.
    + rewrite (sw_gone _ _ _ _ _ Hsw) by (by left). cbn. by rewrite Ht1.
    + unfold fifo. rewrite (sw_queues _ _ _ _ _ Hsw) by done. apply (mv_from _ _ _ _ _ Hm).
    + etrans; [exact Eints3|exact Eints].
Qed.

(** [demo] with nothing ready to run. *)
Definition demo_idle : kstate :=
  set_ipl 0xe0 (upd_queues <[kt_runq := Ktqueue [] 0]> (upd_threads (delete 11) demo)).

Lemma demo_idle_wf : sched_wf demo_idle.
Proof. apply sched_check_sound. by vm_compute. Qed.

(** The caller has masked both the keyboard and the disk. *)
Lemma sched_switch_idle_wakes_witness :
  exists s', sched_switch 3 demo_idle = Yield 10 s' (fun s2 => RDone tt s2) /\ curthr s' = Some 12 /\ k_ipl s' = 0xe0.
Proof.
  destruct (sched_switch_idle_wakes 0 demo_idle 10 5 12 [13; 14]
              (demo_thread 102 KT_SLEEP (Some 5)) [(0xe0, [])] 0xd0 [])
    as (s' & E & _ & Hc & _ & _ & _ & _ & Hl & _); try done; [apply demo_idle_wf|by apply Forall_singleton|].
  exists s'. split; [exact E|]. split; [exact Hc|]. rewrite Hl. reflexivity.
Defined.

End Proc.
