(* ===== verification/KMutex.v ===== *)
(** * Mutexes ([proc/kmutex.c])

    The three operations, and mutual exclusion of every interleaving of
    threads that use one mutex. *)

From Stdlib Require Import ZArith Lia.
From stdpp Require Import base list gmap.
From S2P Require Import Prelude Coop Sched Proc.

Module KMutex.
Import Sched Proc.
Local Open Scope Z_scope.

Definition get_mutex (m : Z) : K kmutex := fun s => deref (k_mutexes s !! m) s.
Definition set_holder (m : Z) (h : option Z) : K unit :=
  let* mx := get_mutex m in modify (upd_mutexes <[m := Kmutex (km_waitq mx) h]>).

Definition kmutex_init (mtx : option Z) : K unit :=
  match mtx with
  | Some m =>
      let* mx := get_mutex m in
      sched_queue_init (km_waitq mx) ;;
      set_holder m None
  | None => panic
  end.

Definition kmutex_lock (fuel : nat) (mtx : Z) : C unit :=
  let! curr_intr_level := lift apic_getipl in
  lift (apic_setipl IPL_HIGH) ;!
  let! ct := cgets curthr in
  let! mx := lift (get_mutex mtx) in
  cassert (bool_decide (ct <> None) && bool_decide (ct <> km_holder mx)) ;!
  (if bool_decide (km_holder mx = None) then lift (set_holder mtx ct)
   else sched_sleep_on fuel (km_waitq mx)) ;!
  lift (apic_setipl curr_intr_level).

Definition kmutex_lock_cancellable (fuel : nat) (mtx : Z) : C Z :=
  let! curr_intr_level := lift apic_getipl in
  lift (apic_setipl IPL_HIGH) ;!
  let! ct := cgets curthr in
  let! mx := lift (get_mutex mtx) in
  cassert (bool_decide (ct <> None) && bool_decide (ct <> km_holder mx)) ;!
  (if bool_decide (km_holder mx = None) then lift (set_holder mtx ct)
   else sched_cancellable_sleep_on fuel (km_waitq mx) ;! cret tt) ;!
  lift (apic_setipl curr_intr_level) ;!
  cret 0.

Definition kmutex_unlock (mtx : Z) : K unit :=
  let* curr_intr_level := apic_getipl in
  apic_setipl IPL_HIGH ;;
  let* ct := gets curthr in
  let* mx := get_mutex mtx in
  kassert (bool_decide (ct <> None) && bool_decide (ct = km_holder mx)) ;;
  if bool_decide (km_holder mx = None) then apic_setipl curr_intr_level
  else
    let* h := sched_wakeup_on (km_waitq mx) in
    set_holder mtx h ;;
    apic_setipl curr_intr_level ;;
    let* ct := gets curthr in
    let* mx := get_mutex mtx in
    kassert (bool_decide (ct <> km_holder mx)).

(** ** Sequential behaviour *)
Lemma get_mutex_run s m mx : k_mutexes s !! m = Some mx -> get_mutex m s = Done mx s.
Proof. unfold get_mutex, deref. by intros ->. Qed.

Lemma set_holder_run s m mx h :
  k_mutexes s !! m = Some mx ->
  set_holder m h s = Done tt (upd_mutexes <[m := Kmutex (km_waitq mx) h]> s).
Proof. intros Hm. unfold set_holder. by krun (get_mutex_run s m mx Hm). Qed.

Lemma lock_free_run fuel s m q t :
  curthr s = Some t -> k_mutexes s !! m = Some (Kmutex q None) ->
  kmutex_lock fuel m s = RDone tt (upd_mutexes <[m := Kmutex q (Some t)]> s).
Proof.
  intros Ht Hm. unfold kmutex_lock, apic_getipl, apic_setipl, gets, modify.
  unfold lift at 1, cbind at 1. cbn [rbind]. unfold lift at 1, cbind at 1. cbn [rbind].
  unfold cgets at 1, cbind at 1. cbn [rbind curthr set_ipl]. rewrite Ht.
  clift (get_mutex_run (set_ipl IPL_HIGH s) m _ Hm). cbn [km_holder km_waitq].
  rewrite !bool_decide_eq_true_2 by done. unfold cassert at 1, cbind at 1. cbn [andb rbind].
  clift (set_holder_run (set_ipl IPL_HIGH s) m _ (Some t) Hm). by destruct s.
Qed.

(** What a call that has to wait does: the caller goes to the back of the wait
    queue and the processor is handed to the scheduler. *)
Definition asleep (t q : Z) (th : kthread) (tq : ktqueue) (s : kstate) : kstate :=
  enq q t (t_state KT_SLEEP th) tq (upd_threads <[t := t_state KT_SLEEP th]> s).

Lemma sleep_on_run fuel s q t th tq :
  sched_wf s -> curthr s = Some t -> k_threads s !! t = Some th -> kt_wchan th = None ->
  k_queues s !! q = Some tq ->
  sched_sleep_on fuel q s = sched_switch fuel (asleep t q th tq s).
Proof.
  intros Hwf Hc Ht Hw Hq. unfold sched_sleep_on.
  clift (get_curthr_run s t Hc). clift (set_thread_run s t th (t_state KT_SLEEP) Ht).
  assert (sched_wf (upd_threads <[t := t_state KT_SLEEP th]> s)) as Hwf1.
  { eapply upd_thread_wf; try done. intros ? ?. congruence. }
  erewrite cbind_done; [|apply lift_done; apply enqueue_run; [done|apply lookup_insert_eq|exact Hq|done]].
  done.
Qed.

Lemma asleep_wf s q t th tq :
  sched_wf s -> k_threads s !! t = Some th -> kt_wchan th = None -> q <> kt_runq ->
  k_queues s !! q = Some tq -> sched_wf (asleep t q th tq s).
Proof.
  intros Hwf Ht Hw Hne Hq. apply enq_wf; try done.
  - eapply upd_thread_wf; try done. intros ? ?. congruence.
  - apply lookup_insert_eq.
  - unfold state_ok. rewrite decide_False by done. by left.
Qed.

Lemma lock_held_run fuel s m q h t th tq :
  sched_wf s -> curthr s = Some t -> k_threads s !! t = Some th -> kt_wchan th = None ->
  k_mutexes s !! m = Some (Kmutex q (Some h)) -> h <> t -> k_queues s !! q = Some tq ->
  kmutex_lock fuel m s =
  rbind (sched_switch fuel (asleep t q th tq (set_ipl IPL_HIGH s)))
        (fun _ => lift (apic_setipl (k_ipl s))).
Proof.
  intros Hwf Hc Ht Hw Hm Hne Hq. unfold kmutex_lock, apic_getipl, gets, modify.
  unfold lift at 1, cbind at 1. cbn [rbind]. unfold lift at 1, cbind at 1.
  unfold apic_setipl at 1, modify. cbn [rbind].
  unfold cgets at 1, cbind at 1. cbn [rbind curthr set_ipl]. rewrite Hc.
  clift (get_mutex_run (set_ipl IPL_HIGH s) m _ Hm). cbn [km_holder km_waitq].
  rewrite (bool_decide_eq_true_2 (Some t <> None)), (bool_decide_eq_true_2 (Some t <> Some h)) by congruence.
  unfold cassert at 1, cbind at 1. cbn [andb rbind].
  rewrite bool_decide_eq_false_2 by done. unfold cbind.
  rewrite (sleep_on_run fuel (set_ipl IPL_HIGH s) q t th tq); try done. by eapply sched_wf_ext.
Qed.

Lemma unlock_run s m q t l :
  sched_wf s -> curthr s = Some t -> k_mutexes s !! m = Some (Kmutex q (Some t)) ->
  q <> kt_runq -> fifo s q = Some l -> t ∉ l ->
  runs (kmutex_unlock m) s (fun _ s' =>
    k_mutexes s' = <[m := Kmutex q (head l)]> (k_mutexes s) /\
    moved (take 1 l) (drop 1 l) q s (upd_mutexes (fun _ => k_mutexes s) s')).
Proof.
  intros Hwf Hc Hm Hne Hf Hnl.
  set (s0 := set_ipl IPL_HIGH s).
  assert (sched_wf s0) as Hwf0 by (by eapply sched_wf_ext).
  assert (exists s1, sched_wakeup_on q s0 = Done (head l) s1 /\
            moved (take 1 l) (drop 1 l) q s0 s1) as (s1 & Ew & Hmv).
  { destruct l as [|t1 rest].
    - exists s0. split; [|by apply moved_nil].
      unfold sched_wakeup_on. by krun (queue_empty_run s0 q _ Hf).
    - destruct (runs_done _ _ _ (wakeup_run s0 q t1 rest Hwf0 Hne Hf)) as (r & s1 & E & -> & Hmv).
      eauto. }
  destruct (mv_rest _ _ _ _ _ Hmv) as (Em & Ep & Ec & R).
  assert (k_mutexes s1 !! m = Some (Kmutex q (Some t))) as Hm1 by (by rewrite Em).
  eapply runs_intro with (a := tt)
    (s' := set_ipl (k_ipl s) (upd_mutexes <[m := Kmutex q (head l)]> s1)).
  - unfold kmutex_unlock, apic_getipl, apic_setipl, gets, modify. unfold bind at 1 2 3.
    fold s0. krun (get_mutex_run s0 m _ Hm). cbn [km_holder km_waitq].
    replace (curthr s0) with (Some t) by done.
    rewrite (bool_decide_eq_true_2 (Some t <> None)), (bool_decide_eq_true_2 (Some t = Some t)) by done.
    unfold kassert at 1, bind at 1. cbn [andb]. rewrite bool_decide_eq_false_2 by done.
    krun Ew. krun (set_holder_run s1 m _ (head l) Hm1). unfold bind at 1 2.
    erewrite bind_done.
    2:{ apply get_mutex_run. cbn. apply lookup_insert_eq. }
    cbn. rewrite Ec. change (curthr s0) with (curthr s). rewrite Hc. unfold kassert.
    rewrite bool_decide_eq_true_2; [done|]. intros E. destruct l; [done|]. simplify_eq/=.
    apply Hnl. by left.
  - cbn. rewrite Em. split; [done|].
    destruct Hmv as [M1 M2 M3 M4 M5 M6 M7]. split; try done.
    + by eapply sched_wf_ext.
    + unfold same_rest in *. simpl in *. destruct_and!. repeat split; done.
Qed.

(** ** Every interleaving of the users of one mutex *)

(** Where a thread is with respect to the mutex. *)
Inductive phase := Outside | Waiting | Inside.

(** The running system: the kernel's state, each thread's phase, and the saved
    contexts of the threads that have switched away. *)
Record sys := Sys {
  st : kstate;
  ph : Z -> phase;
  ctx : gmap Z (kstate -> res kstate unit)
}.

Definition set_ph (t : Z) (p : phase) (f : Z -> phase) : Z -> phase :=
  fun x => if decide (x = t) then p else f x.

Section Exclusion.
Variables mtx q : Z.

(** Interrupt handlers do not touch mutexes nor wake the run queue. *)
Definition wake_ok (w : wake) : Prop :=
  match w with WakeOne q' | WakeAll q' => q' <> q /\ q' <> kt_runq end.

(** States in which no thread is cancelled or has exited. *)
Record quiet (s : kstate) : Prop := {
  quiet_wf : sched_wf s;
  quiet_threads : forall t th, k_threads s !! t = Some th ->
    kt_cancelled th <> 1 /\ kt_state th <> KT_EXITED;
  quiet_intrs : Forall (fun i => Forall wake_ok i.2) (k_intrs s);
  quiet_first : runq_first s = false
}.

(** ... and the current thread is on no queue. *)
Record calm (s : kstate) : Prop := {
  calm_quiet : quiet s;
  calm_cur : exists t th, curthr s = Some t /\ k_threads s !! t = Some th /\ kt_wchan th = None
}.

(** The mutex and its wait queue are the same in both states. *)
Definition mtx_same (s s' : kstate) : Prop :=
  k_mutexes s' !! mtx = k_mutexes s !! mtx /\ k_queues s' !! q = k_queues s !! q.

Inductive step : sys -> sys -> Prop :=
| step_lock s p c t s' fuel :
    curthr s = Some t -> c !! t = None -> p t = Outside ->
    kmutex_lock fuel mtx s = RDone tt s' ->
    step (Sys s p c) (Sys s' (set_ph t Inside p) c)
| step_lock_wait s p c t s' k fuel :
    curthr s = Some t -> c !! t = None -> p t = Outside ->
    kmutex_lock fuel mtx s = Yield t s' k ->
    step (Sys s p c) (Sys s' (set_ph t Waiting p) (<[t := k]> c))
| step_resume s p c t k s' :
    curthr s = Some t -> c !! t = Some k -> k s = RDone tt s' ->
    step (Sys s p c)
         (Sys s' (match p t with Waiting => set_ph t Inside p | _ => p end) (delete t c))
| step_unlock s p c t s' :
    curthr s = Some t -> c !! t = None -> p t = Inside ->
    kmutex_unlock mtx s = Done tt s' ->
    step (Sys s p c) (Sys s' (set_ph t Outside p) c)
| step_yield s p c t s' k fuel :
    curthr s = Some t -> c !! t = None ->
    (lift (sched_make_runnable t) ;! sched_switch fuel) s = Yield t s' k ->
    step (Sys s p c) (Sys s' p (<[t := k]> c))
| step_sleep s p c t q' s' k fuel :
    curthr s = Some t -> c !! t = None -> q' <> q -> q' <> kt_runq ->
    sched_sleep_on fuel q' s = Yield t s' k ->
    step (Sys s p c) (Sys s' p (<[t := k]> c))
| step_other s p c t s' :
    curthr s = Some t -> c !! t = None -> curthr s' = Some t ->
    calm s' -> mtx_same s s' ->
    step (Sys s p c) (Sys s' p c).

(** The phases agree with the holder and the wait queue. *)
Record shape (p : Z -> phase) (h : option Z) (l : list Z) : Prop := {
  sh_free : h = None -> l = [];
  sh_apart : forall t, h = Some t -> t ∉ l;
  sh_wait : forall t, t ∈ l -> p t = Waiting;
  sh_in : forall t, p t = Inside -> h = Some t;
  sh_out : forall t, p t <> Outside <-> h = Some t \/ t ∈ l
}.

(** A thread is using the mutex exactly when it is the holder or in the wait
    queue; inside, it is the holder; a free mutex has no waiters; and a
    waiting thread's context does nothing but restore the IPL and return. *)
Record mutex_inv (x : sys) : Prop := {
  mi_calm : calm (st x);
  mi_queue : exists h l, k_mutexes (st x) !! mtx = Some (Kmutex q h) /\ fifo (st x) q = Some l /\
    shape (ph x) h l;
  mi_ctx : forall t k, ctx x !! t = Some k -> forall s, exists i, k s = RDone tt (set_ipl i s);
  mi_wait : forall t, ph x t = Waiting -> is_Some (ctx x !! t)
}.

Lemma quiet_ext s s' :
  quiet s -> k_threads s' = k_threads s -> k_queues s' = k_queues s -> k_intrs s' = k_intrs s ->
  runq_first s' = runq_first s -> quiet s'.
Proof.
  intros [] Et Eq Ei Ef. split; rewrite ?Et, ?Ei, ?Ef; try done. by eapply sched_wf_ext.
Qed.

Lemma quiet_moved ts rest q' s s' : quiet s -> moved ts rest q' s s' -> quiet s'.
Proof.
  intros Hq Hm. pose proof (mv_rest _ _ _ _ _ Hm) as R. unfold same_rest in R. destruct_and!.
  split.
  - apply Hm.
  - intros t th. destruct (decide (t ∈ ts)) as [Hin|Hni].
    + rewrite (mv_woken _ _ _ _ _ Hm) by done. intros (th0 & Ht & ->)%fmap_Some.
      destruct (quiet_threads s Hq _ _ Ht). done.
    + rewrite (mv_threads _ _ _ _ _ Hm) by done. by apply Hq.
  - match goal with H : k_intrs s' = _ |- _ => rewrite H end. apply Hq.
  - match goal with H : runq_first s' = _ |- _ => rewrite H end. apply Hq.
Qed.

Lemma mtx_same_refl s : mtx_same s s.
Proof. done. Qed.

Lemma mtx_same_trans s1 s2 s3 : mtx_same s1 s2 -> mtx_same s2 s3 -> mtx_same s1 s3.
Proof. intros [] []. split; congruence. Qed.

Lemma moved_same ts rest q' s s' :
  moved ts rest q' s s' -> q' <> q -> q <> kt_runq -> mtx_same s s'.
Proof.
  intros Hm ? ?. split; [by rewrite (proj1 (mv_rest _ _ _ _ _ Hm))|].
  apply (mv_others _ _ _ _ _ Hm); congruence.
Qed.

Definition quiet_step (s s' : kstate) : Prop :=
  quiet s' /\ mtx_same s s' /\ curthr s' = curthr s.

Hypothesis Hqr : q <> kt_runq.

Lemma quiet_step_moved ts rest q' s s' :
  quiet s -> moved ts rest q' s s' -> q' <> q -> quiet_step s s'.
Proof.
  intros Hq Hm ?. split_and!; [by eapply quiet_moved|by eapply moved_same|].
  destruct (mv_rest _ _ _ _ _ Hm) as (_ & _ & ? & _). done.
Qed.

Lemma wake_one_quiet w s :
  quiet s -> wake_ok w ->
  match run_wakes [w] s with Done _ s' => quiet_step s s' | _ => True end.
Proof.
  intros Hq Hw. destruct w as [q'|q']; destruct Hw as [Hn1 Hn2]; cbn [run_wakes];
    destruct (fifo s q') as [l|] eqn:Hf.
  - unfold bind. destruct l as [|t rest].
    + unfold sched_wakeup_on. krun (queue_empty_run s q' _ Hf).
      rewrite bool_decide_eq_true_2 by done. cbn. split_and!; [done|apply mtx_same_refl|done].
    + destruct (runs_done _ _ _ (wakeup_run s q' t rest (quiet_wf s Hq) Hn2 Hf))
        as (r & s1 & -> & _ & Hm). cbn. by eapply quiet_step_moved.
  - unfold fifo in Hf. apply fmap_None in Hf.
    unfold sched_wakeup_on, sched_queue_empty, get_queue, bind, deref. by rewrite Hf.
  - unfold bind.
    destruct (runs_done _ _ _ (broadcast_run s q' l (quiet_wf s Hq) Hn2 Hf))
      as (r & s1 & -> & Hm). cbn. by eapply quiet_step_moved.
  - unfold fifo in Hf. apply fmap_None in Hf.
    unfold sched_broadcast_on, get_queue, bind, deref. by rewrite Hf.
Qed.

Lemma run_wakes_cons w ws s :
  run_wakes (w :: ws) s = (run_wakes [w] ;; run_wakes ws) s.
Proof.
  destruct w as [q'|q']; cbn [run_wakes]; unfold bind, ret;
    [by destruct (sched_wakeup_on q' s)|by destruct (sched_broadcast_on q' s)].
Qed.

Lemma run_wakes_quiet ws : forall s,
  quiet s -> Forall wake_ok ws ->
  match run_wakes ws s with Done _ s' => quiet_step s s' | _ => True end.
Proof.
  induction ws as [|w ws IH]; intros s Hq Hws.
  - cbn. split_and!; [done|apply mtx_same_refl|done].
  - apply Forall_cons in Hws as [Hw Hws]. rewrite run_wakes_cons. unfold bind.
    pose proof (wake_one_quiet w s Hq Hw) as H1.
    destruct (run_wakes [w] s) as [r s1| | |]; try done. destruct H1 as (Hq1 & Hm1 & Hc1).
    specialize (IH s1 Hq1 Hws). destruct (run_wakes ws s1) as [r2 s2| | |]; try done.
    destruct IH as (Hq2 & Hm2 & Hc2). split_and!; [done|by eapply mtx_same_trans|congruence].
Qed.

Lemma next_intr_forall (P : list wake -> Prop) ipl l ws rest :
  Forall (fun i => P i.2) l -> next_intr ipl l = Some (ws, rest) -> P ws /\ Forall (fun i => P i.2) rest.
Proof.
  revert rest. induction l as [|i l IH]; intros rest Hl; [done|]. apply Forall_cons in Hl as [Hi Hl]. cbn [next_intr].
  destruct (masked ipl i.1); [|by intros [= <- <-]].
  destruct (next_intr ipl l) as [[ws' rest']|]; [|done]. intros [= <- <-]. destruct (IH rest' Hl eq_refl). split; [done|]. by apply Forall_cons.
Qed.

Lemma switch_idle_eq fuel s :
  fifo s kt_runq = Some [] ->
  sched_switch (S fuel) s =
  rbind (lift intr_wait (set_ipl IPL_LOW (set_ipl IPL_HIGH s)))
        (fun _ s1 => sched_switch fuel (set_ipl (k_ipl s) s1)).
Proof.
  intros Hf. cbn [sched_switch]. unfold sched_switch_body.
  unfold apic_getipl, apic_setipl, lift at 1, gets, cbind at 1. cbn [rbind].
  unfold lift at 1, modify, cbind at 1. cbn [rbind].
  clift (queue_empty_run (set_ipl IPL_HIGH s) kt_runq _ Hf).
  rewrite bool_decide_eq_true_2 by done.
  unfold lift at 1, cbind at 1. cbn [rbind].
  unfold cbind at 1. by destruct (lift intr_wait _).
Qed.

(** However long the processor idles, a switch that leaves does so to a thread
    that is on no queue, with the mutex and its wait queue untouched. *)
Lemma switch_quiet fuel : forall s old,
  quiet s -> curthr s = Some old ->
  match sched_switch fuel s with
  | RDone _ _ => False
  | Yield old' s' k =>
      old' = old /\ k = (fun s2 => RDone tt s2) /\ calm s' /\ mtx_same s s'
  | _ => True
  end.
Proof.
  induction fuel as [|fuel IH]; intros s old Hq Hc; [done|].
  destruct (wf_runq s (quiet_wf s Hq)) as [tq Hr].
  destruct (fifo s kt_runq) as [[|t rest]|] eqn:Hf.
  - rewrite switch_idle_eq by done. unfold lift, intr_wait, gets, bind.
    unfold apic_getipl, gets. cbn [k_intrs k_ipl set_ipl].
    destruct (next_intr IPL_LOW (k_intrs s)) as [[ws ints]|] eqn:Hints; [|done].
    destruct (next_intr_forall _ _ _ _ _ (quiet_intrs s Hq) Hints) as [Hws Hi]. unfold modify.
    set (s0 := set_intrs ints _).
    assert (quiet s0) as Hq0.
    { split; try apply Hq; [|done]. eapply sched_wf_ext; [apply Hq|done|done]. }
    pose proof (run_wakes_quiet ws s0 Hq0 Hws) as H1.
    destruct (run_wakes ws s0) as [r s1| | |]; try done. destruct H1 as (Hq1 & Hm1 & Hc1).
    cbn [rbind].
    assert (quiet (set_ipl (k_ipl s) s1)) as Hq1' by (by eapply quiet_ext).
    specialize (IH (set_ipl (k_ipl s) s1) old Hq1').
    destruct (sched_switch fuel (set_ipl (k_ipl s) s1)) as [| | | |old' s2 k] eqn:E; try done.
    + apply IH. by rewrite <- Hc.
    + destruct IH as (-> & -> & Hcalm & Hm2); [by rewrite <- Hc|].
      split_and!; try done. eapply mtx_same_trans; [exact Hm1|exact Hm2].
  - destruct (fifo_front _ _ _ _ Hf) as [n Hq'].
    destruct (wf_member s (quiet_wf s Hq) _ _ t Hq') as (th & Ht & Hw & _); [simpl; set_solver|].
    destruct (quiet_threads s Hq _ _ Ht) as [Hcan Hst].
    destruct (switch_run fuel s old [] t rest th) as (s' & -> & Hsw); try done.
    { apply Hq. }
    { by intros x ?%not_elem_of_nil. }
    pose proof (sw_rest _ _ _ _ _ Hsw) as R. unfold same_rest in R. simpl in R. destruct_and!.
    split_and!; try done.
    + split.
      * split; [apply Hsw| | |].
        -- intros x xth. destruct (decide (x ∈ [t])) as [Hin|Hni].
           ++ rewrite (sw_gone _ _ _ _ _ Hsw) by done. intros (th0 & Ht0 & ->)%fmap_Some.
              by destruct (quiet_threads s Hq _ _ Ht0).
           ++ rewrite (sw_threads _ _ _ _ _ Hsw) by done. apply Hq.
        -- match goal with H : k_intrs s' = _ |- _ => rewrite H end. apply Hq.
        -- match goal with H : runq_first s' = _ |- _ => rewrite H end. apply Hq.
      * exists t, (unqueued th). split_and!; try done; [apply Hsw|].
        rewrite (sw_gone _ _ _ _ _ Hsw) by (by left). by rewrite Ht.
    + split; [congruence|]. by apply (sw_queues _ _ _ _ _ Hsw).
  - unfold fifo in Hf. by rewrite Hr in Hf.
Qed.

(** A thread that goes to sleep on a queue other than the mutex's. *)
Lemma asleep_quiet s q' t th tq :
  quiet s -> k_threads s !! t = Some th -> kt_wchan th = None -> q' <> kt_runq ->
  k_queues s !! q' = Some tq -> quiet (asleep t q' th tq s).
Proof.
  intros Hq Ht Hw Hne Htq. destruct (quiet_threads s Hq _ _ Ht).
  split; try apply Hq.
  - apply asleep_wf; try done. apply Hq.
  - intros x xth. cbn. destruct (decide (t = x)) as [->|].
    + rewrite lookup_insert_eq. intros [= <-]. done.
    + rewrite !lookup_insert_ne by done. apply Hq.
Qed.

(** The lock operation leaves in one of three ways. *)
Lemma lock_cases fuel s h l :
  calm s -> k_mutexes s !! mtx = Some (Kmutex q h) -> fifo s q = Some l ->
  match kmutex_lock fuel mtx s with
  | RDone _ s' => h = None /\ calm s' /\ curthr s' = curthr s /\ fifo s' q = fifo s q /\
      k_mutexes s' !! mtx = Some (Kmutex q (curthr s))
  | Yield t s' k => h <> None /\ h <> Some t /\ calm s' /\ fifo s' q = Some (l ++ [t]) /\
      curthr s = Some t /\
      k_mutexes s' !! mtx = Some (Kmutex q h) /\ (forall s2, exists i, k s2 = RDone tt (set_ipl i s2))
  | _ => True
  end.
Proof.
  intros [Hq (t & th & Hc & Ht & Hw)] Hm Hf. destruct h as [h|].
  - destruct (decide (h = t)) as [->|Hne].
    + unfold kmutex_lock, apic_getipl, apic_setipl, gets, modify.
      unfold lift at 1, cbind at 1. cbn [rbind]. unfold lift at 1, cbind at 1. cbn [rbind].
      unfold cgets at 1, cbind at 1. cbn [rbind curthr set_ipl]. rewrite Hc.
      clift (get_mutex_run (set_ipl IPL_HIGH s) mtx _ Hm). cbn [km_holder].
      rewrite (bool_decide_eq_false_2 (Some t <> Some t)) by naive_solver. by rewrite andb_false_r.
    + unfold fifo in Hf. apply fmap_Some in Hf as (tq & Htq & ->).
      rewrite (lock_held_run fuel s mtx q h t th tq); try done; [|apply Hq].
      assert (quiet (asleep t q th tq (set_ipl IPL_HIGH s))) as Hq1.
      { apply asleep_quiet; try done. by eapply quiet_ext. }
      pose proof (switch_quiet fuel _ t Hq1 Hc) as Hs.
      destruct (sched_switch fuel _) as [| | | |old s' k]; try done.
      destruct Hs as (-> & -> & Hcalm & Hm1 & Hq2). cbn [rbind].
      split_and!; try done; try congruence.
      * unfold fifo. rewrite Hq2. cbn. rewrite lookup_insert_eq.
        change (Some (reverse (t :: tq_list tq)) = Some (reverse (tq_list tq) ++ [t])).
        by rewrite reverse_cons.
      * by rewrite Hm1.
      * intros s2. by exists (k_ipl s).
  - rewrite (lock_free_run fuel s mtx q t) by done.
    split_and!; try done.
    + split; [by eapply quiet_ext|]. eauto.
    + cbn. by rewrite lookup_insert_eq, Hc.
Qed.

(** ** Changes of phase *)
Lemma set_ph_eq t p f : set_ph t p f t = p.
Proof. unfold set_ph. by rewrite decide_True. Qed.
Lemma set_ph_ne t x p f : x <> t -> set_ph t p f x = f x.
Proof. intros. unfold set_ph. by rewrite decide_False. Qed.

Ltac phases t :=
  let x := fresh "x" in
  intros x; destruct (decide (x = t)) as [->|?];
  rewrite ?set_ph_eq, ?set_ph_ne by done.

Lemma shape_acquire p t : shape p None [] -> shape (set_ph t Inside p) (Some t) [].
Proof.
  intros [_ _ _ Hin Hout]. split; try done.
  - by intros x ? ?%elem_of_nil.
  - by intros x ?%elem_of_nil.
  - phases t; [done|]. intros ?%Hin. done.
  - phases t; [naive_solver|]. rewrite Hout.
    split; intros [?|?%elem_of_nil]; try done; congruence.
Qed.

Lemma shape_wait p h t l :
  shape p (Some h) l -> h <> t -> shape (set_ph t Waiting p) (Some h) (l ++ [t]).
Proof.
  intros [Hfree Hap Hw Hin Hout] Hne. split; try done.
  - intros x [= <-]. rewrite elem_of_app, list_elem_of_singleton. intros [Hx| ->]; [|done].
    by eapply Hap.
  - phases t; [done|]. rewrite elem_of_app, list_elem_of_singleton. intros [?|?]; [auto|done].
  - phases t; [done|]. apply Hin.
  - phases t; rewrite elem_of_app, list_elem_of_singleton; [naive_solver|].
    rewrite Hout. naive_solver.
Qed.

Lemma shape_enter p h t l :
  shape p h l -> p t = Waiting -> t ∉ l -> shape (set_ph t Inside p) h l.
Proof.
  intros [Hfree Hap Hw Hin Hout] Ht Hni.
  assert (h = Some t) as -> by (destruct (proj1 (Hout t)); [congruence|done|done]).
  split; try done.
  - phases t; [done|]. apply Hw.
  - phases t; [done|]. apply Hin.
  - phases t; [naive_solver|]. apply Hout.
Qed.

Lemma shape_release p t l :
  shape p (Some t) l -> NoDup l -> shape (set_ph t Outside p) (head l) (drop 1 l).
Proof.
  intros [Hfree Hap Hw Hin Hout] Hnd.
  assert (t ∉ l) as Ht by (by apply Hap).
  destruct l as [|t1 l]; cbn [head drop].
  - split; try done.
    + by intros x ?%elem_of_nil.
    + phases t; [done|]. intros Hx%Hin. congruence.
    + phases t; [naive_solver|]. rewrite Hout. split; [|naive_solver]. intros [?|?]; [congruence|by right].
  - apply NoDup_cons in Hnd as [Hn1 Hnd]. apply not_elem_of_cons in Ht as [Ht1 Ht].
    split; try done.
    + intros x [= <-]. done.
    + phases t; [done|]. intros Hx. apply Hw. by right.
    + phases t; [done|]. intros Hx%Hin. congruence.
    + phases t; [naive_solver|]. rewrite Hout, elem_of_cons. naive_solver.
Qed.

(** ** Preservation *)
Lemma cur_not_waiting s t l : calm s -> curthr s = Some t -> fifo s q = Some l -> t ∉ l.
Proof.
  intros [Hq (t' & th & Hc & Ht & Hw)] Hc' Hf.
  assert (t' = t) as -> by congruence. intros Hin.
  unfold fifo in Hf. apply fmap_Some in Hf as (tq & Htq & ->).
  rewrite elem_of_reverse in Hin.
  destruct (wf_member s (quiet_wf s Hq) _ _ _ Htq Hin) as (th' & ? & ? & _). congruence.
Qed.

Lemma make_runnable_quiet s t :
  calm s -> curthr s = Some t ->
  match sched_make_runnable t s with Done _ s' => quiet_step s s' | _ => True end.
Proof.
  intros [Hq (t' & th & Hc & Ht & Hw)] Hc'.
  assert (t' = t) as -> by congruence. unfold sched_make_runnable.
  krun (get_thread_run s t th Ht). unfold kassert at 1, bind at 1. rewrite Hw.
  rewrite bool_decide_eq_true_2 by done. unfold bind at 1, deref at 1.
  destruct (k_procs s !! kt_proc th) as [pr|]; [|done].
  unfold gets at 1, bind at 1. rewrite (quiet_first s Hq), andb_false_r.
  unfold ret, bind at 1, apic_getipl, gets, bind at 1, apic_setipl, modify, bind at 1.
  set (s0 := set_ipl IPL_HIGH s). krun (set_thread_run s0 t th (t_state KT_RUN) Ht).
  destruct (wf_runq s (quiet_wf s Hq)) as [tq Hr]. destruct (quiet_threads s Hq _ _ Ht).
  assert (sched_wf (upd_threads <[t := t_state KT_RUN th]> s0)) as Hwf1.
  { eapply upd_thread_wf; try done; [eapply sched_wf_ext; [apply Hq|done|done]|].
    intros ? ?. congruence. }
  erewrite bind_done; [|apply enqueue_run; [done|apply lookup_insert_eq|exact Hr|done]].
  split_and!; [|split; [done|]|done].
  - split; try apply Hq.
    + eapply sched_wf_ext; [apply enq_wf; [exact Hwf1|apply lookup_insert_eq|exact Hr|done|by left]|done|done].
    + intros x xth. cbn. destruct (decide (t = x)) as [->|].
      * rewrite lookup_insert_eq. intros [= <-]. done.
      * rewrite !lookup_insert_ne by done. apply Hq.
  - cbn. by rewrite lookup_insert_ne.
Qed.

(** The parts of the invariant a switch away from the mutex keeps. *)
Lemma inv_switch s p c t s' k :
  mutex_inv (Sys s p c) -> calm s' -> mtx_same s s' -> k = (fun s2 => RDone tt s2) ->
  mutex_inv (Sys s' p (<[t := k]> c)).
Proof.
  intros [Hcalm (h & l & Hm & Hf & Hsh) Hctx Hwait] Hcalm' [Em Eq] ->. split; cbn in *.
  - done.
  - exists h, l. rewrite Em. unfold fifo. rewrite Eq. done.
  - intros x k'. destruct (decide (t = x)) as [->|].
    + rewrite lookup_insert_eq. intros [= <-] s2. exists (k_ipl s2). by destruct s2.
    + rewrite lookup_insert_ne by done. apply Hctx.
  - intros x Hx. destruct (decide (t = x)) as [->|]; [by rewrite lookup_insert_eq|].
    rewrite lookup_insert_ne by done. auto.
Qed.

Lemma inv_lock s p c t s' fuel :
  mutex_inv (Sys s p c) -> curthr s = Some t -> kmutex_lock fuel mtx s = RDone tt s' ->
  mutex_inv (Sys s' (set_ph t Inside p) c).
Proof.
  intros [Hcalm (h & l & Hm & Hf & Hsh) Hctx Hwait] Hc E. cbn [st ph ctx] in *.
  pose proof (lock_cases fuel s h l Hcalm Hm Hf) as Hl. rewrite E in Hl.
  destruct Hl as (-> & Hcalm' & Hc' & Hf' & Hm'). rewrite Hc in Hm'.
  assert (l = []) as -> by (by apply (sh_free _ _ _ Hsh)).
  split; cbn; [done| |done|].
  - exists (Some t), []. split_and!; [done|congruence|by apply shape_acquire].
  - phases t; [done|]. apply Hwait.
Qed.

Lemma inv_lock_wait s p c t s' k fuel :
  mutex_inv (Sys s p c) -> kmutex_lock fuel mtx s = Yield t s' k ->
  mutex_inv (Sys s' (set_ph t Waiting p) (<[t := k]> c)).
Proof.
  intros [Hcalm (h & l & Hm & Hf & Hsh) Hctx Hwait] E. cbn [st ph ctx] in *.
  pose proof (lock_cases fuel s h l Hcalm Hm Hf) as Hl. rewrite E in Hl.
  destruct Hl as (Hh & Hht & Hcalm' & Hf' & _ & Hm' & Hk). destruct h as [h|]; [|done].
  split; cbn; [done| | |].
  - exists (Some h), (l ++ [t]). split_and!; [done|done|apply shape_wait; [done|congruence]].
  - intros x k'. destruct (decide (t = x)) as [->|].
    + rewrite lookup_insert_eq. by intros [= <-].
    + rewrite lookup_insert_ne by done. apply Hctx.
  - phases t; [by rewrite lookup_insert_eq|]. rewrite lookup_insert_ne by done. apply Hwait.
Qed.

Lemma inv_resume s p c t k s' :
  mutex_inv (Sys s p c) -> curthr s = Some t -> c !! t = Some k -> k s = RDone tt s' ->
  mutex_inv (Sys s' (match p t with Waiting => set_ph t Inside p | _ => p end) (delete t c)).
Proof.
  intros [Hcalm (h & l & Hm & Hf & Hsh) Hctx Hwait] Hc Hk E. cbn [st ph ctx] in *.
  destruct (Hctx t k Hk s) as [i Ei]. rewrite E in Ei. injection Ei as ->.
  assert (calm (set_ipl i s)) as Hcalm'.
  { destruct Hcalm as [Hq Hcur]. split; [by eapply quiet_ext|done]. }
  pose proof (cur_not_waiting s t l Hcalm Hc Hf) as Hni.
  split; cbn; [done| | |].
  - exists h, l. split_and!; [done|done|]. destruct (p t) eqn:Hp; try done. by apply shape_enter.
  - intros x k' [_ ?]%lookup_delete_Some. by eapply Hctx.
  - intros x Hx. destruct (decide (x = t)) as [->|Hne].
    + destruct (p t) eqn:Hp; rewrite ?set_ph_eq in Hx; congruence.
    + rewrite lookup_delete_ne by done. apply Hwait.
      destruct (p t); rewrite ?set_ph_ne in Hx by done; done.
Qed.

Lemma inv_unlock s p c t s' :
  mutex_inv (Sys s p c) -> curthr s = Some t -> p t = Inside -> kmutex_unlock mtx s = Done tt s' ->
  mutex_inv (Sys s' (set_ph t Outside p) c).
Proof.
  intros [Hcalm (h & l & Hm & Hf & Hsh) Hctx Hwait] Hc Hp E. cbn [st ph ctx] in *.
  assert (h = Some t) as -> by (by apply (sh_in _ _ _ Hsh)).
  pose proof (cur_not_waiting s t l Hcalm Hc Hf) as Hni.
  pose proof (calm_quiet s Hcalm) as Hq.
  destruct (runs_done _ _ _ (unlock_run s mtx q t l (quiet_wf s Hq) Hc Hm Hqr Hf Hni))
    as ([] & s1 & E1 & Hm1 & Hmv). rewrite E in E1. injection E1 as <-.
  assert (curthr s' = Some t) as Hc' by (rewrite <- Hc; apply (mv_rest _ _ _ _ _ Hmv)).
  split; cbn; [| |done|].
  - pose proof (quiet_moved _ _ _ _ _ Hq Hmv) as Hq1.
    split; [by eapply (quiet_ext _ s')|].
    destruct (calm_cur s Hcalm) as (t' & th & ? & Ht & Hw).
    assert (t' = t) as -> by congruence.
    exists t, th. split_and!; try done. rewrite <- Ht.
    apply (mv_threads _ _ _ _ _ Hmv). destruct l; [apply not_elem_of_nil|].
    cbn. apply not_elem_of_cons in Hni as [? _]. by rewrite list_elem_of_singleton.
  - exists (head l), (drop 1 l). rewrite Hm1, lookup_insert_eq.
    split_and!; [done|apply (mv_from _ _ _ _ _ Hmv)|].
    apply shape_release; [done|]. eapply fifo_nodup; [apply Hq|done].
  - phases t; [done|]. apply Hwait.
Qed.

Lemma inv_yield s p c t s' k fuel :
  mutex_inv (Sys s p c) -> curthr s = Some t ->
  (lift (sched_make_runnable t) ;! sched_switch fuel) s = Yield t s' k ->
  mutex_inv (Sys s' p (<[t := k]> c)).
Proof.
  intros Hinv Hc E. pose proof (mi_calm _ Hinv) as Hcalm. cbn in Hcalm.
  pose proof (make_runnable_quiet s t Hcalm Hc) as H1. unfold cbind, lift in E.
  destruct (sched_make_runnable t s) as [r s1| | |]; try done. destruct H1 as (Hq1 & Hm1 & Hc1).
  cbn [rbind] in E. pose proof (switch_quiet fuel s1 t Hq1) as H2. rewrite E in H2.
  destruct H2 as (_ & Hk & Hcalm' & Hm2); [congruence|].
  eapply inv_switch; [done|done|by eapply mtx_same_trans|done].
Qed.

Lemma sleep_needs_queue fuel s q' t th old s' k :
  curthr s = Some t -> k_threads s !! t = Some th ->
  sched_sleep_on fuel q' s = Yield old s' k -> is_Some (k_queues s !! q').
Proof.
  intros Hc Ht E. destruct (k_queues s !! q') as [tq|] eqn:Htq; [done|exfalso].
  unfold sched_sleep_on in E.
  rewrite (cbind_done _ _ _ _ _ (lift_done _ _ _ _ (get_curthr_run s t Hc))) in E.
  rewrite (cbind_done _ _ _ _ _ (lift_done _ _ _ _ (set_thread_run s t th (t_state KT_SLEEP) Ht))) in E.
  unfold cbind, lift, ktqueue_enqueue, get_thread, bind, deref in E. cbn in E.
  rewrite lookup_insert_eq in E. cbn in E. unfold kassert in E.
  destruct (bool_decide _); [|done].
  destruct (kt_qlink th); try done; unfold get_queue, deref in E; cbn in E; by rewrite Htq in E.
Qed.

Lemma inv_sleep s p c t q' s' k fuel :
  mutex_inv (Sys s p c) -> curthr s = Some t -> q' <> q -> q' <> kt_runq ->
  sched_sleep_on fuel q' s = Yield t s' k ->
  mutex_inv (Sys s' p (<[t := k]> c)).
Proof.
  intros Hinv Hc Hq1 Hq2 E. pose proof (mi_calm _ Hinv) as Hcalm. cbn in Hcalm.
  destruct (calm_cur s Hcalm) as (t' & th & ? & Ht & Hw).
    assert (t' = t) as -> by congruence.
  pose proof (calm_quiet s Hcalm) as Hq.
  destruct (sleep_needs_queue _ _ _ _ _ _ _ _ Hc Ht E) as [tq Htq].
  rewrite (sleep_on_run fuel s q' t th tq) in E; try done; [|apply Hq].
  pose proof (switch_quiet fuel _ t (asleep_quiet s q' t th tq Hq Ht Hw Hq2 Htq) Hc) as H2.
  rewrite E in H2. destruct H2 as (_ & Hk & Hcalm' & Hm2).
  eapply inv_switch; [done|done| |done]. eapply mtx_same_trans; [|exact Hm2].
  split; [done|]. cbn. by rewrite lookup_insert_ne.
Qed.

Lemma inv_other s p c s' :
  mutex_inv (Sys s p c) -> calm s' -> mtx_same s s' -> mutex_inv (Sys s' p c).
Proof.
  intros [Hcalm (h & l & Hm & Hf & Hsh) Hctx Hwait] Hcalm' [Em Eq]. cbn [st ph ctx] in *.
  split; cbn; [done| |done|done]. exists h, l. rewrite Em. unfold fifo. by rewrite Eq.
Qed.

Lemma step_inv x y : step x y -> mutex_inv x -> mutex_inv y.
Proof.
  destruct 1; intros Hinv;
    eauto using inv_lock, inv_lock_wait, inv_resume, inv_unlock, inv_yield, inv_sleep, inv_other.
Qed.

Inductive steps : sys -> sys -> Prop :=
| steps_refl x : steps x x
| steps_more x y z : steps x y -> step y z -> steps x z.

Lemma steps_inv x y : steps x y -> mutex_inv x -> mutex_inv y.
Proof. induction 1; [done|]. intros. eapply step_inv; eauto. Qed.
End Exclusion.

(** C31: Mutual exclusion: from any state in which the mutex is in order, whatever
    the threads do with it and however they are interleaved, two threads are
    never inside it together; the holder is a user of the mutex, and a free
    mutex has nobody waiting for it. *)
Theorem kmutex_exclusion mtx q x y t1 t2 :
  q <> kt_runq -> mutex_inv mtx q x -> steps mtx q x y ->
  (ph y t1 = Inside -> ph y t2 = Inside -> t1 = t2) /\
  (ph y t1 = Inside -> k_mutexes (st y) !! mtx = Some (Kmutex q (Some t1))) /\
  (ph y t1 = Waiting -> exists h, k_mutexes (st y) !! mtx = Some (Kmutex q (Some h)) /\ ph y h <> Outside).
Proof.
  intros Hne Hx Hs. destruct (steps_inv mtx q Hne x y Hs Hx) as [_ (h & l & Hm & Hf & Hsh) _ _].
  split_and!.
  - intros H1%(sh_in _ _ _ Hsh) H2%(sh_in _ _ _ Hsh). congruence.
  - intros H1%(sh_in _ _ _ Hsh). by subst.
  - intros H1. destruct h as [h|].
    + exists h. split; [done|]. apply (sh_out _ _ _ Hsh). by left.
    + destruct (proj1 (sh_out _ _ _ Hsh t1)) as [?|Hin]; [congruence|done|].
      rewrite (sh_free _ _ _ Hsh eq_refl) in Hin. by apply elem_of_nil in Hin.
Qed.

(** Thread 10 locks, sleeps inside, thread 11 asks for the mutex and waits. *)
Lemma demo_mutex_inv : mutex_inv 7 6 (Sys demo (fun _ => Outside) ∅).
Proof.
  assert (forall t th, k_threads demo !! t = Some th -> kt_cancelled th <> 1 /\ kt_state th <> KT_EXITED)
    as Hth.
  { intros t th Ht.
    assert (map_Forall (fun _ th => kt_cancelled th <> 1 /\ kt_state th <> KT_EXITED) (k_threads demo)) as H
      by (eapply bool_decide_eq_true_1; by vm_compute).
    by eapply H. }
  split; cbn [st ph ctx]; [| |done|done].
  - split; [split; [apply demo_wf|exact Hth| |done]|].
    + repeat constructor; done.
    + exists 10, (demo_thread 100 KT_RUN None). done.
  - exists None, []. split_and!; [done|done|].
    split; [done|done|by intros t ?%elem_of_nil|done|].
    intros t. split; [done|]. by intros [?|?%elem_of_nil].
Qed.

Definition res_state (r : res kstate unit) : kstate :=
  match r with RDone _ s | Yield _ s _ => s | _ => demo end.
Definition res_cont (r : res kstate unit) : kstate -> res kstate unit :=
  match r with Yield _ _ k => k | _ => fun s => RDone tt s end.

Definition demo1 : kstate := res_state (kmutex_lock 1 7 demo).
Definition demo2 : res kstate unit := sched_sleep_on 1 5 demo1.
Definition demo3 : res kstate unit := kmutex_lock 4 7 (res_state demo2).
Definition demo_end : sys :=
  Sys (res_state demo3) (set_ph 11 Waiting (set_ph 10 Inside (fun _ => Outside)))
      (<[11 := res_cont demo3]> (<[10 := res_cont demo2]> ∅)).

Lemma demo_steps : steps 7 6 (Sys demo (fun _ => Outside) ∅) demo_end.
Proof.
  eapply steps_more; [eapply steps_more; [eapply steps_more; [apply steps_refl|]|]|].
  - apply (step_lock 7 6 _ _ _ 10 demo1 1); by vm_compute.
  - apply (step_sleep 7 6 _ _ _ 10 5 (res_state demo2) (res_cont demo2) 1); by vm_compute.
  - apply (step_lock_wait 7 6 _ _ _ 11 (res_state demo3) (res_cont demo3) 4); by vm_compute.
Qed.

Lemma kmutex_exclusion_witness :
  ph demo_end 10 = Inside /\ ph demo_end 11 = Waiting /\
  k_mutexes (st demo_end) !! 7 = Some (Kmutex 6 (Some 10)).
Proof.
  split; [done|]. split; [done|].
  eapply (kmutex_exclusion 7 6 _ _ 10 10 ltac:(done) demo_mutex_inv demo_steps). done.
Defined.

(** [kmutex_unlock] hands the mutex to the thread that has waited longest and
    makes that thread runnable, or frees the mutex when nobody waits. *)
Theorem kmutex_unlock_handover s m q t l :
  sched_wf s -> curthr s = Some t -> k_mutexes s !! m = Some (Kmutex q (Some t)) ->
  q <> kt_runq -> fifo s q = Some l -> t ∉ l ->
  runs (kmutex_unlock m) s (fun _ s' =>
    k_mutexes s' = <[m := Kmutex q (head l)]> (k_mutexes s) /\
    moved (take 1 l) (drop 1 l) q s (upd_mutexes (fun _ => k_mutexes s) s')).
Proof. apply unlock_run. Qed.

Lemma kmutex_unlock_handover_witness :
  runs (kmutex_unlock 8) demo (fun _ s' => k_mutexes s' !! 8 = Some (Kmutex 5 (Some 12))).
Proof.
  eapply runs_mono.
  - apply (kmutex_unlock_handover demo 8 5 10 [12; 13; 14]);
      [apply demo_wf|done|by vm_compute|done|by vm_compute|].
    eapply bool_decide_eq_true_1. by vm_compute.
  - intros [] s' [-> _]. by vm_compute.
Defined.

(** A cancelled thread that asks for a mutex somebody else holds is told it has
    it: [kmutex_lock_cancellable] drops the [-EINTR] of the sleep and returns 0,
    with the holder unchanged and the caller still marked as sleeping. *)
Theorem kmutex_lock_cancellable_unheld fuel s m q h t th :
  curthr s = Some t -> k_threads s !! t = Some th -> kt_cancelled th = 1 ->
  k_mutexes s !! m = Some (Kmutex q (Some h)) -> h <> t ->
  exists s', kmutex_lock_cancellable fuel m s = RDone 0 s' /\
    k_mutexes s' = k_mutexes s /\ k_threads s' !! t = Some (t_state KT_SLEEP_CANCELLABLE th).
Proof.
  intros Hc Ht Hcan Hm Hne.
  exists (upd_threads <[t := t_state KT_SLEEP_CANCELLABLE th]> s). split_and!; [|done|apply lookup_insert_eq].
  unfold kmutex_lock_cancellable, apic_getipl, apic_setipl, gets, modify.
  unfold lift at 1, cbind at 1. cbn [rbind]. unfold lift at 1, cbind at 1. cbn [rbind].
  unfold cgets at 1, cbind at 1. cbn [rbind curthr set_ipl]. rewrite Hc.
  clift (get_mutex_run (set_ipl IPL_HIGH s) m _ Hm). cbn [km_holder km_waitq].
  rewrite (bool_decide_eq_true_2 (Some t <> None)), (bool_decide_eq_true_2 (Some t <> Some h)) by congruence.
  unfold cassert at 1, cbind at 1. cbn [andb rbind].
  rewrite bool_decide_eq_false_2 by done. unfold sched_cancellable_sleep_on, cbind at 1 2.
  unfold cbind at 1. unfold lift at 1, get_curthr, deref. cbn [curthr set_ipl]. rewrite Hc. cbn [rbind].
  clift (set_thread_run (set_ipl IPL_HIGH s) t th (t_state KT_SLEEP_CANCELLABLE) Ht).
  erewrite cbind_done; [|apply lift_done; apply get_thread_run; apply lookup_insert_eq].
  cbn [kt_cancelled t_state]. rewrite Hcan. by destruct s.
Qed.

Lemma kmutex_lock_cancellable_unheld_witness :
  exists s s', kmutex_lock_cancellable 1 8 s = RDone 0 s' /\ curthr s = Some 11 /\
    k_mutexes s' !! 8 = Some (Kmutex 5 (Some 10)).
Proof.
  set (s := set_cur (Some 11) (Some 101) (upd_threads <[11 := t_cancelled 1 (demo_thread 101 KT_RUN None)]> demo)).
  destruct (kmutex_lock_cancellable_unheld 1 s 8 5 10 11 (t_cancelled 1 (demo_thread 101 KT_RUN None)))
    as (s' & E & Hm & _); [done|by vm_compute|done|by vm_compute|done|].
  exists s, s'. split_and!; [exact E|done|]. rewrite Hm. by vm_compute.
Defined.

End KMutex.
