(* ===== verification/ProcTable.v ===== *)
(** * The process table: pids, parents and children, reaping ([proc/proc.c]) *)

From Stdlib Require Import ZArith Lia.
From stdpp Require Import base list gmap.
From S2P Require Import Prelude Coop Sched Proc.

Module ProcTable.
Import Sched Proc.
Local Open Scope Z_scope.

(** ** [_proc_getid] *)

(** The first pid from [start] on, round the end of the range, that is not used. *)
Definition first_free (used : list Z) (start r : Z) : Prop :=
  exists k, 0 <= k < PROC_MAX_COUNT /\ r = (start + k) mod PROC_MAX_COUNT /\ r ∉ used /\
    forall j, 0 <= j < k -> (start + j) mod PROC_MAX_COUNT ∈ used.

Lemma first_free_range used start r : first_free used start r -> 0 <= r < PROC_MAX_COUNT /\ r ∉ used.
Proof. intros (k & Hk & -> & Hr & _). split; [|done]. unfold PROC_MAX_COUNT. dlia. Qed.

Lemma getid_loop_spec used start fuel : forall k,
  0 <= start < PROC_MAX_COUNT -> 0 <= k < PROC_MAX_COUNT -> Z.of_nat fuel + k = PROC_MAX_COUNT ->
  (forall j, 0 <= j < k -> (start + j) mod PROC_MAX_COUNT ∈ used) ->
  exists r, getid_loop fuel used start ((start + k) mod PROC_MAX_COUNT) = Some r /\
    ((r = -1 /\ forall x, 0 <= x < PROC_MAX_COUNT -> x ∈ used) \/ first_free used start r).
Proof.
  unfold PROC_MAX_COUNT. induction fuel as [|fuel IH]; intros k Hs Hk Hf Hused; [lia|].
  cbn [getid_loop]. destruct (bool_decide_reflect ((start + k) mod 65536 ∈ used)) as [Hin|Hni].
  2:{ eexists. split; [done|]. right. exists k. unfold PROC_MAX_COUNT. done. }
  unfold PROC_MAX_COUNT. rewrite Zplus_mod_idemp_l, <- Z.add_assoc.
  assert (forall j, 0 <= j < k + 1 -> (start + j) mod 65536 ∈ used) as Hused'.
  { intros j Hj. destruct (decide (j = k)) as [->|]; [done|apply Hused; lia]. }
  destruct (Z.eqb_spec ((start + (k + 1)) mod 65536) start) as [E|E].
  - assert (k + 1 = 65536) by dlia. eexists. split; [done|]. left. split; [done|].
    intros x Hx. replace x with ((start + ((x - start) mod 65536)) mod 65536) by dlia.
    apply Hused'. dlia.
  - apply IH; try lia; try done. destruct (decide (k + 1 = 65536)); [|lia]. exfalso. apply E. dlia.
Qed.

(** ** The table invariant *)
Record table_wf (s : kstate) : Prop := {
  tw_list : NoDup (proc_list s);
  tw_procs : forall p, p ∈ proc_list s <-> is_Some (k_procs s !! p);
  tw_pids : forall p q pr qr, k_procs s !! p = Some pr -> k_procs s !! q = Some qr ->
    p_pid pr = p_pid qr -> p = q;
  tw_range : forall p pr, k_procs s !! p = Some pr -> 0 <= p_pid pr < PROC_MAX_COUNT;
  tw_next : 0 <= next_pid s < PROC_MAX_COUNT;
  tw_kids : forall p pr c, k_procs s !! p = Some pr ->
    c ∈ p_children pr <-> exists cr, k_procs s !! c = Some cr /\ p_pproc cr = Some p;
  tw_kids_nodup : forall p pr, k_procs s !! p = Some pr -> NoDup (p_children pr);
  tw_parent : forall p pr pp, k_procs s !! p = Some pr -> p_pproc pr = Some pp ->
    is_Some (k_procs s !! pp);
  tw_fresh : forall p pr, k_procs s !! p = Some pr -> p < k_fresh s
}.

(** The pids in use. *)
Definition pids (s : kstate) : list Z :=
  omap (fun p => p_pid <$> (k_procs s !! p)) (proc_list s).

Lemma list_pids_run s ps :
  (forall p, p ∈ ps -> is_Some (k_procs s !! p)) ->
  list_pids ps s = Done (omap (fun p => p_pid <$> (k_procs s !! p)) ps) s.
Proof.
  induction ps as [|p ps IH]; intros H; [done|]. cbn [list_pids].
  destruct (H p) as [pr Hp]; [by left|]. krun (get_proc_run s p pr Hp).
  krun (IH (fun x Hx => H x ltac:(by right))). cbn. by rewrite Hp.
Qed.

(** A whole turn without a free pid needs [PROC_MAX_COUNT] processes. *)
Lemma all_used_length (used : list Z) :
  (forall x, 0 <= x < PROC_MAX_COUNT -> x ∈ used) -> PROC_MAX_COUNT <= Z.of_nat (length used).
Proof.
  intros H. assert (length (seqZ 0 PROC_MAX_COUNT) <= length used)%nat as Hle.
  { apply submseteq_length, NoDup_submseteq; [apply NoDup_seqZ|].
    intros x ?%elem_of_seqZ. apply H. lia. }
  rewrite length_seqZ in Hle. unfold PROC_MAX_COUNT in *. lia.
Qed.

Lemma getid_run s :
  table_wf s ->
  exists r, _proc_getid s =
      Done r (if r =? -1 then s else set_next_pid ((r + 1) mod PROC_MAX_COUNT) s) /\
    ((r = -1 /\ forall x, 0 <= x < PROC_MAX_COUNT -> x ∈ pids s) \/ first_free (pids s) (next_pid s) r).
Proof.
  intros Hw. unfold _proc_getid, gets at 1. unfold bind at 1.
  krun (list_pids_run s (proc_list s) (fun p => proj1 (tw_procs s Hw p))).
  unfold gets, bind.
  destruct (getid_loop_spec (pids s) (next_pid s) (Z.to_nat PROC_MAX_COUNT) 0) as (r & E & Hr);
    try apply Hw; try (unfold PROC_MAX_COUNT; lia).
  rewrite Z.add_0_r, Z.mod_small in E by apply Hw.
  exists r. split; [|done]. fold (pids s). rewrite E.
  destruct Hr as [[-> _]|[Hr _]%first_free_range]; [done|].
  destruct (Z.eqb_spec r (-1)); [lia|]. destruct r; done || lia.
Qed.

Lemma elem_of_pids s x :
  table_wf s -> x ∈ pids s <-> exists p pr, k_procs s !! p = Some pr /\ p_pid pr = x.
Proof.
  intros Hw. unfold pids. rewrite list_elem_of_omap. split.
  - intros (p & _ & E). apply fmap_Some in E as (pr & Hp & ->). eauto.
  - intros (p & pr & Hp & <-). exists p. rewrite Hp. split; [|done]. apply (tw_procs s Hw). eauto.
Qed.

(** ** A decision procedure for the invariant *)
Definition parent_ok (s : kstate) (p : Z) (pr : proc) : bool :=
  match p_pproc pr with
  | Some pp => match k_procs s !! pp with
               | Some ppr => bool_decide (p ∈ p_children ppr)
               | None => false
               end
  | None => true
  end.

Definition proc_ok (s : kstate) (p : Z) (pr : proc) : Prop :=
  (0 <= p_pid pr < PROC_MAX_COUNT) /\ p < k_fresh s /\ NoDup (p_children pr) /\ p ∈ proc_list s /\
  Forall (fun c => p_pproc <$> (k_procs s !! c) = Some (Some p)) (p_children pr) /\
  parent_ok s p pr = true /\
  map_Forall (fun q qr => p_pid pr = p_pid qr -> p = q) (k_procs s).
#[export] Instance proc_ok_dec s p pr : Decision (proc_ok s p pr).
Proof. unfold proc_ok. apply _. Defined.

Definition table_check (s : kstate) : bool :=
  bool_decide (NoDup (proc_list s)) &&
  bool_decide (Forall (fun p => is_Some (k_procs s !! p)) (proc_list s)) &&
  bool_decide (0 <= next_pid s < PROC_MAX_COUNT) &&
  bool_decide (map_Forall (proc_ok s) (k_procs s)).

Lemma table_check_sound s : table_check s = true -> table_wf s.
Proof.
  unfold table_check. intros [[[H1 H2]%andb_prop H3]%andb_prop H4]%andb_prop.
  apply bool_decide_eq_true_1 in H1, H2, H3, H4. rewrite Forall_forall in H2. split; try done.
  - intros p. split; [apply H2|]. intros [pr Hp]. by apply (H4 p pr).
  - intros p q pr qr Hp Hq. destruct (H4 p pr Hp) as (_ & _ & _ & _ & _ & _ & H). by apply H.
  - intros p pr Hp. by destruct (H4 p pr Hp) as (? & _).
  - intros p pr c Hp. destruct (H4 p pr Hp) as (_ & _ & _ & _ & Hf & _). rewrite Forall_forall in Hf. split.
    + intros Hc%Hf. apply fmap_Some in Hc as (cr & ? & ?). eauto.
    + intros (cr & Hc & E). destruct (H4 c cr Hc) as (_ & _ & _ & _ & _ & Hpar & _).
      unfold parent_ok in Hpar. rewrite E, Hp in Hpar. by apply bool_decide_eq_true_1 in Hpar.
  - intros p pr Hp. by destruct (H4 p pr Hp) as (_ & _ & ? & _).
  - intros p pr pp Hp E. destruct (H4 p pr Hp) as (_ & _ & _ & _ & _ & Hpar & _).
    unfold parent_ok in Hpar. rewrite E in Hpar. by destruct (k_procs s !! pp).
  - intros p pr Hp. by destruct (H4 p pr Hp) as (_ & ? & _).
Qed.

(** Idle, init and a shell (the current process) with a live child of pid 3 and
    a dead one of pid 4. *)
Definition demo_proc (pid : Z) (ts cs : list Z) (pp : option Z) (st : p_state_t) : proc :=
  Proc pid [] ts cs pp 0 st (200 + pid) 4096 (replicate NFILES None) (Some 77).

Definition demo_procs : kstate :=
  Kstate
    (<[14 := Kthread 4096 (Some 0) 104 0 None KT_EXITED Unlinked]> (k_threads demo))
    (k_queues demo) ∅
    (list_to_map [(100, demo_proc 0 [] [101] None PROC_RUNNING);
                  (101, demo_proc 1 [] [102] (Some 100) PROC_RUNNING);
                  (102, demo_proc 2 [10] [103; 104] (Some 101) PROC_RUNNING);
                  (103, demo_proc 3 [13] [] (Some 102) PROC_RUNNING);
                  (104, demo_proc 4 [14] [] (Some 102) PROC_DEAD)])
    (Some 10) (Some 102) [100; 101; 102; 103; 104] (Some 101) 5 0 false [] [] 1000 [] 4096.

Lemma demo_procs_wf : table_wf demo_procs.
Proof. apply table_check_sound. by vm_compute. Qed.

(** C40: [_proc_getid] returns the first pid from [next_pid] on, going round after
    the last one, that no process has, and sets [next_pid] to the one after it; it
    returns -1, changing nothing, only when all [PROC_MAX_COUNT] pids are in use.
    The search always ends. *)
Theorem proc_getid_spec s :
  table_wf s ->
  runs _proc_getid s (fun r s' =>
    (r = -1 /\ s' = s /\ forall x, 0 <= x < PROC_MAX_COUNT ->
       exists p pr, k_procs s !! p = Some pr /\ p_pid pr = x) \/
    (s' = set_next_pid ((r + 1) mod PROC_MAX_COUNT) s /\
     (forall p pr, k_procs s !! p = Some pr -> p_pid pr <> r) /\
     exists k, 0 <= k < PROC_MAX_COUNT /\ r = (next_pid s + k) mod PROC_MAX_COUNT /\
       forall j, 0 <= j < k -> exists p pr, k_procs s !! p = Some pr /\ p_pid pr = (next_pid s + j) mod PROC_MAX_COUNT)).
Proof.
  intros Hw. destruct (getid_run s Hw) as (r & E & Hr). eapply runs_intro; [exact E|].
  destruct Hr as [[-> Hall]|Hr].
  - left. split_and!; [done|done|]. intros x Hx. apply elem_of_pids; auto.
  - right. destruct (first_free_range _ _ _ Hr) as [Hrange Hni]. destruct Hr as (k & Hk & Er & _ & Hused).
    destruct (Z.eqb_spec r (-1)); [lia|]. split_and!; [done| |].
    + intros p pr Hp E'. apply Hni, elem_of_pids; eauto.
    + exists k. split_and!; [lia|lia|done|]. intros j Hj. apply elem_of_pids; auto.
Qed.

(** The pids 0 to 4 are in use; the search from 3 skips 3 and 4. *)
Lemma proc_getid_spec_witness : exists s', _proc_getid (set_next_pid 3 demo_procs) = Done 5 s' /\ next_pid s' = 6.
Proof.
  assert (table_wf (set_next_pid 3 demo_procs)) as Hw by (apply table_check_sound; by vm_compute).
  destruct (runs_done _ _ _ (proc_getid_spec (set_next_pid 3 demo_procs) Hw)) as (r & s' & E & Hr).
  assert (r = 5) as -> by (vm_compute in E; congruence).
  destruct Hr as [[? _]|[-> _]]; [done|]. eexists. split; [exact E|reflexivity].
Defined.

(** ** [proc_create] *)

(** The new process as [proc_create] fills it in. *)
Definition new_proc (pid : Z) (name : list Z) (parent fr pagedir : Z) (cwd : option Z) : proc :=
  Proc pid name [] [] (Some parent) 0 PROC_RUNNING (fr + 1) pagedir (replicate NFILES None) cwd.

Definition created (pid : Z) (name : list Z) (cp : Z) (cpr : proc) (cwd : option Z) (s : kstate) : kstate :=
  let fr := k_fresh s in
  upd_procs <[cp := pr_children (p_children cpr ++ [fr]) cpr]>
    (upd_procs <[fr := new_proc pid name cp fr (k_pagedir s) cwd]>
       (upd_queues <[fr + 1 := Ktqueue [] 0]>
          (set_proc_list (proc_list s ++ [fr])
             (set_fresh (fr + 2) (set_oom (tail (k_oom s)) (set_next_pid ((pid + 1) mod PROC_MAX_COUNT)
                (match cwd with Some v => add_call (CallVref v) s | None => s end))))))).

Lemma table_wf_ext s s' :
  table_wf s -> k_procs s' = k_procs s -> proc_list s' = proc_list s -> next_pid s' = next_pid s ->
  k_fresh s <= k_fresh s' -> table_wf s'.
Proof.
  intros [] Ep El En Ef. split; rewrite ?Ep, ?El, ?En; try done.
  intros p pr Hp. specialize (tw_fresh0 p pr Hp). lia.
Qed.

Lemma alloc_some s : head (k_oom s) <> Some true ->
  alloc s = Done (Some (k_fresh s)) (set_fresh (k_fresh s + 1) (set_oom (tail (k_oom s)) s)).
Proof. intros Ho. unfold alloc, gets, modify, bind, ret. by destruct (k_oom s) as [|[] o]. Qed.

Lemma proc_create_run s name cp cpr v :
  table_wf s -> curproc s = Some cp -> k_procs s !! cp = Some cpr -> p_cwd cpr = Some v ->
  0 ∈ pids s -> 1 ∈ pids s -> Z.of_nat (length (proc_list s)) < PROC_MAX_COUNT ->
  Z.of_nat (length name) < PROC_NAME_LEN -> head (k_oom s) <> Some true ->
  exists pid, 2 <= pid < PROC_MAX_COUNT /\ first_free (pids s) (next_pid s) pid /\
    proc_create name s = Done (k_fresh s)
      (created pid name cp cpr (if pid >? 2 then Some v else None) s).
Proof.
  intros Hw Hc Hcp Hv H0 H1 Hlen Hname Ho.
  set (fr := k_fresh s). set (s0 := set_fresh (fr + 1) (set_oom (tail (k_oom s)) s)).
  assert (table_wf s0) as Hw0 by (eapply table_wf_ext; try done; cbn; lia).
  destruct (getid_run s0 Hw0) as (pid & E & Hr).
  change (pids s0) with (pids s) in Hr. change (next_pid s0) with (next_pid s) in Hr.
  destruct Hr as [[-> Hall]|Hff].
  { pose proof (all_used_length _ Hall) as Hl.
    assert (length (pids s) <= length (proc_list s))%nat; [|lia].
    unfold pids. clear. induction (proc_list s) as [|p l IH]; cbn; [done|].
    destruct (p_pid <$> _); cbn; lia. }
  destruct (first_free_range _ _ _ Hff) as [Hr Hni].
  assert (pid <> 0 /\ pid <> 1) as [Hn0 Hn1] by (split; by intros ->).
  exists pid. split; [lia|]. split; [done|].
  assert (cp <> fr) as Hne by (pose proof (tw_fresh s Hw _ _ Hcp); unfold fr; lia).
  unfold proc_create. krun (alloc_some s Ho). fold fr. fold s0. krun E. unfold PID_IDLE, PID_INIT.
  destruct (Z.eqb_spec pid (-1)); [lia|]. unfold deref at 1, bind at 1. destruct (Z.eqb_spec pid 0); [done|].
  destruct (Z.eqb_spec pid 1); [done|]. unfold ret at 1 2, bind at 1 2.
  set (s1 := set_next_pid _ s0).
  assert (Z.of_nat (length name) <? PROC_NAME_LEN = true) as Hnm by lia.
  destruct (pid >? 2) eqn:E2.
  - unfold bind at 1 2. rewrite (get_curproc_run s1 cp Hc). krun (get_proc_run s1 cp cpr Hcp). rewrite Hv.
    cbn. rewrite Hnm, Hc. replace (pid >? 0) with true by lia. cbn.
    unfold set_proc, get_proc, bind, deref, modify. cbn. rewrite lookup_insert_ne by done.
    rewrite Hcp. cbn. unfold created, new_proc, ret. fold fr. unfold s1, s0. cbn.
    replace (fr + 1 + 1) with (fr + 2) by lia. done.
  - cbn. rewrite Hnm, Hc. replace (pid >? 0) with true by lia. cbn.
    unfold set_proc, get_proc, bind, deref, modify. cbn. rewrite lookup_insert_ne by done.
    rewrite Hcp. cbn. unfold created, new_proc, ret. fold fr. unfold s1, s0. cbn.
    replace (fr + 1 + 1) with (fr + 2) by lia. done.
Qed.

Lemma created_lookup pid name cp cpr cwd s p pr :
  cp <> k_fresh s ->
  k_procs (created pid name cp cpr cwd s) !! p = Some pr <->
  (p = cp /\ pr = pr_children (p_children cpr ++ [k_fresh s]) cpr) \/
  (p = k_fresh s /\ pr = new_proc pid name cp (k_fresh s) (k_pagedir s) cwd) \/
  (p <> cp /\ p <> k_fresh s /\ k_procs s !! p = Some pr).
Proof.
  intros Hne. unfold created. cbn. replace (k_procs (match cwd with Some v => _ | None => _ end))
    with (k_procs s) by (by destruct cwd).
  rewrite lookup_insert_Some. rewrite lookup_insert_Some. naive_solver.
Qed.

Lemma created_kids pid name cp cpr cwd s p pr c :
  table_wf s -> k_procs s !! cp = Some cpr ->
  k_procs (created pid name cp cpr cwd s) !! p = Some pr ->
  c ∈ p_children pr <->
  exists cr, k_procs (created pid name cp cpr cwd s) !! c = Some cr /\ p_pproc cr = Some p.
Proof.
  intros Hw Hcp Hp. assert (cp < k_fresh s) as Hlt by (by eapply tw_fresh).
  pose proof (created_lookup pid name cp cpr cwd s) as HL.
  (* the processes that were there keep their parent *)
  assert (forall c x, (exists cr, k_procs s !! c = Some cr /\ p_pproc cr = Some x) ->
            exists cr, k_procs (created pid name cp cpr cwd s) !! c = Some cr /\ p_pproc cr = Some x) as Hfw.
  { intros c' x (cr & Hc & Hx). destruct (decide (c' = cp)) as [->|Hne].
    - simplify_eq. eexists. split; [apply HL; [lia|by left]|done].
    - exists cr. split; [|done]. apply HL; [lia|]. right; right. split_and!; try done.
      intros ->. pose proof (tw_fresh s Hw _ _ Hc). lia. }
  assert (forall c cr x, k_procs (created pid name cp cpr cwd s) !! c = Some cr -> p_pproc cr = Some x ->
            (c = k_fresh s /\ x = cp) \/ exists cr, k_procs s !! c = Some cr /\ p_pproc cr = Some x) as Hbw.
  { intros c' cr x Hc Hx. apply HL in Hc; [|lia].
    destruct Hc as [[-> ->]|[[-> ->]|(_ & _ & Hc)]]; cbn in Hx; [eauto| |eauto]. left. split; congruence. }
  apply HL in Hp; [|lia]. destruct Hp as [[-> ->]|[[-> ->]|(Hn1 & Hn2 & Hp)]].
  - cbn [p_children pr_children]. rewrite elem_of_app, list_elem_of_singleton, (tw_kids s Hw _ _ _ Hcp). split.
    + intros [?| ->]; [by apply Hfw|]. eexists. split; [apply HL; [lia|right; left; done]|done].
    + intros (cr & Hc & Hx). destruct (Hbw _ _ _ Hc Hx) as [[-> _]|?]; auto.
  - cbn. split; [by intros ?%elem_of_nil|]. intros (cr & Hc & Hx).
    destruct (Hbw _ _ _ Hc Hx) as [[_ ?]|(cr' & Hc' & Hx')]; [lia|].
    destruct (tw_parent s Hw _ _ _ Hc' Hx') as [? E]. pose proof (tw_fresh s Hw _ _ E). lia.
  - rewrite (tw_kids s Hw _ _ _ Hp). split; [apply Hfw|].
    intros (cr & Hc & Hx). destruct (Hbw _ _ _ Hc Hx) as [[_ ?]|?]; [done|auto].
Qed.

Lemma created_wf pid name cp cpr cwd s :
  table_wf s -> k_procs s !! cp = Some cpr -> 0 <= pid < PROC_MAX_COUNT -> pid ∉ pids s ->
  table_wf (created pid name cp cpr cwd s).
Proof.
  intros Hw Hcp Hpid Hni.
  assert (cp < k_fresh s) as Hlt by (by eapply tw_fresh).
  assert (k_procs s !! k_fresh s = None) as Hfr.
  { destruct (k_procs s !! k_fresh s) eqn:E; [|done]. pose proof (tw_fresh s Hw _ _ E). lia. }
  pose proof (created_lookup pid name cp cpr cwd s) as HL.
  assert (forall p pr, k_procs s !! p = Some pr -> p_pid pr <> pid) as Hpids.
  { intros p pr Hp E. apply Hni, elem_of_pids; eauto. }
  assert (forall c cr, k_procs s !! c = Some cr -> p_pproc cr <> Some (k_fresh s)) as Hnop.
  { intros c cr Hc E. destruct (tw_parent s Hw _ _ _ Hc E). congruence. }
  split.
  - cbn. apply NoDup_app. split_and!; [apply Hw| |apply NoDup_singleton].
    intros x Hx ->%list_elem_of_singleton. apply (tw_procs s Hw) in Hx as [? ?]. congruence.
  - intros p. cbn [created proc_list upd_procs upd_queues set_proc_list].
    rewrite elem_of_app, list_elem_of_singleton, (tw_procs s Hw). split.
    + intros [[pr Hp]| ->].
      * destruct (decide (p = cp)) as [->|]; eexists; apply HL; [lia|by left|lia|].
        right; right. split_and!; try done. congruence.
      * eexists. apply HL; [lia|]. right; left. done.
    + intros [pr Hp]. apply HL in Hp; [|lia]. destruct Hp as [[-> ->]|[[-> ->]|(_ & _ & ?)]]; eauto.
  - intros p q pr qr Hp Hq. apply HL in Hp; [|lia]. apply HL in Hq; [|lia].
    destruct Hp as [[-> ->]|[[-> ->]|(? & ? & Hp)]], Hq as [[-> ->]|[[-> ->]|(? & ? & Hq)]]; cbn;
      intros E; try done; try (by eapply tw_pids); exfalso; by eapply Hpids.
  - intros p pr Hp. apply HL in Hp; [|lia].
    destruct Hp as [[-> ->]|[[-> ->]|(_ & _ & Hp)]]; cbn; [|done|]; by eapply tw_range.
  - cbn. unfold PROC_MAX_COUNT in *. dlia.
  - intros p pr c Hp. by apply created_kids.
  - intros p pr Hp. apply HL in Hp; [|lia].
    destruct Hp as [[-> ->]|[[-> ->]|(_ & _ & Hp)]]; cbn; [|apply NoDup_nil_2|by eapply tw_kids_nodup].
    apply NoDup_app. split_and!; [by eapply tw_kids_nodup| |apply NoDup_singleton].
    intros x Hx ->%list_elem_of_singleton. apply (tw_kids s Hw _ _ _ Hcp) in Hx as (? & ? & _). congruence.
  - intros p pr pp Hp Hpp.
    assert (pp = cp \/ is_Some (k_procs s !! pp)) as Hsome.
    { apply HL in Hp; [|lia]. destruct Hp as [[-> ->]|[[-> ->]|(_ & _ & Hp)]]; cbn in Hpp.
      - right. by eapply tw_parent.
      - left. congruence.
      - right. by eapply tw_parent. }
    destruct (decide (pp = cp)) as [->|Hne]; [eexists; apply HL; [lia|by left]|].
    destruct Hsome as [?|[ppr Hppr]]; [done|]. exists ppr. apply HL; [lia|].
    right; right. split_and!; try done. congruence.
  - intros p pr Hp. apply HL in Hp; [|lia]. cbn.
    destruct Hp as [[-> ->]|[[-> ->]|(_ & _ & Hp)]]; [lia|lia|]. pose proof (tw_fresh s Hw _ _ Hp). lia.
Qed.

(** C35: [proc_create], once idle and init exist, while fewer than [PROC_MAX_COUNT]
    processes do, in a process with a current directory and for a name that fits,
    gives the new process the first pid from [next_pid] on that nobody has, puts it at the
    end of the process list and of the current process's children with no threads
    or children of its own and the current page directory, shares the current
    directory (from pid 3 on), and keeps the table in order.  When there is no memory
    for the process it writes through NULL. *)
Theorem proc_create_spec s name cp cpr v :
  table_wf s -> curproc s = Some cp -> k_procs s !! cp = Some cpr -> p_cwd cpr = Some v ->
  0 ∈ pids s -> 1 ∈ pids s -> Z.of_nat (length (proc_list s)) < PROC_MAX_COUNT ->
  Z.of_nat (length name) < PROC_NAME_LEN ->
  if decide (head (k_oom s) = Some true) then proc_create name s = Stuck
  else runs (proc_create name) s (fun new s' =>
    table_wf s' /\ k_procs s !! new = None /\
    exists pid, pid ∉ pids s /\ first_free (pids s) (next_pid s) pid /\ 2 <= pid < PROC_MAX_COUNT /\
      s' = created pid name cp cpr (if pid >? 2 then Some v else None) s /\ new = k_fresh s).
Proof.
  intros Hw Hc Hcp Hv H0 H1 Hlen Hname. destruct (decide (head (k_oom s) = Some true)) as [Ho|Ho].
  { assert (table_wf (set_oom (tail (k_oom s)) s)) as Hw0 by (eapply table_wf_ext; done).
    destruct (getid_run _ Hw0) as (r & E & _). unfold proc_create.
    erewrite bind_done; [|unfold alloc, gets, modify, bind; rewrite Ho; reflexivity]. cbn beta. by krun E. }
  destruct (proc_create_run s name cp cpr v Hw Hc Hcp Hv H0 H1 Hlen Hname Ho) as (pid & Hr & Hff & E).
  destruct (first_free_range _ _ _ Hff) as [_ Hni].
  eapply runs_intro; [exact E|]. split_and!; [|by destruct (k_procs s !! k_fresh s) eqn:Ef;
    [pose proof (tw_fresh s Hw _ _ Ef); lia|]|eauto 8].
  apply created_wf; try done. lia.
Qed.

(** With memory for one process, and with none. *)
Lemma proc_create_spec_witness :
  runs (proc_create [115; 104]) demo_procs (fun new s' => table_wf s' /\ k_procs demo_procs !! new = None /\
    p_pagedir <$> (k_procs s' !! new) = Some 4096) /\
  proc_create [115; 104] (set_oom [true] demo_procs) = Stuck.
Proof.
  split.
  - eapply runs_mono.
    + apply (proc_create_spec demo_procs [115; 104] 102 (demo_proc 2 [10] [103; 104] (Some 101) PROC_RUNNING) 77);
        try (by vm_compute); [apply demo_procs_wf|..];
        (eapply bool_decide_eq_true_1; by vm_compute).
    + intros new s' (H1 & H2 & pid & _ & _ & _ & -> & ->). split; [done|]. split; [done|].
      unfold created. cbn. by destruct (pid >? 2).
  - assert (table_wf (set_oom [true] demo_procs)) as Hw by (apply table_check_sound; by vm_compute).
    apply (proc_create_spec (set_oom [true] demo_procs) [115; 104] 102 (demo_proc 2 [10] [103; 104] (Some 101) PROC_RUNNING) 77 Hw);
      try (by vm_compute); (eapply bool_decide_eq_true_1; by vm_compute).
Defined.

(** ** Reparenting *)

(** [c] goes from the children of [cp] to the end of those of [ip]. *)
Definition adopt (cp ip c : Z) (cpr ipr cr : proc) (s : kstate) : kstate :=
  upd_procs <[ip := pr_children (p_children ipr ++ [c]) ipr]>
    (upd_procs <[c := pr_pproc (Some ip) cr]>
       (upd_procs <[cp := pr_children (filter (fun x => x <> c) (p_children cpr)) cpr]> s)).

Section Adopt.
Context (s : kstate) (cp ip c : Z) (cpr ipr cr : proc).
Hypothesis Hw : table_wf s.
Hypothesis Hcp : k_procs s !! cp = Some cpr.
Hypothesis Hip : k_procs s !! ip = Some ipr.
Hypothesis Hc : k_procs s !! c = Some cr.
Hypothesis Hpp : p_pproc cr = Some cp.
Hypothesis Hn1 : cp <> ip.
Hypothesis Hn2 : c <> cp.
Hypothesis Hn3 : c <> ip.

Lemma adopt_lookup p pr :
  k_procs (adopt cp ip c cpr ipr cr s) !! p = Some pr <->
  (p = ip /\ pr = pr_children (p_children ipr ++ [c]) ipr) \/
  (p = c /\ pr = pr_pproc (Some ip) cr) \/
  (p = cp /\ pr = pr_children (filter (fun x => x <> c) (p_children cpr)) cpr) \/
  (p <> ip /\ p <> c /\ p <> cp /\ k_procs s !! p = Some pr).
Proof. unfold adopt. cbn. rewrite !lookup_insert_Some. naive_solver. Qed.

(** What stays the same of a process. *)
Lemma adopt_old p pr :
  k_procs (adopt cp ip c cpr ipr cr s) !! p = Some pr ->
  exists pr0, k_procs s !! p = Some pr0 /\ p_pid pr = p_pid pr0 /\
    p_pproc pr = (if decide (p = c) then Some ip else p_pproc pr0).
Proof.
  intros H%adopt_lookup. destruct H as [[-> ->]|[[-> ->]|[[-> ->]|(? & ? & ? & H)]]];
    eexists; (split; [eassumption|]); split; try done; by case_decide.
Qed.

Lemma adopt_new p pr0 :
  k_procs s !! p = Some pr0 ->
  exists pr, k_procs (adopt cp ip c cpr ipr cr s) !! p = Some pr /\
    p_pproc pr = (if decide (p = c) then Some ip else p_pproc pr0).
Proof.
  intros H. destruct (decide (p = ip)) as [->|]; [|destruct (decide (p = cp)) as [->|]];
    [| |destruct (decide (p = c)) as [->|]]; simplify_eq;
    eexists; (split; [apply adopt_lookup; naive_solver|]); by (case_decide || done).
Qed.

Lemma adopt_parent x p :
  (exists pr, k_procs (adopt cp ip c cpr ipr cr s) !! p = Some pr /\ p_pproc pr = Some x) <->
  (p = c /\ x = ip) \/ (p <> c /\ exists pr, k_procs s !! p = Some pr /\ p_pproc pr = Some x).
Proof.
  split.
  - intros (pr & (pr0 & H0 & _ & E)%adopt_old & Hx). rewrite E in Hx.
    case_decide; [left; naive_solver|right; eauto].
  - intros [[-> ->]|(Hne & pr0 & H0 & Hx)].
    + destruct (adopt_new c cr Hc) as (pr & H1 & H2). rewrite decide_True in H2 by done. eauto.
    + destruct (adopt_new p pr0 H0) as (pr & H1 & H2). rewrite decide_False in H2 by done.
      exists pr. split; congruence.
Qed.

Lemma adopt_wf : table_wf (adopt cp ip c cpr ipr cr s).
Proof.
  assert (c ∉ p_children ipr) as Hci.
  { rewrite (tw_kids s Hw _ _ _ Hip). intros (? & ? & ?). congruence. }
  split; try apply Hw.
  - intros p. cbn [adopt upd_procs proc_list]. rewrite (tw_procs s Hw). split.
    + intros [pr Hp]. destruct (adopt_new p pr Hp) as (? & ? & _). eauto.
    + intros [pr Hp]. destruct (adopt_old p pr Hp) as (? & ? & _). eauto.
  - intros p q pr qr (pr0 & Hp & -> & _)%adopt_old (qr0 & Hq & -> & _)%adopt_old. by eapply tw_pids.
  - intros p pr (pr0 & Hp & -> & _)%adopt_old. by eapply tw_range.
  - intros p pr x Hp%adopt_lookup. rewrite adopt_parent.
    destruct Hp as [[-> ->]|[[-> ->]|[[-> ->]|(? & ? & ? & Hp)]]]; cbn [p_children pr_children pr_pproc].
    + rewrite elem_of_app, list_elem_of_singleton, (tw_kids s Hw _ _ _ Hip).
      destruct (decide (x = c)) as [->|]; naive_solver.
    + rewrite (tw_kids s Hw _ _ _ Hc). destruct (decide (x = c)) as [->|]; [|naive_solver].
      split; [intros (? & ? & ?); congruence|naive_solver].
    + rewrite list_elem_of_filter, (tw_kids s Hw _ _ _ Hcp). naive_solver.
    + rewrite (tw_kids s Hw _ _ _ Hp). destruct (decide (x = c)) as [->|]; [|naive_solver].
      split; [intros (? & ? & ?); congruence|naive_solver].
  - intros p pr Hp%adopt_lookup.
    destruct Hp as [[-> ->]|[[-> ->]|[[-> ->]|(? & ? & ? & Hp)]]]; cbn [p_children pr_children pr_pproc].
    + apply NoDup_app. split_and!; [by eapply tw_kids_nodup| |apply NoDup_singleton].
      by intros x Hx ->%list_elem_of_singleton.
    + by eapply tw_kids_nodup.
    + apply NoDup_filter. by eapply tw_kids_nodup.
    + by eapply tw_kids_nodup.
  - intros p pr pp (pr0 & Hp & _ & E)%adopt_old Hpp'. rewrite E in Hpp'.
    assert (is_Some (k_procs s !! pp)) as [ppr Hppr].
    { case_decide; [simplify_eq; eauto|by eapply tw_parent]. }
    destruct (adopt_new pp ppr Hppr) as (? & ? & _). eauto.
  - intros p pr (pr0 & Hp & _)%adopt_old. cbn. by eapply tw_fresh.
Qed.

Lemma adopt_run cs :
  c ∈ p_children cpr -> proc_initproc s = Some ip ->
  reparent (c :: cs) s = reparent cs (adopt cp ip c cpr ipr cr s).
Proof.
  intros Hin Hinit. cbn [reparent]. unfold child_linked, child_remove, set_proc.
  unfold get_proc, bind, deref, gets, modify, ret.
  rewrite Hc. cbn. rewrite Hpp, Hcp. rewrite bool_decide_eq_true_2 by done.
  rewrite Hc. cbn. rewrite Hpp. cbn. rewrite Hcp. cbn. rewrite Hinit.
  rewrite lookup_insert_ne by done. rewrite Hc. cbn.
  rewrite ?Hinit, !lookup_insert_ne by done. rewrite Hip. cbn. done.
Qed.
End Adopt.

(** All the children of [cp], moved to [ip]. *)
Record orphaned (cs : list Z) (cp ip : Z) (cpr ipr : proc) (s s' : kstate) : Prop := {
  or_wf : table_wf s';
  or_rest : s' = upd_procs (fun _ => k_procs s') s;
  or_cp : k_procs s' !! cp = Some (pr_children [] cpr);
  or_ip : k_procs s' !! ip = Some (pr_children (p_children ipr ++ cs) ipr);
  or_kids : forall c, c ∈ cs -> k_procs s' !! c = pr_pproc (Some ip) <$> (k_procs s !! c);
  or_others : forall p, p <> cp -> p <> ip -> p ∉ cs -> k_procs s' !! p = k_procs s !! p
}.

Lemma reparent_run cs : forall s cp ip cpr ipr,
  table_wf s -> k_procs s !! cp = Some cpr -> k_procs s !! ip = Some ipr ->
  p_children cpr = cs -> proc_initproc s = Some ip -> cp <> ip -> cp ∉ cs -> ip ∉ cs ->
  exists s', reparent cs s = Done tt s' /\ orphaned cs cp ip cpr ipr s s'.
Proof.
  induction cs as [|c cs IH]; intros s cp ip cpr ipr Hw Hcp Hip Hcs Hinit Hne Hcn Hin.
  - exists s. split; [done|]. split; try done.
    + by destruct s.
    + rewrite Hcp. f_equal. destruct cpr; cbn in *; by subst.
    + rewrite Hip, app_nil_r. f_equal. by destruct ipr.
    + by intros c ?%elem_of_nil.
  - apply not_elem_of_cons in Hcn as [Hn2 Hcn]. apply not_elem_of_cons in Hin as [Hn3 Hin].
    destruct (proj1 (tw_kids s Hw _ _ c Hcp)) as (cr & Hc & Hpp); [rewrite Hcs; by left|].
    assert (NoDup (c :: cs)) as Hnd by (rewrite <- Hcs; by eapply tw_kids_nodup).
    apply NoDup_cons in Hnd as [Hcni Hnd].
    assert (c ∈ p_children cpr) as Hcin by (rewrite Hcs; by left).
    rewrite (adopt_run s cp ip c cpr ipr cr) by (done || congruence).
    set (s1 := adopt cp ip c cpr ipr cr s).
    assert (forall p, p <> cp -> p <> ip -> p <> c -> k_procs s1 !! p = k_procs s !! p) as Hoth.
    { intros p ? ? ?. unfold s1, adopt. cbn. by rewrite !lookup_insert_ne by done. }
    destruct (IH s1 cp ip (pr_children cs cpr) (pr_children (p_children ipr ++ [c]) ipr))
      as (s' & E & Hor); try done.
    + apply adopt_wf; done || congruence.
    + unfold s1, adopt. cbn. rewrite !lookup_insert_ne, lookup_insert_eq by done. f_equal.
      rewrite Hcs, filter_cons_False by naive_solver. by rewrite filter_ne_id.
    + unfold s1, adopt. cbn. by rewrite lookup_insert_eq.
    + exists s'. split; [done|]. destruct Hor as [H1 H2 H3 H4 H5 H6]. split; try done.
      * rewrite H4. cbn. by rewrite <- app_assoc.
      * intros x [->|Hx]%elem_of_cons.
        -- rewrite H6 by done. unfold s1, adopt. cbn.
           by rewrite lookup_insert_ne, lookup_insert_eq, Hc by done.
        -- rewrite H5 by done. rewrite Hoth; try done; congruence.
      * intros p ? ? [? ?]%not_elem_of_cons. rewrite H6 by done. by apply Hoth.
Qed.

(** Reparenting: when a process exits, each of its children becomes a child of
    init, in order after the children init had, and names init as its parent;
    the process is left with none and the rest of the table is untouched. *)
Theorem reparent_spec s cp ip cpr ipr :
  table_wf s -> k_procs s !! cp = Some cpr -> k_procs s !! ip = Some ipr ->
  proc_initproc s = Some ip -> cp <> ip -> cp ∉ p_children cpr -> ip ∉ p_children cpr ->
  runs (reparent (p_children cpr)) s (fun _ s' => orphaned (p_children cpr) cp ip cpr ipr s s').
Proof.
  intros Hw Hcp Hip Hinit Hne Hn1 Hn2.
  destruct (reparent_run (p_children cpr) s cp ip cpr ipr) as (s' & E & Hor); try done.
  by eapply runs_intro.
Qed.

Lemma reparent_spec_witness :
  runs (reparent [103; 104]) demo_procs (fun _ s' => table_wf s' /\
    p_children <$> (k_procs s' !! 101) = Some [102; 103; 104]).
Proof.
  eapply runs_mono.
  - apply (reparent_spec demo_procs 102 101 (demo_proc 2 [10] [103; 104] (Some 101) PROC_RUNNING)
             (demo_proc 1 [] [102] (Some 100) PROC_RUNNING)); try (by vm_compute); [apply demo_procs_wf|..];
      (eapply bool_decide_eq_true_1; by vm_compute).
  - intros [] s' [H1 _ _ H4 _ _]. split; [done|]. rewrite H4. by vm_compute.
Defined.

(** ** Reaping a dead child *)

(** The child [c], with its one thread [t], is gone. *)
Definition reaped (cp c t : Z) (cpr cr : proc) (s : kstate) : kstate :=
  upd_procs (delete c)
    (upd_procs <[cp := pr_children (filter (fun x => x <> c) (p_children cpr)) cpr]>
       (upd_queues (delete (p_wait cr))
          (set_proc_list (filter (fun x => x <> c) (proc_list s))
             (upd_threads (delete t) s)))).

(** States that differ in the process map only. *)
Lemma procs_ext (s1 s2 : kstate) :
  k_procs s1 = k_procs s2 -> upd_procs (fun _ => ∅) s1 = upd_procs (fun _ => ∅) s2 -> s1 = s2.
Proof.
  destruct s1, s2. cbn. intros -> E. injection E. intros. by subst.
Qed.

Section Reap.
Context (s : kstate) (cp c t : Z) (cpr cr : proc) (th : kthread).
Hypothesis Hw : table_wf s.
Hypothesis Hcur : curproc s = Some cp.
Hypothesis Hcp : k_procs s !! cp = Some cpr.
Hypothesis Hc : k_procs s !! c = Some cr.
Hypothesis Hpp : p_pproc cr = Some cp.
Hypothesis Hne : c <> cp.
Hypothesis Hdead : p_state cr = PROC_DEAD.
Hypothesis Hkids : p_children cr = [].
Hypothesis Hthr : p_threads cr = [t].
Hypothesis Ht : k_threads s !! t = Some th.
Hypothesis Hth : kt_state th = KT_EXITED /\ kt_kstack th <> 0 /\ kt_proc th = c.

Lemma reaped_lookup p pr :
  k_procs (reaped cp c t cpr cr s) !! p = Some pr <->
  (p = cp /\ pr = pr_children (filter (fun x => x <> c) (p_children cpr)) cpr) \/
  (p <> cp /\ p <> c /\ k_procs s !! p = Some pr).
Proof. unfold reaped. cbn. rewrite lookup_delete_Some, lookup_insert_Some. naive_solver. Qed.

Lemma reaped_wf : table_wf (reaped cp c t cpr cr s).
Proof.
  assert (forall p pr, k_procs (reaped cp c t cpr cr s) !! p = Some pr ->
    p <> c /\ exists pr0, k_procs s !! p = Some pr0 /\ p_pid pr = p_pid pr0 /\ p_pproc pr = p_pproc pr0) as Hold.
  { intros p pr [[-> ->]|(? & ? & ?)]%reaped_lookup; [|naive_solver]. split; [congruence|]. eauto. }
  assert (forall p pr0, p <> c -> k_procs s !! p = Some pr0 ->
    exists pr, k_procs (reaped cp c t cpr cr s) !! p = Some pr /\ p_pproc pr = p_pproc pr0) as Hnew.
  { intros p pr0 ? Hp. destruct (decide (p = cp)) as [->|]; eexists; (split; [apply reaped_lookup; naive_solver|]).
    - by simplify_eq.
    - done. }
  assert (forall p pr, k_procs s !! p = Some pr -> p_pproc pr <> Some c) as Hnop.
  { intros p pr Hp E. assert (p ∈ p_children cr) as Hin by (apply (tw_kids s Hw _ _ _ Hc); eauto).
    rewrite Hkids in Hin. by apply elem_of_nil in Hin. }
  split; try apply Hw.
  - cbn. apply NoDup_filter, Hw.
  - intros p. cbn [proc_list reaped upd_procs upd_queues set_proc_list].
    rewrite list_elem_of_filter, (tw_procs s Hw). split.
    + intros [? [pr Hp]]. destruct (Hnew p pr) as (? & ? & _); eauto.
    + intros [pr Hp]. destruct (Hold p pr Hp) as (? & ? & ? & _). eauto.
  - intros p q pr qr (_ & ? & Hp & -> & _)%Hold (_ & ? & Hq & -> & _)%Hold. by eapply tw_pids.
  - intros p pr (_ & ? & Hp & -> & _)%Hold. by eapply tw_range.
  - intros p pr x Hp.
    assert (x ∈ p_children pr <-> x <> c /\ exists xr, k_procs s !! x = Some xr /\ p_pproc xr = Some p) as ->.
    { apply reaped_lookup in Hp as [[-> ->]|(? & ? & Hp)].
      - cbn. by rewrite list_elem_of_filter, (tw_kids s Hw _ _ _ Hcp).
      - rewrite (tw_kids s Hw _ _ _ Hp). split; [|naive_solver]. intros (xr & Hx & E).
        split; [|eauto]. intros ->. congruence. }
    split.
    + intros (? & xr & Hx & E). destruct (Hnew x xr) as (? & ? & ?); [done|done|]. eexists. split; [done|congruence].
    + intros (xr & (? & xr0 & ? & _ & ?)%Hold & E). split; [done|]. exists xr0. split; congruence.
  - intros p pr Hp%reaped_lookup. destruct Hp as [[-> ->]|(? & ? & Hp)]; cbn;
      [apply NoDup_filter|]; by eapply tw_kids_nodup.
  - intros p pr pp (? & pr0 & Hp & _ & E)%Hold Hpp'. rewrite E in Hpp'.
    destruct (tw_parent s Hw _ _ _ Hp Hpp') as [ppr Hppr].
    destruct (Hnew pp ppr) as (? & ? & _); [intros ->; exact (Hnop _ _ Hp Hpp')|done|eauto].
  - intros p pr (_ & pr0 & Hp & _)%Hold. cbn. by eapply tw_fresh.
Qed.

(** The state between unlinking the child and freeing it. *)
Definition unlinked : kstate :=
  upd_procs <[cp := pr_children (filter (fun x => x <> c) (p_children cpr)) cpr]> s.
Definition destroyed : kstate :=
  upd_threads (delete t) (upd_procs <[c := pr_threads [] cr]> unlinked).

Lemma unlink_child_run : unlink_child c s = Done tt unlinked.
Proof.
  assert (c ∈ p_children cpr) as Hin by (apply (tw_kids s Hw _ _ _ Hcp); eauto).
  unfold unlink_child, child_linked, child_remove, set_proc, get_proc, bind, deref, modify, ret.
  rewrite Hc. rewrite Hpp, Hcp. rewrite bool_decide_eq_true_2 by done.
  rewrite Hc, Hpp, Hcp. cbn. rewrite lookup_insert_ne, Hc by done. by rewrite Hkids.
Qed.

Lemma kthread_destroy_run : kthread_destroy t unlinked = Done tt destroyed.
Proof.
  destruct Hth as (_ & Hks & Hpr).
  assert (k_procs unlinked !! c = Some cr) as Hc1 by (unfold unlinked; cbn; by rewrite lookup_insert_ne).
  unfold kthread_destroy. krun (get_thread_run unlinked t th Ht). unfold kassert, bind at 1.
  destruct (Z.eqb_spec (kt_kstack th) 0); [done|]. cbn [negb]. rewrite Hpr.
  krun (get_proc_run unlinked c cr Hc1). rewrite Hthr, bool_decide_eq_true_2 by (by left).
  erewrite bind_done.
  2:{ unfold set_proc. by krun (get_proc_run unlinked c cr Hc1). }
  rewrite filter_cons_False by naive_solver. done.
Qed.

Lemma proc_free_run : proc_free c destroyed = Done tt (reaped cp c t cpr cr s).
Proof.
  assert (k_procs destroyed !! c = Some (pr_threads [] cr)) as Hc1
    by (unfold destroyed; cbn; by rewrite lookup_insert_eq).
  unfold proc_free, gets, modify, bind at 1 2.
  set (s1 := set_proc_list _ destroyed).
  assert (k_procs s1 !! cp = Some (pr_children (filter (fun x => x <> c) (p_children cpr)) cpr)) as Hcp1.
  { unfold s1, destroyed, unlinked. cbn. by rewrite lookup_insert_ne, lookup_insert_eq by done. }
  assert (child_linked c s1 = Done false s1) as El.
  { unfold child_linked. krun (get_proc_run s1 c _ Hc1). cbn [p_pproc pr_threads]. rewrite Hpp.
    krun (get_proc_run s1 cp _ Hcp1). cbn [p_children pr_children].
    rewrite bool_decide_eq_false_2; [done|]. rewrite list_elem_of_filter. naive_solver. }
  krun El. unfold ret, bind at 1. krun (get_proc_run s1 c _ Hc1). unfold bind.
  f_equal. apply procs_ext; [|reflexivity]. unfold reaped, s1, destroyed, unlinked. cbn.
  by rewrite delete_insert_eq.
Qed.
End Reap.

(** Live children are passed over. *)
Lemma wait_scan_alive s alive : forall rest count pid p,
  (forall x, x ∈ alive -> exists xr, k_procs s !! x = Some xr /\ p_state xr <> PROC_DEAD /\ p_pagedir xr <> 0) ->
  exists p', wait_scan (alive ++ rest) count pid p s = wait_scan rest count pid p' s.
Proof.
  induction alive as [|x alive IH]; intros rest count pid p H; [by eexists|]. cbn [app wait_scan].
  destruct (H x) as (xr & Hx & Hst & Hpd); [by left|].
  krun (get_proc_run s x xr Hx). unfold kassert, bind at 1.
  destruct (Z.eqb_spec (p_pagedir xr) 0); [done|]. cbn [negb].
  rewrite bool_decide_eq_false_2 by done. apply IH. intros y Hy. apply H. by right.
Qed.

Lemma proc_find_none s pid ps :
  (forall p, p ∈ ps -> exists pr, k_procs s !! p = Some pr /\ p_pid pr <> pid) ->
  proc_find pid ps s = Done None s.
Proof.
  induction ps as [|p ps IH]; intros H; [done|]. cbn [proc_find].
  destruct (H p) as (pr & Hp & Hne); [by left|]. krun (get_proc_run s p pr Hp).
  destruct (Z.eqb_spec (p_pid pr) pid); [done|]. apply IH. intros q Hq. apply H. by right.
Qed.

Lemma proc_find_some s p pr pid :
  table_wf s -> k_procs s !! p = Some pr -> p_pid pr = pid -> proc_lookup pid s = Done (Some p) s.
Proof.
  intros Hw Hp Hpid. unfold proc_lookup, gets, bind.
  assert (p ∈ proc_list s) as Hin by (apply (tw_procs s Hw); eauto).
  assert (forall q, q ∈ proc_list s -> is_Some (k_procs s !! q)) as Hall by (intros; by apply (tw_procs s Hw)).
  induction (proc_list s) as [|q l IH]; [by apply elem_of_nil in Hin|]. cbn [proc_find].
  destruct (Hall q) as [qr Hq]; [by left|]. krun (get_proc_run s q qr Hq).
  destruct (Z.eqb_spec (p_pid qr) pid) as [E|E].
  - unfold ret. do 2 f_equal. eapply tw_pids; eauto. congruence.
  - apply IH.
    + apply elem_of_cons in Hin as [->|]; [congruence|done].
    + intros x Hx. apply Hall. by right.
Qed.

(** C32: [do_waitpid(-1)] disposes of the first dead child of the current process
    and returns its pid: the child leaves the process list and its parent's
    list, its thread and wait queue are freed, and the table stays in order. *)
Theorem do_waitpid_any_reaps fuel s options cp cpr alive c rest cr t th :
  table_wf s -> curproc s = Some cp -> k_procs s !! cp = Some cpr ->
  p_children cpr = alive ++ c :: rest -> cp ∉ p_children cpr ->
  (forall x, x ∈ alive -> exists xr, k_procs s !! x = Some xr /\ p_state xr <> PROC_DEAD /\ p_pagedir xr <> 0) ->
  k_procs s !! c = Some cr -> p_state cr = PROC_DEAD -> p_pagedir cr <> 0 -> p_children cr = [] ->
  p_threads cr = [t] -> k_threads s !! t = Some th ->
  kt_state th = KT_EXITED -> kt_kstack th <> 0 -> kt_proc th = c ->
  do_waitpid (S fuel) (-1) options s = RDone (p_pid cr) (reaped cp c t cpr cr s) /\
  table_wf (reaped cp c t cpr cr s).
Proof.
  intros Hw Hcur Hcp Hkids Hself Halive Hc Hdead Hpd Hnok Hthr Ht H1 H2 H3.
  assert (c ∈ p_children cpr) as Hin by (rewrite Hkids; apply elem_of_app; right; by left).
  assert (p_pproc cr = Some cp) as Hpp.
  { apply (tw_kids s Hw _ _ _ Hcp) in Hin as (cr' & ? & ?). congruence. }
  assert (c <> cp) as Hne by (by intros ->).
  split; [|by eapply reaped_wf]. unfold do_waitpid.
  erewrite cbind_done.
  2:{ apply lift_done. unfold proc_lookup, gets, bind. apply proc_find_none. intros p [pr Hp]%(tw_procs s Hw).
      exists pr. split; [done|]. pose proof (tw_range s Hw _ _ Hp). lia. }
  cbn beta iota. unfold cret at 1, cbind at 1. cbn [rbind]. change (-1 <? -1) with false. rewrite andb_false_r.
  change (-1 =? -1) with true. cbn [rbind].
  clift (get_curproc_run s cp Hcur). clift (get_proc_run s cp cpr Hcp).
  rewrite bool_decide_eq_false_2 by (rewrite Hkids; by destruct alive).
  cbn [wait_any]. clift (get_curproc_run s cp Hcur). clift (get_proc_run s cp cpr Hcp).
  rewrite bool_decide_eq_false_2 by (rewrite Hkids; by destruct alive).
  destruct (wait_scan_alive s alive (c :: rest) 0 (-1) None Halive) as (p' & Es).
  assert (unlink_child c s = Done tt (unlinked s cp c cpr)) as Eu by (by eapply unlink_child_run).
  assert (kthread_destroy t (unlinked s cp c cpr) = Done tt (destroyed s cp c t cpr cr)) as Ed
    by (by eapply kthread_destroy_run).
  assert (proc_free c (destroyed s cp c t cpr cr) = Done tt (reaped cp c t cpr cr s)) as Ef
    by (by eapply proc_free_run).
  erewrite cbind_done.
  2:{ apply lift_done with (a := (1, p_pid cr, Some c)) (s' := destroyed s cp c t cpr cr).
      rewrite Hkids, Es. cbn [wait_scan].
      krun (get_proc_run s c cr Hc). unfold kassert, bind at 1.
      destruct (Z.eqb_spec (p_pagedir cr) 0); [done|]. cbn [negb].
      rewrite bool_decide_eq_true_2 by done.
      krun Eu.
      erewrite bind_done by (apply get_proc_run; unfold unlinked; cbn; by rewrite lookup_insert_ne).
      rewrite Hthr. cbn [destroy_first_exited]. rewrite bind_assoc.
      krun (get_thread_run (unlinked s cp c cpr) t th Ht).
      rewrite bool_decide_eq_true_2, bind_assoc by done.
      by krun Ed. }
  cbn [Z.eqb]. unfold cderef, cbind at 1. cbn [rbind].
  by clift Ef.
Qed.

Lemma do_waitpid_any_reaps_witness :
  exists s', do_waitpid 1 (-1) 0 demo_procs = RDone 4 s' /\ table_wf s'.
Proof.
  eexists. apply (do_waitpid_any_reaps 0 demo_procs 0 102 (demo_proc 2 [10] [103; 104] (Some 101) PROC_RUNNING)
    [103] 104 [] (demo_proc 4 [14] [] (Some 102) PROC_DEAD) 14 (Kthread 4096 (Some 0) 104 0 None KT_EXITED Unlinked));
    try (by vm_compute); [apply demo_procs_wf|eapply bool_decide_eq_true_1; by vm_compute|].
  intros x ->%list_elem_of_singleton. exists (demo_proc 3 [13] [] (Some 102) PROC_RUNNING). by vm_compute.
Defined.

(** The search leaves [p] at the last child. *)
Lemma wait_find_last s cs pid : forall count p0 c,
  (forall x, x ∈ cs ++ [c] -> is_Some (k_procs s !! x)) ->
  count = 1 \/ (exists x xr, x ∈ cs ++ [c] /\ k_procs s !! x = Some xr /\ p_pid xr = pid) ->
  wait_find (cs ++ [c]) pid count p0 s = Done (1, c) s.
Proof.
  induction cs as [|x cs IH]; intros count p0 c Hall Hor; cbn [app wait_find] in *.
  - destruct (Hall c) as [cr Hc]; [by left|]. krun (get_proc_run s c cr Hc). unfold ret.
    destruct (Z.eqb_spec (p_pid cr) pid); [done|].
    destruct Hor as [->|(y & yr & ->%list_elem_of_singleton & Hy & E)]; [done|congruence].
  - destruct (Hall x) as [xr Hx]; [by left|]. krun (get_proc_run s x xr Hx).
    apply IH; [intros y Hy; apply Hall; by right|].
    destruct (Z.eqb_spec (p_pid xr) pid); [by left|]. destruct Hor as [->|(y & yr & Hy & Hyr & E)]; [by left|].
    right. exists y, yr. apply elem_of_cons in Hy as [->|Hy]; [congruence|done].
Qed.

(** [do_waitpid(pid)] waits for and disposes of the last child in the list,
    whichever child [pid] names: here the last child [c] is dead, the call
    returns [pid], and the process that is gone is [c]. *)
Theorem do_waitpid_pid_takes_last fuel s cp cpr cs c cr t th x xr :
  table_wf s -> curproc s = Some cp -> k_procs s !! cp = Some cpr ->
  p_children cpr = cs ++ [c] -> cp ∉ p_children cpr ->
  k_procs s !! c = Some cr -> p_state cr = PROC_DEAD -> p_children cr = [] ->
  p_threads cr = [t] -> k_threads s !! t = Some th ->
  kt_state th = KT_EXITED -> kt_kstack th <> 0 -> kt_proc th = c ->
  x ∈ cs -> k_procs s !! x = Some xr -> 0 < p_pid xr ->
  do_waitpid (S fuel) (p_pid xr) 0 s = RDone (p_pid xr) (reaped cp c t cpr cr s) /\
  k_procs (reaped cp c t cpr cr s) !! x = Some xr.
Proof.
  intros Hw Hcur Hcp Hkids Hself Hc Hdead Hnok Hthr Ht H1 H2 H3 Hx Hxr Hpos.
  assert (forall y, y ∈ cs ++ [c] -> exists yr, k_procs s !! y = Some yr /\ p_pproc yr = Some cp) as Hall.
  { intros y Hy. apply (tw_kids s Hw _ _ _ Hcp). by rewrite Hkids. }
  assert (p_pproc cr = Some cp) as Hpp.
  { destruct (Hall c) as (? & ? & ?); [apply elem_of_app; right; by left|congruence]. }
  assert (p_pproc xr = Some cp) as Hxp.
  { destruct (Hall x) as (? & ? & ?); [apply elem_of_app; by left|congruence]. }
  assert (c <> cp) as Hne by (intros ->; apply Hself; rewrite Hkids; apply elem_of_app; right; by left).
  assert (x <> c) as Hxc.
  { intros ->. pose proof (tw_kids_nodup s Hw _ _ Hcp) as Hnd. rewrite Hkids in Hnd.
    apply NoDup_app in Hnd as (_ & Hd & _). eapply Hd; [exact Hx|by left]. }
  split.
  2:{ unfold reaped. cbn. rewrite lookup_delete_ne, lookup_insert_ne; try done.
      intros <-. apply Hself. rewrite Hkids. apply elem_of_app. by left. }
  assert (unlink_child c s = Done tt (unlinked s cp c cpr)) as Eu by (by eapply unlink_child_run).
  assert (kthread_destroy t (unlinked s cp c cpr) = Done tt (destroyed s cp c t cpr cr)) as Ed
    by (by eapply kthread_destroy_run).
  assert (proc_free c (destroyed s cp c t cpr cr) = Done tt (reaped cp c t cpr cr s)) as Ef
    by (by eapply proc_free_run).
  unfold do_waitpid. clift (proc_find_some s x xr (p_pid xr) Hw Hxr eq_refl).
  unfold cret at 1, cbind at 1. cbn [rbind Z.eqb negb andb].
  destruct (Z.eqb_spec (p_pid xr) (-1)); [lia|]. unfold wait_one.
  clift (proc_find_some s x xr (p_pid xr) Hw Hxr eq_refl). unfold cderef at 1, cbind at 1. cbn [rbind].
  clift (get_proc_run s x xr Hxr). unfold cgets, cbind at 1. cbn [rbind]. rewrite Hcur, Hxp.
  rewrite bool_decide_eq_false_2 by naive_solver. unfold cderef at 1, cbind at 1. cbn [rbind].
  clift (get_proc_run s cp cpr Hcp). rewrite Hkids.
  erewrite cbind_done.
  2:{ apply lift_done. apply wait_find_last; [intros y Hy; destruct (Hall y Hy) as (? & ? & _); eauto|].
      right. exists x, xr. split_and!; try done. apply elem_of_app. by left. }
  cbn beta iota. change (1 =? 0) with false. cbn beta iota.
  erewrite cbind_done.
  2:{ cbn [wait_dead]. clift (get_proc_run s c cr Hc). rewrite bool_decide_eq_true_2 by done.
      apply lift_done. exact Eu. }
  erewrite cbind_done by (apply lift_done, get_proc_run; unfold unlinked; cbn; by rewrite lookup_insert_ne).
  rewrite Hthr. erewrite cbind_done.
  2:{ apply lift_done. cbn [destroy_all_exited]. krun (get_thread_run (unlinked s cp c cpr) t th Ht).
      rewrite bool_decide_eq_true_2 by done. by krun Ed. }
  by clift Ef.
Qed.

Lemma do_waitpid_pid_takes_last_witness :
  exists s', do_waitpid 1 3 0 demo_procs = RDone 3 s' /\
    p_pid <$> (k_procs s' !! 103) = Some 3 /\ k_procs s' !! 104 = None.
Proof.
  destruct (do_waitpid_pid_takes_last 0 demo_procs 102 (demo_proc 2 [10] [103; 104] (Some 101) PROC_RUNNING)
    [103] 104 (demo_proc 4 [14] [] (Some 102) PROC_DEAD) 14 (Kthread 4096 (Some 0) 104 0 None KT_EXITED Unlinked)
    103 (demo_proc 3 [13] [] (Some 102) PROC_RUNNING)) as [E Hx];
    try (by vm_compute); [apply demo_procs_wf|eapply bool_decide_eq_true_1; by vm_compute|by left|].
  eexists. split; [exact E|]. rewrite Hx. by vm_compute.
Defined.

End ProcTable.
