(* ===== verification/Vnode.v ===== *)
(** * Vnodes ([fs/vnode.c], [include/fs/vnode.h], [fs/vfs.c])

    The state of the VFS layer for one file system and one process, and the
    reference counting of vnodes.  The file system below is an interface: its
    private state is a type [I], its entry points ([fs_ops_t]) are a class and
    what vnode management relies on is a second class of laws.  [Ramfs] is the
    instance. *)

From Stdlib Require Import ZArith Lia.
From stdpp Require Import base list gmap.
From S2P Require Import Prelude.

Module Vnode.
Local Open Scope Z_scope.

(** Error numbers ([include/errno.h]). *)
Definition ENOENT : Z := 2.
Definition EBADF : Z := 9.
Definition ENOMEM : Z := 12.
Definition EBUSY : Z := 16.
Definition EEXIST : Z := 17.
Definition ENOTDIR : Z := 20.
Definition EISDIR : Z := 21.
Definition EINVAL : Z := 22.
Definition EMFILE : Z := 24.
Definition ENOSPC : Z := 28.
Definition ENAMETOOLONG : Z := 36.
Definition ENOTEMPTY : Z := 39.
Definition ENOTSUP : Z := 95.

(** File types ([include/fs/stat.h]). *)
Definition S_IFCHR : Z := 256.
Definition S_IFDIR : Z := 512.
Definition S_IFBLK : Z := 1024.
Definition S_IFREG : Z := 2048.
Definition S_TYPE (m : Z) : Z := Z.land m 65280.
Definition S_ISCHR (m : Z) : bool := S_TYPE m =? S_IFCHR.
Definition S_ISDIR (m : Z) : bool := S_TYPE m =? S_IFDIR.
Definition S_ISBLK (m : Z) : bool := S_TYPE m =? S_IFBLK.

Definition VN_BUSY : Z := 1.

(** Which operations table [vn_ops] points to. *)
Inductive vops := NullOps | RamfsDirVops | RamfsFileVops | BytedevSpecVops | BlockdevSpecVops.
#[export] Instance vops_eq_dec : EqDecision vops.
Proof. solve_decision. Defined.

(** [vnode_t], without its mutex and memory object.  No page is ever resident
    in this configuration, so [vn_nrespages] stays 0. *)
Record vnode := Vnode {
  vn_ops : vops;
  vn_vno : Z;
  vn_mode : Z;
  vn_len : Z;
  vn_i : option Z;
  vn_devid : Z;
  vn_cdev : option Z;
  vn_bdev : option Z;
  vn_refcount : Z;
  vn_nrespages : Z;
  vn_flags : Z
}.

(** [file_t] *)
Record file := File { f_pos : Z; f_mode : Z; f_refcount : Z; f_vnode : option Z }.

(** What [read_vnode] fills in. *)
Record vattr := Vattr { a_ops : vops; a_mode : Z; a_len : Z; a_i : Z; a_devid : Z }.

Definition vn_set_flags (v : Z) (x : vnode) : vnode :=
  Vnode
    (vn_ops x) (vn_vno x) (vn_mode x) (vn_len x) (vn_i x)
    (vn_devid x) (vn_cdev x) (vn_bdev x) (vn_refcount x) (vn_nrespages x)
    v.
Definition vn_set_ref (v : Z) (x : vnode) : vnode :=
  Vnode
    (vn_ops x) (vn_vno x) (vn_mode x) (vn_len x) (vn_i x)
    (vn_devid x) (vn_cdev x) (vn_bdev x) v (vn_nrespages x)
    (vn_flags x).
Definition vn_set_len (v : Z) (x : vnode) : vnode :=
  Vnode
    (vn_ops x) (vn_vno x) (vn_mode x) v (vn_i x)
    (vn_devid x) (vn_cdev x) (vn_bdev x) (vn_refcount x) (vn_nrespages x)
    (vn_flags x).
Definition vn_set_cdev (o : vops) (d : option Z) (x : vnode) : vnode :=
  Vnode
    o (vn_vno x) (vn_mode x) (vn_len x) (vn_i x)
    (vn_devid x) d (vn_bdev x) (vn_refcount x) (vn_nrespages x)
    (vn_flags x).
Definition vn_set_bdev (o : vops) (d : option Z) (x : vnode) : vnode :=
  Vnode
    o (vn_vno x) (vn_mode x) (vn_len x) (vn_i x)
    (vn_devid x) (vn_cdev x) d (vn_refcount x) (vn_nrespages x)
    (vn_flags x).
Definition vn_set_attr (a : vattr) (x : vnode) : vnode :=
  Vnode
    (a_ops a) (vn_vno x) (a_mode a) (a_len a) (Some (a_i a))
    (a_devid a) (vn_cdev x) (vn_bdev x) (vn_refcount x) (vn_nrespages x)
    (vn_flags x).

(** The state of the layer: vnodes and files by address, [vnode_inuse_list], the
    file system's own state, the root vnode, the descriptor table and current
    directory of the current process, the next address the allocators return,
    and which of the coming allocations fail. *)
Record vstate (I : Type) := VState {
  v_vnodes : gmap Z vnode;
  v_inuse : list Z;
  v_fs : I;
  vfs_root_vn : option Z;
  v_files : gmap Z file;
  p_files : list (option Z);
  p_cwd : option Z;
  v_fresh : Z;
  v_oom : list bool
}.
Arguments v_vnodes {I} _.
Arguments v_inuse {I} _.
Arguments v_fs {I} _.
Arguments vfs_root_vn {I} _.
Arguments v_files {I} _.
Arguments p_files {I} _.
Arguments p_cwd {I} _.
Arguments v_fresh {I} _.
Arguments v_oom {I} _.
Arguments VState {I} _ _ _ _ _ _ _ _ _.

(** [fs_ops_t]: the entry points of a file system. *)
Class FsOps (I : Type) := {
  fs_read_vnode : Z -> kern I vattr;
  fs_delete_vnode : Z -> kern I unit;
  fs_query_vnode : Z -> kern I bool
}.

(** Device numbers with a registered driver. *)
Class Devs := {
  bytedev_lookup : Z -> option Z;
  blockdev_lookup : Z -> option Z
}.

Section Vnodes.
Context {I : Type} `{FsOps I} `{Devs}.
Implicit Type s : vstate I.
Local Abbreviation vstate := (vstate I).
Local Abbreviation V := (kern vstate).

Definition upd_vnodes (f : gmap Z vnode -> gmap Z vnode) (x : vstate) : vstate :=
  VState
    (f (v_vnodes x)) (v_inuse x) (v_fs x) (vfs_root_vn x) (v_files x)
    (p_files x) (p_cwd x) (v_fresh x) (v_oom x).
Definition upd_inuse (f : list Z -> list Z) (x : vstate) : vstate :=
  VState
    (v_vnodes x) (f (v_inuse x)) (v_fs x) (vfs_root_vn x) (v_files x)
    (p_files x) (p_cwd x) (v_fresh x) (v_oom x).
Definition upd_fs (f : I -> I) (x : vstate) : vstate :=
  VState
    (v_vnodes x) (v_inuse x) (f (v_fs x)) (vfs_root_vn x) (v_files x)
    (p_files x) (p_cwd x) (v_fresh x) (v_oom x).
Definition upd_vfiles (f : gmap Z file -> gmap Z file) (x : vstate) : vstate :=
  VState
    (v_vnodes x) (v_inuse x) (v_fs x) (vfs_root_vn x) (f (v_files x))
    (p_files x) (p_cwd x) (v_fresh x) (v_oom x).
Definition upd_pfiles (f : list (option Z) -> list (option Z)) (x : vstate) : vstate :=
  VState
    (v_vnodes x) (v_inuse x) (v_fs x) (vfs_root_vn x) (v_files x)
    (f (p_files x)) (p_cwd x) (v_fresh x) (v_oom x).
Definition set_root (v : option Z) (x : vstate) : vstate :=
  VState
    (v_vnodes x) (v_inuse x) (v_fs x) v (v_files x)
    (p_files x) (p_cwd x) (v_fresh x) (v_oom x).
Definition set_cwd (v : option Z) (x : vstate) : vstate :=
  VState
    (v_vnodes x) (v_inuse x) (v_fs x) (vfs_root_vn x) (v_files x)
    (p_files x) v (v_fresh x) (v_oom x).
Definition set_vfresh (v : Z) (x : vstate) : vstate :=
  VState
    (v_vnodes x) (v_inuse x) (v_fs x) (vfs_root_vn x) (v_files x)
    (p_files x) (p_cwd x) v (v_oom x).
Definition set_oom (v : list bool) (x : vstate) : vstate :=
  VState
    (v_vnodes x) (v_inuse x) (v_fs x) (vfs_root_vn x) (v_files x)
    (p_files x) (p_cwd x) (v_fresh x) v.

Definition get_vnode (v : Z) : V vnode := fun s => deref (v_vnodes s !! v) s.
Definition set_vnode (v : Z) (f : vnode -> vnode) : V unit :=
  let* vn := get_vnode v in modify (upd_vnodes <[v := f vn]>).

(** A call into the file system. *)
Definition fs_call {A} (m : kern I A) : V A :=
  fun s => match m (v_fs s) with
           | Done a i => Done a (upd_fs (fun _ => i) s)
           | Panic => Panic
           | Stuck => Stuck
           | Blocked => Blocked
           end.

(** An allocation: the address, or NULL. *)
Definition slab_alloc : V (option Z) :=
  let* oom := gets v_oom in
  modify (set_oom (tail oom)) ;;
  if default false (head oom) then ret None
  else
    let* a := gets v_fresh in
    modify (set_vfresh (a + 1)) ;; ret (Some a).

Definition vref (v : option Z) : V unit :=
  kassert (bool_decide (v <> None)) ;;
  let* v := deref v in
  let* vn := get_vnode v in
  kassert (0 <? vn_refcount vn) ;;
  set_vnode v (vn_set_ref (vn_refcount vn + 1)).

(** The first vnode of the list with the given number. *)
Fixpoint inuse_find (vno : Z) (l : list Z) : V (option Z) :=
  match l with
  | [] => ret None
  | v :: l =>
      let* vn := get_vnode v in
      if vn_vno vn =? vno then ret (Some v) else inuse_find vno l
  end.

Definition init_special_vnode (v : Z) : V unit :=
  let* vn := get_vnode v in
  if S_ISCHR (vn_mode vn)
  then set_vnode v (vn_set_cdev BytedevSpecVops (bytedev_lookup (vn_devid vn)))
  else
    kassert (S_ISBLK (vn_mode vn)) ;;
    set_vnode v (vn_set_bdev BlockdevSpecVops (blockdev_lookup (vn_devid vn))).

(** A busy vnode, or the lack of memory for a new one, makes the caller give
    up the CPU and try again later. *)
Definition vget (vno : Z) : V Z :=
  let* l := gets v_inuse in
  let* found := inuse_find vno l in
  match found with
  | Some v =>
      let* vn := get_vnode v in
      if negb (Z.land VN_BUSY (vn_flags vn) =? 0) then blocked
      else vref (Some v) ;; ret v
  | None =>
      let* a := slab_alloc in
      match a with
      | None => blocked
      | Some v =>
          modify (upd_vnodes <[v := Vnode NullOps vno 0 0 None 0 None None 0 0 0]>) ;;
          set_vnode v (vn_set_flags VN_BUSY) ;;
          modify (upd_inuse (fun l => v :: l)) ;;
          let* a := fs_call (fs_read_vnode vno) in
          set_vnode v (vn_set_attr a) ;;
          set_vnode v (vn_set_flags 0) ;;
          let* vn := get_vnode v in
          (if S_ISCHR (vn_mode vn) || S_ISBLK (vn_mode vn) then init_special_vnode v else ret tt) ;;
          set_vnode v (vn_set_ref 1) ;;
          ret v
      end
  end.

Definition vput (v : option Z) : V unit :=
  kassert (bool_decide (v <> None)) ;;
  let* v := deref v in
  let* vn := get_vnode v in
  kassert (0 <=? vn_nrespages vn) ;;
  kassert (vn_nrespages vn <? vn_refcount vn) ;;
  kassert (Z.land VN_BUSY (vn_flags vn) =? 0) ;;
  (if vn_nrespages vn =? vn_refcount vn - 1 then
     let* linked := fs_call (fs_query_vnode (vn_vno vn)) in
     if linked : bool then ret tt
     else kassert (vn_nrespages vn =? 0) ;; kassert (vn_refcount vn =? 1)
   else ret tt) ;;
  set_vnode v (vn_set_ref (vn_refcount vn - 1)) ;;
  if 0 <? vn_refcount vn - 1 then ret tt
  else
    kassert (vn_refcount vn - 1 =? 0) ;;
    kassert (vn_nrespages vn =? 0) ;;
    set_vnode v (vn_set_flags (Z.lor (vn_flags vn) VN_BUSY)) ;;
    fs_call (fs_delete_vnode (vn_vno vn)) ;;
    modify (upd_inuse (filter (fun x => x <> v))) ;;
    modify (upd_vnodes (delete v)).

(** [vfs_is_in_use]: the loop over the vnodes of the file system. *)
Fixpoint in_use_loop (root : option Z) (l : list Z) (r : Z) : V Z :=
  match l with
  | [] => ret r
  | v :: l =>
      let* vn := get_vnode v in
      kassert (vn_nrespages vn <=? vn_refcount vn) ;;
      kassert (0 <=? vn_nrespages vn) ;;
      let refs := vn_refcount vn - vn_nrespages vn in
      let is_root := bool_decide (root = Some v) in
      kassert (0 <=? refs) ;;
      kassert ((is_root && (1 <=? refs)) || (negb is_root && (0 <=? refs))) ;;
      in_use_loop root l
        (if (is_root && (1 <? refs)) || (negb is_root && negb (refs =? 0)) then - EBUSY else r)
  end.

Definition vfs_is_in_use : V Z :=
  let* root := gets vfs_root_vn in
  let* l := gets v_inuse in
  in_use_loop root l 0.

(** [vnode_inuse]: there is one file system. *)
Definition vnode_inuse : V Z := gets (fun s => Z.of_nat (length (v_inuse s))).
End Vnodes.

(** ** What vnode management relies on

    [nlink i v] is the link count of inode [v], [None] when there is no such
    inode; a vnode in memory holds one link. *)
Class FsLaws (I : Type) `{FsOps I} := {
  nlink : I -> Z -> option Z;
  read_law : forall i v n, nlink i v = Some n -> 0 < n ->
    runs (fs_read_vnode v) i (fun _ i' =>
      nlink i' v = Some (n + 1) /\ (forall w, w <> v -> nlink i' w = nlink i w) /\
      fs_delete_vnode v i' = Done tt i);
  delete_law : forall i v n, nlink i v = Some n -> 0 < n ->
    runs (fs_delete_vnode v) i (fun _ i' =>
      nlink i' v = (if n =? 1 then None else Some (n - 1)) /\
      (forall w, w <> v -> nlink i' w = nlink i w));
  query_law : forall i v n, nlink i v = Some n -> fs_query_vnode v i = Done (1 <? n) i
}.

Section VnodeLaws.
Context {I : Type} `{FsLaws I} `{Devs}.
Implicit Type s : vstate I.

(** States with equal fields. *)
Lemma vstate_ext s1 s2 :
  v_vnodes s1 = v_vnodes s2 -> v_inuse s1 = v_inuse s2 -> v_fs s1 = v_fs s2 ->
  vfs_root_vn s1 = vfs_root_vn s2 -> v_files s1 = v_files s2 -> p_files s1 = p_files s2 ->
  p_cwd s1 = p_cwd s2 -> v_fresh s1 = v_fresh s2 -> v_oom s1 = v_oom s2 -> s1 = s2.
Proof. destruct s1, s2. cbn. by intros -> -> -> -> -> -> -> -> ->. Qed.

Record vn_wf s : Prop := {
  vw_list : NoDup (v_inuse s);
  vw_dom : forall v, v ∈ v_inuse s <-> is_Some (v_vnodes s !! v);
  vw_vno : forall v w vn wn, v_vnodes s !! v = Some vn -> v_vnodes s !! w = Some wn ->
    vn_vno vn = vn_vno wn -> v = w;
  vw_ok : forall v vn, v_vnodes s !! v = Some vn ->
    0 < vn_refcount vn /\ vn_nrespages vn = 0 /\ vn_flags vn = 0 /\ v < v_fresh s;
  vw_link : forall v vn, v_vnodes s !! v = Some vn ->
    exists n, nlink (v_fs s) (vn_vno vn) = Some n /\ 0 < n
}.

Lemma get_vnode_run s v vn : v_vnodes s !! v = Some vn -> get_vnode v s = Done vn s.
Proof. unfold get_vnode, deref. by intros ->. Qed.

Lemma set_vnode_run s v vn f :
  v_vnodes s !! v = Some vn -> set_vnode v f s = Done tt (upd_vnodes <[v := f vn]> s).
Proof. intros E. unfold set_vnode. by krun (get_vnode_run s v vn E). Qed.

Lemma inuse_find_run s vno l :
  (forall v, v ∈ l -> is_Some (v_vnodes s !! v)) ->
  exists r, inuse_find vno l s = Done r s /\
    match r with
    | Some v => v ∈ l /\ exists vn, v_vnodes s !! v = Some vn /\ vn_vno vn = vno
    | None => forall v vn, v ∈ l -> v_vnodes s !! v = Some vn -> vn_vno vn <> vno
    end.
Proof.
  induction l as [|v l IH]; intros Hl.
  - exists None. split; [done|]. by intros v vn ?%elem_of_nil.
  - destruct (Hl v) as [vn Hv]; [by left|]. cbn [inuse_find]. krun (get_vnode_run s v vn Hv).
    destruct (Z.eqb_spec (vn_vno vn) vno) as [E|E].
    + exists (Some v). split; [done|]. split; [by left|]. eauto.
    + destruct IH as (r & Er & Hr); [intros w Hw; apply Hl; by right|]. exists r. split; [done|].
      destruct r as [w|].
      * destruct Hr as [? ?]. split; [by right|done].
      * intros w wn [->|Hw]%elem_of_cons Hwn; [congruence|by eapply Hr].
Qed.

(** The vnode after [vref]. *)
Lemma vref_run s v vn :
  v_vnodes s !! v = Some vn -> 0 < vn_refcount vn ->
  vref (Some v) s = Done tt (upd_vnodes <[v := vn_set_ref (vn_refcount vn + 1) vn]> s).
Proof.
  intros Hv Hr. unfold vref, kassert, deref, bind at 1 2. cbn.
  krun (get_vnode_run s v vn Hv). unfold bind at 1. replace (0 <? vn_refcount vn) with true by lia.
  by apply set_vnode_run.
Qed.

(** Changing the reference count of a vnode. *)
Lemma set_ref_wf s v vn r :
  vn_wf s -> v_vnodes s !! v = Some vn -> 0 < r ->
  vn_wf (upd_vnodes <[v := vn_set_ref r vn]> s).
Proof.
  intros Hw Hv Hr.
  assert (forall w wn, v_vnodes (upd_vnodes <[v := vn_set_ref r vn]> s) !! w = Some wn ->
    exists wn0, v_vnodes s !! w = Some wn0 /\ vn_vno wn = vn_vno wn0 /\ 0 < vn_refcount wn /\
      vn_nrespages wn = 0 /\ vn_flags wn = 0 /\ w < v_fresh s) as Hold.
  { intros w wn. cbn. destruct (vw_ok s Hw v vn Hv) as (? & ? & ? & ?).
    intros [[<- <-]|[? Hwn]]%lookup_insert_Some; [eauto 10|].
    destruct (vw_ok s Hw w wn Hwn) as (? & ? & ? & ?). eauto 10. }
  split; cbn.
  - apply Hw.
  - intros w. rewrite (vw_dom s Hw). rewrite lookup_insert_is_Some'. split; [auto|]. intros [<-|?]; eauto.
  - intros w x wn xn (wn0 & Hwn & -> & _)%Hold (xn0 & Hxn & -> & _)%Hold. by eapply vw_vno.
  - intros w wn (? & _ & _ & ? & ? & ? & ?)%Hold. done.
  - intros w wn (wn0 & Hwn & -> & _)%Hold. by eapply vw_link.
Qed.

Lemma slab_alloc_run s :
  default false (head (v_oom s)) = false ->
  slab_alloc s = Done (Some (v_fresh s)) (set_vfresh (v_fresh s + 1) (set_oom (tail (v_oom s)) s)).
Proof. intros E. unfold slab_alloc, gets, bind, modify. by rewrite E. Qed.

(** The vnode [vget] builds from what the file system says. *)
Definition new_vnode (vno : Z) (a : vattr) : vnode :=
  let vn := vn_set_flags 0 (vn_set_attr a (vn_set_flags VN_BUSY (Vnode NullOps vno 0 0 None 0 None None 0 0 0))) in
  let vn := if S_ISCHR (a_mode a) then vn_set_cdev BytedevSpecVops (bytedev_lookup (a_devid a)) vn
            else if S_ISBLK (a_mode a) then vn_set_bdev BlockdevSpecVops (blockdev_lookup (a_devid a)) vn
            else vn in
  vn_set_ref 1 vn.

(** The state after [vget] has brought in a vnode. *)
Definition brought_in (vno : Z) (a : vattr) (i : I) s : vstate I :=
  upd_vnodes <[v_fresh s := new_vnode vno a]> (upd_inuse (cons (v_fresh s)) (upd_fs (fun _ => i)
    (set_vfresh (v_fresh s + 1) (set_oom (tail (v_oom s)) s)))).

Lemma set_vnode_ins s v vn f :
  set_vnode v f (upd_vnodes <[v := vn]> s) = Done tt (upd_vnodes <[v := f vn]> s).
Proof.
  erewrite set_vnode_run by apply lookup_insert_eq.
  unfold upd_vnodes. cbn. by rewrite insert_insert_eq.
Qed.

Lemma get_vnode_ins s v vn :
  get_vnode v (upd_vnodes <[v := vn]> s) = Done vn (upd_vnodes <[v := vn]> s).
Proof. apply get_vnode_run, lookup_insert_eq. Qed.

Lemma init_special_ins s v vn :
  S_ISCHR (vn_mode vn) || S_ISBLK (vn_mode vn) = true ->
  init_special_vnode v (upd_vnodes <[v := vn]> s) =
  Done tt (upd_vnodes <[v :=
    if S_ISCHR (vn_mode vn) then vn_set_cdev BytedevSpecVops (bytedev_lookup (vn_devid vn)) vn
    else vn_set_bdev BlockdevSpecVops (blockdev_lookup (vn_devid vn)) vn]> s).
Proof.
  intros E. unfold init_special_vnode. krun (get_vnode_ins s v vn).
  destruct (S_ISCHR (vn_mode vn)); [apply set_vnode_ins|]. cbn in E. rewrite E.
  unfold kassert, bind at 1. apply set_vnode_ins.
Qed.

Lemma vget_miss s vno a i :
  (forall v, v ∈ v_inuse s -> is_Some (v_vnodes s !! v)) ->
  (forall v vn, v ∈ v_inuse s -> v_vnodes s !! v = Some vn -> vn_vno vn <> vno) ->
  default false (head (v_oom s)) = false -> fs_read_vnode vno (v_fs s) = Done a i ->
  vget vno s = Done (v_fresh s) (brought_in vno a i s).
Proof.
  intros Hall Hno Hoom Hread. unfold vget, gets at 1. unfold bind at 1.
  destruct (inuse_find_run s vno _ Hall) as ([v|] & E & Hr).
  { destruct Hr as (? & vn & ? & ?). exfalso. by eapply Hno. }
  krun E. krun (slab_alloc_run s Hoom).
  set (s1 := set_vfresh _ _). set (v := v_fresh s). unfold modify at 1, bind at 1.
  erewrite bind_done by apply set_vnode_ins. cbn beta.
  unfold modify at 1, bind at 1.
  set (vn0 := vn_set_flags VN_BUSY _).
  change (upd_inuse (fun l => v :: l) (upd_vnodes <[v:=vn0]> s1))
    with (upd_vnodes <[v:=vn0]> (upd_inuse (cons v) s1)).
  erewrite bind_done.
  2:{ unfold fs_call. cbn [v_fs upd_vnodes upd_inuse]. change (v_fs s1) with (v_fs s). by rewrite Hread. }
  change (upd_fs (fun _ => i) (upd_vnodes <[v:=vn0]> (upd_inuse (cons v) s1)))
    with (upd_vnodes <[v:=vn0]> (upd_fs (fun _ => i) (upd_inuse (cons v) s1))).
  erewrite bind_done by apply set_vnode_ins. cbn beta.
  erewrite bind_done by apply set_vnode_ins. cbn beta.
  erewrite bind_done by apply get_vnode_ins. cbn beta.
  unfold brought_in, new_vnode. fold s1 v vn0. cbv zeta.
  set (vn1 := vn_set_flags 0 (vn_set_attr a vn0)).
  change (vn_mode vn1) with (a_mode a).
  destruct (S_ISCHR (a_mode a) || S_ISBLK (a_mode a)) eqn:Esp.
  - erewrite bind_done by (apply init_special_ins; exact Esp). cbn beta.
    erewrite bind_done by apply set_vnode_ins. cbn beta. unfold ret.
    change (vn_mode vn1) with (a_mode a). change (vn_devid vn1) with (a_devid a).
    destruct (S_ISCHR (a_mode a)); [done|]. cbn in Esp. by rewrite Esp.
  - unfold ret at 1, bind at 1. erewrite bind_done by apply set_vnode_ins.
    apply orb_false_elim in Esp as [-> ->]. done.
Qed.

Lemma new_vnode_vno vno a : vn_vno (new_vnode vno a) = vno.
Proof. unfold new_vnode. by destruct (S_ISCHR (a_mode a)), (S_ISBLK (a_mode a)). Qed.

Lemma new_vnode_ok vno a :
  vn_refcount (new_vnode vno a) = 1 /\ vn_nrespages (new_vnode vno a) = 0 /\ vn_flags (new_vnode vno a) = 0.
Proof. unfold new_vnode. by destruct (S_ISCHR (a_mode a)), (S_ISBLK (a_mode a)). Qed.

(** The vnode of [vno] that is in memory, if any. *)
Definition in_memory s (vno v : Z) (vn : vnode) : Prop :=
  v_vnodes s !! v = Some vn /\ vn_vno vn = vno.

Lemma vget_hit s vno v vn :
  vn_wf s -> in_memory s vno v vn ->
  vget vno s = Done v (upd_vnodes <[v := vn_set_ref (vn_refcount vn + 1) vn]> s).
Proof.
  intros Hw [Hv Hvno]. unfold vget, gets, bind at 1.
  destruct (inuse_find_run s vno (v_inuse s)) as ([w|] & E & Hr); [intros; by apply (vw_dom s Hw)| |].
  - destruct Hr as (Hin & wn & Hwn & Hwno). assert (w = v) as -> by (eapply vw_vno; eauto; congruence).
    simplify_eq. krun E. krun (get_vnode_run s v vn Hv).
    destruct (vw_ok s Hw v vn Hv) as (Hr & _ & -> & _).
    change (negb (Z.land VN_BUSY 0 =? 0)) with false. cbn iota.
    by krun (vref_run s v vn Hv Hr).
  - exfalso. eapply Hr; [apply (vw_dom s Hw); eauto|exact Hv|done].
Qed.

Lemma brought_in_wf s vno a i n :
  vn_wf s -> (forall v vn, ~ in_memory s vno v vn) ->
  nlink i vno = Some (n + 1) -> 0 < n -> (forall w, w <> vno -> nlink i w = nlink (v_fs s) w) ->
  vn_wf (brought_in vno a i s).
Proof.
  intros Hw Hno Hn Hpos Hoth.
  assert (v_vnodes s !! v_fresh s = None) as Hfr.
  { destruct (v_vnodes s !! v_fresh s) eqn:E; [|done]. destruct (vw_ok s Hw _ _ E) as (_ & _ & _ & ?). lia. }
  unfold brought_in. split; cbn [v_inuse v_vnodes v_fs v_fresh upd_vnodes upd_inuse upd_fs set_vfresh set_oom].
  - apply NoDup_cons. split; [|apply Hw]. intros Hin%(vw_dom s Hw). rewrite Hfr in Hin. by destruct Hin.
  - intros v. rewrite elem_of_cons, (vw_dom s Hw), lookup_insert_is_Some'. naive_solver.
  - intros v w vn wn [[<- <-]|[? Hv]]%lookup_insert_Some [[<- <-]|[? Hwn]]%lookup_insert_Some;
      rewrite ?new_vnode_vno; intros E; [done| | |by eapply vw_vno]; exfalso; eapply Hno; split; eauto.
  - destruct (new_vnode_ok vno a) as (? & ? & ?).
    intros v vn [[<- <-]|[? Hv]]%lookup_insert_Some; [split_and!; try done; lia|].
    destruct (vw_ok s Hw _ _ Hv) as (? & ? & ? & ?). split_and!; try done; lia.
  - intros v vn [[<- <-]|[? Hv]]%lookup_insert_Some.
    + rewrite new_vnode_vno. exists (n + 1). split; [done|lia].
    + rewrite Hoth; [by eapply vw_link|]. intros E. by eapply Hno; split.
Qed.

Definition thrown_out (v : Z) (i : I) s : vstate I :=
  upd_vnodes (delete v) (upd_inuse (filter (fun x => x <> v)) (upd_fs (fun _ => i) s)).

Lemma vput_run s v vn :
  vn_wf s -> v_vnodes s !! v = Some vn ->
  vput (Some v) s =
  if 1 <? vn_refcount vn then Done tt (upd_vnodes <[v := vn_set_ref (vn_refcount vn - 1) vn]> s)
  else match fs_delete_vnode (vn_vno vn) (v_fs s) with
       | Done _ i => Done tt (thrown_out v i s)
       | Panic => Panic | Stuck => Stuck | Blocked => Blocked
       end.
Proof.
  intros Hw Hv. destruct (vw_ok s Hw v vn Hv) as (Hr & Hres & Hfl & _).
  destruct (vw_link s Hw v vn Hv) as (n & Hn & Hpos).
  unfold vput. rewrite bool_decide_eq_true_2 by done. unfold kassert at 1, deref at 1, bind at 1 2.
  krun (get_vnode_run s v vn Hv). rewrite Hres, Hfl. unfold kassert at 1 2 3, bind at 1 2 3.
  replace (0 <? vn_refcount vn) with true by lia. cbn iota. change (Z.land VN_BUSY 0 =? 0) with true. cbn iota.
  change (0 <=? 0) with true. cbn iota.
  destruct (Z.ltb_spec 1 (vn_refcount vn)) as [Hlt|Hle].
  - destruct (Z.eqb_spec 0 (vn_refcount vn - 1)); [lia|]. unfold ret at 1, bind at 1.
    krun (set_vnode_run s v vn (vn_set_ref (vn_refcount vn - 1)) Hv).
    by replace (0 <? vn_refcount vn - 1) with true by lia.
  - assert (vn_refcount vn = 1) as E1 by lia. rewrite E1. change (1 - 1) with 0.
    change (0 =? 0) with true. cbn iota.
    erewrite bind_done with (a := tt) (s' := s).
    2:{ unfold fs_call, bind. rewrite (query_law _ _ _ Hn).
        replace (upd_fs (fun _ => v_fs s) s) with s by (by destruct s).
        destruct (1 <? n); [done|]. unfold kassert. change (1 =? 1) with true. done. }
    krun (set_vnode_run s v vn (vn_set_ref 0) Hv). change (0 <? 0) with false. cbn iota.
    unfold kassert, bind at 1 2. erewrite bind_done by apply set_vnode_ins. cbn beta.
    unfold fs_call, bind at 1. cbn [v_fs upd_vnodes].
    destruct (fs_delete_vnode (vn_vno vn) (v_fs s)) as [[] i| | |]; try done.
    unfold modify, bind, thrown_out, upd_vnodes, upd_inuse, upd_fs. cbn. by rewrite delete_insert_eq.
Qed.

Lemma thrown_out_wf s v vn i :
  vn_wf s -> v_vnodes s !! v = Some vn ->
  (forall w, w <> vn_vno vn -> nlink i w = nlink (v_fs s) w) ->
  vn_wf (thrown_out v i s).
Proof.
  intros Hw Hv Hoth.
  assert (forall w wn, v_vnodes (thrown_out v i s) !! w = Some wn -> w <> v /\ v_vnodes s !! w = Some wn) as Hold.
  { intros w wn. cbn. intros [? ?]%lookup_delete_Some. done. }
  split; cbn.
  - apply NoDup_filter, Hw.
  - intros w. rewrite list_elem_of_filter, (vw_dom s Hw), lookup_delete_is_Some. naive_solver.
  - intros w x wn xn [_ Hwn]%Hold [_ Hxn]%Hold. by eapply vw_vno.
  - intros w wn [_ Hwn]%Hold. by apply (vw_ok s Hw).
  - intros w wn [Hne Hwn]%Hold. rewrite Hoth; [by eapply vw_link|].
    intros E. apply Hne. eapply vw_vno; eauto.
Qed.

(** The two ways [vget] finds the vnode of a live inode. *)
Lemma vget_run s vno n :
  vn_wf s -> nlink (v_fs s) vno = Some n -> 0 < n -> default false (head (v_oom s)) = false ->
  runs (vget vno) s (fun v s' => vn_wf s' /\
    ((exists vn, in_memory s vno v vn /\ s' = upd_vnodes <[v := vn_set_ref (vn_refcount vn + 1) vn]> s) \/
     (exists a i, (forall w wn, ~ in_memory s vno w wn) /\ v = v_fresh s /\ s' = brought_in vno a i s /\
        fs_read_vnode vno (v_fs s) = Done a i /\ nlink i vno = Some (n + 1) /\
        (forall w, w <> vno -> nlink i w = nlink (v_fs s) w) /\ fs_delete_vnode vno i = Done tt (v_fs s)))).
Proof.
  intros Hw Hn Hpos Hoom.
  destruct (inuse_find_run s vno (v_inuse s)) as ([v|] & E & Hr); [intros; by apply (vw_dom s Hw)| |].
  - destruct Hr as (_ & vn & Hv & Hvno). destruct (vw_ok s Hw v vn Hv) as (? & _).
    eapply runs_intro; [by eapply vget_hit; [|split]|]. split; [apply set_ref_wf; try done; lia|].
    left. exists vn. by split.
  - destruct (runs_done _ _ _ (read_law _ _ _ Hn Hpos)) as (a & i & Er & Hn' & Hoth & Hdel).
    assert (forall w wn, ~ in_memory s vno w wn) as Hno.
    { intros w wn [Hwn Hwno]. eapply Hr; [|exact Hwn|done]. apply (vw_dom s Hw). eauto. }
    eapply runs_intro; [eapply vget_miss; try done; intros; by apply (vw_dom s Hw)|].
    split; [by eapply brought_in_wf|]. right. exists a, i. by split_and!.
Qed.

(** [vget] of a live inode returns the one vnode that stands for it: the one in
    memory with one more reference, or a new one with one reference, which then
    holds a link of the inode.  The vnode table stays in order. *)
Theorem vget_spec s vno n :
  vn_wf s -> nlink (v_fs s) vno = Some n -> 0 < n -> default false (head (v_oom s)) = false ->
  runs (vget vno) s (fun v s' => vn_wf s' /\
    ((exists vn, in_memory s vno v vn /\ s' = upd_vnodes <[v := vn_set_ref (vn_refcount vn + 1) vn]> s) \/
     (exists a i, (forall w wn, ~ in_memory s vno w wn) /\ v = v_fresh s /\ s' = brought_in vno a i s /\
        fs_read_vnode vno (v_fs s) = Done a i /\ nlink i vno = Some (n + 1) /\
        (forall w, w <> vno -> nlink i w = nlink (v_fs s) w) /\ fs_delete_vnode vno i = Done tt (v_fs s)))).
Proof. apply vget_run. Qed.

(** C34: [vput] drops a reference; the last one takes the vnode out of memory and
    gives its link back, which frees the inode when it was the last link. *)
Theorem vput_spec s v vn n :
  vn_wf s -> v_vnodes s !! v = Some vn -> nlink (v_fs s) (vn_vno vn) = Some n ->
  runs (vput (Some v)) s (fun _ s' => vn_wf s' /\
    if 1 <? vn_refcount vn then s' = upd_vnodes <[v := vn_set_ref (vn_refcount vn - 1) vn]> s
    else exists i, s' = thrown_out v i s /\
      nlink i (vn_vno vn) = (if n =? 1 then None else Some (n - 1)) /\
      (forall w, w <> vn_vno vn -> nlink i w = nlink (v_fs s) w)).
Proof.
  intros Hw Hv Hn. destruct (vw_ok s Hw v vn Hv) as (Hr & _).
  destruct (vw_link s Hw v vn Hv) as (n' & Hn' & Hpos). simplify_eq.
  pose proof (vput_run s v vn Hw Hv) as E.
  destruct (Z.ltb_spec 1 (vn_refcount vn)).
  - eapply runs_intro; [exact E|]. split; [apply set_ref_wf; try done; lia|done].
  - destruct (runs_done _ _ _ (delete_law _ _ _ Hn Hpos)) as ([] & i & Ed & Hi & Hoth).
    rewrite Ed in E. eapply runs_intro; [exact E|]. split; [by eapply thrown_out_wf|eauto].
Qed.

Lemma vget_vput_run s vno n :
  vn_wf s -> nlink (v_fs s) vno = Some n -> 0 < n -> default false (head (v_oom s)) = false ->
  runs (let* v := vget vno in vput (Some v)) s (fun _ s' =>
    s' = set_vfresh (v_fresh s') (set_oom (v_oom s') s)).
Proof.
  intros Hw Hn Hpos Hoom. apply runs_bind.
  eapply runs_mono; [by eapply vget_run|]. intros v s1 (Hw1 & Hcase). cbv beta.
  destruct Hcase as [(vn & [Hv Hvno] & ->)|(a & i & Hno & -> & -> & Hrd & Hni & Hoth & Hdel)].
  - destruct (vw_ok s Hw v vn Hv) as (Hr & _).
    eapply runs_intro; [erewrite vput_run; [|exact Hw1|apply lookup_insert_eq]|].
    { cbn [vn_refcount vn_set_ref]. replace (1 <? vn_refcount vn + 1) with true by lia. done. }
    unfold set_vfresh, set_oom, upd_vnodes. cbn. rewrite insert_insert_eq.
    replace (vn_refcount vn + 1 - 1) with (vn_refcount vn) by lia.
    rewrite insert_id; [by destruct s|]. rewrite Hv. by destruct vn.
  - assert (v_vnodes (brought_in vno a i s) !! v_fresh s = Some (new_vnode vno a)) as Hv by apply lookup_insert_eq.
    pose proof (vput_run _ _ _ Hw1 Hv) as E. destruct (new_vnode_ok vno a) as (E1 & _).
    rewrite new_vnode_vno, E1 in E. change (1 <? 1) with false in E. cbn iota in E.
    change (v_fs (brought_in vno a i s)) with i in E. rewrite Hdel in E.
    eapply runs_intro; [exact E|]. unfold thrown_out, brought_in.
    assert (v_vnodes s !! v_fresh s = None) as Hfr.
    { destruct (v_vnodes s !! v_fresh s) eqn:E2; [|done]. destruct (vw_ok s Hw _ _ E2) as (_ & _ & _ & ?). lia. }
    assert (v_fresh s ∉ v_inuse s) as Hni'.
    { intros Hin%(vw_dom s Hw). rewrite Hfr in Hin. by destruct Hin. }
    apply vstate_ext; try reflexivity.
    { change (delete (v_fresh s) (<[v_fresh s := new_vnode vno a]> (v_vnodes s)) = v_vnodes s).
      by rewrite delete_insert_id. }
    change (filter (fun x => x <> v_fresh s) (v_fresh s :: v_inuse s) = v_inuse s).
    rewrite filter_cons_False by naive_solver.
    clear -Hni'. induction (v_inuse s) as [|x l IH]; [done|]. apply not_elem_of_cons in Hni' as [? ?].
    rewrite filter_cons_True by done. by rewrite IH.
Qed.

(** A reference taken with [vget] and dropped with [vput] leaves the layer as it
    was, the allocator's counters aside. *)
Theorem vget_vput s vno n :
  vn_wf s -> nlink (v_fs s) vno = Some n -> 0 < n -> default false (head (v_oom s)) = false ->
  runs (let* v := vget vno in vput (Some v)) s (fun _ s' =>
    s' = set_vfresh (v_fresh s') (set_oom (v_oom s') s)).
Proof. apply vget_vput_run. Qed.
End VnodeLaws.
End Vnode.
