(* ===== verification/Ramfs.v ===== *)
(** * The RAM file system ([fs/ramfs/ramfs.c])

    Inodes with their page of memory, the [fs_ops_t] entry points and the vnode
    operations.  A pointer to an inode is its slot in [rfs_inodes], which is
    where it is from its allocation until it is freed.  The page of a directory
    is its array of 128 entries, a file's its 4096 bytes; names are the bytes of
    the 28-byte array [rd_name]. *)

From Stdlib Require Import ZArith Lia.
From stdpp Require Import base list gmap.
From S2P Require Import Prelude KString Vnode.

Module Ramfs.
Import KString Vnode.
Local Open Scope Z_scope.

Definition PAGE_SIZE : Z := 4096.
Definition NAME_LEN : Z := 28.
Definition RAMFS_MAX_FILES : nat := 64.
Definition RAMFS_MAX_DIRENT : nat := 128.
Definition DIRENT_SIZE : Z := 32.

Definition RAMFS_TYPE_DATA : Z := 0.
Definition RAMFS_TYPE_DIR : Z := 1.
Definition RAMFS_TYPE_CHR : Z := 2.
Definition RAMFS_TYPE_BLK : Z := 3.

(** [ramfs_dirent_t] *)
Record dirent := Dirent { rd_ino : Z; rd_name : list Z }.

(** What [rf_mem] points to (a device number for special files). *)
Inductive rfmem := MemDir (ents : list dirent) | MemData (bytes : list Z) | MemDev (devid : Z).

(** [ramfs_inode_t] *)
Record inode := Inode {
  rf_size : Z;
  rf_ino : Z;
  rf_mem : rfmem;
  rf_mode : Z;
  rf_linkcount : Z
}.

Definition i_link (n : Z) (x : inode) : inode := Inode (rf_size x) (rf_ino x) (rf_mem x) (rf_mode x) n.
Definition i_size (n : Z) (x : inode) : inode := Inode n (rf_ino x) (rf_mem x) (rf_mode x) (rf_linkcount x).
Definition i_mem (m : rfmem) (x : inode) : inode := Inode (rf_size x) (rf_ino x) m (rf_mode x) (rf_linkcount x).

(** [ramfs_t] *)
Abbreviation ramfs := (list (option inode)).

Definition slot (i : ramfs) (n : Z) : option inode :=
  if n <? 0 then None else match i !! Z.to_nat n with Some (Some x) => Some x | _ => None end.
Definition set_slot (n : Z) (x : option inode) (i : ramfs) : ramfs := <[Z.to_nat n := x]> i.

(** ** [fs_ops_t] *)
Definition ramfs_read_vnode (vno : Z) : kern ramfs vattr := fun i =>
  if negb ((0 <=? vno) && (vno <? Z.of_nat RAMFS_MAX_FILES)) then Stuck
  else match slot i vno with
  | None => Panic
  | Some inode =>
      (kassert (rf_ino inode =? vno) ;;
       modify (set_slot vno (Some (i_link (rf_linkcount inode + 1) inode))) ;;
       let devid := match rf_mem inode with MemDev d => d | _ => 0 end in
       if rf_mode inode =? RAMFS_TYPE_DATA then
         ret (Vattr RamfsFileVops S_IFREG (rf_size inode) vno 0)
       else if rf_mode inode =? RAMFS_TYPE_DIR then
         ret (Vattr RamfsDirVops S_IFDIR (rf_size inode) vno 0)
       else if rf_mode inode =? RAMFS_TYPE_CHR then
         ret (Vattr NullOps S_IFCHR (rf_size inode) vno devid)
       else if rf_mode inode =? RAMFS_TYPE_BLK then
         ret (Vattr NullOps S_IFBLK (rf_size inode) vno devid)
       else panic) i
  end.

Definition ramfs_delete_vnode (vno : Z) : kern ramfs unit := fun i =>
  match slot i vno with
  | None => Stuck
  | Some inode =>
      let n := rf_linkcount inode - 1 in
      if n =? 0 then Done tt (set_slot vno None i)
      else Done tt (set_slot vno (Some (i_link n inode)) i)
  end.

Definition ramfs_query_vnode (vno : Z) : kern ramfs bool := fun i =>
  match slot i vno with
  | None => Stuck
  | Some inode => Done (1 <? rf_linkcount inode) i
  end.

#[export] Instance ramfs_ops : FsOps ramfs := {
  fs_read_vnode := ramfs_read_vnode;
  fs_delete_vnode := ramfs_delete_vnode;
  fs_query_vnode := ramfs_query_vnode
}.

Abbreviation vst := (vstate ramfs).
Abbreviation V := (kern vst).

(** ** Names and directory entries *)

(** [strncpy(buf, name, MIN(len, NAME_LEN - 1)); buf[MIN(...)] = '\0'] *)
Definition store_name (buf name : list Z) (len : Z) : option (list Z) :=
  let m := Z.to_nat (Z.min len (NAME_LEN - 1)) in
  b ← strncpy buf name m; Some (<[m := 0]> b).

(** The first entry that matches the name. *)
Fixpoint find_entry (ents : list dirent) (name : list Z) (len : Z) : option (option nat) :=
  match ents with
  | [] => Some None
  | e :: ents =>
      b ← name_match (rd_name e) name (Z.to_nat len);
      if b : bool then Some (Some 0%nat)
      else r ← find_entry ents name len; Some (option_map S r)
  end.

(** [!entry->rd_name[0]] *)
Definition is_free (e : dirent) : bool := default 0 (rd_name e !! 0%nat) =? 0.

Fixpoint find_free (ents : list dirent) : option nat :=
  match ents with
  | [] => None
  | e :: ents => if is_free e then Some 0%nat else S <$> find_free ents
  end.

(** ** Inodes behind vnodes *)

(** [VNODE_TO_RAMFSINODE] *)
Definition get_inode (v : Z) : V (Z * inode) :=
  let* vn := get_vnode v in
  let* n := deref (vn_i vn) in
  let* i := gets v_fs in
  let* x := deref (slot i n) in
  ret (n, x).

Definition set_inode (n : Z) (f : inode -> inode) : V unit :=
  let* i := gets v_fs in
  let* x := deref (slot i n) in
  modify (upd_fs (set_slot n (Some (f x)))).

(** [VNODE_TO_DIRENT] *)
Definition get_dirents (v : Z) : V (Z * list dirent) :=
  let* r := get_inode v in
  match rf_mem (snd r) with
  | MemDir ents => ret (fst r, ents)
  | _ => stuck
  end.

(** The array of entries of directory inode [n], changed in place. *)
Definition set_dirents (n : Z) (f : list dirent -> list dirent) : V unit :=
  let* i := gets v_fs in
  let* x := deref (slot i n) in
  match rf_mem x with
  | MemDir ents => modify (upd_fs (set_slot n (Some (i_mem (MemDir (f ents)) x))))
  | _ => stuck
  end.

Definition zero_dirent : dirent := Dirent 0 (replicate (Z.to_nat NAME_LEN) 0).
Definition zero_dir : list dirent := replicate RAMFS_MAX_DIRENT zero_dirent.
Definition zero_page : list Z := replicate (Z.to_nat PAGE_SIZE) 0.

(** ** [ramfs_alloc_inode] *)
Fixpoint first_empty (i : ramfs) : option nat :=
  match i with
  | [] => None
  | None :: _ => Some 0%nat
  | Some _ :: i => S <$> first_empty i
  end.

Definition ramfs_alloc_inode (type devid : Z) : V Z :=
  kassert ((type =? RAMFS_TYPE_DATA) || (type =? RAMFS_TYPE_DIR) ||
           (type =? RAMFS_TYPE_CHR) || (type =? RAMFS_TYPE_BLK)) ;;
  let* i := gets v_fs in
  match first_empty i with
  | None => ret (- ENOSPC)
  | Some n =>
      let n := Z.of_nat n in
      let* inode := slab_alloc in
      match inode with
      | None => ret (- ENOSPC)
      | Some _ =>
          let* mem :=
            (if (type =? RAMFS_TYPE_CHR) || (type =? RAMFS_TYPE_BLK) then ret (Some (MemDev devid))
             else
               let* page := slab_alloc in
               match page with
               | None => ret None
               | Some _ => ret (Some (if type =? RAMFS_TYPE_DIR then MemDir zero_dir else MemData zero_page))
               end) in
          match mem with
          | None => ret (- ENOSPC)
          | Some mem =>
              modify (upd_fs (set_slot n (Some (Inode 0 n mem type 1)))) ;;
              ret n
          end
      end
  end.

(** The names ["."] and [".."] stored by [strcpy] in a cleared entry. *)
Definition dot : list Z := [46; 0].
Definition dotdot : list Z := [46; 46; 0].
Definition dot_entry (ino : Z) : dirent :=
  Dirent ino (default [] (strcpy (rd_name zero_dirent) dot)).
Definition dotdot_entry (ino : Z) : dirent :=
  Dirent ino (default [] (strcpy (rd_name zero_dirent) dotdot)).

Section Ops.
Context `{Devs}.

(** ** Mounting *)
Definition ramfs_mount : V Z :=
  let* rfs := slab_alloc in
  match rfs with
  | None => ret (- ENOMEM)
  | Some _ =>
      modify (upd_fs (fun _ => replicate RAMFS_MAX_FILES None)) ;;
      let* root_ino := ramfs_alloc_inode RAMFS_TYPE_DIR 0 in
      if root_ino <? 0 then ret root_ino
      else
        kassert (root_ino =? 0) ;;
        set_dirents 0 (fun ents => <[1%nat := dotdot_entry 0]> (<[0%nat := dot_entry 0]> ents)) ;;
        set_inode 0 (i_size (2 * DIRENT_SIZE)) ;;
        let* v := vget 0 in
        modify (set_root (Some v)) ;;
        ret 0
  end.

Definition ramfs_umount : V Z :=
  let* root := gets vfs_root_vn in
  vput root ;;
  modify (upd_fs (fun _ => replicate RAMFS_MAX_FILES None)) ;;
  ret 0.

(** ** Directories *)

(** [*result] is set only when the return value is 0. *)
Definition ramfs_lookup (dir : Z) (name : list Z) (namelen : Z) : V (Z * option Z) :=
  let* d := get_dirents dir in
  let* r := deref (find_entry (snd d) name namelen) in
  match r with
  | Some k =>
      let* e := deref (snd d !! k) in
      let* v := vget (rd_ino e) in
      ret (0, Some v)
  | None => ret (- ENOENT, None)
  end.

(** Filling in entry [k] of the directory inode [n]. *)
Definition set_entry (n : Z) (k : nat) (ino : Z) (name : list Z) (len : Z) : V unit :=
  let* i := gets v_fs in
  let* x := deref (slot i n) in
  match rf_mem x with
  | MemDir ents =>
      let* e := deref (ents !! k) in
      let* nm := deref (store_name (rd_name e) name len) in
      set_dirents n (<[k := Dirent ino nm]>)
  | _ => stuck
  end.

Definition ramfs_create (dir : Z) (name : list Z) (name_len : Z) : V (Z * option Z) :=
  let* r := ramfs_lookup dir name name_len in
  kassert (negb (fst r =? 0)) ;;
  let* d := get_dirents dir in
  match find_free (snd d) with
  | None => ret (- ENOSPC, None)
  | Some k =>
      let* ino := ramfs_alloc_inode RAMFS_TYPE_DATA 0 in
      if ino <? 0 then ret (ino, None)
      else
        let* v := vget ino in
        let* vn := get_vnode v in
        set_entry (fst d) k (vn_vno vn) name name_len ;;
        set_inode (fst d) (fun x => i_size (rf_size x + DIRENT_SIZE) x) ;;
        ret (0, Some v)
  end.

Definition ramfs_mknod (dir : Z) (name : list Z) (name_len mode devid : Z) : V Z :=
  let* r := ramfs_lookup dir name name_len in
  kassert (negb (fst r =? 0)) ;;
  let* d := get_dirents dir in
  match find_free (snd d) with
  | None => ret (- ENOSPC)
  | Some k =>
      let* ino :=
        (if S_ISCHR mode then ramfs_alloc_inode RAMFS_TYPE_CHR devid
         else if S_ISBLK mode then ramfs_alloc_inode RAMFS_TYPE_BLK devid
         else panic) in
      if ino <? 0 then ret ino
      else
        set_entry (fst d) k ino name name_len ;;
        set_inode (fst d) (fun x => i_size (rf_size x + DIRENT_SIZE) x) ;;
        ret 0
  end.

Definition ramfs_link (oldvnode dir : Z) (name : list Z) (name_len : Z) : V Z :=
  let* r := ramfs_lookup dir name name_len in
  kassert (negb (fst r =? 0)) ;;
  let* d := get_dirents dir in
  match find_free (snd d) with
  | None => ret (- ENOSPC)
  | Some k =>
      let* old := get_vnode oldvnode in
      set_entry (fst d) k (vn_vno old) name name_len ;;
      set_inode (fst d) (fun x => i_size (rf_size x + DIRENT_SIZE) x) ;;
      let* o := get_inode oldvnode in
      set_inode (fst o) (fun x => i_link (rf_linkcount x + 1) x) ;;
      ret 0
  end.

(** [entry->rd_name[0] = '\0'] for the first entry that matches; nothing if none
    does. *)
Definition clear_entry (n : Z) (name : list Z) (len : Z) : V unit :=
  let* i := gets v_fs in
  let* x := deref (slot i n) in
  match rf_mem x with
  | MemDir ents =>
      let* r := deref (find_entry ents name len) in
      match r with
      | Some k =>
          let* e := deref (ents !! k) in
          set_dirents n (<[k := Dirent (rd_ino e) (<[0%nat := 0]> (rd_name e))]>)
      | None => ret tt
      end
  | _ => stuck
  end.

Definition ramfs_unlink (dir : Z) (name : list Z) (namelen : Z) : V Z :=
  let* r := ramfs_lookup dir name namelen in
  kassert (fst r =? 0) ;;
  let* v := deref (snd r) in
  let* vn := get_vnode v in
  kassert (negb (S_ISDIR (vn_mode vn))) ;;
  let* d := get_inode dir in
  clear_entry (fst d) name namelen ;;
  set_inode (fst d) (fun x => i_size (rf_size x - DIRENT_SIZE) x) ;;
  let* o := get_inode v in
  set_inode (fst o) (fun x => i_link (rf_linkcount x - 1) x) ;;
  vput (Some v) ;;
  ret 0.

Definition ramfs_mkdir (dir : Z) (name : list Z) (name_len : Z) : V Z :=
  let* r := ramfs_lookup dir name name_len in
  kassert (negb (fst r =? 0)) ;;
  let* d := get_dirents dir in
  match find_free (snd d) with
  | None => ret (- ENOSPC)
  | Some k =>
      let* ino := ramfs_alloc_inode RAMFS_TYPE_DIR 0 in
      if ino <? 0 then ret ino
      else
        set_entry (fst d) k ino name name_len ;;
        set_inode (fst d) (fun x => i_size (rf_size x + DIRENT_SIZE) x) ;;
        let* dvn := get_vnode dir in
        set_dirents ino (fun ents =>
          <[1%nat := dotdot_entry (vn_vno dvn)]> (<[0%nat := dot_entry ino]> ents)) ;;
        set_inode ino (i_size (2 * DIRENT_SIZE)) ;;
        ret 0
  end.

(** The test for emptiness: no named entry but the two dots. *)
Fixpoint dir_empty (ents : list dirent) : option bool :=
  match ents with
  | [] => Some true
  | e :: ents =>
      c1 ← strcmp (rd_name e) dot;
      if c1 =? 0 then dir_empty ents
      else
        c2 ← strcmp (rd_name e) dotdot;
        if c2 =? 0 then dir_empty ents
        else if is_free e then dir_empty ents else Some false
  end.

Definition ramfs_rmdir (dir : Z) (name : list Z) (name_len : Z) : V Z :=
  let* b1 := deref (name_match dot name (Z.to_nat name_len)) in
  let* b2 := deref (name_match dotdot name (Z.to_nat name_len)) in
  kassert (negb b1 && negb b2) ;;
  let* r := ramfs_lookup dir name name_len in
  if negb (fst r =? 0) then ret (fst r)
  else
    let* v := deref (snd r) in
    let* vn := get_vnode v in
    if negb (S_ISDIR (vn_mode vn)) then vput (Some v) ;; ret (- ENOTDIR)
    else
      let* vd := get_dirents v in
      let* empty := deref (dir_empty (snd vd)) in
      if negb empty then vput (Some v) ;; ret (- ENOTEMPTY)
      else
        let* d := get_inode dir in
        clear_entry (fst d) name name_len ;;
        set_inode (fst d) (fun x => i_size (rf_size x - DIRENT_SIZE) x) ;;
        let* o := get_inode v in
        set_inode (fst o) (fun x => i_link (rf_linkcount x - 1) x) ;;
        vput (Some v) ;;
        ret 0.

(** ** Data *)

(** The number of bytes read and the bytes. *)
Definition ramfs_read (file offset count : Z) : V (Z * list Z) :=
  let* r := get_inode file in
  let* vn := get_vnode file in
  kassert (negb (S_ISDIR (vn_mode vn))) ;;
  let n := Z.max 0 (Z.min (s32 count) (rf_size (snd r) - offset)) in
  if n =? 0 then ret (0, [])
  else match rf_mem (snd r) with
       | MemData bytes =>
           if (0 <=? offset) && (offset + n <=? PAGE_SIZE)
           then ret (n, take (Z.to_nat n) (drop (Z.to_nat offset) bytes))
           else stuck
       | _ => stuck
       end.

(** [buf] holds at least [count] bytes. *)
Definition ramfs_write (file offset : Z) (buf : list Z) (count : Z) : V Z :=
  let* r := get_inode file in
  let* vn := get_vnode file in
  kassert (negb (S_ISDIR (vn_mode vn))) ;;
  let n := Z.min (s32 count) (PAGE_SIZE - offset) in
  (if n =? 0 then ret tt
   else match rf_mem (snd r) with
        | MemData bytes =>
            if (0 <=? offset) && (0 <=? n) && (n <=? Z.of_nat (length buf))
            then set_inode (fst r) (fun x => i_mem (MemData
                   (take (Z.to_nat offset) bytes ++ take (Z.to_nat n) buf
                      ++ drop (Z.to_nat (offset + n)) bytes)) x)
            else stuck
        | _ => stuck
        end) ;;
  let* x := get_inode file in
  kassert (vn_len vn =? rf_size (snd x)) ;;
  let len := Z.max (vn_len vn) (offset + n) in
  set_vnode file (vn_set_len len) ;;
  set_inode (fst r) (i_size len) ;;
  ret n.

(** The entry [readdir] stops at, at or after index [k], and how many it
    skipped. *)
Fixpoint next_entry (ents : list dirent) : option (nat * dirent) :=
  match ents with
  | [] => None
  | e :: ents =>
      if is_free e
      then match next_entry ents with Some (k, x) => Some (S k, x) | None => None end
      else Some (0%nat, e)
  end.

(** The return value, and the inode number and name put in [*d] ([dname] is the
    array [d->d_name] before the call). *)
Definition ramfs_readdir (dir offset : Z) (dname : list Z) : V (Z * option (Z * list Z)) :=
  let* vn := get_vnode dir in
  kassert (S_ISDIR (vn_mode vn)) ;;
  kassert (u32 offset mod DIRENT_SIZE =? 0) ;;
  let* d := get_dirents dir in
  if offset <? 0 then stuck
  else if offset >=? Z.of_nat RAMFS_MAX_DIRENT * DIRENT_SIZE then ret (0, None)
  else match next_entry (drop (Z.to_nat (offset / DIRENT_SIZE)) (snd d)) with
       | None => ret (0, None)
       | Some (k, e) =>
           let* nm := deref (strncpy dname (rd_name e) (Z.to_nat (NAME_LEN - 1))) in
           ret (DIRENT_SIZE + Z.of_nat k * DIRENT_SIZE,
                Some (rd_ino e, <[Z.to_nat (NAME_LEN - 1) := 0]> nm))
       end.

(** [struct stat]; the fields not listed are 0. *)
Record stat := Stat {
  st_mode : Z; st_ino : Z; st_dev : Z; st_rdev : Z; st_nlink : Z;
  st_size : Z; st_blksize : Z; st_blocks : Z
}.

Definition ramfs_stat (file : Z) : V stat :=
  let* r := get_inode file in
  let* vn := get_vnode file in
  let x := snd r in
  let rdev := if (vn_mode vn =? S_IFCHR) || (vn_mode vn =? S_IFBLK)
              then match rf_mem x with MemDev d => d | _ => 0 end else 0 in
  ret (Stat (vn_mode vn) (vn_vno vn) 0 rdev (rf_linkcount x - 1) (rf_size x) PAGE_SIZE 1).
End Ops.

(** ** The file system keeps its side of the interface *)
Lemma slot_range i n x : slot i n = Some x -> 0 <= n < Z.of_nat (length i).
Proof.
  unfold slot. destruct (Z.ltb_spec n 0); [done|].
  destruct (i !! Z.to_nat n) as [[y|]|] eqn:E; try done. intros _. apply lookup_lt_Some in E. lia.
Qed.

Lemma slot_lookup i n x : slot i n = Some x <-> 0 <= n /\ i !! Z.to_nat n = Some (Some x).
Proof.
  unfold slot. destruct (Z.ltb_spec n 0); [split; [done|lia]|].
  destruct (i !! Z.to_nat n) as [[y|]|]; naive_solver lia.
Qed.

Lemma slot_set_eq i n x : 0 <= n < Z.of_nat (length i) -> slot (set_slot n x i) n = x.
Proof.
  intros ?. unfold slot, set_slot. destruct (Z.ltb_spec n 0); [lia|].
  rewrite list_lookup_insert_eq by lia. by destruct x.
Qed.

Lemma slot_set_ne i n m x : 0 <= n -> n <> m -> slot (set_slot n x i) m = slot i m.
Proof.
  intros ? ?. unfold slot, set_slot. destruct (Z.ltb_spec m 0); [done|].
  by rewrite list_lookup_insert_ne by lia.
Qed.

Lemma set_slot_twice i n x y : set_slot n x (set_slot n y i) = set_slot n x i.
Proof. unfold set_slot. by rewrite list_insert_insert_eq. Qed.

Lemma set_slot_id i n x : slot i n = Some x -> set_slot n (Some x) i = i.
Proof. intros [? ?]%slot_lookup. unfold set_slot. by apply list_insert_id. Qed.

Lemma length_set_slot i n x : length (set_slot n x i) = length i.
Proof. unfold set_slot. apply length_insert. Qed.

Definition inode_ok (v : Z) (x : inode) : bool :=
  (rf_ino x =? v) && (0 <=? rf_mode x) && (rf_mode x <=? 3) && (v <? Z.of_nat RAMFS_MAX_FILES).

Definition ramfs_nlink (i : ramfs) (v : Z) : option Z :=
  match slot i v with
  | Some x => if inode_ok v x then Some (rf_linkcount x) else None
  | None => None
  end.

Lemma ramfs_nlink_Some i v n :
  ramfs_nlink i v = Some n <-> exists x, slot i v = Some x /\ inode_ok v x = true /\ rf_linkcount x = n.
Proof.
  unfold ramfs_nlink. destruct (slot i v) as [x|] eqn:E; [destruct (inode_ok v x) eqn:E2|]; split.
  - intros [= <-]. eauto.
  - by intros (y & [= <-] & _ & <-).
  - done.
  - intros (y & [= <-] & ? & _). congruence.
  - done.
  - by intros (y & ? & _).
Qed.

Lemma ramfs_nlink_ne i v w x : 0 <= v -> w <> v -> ramfs_nlink (set_slot v x i) w = ramfs_nlink i w.
Proof. intros. unfold ramfs_nlink. by rewrite slot_set_ne by done. Qed.

(** What [read_vnode] says of an inode. *)
Definition attr_of (v : Z) (x : inode) : vattr :=
  let devid := match rf_mem x with MemDev d => d | _ => 0 end in
  if rf_mode x =? RAMFS_TYPE_DATA then Vattr RamfsFileVops S_IFREG (rf_size x) v 0
  else if rf_mode x =? RAMFS_TYPE_DIR then Vattr RamfsDirVops S_IFDIR (rf_size x) v 0
  else if rf_mode x =? RAMFS_TYPE_CHR then Vattr NullOps S_IFCHR (rf_size x) v devid
  else Vattr NullOps S_IFBLK (rf_size x) v devid.

Lemma read_vnode_run i v x :
  slot i v = Some x -> inode_ok v x = true ->
  ramfs_read_vnode v i = Done (attr_of v x) (set_slot v (Some (i_link (rf_linkcount x + 1) x)) i).
Proof.
  intros Hs Hok. pose proof (slot_range _ _ _ Hs). unfold inode_ok in Hok.
  apply andb_prop in Hok as [[[H1 H2]%andb_prop H3]%andb_prop H4].
  unfold ramfs_read_vnode. replace (0 <=? v) with true by lia. rewrite H4. cbn [andb negb]. rewrite Hs.
  unfold kassert, bind at 1. rewrite H1. unfold modify, bind, attr_of.
  unfold RAMFS_TYPE_DATA, RAMFS_TYPE_DIR, RAMFS_TYPE_CHR, RAMFS_TYPE_BLK.
  destruct (Z.eqb_spec (rf_mode x) 0); [done|]. destruct (Z.eqb_spec (rf_mode x) 1); [done|].
  destruct (Z.eqb_spec (rf_mode x) 2); [done|]. destruct (Z.eqb_spec (rf_mode x) 3); [done|]. lia.
Qed.

Lemma delete_vnode_run i v x :
  slot i v = Some x ->
  ramfs_delete_vnode v i =
  Done tt (set_slot v (if rf_linkcount x =? 1 then None else Some (i_link (rf_linkcount x - 1) x)) i).
Proof.
  intros Hs. unfold ramfs_delete_vnode. rewrite Hs.
  destruct (Z.eqb_spec (rf_linkcount x - 1) 0), (Z.eqb_spec (rf_linkcount x) 1); try done; lia.
Qed.

#[export] Program Instance ramfs_laws : FsLaws ramfs := { nlink := ramfs_nlink }.
Next Obligation.
  intros i v n (x & Hs & Hok & <-)%ramfs_nlink_Some Hpos. pose proof (slot_range _ _ _ Hs).
  eapply runs_intro; [by apply read_vnode_run|]. split_and!.
  - apply ramfs_nlink_Some. exists (i_link (rf_linkcount x + 1) x). by rewrite slot_set_eq.
  - intros w Hw. apply ramfs_nlink_ne; [lia|done].
  - cbn. erewrite delete_vnode_run by (by rewrite slot_set_eq). cbn [rf_linkcount i_link].
    destruct (Z.eqb_spec (rf_linkcount x + 1) 1); [lia|]. rewrite set_slot_twice.
    replace (rf_linkcount x + 1 - 1) with (rf_linkcount x) by lia.
    f_equal. apply set_slot_id. rewrite Hs. by destruct x.
Qed.
Next Obligation.
  intros i v n (x & Hs & Hok & <-)%ramfs_nlink_Some Hpos. pose proof (slot_range _ _ _ Hs).
  eapply runs_intro; [by apply delete_vnode_run|]. split.
  - unfold ramfs_nlink. rewrite slot_set_eq by done. destruct (rf_linkcount x =? 1); [done|].
    change (inode_ok v (i_link (rf_linkcount x - 1) x)) with (inode_ok v x). by rewrite Hok.
  - intros w Hw. apply ramfs_nlink_ne; [lia|done].
Qed.
Next Obligation.
  intros i v n (x & Hs & Hok & <-)%ramfs_nlink_Some. cbn. unfold ramfs_query_vnode. by rewrite Hs.
Qed.

(** ** File contents *)
Lemma get_inode_run (s : vst) v vn n x :
  v_vnodes s !! v = Some vn -> vn_i vn = Some n -> slot (v_fs s) n = Some x ->
  get_inode v s = Done (n, x) s.
Proof.
  intros Hv Hn Hx. unfold get_inode. krun (get_vnode_run s v vn Hv). rewrite Hn.
  unfold deref at 1, gets, bind at 1 2. rewrite Hx. done.
Qed.

Lemma set_inode_run (s : vst) n x f :
  slot (v_fs s) n = Some x -> set_inode n f s = Done tt (upd_fs (set_slot n (Some (f x))) s).
Proof. intros Hx. unfold set_inode, gets, bind, deref, modify. by rewrite Hx. Qed.

(** [v] is the vnode of a regular file whose inode [n] holds [bytes]. *)
Record data_file (s : vst) (v n : Z) (vn : vnode) (x : inode) (bytes : list Z) : Prop := {
  df_vnode : v_vnodes s !! v = Some vn;
  df_i : vn_i vn = Some n;
  df_mode : S_ISDIR (vn_mode vn) = false;
  df_slot : slot (v_fs s) n = Some x;
  df_mem : rf_mem x = MemData bytes;
  df_bytes : Z.of_nat (length bytes) = PAGE_SIZE;
  df_len : vn_len vn = rf_size x;
  df_size : 0 <= rf_size x <= PAGE_SIZE
}.

(** The page after a write. *)
Definition overwrite (bytes : list Z) (offset : Z) (buf : list Z) : list Z :=
  take (Z.to_nat offset) bytes ++ buf ++ drop (Z.to_nat offset + length buf) bytes.

Lemma overwrite_at bytes offset buf k :
  (Z.to_nat offset <= length bytes)%nat -> k = length buf ->
  take k (drop (Z.to_nat offset) (overwrite bytes offset buf)) = buf.
Proof.
  intros Ho ->. unfold overwrite. rewrite drop_app_length' by (rewrite length_take; lia).
  by rewrite take_app_length'.
Qed.

Lemma read_data s v n vn x bytes offset count :
  data_file s v n vn x bytes -> 0 <= offset -> 0 <= count < 2 ^ 31 ->
  let m := Z.max 0 (Z.min count (rf_size x - offset)) in
  ramfs_read v offset count s = Done (m, take (Z.to_nat m) (drop (Z.to_nat offset) bytes)) s.
Proof.
  intros [Hv Hi Hm Hs Hmem Hlb Hlen Hsz] Ho Hc m. unfold ramfs_read.
  krun (get_inode_run s v vn n x Hv Hi Hs). krun (get_vnode_run s v vn Hv). rewrite Hm.
  unfold kassert, bind at 1. cbn [negb snd]. rewrite s32_small by lia. fold m.
  destruct (Z.eqb_spec m 0) as [->|Hne]; [done|]. rewrite Hmem.
  replace ((0 <=? offset) && (offset + m <=? PAGE_SIZE)) with true; [done|].
  symmetry. apply andb_true_intro. lia.
Qed.

Lemma write_data s v n vn x bytes offset buf :
  data_file s v n vn x bytes -> 0 <= offset <= PAGE_SIZE -> Z.of_nat (length buf) < 2 ^ 31 ->
  let m := Z.min (Z.of_nat (length buf)) (PAGE_SIZE - offset) in
  let len := Z.max (vn_len vn) (offset + m) in
  let bytes' := overwrite bytes offset (take (Z.to_nat m) buf) in
  exists s', ramfs_write v offset buf (Z.of_nat (length buf)) s = Done m s' /\
    data_file s' v n (vn_set_len len vn) (i_size len (i_mem (MemData bytes') x)) bytes' /\
    s' = upd_fs (fun _ => set_slot n (Some (i_size len (i_mem (MemData bytes') x))) (v_fs s))
           (upd_vnodes <[v := vn_set_len len vn]> s).
Proof.
  intros [Hv Hi Hm Hs Hmem Hlb Hlen Hsz] Ho Hc m len bytes'.
  assert (0 <= m) as Hm0 by lia. pose proof (slot_range _ _ _ Hs) as Hr.
  assert (Z.of_nat (length (take (Z.to_nat m) buf)) = m) as Hlt by (rewrite length_take; lia).
  assert (Z.of_nat (length bytes') = PAGE_SIZE) as Hlb'.
  { unfold bytes', overwrite. rewrite !length_app, length_take, length_drop. lia. }
  eexists. split; [|split; [|reflexivity]].
  - unfold ramfs_write. krun (get_inode_run s v vn n x Hv Hi Hs). krun (get_vnode_run s v vn Hv). rewrite Hm.
    unfold kassert at 1, bind at 1. cbn [negb snd fst]. rewrite s32_small by lia. fold m.
    set (s1 := upd_fs (set_slot n (Some (i_mem (MemData bytes') x))) s).
    erewrite bind_done with (a := tt) (s' := s1).
    2:{ destruct (Z.eqb_spec m 0) as [E|Hne].
        - assert (bytes' = bytes) as Eb.
          { unfold bytes', overwrite. rewrite E. change (Z.to_nat 0) with 0%nat.
            rewrite take_0, app_nil_l, Nat.add_0_r. apply take_drop. }
          unfold ret, s1. f_equal. apply vstate_ext; try reflexivity. cbn. rewrite Eb.
          rewrite set_slot_id; [done|]. rewrite Hs. f_equal. clear -Hmem. destruct x; cbn in *; by subst.
        - rewrite Hmem. replace ((0 <=? offset) && (0 <=? m) && (m <=? Z.of_nat (length buf))) with true
            by (symmetry; rewrite !andb_true_iff; lia).
          erewrite set_inode_run by done. unfold s1, bytes', overwrite.
          replace (Z.to_nat (offset + m)) with (Z.to_nat offset + length (take (Z.to_nat m) buf))%nat by lia. done. }
    erewrite bind_done.
    2:{ apply (get_inode_run s1 v vn n); [done|done|]. unfold s1. cbn. by rewrite slot_set_eq. }
    cbn [snd rf_size i_mem]. unfold kassert, bind at 1. rewrite Hlen, Z.eqb_refl. rewrite <- Hlen. fold len.
    erewrite bind_done by (apply set_vnode_run; exact Hv). cbn beta.
    erewrite bind_done.
    2:{ apply set_inode_run. cbn. by rewrite slot_set_eq. }
    unfold ret. f_equal. unfold s1. cbn. apply vstate_ext; try reflexivity. cbn. by rewrite set_slot_twice.
  - split; cbn; try done.
    + apply lookup_insert_eq.
    + by rewrite slot_set_eq.
    + lia.
Qed.

(** What is written to a file is what a later read at the same place returns,
    as long as it fits in the page; bytes past the page are not written, and the
    count returned says so. *)
Theorem ramfs_write_read s v n vn x bytes offset buf :
  data_file s v n vn x bytes -> 0 <= offset <= PAGE_SIZE -> Z.of_nat (length buf) < 2 ^ 31 ->
  let m := Z.min (Z.of_nat (length buf)) (PAGE_SIZE - offset) in
  runs (let* w := ramfs_write v offset buf (Z.of_nat (length buf)) in
        let* r := ramfs_read v offset (Z.of_nat (length buf)) in ret (w, r)) s
    (fun r _ => r = (m, (m, take (Z.to_nat m) buf))).
Proof.
  intros Hd Ho Hc m. destruct (write_data s v n vn x bytes offset buf Hd Ho Hc) as (s' & Ew & Hd' & _).
  fold m in Ew, Hd'.
  apply runs_bind. eapply runs_intro; [exact Ew|].
  apply runs_bind. eapply runs_intro; [eapply read_data; [exact Hd'|lia|lia]|].
  cbn [rf_size i_size]. apply runs_ret.
  assert (Z.max 0 (Z.min (Z.of_nat (length buf)) (Z.max (vn_len vn) (offset + m) - offset)) = m) as ->.
  { pose proof (df_len _ _ _ _ _ _ Hd). pose proof (df_size _ _ _ _ _ _ Hd). lia. }
  do 2 f_equal. apply overwrite_at; [pose proof (df_bytes _ _ _ _ _ _ Hd); lia|rewrite length_take; lia].
Qed.

End Ramfs.
