(* ===== verification/RamfsSpec.v ===== *)
(** * Directories and link counts of the RAM file system

    A directory is a partial function from names to inode numbers; the link
    count of an inode is the number of names it has, plus one for the root, plus
    one while its vnode is in memory.  The invariant is stated with a debt
    [d n], the links of [n] an operation in progress still has to account for. *)

From Stdlib Require Import ZArith Lia.
From stdpp Require Import base list gmap.
From S2P Require Import Prelude KString Vnode Ramfs.

Module RamfsSpec.
Import KString Vnode Ramfs.
Local Open Scope Z_scope.

(** ** Names *)

(** The C string at the start of an array. *)
Fixpoint cname (b : list Z) : list Z :=
  match b with
  | [] => []
  | c :: b => if c =? 0 then [] else c :: cname b
  end.

Lemma cname_split b : 0 ∈ b -> exists r, b = cname b ++ 0 :: r /\ 0 ∉ cname b.
Proof.
  induction b as [|c b IH]; [by intros ?%elem_of_nil|]. cbn. destruct (Z.eqb_spec c 0) as [->|Hc].
  - intros _. exists b. split; [done|apply not_elem_of_nil].
  - intros [?|Hin]%elem_of_cons; [congruence|]. destruct (IH Hin) as (r & E & Hn). exists r.
    split; [by rewrite <- app_comm_cons, <- E|]. apply not_elem_of_cons. done.
Qed.

Lemma cname_app f r : 0 ∉ f -> cname (f ++ 0 :: r) = f.
Proof.
  induction f as [|c f IH]; [done|]. intros [? ?]%not_elem_of_cons. cbn.
  destruct (Z.eqb_spec c 0); [congruence|]. by rewrite IH.
Qed.

Record dirent_wf (e : dirent) : Prop := {
  dw_len : length (rd_name e) = Z.to_nat NAME_LEN;
  dw_nul : 0 ∈ rd_name e;
  dw_char : Forall is_char (cname (rd_name e))
}.

Lemma find_entry_run ents name len :
  Forall dirent_wf ents -> Forall is_char name -> (Z.to_nat len <= length name)%nat ->
  find_entry ents name len =
  Some (fst <$> list_find (fun e => cname (rd_name e) = take (Z.to_nat len) name) ents).
Proof.
  intros Hwf Hc Hl. induction Hwf as [|e ents He _ IH]; [done|]. cbn [find_entry list_find].
  destruct (cname_split (rd_name e)) as (r & E & Hn); [apply He|].
  rewrite E at 1. rewrite name_match_spec by (done || apply He). cbn [mbind option_bind].
  destruct (decide (cname (rd_name e) = take (Z.to_nat len) name)) as [Hd|Hd].
  - by rewrite bool_decide_eq_true_2.
  - rewrite bool_decide_eq_false_2 by done. rewrite IH. cbn.
    by destruct (list_find _ ents) as [[? ?]|].
Qed.

Lemma is_free_spec e : dirent_wf e -> is_free e = true <-> cname (rd_name e) = [].
Proof.
  intros [Hl _ _]. unfold is_free. destruct (rd_name e) as [|c b]; [done|]. cbn.
  destruct (c =? 0); split; done.
Qed.

(** The name stored in an entry: the first 27 characters. *)
Lemma store_name_run buf s r len :
  length buf = Z.to_nat NAME_LEN -> 0 ∉ s -> Forall is_char s -> len = Z.of_nat (length s) ->
  exists b, store_name buf (s ++ 0 :: r) len = Some b /\
    cname b = take 27 s /\ (forall ino, dirent_wf (Dirent ino b)).
Proof.
  intros Hl H0 Hc ->. unfold store_name.
  set (m := Z.to_nat (Z.min (Z.of_nat (length s)) (NAME_LEN - 1))).
  assert (m < length buf)%nat as Hm by (rewrite Hl; unfold m, NAME_LEN; lia).
  assert (take m s = take 27 s) as Ht.
  { unfold m, NAME_LEN. destruct (decide (length s <= 27)%nat).
    - rewrite !take_ge by lia. done.
    - f_equal. lia. }
  destruct (strncpy_terminate s r m buf H0 Hm) as (d & rest & E & E' & L).
  exists (<[m := 0]> d). rewrite E. split; [done|]. rewrite E'.
  assert (0 ∉ take m s) as Hn by (by apply not_elem_of_take).
  rewrite cname_app by done. split; [done|]. intros ino. split; cbn.
  - rewrite <- E', length_insert. congruence.
  - apply elem_of_app. right. by left.
  - rewrite cname_app by done. by apply Forall_take.
Qed.

(** ** Counting references *)
Definition counted (e : dirent) : bool :=
  bool_decide (cname (rd_name e) <> [] /\ cname (rd_name e) <> [46] /\ cname (rd_name e) <> [46; 46]).

Definition ref1 (e : dirent) (n : Z) : Z := if counted e && (rd_ino e =? n) then 1 else 0.

Fixpoint dir_refs (ents : list dirent) (n : Z) : Z :=
  match ents with [] => 0 | e :: ents => ref1 e n + dir_refs ents n end.

Definition node_refs (o : option inode) (n : Z) : Z :=
  match o with
  | Some x => match rf_mem x with MemDir ents => dir_refs ents n | _ => 0 end
  | None => 0
  end.

Fixpoint fs_refs (i : ramfs) (n : Z) : Z :=
  match i with [] => 0 | o :: i => node_refs o n + fs_refs i n end.

Lemma ref1_nonneg e n : 0 <= ref1 e n.
Proof. unfold ref1. destruct (counted e && _); lia. Qed.

Lemma dir_refs_nonneg ents n : 0 <= dir_refs ents n.
Proof. induction ents as [|e ents IH]; cbn; [lia|]. pose proof (ref1_nonneg e n). lia. Qed.

Lemma node_refs_nonneg o n : 0 <= node_refs o n.
Proof. destruct o as [x|]; cbn; [destruct (rf_mem x); try lia; apply dir_refs_nonneg|lia]. Qed.

Lemma fs_refs_nonneg i n : 0 <= fs_refs i n.
Proof. induction i as [|o i IH]; cbn; [lia|]. pose proof (node_refs_nonneg o n). lia. Qed.

Lemma dir_refs_insert ents k e0 e n :
  ents !! k = Some e0 -> dir_refs (<[k := e]> ents) n = dir_refs ents n - ref1 e0 n + ref1 e n.
Proof.
  revert k. induction ents as [|x ents IH]; intros [|k] Hk; try done.
  - injection Hk as <-. cbn. lia.
  - change (ref1 x n + dir_refs (<[k := e]> ents) n = ref1 x n + dir_refs ents n - ref1 e0 n + ref1 e n).
    rewrite (IH k Hk). lia.
Qed.

Lemma fs_refs_insert i k o0 o n :
  i !! k = Some o0 -> fs_refs (<[k := o]> i) n = fs_refs i n - node_refs o0 n + node_refs o n.
Proof.
  revert k. induction i as [|x i IH]; intros [|k] Hk; try done.
  - injection Hk as <-. cbn. lia.
  - change (node_refs x n + fs_refs (<[k := o]> i) n =
            node_refs x n + fs_refs i n - node_refs o0 n + node_refs o n).
    rewrite (IH k Hk). lia.
Qed.

Lemma slot_refs i m : 0 <= m < Z.of_nat (length i) ->
  exists o, i !! Z.to_nat m = Some o /\ slot i m = o.
Proof.
  intros Hm. unfold slot. destruct (Z.ltb_spec m 0); [lia|].
  destruct (i !! Z.to_nat m) as [o|] eqn:E; [exists o; by destruct o|].
  apply lookup_ge_None in E. lia.
Qed.

Lemma fs_refs_set i m o n :
  0 <= m < Z.of_nat (length i) ->
  fs_refs (set_slot m o i) n = fs_refs i n - node_refs (slot i m) n + node_refs o n.
Proof.
  intros Hm. destruct (slot_refs i m Hm) as (o0 & E & ->). by apply fs_refs_insert.
Qed.

(** ** The invariant *)
Definition held (s : vst) (n : Z) : Z :=
  if bool_decide (Exists (fun v => vn_vno <$> (v_vnodes s !! v) = Some n) (v_inuse s)) then 1 else 0.

Definition root_link (n : Z) : Z := if n =? 0 then 1 else 0.

(** No two entries of a directory have the same name. *)
Definition names_unique (ents : list dirent) : Prop :=
  forall j k e f, ents !! j = Some e -> ents !! k = Some f ->
    cname (rd_name e) = cname (rd_name f) -> cname (rd_name e) <> [] -> j = k.

Definition mem_ok (x : inode) : Prop :=
  match rf_mem x with
  | MemDir ents => rf_mode x = RAMFS_TYPE_DIR /\ length ents = RAMFS_MAX_DIRENT /\
      Forall dirent_wf ents /\ names_unique ents
  | MemData bytes => rf_mode x = RAMFS_TYPE_DATA /\ Z.of_nat (length bytes) = PAGE_SIZE
  | MemDev _ => rf_mode x = RAMFS_TYPE_CHR \/ rf_mode x = RAMFS_TYPE_BLK
  end.

(** A directory with entries is linked itself. *)
Definition rooted (i : ramfs) : Prop :=
  forall d m, 0 < node_refs (slot i d) m -> d = 0 \/ 0 < fs_refs i d.

Record fs_inv (d : Z -> Z) (s : vst) : Prop := {
  fi_vn : vn_wf s;
  fi_len : length (v_fs s) = RAMFS_MAX_FILES;
  fi_i : forall v vn, v_vnodes s !! v = Some vn -> vn_i vn = Some (vn_vno vn);
  fi_node : forall n x, slot (v_fs s) n = Some x -> inode_ok n x = true /\ mem_ok x;
  fi_link : forall n x, slot (v_fs s) n = Some x ->
    rf_linkcount x = fs_refs (v_fs s) n + root_link n + held s n + d n;
  fi_none : forall n, slot (v_fs s) n = None -> fs_refs (v_fs s) n = 0 /\ d n = 0;
  fi_mode : forall v vn x, v_vnodes s !! v = Some vn -> slot (v_fs s) (vn_vno vn) = Some x ->
    vn_mode vn = a_mode (attr_of (vn_vno vn) x);
  fi_root : is_Some (slot (v_fs s) 0);
  fi_rooted : rooted (v_fs s);
  fi_mem : v_oom s = []
}.

Lemma held_in s n v vn : vn_wf s -> in_memory s n v vn -> held s n = 1.
Proof.
  intros Hw [Hv Hn]. unfold held. rewrite bool_decide_eq_true_2; [done|].
  apply Exists_exists. exists v. split; [apply (vw_dom s Hw); eauto|]. rewrite Hv. cbn. congruence.
Qed.

Lemma held_out s n : (forall v vn, ~ in_memory s n v vn) -> held s n = 0.
Proof.
  intros Hno. unfold held. rewrite bool_decide_eq_false_2; [done|].
  intros (v & _ & E)%Exists_exists. apply fmap_Some in E as (vn & Hv & ->). by eapply Hno; split.
Qed.

Lemma held_cases s n :
  vn_wf s -> (exists v vn, in_memory s n v vn) /\ held s n = 1 \/
             (forall v vn, ~ in_memory s n v vn) /\ held s n = 0.
Proof.
  intros Hw. unfold held. destruct (bool_decide_reflect (Exists (fun v => vn_vno <$> (v_vnodes s !! v) = Some n) (v_inuse s)))
    as [HE|HE].
  - left. split; [|done]. apply Exists_exists in HE as (v & _ & E). apply fmap_Some in E as (vn & Hv & ->).
    exists v, vn. by split.
  - right. split; [|done]. intros v vn [Hv Hn]. apply HE, Exists_exists. exists v.
    split; [apply (vw_dom s Hw); eauto|]. rewrite Hv. cbn. congruence.
Qed.

Lemma held_ext s s' n : v_vnodes s' = v_vnodes s -> v_inuse s' = v_inuse s -> held s' n = held s n.
Proof. intros E1 E2. unfold held. by rewrite E1, E2. Qed.

Lemma attr_mode n x x' : rf_mode x = rf_mode x' -> a_mode (attr_of n x) = a_mode (attr_of n x').
Proof.
  intros E. unfold attr_of. rewrite E.
  by destruct (rf_mode x' =? RAMFS_TYPE_DATA), (rf_mode x' =? RAMFS_TYPE_DIR), (rf_mode x' =? RAMFS_TYPE_CHR).
Qed.

(** Replacing one inode. *)
Lemma inv_set d d' s n x x' :
  fs_inv d s -> slot (v_fs s) n = Some x -> inode_ok n x' = true -> mem_ok x' -> 0 < rf_linkcount x' ->
  rf_mode x' = rf_mode x ->
  (forall m, slot (v_fs s) m = None -> node_refs (Some x') m = 0) ->
  (forall m, d' m = d m + (if m =? n then rf_linkcount x' - rf_linkcount x else 0)
                    - (node_refs (Some x') m - node_refs (Some x) m)) ->
  rooted (set_slot n (Some x') (v_fs s)) ->
  fs_inv d' (upd_fs (set_slot n (Some x')) s).
Proof.
  intros [Hvn Hlen Hi Hnode Hlink Hnone Hmode Hroot0 Hroot Hoom] Hx Hok Hmem Hpos Hmd Hex Hd Hroot'.
  pose proof (slot_range _ _ _ Hx) as Hr.
  assert (forall m, fs_refs (set_slot n (Some x') (v_fs s)) m =
            fs_refs (v_fs s) m - node_refs (Some x) m + node_refs (Some x') m) as Hrefs.
  { intros m. rewrite fs_refs_set by done. by rewrite Hx. }
  assert (forall m, slot (set_slot n (Some x') (v_fs s)) m = if m =? n then Some x' else slot (v_fs s) m) as Hsl.
  { intros m. destruct (Z.eqb_spec m n) as [->|]; [by apply slot_set_eq|apply slot_set_ne; [lia|done]]. }
  split; cbn [v_fs upd_fs v_vnodes v_oom]; try done.
  - split; try apply Hvn. cbn. intros v vn Hv. destruct (vw_link s Hvn v vn Hv) as (k & Hk & Hkpos).
    cbn in *. unfold ramfs_nlink in *. rewrite Hsl. destruct (Z.eqb_spec (vn_vno vn) n) as [->|]; [|eauto].
    rewrite Hok. eauto.
  - by rewrite length_set_slot.
  - intros m y. rewrite Hsl. destruct (Z.eqb_spec m n) as [->|]; [intros [= <-]; done|apply Hnode].
  - intros m y. rewrite Hsl, Hrefs, Hd. erewrite (held_ext s) by done.
    destruct (Z.eqb_spec m n) as [->|]; [intros [= <-]|]; [pose proof (Hlink n x Hx); lia|].
    intros Hy. pose proof (Hlink m y Hy). lia.
  - intros m. rewrite Hsl, Hrefs, Hd. destruct (Z.eqb_spec m n) as [->|]; [done|]. intros Hm.
    destruct (Hnone m Hm) as [E1 E2]. pose proof (Hex m Hm) as E3.
    assert (node_refs (Some x) m = 0) as E4; [|lia].
    pose proof (Hrefs m) as E5. pose proof (fs_refs_nonneg (set_slot n None (v_fs s)) m) as E6.
    rewrite fs_refs_set, Hx in E6 by done. pose proof (node_refs_nonneg (Some x) m). cbn [node_refs] in *. lia.
  - intros v vn y Hv. rewrite Hsl. destruct (Z.eqb_spec (vn_vno vn) n) as [E|]; [|by eapply Hmode].
    intros [= <-]. rewrite (Hmode v vn x Hv) by (by rewrite E). by apply attr_mode.
  - rewrite Hsl. by destruct (0 =? n).
Qed.

(** The reference of an existing name is to an existing inode. *)
Lemma refs_exist d s n m :
  fs_inv d s -> 0 < node_refs (slot (v_fs s) n) m -> is_Some (slot (v_fs s) m).
Proof.
  intros Hinv Hp. destruct (slot (v_fs s) m) eqn:E; [done|].
  destruct (fi_none _ _ Hinv m E) as [E1 _].
  destruct (slot (v_fs s) n) as [x|] eqn:Ex; [|cbn in Hp; lia].
  pose proof (slot_range _ _ _ Ex). pose proof (fs_refs_nonneg (set_slot n None (v_fs s)) m) as E6.
  rewrite fs_refs_set, Ex in E6 by done. cbn [node_refs] in *. lia.
Qed.

(** ** References to vnodes *)

(** Inodes keep everything but their link count, and the vnodes of [s] are
    still there up to their reference count. *)
Definition same_nodes (i i' : ramfs) : Prop :=
  forall n x, slot i n = Some x -> exists k, slot i' n = Some (i_link k x).

Record keeps (s s' : vst) : Prop := {
  kp_nodes : same_nodes (v_fs s) (v_fs s');
  kp_refs : forall m, fs_refs (v_fs s') m = fs_refs (v_fs s) m;
  kp_vnodes : forall w wn, v_vnodes s !! w = Some wn ->
    exists r, v_vnodes s' !! w = Some (vn_set_ref r wn) /\ vn_refcount wn <= r;
  kp_rest : v_files s' = v_files s /\ p_files s' = p_files s /\ p_cwd s' = p_cwd s /\
    vfs_root_vn s' = vfs_root_vn s
}.

Section Refs.
Context `{Devs}.

Lemma new_vnode_mode n a : vn_mode (new_vnode n a) = a_mode a /\ vn_i (new_vnode n a) = Some (a_i a).
Proof. unfold new_vnode. by destruct (S_ISCHR (a_mode a)), (S_ISBLK (a_mode a)). Qed.

Lemma attr_of_i n x : a_i (attr_of n x) = n.
Proof.
  unfold attr_of.
  by destruct (rf_mode x =? RAMFS_TYPE_DATA), (rf_mode x =? RAMFS_TYPE_DIR), (rf_mode x =? RAMFS_TYPE_CHR).
Qed.

Lemma fs_refs_link i n x k m : slot i n = Some x ->
  fs_refs (set_slot n (Some (i_link k x)) i) m = fs_refs i m.
Proof. intros Hx. rewrite fs_refs_set by (by eapply slot_range). rewrite Hx. cbn. lia. Qed.

Lemma slot_link i n x k m : slot i n = Some x ->
  slot (set_slot n (Some (i_link k x)) i) m = if m =? n then Some (i_link k x) else slot i m.
Proof.
  intros Hx. pose proof (slot_range _ _ _ Hx). destruct (Z.eqb_spec m n) as [->|].
  - by apply slot_set_eq.
  - apply slot_set_ne; [lia|done].
Qed.

Lemma rooted_link i n x k : slot i n = Some x -> rooted i -> rooted (set_slot n (Some (i_link k x)) i).
Proof.
  intros Hx Hr d m. rewrite slot_link, fs_refs_link by done. destruct (Z.eqb_spec d n) as [->|]; [|apply Hr].
  intros Hp. apply (Hr n m). by rewrite Hx.
Qed.

Lemma same_nodes_link i n x k : slot i n = Some x -> same_nodes i (set_slot n (Some (i_link k x)) i).
Proof.
  intros Hx m y Hy. rewrite slot_link by done. destruct (Z.eqb_spec m n) as [->|].
  - exists k. congruence.
  - exists (rf_linkcount y). rewrite Hy. by destruct y.
Qed.

(** Changing a reference count. *)
Lemma held_ref s v vn r m :
  vn_wf s -> v_vnodes s !! v = Some vn -> held (upd_vnodes <[v := vn_set_ref r vn]> s) m = held s m.
Proof.
  intros Hvn Hv. unfold held. cbn.
  erewrite bool_decide_ext; [done|]. rewrite !Exists_exists. apply exist_proper. intros w.
  destruct (decide (w = v)) as [->|]; [|by rewrite lookup_insert_ne]. by rewrite lookup_insert_eq, Hv.
Qed.

Lemma ref_inv d s v vn r :
  fs_inv d s -> v_vnodes s !! v = Some vn -> 0 < r ->
  fs_inv d (upd_vnodes <[v := vn_set_ref r vn]> s).
Proof.
  intros [Hvn Hlen Hi Hnode Hlink Hnone Hmode Hroot0 Hroot Hoom] Hv Hr.
  assert (forall w wn, v_vnodes (upd_vnodes <[v := vn_set_ref r vn]> s) !! w = Some wn ->
    exists wn0 r, v_vnodes s !! w = Some wn0 /\ wn = vn_set_ref r wn0) as Hold.
  { cbn. intros w wn [[<- <-]|[_ Hw]]%lookup_insert_Some; [eauto|]. exists wn, (vn_refcount wn).
    split; [done|]. by destruct wn. }
  split; cbn [v_fs upd_vnodes v_oom]; try done.
  - by apply set_ref_wf.
  - intros w wn (wn0 & r' & Hw & ->)%Hold. apply (Hi w wn0 Hw).
  - intros m y Hy. rewrite held_ref by done. by apply Hlink.
  - intros w wn y (wn0 & r' & Hw & ->)%Hold Hy. apply (Hmode w wn0 y Hw Hy).
Qed.

Lemma ref_keeps s v vn r :
  v_vnodes s !! v = Some vn -> vn_refcount vn <= r -> keeps s (upd_vnodes <[v := vn_set_ref r vn]> s).
Proof.
  intros Hv Hr. split; [|done|intros w wn Hw|done].
  - intros m y Hy. exists (rf_linkcount y). cbn. rewrite Hy. by destruct y.
  - cbn. destruct (decide (w = v)) as [->|].
    + rewrite lookup_insert_eq. simplify_eq. eauto.
    + rewrite lookup_insert_ne by done. exists (vn_refcount wn). rewrite Hw. split; [by destruct wn|lia].
Qed.

Section BroughtIn.
Context (d : Z -> Z) (s : vst) (n : Z) (x : inode).
Hypothesis Hinv : fs_inv d s.
Hypothesis Hx : slot (v_fs s) n = Some x.
Hypothesis Hno : forall w wn, ~ in_memory s n w wn.
Let x' := i_link (rf_linkcount x + 1) x.
Let s' := brought_in n (attr_of n x) (set_slot n (Some x') (v_fs s)) s.
Hypothesis Hvn' : vn_wf s'.

Lemma brought_new : v_vnodes s' !! v_fresh s = Some (new_vnode n (attr_of n x)).
Proof. apply lookup_insert_eq. Qed.

Lemma brought_old w wn : w <> v_fresh s -> v_vnodes s' !! w = Some wn <-> v_vnodes s !! w = Some wn.
Proof. intros Hne. cbn. by rewrite lookup_insert_ne by done. Qed.

Lemma brought_fresh : v_vnodes s !! v_fresh s = None.
Proof.
  destruct (v_vnodes s !! v_fresh s) eqn:E; [|done].
  destruct (vw_ok s (fi_vn _ _ Hinv) _ _ E) as (_ & _ & _ & ?). lia.
Qed.

Lemma brought_held m : held s' m = held s m + if m =? n then 1 else 0.
Proof.
  destruct (Z.eqb_spec m n) as [->|Hmn].
  - rewrite (held_out s n) by done. eapply held_in; [done|]. split; [exact brought_new|apply new_vnode_vno].
  - destruct (held_cases s m (fi_vn _ _ Hinv)) as [[(w & wn & [Hw Hwno]) ->]|[Hno' ->]].
    + rewrite Z.add_0_r. eapply held_in; [done|]. split; [apply brought_old; [|exact Hw]|done].
      pose proof brought_fresh. congruence.
    + apply held_out. intros w wn [Hw Hwno]. destruct (decide (w = v_fresh s)) as [->|].
      * rewrite brought_new in Hw. injection Hw as <-. by rewrite new_vnode_vno in Hwno.
      * apply brought_old in Hw; [|done]. by eapply Hno'; split.
Qed.

Lemma brought_inv : fs_inv d s'.
Proof.
  pose proof Hinv as [_ Hlen Hi Hnode Hlink Hnone Hmode Hroot0 Hroot Hoom].
  destruct (new_vnode_mode n (attr_of n x)) as [Hnm Hni].
  assert (v_fs s' = set_slot n (Some x') (v_fs s)) as Hfs by done.
  split; rewrite ?Hfs; try done; unfold x'.
  - by rewrite length_set_slot.
  - intros w wn Hw. destruct (decide (w = v_fresh s)) as [->|]; [|by apply (Hi w), brought_old].
    rewrite brought_new in Hw. injection Hw as <-. by rewrite Hni, new_vnode_vno, attr_of_i.
  - intros m y. rewrite slot_link by done. destruct (Z.eqb_spec m n) as [->|]; [|apply Hnode].
    intros [= <-]. destruct (Hnode n x Hx). done.
  - intros m y. rewrite slot_link, fs_refs_link, brought_held by done.
    destruct (Z.eqb_spec m n) as [->|]; [intros [= <-]; cbn; pose proof (Hlink n x Hx); lia|].
    intros Hy. pose proof (Hlink m y Hy). lia.
  - intros m. rewrite slot_link, fs_refs_link by done. destruct (Z.eqb_spec m n); [done|apply Hnone].
  - intros w wn y Hw. rewrite slot_link by done. destruct (decide (w = v_fresh s)) as [->|Hwf].
    + rewrite brought_new in Hw. injection Hw as <-. rewrite new_vnode_vno, Z.eqb_refl, Hnm.
      intros [= <-]. by apply attr_mode.
    + apply brought_old in Hw; [|done]. destruct (Z.eqb_spec (vn_vno wn) n) as [E|]; [|by eapply (Hmode w)].
      exfalso. by eapply Hno; split.
  - rewrite slot_link by done. by destruct (0 =? n).
  - by apply rooted_link.
  - cbn. by rewrite Hoom.
Qed.

Lemma brought_keeps : keeps s s'.
Proof.
  split; [by apply same_nodes_link|intros m; by apply fs_refs_link|intros w wn Hw|done].
  exists (vn_refcount wn). split; [|lia]. apply brought_old; [pose proof brought_fresh; congruence|].
  rewrite Hw. by destruct wn.
Qed.
End BroughtIn.

(** [vget] keeps the invariant: the link its vnode takes is accounted for. *)
Lemma vget_inv d s n x :
  fs_inv d s -> slot (v_fs s) n = Some x -> 0 < rf_linkcount x ->
  runs (vget n) s (fun v s' => fs_inv d s' /\ keeps s s' /\
    exists vn, v_vnodes s' !! v = Some vn /\ vn_vno vn = n /\
      vn_refcount vn = 1 + match v_vnodes s !! v with Some wn => vn_refcount wn | None => 0 end).
Proof.
  intros Hinv Hx Hpos. pose proof (fi_vn _ _ Hinv) as Hvn.
  destruct (fi_node _ _ Hinv n x Hx) as [Hok Hmem].
  assert (nlink (v_fs s) n = Some (rf_linkcount x)) as Hn.
  { cbn. unfold ramfs_nlink. by rewrite Hx, Hok. }
  eapply runs_mono; [eapply vget_run; [done|exact Hn|done|by rewrite (fi_mem _ _ Hinv)]|].
  intros v s' (Hvn' & [(vn & [Hv Hvno] & ->)|(a & i & Hno & -> & -> & Hrd & _)]).
  - destruct (vw_ok s Hvn v vn Hv) as (Hr & _). split_and!; [apply ref_inv; done || lia|apply ref_keeps; done || lia|].
    exists (vn_set_ref (vn_refcount vn + 1) vn). cbn. rewrite lookup_insert_eq, Hv. split_and!; try done. lia.
  - pose proof (read_vnode_run _ _ _ Hx Hok) as Hrd'.
    change (fs_read_vnode n (v_fs s)) with (ramfs_read_vnode n (v_fs s)) in Hrd.
    rewrite Hrd' in Hrd. injection Hrd as <- <-.
    split_and!; [by apply brought_inv|by eapply brought_keeps|].
    exists (new_vnode n (attr_of n x)). rewrite brought_new, (brought_fresh d) by done.
    split_and!; [done|apply new_vnode_vno|]. by destruct (new_vnode_ok n (attr_of n x)) as (-> & _).
Qed.
(** What the last reference to [v] takes away. *)
Definition dropped (n : Z) (x : inode) (i : ramfs) : ramfs :=
  set_slot n (if rf_linkcount x =? 1 then None else Some (i_link (rf_linkcount x - 1) x)) i.

Section Dropped.
Context (d : Z -> Z) (s : vst) (v : Z) (vn : vnode) (x : inode).
Hypothesis Hinv : fs_inv d s.
Hypothesis Hd : forall m, 0 <= d m.
Hypothesis Hv : v_vnodes s !! v = Some vn.
Hypothesis Hx : slot (v_fs s) (vn_vno vn) = Some x.

Lemma drop_link_count : rf_linkcount x = fs_refs (v_fs s) (vn_vno vn) + root_link (vn_vno vn) + 1 + d (vn_vno vn).
Proof.
  rewrite (fi_link _ _ Hinv _ _ Hx). erewrite (held_in s); [done|apply Hinv|by split].
Qed.

(** An inode that is freed has no names and no entries. *)
Lemma drop_free_empty m : rf_linkcount x = 1 -> node_refs (Some x) m = 0.
Proof.
  intros E. pose proof drop_link_count as Hl. pose proof (fs_refs_nonneg (v_fs s) (vn_vno vn)).
  pose proof (Hd (vn_vno vn)). unfold root_link in Hl.
  destruct (decide (0 < node_refs (Some x) m)) as [Hp|]; [|pose proof (node_refs_nonneg (Some x) m); lia].
  destruct (Z.eqb_spec (vn_vno vn) 0); [lia|].
  destruct (fi_rooted _ _ Hinv (vn_vno vn) m); [by rewrite Hx|done|lia].
Qed.

Lemma drop_refs m : fs_refs (dropped (vn_vno vn) x (v_fs s)) m = fs_refs (v_fs s) m.
Proof.
  unfold dropped. rewrite fs_refs_set, Hx by (by eapply slot_range).
  destruct (Z.eqb_spec (rf_linkcount x) 1) as [E|]; [rewrite (drop_free_empty m E)|]; cbn; lia.
Qed.

Lemma drop_slot m :
  slot (dropped (vn_vno vn) x (v_fs s)) m =
  if m =? vn_vno vn then (if rf_linkcount x =? 1 then None else Some (i_link (rf_linkcount x - 1) x))
  else slot (v_fs s) m.
Proof.
  pose proof (slot_range _ _ _ Hx). unfold dropped. destruct (Z.eqb_spec m (vn_vno vn)) as [->|].
  - by apply slot_set_eq.
  - apply slot_set_ne; [lia|done].
Qed.

Let s' := thrown_out v (dropped (vn_vno vn) x (v_fs s)) s.

Lemma drop_vnodes w : v_vnodes s' !! w = if decide (w = v) then None else v_vnodes s !! w.
Proof. cbn. destruct (decide (w = v)) as [->|]; [apply lookup_delete_eq|by apply lookup_delete_ne]. Qed.

Lemma drop_held m : vn_wf s' -> held s' m = held s m - if m =? vn_vno vn then 1 else 0.
Proof.
  intros Hw'. pose proof (fi_vn _ _ Hinv) as Hvn. destruct (Z.eqb_spec m (vn_vno vn)) as [->|Hm].
  - rewrite (held_in s _ v vn) by (done || by split). apply held_out. intros w wn [Hw Hwno].
    rewrite drop_vnodes in Hw. destruct (decide (w = v)) as [->|Hne]; [done|].
    apply Hne. eapply vw_vno; eauto.
  - destruct (held_cases s m Hvn) as [[(w & wn & [Hw Hwno]) ->]|[Hno ->]].
    + rewrite Z.sub_0_r. apply (held_in s' m w wn); [done|]. split; [|exact Hwno].
      rewrite drop_vnodes. destruct (decide (w = v)) as [->|]; [|exact Hw]. simplify_eq.
    + apply held_out. intros w wn [Hw Hwno]. rewrite drop_vnodes in Hw.
      destruct (decide (w = v)); [done|]. by eapply Hno; split.
Qed.

Lemma dropped_inv : vn_wf s' -> fs_inv d s'.
Proof.
  intros Hw'. pose proof Hinv as [Hvn Hlen Hi Hnode Hlink Hnone Hmode Hroot0 Hroot Hoom].
  assert (v_fs s' = dropped (vn_vno vn) x (v_fs s)) as Hfs by done.
  split; rewrite ?Hfs; try done.
  - unfold dropped. by rewrite length_set_slot.
  - intros w wn. rewrite drop_vnodes. destruct (decide (w = v)); [done|apply Hi].
  - intros m y. rewrite drop_slot. destruct (Z.eqb_spec m (vn_vno vn)) as [->|]; [|apply Hnode].
    destruct (rf_linkcount x =? 1); [done|]. intros [= <-]. by destruct (Hnode _ _ Hx).
  - intros m y. rewrite drop_slot, drop_refs, drop_held by done.
    destruct (Z.eqb_spec m (vn_vno vn)) as [->|]; [|intros Hy; rewrite Z.sub_0_r; by apply Hlink].
    destruct (rf_linkcount x =? 1); [done|]. intros [= <-]. cbn. rewrite (Hlink _ _ Hx). lia.
  - intros m. rewrite drop_slot, drop_refs. destruct (Z.eqb_spec m (vn_vno vn)) as [->|]; [|apply Hnone].
    destruct (Z.eqb_spec (rf_linkcount x) 1); [|done]. intros _. pose proof drop_link_count as Hl.
    pose proof (fs_refs_nonneg (v_fs s) (vn_vno vn)). pose proof (Hd (vn_vno vn)). unfold root_link in Hl.
    destruct (vn_vno vn =? 0); lia.
  - intros w wn y. rewrite drop_vnodes. destruct (decide (w = v)) as [|Hne]; [done|]. intros Hw.
    rewrite drop_slot. destruct (Z.eqb_spec (vn_vno wn) (vn_vno vn)) as [E|]; [|by eapply Hmode].
    exfalso. apply Hne. eapply vw_vno; eauto.
  - rewrite drop_slot. destruct (Z.eqb_spec 0 (vn_vno vn)) as [E0|]; [|done].
    pose proof drop_link_count as Hl. pose proof (fs_refs_nonneg (v_fs s) (vn_vno vn)).
    pose proof (Hd (vn_vno vn)). rewrite <- E0 in Hl at 2. change (root_link 0) with 1 in Hl.
    destruct (Z.eqb_spec (rf_linkcount x) 1); [lia|done].
  - intros e m. rewrite drop_slot, drop_refs. destruct (Z.eqb_spec e (vn_vno vn)) as [->|]; [|apply Hroot].
    destruct (rf_linkcount x =? 1); [cbn; lia|]. intros Hp. apply (Hroot _ m). by rewrite Hx.
Qed.
End Dropped.

(** [vput] keeps the invariant. *)
Lemma vput_inv d s v vn :
  fs_inv d s -> (forall m, 0 <= d m) -> v_vnodes s !! v = Some vn ->
  runs (vput (Some v)) s (fun _ s' => fs_inv d s' /\
    ((1 < vn_refcount vn /\ s' = upd_vnodes <[v := vn_set_ref (vn_refcount vn - 1) vn]> s) \/
     (vn_refcount vn = 1 /\ exists x, slot (v_fs s) (vn_vno vn) = Some x /\
        s' = thrown_out v (dropped (vn_vno vn) x (v_fs s)) s))).
Proof.
  intros Hinv Hd Hv. pose proof (fi_vn _ _ Hinv) as Hvn.
  destruct (vw_ok s Hvn v vn Hv) as (Hr & _).
  destruct (vw_link s Hvn v vn Hv) as (k & (x & Hx & Hok & <-)%ramfs_nlink_Some & Hpos).
  pose proof (vput_run s v vn Hvn Hv) as E. destruct (Z.ltb_spec 1 (vn_refcount vn)).
  - eapply runs_intro; [exact E|]. split; [apply ref_inv; done || lia|by left].
  - change (fs_delete_vnode (vn_vno vn) (v_fs s)) with (ramfs_delete_vnode (vn_vno vn) (v_fs s)) in E.
    rewrite (delete_vnode_run _ _ _ Hx) in E. eapply runs_intro; [exact E|].
    split; [|right; split; [lia|eauto]]. apply dropped_inv; try done.
    eapply thrown_out_wf; [done|done|]. intros w Hw. cbn.
    unfold ramfs_nlink, dropped. by rewrite slot_set_ne by (pose proof (slot_range _ _ _ Hx); lia || done).
Qed.
End Refs.

(** ** Directories as sets of names *)
Definition entry_in (ents : list dirent) (nm : list Z) (ino : Z) : Prop :=
  exists k e, ents !! k = Some e /\ cname (rd_name e) = nm /\ rd_ino e = ino.

(** A name as it is passed to the vnode operations: an ordinary name of at most
    27 characters, in a buffer with its terminator and something behind it. *)
Record name_arg (nm name : list Z) (len : Z) : Prop := {
  na_buf : exists r, name = nm ++ 0 :: r;
  na_char : Forall is_char name;
  na_nul : 0 ∉ nm;
  na_len : len = Z.of_nat (length nm);
  na_short : (length nm <= 27)%nat;
  na_plain : nm <> [] /\ nm <> [46] /\ nm <> [46; 46]
}.

Lemma name_take nm name len : name_arg nm name len -> take (Z.to_nat len) name = nm.
Proof. intros [(r & ->) _ _ -> _ _]. rewrite Nat2Z.id. by rewrite take_app_length. Qed.

Lemma name_fits nm name len : name_arg nm name len -> (Z.to_nat len <= length name)%nat.
Proof. intros [(r & ->) _ _ -> _ _]. rewrite Nat2Z.id, length_app. lia. Qed.

(** What the search for a name finds. *)
Lemma find_entry_cases ents nm name len :
  Forall dirent_wf ents -> name_arg nm name len ->
  (exists k e, find_entry ents name len = Some (Some k) /\ ents !! k = Some e /\ cname (rd_name e) = nm) \/
  (find_entry ents name len = Some None /\ forall ino, ~ entry_in ents nm ino).
Proof.
  intros Hwf Hn. rewrite find_entry_run by (done || apply Hn || by eapply name_fits).
  rewrite (name_take _ _ _ Hn).
  destruct (list_find (fun e => cname (rd_name e) = nm) ents) as [[k e]|] eqn:E.
  - apply list_find_Some in E as (Hk & Hc & _). left. exists k, e. done.
  - right. split; [done|]. intros ino (k & e & Hk & Hc & _).
    apply list_find_None in E. rewrite Forall_forall in E. eapply E; [|exact Hc].
    by eapply list_elem_of_lookup_2.
Qed.

Lemma find_free_spec ents k :
  Forall dirent_wf ents -> find_free ents = Some k ->
  exists e, ents !! k = Some e /\ cname (rd_name e) = [].
Proof.
  intros Hwf. revert k. induction Hwf as [|e ents He _ IH]; intros k; [done|]. cbn.
  destruct (is_free e) eqn:Ef.
  - intros [= <-]. exists e. split; [done|]. by apply is_free_spec.
  - intros (j & Hj & ->)%fmap_Some. by apply IH.
Qed.

(** Storing a new name in a free entry. *)
Lemma entry_in_insert ents k e0 e nm ino :
  ents !! k = Some e0 -> cname (rd_name e0) = [] -> nm <> [] ->
  entry_in (<[k := e]> ents) nm ino <->
  entry_in ents nm ino \/ (cname (rd_name e) = nm /\ rd_ino e = ino).
Proof.
  intros Hk H0 Hnm. pose proof (lookup_lt_Some _ _ _ Hk) as Hlt. split.
  - intros (j & f & Hj & Hc & Hi). apply list_lookup_insert_Some in Hj as [(<- & <- & _)|[Hne Hj]].
    + by right.
    + left. by exists j, f.
  - intros [(j & f & Hj & Hc & Hi)|[Hc Hi]].
    + exists j, f. split; [|done]. rewrite list_lookup_insert_ne; [done|]. intros ->. congruence.
    + exists k, e. split; [by rewrite list_lookup_insert_eq|done].
Qed.

(** Clearing the entry of a name. *)
Lemma entry_in_clear ents k e nm0 b nm ino :
  names_unique ents -> ents !! k = Some e -> cname (rd_name e) = nm0 -> nm0 <> [] -> nm <> [] ->
  cname b = [] ->
  entry_in (<[k := Dirent (rd_ino e) b]> ents) nm ino <-> entry_in ents nm ino /\ nm <> nm0.
Proof.
  intros Hu Hk Hc0 Hn0 Hnm Hb. split.
  - intros (j & f & Hj & Hc & Hi). apply list_lookup_insert_Some in Hj as [(<- & <- & _)|[Hne Hj]].
    + cbn in Hc. congruence.
    + split; [by exists j, f|]. intros ->. apply Hne. eapply Hu; eauto; congruence.
  - intros [(j & f & Hj & Hc & Hi) Hne]. exists j, f. split; [|done].
    rewrite list_lookup_insert_ne; [done|]. intros ->. congruence.
Qed.

Lemma names_unique_insert ents k e0 e :
  names_unique ents -> ents !! k = Some e0 ->
  (cname (rd_name e) <> [] -> forall ino, ~ entry_in ents (cname (rd_name e)) ino) ->
  names_unique (<[k := e]> ents).
Proof.
  intros Hu Hk Hno i j f g Hi Hj E Hne.
  apply list_lookup_insert_Some in Hi as [(<- & <- & _)|[Hni Hi]],
    Hj as [(<- & <- & _)|[Hnj Hj]].
  - done.
  - exfalso. apply (Hno Hne (rd_ino g)). by exists j, g.
  - exfalso. rewrite E in Hne. apply (Hno Hne (rd_ino f)). by exists i, f.
  - by eapply Hu.
Qed.

(** ** The steps of the directory operations *)
Lemma inv_ext d d' s : fs_inv d s -> (forall m, d' m = d m) -> fs_inv d' s.
Proof. intros [] E. split; try done; intros; rewrite ?E; auto. Qed.

Lemma held_nonneg s n : 0 <= held s n <= 1.
Proof. unfold held. destruct (bool_decide _); lia. Qed.

(** A linked inode has a positive count. *)
Lemma linked_pos d s n x :
  fs_inv d s -> 0 <= d n -> slot (v_fs s) n = Some x -> n = 0 \/ 0 < fs_refs (v_fs s) n -> 0 < rf_linkcount x.
Proof.
  intros Hinv Hd Hx Hr. rewrite (fi_link _ _ Hinv _ _ Hx). pose proof (held_nonneg s n).
  pose proof (fs_refs_nonneg (v_fs s) n). unfold root_link.
  destruct Hr as [->|]; [change (0 =? 0) with true; lia|]. destruct (n =? 0); lia.
Qed.

Lemma node_refs_le i n m : 0 <= n < Z.of_nat (length i) -> node_refs (slot i n) m <= fs_refs i m.
Proof.
  intros Hn. pose proof (fs_refs_nonneg (set_slot n None i) m) as H. rewrite fs_refs_set in H by done.
  cbn [node_refs] in H. lia.
Qed.

Lemma counted_refs ents k e :
  ents !! k = Some e -> counted e = true -> 1 <= dir_refs ents (rd_ino e).
Proof.
  revert k. induction ents as [|x ents IH]; intros [|k] Hk Hc; try done; cbn.
  - injection Hk as ->. unfold ref1. rewrite Hc, Z.eqb_refl. pose proof (dir_refs_nonneg ents (rd_ino e)). cbn. lia.
  - specialize (IH k Hk Hc). pose proof (ref1_nonneg x (rd_ino e)). lia.
Qed.

Lemma plain_counted nm name len e : name_arg nm name len -> cname (rd_name e) = nm -> counted e = true.
Proof. intros Hn E. unfold counted. apply bool_decide_eq_true_2. rewrite E. apply Hn. Qed.

Lemma free_ref e n : cname (rd_name e) = [] -> ref1 e n = 0.
Proof.
  intros E. unfold ref1, counted. rewrite bool_decide_eq_false_2; [done|]. rewrite E. naive_solver.
Qed.

(** The inode an ordinary name refers to. *)
Lemma named_inode d s n x ents k e nm name len :
  fs_inv d s -> (forall m, 0 <= d m) -> slot (v_fs s) n = Some x -> rf_mem x = MemDir ents ->
  ents !! k = Some e -> cname (rd_name e) = nm -> name_arg nm name len ->
  exists y, slot (v_fs s) (rd_ino e) = Some y /\ 0 < rf_linkcount y /\ 0 < fs_refs (v_fs s) (rd_ino e).
Proof.
  intros Hinv Hd Hx Hm Hk Hc Hn.
  pose proof (counted_refs ents k e Hk (plain_counted _ _ _ _ Hn Hc)) as Hr.
  assert (0 < node_refs (slot (v_fs s) n) (rd_ino e)) as Hp by (rewrite Hx; cbn; rewrite Hm; lia).
  destruct (refs_exist _ _ _ _ Hinv Hp) as [y Hy]. exists y.
  pose proof (node_refs_le (v_fs s) n (rd_ino e) (slot_range _ _ _ Hx)).
  split_and!; [done| |lia]. eapply linked_pos; eauto. right. lia.
Qed.

Lemma size_inv d s n x sz :
  fs_inv d s -> slot (v_fs s) n = Some x -> 0 < rf_linkcount x ->
  fs_inv d (upd_fs (set_slot n (Some (i_size sz x))) s).
Proof.
  intros Hinv Hx Hp. destruct (fi_node _ _ Hinv _ _ Hx) as [Hok Hmem].
  eapply inv_set; try done.
  - intros m Hm. pose proof (refs_exist d s n m Hinv) as He. rewrite Hx, Hm in He.
    pose proof (node_refs_nonneg (Some (i_size sz x)) m). cbn [node_refs rf_mem i_size] in *.
    destruct (decide (0 < match rf_mem x with MemDir ents => dir_refs ents m | _ => 0 end)) as [H1|]; [|lia].
    by destruct (He H1).
  - intros m. cbn. destruct (m =? n); lia.
  - intros e m. pose proof (slot_range _ _ _ Hx). rewrite fs_refs_set, Hx by done.
    destruct (decide (e = n)) as [->|].
    + rewrite slot_set_eq by done. intros Hp'. destruct (fi_rooted _ _ Hinv n m); [by rewrite Hx|by left|].
      right. cbn. lia.
    + rewrite slot_set_ne by (lia || done). intros Hp'. destruct (fi_rooted _ _ Hinv e m Hp'); [by left|].
      right. cbn. lia.
Qed.

Lemma link_inv d s n x k :
  fs_inv d s -> slot (v_fs s) n = Some x -> 0 < k ->
  fs_inv (fun m => d m + if m =? n then k - rf_linkcount x else 0)
    (upd_fs (set_slot n (Some (i_link k x))) s).
Proof.
  intros Hinv Hx Hk. destruct (fi_node _ _ Hinv _ _ Hx) as [Hok Hmem].
  eapply inv_set; try done.
  - intros m Hm. pose proof (refs_exist d s n m Hinv) as He. rewrite Hx, Hm in He.
    pose proof (node_refs_nonneg (Some (i_link k x)) m). cbn [node_refs rf_mem i_link] in *.
    destruct (decide (0 < match rf_mem x with MemDir ents => dir_refs ents m | _ => 0 end)) as [H1|]; [|lia].
    by destruct (He H1).
  - intros m. cbn. destruct (m =? n); lia.
  - apply rooted_link; [done|apply Hinv].
Qed.

(** The inode of directory [n] with entry [k] replaced. *)
Definition with_entry (x : inode) (ents : list dirent) (k : nat) (e : dirent) : inode :=
  i_mem (MemDir (<[k := e]> ents)) x.

Lemma set_entry_run d s n x ents k e0 ino nm name len :
  fs_inv d s -> slot (v_fs s) n = Some x -> rf_mem x = MemDir ents -> ents !! k = Some e0 ->
  name_arg nm name len ->
  exists b, cname b = nm /\ dirent_wf (Dirent ino b) /\
    set_entry n k ino name len s = Done tt (upd_fs (set_slot n (Some (with_entry x ents k (Dirent ino b)))) s).
Proof.
  intros Hinv Hx Hm Hk Hn. destruct (fi_node _ _ Hinv _ _ Hx) as [_ Hmem].
  unfold mem_ok in Hmem. rewrite Hm in Hmem. destruct Hmem as (_ & _ & Hwf & _).
  pose proof (Forall_lookup_1 _ _ _ _ Hwf Hk) as He0.
  destruct (na_buf _ _ _ Hn) as [r ->].
  assert (Forall is_char nm) as Hch by (pose proof (na_char _ _ _ Hn) as H; by apply Forall_app in H as [? _]).
  destruct (store_name_run (rd_name e0) nm r len) as (b & Eb & Hcb & Hwb); try apply He0; try apply Hn; [done|].
  exists b. rewrite take_ge in Hcb by (pose proof (na_short _ _ _ Hn); lia). split_and!; [done|apply Hwb|].
  unfold set_entry, gets, bind, deref. rewrite Hx, Hm, Hk, Eb.
  unfold set_dirents, gets, bind, deref, modify. rewrite Hx, Hm. done.
Qed.

(** Changing entry [k] from [e0] to [e]. *)
Lemma entry_inv d s n x ents k e0 e :
  fs_inv d s -> slot (v_fs s) n = Some x -> rf_mem x = MemDir ents -> ents !! k = Some e0 ->
  dirent_wf e -> names_unique (<[k := e]> ents) -> 0 < rf_linkcount x ->
  (counted e = true -> is_Some (slot (v_fs s) (rd_ino e))) ->
  rooted (set_slot n (Some (with_entry x ents k e)) (v_fs s)) ->
  fs_inv (fun m => d m - ref1 e m + ref1 e0 m) (upd_fs (set_slot n (Some (with_entry x ents k e))) s).
Proof.
  intros Hinv Hx Hm Hk He Hu Hp Hex Hr. destruct (fi_node _ _ Hinv _ _ Hx) as [Hok Hmem].
  unfold mem_ok in Hmem. rewrite Hm in Hmem. destruct Hmem as (Hmd & Hlen & Hwf & _).
  assert (forall m, node_refs (Some (with_entry x ents k e)) m = node_refs (Some x) m - ref1 e0 m + ref1 e m) as Hnr.
  { intros m. cbn. rewrite Hm. by apply dir_refs_insert. }
  eapply inv_set; try done.
  - unfold mem_ok. cbn. rewrite length_insert. split_and!; try done. by apply Forall_insert.
  - intros m Hno. rewrite Hnr.
    assert (node_refs (Some x) m <= 0) as Hle.
    { destruct (decide (0 < node_refs (Some x) m)) as [H1|]; [|lia].
      rewrite <- Hx in H1. destruct (refs_exist _ _ _ _ Hinv H1). congruence. }
    pose proof (node_refs_nonneg (Some (with_entry x ents k e)) m) as H1. rewrite Hnr in H1.
    pose proof (node_refs_nonneg (Some x) m). pose proof (ref1_nonneg e0 m).
    assert (ref1 e m = 0) as E0.
    { unfold ref1. destruct (counted e) eqn:Ec; [|done]. destruct (Z.eqb_spec (rd_ino e) m) as [<-|]; [|done].
      destruct (Hex eq_refl). congruence. }
    lia.
  - intros m. rewrite Hnr. cbn. destruct (m =? n); lia.
Qed.

Lemma with_entry_refs i n x ents k e0 e m :
  slot i n = Some x -> rf_mem x = MemDir ents -> ents !! k = Some e0 ->
  fs_refs (set_slot n (Some (with_entry x ents k e)) i) m = fs_refs i m - ref1 e0 m + ref1 e m.
Proof.
  intros Hx Hm Hk. rewrite fs_refs_set, Hx by (by eapply slot_range). cbn. rewrite Hm.
  rewrite (dir_refs_insert _ _ _ _ _ Hk). lia.
Qed.

(** A name added to a linked directory. *)
Lemma rooted_add i n x ents k e0 e :
  rooted i -> slot i n = Some x -> rf_mem x = MemDir ents -> ents !! k = Some e0 ->
  cname (rd_name e0) = [] -> n = 0 \/ 0 < fs_refs i n ->
  rooted (set_slot n (Some (with_entry x ents k e)) i).
Proof.
  intros Hr Hx Hm Hk H0 Hn f m. rewrite (with_entry_refs _ _ _ _ _ _ _ f Hx Hm Hk), (free_ref _ f H0).
  pose proof (ref1_nonneg e f). pose proof (slot_range _ _ _ Hx). destruct (decide (f = n)) as [->|].
  - intros _. destruct Hn; [by left|right; lia].
  - rewrite slot_set_ne by (lia || done). intros [?|?]%Hr; [by left|right; lia].
Qed.

(** A name of a childless inode removed. *)
Lemma rooted_del i n x ents k e0 e :
  rooted i -> slot i n = Some x -> rf_mem x = MemDir ents -> ents !! k = Some e0 ->
  counted e0 = true -> cname (rd_name e) = [] -> (forall m, node_refs (slot i (rd_ino e0)) m = 0) ->
  rooted (set_slot n (Some (with_entry x ents k e)) i).
Proof.
  intros Hr Hx Hm Hk Hc He Hno f m. rewrite (with_entry_refs _ _ _ _ _ _ _ f Hx Hm Hk), (free_ref _ f He).
  pose proof (slot_range _ _ _ Hx).
  assert (node_refs (slot (set_slot n (Some (with_entry x ents k e)) i) f) m <= node_refs (slot i f) m) as Hle.
  { destruct (decide (f = n)) as [->|]; [|rewrite slot_set_ne by (lia || done); lia].
    rewrite slot_set_eq, Hx by done. cbn. rewrite Hm, (dir_refs_insert _ _ _ _ _ Hk), (free_ref e m He).
    pose proof (ref1_nonneg e0 m). lia. }
  intros Hp. destruct (Hr f m) as [?|?]; [lia|by left|]. right.
  unfold ref1. rewrite Hc. destruct (Z.eqb_spec (rd_ino e0) f) as [<-|]; cbn; [|lia].
  specialize (Hno m). lia.
Qed.

(** ** The directory operations *)

(** [dir] is the vnode of a directory: inode [n], with entries [ents]. *)
Definition dir_at (s : vst) (dir n : Z) (x : inode) (ents : list dirent) : Prop :=
  (exists vn, v_vnodes s !! dir = Some vn /\ vn_vno vn = n) /\
  slot (v_fs s) n = Some x /\ rf_mem x = MemDir ents.

Definition no_debt : Z -> Z := fun _ => 0.

Section DirOps.
Context `{Devs}.

Lemma get_inode_at d s v vn x :
  fs_inv d s -> v_vnodes s !! v = Some vn -> slot (v_fs s) (vn_vno vn) = Some x ->
  get_inode v s = Done (vn_vno vn, x) s.
Proof. intros Hinv Hv Hx. eapply get_inode_run; [done|by eapply fi_i|done]. Qed.

Lemma get_dirents_at d s dir n x ents :
  fs_inv d s -> dir_at s dir n x ents -> get_dirents dir s = Done (n, ents) s.
Proof.
  intros Hinv ((vn & Hv & <-) & Hx & Hm). unfold get_dirents.
  krun (get_inode_at d s dir vn x Hinv Hv Hx). cbn [snd fst]. by rewrite Hm.
Qed.

Lemma dir_wf d s dir n x ents :
  fs_inv d s -> dir_at s dir n x ents -> Forall dirent_wf ents /\ names_unique ents.
Proof.
  intros Hinv (_ & Hx & Hm). destruct (fi_node _ _ Hinv _ _ Hx) as [_ Hmem].
  unfold mem_ok in Hmem. rewrite Hm in Hmem. by destruct Hmem as (_ & _ & ? & ?).
Qed.

(** The lookup that precedes the creation of a name. *)
Lemma lookup_miss d s dir n x ents nm name len :
  fs_inv d s -> dir_at s dir n x ents -> name_arg nm name len -> (forall i, ~ entry_in ents nm i) ->
  ramfs_lookup dir name len s = Done (- ENOENT, None) s.
Proof.
  intros Hinv Hdir Hn Hno. destruct (dir_wf d s dir n x ents Hinv Hdir) as [Hwf _].
  unfold ramfs_lookup. krun (get_dirents_at d s dir n x ents Hinv Hdir). cbn [snd].
  destruct (find_entry_cases ents nm name len Hwf Hn) as [(k & e & E & Hk & Hc)|[E _]].
  - exfalso. eapply Hno. by exists k, e.
  - rewrite E. done.
Qed.

Lemma lookup_hit s dir n x ents nm name len ino :
  fs_inv no_debt s -> dir_at s dir n x ents -> name_arg nm name len -> entry_in ents nm ino ->
  runs (ramfs_lookup dir name len) s (fun r s' => exists v vn, r = (0, Some v) /\
    vget ino s = Done v s' /\ fs_inv no_debt s' /\ keeps s s' /\ v_vnodes s' !! v = Some vn /\ vn_vno vn = ino /\
    vn_refcount vn = 1 + match v_vnodes s !! v with Some wn => vn_refcount wn | None => 0 end).
Proof.
  intros Hinv Hdir Hn Hin. destruct (dir_wf _ s dir n x ents Hinv Hdir) as [Hwf Hu].
  unfold ramfs_lookup. apply runs_bind. eapply runs_intro; [by eapply get_dirents_at|]. cbn [snd].
  destruct (find_entry_cases ents nm name len Hwf Hn) as [(k & e & E & Hk & Hc)|[_ Hno]]; [|by destruct (Hno ino)].
  assert (rd_ino e = ino) as Hino.
  { destruct Hin as (j & f & Hj & Hcf & <-). assert (j = k) as ->; [|congruence].
    eapply Hu; eauto; [congruence|]. rewrite Hcf. apply Hn. }
  rewrite E. apply runs_bind, (runs_deref _ (Some k)); [done|]. cbv beta iota.
  apply runs_bind, (runs_deref _ e); [done|]. cbv beta. apply runs_bind.
  destruct Hdir as (_ & Hx & Hm).
  destruct (named_inode _ _ _ _ _ _ _ _ _ _ Hinv (fun _ => Z.le_refl 0) Hx Hm Hk Hc Hn) as (y & Hy & Hp & _).
  destruct (runs_done _ _ _ (vget_inv _ _ _ _ Hinv Hy Hp)) as (v & s' & Eg & Hinv' & Hkeep & vn & Hv & Hvno & Hrc).
  eapply runs_intro; [exact Eg|]. apply runs_ret. exists v, vn. rewrite <- Hino. split_and!; done.
Qed.

(** [s'] is [s] with the name [nm] for [ino] added to the directory [n]. *)
Record named (s s' : vst) (n : Z) (x : inode) (ents : list dirent) (nm : list Z) (ino : Z) (x' : inode)
    (ents' : list dirent) : Prop := {
  nd_fs : s' = upd_fs (fun _ => v_fs s') s;
  nd_slot : slot (v_fs s') n = Some x';
  nd_mem : rf_mem x' = MemDir ents';
  nd_keep : rf_linkcount x' = rf_linkcount x;
  nd_size : rf_size x' = rf_size x + DIRENT_SIZE;
  nd_other : forall m, m <> n -> slot (v_fs s') m = slot (v_fs s) m;
  nd_names : forall nm' i, nm' <> [] ->
    (entry_in ents' nm' i <-> entry_in ents nm' i \/ (nm' = nm /\ i = ino))
}.

(** The last steps of link, create, mknod and mkdir: the entry is filled in and
    the directory grows; the new name is owed a link. *)
Lemma add_name d s n x ents nm name len k ino y :
  fs_inv d s -> (0 <= d n) -> slot (v_fs s) n = Some x -> rf_mem x = MemDir ents ->
  n = 0 \/ 0 < fs_refs (v_fs s) n -> name_arg nm name len -> (forall i, ~ entry_in ents nm i) ->
  find_free ents = Some k -> slot (v_fs s) ino = Some y ->
  runs (set_entry n k ino name len ;;
        set_inode n (fun x => i_size (rf_size x + DIRENT_SIZE) x)) s (fun _ s' =>
    fs_inv (fun m => d m - if m =? ino then 1 else 0) s' /\
    exists x' ents', named s s' n x ents nm ino x' ents').
Proof.
  intros Hinv Hd Hx Hm Hlinked Hn Hno Ef Hy.
  destruct (fi_node _ _ Hinv _ _ Hx) as [_ Hmem]. unfold mem_ok in Hmem. rewrite Hm in Hmem.
  destruct Hmem as (_ & _ & Hwf & Hu).
  destruct (find_free_spec ents k Hwf Ef) as (e0 & Hk & H0).
  destruct (set_entry_run _ s n x ents k e0 ino nm name len Hinv Hx Hm Hk Hn) as (b & Hb & Hbw & Es).
  apply runs_bind. eapply runs_intro; [exact Es|]. cbv beta.
  set (e := Dirent ino b) in *. set (s1 := upd_fs _ s).
  pose proof (linked_pos _ _ _ _ Hinv Hd Hx Hlinked) as Hxp. pose proof (slot_range _ _ _ Hx) as Hr.
  assert (fs_inv (fun m => d m - ref1 e m + ref1 e0 m) s1) as Hinv1.
  { apply entry_inv; try done.
    - eapply names_unique_insert; [done|done|]. intros _ i. cbn. rewrite Hb. apply Hno.
    - eapply rooted_add; eauto. apply Hinv. }
  assert (slot (v_fs s1) n = Some (with_entry x ents k e)) as Hx1 by (apply slot_set_eq; done).
  eapply runs_intro; [by eapply set_inode_run|]. cbv beta.
  set (x2 := i_size _ (with_entry x ents k e)). set (s2 := upd_fs _ s1). split.
  - eapply inv_ext; [by apply size_inv|]. intros m. cbv beta.
    rewrite (free_ref e0 m H0). unfold ref1. rewrite (plain_counted nm name len e Hn Hb). cbn [andb].
    change (rd_ino e) with ino. rewrite (Z.eqb_sym m). destruct (ino =? m); lia.
  - exists x2, (<[k := e]> ents). split; try done.
    + apply slot_set_eq. unfold s1. cbn. by rewrite length_set_slot.
    + intros m Hne. unfold s2, s1. cbn. by rewrite !slot_set_ne by (lia || done).
    + intros nm' i Hnm'. rewrite (entry_in_insert _ _ _ _ _ _ Hk H0 Hnm'). cbn. rewrite Hb. naive_solver.
Qed.

(** [ramfs_link]: with room in the directory the name is added for the old
    inode, whose link count grows by the one name; the accounting of links is
    kept.  A full directory refuses with [-ENOSPC] and nothing changes. *)
Theorem ramfs_link_spec s old ovn dir n x ents nm name len :
  fs_inv no_debt s -> dir_at s dir n x ents -> n = 0 \/ 0 < fs_refs (v_fs s) n ->
  v_vnodes s !! old = Some ovn -> name_arg nm name len -> (forall i, ~ entry_in ents nm i) ->
  runs (ramfs_link old dir name len) s (fun r s' => fs_inv no_debt s' /\
    match find_free ents with
    | None => r = - ENOSPC /\ s' = s
    | Some _ => r = 0 /\ exists x' ents', dir_at s' dir n x' ents' /\
        forall nm' ino, nm' <> [] ->
          (entry_in ents' nm' ino <-> entry_in ents nm' ino \/ (nm' = nm /\ ino = vn_vno ovn))
    end).
Proof.
  intros Hinv Hdir Hlinked Ho Hn Hno.
  unfold ramfs_link. apply runs_bind. eapply runs_intro; [by eapply lookup_miss|]. cbv beta. cbn [fst].
  apply runs_bind, runs_kassert; [done|]. apply runs_bind. eapply runs_intro; [by eapply get_dirents_at|].
  cbn [snd fst]. destruct (find_free ents) as [k|] eqn:Ef; [|by apply runs_ret].
  pose proof Hdir as ((vn & Hv & Hvno) & Hx & Hm).
  apply runs_bind. eapply runs_intro; [by apply get_vnode_run|]. cbv beta.
  destruct (vw_link s (fi_vn _ _ Hinv) old ovn Ho) as (c & (y & Hy & _ & <-)%ramfs_nlink_Some & Hyp).
  unfold runs. rewrite <- bind_assoc. apply runs_bind.
  eapply runs_mono; [eapply add_name; eauto; done|]. intros [] s2 (Hinv2 & x2 & ents2 & Hnd). cbv beta.
  assert (v_vnodes s2 !! old = Some ovn) as Ho2 by (by rewrite (nd_fs _ _ _ _ _ _ _ _ _ Hnd)).
  assert (exists y2, slot (v_fs s2) (vn_vno ovn) = Some y2 /\ rf_linkcount y2 = rf_linkcount y) as (y2 & Hy2 & Hyl).
  { destruct (decide (vn_vno ovn = n)) as [E|Hne].
    - exists x2. rewrite E. split; [apply Hnd|]. rewrite (nd_keep _ _ _ _ _ _ _ _ _ Hnd). congruence.
    - exists y. split; [|done]. by rewrite (nd_other _ _ _ _ _ _ _ _ _ Hnd). }
  apply runs_bind. eapply runs_intro; [by eapply get_inode_at|]. cbv beta. cbn [fst].
  apply runs_bind. eapply runs_intro; [by eapply set_inode_run|]. cbv beta. apply runs_ret.
  split; [|split; [done|]].
  - eapply inv_ext; [eapply link_inv; [exact Hinv2|exact Hy2|lia]|]. intros m. cbv beta.
    unfold no_debt. destruct (m =? vn_vno ovn); lia.
  - exists (if n =? vn_vno ovn then i_link (rf_linkcount y2 + 1) y2 else x2), ents2.
    split; [|apply Hnd]. split; [exists vn; rewrite (nd_fs _ _ _ _ _ _ _ _ _ Hnd); done|]. cbn [v_fs upd_fs].
    rewrite slot_link by done. destruct (Z.eqb_spec n (vn_vno ovn)) as [E|]; [|split; apply Hnd].
    rewrite <- E, (nd_slot _ _ _ _ _ _ _ _ _ Hnd) in Hy2. injection Hy2 as <-. split; [done|apply Hnd].
Qed.
End DirOps.

End RamfsSpec.
