(* ===== verification/RamfsDir.v ===== *)
(** * Creating and removing names ([fs/ramfs/ramfs.c])

    [ramfs_create], [ramfs_mknod], [ramfs_mkdir], [ramfs_unlink] and
    [ramfs_rmdir] as updates of the partial function a directory is, each
    keeping the accounting of links of [RamfsSpec.fs_inv]. *)

From Stdlib Require Import ZArith Lia.
From stdpp Require Import base list gmap.
From S2P Require Import Prelude KString Vnode Ramfs RamfsSpec.

Module RamfsDir.
Import KString Vnode Ramfs RamfsSpec.
Local Open Scope Z_scope.

(** ** Allocation of an inode *)
Lemma first_empty_spec i k : first_empty i = Some k -> i !! k = Some None.
Proof.
  revert k. induction i as [|[x|] i IH]; intros k; cbn; [done| |by intros [= <-]].
  intros (j & Hj & ->)%fmap_Some. by apply IH.
Qed.

Lemma first_empty_full i n : first_empty i = None -> 0 <= n < Z.of_nat (length i) -> is_Some (slot i n).
Proof.
  intros E Hn. destruct (slot_refs i n Hn) as (o & Ho & ->).
  revert Ho E. generalize (Z.to_nat n) as k. clear Hn. induction i as [|[x|] i IH]; intros [|k]; cbn; try done.
  - by intros [= <-].
  - intros Ho E. apply (IH k Ho). by destruct (first_empty i).
Qed.

(** The memory of a new inode. *)
Definition new_mem (type devid : Z) : rfmem :=
  if (type =? RAMFS_TYPE_CHR) || (type =? RAMFS_TYPE_BLK) then MemDev devid
  else if type =? RAMFS_TYPE_DIR then MemDir zero_dir else MemData zero_page.

Definition new_inode (n type devid : Z) : inode := Inode 0 n (new_mem type devid) type 1.

Definition inode_type (type : Z) : Prop :=
  type = RAMFS_TYPE_DATA \/ type = RAMFS_TYPE_DIR \/ type = RAMFS_TYPE_CHR \/ type = RAMFS_TYPE_BLK.

(** [s'] is [s] with the inode [x] put in the empty slot [n]. *)
Record grown (s s' : vst) (n : Z) (x : inode) : Prop := {
  gr_free : slot (v_fs s) n = None;
  gr_fs : v_fs s' = set_slot n (Some x) (v_fs s);
  gr_range : 0 <= n < Z.of_nat (length (v_fs s));
  gr_vnodes : v_vnodes s' = v_vnodes s /\ v_inuse s' = v_inuse s;
  gr_rest : v_files s' = v_files s /\ p_files s' = p_files s /\ p_cwd s' = p_cwd s /\
    vfs_root_vn s' = vfs_root_vn s;
  gr_fresh : v_fresh s <= v_fresh s'
}.

Lemma zero_dirent_name : cname (rd_name zero_dirent) = [].
Proof. done. Qed.

Lemma zero_dirent_wf : dirent_wf zero_dirent.
Proof. split; [done|by left|apply Forall_nil_2]. Qed.

Lemma zero_dir_names ents k e : ents = zero_dir -> ents !! k = Some e -> cname (rd_name e) = [].
Proof. intros -> [-> _]%lookup_replicate. done. Qed.

Lemma zero_dir_refs m : dir_refs zero_dir m = 0.
Proof.
  unfold zero_dir. induction RAMFS_MAX_DIRENT as [|k IH]; [done|]. cbn [replicate dir_refs].
  by rewrite IH, (free_ref _ m zero_dirent_name).
Qed.

Lemma new_inode_ok n type devid :
  inode_type type -> n < Z.of_nat RAMFS_MAX_FILES ->
  inode_ok n (new_inode n type devid) = true /\ mem_ok (new_inode n type devid) /\
    forall m, node_refs (Some (new_inode n type devid)) m = 0.
Proof.
  intros Ht Hn. split_and!.
  - unfold inode_ok. cbn [rf_ino rf_mode new_inode]. rewrite Z.eqb_refl, (proj2 (Z.ltb_lt _ _) Hn).
    by destruct Ht as [->|[->|[->| ->]]].
  - unfold mem_ok, new_inode, new_mem. destruct Ht as [->|[->|[->| ->]]]; cbn -[zero_dir zero_page]; try tauto.
    split_and!; try done.
    + unfold zero_dir. apply Forall_replicate, zero_dirent_wf.
    + intros j k e f Hj _ _ []. by eapply zero_dir_names.
  - intros m. unfold new_inode, new_mem. destruct Ht as [->|[->|[->| ->]]]; done || apply zero_dir_refs.
Qed.

Lemma grown_refs s s' n x m :
  grown s s' n x -> (forall m, node_refs (Some x) m = 0) -> fs_refs (v_fs s') m = fs_refs (v_fs s) m.
Proof.
  intros G Hx. rewrite (gr_fs _ _ _ _ G), fs_refs_set by apply G. rewrite (gr_free _ _ _ _ G), Hx. cbn. lia.
Qed.

Lemma grown_slot s s' n x m :
  grown s s' n x -> slot (v_fs s') m = if m =? n then Some x else slot (v_fs s) m.
Proof.
  intros G. rewrite (gr_fs _ _ _ _ G). pose proof (gr_range _ _ _ _ G). destruct (Z.eqb_spec m n) as [->|].
  - by apply slot_set_eq.
  - apply slot_set_ne; [lia|done].
Qed.

(** The new inode is owed the link of the name it is about to get. *)
Lemma grown_inv s s' n x :
  fs_inv no_debt s -> grown s s' n x -> v_oom s' = [] -> inode_ok n x = true -> mem_ok x ->
  (forall m, node_refs (Some x) m = 0) -> rf_linkcount x = 1 ->
  fs_inv (fun m => if m =? n then 1 else 0) s'.
Proof.
  intros [Hvn Hlen Hi Hnode Hlink Hnone Hmode Hroot0 Hroot Hoom] G Hoom' Hok Hmem Hrf Hl.
  destruct (gr_vnodes _ _ _ _ G) as [Ev Eu].
  assert (forall v vn, v_vnodes s !! v = Some vn -> vn_vno vn <> n) as Hnot.
  { intros v vn Hv E. destruct (vw_link s Hvn v vn Hv) as (k & (y & Hy & _)%ramfs_nlink_Some & _).
    pose proof (gr_free _ _ _ _ G). congruence. }
  assert (n <> 0) as Hn0 by (intros ->; rewrite (gr_free _ _ _ _ G) in Hroot0; by destruct Hroot0).
  split; rewrite ?Ev; try done.
  - split; rewrite ?Ev, ?Eu; try apply Hvn.
    + intros v vn Hv. destruct (vw_ok s Hvn v vn Hv) as (? & ? & ? & ?). pose proof (gr_fresh _ _ _ _ G).
      split_and!; try done. lia.
    + intros v vn Hv. destruct (vw_link s Hvn v vn Hv) as (k & Hk & Hp). exists k. split; [|done].
      cbn in *. unfold ramfs_nlink in *. rewrite (grown_slot s s' n x _ G).
      destruct (Z.eqb_spec (vn_vno vn) n); [by destruct (Hnot v vn Hv)|done].
  - rewrite (gr_fs _ _ _ _ G), length_set_slot. done.
  - intros m y. rewrite (grown_slot s s' n x m G). destruct (Z.eqb_spec m n) as [->|]; [by intros [= <-]|apply Hnode].
  - intros m y. rewrite (grown_slot s s' n x m G), (grown_refs s s' n x) by done.
    rewrite (held_ext s s') by done. destruct (Z.eqb_spec m n) as [->|]; [intros [= <-]|apply Hlink].
    destruct (Hnone n (gr_free _ _ _ _ G)) as [-> _]. rewrite Hl, (held_out s n).
    + unfold root_link. destruct (Z.eqb_spec n 0); [done|lia].
    + intros v vn [Hv E]. by eapply Hnot.
  - intros m. rewrite (grown_slot s s' n x m G), (grown_refs s s' n x) by done.
    destruct (Z.eqb_spec m n); [done|]. intros Hm. split; [by apply Hnone|done].
  - intros v vn y Hv. rewrite (grown_slot s s' n x _ G). destruct (Z.eqb_spec (vn_vno vn) n); [|by eapply Hmode].
    by destruct (Hnot v vn Hv).
  - rewrite (grown_slot s s' n x 0 G). destruct (Z.eqb_spec 0 n); [congruence|done].
  - intros e m. rewrite (grown_slot s s' n x e G), (grown_refs s s' n x) by done.
    destruct (e =? n); [rewrite Hrf; lia|apply Hroot].
Qed.

Lemma alloc_run s type devid :
  fs_inv no_debt s -> inode_type type ->
  runs (ramfs_alloc_inode type devid) s (fun r s' =>
    match first_empty (v_fs s) with
    | None => r = - ENOSPC /\ s' = s
    | Some k => r = Z.of_nat k /\ grown s s' r (new_inode r type devid) /\
        fs_inv (fun m => if m =? r then 1 else 0) s'
    end).
Proof.
  intros Hinv Ht.
  unfold ramfs_alloc_inode. apply runs_bind, runs_kassert; [by destruct Ht as [->|[->|[->| ->]]]|].
  apply runs_bind, runs_gets. destruct (first_empty (v_fs s)) as [k|] eqn:Ek; [|by apply runs_ret].
  pose proof (first_empty_spec _ _ Ek) as Hk. pose proof (lookup_lt_Some _ _ _ Hk) as Hlt.
  assert (slot (v_fs s) (Z.of_nat k) = None) as Hfree.
  { unfold slot. rewrite Nat2Z.id, Hk. by destruct (_ <? 0). }
  cbv zeta. pose proof (fi_mem _ _ Hinv) as Hoom.
  apply runs_bind. eapply runs_intro; [apply slab_alloc_run; by rewrite Hoom|]. cbv beta iota.
  set (s1 := set_vfresh _ _). set (n := Z.of_nat k) in *.
  assert (exists s2, ((if (type =? RAMFS_TYPE_CHR) || (type =? RAMFS_TYPE_BLK) then ret (Some (MemDev devid))
             else
               let* page := slab_alloc in
               match page with
               | None => ret None
               | Some _ => ret (Some (if type =? RAMFS_TYPE_DIR then MemDir zero_dir else MemData zero_page))
               end) s1 : outcome vst _) = Done (Some (new_mem type devid)) s2 /\ v_oom s2 = [] /\
     grown s (upd_fs (set_slot n (Some (new_inode n type devid))) s2) n (new_inode n type devid))
    as (s2 & E2 & Ho2 & G).
  { unfold new_mem. destruct ((type =? RAMFS_TYPE_CHR) || (type =? RAMFS_TYPE_BLK)) eqn:Et.
    - exists s1. split_and!; [done|cbn; by rewrite Hoom|]. split; try done; cbn; lia.
    - erewrite bind_done by (apply slab_alloc_run; cbn; by rewrite Hoom). cbv beta iota.
      eexists. split; [reflexivity|]. split; [cbn; by rewrite Hoom|]. split; try done; cbn; lia. }
  apply runs_bind. eapply runs_intro; [exact E2|]. cbv beta iota.
  apply runs_bind, runs_modify, runs_ret. split_and!; [done|exact G|].
  destruct (new_inode_ok n type devid Ht) as (? & ? & ?); [rewrite <- (fi_len _ _ Hinv); lia|]. by eapply grown_inv.
Qed.

(** ** The two dots *)
Definition dots (ino parent : Z) : list dirent :=
  <[1%nat := dotdot_entry parent]> (<[0%nat := dot_entry ino]> zero_dir).

Lemma dot_entry_wf ino : dirent_wf (dot_entry ino) /\ cname (rd_name (dot_entry ino)) = [46].
Proof.
  split; [|done]. split; [done|by right; left|]. repeat constructor; done.
Qed.

Lemma dotdot_entry_wf ino : dirent_wf (dotdot_entry ino) /\ cname (rd_name (dotdot_entry ino)) = [46; 46].
Proof.
  split; [|done]. split; [done|by right; right; left|]. repeat constructor; done.
Qed.

Lemma zero_dir_entry nm i : entry_in zero_dir nm i -> nm = [].
Proof. intros (k & e & Hk & <- & _). by eapply zero_dir_names. Qed.

Lemma zero_dir_unique : names_unique zero_dir.
Proof. intros j k e f Hj _ _ []. by eapply zero_dir_names. Qed.

(** What a new directory contains. *)
Lemma dots_entries ino parent nm i :
  nm <> [] -> entry_in (dots ino parent) nm i <-> (nm = [46] /\ i = ino) \/ (nm = [46; 46] /\ i = parent).
Proof.
  intros Hnm. unfold dots.
  rewrite (entry_in_insert _ 1 zero_dirent) by done. rewrite (entry_in_insert _ 0 zero_dirent) by done.
  rewrite (proj2 (dot_entry_wf ino)), (proj2 (dotdot_entry_wf parent)).
  pose proof (zero_dir_entry nm i). cbn [rd_ino dot_entry dotdot_entry]. naive_solver.
Qed.

Lemma dots_ok ino parent y :
  rf_mode y = RAMFS_TYPE_DIR ->
  mem_ok (i_mem (MemDir (dots ino parent)) y) /\ forall m, dir_refs (dots ino parent) m = 0.
Proof.
  intros Hy. split.
  - unfold mem_ok. cbn [rf_mem i_mem rf_mode]. split_and!; [done|done| |].
    + apply Forall_insert; [|apply dotdot_entry_wf]. apply Forall_insert; [|apply dot_entry_wf].
      unfold zero_dir. apply Forall_replicate, zero_dirent_wf.
    + apply (names_unique_insert _ 1 zero_dirent); [|done|].
      * apply (names_unique_insert _ 0 zero_dirent); [apply zero_dir_unique|done|].
        intros _ i ?%zero_dir_entry. done.
      * intros _ i Hin. rewrite (entry_in_insert _ 0 zero_dirent) in Hin by done.
        destruct Hin as [?%zero_dir_entry|[? _]]; done.
  - intros m. unfold dots. rewrite (dir_refs_insert _ 1 zero_dirent) by done.
    rewrite (dir_refs_insert _ 0 zero_dirent), zero_dir_refs by done. done.
Qed.

Lemma rooted_same i n x x' :
  slot i n = Some x -> (forall m, node_refs (Some x') m = node_refs (Some x) m) ->
  rooted i -> rooted (set_slot n (Some x') i).
Proof.
  intros Hx Hs Hr d m. pose proof (slot_range _ _ _ Hx). rewrite fs_refs_set, Hx, Hs by done.
  destruct (decide (d = n)) as [->|].
  - rewrite slot_set_eq, Hs, <- Hx by done. intros [?|?]%Hr; [by left|right; lia].
  - rewrite slot_set_ne by (lia || done). intros [?|?]%Hr; [by left|right; lia].
Qed.

(** ** New names *)

(** In [s'] the directory [dir], inode [n], has the entries it had in [s] and
    the name [nm] for [ino]. *)
Definition added (s' : vst) (dir n : Z) (x : inode) (ents : list dirent) (nm : list Z) (ino : Z) : Prop :=
  exists x' ents', dir_at s' dir n x' ents' /\ rf_size x' = rf_size x + DIRENT_SIZE /\
    forall nm' i, nm' <> [] -> (entry_in ents' nm' i <-> entry_in ents nm' i \/ (nm' = nm /\ i = ino)).

Lemma grown_dir s s' dir n x ents m y :
  grown s s' m y -> dir_at s dir n x ents -> dir_at s' dir n x ents /\ n <> m.
Proof.
  intros G (Hv & Hx & Hm). pose proof (gr_free _ _ _ _ G).
  assert (n <> m) as Hne by congruence. split; [|done]. destruct (gr_vnodes _ _ _ _ G) as [Ev _].
  split; [by rewrite Ev|]. rewrite (grown_slot s s' m y n G). destruct (Z.eqb_spec n m); done.
Qed.

Lemma keeps_dir s s' dir n x ents :
  keeps s s' -> dir_at s dir n x ents -> exists k, dir_at s' dir n (i_link k x) ents.
Proof.
  intros K ((vn & Hv & Hvno) & Hx & Hm). destruct (kp_nodes _ _ K n x Hx) as [k Hk]. exists k. split; [|done].
  destruct (kp_vnodes _ _ K dir vn Hv) as (r & Hr & _). by eexists.
Qed.

Lemma named_added s s' dir n x ents nm ino x' ents' x0 :
  named s s' n x ents nm ino x' ents' -> dir_at s dir n x ents -> rf_size x0 = rf_size x ->
  added s' dir n x0 ents nm ino.
Proof.
  intros Hnd (Hv & _) Hsz. exists x', ents'. split_and!; [|by rewrite Hsz; apply Hnd|apply Hnd].
  split; [|split; apply Hnd]. by rewrite (nd_fs _ _ _ _ _ _ _ _ _ Hnd).
Qed.

Section NewNames.
Context `{Devs}.

Section In.
Context (s : vst) (dir n : Z) (x : inode) (ents : list dirent) (nm name : list Z) (len : Z).
Hypothesis Hinv : fs_inv no_debt s.
Hypothesis Hdir : dir_at s dir n x ents.
Hypothesis Hlinked : n = 0 \/ 0 < fs_refs (v_fs s) n.
Hypothesis Hname : name_arg nm name len.
Hypothesis Hno : forall i, ~ entry_in ents nm i.

(** The common first half: lookup, free entry, new inode. *)
Lemma new_name_prefix {A} (err : Z -> A) type devid (rest : Z * list dirent -> nat -> Z -> V A) (Q : A -> vst -> Prop) :
  inode_type type ->
  (find_free ents = None \/ first_empty (v_fs s) = None -> Q (err (- ENOSPC)) s) ->
  (forall k e s1, find_free ents = Some k -> first_empty (v_fs s) = Some e ->
     grown s s1 (Z.of_nat e) (new_inode (Z.of_nat e) type devid) ->
     fs_inv (fun m => if m =? Z.of_nat e then 1 else 0) s1 ->
     runs (rest (n, ents) k (Z.of_nat e)) s1 Q) ->
  runs (let* r := ramfs_lookup dir name len in
        kassert (negb (fst r =? 0)) ;;
        let* d := get_dirents dir in
        match find_free (snd d) with
        | None => ret (err (- ENOSPC))
        | Some k =>
            let* ino := ramfs_alloc_inode type devid in
            if ino <? 0 then ret (err ino) else rest d k ino
        end) s Q.
Proof.
  intros Ht Hfull Hok. apply runs_bind. eapply runs_intro; [by eapply lookup_miss|]. cbv beta. cbn [fst].
  apply runs_bind, runs_kassert; [done|]. apply runs_bind. eapply runs_intro; [by eapply get_dirents_at|].
  cbn [snd fst]. destruct (find_free ents) as [k|] eqn:Ef; [|apply runs_ret; auto].
  apply runs_bind. eapply runs_mono; [by apply alloc_run|]. intros ino s1. cbv beta.
  destruct (first_empty (v_fs s)) as [e|] eqn:Ee.
  - intros (-> & G & Hinv1). destruct (Z.ltb_spec (Z.of_nat e) 0); [lia|]. by eapply Hok.
  - intros [-> ->]. change (- ENOSPC <? 0) with true. apply runs_ret. auto.
Qed.
(** The steps that fill in the entry of a fresh inode. *)
Lemma fill_entry s1 k ino y :
  fs_inv (fun m => if m =? ino then 1 else 0) s1 ->
  fs_refs (v_fs s1) n = fs_refs (v_fs s) n -> find_free ents = Some k -> slot (v_fs s1) ino = Some y ->
  (exists x1, dir_at s1 dir n x1 ents /\ rf_size x1 = rf_size x) ->
  runs (set_entry n k ino name len ;;
        set_inode n (fun x => i_size (rf_size x + DIRENT_SIZE) x)) s1 (fun _ s2 =>
    fs_inv no_debt s2 /\ added s2 dir n x ents nm ino /\ s2 = upd_fs (fun _ => v_fs s2) s1 /\
    forall m, m <> n -> slot (v_fs s2) m = slot (v_fs s1) m).
Proof.
  intros Hinv1 Hrefs Ef Hy (x1 & Hdir1 & Hsz). pose proof Hdir1 as (_ & Hx1 & Hm1).
  eapply runs_mono; [eapply add_name; eauto|].
  - cbv beta. destruct (n =? ino); lia.
  - by rewrite Hrefs.
  - intros _ s2 (Hinv2 & x2 & ents2 & Hnd). split_and!; try apply Hnd.
    + eapply inv_ext; [exact Hinv2|]. intros m. unfold no_debt. cbv beta. destruct (m =? ino); lia.
    + eapply named_added; eauto.
Qed.

(** C1: [ramfs_create]: with a free entry and a free inode the directory gets
    the name for a new, empty regular file, whose vnode is returned with one
    reference; otherwise the call fails with [-ENOSPC] and changes nothing.  The
    accounting of links is kept. *)
Theorem ramfs_create_spec :
  runs (ramfs_create dir name len) s (fun r s' => fs_inv no_debt s' /\
    match find_free ents, first_empty (v_fs s) with
    | Some _, Some e => exists v vn y, r = (0, Some v) /\ added s' dir n x ents nm (Z.of_nat e) /\
        v_vnodes s' !! v = Some vn /\ vn_vno vn = Z.of_nat e /\ vn_mode vn = S_IFREG /\ vn_refcount vn = 1 /\
        slot (v_fs s') (Z.of_nat e) = Some y /\ rf_mem y = MemData zero_page /\ rf_size y = 0
    | _, _ => r = (- ENOSPC, None) /\ s' = s
    end).
Proof.
  apply (new_name_prefix (fun r => (r, None)) RAMFS_TYPE_DATA 0); [by left| |].
  { intros [->| ->]; [done|]. split; [done|]. by destruct (find_free ents). }
  intros k e s1 Hk He G Hinv1. rewrite Hk, He. set (ino := Z.of_nat e) in *.
  assert (slot (v_fs s1) ino = Some (new_inode ino RAMFS_TYPE_DATA 0)) as Hy.
  { rewrite (grown_slot _ _ _ _ _ G). by rewrite Z.eqb_refl. }
  destruct (grown_dir _ _ _ _ _ _ _ _ G Hdir) as [Hdir1 Hne].
  apply runs_bind. eapply runs_mono; [eapply vget_inv; [exact Hinv1|exact Hy|done]|].
  intros v s2 (Hinv2 & K & vn & Hv & Hvno & Hrc). cbv beta.
  apply runs_bind. eapply runs_intro; [by apply get_vnode_run|]. cbv beta. rewrite Hvno. cbn [fst].
  destruct (keeps_dir _ _ _ _ _ _ K Hdir1) as [c Hdir2].
  destruct (kp_nodes _ _ K _ _ Hy) as [c' Hy2].
  unfold runs. rewrite <- bind_assoc. apply runs_bind.
  eapply runs_mono; [eapply (fill_entry s2 k ino); eauto|].
  - rewrite (kp_refs _ _ K). eapply grown_refs; [exact G|]. apply new_inode_ok; [by left|].
    pose proof (gr_range _ _ _ _ G) as Hr. rewrite (fi_len _ _ Hinv) in Hr. lia.
  - intros _ s3 (Hinv3 & Hadd & E3 & Hoth). apply runs_ret. split; [done|].
    exists v, vn, (i_link c' (new_inode ino RAMFS_TYPE_DATA 0)).
    assert (slot (v_fs s3) ino = Some (i_link c' (new_inode ino RAMFS_TYPE_DATA 0))) as Hy3.
    { rewrite Hoth by done. exact Hy2. }
    assert (v_vnodes s3 !! v = Some vn) as Hv3 by (by rewrite E3).
    split_and!; try done.
    + rewrite <- Hvno in Hy3. by rewrite (fi_mode _ _ Hinv3 v vn _ Hv3 Hy3).
    + rewrite Hrc. destruct (v_vnodes s1 !! v) as [wn|] eqn:Ew; [|done]. exfalso.
      destruct (gr_vnodes _ _ _ _ G) as [Ev _]. rewrite Ev in Ew.
      destruct (kp_vnodes _ _ K v wn) as (r & Hr & _); [by rewrite Ev|]. 
      assert (vn_vno wn = ino) as Ewn by (rewrite Hv in Hr; injection Hr as ->; exact Hvno).
      destruct (vw_link s (fi_vn _ _ Hinv) v wn Ew) as (? & (? & Hs & _)%ramfs_nlink_Some & _).
      rewrite Ewn, (gr_free _ _ _ _ G) in Hs. done.
Qed.


(** [ramfs_mknod] with the mode of a character or block device: as
    [ramfs_create], the new inode carries the device number and no vnode is
    brought into memory. *)
Theorem ramfs_mknod_spec mode devid :
  S_ISCHR mode = true \/ S_ISBLK mode = true ->
  runs (ramfs_mknod dir name len mode devid) s (fun r s' => fs_inv no_debt s' /\
    match find_free ents, first_empty (v_fs s) with
    | Some _, Some e => exists y, r = 0 /\ added s' dir n x ents nm (Z.of_nat e) /\
        v_vnodes s' = v_vnodes s /\ slot (v_fs s') (Z.of_nat e) = Some y /\ rf_mem y = MemDev devid /\
        rf_mode y = (if S_ISCHR mode then RAMFS_TYPE_CHR else RAMFS_TYPE_BLK)
    | _, _ => r = - ENOSPC /\ s' = s
    end).
Proof.
  intros Hmode. set (type := if S_ISCHR mode then RAMFS_TYPE_CHR else RAMFS_TYPE_BLK).
  assert (inode_type type) as Ht by (unfold type, inode_type; destruct (S_ISCHR mode); auto).
  assert ((if S_ISCHR mode then ramfs_alloc_inode RAMFS_TYPE_CHR devid
           else if S_ISBLK mode then ramfs_alloc_inode RAMFS_TYPE_BLK devid
           else panic) = ramfs_alloc_inode type devid) as Ea.
  { unfold type. destruct (S_ISCHR mode); [done|]. by destruct Hmode as [| ->]. }
  unfold ramfs_mknod. rewrite Ea.
  apply (new_name_prefix (fun r => r) type devid); [done| |].
  { intros [->| ->]; [done|]. split; [done|]. by destruct (find_free ents). }
  intros k e s1 Hk He G Hinv1. rewrite Hk, He. set (ino := Z.of_nat e) in *.
  assert (slot (v_fs s1) ino = Some (new_inode ino type devid)) as Hy.
  { rewrite (grown_slot _ _ _ _ _ G). by rewrite Z.eqb_refl. }
  destruct (grown_dir _ _ _ _ _ _ _ _ G Hdir) as [Hdir1 Hne]. cbn [fst].
  unfold runs. rewrite <- bind_assoc. apply runs_bind.
  eapply runs_mono; [eapply (fill_entry s1 k ino); eauto|].
  - eapply grown_refs; [exact G|]. apply new_inode_ok; [done|].
    pose proof (gr_range _ _ _ _ G) as Hr. rewrite (fi_len _ _ Hinv) in Hr. lia.
  - intros _ s3 (Hinv3 & Hadd & E3 & Hoth). apply runs_ret. split; [done|].
    exists (new_inode ino type devid). split_and!; try done.
    + rewrite E3. apply G.
    + by rewrite Hoth.
    + unfold new_inode, new_mem, type. by destruct (S_ISCHR mode).
Qed.

Lemma mkdir_run :
  runs (ramfs_mkdir dir name len) s (fun r s' => fs_inv no_debt s' /\
    match find_free ents, first_empty (v_fs s) with
    | Some _, Some e => exists y sub, r = 0 /\ added s' dir n x ents nm (Z.of_nat e) /\
        v_vnodes s' = v_vnodes s /\ slot (v_fs s') (Z.of_nat e) = Some y /\ rf_mode y = RAMFS_TYPE_DIR /\
        rf_mem y = MemDir sub /\ rf_size y = 2 * DIRENT_SIZE /\
        (forall nm' i, nm' <> [] -> entry_in sub nm' i <->
           (nm' = [46] /\ i = Z.of_nat e) \/ (nm' = [46; 46] /\ i = n))
    | _, _ => r = - ENOSPC /\ s' = s
    end).
Proof.
  apply (new_name_prefix (fun r => r) RAMFS_TYPE_DIR 0); [by right; left| |].
  { intros [->| ->]; [done|]. split; [done|]. by destruct (find_free ents). }
  intros k e s1 Hk He G Hinv1. rewrite Hk, He. set (ino := Z.of_nat e) in *.
  pose proof (gr_range _ _ _ _ G) as Hr. rewrite (fi_len _ _ Hinv) in Hr.
  destruct (new_inode_ok ino RAMFS_TYPE_DIR 0) as (Hok & _ & Hnr); [by right; left|lia|].
  set (y := new_inode ino RAMFS_TYPE_DIR 0) in *.
  assert (slot (v_fs s1) ino = Some y) as Hy.
  { rewrite (grown_slot _ _ _ _ _ G). by rewrite Z.eqb_refl. }
  destruct (grown_dir _ _ _ _ _ _ _ _ G Hdir) as [Hdir1 Hne]. cbn [fst].
  unfold runs. rewrite <- bind_assoc. apply runs_bind.
  eapply runs_mono; [eapply (fill_entry s1 k ino); eauto; by eapply grown_refs|].
  intros _ s2 (Hinv2 & Hadd & E2 & Hoth).
  assert (slot (v_fs s2) ino = Some y) as Hy2 by (by rewrite Hoth).
  destruct Hdir1 as ((dvn & Hdv & Hdvno) & _).
  apply runs_bind. eapply runs_intro; [apply get_vnode_run; rewrite E2; exact Hdv|]. cbv beta. rewrite Hdvno.
  set (y3 := i_mem (MemDir (dots ino n)) y).
  apply runs_bind. eapply runs_intro.
  { unfold set_dirents, gets, bind, deref. rewrite Hy2. reflexivity. }
  cbv beta. change (i_mem (MemDir _) y) with y3. set (s3 := upd_fs _ s2).
  destruct (dots_ok ino n y eq_refl) as [Hm3 Hr3].
  assert (fs_inv no_debt s3) as Hinv3.
  { eapply inv_set; [exact Hinv2|exact Hy2|exact Hok|exact Hm3|done|done| | |].
    - intros m _. apply Hr3.
    - intros m. assert (node_refs (Some y3) m = 0) by apply Hr3. pose proof (Hnr m).
      change (rf_linkcount y3) with (rf_linkcount y). unfold no_debt. destruct (m =? ino); lia.
    - eapply rooted_same; [exact Hy2| |apply Hinv2]. intros m. rewrite Hnr. apply Hr3. }
  assert (slot (v_fs s3) ino = Some y3) as Hy3 by (apply slot_set_eq; by eapply slot_range).
  apply runs_bind. eapply runs_intro; [by eapply set_inode_run|]. cbv beta. apply runs_ret.
  split; [by apply size_inv|].
  exists (i_size (2 * DIRENT_SIZE) y3), (dots ino n). split_and!; try done.
  - destruct Hadd as (x2 & ents2 & (Hd2 & Hs2 & Hm2) & Hsz & Hent). exists x2, ents2. split; [|done].
    split; [exact Hd2|]. cbn [v_fs upd_fs s3]. rewrite !slot_set_ne by (lia || done). done.
  - cbn. rewrite E2. apply G.
  - apply slot_set_eq. by eapply slot_range.
  - apply dots_entries.
Qed.

(** [ramfs_mkdir]: the new inode is a directory with exactly the two dots,
    which refer to itself and to its parent. *)
Theorem ramfs_mkdir_spec :
  runs (ramfs_mkdir dir name len) s (fun r s' => fs_inv no_debt s' /\
    match find_free ents, first_empty (v_fs s) with
    | Some _, Some e => exists y sub, r = 0 /\ added s' dir n x ents nm (Z.of_nat e) /\
        v_vnodes s' = v_vnodes s /\ slot (v_fs s') (Z.of_nat e) = Some y /\ rf_mode y = RAMFS_TYPE_DIR /\
        rf_mem y = MemDir sub /\ rf_size y = 2 * DIRENT_SIZE /\
        (forall nm' i, nm' <> [] -> entry_in sub nm' i <->
           (nm' = [46] /\ i = Z.of_nat e) \/ (nm' = [46; 46] /\ i = n))
    | _, _ => r = - ENOSPC /\ s' = s
    end).
Proof. apply mkdir_run. Qed.
End In.
End NewNames.

(** ** Removed names *)

(** In [s'] the directory [dir], inode [n], has the entries it had but [nm]. *)
Definition removed (s' : vst) (dir n : Z) (x : inode) (ents : list dirent) (nm : list Z) : Prop :=
  exists x' ents', dir_at s' dir n x' ents' /\ rf_size x' = rf_size x - DIRENT_SIZE /\
    forall nm' i, nm' <> [] -> (entry_in ents' nm' i <-> entry_in ents nm' i /\ nm' <> nm).

(** The entry with its first character cleared. *)
Definition cleared (e : dirent) : dirent := Dirent (rd_ino e) (<[0%nat := 0]> (rd_name e)).

Lemma cleared_name e : dirent_wf e -> cname (rd_name (cleared e)) = [].
Proof. intros [Hl _ _]. cbn. destruct (rd_name e) as [|c b]; [done|]. done. Qed.

Lemma cleared_wf e : dirent_wf e -> dirent_wf (cleared e).
Proof.
  intros He. split.
  - cbn. rewrite length_insert. apply He.
  - cbn. destruct He as [Hl _ _]. destruct (rd_name e) as [|c b]; [done|]. by left.
  - by rewrite cleared_name.
Qed.

Section Removal.
Context `{Devs}.
Context (s : vst) (dir n : Z) (x : inode) (ents : list dirent) (nm name : list Z) (len ino v : Z) (vn : vnode) (y : inode).
Hypothesis Hinv : fs_inv no_debt s.
Hypothesis Hdir : dir_at s dir n x ents.
Hypothesis Hname : name_arg nm name len.
Hypothesis Hin : entry_in ents nm ino.
Hypothesis Hv : v_vnodes s !! v = Some vn.
Hypothesis Hvno : vn_vno vn = ino.
Hypothesis Hy : slot (v_fs s) ino = Some y.
Hypothesis Hchild : forall m, node_refs (Some y) m = 0.

Lemma removal_entry :
  exists k e, find_entry ents name len = Some (Some k) /\ ents !! k = Some e /\ cname (rd_name e) = nm /\
    rd_ino e = ino /\ dirent_wf e.
Proof using Hinv Hdir Hname Hin.
  clear Hchild Hy Hv Hvno.
  destruct (dir_wf _ s dir n x ents Hinv Hdir) as [Hwf Hu].
  destruct (find_entry_cases ents nm name len Hwf Hname) as [(k & e & E & Hk & Hc)|[_ Hno]]; [|by destruct (Hno ino)].
  exists k, e. split_and!; try done; [|by eapply Forall_lookup_1].
  destruct Hin as (j & f & Hj & Hcf & <-). assert (j = k) as ->; [|congruence].
  eapply Hu; eauto; [congruence|]. rewrite Hcf. apply Hname.
Qed.

Lemma removal_refs : 0 < node_refs (Some x) ino /\ n <> ino /\ 0 < fs_refs (v_fs s) ino.
Proof using Hinv Hdir Hname Hin Hy Hchild.
  clear Hv Hvno.
  destruct removal_entry as (k & e & _ & Hk & Hc & <- & _). destruct Hdir as (_ & Hx & Hm).
  pose proof (counted_refs ents k e Hk (plain_counted _ _ _ _ Hname Hc)) as Hr.
  assert (0 < node_refs (Some x) (rd_ino e)) as Hp by (cbn; rewrite Hm; lia).
  pose proof (node_refs_le (v_fs s) n (rd_ino e) (slot_range _ _ _ Hx)) as Hle. rewrite Hx in Hle.
  split_and!; [done| |lia]. intros E. specialize (Hchild (rd_ino e)). 
  rewrite E, Hy in Hx. injection Hx as <-. lia.
Qed.

Lemma removal_pos : 0 < rf_linkcount x /\ 1 < rf_linkcount y.
Proof.
  destruct removal_refs as (Hp & _ & Hr). destruct Hdir as (_ & Hx & _). split.
  - eapply linked_pos; eauto; [done|]. eapply (fi_rooted _ _ Hinv). by rewrite Hx.
  - rewrite (fi_link _ _ Hinv _ _ Hy). erewrite (held_in s); [|apply Hinv|by split].
    unfold root_link, no_debt. destruct (ino =? 0); lia.
Qed.

Lemma remove_name :
  runs (clear_entry n name len ;;
        set_inode n (fun x => i_size (rf_size x - DIRENT_SIZE) x) ;;
        let* o := get_inode v in
        set_inode (fst o) (fun x => i_link (rf_linkcount x - 1) x)) s (fun _ s3 =>
    fs_inv no_debt s3 /\ removed s3 dir n x ents nm /\ s3 = upd_fs (fun _ => v_fs s3) s /\
    slot (v_fs s3) ino = Some (i_link (rf_linkcount y - 1) y)).
Proof.
  destruct removal_entry as (k & e & Ef & Hk & Hc & He & Hewf). destruct removal_refs as (Hp & Hne & Href).
  destruct removal_pos as [Hxp Hyp]. pose proof Hdir as (Hdv & Hx & Hm).
  destruct (dir_wf _ s dir n x ents Hinv Hdir) as [Hwf Hu].
  pose proof (cleared_name e Hewf) as Hcl. pose proof (plain_counted _ _ _ _ Hname Hc) as Hcnt.
  set (x1 := with_entry x ents k (cleared e)). set (s1 := upd_fs (set_slot n (Some x1)) s).
  apply runs_bind. apply (runs_intro _ _ tt s1).
  { unfold clear_entry, gets, bind, deref. rewrite Hx, Hm, Ef, Hk.
    unfold set_dirents, gets, bind, deref, modify. by rewrite Hx, Hm. }
  cbv beta.
  assert (fs_inv (fun m => no_debt m - ref1 (cleared e) m + ref1 e m) s1) as Hinv1.
  { apply entry_inv; try done.
    - by apply cleared_wf.
    - eapply names_unique_insert; [done|done|]. by rewrite Hcl.
    - intros _. cbn. rewrite He, Hy. done.
    - eapply rooted_del; eauto; [apply Hinv|]. intros m. by rewrite He, Hy. }
  assert (slot (v_fs s1) n = Some x1) as Hx1 by (apply slot_set_eq; by eapply slot_range).
  apply runs_bind. eapply runs_intro; [by eapply set_inode_run|]. cbv beta.
  set (x2 := i_size (rf_size x1 - DIRENT_SIZE) x1). set (s2 := upd_fs _ s1).
  assert (fs_inv (fun m => no_debt m - ref1 (cleared e) m + ref1 e m) s2) as Hinv2 by (by apply size_inv).
  assert (slot (v_fs s2) ino = Some y) as Hy2.
  { pose proof (slot_range _ _ _ Hx). cbn. by rewrite !slot_set_ne by (lia || done). }
  assert (slot (v_fs s2) n = Some x2) as Hx2 by (apply slot_set_eq; by eapply slot_range).
  apply runs_bind. eapply runs_intro; [eapply get_inode_at; [exact Hinv2|exact Hv|by rewrite Hvno]|].
  cbn [fst]. rewrite Hvno. eapply runs_intro; [by eapply set_inode_run|]. cbv beta.
  split_and!; try done.
  - eapply inv_ext; [apply (link_inv _ s2 ino y (rf_linkcount y - 1) Hinv2 Hy2); lia|].
    intros m. unfold no_debt. rewrite (free_ref _ m Hcl). unfold ref1. rewrite Hcnt, He, (Z.eqb_sym m).
    cbn [andb]. destruct (ino =? m); lia.
  - exists x2, (<[k := cleared e]> ents). split_and!; [split; [exact Hdv|]|done|].
    + cbn [v_fs upd_fs]. rewrite slot_link by done. destruct (Z.eqb_spec n ino); [done|]. by split.
    + intros nm' i Hnm'. apply (entry_in_clear _ _ _ nm); try done. apply Hname.
  - cbn [v_fs upd_fs]. rewrite slot_link by done. by rewrite Z.eqb_refl.
Qed.

(** The vnode of the inode whose name went away is put; the inode goes with the
    last of its names and references. *)
Lemma remove_put :
  runs (clear_entry n name len ;;
        set_inode n (fun x => i_size (rf_size x - DIRENT_SIZE) x) ;;
        let* o := get_inode v in
        set_inode (fst o) (fun x => i_link (rf_linkcount x - 1) x) ;;
        vput (Some v) ;; ret 0) s (fun r s' => r = 0 /\
    fs_inv no_debt s' /\ removed s' dir n x ents nm /\
    (slot (v_fs s') ino = None <-> vn_refcount vn = 1 /\ fs_refs (v_fs s) ino + root_link ino = 1)).
Proof.
  destruct (runs_done _ _ _ remove_name) as ([] & s3 & E & Hinv3 & Hrem & Es & Hy3).
  apply bind_inv in E as ([] & s1 & E1 & E). apply bind_inv in E as ([] & s2 & E2 & E).
  apply bind_inv in E as (o & s2' & Eo & E3).
  unfold runs. krun E1. krun E2. krun Eo. krun E3. clear E1 E2 Eo E3 s1 s2 s2' o.
  destruct removal_refs as (_ & Hne & Href). destruct removal_pos as [_ Hyp].
  assert (v_vnodes s3 !! v = Some vn) as Hv3 by (by rewrite Es).
  pose proof (fi_link _ _ Hinv _ _ Hy) as Hl. erewrite (held_in s) in Hl; [|apply Hinv|by split].
  unfold no_debt in Hl.
  apply runs_bind. eapply runs_mono; [eapply vput_inv; [exact Hinv3|done|exact Hv3]|].
  intros _ s4 (Hinv4 & Hcase). cbv beta. apply runs_ret.
  destruct Hrem as (x' & ents' & ((dvn & Hdv & Hdvno) & Hx' & Hm') & Hsz & Hent).
  assert (dir <> v) as Hdne by congruence.
  destruct Hcase as [[Hgt ->]|(Heq & y' & Hy' & ->)]; split_and!; try done.
  - exists x', ents'. split; [|done]. split; [|done]. exists dvn. split; [|done].
    cbn. by rewrite lookup_insert_ne.
  - cbn. rewrite Hy3. split; [done|lia].
  - exists x', ents'. split; [|done]. split.
    + exists dvn. split; [|done]. cbn. by rewrite lookup_delete_ne.
    + rewrite Hvno in Hy' |- *. change (v_fs (thrown_out _ ?i _)) with i.
      rewrite <- Hvno in Hy' |- *. rewrite (drop_slot s3 vn) by done.
      rewrite Hvno. destruct (Z.eqb_spec n ino); done.
  - rewrite Hvno in Hy'. assert (y' = i_link (rf_linkcount y - 1) y) as -> by congruence.
    change (v_fs (thrown_out _ ?i _)) with i. rewrite <- Hvno at 2. rewrite (drop_slot s3 vn) by (by rewrite Hvno).
    rewrite Hvno, Z.eqb_refl. cbn [rf_linkcount i_link].
    destruct (Z.eqb_spec (rf_linkcount y - 1) 1); split; try done; lia.
Qed.
End Removal.

(** The test for an empty directory. *)
Lemma dir_empty_spec ents :
  Forall dirent_wf ents -> dir_empty ents = Some (bool_decide (Forall (fun e => counted e = false) ents)).
Proof.
  induction 1 as [|e ents He _ IH]; [done|]. cbn [dir_empty].
  destruct (cname_split (rd_name e)) as (r & E & Hn0); [apply He|].
  destruct (strcmp_zero (cname (rd_name e)) [46] r []) as (v1 & E1 & H1);
    [apply He|by repeat constructor|done|by apply not_elem_of_cons; split; [|apply not_elem_of_nil]|].
  destruct (strcmp_zero (cname (rd_name e)) [46; 46] r []) as (v2 & E2 & H2);
    [apply He|by repeat constructor|done|by repeat (apply not_elem_of_cons; split; [done|]); apply not_elem_of_nil|].
  rewrite <- E in E1, E2. change ([46] ++ 0 :: []) with dot in E1. change ([46; 46] ++ 0 :: []) with dotdot in E2.
  rewrite E1. cbn [mbind option_bind].
  assert (counted e = false -> dir_empty ents = Some (bool_decide (Forall (fun e => counted e = false) (e :: ents)))) as Hskip.
  { intros Hc. rewrite IH. f_equal. apply bool_decide_ext. rewrite Forall_cons. tauto. }
  assert (cname (rd_name e) = [] \/ cname (rd_name e) = [46] \/ cname (rd_name e) = [46; 46] -> counted e = false) as Hcf.
  { intros Hc. unfold counted. apply bool_decide_eq_false_2. tauto. }
  destruct (Z.eqb_spec v1 0) as [Ev1|Hv1]; [apply Hskip, Hcf; tauto|]. rewrite E2. cbn [mbind option_bind].
  destruct (Z.eqb_spec v2 0) as [Ev2|Hv2]; [apply Hskip, Hcf; tauto|].
  destruct (is_free e) eqn:Efr; [apply Hskip, Hcf; left; by apply is_free_spec|].
  rewrite bool_decide_eq_false_2; [done|]. intros [Hc _]%Forall_cons.
  unfold counted in Hc. apply bool_decide_eq_false in Hc. apply Hc.
  split_and!; try tauto. intros Hnil. apply is_free_spec in Hnil; [congruence|done].
Qed.

Lemma empty_refs ents m : Forall (fun e => counted e = false) ents -> dir_refs ents m = 0.
Proof. induction 1 as [|e ents He _ IH]; [done|]. cbn. unfold ref1. by rewrite He, IH. Qed.

(** A vnode is fresh from [vget] when its inode was not in memory. *)
Lemma fresh_held s s' v vn ino :
  vn_wf s -> vn_wf s' -> keeps s s' -> v_vnodes s' !! v = Some vn -> vn_vno vn = ino ->
  vn_refcount vn = 1 + match v_vnodes s !! v with Some wn => vn_refcount wn | None => 0 end ->
  (vn_refcount vn = 1 /\ held s ino = 0) \/ (1 < vn_refcount vn /\ held s ino = 1).
Proof.
  intros Hw Hw' K Hv Hvno Hrc. destruct (v_vnodes s !! v) as [wn|] eqn:E.
  - destruct (vw_ok s Hw v wn E) as (? & _). right. split; [lia|]. eapply held_in; [done|split; [exact E|]].
    destruct (kp_vnodes _ _ K v wn E) as (r & Hr & _). rewrite Hv in Hr. injection Hr as ->. done.
  - left. split; [lia|]. apply held_out. intros w wn [Hwn Hwno].
    destruct (kp_vnodes _ _ K w wn Hwn) as (r & Hr & _).
    assert (w = v) as -> by (eapply (vw_vno s' Hw'); eauto; cbn; congruence). congruence.
Qed.

Section Remove.
Context `{Devs}.
Context (s : vst) (dir n : Z) (x : inode) (ents : list dirent) (nm name : list Z) (len ino : Z) (y : inode).
Hypothesis Hinv : fs_inv no_debt s.
Hypothesis Hdir : dir_at s dir n x ents.
Hypothesis Hname : name_arg nm name len.
Hypothesis Hin : entry_in ents nm ino.
Hypothesis Hy : slot (v_fs s) ino = Some y.

(** The removal after the lookup that brought the vnode in. *)
Lemma remove_looked_up s1 v vn c :
  fs_inv no_debt s1 -> keeps s s1 -> v_vnodes s1 !! v = Some vn -> vn_vno vn = ino ->
  vn_refcount vn = 1 + match v_vnodes s !! v with Some wn => vn_refcount wn | None => 0 end ->
  slot (v_fs s1) ino = Some (i_link c y) -> (forall m, node_refs (Some y) m = 0) ->
  runs (let* d := get_inode dir in
        clear_entry (fst d) name len ;;
        set_inode (fst d) (fun x => i_size (rf_size x - DIRENT_SIZE) x) ;;
        let* o := get_inode v in
        set_inode (fst o) (fun x => i_link (rf_linkcount x - 1) x) ;;
        vput (Some v) ;; ret 0) s1 (fun r s' => r = 0 /\
    fs_inv no_debt s' /\ removed s' dir n x ents nm /\
    (slot (v_fs s') ino = None <-> fs_refs (v_fs s) ino + root_link ino + held s ino = 1)).
Proof.
  intros Hinv1 K Hv Hvno Hrc Hy1 Hch.
  destruct (keeps_dir _ _ _ _ _ _ K Hdir) as [c' Hdir1].
  pose proof Hdir1 as ((dvn & Hdv & Hdvno) & Hx1 & Hm1).
  apply runs_bind. eapply runs_intro; [eapply get_inode_at; [exact Hinv1|exact Hdv|by rewrite Hdvno]|].
  cbn [fst]. rewrite Hdvno.
  eapply runs_mono; [eapply (remove_put s1 dir n (i_link c' x) ents nm name len ino v vn (i_link c y)); done|].
  intros r s' (-> & Hinv' & Hrem & Hfree). cbv beta. split_and!; try done.
  rewrite Hfree, (kp_refs _ _ K).
  destruct (removal_refs s dir n x ents nm name len ino y Hinv Hdir Hname Hin Hy Hch) as (_ & _ & Hp).
  destruct (fresh_held s s1 v vn ino) as [[Hr Hh]|[Hr Hh]]; try done; [apply Hinv|apply Hinv1|lia|].
  unfold root_link. destruct (ino =? 0); lia.
Qed.

Lemma looked_mode s1 v vn c :
  fs_inv no_debt s1 -> v_vnodes s1 !! v = Some vn -> vn_vno vn = ino -> slot (v_fs s1) ino = Some (i_link c y) ->
  S_ISDIR (vn_mode vn) = bool_decide (rf_mode y = RAMFS_TYPE_DIR).
Proof.
  intros Hinv1 Hv Hvno Hs. rewrite <- Hvno in Hs. rewrite (fi_mode _ _ Hinv1 _ _ _ Hv Hs). unfold attr_of.
  cbn [rf_mode i_link]. destruct (Z.eqb_spec (rf_mode y) RAMFS_TYPE_DIR) as [->|Hne]; [done|].
  rewrite bool_decide_eq_false_2 by done.
  by destruct (rf_mode y =? RAMFS_TYPE_DATA), (rf_mode y =? RAMFS_TYPE_CHR).
Qed.

(** [ramfs_unlink] of a name that is not a directory's: the name is gone and
    nothing else of the directory changes; the inode is freed exactly when this
    was its last name and its vnode was not in memory. *)
Theorem ramfs_unlink_spec :
  rf_mode y <> RAMFS_TYPE_DIR ->
  runs (ramfs_unlink dir name len) s (fun r s' => r = 0 /\
    fs_inv no_debt s' /\ removed s' dir n x ents nm /\
    (slot (v_fs s') ino = None <-> fs_refs (v_fs s) ino + root_link ino + held s ino = 1)).
Proof.
  intros Hmode. unfold ramfs_unlink. apply runs_bind. eapply runs_mono; [by eapply lookup_hit|].
  intros r s1 (v & vn & -> & _ & Hinv1 & K & Hv & Hvno & Hrc). cbv beta. cbn [fst snd].
  apply runs_bind, runs_kassert; [done|]. apply runs_bind, (runs_deref _ v); [done|]. cbv beta.
  apply runs_bind. eapply runs_intro; [by apply get_vnode_run|]. cbv beta.
  destruct (kp_nodes _ _ K _ _ Hy) as [c Hy1].
  apply runs_bind, runs_kassert.
  { by rewrite (looked_mode s1 v vn c Hinv1 Hv Hvno Hy1), bool_decide_eq_false_2. }
  eapply remove_looked_up; try done. intros m. destruct (fi_node _ _ Hinv _ _ Hy) as [_ Hmem].
  unfold mem_ok in Hmem. cbn. destruct (rf_mem y); [by destruct Hmem|done|done].
Qed.

Lemma put_back v s1 :
  vget ino s = Done v s1 ->
  runs (vput (Some v)) s1 (fun _ s' => s' = set_vfresh (v_fresh s') (set_oom (v_oom s') s)).
Proof.
  intros E. destruct (dir_wf _ s dir n x ents Hinv Hdir) as [Hwf _]. destruct Hdir as (_ & Hx & Hm).
  destruct Hin as (k & e & Hk & Hc & He).
  destruct (named_inode _ _ _ _ _ _ _ _ _ _ Hinv (fun _ => Z.le_refl 0) Hx Hm Hk Hc Hname) as (z & Hz & Hp & _).
  rewrite He in Hz. assert (z = y) as -> by congruence.
  destruct (fi_node _ _ Hinv _ _ Hy) as [Hok _].
  assert (nlink (v_fs s) ino = Some (rf_linkcount y)) as Hn.
  { cbn. unfold ramfs_nlink. by rewrite Hy, Hok. }
  pose proof (vget_vput_run s ino _ (fi_vn _ _ Hinv) Hn Hp) as Hr. unfold runs in *. rewrite (fi_mem _ _ Hinv) in Hr.
  specialize (Hr eq_refl). by rewrite (bind_done _ _ _ _ _ E) in Hr.
Qed.

Lemma dots_no_match :
  name_match dot name (Z.to_nat len) = Some false /\ name_match dotdot name (Z.to_nat len) = Some false.
Proof.
  destruct (na_plain _ _ _ Hname) as (_ & H1 & H2). pose proof (name_fits _ _ _ Hname).
  pose proof (na_char _ _ _ Hname). pose proof (name_take _ _ _ Hname) as Ht.
  change dot with ([46] ++ 0 :: []). change dotdot with ([46; 46] ++ 0 :: []).
  rewrite !name_match_spec, Ht; try done; try by repeat constructor.
  - rewrite !bool_decide_eq_false_2 by congruence. done.
  - by repeat (apply not_elem_of_cons; split; [done|]); apply not_elem_of_nil.
  - by apply not_elem_of_cons; split; [done|]; apply not_elem_of_nil.
Qed.

(** [ramfs_rmdir]: an empty directory loses its name, and its inode is freed
    when its vnode was not in memory; a name for something else is refused with
    [-ENOTDIR], a directory with entries with [-ENOTEMPTY], and then nothing
    changes but the allocator's counters. *)
Theorem ramfs_rmdir_spec :
  runs (ramfs_rmdir dir name len) s (fun r s' =>
    match rf_mem y with
    | MemDir sub =>
        if bool_decide (Forall (fun e => counted e = false) sub)
        then r = 0 /\ fs_inv no_debt s' /\ removed s' dir n x ents nm /\
          (slot (v_fs s') ino = None <-> fs_refs (v_fs s) ino + root_link ino + held s ino = 1)
        else r = - ENOTEMPTY /\ s' = set_vfresh (v_fresh s') (set_oom (v_oom s') s)
    | _ => r = - ENOTDIR /\ s' = set_vfresh (v_fresh s') (set_oom (v_oom s') s)
    end).
Proof.
  unfold ramfs_rmdir.
  destruct dots_no_match as [Ed Edd].
  apply runs_bind, (runs_deref _ false); [done|]. cbv beta. apply runs_bind, (runs_deref _ false); [done|].
  cbv beta. apply runs_bind, runs_kassert; [done|]. apply runs_bind. eapply runs_mono; [by eapply lookup_hit|].
  intros r s1 (v & vn & -> & Eg & Hinv1 & K & Hv & Hvno & Hrc). cbv beta. cbn [fst snd Z.eqb negb].
  apply runs_bind, (runs_deref _ v); [done|]. cbv beta.
  apply runs_bind. eapply runs_intro; [by apply get_vnode_run|]. cbv beta.
  destruct (kp_nodes _ _ K _ _ Hy) as [c Hy1]. rewrite (looked_mode s1 v vn c Hinv1 Hv Hvno Hy1).
  destruct (fi_node _ _ Hinv _ _ Hy) as [_ Hmem]. unfold mem_ok in Hmem.
  destruct (rf_mem y) as [sub|bytes|dev] eqn:Em.
  - destruct Hmem as (Hmd & _ & Hwf & _). rewrite bool_decide_eq_true_2 by done. cbn [negb].
    apply runs_bind. eapply runs_intro; [eapply (get_dirents_at _ s1 v ino (i_link c y) sub Hinv1)|].
    { split; [by exists vn|]. by split. }
    cbv beta. cbn [snd]. rewrite (dir_empty_spec sub Hwf).
    apply runs_bind, (runs_deref _ (bool_decide (Forall (fun e => counted e = false) sub))); [done|]. cbv beta.
    destruct (bool_decide_reflect (Forall (fun e => counted e = false) sub)) as [Hempty|Hfull]; cbn [negb].
    + eapply remove_looked_up; try done. intros m. cbn. rewrite Em. by apply empty_refs.
    + apply runs_bind. eapply runs_mono; [by apply put_back|]. intros ? s' Hs'. by apply runs_ret.
  - rewrite bool_decide_eq_false_2 by (destruct Hmem as [-> _]; done). cbn [negb].
    apply runs_bind. eapply runs_mono; [by apply put_back|]. intros ? s' Hs'. by apply runs_ret.
  - rewrite bool_decide_eq_false_2 by (destruct Hmem as [-> | ->]; done). cbn [negb].
    apply runs_bind. eapply runs_mono; [by apply put_back|]. intros ? s' Hs'. by apply runs_ret.
Qed.
End Remove.

End RamfsDir.
