(* ===== verification/RamfsDemo.v ===== *)
(** * Mounted file systems

    A checker for the invariant of [RamfsSpec], the proof that [ramfs_mount]
    establishes the invariant, and concrete file systems on which the theorems
    about vnodes and the RAM file system are applied. *)

From Stdlib Require Import ZArith Lia.
From stdpp Require Import base list gmap.
From S2P Require Import Prelude KString Vnode Ramfs RamfsSpec RamfsDir.

Module RamfsDemo.
Import KString Vnode Ramfs RamfsSpec RamfsDir.
Local Open Scope Z_scope.

(** ** The checker *)
Definition is_charb (c : Z) : bool := (-128 <=? c) && (c <? 128).

Definition dirent_check (e : dirent) : bool :=
  Nat.eqb (length (rd_name e)) (Z.to_nat NAME_LEN) && bool_decide (0 ∈ rd_name e) && forallb is_charb (rd_name e).

Definition named_list (ents : list dirent) : list (list Z) :=
  filter (fun nm => nm <> []) (List.map (fun e => cname (rd_name e)) ents).

Definition mem_check (x : inode) : bool :=
  match rf_mem x with
  | MemDir ents => (rf_mode x =? RAMFS_TYPE_DIR) && Nat.eqb (length ents) RAMFS_MAX_DIRENT &&
      forallb dirent_check ents && bool_decide (NoDup (named_list ents))
  | MemData bytes => (rf_mode x =? RAMFS_TYPE_DATA) && (Z.of_nat (length bytes) =? PAGE_SIZE)
  | MemDev _ => (rf_mode x =? RAMFS_TYPE_CHR) || (rf_mode x =? RAMFS_TYPE_BLK)
  end.

Definition inos : list Z := seqZ 0 (Z.of_nat RAMFS_MAX_FILES).

(** The directory [n] refers to files in range only, and is linked if to any. *)
Definition refs_check (i : ramfs) (n : Z) : bool :=
  match slot i n with
  | Some x =>
      match rf_mem x with
      | MemDir ents =>
          let l := filter (fun e => counted e = true) ents in
          forallb (fun e => (0 <=? rd_ino e) && (rd_ino e <? Z.of_nat RAMFS_MAX_FILES)) l &&
          (bool_decide (l = []) || (n =? 0) || (0 <? fs_refs i n))
      | _ => true
      end
  | None => true
  end.

Definition node_check (s : vst) (n : Z) : bool :=
  match slot (v_fs s) n with
  | Some x => inode_ok n x && mem_check x &&
      (rf_linkcount x =? fs_refs (v_fs s) n + root_link n + held s n)
  | None => fs_refs (v_fs s) n =? 0
  end.

Definition vnode_check (s : vst) (v : Z) (vn : vnode) : bool :=
  (0 <? vn_refcount vn) && (vn_nrespages vn =? 0) && (vn_flags vn =? 0) && (v <? v_fresh s) &&
  bool_decide (vn_i vn = Some (vn_vno vn)) &&
  match slot (v_fs s) (vn_vno vn) with
  | Some x => inode_ok (vn_vno vn) x && (0 <? rf_linkcount x) && (vn_mode vn =? a_mode (attr_of (vn_vno vn) x))
  | None => false
  end.

Definition inv_check (s : vst) : bool :=
  Nat.eqb (length (v_fs s)) RAMFS_MAX_FILES && bool_decide (is_Some (slot (v_fs s) 0)) &&
  forallb (node_check s) inos && forallb (refs_check (v_fs s)) inos &&
  forallb (fun p => vnode_check s (fst p) (snd p)) (map_to_list (v_vnodes s)) &&
  bool_decide (NoDup (v_inuse s)) &&
  forallb (fun v => bool_decide (is_Some (v_vnodes s !! v))) (v_inuse s) &&
  forallb (fun p => bool_decide (fst p ∈ v_inuse s)) (map_to_list (v_vnodes s)) &&
  bool_decide (NoDup (List.map (fun p => vn_vno (snd p)) (map_to_list (v_vnodes s)))) &&
  bool_decide (v_oom s = []).

Lemma dirent_check_sound e : dirent_check e = true -> dirent_wf e.
Proof.
  unfold dirent_check. intros [[H1 H2]%andb_prop H3]%andb_prop. split.
  - by apply Nat.eqb_eq.
  - by apply bool_decide_eq_true in H2.
  - apply bool_decide_eq_true in H2. destruct (cname_split _ H2) as (r & E & _).
    apply Is_true_true_2, forallb_True in H3. rewrite E in H3. apply Forall_app in H3 as [H3 _].
    eapply Forall_impl; [exact H3|]. intros c Hc%Is_true_true. unfold is_charb in Hc. unfold is_char. lia.
Qed.

Lemma named_list_unique ents : NoDup (named_list ents) -> names_unique ents.
Proof.
  unfold named_list. intros Hnd j k e f Hj Hk E Hne. revert j k Hj Hk Hnd.
  assert (forall k g es, es !! k = Some g -> cname (rd_name g) = cname (rd_name e) ->
    cname (rd_name e) ∈ filter (fun nm => nm <> []) (List.map (fun e => cname (rd_name e)) es)) as Hin.
  { intros k g es Hg Hc. apply list_elem_of_filter. split; [done|]. rewrite <- Hc.
    apply list_elem_of_In, (in_map (fun e => cname (rd_name e))), list_elem_of_In. by eapply list_elem_of_lookup_2. }
  induction ents as [|x ents IH]; intros [|j] [|k] Hj Hk Hnd; try done.
  - injection Hj as ->. cbn [List.map] in Hnd. rewrite filter_cons_True in Hnd by done.
    apply NoDup_cons in Hnd as [Hni _]. exfalso. apply Hni. by eapply Hin.
  - injection Hk as ->. cbn [List.map] in Hnd. rewrite filter_cons_True in Hnd by (by rewrite <- E).
    apply NoDup_cons in Hnd as [Hni _]. exfalso. apply Hni. rewrite <- E. by eapply Hin.
  - f_equal. apply (IH j k Hj Hk). cbn [List.map] in Hnd. rewrite filter_cons in Hnd.
    destruct (decide _); [by apply NoDup_cons in Hnd as [_ ?]|done].
Qed.

Lemma mem_check_sound x : mem_check x = true -> mem_ok x.
Proof.
  unfold mem_check, mem_ok. destruct (rf_mem x).
  - intros [[[H1 H2]%andb_prop H3]%andb_prop H4]%andb_prop. split_and!; [lia|by apply Nat.eqb_eq| |].
    + apply Is_true_true_2, forallb_True in H3. eapply Forall_impl; [exact H3|]. intros e He. by apply dirent_check_sound, Is_true_true.
    + apply named_list_unique. by apply bool_decide_eq_true in H4.
  - intros [H1 H2]%andb_prop. lia.
  - intros [H1|H1]%orb_prop; [left|right]; lia.
Qed.

Lemma forallb_at {A} (f : A -> bool) l x : forallb f l = true -> x ∈ l -> f x = true.
Proof. intros Hf Hx. eapply forallb_forall; [exact Hf|by apply list_elem_of_In]. Qed.

Lemma inos_in n : 0 <= n < Z.of_nat RAMFS_MAX_FILES -> n ∈ inos.
Proof. intros. apply elem_of_seqZ. lia. Qed.

Lemma dir_refs_elem ents m : 0 < dir_refs ents m -> exists e, e ∈ ents /\ counted e = true /\ rd_ino e = m.
Proof.
  induction ents as [|e ents IH]; cbn; [lia|]. unfold ref1. destruct (counted e) eqn:Ec; cbn [andb].
  - destruct (Z.eqb_spec (rd_ino e) m).
    + intros _. exists e. split; [by left|done].
    + intros (f & ? & ?)%IH. exists f. split; [by right|done].
  - intros (f & ? & ?)%IH. exists f. split; [by right|done].
Qed.

Lemma fs_refs_elem i m : 0 < fs_refs i m -> exists n x ents e,
  slot i n = Some x /\ rf_mem x = MemDir ents /\ e ∈ ents /\ counted e = true /\ rd_ino e = m.
Proof.
  intros Hp. assert (exists k x, i !! k = Some (Some x) /\ 0 < node_refs (Some x) m) as (k & x & Hk & Hx).
  { induction i as [|[x|] i IH]; cbn in Hp; [lia| |].
    - destruct (decide (0 < node_refs (Some x) m)) as [?|Hn]; [by exists 0%nat, x|].
      destruct IH as (k & y & ? & ?); [cbn in Hn; lia|]. by exists (S k), y.
    - destruct IH as (k & y & ? & ?); [lia|]. by exists (S k), y. }
  cbn in Hx. destruct (rf_mem x) as [ents| |] eqn:Em; [|lia|lia].
  destruct (dir_refs_elem ents m Hx) as (e & He & Hc & Hr). exists (Z.of_nat k), x, ents, e.
  split_and!; try done. apply slot_lookup. rewrite Nat2Z.id. split; [lia|done].
Qed.

Section Sound.
Context (s : vst).
Hypothesis Hlen : length (v_fs s) = RAMFS_MAX_FILES.
Hypothesis Hroot : is_Some (slot (v_fs s) 0).
Hypothesis Hnode : forallb (node_check s) inos = true.
Hypothesis Hrefs : forallb (refs_check (v_fs s)) inos = true.
Hypothesis Hvn : forall v vn, v_vnodes s !! v = Some vn -> vnode_check s v vn = true.

Lemma slot_in n x : slot (v_fs s) n = Some x -> n ∈ inos.
Proof using Hlen. intros Hx%slot_range. apply inos_in. rewrite Hlen in Hx. lia. Qed.

Lemma check_refs n x ents : slot (v_fs s) n = Some x -> rf_mem x = MemDir ents ->
  (forall e, e ∈ ents -> counted e = true -> 0 <= rd_ino e < Z.of_nat RAMFS_MAX_FILES) /\
  (forall e, e ∈ ents -> counted e = true -> n = 0 \/ 0 < fs_refs (v_fs s) n).
Proof using Hlen Hrefs.
  intros Hx Hm. pose proof (forallb_at _ _ _ Hrefs (slot_in n x Hx)) as Hc. unfold refs_check in Hc.
  rewrite Hx, Hm in Hc. apply andb_prop in Hc as [H1 H2]. split; intros e He Hce.
  - assert (e ∈ filter (fun e => counted e = true) ents) as Hin by (by apply list_elem_of_filter).
    pose proof (forallb_at _ _ _ H1 Hin) as Hb. cbv beta in Hb. lia.
  - assert (e ∈ filter (fun e => counted e = true) ents) as Hin by (by apply list_elem_of_filter).
    apply orb_prop in H2 as [[H2|H2]%orb_prop|H2]; [|left; lia|right; lia].
    apply bool_decide_eq_true in H2. rewrite H2 in Hin. by apply elem_of_nil in Hin.
Qed.

Lemma check_none n : slot (v_fs s) n = None -> fs_refs (v_fs s) n = 0.
Proof using Hlen Hrefs Hnode.
  intros Hn. destruct (decide (0 < fs_refs (v_fs s) n)) as [Hp|]; [|pose proof (fs_refs_nonneg (v_fs s) n); lia].
  destruct (fs_refs_elem _ _ Hp) as (d & x & ents & e & Hx & Hm & He & Hc & <-).
  destruct (check_refs d x ents Hx Hm) as [Hr _]. specialize (Hr e He Hc).
  pose proof (forallb_at _ _ _ Hnode (inos_in _ Hr)) as H1. unfold node_check in H1. rewrite Hn in H1. lia.
Qed.

Lemma check_node n x : slot (v_fs s) n = Some x ->
  inode_ok n x = true /\ mem_ok x /\ rf_linkcount x = fs_refs (v_fs s) n + root_link n + held s n.
Proof using Hlen Hnode.
  intros Hx. pose proof (forallb_at _ _ _ Hnode (slot_in n x Hx)) as H1. unfold node_check in H1. rewrite Hx in H1.
  apply andb_prop in H1 as [[H1 H2%mem_check_sound]%andb_prop H3]. split_and!; try done. lia.
Qed.

Lemma check_vnode v vn : v_vnodes s !! v = Some vn ->
  (0 < vn_refcount vn /\ vn_nrespages vn = 0 /\ vn_flags vn = 0 /\ v < v_fresh s) /\
  vn_i vn = Some (vn_vno vn) /\ exists x, slot (v_fs s) (vn_vno vn) = Some x /\ inode_ok (vn_vno vn) x = true /\
    0 < rf_linkcount x /\ vn_mode vn = a_mode (attr_of (vn_vno vn) x).
Proof using Hvn.
  clear Hlen Hroot Hnode Hrefs.
  intros H1%Hvn. unfold vnode_check in H1. apply andb_prop in H1 as [[H1 H2]%andb_prop H3].
  apply bool_decide_eq_true in H2. split; [lia|]. split; [done|].
  destruct (slot (v_fs s) (vn_vno vn)) as [x|]; [|done]. exists x. split; [done|].
  apply andb_prop in H3 as [[H3 H4]%andb_prop H5]. split_and!; [done|lia|lia].
Qed.

Lemma check_rooted : rooted (v_fs s).
Proof using Hlen Hrefs.
  intros d m Hp. destruct (slot (v_fs s) d) as [x|] eqn:Hx; [|cbn in Hp; lia]. cbn in Hp.
  destruct (rf_mem x) as [ents| |] eqn:Em; [|lia|lia].
  destruct (dir_refs_elem _ _ Hp) as (e & He & Hc & _). by apply (check_refs d x ents Hx Em) in He.
Qed.

Lemma check_inv : vn_wf s -> v_oom s = [] -> fs_inv no_debt s.
Proof using Hlen Hroot Hnode Hrefs Hvn.
  intros Hw Hoom. split; try done.
  - intros v vn Hv. by destruct (check_vnode v vn Hv) as (_ & ? & _).
  - intros n x Hx. destruct (check_node n x Hx) as (? & ? & _). done.
  - intros n x Hx. destruct (check_node n x Hx) as (_ & _ & ->). unfold no_debt. lia.
  - intros n Hx. split; [by apply check_none|done].
  - intros v vn x Hv Hx. destruct (check_vnode v vn Hv) as (_ & _ & y & Hy & _ & _ & E). congruence.
  - apply check_rooted.
Qed.
End Sound.

Lemma inv_check_sound s : inv_check s = true -> fs_inv no_debt s.
Proof.
  unfold inv_check. rewrite !andb_true_iff. intros (((((((((H1 & H2) & H3) & H4) & H5) & H6) & H7) & H8) & H9) & H10).
  apply Nat.eqb_eq in H1. apply bool_decide_eq_true in H2, H6, H9, H10.
  assert (forall v vn, v_vnodes s !! v = Some vn -> vnode_check s v vn = true) as Hvn.
  { intros v vn Hv%elem_of_map_to_list. exact (forallb_at _ _ _ H5 Hv). }
  apply check_inv; try done. split; [done| | | |].
  - intros v. split.
    + intros Hv. pose proof (forallb_at _ _ _ H7 Hv) as E. by apply bool_decide_eq_true in E.
    + intros [vn Hv%elem_of_map_to_list]. pose proof (forallb_at _ _ _ H8 Hv) as E. by apply bool_decide_eq_true in E.
  - intros v w vn wn Hv%elem_of_map_to_list Hw%elem_of_map_to_list E.
    apply list_elem_of_lookup_1 in Hv as [j Hj]. apply list_elem_of_lookup_1 in Hw as [k Hk].
    assert (j = k) as ->; [|congruence].
    eapply (NoDup_lookup _ j k (vn_vno vn)); [exact H9| |].
    + rewrite list_lookup_fmap, Hj. done.
    + rewrite list_lookup_fmap, Hk. cbn. congruence.
  - intros v vn Hv. by destruct (check_vnode s Hvn v vn Hv) as (? & _).
  - intros v vn Hv. destruct (check_vnode s Hvn v vn Hv) as (_ & _ & x & Hx & Hok & Hp & _).
    exists (rf_linkcount x). split; [|done]. cbn. unfold ramfs_nlink. by rewrite Hx, Hok.
Qed.

(** ** Mounting *)
Definition fresh_fs : ramfs :=
  set_slot 0 (Some (Inode (2 * DIRENT_SIZE) 0 (MemDir (dots 0 0)) RAMFS_TYPE_DIR 1)) (replicate RAMFS_MAX_FILES None).

Section Mount.
Context `{Devs}.

Lemma fresh_fs_inv (s : vst) :
  v_vnodes s = ∅ -> v_inuse s = [] -> v_oom s = [] -> v_fs s = fresh_fs -> fs_inv no_debt s.
Proof. intros. apply inv_check_sound. destruct s. cbn in *. subst. vm_compute. reflexivity. Qed.

(** The root is a directory with the two dots, both itself, and its vnode is in
    memory with one reference. *)
Definition bare_root (s : vst) : Prop :=
  exists v vn x ents, vfs_root_vn s = Some v /\ dir_at s v 0 x ents /\
    v_vnodes s !! v = Some vn /\ vn_mode vn = S_IFDIR /\ vn_refcount vn = 1 /\
    (forall nm i, nm <> [] -> entry_in ents nm i <-> (nm = [46] /\ i = 0) \/ (nm = [46; 46] /\ i = 0)).

Lemma root_inv d (s : vst) r : fs_inv d s -> fs_inv d (set_root r s).
Proof.
  intros [Hw ? ? ? ? ? ? ? ? ?]. split; try assumption. destruct Hw. split; assumption.
Qed.

(** [ramfs_mount] of an empty layer makes the root: a directory, inode 0,
    with the two dots, both itself; its vnode is in memory with one reference
    and the accounting of links holds. *)
Theorem ramfs_mount_spec (s : vst) :
  v_vnodes s = ∅ -> v_inuse s = [] -> v_oom s = [] ->
  runs ramfs_mount s (fun r s' => r = 0 /\ fs_inv no_debt s' /\
    bare_root s').
Proof.
  intros Ev Ei Eo. unfold ramfs_mount.
  apply runs_bind. eapply runs_intro; [apply slab_alloc_run; by rewrite Eo|]. cbv beta iota.
  apply runs_bind, runs_modify. set (s1 := upd_fs _ _).
  assert (exists s2, ramfs_alloc_inode RAMFS_TYPE_DIR 0 s1 = Done 0 s2 /\
    s2 = upd_fs (fun _ => set_slot 0 (Some (Inode 0 0 (MemDir zero_dir) RAMFS_TYPE_DIR 1)) (replicate RAMFS_MAX_FILES None))
           (set_vfresh (v_fresh s2) s)) as (s2 & E2 & Es2).
  { unfold s1. destruct s; cbn in *; subst. eexists. split; reflexivity. }
  apply runs_bind. eapply runs_intro; [exact E2|]. cbv beta. change (0 <? 0) with false. cbv iota.
  apply runs_bind, runs_kassert; [done|]. unfold runs. rewrite <- bind_assoc. apply runs_bind.
  set (s3 := upd_fs (fun _ => fresh_fs) s2).
  apply (runs_intro _ _ tt s3).
  { rewrite Es2. unfold s3. rewrite Es2. destruct s; cbn in *; subst. reflexivity. }
  cbv beta. apply runs_bind.
  assert (fs_inv no_debt s3) as Hinv.
  { apply fresh_fs_inv; [..|done]; unfold s3; rewrite Es2; cbn; done. }
  eapply runs_mono; [eapply vget_inv; [exact Hinv|reflexivity|done]|].
  intros v s4 (Hinv4 & K & vn & Hv & Hvno & Hrc). cbv beta.
  apply runs_bind, runs_modify, runs_ret. split; [done|].
  assert (v_vnodes s3 = ∅) as Ev3 by (unfold s3; rewrite Es2; exact Ev).
  rewrite Ev3, lookup_empty in Hrc.
  destruct (kp_nodes _ _ K 0 _ eq_refl) as [c Hc]. split.
  - by apply root_inv.
  - eexists v, vn, _, (dots 0 0). split_and!; try done.
    + split; [by exists vn|]. split; [exact Hc|done].
    + rewrite <- Hvno in Hc. by rewrite (fi_mode _ _ Hinv4 _ _ _ Hv Hc).
    + intros nm i Hnm. by rewrite dots_entries.
Qed.
End Mount.

(** ** A concrete file system

    The root (vnode 4, inode 0) with the file ["f"] (vnode 7, inode 1) and the
    directory ["d"] (inode 2, not in memory). *)
#[local] Instance no_devs : Devs := {| bytedev_lookup := fun _ => None; blockdev_lookup := fun _ => None |}.

Definition boot_vst : vst := VState ∅ [] [] None ∅ (replicate 32 None) None 1 [].

Definition run_of {A} (m : V A) (s : vst) : vst := match m s with Done _ s' => s' | _ => s end.

Definition demo : vst :=
  run_of (ramfs_mount ;;
          let* r := gets vfs_root_vn in
          let* v := deref r in
          ramfs_create v [102; 0] 1 ;; ramfs_mkdir v [100; 0] 1) boot_vst.

Definition node_at (i : ramfs) (n : Z) : inode := default (new_inode 0 0 0) (slot i n).
Definition ents_at (i : ramfs) (n : Z) : list dirent :=
  match rf_mem (node_at i n) with MemDir ents => ents | _ => [] end.
Definition bytes_at (i : ramfs) (n : Z) : list Z :=
  match rf_mem (node_at i n) with MemData b => b | _ => [] end.
Definition vn_at (s : vst) (v : Z) : vnode :=
  default (Vnode NullOps 0 0 0 None 0 None None 0 0 0) (v_vnodes s !! v).

Lemma demo_inv : fs_inv no_debt demo.
Proof. apply inv_check_sound. vm_compute. reflexivity. Qed.

Lemma demo_root : dir_at demo 4 0 (node_at (v_fs demo) 0) (ents_at (v_fs demo) 0).
Proof. split; [exists (vn_at demo 4); split|split]; vm_compute; reflexivity. Qed.

Lemma one_char_name c : -128 <= c < 128 -> c <> 0 -> c <> 46 -> name_arg [c] [c; 0] 1.
Proof.
  intros H1 H2 H3. split; [by exists []|repeat constructor; unfold is_char; lia| |done|cbn; lia|].
  - apply not_elem_of_cons. split; [congruence|apply not_elem_of_nil].
  - split_and!; congruence.
Qed.

Lemma entry_absent ents nm :
  bool_decide (nm ∈ List.map (fun e => cname (rd_name e)) ents) = false -> forall i, ~ entry_in ents nm i.
Proof.
  intros Hd i (k & e & Hk & <- & _). apply bool_decide_eq_false in Hd. apply Hd.
  apply list_elem_of_In, (in_map (fun e => cname (rd_name e))), list_elem_of_In. by eapply list_elem_of_lookup_2.
Qed.

Lemma demo_no_a : forall i, ~ entry_in (ents_at (v_fs demo) 0) [97] i.
Proof. apply entry_absent. vm_compute. reflexivity. Qed.

Lemma demo_entries :
  entry_in (ents_at (v_fs demo) 0) [102] 1 /\ entry_in (ents_at (v_fs demo) 0) [100] 2.
Proof.
  split.
  - exists 2%nat, (default zero_dirent (ents_at (v_fs demo) 0 !! 2%nat)). split_and!; vm_compute; reflexivity.
  - exists 3%nat, (default zero_dirent (ents_at (v_fs demo) 0 !! 3%nat)). split_and!; vm_compute; reflexivity.
Qed.

Lemma demo_full :
  find_free (ents_at (v_fs demo) 0) = Some 4%nat /\ first_empty (v_fs demo) = Some 3%nat.
Proof. split; vm_compute; reflexivity. Qed.

Lemma demo_slot1 : slot (v_fs demo) 1 = Some (node_at (v_fs demo) 1).
Proof. vm_compute. reflexivity. Qed.

Lemma demo_slot2 : slot (v_fs demo) 2 = Some (node_at (v_fs demo) 2).
Proof. vm_compute. reflexivity. Qed.

Lemma demo_vnode : v_vnodes demo !! 7 = Some (vn_at demo 7).
Proof. vm_compute. reflexivity. Qed.

Lemma demo_nlink : nlink (v_fs demo) 1 = Some 2 /\ nlink (v_fs demo) 2 = Some 1.
Proof. split; vm_compute; reflexivity. Qed.

Lemma demo_file : data_file demo 7 1 (vn_at demo 7) (node_at (v_fs demo) 1) (bytes_at (v_fs demo) 1).
Proof. split; try (vm_compute; reflexivity). split; vm_compute; discriminate. Qed.

(** ** The theorems at work *)
Lemma vget_spec_witness : exists v s', vget 2 demo = Done v s' /\ vn_wf s'.
Proof.
  destruct (runs_done _ _ _ (vget_spec demo 2 1 (fi_vn _ _ demo_inv) (proj2 demo_nlink) eq_refl eq_refl))
    as (v & s' & E & Hw & _). exists v, s'. exact (conj E Hw).
Defined.

Lemma vput_spec_witness : exists i, vput (Some 7) demo = Done tt (thrown_out 7 i demo) /\ nlink i 1 = Some 1.
Proof.
  destruct (runs_done _ _ _ (vput_spec demo 7 (vn_at demo 7) 2 (fi_vn _ _ demo_inv) demo_vnode (proj1 demo_nlink)))
    as ([] & s' & E & _ & Hc). change (vn_refcount (vn_at demo 7)) with 1 in Hc. destruct Hc as (i & -> & Hn & _).
  exists i. exact (conj E Hn).
Defined.

Lemma vget_vput_witness : exists s', (let* v := vget 2 in vput (Some v)) demo = Done tt s' /\ v_fs s' = v_fs demo.
Proof.
  destruct (runs_done _ _ _ (vget_vput demo 2 1 (fi_vn _ _ demo_inv) (proj2 demo_nlink) eq_refl eq_refl))
    as ([] & s' & E & Es). exists s'. split; [exact E|]. rewrite Es. reflexivity.
Defined.

Lemma ramfs_write_read_witness : exists s', (let* w := ramfs_write 7 4094 [1; 2; 3] 3 in
  let* r := ramfs_read 7 4094 3 in ret (w, r)) demo = Done (2, (2, [1; 2])) s'.
Proof.
  destruct (runs_done _ _ _ (ramfs_write_read demo 7 1 (vn_at demo 7) (node_at (v_fs demo) 1) (bytes_at (v_fs demo) 1)
    4094 [1; 2; 3] demo_file ltac:(unfold PAGE_SIZE; lia) eq_refl)) as (r & s' & E & ->). exists s'. exact E.
Defined.

Lemma ramfs_mount_spec_witness : exists s', ramfs_mount boot_vst = Done 0 s' /\ fs_inv no_debt s'.
Proof.
  destruct (runs_done _ _ _ (ramfs_mount_spec boot_vst eq_refl eq_refl eq_refl)) as (r & s' & E & -> & Hi & _).
  exists s'. exact (conj E Hi).
Defined.

Lemma ramfs_link_spec_witness : exists s', ramfs_link 7 4 [97; 0] 1 demo = Done 0 s' /\ fs_inv no_debt s'.
Proof.
  destruct (runs_done _ _ _ (ramfs_link_spec demo 7 (vn_at demo 7) 4 0 _ _ [97] [97; 0] 1 demo_inv demo_root
    (or_introl eq_refl) demo_vnode (one_char_name 97 ltac:(lia) ltac:(lia) ltac:(lia)) demo_no_a)) as (r & s' & E & Hi & Hm).
  rewrite (proj1 demo_full) in Hm. destruct Hm as [-> _]. exists s'. exact (conj E Hi).
Defined.

Lemma ramfs_create_spec_witness : exists v s', ramfs_create 4 [97; 0] 1 demo = Done (0, Some v) s' /\ fs_inv no_debt s'.
Proof.
  destruct (runs_done _ _ _ (ramfs_create_spec demo 4 0 _ _ [97] [97; 0] 1 demo_inv demo_root
    (or_introl eq_refl) (one_char_name 97 ltac:(lia) ltac:(lia) ltac:(lia)) demo_no_a)) as (r & s' & E & Hi & Hm).
  rewrite (proj1 demo_full), (proj2 demo_full) in Hm. destruct Hm as (v & _ & _ & -> & _). exists v, s'. exact (conj E Hi).
Defined.

Lemma ramfs_mknod_spec_witness : exists s', ramfs_mknod 4 [97; 0] 1 S_IFCHR 258 demo = Done 0 s' /\ fs_inv no_debt s'.
Proof.
  destruct (runs_done _ _ _ (ramfs_mknod_spec demo 4 0 _ _ [97] [97; 0] 1 demo_inv demo_root
    (or_introl eq_refl) (one_char_name 97 ltac:(lia) ltac:(lia) ltac:(lia)) demo_no_a S_IFCHR 258 (or_introl eq_refl)))
    as (r & s' & E & Hi & Hm).
  rewrite (proj1 demo_full), (proj2 demo_full) in Hm. destruct Hm as (v & -> & _). exists s'. exact (conj E Hi).
Defined.

Lemma ramfs_mkdir_spec_witness : exists s', ramfs_mkdir 4 [97; 0] 1 demo = Done 0 s' /\ fs_inv no_debt s'.
Proof.
  destruct (runs_done _ _ _ (ramfs_mkdir_spec demo 4 0 _ _ [97] [97; 0] 1 demo_inv demo_root
    (or_introl eq_refl) (one_char_name 97 ltac:(lia) ltac:(lia) ltac:(lia)) demo_no_a)) as (r & s' & E & Hi & Hm).
  rewrite (proj1 demo_full), (proj2 demo_full) in Hm. destruct Hm as (y & sub & -> & _). exists s'. exact (conj E Hi).
Defined.

Lemma ramfs_unlink_spec_witness : exists s', ramfs_unlink 4 [102; 0] 1 demo = Done 0 s' /\ fs_inv no_debt s'.
Proof.
  destruct (runs_done _ _ _ (ramfs_unlink_spec demo 4 0 _ _ [102] [102; 0] 1 1 _ demo_inv demo_root
    (one_char_name 102 ltac:(lia) ltac:(lia) ltac:(lia)) (proj1 demo_entries) demo_slot1 ltac:(by vm_compute)))
    as (r & s' & E & -> & Hi & _). exists s'. exact (conj E Hi).
Defined.

Lemma ramfs_rmdir_spec_witness : exists s', ramfs_rmdir 4 [100; 0] 1 demo = Done 0 s' /\ slot (v_fs s') 2 = None.
Proof.
  destruct (runs_done _ _ _ (ramfs_rmdir_spec demo 4 0 _ _ [100] [100; 0] 1 2 _ demo_inv demo_root
    (one_char_name 100 ltac:(lia) ltac:(lia) ltac:(lia)) (proj2 demo_entries) demo_slot2))
    as (r & s' & E & Hm).
  assert (rf_mem (node_at (v_fs demo) 2) = MemDir (dots 2 0)) as Em by (vm_compute; reflexivity).
  rewrite Em in Hm. assert (bool_decide (Forall (fun e => counted e = false) (dots 2 0)) = true) as Eb by (by vm_compute).
  rewrite Eb in Hm. destruct Hm as (-> & _ & _ & Hf). exists s'. split; [exact E|]. apply Hf. vm_compute. reflexivity.
Defined.
End RamfsDemo.
