(* ===== verification/Namev.v ===== *)
(** * Path name resolution ([fs/namev.c])

    Path names are arrays of characters with their terminator; the local
    buffers of [dir_namev] have the sizes they have in the source, so that
    writing past one is [Stuck].  An out-parameter that may be left unwritten
    is a [cptr]: [Junk] until something is stored. *)

From Stdlib Require Import ZArith Lia.
From stdpp Require Import base list gmap.
From S2P Require Import Prelude KString Vnode Ramfs.

Module Namev.
Import KString Vnode Ramfs.
Local Open Scope Z_scope.

Definition MAXPATHLEN : Z := 1024.
Definition O_RDONLY : Z := 0.
Definition O_WRONLY : Z := 1.
Definition O_RDWR : Z := 2.
Definition O_CREAT : Z := 256.
Definition O_APPEND : Z := 1024.
Definition SLASH : Z := 47.
Definition DOT : Z := 46.

(** The contents of a pointer variable. *)
Inductive cptr := Junk | Null | At (v : Z).

(** Behaviour the C standard leaves open: the value a caller sees when
    [open_namev] ends without a return statement, and whether the word an
    uninitialised pointer happens to point to can be overwritten harmlessly. *)
Class Abi := { fell_off : Z; junk_store_ok : bool }.

(** Reading a pointer: an indeterminate value has no meaning. *)
Definition rd (p : cptr) : V (option Z) :=
  match p with Junk => stuck | Null => ret None | At v => ret (Some v) end.
Definition rd_some (p : cptr) : V Z := let* o := rd p in deref o.

(** [strncpy] with its [size_t] count, which may have wrapped around: it stops
    at the terminator of [src]. *)
Definition strncpy_sz (dest src : list Z) (count : Z) : option (list Z) :=
  strncpy dest src (Z.to_nat (Z.min (u32 count) (Z.of_nat (S (length src))))).

Definition str_eq (a b : list Z) : V bool := let* c := deref (strcmp a b) in ret (c =? 0).
Definition str_pre (a b : list Z) (n : nat) : V bool := let* c := deref (strncmp a b n) in ret (c =? 0).
Definition str_len (a : list Z) : V Z := let* n := deref (strlen a) in ret (Z.of_nat n).

Section Paths.
Context `{Devs} `{Abi}.

(** [dir->vn_ops->lookup]: [*result] keeps its value unless a vnode is found. *)
Definition vop_lookup (dir : Z) (name : list Z) (len : Z) (result : cptr) : V (Z * cptr) :=
  let* vn := get_vnode dir in
  match vn_ops vn with
  | RamfsDirVops =>
      let* r := ramfs_lookup dir name len in
      ret (fst r, match snd r with Some v => At v | None => result end)
  | _ => stuck
  end.

Definition lookup (dir : Z) (name : list Z) (len : Z) (result : cptr) : V (Z * cptr) :=
  let* vn := get_vnode dir in
  if negb (vn_mode vn =? S_IFDIR) then ret (- ENOTDIR, Null)
  else
    let* is_dot := str_eq name dot in
    if is_dot : bool then let* n := str_len name in vop_lookup dir name n result
    else
      let* is_dotdot := str_eq name dotdot in
      if is_dotdot : bool then let* n := str_len name in vop_lookup dir name n result
      else
        let* r := vop_lookup dir name len result in
        if fst r =? - ENOENT then ret (- ENOENT, Null) else ret r.

(** The out-parameters of [dir_namev]. *)
Record namev_out := NamevOut {
  no_ret : Z;
  no_vnode : cptr;
  no_name : option (list Z);
  no_namelen : Z
}.

(** The loop that squeezes runs of slashes. *)
Fixpoint squeeze (s : list Z) : option (list Z) :=
  match s with
  | [] => Some []
  | c :: s' =>
      r ← squeeze s';
      if c =? SLASH then
        match s' with
        | [] => None
        | d :: _ => Some (if d =? SLASH then r else c :: r)
        end
      else Some (c :: r)
  end.

Definition zeros (n : Z) : list Z := replicate (Z.to_nat n) 0.

(** The first half of [dir_namev]: the path to resolve ([f_name]) and the
    directory to start from. *)
Definition dir_namev_start (pathname : list Z) (res : cptr) : V (sum (Z * cptr) (list Z * option Z)) :=
  let final_path := zeros MAXPATHLEN in
  let* c0 := deref (pathname !! 0%nat) in
  let* final_path :=
    (if negb (c0 =? SLASH) && negb (c0 =? DOT) then
       let* p := deref (strcat final_path [DOT; SLASH; 0]) in
       deref (strcat p pathname)
     else deref (strcat final_path pathname)) in
  let* pre := str_pre final_path [DOT; SLASH; 0] 2 in
  if pre : bool then
    let* f_name := deref (strchr final_path SLASH) in
    let* f_name := deref f_name in
    let* cwd := gets p_cwd in
    ret (inr (f_name, cwd))
  else
    let* pre := str_pre final_path [DOT; DOT; SLASH; 0] 3 in
    if pre : bool then
      let* f_name := deref (strchr final_path SLASH) in
      let* f_name := deref f_name in
      let* cwd := gets p_cwd in
      let* cwd := deref cwd in
      let* r := lookup cwd dotdot 2 Junk in
      if negb (fst r =? 0) then ret (inl (fst r, res))
      else let* d := rd (snd r) in ret (inr (f_name, d))
    else
      let* root := gets vfs_root_vn in
      ret (inr (final_path, root)).

(** The [while] loop: one lookup per component that has a slash after it.
    [fuel] is more than the length of the path. *)
Fixpoint walk (fuel : nat) (ptr : list Z) (curr_dir : Z) (res : cptr)
  : V (sum (Z * cptr) (list Z * Z * cptr)) :=
  match fuel with
  | O => blocked
  | S fuel =>
      let after := drop 1 ptr in
      let* x := deref (strchr after SLASH) in
      match x with
      | None => ret (inr (ptr, curr_dir, res))
      | Some temp_name =>
          let count := Z.of_nat (length after - length temp_name) in
          let* search_name := deref (strncpy_sz (zeros (NAME_LEN + 1)) after count) in
          let* n := str_len search_name in
          if n >? NAME_LEN then ret (inl (- ENAMETOOLONG, Null))
          else
            let* r := lookup curr_dir search_name n res in
            if negb (fst r =? 0) then ret (inl r)
            else
              let* v := rd_some (snd r) in
              vput (Some v) ;;
              walk fuel temp_name v (snd r)
      end
  end.

(** [res] is the caller's [*res_vnode] before the call. *)
Definition dir_namev (pathname : list Z) (res : cptr) : V namev_out :=
  let* plen := str_len pathname in
  if plen >? 1024 then ret (NamevOut (- ENAMETOOLONG) Null None 0)
  else
    let* start := dir_namev_start pathname res in
    match start with
    | inl (err, res) => ret (NamevOut err res None 0)
    | inr (f_name, curr_dir) =>
        let* slash := deref (strrchr pathname SLASH) in
        let name := match slash with Some p => drop 1 p | None => pathname end in
        let* namelen := str_len name in
        if namelen >? NAME_LEN then ret (NamevOut (- ENAMETOOLONG) Null (Some name) namelen)
        else
          let* flen := str_len f_name in
          let* dup_path := deref (strncpy_sz (zeros (MAXPATHLEN + 1)) f_name (flen - namelen - 1)) in
          let* dlen := str_len dup_path in
          if dlen =? 0 then
            vref curr_dir ;;
            let* d := deref curr_dir in
            ret (NamevOut 0 (At d) (Some name) namelen)
          else
            let* hallelujah := deref (squeeze dup_path) in
            let* dup_path := deref (strncpy_sz (zeros (MAXPATHLEN + 1)) hallelujah (MAXPATHLEN + 1)) in
            let* d := deref curr_dir in
            let* w := walk (S (length dup_path)) dup_path d res in
            match w with
            | inl (err, res) => ret (NamevOut err res (Some name) namelen)
            | inr (ptr, d, res) =>
                let* is_dot := str_eq pathname dot in
                let* is_dotdot := str_eq pathname dotdot in
                let* search_name :=
                  (if is_dot : bool then deref (strcpy (zeros (NAME_LEN + 1)) dot)
                   else if is_dotdot : bool then deref (strcpy (zeros (NAME_LEN + 1)) dotdot)
                   else
                     let* plen := str_len ptr in
                     deref (strncpy_sz (zeros (NAME_LEN + 1)) (drop 1 ptr) (plen - 1))) in
                let* n := str_len search_name in
                if n >? NAME_LEN then ret (NamevOut (- ENAMETOOLONG) Null (Some name) namelen)
                else
                  let* r := lookup d search_name n res in
                  ret (NamevOut (fst r) (snd r) (Some name) namelen)
            end
    end.

(** [curr_dir->vn_ops->create] *)
Definition vop_create (dir : Z) (name : list Z) (len : Z) (result : cptr) : V (Z * cptr) :=
  let* vn := get_vnode dir in
  match vn_ops vn with
  | RamfsDirVops =>
      let* r := ramfs_create dir name len in
      ret (fst r, match snd r with Some v => At v | None => result end)
  | _ => stuck
  end.

(** The [O_CREAT] branch of [open_namev].  For paths that begin with ["./"] or
    ["../"] the variable [name] is used without having been set. *)
Definition open_create (pathname : list Z) (res : cptr) : V (Z * cptr) :=
  let* pre1 := str_pre pathname [DOT; SLASH; 0] 2 in
  let* pre2 := str_pre pathname [DOT; DOT; SLASH; 0] 3 in
  if pre1 : bool then
    let* cwd := gets p_cwd in
    let* cwd := deref cwd in
    let* vn := get_vnode cwd in
    if negb (S_ISDIR (vn_mode vn)) then ret (- ENOTDIR, Null) else stuck
  else if pre2 : bool then stuck
  else
    let* d := dir_namev pathname Junk in
    if bool_decide (no_ret d ∈ [- EEXIST; - ENOENT; - ENOTDIR; - ENAMETOOLONG]) then ret (no_ret d, res)
    else
      let* dir := rd (no_vnode d) in
      vput dir ;;
      let* dir := deref dir in
      let* vn := get_vnode dir in
      if negb (S_ISDIR (vn_mode vn)) then ret (- ENOTDIR, Null)
      else
        let* name := deref (no_name d) in
        let* n := str_len name in
        let* r := vop_create dir name n res in
        let* v := rd (snd r) in
        vref v ;;
        ret r.

Definition open_namev (pathname : list Z) (flag : Z) (res : cptr) : V (Z * cptr) :=
  let* plen := str_len pathname in
  if plen >? MAXPATHLEN then ret (- ENAMETOOLONG, res)
  else if flag =? O_CREAT then open_create pathname res
  else
    let* is_dot := str_eq pathname dot in
    let* is_dotdot := str_eq pathname dotdot in
    let* dn :=
      (if negb is_dot && negb is_dotdot then
         let* d := dir_namev pathname Junk in
         let* dir := rd (no_vnode d) in
         vput dir ;;
         let* name := deref (no_name d) in
         ret (dir, name)
       else
         let* cwd := gets p_cwd in
         ret (cwd, if is_dot : bool then dot else dotdot)) in
    let* dir := deref (fst dn) in
    let* n := str_len (snd dn) in
    let* r := lookup dir (snd dn) n res in
    if fst r =? - ENOENT then ret (- ENOENT, snd r)
    else if fst r =? - ENOTDIR then ret (- ENOTDIR, snd r)
    else ret (fell_off, snd r).
End Paths.

End Namev.
