(* ===== verification/VfsSyscall.v ===== *)
(** * Files and the VFS system calls ([fs/file.c], [fs/open.c], [fs/vfs_syscall.c],
      the special files of [fs/vnode.c], [fs/vfs.c]) *)

From Stdlib Require Import ZArith Lia.
From stdpp Require Import base list gmap.
From S2P Require Import Prelude KString Vnode Ramfs Namev.

Module VfsSyscall.
Import KString Vnode Ramfs Namev.
Local Open Scope Z_scope.

Definition NFILES : Z := 32.
Definition FMODE_READ : Z := 1.
Definition FMODE_WRITE : Z := 2.
Definition FMODE_APPEND : Z := 4.
Definition SEEK_SET : Z := 0.
Definition SEEK_CUR : Z := 1.
Definition SEEK_END : Z := 2.
(** [sizeof(dirent_t)]: two words and 29 characters. *)
Definition SIZEOF_DIRENT_T : Z := 40.

Definition fl_pos (p : Z) (x : file) : file := File p (f_mode x) (f_refcount x) (f_vnode x).
Definition fl_mode (m : Z) (x : file) : file := File (f_pos x) m (f_refcount x) (f_vnode x).
Definition fl_ref (r : Z) (x : file) : file := File (f_pos x) (f_mode x) r (f_vnode x).
Definition fl_vnode (v : option Z) (x : file) : file := File (f_pos x) (f_mode x) (f_refcount x) v.

(** The read and write entry points of the registered byte devices. *)
Class CdevOps := {
  cd_read : Z -> Z -> Z -> V (Z * list Z);
  cd_write : Z -> Z -> list Z -> Z -> V Z
}.

Section Syscalls.
Context `{Devs} `{Abi} `{CdevOps}.

(** ** [fs/file.c] *)
Definition get_file (f : Z) : V file := fun s => deref (v_files s !! f) s.
Definition set_file (f : Z) (g : file -> file) : V unit :=
  let* x := get_file f in modify (upd_vfiles <[f := g x]>).

Definition fref (f : Z) : V unit :=
  let* x := get_file f in
  kassert ((0 <=? f_mode x) && (f_mode x <? 8)) ;;
  kassert (-1 <=? f_pos x) ;;
  kassert (0 <=? f_refcount x) ;;
  (if negb (f_refcount x =? 0) then kassert (bool_decide (f_vnode x <> None)) else ret tt) ;;
  set_file f (fl_ref (f_refcount x + 1)).

(** [curproc->p_files[fd]] *)
Definition fd_slot (fd : Z) : V (option Z) :=
  let* l := gets p_files in
  if fd <? 0 then stuck else deref (l !! Z.to_nat fd).
Definition set_fd (fd : Z) (f : option Z) : V unit :=
  let* l := gets p_files in
  if (fd <? 0) || (Z.of_nat (length l) <=? fd) then stuck
  else modify (upd_pfiles (<[Z.to_nat fd := f]>)).

Definition fget (fd : Z) : V (option Z) :=
  let* f :=
    (if fd =? -1 then
       let* a := slab_alloc in
       match a with
       | Some f => modify (upd_vfiles <[f := File 0 0 0 None]>) ;; ret (Some f)
       | None => ret None
       end
     else if (fd <? 0) || (NFILES <=? fd) then ret None
     else fd_slot fd) in
  match f with
  | Some f => fref f ;; ret (Some f)
  | None => ret None
  end.

Definition fput (f : option Z) : V unit :=
  kassert (bool_decide (f <> None)) ;;
  let* f := deref f in
  let* x := get_file f in
  kassert ((0 <=? f_mode x) && (f_mode x <? 8)) ;;
  kassert (-1 <=? f_pos x) ;;
  kassert (0 <? f_refcount x) ;;
  (if negb (f_refcount x =? 1) then kassert (bool_decide (f_vnode x <> None)) else ret tt) ;;
  set_file f (fl_ref (f_refcount x - 1)) ;;
  if f_refcount x - 1 =? 0 then
    (match f_vnode x with Some v => vput (Some v) | None => ret tt end) ;;
    modify (upd_vfiles (delete f))
  else ret tt.

(** ** Special files *)
Definition special_file_read (v offset count : Z) : V (Z * list Z) :=
  let* vn := get_vnode v in
  if S_ISBLK (vn_mode vn) then ret (- ENOTSUP, [])
  else
    set_vnode v (vn_set_cdev (vn_ops vn) (bytedev_lookup (vn_devid vn))) ;;
    let* d := deref (bytedev_lookup (vn_devid vn)) in
    cd_read d offset count.

Definition special_file_write (v offset : Z) (buf : list Z) (count : Z) : V Z :=
  let* vn := get_vnode v in
  if S_ISBLK (vn_mode vn) then ret (- ENOTSUP)
  else
    set_vnode v (vn_set_cdev (vn_ops vn) (bytedev_lookup (vn_devid vn))) ;;
    let* d := deref (bytedev_lookup (vn_devid vn)) in
    cd_write d offset buf count.

(** The containing file system's [stat] is that of its root directory. *)
Definition special_file_stat (v : Z) : V stat :=
  let* root := gets vfs_root_vn in
  let* root := deref root in
  let* rvn := get_vnode root in
  match vn_ops rvn with
  | RamfsDirVops | RamfsFileVops => ramfs_stat v
  | _ => panic
  end.

(** ** The operations tables *)
Definition vop_read (v offset count : Z) : V (Z * list Z) :=
  let* vn := get_vnode v in
  match vn_ops vn with
  | RamfsFileVops => ramfs_read v offset count
  | BytedevSpecVops => special_file_read v offset count
  | _ => stuck
  end.
Definition vop_write (v offset : Z) (buf : list Z) (count : Z) : V Z :=
  let* vn := get_vnode v in
  match vn_ops vn with
  | RamfsFileVops => ramfs_write v offset buf count
  | BytedevSpecVops => special_file_write v offset buf count
  | _ => stuck
  end.
Definition vop_stat (v : Z) : V stat :=
  let* vn := get_vnode v in
  match vn_ops vn with
  | RamfsFileVops | RamfsDirVops => ramfs_stat v
  | BytedevSpecVops | BlockdevSpecVops => special_file_stat v
  | NullOps => stuck
  end.
(** The operations only directories have. *)
Definition dir_op {A} (v : Z) (m : V A) : V A :=
  let* vn := get_vnode v in
  match vn_ops vn with RamfsDirVops => m | _ => stuck end.

(** ** [fs/open.c] *)
Fixpoint first_none (l : list (option Z)) (fd : Z) : Z :=
  match l with
  | [] => - EMFILE
  | None :: _ => fd
  | Some _ :: l => first_none l (fd + 1)
  end.

Definition get_empty_fd : V Z := gets (fun s => first_none (p_files s) 0).

(** The flags [open_namev] is called with. *)
Definition open_flag (oflags : Z) : Z :=
  if bool_decide (oflags ∈ [O_RDONLY + O_CREAT; O_WRONLY + O_CREAT; O_RDWR + O_CREAT;
                            O_WRONLY + O_APPEND + O_CREAT; O_RDWR + O_APPEND + O_CREAT])
  then O_CREAT else oflags.

(** The mode of the file; [None] leaves the field as it is. *)
Definition open_mode (oflags : Z) : option Z :=
  if bool_decide (oflags ∈ [O_RDONLY; O_RDONLY + O_CREAT]) then Some FMODE_READ
  else if bool_decide (oflags ∈ [O_WRONLY; O_WRONLY + O_CREAT]) then Some FMODE_WRITE
  else if bool_decide (oflags ∈ [O_WRONLY + O_APPEND; O_WRONLY + O_APPEND + O_CREAT])
  then Some (FMODE_WRITE + FMODE_APPEND)
  else if bool_decide (oflags ∈ [O_RDWR; O_RDWR + O_CREAT]) then Some (FMODE_READ + FMODE_WRITE)
  else if bool_decide (oflags ∈ [O_RDWR + O_APPEND; O_RDWR + O_APPEND + O_CREAT])
  then Some (FMODE_READ + FMODE_WRITE + FMODE_APPEND)
  else None.

Definition do_open (filename : list Z) (oflags : Z) : V Z :=
  if (Z.rem (oflags - 3) 2 =? 0) && (0 <=? oflags - 3) then ret EINVAL
  else
    let* files := fget (-1) in
    let* new_fd := get_empty_fd in
    let* file_ptr := fget new_fd in
    let* file_ptr :=
      (match file_ptr with
       | None => ret files
       | Some f => fput files ;; ret (Some f)
       end) in
    set_fd new_fd file_ptr ;;
    let* r := open_namev filename (open_flag oflags) Junk in
    if negb (fst r =? 0) then
      set_fd new_fd None ;;
      let* v := rd (snd r) in
      (match v with Some v => vput (Some v) | None => ret tt end) ;;
      ret (fst r)
    else
      let* v := rd_some (snd r) in
      let* vn := get_vnode v in
      if S_ISDIR (vn_mode vn) && ((oflags =? O_WRONLY) || (oflags =? O_RDWR)) then
        set_fd new_fd None ;;
        vput (Some v) ;;
        ret (- EISDIR)
      else
        let* f := deref file_ptr in
        set_file f (fl_vnode (Some v)) ;;
        (match open_mode oflags with
         | Some m => let* g := deref files in set_file g (fl_mode m)
         | None => ret tt
         end) ;;
        ret new_fd.

(** ** [fs/vfs_syscall.c] *)

(** The descriptor checks shared by the calls: the entry, or [None] when the
    call returns [-EBADF]. *)
Definition check_fd (fd : Z) : V (option Z) :=
  if fd <? 0 then ret None
  else if NFILES <? fd then ret None
  else fd_slot fd.

Definition do_lseek (fd offset whence : Z) : V Z :=
  let* e := check_fd fd in
  match e with
  | None => ret (- EBADF)
  | Some _ =>
      let* fo := fget fd in
      kassert (bool_decide (fo <> None)) ;;
      fput fo ;;
      let* f := deref fo in
      let* x := get_file f in
      let orig_seek := f_pos x in
      let* ok :=
        (if whence =? SEEK_SET then set_file f (fl_pos offset) ;; ret true
         else if whence =? SEEK_CUR then set_file f (fl_pos (s32 (f_pos x + offset))) ;; ret true
         else if whence =? SEEK_END then
           let* v := deref (f_vnode x) in
           let* vn := get_vnode v in
           set_file f (fl_pos (s32 (offset + vn_len vn))) ;; ret true
         else ret false) in
      if negb ok then ret (- EINVAL)
      else
        let* x := get_file f in
        if f_pos x <? 0 then set_file f (fl_pos orig_seek) ;; ret (- EINVAL)
        else ret (f_pos x)
  end.

(** The count returned, and the bytes stored in the caller's buffer. *)
Definition do_read (fd nbytes : Z) : V (Z * list Z) :=
  let* e := check_fd fd in
  match e with
  | None => ret (- EBADF, [])
  | Some _ =>
      let* fo := fget fd in
      let* f := deref fo in
      let* x := get_file f in
      let* v := deref (f_vnode x) in
      let* vn := get_vnode v in
      if S_ISDIR (vn_mode vn) then ret (- EISDIR, [])
      else if (f_mode x =? 2) || (f_mode x =? 4) || (f_mode x =? 6) then ret (- EBADF, [])
      else
        let offset := f_pos x in
        let* r := vop_read v offset nbytes in
        set_file f (fl_pos (s32 (offset + fst r))) ;;
        fput fo ;;
        ret r
  end.

Definition do_write (fd : Z) (buf : list Z) (nbytes : Z) : V Z :=
  let* e := check_fd fd in
  match e with
  | None => ret (- EBADF)
  | Some _ =>
      let* fo := fget fd in
      let* f := deref fo in
      let* x := get_file f in
      let* v := deref (f_vnode x) in
      let* vn := get_vnode v in
      if S_ISDIR (vn_mode vn) then ret (- EISDIR)
      else if f_mode x =? FMODE_READ then ret (- EBADF)
      else
        (if negb (Z.land (f_mode x) 4 =? 0) then
           let* p := do_lseek fd 0 SEEK_END in set_file f (fl_pos p)
         else ret tt) ;;
        let* x := get_file f in
        let offset := f_pos x in
        let* count := vop_write v offset buf nbytes in
        set_file f (fl_pos (s32 (offset + nbytes))) ;;
        fput fo ;;
        ret count
  end.

Definition do_close (fd : Z) : V Z :=
  let* e := check_fd fd in
  match e with
  | None => ret (- EBADF)
  | Some f =>
      set_fd fd None ;;
      fput (Some f) ;;
      ret 0
  end.

Definition do_dup (fd : Z) : V Z :=
  let* e := check_fd fd in
  match e with
  | None => ret (- EBADF)
  | Some _ =>
      let* fo := fget fd in
      kassert (bool_decide (fo <> None)) ;;
      let* new_fd := get_empty_fd in
      if NFILES <? new_fd then ret (- EMFILE)
      else
        let* f := fd_slot fd in
        set_fd new_fd f ;;
        ret new_fd
  end.

Definition do_dup2 (ofd nfd : Z) : V Z :=
  if (ofd <? 0) || (NFILES <? ofd) then ret (- EBADF)
  else if (nfd <? 0) || (NFILES <? nfd) then ret (- EBADF)
  else
    let* o := fd_slot ofd in
    match o with
    | None => ret EBADF
    | Some _ =>
        let* n := fd_slot nfd in
        (if bool_decide (n <> None) && negb (nfd =? ofd) then do_close nfd ;; ret tt else ret tt) ;;
        let* o := fd_slot ofd in
        set_fd nfd o ;;
        let* n := fd_slot nfd in
        let* f := deref n in
        fref f ;;
        ret nfd
    end.

(** [memset(name, 0, sizeof(name))] goes through the uninitialised [name]. *)
Definition do_mknod (path : list Z) (mode devid : Z) : V Z :=
  if negb (S_ISCHR mode) && negb (S_ISBLK mode) then ret (- EINVAL)
  else
    let* plen := str_len path in
    if plen >? MAXPATHLEN then ret (- ENAMETOOLONG)
    else if negb junk_store_ok then stuck
    else
      let* d := dir_namev path Null in
      if negb (no_ret d =? 0) then ret (no_ret d)
      else
        let* dir := rd_some (no_vnode d) in
        let* name := deref (no_name d) in
        let* r := lookup dir name (no_namelen d) Null in
        vput (Some dir) ;;
        if fst r =? 0 then
          let* v := rd (snd r) in vput v ;; ret (- EEXIST)
        else if fst r =? - ENOTDIR then ret (- ENOTDIR)
        else if fst r =? - ENAMETOOLONG then ret (- ENAMETOOLONG)
        else
          let* ino := dir_op dir (ramfs_mknod dir name (no_namelen d) mode devid) in
          (if ino =? 0 then lookup dir name (no_namelen d) (snd r) ;; ret tt else ret tt) ;;
          ret ino.

Definition do_mkdir (path : list Z) : V Z :=
  let* d := dir_namev path Junk in
  if negb (no_ret d =? 0) then ret (no_ret d)
  else
    let* dir := rd_some (no_vnode d) in
    let* name := deref (no_name d) in
    let* r := lookup dir name (no_namelen d) Junk in
    vput (Some dir) ;;
    if fst r =? 0 then
      let* v := rd (snd r) in vput v ;; ret (- EEXIST)
    else if fst r =? - ENOTDIR then ret (- ENOTDIR)
    else if fst r =? - ENAMETOOLONG then ret (- ENAMETOOLONG)
    else
      let* retval := dir_op dir (ramfs_mkdir dir name (no_namelen d)) in
      (if retval =? 0 then lookup dir name (no_namelen d) (snd r) ;; ret tt else ret tt) ;;
      ret retval.

Definition do_rmdir (path : list Z) : V Z :=
  let* is_dot := str_eq path dot in
  if is_dot : bool then ret (- EINVAL)
  else
    let* is_dotdot := str_eq path dotdot in
    if is_dotdot : bool then ret (- ENOTEMPTY)
    else
      let* d := dir_namev path Junk in
      if negb (no_ret d =? 0) then ret (no_ret d)
      else
        let* name := deref (no_name d) in
        let* is_dot := str_eq name dot in
        if is_dot : bool then ret (- EINVAL)
        else
          let* is_dotdot := str_eq name dotdot in
          if is_dotdot : bool then ret (- ENOTEMPTY)
          else
            let* dir := rd_some (no_vnode d) in
            let* r := lookup dir name (no_namelen d) Junk in
            vput (Some dir) ;;
            if negb (fst r =? 0) then ret (fst r)
            else
              let* v := rd_some (snd r) in
              let* vn := get_vnode v in
              if S_ISDIR (vn_mode vn) then
                vput (Some v) ;;
                dir_op dir (ramfs_rmdir dir name (no_namelen d))
              else
                vput (Some v) ;;
                ret (- ENOTDIR).

Definition do_unlink (path : list Z) : V Z :=
  let* d := dir_namev path Junk in
  if negb (no_ret d =? 0) then ret (no_ret d)
  else
    let* dir := rd_some (no_vnode d) in
    let* name := deref (no_name d) in
    let* r := lookup dir name (no_namelen d) Junk in
    if negb (fst r =? 0) then vput (Some dir) ;; ret (fst r)
    else
      let* v := rd_some (snd r) in
      let* vn := get_vnode v in
      if negb (S_ISDIR (vn_mode vn)) then
        let* err := dir_op dir (ramfs_unlink dir name (no_namelen d)) in
        vput (Some v) ;;
        vput (Some dir) ;;
        ret err
      else
        vput (Some dir) ;;
        vput (Some v) ;;
        ret (- EISDIR).

Definition do_link (from to : list Z) : V Z :=
  let* o := open_namev from 0 Null in
  if bool_decide (fst o ∈ [- EEXIST; - ENOENT; - ENOTDIR; - ENAMETOOLONG]) then ret (fst o)
  else
    let* from_vnode := rd (snd o) in
    vput from_vnode ;;
    let* d := dir_namev to Null in
    if bool_decide (no_ret d ∈ [- EEXIST; - ENOENT; - ENOTDIR; - ENAMETOOLONG]) then ret (no_ret d)
    else
      let* to_vnode := rd_some (no_vnode d) in
      let* name := deref (no_name d) in
      let* r := lookup to_vnode name (no_namelen d) Null in
      if fst r =? 0 then
        vput (Some to_vnode) ;;
        let* v := rd (snd r) in
        vput v ;;
        ret (- EEXIST)
      else
        vput (Some to_vnode) ;;
        let* from_vnode := deref from_vnode in
        dir_op to_vnode (ramfs_link from_vnode to_vnode name (no_namelen d)).

Definition do_rename (oldname newname : list Z) : V Z :=
  do_link oldname newname ;; do_unlink oldname.

Definition do_chdir (path : list Z) : V Z :=
  let* is_dot := str_eq path dot in
  if is_dot : bool then ret 0
  else
    let* is_dotdot := str_eq path dotdot in
    if is_dotdot : bool then
      let* cwd := gets p_cwd in
      let* c := deref cwd in
      let* n := str_len path in
      let* r := lookup c path n Junk in
      if negb (fst r =? 0) then ret (fst r)
      else
        vput cwd ;;
        let* v := rd (snd r) in
        modify (set_cwd v) ;;
        ret 0
    else
      let* d := dir_namev path Junk in
      if negb (no_ret d =? 0) then ret (no_ret d)
      else
        let* dir := rd_some (no_vnode d) in
        let* name := deref (no_name d) in
        let* r := lookup dir name (no_namelen d) Junk in
        vput (Some dir) ;;
        if negb (fst r =? 0) then ret (fst r)
        else
          let* v := rd_some (snd r) in
          let* vn := get_vnode v in
          if S_ISDIR (vn_mode vn) then
            let* cwd := gets p_cwd in
            vput cwd ;;
            modify (set_cwd (Some v)) ;;
            ret 0
          else
            vput (Some v) ;;
            ret (- ENOTDIR).

(** The return value and the entry stored in [*dirp], whose name was [dname]. *)
Definition do_getdent (fd : Z) (dname : list Z) : V (Z * option (Z * list Z)) :=
  let* e := check_fd fd in
  match e with
  | None => ret (- EBADF, None)
  | Some _ =>
      let* fo := fget fd in
      fput fo ;;
      kassert (bool_decide (fo <> None)) ;;
      let* f := deref fo in
      let* x := get_file f in
      let* v := deref (f_vnode x) in
      let* vn := get_vnode v in
      if negb (S_ISDIR (vn_mode vn)) then ret (- ENOTDIR, None)
      else match vn_ops vn with
           | RamfsDirVops =>
               let* r := ramfs_readdir v (f_pos x) dname in
               set_file f (fl_pos (s32 (f_pos x + fst r))) ;;
               ret (if 0 <? fst r then SIZEOF_DIRENT_T else 0, snd r)
           | NullOps => stuck
           | _ => ret (- EBADF, None)
           end
  end.

Definition do_stat (path : list Z) : V (Z * option stat) :=
  slab_alloc ;;
  let* r := open_namev path 0 Junk in
  if bool_decide (fst r ∈ [- ENOENT; - ENOTDIR; - ENAMETOOLONG]) then ret (fst r, None)
  else
    let* v := rd_some (snd r) in
    let* st := vop_stat v in
    vput (Some v) ;;
    ret (0, Some st).

(** ** [fs/vfs.c] *)

(** [mountfunc] finds the one file system type of this configuration. *)
Definition vfs_init : V unit :=
  let* fs := slab_alloc in
  kassert (bool_decide (fs <> None)) ;;
  let* err := ramfs_mount in
  if err <? 0 then panic else ret tt.

Definition vfs_shutdown : V Z :=
  let* root := gets vfs_root_vn in
  kassert (bool_decide (root <> None)) ;;
  let* u := vfs_is_in_use in
  if u <? 0 then panic
  else
    let* r := ramfs_umount in
    let* n := vnode_inuse in
    kassert (n =? 0) ;;
    modify (set_root None) ;;
    ret r.
End Syscalls.

End VfsSyscall.
