(* ===== verification/VfsFiles.v ===== *)
(** * Descriptors and open files

    The invariant of the descriptor table of a process and the open files
    behind it, and the behaviour of the calls that work on descriptors:
    [do_close], [do_dup], [do_dup2], [do_lseek], [do_read] and [do_write]
    ([fs/vfs_syscall.c] with [fs/file.c] and [fs/open.c]). *)

From Stdlib Require Import ZArith Lia.
From stdpp Require Import base list gmap.
From S2P Require Import Prelude KString Vnode Ramfs RamfsSpec RamfsDir RamfsDemo Namev VfsSyscall.

Module VfsFiles.
Import KString Vnode Ramfs RamfsSpec RamfsDir RamfsDemo Namev VfsSyscall.
Local Open Scope Z_scope.

(** ** The invariant *)

(** The number of descriptors that refer to file [f]. *)
Fixpoint fd_count (f : Z) (l : list (option Z)) : Z :=
  match l with
  | [] => 0
  | o :: l => (if bool_decide (o = Some f) then 1 else 0) + fd_count f l
  end.

(** The number of open files on vnode [v]. *)
Definition files_on (v : Z) (m : gmap Z file) : Z :=
  Z.of_nat (size (filter (fun p => f_vnode (snd p) = Some v) m)).

Definition file_ok (s : vst) (f : Z) (x : file) : Prop :=
  0 <= f_mode x < 8 /\ 0 <= f_pos x /\ f_refcount x = fd_count f (p_files s) /\ 0 < f_refcount x /\
  exists v, f_vnode x = Some v /\ is_Some (v_vnodes s !! v).

Record file_inv (s : vst) : Prop := {
  fv_len : Z.of_nat (length (p_files s)) = NFILES;
  fv_dom : forall f, Some f ∈ p_files s -> is_Some (v_files s !! f);
  fv_file : forall f x, v_files s !! f = Some x -> file_ok s f x;
  fv_refs : forall v vn, v_vnodes s !! v = Some vn -> files_on v (v_files s) <= vn_refcount vn
}.

(** The state of the layer is in order. *)
Definition vfs_inv (s : vst) : Prop := fs_inv no_debt s /\ file_inv s.

Lemma fd_count_nonneg f l : 0 <= fd_count f l.
Proof. induction l as [|o l IH]; cbn; [lia|]. destruct (bool_decide (o = Some f)); lia. Qed.

Lemma fd_count_insert f l k o o' :
  l !! k = Some o ->
  fd_count f (<[k := o']> l) =
  fd_count f l - (if bool_decide (o = Some f) then 1 else 0) + (if bool_decide (o' = Some f) then 1 else 0).
Proof.
  revert k. induction l as [|p l IH]; intros [|k] Hk; try done.
  - injection Hk as ->. cbn. lia.
  - change ((if bool_decide (p = Some f) then 1 else 0) + fd_count f (<[k := o']> l) =
      (if bool_decide (p = Some f) then 1 else 0) + fd_count f l - (if bool_decide (o = Some f) then 1 else 0)
      + (if bool_decide (o' = Some f) then 1 else 0)). rewrite (IH k Hk). lia.
Qed.

Lemma fd_count_elem f l : Some f ∈ l <-> 0 < fd_count f l.
Proof.
  induction l as [|o l IH]; cbn; [split; [by intros ?%elem_of_nil|lia]|].
  rewrite elem_of_cons, IH. pose proof (fd_count_nonneg f l).
  destruct (bool_decide_reflect (o = Some f)) as [->|Hne]; split; try (lia || by left).
  intros [E|?]; [congruence|lia].
Qed.

Lemma files_on_delete v m f x :
  m !! f = Some x -> files_on v (delete f m) = files_on v m - if bool_decide (f_vnode x = Some v) then 1 else 0.
Proof.
  intros Hf. unfold files_on. rewrite map_filter_delete.
  destruct (bool_decide_reflect (f_vnode x = Some v)) as [E|E].
  - rewrite map_size_delete.
    assert (filter (fun p : Z * file => f_vnode (snd p) = Some v) m !! f = Some x) as Hx
      by (by apply map_lookup_filter_Some).
    rewrite Hx. assert (size (filter (fun p : Z * file => f_vnode (snd p) = Some v) m) <> 0)%nat; [|lia].
    intros E0%map_size_empty_inv. rewrite E0 in Hx. by rewrite lookup_empty in Hx.
  - rewrite delete_id; [lia|]. apply map_lookup_filter_None. right. intros y Hy. cbn. congruence.
Qed.

Lemma files_on_update v m f x x' :
  m !! f = Some x -> f_vnode x' = f_vnode x -> files_on v (<[f := x']> m) = files_on v m.
Proof.
  intros Hf E. rewrite <- (insert_delete_eq m f x').
  assert (delete f m !! f = None) as Hd by apply lookup_delete_eq.
  pose proof (files_on_delete v m f x Hf) as E1.
  pose proof (files_on_delete v (<[f := x']> (delete f m)) f x' (lookup_insert_eq _ _ _)) as E2.
  rewrite delete_insert_id in E2 by done. rewrite E in E2. lia.
Qed.

Lemma files_on_pos v m f x : m !! f = Some x -> f_vnode x = Some v -> 1 <= files_on v m.
Proof.
  intros Hf E. pose proof (files_on_delete v m f x Hf) as E1. rewrite bool_decide_eq_true_2 in E1 by done.
  unfold files_on in *. lia.
Qed.

(** The vnode layer does not look at files and descriptors. *)
Lemma inv_same d (s s' : vst) :
  v_vnodes s' = v_vnodes s -> v_inuse s' = v_inuse s -> v_fs s' = v_fs s -> v_fresh s' = v_fresh s ->
  v_oom s' = v_oom s -> fs_inv d s -> fs_inv d s'.
Proof.
  destruct s, s'. cbn. intros -> -> -> -> -> [Hw ? ? ? ? ? ? ? ? ?]. split; try assumption. destruct Hw. split; assumption.
Qed.

(** ** Steps *)
Lemma fd_slot_run (s : vst) fd o : 0 <= fd -> p_files s !! Z.to_nat fd = Some o -> fd_slot fd s = Done o s.
Proof.
  intros H0 Hl. unfold fd_slot, gets, bind. destruct (Z.ltb_spec fd 0); [lia|]. by rewrite Hl.
Qed.

Lemma set_fd_run (s : vst) fd o :
  0 <= fd < Z.of_nat (length (p_files s)) -> set_fd fd o s = Done tt (upd_pfiles (<[Z.to_nat fd := o]>) s).
Proof.
  intros H0. unfold set_fd, gets, bind. destruct (Z.ltb_spec fd 0); [lia|].
  destruct (Z.leb_spec (Z.of_nat (length (p_files s))) fd); [lia|]. done.
Qed.

Lemma get_file_run (s : vst) f x : v_files s !! f = Some x -> get_file f s = Done x s.
Proof. intros E. unfold get_file, deref. by rewrite E. Qed.

Lemma set_file_run (s : vst) f x g :
  v_files s !! f = Some x -> set_file f g s = Done tt (upd_vfiles <[f := g x]> s).
Proof. intros E. unfold set_file. by krun (get_file_run s f x E). Qed.

Lemma check_fd_run (s : vst) fd o :
  0 <= fd < NFILES -> p_files s !! Z.to_nat fd = Some o -> check_fd fd s = Done o s.
Proof.
  intros Hr Hl. unfold check_fd. destruct (Z.ltb_spec fd 0); [lia|]. destruct (Z.ltb_spec NFILES fd); [lia|].
  apply fd_slot_run; [lia|done].
Qed.

(** What the assertions on a file ask for. *)
Definition file_fit (x : file) : Prop :=
  0 <= f_mode x < 8 /\ 0 <= f_pos x /\ 0 < f_refcount x /\ is_Some (f_vnode x).

Lemma file_ok_fit s f x : file_ok s f x -> file_fit x.
Proof. intros (Hm & Hp & _ & Hr & v & Hv & _). exact (conj Hm (conj Hp (conj Hr (ex_intro _ v Hv)))). Qed.

Lemma fref_run (s : vst) f x :
  v_files s !! f = Some x -> file_fit x ->
  fref f s = Done tt (upd_vfiles <[f := fl_ref (f_refcount x + 1) x]> s).
Proof.
  intros Hf (Hm & Hp & Hr & v & Hv). unfold fref. krun (get_file_run s f x Hf).
  unfold kassert at 1 2 3, bind at 1 2 3.
  replace ((0 <=? f_mode x) && (f_mode x <? 8)) with true by lia.
  replace (-1 <=? f_pos x) with true by lia. replace (0 <=? f_refcount x) with true by lia.
  replace (f_refcount x =? 0) with false by lia. cbn [negb]. rewrite Hv.
  rewrite bool_decide_eq_true_2 by done. unfold kassert, bind at 1. by apply set_file_run.
Qed.

Lemma fget_run (s : vst) fd f x :
  0 <= fd < NFILES -> p_files s !! Z.to_nat fd = Some (Some f) -> v_files s !! f = Some x -> file_fit x ->
  fget fd s = Done (Some f) (upd_vfiles <[f := fl_ref (f_refcount x + 1) x]> s).
Proof.
  intros Hr Hl Hf Hfit. unfold fget. destruct (Z.eqb_spec fd (-1)); [lia|].
  replace ((fd <? 0) || (NFILES <=? fd)) with false by lia.
  krun (fd_slot_run s fd _ (proj1 Hr) Hl). krun (fref_run s f x Hf Hfit). done.
Qed.

Lemma fput_run `{Devs} (s : vst) f x v :
  v_files s !! f = Some x -> 0 <= f_mode x < 8 -> -1 <= f_pos x -> 0 < f_refcount x -> f_vnode x = Some v ->
  fput (Some f) s =
  if f_refcount x =? 1
  then (vput (Some v) ;; modify (upd_vfiles (delete f))) (upd_vfiles <[f := fl_ref 0 x]> s)
  else Done tt (upd_vfiles <[f := fl_ref (f_refcount x - 1) x]> s).
Proof.
  intros Hf Hm Hp Hr Hv. unfold fput. rewrite bool_decide_eq_true_2 by done.
  unfold kassert at 1, deref at 1, bind at 1 2. krun (get_file_run s f x Hf).
  unfold kassert at 1 2 3, bind at 1 2 3.
  replace ((0 <=? f_mode x) && (f_mode x <? 8)) with true by lia.
  replace (-1 <=? f_pos x) with true by lia. replace (0 <? f_refcount x) with true by lia. rewrite Hv.
  erewrite bind_done with (a := tt) (s' := s).
  2:{ destruct (negb (f_refcount x =? 1)); [|done]. rewrite bool_decide_eq_true_2 by done. done. }
  krun (set_file_run s f x (fl_ref (f_refcount x - 1)) Hf).
  destruct (Z.eqb_spec (f_refcount x) 1) as [->|]; [done|].
  destruct (Z.eqb_spec (f_refcount x - 1) 0); [lia|done].
Qed.

(** ** Closing *)
Section Close.
Context `{Devs}.
Context (s : vst) (fd f v : Z) (x : file) (vn : vnode).
Hypothesis Hinv : vfs_inv s.
Hypothesis Hfd : 0 <= fd < NFILES.
Hypothesis Hslot : p_files s !! Z.to_nat fd = Some (Some f).
Hypothesis Hf : v_files s !! f = Some x.
Hypothesis Hv : f_vnode x = Some v.
Hypothesis Hvn : v_vnodes s !! v = Some vn.

Lemma closed_count g :
  fd_count g (<[Z.to_nat fd := None]> (p_files s)) = fd_count g (p_files s) - if bool_decide (g = f) then 1 else 0.
Proof using All.
  rewrite (fd_count_insert _ _ _ _ _ Hslot). rewrite (bool_decide_ext (Some f = Some g) (g = f)) by naive_solver.
  rewrite (bool_decide_eq_false_2 (None = Some g)) by done. lia.
Qed.

(** What remains when [f] keeps its other descriptors. *)
Lemma close_shared :
  1 < f_refcount x ->
  vfs_inv (upd_vfiles <[f := fl_ref (f_refcount x - 1) x]> (upd_pfiles (<[Z.to_nat fd := None]>) s)).
Proof using All.
  intros Hr. destruct Hinv as [Hfs [Hlen Hdom Hfile Hrefs]]. split; [by apply (inv_same _ s)|].
  split; cbn [v_files p_files v_vnodes upd_vfiles upd_pfiles].
  - by rewrite length_insert.
  - intros g Hg. apply lookup_insert_is_Some'. right. apply Hdom. rewrite fd_count_elem, closed_count in Hg.
    apply fd_count_elem. destruct (bool_decide (g = f)); lia.
  - intros g y [[<- <-]|[Hne Hy]]%lookup_insert_Some.
    + destruct (Hfile f x Hf) as (Hm & Hp & Hc & _ & Hw). unfold file_ok. cbn [p_files upd_vfiles upd_pfiles fl_ref f_mode f_pos f_refcount f_vnode v_vnodes].
      rewrite closed_count, bool_decide_eq_true_2 by done. split_and!; try done; lia.
    + destruct (Hfile g y Hy) as (Hm & Hp & Hc & Hr' & Hw). unfold file_ok. cbn [p_files upd_vfiles upd_pfiles v_vnodes].
      rewrite closed_count, bool_decide_eq_false_2 by done. split_and!; try done; lia.
  - intros w wn Hw. rewrite (files_on_update w _ f x) by done. by apply Hrefs.
Qed.

(** What remains when the last descriptor of [f] goes, with the vnodes [m] that
    are left. *)
Lemma close_last s' :
  f_refcount x = 1 -> fs_inv no_debt s' -> p_files s' = <[Z.to_nat fd := None]> (p_files s) ->
  v_files s' = delete f (v_files s) ->
  (1 < vn_refcount vn /\ v_vnodes s' = <[v := vn_set_ref (vn_refcount vn - 1) vn]> (v_vnodes s)) \/
  (vn_refcount vn = 1 /\ v_vnodes s' = delete v (v_vnodes s)) ->
  vfs_inv s'.
Proof using All.
  intros Hr Hfs' Ep Ef Hcase. destruct Hinv as [Hfs [Hlen Hdom Hfile Hrefs]]. split; [done|].
  assert (forall w, files_on w (v_files s') = files_on w (v_files s) - if bool_decide (v = w) then 1 else 0) as Hon.
  { intros w. rewrite Ef, (files_on_delete w _ f x Hf), Hv. f_equal.
    by rewrite (bool_decide_ext (Some v = Some w) (v = w)) by naive_solver. }
  assert (fd_count f (p_files s) = 1) as Hc1 by (destruct (Hfile f x Hf) as (_ & _ & <- & _); done).
  split; rewrite ?Ep, ?Ef.
  - by rewrite length_insert.
  - intros g Hg. rewrite fd_count_elem, closed_count in Hg. apply lookup_delete_is_Some.
    destruct (bool_decide_reflect (g = f)) as [E|Hne]; [rewrite E in Hg; lia|]. split; [done|].
    apply Hdom, fd_count_elem. lia.
  - intros g y Hy. apply lookup_delete_Some in Hy as [Hne Hy]. destruct (Hfile g y Hy) as (Hm & Hp & Hc & Hr' & w & Hw & Hws).
    unfold file_ok. rewrite Ep, closed_count, bool_decide_eq_false_2 by done.
    split_and!; try lia. exists w. split; [done|].
    destruct Hcase as [[_ ->]|[Hv1 ->]]; [apply lookup_insert_is_Some'; by right|].
    apply lookup_delete_is_Some. split; [|done]. intros <-.
    pose proof (Hrefs v vn Hvn). pose proof (Hon v) as E. rewrite bool_decide_eq_true_2, Ef in E by done.
    assert (1 <= files_on v (delete f (v_files s))); [|lia].
    eapply (files_on_pos v _ g y); [|done]. by apply lookup_delete_Some.
  - intros w wn Hw. rewrite <- Ef, Hon.
    destruct Hcase as [[_ E]|[Hv1 E]]; rewrite E in Hw.
    + apply lookup_insert_Some in Hw as [[<- <-]|[Hne Hw]].
      * pose proof (Hrefs v vn Hvn). rewrite bool_decide_eq_true_2 by done. cbn. lia.
      * pose proof (Hrefs w wn Hw). rewrite bool_decide_eq_false_2 by done. lia.
    + apply lookup_delete_Some in Hw as [Hne Hw].
      pose proof (Hrefs w wn Hw). rewrite bool_decide_eq_false_2 by done. lia.
Qed.

Lemma close_run :
  runs (do_close fd) s (fun r s' => r = 0 /\ vfs_inv s' /\ p_files s' = <[Z.to_nat fd := None]> (p_files s) /\
    if f_refcount x =? 1
    then v_files s' = delete f (v_files s) /\
      (if vn_refcount vn =? 1 then v_vnodes s' = delete v (v_vnodes s)
       else v_vnodes s' = <[v := vn_set_ref (vn_refcount vn - 1) vn]> (v_vnodes s))
    else s' = upd_vfiles <[f := fl_ref (f_refcount x - 1) x]> (upd_pfiles (<[Z.to_nat fd := None]>) s)).
Proof using All.
  pose proof Hinv as [Hfs Hfiles]. unfold do_close. apply runs_bind.
  eapply runs_intro; [by apply check_fd_run|]. cbv beta iota. apply runs_bind.
  eapply runs_intro; [apply set_fd_run; rewrite (fv_len s Hfiles); done|]. cbv beta.
  set (s1 := upd_pfiles _ s). destruct (fv_file s Hfiles f x Hf) as (Hm & Hp & Hc & Hr & _).
  assert (v_files s1 !! f = Some x) as Hf1 by done.
  apply runs_bind. unfold runs. rewrite (fput_run s1 f x v Hf1 Hm) by (done || lia).
  destruct (Z.eqb_spec (f_refcount x) 1) as [E1|E1].
  - set (s2 := upd_vfiles <[f := fl_ref 0 x]> s1).
    assert (fs_inv no_debt s2) as Hfs2 by (by apply (inv_same _ s)).
    apply runs_bind. eapply runs_mono; [eapply (vput_inv _ s2 v vn Hfs2); done|].
    intros _ s3 (Hfs3 & Hcase). cbv beta. apply runs_modify, runs_ret.
    assert (v_files s3 = <[f := fl_ref 0 x]> (v_files s) /\ p_files s3 = <[Z.to_nat fd := None]> (p_files s) /\
      ((1 < vn_refcount vn /\ v_vnodes s3 = <[v := vn_set_ref (vn_refcount vn - 1) vn]> (v_vnodes s)) \/
       (vn_refcount vn = 1 /\ v_vnodes s3 = delete v (v_vnodes s)))) as (Ef & Ep & Hc3).
    { destruct Hcase as [[? ->]|(? & y & _ & ->)]; split_and!; try done; [left|right]; done. }
    assert (v_files (upd_vfiles (delete f) s3) = delete f (v_files s)) as Ed.
    { cbn. by rewrite Ef, delete_insert_eq. }
    split_and!; try done; [|].
    + apply close_last; try done. by apply (inv_same _ s3).
    + destruct Hc3 as [[? E]|[-> E]]; [|done]. destruct (Z.eqb_spec (vn_refcount vn) 1); [lia|done].
  - apply runs_ret. split_and!; try done. apply close_shared. lia.
Qed.
End Close.

(** C17: [do_close] of an open descriptor frees the descriptor.  If the file has
    other descriptors it only loses a reference; otherwise the file is freed and
    its reference on the vnode dropped.  The counts of descriptors, files and
    links stay in agreement.  A descriptor that is not open gives [-EBADF]. *)
Theorem do_close_spec `{Devs} (s : vst) fd :
  vfs_inv s -> 0 <= fd < NFILES ->
  runs (do_close fd) s (fun r s' => vfs_inv s' /\
    match p_files s !! Z.to_nat fd with
    | Some (Some f) => exists x v vn, v_files s !! f = Some x /\ f_vnode x = Some v /\ v_vnodes s !! v = Some vn /\
        r = 0 /\ p_files s' = <[Z.to_nat fd := None]> (p_files s) /\
        if f_refcount x =? 1
        then v_files s' = delete f (v_files s) /\
          (if vn_refcount vn =? 1 then v_vnodes s' = delete v (v_vnodes s)
           else v_vnodes s' = <[v := vn_set_ref (vn_refcount vn - 1) vn]> (v_vnodes s))
        else s' = upd_vfiles <[f := fl_ref (f_refcount x - 1) x]> (upd_pfiles (<[Z.to_nat fd := None]>) s)
    | _ => r = - EBADF /\ s' = s
    end).
Proof.
  intros Hinv Hfd. pose proof Hinv as [_ Hfiles]. pose proof (fv_len s Hfiles).
  destruct (p_files s !! Z.to_nat fd) as [[f|]|] eqn:El.
  - destruct (fv_dom s Hfiles f) as [x Hx]; [by eapply list_elem_of_lookup_2|].
    destruct (fv_file s Hfiles f x Hx) as (_ & _ & _ & _ & v & Hv & vn & Hvn).
    eapply runs_mono; [eapply close_run; eauto|]. intros r s' (-> & Hi & Hp & Hc). split; [done|].
    by exists x, v, vn.
  - unfold do_close. apply runs_bind. eapply runs_intro; [by apply check_fd_run|]. by apply runs_ret.
  - apply lookup_ge_None in El. lia.
Qed.

(** ** Sharing *)
Lemma share_inv (s : vst) k f x :
  vfs_inv s -> p_files s !! k = Some None -> v_files s !! f = Some x ->
  vfs_inv (upd_pfiles (<[k := Some f]>) (upd_vfiles <[f := fl_ref (f_refcount x + 1) x]> s)).
Proof.
  intros [Hfs [Hlen Hdom Hfile Hrefs]] Hk Hf. split; [by apply (inv_same _ s)|].
  assert (forall g, fd_count g (<[k := Some f]> (p_files s)) =
    fd_count g (p_files s) + if bool_decide (g = f) then 1 else 0) as Hcnt.
  { intros g. rewrite (fd_count_insert _ _ _ _ _ Hk). rewrite (bool_decide_ext (Some f = Some g) (g = f)) by naive_solver.
    rewrite (bool_decide_eq_false_2 (None = Some g)) by done. lia. }
  split; cbn [v_files p_files v_vnodes upd_vfiles upd_pfiles].
  - by rewrite length_insert.
  - intros g Hg. apply lookup_insert_is_Some'. rewrite fd_count_elem, Hcnt in Hg.
    destruct (bool_decide_reflect (g = f)) as [E|]; [by left|]. right. apply Hdom, fd_count_elem. lia.
  - intros g y [[<- <-]|[Hne Hy]]%lookup_insert_Some.
    + destruct (Hfile f x Hf) as (Hm & Hp & Hc & Hr & Hw). unfold file_ok.
      cbn [p_files upd_vfiles upd_pfiles fl_ref f_mode f_pos f_refcount f_vnode v_vnodes].
      rewrite Hcnt, bool_decide_eq_true_2 by done. split_and!; try done; lia.
    + destruct (Hfile g y Hy) as (Hm & Hp & Hc & Hr' & Hw). unfold file_ok. cbn [p_files upd_vfiles upd_pfiles v_vnodes].
      rewrite Hcnt, bool_decide_eq_false_2 by done. split_and!; try done; lia.
  - intros w wn Hw. rewrite (files_on_update w _ f x) by done. by apply Hrefs.
Qed.

Lemma first_none_spec l n i :
  l !! i = Some None -> (forall j, (j < i)%nat -> l !! j <> Some None) -> first_none l n = n + Z.of_nat i.
Proof.
  revert n i. induction l as [|o l IH]; intros n i Hi Hmin; [done|]. destruct i as [|i].
  - injection Hi as ->. cbn. lia.
  - destruct o as [f|]; [|by destruct (Hmin 0%nat ltac:(lia))]. cbn. rewrite (IH (n + 1) i); [lia|done|].
    intros j Hj. apply (Hmin (S j)). lia.
Qed.

Lemma first_none_full l n : Forall (fun o => o <> None) l -> first_none l n = - EMFILE.
Proof. intros Hl. revert n. induction Hl as [|[f|] l Ho _ IH]; intros n; [done|apply IH|done]. Qed.

(** The file behind an open descriptor. *)
Lemma open_file (s : vst) fd f :
  file_inv s -> p_files s !! fd = Some (Some f) -> exists x, v_files s !! f = Some x /\ file_ok s f x /\ file_fit x.
Proof.
  intros Hfiles Hl. destruct (fv_dom s Hfiles f) as [x Hx]; [by eapply list_elem_of_lookup_2|].
  exists x. split; [done|]. pose proof (fv_file s Hfiles f x Hx). split; [done|by eapply file_ok_fit].
Qed.

(** [do_dup] of an open descriptor returns the lowest free descriptor, which
    then shares the file; the file has one more reference. *)
Theorem do_dup_spec (s : vst) fd f i :
  vfs_inv s -> 0 <= fd < NFILES -> p_files s !! Z.to_nat fd = Some (Some f) ->
  p_files s !! i = Some None -> (forall j, (j < i)%nat -> p_files s !! j <> Some None) ->
  runs (do_dup fd) s (fun r s' => r = Z.of_nat i /\ vfs_inv s' /\
    exists x, v_files s !! f = Some x /\
      s' = upd_pfiles (<[i := Some f]>) (upd_vfiles <[f := fl_ref (f_refcount x + 1) x]> s)).
Proof.
  intros Hinv Hfd Hl Hi Hmin. pose proof Hinv as [_ Hfiles]. destruct (open_file s _ f Hfiles Hl) as (x & Hx & _ & Hfit).
  unfold do_dup. apply runs_bind. eapply runs_intro; [by apply check_fd_run|]. cbv beta iota.
  apply runs_bind. eapply runs_intro; [by apply fget_run|]. cbv beta.
  apply runs_bind, runs_kassert; [done|]. apply runs_bind, runs_gets. cbn [p_files upd_vfiles].
  rewrite (first_none_spec _ 0 i Hi Hmin). rewrite Z.add_0_l. pose proof (fv_len s Hfiles).
  pose proof (lookup_lt_Some _ _ _ Hi). destruct (Z.ltb_spec NFILES (Z.of_nat i)); [lia|].
  apply runs_bind. eapply runs_intro; [apply fd_slot_run; [lia|exact Hl]|]. cbv beta.
  apply runs_bind. eapply runs_intro; [apply set_fd_run; cbn; lia|]. cbv beta. apply runs_ret.
  rewrite Nat2Z.id. split_and!; [done|by apply share_inv|]. by exists x.
Qed.

(** With no descriptor free, [do_dup] tests [new_fd > NFILES] although
    [get_empty_fd] reports failure with [-EMFILE]: it stores outside the
    descriptor table. *)
Theorem do_dup_full (s : vst) fd f :
  vfs_inv s -> 0 <= fd < NFILES -> p_files s !! Z.to_nat fd = Some (Some f) ->
  Forall (fun o => o <> None) (p_files s) -> do_dup fd s = Stuck.
Proof.
  intros Hinv Hfd Hl Hall. pose proof Hinv as [_ Hfiles]. destruct (open_file s _ f Hfiles Hl) as (x & Hx & _ & Hfit).
  unfold do_dup. krun (check_fd_run s fd _ Hfd Hl). krun (fget_run s fd f x Hfd Hl Hx Hfit).
  unfold kassert, bind at 1. rewrite bool_decide_eq_true_2 by done.
  unfold get_empty_fd, gets, bind at 1. cbn [p_files upd_vfiles]. rewrite first_none_full by done.
  change (NFILES <? - EMFILE) with false. cbv iota.
  erewrite bind_done by (apply fd_slot_run; [lia|exact Hl]). done.
Qed.

(** [do_dup2] onto another descriptor: it is closed if it was open and then
    shares the file of [ofd]. *)
Theorem do_dup2_spec `{Devs} (s : vst) ofd nfd f :
  vfs_inv s -> 0 <= ofd < NFILES -> 0 <= nfd < NFILES -> nfd <> ofd ->
  p_files s !! Z.to_nat ofd = Some (Some f) ->
  runs (do_dup2 ofd nfd) s (fun r s' => r = nfd /\ vfs_inv s' /\
    p_files s' = <[Z.to_nat nfd := Some f]> (p_files s)).
Proof.
  intros Hinv Ho Hn Hne Hl. pose proof Hinv as [_ Hfiles]. pose proof (fv_len s Hfiles) as Hlen.
  unfold do_dup2. replace ((ofd <? 0) || (NFILES <? ofd)) with false by lia.
  replace ((nfd <? 0) || (NFILES <? nfd)) with false by lia.
  apply runs_bind. eapply runs_intro; [apply fd_slot_run; [lia|exact Hl]|]. cbv beta iota.
  destruct (lookup_lt_is_Some_2 (p_files s) (Z.to_nat nfd)) as [o Hno]; [lia|].
  apply runs_bind. eapply runs_intro; [apply fd_slot_run; [lia|exact Hno]|]. cbv beta.
  replace (nfd =? ofd) with false by lia. rewrite andb_true_r. apply runs_bind.
  assert (runs (if bool_decide (o <> None) then do_close nfd ;; ret tt else ret tt) s (fun _ s1 =>
    vfs_inv s1 /\ p_files s1 = <[Z.to_nat nfd := None]> (p_files s))) as Hclose.
  { destruct o as [g|].
    - rewrite bool_decide_eq_true_2 by done. destruct (open_file s _ g Hfiles Hno) as (y & Hy & (_ & _ & _ & _ & v & Hv & vn & Hvn) & _).
      apply runs_bind. eapply runs_mono; [eapply close_run; eauto|]. intros r s1 (_ & Hi & Hp & _). by apply runs_ret.
    - rewrite bool_decide_eq_false_2 by naive_solver. apply runs_ret. split; [done|]. by rewrite list_insert_id. }
  eapply runs_mono; [exact Hclose|]. intros _ s1 (Hinv1 & Hp1). cbv beta.
  assert (p_files s1 !! Z.to_nat ofd = Some (Some f)) as Hl1 by (rewrite Hp1, list_lookup_insert_ne by lia; done).
  pose proof Hinv1 as [_ Hfiles1]. destruct (open_file s1 _ f Hfiles1 Hl1) as (x & Hx & Hok & Hfit).
  apply runs_bind. eapply runs_intro; [apply fd_slot_run; [lia|exact Hl1]|]. cbv beta.
  apply runs_bind. eapply runs_intro; [apply set_fd_run; rewrite (fv_len s1 Hfiles1); lia|]. cbv beta.
  set (s2 := upd_pfiles _ s1).
  assert (p_files s2 !! Z.to_nat nfd = Some (Some f)) as Hl2.
  { cbn. apply list_lookup_insert_eq. pose proof (fv_len s1 Hfiles1). lia. }
  apply runs_bind. eapply runs_intro; [apply fd_slot_run; [lia|exact Hl2]|]. cbv beta.
  apply runs_bind, (runs_deref _ f); [done|]. cbv beta.
  apply runs_bind. eapply runs_intro; [by apply (fref_run s2 f x)|]. cbv beta. apply runs_ret.
  split_and!; [done| |cbn; rewrite Hp1, list_insert_insert_eq; done].
  apply (share_inv s1); [done| |done]. rewrite Hp1. apply list_lookup_insert_eq. lia.
Qed.

(** [do_dup2] of a descriptor onto itself takes a reference for which there
    is no descriptor: closing the descriptor later leaves the file allocated. *)
Theorem do_dup2_same_leaks `{Devs} (s : vst) fd f :
  vfs_inv s -> 0 <= fd < NFILES -> p_files s !! Z.to_nat fd = Some (Some f) ->
  runs (do_dup2 fd fd) s (fun r s' => r = fd /\ p_files s' = p_files s /\ ~ vfs_inv s').
Proof.
  intros Hinv Ho Hl. pose proof Hinv as [_ Hfiles]. pose proof (fv_len s Hfiles) as Hlen.
  destruct (open_file s _ f Hfiles Hl) as (x & Hx & Hok & Hfit).
  unfold do_dup2. replace ((fd <? 0) || (NFILES <? fd)) with false by lia.
  apply runs_bind. eapply runs_intro; [apply fd_slot_run; [lia|exact Hl]|]. cbv beta iota.
  apply runs_bind. eapply runs_intro; [apply fd_slot_run; [lia|exact Hl]|]. cbv beta.
  rewrite Z.eqb_refl, andb_false_r. apply runs_bind, runs_ret.
  apply runs_bind. eapply runs_intro; [apply fd_slot_run; [lia|exact Hl]|]. cbv beta.
  apply runs_bind. eapply runs_intro; [apply set_fd_run; lia|]. cbv beta.
  assert (upd_pfiles (<[Z.to_nat fd := Some f]>) s = s) as ->.
  { apply vstate_ext; try reflexivity. cbn. by apply list_insert_id. }
  apply runs_bind. eapply runs_intro; [apply fd_slot_run; [lia|exact Hl]|]. cbv beta.
  apply runs_bind, (runs_deref _ f); [done|]. cbv beta.
  apply runs_bind. eapply runs_intro; [by apply fref_run|]. cbv beta. apply runs_ret.
  split_and!; try done. intros [_ Hfiles'].
  destruct (fv_file _ Hfiles' f (fl_ref (f_refcount x + 1) x)) as (_ & _ & Hc & _); [apply lookup_insert_eq|].
  destruct Hok as (_ & _ & Hc0 & _). cbn in Hc. lia.
Qed.

(** ** Positions *)

(** The position a seek asks for. *)
Definition seek_target (x : file) (vn : vnode) (offset whence : Z) : option Z :=
  if whence =? SEEK_SET then Some offset
  else if whence =? SEEK_CUR then Some (s32 (f_pos x + offset))
  else if whence =? SEEK_END then Some (s32 (offset + vn_len vn))
  else None.

Lemma pos_inv (s : vst) f x p :
  vfs_inv s -> v_files s !! f = Some x -> 0 <= p -> vfs_inv (upd_vfiles <[f := fl_pos p x]> s).
Proof.
  intros [Hfs [Hlen Hdom Hfile Hrefs]] Hf Hp. split; [by apply (inv_same _ s)|].
  split; cbn [v_files p_files v_vnodes upd_vfiles]; try done.
  - intros g Hg. apply lookup_insert_is_Some'. right. by apply Hdom.
  - intros g y [[<- <-]|[Hne Hy]]%lookup_insert_Some; [|by apply (Hfile g y)].
    destruct (Hfile f x Hf) as (Hm & _ & Hc & Hr & Hw). exact (conj Hm (conj Hp (conj Hc (conj Hr Hw)))).
  - intros w wn Hw. rewrite (files_on_update w _ f x) by done. by apply Hrefs.
Qed.

(** Taking a reference for the duration of a call and dropping it. *)
Lemma put_back_run `{Devs} (s : vst) f x :
  v_files s !! f = Some x -> file_fit x ->
  fput (Some f) (upd_vfiles <[f := fl_ref (f_refcount x + 1) x]> s) = Done tt s.
Proof.
  intros Hf (Hm & Hp & Hr & v & Hv).
  rewrite (fput_run _ f (fl_ref (f_refcount x + 1) x) v); try done; [|apply lookup_insert_eq|cbn; lia|cbn; lia].
  cbn [f_refcount fl_ref]. destruct (Z.eqb_spec (f_refcount x + 1) 1); [lia|]. f_equal.
  apply vstate_ext; try reflexivity. cbn. rewrite insert_insert_eq.
  replace (f_refcount x + 1 - 1) with (f_refcount x) by lia. rewrite insert_id; [done|]. rewrite Hf. by destruct x.
Qed.

Lemma set_pos_run (s : vst) f x p :
  v_files s !! f = Some x -> set_file f (fl_pos p) s = Done tt (upd_vfiles <[f := fl_pos p x]> s).
Proof. apply set_file_run. Qed.

(** [do_lseek] on an open descriptor. *)
Lemma lseek_run `{Devs} (s : vst) fd f x v vn offset whence :
  0 <= fd < NFILES -> p_files s !! Z.to_nat fd = Some (Some f) -> v_files s !! f = Some x -> file_fit x ->
  f_vnode x = Some v -> v_vnodes s !! v = Some vn ->
  do_lseek fd offset whence s =
  match seek_target x vn offset whence with
  | Some p => if p <? 0 then Done (- EINVAL) s else Done p (upd_vfiles <[f := fl_pos p x]> s)
  | None => Done (- EINVAL) s
  end.
Proof.
  intros Hfd Hl Hf Hok Hv Hvn.
  unfold do_lseek. krun (check_fd_run s fd _ Hfd Hl). krun (fget_run s fd f x Hfd Hl Hf Hok).
  unfold kassert, bind at 1. rewrite bool_decide_eq_true_2 by done.
  krun (put_back_run s f x Hf Hok). unfold deref at 1, bind at 1. krun (get_file_run s f x Hf).
  assert (forall p, v_files (upd_vfiles <[f := fl_pos p x]> s) !! f = Some (fl_pos p x)) as Hf'
    by (intros; apply lookup_insert_eq).
  assert (forall p, (let* x1 := get_file f in
      if f_pos x1 <? 0 then set_file f (fl_pos (f_pos x)) ;; ret (- EINVAL) else ret (f_pos x1))
      (upd_vfiles <[f := fl_pos p x]> s) =
      if p <? 0 then Done (- EINVAL) s else Done p (upd_vfiles <[f := fl_pos p x]> s)) as Hend.
  { intros p. krun (get_file_run _ f _ (Hf' p)). cbn [f_pos fl_pos]. destruct (p <? 0); [|done].
    krun (set_pos_run _ f _ (f_pos x) (Hf' p)). unfold ret. f_equal. apply vstate_ext; try reflexivity. cbn.
    rewrite insert_insert_eq, insert_id; [done|]. rewrite Hf. by destruct x. }
  unfold seek_target.
  destruct (whence =? SEEK_SET).
  { erewrite bind_done by (krun (set_pos_run s f x offset Hf); reflexivity). cbn [negb]. apply Hend. }
  destruct (whence =? SEEK_CUR).
  { erewrite bind_done by (krun (set_pos_run s f x (s32 (f_pos x + offset)) Hf); reflexivity). cbn [negb]. apply Hend. }
  destruct (whence =? SEEK_END); [|done].
  erewrite bind_done.
  2:{ rewrite Hv. unfold deref at 1, bind at 1. krun (get_vnode_run s v vn Hvn).
      krun (set_pos_run s f x (s32 (offset + vn_len vn)) Hf). reflexivity. }
  cbn [negb]. apply Hend.
Qed.

(** [do_lseek] sets the position to the offset, to the offset from the
    current position or from the end of the file, and returns it; a negative
    position or an unknown [whence] gives [-EINVAL] and leaves the position. *)
Theorem do_lseek_spec `{Devs} (s : vst) fd f x v vn offset whence :
  vfs_inv s -> 0 <= fd < NFILES -> p_files s !! Z.to_nat fd = Some (Some f) -> v_files s !! f = Some x ->
  f_vnode x = Some v -> v_vnodes s !! v = Some vn ->
  runs (do_lseek fd offset whence) s (fun r s' => vfs_inv s' /\
    match seek_target x vn offset whence with
    | Some p => if p <? 0 then r = - EINVAL /\ s' = s else r = p /\ s' = upd_vfiles <[f := fl_pos p x]> s
    | None => r = - EINVAL /\ s' = s
    end).
Proof.
  intros Hinv Hfd Hl Hf Hv Hvn. unfold runs.
  pose proof (file_ok_fit _ _ _ (fv_file s (proj2 Hinv) f x Hf)).
  rewrite (lseek_run s fd f x v vn) by done.
  destruct (seek_target x vn offset whence) as [p|]; [|done]. destruct (Z.ltb_spec p 0); [done|].
  split; [by apply pos_inv|done].
Qed.

(** ** Reading and writing *)

(** A change of the length of a vnode. *)
Lemma len_inv d (s : vst) v vn len :
  fs_inv d s -> v_vnodes s !! v = Some vn -> fs_inv d (upd_vnodes <[v := vn_set_len len vn]> s).
Proof.
  intros [Hvn Hlen Hi Hnode Hlink Hnone Hmode Hroot0 Hroot Hoom] Hv.
  assert (forall w wn, v_vnodes (upd_vnodes <[v := vn_set_len len vn]> s) !! w = Some wn ->
    exists wn0 l, v_vnodes s !! w = Some wn0 /\ wn = vn_set_len l wn0) as Hold.
  { cbn. intros w wn [[<- <-]|[_ Hw]]%lookup_insert_Some; [eauto|]. exists wn, (vn_len wn).
    split; [done|]. by destruct wn. }
  split; cbn [v_fs upd_vnodes v_oom]; try done.
  - split; cbn [v_inuse v_fs v_fresh upd_vnodes]; try apply Hvn.
    + intros w. rewrite (vw_dom s Hvn). cbn. rewrite lookup_insert_is_Some'. split; [auto|]. intros [<-|?]; eauto.
    + intros w u wn un (wn0 & l & Hw & ->)%Hold (un0 & l' & Hu & ->)%Hold. exact (vw_vno s Hvn w u wn0 un0 Hw Hu).
    + intros w wn (wn0 & l & Hw & ->)%Hold. apply (vw_ok s Hvn w wn0 Hw).
    + intros w wn (wn0 & l & Hw & ->)%Hold. apply (vw_link s Hvn w wn0 Hw).
  - intros w wn (wn0 & l & Hw & ->)%Hold. apply (Hi w wn0 Hw).
  - intros m y Hy. rewrite (Hlink m y Hy). do 2 f_equal. unfold held. cbn.
    erewrite bool_decide_ext; [done|]. rewrite !Exists_exists. apply exist_proper. intros w.
    destruct (decide (w = v)) as [->|]; [|by rewrite lookup_insert_ne]. by rewrite lookup_insert_eq, Hv.
  - intros w wn y (wn0 & l & Hw & ->)%Hold Hy. apply (Hmode w wn0 y Hw Hy).
Qed.

(** A change of the contents of a file. *)
Lemma data_inv d (s : vst) n x bytes bytes' len :
  fs_inv d s -> slot (v_fs s) n = Some x -> rf_mem x = MemData bytes -> 0 < rf_linkcount x ->
  Z.of_nat (length bytes') = PAGE_SIZE ->
  fs_inv d (upd_fs (set_slot n (Some (i_size len (i_mem (MemData bytes') x)))) s).
Proof.
  intros Hinv Hx Hm Hp Hb. destruct (fi_node _ _ Hinv _ _ Hx) as [Hok Hmem].
  unfold mem_ok in Hmem. rewrite Hm in Hmem.
  eapply inv_set; [exact Hinv|exact Hx|exact Hok| |done|done|done| |].
  - unfold mem_ok. cbn. split; [apply Hmem|done].
  - intros m. cbn. rewrite Hm. destruct (m =? n); lia.
  - eapply rooted_same; [exact Hx| |apply Hinv]. intros m. cbn. by rewrite Hm.
Qed.

Section Data.
Context `{Devs} `{CdevOps}.
Context (s : vst) (fd f v n : Z) (fx : file) (vn : vnode) (x : inode) (bytes : list Z).
Hypothesis Hinv : vfs_inv s.
Hypothesis Hfd : 0 <= fd < NFILES.
Hypothesis Hl : p_files s !! Z.to_nat fd = Some (Some f).
Hypothesis Hf : v_files s !! f = Some fx.
Hypothesis Hv : f_vnode fx = Some v.
Hypothesis Hdata : data_file s v n vn x bytes.
Hypothesis Hops : vn_ops vn = RamfsFileVops.

Lemma data_ref_file : data_file (upd_vfiles <[f := fl_ref (f_refcount fx + 1) fx]> s) v n vn x bytes.
Proof using Hdata. by destruct Hdata; split. Qed.

(** The position a write starts at. *)
Definition write_pos : Z := if Z.land (f_mode fx) 4 =? 0 then f_pos fx else vn_len vn.

(** The state after a write of [buf]. *)
Definition written (buf : list Z) : vst :=
  let m := Z.min (Z.of_nat (length buf)) (PAGE_SIZE - write_pos) in
  let len := Z.max (vn_len vn) (write_pos + m) in
  let bytes' := overwrite bytes write_pos (take (Z.to_nat m) buf) in
  upd_vfiles <[f := fl_pos (s32 (write_pos + Z.of_nat (length buf))) fx]>
    (upd_fs (fun _ => set_slot n (Some (i_size len (i_mem (MemData bytes') x))) (v_fs s))
      (upd_vnodes <[v := vn_set_len len vn]> s)).

Lemma fput_pos (s1 : vst) p :
  v_files s1 !! f = Some (fl_pos p (fl_ref (f_refcount fx + 1) fx)) -> -1 <= p ->
  fput (Some f) s1 = Done tt (upd_vfiles <[f := fl_pos p fx]> s1).
Proof using H Hinv Hf Hv.
  intros Hf1 Hp. destruct Hinv as [_ Hfiles]. destruct (fv_file s Hfiles f fx Hf) as (Hm & _ & _ & Hr & _).
  rewrite (fput_run s1 f _ v Hf1); try done; [|cbn; lia].
  cbn [f_refcount fl_pos fl_ref]. destruct (Z.eqb_spec (f_refcount fx + 1) 1); [lia|].
  replace (f_refcount fx + 1 - 1) with (f_refcount fx) by lia. done.
Qed.

Lemma vop_write_run (s1 : vst) offset buf count :
  v_vnodes s1 !! v = Some vn -> vop_write v offset buf count s1 = ramfs_write v offset buf count s1.
Proof using Hops. intros E. unfold vop_write. krun (get_vnode_run s1 v vn E). by rewrite Hops. Qed.

Lemma vop_read_run (s1 : vst) offset count :
  v_vnodes s1 !! v = Some vn -> vop_read v offset count s1 = ramfs_read v offset count s1.
Proof using Hops. intros E. unfold vop_read. krun (get_vnode_run s1 v vn E). by rewrite Hops. Qed.

Lemma data_link : 0 < rf_linkcount x.
Proof using Hinv Hdata.
  destruct Hinv as [Hfs _]. destruct (vw_link s (fi_vn _ _ Hfs) v vn (df_vnode _ _ _ _ _ _ Hdata))
    as (k & (y & Hy & _ & <-)%ramfs_nlink_Some & Hp).
  pose proof (fi_i _ _ Hfs _ _ (df_vnode _ _ _ _ _ _ Hdata)) as Hi. rewrite (df_i _ _ _ _ _ _ Hdata) in Hi.
  injection Hi as Hn. rewrite <- Hn, (df_slot _ _ _ _ _ _ Hdata) in Hy. by injection Hy as <-.
Qed.

Section Write.
Context (buf : list Z).
Hypothesis Hmode : f_mode fx <> FMODE_READ.
Hypothesis Hpos : write_pos + Z.of_nat (length buf) < 2 ^ 31.
Hypothesis Hroom : write_pos <= PAGE_SIZE.

(** The seek to the end that an appending write starts with. *)
Lemma append_run :
  let s1 := upd_vfiles <[f := fl_ref (f_refcount fx + 1) fx]> s in
  runs (if negb (Z.land (f_mode fx) 4 =? 0) then
          let* p := do_lseek fd 0 SEEK_END in set_file f (fl_pos p)
        else ret tt) s1 (fun _ s2 =>
    s2 = upd_vfiles <[f := fl_pos write_pos (fl_ref (f_refcount fx + 1) fx)]> s).
Proof.
  intros s1. unfold write_pos. destruct (Z.land (f_mode fx) 4 =? 0) eqn:Ea; cbn [negb].
  { apply runs_ret. unfold s1. do 2 f_equal. }
  set (fx1 := fl_ref (f_refcount fx + 1) fx).
  assert (v_files s1 !! f = Some fx1) as Hf1 by apply lookup_insert_eq.
  assert (file_fit fx1) as Hfit1.
  { destruct (file_ok_fit _ _ _ (fv_file s (proj2 Hinv) f fx Hf)) as (Hm & Hp & Hr & Hw).
    unfold file_fit, fx1. cbn. split_and!; try lia. done. }
  pose proof (df_len _ _ _ _ _ _ Hdata) as Hlen. pose proof (df_size _ _ _ _ _ _ Hdata) as Hsz.
  assert (do_lseek fd 0 SEEK_END s1 = Done (vn_len vn) (upd_vfiles <[f := fl_pos (vn_len vn) fx1]> s1)) as E.
  { rewrite (lseek_run s1 fd f fx1 v vn) by (done || apply Hdata). unfold seek_target.
    change (SEEK_END =? SEEK_SET) with false. change (SEEK_END =? SEEK_CUR) with false.
    change (SEEK_END =? SEEK_END) with true. cbv iota. rewrite Z.add_0_l, s32_small by (unfold PAGE_SIZE in *; lia).
    destruct (Z.ltb_spec (vn_len vn) 0); [lia|done]. }
  apply runs_bind. eapply runs_intro; [exact E|]. cbv beta.
  eapply runs_intro; [apply set_pos_run, lookup_insert_eq|]. cbv beta.
  unfold s1. apply vstate_ext; try reflexivity. cbn. by rewrite !insert_insert_eq.
Qed.

(** [do_write] on a regular file. *)
Lemma write_run :
  do_write fd buf (Z.of_nat (length buf)) s =
  Done (Z.min (Z.of_nat (length buf)) (PAGE_SIZE - write_pos)) (written buf).
Proof.
  pose proof (df_vnode _ _ _ _ _ _ Hdata) as Hvn. pose proof (df_mode _ _ _ _ _ _ Hdata) as Hmd.
  pose proof (file_ok_fit _ _ _ (fv_file s (proj2 Hinv) f fx Hf)) as Hfit.
  unfold do_write. krun (check_fd_run s fd _ Hfd Hl). krun (fget_run s fd f fx Hfd Hl Hf Hfit).
  unfold deref at 1, bind at 1. set (fx1 := fl_ref (f_refcount fx + 1) fx). set (s1 := upd_vfiles _ s).
  assert (v_files s1 !! f = Some fx1) as Hf1 by apply lookup_insert_eq.
  krun (get_file_run s1 f fx1 Hf1). change (f_vnode fx1) with (f_vnode fx). rewrite Hv.
  unfold deref at 1, bind at 1. krun (get_vnode_run s1 v vn Hvn). rewrite Hmd.
  change (f_mode fx1) with (f_mode fx). destruct (Z.eqb_spec (f_mode fx) FMODE_READ); [done|].
  destruct (runs_done _ _ _ append_run) as ([] & s2 & Ea & Es2). fold fx1 in Es2. krun Ea. clear Ea.
  set (fx2 := fl_pos write_pos fx1) in *.
  assert (v_files s2 !! f = Some fx2) as Hf2 by (rewrite Es2; apply lookup_insert_eq).
  krun (get_file_run s2 f fx2 Hf2). change (f_pos fx2) with write_pos.
  assert (data_file s2 v n vn x bytes) as Hd2 by (rewrite Es2; destruct Hdata; by split).
  pose proof (df_size _ _ _ _ _ _ Hdata) as Hsz. pose proof (df_len _ _ _ _ _ _ Hdata) as Hlen.
  destruct Hfit as (_ & Hp0 & _ & _).
  assert (0 <= write_pos) as Hw0 by (unfold write_pos; destruct (_ =? 0); lia).
  assert (Z.of_nat (length buf) < 2 ^ 31) as Hlb by lia.
  destruct (write_data s2 v n vn x bytes write_pos buf Hd2) as (s3 & Ew & _ & Es3); [lia|done|].
  erewrite bind_done by (rewrite vop_write_run by (apply Hd2); exact Ew). cbv beta.
  assert (v_files s3 !! f = Some fx2) as Hf3 by (rewrite Es3; exact Hf2).
  set (p := s32 (write_pos + Z.of_nat (length buf))).
  krun (set_pos_run s3 f fx2 p Hf3).
  assert (0 <= p) as Hpp.
  { unfold p. rewrite s32_small; lia. }
  erewrite bind_done by (apply (fput_pos _ p); [apply lookup_insert_eq|lia]). cbv beta. unfold ret. f_equal.
  unfold written. fold p. rewrite Es3, Es2. apply vstate_ext; try reflexivity. cbn. by rewrite !insert_insert_eq.
Qed.

Lemma written_inv : vfs_inv (written buf).
Proof using All.
  pose proof (df_size _ _ _ _ _ _ Hdata) as Hsz. pose proof (df_len _ _ _ _ _ _ Hdata) as Hlen.
  destruct (file_ok_fit _ _ _ (fv_file s (proj2 Hinv) f fx Hf)) as (_ & Hp0 & _ & _).
  assert (0 <= write_pos) as Hw0 by (unfold write_pos; destruct (_ =? 0); lia).
  unfold written. cbv zeta. set (m := Z.min _ (PAGE_SIZE - write_pos)). set (len := Z.max (vn_len vn) (write_pos + m)).
  apply pos_inv; [|exact Hf|rewrite s32_small; lia].
  destruct Hinv as [Hfs [Hfl Hdom Hfile Hrefs]]. pose proof (df_vnode _ _ _ _ _ _ Hdata) as Hvn. split.
  - pose proof (len_inv no_debt s v vn len Hfs Hvn) as H1.
    apply (data_inv no_debt _ n x bytes (overwrite bytes write_pos (take (Z.to_nat m) buf)) len H1);
      [apply Hdata|apply Hdata|apply data_link|].
    pose proof (df_bytes _ _ _ _ _ _ Hdata). unfold overwrite. rewrite !length_app, length_drop, !length_take. lia.
  - split; cbn; try done.
    + intros g y Hy. destruct (Hfile g y Hy) as (? & ? & ? & ? & w & Hw & Hs). repeat (split; [done|]).
      exists w. split; [done|]. cbn. apply lookup_insert_is_Some'. by right.
    + intros w wn [[<- <-]|[_ Hw]]%lookup_insert_Some; [exact (Hrefs v vn Hvn)|by apply Hrefs].
Qed.

(** [do_write] on a regular file that is not open for reading only: the
    bytes go to the position of the file, or to its end if it is open for
    appending; those that do not fit in the page are dropped and the count says
    so, and the position moves by the count asked for.  The invariants of
    vnodes, inodes, files and descriptors are kept. *)
Theorem do_write_spec :
  runs (do_write fd buf (Z.of_nat (length buf))) s (fun r s' =>
    r = Z.min (Z.of_nat (length buf)) (PAGE_SIZE - write_pos) /\ s' = written buf /\ vfs_inv s').
Proof using All.
  unfold runs. rewrite write_run. split_and!; [done|done|apply written_inv].
Qed.
End Write.

(** [do_read] of a regular file. *)
Lemma read_run count :
  f_mode fx <> 2 -> f_mode fx <> 4 -> f_mode fx <> 6 -> 0 <= count < 2 ^ 31 -> f_pos fx + count < 2 ^ 31 ->
  let m := Z.max 0 (Z.min count (rf_size x - f_pos fx)) in
  do_read fd count s =
  Done (m, take (Z.to_nat m) (drop (Z.to_nat (f_pos fx)) bytes)) (upd_vfiles <[f := fl_pos (f_pos fx + m) fx]> s).
Proof using All.
  intros M2 M4 M6 Hc Hpc m. pose proof (df_vnode _ _ _ _ _ _ Hdata) as Hvn. pose proof (df_mode _ _ _ _ _ _ Hdata) as Hmd.
  pose proof (file_ok_fit _ _ _ (fv_file s (proj2 Hinv) f fx Hf)) as Hfit.
  unfold do_read. krun (check_fd_run s fd _ Hfd Hl). krun (fget_run s fd f fx Hfd Hl Hf Hfit).
  unfold deref at 1, bind at 1. set (fx1 := fl_ref (f_refcount fx + 1) fx). set (s1 := upd_vfiles _ s).
  assert (v_files s1 !! f = Some fx1) as Hf1 by apply lookup_insert_eq.
  krun (get_file_run s1 f fx1 Hf1). change (f_vnode fx1) with (f_vnode fx). rewrite Hv.
  unfold deref at 1, bind at 1. krun (get_vnode_run s1 v vn Hvn). rewrite Hmd.
  change (f_mode fx1) with (f_mode fx). change (f_pos fx1) with (f_pos fx).
  replace ((f_mode fx =? 2) || (f_mode fx =? 4) || (f_mode fx =? 6)) with false by lia.
  destruct Hfit as (_ & Hp0 & _ & _).
  pose proof (read_data s1 v n vn x bytes (f_pos fx) count data_ref_file Hp0 Hc) as Er. cbv zeta in Er. fold m in Er.
  erewrite bind_done by (rewrite vop_read_run by (exact Hvn); exact Er). cbv beta. cbn [fst].
  pose proof (df_size _ _ _ _ _ _ Hdata) as Hsz.
  rewrite s32_small by lia. krun (set_pos_run s1 f fx1 (f_pos fx + m) Hf1).
  erewrite bind_done by (apply (fput_pos _ (f_pos fx + m)); [apply lookup_insert_eq|lia]). cbv beta. unfold ret. f_equal.
  unfold s1. apply vstate_ext; try reflexivity. cbn. by rewrite !insert_insert_eq.
Qed.

End Data.

(** C33: What is written through a descriptor open for reading and writing is
    read back after seeking to where the write started, when it fits in the
    page of the file. *)
Theorem do_write_read `{Devs} `{CdevOps} (s : vst) fd f v n fx vn x bytes buf :
  vfs_inv s -> 0 <= fd < NFILES -> p_files s !! Z.to_nat fd = Some (Some f) -> v_files s !! f = Some fx ->
  f_vnode fx = Some v -> data_file s v n vn x bytes -> vn_ops vn = RamfsFileVops -> f_mode fx = 3 ->
  f_pos fx + Z.of_nat (length buf) <= PAGE_SIZE ->
  runs (let* w := do_write fd buf (Z.of_nat (length buf)) in
        do_lseek fd (f_pos fx) SEEK_SET ;;
        let* r := do_read fd (Z.of_nat (length buf)) in
        ret (w, r)) s (fun r s' => r = (Z.of_nat (length buf), (Z.of_nat (length buf), buf)) /\ vfs_inv s').
Proof.
  intros Hinv Hfd Hl Hf Hv Hd Hops Hmode Hroom.
  assert (write_pos fx vn = f_pos fx) as Ewp by (unfold write_pos; by rewrite Hmode).
  destruct (file_ok_fit _ _ _ (fv_file s (proj2 Hinv) f fx Hf)) as (Hm0 & Hp0 & Hr0 & Hv0).
  assert (f_mode fx <> FMODE_READ) as Hmw by (rewrite Hmode; done).
  assert (write_pos fx vn + Z.of_nat (length buf) < 2 ^ 31) as Hw1 by (rewrite Ewp; unfold PAGE_SIZE in *; lia).
  assert (write_pos fx vn <= PAGE_SIZE) as Hw2 by (rewrite Ewp; lia).
  apply runs_bind. eapply runs_intro; [by eapply write_run|]. cbv beta. rewrite Ewp.
  pose proof (written_inv s fd f v n fx vn x bytes Hinv Hfd Hl Hf Hv Hd Hops buf Hmw Hw1 Hw2) as Hinv1.
  set (s1 := written s f v n fx vn x bytes buf) in *.
  set (p := s32 (write_pos fx vn + Z.of_nat (length buf))).
  destruct (write_data s v n vn x bytes (f_pos fx) buf Hd) as (s' & _ & Hd' & Es'); [lia|lia|].
  set (m := Z.min (Z.of_nat (length buf)) (PAGE_SIZE - f_pos fx)) in *.
  assert (m = Z.of_nat (length buf)) as Em by (unfold m; lia).
  set (len := Z.max (vn_len vn) (f_pos fx + m)) in *.
  assert (data_file s1 v n (vn_set_len len vn)
    (i_size len (i_mem (MemData (overwrite bytes (f_pos fx) (take (Z.to_nat m) buf))) x))
    (overwrite bytes (f_pos fx) (take (Z.to_nat m) buf))) as Hd1.
  { rewrite Es' in Hd'. unfold s1, written. rewrite Ewp. fold m len. by destruct Hd'; split. }
  assert (v_files s1 !! f = Some (fl_pos p fx)) as Hf1 by apply lookup_insert_eq.
  assert (file_fit (fl_pos p fx)) as Hfit1 by exact (file_ok_fit _ _ _ (fv_file s1 (proj2 Hinv1) f _ Hf1)).
  set (fx2 := fl_pos (f_pos fx) (fl_pos p fx)). set (s2 := upd_vfiles <[f := fx2]> s1).
  assert (do_lseek fd (f_pos fx) SEEK_SET s1 = Done (f_pos fx) s2) as El.
  { rewrite (lseek_run s1 fd f (fl_pos p fx) v (vn_set_len len vn)); try done; [|apply Hd1].
    unfold seek_target. change (SEEK_SET =? SEEK_SET) with true. cbv iota.
    destruct (Z.ltb_spec (f_pos fx) 0); [lia|done]. }
  apply runs_bind. eapply runs_intro; [exact El|]. cbv beta.
  assert (vfs_inv s2) as Hinv2 by (by apply pos_inv).
  assert (v_files s2 !! f = Some fx2) as Hf2 by apply lookup_insert_eq.
  assert (data_file s2 v n (vn_set_len len vn)
    (i_size len (i_mem (MemData (overwrite bytes (f_pos fx) (take (Z.to_nat m) buf))) x))
    (overwrite bytes (f_pos fx) (take (Z.to_nat m) buf))) as Hd2 by (by destruct Hd1; split).
  apply runs_bind. eapply runs_intro.
  { apply (read_run s2 fd f v n fx2 (vn_set_len len vn) _ _ Hinv2 Hfd Hl Hf2 Hv Hd2 Hops (Z.of_nat (length buf)));
      cbn [fx2 f_mode f_pos fl_pos]; rewrite ?Hmode; try done; unfold PAGE_SIZE in *; lia. }
  cbv beta. apply runs_ret. cbn [rf_size i_size fx2 f_pos fl_pos].
  pose proof (df_size _ _ _ _ _ _ Hd). pose proof (df_len _ _ _ _ _ _ Hd).
  assert (Z.max 0 (Z.min (Z.of_nat (length buf)) (len - f_pos fx)) = Z.of_nat (length buf)) as -> by (unfold len; lia).
  split; [|apply pos_inv; [done|done|lia]]. rewrite Em at 1. do 2 f_equal.
  rewrite (take_ge buf) by lia. rewrite Nat2Z.id. apply overwrite_at; [|done].
  pose proof (df_bytes _ _ _ _ _ _ Hd). lia.
Qed.
End VfsFiles.
