(* ===== verification/VfsDents.v ===== *)
(** * Reading directories ([do_getdent] with [ramfs_readdir])

    Repeated calls enumerate the names of a directory. *)

From Stdlib Require Import ZArith Lia.
From stdpp Require Import base list gmap.
From S2P Require Import Prelude KString Vnode Ramfs RamfsSpec RamfsDir RamfsDemo Namev VfsSyscall VfsFiles.

Module VfsDents.
Import KString Vnode Ramfs RamfsSpec RamfsDir RamfsDemo Namev VfsSyscall VfsFiles.
Local Open Scope Z_scope.

(** The entries with a name. *)
Definition named_entries (ents : list dirent) : list dirent := filter (fun e => is_free e = false) ents.

Lemma next_entry_Some l j e :
  next_entry l = Some (j, e) ->
  l !! j = Some e /\ named_entries l = e :: named_entries (drop (S j) l).
Proof.
  unfold named_entries. revert j. induction l as [|x l IH]; intros j; [done|]. cbn [next_entry].
  destruct (is_free x) eqn:Ef.
  - destruct (next_entry l) as [[k y]|]; [|done]. intros [= <- ->].
    destruct (IH k eq_refl) as [Hl E]. split; [done|]. rewrite filter_cons_False by congruence. exact E.
  - intros [= <- ->]. split; [done|]. rewrite filter_cons_True by done. done.
Qed.

Lemma next_entry_None l : next_entry l = None -> named_entries l = [].
Proof.
  unfold named_entries. induction l as [|x l IH]; [done|]. cbn [next_entry].
  destruct (is_free x) eqn:Ef; [|done]. destruct (next_entry l) as [[k y]|]; [done|]. intros _.
  rewrite filter_cons_False by congruence. by apply IH.
Qed.

(** A client that reads a directory to its end. *)
Section Client.
Context `{Devs}.

Fixpoint getdents (fuel : nat) (fd : Z) (dname : list Z) : V (list (Z * list Z)) :=
  match fuel with
  | O => blocked
  | S fuel =>
      let* r := do_getdent fd dname in
      if 0 <? fst r then
        let* e := deref (snd r) in
        let* l := getdents fuel fd dname in
        ret (e :: l)
      else ret []
  end.

(** What a client sees of an entry: its number and the string of its name. *)
Definition seen (p : Z * list Z) : Z * list Z := (fst p, cname (snd p)).
Definition shown (e : dirent) : Z * list Z := (rd_ino e, cname (rd_name e)).

(** The name copied out of an entry. *)
Lemma copied_name dname e :
  dirent_wf e -> length dname = 29%nat ->
  exists b, strncpy dname (rd_name e) 27 = Some b /\ cname (<[27%nat := 0]> b) = cname (rd_name e).
Proof.
  intros [Hlen Hnul _] Hd. destruct (cname_split _ Hnul) as (r & E & H0).
  destruct (strncpy_terminate (cname (rd_name e)) r 27 dname H0) as (b & rest & E1 & E2 & _); [lia|].
  exists b. rewrite E at 1. split; [done|]. rewrite E2.
  assert (length (cname (rd_name e)) <= 27)%nat.
  { apply (f_equal length) in E. rewrite length_app in E. cbn in E. rewrite Hlen in E. unfold NAME_LEN in E. lia. }
  rewrite take_ge by lia. by apply cname_app.
Qed.

Section Dir.
Context (s : vst) (fd f v n : Z) (fx : file) (vn : vnode) (x : inode) (ents : list dirent) (dname : list Z).
Hypothesis Hinv : vfs_inv s.
Hypothesis Hfd : 0 <= fd < NFILES.
Hypothesis Hl : p_files s !! Z.to_nat fd = Some (Some f).
Hypothesis Hf : v_files s !! f = Some fx.
Hypothesis Hv : f_vnode fx = Some v.
Hypothesis Hvn : v_vnodes s !! v = Some vn.
Hypothesis Hops : vn_ops vn = RamfsDirVops.
Hypothesis Hmode : vn_mode vn = S_IFDIR.
Hypothesis Hdir : dir_at s v n x ents.
Hypothesis Hdname : length dname = 29%nat.

(** The state with the file positioned at entry [k]. *)
Definition at_entry (k : nat) : vst := upd_vfiles <[f := fl_pos (DIRENT_SIZE * Z.of_nat k) fx]> s.

Lemma at_entry_inv k : vfs_inv (at_entry k).
Proof using Hinv Hf. clear Hdname Hfd. apply pos_inv; try done. unfold DIRENT_SIZE. lia. Qed.

Lemma ents_len : length ents = RAMFS_MAX_DIRENT /\ Forall dirent_wf ents.
Proof using Hinv Hdir.
  destruct Hdir as (_ & Hx & Hm). destruct (fi_node _ _ (proj1 Hinv) _ _ Hx) as [_ Hmem].
  unfold mem_ok in Hmem. rewrite Hm in Hmem. by destruct Hmem as (_ & ? & ? & _).
Qed.

Lemma readdir_run k :
  (k <= RAMFS_MAX_DIRENT)%nat ->
  match next_entry (drop k ents) with
  | None => ramfs_readdir v (DIRENT_SIZE * Z.of_nat k) dname (at_entry k) = Done (0, None) (at_entry k)
  | Some (j, e) => exists nm, cname nm = cname (rd_name e) /\
      ramfs_readdir v (DIRENT_SIZE * Z.of_nat k) dname (at_entry k) =
      Done (DIRENT_SIZE + Z.of_nat j * DIRENT_SIZE, Some (rd_ino e, nm)) (at_entry k)
  end.
Proof.
  intros Hk. destruct ents_len as [Hlen Hwf]. unfold RAMFS_MAX_DIRENT in *.
  assert (ramfs_readdir v (DIRENT_SIZE * Z.of_nat k) dname (at_entry k) =
    match next_entry (drop k ents) with
    | None => Done (0, None) (at_entry k)
    | Some (j, e) =>
       (let* nm := deref (strncpy dname (rd_name e) (Z.to_nat (NAME_LEN - 1))) in
        ret (DIRENT_SIZE + Z.of_nat j * DIRENT_SIZE, Some (rd_ino e, <[Z.to_nat (NAME_LEN - 1) := 0]> nm))) (at_entry k)
    end) as E.
  { unfold ramfs_readdir. erewrite bind_done by (apply get_vnode_run; exact Hvn). cbv beta. rewrite Hmode.
    unfold kassert, bind at 1 2. change (S_ISDIR S_IFDIR) with true. cbv iota.
    replace (u32 (DIRENT_SIZE * Z.of_nat k) mod DIRENT_SIZE =? 0) with true.
    2:{ symmetry. unfold DIRENT_SIZE. rewrite u32_small by lia. apply Z.eqb_eq. dlia. }
    erewrite bind_done by (eapply (get_dirents_at no_debt); [apply at_entry_inv|exact Hdir]). cbn [snd].
    unfold DIRENT_SIZE at 1. destruct (Z.ltb_spec (32 * Z.of_nat k) 0); [lia|].
    unfold DIRENT_SIZE at 1 2. unfold RAMFS_MAX_DIRENT.
    replace (Z.to_nat (DIRENT_SIZE * Z.of_nat k / DIRENT_SIZE)) with k by (unfold DIRENT_SIZE; dlia).
    destruct (Z.geb_spec (32 * Z.of_nat k) (Z.of_nat 128 * 32)); [|by destruct (next_entry (drop k ents)) as [[? ?]|]].
    rewrite drop_ge by lia. done. }
  rewrite E. destruct (next_entry (drop k ents)) as [[j e]|] eqn:En; [|done].
  destruct (next_entry_Some _ _ _ En) as [Hj _]. rewrite lookup_drop in Hj.
  destruct (copied_name dname e) as (b & Eb & Hb); [by eapply Forall_lookup_1|done|].
  exists (<[27%nat := 0]> b). split; [done|]. change (Z.to_nat (NAME_LEN - 1)) with 27%nat.
  unfold deref, bind, ret. by rewrite Eb.
Qed.

Lemma getdent_run k :
  (k <= RAMFS_MAX_DIRENT)%nat ->
  match next_entry (drop k ents) with
  | None => do_getdent fd dname (at_entry k) = Done (0, None) (at_entry k)
  | Some (j, e) => exists nm, cname nm = cname (rd_name e) /\
      do_getdent fd dname (at_entry k) = Done (SIZEOF_DIRENT_T, Some (rd_ino e, nm)) (at_entry (k + S j))
  end.
Proof.
  intros Hk. pose proof (at_entry_inv k) as Hik. destruct ents_len as [Hlen _]. unfold RAMFS_MAX_DIRENT in *.
  set (fk := fl_pos (DIRENT_SIZE * Z.of_nat k) fx).
  assert (v_files (at_entry k) !! f = Some fk) as Hfk by apply lookup_insert_eq.
  pose proof (file_ok_fit _ _ _ (fv_file _ (proj2 Hik) f fk Hfk)) as Hfit.
  assert (forall r, ramfs_readdir v (DIRENT_SIZE * Z.of_nat k) dname (at_entry k) = Done r (at_entry k) ->
    do_getdent fd dname (at_entry k) =
    Done (if 0 <? fst r then SIZEOF_DIRENT_T else 0, snd r)
      (upd_vfiles <[f := fl_pos (s32 (DIRENT_SIZE * Z.of_nat k + fst r)) fx]> s)) as Hgo.
  { intros r Er. unfold do_getdent. krun (check_fd_run (at_entry k) fd _ Hfd Hl).
    krun (fget_run (at_entry k) fd f fk Hfd Hl Hfk Hfit). krun (put_back_run (at_entry k) f fk Hfk Hfit).
    unfold kassert, bind at 1. rewrite bool_decide_eq_true_2 by done. unfold deref at 1, bind at 1.
    krun (get_file_run (at_entry k) f fk Hfk). change (f_vnode fk) with (f_vnode fx). rewrite Hv.
    unfold deref at 1, bind at 1. erewrite bind_done by (apply get_vnode_run; exact Hvn). cbv beta.
    rewrite Hmode, Hops. change (negb (S_ISDIR S_IFDIR)) with false. cbv iota.
    change (f_pos fk) with (DIRENT_SIZE * Z.of_nat k). krun Er.
    krun (set_pos_run (at_entry k) f fk (s32 (DIRENT_SIZE * Z.of_nat k + fst r)) Hfk). unfold ret. f_equal.
    apply vstate_ext; try reflexivity. unfold at_entry. cbn. by rewrite insert_insert_eq. }
  pose proof (readdir_run k Hk) as Hr. destruct (next_entry (drop k ents)) as [[j e]|] eqn:En.
  - destruct Hr as (nm & Hnm & Er). exists nm. split; [done|]. rewrite (Hgo _ Er). cbn [fst snd].
    destruct (next_entry_Some _ _ _ En) as [Hj _]. rewrite lookup_drop in Hj. apply lookup_lt_Some in Hj.
    unfold at_entry, DIRENT_SIZE. rewrite s32_small by lia.
    replace (32 * Z.of_nat k + (32 + Z.of_nat j * 32)) with (32 * Z.of_nat (k + S j)) by lia.
    destruct (Z.ltb_spec 0 (32 + Z.of_nat j * 32)); [done|lia].
  - rewrite (Hgo _ Hr). cbn [fst snd]. change (0 <? 0) with false. unfold at_entry, DIRENT_SIZE.
    rewrite Z.add_0_r, s32_small by lia. done.
Qed.

Lemma getdents_run fuel : forall k,
  (k <= RAMFS_MAX_DIRENT)%nat -> (length (drop k ents) < fuel)%nat ->
  exists l k', getdents fuel fd dname (at_entry k) = Done l (at_entry k') /\
    List.map seen l = List.map shown (named_entries (drop k ents)).
Proof.
  induction fuel as [|fuel IH]; intros k Hk Hlt; [lia|]. cbn [getdents].
  pose proof (getdent_run k Hk) as Hg. destruct ents_len as [Hlen _].
  destruct (next_entry (drop k ents)) as [[j e]|] eqn:En.
  - destruct Hg as (nm & Hnm & Eg). krun Eg. cbn [fst snd]. change (0 <? SIZEOF_DIRENT_T) with true. cbv iota.
    unfold deref, bind at 1. destruct (next_entry_Some _ _ _ En) as [Hj Enm].
    rewrite drop_drop in Enm. pose proof Hj as Hj'. rewrite lookup_drop in Hj'. apply lookup_lt_Some in Hj'.
    destruct (IH (k + S j)%nat) as (l & k' & El & Hl'); [lia|rewrite length_drop in *; lia|].
    exists ((rd_ino e, nm) :: l), k'. krun El. split; [done|]. cbn. rewrite Enm, Hl'. cbn. f_equal.
    unfold seen, shown. cbn. by rewrite Hnm.
  - krun Hg. exists [], k. split; [done|]. by rewrite (next_entry_None _ En).
Qed.
End Dir.

(** C38: Reading an open directory from its start returns its named entries, each
    once, in order, and then 0; 129 calls are enough. *)
Theorem getdents_enumerates (s : vst) fd f v n fx vn x ents dname :
  vfs_inv s -> 0 <= fd < NFILES -> p_files s !! Z.to_nat fd = Some (Some f) -> v_files s !! f = Some fx ->
  f_vnode fx = Some v -> v_vnodes s !! v = Some vn -> vn_ops vn = RamfsDirVops -> vn_mode vn = S_IFDIR ->
  dir_at s v n x ents -> length dname = 29%nat -> f_pos fx = 0 ->
  runs (getdents 129 fd dname) s (fun l s' =>
    List.map seen l = List.map shown (named_entries ents) /\ v_fs s' = v_fs s /\ v_vnodes s' = v_vnodes s).
Proof.
  intros Hinv Hfd Hl Hf Hv Hvn Hops Hmode Hdir Hdname Hpos.
  destruct (ents_len s v n x ents Hinv Hdir) as [Hlen _].
  assert (at_entry s f fx 0 = s) as E0.
  { apply vstate_ext; try reflexivity. cbn. apply insert_id. rewrite Hf. destruct fx; cbn in *; by subst. }
  destruct (getdents_run s fd f v n fx vn x ents dname Hinv Hfd Hl Hf Hv Hvn Hops Hmode Hdir Hdname 129 0)
    as (l & k' & El & Hm); [lia|rewrite length_drop, Hlen; unfold RAMFS_MAX_DIRENT; lia|].
  rewrite E0 in El. eapply runs_intro; [exact El|]. done.
Qed.
End Client.
End VfsDents.
