(* ===== verification/NamevSpec.v ===== *)
(** * Paths ([fs/namev.c])

    What the passes of [dir_namev] over a path do to it, and the resolution of
    names in the root directory. *)

From Stdlib Require Import ZArith Lia.
From stdpp Require Import base list gmap.
From S2P Require Import Prelude KString Vnode Ramfs RamfsSpec RamfsDir RamfsDemo Namev VfsSyscall VfsFiles.

Module NamevSpec.
Import KString Vnode Ramfs RamfsSpec RamfsDir RamfsDemo Namev VfsSyscall VfsFiles.
Local Open Scope Z_scope.

(** ** Runs of slashes *)
Definition no_double_slash (s : list Z) : Prop :=
  forall i, s !! i = Some SLASH -> s !! S i <> Some SLASH.

Lemma fields_slash cur s : fields [SLASH] cur (SLASH :: SLASH :: s) = fields [SLASH] cur (SLASH :: s).
Proof. cbn. by destruct cur. Qed.

Lemma fields_cons_eq c a b :
  (forall cur, fields [SLASH] cur a = fields [SLASH] cur b) ->
  forall cur, fields [SLASH] cur (c :: a) = fields [SLASH] cur (c :: b).
Proof. intros E cur. cbn. destruct (bool_decide _); [destruct cur; by rewrite E|by rewrite E]. Qed.

Lemma squeeze_run p n :
  exists q, squeeze (p ++ replicate (S n) 0) = Some (q ++ replicate (S n) 0) /\ head q = head p /\
    (forall cur, fields [SLASH] cur q = fields [SLASH] cur p) /\ no_double_slash q /\ (length q <= length p)%nat /\
    last q = last p.
Proof.
  assert (squeeze (replicate (S n) 0) = Some (replicate (S n) 0)) as H0.
  { induction (S n) as [|k IH]; [done|]. cbn [replicate squeeze]. by rewrite IH. }
  induction p as [|c p (q & E & Hh & Hf & Hd & Hl & Ht)].
  { exists []. split_and!; try done. }
  cbn [app squeeze]. rewrite E. cbn [mbind option_bind].
  assert (forall a, last (a :: q) = last (a :: p)) as Ht'.
  { intros a. destruct q, p; try done; exact Ht. }
  assert (exists d r, p ++ replicate (S n) 0 = d :: r /\ (d = SLASH <-> head p = Some SLASH)) as (d & r & Ed & Hd').
  { destruct p as [|d p]; [|by exists d, (p ++ replicate (S n) 0); cbn; split; [|split; congruence]].
    exists 0, (replicate n 0). done. }
  rewrite Ed. destruct (Z.eqb_spec c SLASH) as [->|Hc].
  - destruct (Z.eqb_spec d SLASH) as [Hds|Hds].
    + apply Hd' in Hds. exists q. rewrite Hds in Hh. split_and!; try done; [|cbn; lia|by rewrite Ht; destruct p].
      intros cur. destruct p as [|? p]; [done|]. injection Hds as ->. rewrite fields_slash. apply Hf.
    + exists (SLASH :: q). split_and!; try done; [by apply fields_cons_eq| |cbn; lia].
      intros [|i] Hi Hs; cbn in *.
      * apply Hds, Hd'. rewrite <- Hh. by destruct q.
      * exact (Hd i Hi Hs).
  - exists (c :: q). split_and!; try done; [by apply fields_cons_eq| |cbn; lia].
    intros [|i] Hi; cbn in *; [congruence|by apply Hd].
Qed.

(** The pass of [dir_namev] that squeezes runs of slashes keeps the
    components of the path and leaves no two slashes in a row. *)
Theorem squeeze_spec p n :
  exists q, squeeze (p ++ replicate (S n) 0) = Some (q ++ replicate (S n) 0) /\
    fields [SLASH] [] q = fields [SLASH] [] p /\ no_double_slash q.
Proof. destruct (squeeze_run p n) as (q & E & _ & Hf & Hd & _). by exists q. Qed.

(** ** Names in the root directory *)
Lemma strcpy_run s r : forall k, 0 ∉ s -> (length s < k)%nat ->
  strcpy (replicate k 0) (s ++ 0 :: r) = Some (s ++ replicate (k - length s) 0).
Proof.
  induction s as [|c s IH]; intros [|k] Hs Hk; cbn in *; try lia; [done|].
  apply not_elem_of_cons in Hs as [Hc Hs]. destruct (Z.eqb_spec c 0); [congruence|].
  rewrite IH by (done || lia). done.
Qed.

Lemma strcat_zeros s r k : 0 ∉ s -> Z.of_nat (length s) < k ->
  strcat (zeros k) (s ++ 0 :: r) = Some (s ++ replicate (Z.to_nat k - length s) 0).
Proof.
  intros Hs Hk. rewrite <- strcpy_run with (r := r) by (done || lia). unfold zeros.
  destruct (Z.to_nat k) eqn:E; [lia|]. done.
Qed.


Lemma strrchr_none s r acc : SLASH ∉ s -> 0 ∉ s -> strrchr_loop acc (s ++ 0 :: r) SLASH = Some acc.
Proof.
  revert acc. induction s as [|c s IH]; intros acc Hs H0; [done|].
  apply not_elem_of_cons in Hs as [Hc Hs]. apply not_elem_of_cons in H0 as [Hc0 H0]. cbn [app strrchr_loop].
  destruct (Z.eqb_spec c 0); [congruence|]. change (s8 SLASH) with SLASH.
  destruct (Z.eqb_spec c SLASH); [congruence|]. by apply IH.
Qed.

Lemma str_len_run (s : vst) a r : 0 ∉ a -> str_len (a ++ 0 :: r) s = Done (Z.of_nat (length a)) s.
Proof. intros H0. unfold str_len, deref, bind. by rewrite strlen_cstring. Qed.

Section Root.
Context `{Devs}.

(** An absolute path is resolved from the root directory. *)
Lemma start_absolute (s : vst) root p r res :
  vfs_root_vn s = Some root -> head p = Some SLASH -> 0 ∉ p -> (length p < 1024)%nat ->
  dir_namev_start (p ++ 0 :: r) res s = Done (inr (p ++ 0 :: replicate (1023 - length p) 0, Some root)) s.
Proof.
  intros Hroot Hh Hp Hlen. destruct p as [|a p]; [done|]. injection Hh as ->.
  unfold dir_namev_start. change (((SLASH :: p) ++ 0 :: r) !! 0%nat) with (Some SLASH). unfold deref at 1, bind at 1.
  change (negb (SLASH =? SLASH) && negb (SLASH =? DOT)) with false. cbv iota.
  rewrite strcat_zeros by (done || unfold MAXPATHLEN; lia). unfold deref at 1, bind at 1.
  change (Z.to_nat MAXPATHLEN) with 1024%nat.
  replace (1024 - length (SLASH :: p))%nat with (S (1023 - length (SLASH :: p))) by lia. cbn [replicate].
  set (fp := (SLASH :: p) ++ 0 :: _).
  erewrite bind_done with (a := false) (s' := s) by done.
  erewrite bind_done with (a := false) (s' := s) by done. unfold gets, bind, ret. by rewrite Hroot.
Qed.

(** [dir_namev] of ["/nm"]: the root directory, with one more reference, and the
    name. *)
Lemma dir_namev_root_run (s : vst) root rvn nm r res :
  vfs_root_vn s = Some root -> v_vnodes s !! root = Some rvn -> 0 < vn_refcount rvn ->
  0 ∉ nm -> SLASH ∉ nm -> (length nm <= 28)%nat ->
  dir_namev (SLASH :: nm ++ 0 :: r) res s =
  Done (NamevOut 0 (At root) (Some (nm ++ 0 :: r)) (Z.of_nat (length nm)))
       (upd_vnodes <[root := vn_set_ref (vn_refcount rvn + 1) rvn]> s).
Proof.
  intros Hroot Hr Hrc H0 Hs Hlen. set (p := SLASH :: nm).
  assert (0 ∉ p) as Hp by (apply not_elem_of_cons; split; [done|exact H0]).
  change (SLASH :: nm ++ 0 :: r) with (p ++ 0 :: r). unfold dir_namev. krun (str_len_run s p r Hp).
  assert (Z.of_nat (length p) = 1 + Z.of_nat (length nm)) as Elp by (cbn [length p]; lia).
  destruct (Z.gtb_spec (Z.of_nat (length p)) 1024); [lia|].
  krun (start_absolute s root p r res Hroot eq_refl Hp ltac:(lia)).
  assert (strrchr (p ++ 0 :: r) SLASH = Some (Some (p ++ 0 :: r))) as Er.
  { unfold strrchr, p. cbn [app strrchr_loop]. change (SLASH =? 0) with false. cbv iota.
    change (SLASH =? s8 SLASH) with true. cbv iota. by apply strrchr_none. }
  rewrite Er. unfold deref at 1, bind at 1. change (drop 1 (p ++ 0 :: r)) with (nm ++ 0 :: r).
  krun (str_len_run s nm r H0). destruct (Z.gtb_spec (Z.of_nat (length nm)) NAME_LEN); [unfold NAME_LEN in *; lia|].
  set (t := replicate (1023 - length p) 0).
  krun (str_len_run s p t Hp). replace (Z.of_nat (length p) - Z.of_nat (length nm) - 1) with 0 by lia.
  unfold deref at 1, bind at 1.
  change (strncpy_sz (zeros (MAXPATHLEN + 1)) (p ++ 0 :: t) 0) with (Some (zeros (MAXPATHLEN + 1))). cbv iota beta.
  erewrite bind_done with (a := 0) (s' := s) by done. change (0 =? 0) with true. cbv iota.
  krun (vref_run s root rvn Hr Hrc). done.
Qed.
End Root.

(** ** Lookups *)
Section Lookups.
Context `{Devs}.

Lemma plain_str_eq (s : vst) nm name len d :
  name_arg nm name len -> d = [46] \/ d = [46; 46] -> str_eq name (d ++ [0]) s = Done false s.
Proof.
  intros Hn Hd. destruct (na_buf _ _ _ Hn) as [r ->]. pose proof (na_char _ _ _ Hn) as Hc.
  apply Forall_app in Hc as [Hc _].
  destruct (strcmp_zero nm d r []) as (v & E & Hv); [done|by destruct Hd as [-> | ->]; repeat constructor|apply Hn| |].
  { destruct Hd as [-> | ->]; repeat (apply not_elem_of_cons; split; [done|]); apply not_elem_of_nil. }
  unfold str_eq, deref, bind. change (d ++ [0]) with (d ++ 0 :: []). rewrite E. unfold ret. f_equal.
  destruct (na_plain _ _ _ Hn) as (_ & H1 & H2). apply Z.eqb_neq. intros E0. apply Hv in E0.
  destruct Hd as [-> | ->]; done.
Qed.

Section Dir.
Context (s : vst) (dir n : Z) (dvn : vnode) (x : inode) (ents : list dirent) (nm name : list Z) (len : Z).
Hypothesis Hinv : fs_inv no_debt s.
Hypothesis Hdir : dir_at s dir n x ents.
Hypothesis Hdv : v_vnodes s !! dir = Some dvn.
Hypothesis Hops : vn_ops dvn = RamfsDirVops.
Hypothesis Hmode : vn_mode dvn = S_IFDIR.
Hypothesis Hname : name_arg nm name len.

Lemma lookup_unfold res :
  lookup dir name len res s =
  (let* r := ramfs_lookup dir name len in
   let r := (fst r, match snd r with Some v => At v | None => res end) in
   if fst r =? - ENOENT then ret (- ENOENT, Null) else ret r) s.
Proof using All.
  unfold lookup. krun (get_vnode_run s dir dvn Hdv). rewrite Hmode. change (negb (S_IFDIR =? S_IFDIR)) with false. cbv iota.
  krun (plain_str_eq s nm name len [46] Hname (or_introl eq_refl)).
  krun (plain_str_eq s nm name len [46; 46] Hname (or_intror eq_refl)).
  unfold vop_lookup. rewrite bind_assoc. krun (get_vnode_run s dir dvn Hdv). rewrite Hops. by rewrite bind_assoc.
Qed.

Lemma nlookup_miss res : (forall i, ~ entry_in ents nm i) -> lookup dir name len res s = Done (- ENOENT, Null) s.
Proof using All.
  intros Hno. rewrite lookup_unfold. by krun (lookup_miss no_debt s dir n x ents nm name len Hinv Hdir Hname Hno).
Qed.

Lemma nlookup_hit res ino : entry_in ents nm ino ->
  runs (lookup dir name len res) s (fun r s' => exists v vn, r = (0, At v) /\
    fs_inv no_debt s' /\ keeps s s' /\ v_vnodes s' !! v = Some vn /\ vn_vno vn = ino /\
    vn_refcount vn = 1 + match v_vnodes s !! v with Some wn => vn_refcount wn | None => 0 end).
Proof using All.
  intros Hin. unfold runs. rewrite lookup_unfold. apply runs_bind.
  eapply runs_mono; [by eapply lookup_hit|]. intros r s' (v & vn & -> & _ & Hi & K & Hv & Hvno & Hrc).
  cbn [fst snd]. apply runs_ret. by exists v, vn.
Qed.
End Dir.
End Lookups.

(** ** [do_mkdir] in the root directory *)
Section Mkdir.
Context `{Devs}.

(** The vnode of inode [n] was not in memory in [s] and is in [s'], with one
    reference. *)
Definition left_in_memory (s s' : vst) (n : Z) : Prop :=
  exists v vn, v_vnodes s !! v = None /\ v_vnodes s' !! v = Some vn /\ vn_vno vn = n /\ vn_refcount vn = 1.

(** Dropping the reference [dir_namev] took. *)
Lemma put_ref_run (s : vst) v vn :
  fs_inv no_debt s -> v_vnodes s !! v = Some vn -> 0 < vn_refcount vn ->
  vput (Some v) (upd_vnodes <[v := vn_set_ref (vn_refcount vn + 1) vn]> s) = Done tt s.
Proof.
  intros Hinv Hv Hr. pose proof (ref_inv _ _ _ _ (vn_refcount vn + 1) Hinv Hv ltac:(lia)) as Hinv1.
  rewrite (vput_run _ v (vn_set_ref (vn_refcount vn + 1) vn)); [|apply Hinv1|apply lookup_insert_eq].
  cbn [vn_refcount vn_set_ref]. replace (1 <? vn_refcount vn + 1) with true by lia. f_equal.
  apply vstate_ext; try reflexivity. cbn. rewrite insert_insert_eq.
  replace (vn_refcount vn + 1 - 1) with (vn_refcount vn) by lia. apply insert_id. rewrite Hv. by destruct vn.
Qed.

(** [do_mkdir] of a path whose directory [dir_namev] finds: it holds for every
    path, once the resolution is known. *)
Lemma mkdir_in_dir (s : vst) path dir n dvn x ents nm r :
  fs_inv no_debt s -> v_vnodes s !! dir = Some dvn -> vn_ops dvn = RamfsDirVops ->
  vn_mode dvn = S_IFDIR -> dir_at s dir n x ents -> n = 0 \/ 0 < fs_refs (v_fs s) n ->
  name_arg nm (nm ++ 0 :: r) (Z.of_nat (length nm)) -> (forall i, ~ entry_in ents nm i) ->
  dir_namev path Junk s = Done (NamevOut 0 (At dir) (Some (nm ++ 0 :: r)) (Z.of_nat (length nm)))
    (upd_vnodes <[dir := vn_set_ref (vn_refcount dvn + 1) dvn]> s) ->
  runs (do_mkdir path) s (fun ret s' => fs_inv no_debt s' /\
    match find_free ents, first_empty (v_fs s) with
    | Some _, Some e => ret = 0 /\ added s' dir n x ents nm (Z.of_nat e) /\
        left_in_memory s s' (Z.of_nat e)
    | _, _ => ret = - ENOSPC /\ s' = s
    end).
Proof.
  intros Hinv Hdv Hops Hmode Hdir Hn Hname Hno Epath.
  destruct (vw_ok s (fi_vn _ _ Hinv) dir dvn Hdv) as (Hrc & _).
  unfold do_mkdir. unfold runs. krun Epath.
  cbn [no_ret no_vnode no_name no_namelen]. change (negb (0 =? 0)) with false. cbv iota.
  erewrite bind_done by reflexivity. cbv beta. erewrite bind_done by reflexivity. cbv beta.
  set (s1 := upd_vnodes _ s).
  assert (fs_inv no_debt s1) as Hinv1 by (apply ref_inv; [done|done|lia]).
  assert (dir_at s1 dir n x ents) as Hdir1.
  { destruct Hdir as ((vn & Hv & Hvno) & Hx). split; [|exact Hx]. eexists. split; [apply lookup_insert_eq|].
    rewrite Hdv in Hv. by injection Hv as ->. }
  erewrite bind_done.
  2:{ eapply (nlookup_miss s1 dir n (vn_set_ref (vn_refcount dvn + 1) dvn) x ents nm); try done; apply lookup_insert_eq. }
  cbv beta. unfold s1. krun (put_ref_run s dir dvn Hinv Hdv Hrc). cbn [fst]. clear s1 Hinv1 Hdir1.
  change (- ENOENT =? 0) with false. change (- ENOENT =? - ENOTDIR) with false.
  change (- ENOENT =? - ENAMETOOLONG) with false. cbv iota.
  unfold dir_op. rewrite bind_assoc. krun (get_vnode_run s dir dvn Hdv). rewrite Hops.
  apply runs_bind. eapply runs_mono; [by eapply (mkdir_run s dir n x ents nm); [| |exact Hn|..]|].
  intros ret s2 (Hinv2 & Hpost). cbv beta.
  destruct (find_free ents) as [k|]; [destruct (first_empty (v_fs s)) as [e|] eqn:He|].
  - destruct Hpost as (y & sub & -> & Hadd & Ev & _).
    assert (v_vnodes s2 !! dir = Some dvn) as Hdv2 by (by rewrite Ev).
    pose proof Hadd as (x2 & ents2 & Hdir2 & Hsz & Hent).
    change (0 =? 0) with true. cbv iota. unfold runs. rewrite bind_assoc. apply runs_bind.
    eapply runs_mono; [eapply (nlookup_hit s2 dir n dvn x2 ents2 nm); try done; apply Hent; [apply Hname|by right]|].
    intros r' s3 (v & vn & _ & Hinv3 & K & Hv & Hvno & Hrc3). apply runs_bind, runs_ret, runs_ret.
    split; [done|]. split; [done|]. split.
    + destruct (keeps_dir _ _ _ _ _ _ K Hdir2) as [c Hdir3]. exists (i_link c x2), ents2. done.
    + exists v, vn. rewrite <- Ev. destruct (v_vnodes s2 !! v) as [wn|] eqn:Ew; [exfalso|done].
      destruct (kp_vnodes _ _ K v wn Ew) as (q & Hq & _). rewrite Hv in Hq. injection Hq as ->.
      rewrite Ev in Ew. destruct (vw_link s (fi_vn _ _ Hinv) v wn Ew) as (c & (z & Hz & _)%ramfs_nlink_Some & _).
      cbn in Hvno. rewrite Hvno in Hz. apply first_empty_spec in He. apply slot_lookup in Hz as [_ Hz].
      rewrite Nat2Z.id in Hz. congruence.
  - destruct Hpost as [-> ->]. apply runs_bind, runs_ret, runs_ret. done.
  - destruct Hpost as [-> ->]. apply runs_bind, runs_ret, runs_ret. done.
Qed.

(** [do_mkdir("/nm")] for a name the root does not have: with a free entry
    and a free inode the root gets the name for a new directory and the call
    returns 0, otherwise it returns [-ENOSPC] and nothing changes.  The
    accounting of links is kept, but the vnode of the new directory stays in
    memory with a reference that nobody holds. *)
Theorem do_mkdir_root (s : vst) root rvn x ents nm r :
  fs_inv no_debt s -> vfs_root_vn s = Some root -> v_vnodes s !! root = Some rvn -> vn_ops rvn = RamfsDirVops ->
  vn_mode rvn = S_IFDIR -> dir_at s root 0 x ents ->
  name_arg nm (nm ++ 0 :: r) (Z.of_nat (length nm)) -> SLASH ∉ nm -> (forall i, ~ entry_in ents nm i) ->
  runs (do_mkdir (SLASH :: nm ++ 0 :: r)) s (fun ret s' => fs_inv no_debt s' /\
    match find_free ents, first_empty (v_fs s) with
    | Some _, Some e => ret = 0 /\ added s' root 0 x ents nm (Z.of_nat e) /\
        left_in_memory s s' (Z.of_nat e)
    | _, _ => ret = - ENOSPC /\ s' = s
    end).
Proof.
  intros Hinv Hroot Hrv Hops Hmode Hdir Hname Hslash Hno.
  destruct (vw_ok s (fi_vn _ _ Hinv) root rvn Hrv) as (Hrc & _).
  eapply mkdir_in_dir; try done; [by left|]. apply dir_namev_root_run; try done; [apply Hname|].
  pose proof (na_short _ _ _ Hname). lia.
Qed.
End Mkdir.
End NamevSpec.
