(* ===== verification/NamevPath.v ===== *)
(** * Paths of several components ([fs/namev.c], [fs/vfs_syscall.c])

    [dir_namev] of an absolute path ["/c1/c2/.../ck/nm"] with any number of
    slashes between the components.  The directories the path goes through are
    given as a chain of lookups; the intermediate ones have to be in memory,
    because [dir_namev] drops its reference to each of them before it looks
    the next component up. *)

From Stdlib Require Import ZArith Lia.
From stdpp Require Import base list gmap.
From S2P Require Import Prelude KString Vnode Ramfs RamfsSpec RamfsDir RamfsDemo Namev VfsSyscall VfsFiles NamevSpec.

Module NamevPath.
Import KString Vnode Ramfs RamfsSpec RamfsDir RamfsDemo Namev VfsSyscall VfsFiles NamevSpec.
Local Open Scope Z_scope.

(** ** The path as its components *)

(** ["/c1/c2/.../ck"] *)
Definition joined (cs : list (list Z)) : list Z := concat (List.map (cons SLASH) cs).

Lemma joined_fields q : forall cur, no_double_slash q -> last q <> Some SLASH ->
  cur <> [] \/ (q <> [] /\ head q <> Some SLASH) ->
  joined (fields [SLASH] cur q) = SLASH :: cur ++ q.
Proof.
  induction q as [|c q IH]; intros cur Hd Hl Hc.
  { destruct Hc as [Hc|[Hc _]]; [|done]. destruct cur; [done|]. unfold joined. cbn. by rewrite !app_nil_r. }
  assert (no_double_slash q) as Hd' by (intros i; exact (Hd (S i))).
  assert (q <> [] -> last q <> Some SLASH) as Hl' by (intros Hq; by destruct q).
  cbn [fields]. destruct (bool_decide_reflect (c ∈ [SLASH])) as [->%list_elem_of_singleton|Hs].
  - assert (q <> []) as Hq by (by intros ->; apply Hl).
    assert (head q <> Some SLASH) as Hh by (pose proof (Hd 0%nat eq_refl) as Hq1; by destruct q).
    destruct Hc as [Hc|[_ Hc]]; [|by destruct Hc]. destruct cur as [|a cur]; [done|].
    unfold joined. cbn [List.map concat]. fold (joined (fields [SLASH] [] q)). by rewrite IH by (auto).
  - rewrite IH; [by rewrite <- app_assoc|done| |left; by destruct cur].
    destruct q; [done|by apply Hl'].
Qed.

(** What [squeeze] makes of an absolute path that does not end in a slash. *)
Lemma squeezed_path d n : head d = Some SLASH -> last d <> Some SLASH ->
  squeeze (d ++ replicate (S n) 0) = Some (joined (fields [SLASH] [] d) ++ replicate (S n) 0) /\
  (length (joined (fields [SLASH] [] d)) <= length d)%nat.
Proof.
  intros Hh Hl. destruct (squeeze_run d n) as (q & E & Hhq & Hf & Hd & Hlen & Hlq).
  rewrite Hh in Hhq. rewrite <- Hlq in Hl. rewrite <- (Hf []). destruct q as [|a q]; [done|]. injection Hhq as ->.
  assert (joined (fields [SLASH] [] (SLASH :: q)) = SLASH :: q) as ->; [|done].
  change (fields [SLASH] [] (SLASH :: q)) with (fields [SLASH] [] q).
  assert (q <> []) as Hq by (by intros ->).
  apply (joined_fields q []).
  - intros i. exact (Hd (S i)).
  - by destruct q.
  - right. split; [done|]. pose proof (Hd 0%nat eq_refl). by destruct q.
Qed.

(** ** The string functions on the buffers of [dir_namev] *)
Lemma strncpy_run s x : forall k, 0 ∉ s -> (length s <= k)%nat ->
  strncpy (replicate k 0) (s ++ x) (length s) = Some (s ++ replicate (k - length s) 0).
Proof.
  induction s as [|c s IH]; intros k Hs Hk; cbn in *; [by rewrite Nat.sub_0_r|].
  apply not_elem_of_cons in Hs as [Hc Hs]. destruct k as [|k]; [lia|]. cbn.
  destruct (Z.eqb_spec c 0); [congruence|]. by rewrite IH by (done || lia).
Qed.

Lemma strncpy_stop s r : forall k m, 0 ∉ s -> (length s < k)%nat -> (length s < m)%nat ->
  strncpy (replicate k 0) (s ++ 0 :: r) m = Some (s ++ replicate (k - length s) 0).
Proof.
  induction s as [|c s IH]; intros [|k] [|m] Hs Hk Hm; cbn in *; try lia; [done|].
  apply not_elem_of_cons in Hs as [Hc Hs]. destruct (Z.eqb_spec c 0); [congruence|].
  by rewrite IH by (done || lia).
Qed.

Lemma strncpy_sz_run s x k : 0 ∉ s -> Z.of_nat (length s) <= k -> k < 2 ^ 32 ->
  strncpy_sz (zeros k) (s ++ x) (Z.of_nat (length s)) = Some (s ++ replicate (Z.to_nat k - length s) 0).
Proof.
  intros Hs Hk H32. unfold strncpy_sz, u32. rewrite Z.mod_small by lia.
  rewrite Z.min_l by (rewrite length_app; lia). rewrite Nat2Z.id. unfold zeros. apply strncpy_run; [done|lia].
Qed.

Lemma strncpy_sz_stop s r k : 0 ∉ s -> Z.of_nat (length s) < k -> k < 2 ^ 32 ->
  strncpy_sz (zeros k) (s ++ 0 :: r) k = Some (s ++ replicate (Z.to_nat k - length s) 0).
Proof.
  intros Hs Hk H32. unfold strncpy_sz, u32, zeros. rewrite Z.mod_small by lia.
  apply strncpy_stop; [done|lia|]. rewrite length_app. cbn [length]. lia.
Qed.

Lemma strchr_hit s x : SLASH ∉ s -> 0 ∉ s -> strchr (s ++ SLASH :: x) SLASH = Some (Some (SLASH :: x)).
Proof.
  induction s as [|c s IH]; intros Hs H0; [done|].
  apply not_elem_of_cons in Hs as [Hc Hs]. apply not_elem_of_cons in H0 as [Hc0 H0]. cbn [app strchr].
  change (s8 SLASH) with SLASH. destruct (Z.eqb_spec c SLASH); [congruence|].
  destruct (Z.eqb_spec c 0); [congruence|]. by apply IH.
Qed.

Lemma strchr_miss s r : SLASH ∉ s -> 0 ∉ s -> strchr (s ++ 0 :: r) SLASH = Some None.
Proof.
  induction s as [|c s IH]; intros Hs H0; [done|].
  apply not_elem_of_cons in Hs as [Hc Hs]. apply not_elem_of_cons in H0 as [Hc0 H0]. cbn [app strchr].
  change (s8 SLASH) with SLASH. destruct (Z.eqb_spec c SLASH); [congruence|].
  destruct (Z.eqb_spec c 0); [congruence|]. by apply IH.
Qed.

Lemma strrchr_last d nm r : 0 ∉ d -> 0 ∉ nm -> SLASH ∉ nm ->
  strrchr (d ++ SLASH :: nm ++ 0 :: r) SLASH = Some (Some (SLASH :: nm ++ 0 :: r)).
Proof.
  intros Hd H0 Hs. unfold strrchr. generalize (@None (list Z)). induction d as [|c d IH]; intros acc.
  - cbn [app strrchr_loop]. change (SLASH =? 0) with false. cbv iota.
    change (SLASH =? s8 SLASH) with true. cbv iota. by apply strrchr_none.
  - apply not_elem_of_cons in Hd as [Hc Hd]. cbn [app strrchr_loop]. destruct (Z.eqb_spec c 0); [congruence|].
    by apply IH.
Qed.

(** A component: an ordinary name without a slash. *)
Record component (c : list Z) : Prop := {
  cp_char : Forall is_char c;
  cp_nul : 0 ∉ c;
  cp_slash : SLASH ∉ c;
  cp_short : (length c <= 27)%nat;
  cp_plain : c <> [] /\ c <> [46] /\ c <> [46; 46]
}.

Lemma component_arg c r : component c -> Forall is_char r -> name_arg c (c ++ 0 :: r) (Z.of_nat (length c)).
Proof.
  intros Hc Hr. split; try apply Hc; [by exists r| |done]. apply Forall_app. split; [apply Hc|].
  constructor; [|done]. unfold is_char. lia.
Qed.

Lemma joined_nul cs : Forall component cs -> 0 ∉ joined cs.
Proof.
  induction 1 as [|c cs Hc _ IH]; unfold joined; cbn; [apply not_elem_of_nil|].
  apply not_elem_of_cons. split; [done|]. rewrite elem_of_app. intros [Hin|Hin]; [by apply (cp_nul c)|by apply IH].
Qed.

Lemma joined_length cs c : (length cs < length (joined (cs ++ [c])))%nat.
Proof.
  induction cs as [|a cs IH]; unfold joined in *; cbn; [lia|]. rewrite length_app. lia.
Qed.

(** ** The directories on the way *)
Section Chain.
Context `{Devs}.

(** [dir] is the vnode of a directory with the entries [ents]. *)
Definition dir_vnode (s : vst) (dir n : Z) (dvn : vnode) (x : inode) (ents : list dirent) : Prop :=
  dir_at s dir n x ents /\ v_vnodes s !! dir = Some dvn /\ vn_ops dvn = RamfsDirVops /\ vn_mode dvn = S_IFDIR.

(** From the vnode [dir], the names [cs] lead to the vnode [d], through
    directories whose vnodes are in memory. *)
Inductive chain (s : vst) : Z -> list (list Z) -> Z -> Prop :=
| chain_nil dir : chain s dir [] dir
| chain_cons dir n dvn x ents c m v vn cs d :
    dir_vnode s dir n dvn x ents -> entry_in ents c m -> in_memory s m v vn -> chain s v cs d ->
    chain s dir (c :: cs) d.

(** A lookup that finds a vnode in memory takes one more reference to it. *)
Lemma lookup_in_memory s dir n dvn x ents c name len res m v vn :
  fs_inv no_debt s -> dir_vnode s dir n dvn x ents -> name_arg c name len -> entry_in ents c m -> in_memory s m v vn ->
  lookup dir name len res s = Done (0, At v) (upd_vnodes <[v := vn_set_ref (vn_refcount vn + 1) vn]> s).
Proof.
  intros Hinv (Hdir & Hdv & Hops & Hmode) Hn Hin Hm.
  rewrite (lookup_unfold s dir n dvn x ents c name len Hinv Hdir Hdv Hops Hmode Hn res).
  destruct (runs_done _ _ _ (lookup_hit s dir n x ents c name len m Hinv Hdir Hn Hin))
    as (r & s' & E & w & wn & -> & Eg & _).
  rewrite (vget_hit s m v vn (fi_vn _ _ Hinv) Hm) in Eg. injection Eg as <- <-. by krun E.
Qed.

(** The loop of [dir_namev]: it ends at the last directory of the chain, and
    the reference counts are what they were. *)
Lemma walk_run s cs : fs_inv no_debt s -> forall dir d c z fuel res,
  chain s dir cs d -> Forall component cs -> component c -> (length cs < fuel)%nat ->
  exists res', walk fuel (joined (cs ++ [c]) ++ replicate (S z) 0) dir res s =
    Done (inr (SLASH :: c ++ replicate (S z) 0, d, res')) s.
Proof.
  intros Hinv. induction cs as [|a cs IH]; intros dir d c z fuel res Hch Hcs Hc Hf;
    (destruct fuel as [|fuel]; [lia|]); inversion Hch as [|? n dvn x ents ? m v vn ? ? Hdir Hin Hm Hch']; subst.
  - exists res. unfold joined. cbn [app List.map concat]. rewrite app_nil_r. cbn [app walk].
    change (drop 1 (SLASH :: c ++ replicate (S z) 0)) with (c ++ 0 :: replicate z 0).
    rewrite strchr_miss by apply Hc. done.
  - apply Forall_cons in Hcs as [Ha Hcs]. unfold joined. cbn [app List.map concat walk].
    fold (joined (cs ++ [c])). rewrite <- app_assoc. set (rest := joined (cs ++ [c]) ++ replicate (S z) 0).
    change (drop 1 (SLASH :: a ++ rest)) with (a ++ rest).
    assert (exists y, rest = SLASH :: y) as [y Ey] by (unfold rest, joined; destruct cs; by eexists).
    rewrite Ey. rewrite strchr_hit by apply Ha. unfold deref at 1, bind at 1.
    replace (length (a ++ SLASH :: y) - length (SLASH :: y))%nat with (length a) by (rewrite length_app; lia).
    pose proof (cp_short a Ha) as Hsh.
    rewrite strncpy_sz_run by (apply Ha || unfold NAME_LEN; lia). unfold deref at 1, bind at 1.
    change (Z.to_nat (NAME_LEN + 1)) with 29%nat.
    assert (replicate (29 - length a) 0 = 0 :: replicate (28 - length a) 0) as ->.
    { by replace (29 - length a)%nat with (S (28 - length a)) by lia. }
    krun (str_len_run s a (replicate (28 - length a) 0) (cp_nul a Ha)).
    destruct (Z.gtb_spec (Z.of_nat (length a)) NAME_LEN); [unfold NAME_LEN in *; lia|].
    assert (Forall is_char (replicate (28 - length a) 0)) as Hz by (apply Forall_replicate; unfold is_char; lia).
    krun (lookup_in_memory s dir n dvn x ents a _ _ res m v vn Hinv Hdir (component_arg a _ Ha Hz) Hin Hm).
    cbn [fst snd]. change (negb (0 =? 0)) with false. cbv iota. erewrite bind_done by reflexivity. cbv beta.
    destruct Hm as [Hv Hvno]. destruct (vw_ok s (fi_vn _ _ Hinv) v vn Hv) as (Hr & _).
    krun (put_ref_run s v vn Hinv Hv Hr). rewrite <- Ey. apply IH; try done. cbn in Hf. lia.
Qed.

(** ** [dir_namev] *)

(** [d] is an absolute path that does not end in a slash, with the components
    [cs]; ["d/nm"] fits the buffers. *)
Record abs_path (d nm : list Z) (cs : list (list Z)) : Prop := {
  ap_abs : head d = Some SLASH;
  ap_end : last d <> Some SLASH;
  ap_nul : 0 ∉ d;
  ap_fields : fields [SLASH] [] d = cs;
  ap_comps : Forall component cs;
  ap_name : 0 ∉ nm /\ SLASH ∉ nm /\ (length nm <= 28)%nat;
  ap_len : (length d + S (length nm) < 1024)%nat
}.

Section Namev.
Context (s : vst) (root : Z) (d : list Z) (cs : list (list Z)) (c : list Z) (e : Z) (nm r : list Z).
Hypothesis Hinv : fs_inv no_debt s.
Hypothesis Hroot : vfs_root_vn s = Some root.
Hypothesis Hpath : abs_path d nm (cs ++ [c]).
Hypothesis Hchain : chain s root cs e.

(** Everything before the last lookup. *)
Lemma dir_namev_unfold res : exists res',
  dir_namev (d ++ SLASH :: nm ++ 0 :: r) res s =
  (let* q := lookup e (c ++ 0 :: replicate (28 - length c) 0) (Z.of_nat (length c)) res' in
   ret (NamevOut (fst q) (snd q) (Some (nm ++ 0 :: r)) (Z.of_nat (length nm)))) s.
Proof using All.
  destruct Hpath as [Habs Hend Hd0 Hfields Hcs (Hnm0 & Hnms & Hnml) Hlen].
  set (p := d ++ SLASH :: nm). assert (d <> []) as Hdn by (by intros ->).
  assert (0 ∉ p) as Hp.
  { unfold p. rewrite elem_of_app, elem_of_cons. intros [?|[?|?]]; done. }
  assert (length p = length d + S (length nm))%nat as Elp by (unfold p; by rewrite length_app).
  assert (d ++ SLASH :: nm ++ 0 :: r = p ++ 0 :: r) as Ep by (unfold p; by rewrite <- app_assoc).
  pose proof Hcs as [Hcs' [Hc _]%Forall_cons]%Forall_app.
  unfold dir_namev. rewrite Ep. krun (str_len_run s p r Hp).
  destruct (Z.gtb_spec (Z.of_nat (length p)) 1024); [lia|].
  krun (start_absolute s root p r res Hroot ltac:(unfold p; by destruct d) Hp ltac:(lia)).
  rewrite <- Ep, strrchr_last by done. unfold deref at 1, bind at 1.
  change (drop 1 (SLASH :: nm ++ 0 :: r)) with (nm ++ 0 :: r). krun (str_len_run s nm r Hnm0).
  destruct (Z.gtb_spec (Z.of_nat (length nm)) NAME_LEN); [unfold NAME_LEN in *; lia|].
  krun (str_len_run s p (replicate (1023 - length p) 0) Hp).
  replace (Z.of_nat (length p) - Z.of_nat (length nm) - 1) with (Z.of_nat (length d)) by lia.
  assert (p ++ 0 :: replicate (1023 - length p) 0 = d ++ SLASH :: nm ++ 0 :: replicate (1023 - length p) 0) as ->
    by (unfold p; by rewrite <- app_assoc).
  rewrite strncpy_sz_run by (done || unfold MAXPATHLEN; lia). unfold deref at 1, bind at 1.
  change (Z.to_nat (MAXPATHLEN + 1)) with 1025%nat.
  replace (1025 - length d)%nat with (S (1024 - length d)) by lia.
  krun (str_len_run s d (replicate (1024 - length d) 0) Hd0).
  destruct (Z.eqb_spec (Z.of_nat (length d)) 0) as [E0|_]; [by destruct d|].
  destruct (squeezed_path d (1024 - length d) Habs Hend) as [Esq Hsq].
  rewrite Hfields in Esq, Hsq. rewrite Esq. unfold deref at 1, bind at 1. cbn [replicate].
  rewrite strncpy_sz_stop; [|by apply joined_nul|unfold MAXPATHLEN; lia|done]. unfold deref at 1, bind at 1.
  change (Z.to_nat (MAXPATHLEN + 1)) with 1025%nat. unfold deref at 1, bind at 1.
  replace (1025 - length (joined (cs ++ [c])))%nat with (S (1024 - length (joined (cs ++ [c])))) by lia.
  set (z := (1024 - length (joined (cs ++ [c])))%nat).
  destruct (walk_run s cs Hinv root e c z (S (length (joined (cs ++ [c]) ++ replicate (S z) 0))) res Hchain Hcs' Hc)
    as [res' Ew].
  { pose proof (joined_length cs c). rewrite length_app. lia. }
  exists res'. krun Ew. destruct d as [|a d']; [done|]. injection Habs as ->.
  erewrite bind_done with (a := false) (s' := s) by reflexivity.
  erewrite bind_done with (a := false) (s' := s) by reflexivity. cbv iota.
  pose proof (cp_short c Hc) as Hsh.
  assert (0 ∉ SLASH :: c) as Hsc by (apply not_elem_of_cons; split; [done|apply Hc]).
  rewrite bind_assoc. krun (str_len_run s (SLASH :: c) (replicate z 0) Hsc).
  replace (Z.of_nat (length (SLASH :: c)) - 1) with (Z.of_nat (length c)) by (cbn [length]; lia).
  change (drop 1 (SLASH :: c ++ replicate (S z) 0)) with (c ++ replicate (S z) 0).
  rewrite strncpy_sz_run by (apply Hc || unfold NAME_LEN; lia). unfold deref at 1, bind at 1.
  change (Z.to_nat (NAME_LEN + 1)) with 29%nat. replace (29 - length c)%nat with (S (28 - length c)) by lia.
  krun (str_len_run s c (replicate (28 - length c) 0) (cp_nul c Hc)).
  destruct (Z.gtb_spec (Z.of_nat (length c)) NAME_LEN); [unfold NAME_LEN in *; lia|]. done.
Qed.

Lemma last_component : component c.
Proof using Hpath. clear -Hpath. pose proof (ap_comps _ _ _ Hpath) as [_ [Hc _]%Forall_cons]%Forall_app. exact Hc. Qed.

Lemma last_arg : name_arg c (c ++ 0 :: replicate (28 - length c) 0) (Z.of_nat (length c)).
Proof using Hpath.
  clear -Hpath. apply component_arg; [apply last_component|]. apply Forall_replicate. unfold is_char. lia.
Qed.

(** The last directory is in memory: the result is exact. *)
Lemma dir_namev_exact res n dvn x ents m v vn :
  dir_vnode s e n dvn x ents -> entry_in ents c m -> in_memory s m v vn ->
  dir_namev (d ++ SLASH :: nm ++ 0 :: r) res s =
  Done (NamevOut 0 (At v) (Some (nm ++ 0 :: r)) (Z.of_nat (length nm)))
       (upd_vnodes <[v := vn_set_ref (vn_refcount vn + 1) vn]> s).
Proof using All.
  intros Hdir Hin Hm. destruct (dir_namev_unfold res) as [res' ->].
  by krun (lookup_in_memory s e n dvn x ents c _ _ res' m v vn Hinv Hdir last_arg Hin Hm).
Qed.

(** [dir_namev("/c1/.../ck/nm")] where every directory but the last is in
    memory: the vnode of the last directory, with one more reference, and the
    last name; nothing else changes but what bringing that vnode in needs.
    Runs of slashes between the components make no difference. *)
Theorem dir_namev_path res n dvn x ents m :
  dir_vnode s e n dvn x ents -> entry_in ents c m ->
  runs (dir_namev (d ++ SLASH :: nm ++ 0 :: r) res) s (fun o s' => exists v vn,
    o = NamevOut 0 (At v) (Some (nm ++ 0 :: r)) (Z.of_nat (length nm)) /\
    fs_inv no_debt s' /\ keeps s s' /\ v_vnodes s' !! v = Some vn /\ vn_vno vn = m /\
    vn_refcount vn = 1 + match v_vnodes s !! v with Some wn => vn_refcount wn | None => 0 end).
Proof using All.
  intros (Hdir & Hdv & Hops & Hmode) Hin. unfold runs. destruct (dir_namev_unfold res) as [res' ->]. apply runs_bind.
  eapply runs_mono; [by eapply (nlookup_hit s e n dvn x ents c _ _ Hinv Hdir Hdv Hops Hmode last_arg)|].
  intros q s' (v & vn & -> & Hi & K & Hv & Hvno & Hrc). apply runs_ret. by exists v, vn.
Qed.

(** The last directory does not exist. *)
Theorem dir_namev_missing res n dvn x ents :
  dir_vnode s e n dvn x ents -> (forall i, ~ entry_in ents c i) ->
  dir_namev (d ++ SLASH :: nm ++ 0 :: r) res s =
  Done (NamevOut (- ENOENT) Null (Some (nm ++ 0 :: r)) (Z.of_nat (length nm))) s.
Proof using All.
  intros (Hdir & Hdv & Hops & Hmode) Hno. destruct (dir_namev_unfold res) as [res' ->].
  by krun (nlookup_miss s e n dvn x ents c _ _ Hinv Hdir Hdv Hops Hmode last_arg res' Hno).
Qed.
End Namev.

(** A directory reached by a name is linked. *)
Lemma entry_linked s dir n dvn x ents c m name len :
  fs_inv no_debt s -> dir_vnode s dir n dvn x ents -> name_arg c name len -> entry_in ents c m ->
  0 < fs_refs (v_fs s) m.
Proof.
  intros Hinv ((_ & Hx & Hm) & _) Hn (k & e & Hk & Hc & <-).
  by destruct (named_inode _ _ _ _ _ _ _ _ _ _ Hinv (fun _ => Z.le_refl 0) Hx Hm Hk Hc Hn) as (y & _ & _ & ?).
Qed.

Lemma chain_last s dir cs c d : chain s dir (cs ++ [c]) d ->
  exists e n dvn x ents m vn, chain s dir cs e /\ dir_vnode s e n dvn x ents /\ entry_in ents c m /\ in_memory s m d vn.
Proof.
  revert dir. induction cs as [|a cs IH]; intros dir Hch;
    inversion Hch as [|? n dvn x ents ? m v vn ? ? Hdir Hin Hm Hch']; subst.
  - inversion Hch'; subst. exists dir, n, dvn, x, ents, m, vn. split; [constructor|done].
  - destruct (IH v Hch') as (e & n' & dvn' & x' & ents' & m' & vn' & Hc' & Hr).
    exists e, n', dvn', x', ents', m', vn'. split; [by econstructor|done].
Qed.

(** C3: [do_mkdir("/c1/.../ck/nm")] for at least one directory on the way, all of
    them in memory, and a name the last of them does not have: with a free entry
    and a free inode that directory gets the name for a new directory, otherwise
    the call returns [-ENOSPC] and nothing changes.  Runs of slashes are allowed
    before and between the directories; exactly one slash stands before the last
    name. *)
Theorem do_mkdir_path (s : vst) root d nm r cs c dir n dvn x ents :
  fs_inv no_debt s -> vfs_root_vn s = Some root -> abs_path d nm (cs ++ [c]) -> chain s root (cs ++ [c]) dir ->
  dir_vnode s dir n dvn x ents ->
  name_arg nm (nm ++ 0 :: r) (Z.of_nat (length nm)) -> (forall i, ~ entry_in ents nm i) ->
  runs (do_mkdir (d ++ SLASH :: nm ++ 0 :: r)) s (fun ret s' => fs_inv no_debt s' /\
    match find_free ents, first_empty (v_fs s) with
    | Some _, Some e => ret = 0 /\ added s' dir n x ents nm (Z.of_nat e) /\ left_in_memory s s' (Z.of_nat e)
    | _, _ => ret = - ENOSPC /\ s' = s
    end).
Proof.
  intros Hinv Hroot Hp Hch (Hdir & Hdv & Hops & Hmode) Hname Hno.
  destruct (chain_last _ _ _ _ _ Hch) as (e & n0 & dvn0 & x0 & ents0 & m & vn & Hch0 & Hd0 & Hin & Hm).
  pose proof Hm as [Hv Hvno]. assert (vn = dvn) as -> by congruence.
  assert (m = n) as -> by (destruct Hdir as ((w & Hw & Hwn) & _); congruence).
  eapply mkdir_in_dir; try done; [|by eapply dir_namev_exact].
  right. exact (entry_linked s e n0 dvn0 x0 ents0 c n _ _ Hinv Hd0 (last_arg d cs c nm Hp) Hin).
Qed.
End Chain.
End NamevPath.
