(* ===== verification/VfsNames.v ===== *)
(** * System calls on paths of several components

    [do_unlink] and [do_rmdir] from the path to the inode, over the resolution
    of paths in [NamevPath]. *)

From Stdlib Require Import ZArith Lia.
From stdpp Require Import base list gmap.
From S2P Require Import Prelude KString Vnode Ramfs RamfsSpec RamfsDir Namev VfsSyscall NamevSpec NamevPath.

Module VfsNames.
Import KString Vnode Ramfs RamfsSpec RamfsDir Namev VfsSyscall NamevSpec NamevPath.
Local Open Scope Z_scope.




Section Unlink.
Context `{Devs}.










Section InDir.
Context (s : vst) (dir n : Z) (dvn : vnode) (x : inode) (ents : list dirent) (nm r : list Z).
Hypothesis Hinv : fs_inv no_debt s.
Hypothesis Hdir : dir_vnode s dir n dvn x ents.
Hypothesis Hname : name_arg nm (nm ++ 0 :: r) (Z.of_nat (length nm)).













End InDir.


End Unlink.
End VfsNames.
