(* ===== verification/VfsDemo.v ===== *)
(** * A running process with open files

    A checker for the invariant of [VfsFiles] and a concrete state in which the
    theorems about descriptors, directories and paths are applied. *)

From Stdlib Require Import ZArith Lia.
From stdpp Require Import base list gmap.
From S2P Require Import Prelude KString Vnode Ramfs RamfsSpec RamfsDir RamfsDemo Namev VfsSyscall VfsFiles VfsDents NamevSpec.

Module VfsDemo.
Import KString Vnode Ramfs RamfsSpec RamfsDir RamfsDemo Namev VfsSyscall VfsFiles VfsDents NamevSpec.
Local Open Scope Z_scope.

Definition file_check (s : vst) (f : Z) (x : file) : bool :=
  (0 <=? f_mode x) && (f_mode x <? 8) && (0 <=? f_pos x) && (f_refcount x =? fd_count f (p_files s)) &&
  (0 <? f_refcount x) &&
  match f_vnode x with Some v => bool_decide (is_Some (v_vnodes s !! v)) | None => false end.

Definition files_check (s : vst) : bool :=
  (Z.of_nat (length (p_files s)) =? NFILES) &&
  forallb (fun o => match o with Some f => bool_decide (is_Some (v_files s !! f)) | None => true end) (p_files s) &&
  forallb (fun p => file_check s (fst p) (snd p)) (map_to_list (v_files s)) &&
  forallb (fun p => files_on (fst p) (v_files s) <=? vn_refcount (snd p)) (map_to_list (v_vnodes s)).

Lemma files_check_sound s : files_check s = true -> file_inv s.
Proof.
  unfold files_check. rewrite !andb_true_iff. intros (((H1 & H2) & H3) & H4). split.
  - lia.
  - intros f Hf. pose proof (forallb_at _ _ _ H2 Hf) as E. by apply bool_decide_eq_true in E.
  - intros f x Hx%elem_of_map_to_list. pose proof (forallb_at _ _ _ H3 Hx) as E. cbn [fst snd] in E.
    unfold file_check in E. rewrite !andb_true_iff in E. destruct E as (((((? & ?) & ?) & ?) & ?) & E).
    destruct (f_vnode x) as [v|] eqn:Ev; [|done]. apply bool_decide_eq_true in E.
    unfold file_ok. split_and!; try lia. by exists v.
  - intros v vn Hv%elem_of_map_to_list. pose proof (forallb_at _ _ _ H4 Hv) as E. cbn [fst snd] in E. lia.
Qed.

Lemma vfs_check_sound s : inv_check s = true -> files_check s = true -> vfs_inv s.
Proof. intros ? ?. split; [by apply inv_check_sound|by apply files_check_sound]. Qed.

(** ** The state

    The file system is mounted, the current directory is the root, descriptor 0
    is ["/f"] and descriptor 1 the root directory. *)
#[local] Instance no_devs : Devs := {| bytedev_lookup := fun _ => None; blockdev_lookup := fun _ => None |}.
#[local] Instance abi0 : Abi := {| fell_off := 0; junk_store_ok := true |}.
#[local] Instance no_cdev : CdevOps := {| cd_read := fun _ _ _ => stuck; cd_write := fun _ _ _ _ => stuck |}.

Definition open2 : vst :=
  run_of (vfs_init ;;
          let* r := gets vfs_root_vn in
          vref r ;;
          modify (set_cwd r) ;;
          do_open [47; 102; 0] (O_RDWR + O_CREAT) ;;
          do_open [46; 0] O_RDONLY) boot_vst.

Definition file_at (s : vst) (f : Z) : file := default (File 0 0 0 None) (v_files s !! f).

Lemma open2_inv : vfs_inv open2.
Proof. apply vfs_check_sound; vm_compute; reflexivity. Qed.

Lemma open2_fd0 : p_files open2 !! Z.to_nat 0 = Some (Some 6) /\ v_files open2 !! 6 = Some (file_at open2 6) /\
  f_vnode (file_at open2 6) = Some 9 /\ v_vnodes open2 !! 9 = Some (vn_at open2 9) /\
  vn_ops (vn_at open2 9) = RamfsFileVops /\ f_mode (file_at open2 6) = 3 /\ f_pos (file_at open2 6) = 0.
Proof. split_and!; vm_compute; reflexivity. Qed.

Lemma open2_data : data_file open2 9 1 (vn_at open2 9) (node_at (v_fs open2) 1) (bytes_at (v_fs open2) 1).
Proof. split; try (vm_compute; reflexivity). split; vm_compute; discriminate. Qed.

Lemma open2_fd1 : p_files open2 !! Z.to_nat 1 = Some (Some 10) /\ v_files open2 !! 10 = Some (file_at open2 10) /\
  f_vnode (file_at open2 10) = Some 5 /\ v_vnodes open2 !! 5 = Some (vn_at open2 5) /\
  vn_ops (vn_at open2 5) = RamfsDirVops /\ vn_mode (vn_at open2 5) = S_IFDIR /\ f_pos (file_at open2 10) = 0.
Proof. split_and!; vm_compute; reflexivity. Qed.

Lemma open2_root : dir_at open2 5 0 (node_at (v_fs open2) 0) (ents_at (v_fs open2) 0).
Proof. split; [exists (vn_at open2 5); split|split]; vm_compute; reflexivity. Qed.

Lemma do_close_spec_witness : exists s', do_close 1 open2 = Done 0 s' /\ vfs_inv s'.
Proof.
  destruct (runs_done _ _ _ (do_close_spec open2 1 open2_inv ltac:(unfold NFILES; lia))) as (r & s' & E & Hi & Hm).
  rewrite (proj1 open2_fd1) in Hm. destruct Hm as (x & v & vn & _ & _ & _ & -> & _).
  exists s'. exact (conj E Hi).
Defined.

Lemma do_dup_spec_witness : exists s', do_dup 0 open2 = Done 2 s' /\ vfs_inv s'.
Proof.
  destruct (runs_done _ _ _ (do_dup_spec open2 0 6 2 open2_inv ltac:(unfold NFILES; lia) (proj1 open2_fd0)
    ltac:(vm_compute; reflexivity) ltac:(intros [|[|j]] Hj; [vm_compute; discriminate|vm_compute; discriminate|lia])))
    as (r & s' & E & -> & Hi & _). exists s'. exact (conj E Hi).
Defined.

(** Descriptor 0 duplicated until the table is full. *)
Definition full : vst := Nat.iter 30 (run_of (do_dup 0)) open2.

Lemma full_inv : vfs_inv full.
Proof. apply vfs_check_sound; vm_compute; reflexivity. Qed.

Lemma do_dup_full_witness : do_dup 0 full = Stuck.
Proof.
  apply (do_dup_full full 0 6 full_inv); [unfold NFILES; lia|vm_compute; reflexivity|].
  apply (bool_decide_eq_true_1 _). vm_compute. reflexivity.
Defined.

Lemma do_dup2_spec_witness : exists s', do_dup2 0 1 open2 = Done 1 s' /\ vfs_inv s'.
Proof.
  destruct (runs_done _ _ _ (do_dup2_spec open2 0 1 6 open2_inv ltac:(unfold NFILES; lia) ltac:(unfold NFILES; lia)
    ltac:(lia) (proj1 open2_fd0))) as (r & s' & E & -> & Hi & _). exists s'. exact (conj E Hi).
Defined.

Lemma do_dup2_same_leaks_witness : exists s', do_dup2 0 0 open2 = Done 0 s' /\ ~ vfs_inv s'.
Proof.
  destruct (runs_done _ _ _ (do_dup2_same_leaks open2 0 6 open2_inv ltac:(unfold NFILES; lia) (proj1 open2_fd0)))
    as (r & s' & E & -> & _ & Hi). exists s'. exact (conj E Hi).
Defined.

Lemma do_lseek_spec_witness : exists s', do_lseek 0 100 SEEK_END open2 = Done 100 s' /\ vfs_inv s'.
Proof.
  destruct open2_fd0 as (H1 & H2 & H3 & H4 & _).
  destruct (runs_done _ _ _ (do_lseek_spec open2 0 6 _ 9 _ 100 SEEK_END open2_inv ltac:(unfold NFILES; lia) H1 H2 H3 H4))
    as (r & s' & E & Hi & Hm). exists s'.
  assert (seek_target (file_at open2 6) (vn_at open2 9) 100 SEEK_END = Some 100) as Et by (vm_compute; reflexivity).
  rewrite Et in Hm. change (100 <? 0) with false in Hm. destruct Hm as [-> _]. exact (conj E Hi).
Defined.

Lemma do_write_spec_witness : exists s', do_write 0 [1; 2; 3] 3 open2 = Done 3 s' /\ vfs_inv s'.
Proof.
  destruct open2_fd0 as (H1 & H2 & H3 & H4 & H5 & H6 & H7).
  assert (write_pos (file_at open2 6) (vn_at open2 9) = 0) as Ew by (vm_compute; reflexivity).
  destruct (runs_done _ _ _ (do_write_spec open2 0 6 9 1 (file_at open2 6) (vn_at open2 9) _ _ open2_inv
    ltac:(unfold NFILES; lia) H1 H2 H3 open2_data H5 [1; 2; 3] ltac:(rewrite H6; done)
    ltac:(rewrite Ew; done) ltac:(rewrite Ew; done))) as (r & s' & E & -> & _ & Hi).
  rewrite Ew in E. exists s'. exact (conj E Hi).
Defined.

Lemma do_write_read_witness :
  exists s', (let* w := do_write 0 [1; 2; 3] 3 in
              do_lseek 0 0 SEEK_SET ;;
              let* r := do_read 0 3 in
              ret (w, r)) open2 = Done (3, (3, [1; 2; 3])) s' /\ vfs_inv s'.
Proof.
  destruct open2_fd0 as (H1 & H2 & H3 & H4 & H5 & H6 & H7).
  destruct (runs_done _ _ _ (do_write_read open2 0 6 9 1 (file_at open2 6) (vn_at open2 9) _ _ [1; 2; 3] open2_inv
    ltac:(unfold NFILES; lia) H1 H2 H3 open2_data H5 H6 ltac:(rewrite H7; vm_compute; discriminate)))
    as (r & s' & E & -> & Hi). rewrite H7 in E. exists s'. exact (conj E Hi).
Defined.

Lemma getdents_enumerates_witness :
  exists l s', getdents 129 1 (replicate 29 0) open2 = Done l s' /\
    List.map seen l = [(0, [46]); (0, [46; 46]); (1, [102])].
Proof.
  destruct open2_fd1 as (H1 & H2 & H3 & H4 & H5 & H6 & H7).
  destruct (runs_done _ _ _ (getdents_enumerates open2 1 10 5 0 (file_at open2 10) (vn_at open2 5) _ _ (replicate 29 0)
    open2_inv ltac:(unfold NFILES; lia) H1 H2 H3 H4 H5 H6 open2_root eq_refl H7)) as (l & s' & E & Hm & _).
  exists l, s'. split; [exact E|]. rewrite Hm. vm_compute. reflexivity.
Defined.

Lemma do_mkdir_root_witness : exists s', do_mkdir [47; 97; 0] open2 = Done 0 s' /\ fs_inv no_debt s'.
Proof.
  destruct open2_fd1 as (_ & _ & _ & H4 & H5 & H6 & _).
  destruct (runs_done _ _ _ (do_mkdir_root open2 5 (vn_at open2 5) _ _ [97] [] (proj1 open2_inv)
    ltac:(vm_compute; reflexivity) H4 H5 H6 open2_root (one_char_name 97 ltac:(lia) ltac:(lia) ltac:(lia))
    ltac:(by apply not_elem_of_cons; split; [done|apply not_elem_of_nil])
    ltac:(apply entry_absent; vm_compute; reflexivity))) as (r & s' & E & Hi & Hm).
  assert (find_free (ents_at (v_fs open2) 0) = Some 3%nat) as E1 by (vm_compute; reflexivity).
  assert (first_empty (v_fs open2) = Some 2%nat) as E2 by (vm_compute; reflexivity).
  rewrite E1, E2 in Hm. destruct Hm as (-> & _). exists s'. exact (conj E Hi).
Defined.
End VfsDemo.
