(* ===== verification/PathDemo.v ===== *)
(** * Deep paths at work

    The theorems of [NamevPath] in a concrete state, and two paths on which
    [dir_namev] goes wrong; then ([NamesDemo]) those of [VfsNames]. *)

From Stdlib Require Import ZArith Lia.
From stdpp Require Import base list gmap.
From S2P Require Import Prelude KString Vnode Ramfs RamfsSpec RamfsDir RamfsDemo Namev VfsSyscall VfsFiles NamevSpec NamevPath VfsNames VfsDemo.

Module PathDemo.
Import KString Vnode Ramfs RamfsSpec RamfsDir RamfsDemo Namev VfsSyscall VfsFiles NamevSpec NamevPath VfsDemo.
Local Open Scope Z_scope.

#[local] Instance no_devs : Devs := {| bytedev_lookup := fun _ => None; blockdev_lookup := fun _ => None |}.

(** The state of [VfsDemo] after [mkdir("/a")] and [mkdir("/a/b")]. *)
Definition deep : vst := run_of (do_mkdir [47; 97; 0] ;; do_mkdir [47; 97; 47; 98; 0]) open2.

Lemma deep_inv : fs_inv no_debt deep.
Proof. apply inv_check_sound. vm_compute. reflexivity. Qed.

Lemma dir_vnode_at s v n vn x ents :
  v_vnodes s !! v = Some vn -> vn_vno vn = n -> vn_ops vn = RamfsDirVops -> vn_mode vn = S_IFDIR ->
  slot (v_fs s) n = Some x -> rf_mem x = MemDir ents -> dir_vnode s v n vn x ents.
Proof. intros Hv Hn Hops Hmode Hs Hm. split; [|done]. split; [by exists vn|done]. Qed.

Lemma deep_root : dir_vnode deep 5 0 (vn_at deep 5) (node_at (v_fs deep) 0) (ents_at (v_fs deep) 0).
Proof. apply dir_vnode_at; vm_compute; reflexivity. Qed.

Lemma deep_a : dir_vnode deep 13 2 (vn_at deep 13) (node_at (v_fs deep) 2) (ents_at (v_fs deep) 2).
Proof. apply dir_vnode_at; vm_compute; reflexivity. Qed.

Lemma deep_b : dir_vnode deep 16 3 (vn_at deep 16) (node_at (v_fs deep) 3) (ents_at (v_fs deep) 3).
Proof. apply dir_vnode_at; vm_compute; reflexivity. Qed.

Lemma entry_at ents k nm m :
  match ents !! k with
  | Some e => bool_decide (cname (rd_name e) = nm) && (rd_ino e =? m)
  | None => false
  end = true -> entry_in ents nm m.
Proof.
  destruct (ents !! k) as [e|] eqn:E; [|discriminate].
  intros [E1%bool_decide_eq_true E2%Z.eqb_eq]%andb_true_iff. by exists k, e.
Qed.

Lemma deep_entries :
  entry_in (ents_at (v_fs deep) 0) [97] 2 /\ entry_in (ents_at (v_fs deep) 2) [98] 3.
Proof. split; [apply (entry_at _ 3)|apply (entry_at _ 2)]; vm_compute; reflexivity. Qed.

Lemma deep_in_memory : in_memory deep 2 13 (vn_at deep 13) /\ in_memory deep 3 16 (vn_at deep 16).
Proof. split; split; vm_compute; reflexivity. Qed.

Lemma deep_chain_a : chain deep 5 [[97]] 13.
Proof.
  econstructor; [exact deep_root|exact (proj1 deep_entries)|exact (proj1 deep_in_memory)|constructor].
Qed.

Lemma deep_chain_b : chain deep 5 ([[97]] ++ [[98]]) 16.
Proof.
  econstructor; [exact deep_root|exact (proj1 deep_entries)|exact (proj1 deep_in_memory)|].
  econstructor; [exact deep_a|exact (proj2 deep_entries)|exact (proj2 deep_in_memory)|constructor].
Qed.

Lemma one_char_component c : -128 <= c < 128 -> c <> 0 -> c <> 46 -> c <> 47 -> component [c].
Proof.
  intros H1 H2 H3 H4. split.
  - constructor; [exact H1|constructor].
  - apply not_elem_of_cons. split; [lia|apply not_elem_of_nil].
  - apply not_elem_of_cons. split; [unfold SLASH; lia|apply not_elem_of_nil].
  - cbn. lia.
  - split_and!; congruence.
Qed.

(** ["//a///b"], and the name ["c"] *)
Lemma deep_path : abs_path [47; 47; 97; 47; 47; 47; 98] [99] ([[97]] ++ [[98]]).
Proof.
  split.
  - done.
  - done.
  - by apply no_nul.
  - vm_compute. reflexivity.
  - constructor; [apply one_char_component; lia|]. constructor; [apply one_char_component; lia|constructor].
  - split_and!; [by apply no_nul|apply not_elem_of_cons; split; [done|apply not_elem_of_nil]|cbn; lia].
  - cbn. lia.
Qed.

Lemma dir_namev_path_witness : exists v s',
  dir_namev [47; 47; 97; 47; 47; 47; 98; 47; 99; 0] Junk deep = Done (NamevOut 0 (At v) (Some [99; 0]) 1) s' /\
  fs_inv no_debt s' /\ keeps deep s'.
Proof.
  destruct (runs_done _ _ _ (dir_namev_path deep 5 [47; 47; 97; 47; 47; 47; 98] [[97]] [98] 13 [99] [] deep_inv
    ltac:(vm_compute; reflexivity) deep_path deep_chain_a Junk 2 _ _ _ 3 deep_a (proj2 deep_entries)))
    as (o & s' & E & v & vn & -> & Hi & K & _).
  exists v, s'. exact (conj E (conj Hi K)).
Defined.

Lemma do_mkdir_path_witness : exists s',
  do_mkdir [47; 47; 97; 47; 47; 47; 98; 47; 99; 0] deep = Done 0 s' /\ fs_inv no_debt s'.
Proof.
  destruct (runs_done _ _ _ (do_mkdir_path deep 5 [47; 47; 97; 47; 47; 47; 98] [99] [] [[97]] [98] 16 3 _ _ _ deep_inv
    ltac:(vm_compute; reflexivity) deep_path deep_chain_b deep_b (one_char_name 99 ltac:(lia) ltac:(lia) ltac:(lia))
    ltac:(apply entry_absent; vm_compute; reflexivity))) as (r & s' & E & Hi & Hm).
  assert (find_free (ents_at (v_fs deep) 3) = Some 2%nat) as E1 by (vm_compute; reflexivity).
  assert (first_empty (v_fs deep) = Some 4%nat) as E2 by (vm_compute; reflexivity).
  rewrite E1, E2 in Hm. destruct Hm as (-> & _). exists s'. exact (conj E Hi).
Defined.

(** ** Two slashes before the last name

    The path that is left for the directory ends in a slash, the name that is
    looked up last is empty, and an empty name is found: it is the name of
    every free entry, and the inode number of a free entry is that of the root.
    So the directory part of ["/a//c"] is the root, and [mkdir("/a//c")] makes
    ["/c"]. *)
Definition result_of {A} (o : outcome vst A) : option A := match o with Done a _ => Some a | _ => None end.

Example double_slash_is_root :
  result_of (dir_namev [47; 97; 47; 47; 99; 0] Junk deep) = Some (NamevOut 0 (At 5) (Some [99; 0]) 1).
Proof. vm_compute. reflexivity. Qed.

Example mkdir_double_slash :
  let s' := run_of (do_mkdir [47; 97; 47; 47; 99; 0]) deep in
  find_entry (ents_at (v_fs s') 0) [99; 0] 1 = Some (Some 4%nat) /\
  find_entry (ents_at (v_fs s') 2) [99; 0] 1 = Some None.
Proof. split; vm_compute; reflexivity. Qed.

(** ** A directory nobody else refers to

    [dir_namev] drops its reference to a directory before it uses it.  Once the
    reference that [do_mkdir] left on ["/a"] is gone, resolving ["/a/b/c"] uses
    the vnode of ["/a"] after it was freed. *)
Definition unreferenced : vst := run_of (vput (Some 13)) deep.

Example walk_uses_freed_vnode :
  fs_inv no_debt unreferenced /\ dir_namev [47; 97; 47; 98; 47; 99; 0] Junk unreferenced = Stuck.
Proof. split; [apply inv_check_sound|]; vm_compute; reflexivity. Qed.
End PathDemo.

(** ** Names removed by path

    [do_unlink_path] and [do_rmdir_path] in the state of [PathDemo], with a
    device ["/a/c"] besides the directory ["/a/b"]. *)
Module NamesDemo.
Import KString Vnode Ramfs RamfsSpec RamfsDir RamfsDemo Namev VfsSyscall NamevSpec NamevPath VfsNames VfsDemo PathDemo.
Local Open Scope Z_scope.

#[local] Instance no_devs : Devs := {| bytedev_lookup := fun _ => None; blockdev_lookup := fun _ => None |}.
#[local] Instance abi0 : Abi := {| fell_off := 0; junk_store_ok := true |}.










End NamesDemo.
