(* ===== verification/Page.v ===== *)
(** * The page allocator ([mm/page.c], [include/mm/page.h], [include/util/bits.h])

    A buddy allocator: each group of pages has a free list per block size
    ([2^order] pages, orders 0 to 7) and, for each order but the first, a bit map
    with one bit per pair of blocks of the order below.  A free list is the
    sequence of the addresses on it ([KList] justifies that view of [list_t]); a
    bit map is a number, of which [pg_nbits] bits are there.  The contents of the
    pages are not modelled. *)

From Stdlib Require Import ZArith Lia.
From stdpp Require Import base list.
From S2P Require Import Prelude.

Module Page.
Local Open Scope Z_scope.

Definition PAGE_SHIFT : Z := 12.
Definition PAGE_SIZE : Z := 2 ^ PAGE_SHIFT.
Definition PAGE_NSIZES : nat := 8.
Definition PAGE_ALIGN_DOWN (x : Z) : Z := x - x mod PAGE_SIZE.
Definition PAGE_ALIGNED (x : Z) : bool := x mod PAGE_SIZE =? 0.

(** [struct pagegroup] *)
Record pagegroup := Pagegroup {
  pg_freelist : list (list Z);
  pg_map : list Z;
  pg_nbits : list Z;
  pg_baseaddr : Z;
  pg_endaddr : Z
}.

Definition SIZEOF_PAGEGROUP : Z := 112.

Definition g_freelist (f : list (list Z) -> list (list Z)) (g : pagegroup) : pagegroup :=
  Pagegroup (f (pg_freelist g)) (pg_map g) (pg_nbits g) (pg_baseaddr g) (pg_endaddr g).
Definition g_map (f : list Z -> list Z) (g : pagegroup) : pagegroup :=
  Pagegroup (pg_freelist g) (f (pg_map g)) (pg_nbits g) (pg_baseaddr g) (pg_endaddr g).

(** [pagegroup_list] and [page_freecount]. *)
Record pstate := Pstate { pagegroup_list : list pagegroup; page_freecount : Z }.

Definition upd_groups (f : list pagegroup -> list pagegroup) (s : pstate) : pstate :=
  Pstate (f (pagegroup_list s)) (page_freecount s).
Definition upd_count (f : Z -> Z) (s : pstate) : pstate :=
  Pstate (pagegroup_list s) (f (page_freecount s)).

Abbreviation P := (kern pstate).

(** A pointer to a group is its place on [pagegroup_list]. *)
Definition get_group (i : nat) : P pagegroup := fun s => deref (pagegroup_list s !! i) s.
Definition set_group (i : nat) (f : pagegroup -> pagegroup) : P unit :=
  let* g := get_group i in modify (upd_groups <[i := f g]>).

(** [group->pg_freelist[order]] *)
Definition freelist (i : nat) (order : nat) : P (list Z) :=
  let* g := get_group i in deref (pg_freelist g !! order).
Definition set_freelist (i : nat) (order : nat) (l : list Z) : P unit :=
  set_group i (g_freelist <[order := l]>).

(** [list_insert_head(&group->pg_freelist[order], addr)] *)
Definition push (i : nat) (order : nat) (addr : Z) : P unit :=
  let* l := freelist i order in set_freelist i order (addr :: l).

(** [list_remove] of a block of the group, from the list it is on. *)
Definition remove_link (i : nat) (addr : Z) : P unit :=
  let* g := get_group i in
  if bool_decide (Exists (fun l => addr ∈ l) (pg_freelist g))
  then set_group i (g_freelist (fmap (filter (fun a => a <> addr))))
  else stuck.

(** ** [include/util/bits.h] *)
Definition bit_flip (i : nat) (order : nat) (bit : Z) : P unit :=
  let* g := get_group i in
  let* m := deref (pg_map g !! order) in
  let* n := deref (pg_nbits g !! order) in
  if (0 <=? bit) && (bit <? n)
  then set_group i (g_map <[order := Z.lxor m (2 ^ bit)]>)
  else stuck.

Definition bit_check (i : nat) (order : nat) (bit : Z) : P bool :=
  let* g := get_group i in
  let* m := deref (pg_map g !! order) in
  let* n := deref (pg_nbits g !! order) in
  if (0 <=? bit) && (bit <? n) then ret (Z.testbit m bit) else stuck.

(** ** Groups *)

(** The bit maps: from order 1 up, each below the one before.  What is left of
    the range, and the number of bits of each. *)
Fixpoint map_space (orders : list nat) (npages end_ : Z) : Z * list Z :=
  match orders with
  | [] => (end_, [])
  | order :: orders =>
      let count := Z.shiftr npages (Z.of_nat order) in
      let count := u32 (Z.land (u32 (count - 1)) (2 ^ 32 - 8) + 8) in
      let bytes := Z.shiftr count 3 in
      let r := map_space orders npages (u32 (end_ - bytes)) in
      (fst r, 8 * bytes :: snd r)
  end.

(** The blocks at the end of the range that do not fill one of the largest
    order. *)
Fixpoint tail_blocks (orders : list nat) (npages end_ : Z) : Z * list (list Z) :=
  match orders with
  | [] => (end_, [])
  | order :: orders =>
      if Z.testbit npages (Z.of_nat order)
      then
        let e := u32 (end_ - 2 ^ Z.of_nat order * PAGE_SIZE) in
        let r := tail_blocks orders npages e in (fst r, [e] :: snd r)
      else
        let r := tail_blocks orders npages end_ in (fst r, [] :: snd r)
  end.

(** The blocks of the largest order, last one first. *)
Fixpoint top_blocks (fuel : nat) (current end_ : Z) (l : list Z) : list Z :=
  match fuel with
  | O => l
  | S fuel =>
      if current <? end_ then top_blocks fuel (u32 (current + 2 ^ 7 * PAGE_SIZE)) end_ (current :: l) else l
  end.

Definition _pagegroup_create (start end_ : Z) : P pagegroup :=
  let npages := Z.shiftr (u32 (end_ - start)) PAGE_SHIFT in
  let end1 := u32 (end_ - SIZEOF_PAGEGROUP) in
  let m := map_space (seq 1 7) npages end1 in
  let end2 := PAGE_ALIGN_DOWN (fst m) in
  let npages := Z.shiftr (u32 (end2 - start)) PAGE_SHIFT in
  let t := tail_blocks (seq 0 7) npages end2 in
  kassert (u32 (fst t - start) mod 2 ^ 7 =? 0) ;;
  ret (Pagegroup (snd t ++ [top_blocks (Z.to_nat (fst t / (2 ^ 7 * PAGE_SIZE) + 1)) start (fst t) []])
         (replicate PAGE_NSIZES 0) (0 :: snd m) start end2).

Definition page_init : P unit := modify (fun _ => Pstate [] 0).

Definition page_add_range (start end_ : Z) : P unit :=
  let* g := _pagegroup_create (PAGE_ALIGN_DOWN start) (PAGE_ALIGN_DOWN end_) in
  if pg_baseaddr g <? pg_endaddr g then
    modify (upd_groups (fun l => l ++ [g])) ;;
    modify (upd_count (fun n => u32 (n + Z.shiftr (u32 (pg_endaddr g - pg_baseaddr g)) PAGE_SHIFT)))
  else ret tt.

Fixpoint group_of (addr : Z) (l : list pagegroup) : option nat :=
  match l with
  | [] => None
  | g :: l => if (pg_baseaddr g <=? addr) && (addr <? pg_endaddr g) then Some 0%nat else S <$> group_of addr l
  end.

Definition _pagegroup_from_address (addr : Z) : P (option nat) := gets (fun s => group_of addr (pagegroup_list s)).

Definition _pagegroup_calculate_index (i : nat) (order : nat) (addr : Z) : P Z :=
  kassert (PAGE_ALIGNED addr) ;;
  kassert (Nat.ltb order PAGE_NSIZES) ;;
  let* g := get_group i in
  kassert ((pg_baseaddr g <=? addr) && (addr <? pg_endaddr g)) ;;
  let offset := u32 (addr - pg_baseaddr g) in
  kassert (Z.land offset (2 ^ Z.of_nat order - 1) =? 0) ;;
  ret (Z.shiftr (Z.shiftr offset (Z.of_nat order)) PAGE_SHIFT).

(** ** Allocation *)
Definition __page_split (i : nat) (order : nat) : P unit :=
  kassert (Nat.ltb 0 order) ;;
  kassert (Nat.ltb order PAGE_NSIZES) ;;
  let* l := freelist i order in
  kassert (bool_decide (l <> [])) ;;
  let* target := deref (head l) in
  set_freelist i order (tail l) ;;
  (if Nat.ltb order (PAGE_NSIZES - 1) then
     let* index := _pagegroup_calculate_index i (S order) target in
     bit_flip i (S order) index
   else ret tt) ;;
  let* index := _pagegroup_calculate_index i order target in
  let* b := bit_check i order index in
  kassert (negb b) ;;
  let buddy := u32 (target + 2 ^ (Z.of_nat order - 1) * PAGE_SIZE) in
  push i (order - 1) target ;;
  push i (order - 1) buddy.

(** [while (norder > order)]: [n] splits, from order [order + n] down. *)
Fixpoint split_down (i : nat) (order n : nat) : P unit :=
  match n with
  | O => ret tt
  | S n' => __page_split i (order + n) ;; split_down i order n'
  end.

(** The first group with a free block of the given order. *)
Fixpoint first_group (order : nat) (k : nat) (l : list pagegroup) : option nat :=
  match l with
  | [] => None
  | g :: l => match pg_freelist g !! order with
              | Some (_ :: _) => Some k
              | _ => first_group order (S k) l
              end
  end.

(** The first of the given orders for which some group has a free block. *)
Fixpoint first_order (orders : list nat) (l : list pagegroup) : option (nat * nat) :=
  match orders with
  | [] => None
  | order :: orders =>
      match first_group order 0 l with
      | Some i => Some (order, i)
      | None => first_order orders l
      end
  end.

(** [slab_allocators_reclaim(0)]: the pages the slab allocators give back. *)
Class Reclaim := slab_allocators_reclaim : P Z.

Section Alloc.
Context `{Reclaim}.

Definition _page_split (order : nat) : P (option nat) :=
  let* groups := gets pagegroup_list in
  match first_order (seq (S order) (PAGE_NSIZES - S order)) groups with
  | Some (norder, i) =>
      split_down i order (norder - order) ;;
      let* l := freelist i order in
      kassert (bool_decide (l <> [])) ;;
      ret (Some i)
  | None => slab_allocators_reclaim ;; ret None
  end.

Definition _page_alloc_order (order : nat) : P (option Z) :=
  let* groups := gets pagegroup_list in
  let* found :=
    (match first_group order 0 groups with
     | Some i => ret (Some i)
     | None =>
         let* r := _page_split order in
         match r with
         | Some i =>
             let* l := freelist i order in
             kassert (bool_decide (l <> [])) ;;
             ret (Some i)
         | None => ret None
         end
     end) in
  match found with
  | None => ret None
  | Some i =>
      let* l := freelist i order in
      let* addr := deref (head l) in
      set_freelist i order (tail l) ;;
      (if Nat.ltb order (PAGE_NSIZES - 1) then
         let* index := _pagegroup_calculate_index i (S order) addr in
         bit_flip i (S order) index
       else ret tt) ;;
      modify (upd_count (fun n => u32 (n - 2 ^ Z.of_nat order))) ;;
      ret (Some addr)
  end.

(** The smallest order whose blocks have at least [npages] pages. *)
Definition order_for (npages : Z) : option nat :=
  List.find (fun order => s32 npages <=? 2 ^ Z.of_nat order) (seq 0 PAGE_NSIZES).

Definition page_alloc : P (option Z) := _page_alloc_order 0.

Definition page_alloc_n (npages : Z) : P (option Z) :=
  match order_for npages with
  | None => panic
  | Some order => _page_alloc_order order
  end.
End Alloc.

(** ** Release *)

(** The loop goes up one order each time: eight rounds are enough. *)
Fixpoint __page_join (fuel : nat) (i : nat) (order : nat) (addr : Z) : P unit :=
  match fuel with
  | O => blocked
  | S fuel =>
      if negb (Nat.ltb order (PAGE_NSIZES - 1)) then ret tt
      else
        let* index := _pagegroup_calculate_index i (S order) addr in
        let* b := bit_check i (S order) index in
        if b : bool then ret tt
        else
          let* g := get_group i in
          let offset := u32 (addr - pg_baseaddr g) in
          let odd := Z.testbit (Z.shiftr (Z.shiftr offset PAGE_SHIFT) (Z.of_nat order)) 0 in
          let buddy := u32 (addr + 2 ^ Z.of_nat order * PAGE_SIZE * (if odd then -1 else 1)) in
          kassert (Z.land offset (2 ^ Z.of_nat order - 1) =? 0) ;;
          remove_link i addr ;;
          remove_link i buddy ;;
          let addr := Z.min addr buddy in
          push i (S order) addr ;;
          (if Nat.ltb (S order) (PAGE_NSIZES - 1) then
             let* index := _pagegroup_calculate_index i (S (S order)) addr in
             bit_flip i (S (S order)) index
           else ret tt) ;;
          __page_join fuel i (S order) addr
  end.

Definition _page_free_order (addr : Z) (order : nat) : P unit :=
  let* group := _pagegroup_from_address addr in
  match group with
  | None => ret tt
  | Some i =>
      push i order addr ;;
      modify (upd_count (fun n => u32 (n + 2 ^ Z.of_nat order))) ;;
      if Nat.ltb order (PAGE_NSIZES - 1) then
        let* index := _pagegroup_calculate_index i (S order) addr in
        bit_flip i (S order) index ;;
        __page_join PAGE_NSIZES i order addr
      else ret tt
  end.

Definition page_free (addr : Z) : P unit := _page_free_order addr 0.

Definition page_free_n (start npages : Z) : P unit :=
  match order_for npages with
  | None => panic
  | Some order => _page_free_order start order
  end.

Definition page_free_count : P Z := gets page_freecount.
End Page.
