(* ===== verification/PageSpec.v ===== *)
(** * The page allocator: free lists and bit maps as a set of free addresses

    The invariant of [Page]: the blocks on the free lists are aligned, lie in
    their group and do not overlap; bit [i] of the map of order [k + 1] says
    whether exactly one of the two blocks of order [k] of pair [i] is on the free
    list of order [k]; no two buddies are both free.  Over it allocation removes
    a block from the set of free addresses and release adds one. *)

From Stdlib Require Import ZArith Lia.
From stdpp Require Import base list.
From S2P Require Import Prelude Page.

Module PageSpec.
Import Page.
Local Open Scope Z_scope.

(** The size in bytes of a block. *)
Definition bsize (k : nat) : Z := 2 ^ (12 + Z.of_nat k).

Definition listof (g : pagegroup) (k : nat) : list Z := default [] (pg_freelist g !! k).
Definition mapof (g : pagegroup) (k : nat) : Z := default 0 (pg_map g !! k).

(** The block of order [k] with number [c]. *)
Definition blk (g : pagegroup) (k : nat) (c : Z) : Z := pg_baseaddr g + c * bsize k.

Definition in_range (g : pagegroup) (k : nat) (c : Z) : Prop :=
  0 <= c /\ (c + 1) * bsize k <= pg_endaddr g - pg_baseaddr g.

(** [x] is one of the addresses of the block of order [k] at [a]. *)
Definition in_block (a : Z) (k : nat) (x : Z) : Prop := a <= x < a + bsize k.

#[export] Instance in_block_dec a k x : Decision (in_block a k x).
Proof. unfold in_block. apply _. Defined.

Record grp_ok (g : pagegroup) : Prop := GrpOk {
  go_lists : length (pg_freelist g) = PAGE_NSIZES;
  go_maps : length (pg_map g) = PAGE_NSIZES;
  go_nbits k c : (k < 7)%nat -> in_range g (S k) c -> exists n, pg_nbits g !! S k = Some n /\ c < n;
  go_base : 0 <= pg_baseaddr g /\ pg_baseaddr g mod PAGE_SIZE = 0;
  go_end : pg_endaddr g < 2 ^ 32 /\ exists t, pg_endaddr g = pg_baseaddr g + t * bsize 7;
  go_nodup k : NoDup (listof g k);
  go_block k a : a ∈ listof g k -> exists c, a = blk g k c /\ in_range g k c;
  go_disj k a k' a' : a ∈ listof g k -> a' ∈ listof g k' ->
    a < a' + bsize k' -> a' < a + bsize k -> k = k' /\ a = a';
  go_bits k i : (k < 7)%nat -> in_range g (S k) i ->
    Z.testbit (mapof g (S k)) i = xorb (bool_decide (blk g k (2 * i) ∈ listof g k))
                                       (bool_decide (blk g k (2 * i + 1) ∈ listof g k))
}.

(** No two buddies are free, those of order [k] and pair [i] aside. *)
Definition tidy_but (g : pagegroup) (k : nat) (i : Z) : Prop :=
  forall k' i', (k' < 7)%nat -> (k', i') <> (k, i) ->
    ~ (blk g k' (2 * i') ∈ listof g k' /\ blk g k' (2 * i' + 1) ∈ listof g k').

Definition tidy (g : pagegroup) : Prop :=
  forall k i, (k < 7)%nat -> ~ (blk g k (2 * i) ∈ listof g k /\ blk g k (2 * i + 1) ∈ listof g k).

(** The free addresses of a group and the number of its free pages. *)
Definition free_in (g : pagegroup) (x : Z) : Prop := exists k a, a ∈ listof g k /\ in_block a k x.

Fixpoint weight (k : nat) (fl : list (list Z)) : Z :=
  match fl with
  | [] => 0
  | l :: fl => 2 ^ Z.of_nat k * Z.of_nat (length l) + weight (S k) fl
  end.
Definition free_pages (g : pagegroup) : Z := weight 0 (pg_freelist g).

(** The allocator. *)
Record pages_ok (s : pstate) : Prop := PagesOk {
  po_groups i g : pagegroup_list s !! i = Some g -> grp_ok g /\ tidy g;
  po_apart i j g h : pagegroup_list s !! i = Some g -> pagegroup_list s !! j = Some h -> i <> j ->
    pg_endaddr g <= pg_baseaddr h \/ pg_endaddr h <= pg_baseaddr g;
  po_count : page_freecount s = u32 (foldr (fun g n => free_pages g + n) 0 (pagegroup_list s))
}.

Definition free_at (s : pstate) (x : Z) : Prop := exists g, g ∈ pagegroup_list s /\ free_in g x.

(** ** Sizes *)
Lemma bsize_pos k : 0 < bsize k.
Proof. unfold bsize. apply Z.pow_pos_nonneg; lia. Qed.

Lemma bsize_S k : bsize (S k) = 2 * bsize k.
Proof. unfold bsize. rewrite <- Z.pow_succ_r by lia. f_equal. lia. Qed.

Lemma bsize_pages k : bsize k = 2 ^ Z.of_nat k * PAGE_SIZE.
Proof. unfold bsize, PAGE_SIZE, PAGE_SHIFT. rewrite Z.pow_add_r by lia. lia. Qed.
#[export] Hint Resolve bsize_pos : kern.

Lemma blk_inj g k c c' : blk g k c = blk g k c' -> c = c'.
Proof. unfold blk. intros. pose proof (bsize_pos k). nia. Qed.

(** Pairs: a block is the first or the second one of its pair. *)
Lemma half_range g k c : grp_ok g -> (k < 7)%nat -> in_range g k c -> in_range g (S k) (c / 2).
Proof.
  intros [] Hk [Hc Hr]. split; [dlia|]. rewrite bsize_S. destruct go_end0 as [_ [t Ht]].
  assert (exists m, bsize 7 = m * (2 * bsize k)) as [m Hm].
  { exists (2 ^ (6 - Z.of_nat k)). rewrite <- bsize_S. unfold bsize. rewrite <- Z.pow_add_r by lia. f_equal. lia. }
  rewrite Ht, Hm in *. pose proof (bsize_pos k).
  assert (c + 1 <= 2 * (t * m)) by nia. assert (c / 2 + 1 <= t * m) by dlia. nia.
Qed.

(** ** Updates of a group *)
Definition put_list (k : nat) (l : list Z) (g : pagegroup) : pagegroup := g_freelist <[k := l]> g.

(** The bit of the pair of block [c] of order [k], if there is one. *)
Definition flip (k : nat) (c : Z) (g : pagegroup) : pagegroup :=
  if Nat.ltb k (PAGE_NSIZES - 1) then g_map <[S k := Z.lxor (mapof g (S k)) (2 ^ (c / 2))]> g else g.

Lemma flip_id k c g : pg_freelist (flip k c g) = pg_freelist g /\ pg_nbits (flip k c g) = pg_nbits g /\
  pg_baseaddr (flip k c g) = pg_baseaddr g /\ pg_endaddr (flip k c g) = pg_endaddr g.
Proof. unfold flip. by destruct (Nat.ltb _ _). Qed.

Lemma listof_flip k c g j : listof (flip k c g) j = listof g j.
Proof. unfold listof. by destruct (flip_id k c g) as (-> & _). Qed.

Lemma blk_flip k c g j i : blk (flip k c g) j i = blk g j i.
Proof. unfold blk. by destruct (flip_id k c g) as (_ & _ & -> & _). Qed.

Lemma in_range_flip k c g j i : in_range (flip k c g) j i <-> in_range g j i.
Proof. unfold in_range. by destruct (flip_id k c g) as (_ & _ & -> & ->). Qed.

Lemma listof_lookup g k l : pg_freelist g !! k = Some l -> listof g k = l.
Proof. unfold listof. by intros ->. Qed.

Lemma lookup_listof g k : grp_ok g -> (k < 8)%nat -> pg_freelist g !! k = Some (listof g k).
Proof.
  intros [] Hk. unfold listof. destruct (lookup_lt_is_Some_2 (pg_freelist g) k) as [l ->]; [|done].
  by rewrite go_lists0.
Qed.

Lemma listof_small g k a : grp_ok g -> a ∈ listof g k -> (k < 8)%nat.
Proof.
  intros [] Ha. unfold listof in Ha. destruct (pg_freelist g !! k) eqn:E; [|by apply elem_of_nil in Ha].
  apply lookup_lt_Some in E. by rewrite go_lists0 in E.
Qed.

Lemma listof_put k l g j : (k < length (pg_freelist g))%nat ->
  listof (put_list k l g) j = if bool_decide (k = j) then l else listof g j.
Proof.
  intros. unfold listof, put_list, g_freelist. cbn. case_bool_decide.
  - subst. by rewrite list_lookup_insert_eq by done.
  - by rewrite list_lookup_insert_ne by done.
Qed.

Lemma testbit_flip m i j : 0 <= i -> 0 <= j ->
  Z.testbit (Z.lxor m (2 ^ i)) j = xorb (bool_decide (i = j)) (Z.testbit m j).
Proof.
  intros. rewrite Z.lxor_spec, Z.pow2_bits_eqb by done. rewrite xorb_comm.
  f_equal. case_bool_decide; [by apply Z.eqb_eq|by apply Z.eqb_neq].
Qed.

Lemma mapof_flip k c g j i : grp_ok g -> (k < 8)%nat -> 0 <= c -> 0 <= i ->
  Z.testbit (mapof (flip k c g) (S j)) i =
  xorb (bool_decide (k = j /\ c / 2 = i /\ (j < 7)%nat)) (Z.testbit (mapof g (S j)) i).
Proof.
  intros Hok Hk Hc Hi. unfold flip. destruct (Nat.ltb_spec k (PAGE_NSIZES - 1)) as [Hlt|Hlt]; unfold PAGE_NSIZES in *.
  - unfold mapof at 1. cbn [g_map pg_map]. destruct (decide (k = j)) as [->|Hne].
    + rewrite list_lookup_insert_eq by (rewrite (go_maps _ Hok); unfold PAGE_NSIZES; lia). cbn [from_option id].
      rewrite testbit_flip by (try done; dlia). f_equal. apply bool_decide_ext. naive_solver lia.
    + rewrite list_lookup_insert_ne by congruence. rewrite bool_decide_eq_false_2 by naive_solver. done.
  - rewrite bool_decide_eq_false_2; [done|]. lia.
Qed.

(** *** Putting a block on its list or taking it off *)
Definition toggle (k : nat) (c : Z) (l : list Z) (g : pagegroup) : pagegroup := flip k c (put_list k l g).

Lemma toggle_id k c l g : pg_nbits (toggle k c l g) = pg_nbits g /\
  pg_baseaddr (toggle k c l g) = pg_baseaddr g /\ pg_endaddr (toggle k c l g) = pg_endaddr g.
Proof. unfold toggle. destruct (flip_id k c (put_list k l g)) as (_ & -> & -> & ->). done. Qed.

Lemma listof_toggle g k c l j : grp_ok g -> (k < 8)%nat ->
  listof (toggle k c l g) j = if bool_decide (k = j) then l else listof g j.
Proof. intros Hok ?. unfold toggle. rewrite listof_flip, listof_put; [done|]. by rewrite (go_lists _ Hok). Qed.

Lemma blk_toggle g k c l j i : blk (toggle k c l g) j i = blk g j i.
Proof. unfold toggle. by rewrite blk_flip. Qed.

Lemma in_range_toggle g k c l j i : in_range (toggle k c l g) j i <-> in_range g j i.
Proof. unfold toggle. by rewrite in_range_flip. Qed.

Lemma mapof_put k l g j : mapof (put_list k l g) j = mapof g j.
Proof. done. Qed.

Lemma length_toggle g k c l :
  length (pg_freelist (toggle k c l g)) = length (pg_freelist g) /\ length (pg_map (toggle k c l g)) = length (pg_map g).
Proof.
  unfold toggle. destruct (flip_id k c (put_list k l g)) as (-> & _). unfold flip, put_list, g_freelist.
  destruct (Nat.ltb _ _); cbn; by rewrite ?length_insert.
Qed.

Lemma mapof_flip_put g k c l j i : grp_ok g -> (k < 8)%nat -> 0 <= c -> 0 <= i ->
  Z.testbit (mapof (toggle k c l g) (S j)) i =
  xorb (bool_decide (k = j /\ c / 2 = i /\ (j < 7)%nat)) (Z.testbit (mapof g (S j)) i).
Proof.
  intros Hok Hk Hc Hi. rewrite <- (mapof_flip k c g j i) by done. f_equal.
  unfold toggle, flip. destruct (Nat.ltb _ _); [|done]. done.
Qed.

(** [l] is the free list of order [k] with block [c] added or taken away. *)
Definition toggled (g : pagegroup) (k : nat) (c : Z) (l : list Z) : Prop :=
  forall a, a ∈ l <-> (a <> blk g k c /\ a ∈ listof g k) \/ (a = blk g k c /\ blk g k c ∉ listof g k).

Lemma toggled_bit g k c l c' : toggled g k c l ->
  bool_decide (blk g k c' ∈ l) = xorb (bool_decide (c = c')) (bool_decide (blk g k c' ∈ listof g k)).
Proof.
  intros Hmem. destruct (decide (c = c')) as [->|Hne].
  - rewrite (bool_decide_eq_true_2 (c' = c')) by done. rewrite xorb_true_l, <- bool_decide_not.
    apply bool_decide_ext. rewrite (Hmem _). naive_solver.
  - rewrite (bool_decide_eq_false_2 (c = c')) by done. rewrite xorb_false_l. apply bool_decide_ext.
    rewrite (Hmem _). assert (blk g k c' <> blk g k c) by (intros ?%blk_inj; congruence). naive_solver.
Qed.

Lemma toggle_bits g k c l j i :
  grp_ok g -> (k < 8)%nat -> in_range g k c -> toggled g k c l -> (j < 7)%nat -> in_range g (S j) i ->
  Z.testbit (mapof (toggle k c l g) (S j)) i =
  xorb (bool_decide (blk g j (2 * i) ∈ listof (toggle k c l g) j))
       (bool_decide (blk g j (2 * i + 1) ∈ listof (toggle k c l g) j)).
Proof.
  intros Hok Hk Hr Hmem Hj Hi. rewrite mapof_flip_put by (try done; apply Hr || apply Hi).
  rewrite (go_bits _ Hok j i Hj Hi), listof_toggle by done.
  destruct (decide (k = j)) as [->|Hne].
  - rewrite (bool_decide_eq_true_2 (j = j)) by done. rewrite !(toggled_bit g j c l) by done.
    assert (c / 2 <> i \/ c = 2 * i \/ c = 2 * i + 1) as [Hc|[Hc|Hc]] by dlia.
    + rewrite bool_decide_eq_false_2 by naive_solver.
      rewrite (bool_decide_eq_false_2 (c = _)), (bool_decide_eq_false_2 (c = _)) by dlia. by rewrite !xorb_false_l.
    + rewrite bool_decide_eq_true_2 by (split_and!; [done|dlia|done]).
      rewrite (bool_decide_eq_true_2 (c = _)), (bool_decide_eq_false_2 (c = _)) by dlia.
      by rewrite xorb_false_l, xorb_assoc.
    + rewrite bool_decide_eq_true_2 by (split_and!; [done|dlia|done]).
      rewrite (bool_decide_eq_false_2 (c = 2 * i)), (bool_decide_eq_true_2 (c = _)) by dlia.
      by destruct (bool_decide _), (bool_decide _).
  - rewrite !bool_decide_eq_false_2 with (P := k = j) by done.
    rewrite bool_decide_eq_false_2 by naive_solver. by rewrite xorb_false_l.
Qed.

(** The blocks of the changed group are those of the old one, with one block
    more or one less. *)
Lemma toggle_ok g k c l :
  grp_ok g -> (k < 8)%nat -> in_range g k c -> NoDup l -> toggled g k c l ->
  (blk g k c ∈ l -> forall j b, b ∈ listof g j ->
     b < blk g k c + bsize k -> blk g k c < b + bsize j -> False) ->
  grp_ok (toggle k c l g).
Proof.
  intros Hok Hk Hr Hnd Hmem Hdis. pose proof (toggle_id k c l g) as (Ei & Eb & Ee).
  pose proof (length_toggle g k c l) as [El Em].
  split; rewrite ?El, ?Em, ?Ei, ?Eb, ?Ee; try by apply Hok.
  - intros j b Hj. rewrite in_range_toggle. by apply Hok.
  - intros j. rewrite listof_toggle by done. case_bool_decide; [done|]. by apply Hok.
  - intros j a. rewrite listof_toggle by done. setoid_rewrite in_range_toggle. setoid_rewrite blk_toggle.
    case_bool_decide as E; [|by apply Hok]. subst j. rewrite (Hmem a). intros [[_ Ha]|[-> _]]; [by apply Hok|eauto].
  - assert (Hin : forall j a, a ∈ listof (toggle k c l g) j ->
      a ∈ listof g j \/ (j = k /\ a = blk g k c /\ blk g k c ∈ l)).
    { intros j a. rewrite listof_toggle by done. case_bool_decide as E; [|auto]. subst j. rewrite (Hmem a).
      intros [[_ Ha]|[Ea Hn]]; [auto|]. right. split_and!; [done..|]. apply Hmem. auto. }
    intros j a j' a' Ha Ha' H1 H2.
    apply Hin in Ha as [Ha|(-> & -> & Hl)]; apply Hin in Ha' as [Ha'|(-> & -> & Hl')].
    + by apply (go_disj _ Hok).
    + destruct (Hdis Hl' _ _ Ha); lia.
    + destruct (Hdis Hl _ _ Ha'); lia.
    + done.
  - intros j i Hj. rewrite in_range_toggle, !blk_toggle. intros Hi. by apply toggle_bits.
Qed.

Lemma weight_insert k fl j l l' : fl !! j = Some l ->
  weight k (<[j := l']> fl) = weight k fl + 2 ^ Z.of_nat (k + j) * (Z.of_nat (length l') - Z.of_nat (length l)).
Proof.
  revert k j. induction fl as [|x fl IH]; intros k [|j] Hl; try done.
  - injection Hl as ->. change (<[0%nat := l']> (l :: fl)) with (l' :: fl). cbn [weight]. rewrite Nat.add_0_r. lia.
  - change (<[S j := l']> (x :: fl)) with (x :: <[j := l']> fl). cbn [weight].
    rewrite (IH (S k) j Hl). replace (S k + j)%nat with (k + S j)%nat by lia. lia.
Qed.

Lemma free_pages_toggle g k c l : grp_ok g -> (k < 8)%nat ->
  free_pages (toggle k c l g) =
  free_pages g + 2 ^ Z.of_nat k * (Z.of_nat (length l) - Z.of_nat (length (listof g k))).
Proof.
  intros Hok Hk. unfold free_pages, toggle. destruct (flip_id k c (put_list k l g)) as (-> & _).
  unfold put_list, g_freelist. cbn [pg_freelist]. rewrite (weight_insert 0 _ k (listof g k)) by (by apply lookup_listof).
  done.
Qed.

(** Removing block [c] of order [k]. *)
Lemma remove_ok g k c l :
  grp_ok g -> listof g k ≡ₚ blk g k c :: l ->
  grp_ok (toggle k c l g) /\
  (forall x, free_in (toggle k c l g) x <-> free_in g x /\ ~ in_block (blk g k c) k x) /\
  free_pages (toggle k c l g) = free_pages g - 2 ^ Z.of_nat k.
Proof.
  intros Hok Hp. assert (Ha : blk g k c ∈ listof g k) by (rewrite Hp; left).
  pose proof (listof_small _ _ _ Hok Ha) as Hk. pose proof (go_nodup _ Hok k) as Hnd.
  rewrite Hp in Hnd. apply NoDup_cons in Hnd as [Hni Hnd].
  assert (Hmem : toggled g k c l).
  { intros a. rewrite Hp. split.
    - intros Hl. left. split; [by intros ->|by right].
    - intros [[Hn Hl]|[_ Hn]]; [by apply elem_of_cons in Hl as [->|]|]. destruct Hn. by left. }
  destruct (go_block _ Hok _ _ Ha) as (c' & E%blk_inj & Hr). subst c'. split_and!.
  - by apply toggle_ok.
  - intros x. split.
    + intros (j & a & Hj & Hx). rewrite listof_toggle in Hj by done.
      assert (a ∈ listof g j /\ (j, a) <> (k, blk g k c)) as [Hj' Hne].
      { case_bool_decide; [|naive_solver]. subst j. apply Hmem in Hj. naive_solver. }
      split; [by exists j, a|]. intros Hx'. unfold in_block in *.
      destruct (go_disj _ Hok _ _ _ _ Hj' Ha); [lia..|congruence].
    + intros [(j & a & Hj & Hx) Hn]. exists j, a. split; [|done]. rewrite listof_toggle by done.
      case_bool_decide; [|done]. subst j. apply Hmem. left. split; [|done]. by intros ->.
  - rewrite free_pages_toggle by done. rewrite Hp. cbn [length]. lia.
Qed.

(** Adding block [c] of order [k], none of which is free. *)
Lemma add_ok g k c :
  grp_ok g -> (k < 8)%nat -> in_range g k c -> (forall x, in_block (blk g k c) k x -> ~ free_in g x) ->
  let g' := toggle k c (blk g k c :: listof g k) g in
  grp_ok g' /\ (forall x, free_in g' x <-> free_in g x \/ in_block (blk g k c) k x) /\
  free_pages g' = free_pages g + 2 ^ Z.of_nat k.
Proof.
  intros Hok Hk Hr Hfree g'. pose proof (bsize_pos k) as Hp.
  assert (Hni : blk g k c ∉ listof g k).
  { intros Ha. apply (Hfree (blk g k c)); [|exists k, (blk g k c)]; unfold in_block; split_and?; lia || done. }
  split_and!.
  - apply toggle_ok; [done..| | |].
    + apply NoDup_cons. split; [done|apply Hok].
    + intros a. rewrite elem_of_cons. destruct (decide (a = blk g k c)) as [->|]; naive_solver.
    + intros _ j b Hb H1 H2. pose proof (bsize_pos j). apply (Hfree (Z.max b (blk g k c))).
      * unfold in_block. lia.
      * exists j, b. split; [done|]. unfold in_block. lia.
  - intros x. split.
    + intros (j & a & Hj & Hx). unfold g' in Hj. rewrite listof_toggle in Hj by done.
      case_bool_decide; [|left; by exists j, a]. subst j. apply elem_of_cons in Hj as [->|Hj]; [auto|left; by exists k, a].
    + intros [(j & a & Hj & Hx)|Hx]; [exists j, a|exists k, (blk g k c)]; split; try done;
        unfold g'; rewrite listof_toggle by done; case_bool_decide; subst; try done; [by right|by left].
  - unfold g'. rewrite free_pages_toggle by done. cbn [length]. lia.
Qed.

(** Two changes of the same pair leave its bit. *)
Lemma toggle_twice g k c c' l l' : grp_ok g -> (k < 8)%nat -> c / 2 = c' / 2 ->
  toggle k c' l' (toggle k c l g) = put_list k l' g.
Proof.
  intros Hok Hk Hc. destruct g as [fl m nb b e]. unfold toggle, flip, put_list, g_freelist, g_map, mapof.
  destruct (Nat.ltb_spec k (PAGE_NSIZES - 1)) as [Hlt|]; cbn [pg_freelist pg_map pg_nbits pg_baseaddr pg_endaddr].
  - pose proof (go_maps _ Hok) as Hm. cbn in Hm. unfold PAGE_NSIZES in *.
    destruct (lookup_lt_is_Some_2 m (S k)) as [x Hx]; [lia|].
    rewrite list_lookup_insert_eq by lia. rewrite !list_insert_insert_eq, Hx. cbn [from_option id].
    rewrite Hc, Z.lxor_assoc, Z.lxor_nilpotent, Z.lxor_0_r. by rewrite (list_insert_id m).
  - by rewrite list_insert_insert_eq.
Qed.

(** *** Splitting and joining *)
Lemma block_halves g k c x :
  in_block (blk g (S k) c) (S k) x <-> in_block (blk g k (2 * c)) k x \/ in_block (blk g k (2 * c + 1)) k x.
Proof. unfold in_block, blk. rewrite bsize_S. lia. Qed.

Lemma blk_first g k c : blk g (S k) c = blk g k (2 * c).
Proof. unfold blk. rewrite bsize_S. lia. Qed.

Lemma in_range_halves g k c : in_range g (S k) c -> in_range g k (2 * c) /\ in_range g k (2 * c + 1).
Proof. unfold in_range. rewrite bsize_S. pose proof (bsize_pos k). intros []. split; split; nia. Qed.

Lemma halves_range g k c : in_range g k (2 * c) -> in_range g k (2 * c + 1) -> in_range g (S k) c.
Proof. unfold in_range. rewrite bsize_S. intros [] []. split; [lia|nia]. Qed.

Lemma blocks_apart g k c c' x : c <> c' -> in_block (blk g k c) k x -> ~ in_block (blk g k c') k x.
Proof. unfold in_block, blk. pose proof (bsize_pos k). intros. nia. Qed.

Definition split_group (k : nat) (c : Z) (l : list Z) (g : pagegroup) : pagegroup :=
  let g1 := toggle (S k) c l g in put_list k (blk g k (2 * c + 1) :: blk g k (2 * c) :: listof g1 k) g1.

Lemma listof_split g k c l j : grp_ok g -> (k < 7)%nat ->
  listof (split_group k c l g) j =
  if bool_decide (k = j) then blk g k (2 * c + 1) :: blk g k (2 * c) :: listof g k
  else if bool_decide (S k = j) then l else listof g j.
Proof.
  intros Hok Hk. unfold split_group. rewrite listof_put.
  - rewrite !listof_toggle by (done || lia). rewrite (bool_decide_eq_false_2 (S k = k)) by lia. done.
  - destruct (length_toggle g (S k) c l) as [-> _]. rewrite (go_lists _ Hok). unfold PAGE_NSIZES. lia.
Qed.

Lemma split_ok g k c l :
  grp_ok g -> (k < 7)%nat -> listof g (S k) = blk g (S k) c :: l ->
  let g' := split_group k c l g in
  grp_ok g' /\ (forall x, free_in g' x <-> free_in g x) /\ free_pages g' = free_pages g.
Proof.
  intros Hok Hk Hl g'.
  destruct (go_block _ Hok (S k) (blk g (S k) c)) as (c0 & E%blk_inj & Hr); [rewrite Hl; left|]. subst c0.
  destruct (remove_ok g (S k) c l Hok) as (Hok1 & Hf1 & Hn1); [by rewrite Hl|].
  set (g1 := toggle (S k) c l g) in *.
  assert (Eblk : forall j i, blk g1 j i = blk g j i) by (intros; apply blk_toggle).
  destruct (in_range_halves _ _ _ Hr) as [Hra Hrb].
  destruct (add_ok g1 k (2 * c)) as (Hok2 & Hf2 & Hn2);
    [done|lia|by apply in_range_toggle|intros x Hx; rewrite Eblk in Hx; rewrite Hf1, block_halves; tauto|].
  set (g2 := toggle k (2 * c) (blk g1 k (2 * c) :: listof g1 k) g1) in *.
  destruct (add_ok g2 k (2 * c + 1)) as (Hok3 & Hf3 & Hn3).
  { done. } { lia. } { by apply in_range_toggle, in_range_toggle. }
  { intros x Hx. unfold g2 in Hx. rewrite blk_toggle, Eblk in Hx. rewrite Hf2, Hf1, block_halves, Eblk.
    pose proof (blocks_apart g k (2 * c + 1) (2 * c) x). intuition lia. }
  assert (E : g' = toggle k (2 * c + 1) (blk g2 k (2 * c + 1) :: listof g2 k) g2).
  { unfold g2 at 3. rewrite toggle_twice by (done || lia || dlia). unfold g', split_group. fold g1.
    unfold g2. rewrite blk_toggle, !Eblk, listof_toggle by (done || lia). by rewrite bool_decide_eq_true_2. }
  rewrite <- E in Hok3, Hf3, Hn3. split_and!; [done| |].
  - intros x. rewrite Hf3, Hf2, Hf1. unfold g2. rewrite blk_toggle, !Eblk, block_halves.
    split; [|destruct (decide (in_block (blk g k (2 * c)) k x)), (decide (in_block (blk g k (2 * c + 1)) k x)); tauto].
    intros [[[H _]|H]|H]; [done| |]; exists (S k), (blk g (S k) c);
      (split; [rewrite Hl; left|apply block_halves; tauto]).
  - rewrite Hn3, Hn2, Hn1. rewrite Nat2Z.inj_succ, Z.pow_succ_r by lia. lia.
Qed.

Lemma split_tidy g k c l :
  grp_ok g -> (k < 7)%nat -> listof g (S k) = blk g (S k) c :: l ->
  tidy_but g (S k) (c / 2) -> tidy_but (split_group k c l g) k c.
Proof.
  intros Hok Hk Hl Ht k' i' Hk' Hne. assert (Eblk : forall j i, blk (split_group k c l g) j i = blk g j i).
  { intros. unfold split_group. unfold blk. destruct (toggle_id (S k) c l g) as (_ & E & _). cbn. by rewrite E. }
  rewrite listof_split, !Eblk by done. case_bool_decide as E1; [|case_bool_decide as E2].
  - subst k'. rewrite !elem_of_cons. intros [H1 H2]. apply (Ht k i'); [done|naive_solver lia|].
    assert (i' <> c) by congruence.
    split; [destruct H1 as [H1%blk_inj|[H1%blk_inj|]]|destruct H2 as [H2%blk_inj|[H2%blk_inj|]]]; (done || lia).
  - subst k'. intros [H1 H2]. pose proof (go_nodup _ Hok (S k)) as Hnd. rewrite Hl in Hnd.
    apply NoDup_cons in Hnd as [Hni _]. destruct (decide (i' = c / 2)) as [->|Hi].
    + assert (c = 2 * (c / 2) \/ c = 2 * (c / 2) + 1) as [E|E] by dlia; rewrite <- E in *; done.
    + apply (Ht (S k) i'); [done|congruence|]. rewrite Hl. split; by right.
  - intros [H1 H2]. apply (Ht k' i'); [done|congruence|done].
Qed.

Definition join_group (k : nat) (i : Z) (l : list Z) (g : pagegroup) : pagegroup :=
  let g1 := put_list k l g in toggle (S k) i (blk g (S k) i :: listof g1 (S k)) g1.

Lemma drop_pair_ok g k i l :
  grp_ok g -> listof g k ≡ₚ blk g k (2 * i) :: blk g k (2 * i + 1) :: l ->
  grp_ok (put_list k l g) /\
  (forall x, free_in (put_list k l g) x <->
     free_in g x /\ ~ in_block (blk g k (2 * i)) k x /\ ~ in_block (blk g k (2 * i + 1)) k x) /\
  free_pages (put_list k l g) = free_pages g - 2 * 2 ^ Z.of_nat k.
Proof.
  intros Hok Hp. assert (Hk : (k < 8)%nat).
  { apply (listof_small g k (blk g k (2 * i))); [done|]. rewrite Hp. left. }
  destruct (remove_ok g k (2 * i) _ Hok Hp) as (Hok1 & Hf1 & Hn1).
  set (l1 := blk g k (2 * i + 1) :: l) in *. set (g1 := toggle k (2 * i) l1 g) in *.
  destruct (remove_ok g1 k (2 * i + 1) l Hok1) as (Hok2 & Hf2 & Hn2).
  { unfold g1. rewrite listof_toggle, blk_toggle by done. by rewrite bool_decide_eq_true_2. }
  unfold g1 in Hok2, Hf2, Hn2. rewrite toggle_twice in Hok2, Hf2, Hn2 by (done || dlia). split_and!; [done| |].
  - intros x. rewrite Hf2. fold g1. rewrite Hf1. unfold g1. rewrite blk_toggle. tauto.
  - rewrite Hn2. fold g1. lia.
Qed.

Lemma join_ok g k i l :
  grp_ok g -> (k < 7)%nat -> listof g k ≡ₚ blk g k (2 * i) :: blk g k (2 * i + 1) :: l ->
  let g' := join_group k i l g in
  grp_ok g' /\ (forall x, free_in g' x <-> free_in g x) /\ free_pages g' = free_pages g.
Proof.
  intros Hok Hk Hp g'.
  assert (Hab : blk g k (2 * i) ∈ listof g k /\ blk g k (2 * i + 1) ∈ listof g k).
  { rewrite Hp. split; [left|right; left]. }
  destruct Hab as [Ha Hb].
  destruct (go_block _ Hok _ _ Ha) as (? & <-%blk_inj & Hra).
  destruct (go_block _ Hok _ _ Hb) as (? & <-%blk_inj & Hrb).
  destruct (drop_pair_ok g k i l Hok Hp) as (Hok1 & Hf1 & Hn1).
  destruct (add_ok (put_list k l g) (S k) i) as (Hok2 & Hf2 & Hn2).
  { done. } { lia. } { by apply (halves_range g). }
  { intros x Hx. rewrite Hf1. apply (block_halves g) in Hx. tauto. }
  split_and!; [done| |].
  - intros x. unfold g', join_group. rewrite Hf2, Hf1. change (blk (put_list k l g)) with (blk g).
    rewrite block_halves. split.
    + intros [[H _]|[H|H]]; [done|exists k, (blk g k (2 * i))|exists k, (blk g k (2 * i + 1))]; done.
    + destruct (decide (in_block (blk g k (2 * i)) k x)), (decide (in_block (blk g k (2 * i + 1)) k x)); tauto.
  - unfold g', join_group. change (blk g (S k) i) with (blk (put_list k l g) (S k) i). rewrite Hn2, Hn1, Nat2Z.inj_succ, Z.pow_succ_r by lia. lia.
Qed.

Lemma listof_join g k i l j : grp_ok g -> (k < 7)%nat ->
  listof (join_group k i l g) j =
  if bool_decide (k = j) then l else if bool_decide (S k = j) then blk g (S k) i :: listof g (S k) else listof g j.
Proof.
  intros Hok Hk. unfold join_group, toggle. rewrite listof_flip.
  pose proof (go_lists _ Hok) as Hl. unfold PAGE_NSIZES in Hl.
  rewrite listof_put, listof_put by (cbn; rewrite ?length_insert, Hl; lia).
  rewrite (bool_decide_eq_false_2 (k = S k)) by lia.
  rewrite listof_put by lia. destruct (decide (S k = j)) as [<-|].
  - rewrite bool_decide_eq_true_2 by done. by rewrite (bool_decide_eq_false_2 (k = S k)) by lia.
  - by rewrite (bool_decide_eq_false_2 (S k = j)) by done.
Qed.

Lemma join_tidy g k i l :
  grp_ok g -> (k < 7)%nat -> listof g k ≡ₚ blk g k (2 * i) :: blk g k (2 * i + 1) :: l ->
  tidy_but g k i -> tidy_but (join_group k i l g) (S k) (i / 2).
Proof.
  intros Hok Hk Hp Ht k' i' Hk' Hne. rewrite listof_join by done.
  assert (Eblk : forall j c, blk (join_group k i l g) j c = blk g j c) by (intros; exact (blk_toggle (put_list k l g) _ _ _ _ _)).
  rewrite !Eblk. case_bool_decide as E1; [|case_bool_decide as E2].
  - subst k'. intros [H1 H2]. destruct (decide (i' = i)) as [->|].
    + pose proof (go_nodup _ Hok k) as Hnd. rewrite Hp in Hnd. apply NoDup_cons in Hnd as [Hni _].
      apply Hni. by right.
    + apply (Ht k i'); [done|congruence|]. rewrite Hp. split; by do 2 right.
  - subst k'. rewrite !elem_of_cons. intros [H1 H2]. assert (i' <> i / 2) by congruence.
    apply (Ht (S k) i'); [done|naive_solver lia|].
    split; [destruct H1 as [H1%blk_inj|]|destruct H2 as [H2%blk_inj|]]; (done || dlia).
  - intros [H1 H2]. apply (Ht k' i'); [done|congruence|done].
Qed.

(** ** Running the code on one group *)

(** The state with group [i] replaced. *)
Definition st (i : nat) (g : pagegroup) (s : pstate) : pstate := upd_groups <[i := g]> s.

(** What the address computations need of a group. *)
Definition placed (g : pagegroup) : Prop :=
  0 <= pg_baseaddr g /\ pg_baseaddr g mod PAGE_SIZE = 0 /\ pg_endaddr g < 2 ^ 32.

Lemma grp_placed g : grp_ok g -> placed g.
Proof. intros []. unfold placed. tauto. Qed.

Lemma blk_bounds g k c : placed g -> in_range g k c ->
  pg_baseaddr g <= blk g k c /\ blk g k c + bsize k <= pg_endaddr g /\ 0 <= blk g k c < 2 ^ 32 /\
  u32 (blk g k c - pg_baseaddr g) = c * bsize k.
Proof.
  intros (H0 & _ & He) [Hc Hr]. unfold blk. pose proof (bsize_pos k). rewrite u32_small by nia. nia.
Qed.

Lemma mul_land a k j : (k <= j)%nat -> (j <= k + 12)%nat -> Z.land (a * bsize k) (2 ^ Z.of_nat j - 1) = 0.
Proof.
  intros Hk Hj. replace (2 ^ Z.of_nat j - 1) with (Z.ones (Z.of_nat j)) by (rewrite Z.ones_equiv; lia).
  rewrite Z.land_ones by lia. apply Z.mod_divide; [lia|]. apply Z.divide_mul_r.
  exists (2 ^ (12 + Z.of_nat k - Z.of_nat j)). unfold bsize. rewrite <- Z.pow_add_r by lia. f_equal. lia.
Qed.

Lemma blk_aligned g k c : placed g -> PAGE_ALIGNED (blk g k c) = true.
Proof.
  intros (_ & Hb & _). unfold PAGE_ALIGNED, blk. apply Z.eqb_eq. rewrite bsize_pages, Z.mul_assoc.
  rewrite Z.mod_add by (unfold PAGE_SIZE, PAGE_SHIFT; lia). done.
Qed.

Section Run.
Context (i : nat) (s : pstate) (Hi : (i < length (pagegroup_list s))%nat).

Lemma get_group_run g : get_group i (st i g s) = Done g (st i g s).
Proof using Hi.
  unfold get_group, st, upd_groups. cbn [pagegroup_list]. by rewrite list_lookup_insert_eq by done.
Qed.

Lemma set_group_run f g : set_group i f (st i g s) = Done tt (st i (f g) s).
Proof using Hi.
  unfold set_group. krun (get_group_run g). unfold modify, st, upd_groups. cbn [pagegroup_list].
  by rewrite list_insert_insert_eq.
Qed.

Lemma freelist_run g k l : pg_freelist g !! k = Some l -> freelist i k (st i g s) = Done l (st i g s).
Proof using Hi. intros E. unfold freelist. krun (get_group_run g). by rewrite E. Qed.

Lemma push_run g k l a : pg_freelist g !! k = Some l -> push i k a (st i g s) = Done tt (st i (put_list k (a :: l) g) s).
Proof using Hi.
  intros E. unfold push. krun (freelist_run g k l E). unfold set_freelist. by rewrite set_group_run.
Qed.

Lemma index_run g j k c : placed g -> in_range g k c -> (k <= j < 8)%nat ->
  _pagegroup_calculate_index i j (blk g k c) (st i g s) = Done (c * bsize k / bsize j) (st i g s).
Proof using Hi.
  intros Hg Hr [Hkj Hj]. destruct (blk_bounds g k c Hg Hr) as (H1 & H2 & _ & E). pose proof (bsize_pos k).
  unfold _pagegroup_calculate_index. rewrite (blk_aligned g k c Hg).
  replace (Nat.ltb j PAGE_NSIZES) with true by (symmetry; apply Nat.ltb_lt; unfold PAGE_NSIZES; lia).
  do 2 (erewrite bind_done by reflexivity). krun (get_group_run g).
  rewrite (proj2 (Z.leb_le _ _) H1), (proj2 (Z.ltb_lt _ _)) by lia. cbn [andb].
  erewrite bind_done by reflexivity. rewrite E, mul_land by lia. erewrite bind_done by reflexivity.
  unfold ret. f_equal. rewrite Z.shiftr_shiftr, Z.shiftr_div_pow2 by (unfold PAGE_SHIFT; lia).
  unfold bsize, PAGE_SHIFT. do 2 f_equal. lia.
Qed.

Lemma index_up g k c : placed g -> in_range g k c -> (k < 7)%nat ->
  _pagegroup_calculate_index i (S k) (blk g k c) (st i g s) = Done (c / 2) (st i g s).
Proof using Hi.
  intros Hg Hr Hk. rewrite index_run by (done || lia). f_equal. rewrite bsize_S.
  pose proof (bsize_pos k). apply Z.div_mul_cancel_r; lia.
Qed.

Lemma index_same g k c : placed g -> in_range g k c -> (k < 8)%nat ->
  _pagegroup_calculate_index i k (blk g k c) (st i g s) = Done c (st i g s).
Proof using Hi.
  intros Hg Hr Hk. rewrite index_run by (done || lia). f_equal. apply Z.div_mul. pose proof (bsize_pos k). lia.
Qed.

Lemma bit_check_run g k c : grp_ok g -> (k < 7)%nat -> in_range g (S k) c ->
  bit_check i (S k) c (st i g s) = Done (Z.testbit (mapof g (S k)) c) (st i g s).
Proof using Hi.
  intros Hok Hk Hr. destruct (go_nbits _ Hok k c Hk Hr) as (n & En & Hn).
  unfold bit_check. krun (get_group_run g). unfold mapof.
  destruct (lookup_lt_is_Some_2 (pg_map g) (S k)) as [m Em]; [rewrite (go_maps _ Hok); unfold PAGE_NSIZES; lia|].
  rewrite Em, En. do 2 (erewrite bind_done by reflexivity).
  destruct Hr. by rewrite (proj2 (Z.leb_le _ _)), (proj2 (Z.ltb_lt _ _)) by lia.
Qed.

(** After a change of the list of order [k], the bit of the pair follows. *)
Lemma flip_run g k c l : grp_ok g -> (k < 7)%nat -> in_range g k c ->
  (let* index := _pagegroup_calculate_index i (S k) (blk g k c) in bit_flip i (S k) index) (st i (put_list k l g) s) =
  Done tt (st i (toggle k c l g) s).
Proof using Hi.
  intros Hok Hk Hr. assert (Hx : _pagegroup_calculate_index i (S k) (blk g k c) (st i (put_list k l g) s) =
    Done (c / 2) (st i (put_list k l g) s)) by (apply (index_up (put_list k l g)); [by apply (grp_placed g)|done..]).
  krun Hx. clear Hx. destruct (half_range _ _ _ Hok Hk Hr) as [H0 H1].
  destruct (go_nbits _ Hok k (c / 2) Hk (conj H0 H1)) as (n & En & Hn).
  unfold bit_flip. krun (get_group_run (put_list k l g)). unfold toggle, flip.
  destruct (lookup_lt_is_Some_2 (pg_map g) (S k)) as [m Em]; [rewrite (go_maps _ Hok); unfold PAGE_NSIZES; lia|].
  cbn [put_list g_freelist pg_map pg_nbits]. rewrite Em, En. do 2 (erewrite bind_done by reflexivity).
  rewrite (proj2 (Z.leb_le _ _)), (proj2 (Z.ltb_lt _ _)) by lia. cbn [andb]. rewrite set_group_run.
  replace (Nat.ltb k (PAGE_NSIZES - 1)) with true by (symmetry; apply Nat.ltb_lt; unfold PAGE_NSIZES; lia).
  unfold mapof. cbn [put_list g_freelist pg_map]. by rewrite Em.
Qed.

Lemma flip_top_run g k c l : grp_ok g -> (k < 8)%nat -> in_range g k c ->
  (if Nat.ltb k (PAGE_NSIZES - 1) then
     let* index := _pagegroup_calculate_index i (S k) (blk g k c) in bit_flip i (S k) index
   else ret tt) (st i (put_list k l g) s) = Done tt (st i (toggle k c l g) s).
Proof using Hi.
  intros Hok Hk Hr. destruct (Nat.ltb_spec k (PAGE_NSIZES - 1)) as [Hlt|Hge].
  - apply flip_run; done.
  - unfold toggle, flip. destruct (Nat.ltb_spec k (PAGE_NSIZES - 1)); [lia|done].
Qed.
End Run.

(** ** Splitting *)
Lemma split_bit g k c l : grp_ok g -> (k < 7)%nat -> listof g (S k) = blk g (S k) c :: l ->
  Z.testbit (mapof (toggle (S k) c l g) (S k)) c = false.
Proof.
  intros Hok Hk Hl. assert (Ha : blk g (S k) c ∈ listof g (S k)) by (rewrite Hl; left).
  destruct (go_block _ Hok _ _ Ha) as (? & <-%blk_inj & Hr).
  destruct (remove_ok g (S k) c l Hok) as (Hok1 & _ & _); [by rewrite Hl|].
  rewrite (go_bits _ Hok1 k c Hk) by (by apply in_range_toggle). rewrite !blk_toggle, listof_toggle by (done || lia).
  rewrite (bool_decide_eq_false_2 (S k = k)) by lia. pose proof (bsize_pos k).
  assert (Hno : forall c', c' / 2 = c -> blk g k c' ∉ listof g k).
  { intros c' Hc' Hin. destruct (go_disj _ Hok _ _ _ _ Hin Ha); [| |lia]; rewrite ?bsize_S; unfold blk;
      rewrite ?bsize_S; (assert (c' = 2 * c \/ c' = 2 * c + 1) as [->| ->] by dlia); lia. }
  by rewrite !bool_decide_eq_false_2 by (apply Hno; dlia).
Qed.

Lemma page_split_run i s g k c l : (i < length (pagegroup_list s))%nat ->
  grp_ok g -> (k < 7)%nat -> listof g (S k) = blk g (S k) c :: l ->
  __page_split i (S k) (st i g s) = Done tt (st i (split_group k c l g) s).
Proof.
  intros Hi Hok Hk Hl. assert (Ha : blk g (S k) c ∈ listof g (S k)) by (rewrite Hl; left).
  destruct (go_block _ Hok _ _ Ha) as (? & <-%blk_inj & Hr).
  destruct (remove_ok g (S k) c l Hok) as (Hok1 & _ & _); [by rewrite Hl|].
  assert (Hp : placed (toggle (S k) c l g)) by (by apply grp_placed).
  assert (Hr1 : in_range (toggle (S k) c l g) (S k) c) by (by apply in_range_toggle).
  unfold __page_split. erewrite bind_done by (apply kassert_true; by apply Nat.ltb_lt; lia).
  erewrite bind_done by (apply kassert_true; apply Nat.ltb_lt; unfold PAGE_NSIZES; lia).
  krun (freelist_run i s Hi g (S k) _ (lookup_listof g (S k) Hok ltac:(lia))). rewrite Hl.
  erewrite bind_done by (by apply kassert_true, bool_decide_eq_true_2).
  erewrite bind_done by reflexivity. cbn [tail].
  unfold set_freelist. krun (set_group_run i s Hi (g_freelist <[S k := l]>) g).
  krun (flip_top_run i s Hi g (S k) c l Hok ltac:(lia) Hr).
  pose proof (index_same i s Hi _ (S k) c Hp Hr1 ltac:(lia)) as Hx. rewrite blk_toggle in Hx. krun Hx. clear Hx.
  krun (bit_check_run i s Hi _ k c Hok1 Hk Hr1). rewrite split_bit by done.
  erewrite bind_done by (by apply kassert_true).
  replace (S k - 1)%nat with k by lia. replace (Z.of_nat (S k) - 1) with (Z.of_nat k) by lia.
  rewrite <- bsize_pages, blk_first.
  destruct (in_range_halves _ _ _ Hr) as [_ Hrb].
  replace (blk g k (2 * c) + bsize k) with (blk g k (2 * c + 1)) by (unfold blk; lia).
  rewrite u32_small by (by apply (blk_bounds g k (2 * c + 1)), Hrb; apply grp_placed).
  pose proof (lookup_listof (toggle (S k) c l g) k Hok1 ltac:(lia)) as Hlk.
  krun (push_run i s Hi _ k _ (blk g k (2 * c)) Hlk).
  rewrite (push_run i s Hi _ k (blk g k (2 * c) :: listof (toggle (S k) c l g) k)).
  - unfold split_group, put_list, g_freelist. cbn [pg_freelist pg_map pg_nbits pg_baseaddr pg_endaddr].
    by rewrite list_insert_insert_eq.
  - unfold put_list, g_freelist. cbn [pg_freelist]. apply list_lookup_insert_eq.
    rewrite (go_lists _ Hok1). unfold PAGE_NSIZES. lia.
Qed.

(** What splitting and joining leave alone. *)
Record same_free (g g' : pagegroup) : Prop := SameFree {
  sf_free x : free_in g' x <-> free_in g x;
  sf_pages : free_pages g' = free_pages g;
  sf_base : pg_baseaddr g' = pg_baseaddr g;
  sf_end : pg_endaddr g' = pg_endaddr g
}.

#[export] Instance same_free_pre : PreOrder same_free.
Proof.
  split; [by intros g; split|]. intros g h k [H1 H2 H3 H4] [I1 I2 I3 I4].
  split; [intros x; by rewrite I1, H1|congruence..].
Qed.

Lemma split_same g k c l : grp_ok g -> (k < 7)%nat -> listof g (S k) = blk g (S k) c :: l ->
  same_free g (split_group k c l g).
Proof.
  intros Hok Hk Hl. destruct (split_ok g k c l Hok Hk Hl) as (_ & Hf & Hn).
  destruct (toggle_id (S k) c l g) as (_ & Hb & He). by split.
Qed.

Lemma split_down_run i s k n : (i < length (pagegroup_list s))%nat -> (k + n < 8)%nat ->
  forall g c l, grp_ok g -> listof g (k + n) = blk g (k + n) c :: l -> tidy_but g (k + n) (c / 2) ->
  exists g' c' l', split_down i k n (st i g s) = Done tt (st i g' s) /\ grp_ok g' /\ same_free g g' /\
    listof g' k = blk g' k c' :: l' /\ tidy_but g' k (c' / 2).
Proof.
  intros Hi. revert k. induction n as [|n IH]; intros k Hk g c l Hok Hl Ht.
  - rewrite Nat.add_0_r in *. exists g, c, l. split_and!; done.
  - cbn [split_down]. rewrite Nat.add_succ_r in *. pose proof (split_ok g (k + n) c l Hok ltac:(lia) Hl) as (Hok' & _).
    pose proof (split_same g (k + n) c l Hok ltac:(lia) Hl) as Hs.
    destruct (IH k ltac:(lia) (split_group (k + n) c l g) (2 * c + 1) (blk g (k + n) (2 * c) :: listof g (k + n)))
      as (g' & c' & l' & Hrun & Hok2 & Hs2 & Hl2 & Ht2).
    + done.
    + rewrite listof_split, bool_decide_eq_true_2 by (done || lia). f_equal. unfold blk. by rewrite (sf_base _ _ Hs).
    + replace ((2 * c + 1) / 2) with c by dlia. by apply split_tidy; [|lia|..].
    + exists g', c', l'. split_and!; try done; [|by etrans].
      by krun (page_split_run i s g (k + n) c l Hi Hok ltac:(lia) Hl).
Qed.

(** ** From a group to the allocator *)
Lemma free_range g x : grp_ok g -> free_in g x -> pg_baseaddr g <= x < pg_endaddr g.
Proof.
  intros Hok (k & a & Ha & Hx). destruct (go_block _ Hok _ _ Ha) as (c & -> & Hr).
  destruct (blk_bounds g k c (grp_placed _ Hok) Hr) as (? & ? & _). unfold in_block in Hx. lia.
Qed.

Lemma total_insert (gs : list pagegroup) i g g' : gs !! i = Some g ->
  foldr (fun g n => free_pages g + n) 0 (<[i := g']> gs) =
  foldr (fun g n => free_pages g + n) 0 gs + (free_pages g' - free_pages g).
Proof.
  revert i. induction gs as [|h gs IH]; intros [|i] Hg; try done.
  - injection Hg as ->. change (<[0%nat := g']> (g :: gs)) with (g' :: gs). cbn [foldr]. lia.
  - change (<[S i := g']> (h :: gs)) with (h :: <[i := g']> gs). cbn [foldr]. rewrite (IH i Hg). lia.
Qed.

Lemma pages_upd s i g g' f : pages_ok s -> pagegroup_list s !! i = Some g ->
  grp_ok g' -> tidy g' -> pg_baseaddr g' = pg_baseaddr g -> pg_endaddr g' = pg_endaddr g ->
  (forall n, f n = u32 (n + (free_pages g' - free_pages g))) ->
  pages_ok (upd_count f (st i g' s)).
Proof.
  intros Hs Hg Hok Ht Eb Ee Hf. pose proof (lookup_lt_Some _ _ _ Hg) as Hi. split.
  - intros j h Hj. apply list_lookup_insert_Some in Hj as [(<- & <- & _)|[_ Hj]]; [done|]. by apply (po_groups _ Hs j).
  - intros j1 j2 h1 h2 H1 H2 Hne.
    apply list_lookup_insert_Some in H1 as [(<- & <- & _)|[Hn1 H1]];
      apply list_lookup_insert_Some in H2 as [(<- & <- & _)|[Hn2 H2]]; rewrite ?Eb, ?Ee; [done| | |];
      by eapply (po_apart _ Hs); [..|done].
  - change (f (page_freecount s) = u32 (foldr (fun g n => free_pages g + n) 0 (<[i := g']> (pagegroup_list s)))).
    rewrite Hf, (po_count _ Hs), (total_insert _ _ _ _ Hg). unfold u32.
    by rewrite Zplus_mod_idemp_l.
Qed.

Lemma free_at_st s i g g' x : pages_ok s -> pagegroup_list s !! i = Some g ->
  free_at (st i g' s) x <-> free_in g' x \/ (free_at s x /\ ~ (pg_baseaddr g <= x < pg_endaddr g)).
Proof.
  intros Hs Hg. pose proof (lookup_lt_Some _ _ _ Hg) as Hi. unfold free_at. cbn [st upd_groups pagegroup_list]. split.
  - intros (h & Hh & Hx). apply list_elem_of_lookup in Hh as [j Hj].
    apply list_lookup_insert_Some in Hj as [(<- & <- & _)|[Hn Hj]]; [auto|]. right.
    pose proof (free_range _ _ (proj1 (po_groups _ Hs _ _ Hj)) Hx).
    destruct (po_apart _ Hs _ _ _ _ Hg Hj Hn); (split; [exists h; split; [by eapply list_elem_of_lookup_2|done]|lia]).
  - intros [Hx|[(h & Hh & Hx) Hn]].
    + exists g'. split; [|done]. eapply list_elem_of_lookup_2. by apply list_lookup_insert_eq.
    + apply list_elem_of_lookup in Hh as [j Hj]. exists h. split; [|done].
      destruct (decide (i = j)) as [<-|Hij].
      * simplify_eq. destruct Hn. eapply free_range; [|done]. by apply (po_groups _ Hs i).
      * eapply list_elem_of_lookup_2. by rewrite list_lookup_insert_ne.
Qed.

Lemma free_at_in s i g x : pages_ok s -> pagegroup_list s !! i = Some g ->
  pg_baseaddr g <= x < pg_endaddr g -> free_at s x <-> free_in g x.
Proof.
  intros Hs Hg Hx. split; [|intros; exists g; split; [by eapply list_elem_of_lookup_2|done]].
  intros (h & Hh & Hf). apply list_elem_of_lookup in Hh as [j Hj]. destruct (decide (i = j)) as [<-|Hij]; [by simplify_eq|].
  pose proof (free_range _ _ (proj1 (po_groups _ Hs _ _ Hj)) Hf). destruct (po_apart _ Hs _ _ _ _ Hg Hj Hij); lia.
Qed.

(** The places of the groups, which never change. *)
Definition geo (s : pstate) : list (Z * Z) := (fun g => (pg_baseaddr g, pg_endaddr g)) <$> pagegroup_list s.

Lemma geo_st s i g g' f : pagegroup_list s !! i = Some g ->
  pg_baseaddr g' = pg_baseaddr g -> pg_endaddr g' = pg_endaddr g -> geo (upd_count f (st i g' s)) = geo s.
Proof.
  intros Hg Eb Ee. unfold geo, st. cbn [upd_count upd_groups pagegroup_list]. rewrite list_fmap_insert.
  apply list_insert_id. by rewrite list_lookup_fmap, Hg, Eb, Ee.
Qed.

(** A block of order [k] in use at [a]. *)
Definition allocated (s : pstate) (a : Z) (k : nat) : Prop :=
  exists i g c, pagegroup_list s !! i = Some g /\ a = blk g k c /\ in_range g k c /\
    forall x, in_block a k x -> ~ free_at s x.

Lemma allocated_geo s s' a k : geo s' = geo s -> (forall x, in_block a k x -> free_at s' x -> free_at s x) ->
  allocated s a k -> allocated s' a k.
Proof.
  intros Hgeo Hf (i & g & c & Hg & -> & Hr & Hx).
  assert (Hl : geo s' !! i = Some (pg_baseaddr g, pg_endaddr g)) by (rewrite Hgeo; unfold geo; by rewrite list_lookup_fmap, Hg).
  unfold geo in Hl. rewrite list_lookup_fmap in Hl. destruct (pagegroup_list s' !! i) as [g'|] eqn:Hg'; [|done].
  injection Hl as Eb Ee. exists i, g', c. unfold blk, in_range in *. rewrite Eb, Ee. split_and!; try done; [apply Hr..|].
  intros x Hin Hfr. apply (Hx x Hin). by apply Hf.
Qed.

Lemma allocated_bounds s a k : pages_ok s -> allocated s a k -> 0 <= a /\ a + bsize k < 2 ^ 32.
Proof.
  intros Hs (i & g & c & Hg & -> & Hr & _). destruct (po_groups _ Hs _ _ Hg) as [Hok _].
  destruct (grp_placed _ Hok) as (H0 & _ & He). destruct Hr as [Hc Hr]. pose proof (bsize_pos k). unfold blk. nia.
Qed.

(** ** Allocation *)
Lemma first_group_some k n gs i : first_group k n gs = Some i ->
  (n <= i)%nat /\ exists g a l, gs !! (i - n)%nat = Some g /\ pg_freelist g !! k = Some (a :: l).
Proof.
  revert n. induction gs as [|g gs IH]; intros n; cbn; [done|].
  destruct (pg_freelist g !! k) as [[|a l]|] eqn:E; intros H;
    [destruct (IH _ H) as (? & h & b & m & Hg & Hm)|injection H as <-|destruct (IH _ H) as (? & h & b & m & Hg & Hm)].
  - split; [lia|]. exists h, b, m. split; [|done]. by replace (i - n)%nat with (S (i - S n)) by lia.
  - split; [lia|]. exists g, a, l. by rewrite Nat.sub_diag.
  - split; [lia|]. exists h, b, m. split; [|done]. by replace (i - n)%nat with (S (i - S n)) by lia.
Qed.

Lemma first_group_none k n gs : first_group k n gs = None -> forall g, g ∈ gs -> listof g k = [].
Proof.
  revert n. induction gs as [|g gs IH]; intros n H h Hh; [by apply elem_of_nil in Hh|]. cbn in H.
  apply elem_of_cons in Hh as [->|Hh].
  - unfold listof. destruct (pg_freelist g !! k) as [[|]|]; done.
  - destruct (pg_freelist g !! k) as [[|]|]; [by eapply IH|done|by eapply IH].
Qed.

Lemma first_order_some ks gs k i : first_order ks gs = Some (k, i) -> k ∈ ks /\ first_group k 0 gs = Some i.
Proof.
  induction ks as [|j ks IH]; cbn; [done|]. destruct (first_group j 0 gs) eqn:E; intros H; simplify_eq.
  - split; [left|done].
  - destruct (IH H). split; [by right|done].
Qed.

Lemma first_order_none ks gs k : first_order ks gs = None -> k ∈ ks -> forall g, g ∈ gs -> listof g k = [].
Proof.
  induction ks as [|j ks IH]; cbn; intros H Hk; [by apply elem_of_nil in Hk|].
  destruct (first_group j 0 gs) eqn:E; [done|]. apply elem_of_cons in Hk as [->|Hk]; [by eapply first_group_none|auto].
Qed.

Lemma remove_tidy g k c l : grp_ok g -> listof g k ≡ₚ blk g k c :: l -> tidy_but g k (c / 2) -> tidy (toggle k c l g).
Proof.
  intros Hok Hp Ht k' i' Hk'. assert (Ha : blk g k c ∈ listof g k) by (rewrite Hp; left).
  rewrite listof_toggle, !blk_toggle by (done || by eapply listof_small).
  pose proof (go_nodup _ Hok k) as Hnd. rewrite Hp in Hnd. apply NoDup_cons in Hnd as [Hni _].
  case_bool_decide as E; [subst k'|]; intros [H1 H2].
  - destruct (decide (i' = c / 2)) as [->|Hi].
    + assert (c = 2 * (c / 2) \/ c = 2 * (c / 2) + 1) as [E|E] by dlia; rewrite <- E in *; done.
    + apply (Ht k i'); [done|congruence|]. rewrite Hp. split; by right.
  - apply (Ht k' i'); [done|congruence|done].
Qed.

Lemma tidy_tidy_but g k i : tidy g -> tidy_but g k i.
Proof. intros Ht k' i' Hk' _. by apply Ht. Qed.

Lemma allocated_st s i g g' k c f : pages_ok s -> pagegroup_list s !! i = Some g ->
  pg_baseaddr g' = pg_baseaddr g -> pg_endaddr g' = pg_endaddr g -> placed g -> in_range g k c ->
  (forall x, in_block (blk g k c) k x -> ~ free_in g' x) ->
  allocated (upd_count f (st i g' s)) (blk g k c) k.
Proof.
  intros Hs Hg Eb Ee Hp Hr Hx. exists i, g', c. pose proof (lookup_lt_Some _ _ _ Hg).
  split_and!; [by apply list_lookup_insert_eq|unfold blk; by rewrite Eb|unfold in_range in *; by rewrite Eb, Ee|].
  intros x Hb. change (~ free_at (st i g' s) x). rewrite free_at_st by done.
  destruct (blk_bounds g k c Hp Hr) as (? & ? & _). intros [Hq|[_ Hq]]; [by eapply Hx|]. unfold in_block in Hb. lia.
Qed.

(** What a successful allocation of a block of order [k] at [a] does. *)
Record took (s : pstate) (k : nat) (a : Z) (s' : pstate) : Prop := Took {
  tk_ok : pages_ok s';
  tk_owned : allocated s' a k;
  tk_geo : geo s' = geo s;
  tk_was x : in_block a k x -> free_at s x;
  tk_free x : free_at s' x <-> free_at s x /\ ~ in_block a k x;
  tk_count : page_freecount s' = u32 (page_freecount s - 2 ^ Z.of_nat k)
}.

(** [g] is group [i], perhaps after splits; its first free block of order [k]
    is taken. *)
Lemma take_took s i g0 g k c l :
  pages_ok s -> pagegroup_list s !! i = Some g0 -> same_free g0 g -> grp_ok g ->
  listof g k = blk g k c :: l -> tidy_but g k (c / 2) ->
  took s k (blk g k c) (upd_count (fun n => u32 (n - 2 ^ Z.of_nat k)) (st i (toggle k c l g) s)).
Proof.
  intros Hs Hg0 Hsame Hok Hl Ht. assert (Hp : listof g k ≡ₚ blk g k c :: l) by (by rewrite Hl).
  destruct (remove_ok g k c l Hok Hp) as (Hok' & Hf & Hn). pose proof (remove_tidy g k c l Hok Hp Ht) as Ht'.
  destruct (toggle_id k c l g) as (_ & Eb & Ee).
  assert (Ha : blk g k c ∈ listof g k) by (rewrite Hl; left).
  destruct (go_block _ Hok _ _ Ha) as (? & <-%blk_inj & Hr).
  destruct (blk_bounds g k c (grp_placed _ Hok) Hr) as (B1 & B2 & _).
  assert (Hgx : forall x, in_block (blk g k c) k x -> free_in g x) by (intros x Hx; by exists k, (blk g k c)).
  assert (Hin : forall x, in_block (blk g k c) k x -> pg_baseaddr g0 <= x < pg_endaddr g0).
  { unfold in_block. intros x Hx. rewrite <- (sf_base _ _ Hsame), <- (sf_end _ _ Hsame). lia. }
  assert (Eblk : blk g k c = blk g0 k c) by (unfold blk; by rewrite (sf_base _ _ Hsame)).
  split.
  - apply (pages_upd s i g0); try done; [by rewrite Eb, (sf_base _ _ Hsame)|by rewrite Ee, (sf_end _ _ Hsame)|].
    intros n. rewrite Hn, (sf_pages _ _ Hsame). f_equal. lia.
  - rewrite Eblk. apply allocated_st with (g := g0); try done.
    + by rewrite Eb, (sf_base _ _ Hsame).
    + by rewrite Ee, (sf_end _ _ Hsame).
    + apply grp_placed. by apply (po_groups _ Hs i).
    + unfold in_range in *. by rewrite <- (sf_base _ _ Hsame), <- (sf_end _ _ Hsame).
    + intros x. rewrite Hf, Eblk. tauto.
  - apply geo_st with (g := g0); [done|by rewrite Eb, (sf_base _ _ Hsame)|by rewrite Ee, (sf_end _ _ Hsame)].
  - intros x Hx. apply (free_at_in s i g0 x); [done..|auto|]. apply (sf_free _ _ Hsame). auto.
  - intros x. change (free_at (st i (toggle k c l g) s) x <-> free_at s x /\ ~ in_block (blk g k c) k x).
    rewrite (free_at_st s i g0) by done. rewrite Hf, (sf_free _ _ Hsame).
    destruct (decide (pg_baseaddr g0 <= x < pg_endaddr g0)) as [Hx|Hx].
    + rewrite (free_at_in s i g0 x) by done. tauto.
    + pose proof (fun H => free_range g0 x (proj1 (po_groups _ Hs i g0 Hg0)) H). specialize (Hin x). tauto.
  - done.
Qed.

Lemma st_id s i g : pagegroup_list s !! i = Some g -> s = st i g s.
Proof. intros. destruct s. unfold st, upd_groups. cbn in *. by rewrite list_insert_id. Qed.

Lemma listof_head g k a l : grp_ok g -> pg_freelist g !! k = Some (a :: l) ->
  (k < 8)%nat /\ exists c, listof g k = blk g k c :: l.
Proof.
  intros Hok Hl. assert (listof g k = a :: l) as E by (by apply listof_lookup).
  assert (Ha : a ∈ listof g k) by (rewrite E; left). split; [by eapply listof_small|].
  destruct (go_block _ Hok _ _ Ha) as (c & -> & _). by exists c.
Qed.

Section AllocSpec.
Context `{Reclaim}.

(** Splitting makes a block of order [k] if there is a larger one. *)
Lemma find_split_run s k norder i :
  pages_ok s -> first_order (seq (S k) (PAGE_NSIZES - S k)) (pagegroup_list s) = Some (norder, i) ->
  exists g0 g c l, pagegroup_list s !! i = Some g0 /\ _page_split k s = Done (Some i) (st i g s) /\
    same_free g0 g /\ grp_ok g /\ (k < 8)%nat /\ listof g k = blk g k c :: l /\ tidy_but g k (c / 2).
Proof.
  intros Hs Hf. unfold _page_split. erewrite bind_done by reflexivity. rewrite Hf. cbn beta iota.
  apply first_order_some in Hf as [Hno Hf]. apply elem_of_seq in Hno.
  apply first_group_some in Hf as (_ & g0 & a & l & Hg0 & Hl). rewrite Nat.sub_0_r in Hg0.
  pose proof (lookup_lt_Some _ _ _ Hg0) as Hi. destruct (po_groups _ Hs _ _ Hg0) as [Hok0 Ht0].
  destruct (listof_head _ _ _ _ Hok0 Hl) as [Hk8 [c Hc]].
  pose proof (split_down_run i s k (norder - k) Hi ltac:(lia) g0 c l Hok0) as Hrun.
  replace (k + (norder - k))%nat with norder in Hrun by lia.
  destruct (Hrun Hc (tidy_tidy_but _ _ _ Ht0)) as (g & c' & l' & Hd & Hok & Hsf & Hl' & Ht').
  rewrite <- (st_id s i g0 Hg0) in Hd. exists g0, g, c', l'. split_and!; try done; [|lia].
  krun Hd. krun (freelist_run i s Hi g k _ (lookup_listof g k Hok ltac:(lia))). rewrite Hl'. done.
Qed.

(** The block that is found is taken off its list, its bit and the count are
    brought up to date. *)
Lemma take_run s i g k c l : (i < length (pagegroup_list s))%nat -> grp_ok g -> (k < 8)%nat ->
  listof g k = blk g k c :: l ->
  (let* l := freelist i k in
   let* addr := deref (head l) in
   set_freelist i k (tail l) ;;
   (if Nat.ltb k (PAGE_NSIZES - 1) then
      let* index := _pagegroup_calculate_index i (S k) addr in bit_flip i (S k) index
    else ret tt) ;;
   modify (upd_count (fun n => u32 (n - 2 ^ Z.of_nat k))) ;;
   ret (Some addr)) (st i g s) =
  Done (Some (blk g k c)) (upd_count (fun n => u32 (n - 2 ^ Z.of_nat k)) (st i (toggle k c l g) s)).
Proof.
  intros Hi Hok Hk Hl. krun (freelist_run i s Hi g k _ (lookup_listof g k Hok Hk)). rewrite Hl.
  erewrite bind_done by reflexivity. cbn [tail]. unfold set_freelist.
  krun (set_group_run i s Hi (g_freelist <[k := l]>) g).
  assert (Ha : blk g k c ∈ listof g k) by (rewrite Hl; left).
  destruct (go_block _ Hok _ _ Ha) as (? & <-%blk_inj & Hr).
  by krun (flip_top_run i s Hi g k c l Hok Hk Hr).
Qed.

Lemma page_alloc_order_run s k : pages_ok s ->
  (exists a s', _page_alloc_order k s = Done (Some a) s' /\ took s k a s') \/
  ((forall g j, g ∈ pagegroup_list s -> (k <= j)%nat -> listof g j = []) /\
   _page_alloc_order k s = (slab_allocators_reclaim ;; ret None) s).
Proof.
  intros Hs. unfold _page_alloc_order. erewrite bind_done by reflexivity.
  destruct (first_group k 0 (pagegroup_list s)) as [i|] eqn:Hf.
  - left. erewrite bind_done by reflexivity. cbn beta iota.
    apply first_group_some in Hf as (_ & g & a & l & Hg & Hl). rewrite Nat.sub_0_r in Hg.
    pose proof (lookup_lt_Some _ _ _ Hg) as Hi. destruct (po_groups _ Hs _ _ Hg) as [Hok Ht].
    destruct (listof_head _ _ _ _ Hok Hl) as [Hk8 [c Hc]].
    pose proof (take_run s i g k c l Hi Hok Hk8 Hc) as Hrun. rewrite <- (st_id s i g Hg) in Hrun.
    eexists _, _. split; [exact Hrun|]. apply take_took with (g0 := g); try done. by apply tidy_tidy_but.
  - destruct (first_order (seq (S k) (PAGE_NSIZES - S k)) (pagegroup_list s)) as [[norder i]|] eqn:Ho.
    + left. destruct (find_split_run s k norder i Hs Ho) as (g0 & g & c & l & Hg0 & Hsp & Hsf & Hok & Hk8 & Hl & Ht).
      pose proof (lookup_lt_Some _ _ _ Hg0) as Hi. rewrite bind_assoc. krun Hsp. rewrite bind_assoc.
      krun (freelist_run i s Hi g k _ (lookup_listof g k Hok Hk8)). rewrite Hl. rewrite bind_assoc.
      erewrite bind_done by (by apply kassert_true, bool_decide_eq_true_2). erewrite bind_done by reflexivity. cbn beta iota.
      eexists _, _. split; [by apply take_run|]. by apply take_took with (g0 := g0).
    + right. split.
      * intros g j Hg Hj. destruct (decide (j = k)) as [->|]; [by eapply first_group_none|].
        destruct (decide (j < 8)%nat); [eapply first_order_none; [done| |done]; apply elem_of_seq; unfold PAGE_NSIZES; lia|].
        apply list_elem_of_lookup in Hg as [i Hg]. destruct (po_groups _ Hs _ _ Hg) as [Hok _].
        unfold listof. rewrite lookup_ge_None_2; [done|]. rewrite (go_lists _ Hok). unfold PAGE_NSIZES. lia.
      * unfold _page_split. rewrite bind_assoc. unfold gets. rewrite bind_assoc. unfold bind at 1. rewrite Ho. rewrite bind_assoc.
        unfold bind. destruct (slab_allocators_reclaim s); done.
Qed.
End AllocSpec.

(** ** Release *)
Lemma remove_link_run i s g k a : (i < length (pagegroup_list s))%nat ->
  (k < length (pg_freelist g))%nat -> a ∈ listof g k -> (forall j, j <> k -> a ∉ listof g j) ->
  remove_link i a (st i g s) = Done tt (st i (put_list k (filter (fun b => b <> a) (listof g k)) g) s).
Proof.
  intros Hi Hk Ha Hno. unfold remove_link. krun (get_group_run i s Hi g).
  destruct (lookup_lt_is_Some_2 _ _ Hk) as [l Hl]. rewrite (listof_lookup _ _ _ Hl) in *.
  rewrite bool_decide_eq_true_2 by (apply Exists_exists; exists l; split; [by eapply list_elem_of_lookup_2|done]).
  rewrite (set_group_run i s Hi). do 2 f_equal. unfold put_list, g_freelist. f_equal.
  apply list_eq. intros j. rewrite list_lookup_fmap. destruct (decide (j = k)) as [->|Hne].
  - rewrite list_lookup_insert_eq by done. by rewrite Hl.
  - rewrite list_lookup_insert_ne by done. specialize (Hno j Hne). unfold listof in Hno.
    destruct (pg_freelist g !! j) as [lj|]; [|done]. cbn. f_equal. by apply filter_ne_id.
Qed.

(** Blocks [c] and [c'] are buddies: they are [2 * i] and [2 * i + 1]. *)
Definition buddies (c c' i : Z) : Prop := (c = 2 * i /\ c' = 2 * i + 1) \/ (c = 2 * i + 1 /\ c' = 2 * i).

Lemma buddies_perm g k c c' i : grp_ok g -> buddies c c' i -> blk g k c ∈ listof g k -> blk g k c' ∈ listof g k ->
  listof g k ≡ₚ blk g k (2 * i) :: blk g k (2 * i + 1) ::
    filter (fun b => b <> blk g k c') (filter (fun b => b <> blk g k c) (listof g k)).
Proof.
  intros Hok Hb Hc Hc'. pose proof (go_nodup _ Hok k) as Hnd. assert (c <> c') by (unfold buddies in Hb; lia).
  assert (Hp : listof g k ≡ₚ blk g k c :: blk g k c' ::
    filter (fun b => b <> blk g k c') (filter (fun b => b <> blk g k c) (listof g k))).
  { rewrite (filter_ne_perm (blk g k c) (listof g k)) at 1 by done. apply perm_skip, filter_ne_perm; [by apply NoDup_filter|].
    apply list_elem_of_filter. split; [|done]. intros ?%blk_inj. lia. }
  destruct Hb as [[-> ->]|[-> ->]]; [done|]. rewrite Hp at 1. apply perm_swap.
Qed.

Lemma other_list g k j a : grp_ok g -> a ∈ listof g k -> j <> k -> a ∉ listof g j.
Proof.
  intros Hok Ha Hj Ha'. pose proof (bsize_pos k). pose proof (bsize_pos j).
  destruct (go_disj _ Hok _ _ _ _ Ha Ha'); (lia || congruence).
Qed.

(** Both buddies off their list, one block more on the next. *)
Lemma join_pair_run i s g k c c' i0 : (i < length (pagegroup_list s))%nat ->
  grp_ok g -> (k < 7)%nat -> buddies c c' i0 -> blk g k c ∈ listof g k -> blk g k c' ∈ listof g k ->
  let l := filter (fun b => b <> blk g k c') (filter (fun b => b <> blk g k c) (listof g k)) in
  (remove_link i (blk g k c) ;; remove_link i (blk g k c') ;; push i (S k) (blk g (S k) i0) ;;
   if Nat.ltb (S k) (PAGE_NSIZES - 1) then
     let* index := _pagegroup_calculate_index i (S (S k)) (blk g (S k) i0) in bit_flip i (S (S k)) index
   else ret tt) (st i g s) = Done tt (st i (join_group k i0 l g) s).
Proof.
  intros Hi Hok Hk Hb Hc Hc' l. pose proof (go_lists _ Hok) as Hlen. unfold PAGE_NSIZES in Hlen.
  pose proof (buddies_perm g k c c' i0 Hok Hb Hc Hc') as Hp. fold l in Hp.
  destruct (drop_pair_ok g k i0 l Hok Hp) as (Hok1 & _).
  assert (Hr : in_range (put_list k l g) (S k) i0).
  { apply (halves_range g).
    - destruct (go_block _ Hok k (blk g k (2 * i0))) as (? & <-%blk_inj & ?); [rewrite Hp; left|done].
    - destruct (go_block _ Hok k (blk g k (2 * i0 + 1))) as (? & <-%blk_inj & ?); [rewrite Hp; right; left|done]. }
  krun (remove_link_run i s g k _ Hi ltac:(lia) Hc (fun j Hj => other_list g k j _ Hok Hc Hj)).
  set (l1 := filter (fun b => b <> blk g k c) (listof g k)) in *. assert (Hl1 : listof (put_list k l1 g) k = l1).
  { rewrite listof_put by lia. by rewrite bool_decide_eq_true_2. }
  assert (Hrm : remove_link i (blk g k c') (st i (put_list k l1 g) s) = Done tt (st i (put_list k l g) s)).
  { rewrite (remove_link_run i s _ k _ Hi); rewrite ?Hl1.
    - unfold put_list, g_freelist. cbn [pg_freelist pg_map pg_nbits pg_baseaddr pg_endaddr].
      by rewrite list_insert_insert_eq.
    - cbn [put_list g_freelist pg_freelist]. rewrite length_insert. lia.
    - apply list_elem_of_filter. split; [|done]. intros ?%blk_inj. unfold buddies in Hb. lia.
    - intros j Hj. rewrite listof_put by lia. rewrite bool_decide_eq_false_2 by done. by apply (other_list g k). }
  krun Hrm. clear Hrm. assert (Hlk : pg_freelist (put_list k l g) !! S k = Some (listof (put_list k l g) (S k))).
  { apply lookup_listof; [done|lia]. }
  krun (push_run i s Hi (put_list k l g) (S k) _ (blk g (S k) i0) Hlk).
  exact (flip_top_run i s Hi (put_list k l g) (S k) i0 _ Hok1 ltac:(lia) Hr).
Qed.

Lemma join_same g k i l : grp_ok g -> (k < 7)%nat ->
  listof g k ≡ₚ blk g k (2 * i) :: blk g k (2 * i + 1) :: l -> same_free g (join_group k i l g).
Proof.
  intros Hok Hk Hp. destruct (join_ok g k i l Hok Hk Hp) as (_ & Hf & Hn).
  destruct (toggle_id (S k) i (blk g (S k) i :: listof (put_list k l g) (S k)) (put_list k l g)) as (_ & Hb & He).
  by split.
Qed.

(** The address the code computes for the buddy. *)
Lemma buddy_addr g k c : placed g -> in_range g k c -> in_range g (S k) (c / 2) ->
  let odd := Z.testbit (Z.shiftr (Z.shiftr (u32 (blk g k c - pg_baseaddr g)) PAGE_SHIFT) (Z.of_nat k)) 0 in
  exists c', buddies c c' (c / 2) /\
    u32 (blk g k c + 2 ^ Z.of_nat k * PAGE_SIZE * (if odd then -1 else 1)) = blk g k c' /\
    Z.min (blk g k c) (blk g k c') = blk g (S k) (c / 2).
Proof.
  intros Hg Hr Hr2 odd. pose proof (bsize_pos k) as Hp.
  assert (odd = Z.odd c) as Eo.
  { unfold odd. destruct (blk_bounds g k c Hg Hr) as (_ & _ & _ & ->).
    rewrite Z.shiftr_shiftr, Z.shiftr_div_pow2 by (unfold PAGE_SHIFT; lia).
    change (2 ^ (PAGE_SHIFT + Z.of_nat k)) with (bsize k). rewrite Z.div_mul by lia. apply Z.bit0_odd. }
  destruct (in_range_halves _ _ _ Hr2) as [Ha Hb]. rewrite Eo, <- bsize_pages, blk_first.
  pose proof (Zdiv2_odd_eqn c) as Hc. rewrite Z.div2_div in Hc. destruct (Z.odd c).
  - exists (2 * (c / 2)). split_and!; [right; lia| |unfold blk; nia].
    replace (blk g k c + bsize k * -1) with (blk g k (2 * (c / 2))) by (unfold blk; nia).
    apply u32_small. by apply (blk_bounds g k _ Hg Ha).
  - exists (2 * (c / 2) + 1). split_and!; [left; lia| |unfold blk; nia].
    replace (blk g k c + bsize k * 1) with (blk g k (2 * (c / 2) + 1)) by (unfold blk; nia).
    apply u32_small. by apply (blk_bounds g k _ Hg Hb).
Qed.

Lemma join_bit g k c c' i : grp_ok g -> (k < 7)%nat -> in_range g (S k) i -> buddies c c' i -> blk g k c ∈ listof g k ->
  Z.testbit (mapof g (S k)) i = negb (bool_decide (blk g k c' ∈ listof g k)).
Proof.
  intros Hok Hk Hr Hb Hc. rewrite (go_bits _ Hok k i Hk Hr). destruct Hb as [[-> ->]|[-> ->]].
  - by rewrite (bool_decide_eq_true_2 (blk g k (2 * i) ∈ _)) by done.
  - by rewrite (bool_decide_eq_true_2 (blk g k (2 * i + 1) ∈ _)), xorb_true_r by done.
Qed.

Lemma tidy_lone g k c c' i : tidy_but g k i -> buddies c c' i -> blk g k c' ∉ listof g k -> tidy g.
Proof.
  intros Ht Hb Hn k' i' Hk' [H1 H2]. destruct (decide ((k', i') = (k, i))) as [E|E].
  - injection E as -> ->. destruct Hb as [[-> ->]|[-> ->]]; done.
  - by apply (Ht k' i').
Qed.

Lemma page_join_run i s fuel : (i < length (pagegroup_list s))%nat ->
  forall g k c, (7 < fuel + k)%nat -> grp_ok g -> tidy_but g k (c / 2) -> blk g k c ∈ listof g k ->
  exists g', __page_join fuel i k (blk g k c) (st i g s) = Done tt (st i g' s) /\
    grp_ok g' /\ tidy g' /\ same_free g g'.
Proof.
  intros Hi. induction fuel as [|fuel IH]; intros g k c Hfuel Hok Ht Hc; pose proof (listof_small _ _ _ Hok Hc) as Hk8; [lia|].
  cbn [__page_join]. destruct (Nat.ltb_spec k (PAGE_NSIZES - 1)) as [Hk|Hk]; unfold PAGE_NSIZES in Hk; cbn [negb].
  2:{ exists g. split_and!; try done. intros k' i' Hk'. apply Ht; [done|]. intros [= -> ->]. lia. }
  destruct (go_block _ Hok _ _ Hc) as (? & <-%blk_inj & Hr). pose proof (grp_placed _ Hok) as Hp.
  pose proof (half_range _ _ _ Hok Hk Hr) as Hr2.
  destruct (buddy_addr g k c Hp Hr Hr2) as (c' & Hb & Eb & Em). cbv zeta in Eb.
  krun (index_up i s Hi g k c Hp Hr Hk). krun (bit_check_run i s Hi g k (c / 2) Hok Hk Hr2).
  rewrite (join_bit g k c c') by done. case_bool_decide as Hc'; cbn [negb].
  2:{ exists g. split_and!; try done. by eapply tidy_lone. }
  krun (get_group_run i s Hi g). cbv zeta. rewrite Eb, Em.
  destruct (blk_bounds g k c Hp Hr) as (_ & _ & _ & ->). rewrite mul_land by lia.
  erewrite bind_done by (by apply kassert_true).
  pose proof (buddies_perm g k c c' (c / 2) Hok Hb Hc Hc') as Hpm.
  pose proof (join_pair_run i s g k c c' (c / 2) Hi Hok Hk Hb Hc Hc') as Hrun. cbv zeta in Hrun.
  set (l := filter (fun b => b <> blk g k c') _) in *.
  destruct (join_ok g k (c / 2) l Hok Hk Hpm) as (Hok' & _).
  pose proof (join_same g k (c / 2) l Hok Hk Hpm) as Hs'.
  assert (Eblk : blk (join_group k (c / 2) l g) (S k) (c / 2) = blk g (S k) (c / 2)) by (unfold blk; by rewrite (sf_base _ _ Hs')).
  destruct (IH (join_group k (c / 2) l g) (S k) (c / 2)) as (g' & Hg' & Hokg & Htg & Hsg).
  { lia. } { done. } { by apply join_tidy. }
  { rewrite Eblk, listof_join by done. rewrite bool_decide_eq_false_2, bool_decide_eq_true_2 by lia. left. }
  exists g'. split_and!; try done; [|by etrans].
  rewrite (seq_done _ _ _ _ _ _ _ _ Hrun). by rewrite <- Eblk.
Qed.

Lemma add_tidy g k c : grp_ok g -> (k < 8)%nat -> tidy g -> tidy_but (toggle k c (blk g k c :: listof g k) g) k (c / 2).
Proof.
  intros Hok Hk Ht k' i' Hk' Hne. rewrite listof_toggle, !blk_toggle by done.
  case_bool_decide as E; [subst k'|by apply Ht]. rewrite !elem_of_cons. intros [H1 H2].
  apply (Ht k i' Hk'). assert (i' <> c / 2) by congruence.
  split; [destruct H1 as [H1%blk_inj|]|destruct H2 as [H2%blk_inj|]]; (done || dlia).
Qed.

Lemma group_of_some a gs i : group_of a gs = Some i ->
  exists g, gs !! i = Some g /\ pg_baseaddr g <= a < pg_endaddr g.
Proof.
  revert i. induction gs as [|g gs IH]; intros i; cbn; [done|]. destruct (_ && _) eqn:E.
  - intros [= <-]. exists g. split; [done|]. apply andb_true_iff in E as [E1%Z.leb_le E2%Z.ltb_lt]. lia.
  - destruct (group_of a gs) as [j|]; cbn; [|done]. intros [= <-]. by apply IH.
Qed.

Lemma group_of_find a gs i g : gs !! i = Some g -> pg_baseaddr g <= a < pg_endaddr g -> is_Some (group_of a gs).
Proof.
  revert i. induction gs as [|h gs IH]; intros [|i] Hg Ha; cbn; try done.
  - injection Hg as ->. rewrite (proj2 (Z.leb_le _ _)), (proj2 (Z.ltb_lt _ _)) by lia. by eexists.
  - destruct (_ && _); [by eexists|]. destruct (IH i Hg Ha) as [j ->]. by eexists.
Qed.

Lemma from_address_run s a i g : pages_ok s -> pagegroup_list s !! i = Some g ->
  pg_baseaddr g <= a < pg_endaddr g -> _pagegroup_from_address a s = Done (Some i) s.
Proof.
  intros Hs Hg Ha. unfold _pagegroup_from_address, gets. f_equal.
  destruct (group_of_find _ _ _ _ Hg Ha) as [j Hj]. rewrite Hj. f_equal.
  apply group_of_some in Hj as (h & Hh & Hr). destruct (decide (j = i)) as [|Hne]; [done|].
  destruct (po_apart _ Hs _ _ _ _ Hg Hh (not_eq_sym Hne)); lia.
Qed.

(** What giving back the block of order [k] at [a] does. *)
Record gave (s : pstate) (k : nat) (a : Z) (s' : pstate) : Prop := Gave {
  gv_ok : pages_ok s';
  gv_geo : geo s' = geo s;
  gv_free x : free_at s' x <-> free_at s x \/ in_block a k x;
  gv_count : page_freecount s' = u32 (page_freecount s + 2 ^ Z.of_nat k)
}.

Lemma add_gave s i g g1 g' k c : pages_ok s -> pagegroup_list s !! i = Some g -> in_range g k c ->
  g1 = toggle k c (blk g k c :: listof g k) g ->
  (forall x, free_in g1 x <-> free_in g x \/ in_block (blk g k c) k x) ->
  free_pages g1 = free_pages g + 2 ^ Z.of_nat k ->
  grp_ok g' -> tidy g' -> same_free g1 g' ->
  gave s k (blk g k c) (st i g' (upd_count (fun n => u32 (n + 2 ^ Z.of_nat k)) s)).
Proof.
  intros Hs Hg Hr E1 Hf Hn Hok' Ht' Hsf. destruct (toggle_id k c (blk g k c :: listof g k) g) as (_ & Eb & Ee).
  rewrite <- E1 in Eb, Ee. destruct (po_groups _ Hs _ _ Hg) as [Hok _].
  destruct (blk_bounds g k c (grp_placed _ Hok) Hr) as (B1 & B2 & _). split.
  - apply (pages_upd s i g g' (fun n => u32 (n + 2 ^ Z.of_nat k))); try done; [by rewrite (sf_base _ _ Hsf)|by rewrite (sf_end _ _ Hsf)|].
    intros n. rewrite (sf_pages _ _ Hsf), Hn. f_equal. lia.
  - change (geo (upd_count (fun n => u32 (n + 2 ^ Z.of_nat k)) (st i g' s)) = geo s).
    apply geo_st with (g := g); [done|by rewrite (sf_base _ _ Hsf)|by rewrite (sf_end _ _ Hsf)].
  - intros x. change (free_at (st i g' s) x <-> free_at s x \/ in_block (blk g k c) k x).
    rewrite (free_at_st s i g) by done. rewrite (sf_free _ _ Hsf), Hf. unfold in_block.
    destruct (decide (pg_baseaddr g <= x < pg_endaddr g)) as [Hx|Hx].
    + rewrite (free_at_in s i g x) by done. tauto.
    + pose proof (fun H => free_range g x Hok H). assert (~ in_block (blk g k c) k x) by (unfold in_block; lia).
      unfold in_block in *. tauto.
  - done.
Qed.

Lemma page_free_order_run s a k : pages_ok s -> (k < 8)%nat -> allocated s a k ->
  exists s', _page_free_order a k s = Done tt s' /\ gave s k a s'.
Proof.
  intros Hs Hk (i & g & c & Hg & -> & Hr & Hx). pose proof (lookup_lt_Some _ _ _ Hg) as Hi.
  destruct (po_groups _ Hs _ _ Hg) as [Hok Ht].
  destruct (blk_bounds g k c (grp_placed _ Hok) Hr) as (B1 & B2 & _). pose proof (bsize_pos k).
  destruct (add_ok g k c Hok Hk Hr) as (Hok1 & Hf1 & Hn1).
  { intros x Hin Hfr. apply (Hx x Hin). exists g. split; [by eapply list_elem_of_lookup_2|done]. }
  pose proof (add_tidy g k c Hok Hk Ht) as Ht1. set (l := blk g k c :: listof g k) in *.
  set (s1 := upd_count (fun n => u32 (n + 2 ^ Z.of_nat k)) s).
  unfold _page_free_order. krun (from_address_run s (blk g k c) i g Hs Hg ltac:(lia)).
  pose proof (push_run i s Hi g k _ (blk g k c) (lookup_listof g k Hok Hk)) as Hpush.
  rewrite <- (st_id s i g Hg) in Hpush. krun Hpush. clear Hpush. fold l.
  assert (Hc : (modify (upd_count (fun n => u32 (n + 2 ^ Z.of_nat k))) : P unit) (st i (put_list k l g) s) =
    Done tt (st i (put_list k l g) s1)) by done.
  krun Hc. clear Hc. destruct (Nat.ltb_spec k (PAGE_NSIZES - 1)) as [Hk7|Hk7].
  - unfold PAGE_NSIZES in Hk7. pose proof (flip_run i s1 Hi g k c l Hok Hk7 Hr) as Hfl.
    destruct (page_join_run i s1 PAGE_NSIZES Hi (toggle k c l g) k c) as (g' & Hj & Hok' & Ht' & Hsf).
    { unfold PAGE_NSIZES. lia. } { done. } { done. }
    { rewrite blk_toggle, listof_toggle, bool_decide_eq_true_2 by done. left. }
    exists (st i g' s1). split; [|by eapply add_gave].
    rewrite <- bind_assoc. krun Hfl. by rewrite blk_toggle in Hj.
  - exists (st i (put_list k l g) s1). split; [done|].
    assert (E : toggle k c l g = put_list k l g).
    { unfold toggle, flip. by destruct (Nat.ltb_spec k (PAGE_NSIZES - 1)); [lia|]. }
    apply (add_gave s i g (toggle k c l g)); try done; rewrite <- E; try done.
    intros k' i' Hk'. apply Ht1; [done|]. intros [= -> ->]. unfold PAGE_NSIZES in Hk7. lia.
Qed.

(** ** New groups *)

(** The end of the pages of a group over the range: below it are pages, above it
    the bit maps and the group itself. *)
Definition usable_end (start end_ : Z) : Z :=
  PAGE_ALIGN_DOWN (fst (map_space (seq 1 7) (Z.shiftr (u32 (end_ - start)) PAGE_SHIFT) (u32 (end_ - SIZEOF_PAGEGROUP)))).

(** The bits of a map. *)
Definition map_bits (npages : Z) (k : nat) : Z :=
  8 * Z.shiftr (u32 (Z.land (u32 (Z.shiftr npages (Z.of_nat k) - 1)) (2 ^ 32 - 8) + 8)) 3.

Lemma land_align x : 0 <= x < 2 ^ 32 -> Z.land x (2 ^ 32 - 8) = x - x mod 8.
Proof. intros Hx. exact (land_high x 3 Hx ltac:(lia)). Qed.

Lemma map_bits_bound npages k : 0 <= npages < 2 ^ 20 ->
  npages / 2 ^ Z.of_nat k <= map_bits npages k <= 8 * (npages + 1).
Proof.
  intros Hn. unfold map_bits. rewrite !Z.shiftr_div_pow2 by lia. set (q := npages / 2 ^ Z.of_nat k).
  assert (0 <= q <= npages).
  { pose proof (Z.pow_pos_nonneg 2 (Z.of_nat k)). unfold q. split; [apply Z.div_pos; lia|]. apply Z.div_le_upper_bound; nia. }
  clearbody q. rewrite land_align by apply u32_range. change (2 ^ 3) with 8. unfold u32.
  destruct (decide (q = 0)) as [->|].
  { change ((((0 - 1) mod 2 ^ 32 - ((0 - 1) mod 2 ^ 32) mod 8 + 8) mod 2 ^ 32) / 8) with 0. lia. }
  rewrite (Z.mod_small (q - 1)) by lia. rewrite Z.mod_small by dlia. dlia.
Qed.

Lemma map_space_spec orders npages end_ : 0 <= npages < 2 ^ 20 ->
  Z.of_nat (length orders) * (npages + 1) <= end_ < 2 ^ 32 ->
  end_ - Z.of_nat (length orders) * (npages + 1) <= fst (map_space orders npages end_) <= end_ /\
  snd (map_space orders npages end_) = map_bits npages <$> orders.
Proof.
  intros Hn. revert end_. induction orders as [|k orders IH]; intros end_ He; cbn [map_space fmap list_fmap length fst snd].
  { split; [cbn; lia|done]. }
  pose proof (map_bits_bound npages k Hn) as Hb. unfold map_bits in Hb. set (b := Z.shiftr _ 3) in *.
  assert (0 <= b) by (unfold b; rewrite Z.shiftr_div_pow2 by lia; apply Z.div_pos; [apply u32_range|lia]).
  cbn [length] in He. rewrite (u32_small (end_ - b)) by nia. destruct (IH (end_ - b)) as [Hf Hs]; [nia|].
  split; [nia|]. rewrite Hs. done.
Qed.

Lemma top_blocks_spec fuel n cur l : 0 <= cur -> cur + Z.of_nat n * bsize 7 < 2 ^ 32 -> (n <= fuel)%nat ->
  top_blocks fuel cur (cur + Z.of_nat n * bsize 7) l = reverse ((fun j => cur + Z.of_nat j * bsize 7) <$> seq 0 n) ++ l.
Proof.
  revert n cur l. induction fuel as [|fuel IH]; intros n cur l Hc He Hf; destruct n as [|n]; try lia; cbn [top_blocks].
  - done.
  - by rewrite (proj2 (Z.ltb_ge _ _)) by lia.
  - pose proof (bsize_pos 7). rewrite (proj2 (Z.ltb_lt _ _)) by lia.
    change (2 ^ 7 * PAGE_SIZE) with (bsize 7). rewrite u32_small by lia.
    replace (cur + Z.of_nat (S n) * bsize 7) with (cur + bsize 7 + Z.of_nat n * bsize 7) by lia.
    rewrite IH by lia. cbn [seq fmap list_fmap]. rewrite reverse_cons, <- app_assoc, <- fmap_S_seq, <- list_fmap_compose.
    cbn [app]. f_equal; [|f_equal; lia]. f_equal. apply list_fmap_ext. intros. cbn. lia.
Qed.

(** A group all of whose pages are in free blocks of the largest order. *)
Definition fresh_group (start : Z) (n : nat) (npages : Z) : pagegroup :=
  Pagegroup (replicate 7 [] ++ [reverse ((fun j => start + Z.of_nat j * bsize 7) <$> seq 0 n)])
    (replicate PAGE_NSIZES 0) (0 :: (map_bits npages <$> seq 1 7)) start (start + Z.of_nat n * bsize 7).

Lemma listof_fresh start n npages k a : a ∈ listof (fresh_group start n npages) k <->
  k = 7%nat /\ exists j, (j < n)%nat /\ a = start + Z.of_nat j * bsize 7.
Proof.
  unfold listof, fresh_group. cbn [pg_freelist].
  do 7 (destruct k as [|k]; [cbn; rewrite elem_of_nil; naive_solver lia|]).
  destruct k as [|k]; [|cbn; rewrite elem_of_nil; naive_solver lia].
  cbn [replicate app lookup list_lookup from_option id]. rewrite elem_of_reverse, list_elem_of_fmap.
  setoid_rewrite elem_of_seq. naive_solver lia.
Qed.

Lemma mapof_fresh start n npages k : mapof (fresh_group start n npages) k = 0.
Proof. unfold mapof, fresh_group. cbn. by do 8 (destruct k as [|k]; [done|]). Qed.

Lemma fresh_ok start n npages : 0 <= start -> start mod PAGE_SIZE = 0 -> start + Z.of_nat n * bsize 7 < 2 ^ 32 ->
  0 <= npages < 2 ^ 20 -> Z.of_nat n * bsize 7 <= npages * PAGE_SIZE -> grp_ok (fresh_group start n npages).
Proof.
  intros H0 Hm He Hn Hle. set (g := fresh_group start n npages). split; try done.
  - intros k c Hk [Hc Hr]. exists (map_bits npages (S k)). split.
    { cbn. do 7 (destruct k as [|k]; [done|]). lia. }
    pose proof (map_bits_bound npages (S k) Hn) as [Hb _]. cbn [g fresh_group pg_endaddr pg_baseaddr] in Hr.
    rewrite bsize_pages in Hr. apply Z.lt_le_trans with (npages / 2 ^ Z.of_nat (S k)); [|done].
    pose proof (Z.pow_pos_nonneg 2 (Z.of_nat (S k))).
    apply Z.lt_le_trans with (c + 1); [lia|]. apply Z.div_le_lower_bound; [lia|]. unfold PAGE_SIZE, PAGE_SHIFT in *. nia.
  - split; [done|]. by exists (Z.of_nat n).
  - intros k. unfold listof, g, fresh_group. cbn [pg_freelist].
    do 7 (destruct k as [|k]; [constructor|]). destruct k as [|k]; [|constructor].
    cbn [replicate app lookup list_lookup from_option id]. rewrite reverse_Permutation.
    apply NoDup_fmap_2_strong; [|apply NoDup_seq]. intros x y _ _ E. pose proof (bsize_pos 7). nia.
  - intros k a (-> & j & Hj & ->)%listof_fresh. exists (Z.of_nat j). split; [done|]. pose proof (bsize_pos 7).
    split; [lia|]. cbn [g fresh_group pg_endaddr pg_baseaddr]. nia.
  - intros k a k' a' (-> & j & Hj & ->)%listof_fresh (-> & j' & Hj' & ->)%listof_fresh H1 H2. split; [done|].
    pose proof (bsize_pos 7). assert (j = j') as -> by nia. done.
  - intros k i Hk Hi. unfold g. rewrite mapof_fresh, Z.bits_0.
    by rewrite !bool_decide_eq_false_2 by (rewrite listof_fresh; lia).
Qed.

Lemma fresh_tidy start n npages : tidy (fresh_group start n npages).
Proof. intros k i Hk [(-> & _)%listof_fresh _]. lia. Qed.

Lemma fresh_free start n npages x : free_in (fresh_group start n npages) x <-> start <= x < start + Z.of_nat n * bsize 7.
Proof.
  pose proof (bsize_pos 7). split.
  - intros (k & a & (-> & j & Hj & ->)%listof_fresh & Hx). unfold in_block in Hx. nia.
  - intros Hx. exists 7%nat, (start + (x - start) / bsize 7 * bsize 7).
    assert (0 <= (x - start) / bsize 7 < Z.of_nat n).
    { split; [apply Z.div_pos; lia|]. apply Z.div_lt_upper_bound; lia. }
    split.
    + apply listof_fresh. split; [done|]. exists (Z.to_nat ((x - start) / bsize 7)). rewrite Z2Nat.id by lia. split; [lia|done].
    + unfold in_block. pose proof (Z.div_mod (x - start) (bsize 7)). pose proof (Z.mod_pos_bound (x - start) (bsize 7)). lia.
Qed.

Lemma fresh_pages start n npages : free_pages (fresh_group start n npages) = 128 * Z.of_nat n.
Proof.
  unfold free_pages, fresh_group. cbn [pg_freelist replicate app weight]. rewrite length_reverse, length_fmap, length_seq.
  cbn. lia.
Qed.

Lemma tail_blocks_none ks npages end_ : (forall k, k ∈ ks -> Z.testbit npages (Z.of_nat k) = false) ->
  tail_blocks ks npages end_ = (end_, replicate (length ks) []).
Proof.
  revert end_. induction ks as [|k ks IH]; intros end_ Hb; cbn [tail_blocks]; [done|].
  rewrite Hb by left. rewrite IH; [done|]. intros j Hj. apply Hb. by right.
Qed.

(** The first part of [_pagegroup_create]: the space of the bit maps. *)
Lemma space_spec start end_ :
  0 <= start -> start mod 4096 = 0 -> end_ mod 4096 = 0 -> start + 4096 <= end_ -> end_ < 2 ^ 32 ->
  let np := (end_ - start) / 4096 in
  let m := map_space (seq 1 7) np (u32 (end_ - SIZEOF_PAGEGROUP)) in
  0 <= np < 2 ^ 20 /\ np * 4096 = end_ - start /\ Z.shiftr (u32 (end_ - start)) PAGE_SHIFT = np /\
  usable_end start end_ = PAGE_ALIGN_DOWN (fst m) /\ usable_end start end_ <= end_ /\ snd m = map_bits np <$> seq 1 7.
Proof.
  intros H0 Hs He Hle Hlt np m.
  assert (Hnp : 0 <= np < 2 ^ 20 /\ np * 4096 = end_ - start) by (unfold np; dlia).
  assert (Enp : Z.shiftr (u32 (end_ - start)) PAGE_SHIFT = np).
  { rewrite u32_small by lia. by rewrite Z.shiftr_div_pow2. }
  assert (Eu : usable_end start end_ = PAGE_ALIGN_DOWN (fst m)) by (unfold usable_end; by rewrite Enp).
  assert (Ee : u32 (end_ - SIZEOF_PAGEGROUP) = end_ - 112) by (apply u32_small; unfold SIZEOF_PAGEGROUP; lia).
  clearbody np. destruct (map_space_spec (seq 1 7) np (end_ - 112)) as [Hf Hsn]; [lia|rewrite length_seq; lia|].
  unfold m in *. rewrite Ee in *. split_and!; try tauto. rewrite Eu. unfold PAGE_ALIGN_DOWN.
  pose proof (Z.mod_pos_bound (fst (map_space (seq 1 7) np (end_ - 112))) PAGE_SIZE ltac:(done)). lia.
Qed.

Lemma whole_pages n start : 0 <= start -> start + Z.of_nat n * bsize 7 < 2 ^ 32 ->
  Z.shiftr (u32 (start + Z.of_nat n * bsize 7 - start)) PAGE_SHIFT = Z.of_nat n * 2 ^ 7 /\
  (u32 (start + Z.of_nat n * bsize 7 - start) mod 2 ^ 7 =? 0) = true.
Proof.
  intros. pose proof (bsize_pos 7). rewrite u32_small by lia.
  replace (start + Z.of_nat n * bsize 7 - start) with (Z.of_nat n * 2 ^ 7 * 2 ^ 12) by (change (bsize 7) with (2 ^ 7 * 2 ^ 12); lia).
  split; [rewrite Z.shiftr_div_pow2 by (unfold PAGE_SHIFT; lia); by apply Z.div_mul|].
  apply Z.eqb_eq. rewrite <- Z.mul_assoc, (Z.mul_comm (2 ^ 7)), Z.mul_assoc. by apply Z.mod_mul.
Qed.

Lemma create_run (s : pstate) start end_ n :
  0 <= start -> start mod 4096 = 0 -> end_ mod 4096 = 0 -> start + 4096 <= end_ -> end_ < 2 ^ 32 ->
  usable_end start end_ = start + Z.of_nat n * bsize 7 ->
  _pagegroup_create start end_ s = Done (fresh_group start n ((end_ - start) / 4096)) s.
Proof.
  intros H0 Hs He Hle Hlt Hn. destruct (space_spec start end_ H0 Hs He Hle Hlt) as (_ & _ & Enp & Eu & Hu & Hsn).
  unfold _pagegroup_create. rewrite Enp. cbv zeta. rewrite Hn in *. rewrite <- Eu.
  destruct (whole_pages n start H0 ltac:(lia)) as [-> Ek].
  rewrite tail_blocks_none; [|intros k Hk%elem_of_seq; rewrite <- Z.shiftl_mul_pow2 by lia; apply Z.shiftl_spec_low; lia].
  cbn [fst snd]. erewrite bind_done by (by apply kassert_true). rewrite Hsn.
  rewrite top_blocks_spec, app_nil_r; [done|lia..|].
  assert (Z.of_nat n <= (start + Z.of_nat n * bsize 7) / (2 ^ 7 * PAGE_SIZE)).
  { apply Z.div_le_lower_bound; [done|]. change (2 ^ 7 * PAGE_SIZE) with (bsize 7). lia. }
  lia.
Qed.

Lemma align_down x : 0 <= x -> 0 <= PAGE_ALIGN_DOWN x <= x /\ PAGE_ALIGN_DOWN x mod 4096 = 0.
Proof. unfold PAGE_ALIGN_DOWN. change PAGE_SIZE with 4096. intros. dlia. Qed.

Lemma total_app gs g : foldr (fun g n => free_pages g + n) 0 (gs ++ [g]) =
  foldr (fun g n => free_pages g + n) 0 gs + free_pages g.
Proof. induction gs as [|h gs IH]; cbn [app foldr]; [lia|]. rewrite IH. lia. Qed.

Lemma pages_app s g f : pages_ok s -> grp_ok g -> tidy g ->
  (forall h, h ∈ pagegroup_list s -> pg_endaddr h <= pg_baseaddr g \/ pg_endaddr g <= pg_baseaddr h) ->
  (forall n, f n = u32 (n + free_pages g)) ->
  pages_ok (upd_count f (upd_groups (fun l => l ++ [g]) s)) /\
  (forall x, free_at (upd_count f (upd_groups (fun l => l ++ [g]) s)) x <-> free_at s x \/ free_in g x).
Proof.
  intros Hs Hok Ht Hap Hf. split; [split|].
  - intros i h Hi. cbn in Hi. apply lookup_app_Some in Hi as [Hi|[_ Hi]]; [by apply (po_groups _ Hs i)|].
    apply list_lookup_singleton_Some in Hi as [_ <-]. done.
  - intros i j h h' Hi Hj Hne. cbn in Hi, Hj.
    apply lookup_app_Some in Hi as [Hi|[Hi1 Hi]]; apply lookup_app_Some in Hj as [Hj|[Hj1 Hj]].
    + by eapply (po_apart _ Hs).
    + apply list_lookup_singleton_Some in Hj as [_ <-]. apply Hap. by eapply list_elem_of_lookup_2.
    + apply list_lookup_singleton_Some in Hi as [_ <-]. apply or_comm, Hap. by eapply list_elem_of_lookup_2.
    + apply list_lookup_singleton_Some in Hi as [Hi _]. apply list_lookup_singleton_Some in Hj as [Hj _]. lia.
  - change (f (page_freecount s) = u32 (foldr (fun g n => free_pages g + n) 0 (pagegroup_list s ++ [g]))).
    rewrite Hf, (po_count _ Hs), total_app. unfold u32. by rewrite Zplus_mod_idemp_l.
  - intros x. unfold free_at. cbn [upd_count upd_groups pagegroup_list]. setoid_rewrite elem_of_app.
    setoid_rewrite list_elem_of_singleton. naive_solver.
Qed.

Lemma page_add_range_run s start end_ n :
  let start' := PAGE_ALIGN_DOWN start in let end' := PAGE_ALIGN_DOWN end_ in
  pages_ok s -> 0 <= start -> end_ < 2 ^ 32 -> start' < end' ->
  (forall h, h ∈ pagegroup_list s -> pg_endaddr h <= start' \/ end' <= pg_baseaddr h) ->
  usable_end start' end' = start' + Z.of_nat n * bsize 7 ->
  exists s', page_add_range start end_ s = Done tt s' /\ pages_ok s' /\
    (forall x, free_at s' x <-> free_at s x \/ start' <= x < usable_end start' end') /\
    page_freecount s' = u32 (page_freecount s + 128 * Z.of_nat n).
Proof.
  intros start' end' Hs H0 He Hlt Hap Hn.
  destruct (align_down start H0) as [Ha1 Ha2]. fold start' in Ha1, Ha2.
  assert (0 <= end_) as He0.
  { destruct (decide (0 <= end_)); [done|]. unfold end', PAGE_ALIGN_DOWN in Hlt. change PAGE_SIZE with 4096 in Hlt. dlia. }
  destruct (align_down end_ He0) as [Hb1 Hb2]. fold end' in Hb1, Hb2. assert (start' + 4096 <= end') as Hle by dlia.
  destruct (space_spec start' end') as (Hnp & Hnp2 & _ & _ & Hu & _); [lia..|]. rewrite Hn in Hu.
  pose proof (fresh_ok start' n ((end' - start') / 4096) ltac:(lia) Ha2 ltac:(lia) Hnp ltac:(change PAGE_SIZE with 4096; lia)) as Hok.
  unfold page_add_range. fold start' end'. krun (create_run s start' end' n ltac:(lia) Ha2 Hb2 Hle ltac:(lia) Hn).
  set (g := fresh_group start' n ((end' - start') / 4096)) in *. pose proof (bsize_pos 7).
  change (pg_baseaddr g) with start'. change (pg_endaddr g) with (start' + Z.of_nat n * bsize 7). rewrite Hn.
  destruct (Z.ltb_spec start' (start' + Z.of_nat n * bsize 7)).
  - destruct (pages_app s g (fun c => u32 (c + Z.shiftr (u32 (start' + Z.of_nat n * bsize 7 - start')) PAGE_SHIFT))) as [Hp Hf].
    { done. } { done. } { apply fresh_tidy. }
    { intros h Hh. destruct (Hap h Hh); [by left|]. right. change (pg_endaddr g) with (start' + Z.of_nat n * bsize 7). lia. }
    { intros c. destruct (whole_pages n start' ltac:(lia) ltac:(lia)) as [-> _]. unfold g. rewrite fresh_pages. f_equal. lia. }
    eexists. split; [reflexivity|]. split; [exact Hp|]. split.
    + intros x. rewrite (Hf x). unfold g. by rewrite fresh_free.
    + cbn [page_freecount upd_count upd_groups]. destruct (whole_pages n start' ltac:(lia) ltac:(lia)) as [-> _]. f_equal. lia.
  - assert (n = 0%nat) as -> by nia. exists s. split_and!; [done..| |].
    + intros x. split; [auto|]. intros [|]; [done|]. lia.
    + rewrite (po_count _ Hs). unfold u32. by rewrite Zplus_mod_idemp_l, Z.add_0_r.
Qed.

(** ** Requests in pages *)
Lemma order_for_spec npages : 0 <= npages < 2 ^ 31 ->
  match order_for npages with
  | Some k => (k < 8)%nat /\ npages <= 2 ^ Z.of_nat k /\ (k = 0%nat \/ 2 ^ (Z.of_nat k - 1) < npages)
  | None => 128 < npages
  end.
Proof.
  intros Hn. unfold order_for. cbn [seq PAGE_NSIZES List.find]. rewrite s32_small by lia.
  repeat match goal with
  | |- context [npages <=? ?x] =>
      destruct (Z.leb_spec npages x); cbn [Z.of_nat] in *; [split_and!; [lia|done|first [left; done|right; cbn in *; lia]]|]
  end.
  cbn in *. lia.
Qed.

(** ** The theorems *)

(** C18: [page_alloc_n] refuses more than 128 pages with a panic; otherwise it
    rounds up to a power of two and returns a block that was free: the free
    addresses become the old ones without the block, the count drops by its
    pages, the allocator stays well formed.  It gives up, after the slab
    allocators have been asked for pages, only if no block of that size or larger
    is free. *)
Theorem page_alloc_n_spec `{Reclaim} s npages :
  pages_ok s -> 0 <= npages < 2 ^ 31 ->
  (128 < npages /\ page_alloc_n npages s = Panic) \/
  exists k, (k < 8)%nat /\ npages <= 2 ^ Z.of_nat k /\ (k = 0%nat \/ 2 ^ (Z.of_nat k - 1) < npages) /\
    ((exists a s', page_alloc_n npages s = Done (Some a) s' /\ took s k a s') \/
     ((forall g j, g ∈ pagegroup_list s -> (k <= j)%nat -> listof g j = []) /\
      page_alloc_n npages s = (slab_allocators_reclaim ;; ret None) s)).
Proof.
  intros Hs Hn. pose proof (order_for_spec npages Hn) as Ho. unfold page_alloc_n.
  destruct (order_for npages) as [k|]; [right|by left]. exists k. destruct Ho as (? & ? & ?).
  split_and!; try done. by apply page_alloc_order_run.
Qed.

(** C19: [page_free_n] of a block in use makes its addresses free again, next to
    those that were, and raises the count; buddies are joined until no two are
    both free, and the allocator stays well formed. *)
Theorem page_free_n_spec s a npages k :
  pages_ok s -> order_for npages = Some k -> allocated s a k ->
  exists s', page_free_n a npages s = Done tt s' /\ gave s k a s'.
Proof.
  intros Hs Ho Ha. unfold page_free_n. rewrite Ho. apply page_free_order_run; [done| |done].
  unfold order_for in Ho. apply find_some in Ho as [Hin _]. apply in_seq in Hin. unfold PAGE_NSIZES in Hin. lia.
Qed.

(** [page_free] of the page [page_alloc] returned restores the set of free
    addresses and the count of free pages. *)
Theorem page_alloc_free `{Reclaim} s a s' :
  pages_ok s -> page_alloc s = Done (Some a) s' ->
  exists s'', page_free a s' = Done tt s'' /\ pages_ok s'' /\
    (forall x, free_at s'' x <-> free_at s x) /\ page_freecount s'' = page_freecount s.
Proof.
  intros Hs Ha. unfold page_alloc in Ha.
  destruct (page_alloc_order_run s 0 Hs) as [(a' & s1 & Hr & Ht)|[_ Hr]]; rewrite Hr in Ha.
  - injection Ha as -> ->. destruct Ht as [Hok Hown _ Hwas Hfree Hcount].
    destruct (page_free_order_run s' a 0 Hok ltac:(lia) Hown) as (s'' & Hrun & [Hok2 _ Hfree2 Hcount2]).
    exists s''. split_and!; try done.
    + intros x. rewrite Hfree2, Hfree. specialize (Hwas x). destruct (decide (in_block a 0 x)); tauto.
    + rewrite Hcount2, Hcount, (po_count _ Hs). unfold u32. rewrite Zplus_mod_idemp_l, Z.sub_add. apply Z.mod_mod. lia.
  - apply bind_inv in Ha as (r & s1 & _ & Ha). done.
Qed.

(** [page_add_range] over a range that does not meet the groups there are,
    and whose pages below the bit maps are a multiple of the largest block, makes
    exactly those pages free and keeps the allocator well formed. *)
Theorem page_add_range_spec s start end_ n :
  let start' := PAGE_ALIGN_DOWN start in let end' := PAGE_ALIGN_DOWN end_ in
  pages_ok s -> 0 <= start -> end_ < 2 ^ 32 -> start' < end' ->
  (forall h, h ∈ pagegroup_list s -> pg_endaddr h <= start' \/ end' <= pg_baseaddr h) ->
  usable_end start' end' = start' + Z.of_nat n * bsize 7 ->
  exists s', page_add_range start end_ s = Done tt s' /\ pages_ok s' /\
    (forall x, free_at s' x <-> free_at s x \/ start' <= x < usable_end start' end') /\
    page_freecount s' = u32 (page_freecount s + 128 * Z.of_nat n).
Proof. apply page_add_range_run. Qed.

Lemma page_init_ok s : exists s', page_init s = Done tt s' /\ pages_ok s' /\ (forall x, ~ free_at s' x).
Proof.
  exists (Pstate [] 0). split_and!; [done| |].
  - split; [by intros [|]..|done].
  - intros x (g & Hg & _). by apply elem_of_nil in Hg.
Qed.
End PageSpec.
