(* ===== verification/PageDemo.v ===== *)
(** * The page allocator on concrete ranges

    The theorems of [PageSpec] applied to a range of 129 pages, of which the
    allocator uses 128, and a range on which the code goes wrong. *)

From Stdlib Require Import ZArith Lia.
From stdpp Require Import base list.
From S2P Require Import Prelude Page PageSpec.

Module PageDemo.
Import Page PageSpec.
Local Open Scope Z_scope.

#[local] Instance no_slabs : Reclaim := fun s => Done 0 s.

Definition empty : pstate := Pstate [] 0.
Definition run_or (m : P unit) (s : pstate) : pstate := match m s with Done _ s' => s' | _ => s end.

(** One range of 129 pages. *)
Definition one_range : pstate := Eval vm_compute in run_or (page_add_range 0 (129 * 4096)) empty.

Lemma empty_ok : pages_ok empty.
Proof. split; [by intros [|]..|done]. Qed.

Lemma usable_129 : usable_end 0 (129 * 4096) = 0 + Z.of_nat 1 * bsize 7.
Proof. vm_compute. reflexivity. Qed.

Lemma page_add_range_spec_witness :
  page_add_range 0 (129 * 4096) empty = Done tt one_range /\ pages_ok one_range /\
  (forall x, free_at one_range x <-> free_at empty x \/ 0 <= x < usable_end 0 (129 * 4096)) /\
  page_freecount one_range = 128.
Proof.
  destruct (page_add_range_spec empty 0 (129 * 4096) 1 empty_ok ltac:(lia) ltac:(lia) ltac:(vm_compute; reflexivity)
    ltac:(intros h Hh; by apply elem_of_nil in Hh) usable_129) as (s' & Hrun & Hok & Hfree & Hc).
  assert (E : s' = one_range) by (vm_compute in Hrun; injection Hrun as <-; reflexivity). subst s'.
  exact (conj Hrun (conj Hok (conj Hfree Hc))).
Defined.

Lemma one_range_ok : pages_ok one_range.
Proof.
  destruct (page_add_range_run empty 0 (129 * 4096) 1 empty_ok ltac:(lia) ltac:(lia) ltac:(vm_compute; reflexivity)
    ltac:(intros h Hh; by apply elem_of_nil in Hh) usable_129) as (s' & Hrun & Hok & _).
  assert (E : s' = one_range) by (vm_compute in Hrun; injection Hrun as <-; reflexivity). by subst s'.
Qed.

(** Three pages: a block of four, split off the one of 128. *)
Definition three_taken : pstate := Eval vm_compute in
  match page_alloc_n 3 one_range with Done _ s' => s' | _ => empty end.

Lemma page_alloc_n_spec_witness :
  page_alloc_n 3 one_range = Done (Some 507904) three_taken /\ took one_range 2 507904 three_taken.
Proof.
  destruct (page_alloc_n_spec one_range 3 one_range_ok ltac:(lia)) as [[Hbad _]|(k & _ & Hk & Hk' & Hr)];
    [exfalso; lia|].
  assert (k = 2%nat) as -> by (destruct k as [|[|[|k]]]; [exfalso; cbn in *; lia..|done|
    exfalso; destruct Hk' as [Hk'|Hk']; [done|];
    assert (2 ^ 2 <= 2 ^ (Z.of_nat (S (S (S k))) - 1)) by (apply Z.pow_le_mono_r; lia); lia]).
  destruct Hr as [(a & s' & Hrun & Ht)|[Hno _]].
  - assert (E : a = 507904 /\ s' = three_taken) by (vm_compute in Hrun; injection Hrun as <- <-; split; reflexivity).
    destruct E as [-> ->]. exact (conj Hrun Ht).
  - exfalso. specialize (Hno _ 7%nat ltac:(left) ltac:(lia)). vm_compute in Hno. discriminate.
Defined.

Lemma three_allocated : pages_ok three_taken /\ allocated three_taken 507904 2.
Proof.
  destruct (page_alloc_order_run one_range 2 one_range_ok) as [(a & s' & Hrun & Ht)|[Hno _]].
  - assert (E : a = 507904 /\ s' = three_taken) by (vm_compute in Hrun; injection Hrun as <- <-; split; reflexivity).
    destruct E as [-> ->]. exact (conj (tk_ok _ _ _ _ Ht) (tk_owned _ _ _ _ Ht)).
  - exfalso. specialize (Hno _ 7%nat ltac:(left) ltac:(lia)). vm_compute in Hno. discriminate.
Qed.

(** Giving the block back joins everything up to the block of 128 pages. *)
Lemma page_free_n_spec_witness :
  page_free_n 507904 3 three_taken = Done tt one_range /\ gave three_taken 2 507904 one_range.
Proof.
  destruct (page_free_n_spec three_taken 507904 3 2 (proj1 three_allocated) ltac:(vm_compute; reflexivity)
    (proj2 three_allocated)) as (s' & Hrun & Hg).
  assert (E : s' = one_range) by (vm_compute in Hrun; injection Hrun as <-; reflexivity). subst s'.
  exact (conj Hrun Hg).
Defined.

Definition page_taken : pstate := Eval vm_compute in
  match page_alloc one_range with Done _ s' => s' | _ => empty end.

Lemma page_alloc_free_witness :
  page_alloc one_range = Done (Some 520192) page_taken /\ page_free 520192 page_taken = Done tt one_range /\
  page_freecount one_range = 128.
Proof.
  assert (Ha : page_alloc one_range = Done (Some 520192) page_taken) by (vm_compute; reflexivity).
  destruct (page_alloc_free one_range 520192 page_taken one_range_ok Ha) as (s' & Hrun & _ & _ & Hc).
  assert (E : s' = one_range) by (vm_compute in Hrun; injection Hrun as <-; reflexivity). subst s'.
  exact (conj Ha (conj Hrun Hc)).
Defined.

(** Allocate one page and give it back. *)
Definition alloc_and_free `{Reclaim} : P unit :=
  let* a := page_alloc in
  match a with Some a => page_free a | None => ret tt end.

(** a range of 130 pages has 129 usable ones, and the last one is put on the
    list of single pages without its bit in the map being set.  Allocated and
    given back, it looks as if its buddy were free: the code unlinks a page that
    is on no list, which is not even one of the group. *)
Theorem tail_page_unlinks_foreign `{Reclaim} s :
  (page_init ;; page_add_range 0 (130 * 4096) ;; alloc_and_free) s = Stuck.
Proof. vm_compute. reflexivity. Qed.
End PageDemo.
