(* ===== verification/PageTable.v ===== *)
(** * Page tables ([mm/pagetable.c], [mm/phys.c], [include/mm/pagetable.h])

    Physical memory is a finite map from the addresses of 32-bit words to their
    contents.  The code runs behind the paging hardware: every load and store of
    a pointer goes through [translate], the two-level walk of the processor from
    [cr3].  A kernel access that is not mapped is a page fault in the kernel, on
    which [_pt_fault_handler] panics; an access to an address with no memory
    behind it is [Stuck].  The translation buffer is not modelled ([tlb_flush]
    has no counterpart), nor are the protection bits, which do not bind the
    kernel.  Pages come from [Page]; the links the allocator keeps in free pages
    are part of its own model. *)

From Stdlib Require Import ZArith Lia.
From stdpp Require Import base list gmap.
From S2P Require Import Prelude Vnode Page.

Module PageTable.
Import Page.
Local Open Scope Z_scope.

(** ** Constants *)
Definition PT_PRESENT : Z := 1.
Definition PT_WRITE : Z := 2.
Definition PT_USER : Z := 4.
Definition PD_PRESENT : Z := 1.
Definition PD_WRITE : Z := 2.
Definition PD_USER : Z := 4.
Definition USER_MEM_LOW : Z := 0x00400000.
Definition USER_MEM_HIGH : Z := 0xc0000000.
Definition KERNEL_PHYS_BASE : Z := 0x100000.
Definition MEMORY_MAP_BASE : Z := 0x9000.
Definition kernel_start : Z := 0xc0000000.
Definition UPTR_MAX : Z := 0xffffffff.
Definition PAGE_MASK : Z := 0xfffff000.
Definition PT_ENTRY_COUNT : Z := 1024.
Definition PT_VADDR_SIZE : Z := PAGE_SIZE * PT_ENTRY_COUNT.

(** [sizeof(struct pagedir)]: [pd_physical], then [pd_virtual]. *)
Definition SIZEOF_PAGEDIR : Z := 2 * PAGE_SIZE.

Definition vaddr_to_pdindex (vaddr : Z) : Z := Z.shiftr vaddr PAGE_SHIFT / PT_ENTRY_COUNT.
Definition vaddr_to_ptindex (vaddr : Z) : Z := Z.shiftr vaddr PAGE_SHIFT mod PT_ENTRY_COUNT.
Definition vaddr_to_offset (vaddr : Z) : Z := Z.land vaddr (PAGE_SIZE - 1).

Definition present (e : Z) : bool := negb (Z.land PT_PRESENT e =? 0).

(** ** State *)
Record ptst := PtSt {
  phys : gmap Z Z;
  cr3 : Z;
  current_pagedir : Z;
  template_pagedir : Z;
  phys_map_count : Z;
  final_page : Z;
  pt_pages : pstate
}.

Definition up_phys f s := PtSt (f (phys s)) (cr3 s) (current_pagedir s) (template_pagedir s) (phys_map_count s) (final_page s) (pt_pages s).
Definition up_cr3 x s := PtSt (phys s) x (current_pagedir s) (template_pagedir s) (phys_map_count s) (final_page s) (pt_pages s).
Definition up_current x s := PtSt (phys s) (cr3 s) x (template_pagedir s) (phys_map_count s) (final_page s) (pt_pages s).
Definition up_template x s := PtSt (phys s) (cr3 s) (current_pagedir s) x (phys_map_count s) (final_page s) (pt_pages s).
Definition up_count x s := PtSt (phys s) (cr3 s) (current_pagedir s) (template_pagedir s) x (final_page s) (pt_pages s).
Definition up_final x s := PtSt (phys s) (cr3 s) (current_pagedir s) (template_pagedir s) (phys_map_count s) x (pt_pages s).
Definition up_ptpages x s := PtSt (phys s) (cr3 s) (current_pagedir s) (template_pagedir s) (phys_map_count s) (final_page s) x.

Abbreviation T := (kern ptst).

(** A call of the page allocator. *)
Definition on_pages {A} (p : P A) : T A := fun s =>
  match p (pt_pages s) with
  | Done a ps => Done a (up_ptpages ps s)
  | Panic => Panic
  | Stuck => Stuck
  | Blocked => Blocked
  end.

(** ** The paging hardware *)
Definition translate (m : gmap Z Z) (root vaddr : Z) : option Z :=
  pde ← m !! (root + 4 * vaddr_to_pdindex vaddr);
  if negb (present pde) then None
  else
    pte ← m !! (Z.land pde PAGE_MASK + 4 * vaddr_to_ptindex vaddr);
    if negb (present pte) then None
    else Some (Z.land pte PAGE_MASK + vaddr_to_offset vaddr).

(** Access to the 32-bit word at a virtual address. *)
Definition load (vaddr : Z) : T Z := fun s =>
  match translate (phys s) (cr3 s) vaddr with
  | None => Panic
  | Some pa => deref (phys s !! pa) s
  end.

Definition store (vaddr w : Z) : T unit := fun s =>
  match translate (phys s) (cr3 s) vaddr with
  | None => Panic
  | Some pa => match phys s !! pa with
               | None => Stuck
               | Some _ => Done tt (up_phys <[pa := w]> s)
               end
  end.

(** [memset(vaddr, 0, 4 * n)] and [memcpy(dst, src, 4 * n)], by words. *)
Fixpoint memzero (vaddr : Z) (n : nat) : T unit :=
  match n with
  | O => ret tt
  | S n => store vaddr 0 ;; memzero (vaddr + 4) n
  end.

Fixpoint memcpy_words (dst src : Z) (n : nat) : T unit :=
  match n with
  | O => ret tt
  | S n => let* w := load src in store dst w ;; memcpy_words (dst + 4) (src + 4) n
  end.

(** [pd->pd_physical[i]] and [pd->pd_virtual[i]] *)
Definition pd_physical (pd i : Z) : Z := pd + 4 * i.
Definition pd_virtual (pd i : Z) : Z := pd + PAGE_SIZE + 4 * i.

(** ** Mappings of physical addresses *)
Definition pt_phys_tmp_map (paddr : Z) : T Z :=
  kassert (PAGE_ALIGNED paddr) ;;
  let* fp := gets final_page in
  store (fp + 4 * (PT_ENTRY_COUNT - 1)) (Z.lor (Z.lor paddr PT_PRESENT) PT_WRITE) ;;
  ret (UPTR_MAX - PAGE_SIZE + 1).

(** [for (i = 0; i < count; ++i)]: [n] entries, from index [i]. *)
Fixpoint perm_entries (fp c paddr i : Z) (n : nat) : T unit :=
  match n with
  | O => ret tt
  | S n =>
      store (fp + 4 * (PT_ENTRY_COUNT - c + i)) (Z.lor (Z.lor (u32 (paddr + PAGE_SIZE * i)) PT_PRESENT) PT_WRITE) ;;
      perm_entries fp c paddr (i + 1) n
  end.

Definition pt_phys_perm_map (paddr count : Z) : T Z :=
  kassert (PAGE_ALIGNED paddr) ;;
  modify (fun s => up_count (u32 (phys_map_count s + count)) s) ;;
  let* c := gets phys_map_count in
  kassert (c <? PT_ENTRY_COUNT) ;;
  let* fp := gets final_page in
  perm_entries fp c paddr 0 (Z.to_nat count) ;;
  ret (u32 (UPTR_MAX - PAGE_SIZE * c + 1)).

Definition pt_virt_to_phys (vaddr : Z) : T Z :=
  let table := vaddr_to_pdindex vaddr in
  let entry := vaddr_to_ptindex vaddr in
  let offset := vaddr_to_offset vaddr in
  let* cur := gets current_pagedir in
  let* pde := load (pd_physical cur table) in
  let* pagetable := pt_phys_tmp_map (Z.land pde PAGE_MASK) in
  let* pte := load (pagetable + 4 * entry) in
  ret (u32 (Z.land pte PAGE_MASK + offset)).

Definition pt_set (pd : Z) : T unit :=
  let* pdir := pt_virt_to_phys pd in
  modify (up_current pd) ;;
  modify (up_cr3 pdir).

Definition pt_get : T Z := gets current_pagedir.

(** ** User mappings *)
Section Alloc.
Context `{Reclaim}.

Definition pt_map (pd vaddr paddr pdflags ptflags : Z) : T Z :=
  kassert (PAGE_ALIGNED vaddr && PAGE_ALIGNED paddr) ;;
  kassert ((USER_MEM_LOW <=? vaddr) && (vaddr <? USER_MEM_HIGH)) ;;
  let index := vaddr_to_pdindex vaddr in
  let* pde := load (pd_physical pd index) in
  let* pt :=
    (if negb (present pde) then
       let* pt := on_pages page_alloc in
       match pt with
       | None => ret None
       | Some pt =>
           kassert (Z.land pdflags (PAGE_SIZE - 1) =? pdflags) ;;
           memzero pt (Z.to_nat PT_ENTRY_COUNT) ;;
           let* pa := pt_virt_to_phys pt in
           store (pd_physical pd index) (Z.lor pa pdflags) ;;
           store (pd_virtual pd index) pt ;;
           ret (Some pt)
       end
     else
       store (pd_physical pd index) (Z.lor pde pdflags) ;;
       let* pt := load (pd_virtual pd index) in
       ret (Some pt)) in
  match pt with
  | None => ret (- Vnode.ENOMEM)
  | Some pt =>
      let index := vaddr_to_ptindex vaddr in
      kassert (Z.land ptflags (PAGE_SIZE - 1) =? ptflags) ;;
      store (pt + 4 * index) (Z.lor paddr ptflags) ;;
      ret 0
  end.

Definition pt_unmap (pd vaddr : Z) : T unit :=
  kassert (PAGE_ALIGNED vaddr) ;;
  kassert ((USER_MEM_LOW <=? vaddr) && (vaddr <? USER_MEM_HIGH)) ;;
  let index := vaddr_to_pdindex vaddr in
  let* pde := load (pd_physical pd index) in
  if present pde then
    let* pt := load (pd_virtual pd index) in
    store (pt + 4 * vaddr_to_ptindex vaddr) 0
  else ret tt.

(** [for (i = ...; i < ...; ++i)]: [n] whole page tables, from index [i]. *)
Fixpoint unmap_tables (pd i : Z) (n : nat) : T unit :=
  match n with
  | O => ret tt
  | S n =>
      let* pde := load (pd_physical pd i) in
      (if present pde then
         let* pt := load (pd_virtual pd i) in
         on_pages (page_free pt) ;;
         store (pd_virtual pd i) 0 ;;
         store (pd_physical pd i) 0
       else ret tt) ;;
      unmap_tables pd (i + 1) n
  end.

Definition pt_unmap_range (pd vlow vhigh : Z) : T unit :=
  kassert (vlow <? vhigh) ;;
  kassert (PAGE_ALIGNED vlow && PAGE_ALIGNED vhigh) ;;
  kassert ((USER_MEM_LOW <=? vlow) && (vhigh <=? USER_MEM_HIGH)) ;;
  let index := vaddr_to_ptindex vlow in
  let* pde := load (pd_physical pd (vaddr_to_pdindex vlow)) in
  (if present pde && negb (index =? 0) then
     let* pt := load (pd_virtual pd (vaddr_to_pdindex vlow)) in
     memzero (pt + 4 * index) (Z.to_nat (PT_ENTRY_COUNT - index))
   else ret tt) ;;
  let vlow := u32 (vlow + PAGE_SIZE * ((PT_ENTRY_COUNT - index) mod PT_ENTRY_COUNT)) in
  let index := vaddr_to_ptindex vhigh in
  let* pde := load (pd_physical pd (vaddr_to_pdindex vhigh)) in
  (if present pde && negb (index =? 0) then
     let* pt := load (pd_virtual pd (vaddr_to_pdindex vhigh)) in
     memzero (pt + 4 * 0) (Z.to_nat index)
   else ret tt) ;;
  let vhigh := u32 (vhigh - PAGE_SIZE * index) in
  unmap_tables pd (vaddr_to_pdindex vlow) (Z.to_nat (vaddr_to_pdindex vhigh - vaddr_to_pdindex vlow)).

(** ** Page directories *)

(** [KASSERT(sizeof(pagedir_t) == PAGE_SIZE * 2)] holds by the definition of
    [SIZEOF_PAGEDIR]. *)
Definition pt_create_pagedir : T (option Z) :=
  kassert (SIZEOF_PAGEDIR =? PAGE_SIZE * 2) ;;
  let* pdir := on_pages (page_alloc_n 2) in
  match pdir with
  | None => ret None
  | Some pdir =>
      let* t := gets template_pagedir in
      memcpy_words pdir t (Z.to_nat (SIZEOF_PAGEDIR / 4)) ;;
      ret (Some pdir)
  end.

(** [for (i = begin; i <= end; ++i)]: [n] entries, from index [i]. *)
Fixpoint free_tables (pdir i : Z) (n : nat) : T unit :=
  match n with
  | O => ret tt
  | S n =>
      let* pde := load (pd_physical pdir i) in
      (if present pde then
         let* pt := load (pd_virtual pdir i) in on_pages (page_free pt)
       else ret tt) ;;
      free_tables pdir (i + 1) n
  end.

Definition pt_destroy_pagedir (pdir : Z) : T unit :=
  kassert (PAGE_ALIGNED pdir) ;;
  let begin := USER_MEM_LOW / PT_VADDR_SIZE in
  let end_ := (USER_MEM_HIGH - 1) / PT_VADDR_SIZE in
  kassert ((begin <? end_) && (0 <? begin)) ;;
  free_tables pdir begin (Z.to_nat (end_ - begin + 1)) ;;
  on_pages (page_free_n pdir 2).

(** ** Set-up *)

(** [phys_detect_highmem]: the end of the usable range the kernel is in, from the
    memory map the boot loader left; [n] entries, from number [i]. *)
Fixpoint highmem_entries (i : Z) (n : nat) : T Z :=
  match n with
  | O => panic
  | S n =>
      let entry := MEMORY_MAP_BASE + 4 + 24 * i in
      let* base := load entry in
      let* length := load (entry + 8) in
      let* type := load (entry + 16) in
      if (1 =? type) && (base <=? KERNEL_PHYS_BASE) && (KERNEL_PHYS_BASE <? u32 (base + length))
      then ret (u32 (base + length))
      else highmem_entries (i + 1) n
  end.

Definition phys_detect_highmem : T Z :=
  let* count := load MEMORY_MAP_BASE in
  highmem_entries 0 (Z.to_nat count).

(** The entries of a page table that maps [pstart] and what follows. *)
Fixpoint fill_entries (pt ptflags pstart i : Z) (n : nat) : T unit :=
  match n with
  | O => ret tt
  | S n =>
      store (pt + 4 * i) (Z.land (u32 (i * PAGE_SIZE + pstart)) PAGE_MASK) ;;
      let* e := load (pt + 4 * i) in
      store (pt + 4 * i) (Z.lor e (Z.land ptflags (PAGE_SIZE - 1))) ;;
      fill_entries pt ptflags pstart (i + 1) n
  end.

Definition _pt_fill_page (pd pt pdflags ptflags vstart pstart : Z) : T unit :=
  kassert (negb (pd =? 0) && negb (pt =? 0)) ;;
  kassert (0 =? vstart mod PT_VADDR_SIZE) ;;
  memzero pt (Z.to_nat PT_ENTRY_COUNT) ;;
  fill_entries pt ptflags pstart 0 (Z.to_nat PT_ENTRY_COUNT) ;;
  let base := vaddr_to_pdindex vstart in
  let table := vaddr_to_pdindex pt in
  let entry := vaddr_to_ptindex pt in
  let* temppdir := gets cr3 in
  let* pde := load (temppdir + 4 * table) in
  let* pagetable := pt_phys_tmp_map (Z.land pde PAGE_MASK) in
  let* pte := load (pagetable + 4 * entry) in
  let page := Z.land pte PAGE_MASK in
  store (pd_physical pd base) (Z.lor page (Z.land pdflags (PAGE_SIZE - 1))) ;;
  store (pd_virtual pd base) pt.

(** The [do ... while (paddr < physmax)] loop: one page table per 4 MB.  The
    result is [pagetable] after the loop. *)
Fixpoint map_kernel (fuel : nat) (pagedir pagetable vaddr paddr physmax : Z) : T Z :=
  match fuel with
  | O => blocked
  | S fuel =>
      let pagetable := pagetable + 4 * PT_ENTRY_COUNT in
      let vaddr := u32 (vaddr + PT_VADDR_SIZE) in
      let paddr := u32 (paddr + PT_VADDR_SIZE) in
      _pt_fill_page pagedir pagetable (Z.lor PD_PRESENT PD_WRITE) (Z.lor PT_PRESENT PT_WRITE) vaddr paddr ;;
      if paddr <? physmax then map_kernel fuel pagedir pagetable vaddr paddr physmax else ret pagetable
  end.

(** [kernel_end] is set by the linker. *)
Definition pt_init (kernel_end : Z) : T unit :=
  let* temppdir := gets cr3 in
  let pagedir := kernel_end in
  kassert (PAGE_ALIGNED pagedir) ;;
  memzero pagedir (Z.to_nat (SIZEOF_PAGEDIR / 4)) ;;
  let fp := pagedir + SIZEOF_PAGEDIR in
  modify (up_final fp) ;;
  kassert (PAGE_ALIGNED fp) ;;
  memzero fp (Z.to_nat PT_ENTRY_COUNT) ;;
  store (temppdir + 4 * (PT_ENTRY_COUNT - 1))
    (Z.lor (Z.lor (u32 (fp - kernel_start + KERNEL_PHYS_BASE)) PT_PRESENT) PT_WRITE) ;;
  let* e := load (temppdir + 4 * (PT_ENTRY_COUNT - 1)) in
  store (pd_physical pagedir (PT_ENTRY_COUNT - 1)) e ;;
  store (pd_virtual pagedir (PT_ENTRY_COUNT - 1)) fp ;;
  let pagetable := fp + 4 * PT_ENTRY_COUNT in
  _pt_fill_page pagedir pagetable (Z.lor PD_PRESENT PD_WRITE) (Z.lor PT_PRESENT PT_WRITE) 0 0 ;;
  let pagetable := pagetable + 4 * PT_ENTRY_COUNT in
  _pt_fill_page pagedir pagetable (Z.lor PD_PRESENT PD_WRITE) (Z.lor PT_PRESENT PT_WRITE)
    kernel_start KERNEL_PHYS_BASE ;;
  modify (up_current pagedir) ;;
  pt_set pagedir ;;
  let* physmax := phys_detect_highmem in
  let* last := map_kernel 1024 pagedir pagetable kernel_start KERNEL_PHYS_BASE physmax in
  on_pages (page_add_range (u32 (last + PT_ENTRY_COUNT)) (u32 (physmax + kernel_start - KERNEL_PHYS_BASE))).

Definition pt_template_init : T unit :=
  let* cur := gets current_pagedir in
  let* low := load (pd_virtual cur 0) in
  memzero low (Z.to_nat PT_ENTRY_COUNT) ;;
  let* t := on_pages (page_alloc_n 2) in
  match t with
  | None => modify (up_template 0) ;; panic
  | Some t =>
      modify (up_template t) ;;
      memcpy_words t cur (Z.to_nat (SIZEOF_PAGEDIR / 4))
  end.
End Alloc.
End PageTable.
