(* ===== verification/PageTableSpec.v ===== *)
(** * Page tables: address spaces behind the hardware's walk

    The invariant of [PageTable]: the kernel's memory is mapped linearly in every
    page directory, the directories and page tables are pages of that memory, no
    two of them the same, none of them free.  Over it a page directory is a
    function from user pages to page table entries, and the operations change
    that function and no other. *)

From Stdlib Require Import ZArith Lia.
From stdpp Require Import base list gmap.
From S2P Require Import Prelude Page PageSpec PageTable.

Module PageTableSpec.
Import Page PageSpec PageTable.
Local Open Scope Z_scope.

(** ** Addresses and entries *)
Lemma pdindex_div va : vaddr_to_pdindex va = va / 4194304.
Proof.
  unfold vaddr_to_pdindex, PAGE_SHIFT, PT_ENTRY_COUNT. rewrite Z.shiftr_div_pow2 by lia.
  rewrite Z.div_div by lia. done.
Qed.

Lemma ptindex_mod va : vaddr_to_ptindex va = va / 4096 mod 1024.
Proof. unfold vaddr_to_ptindex, PAGE_SHIFT, PT_ENTRY_COUNT. by rewrite Z.shiftr_div_pow2 by lia. Qed.

Lemma offset_mod va : vaddr_to_offset va = va mod 4096.
Proof. unfold vaddr_to_offset. change (PAGE_SIZE - 1) with (Z.ones 12). by rewrite Z.land_ones by lia. Qed.

Lemma mask_down e : 0 <= e < 2 ^ 32 -> Z.land e PAGE_MASK = e - e mod 4096.
Proof. intros He. exact (land_high e 12 He ltac:(lia)). Qed.

Lemma mask_flags e f : 0 <= f < 4096 -> Z.land (Z.lor e f) PAGE_MASK = Z.land e PAGE_MASK.
Proof.
  intros Hf. rewrite Z.land_lor_distr_l, (mask_down f) by lia. rewrite (Z.mod_small f) by lia.
  by rewrite Z.sub_diag, Z.lor_0_r.
Qed.

Lemma mask_page a f : 0 <= a < 2 ^ 32 -> a mod 4096 = 0 -> 0 <= f < 4096 -> Z.land (Z.lor a f) PAGE_MASK = a.
Proof. intros Ha Hm Hf. rewrite mask_flags, mask_down by lia. lia. Qed.

Lemma present_odd e : present e = Z.odd e.
Proof.
  unfold present, PT_PRESENT. rewrite Z.land_comm. change 1 with (Z.ones 1). rewrite Z.land_ones by lia.
  change (2 ^ 1) with 2. rewrite Zmod_odd. by destruct (Z.odd e).
Qed.

Lemma present_lor e f : present (Z.lor e f) = present e || present f.
Proof. rewrite !present_odd, <- !Z.bit0_odd. apply Z.lor_spec. Qed.

Lemma present_page a f : a mod 4096 = 0 -> present (Z.lor a f) = present f.
Proof.
  intros Ha. rewrite present_lor. replace (present a) with false; [done|]. rewrite present_odd. symmetry.
  apply not_true_is_false. rewrite Z.odd_spec. intros [k ->]. dlia.
Qed.

Lemma flags_low f : Z.land f (PAGE_SIZE - 1) = f <-> 0 <= f < 4096.
Proof.
  change (PAGE_SIZE - 1) with (Z.ones 12). rewrite Z.land_ones by lia. change (2 ^ 12) with 4096.
  split; [intros <-; dlia|intros; by apply Z.mod_small].
Qed.

Lemma aligned_mod x : PAGE_ALIGNED x = true <-> x mod 4096 = 0.
Proof. unfold PAGE_ALIGNED. change PAGE_SIZE with 4096. apply Z.eqb_eq. Qed.

(** ** The kernel's memory *)

(** Kernel memory ends at [l_top]; [l_ktab i] is the page table for directory
    index [i], [l_final] the one for the last index. *)
Record layout := Layout { l_top : Z; l_ktab : Z -> Z; l_final : Z }.

Definition k2p (va : Z) : Z := va - kernel_start + KERNEL_PHYS_BASE.

(** A word and a page of kernel memory. *)
Definition kword (L : layout) (va : Z) : Prop := kernel_start <= va < l_top L /\ va mod 4 = 0.
Definition kpage (L : layout) (a : Z) : Prop := kernel_start <= a /\ a + 4096 <= l_top L /\ a mod 4096 = 0.

(** The directory indices of kernel memory. *)
Definition kidx (L : layout) (i : Z) : Prop := 768 <= i /\ i * 4194304 < l_top L.

(** Word [j] of the page at [a]. *)
Definition word (a j : Z) : Z := a + 4 * j.

Lemma word_kword L a j : kpage L a -> 0 <= j < 1024 -> kword L (word a j).
Proof. intros (H1 & H2 & H3) Hj. unfold kword, word. split; [lia|dlia]. Qed.

Lemma word_inj a b i j : a mod 4096 = 0 -> b mod 4096 = 0 -> 0 <= i < 1024 -> 0 <= j < 1024 ->
  word a i = word b j -> a = b /\ i = j.
Proof. unfold word. intros. dlia. Qed.

Lemma k2p_word a j : k2p (word a j) = k2p a + 4 * j.
Proof. unfold k2p, word. lia. Qed.

(** The page tables of the kernel map its memory linearly. *)
Record kernel_map (L : layout) (m : gmap Z Z) : Prop := {
  km_top : kernel_start < l_top L <= 0xffc00000 /\ l_top L mod 4096 = 0;
  km_ram va : kword L va -> is_Some (m !! k2p va);
  km_tab i : kidx L i -> kpage L (l_ktab L i);
  km_final : kpage L (l_final L);
  km_pte a : kpage L a -> exists e,
    m !! k2p (word (l_ktab L (vaddr_to_pdindex a)) (vaddr_to_ptindex a)) = Some e /\
    present e = true /\ Z.land e PAGE_MASK = k2p a
}.

(** The page table the directory has at index [i] in every address space. *)
Definition ktable (L : layout) (i : Z) : Z := if i =? 1023 then l_final L else l_ktab L i.

Definition pd_kernel (L : layout) (m : gmap Z Z) (p : Z) : Prop :=
  forall i, kidx L i \/ i = 1023 -> exists e,
    m !! k2p (word p i) = Some e /\ present e = true /\ Z.land e PAGE_MASK = k2p (ktable L i).

Lemma kidx_of L va : l_top L <= 0xffc00000 -> kernel_start <= va < l_top L ->
  kidx L (vaddr_to_pdindex va) /\ vaddr_to_pdindex va <> 1023.
Proof.
  intros HT Hva. rewrite pdindex_div. unfold kidx, kernel_start in *. split; [dlia|]. dlia.
Qed.

(** The page an address is on. *)
Definition page_down (va : Z) : Z := va - va mod 4096.

Lemma page_down_spec L va : kernel_start <= va < l_top L -> l_top L mod 4096 = 0 ->
  kpage L (page_down va) /\ vaddr_to_pdindex (page_down va) = vaddr_to_pdindex va /\
  vaddr_to_ptindex (page_down va) = vaddr_to_ptindex va.
Proof.
  intros Hva HT. rewrite !pdindex_div, !ptindex_mod. unfold kpage, page_down, kernel_start in *. split; [dlia|].
  clear. split; [dlia|f_equal; dlia].
Qed.

(** The hardware takes every kernel address where the kernel expects it. *)
Lemma translate_kernel L m p va : kernel_map L m -> pd_kernel L m p -> kernel_start <= va < l_top L ->
  translate m (k2p p) va = Some (k2p va).
Proof.
  intros Hk Hp Hva. destruct (km_top _ _ Hk) as [HT Hal].
  destruct (kidx_of L va ltac:(lia) Hva) as [Hi Hne].
  destruct (Hp _ (or_introl Hi)) as (pde & E1 & P1 & M1). unfold translate. rewrite <- k2p_word, E1. cbn [mbind option_bind].
  rewrite P1. cbn [negb]. rewrite M1. unfold ktable. destruct (Z.eqb_spec (vaddr_to_pdindex va) 1023); [done|].
  destruct (page_down_spec L va Hva Hal) as (Ha & Ed & Et). destruct (km_pte _ _ Hk _ Ha) as (pte & E2 & P2 & M2).
  rewrite Ed, Et in E2. rewrite <- k2p_word, E2. cbn [mbind option_bind]. rewrite P2. cbn [negb].
  rewrite M2, offset_mod. unfold k2p, page_down. f_equal. lia.
Qed.

(** ** Memory as words of pages *)
Definition mw (m : gmap Z Z) (a j : Z) : option Z := m !! k2p (word a j).

Definition wr (a j w : Z) (m : gmap Z Z) : gmap Z Z := <[k2p (word a j) := w]> m.

Lemma mw_wr m a j w b i : a mod 4096 = 0 -> b mod 4096 = 0 -> 0 <= j < 1024 -> 0 <= i < 1024 ->
  mw (wr a j w m) b i = if bool_decide (b = a /\ i = j) then Some w else mw m b i.
Proof.
  intros Ha Hb Hj Hi. unfold mw, wr. case_bool_decide as E.
  - destruct E as [-> ->]. apply lookup_insert_eq.
  - apply lookup_insert_ne. intros E'. apply E. apply word_inj; try done. unfold k2p in E'. lia.
Qed.

Lemma kword_split L va : kword L va -> l_top L mod 4096 = 0 -> exists a j, kpage L a /\ 0 <= j < 1024 /\ va = word a j.
Proof.
  intros (Hva & H4) HT. exists (va - va mod 4096), ((va mod 4096) / 4). unfold kpage, word, kernel_start in *.
  split_and!; dlia.
Qed.

(** The code can reach kernel memory through the directory [p]. *)
Definition live (L : layout) (p : Z) (m : gmap Z Z) : Prop := kernel_map L m /\ pd_kernel L m p /\ kpage L p.

(** Words the kernel's own mappings depend on. *)
Definition core (L : layout) (p a j : Z) : Prop := (exists i, kidx L i /\ a = l_ktab L i) \/ (a = p /\ 768 <= j).

Lemma live_same L p m m' :
  live L p m -> (forall va, kword L va -> is_Some (m' !! k2p va)) ->
  (forall a j, kpage L a -> 0 <= j < 1024 -> core L p a j -> mw m' a j = mw m a j) -> live L p m'.
Proof.
  intros (Hk & Hp & Hpp) Hram Hsame. destruct (km_top _ _ Hk) as [HT Hal]. split_and!; [|intros i Hi|done].
  - destruct Hk as [H1 H2 H3 H4 H5]. split; try done. intros a Ha. destruct (H5 a Ha) as (e & E & He).
    exists e. split; [|done]. rewrite <- E.
    assert (kidx L (vaddr_to_pdindex a)) as Hi by (apply kidx_of; [lia|destruct Ha; lia]).
    apply Hsame; [by apply H3|rewrite ptindex_mod; dlia|left; eauto].
  - destruct (Hp i Hi) as (e & E & He). exists e. split; [|done]. rewrite <- E.
    assert (768 <= i < 1024) as Hr by (destruct Hi as [[? ?]|]; unfold kernel_start in *; lia).
    apply Hsame; [done|lia|right; split; [done|lia]].
Qed.

Lemma live_wr L p m a j w : live L p m -> kpage L a -> 0 <= j < 1024 -> ~ core L p a j -> live L p (wr a j w m).
Proof.
  intros Hl Ha Hj Hc. pose proof (km_ram _ _ (proj1 Hl)) as Hram. apply (live_same L p m); [done| |].
  - intros va Hva. unfold wr. destruct (decide (k2p (word a j) = k2p va)) as [<-|]; [rewrite lookup_insert_eq; eauto|].
    rewrite lookup_insert_ne by done. by apply Hram.
  - intros b i Hb Hi Hcb. rewrite mw_wr; try done; [|apply Ha|apply Hb]. rewrite bool_decide_eq_false_2; [done|].
    intros [-> ->]. done.
Qed.

(** ** Loads and stores *)
Definition in_space (L : layout) (s : ptst) (p : Z) : Prop := live L p (phys s) /\ cr3 s = k2p p.

Lemma vload_run L s p a j w : in_space L s p -> kpage L a -> 0 <= j < 1024 -> mw (phys s) a j = Some w ->
  load (word a j) s = Done w s.
Proof.
  intros ((Hk & Hp & _) & Hc) Ha Hj Hw. unfold load.
  rewrite Hc, (translate_kernel L _ p) by (done || destruct (word_kword L a j Ha Hj); done).
  unfold deref. unfold mw in Hw. by rewrite Hw.
Qed.

Lemma store_run L s p a j w : in_space L s p -> kpage L a -> 0 <= j < 1024 ->
  store (word a j) w s = Done tt (up_phys (wr a j w) s).
Proof.
  intros ((Hk & Hp & _) & Hc) Ha Hj. unfold store. pose proof (word_kword L a j Ha Hj) as Hkw.
  rewrite Hc, (translate_kernel L _ p) by (done || apply Hkw).
  destruct (km_ram _ _ Hk _ Hkw) as [x Hx]. by rewrite Hx.
Qed.

Lemma mw_some L s p a j : in_space L s p -> kpage L a -> 0 <= j < 1024 -> exists w, mw (phys s) a j = Some w.
Proof. intros ((Hk & _) & _) Ha Hj. apply (km_ram _ _ Hk). by apply word_kword. Qed.

(** Zeroing words [j] to [j + n - 1] of a page. *)
Fixpoint zero_words (a j : Z) (n : nat) (m : gmap Z Z) : gmap Z Z :=
  match n with O => m | S n => zero_words a (j + 1) n (wr a j 0 m) end.

Lemma mw_zero a n : forall j m b i, a mod 4096 = 0 -> b mod 4096 = 0 -> 0 <= j -> j + Z.of_nat n <= 1024 -> 0 <= i < 1024 ->
  mw (zero_words a j n m) b i = if bool_decide (b = a /\ j <= i < j + Z.of_nat n) then Some 0 else mw m b i.
Proof.
  induction n as [|n IH]; intros j m b i Ha Hb Hj Hn Hi; cbn [zero_words].
  - by rewrite bool_decide_eq_false_2 by lia.
  - rewrite IH by (done || lia). rewrite mw_wr by (done || lia).
    repeat case_bool_decide; try done; try lia.
Qed.

Lemma memzero_run L p a n : forall j s, in_space L s p -> kpage L a -> 0 <= j -> j + Z.of_nat n <= 1024 ->
  (forall i, j <= i < j + Z.of_nat n -> ~ core L p a i) ->
  memzero (word a j) n s = Done tt (up_phys (zero_words a j n) s) /\ in_space L (up_phys (zero_words a j n) s) p.
Proof.
  induction n as [|n IH]; intros j s Hs Ha Hj Hn Hc; cbn [memzero zero_words].
  { by destruct s. }
  krun (store_run L s p a j 0 Hs Ha ltac:(lia)). replace (word a j + 4) with (word a (j + 1)) by (unfold word; lia).
  destruct (IH (j + 1) (up_phys (wr a j 0) s)) as [E Hs']; try done; try lia.
  - destruct Hs as [Hl Hcr]. split; [|done]. apply live_wr; try done; [lia|]. apply Hc. lia.
  - intros i Hi. apply Hc. lia.
Qed.

(** ** The window at the end of the address space *)

(** A word of the page at physical address [paddr], seen through the window. *)
Lemma window_load L s p paddr e f w : in_space L s p ->
  mw (phys s) (l_final L) 1023 = Some (Z.lor paddr f) -> 0 <= f < 4096 -> present f = true ->
  0 <= paddr < 2 ^ 32 -> paddr mod 4096 = 0 -> 0 <= e < 1024 -> phys s !! (paddr + 4 * e) = Some w ->
  load (UPTR_MAX - PAGE_SIZE + 1 + 4 * e) s = Done w s.
Proof.
  intros ((Hk & Hp & _) & Hc) Hf Hf0 Hfp Hpa Hal He Hw.
  destruct (Hp 1023 (or_intror eq_refl)) as (pde & E1 & P1 & M1). change (ktable L 1023) with (l_final L) in M1.
  unfold load, translate. rewrite Hc. set (va := UPTR_MAX - PAGE_SIZE + 1 + 4 * e).
  assert (va = 4294963200 + 4 * e) as Eva by done. clearbody va. subst va.
  rewrite pdindex_div, ptindex_mod, offset_mod.
  replace ((4294963200 + 4 * e) / 4194304) with 1023 by dlia.
  replace ((4294963200 + 4 * e) / 4096 mod 1024) with 1023 by dlia.
  replace ((4294963200 + 4 * e) mod 4096) with (4 * e) by dlia.
  rewrite <- k2p_word, E1. cbn [mbind option_bind]. rewrite P1. cbn [negb]. rewrite M1.
  unfold mw in Hf. rewrite <- k2p_word, Hf. cbn [mbind option_bind].
  rewrite present_page, Hfp by done. cbn [negb]. rewrite mask_page by done. unfold deref. by rewrite Hw.
Qed.

Lemma k2p_range L a : l_top L <= 0xffc00000 -> kpage L a -> 0 <= k2p a < 2 ^ 32 /\ k2p a mod 4096 = 0.
Proof.
  intros HT (H1 & H2 & H3).
  unfold k2p, kernel_start, KERNEL_PHYS_BASE in *. split; [lia|dlia].
Qed.

(** [pt_virt_to_phys] of a kernel address undoes the linear mapping. *)
Lemma virt_to_phys_run L s p va :
  in_space L s p -> current_pagedir s = p -> final_page s = l_final L -> (forall i, kidx L i -> l_ktab L i <> l_final L) ->
  p <> l_final L -> kernel_start <= va < l_top L ->
  exists w, pt_virt_to_phys va s = Done (k2p va) (up_phys (wr (l_final L) 1023 w) s) /\
    in_space L (up_phys (wr (l_final L) 1023 w) s) p.
Proof.
  intros Hs Hcur Hfin Hnt Hnp Hva. pose proof Hs as ((Hk & Hp & Hpp) & Hc). destruct (km_top _ _ Hk) as [HT Hal].
  destruct (kidx_of L va ltac:(lia) Hva) as [Hi Hne]. set (i := vaddr_to_pdindex va) in *.
  destruct (Hp _ (or_introl Hi)) as (pde & E1 & P1 & M1). unfold ktable in M1. destruct (Z.eqb_spec i 1023); [done|].
  assert (768 <= i < 1023) as Hir by (destruct Hi; unfold kernel_start in *; lia).
  pose proof (km_tab _ _ Hk i Hi) as Ht. pose proof (km_final _ _ Hk) as Hf.
  destruct (k2p_range L _ ltac:(lia) Ht) as [Hr Hm].
  set (w := Z.lor (Z.lor (k2p (l_ktab L i)) PT_PRESENT) PT_WRITE).
  assert (w = Z.lor (k2p (l_ktab L i)) 3) as Ew by (unfold w; by rewrite <- Z.lor_assoc).
  assert (~ core L p (l_final L) 1023) as Hnc by (intros [(j & Hj & E)|[E _]]; [by apply (Hnt j)|done]).
  set (s1 := up_phys (wr (l_final L) 1023 w) s).
  assert (in_space L s1 p) as Hs1 by (split; [by apply live_wr; [apply Hs| |lia|]|done]).
  exists w. split; [|done]. unfold pt_virt_to_phys. erewrite bind_done by reflexivity. rewrite Hcur.
  change (pd_physical p (vaddr_to_pdindex va)) with (word p i).
  krun (vload_run L s p p i pde Hs Hpp ltac:(lia) E1). rewrite M1. unfold pt_phys_tmp_map.
  rewrite bind_assoc. krun (kassert_true (PAGE_ALIGNED (k2p (l_ktab L i))) s (proj2 (aligned_mod _) Hm)).
  rewrite bind_assoc. erewrite bind_done by reflexivity. rewrite Hfin, bind_assoc.
  change (l_final L + 4 * (PT_ENTRY_COUNT - 1)) with (word (l_final L) 1023).
  krun (store_run L s p (l_final L) 1023 w Hs Hf ltac:(lia)). erewrite bind_done by reflexivity. fold s1.
  destruct (page_down_spec L va Hva Hal) as (Ha & Ed & Et).
  destruct (km_pte _ _ (proj1 (proj1 Hs1)) _ Ha) as (pte & E2 & P2 & M2). rewrite Ed, Et, k2p_word in E2.
  assert (load (UPTR_MAX - PAGE_SIZE + 1 + 4 * vaddr_to_ptindex va) s1 = Done pte s1) as El.
  { eapply (window_load L s1 p (k2p (l_ktab L i)) _ 3); try done.
    - cbn [phys up_phys s1]. rewrite mw_wr; try lia; [|apply Hf|apply Hf]. rewrite bool_decide_eq_true_2 by done.
      by rewrite Ew.
    - rewrite ptindex_mod. clear. dlia. }
  krun El. rewrite M2, offset_mod. unfold ret. f_equal.
  rewrite u32_small; [unfold k2p, page_down; lia|]. unfold k2p, page_down, kernel_start, KERNEL_PHYS_BASE in *. dlia.
Qed.
End PageTableSpec.
