(* ===== verification/PageTableOps.v ===== *)
(** * Page tables: the operations on address spaces

    The invariant over the page directories there are, and what [pt_map],
    [pt_unmap], [pt_unmap_range], [pt_create_pagedir], [pt_destroy_pagedir] and
    [pt_set] do to the address spaces they stand for. *)

From Stdlib Require Import ZArith Lia.
From stdpp Require Import base list gmap.
From S2P Require Import Prelude Vnode Page PageSpec PageTable PageTableSpec.

Module PageTableOps.
Import Page PageSpec PageTable PageTableSpec.
Local Open Scope Z_scope.

(** ** The structures there are *)

(** The page directories, by address, with their user page tables by index. *)
Abbreviation dirs := (gmap Z (gmap Z Z)).

Inductive owner := OTab (i : Z) | OFinal | ODir (p : Z) | ODirV (p : Z) | OUser (p i : Z).

(** What a page in use is. *)
Inductive owns (L : layout) (g : dirs) : owner -> Z -> Prop :=
| ow_tab i : kidx L i -> owns L g (OTab i) (l_ktab L i)
| ow_final : owns L g OFinal (l_final L)
| ow_dir p tabs : g !! p = Some tabs -> owns L g (ODir p) p
| ow_dirv p tabs : g !! p = Some tabs -> owns L g (ODirV p) (p + 4096)
| ow_user p tabs i t : g !! p = Some tabs -> tabs !! i = Some t -> owns L g (OUser p i) t.

Definition user_idx (i : Z) : Prop := 1 <= i < 768.

(** The user half of the directory [p]. *)
Definition user_dir (m : gmap Z Z) (p : Z) (tabs : gmap Z Z) : Prop :=
  forall i, user_idx i -> exists e, mw m p i = Some e /\
    match tabs !! i with
    | None => present e = false
    | Some t => present e = true /\ Z.land e PAGE_MASK = k2p t /\ mw m (p + 4096) i = Some t
    end.

Record spaces_ok (L : layout) (g : dirs) (m : gmap Z Z) : Prop := {
  so_kmap : kernel_map L m;
  so_kernel p tabs : g !! p = Some tabs -> pd_kernel L m p;
  so_user p tabs : g !! p = Some tabs -> user_dir m p tabs;
  so_idx p tabs i t : g !! p = Some tabs -> tabs !! i = Some t -> user_idx i;
  so_page o a : owns L g o a -> kpage L a;
  so_inj o o' a : owns L g o a -> owns L g o' a -> o = o'
}.

Record pt_ok (L : layout) (g : dirs) (s : ptst) : Prop := {
  pk_spaces : spaces_ok L g (phys s);
  pk_final : final_page s = l_final L;
  pk_cur : is_Some (g !! current_pagedir s);
  pk_cr3 : cr3 s = k2p (current_pagedir s);
  pk_tmpl : g !! template_pagedir s = Some ∅;
  pk_pages : pages_ok (pt_pages s);
  pk_free x : free_at (pt_pages s) x -> kernel_start <= x < l_top L;
  pk_used o a x : owns L g o a -> in_block a 0 x -> ~ free_at (pt_pages s) x;
  pk_tabs p tabs i t : g !! p = Some tabs -> tabs !! i = Some t -> allocated (pt_pages s) t 0
}.

(** Whether the words of a page matter to the invariant. *)
Definition structural (o : owner) : Prop := match o with OTab _ | ODir _ | ODirV _ => True | _ => False end.

Lemma spaces_live L g m p tabs : spaces_ok L g m -> g !! p = Some tabs -> live L p m.
Proof.
  intros Hs Hp. split_and!; [apply Hs|by eapply so_kernel|]. eapply (so_page _ _ _ Hs (ODir p)). by econstructor.
Qed.

Lemma ok_space L g s : pt_ok L g s -> in_space L s (current_pagedir s).
Proof.
  intros Hs. destruct (pk_cur _ _ _ Hs) as [tabs Ht]. split; [|apply Hs]. eapply spaces_live; [apply Hs|done].
Qed.

(** The invariant depends on the structural pages only. *)
Lemma spaces_same L g m m' : spaces_ok L g m -> (forall va, kword L va -> is_Some (m' !! k2p va)) ->
  (forall o a j, owns L g o a -> structural o -> 0 <= j < 1024 -> mw m' a j = mw m a j) -> spaces_ok L g m'.
Proof.
  intros Hs Hram Hsame. assert (forall p tabs, g !! p = Some tabs -> live L p m') as Hlive.
  { intros p tabs Hp. eapply live_same; [by eapply spaces_live|done|]. intros a j Ha Hj [(i & Hi & ->)|[-> Hj']].
    - apply (Hsame (OTab i)); [by constructor|done|done].
    - apply (Hsame (ODir p)); [by econstructor|done|done]. }
  pose proof Hs as [Hk Hkern Huser Hidx Hpage Hinj]. split; try done.
  - destruct Hk as [HT HR Htab Hfin Hpte]. split; try done. intros a Ha. destruct (Hpte a Ha) as (e & E & He).
    exists e. split; [|done]. rewrite <- E.
    assert (kidx L (vaddr_to_pdindex a)) by (apply kidx_of; [lia|destruct Ha; lia]).
    apply (Hsame (OTab (vaddr_to_pdindex a))); [by constructor|done|]. rewrite ptindex_mod. clear. dlia.
  - intros p tabs Hp. by destruct (Hlive p tabs Hp) as (_ & ? & _).
  - intros p tabs Hp i Hi. destruct (Huser p tabs Hp i Hi) as (e & E & He). unfold user_idx in Hi. exists e.
    rewrite (Hsame (ODir p) p i), (Hsame (ODirV p) (p + 4096) i); try done; try lia; by econstructor.
Qed.

(** A write to a page that is not structural. *)
Definition plain_page (L : layout) (g : dirs) (a : Z) : Prop := forall o, owns L g o a -> ~ structural o.

Lemma plain_core L g m p tabs a j : spaces_ok L g m -> g !! p = Some tabs -> plain_page L g a -> ~ core L p a j.
Proof.
  intros Hs Hp Hpl [(i & Hi & ->)|[-> _]]; [eapply (Hpl (OTab i))|eapply (Hpl (ODir p))]; try done; by econstructor.
Qed.

(** Changing words of plain pages keeps the invariant. *)
Lemma ok_same L g s m' : pt_ok L g s ->
  (forall va, kword L va -> is_Some (m' !! k2p va)) ->
  (forall a j, kpage L a -> ~ plain_page L g a -> 0 <= j < 1024 -> mw m' a j = mw (phys s) a j) ->
  pt_ok L g (up_phys (fun _ => m') s).
Proof.
  intros Hs Hram Hsame. destruct Hs as [H1 H2 H3 H4 H5 H6 H7 H8 H9]. split; try done. cbn [phys up_phys].
  eapply spaces_same; [done|done|]. intros o a j Ho Hst Hj. apply Hsame; [by eapply so_page| |done].
  intros Hpl. by apply (Hpl o).
Qed.

(** ** Address spaces *)

(** The page table entry for a user page in the directory [p]: 0 when there is
    no page table. *)
Definition pte_at (m : gmap Z Z) (p va : Z) : Z :=
  match mw m p (vaddr_to_pdindex va) with
  | Some e => if present e
              then default 0 (m !! (Z.land e PAGE_MASK + 4 * vaddr_to_ptindex va))
              else 0
  | None => 0
  end.

Definition user_page (va : Z) : Prop := USER_MEM_LOW <= va < USER_MEM_HIGH /\ va mod 4096 = 0.

Lemma user_page_idx va : user_page va -> user_idx (vaddr_to_pdindex va) /\ 0 <= vaddr_to_ptindex va < 1024.
Proof.
  intros [Hva _]. rewrite pdindex_div, ptindex_mod. unfold user_idx, USER_MEM_LOW, USER_MEM_HIGH in *.
  split; [dlia|]. clear. dlia.
Qed.

(** It is the word of the page table the directory has. *)
Lemma pte_at_tabs L g m p tabs va : spaces_ok L g m -> g !! p = Some tabs -> user_page va ->
  pte_at m p va = match tabs !! vaddr_to_pdindex va with
                  | None => 0
                  | Some t => default 0 (mw m t (vaddr_to_ptindex va))
                  end.
Proof.
  intros Hs Hp Hva. destruct (user_page_idx va Hva) as [Hi _]. unfold pte_at.
  destruct (so_user _ _ _ Hs p tabs Hp _ Hi) as (e & E & He). rewrite E.
  destruct (tabs !! vaddr_to_pdindex va) as [t|]; [|by rewrite He]. destruct He as (-> & -> & _).
  unfold mw. by rewrite k2p_word.
Qed.

(** What the hardware makes of it. *)
Lemma pte_at_translate m p va : pte_at m p va <> 0 -> present (pte_at m p va) = true ->
  translate m (k2p p) va = Some (Z.land (pte_at m p va) PAGE_MASK + vaddr_to_offset va).
Proof.
  unfold pte_at, translate, mw. rewrite k2p_word. intros H0 Hp. destruct (m !! _) as [e|]; [|done]. cbn [mbind option_bind].
  destruct (present e); [|done]. cbn [negb]. destruct (m !! (Z.land e PAGE_MASK + _)) as [w|]; [|done].
  cbn [default mbind option_bind] in *. cbn in Hp. rewrite Hp. done.
Qed.

Lemma user_page_inj va va' : user_page va -> user_page va' ->
  vaddr_to_pdindex va = vaddr_to_pdindex va' -> vaddr_to_ptindex va = vaddr_to_ptindex va' -> va = va'.
Proof.
  intros [H1 H2] [H3 H4]. rewrite !pdindex_div, !ptindex_mod. unfold USER_MEM_LOW, USER_MEM_HIGH in *. intros. dlia.
Qed.

(** The directory [p] changes by [F], every other one stays as it was. *)
Definition spaces_become (g : dirs) (m m' : gmap Z Z) (p : Z) (F : Z -> Z -> Z) : Prop :=
  forall p' va, is_Some (g !! p') -> user_page va ->
    pte_at m' p' va = if bool_decide (p' = p) then F va (pte_at m p va) else pte_at m p' va.

Definition same_spaces (g : dirs) (m m' : gmap Z Z) : Prop :=
  forall p va, is_Some (g !! p) -> user_page va -> pte_at m' p va = pte_at m p va.

(** ** Writing words *)
Lemma ram_wr L m a j w : (forall va, kword L va -> is_Some (m !! k2p va)) ->
  forall va, kword L va -> is_Some (wr a j w m !! k2p va).
Proof.
  intros Hram va Hva. unfold wr. destruct (decide (k2p (word a j) = k2p va)) as [<-|]; [rewrite lookup_insert_eq; eauto|].
  rewrite lookup_insert_ne by done. by apply Hram.
Qed.

Lemma ram_zero L a n : forall j m, (forall va, kword L va -> is_Some (m !! k2p va)) ->
  forall va, kword L va -> is_Some (zero_words a j n m !! k2p va).
Proof. induction n as [|n IH]; intros j m Hram; cbn [zero_words]; [done|]. by apply IH, ram_wr. Qed.

(** The page tables' words that are not written. *)
Lemma plain_wr L g s a j w : pt_ok L g s -> kpage L a -> plain_page L g a -> 0 <= j < 1024 ->
  pt_ok L g (up_phys (wr a j w) s).
Proof.
  intros Hs Ha Hpl Hj. apply (ok_same L g s (wr a j w (phys s))); [done|apply ram_wr, (km_ram _ _ (so_kmap _ _ _ (pk_spaces _ _ _ Hs)))|].
  intros b i Hb Hnb Hi. rewrite mw_wr by (lia || apply Ha || apply Hb). rewrite bool_decide_eq_false_2; [done|].
  by intros [-> _].
Qed.

Lemma plain_zero L g s a j n : pt_ok L g s -> kpage L a -> plain_page L g a -> 0 <= j -> j + Z.of_nat n <= 1024 ->
  pt_ok L g (up_phys (zero_words a j n) s).
Proof.
  intros Hs Ha Hpl Hj Hn.
  apply (ok_same L g s (zero_words a j n (phys s))); [done|apply ram_zero, (km_ram _ _ (so_kmap _ _ _ (pk_spaces _ _ _ Hs)))|].
  intros b i Hb Hnb Hi. rewrite mw_zero by (lia || apply Ha || apply Hb). rewrite bool_decide_eq_false_2; [done|].
  by intros [-> _].
Qed.

(** Only user page tables matter to what a directory maps. *)
Lemma same_user_tables L g m m' : spaces_ok L g m -> spaces_ok L g m' ->
  (forall p tabs i t j, g !! p = Some tabs -> tabs !! i = Some t -> 0 <= j < 1024 -> mw m' t j = mw m t j) ->
  same_spaces g m m'.
Proof.
  intros Hm Hm' Hsame p va [tabs Hp] Hva. destruct (user_page_idx va Hva) as [_ Hj].
  rewrite !(pte_at_tabs L g _ p tabs) by done. destruct (tabs !! _) as [t|] eqn:Ht; [|done]. by erewrite Hsame.
Qed.

(** A user page table is a plain page. *)
Lemma user_plain L g m p tabs i t : spaces_ok L g m -> g !! p = Some tabs -> tabs !! i = Some t ->
  plain_page L g t /\ kpage L t.
Proof.
  intros Hs Hp Ht. assert (owns L g (OUser p i) t) as Ho by (by econstructor).
  split; [|by eapply so_page]. intros o Ho'. rewrite (so_inj _ _ _ Hs o (OUser p i) t Ho' Ho). exact (fun H => H).
Qed.

(** Setting the entry for a page in its page table. *)
Lemma set_pte L g s p tabs t va w : pt_ok L g s -> g !! p = Some tabs -> user_page va ->
  tabs !! vaddr_to_pdindex va = Some t ->
  let s' := up_phys (wr t (vaddr_to_ptindex va) w) s in
  pt_ok L g s' /\ spaces_become g (phys s) (phys s') p (fun va' old => if va' =? va then w else old).
Proof.
  intros Hs Hp Hva Ht s'. destruct (user_page_idx va Hva) as [Hi Hj].
  destruct (user_plain _ _ _ _ _ _ _ (pk_spaces _ _ _ Hs) Hp Ht) as [Hpl Hkt].
  assert (pt_ok L g s') as Hs' by (by apply plain_wr). split; [done|]. intros p' va' [tabs' Hp'] Hva'.
  destruct (user_page_idx va' Hva') as [_ Hj']. pose proof (pk_spaces _ _ _ Hs) as Hsp.
  rewrite (pte_at_tabs L g _ p' tabs'), (pte_at_tabs L g (phys s) p tabs), (pte_at_tabs L g (phys s) p' tabs') by (done || apply Hs').
  destruct (tabs' !! vaddr_to_pdindex va') as [t'|] eqn:Ht'.
  - destruct (user_plain _ _ _ _ _ _ _ Hsp Hp' Ht') as [_ Hkt']. cbn [phys up_phys s'].
    rewrite mw_wr by (lia || apply Hkt || apply Hkt'). case_bool_decide as E.
    + destruct E as [-> Ej]. assert (OUser p' (vaddr_to_pdindex va') = OUser p (vaddr_to_pdindex va)) as E.
      { eapply (so_inj _ _ _ Hsp); by econstructor. }
      injection E as -> Ei. rewrite bool_decide_eq_true_2 by done.
      rewrite (user_page_inj va' va Hva' Hva Ei Ej), Z.eqb_refl. done.
    + case_bool_decide as E'; [|done]. subst p'. assert (tabs' = tabs) as -> by congruence. rewrite Ht'.
      destruct (Z.eqb_spec va' va) as [->|]; [|done]. exfalso. apply E. split; congruence.
  - case_bool_decide as E'; [|done]. subst p'. assert (tabs' = tabs) as -> by congruence. rewrite Ht'.
    destruct (Z.eqb_spec va' va) as [->|]; [congruence|done].
Qed.

(** Reading a directory. *)
Lemma load_pde L g s p tabs i e : pt_ok L g s -> g !! p = Some tabs -> 0 <= i < 1024 -> mw (phys s) p i = Some e ->
  load (pd_physical p i) s = Done e s.
Proof.
  intros Hs Hp Hi He. apply (vload_run L s (current_pagedir s) p i e); [by eapply ok_space| |done|done].
  eapply (so_page _ _ _ (pk_spaces _ _ _ Hs) (ODir p)). by econstructor.
Qed.

Lemma load_table L g s p tabs i t : pt_ok L g s -> g !! p = Some tabs -> user_idx i -> tabs !! i = Some t ->
  load (pd_virtual p i) s = Done t s.
Proof.
  intros Hs Hp Hi Ht. destruct (so_user _ _ _ (pk_spaces _ _ _ Hs) p tabs Hp i Hi) as (e & _ & He). rewrite Ht in He.
  destruct He as (_ & _ & Hv). apply (vload_run L s (current_pagedir s) (p + 4096) i t); [by eapply ok_space| |unfold user_idx in *; lia|done].
  eapply (so_page _ _ _ (pk_spaces _ _ _ Hs) (ODirV p)). by econstructor.
Qed.

Lemma user_asserts va : user_page va ->
  PAGE_ALIGNED va = true /\ (USER_MEM_LOW <=? va) && (va <? USER_MEM_HIGH) = true.
Proof. intros [H1 H2]. split; [by apply aligned_mod|lia]. Qed.

(** [pt_unmap]: the page is not mapped any more; nothing else changes. *)
Theorem pt_unmap_spec L g s p va : pt_ok L g s -> is_Some (g !! p) -> user_page va ->
  exists s', pt_unmap p va s = Done tt s' /\ pt_ok L g s' /\
    spaces_become g (phys s) (phys s') p (fun va' old => if va' =? va then 0 else old).
Proof.
  intros Hs [tabs Hp] Hva. destruct (user_page_idx va Hva) as [Hi Hj]. destruct (user_asserts va Hva) as [A1 A2].
  unfold pt_unmap. krun (kassert_true _ s A1). krun (kassert_true _ s A2).
  destruct (so_user _ _ _ (pk_spaces _ _ _ Hs) p tabs Hp _ Hi) as (e & He & Hm).
  krun (load_pde L g s p tabs (vaddr_to_pdindex va) e Hs Hp ltac:(unfold user_idx in Hi; lia) He).
  destruct (tabs !! vaddr_to_pdindex va) as [t|] eqn:Ht.
  - destruct Hm as (-> & _). krun (load_table L g s p tabs _ t Hs Hp Hi Ht).
    destruct (user_plain _ _ _ _ _ _ _ (pk_spaces _ _ _ Hs) Hp Ht) as [_ Hkt].
    pose proof (set_pte L g s p tabs t va 0 Hs Hp Hva Ht) as [Hs' Hb].
    eexists. split; [exact (store_run L s _ t _ 0 (ok_space _ _ _ Hs) Hkt Hj)|]. done.
  - rewrite Hm. exists s. split; [done|]. split; [done|]. intros p' va' [tabs' Hp'] Hva'.
    case_bool_decide as E; [subst p'|done]. destruct (Z.eqb_spec va' va) as [->|]; [|done].
    rewrite (pte_at_tabs L g _ p tabs); [by rewrite Ht|apply Hs|done|done].
Qed.

(** ** Changing a directory *)
Lemma owns_insert L g p tabs tabs' i o a : g !! p = Some tabs -> (forall k, k <> i -> tabs' !! k = tabs !! k) ->
  owns L (<[p := tabs']> g) o a -> owns L g o a \/ (o = OUser p i /\ tabs' !! i = Some a).
Proof.
  intros Hp Hk Ho. inversion Ho as [j Hj| |q tq Hq|q tq Hq|q tq j t Hq Ht]; subst; try (left; by constructor).
  - left. destruct (decide (a = p)) as [->|]; [by econstructor|]. rewrite lookup_insert_ne in Hq by done. by econstructor.
  - left. destruct (decide (q = p)) as [->|]; [by econstructor|]. rewrite lookup_insert_ne in Hq by done. by econstructor.
  - destruct (decide (q = p)) as [->|]; [|rewrite lookup_insert_ne in Hq by done; left; by econstructor].
    rewrite lookup_insert_eq in Hq. injection Hq as <-. destruct (decide (j = i)) as [->|Hne]; [by right|].
    left. rewrite Hk in Ht by done. by econstructor.
Qed.

(** The entry for index [i] of the directory [p] is rewritten: it has the page
    tables [tabs'] then. *)
Lemma spaces_dir L g m m' p tabs tabs' i : spaces_ok L g m -> g !! p = Some tabs -> user_idx i ->
  (forall va, kword L va -> is_Some (m' !! k2p va)) ->
  (forall o a j, owns L g o a -> structural o -> 0 <= j < 1024 -> ~ ((a = p \/ a = p + 4096) /\ j = i) ->
     mw m' a j = mw m a j) ->
  (forall k, k <> i -> tabs' !! k = tabs !! k) ->
  (exists e, mw m' p i = Some e /\
     match tabs' !! i with
     | None => present e = false
     | Some t => present e = true /\ Z.land e PAGE_MASK = k2p t /\ mw m' (p + 4096) i = Some t
     end) ->
  (forall t, tabs' !! i = Some t -> kpage L t /\ forall o, owns L g o t -> o = OUser p i) ->
  spaces_ok L (<[p := tabs']> g) m'.
Proof.
  intros Hs Hp Hi Hram Hsame Hk Hent Hnew.
  assert (forall q tq, g !! q = Some tq -> live L q m') as Hlive.
  { intros q tq Hq. eapply live_same; [by eapply spaces_live|done|]. intros a j Ha Hj Hc. unfold user_idx in Hi.
    assert (forall r tr, g !! r = Some tr -> ~ (exists k, kidx L k /\ (l_ktab L k = r \/ l_ktab L k = r + 4096))) as Hno.
    { intros r tr Hr (k & Hkk & [E|E]).
      - assert (OTab k = ODir r) as E'; [|discriminate]. eapply (so_inj _ _ _ Hs); [by constructor|]. rewrite E. by econstructor.
      - assert (OTab k = ODirV r) as E'; [|discriminate]. eapply (so_inj _ _ _ Hs); [by constructor|]. rewrite E. by econstructor. }
    destruct Hc as [(k & Hkk & ->)|[-> Hj']].
    - apply (Hsame (OTab k)); [by constructor|done|done|]. intros [E _]. apply (Hno p tabs Hp). by exists k.
    - apply (Hsame (ODir q)); [by econstructor|done|done|]. intros [_ ?]. lia. }
  split.
  - by destruct (Hlive p tabs Hp).
  - intros q tq Hq. assert (exists t0, g !! q = Some t0) as [t0 Hq0].
    { destruct (decide (q = p)) as [->|]; [eauto|]. rewrite lookup_insert_ne in Hq by done. eauto. }
    by destruct (Hlive q t0 Hq0) as (_ & ? & _).
  - intros q tq Hq j Hj. unfold user_idx in *. destruct (decide (q = p)) as [->|Hne].
    + rewrite lookup_insert_eq in Hq. injection Hq as <-. destruct (decide (j = i)) as [->|Hji]; [done|].
      destruct (so_user _ _ _ Hs p tabs Hp j Hj) as (e & E & He). exists e. rewrite Hk by done.
      rewrite (Hsame (ODir p) p j), (Hsame (ODirV p) (p + 4096) j); try done; try lia; by econstructor.
    + rewrite lookup_insert_ne in Hq by done. destruct (so_user _ _ _ Hs q tq Hq j Hj) as (e & E & He). exists e.
      assert (owns L g (ODir q) q) as Ho1 by (by econstructor). assert (owns L g (ODirV q) (q + 4096)) as Ho2 by (by econstructor).
      assert (owns L g (ODir p) p) as Hp1 by (by econstructor). assert (owns L g (ODirV p) (p + 4096)) as Hp2 by (by econstructor).
      rewrite (Hsame (ODir q) q j), (Hsame (ODirV q) (q + 4096) j); try done; try lia; intros [[E'|E'] _]; try lia;
        rewrite E' in *; [pose proof (so_inj _ _ _ Hs _ _ _ Ho2 Hp1)|pose proof (so_inj _ _ _ Hs _ _ _ Ho1 Hp2)]; discriminate.
  - intros q tq j t Hq Ht. destruct (decide (q = p)) as [->|]; [|rewrite lookup_insert_ne in Hq by done; by eapply so_idx].
    rewrite lookup_insert_eq in Hq. injection Hq as <-. destruct (decide (j = i)) as [->|]; [done|].
    rewrite Hk in Ht by done. by eapply so_idx.
  - intros o a [Ho|[-> Ho]]%(owns_insert L g p tabs tabs' i); [by eapply so_page|by apply Hnew|done|done].
  - intros o o' a Ho Ho'. apply (owns_insert L g p tabs tabs' i) in Ho as [Ho|[-> Ho]]; [| |done|done];
      (apply (owns_insert L g p tabs tabs' i) in Ho' as [Ho'|[-> Ho']]; [| |done|done]); [by eapply so_inj| | |done].
    + by apply (Hnew a Ho').
    + symmetry. by apply (Hnew a Ho).
Qed.

(** ** Pages from the allocator *)
Lemma took_ok L g s k a ps : pt_ok L g s -> took (pt_pages s) k a ps ->
  pt_ok L g (up_ptpages ps s) /\
  forall j, 0 <= j < 2 ^ Z.of_nat k -> kpage L (a + 4096 * j) /\ forall o, ~ owns L g o (a + 4096 * j).
Proof.
  intros Hs Ht. pose proof (bsize_pages k) as Hb. change PAGE_SIZE with 4096 in Hb.
  assert (a mod 4096 = 0) as Hal.
  { destruct (tk_owned _ _ _ _ Ht) as (i & h & c & Hh & -> & _). apply aligned_mod, blk_aligned, grp_placed.
    by destruct (po_groups _ (tk_ok _ _ _ _ Ht) _ _ Hh). }
  assert (forall x, free_at ps x -> free_at (pt_pages s) x) as Hsub by (intros x Hx; by apply (tk_free _ _ _ _ Ht)).
  split.
  - destruct Hs as [H1 H2 H3 H4 H5 H6 H7 H8 H9]. split; try done; cbn [pt_pages up_ptpages].
    + apply Ht.
    + intros x Hx. by apply H7, Hsub.
    + intros o b x Ho Hx Hf. by apply (H8 o b x Ho Hx), Hsub.
    + intros p tabs i t Hp Hti. eapply allocated_geo; [apply (tk_geo _ _ _ _ Ht)|intros x _; apply Hsub|by eapply H9].
  - intros j Hj. assert (forall x, a + 4096 * j <= x < a + 4096 * j + 4096 -> free_at (pt_pages s) x) as Hx.
    { intros x Hx. apply (tk_was _ _ _ _ Ht). unfold in_block. nia. }
    split.
    + pose proof (pk_free _ _ _ Hs _ (Hx (a + 4096 * j) ltac:(lia))).
      pose proof (pk_free _ _ _ Hs _ (Hx (a + 4096 * j + 4095) ltac:(lia))). unfold kpage. split_and!; [lia|lia|dlia].
    + intros o Ho. apply (pk_used _ _ _ Hs o _ (a + 4096 * j) Ho); [unfold in_block; change (bsize 0) with 4096; lia|].
      apply Hx. lia.
Qed.

(** A directory with one more page table. *)
Lemma ok_new_table L g s p tabs i t m' : pt_ok L g s -> g !! p = Some tabs -> p <> template_pagedir s ->
  spaces_ok L (<[p := <[i := t]> tabs]> g) m' -> allocated (pt_pages s) t 0 ->
  pt_ok L (<[p := <[i := t]> tabs]> g) (up_phys (fun _ => m') s).
Proof.
  intros Hs Hp Hpt Hm Ha. pose proof Hs as [H1 H2 H3 H4 H5 H6 H7 H8 H9]. split; try done; cbn.
  - destruct (decide (current_pagedir s = p)) as [->|]; [rewrite lookup_insert_eq; eauto|by rewrite lookup_insert_ne].
  - by rewrite lookup_insert_ne.
  - intros o a x Ho Hx. apply (owns_insert L g p tabs _ i) in Ho as [Ho|[-> Ho]]; [by eapply H8| |done|].
    + rewrite lookup_insert_eq in Ho. injection Ho as <-. destruct Ha as (? & ? & ? & _ & _ & _ & Hno). by apply Hno.
    + intros k Hk. by apply lookup_insert_ne.
  - intros q tq j u Hq Hu. destruct (decide (q = p)) as [->|]; [|rewrite lookup_insert_ne in Hq by done; by eapply H9].
    rewrite lookup_insert_eq in Hq. injection Hq as <-. destruct (decide (j = i)) as [->|].
    + rewrite lookup_insert_eq in Hu. by injection Hu as <-.
    + rewrite lookup_insert_ne in Hu by done. exact (H9 p tabs j u Hp Hu).
Qed.

(** The window is not part of any structure. *)
Lemma window_ok L g (s0 : ptst) w : pt_ok L g s0 -> pt_ok L g (up_phys (wr (l_final L) 1023 w) s0).
Proof.
  intros Hs0. assert (owns L g OFinal (l_final L)) as Hf by constructor. apply plain_wr; [done|by eapply so_page; [apply Hs0|]| |lia].
  intros o Ho. rewrite (so_inj _ _ _ (pk_spaces _ _ _ Hs0) o OFinal _ Ho Hf). exact (fun H => H).
Qed.

Lemma final_apart L g (s0 : ptst) : pt_ok L g s0 ->
  (forall k, kidx L k -> l_ktab L k <> l_final L) /\ current_pagedir s0 <> l_final L.
Proof.
  intros Hs0. pose proof (pk_spaces _ _ _ Hs0) as Hsp. assert (owns L g OFinal (l_final L)) as Hf by constructor. split.
  - intros k Hk E. assert (owns L g (OTab k) (l_ktab L k)) as Ht by (by constructor). rewrite E in Ht.
    pose proof (so_inj _ _ _ Hsp _ _ _ Ht Hf). discriminate.
  - intros E. destruct (pk_cur _ _ _ Hs0) as [tc Hc].
    assert (owns L g (ODir (current_pagedir s0)) (current_pagedir s0)) as Hcc by (by econstructor). rewrite E in Hcc at 2.
    pose proof (so_inj _ _ _ Hsp _ _ _ Hcc Hf). discriminate.
Qed.

(** ** A new page table *)
Section Install.
Context (L : layout) (g : dirs) (s : ptst) (p : Z) (tabs : gmap Z Z) (i a flags : Z).
Hypothesis Hs : pt_ok L g s.
Hypothesis Hp : g !! p = Some tabs.
Hypothesis Hpt : p <> template_pagedir s.
Hypothesis Hi : user_idx i.
Hypothesis Hnone : tabs !! i = None.
Hypothesis Ha : kpage L a.
Hypothesis Hown : forall o, ~ owns L g o a.
Hypothesis Halloc : allocated (pt_pages s) a 0.
Hypothesis Hflags : 0 <= flags < 4096 /\ present flags = true.

Let g' : dirs := <[p := <[i := a]> tabs]> g.
Let zeroed : ptst := up_phys (zero_words a 0 1024) s.

Lemma zeroed_ok : pt_ok L g zeroed.
Proof using Hs Ha Hown. apply plain_zero; try done; try lia. intros o Ho. by destruct (Hown o). Qed.

Lemma dir_pages : kpage L p /\ kpage L (p + 4096) /\ a <> p /\ a <> p + 4096 /\ l_final L <> p /\ l_final L <> p + 4096.
Proof using Hs Hp Hown.
  assert (owns L g (ODir p) p) as Ho1 by (by econstructor). assert (owns L g (ODirV p) (p + 4096)) as Ho2 by (by econstructor).
  pose proof (pk_spaces _ _ _ Hs) as Hsp. assert (owns L g OFinal (l_final L)) as Hf by constructor. split_and!.
  - exact (so_page _ _ _ Hsp _ _ Ho1).
  - exact (so_page _ _ _ Hsp _ _ Ho2).
  - intros E. apply (Hown (ODir p)). by rewrite E.
  - intros E. apply (Hown (ODirV p)). by rewrite E.
  - intros E. rewrite E in Hf. pose proof (so_inj _ _ _ Hsp _ _ _ Hf Ho1). discriminate.
  - intros E. rewrite E in Hf. pose proof (so_inj _ _ _ Hsp _ _ _ Hf Ho2). discriminate.
Qed.

(** The kernel keeps reaching its memory when a user entry of [p] changes. *)
Lemma user_word_core j : ~ core L (current_pagedir s) p i /\ ~ core L (current_pagedir s) (p + 4096) j.
Proof using Hs Hp Hi.
  pose proof (pk_spaces _ _ _ Hs) as Hsp. destruct (pk_cur _ _ _ Hs) as [tc Hc]. unfold user_idx in Hi.
  assert (owns L g (ODir p) p) as Ho1 by (by econstructor). assert (owns L g (ODirV p) (p + 4096)) as Ho2 by (by econstructor).
  split; (intros [(k & Hk & E)|[E Hj]]; [assert (owns L g (OTab k) (l_ktab L k)) as Ht by (by constructor); rewrite <- E in Ht|]).
  - pose proof (so_inj _ _ _ Hsp _ _ _ Ht Ho1). discriminate.
  - lia.
  - pose proof (so_inj _ _ _ Hsp _ _ _ Ht Ho2). discriminate.
  - assert (owns L g (ODir (current_pagedir s)) (current_pagedir s)) as Hcc by (by econstructor). rewrite <- E in Hcc at 2.
    pose proof (so_inj _ _ _ Hsp _ _ _ Hcc Ho2). discriminate.
Qed.

(** The memory after the new table is in place. *)
Let installed (w e : Z) : gmap Z Z :=
  wr (p + 4096) i a (wr p i e (wr (l_final L) 1023 w (phys zeroed))).

Lemma installed_spaces w e : present e = true -> Z.land e PAGE_MASK = k2p a -> spaces_ok L g' (installed w e).
Proof using All.
  intros He Hm. destruct dir_pages as (Hk1 & Hk2 & _). pose proof (window_ok L g zeroed w zeroed_ok) as Hw. unfold user_idx in Hi.
  apply (spaces_dir L g (wr (l_final L) 1023 w (phys zeroed)) _ p tabs _ i); [apply Hw|done|done| | | | |].
  - apply ram_wr, ram_wr, (km_ram _ _ (so_kmap _ _ _ (pk_spaces _ _ _ Hw))).
  - intros o b j Ho _ Hj Hne. pose proof (so_page _ _ _ (pk_spaces _ _ _ Hs) _ _ Ho) as Hb.
    unfold installed. rewrite !mw_wr by (lia || apply Hb || apply Hk1 || apply Hk2).
    repeat (rewrite bool_decide_eq_false_2 by tauto). done.
  - intros k Hk. by apply lookup_insert_ne.
  - exists e. rewrite lookup_insert_eq. unfold installed.
    assert (forall x y, mw (wr (p + 4096) i x y) (p + 4096) i = Some x) as -> by (intros; apply lookup_insert_eq).
    rewrite mw_wr by (lia || apply Hk1 || apply Hk2). rewrite bool_decide_eq_false_2 by lia.
    split; [apply lookup_insert_eq|done].
  - intros t. rewrite lookup_insert_eq. intros [= <-]. split; [done|]. intros o Ho. by destruct (Hown o).
Qed.

Lemma installed_other w e t j : 0 <= j < 1024 -> kpage L t -> t <> p -> t <> p + 4096 -> t <> l_final L ->
  mw (installed w e) t j = if bool_decide (t = a) then Some 0 else mw (phys s) t j.
Proof using All.
  intros Hj Ht E1 E2 E3. destruct dir_pages as (Hk1 & Hk2 & _). unfold installed, user_idx in *.
  pose proof (km_final _ _ (so_kmap _ _ _ (pk_spaces _ _ _ Hs))) as Hf.
  rewrite !mw_wr by (lia || apply Ht || apply Hk1 || apply Hk2 || apply Hf).
  repeat (rewrite bool_decide_eq_false_2 by tauto). cbn [phys up_phys zeroed].
  rewrite mw_zero by (lia || apply Ht || apply Ha). do 2 case_bool_decide; tauto || lia.
Qed.

(** The page tables there were are as they were. *)
Lemma installed_tab w e q tq k t j : g !! q = Some tq -> tq !! k = Some t -> 0 <= j < 1024 ->
  mw (installed w e) t j = mw (phys s) t j.
Proof using All.
  intros Hq Hk Hj. pose proof (pk_spaces _ _ _ Hs) as Hsp. assert (owns L g (OUser q k) t) as Ho by (by econstructor).
  assert (forall o, owns L g o t -> o = OUser q k) as Hu by (intros o Ho'; by eapply so_inj).
  rewrite installed_other; [|done|by eapply so_page|intros ->..].
  - rewrite bool_decide_eq_false_2; [done|]. intros ->. by apply (Hown (OUser q k)).
  - discriminate (Hu (ODir p) ltac:(by econstructor)).
  - discriminate (Hu (ODirV p) ltac:(by econstructor)).
  - discriminate (Hu OFinal ltac:(constructor)).
Qed.

(** The new page table maps nothing. *)
Lemma installed_same w e : present e = true -> Z.land e PAGE_MASK = k2p a -> same_spaces g (phys s) (installed w e).
Proof using All.
  intros He Hm q va [tq Hq] Hva. destruct dir_pages as (Hk1 & Hk2 & N1 & N2 & N3 & N4).
  pose proof (installed_spaces w e He Hm) as Hsp. destruct (user_page_idx va Hva) as [_ Hj]. unfold user_idx in Hi.
  rewrite (pte_at_tabs L g (phys s) q tq) by (done || apply Hs).
  destruct (decide (q = p)) as [->|Hne].
  - assert (tq = tabs) as -> by congruence.
    rewrite (pte_at_tabs L g' _ p (<[i := a]> tabs)); [|done|apply lookup_insert_eq|done].
    destruct (decide (vaddr_to_pdindex va = i)) as [Ei|Ei].
    + rewrite Ei, lookup_insert_eq, Hnone. rewrite installed_other; try done; [by rewrite bool_decide_eq_true_2|]. intros E. apply (Hown OFinal). rewrite E. constructor.
    + rewrite lookup_insert_ne by done. destruct (tabs !! vaddr_to_pdindex va) as [t|] eqn:Ht; [|done].
      by erewrite installed_tab.
  - rewrite (pte_at_tabs L g' _ q tq); [|done|unfold g'; by rewrite lookup_insert_ne|done].
    destruct (tq !! vaddr_to_pdindex va) as [t|] eqn:Ht; [|done]. by erewrite installed_tab.
Qed.

(** The code that installs it. *)
Lemma install_run {A} (K : T A) : exists s',
  (memzero a (Z.to_nat PT_ENTRY_COUNT) ;;
   let* pa := pt_virt_to_phys a in
   store (pd_physical p i) (Z.lor pa flags) ;;
   store (pd_virtual p i) a ;; K) s = K s' /\
  pt_ok L g' s' /\ same_spaces g (phys s) (phys s').
Proof using All.
  destruct dir_pages as (Hk1 & Hk2 & _). pose proof (ok_space _ _ _ Hs) as Hsp. destruct (pk_cur _ _ _ Hs) as [tc Hc].
  assert (plain_page L g a) as Hpl by (intros o Ho; by destruct (Hown o)). unfold user_idx in Hi.
  destruct (memzero_run L (current_pagedir s) a 1024 0 s Hsp Ha ltac:(lia) ltac:(lia)) as [E0 _].
  { intros j _. by eapply plain_core; [apply Hs| |]. }
  change (Z.to_nat PT_ENTRY_COUNT) with 1024%nat. replace (word a 0) with a in E0 by (unfold word; lia). krun E0.
  pose proof zeroed_ok as Hz. destruct (final_apart L g zeroed Hz) as [F1 F2].
  destruct (virt_to_phys_run L zeroed (current_pagedir zeroed) a (ok_space _ _ _ Hz) eq_refl (pk_final _ _ _ Hz) F1 F2)
    as (w & E1 & Hw); [unfold kpage in Ha; lia|]. krun E1. set (e := Z.lor (k2p a) flags).
  pose proof (km_top _ _ (so_kmap _ _ _ (pk_spaces _ _ _ Hs))) as [HT _].
  destruct (k2p_range L a ltac:(lia) Ha) as [R1 R2]. destruct Hflags as [Hf1 Hf2].
  assert (present e = true) as He1 by (unfold e; by rewrite present_page).
  assert (Z.land e PAGE_MASK = k2p a) as He2 by (unfold e; by apply mask_page).
  change (pd_physical p i) with (word p i). change (pd_virtual p i) with (word (p + 4096) i).
  krun (store_run L _ _ p i e Hw Hk1 ltac:(lia)). destruct (user_word_core i) as [C1 _].
  assert (in_space L (up_phys (wr p i e) (up_phys (wr (l_final L) 1023 w) zeroed)) (current_pagedir zeroed)) as Hw2.
  { destruct Hw as [Hl Hcr]. split; [exact (live_wr L _ _ p i e Hl Hk1 ltac:(lia) C1)|exact Hcr]. }
  krun (store_run L _ _ (p + 4096) i a Hw2 Hk2 ltac:(lia)).
  exists (up_phys (fun _ => installed w e) s). split; [done|]. split.
  - exact (ok_new_table L g s p tabs i a _ Hs Hp Hpt (installed_spaces w e He1 He2) Halloc).
  - exact (installed_same w e He1 He2).
Qed.
End Install.

(** More flags in a directory entry. *)
Lemma dir_flags L g s p tabs i e f : pt_ok L g s -> g !! p = Some tabs -> user_idx i ->
  mw (phys s) p i = Some e -> present e = true -> 0 <= f < 4096 ->
  let s' := up_phys (wr p i (Z.lor e f)) s in pt_ok L g s' /\ same_spaces g (phys s) (phys s').
Proof.
  intros Hs Hp Hi He Hpr Hf s'. pose proof (pk_spaces _ _ _ Hs) as Hsp.
  assert (owns L g (ODir p) p) as Ho by (by econstructor). pose proof (so_page _ _ _ Hsp _ _ Ho) as Hk.
  assert (0 <= i < 1024) as Hir by (unfold user_idx in Hi; lia).
  assert (forall b j, kpage L b -> 0 <= j < 1024 -> b <> p \/ j <> i -> mw (phys s') b j = mw (phys s) b j) as Hmw.
  { intros b j Hb Hj Hne. cbn [phys up_phys s']. rewrite mw_wr by (lia || apply Hb || apply Hk).
    by rewrite bool_decide_eq_false_2 by naive_solver. }
  assert (spaces_ok L g (phys s')) as Hsp'.
  { rewrite <- (insert_id g p tabs Hp). apply (spaces_dir L g (phys s) _ p tabs tabs i); try done.
    - apply ram_wr, (km_ram _ _ (so_kmap _ _ _ Hsp)).
    - intros o b j Hob _ Hj Hne. apply Hmw; [by eapply so_page|done|]. destruct (decide (b = p)); [right|left]; naive_solver.
    - exists (Z.lor e f). split; [apply lookup_insert_eq|]. destruct (so_user _ _ _ Hsp p tabs Hp i Hi) as (e' & E' & Hm).
      assert (e' = e) as -> by congruence. rewrite present_lor, Hpr, mask_flags by done.
      destruct (tabs !! i) as [t|]; [|congruence]. destruct Hm as (_ & Hm & Hv). split_and!; [done|done|].
      rewrite Hmw; [done|eapply so_page; [done|by econstructor]|done|left; lia].
    - intros t Ht. destruct (user_plain _ _ _ _ _ _ _ Hsp Hp Ht) as [_ Hkt]. split; [done|]. intros o Ho'.
      eapply (so_inj _ _ _ Hsp); [done|]. by econstructor. }
  split; [by destruct Hs; split|]. eapply same_user_tables; [done|done|]. intros q tq k t j Hq Ht Hj.
  destruct (user_plain _ _ _ _ _ _ _ Hsp Hq Ht) as [Hpl Hkt]. apply Hmw; [done|done|left]. intros ->. by apply (Hpl (ODir p)).
Qed.

(** ** [pt_map] *)
Section Map.
Context `{Reclaim}.

Lemma on_pages_run {A} (f : P A) (s : ptst) a ps : f (pt_pages s) = Done a ps -> on_pages f s = Done a (up_ptpages ps s).
Proof. unfold on_pages. by intros ->. Qed.

Lemma is_Some_insert (g : dirs) p tabs tabs' q : g !! p = Some tabs -> is_Some (<[p := tabs']> g !! q) <-> is_Some (g !! q).
Proof.
  intros Hp. destruct (decide (q = p)) as [->|]; [|by rewrite lookup_insert_ne]. rewrite lookup_insert_eq, Hp. naive_solver.
Qed.

(** The last step: the entry of the page table [t]. *)
Lemma map_entry L g0 g s p va paddr flags tabs t m0 : pt_ok L g s -> g !! p = Some tabs -> user_page va ->
  tabs !! vaddr_to_pdindex va = Some t -> 0 <= flags < 4096 ->
  (forall q, is_Some (g !! q) <-> is_Some (g0 !! q)) -> same_spaces g0 m0 (phys s) ->
  exists s',
    (kassert (Z.land flags (PAGE_SIZE - 1) =? flags) ;;
     store (t + 4 * vaddr_to_ptindex va) (Z.lor paddr flags) ;; ret 0) s = Done 0 s' /\
    pt_ok L g s' /\ spaces_become g0 m0 (phys s') p (fun va' old => if va' =? va then Z.lor paddr flags else old).
Proof.
  intros Hs Hp Hva Ht Hf Hdom Hsame. destruct (user_page_idx va Hva) as [Hi Hj].
  krun (kassert_true (Z.land flags (PAGE_SIZE - 1) =? flags) s (proj2 (Z.eqb_eq _ _) (proj2 (flags_low _) Hf))).
  destruct (user_plain _ _ _ _ _ _ _ (pk_spaces _ _ _ Hs) Hp Ht) as [_ Hkt].
  destruct (set_pte L g s p tabs t va (Z.lor paddr flags) Hs Hp Hva Ht) as [Hs' Hb].
  krun (store_run L s _ t (vaddr_to_ptindex va) (Z.lor paddr flags) (ok_space _ _ _ Hs) Hkt Hj).
  eexists. split; [reflexivity|]. split; [exact Hs'|]. intros q va' Hq Hva'. rewrite Hb by (done || by apply Hdom).
  rewrite !Hsame by (done || apply Hdom; by eexists). done.
Qed.

(** What the hardware does with an address of a page that is mapped. *)
Lemma mapped_translate m p va paddr flags o : pte_at m p va = Z.lor paddr flags -> va mod 4096 = 0 -> 0 <= o < 4096 ->
  0 <= paddr < 2 ^ 32 -> paddr mod 4096 = 0 -> 0 <= flags < 4096 -> present flags = true ->
  translate m (k2p p) (va + o) = Some (paddr + o).
Proof.
  intros E Hva Ho Hr Hp Hf Hpf.
  assert (pte_at m p (va + o) = Z.lor paddr flags) as E'.
  { rewrite <- E. unfold pte_at. replace (vaddr_to_pdindex (va + o)) with (vaddr_to_pdindex va).
    - replace (vaddr_to_ptindex (va + o)) with (vaddr_to_ptindex va); [done|]. rewrite !ptindex_mod. f_equal. dlia.
    - rewrite !pdindex_div. dlia. }
  assert (present (Z.lor paddr flags) = true) as Hpr by (by rewrite present_page).
  rewrite pte_at_translate; rewrite ?E'; [|by intros E0; rewrite E0 in Hpr|exact Hpr].
  rewrite mask_page, offset_mod by done. f_equal. f_equal. dlia.
Qed.

Lemma pt_map_run L g s p va paddr pdflags ptflags :
  pt_ok L g s -> is_Some (g !! p) -> p <> template_pagedir s -> user_page va -> 0 <= paddr < 2 ^ 32 -> paddr mod 4096 = 0 ->
  0 <= pdflags < 4096 -> present pdflags = true -> 0 <= ptflags < 4096 ->
  (exists g' s', pt_map p va paddr pdflags ptflags s = Done 0 s' /\ pt_ok L g' s' /\
     (forall q, is_Some (g' !! q) <-> is_Some (g !! q)) /\
     spaces_become g (phys s) (phys s') p (fun va' old => if va' =? va then Z.lor paddr ptflags else old) /\
     (present ptflags = true -> forall o, 0 <= o < 4096 -> translate (phys s') (k2p p) (va + o) = Some (paddr + o))) \/
  ((forall h k, h ∈ pagegroup_list (pt_pages s) -> listof h k = []) /\
   pt_map p va paddr pdflags ptflags s = (on_pages slab_allocators_reclaim ;; ret (- Vnode.ENOMEM)) s).
Proof.
  intros Hs [tabs Hp] Hpt Hva Hpr0 Hpa Hpdf Hpdp Hptf. destruct (user_page_idx va Hva) as [Hi Hj].
  assert (forall m', spaces_become g (phys s) m' p (fun va' old => if va' =? va then Z.lor paddr ptflags else old) ->
    present ptflags = true -> forall o, 0 <= o < 4096 -> translate m' (k2p p) (va + o) = Some (paddr + o)) as Hmmu.
  { intros m' Hb Hpr o Ho. apply (mapped_translate m' p va paddr ptflags o); try done; [|apply Hva].
    rewrite (Hb p va ltac:(eauto) Hva), bool_decide_eq_true_2, Z.eqb_refl by done. done. }
  destruct (user_asserts va Hva) as [A1 A2]. set (i := vaddr_to_pdindex va) in *.
  unfold pt_map. rewrite A1, (proj2 (aligned_mod paddr) Hpa). krun (kassert_true true s eq_refl). krun (kassert_true _ s A2). fold i.
  pose proof (pk_spaces _ _ _ Hs) as Hsp. destruct (so_user _ _ _ Hsp p tabs Hp _ Hi) as (e & He & Hm).
  krun (load_pde L g s p tabs i e Hs Hp ltac:(unfold user_idx in Hi; lia) He).
  assert (kpage L p) as Hkp by (eapply (so_page _ _ _ Hsp (ODir p)); by econstructor).
  destruct (tabs !! i) as [t|] eqn:Ht.
  - left. destruct Hm as (Hpr & _). rewrite Hpr. cbn [negb].
    destruct (dir_flags L g s p tabs i e pdflags Hs Hp Hi He Hpr Hpdf) as [Hs1 Hsame].
    rewrite bind_assoc. change (pd_physical p i) with (word p i).
    krun (store_run L s _ p i (Z.lor e pdflags) (ok_space _ _ _ Hs) Hkp ltac:(unfold user_idx in Hi; lia)).
    rewrite bind_assoc. krun (load_table L g _ p tabs i t Hs1 Hp Hi Ht). erewrite bind_done by reflexivity. cbv iota beta.
    destruct (map_entry L g g _ p va paddr ptflags tabs t (phys s) Hs1 Hp Hva Ht Hptf (fun q => iff_refl _) Hsame) as (s' & E & Hs' & Hb).
    exists g, s'. split; [exact E|]. split; [exact Hs'|]. split; [done|]. split; [exact Hb|exact (Hmmu _ Hb)].
  - rewrite Hm. cbn [negb]. destruct (page_alloc_order_run (pt_pages s) 0 (pk_pages _ _ _ Hs)) as [(a & ps & Ea & Hta)|[Hno Ea]].
    + left. rewrite bind_assoc. krun (on_pages_run page_alloc s (Some a) ps Ea).
      destruct (took_ok L g s 0 a ps Hs Hta) as [Hs1 Hown]. destruct (Hown 0 ltac:(cbn; lia)) as [Hka Hoa].
      rewrite Z.mul_0_r, Z.add_0_r in Hka, Hoa. rewrite bind_assoc.
      krun (kassert_true (Z.land pdflags (PAGE_SIZE - 1) =? pdflags) (up_ptpages ps s) (proj2 (Z.eqb_eq _ _) (proj2 (flags_low _) Hpdf))).
      destruct (install_run L g (up_ptpages ps s) p tabs i a pdflags Hs1 Hp Hpt Hi Ht Hka Hoa (tk_owned _ _ _ _ Hta) (conj Hpdf Hpdp)
        (ret (Some a))) as (s2 & E2 & Hs2 & Hsame2).
      erewrite bind_done by exact E2. cbv iota beta.
      destruct (map_entry L g _ s2 p va paddr ptflags (<[i := a]> tabs) a (phys s) Hs2 ltac:(apply lookup_insert_eq) Hva
        ltac:(apply lookup_insert_eq) Hptf (fun q => is_Some_insert g p tabs _ q Hp) Hsame2) as (s' & E & Hs' & Hb).
      eexists _, s'. split; [exact E|]. split; [exact Hs'|]. split; [intros q; by eapply is_Some_insert|].
      split; [exact Hb|exact (Hmmu _ Hb)].
    + right. split; [intros h k Hh; apply (Hno h k Hh); lia|]. rewrite bind_assoc. unfold on_pages at 1, bind at 1.
      unfold page_alloc. rewrite Ea. unfold bind, ret, on_pages. by destruct (slab_allocators_reclaim (pt_pages s)).
Qed.

(** C6: [pt_map] with a present page: the page is mapped at [paddr] with the
    flags, in this directory and in no other, and no other page changes; a page
    table that has to be made is empty before.  The hardware then takes the
    addresses of the page to [paddr], if they are to be present.  It returns [-ENOMEM] only when
    the page allocator has no page, after the slab allocators have been asked. *)
Theorem pt_map_spec L g s p va paddr pdflags ptflags :
  pt_ok L g s -> is_Some (g !! p) -> p <> template_pagedir s -> user_page va -> 0 <= paddr < 2 ^ 32 -> paddr mod 4096 = 0 ->
  0 <= pdflags < 4096 -> present pdflags = true -> 0 <= ptflags < 4096 ->
  (exists g' s', pt_map p va paddr pdflags ptflags s = Done 0 s' /\ pt_ok L g' s' /\
     (forall q, is_Some (g' !! q) <-> is_Some (g !! q)) /\
     spaces_become g (phys s) (phys s') p (fun va' old => if va' =? va then Z.lor paddr ptflags else old) /\
     (present ptflags = true -> forall o, 0 <= o < 4096 -> translate (phys s') (k2p p) (va + o) = Some (paddr + o))) \/
  ((forall h k, h ∈ pagegroup_list (pt_pages s) -> listof h k = []) /\
   pt_map p va paddr pdflags ptflags s = (on_pages slab_allocators_reclaim ;; ret (- Vnode.ENOMEM)) s).
Proof. apply pt_map_run. Qed.
End Map.
End PageTableOps.
