(* ===== verification/PageTableRange.v ===== *)
(** * Page tables: ranges

    [pt_unmap_range] over the invariant of [PageTableOps]. *)

From Stdlib Require Import ZArith Lia.
From stdpp Require Import base list gmap.
From S2P Require Import Prelude Vnode Page PageSpec PageTable PageTableSpec PageTableOps.

Module PageTableRange.
Import Page PageSpec PageTable PageTableSpec PageTableOps.
Local Open Scope Z_scope.

(** ** Composing changes *)
Lemma become_trans g g1 m m1 m2 p F G : (forall q, is_Some (g1 !! q) <-> is_Some (g !! q)) ->
  spaces_become g m m1 p F -> spaces_become g1 m1 m2 p G ->
  spaces_become g m m2 p (fun va old => G va (F va old)).
Proof.
  intros Hd HF HG q va Hq Hva. rewrite (HG q va) by (done || by apply Hd). case_bool_decide as E.
  - subst q. by rewrite (HF p va), bool_decide_eq_true_2 by done.
  - by rewrite (HF q va), bool_decide_eq_false_2 by done.
Qed.

Lemma become_ext g m m' p F G : spaces_become g m m' p F -> (forall va old, user_page va -> F va old = G va old) ->
  spaces_become g m m' p G.
Proof. intros HF Hext q va Hq Hva. rewrite (HF q va) by done. by rewrite Hext. Qed.

Lemma become_refl g m p F : (forall va, user_page va -> F va (pte_at m p va) = pte_at m p va) -> spaces_become g m m p F.
Proof. intros HF q va Hq Hva. case_bool_decide; [subst q; by rewrite HF|done]. Qed.

(** ** Clearing part of a page table *)
Lemma clear_entries L g s p tabs i t j n : pt_ok L g s -> g !! p = Some tabs -> tabs !! i = Some t ->
  0 <= j -> j + Z.of_nat n <= 1024 ->
  exists s', memzero (t + 4 * j) n s = Done tt s' /\ pt_ok L g s' /\ pt_pages s' = pt_pages s /\
    spaces_become g (phys s) (phys s') p
      (fun va old => if bool_decide (vaddr_to_pdindex va = i /\ j <= vaddr_to_ptindex va < j + Z.of_nat n) then 0 else old).
Proof.
  intros Hs Hp Ht Hj Hn. pose proof (pk_spaces _ _ _ Hs) as Hsp.
  destruct (user_plain _ _ _ _ _ _ _ Hsp Hp Ht) as [Hpl Hkt]. destruct (pk_cur _ _ _ Hs) as [tc Hc].
  destruct (memzero_run L (current_pagedir s) t n j s (ok_space _ _ _ Hs) Hkt Hj Hn) as [E _].
  { intros k _. by eapply plain_core. }
  pose proof (plain_zero L g s t j n Hs Hkt Hpl Hj Hn) as Hs'. eexists. split; [exact E|]. split; [exact Hs'|].
  split; [done|]. intros q va [tq Hq] Hva. destruct (user_page_idx va Hva) as [_ Hjv].
  rewrite (pte_at_tabs L g _ q tq), (pte_at_tabs L g (phys s) p tabs), (pte_at_tabs L g (phys s) q tq) by (done || apply Hs').
  destruct (tq !! vaddr_to_pdindex va) as [u|] eqn:Hu.
  - destruct (user_plain _ _ _ _ _ _ _ Hsp Hq Hu) as [_ Hku]. cbn [phys up_phys].
    rewrite mw_zero by (lia || apply Hkt || apply Hku). destruct (decide (u = t)) as [->|Hne].
    + assert (OUser q (vaddr_to_pdindex va) = OUser p i) as E' by (eapply (so_inj _ _ _ Hsp); by econstructor).
      injection E' as -> Ei. rewrite (bool_decide_eq_true_2 (p = p)) by done. rewrite Ei, Ht.
      do 2 case_bool_decide; naive_solver.
    + rewrite (bool_decide_eq_false_2 (u = t /\ _)) by naive_solver. case_bool_decide as E'; [subst q|done].
      assert (tq = tabs) as -> by congruence. rewrite Hu. rewrite bool_decide_eq_false_2; [done|]. intros [Ei _]. congruence.
  - case_bool_decide as E'; [subst q|done]. assert (tq = tabs) as -> by congruence. rewrite Hu.
    by case_bool_decide.
Qed.

(** ** Dropping a page table *)
Lemma blocks_disjoint a b x : a mod 4096 = 0 -> b mod 4096 = 0 -> in_block a 0 x -> in_block b 0 x -> a = b.
Proof. unfold in_block. change (bsize 0) with 4096. intros. dlia. Qed.

(** The memory once the entry is cleared. *)
Definition no_entry (p i : Z) (m : gmap Z Z) : gmap Z Z := wr p i 0 (wr (p + 4096) i 0 m).

Lemma no_entry_other L g m p tabs i b j : spaces_ok L g m -> g !! p = Some tabs -> user_idx i -> kpage L b -> 0 <= j < 1024 ->
  ~ ((b = p \/ b = p + 4096) /\ j = i) -> mw (no_entry p i m) b j = mw m b j.
Proof.
  intros Hsp Hp Hi Hb Hj Hne. unfold user_idx in Hi. unfold no_entry.
  pose proof (so_page _ _ _ Hsp (ODir p) p ltac:(by econstructor)) as Hk1.
  pose proof (so_page _ _ _ Hsp (ODirV p) (p + 4096) ltac:(by econstructor)) as Hk2.
  rewrite !mw_wr by (lia || apply Hb || apply Hk1 || apply Hk2). by rewrite !bool_decide_eq_false_2 by tauto.
Qed.

Lemma no_entry_spaces L g m p tabs i : spaces_ok L g m -> g !! p = Some tabs -> user_idx i ->
  spaces_ok L (<[p := delete i tabs]> g) (no_entry p i m).
Proof.
  intros Hsp Hp Hi. apply (spaces_dir L g m _ p tabs _ i); try done.
  - apply ram_wr, ram_wr, (km_ram _ _ (so_kmap _ _ _ Hsp)).
  - intros o b j Ho _ Hj Hne. eapply no_entry_other; try done. by eapply so_page.
  - intros k Hk. by apply lookup_delete_ne.
  - exists 0. rewrite lookup_delete_eq. split; [apply lookup_insert_eq|done].
  - intros t. by rewrite lookup_delete_eq.
Qed.

Lemma no_entry_become L g m p tabs i : spaces_ok L g m -> g !! p = Some tabs -> user_idx i ->
  spaces_become g m (no_entry p i m) p (fun va old => if vaddr_to_pdindex va =? i then 0 else old).
Proof.
  intros Hsp Hp Hi q va [tq Hq] Hva. destruct (user_page_idx va Hva) as [_ Hj].
  assert (exists tq', <[p := delete i tabs]> g !! q = Some tq' /\
    tq' !! vaddr_to_pdindex va = if bool_decide (q = p /\ vaddr_to_pdindex va = i) then None else tq !! vaddr_to_pdindex va)
    as (tq' & Hq' & Et).
  { destruct (decide (q = p)) as [->|Hne]; [|exists tq; rewrite lookup_insert_ne, bool_decide_eq_false_2 by naive_solver; done].
    assert (tq = tabs) as -> by congruence. exists (delete i tabs). split; [apply lookup_insert_eq|].
    case_bool_decide as E; [destruct E as [_ ->]; apply lookup_delete_eq|apply lookup_delete_ne; naive_solver]. }
  rewrite (pte_at_tabs L _ _ q tq' va (no_entry_spaces L g m p tabs i Hsp Hp Hi) Hq' Hva), Et.
  rewrite (pte_at_tabs L g m p tabs), (pte_at_tabs L g m q tq) by done.
  assert (match tq !! vaddr_to_pdindex va with None => 0 | Some t => default 0 (mw (no_entry p i m) t (vaddr_to_ptindex va)) end =
    match tq !! vaddr_to_pdindex va with None => 0 | Some t => default 0 (mw m t (vaddr_to_ptindex va)) end) as Eq.
  { destruct (tq !! vaddr_to_pdindex va) as [u|] eqn:Hu; [|done]. destruct (user_plain _ _ _ _ _ _ _ Hsp Hq Hu) as [Hpl Hku].
    erewrite no_entry_other; [done..|]. intros [[E|E] _]; subst u;
      [apply (Hpl (ODir p))|apply (Hpl (ODirV p))]; try done; by econstructor. }
  destruct (Z.eqb_spec (vaddr_to_pdindex va) i) as [Ei|Ei]; do 2 case_bool_decide; subst; try tauto; rewrite ?Eq; try done.
  - by assert (tq = tabs) as -> by congruence.
Qed.

(** The page of a table that is gone is free. *)
Lemma ok_less_table L g s p tabs i t ps m' : pt_ok L g s -> g !! p = Some tabs -> tabs !! i = Some t ->
  gave (pt_pages s) 0 t ps -> spaces_ok L (<[p := delete i tabs]> g) m' ->
  pt_ok L (<[p := delete i tabs]> g) (up_phys (fun _ => m') (up_ptpages ps s)).
Proof.
  intros Hs Hp Ht Hg Hm. pose proof Hs as [H1 H2 H3 H4 H5 H6 H7 H8 H9].
  pose proof (so_page _ _ _ H1 (OUser p i) t ltac:(by econstructor)) as Hkt.
  assert (forall o a, owns L (<[p := delete i tabs]> g) o a -> owns L g o a /\ forall x, in_block a 0 x -> ~ in_block t 0 x) as Hold.
  { intros o a Ho. pose proof Ho as Ho'. apply (owns_insert L g p tabs _ i) in Ho as [Ho|[_ Ho]]; [|by rewrite lookup_delete_eq in Ho|done|
      intros k Hk; by apply lookup_delete_ne].
    split; [done|]. intros x Hx Hx'. pose proof (so_page _ _ _ H1 _ _ Ho) as Hka.
    assert (a = t) as -> by (eapply blocks_disjoint; eauto; [apply Hka|apply Hkt]).
    assert (o = OUser p i) as -> by (eapply (so_inj _ _ _ H1); [done|by econstructor]).
    inversion Ho' as [| | | |? ? ? ? Hq Hu]; subst. rewrite lookup_insert_eq in Hq. injection Hq as <-.
    by rewrite lookup_delete_eq in Hu. }
  split; try done; cbn.
  - destruct (decide (current_pagedir s = p)) as [->|]; [rewrite lookup_insert_eq; eauto|by rewrite lookup_insert_ne].
  - rewrite lookup_insert_ne; [done|]. intros ->. rewrite H5 in Hp. injection Hp as <-. by rewrite lookup_empty in Ht.
  - apply Hg.
  - intros x [Hx|Hx]%(gv_free _ _ _ _ Hg); [by apply H7|]. unfold in_block, kpage in *. change (bsize 0) with 4096 in Hx. lia.
  - intros o a x Ho Hx [Hf|Hf]%(gv_free _ _ _ _ Hg); destruct (Hold o a Ho) as [Ho' Hd]; [by eapply H8|by eapply Hd].
  - intros q tq j u Hq Hu. destruct (Hold (OUser q j) u) as [Ho' Hd]; [by econstructor|].
    inversion Ho' as [| | | |? tq0 ? ? Hq0 Hu0]; subst.
    eapply allocated_geo; [apply (gv_geo _ _ _ _ Hg)| |by eapply H9]. intros x Hx [Hf|Hf]%(gv_free _ _ _ _ Hg); [done|by destruct (Hd x Hx)].
Qed.

Lemma drop_table L g s p tabs i t : pt_ok L g s -> g !! p = Some tabs -> tabs !! i = Some t ->
  exists s', (on_pages (page_free t) ;; store (pd_virtual p i) 0 ;; store (pd_physical p i) 0) s = Done tt s' /\
    pt_ok L (<[p := delete i tabs]> g) s' /\ (forall x, free_at (pt_pages s') x <-> free_at (pt_pages s) x \/ in_block t 0 x) /\
    spaces_become g (phys s) (phys s') p (fun va old => if vaddr_to_pdindex va =? i then 0 else old).
Proof.
  intros Hs Hp Ht. pose proof (pk_spaces _ _ _ Hs) as Hsp. pose proof (so_idx _ _ _ Hsp _ _ _ _ Hp Ht) as Hi.
  assert (0 <= i < 1024) as Hir by (unfold user_idx in Hi; lia).
  assert (owns L g (ODir p) p) as Ho1 by (by econstructor). assert (owns L g (ODirV p) (p + 4096)) as Ho2 by (by econstructor).
  pose proof (so_page _ _ _ Hsp _ _ Ho1) as Hk1. pose proof (so_page _ _ _ Hsp _ _ Ho2) as Hk2.
  destruct (user_plain _ _ _ _ _ _ _ Hsp Hp Ht) as [Hpl Hkt].
  destruct (page_free_order_run (pt_pages s) t 0 (pk_pages _ _ _ Hs) ltac:(lia) (pk_tabs _ _ _ Hs _ _ _ _ Hp Ht)) as (ps & Ef & Hg).
  krun (on_pages_run (page_free t) s tt ps Ef). set (s1 := up_ptpages ps s).
  assert (in_space L s1 (current_pagedir s)) as Hs1 by (exact (ok_space _ _ _ Hs)).
  destruct (user_word_core L g s p tabs i Hs Hp Hi i) as [C1 C2].
  change (pd_virtual p i) with (word (p + 4096) i). change (pd_physical p i) with (word p i).
  krun (store_run L s1 _ (p + 4096) i 0 Hs1 Hk2 Hir). set (s2 := up_phys (wr (p + 4096) i 0) s1).
  assert (in_space L s2 (current_pagedir s)) as Hs2.
  { destruct Hs1 as [Hl Hcr]. split; [exact (live_wr L _ _ _ i 0 Hl Hk2 Hir C2)|exact Hcr]. }
  rewrite (store_run L s2 _ p i 0 Hs2 Hk1 Hir). exists (up_phys (fun _ => no_entry p i (phys s)) s1). split; [reflexivity|]. split.
  - eapply ok_less_table; try done. by apply no_entry_spaces.
  - split; [exact (gv_free _ _ _ _ Hg)|]. by eapply no_entry_become.
Qed.

(** ** [pt_unmap_range] *)

(** The addresses of the page tables with index [i] to [i + n - 1], and the page
    tables without them. *)
Definition in_tables (tabs : gmap Z Z) (i : Z) (n : nat) (x : Z) : Prop :=
  exists k t, i <= k < i + Z.of_nat n /\ tabs !! k = Some t /\ in_block t 0 x.
Definition outside (tabs : gmap Z Z) (i : Z) (n : nat) : gmap Z Z := filter (fun kt => ~ (i <= kt.1 < i + Z.of_nat n)) tabs.

Lemma outside_lookup tabs i n k : outside tabs i n !! k = if bool_decide (i <= k < i + Z.of_nat n) then None else tabs !! k.
Proof.
  unfold outside. case_bool_decide as E.
  - apply map_lookup_filter_None_2. right. intros t _ Hn. by apply Hn.
  - destruct (tabs !! k) as [t|] eqn:Et; [by apply map_lookup_filter_Some_2|apply map_lookup_filter_None_2; by left].
Qed.

Lemma outside_delete tabs i n : outside (delete i tabs) (i + 1) n = outside tabs i (S n).
Proof.
  apply map_eq. intros k. rewrite !outside_lookup. destruct (decide (k = i)) as [->|Hne].
  - rewrite lookup_delete_eq. rewrite (bool_decide_eq_true_2 (i <= i < _)) by lia. by case_bool_decide.
  - rewrite lookup_delete_ne by done. do 2 case_bool_decide; try done; lia.
Qed.

Lemma outside_none tabs i n : tabs !! i = None -> outside tabs (i + 1) n = outside tabs i (S n).
Proof. intros Hn. by rewrite <- outside_delete, delete_id. Qed.

Lemma in_tables_step tabs i n x : in_tables tabs i (S n) x <->
  (exists t, tabs !! i = Some t /\ in_block t 0 x) \/ in_tables (delete i tabs) (i + 1) n x.
Proof.
  unfold in_tables. split.
  - intros (k & t & Hk & Ht & Hx). destruct (decide (k = i)) as [->|Hne]; [left; eauto|]. right. exists k, t.
    rewrite lookup_delete_ne by done. split; [lia|done].
  - intros [(t & Ht & Hx)|(k & t & Hk & Ht & Hx)]; [exists i, t; split; [lia|done]|]. rewrite lookup_delete_ne in Ht by lia. exists k, t. split; [lia|done].
Qed.

Lemma unmap_tables_run L p n : forall i g s tabs, pt_ok L g s -> g !! p = Some tabs -> 1 <= i -> i + Z.of_nat n <= 768 ->
  exists s', unmap_tables p i n s = Done tt s' /\ pt_ok L (<[p := outside tabs i n]> g) s' /\
    (forall x, free_at (pt_pages s') x <-> free_at (pt_pages s) x \/ in_tables tabs i n x) /\
    spaces_become g (phys s) (phys s') p
      (fun va old => if bool_decide (i <= vaddr_to_pdindex va < i + Z.of_nat n) then 0 else old).
Proof.
  induction n as [|n IH]; intros i g s tabs Hs Hp Hi Hn; cbn [unmap_tables].
  { exists s. assert (outside tabs i 0 = tabs) as -> by (apply map_eq; intros k; rewrite outside_lookup, bool_decide_eq_false_2 by lia; done).
    rewrite insert_id by done. split_and!; try done; [intros x; split; [by left|intros [?|(k & t & Hk & _)]; [done|lia]]|].
    apply become_refl. intros va _. by rewrite bool_decide_eq_false_2 by lia. }
  assert (user_idx i) as Hui by (unfold user_idx; lia). pose proof (pk_spaces _ _ _ Hs) as Hsp.
  destruct (so_user _ _ _ Hsp p tabs Hp i Hui) as (e & He & Hm). krun (load_pde L g s p tabs i e Hs Hp ltac:(lia) He).
  assert (exists s1, (if present e then
       let* pt := load (pd_virtual p i) in
       on_pages (page_free pt) ;; store (pd_virtual p i) 0 ;; store (pd_physical p i) 0 else ret tt) s = Done tt s1 /\
     pt_ok L (<[p := delete i tabs]> g) s1 /\
     (forall x, free_at (pt_pages s1) x <-> free_at (pt_pages s) x \/ exists t, tabs !! i = Some t /\ in_block t 0 x) /\
     spaces_become g (phys s) (phys s1) p (fun va old => if vaddr_to_pdindex va =? i then 0 else old))
    as (s1 & E1 & Hs1 & Hf1 & Hb1).
  { destruct (tabs !! i) as [t|] eqn:Ht.
    - destruct Hm as (-> & _). krun (load_table L g s p tabs i t Hs Hp Hui Ht).
      destruct (drop_table L g s p tabs i t Hs Hp Ht) as (s1 & E & Hs1 & Hf & Hb).
      exists s1. split; [exact E|]. split; [exact Hs1|]. split; [|exact Hb]. intros x. rewrite Hf. naive_solver.
    - rewrite Hm. exists s. rewrite delete_id, insert_id by done. split_and!; try done; [naive_solver|]. apply become_refl. intros va Hva.
      destruct (Z.eqb_spec (vaddr_to_pdindex va) i) as [Ei|]; [|done]. by rewrite (pte_at_tabs L g _ p tabs), Ei, Ht by done. }
  krun E1. destruct (IH (i + 1) _ s1 (delete i tabs) Hs1 ltac:(apply lookup_insert_eq) ltac:(lia) ltac:(lia)) as (s' & E & Hs' & Hf & Hb).
  rewrite insert_insert_eq, outside_delete in Hs'. exists s'. split; [exact E|]. split; [done|].
  split; [intros x; rewrite Hf, Hf1, in_tables_step; tauto|].
  eapply become_ext; [eapply (become_trans g (<[p := delete i tabs]> g)); [intros q; by eapply is_Some_insert|exact Hb1|exact Hb]|]. intros va old _. cbv beta.
  destruct (Z.eqb_spec (vaddr_to_pdindex va) i); repeat case_bool_decide; try done; lia.
Qed.

(** One end of the range: part of a page table is cleared if there is one. *)
Lemma clear_end L g s p i j n (b : bool) : pt_ok L g s -> is_Some (g !! p) -> 1 <= i <= 768 -> (b = true -> i < 768) ->
  0 <= j -> j + Z.of_nat n <= 1024 ->
  exists s',
    (let* pde := load (pd_physical p i) in
     if present pde && b then
       let* pt := load (pd_virtual p i) in memzero (pt + 4 * j) n
     else ret tt) s = Done tt s' /\ pt_ok L g s' /\ pt_pages s' = pt_pages s /\
    spaces_become g (phys s) (phys s') p
      (fun va old => if bool_decide (b = true /\ vaddr_to_pdindex va = i /\ j <= vaddr_to_ptindex va < j + Z.of_nat n) then 0 else old).
Proof.
  intros Hs [tabs Hp] Hi Hb Hj Hn. pose proof (pk_spaces _ _ _ Hs) as Hsp.
  assert (kpage L p) as Hkp by (eapply (so_page _ _ _ Hsp (ODir p)); by econstructor).
  destruct (mw_some L s _ p i (ok_space _ _ _ Hs) Hkp ltac:(lia)) as [e He].
  krun (load_pde L g s p tabs i e Hs Hp ltac:(lia) He). destruct b.
  2:{ rewrite andb_false_r. exists s. split_and!; try done. apply become_refl. intros va _. by rewrite bool_decide_eq_false_2 by naive_solver. }
  assert (user_idx i) as Hui by (unfold user_idx; naive_solver lia). rewrite andb_true_r.
  destruct (so_user _ _ _ Hsp p tabs Hp i Hui) as (e' & He' & Hm). assert (e' = e) as -> by congruence.
  destruct (tabs !! i) as [t|] eqn:Ht.
  - destruct Hm as (-> & _). krun (load_table L g s p tabs i t Hs Hp Hui Ht).
    destruct (clear_entries L g s p tabs i t j n Hs Hp Ht Hj Hn) as (s' & E & Hs' & Hpg & Hbc).
    exists s'. split; [exact E|]. split; [done|]. split; [done|]. eapply become_ext; [exact Hbc|]. intros va old _. cbv beta.
    do 2 case_bool_decide; naive_solver.
  - rewrite Hm. exists s. split_and!; try done. apply become_refl. intros va Hva. case_bool_decide as E; [|done].
    destruct E as (_ & Ei & _). by rewrite (pte_at_tabs L g _ p tabs), Ei, Ht by done.
Qed.

(** The pages [pt_unmap_range] unmaps: those of the range, and the whole page
    table when both ends are inside one. *)
Definition unmapped (vlow vhigh va : Z) : Prop :=
  vlow <= va < vhigh \/
  (vaddr_to_pdindex vlow = vaddr_to_pdindex vhigh /\ vaddr_to_ptindex vlow <> 0 /\
   vaddr_to_pdindex va = vaddr_to_pdindex vlow).

#[export] Instance unmapped_dec vlow vhigh va : Decision (unmapped vlow vhigh va).
Proof. unfold unmapped. apply _. Defined.

Lemma page_number va : va mod 4096 = 0 -> exists i j, 0 <= j < 1024 /\ va = 4096 * (1024 * i + j) /\
  vaddr_to_pdindex va = i /\ vaddr_to_ptindex va = j.
Proof.
  intros Hm. exists (va / 4194304), (va / 4096 mod 1024). rewrite pdindex_div, ptindex_mod. split_and!; dlia.
Qed.

Lemma pdindex_page i j : 0 <= j < 1024 -> vaddr_to_pdindex (4096 * (1024 * i + j)) = i.
Proof. intros Hj. rewrite pdindex_div. dlia. Qed.

(** Where the whole page tables begin and end. *)
Lemma first_table vlow : vlow mod 4096 = 0 ->
  vaddr_to_pdindex (vlow + PAGE_SIZE * ((PT_ENTRY_COUNT - vaddr_to_ptindex vlow) mod PT_ENTRY_COUNT)) =
  vaddr_to_pdindex vlow + (if vaddr_to_ptindex vlow =? 0 then 0 else 1).
Proof.
  intros Hm. destruct (page_number vlow Hm) as (i & j & Hj & E & -> & ->). subst vlow.
  change PAGE_SIZE with 4096. change PT_ENTRY_COUNT with 1024.
  destruct (Z.eqb_spec j 0) as [->|Hne].
  - change ((1024 - 0) mod 1024) with 0. rewrite Z.mul_0_r, !Z.add_0_r. rewrite <- (Z.add_0_r (1024 * i)) at 1. by apply pdindex_page.
  - rewrite Z.mod_small by lia. replace (4096 * (1024 * i + j) + 4096 * (1024 - j)) with (4096 * (1024 * (i + 1) + 0)) by lia.
    by apply pdindex_page.
Qed.

Lemma last_table vhigh : vhigh mod 4096 = 0 ->
  vaddr_to_pdindex (vhigh - PAGE_SIZE * vaddr_to_ptindex vhigh) = vaddr_to_pdindex vhigh.
Proof.
  intros Hm. destruct (page_number vhigh Hm) as (i & j & Hj & E & -> & ->). subst vhigh. change PAGE_SIZE with 4096.
  replace (4096 * (1024 * i + j) - 4096 * j) with (4096 * (1024 * i + 0)) by lia. by apply pdindex_page.
Qed.

(** The three passes together. *)
Lemma unmapped_passes vlow vhigh va : vlow < vhigh -> vlow mod 4096 = 0 -> vhigh mod 4096 = 0 -> va mod 4096 = 0 ->
  let j1 := vaddr_to_ptindex vlow in let j2 := vaddr_to_ptindex vhigh in
  unmapped vlow vhigh va <->
  (j1 <> 0 /\ vaddr_to_pdindex va = vaddr_to_pdindex vlow /\ j1 <= vaddr_to_ptindex va < 1024) \/
  (j2 <> 0 /\ vaddr_to_pdindex va = vaddr_to_pdindex vhigh /\ 0 <= vaddr_to_ptindex va < j2) \/
  (vaddr_to_pdindex vlow + (if j1 =? 0 then 0 else 1) <= vaddr_to_pdindex va < vaddr_to_pdindex vhigh).
Proof.
  intros Hlt Hl Hh Ha. cbv zeta. unfold unmapped.
  destruct (page_number vlow Hl) as (i1 & j1 & Hj1 & E1 & -> & ->).
  destruct (page_number vhigh Hh) as (i2 & j2 & Hj2 & E2 & -> & ->).
  destruct (page_number va Ha) as (i & j & Hj & E & -> & ->). subst. destruct (Z.eqb_spec j1 0); lia.
Qed.

(** The page tables all of whose 4 MB lie in the range. *)
Definition covered (vlow vhigh k : Z) : Prop := vlow <= k * 4194304 /\ (k + 1) * 4194304 <= vhigh.

Lemma covered_passes vlow vhigh k : vlow mod 4096 = 0 -> vhigh mod 4096 = 0 ->
  covered vlow vhigh k <-> vaddr_to_pdindex vlow + (if vaddr_to_ptindex vlow =? 0 then 0 else 1) <= k < vaddr_to_pdindex vhigh.
Proof.
  intros Hl Hh. unfold covered. destruct (page_number vlow Hl) as (i1 & j1 & Hj1 & E1 & -> & ->).
  destruct (page_number vhigh Hh) as (i2 & j2 & Hj2 & E2 & -> & _). subst. destruct (Z.eqb_spec j1 0); lia.
Qed.

(** C7: [pt_unmap_range] unmaps the pages of the range, in this directory only, and
    takes out the page tables the range covers: their pages, and no others,
    become free.  When both ends lie inside the same page table, and the lower
    one not at its beginning, it unmaps everything that page table maps. *)
Theorem pt_unmap_range_spec L g s p tabs vlow vhigh :
  pt_ok L g s -> g !! p = Some tabs -> vlow < vhigh -> vlow mod 4096 = 0 -> vhigh mod 4096 = 0 ->
  USER_MEM_LOW <= vlow -> vhigh <= USER_MEM_HIGH ->
  exists s' tabs', pt_unmap_range p vlow vhigh s = Done tt s' /\ pt_ok L (<[p := tabs']> g) s' /\
    (forall k t, tabs' !! k = Some t <-> tabs !! k = Some t /\ ~ covered vlow vhigh k) /\
    (forall x, free_at (pt_pages s') x <->
       free_at (pt_pages s) x \/ exists k t, covered vlow vhigh k /\ tabs !! k = Some t /\ in_block t 0 x) /\
    spaces_become g (phys s) (phys s') p (fun va old => if bool_decide (unmapped vlow vhigh va) then 0 else old).
Proof.
  intros Hs Hp Hlt Hl Hh HL HH. unfold pt_unmap_range, USER_MEM_LOW, USER_MEM_HIGH in *.
  krun (kassert_true (vlow <? vhigh) s ltac:(lia)).
  krun (kassert_true (PAGE_ALIGNED vlow && PAGE_ALIGNED vhigh) s ltac:(by rewrite (proj2 (aligned_mod vlow) Hl), (proj2 (aligned_mod vhigh) Hh))).
  krun (kassert_true ((4194304 <=? vlow) && (vhigh <=? 3221225472)) s ltac:(lia)).
  rewrite !u32_small; [|rewrite ptindex_mod; change PAGE_SIZE with 4096; dlia|change PAGE_SIZE with 4096; change PT_ENTRY_COUNT with 1024; dlia].
  rewrite first_table, last_table by done. pose proof (fun k => covered_passes vlow vhigh k Hl Hh) as Hcov.
  set (j1 := vaddr_to_ptindex vlow) in *. set (j2 := vaddr_to_ptindex vhigh).
  set (i1 := vaddr_to_pdindex vlow) in *. set (i2 := vaddr_to_pdindex vhigh) in *.
  assert (0 <= j1 < 1024) as Hj1 by (unfold j1; rewrite ptindex_mod; clear; dlia).
  assert (0 <= j2 < 1024) as Hj2 by (unfold j2; rewrite ptindex_mod; clear; dlia).
  assert (1 <= i1 < 768) as Hi1 by (unfold i1; rewrite pdindex_div; clear - HL HH Hlt; dlia).
  assert (1 <= i2 <= 768) as Hi2 by (unfold i2; rewrite pdindex_div; clear - HL HH Hlt; dlia).
  assert (j2 <> 0 -> i2 < 768) as Hi2' by (unfold i2, j2; rewrite pdindex_div, ptindex_mod; clear - HL HH Hlt Hh; dlia).
  destruct (clear_end L g s p i1 j1 (Z.to_nat (1024 - j1)) (negb (j1 =? 0)) Hs ltac:(eauto) ltac:(lia) ltac:(lia) ltac:(lia) ltac:(lia))
    as (s1 & E1 & Hs1 & Hg1 & Hb1).
  change PT_ENTRY_COUNT with 1024. rewrite <- bind_assoc. krun E1.
  destruct (clear_end L g s1 p i2 0 (Z.to_nat j2) (negb (j2 =? 0)) Hs1 ltac:(eauto) ltac:(lia) ltac:(intros; apply Hi2'; lia) ltac:(lia) ltac:(lia))
    as (s2 & E2 & Hs2 & Hg2 & Hb2).
  rewrite <- bind_assoc. krun E2. set (i0 := i1 + (if j1 =? 0 then 0 else 1)) in *. set (n := Z.to_nat (i2 - i0)).
  assert (forall k, covered vlow vhigh k <-> i0 <= k < i0 + Z.of_nat n) as Hcov' by (intros k; rewrite Hcov; unfold n; lia).
  destruct (unmap_tables_run L p n i0 g s2 tabs Hs2 Hp) as (s' & E & Hs' & Hf & Hb);
    [unfold i0; destruct (j1 =? 0); lia|unfold n, i0; destruct (j1 =? 0); lia|].
  exists s', (outside tabs i0 n). split; [exact E|]. split; [exact Hs'|].
  split; [intros k t; rewrite outside_lookup, Hcov'; case_bool_decide; naive_solver|].
  split; [intros x; rewrite Hf, Hg2, Hg1; unfold in_tables; by setoid_rewrite Hcov'|].
  eapply become_ext; [exact (become_trans g g _ _ _ p _ _ (fun q => iff_refl _) Hb1 (become_trans g g _ _ _ p _ _ (fun q => iff_refl _) Hb2 Hb))|].
  intros va old [_ Hva]. cbv beta. pose proof (unmapped_passes vlow vhigh va Hlt Hl Hh Hva) as Hu. cbv zeta in Hu. fold j1 j2 i1 i2 i0 in Hu.
  assert (0 <= vaddr_to_ptindex va < 1024) as Hjv by (rewrite ptindex_mod; clear; dlia).
  revert Hu. generalize (vaddr_to_pdindex va) (vaddr_to_ptindex va) Hjv. intros iv jv Hjv' Hu. unfold n. clear - Hu Hjv' Hj1 Hj2 Hi1 Hi2.
  repeat case_bool_decide; try done; exfalso; destruct (Z.eqb_spec j1 0), (Z.eqb_spec j2 0); naive_solver lia.
Qed.

End PageTableRange.
