(* ===== verification/PageTableDirs.v ===== *)
(** * Page tables: whole directories

    [pt_virt_to_phys], [pt_set], [pt_create_pagedir] and [pt_destroy_pagedir] over
    the invariant of [PageTableOps]. *)

From Stdlib Require Import ZArith Lia.
From stdpp Require Import base list gmap.
From S2P Require Import Prelude Vnode Page PageSpec PageTable PageTableSpec PageTableOps PageTableRange.

Module PageTableDirs.
Import Page PageSpec PageTable PageTableSpec PageTableOps PageTableRange.
Local Open Scope Z_scope.

(** ** Switching directories *)

(** The physical address of kernel memory. *)
Theorem pt_virt_to_phys_spec L g s va : pt_ok L g s -> kernel_start <= va < l_top L ->
  exists s', pt_virt_to_phys va s = Done (k2p va) s' /\ pt_ok L g s' /\ same_spaces g (phys s) (phys s') /\
    current_pagedir s' = current_pagedir s /\ pt_pages s' = pt_pages s.
Proof.
  intros Hs Hva. destruct (final_apart L g s Hs) as [F1 F2].
  destruct (virt_to_phys_run L s _ va (ok_space _ _ _ Hs) eq_refl (pk_final _ _ _ Hs) F1 F2 Hva) as (w & E & _).
  eexists. split; [exact E|]. split; [by apply window_ok|]. split; [|done].
  eapply same_user_tables; [apply Hs|by apply (window_ok L g s w Hs)|]. intros p tabs i t j Hp Ht Hj. cbn [phys up_phys].
  pose proof (pk_spaces _ _ _ Hs) as Hsp. destruct (user_plain _ _ _ _ _ _ _ Hsp Hp Ht) as [_ Hkt].
  pose proof (km_final _ _ (so_kmap _ _ _ Hsp)) as Hf. rewrite mw_wr by (lia || apply Hf || apply Hkt).
  rewrite bool_decide_eq_false_2; [done|]. intros [-> _].
  assert (OFinal = OUser p i) as E'; [|discriminate]. eapply (so_inj _ _ _ Hsp); [constructor|by econstructor].
Qed.

(** [pt_set]: the hardware uses the directory from then on, and kernel memory
    stays where it was. *)
Theorem pt_set_spec L g s p : pt_ok L g s -> is_Some (g !! p) ->
  exists s', pt_set p s = Done tt s' /\ pt_ok L g s' /\ current_pagedir s' = p /\ cr3 s' = k2p p /\
    same_spaces g (phys s) (phys s') /\
    (forall va, kernel_start <= va < l_top L -> translate (phys s') (cr3 s') va = Some (k2p va)).
Proof.
  intros Hs [tabs Hp]. pose proof (so_page _ _ _ (pk_spaces _ _ _ Hs) (ODir p) p ltac:(by econstructor)) as Hk.
  destruct (virt_to_phys_run L s (current_pagedir s) p (ok_space _ _ _ Hs) eq_refl (pk_final _ _ _ Hs)
    (proj1 (final_apart L g s Hs)) (proj2 (final_apart L g s Hs)) ltac:(unfold kpage in Hk; lia)) as (w & E & _).
  destruct (pt_virt_to_phys_spec L g s p Hs ltac:(unfold kpage in Hk; lia)) as (s1 & E1 & Hs1 & Hsame & _).
  unfold pt_set. krun E1. erewrite bind_done by reflexivity. unfold modify. eexists. split; [reflexivity|].
  assert (pt_ok L g (up_cr3 (k2p p) (up_current p s1))) as Hs2.
  { destruct Hs1 as [H1 H2 H3 H4 H5 H6 H7 H8 H9]. split; try done. }
  split_and!; try done. intros va Hva. destruct (spaces_live L g _ p tabs (pk_spaces _ _ _ Hs2) Hp) as (Hkm & Hpk & _).
  by apply (translate_kernel L).
Qed.

(** ** New directories *)
Fixpoint copy_words (a b j : Z) (n : nat) (m : gmap Z Z) : gmap Z Z :=
  match n with O => m | S n => copy_words a b (j + 1) n (wr a j (default 0 (mw m b j)) m) end.

Lemma mw_copy a b n : forall j m c i, a mod 4096 = 0 -> b mod 4096 = 0 -> c mod 4096 = 0 -> a <> b ->
  0 <= j -> j + Z.of_nat n <= 1024 -> 0 <= i < 1024 ->
  mw (copy_words a b j n m) c i =
  if bool_decide (c = a /\ j <= i < j + Z.of_nat n) then Some (default 0 (mw m b i)) else mw m c i.
Proof.
  induction n as [|n IH]; intros j m c i Ha Hb Hc Hne Hj Hn Hi; cbn [copy_words].
  - by rewrite bool_decide_eq_false_2 by lia.
  - rewrite IH by (done || lia). rewrite !mw_wr by (done || lia). rewrite (bool_decide_eq_false_2 (b = a /\ i = j)) by naive_solver.
    destruct (decide (c = a /\ i = j)) as [[-> ->]|Hx]; [rewrite (bool_decide_eq_true_2 (a = a /\ j = j)) by done|
      rewrite (bool_decide_eq_false_2 (c = a /\ i = j)) by done]; repeat case_bool_decide; try done; lia.
Qed.

Lemma memcpy_page_run L p a b n : forall j s, in_space L s p -> kpage L a -> kpage L b -> a <> b -> 0 <= j -> j + Z.of_nat n <= 1024 ->
  (forall i, ~ core L p a i) ->
  memcpy_words (word a j) (word b j) n s = Done tt (up_phys (copy_words a b j n) s) /\
  in_space L (up_phys (copy_words a b j n) s) p.
Proof.
  induction n as [|n IH]; intros j s Hs Ha Hb Hne Hj Hn Hc; cbn [memcpy_words].
  { by destruct s. }
  destruct (mw_some L s p b j Hs Hb ltac:(lia)) as [w Hw]. krun (vload_run L s p b j w Hs Hb ltac:(lia) Hw).
  krun (store_run L s p a j w Hs Ha ltac:(lia)).
  replace (word a j + 4) with (word a (j + 1)) by (unfold word; lia). replace (word b j + 4) with (word b (j + 1)) by (unfold word; lia).
  replace (up_phys (copy_words a b j (S n)) s) with (up_phys (copy_words a b (j + 1) n) (up_phys (wr a j w) s))
    by (unfold up_phys; cbn [copy_words phys]; by rewrite Hw).
  apply IH; try done; try lia. destruct Hs as [Hl Hcr]. split; [|done]. apply live_wr; try done; lia.
Qed.

Lemma memcpy_app n : forall dst src k (s : ptst), memcpy_words dst src (n + k) s =
  (memcpy_words dst src n ;; memcpy_words (dst + 4 * Z.of_nat n) (src + 4 * Z.of_nat n) k) s.
Proof.
  induction n as [|n IH]; intros dst src k s.
  - cbn [memcpy_words Nat.add]. erewrite bind_done by reflexivity. by rewrite !Z.add_0_r.
  - cbn [memcpy_words Nat.add]. rewrite bind_assoc. destruct (load src s) as [w s1| | |] eqn:E1; try (unfold bind; by rewrite E1).
    krun E1. krun E1. rewrite bind_assoc. destruct (store dst w s1) as [? s2| | |] eqn:E2; try (unfold bind; by rewrite E2).
    krun E2. krun E2. rewrite IH.
    replace (dst + 4 + 4 * Z.of_nat n) with (dst + 4 * Z.of_nat (S n)) by lia.
    by replace (src + 4 + 4 * Z.of_nat n) with (src + 4 * Z.of_nat (S n)) by lia.
Qed.

(** Both pages of a directory. *)
Definition copy_dir (n : nat) (a t : Z) (m : gmap Z Z) : gmap Z Z :=
  copy_words (a + 4096) (t + 4096) 0 n (copy_words a t 0 n m).

Lemma memcpy_dir_run L p a t n s : Z.of_nat n = 1024 -> in_space L s p -> kpage L a -> kpage L (a + 4096) -> kpage L t -> kpage L (t + 4096) ->
  a <> t -> (forall i, ~ core L p a i) -> (forall i, ~ core L p (a + 4096) i) ->
  memcpy_words a t (n + n) s = Done tt (up_phys (copy_dir n a t) s).
Proof.
  intros Hn Hs Ha1 Ha2 Ht1 Ht2 Hne Hc1 Hc2. rewrite memcpy_app.
  destruct (memcpy_page_run L p a t n 0 s Hs Ha1 Ht1 Hne ltac:(lia) ltac:(lia) Hc1) as [E1 Hs1].
  replace (word a 0) with a in E1 by (unfold word; lia). replace (word t 0) with t in E1 by (unfold word; lia). krun E1.
  destruct (memcpy_page_run L p (a + 4096) (t + 4096) n 0 _ Hs1 Ha2 Ht2 ltac:(lia) ltac:(lia) ltac:(lia) Hc2) as [E2 _].
  replace (a + 4 * Z.of_nat n) with (word (a + 4096) 0) by (unfold word; lia).
  replace (t + 4 * Z.of_nat n) with (word (t + 4096) 0) by (unfold word; lia). exact E2.
Qed.

Lemma mw_copy_dir n a t m b j : Z.of_nat n = 1024 -> a mod 4096 = 0 -> t mod 4096 = 0 -> b mod 4096 = 0 -> 0 <= j < 1024 ->
  a <> t -> a <> t + 4096 -> a + 4096 <> t -> (forall k, 0 <= k < 1024 -> is_Some (mw m t k)) ->
  (b <> a -> b <> a + 4096 -> mw (copy_dir n a t m) b j = mw m b j) /\ mw (copy_dir n a t m) a j = mw m t j.
Proof.
  intros Hn Ha Ht Hb Hj N1 N2 N3 Hsome. unfold copy_dir.
  assert ((a + 4096) mod 4096 = 0 /\ (t + 4096) mod 4096 = 0) as [Ha' Ht'] by (clear - Ha Ht; dlia).
  rewrite !mw_copy by (done || lia). rewrite (bool_decide_eq_false_2 (a = a + 4096 /\ _)) by lia.
  rewrite (bool_decide_eq_true_2 (a = a /\ _)) by lia. destruct (Hsome j Hj) as [w ->]. split; [|done].
  intros H1 H2. by rewrite !bool_decide_eq_false_2 by naive_solver.
Qed.

Lemma ram_copy L a b n : forall j m, (forall va, kword L va -> is_Some (m !! k2p va)) ->
  forall va, kword L va -> is_Some (copy_words a b j n m !! k2p va).
Proof. induction n as [|n IH]; intros j m Hram; cbn [copy_words]; [done|]. by apply IH, ram_wr. Qed.

(** A copy of the directory [t] in two pages that belonged to nothing. *)
Section NewDir.
Context (L : layout) (g : dirs) (m m' : gmap Z Z) (a t : Z).
Hypothesis Hsp : spaces_ok L g m.
Hypothesis Ht : g !! t = Some ∅.
Hypothesis Ha1 : kpage L a.
Hypothesis Ha2 : kpage L (a + 4096).
Hypothesis Hown1 : forall o, ~ owns L g o a.
Hypothesis Hown2 : forall o, ~ owns L g o (a + 4096).
Hypothesis Hram : forall va, kword L va -> is_Some (m' !! k2p va).
Hypothesis Hold : forall b j, kpage L b -> 0 <= j < 1024 -> b <> a -> b <> a + 4096 -> mw m' b j = mw m b j.
Hypothesis Hnew : forall j, 0 <= j < 1024 -> mw m' a j = mw m t j.

Lemma new_dir_none : g !! a = None.
Proof using Hown1.
  destruct (g !! a) as [ta|] eqn:E; [|done]. exfalso. apply (Hown1 (ODir a)). by econstructor.
Qed.

Lemma owns_new_dir o b : owns L (<[a := ∅]> g) o b ->
  owns L g o b \/ (o = ODir a /\ b = a) \/ (o = ODirV a /\ b = a + 4096).
Proof using Type.
  intros Ho. inversion Ho as [j Hj| |q tq Hq|q tq Hq|q tq j u Hq Hu]; subst; try (left; by constructor);
    (destruct (decide (q = a)) as [->|] || destruct (decide (b = a)) as [->|]);
    try (rewrite lookup_insert_ne in Hq by done; left; by econstructor); try tauto.
  rewrite lookup_insert_eq in Hq. injection Hq as <-. by rewrite lookup_empty in Hu.
Qed.

Lemma old_spaces : spaces_ok L g m'.
Proof using All.
  eapply spaces_same; [exact Hsp|done|]. intros o b j Ho _ Hj. apply Hold; [by eapply so_page|done|intros ->; by apply (Hown1 o)|intros ->; by apply (Hown2 o)].
Qed.

Lemma new_dir_spaces : spaces_ok L (<[a := ∅]> g) m'.
Proof using All.
  pose proof old_spaces as [H1 H2 H3 H4 H5 H6].
  assert (forall q tq, <[a := ∅]> g !! q = Some tq -> (q = a /\ tq = ∅) \/ g !! q = Some tq) as Hdom.
  { intros q tq Hq. destruct (decide (q = a)) as [->|]; [|rewrite lookup_insert_ne in Hq by done; by right].
    rewrite lookup_insert_eq in Hq. left. split; congruence. }
  split.
  - done.
  - intros q tq [[-> ->]|Hq]%Hdom; [|by eapply H2]. intros i Hi. destruct (so_kernel _ _ _ Hsp t ∅ Ht i Hi) as (e & E & He).
    exists e. split; [|done]. fold (mw m' a i). rewrite Hnew; [done|].
    pose proof (km_top _ _ H1) as [HT _]. unfold kidx, kernel_start in *. lia.
  - intros q tq [[-> ->]|Hq]%Hdom; [|by eapply H3]. intros i Hi. destruct (so_user _ _ _ Hsp t ∅ Ht i Hi) as (e & E & He).
    rewrite lookup_empty in *. exists e. rewrite Hnew; [done|]. unfold user_idx in Hi. lia.
  - intros q tq i u [[-> ->]|Hq]%Hdom Hu; [by rewrite lookup_empty in Hu|by eapply H4].
  - intros o b [Ho|[[-> ->]|[-> ->]]]%owns_new_dir; [by eapply H5|done|done].
  - intros o o' b [Ho|[[-> ->]|[-> ->]]]%owns_new_dir [Ho'|[[-> E]|[-> E]]]%owns_new_dir; subst; try lia; try done.
    + by eapply H6.
    + by destruct (Hown1 o).
    + by destruct (Hown2 o).
    + by destruct (Hown1 o').
    + by destruct (Hown2 o').
Qed.

(** The directories there were map what they mapped, the new one maps nothing. *)
Lemma new_dir_same : same_spaces g m m'.
Proof using All.
  eapply same_user_tables; [exact Hsp|apply old_spaces|]. intros p tabs i u j Hp Hu Hj.
  assert (owns L g (OUser p i) u) as Ho by (by econstructor).
  apply Hold; [by eapply so_page|done|intros ->; by apply (Hown1 _ Ho)|intros ->; by apply (Hown2 _ Ho)].
Qed.

Lemma new_dir_empty va : user_page va -> pte_at m' a va = 0.
Proof using All.
  intros Hva. rewrite (pte_at_tabs L (<[a := ∅]> g) m' a ∅); [by rewrite lookup_empty|apply new_dir_spaces|apply lookup_insert_eq|done].
Qed.
End NewDir.

Lemma ok_new_dir L g s a m' : pt_ok L g s -> (forall o, ~ owns L g o a) -> allocated (pt_pages s) a 1 ->
  spaces_ok L (<[a := ∅]> g) m' -> pt_ok L (<[a := ∅]> g) (up_phys (fun _ => m') s).
Proof.
  intros Hs Ho Ha Hm. pose proof (new_dir_none L g a Ho) as Hn. destruct Ha as (i & h & c & _ & _ & _ & Hno).
  destruct Hs as [H1 H2 H3 H4 H5 H6 H7 H8 H9]. split; try done; cbn.
  - rewrite lookup_insert_ne; [done|]. intros E. rewrite <- E, Hn in H3. by destruct H3.
  - rewrite lookup_insert_ne; [done|]. intros E. rewrite <- E, Hn in H5. done.
  - intros o b x [Hob|[[-> ->]|[-> ->]]]%owns_new_dir Hx; [by eapply H8|apply Hno..];
      unfold in_block in *; change (bsize 0) with 4096 in Hx; change (bsize 1) with 8192; lia.
  - intros p tabs j u Hp Hu. destruct (decide (p = a)) as [->|]; [|rewrite lookup_insert_ne in Hp by done; by eapply H9].
    rewrite lookup_insert_eq in Hp. injection Hp as <-. by rewrite lookup_empty in Hu.
Qed.

Section Create.
Context `{Reclaim}.

Lemma create_dir_run L g s : pt_ok L g s ->
  (exists a s', pt_create_pagedir s = Done (Some a) s' /\ g !! a = None /\ pt_ok L (<[a := ∅]> g) s' /\
     same_spaces g (phys s) (phys s') /\ (forall va, user_page va -> pte_at (phys s') a va = 0) /\
     took (pt_pages s) 1 a (pt_pages s') /\ current_pagedir s' = current_pagedir s /\
     template_pagedir s' = template_pagedir s) \/
  ((forall h k, h ∈ pagegroup_list (pt_pages s) -> (1 <= k)%nat -> listof h k = []) /\
   pt_create_pagedir s = (on_pages slab_allocators_reclaim ;; ret None) s).
Proof.
  intros Hs. unfold pt_create_pagedir. krun (kassert_true (SIZEOF_PAGEDIR =? PAGE_SIZE * 2) s eq_refl).
  change (page_alloc_n 2) with (_page_alloc_order 1).
  destruct (page_alloc_order_run (pt_pages s) 1 (pk_pages _ _ _ Hs)) as [(a & ps & Ea & Hta)|[Hno Ea]].
  2:{ right. split; [done|]. unfold on_pages at 1, bind at 1. rewrite Ea. unfold bind, ret, on_pages.
      by destruct (slab_allocators_reclaim (pt_pages s)). }
  left. krun (on_pages_run _ s (Some a) ps Ea). destruct (took_ok L g s 1 a ps Hs Hta) as [Hs1 Hown]. set (s1 := up_ptpages ps s) in *.
  destruct (Hown 0 ltac:(cbn; lia)) as [Ka1 O1]. destruct (Hown 1 ltac:(cbn; lia)) as [Ka2 O2].
  rewrite Z.mul_0_r, Z.add_0_r in Ka1, O1. rewrite Z.mul_1_r in Ka2, O2.
  erewrite bind_done by reflexivity. set (t := template_pagedir s1).
  pose proof (pk_tmpl _ _ _ Hs1) as Ht. fold t in Ht. pose proof (pk_spaces _ _ _ Hs1) as Hsp.
  pose proof (so_page _ _ _ Hsp (ODir t) t ltac:(by econstructor)) as Kt1.
  pose proof (so_page _ _ _ Hsp (ODirV t) (t + 4096) ltac:(by econstructor)) as Kt2.
  assert (a <> t /\ a <> t + 4096 /\ a + 4096 <> t /\ a + 4096 <> t + 4096) as (N1 & N2 & N3 & N4).
  { assert (owns L g (ODir t) t) as Ot1 by (by econstructor). assert (owns L g (ODirV t) (t + 4096)) as Ot2 by (by econstructor).
    split_and!; intros E; [apply (O1 (ODir t))|apply (O1 (ODirV t))|apply (O2 (ODir t))|apply (O2 (ODirV t))]; by rewrite E. }
  destruct (pk_cur _ _ _ Hs1) as [tc Hc].
  assert (forall b, (forall o, ~ owns L g o b) -> forall i, ~ core L (current_pagedir s1) b i) as Hnc.
  { intros b Hb i. eapply plain_core; [done|done|]. intros o Ho. by destruct (Hb o). }
  assert (exists n, Z.of_nat n = 1024 /\ Z.to_nat (SIZEOF_PAGEDIR / 4) = (n + n)%nat) as (n & Hn & En) by (by exists 1024%nat).
  rewrite En. pose proof (memcpy_dir_run L (current_pagedir s1) a t n s1 Hn (ok_space _ _ _ Hs1) Ka1 Ka2 Kt1 Kt2 N1 (Hnc a O1) (Hnc _ O2)) as Ec.
  krun Ec. exists a, (up_phys (copy_dir n a t) s1). split; [reflexivity|].
  assert (forall b j, b mod 4096 = 0 -> 0 <= j < 1024 ->
    (b <> a -> b <> a + 4096 -> mw (copy_dir n a t (phys s1)) b j = mw (phys s1) b j) /\
    mw (copy_dir n a t (phys s1)) a j = mw (phys s1) t j) as Hmw.
  { intros b j Hb Hj. apply mw_copy_dir; try done; [apply Ka1|apply Kt1|]. intros k Hk.
    destruct (mw_some L s1 _ t k (ok_space _ _ _ Hs1) Kt1 Hk) as [w Hw]. eauto. }
  assert (forall va, kword L va -> is_Some (copy_dir n a t (phys s1) !! k2p va)) as Hram.
  { apply ram_copy, ram_copy, (km_ram _ _ (so_kmap _ _ _ Hsp)). }
  assert (forall b j, kpage L b -> 0 <= j < 1024 -> b <> a -> b <> a + 4096 ->
    mw (copy_dir n a t (phys s1)) b j = mw (phys s1) b j) as Hm1.
  { intros b j Hb Hj. apply (Hmw b j); [apply Hb|done]. }
  assert (forall j, 0 <= j < 1024 -> mw (copy_dir n a t (phys s1)) a j = mw (phys s1) t j) as Hm2.
  { intros j Hj. apply (Hmw a j); [apply Ka1|done]. }
  pose proof (new_dir_spaces L g (phys s1) _ a t Hsp Ht Ka1 Ka2 O1 O2 Hram Hm1 Hm2) as Hsp'.
  split; [exact (new_dir_none L g a O1)|]. split; [|split; [|split; [|done]]].
  - exact (ok_new_dir L g s1 a _ Hs1 O1 (tk_owned _ _ _ _ Hta) Hsp').
  - exact (new_dir_same L g (phys s1) _ a t Hsp Ht Ka1 Ka2 O1 O2 Hram Hm1 Hm2).
  - exact (new_dir_empty L g (phys s1) _ a t Hsp Ht Ka1 Ka2 O1 O2 Hram Hm1 Hm2).
Qed.

(** C8: [pt_create_pagedir]: a directory of its own pages, with the kernel's memory
    and no user page mapped; or no directory, which is only so when no free list
    of blocks of two or more pages has a block. *)
Theorem pt_create_pagedir_spec L g s : pt_ok L g s ->
  (exists a s', pt_create_pagedir s = Done (Some a) s' /\ g !! a = None /\ pt_ok L (<[a := ∅]> g) s' /\
     same_spaces g (phys s) (phys s') /\ (forall va, user_page va -> pte_at (phys s') a va = 0) /\
     took (pt_pages s) 1 a (pt_pages s') /\ current_pagedir s' = current_pagedir s /\
     template_pagedir s' = template_pagedir s) \/
  ((forall h k, h ∈ pagegroup_list (pt_pages s) -> (1 <= k)%nat -> listof h k = []) /\
   pt_create_pagedir s = (on_pages slab_allocators_reclaim ;; ret None) s).
Proof. apply create_dir_run. Qed.
End Create.

(** ** Giving a directory back *)

Lemma free_tables_run L g s p tabs n : pt_ok L g s -> g !! p = Some tabs -> forall i ps,
  1 <= i -> i + Z.of_nat n <= 768 -> pages_ok ps -> geo ps = geo (pt_pages s) ->
  (forall x, free_at ps x -> free_at (pt_pages s) x \/ in_tables tabs 1 (Z.to_nat (i - 1)) x) ->
  exists ps', free_tables p i n (up_ptpages ps s) = Done tt (up_ptpages ps' s) /\ pages_ok ps' /\ geo ps' = geo ps /\
    forall x, free_at ps' x <-> free_at ps x \/ in_tables tabs i n x.
Proof.
  intros Hs Hp. pose proof (pk_spaces _ _ _ Hs) as Hsp. induction n as [|n IH]; intros i ps Hi Hn Hok Hgeo Hfree; cbn [free_tables].
  { exists ps. split_and!; try done. intros x. split; [by left|]. intros [?|(k & t & Hk & _)]; [done|lia]. }
  assert (user_idx i) as Hui by (unfold user_idx; lia). destruct (so_user _ _ _ Hsp p tabs Hp i Hui) as (e & He & Hm).
  assert (forall q, load q (up_ptpages ps s) = match load q s with Done w _ => Done w (up_ptpages ps s) | Panic => Panic | Stuck => Stuck | Blocked => Blocked end) as Hld.
  { intros q. unfold load, deref. cbn. destruct (translate (phys s) (cr3 s) q) as [pa|]; [|done]. by destruct (phys s !! pa). }
  assert (load (pd_physical p i) (up_ptpages ps s) = Done e (up_ptpages ps s)) as E1.
  { by rewrite Hld, (load_pde L g s p tabs i e Hs Hp ltac:(lia) He). }
  krun E1. destruct (tabs !! i) as [t|] eqn:Ht.
  - destruct Hm as (-> & _).
    assert (load (pd_virtual p i) (up_ptpages ps s) = Done t (up_ptpages ps s)) as E2 by (by rewrite Hld, (load_table L g s p tabs i t Hs Hp Hui Ht)).
    rewrite bind_assoc. krun E2.
    assert (allocated ps t 0) as Hal.
    { eapply allocated_geo; [exact Hgeo| |by eapply pk_tabs]. intros x Hx [Hf|(k & u & Hk & Hu & Hux)]%Hfree; [done|exfalso].
      pose proof (so_page _ _ _ Hsp (OUser p i) t ltac:(by econstructor)) as Kt. pose proof (so_page _ _ _ Hsp (OUser p k) u ltac:(by econstructor)) as Ku.
      assert (u = t) as -> by (eapply blocks_disjoint; eauto; [apply Ku|apply Kt]).
      assert (OUser p k = OUser p i) as E by (eapply (so_inj _ _ _ Hsp); by econstructor). injection E as ->. lia. }
    destruct (page_free_order_run ps t 0 Hok ltac:(lia) Hal) as (ps1 & Ef & Hg).
    assert (on_pages (page_free t) (up_ptpages ps s) = Done tt (up_ptpages ps1 s)) as E3 by (exact (on_pages_run (page_free t) (up_ptpages ps s) tt ps1 Ef)).
    krun E3. destruct (IH (i + 1) ps1) as (ps' & E & Hok' & Hgeo' & Hf'); try lia; [apply Hg|rewrite (gv_geo _ _ _ _ Hg); done| |].
    { intros x [Hx|Hx]%(gv_free _ _ _ _ Hg); [destruct (Hfree x Hx) as [?|(k & u & Hk & Hku)]; [by left|right; exists k, u; split; [lia|done]]|].
      right. exists i, t. split; [lia|done]. }
    exists ps'. split; [exact E|]. split; [done|]. split; [rewrite Hgeo'; apply Hg|]. intros x. rewrite Hf', (gv_free _ _ _ _ Hg).
    split; [intros [[?|?]|(k & u & Hk & Hku)]; [by left|right; exists i, t; split; [lia|done]|right; exists k, u; split; [lia|done]]|].
    intros [?|(k & u & Hk & Hku & Hx)]; [by left; left|]. destruct (decide (k = i)) as [->|]; [left; right; congruence|].
    right. exists k, u. split; [lia|done].
  - rewrite Hm. erewrite bind_done by reflexivity.
    destruct (IH (i + 1) ps) as (ps' & E & Hok' & Hgeo' & Hf'); try done; try lia.
    { intros x Hx. destruct (Hfree x Hx) as [?|(k & u & Hk & Hku)]; [by left|right; exists k, u; split; [lia|done]]. }
    exists ps'. split_and!; try done. intros x. rewrite Hf'. split; intros [?|(k & u & Hk & Hku & Hx)]; try (by left); right; exists k, u.
    + split; [lia|done].
    + split; [|done]. destruct (decide (k = i)) as [->|]; [congruence|lia].
Qed.

Lemma in_dir_block p x : in_block p 1 x <-> in_block p 0 x \/ in_block (p + 4096) 0 x.
Proof. unfold in_block. change (bsize 0) with 4096. change (bsize 1) with 8192. lia. Qed.

(** What is left without the directory [p]. *)
Definition of_dir (p : Z) (o : owner) : Prop :=
  match o with ODir q | ODirV q | OUser q _ => q = p | _ => False end.

Lemma owns_delete L g p o a : owns L (delete p g) o a -> owns L g o a /\ ~ of_dir p o.
Proof.
  intros Ho. inversion Ho as [j Hj| |q tq [Hne Hq]%lookup_delete_Some|q tq [Hne Hq]%lookup_delete_Some|q tq j t [Hne Hq]%lookup_delete_Some Ht]; subst;
    (split; [by econstructor|]); cbn; try tauto; by intros ->.
Qed.

Lemma spaces_delete L g m p : spaces_ok L g m -> spaces_ok L (delete p g) m.
Proof.
  intros [H1 H2 H3 H4 H5 H6]. split; [done|..].
  - intros q tq [_ Hq]%lookup_delete_Some. by eapply H2.
  - intros q tq [_ Hq]%lookup_delete_Some. by eapply H3.
  - intros q tq i t [_ Hq]%lookup_delete_Some. by eapply H4.
  - intros o a [Ho _]%owns_delete. by eapply H5.
  - intros o o' a [Ho _]%owns_delete [Ho' _]%owns_delete. by eapply H6.
Qed.

(** The pages of other owners are not among those of [p]. *)
Lemma others_apart L g m p tabs o a x : spaces_ok L g m -> g !! p = Some tabs -> owns L g o a -> ~ of_dir p o -> in_block a 0 x ->
  ~ in_tables tabs 1 767 x /\ ~ in_block p 1 x.
Proof.
  intros Hsp Hp Ho Hnd Hx. pose proof (so_page _ _ _ Hsp _ _ Ho) as Ka.
  assert (forall o' b, owns L g o' b -> of_dir p o' -> ~ in_block b 0 x) as Hd.
  { intros o' b Ho' Hdir Hxb. pose proof (so_page _ _ _ Hsp _ _ Ho') as Kb.
    assert (a = b) as -> by (eapply blocks_disjoint; eauto; [apply Ka|apply Kb]). apply Hnd. by rewrite (so_inj _ _ _ Hsp _ _ _ Ho Ho'). }
  split; [intros (k & t & _ & Ht & Hxt)|intros [Hb|Hb]%in_dir_block]; revert Hxt || revert Hb.
  - apply (Hd (OUser p k)); [by econstructor|done].
  - apply (Hd (ODir p)); [by econstructor|done].
  - apply (Hd (ODirV p)); [by econstructor|done].
Qed.

(** Nor are the page tables of [p] among its own two pages. *)
Lemma dir_tables_apart L g m p tabs x : spaces_ok L g m -> g !! p = Some tabs -> in_block p 1 x -> ~ in_tables tabs 1 767 x.
Proof.
  intros Hsp Hp Hx (k & t & _ & Ht & Hxt). assert (owns L g (OUser p k) t) as Ho by (by econstructor).
  assert (owns L g (ODir p) p) as Ho1 by (by econstructor). assert (owns L g (ODirV p) (p + 4096)) as Ho2 by (by econstructor).
  pose proof (so_page _ _ _ Hsp _ _ Ho) as Kt. pose proof (so_page _ _ _ Hsp _ _ Ho1) as K1. pose proof (so_page _ _ _ Hsp _ _ Ho2) as K2.
  apply in_dir_block in Hx as [Hx|Hx].
  - assert (p = t) as E by (eapply blocks_disjoint; eauto; [apply K1|apply Kt]). rewrite <- E in Ho. discriminate (so_inj _ _ _ Hsp _ _ _ Ho1 Ho).
  - assert (p + 4096 = t) as E by (eapply blocks_disjoint; eauto; [apply K2|apply Kt]). rewrite <- E in Ho. discriminate (so_inj _ _ _ Hsp _ _ _ Ho2 Ho).
Qed.

(** C9: [pt_destroy_pagedir] of a directory that is not in use gives its two pages
    and its user page tables back, and nothing else; the other directories stay
    as they were. *)
Theorem pt_destroy_pagedir_spec L g s p tabs : pt_ok L g s -> g !! p = Some tabs ->
  p <> current_pagedir s -> p <> template_pagedir s -> allocated (pt_pages s) p 1 ->
  exists s', pt_destroy_pagedir p s = Done tt s' /\ pt_ok L (delete p g) s' /\ phys s' = phys s /\
    forall x, free_at (pt_pages s') x <-> free_at (pt_pages s) x \/ in_tables tabs 1 767 x \/ in_block p 1 x.
Proof.
  intros Hs Hp Hcur Htm Hal. pose proof (pk_spaces _ _ _ Hs) as Hsp.
  assert (owns L g (ODir p) p) as Ho1 by (by econstructor). assert (owns L g (ODirV p) (p + 4096)) as Ho2 by (by econstructor).
  pose proof (so_page _ _ _ Hsp _ _ Ho1) as Hk1. pose proof (so_page _ _ _ Hsp _ _ Ho2) as Hk2.
  unfold pt_destroy_pagedir. krun (kassert_true (PAGE_ALIGNED p) s (proj2 (aligned_mod p) (proj2 (proj2 Hk1)))).
  change (USER_MEM_LOW / PT_VADDR_SIZE) with 1. change ((USER_MEM_HIGH - 1) / PT_VADDR_SIZE) with 767.
  krun (kassert_true ((1 <? 767) && (0 <? 1)) s eq_refl). change (Z.to_nat (767 - 1 + 1)) with 767%nat.
  destruct (free_tables_run L g s p tabs 767 Hs Hp 1 (pt_pages s)) as (ps1 & E1 & Hok1 & Hgeo1 & Hf1); try done; try lia; [apply Hs|by left|].
  replace (up_ptpages (pt_pages s) s) with s in E1 by (by destruct s). krun E1.
  assert (allocated ps1 p 1) as Hal1.
  { eapply allocated_geo; [exact Hgeo1| |exact Hal]. intros x Hx [Hf|Hf]%Hf1; [done|by destruct (dir_tables_apart L g _ p tabs x Hsp Hp Hx)]. }
  destruct (page_free_order_run ps1 p 1 Hok1 ltac:(lia) Hal1) as (ps2 & Ef & Hg).
  exists (up_ptpages ps2 s). split; [exact (on_pages_run (page_free_n p 2) (up_ptpages ps1 s) tt ps2 Ef)|].
  assert (forall x, free_at ps2 x <-> free_at (pt_pages s) x \/ in_tables tabs 1 767 x \/ in_block p 1 x) as Hfree.
  { intros x. rewrite (gv_free _ _ _ _ Hg), Hf1. tauto. }
  split; [|done]. destruct Hs as [H1 H2 H3 H4 H5 H6 H7 H8 H9]. split; try done; cbn.
  - by apply spaces_delete.
  - by rewrite lookup_delete_ne.
  - by rewrite lookup_delete_ne.
  - apply Hg.
  - intros x [Hx|[(k & t & _ & Ht & Hx)|Hx%in_dir_block]]%Hfree; [by apply H7| |].
    + pose proof (so_page _ _ _ Hsp (OUser p k) t ltac:(by econstructor)). unfold in_block, kpage in *. change (bsize 0) with 4096 in Hx. lia.
    + unfold in_block, kpage in *. change (bsize 0) with 4096 in Hx. lia.
  - intros o a x [Ho Hnd]%owns_delete Hx Hf%Hfree. destruct (others_apart L g _ p tabs o a x Hsp Hp Ho Hnd Hx). destruct Hf as [Hf|[Hf|Hf]]; [by eapply H8|done|done].
  - intros q tq i t [Hne Hq]%lookup_delete_Some Ht. eapply allocated_geo; [rewrite (gv_geo _ _ _ _ Hg); exact Hgeo1| |by eapply H9].
    intros x Hx Hf%Hfree. destruct (others_apart L g _ p tabs (OUser q i) t x Hsp Hp ltac:(by econstructor) ltac:(cbn; congruence) Hx). tauto.
Qed.
End PageTableDirs.
