(* ===== verification/PageTableDemo.v ===== *)
(** * Page tables from the boot loader's on

    The memory the boot loader leaves, with 600 kB for the kernel, run through
    [pt_init] and [pt_template_init]: the invariant of [PageTableOps] holds, and
    the theorems apply. *)

From Stdlib Require Import ZArith Lia.
From stdpp Require Import base list gmap.
From S2P Require Import Prelude Vnode Page PageSpec PageTable PageTableSpec PageTableOps PageTableRange PageTableDirs.

Module PageTableDemo.
Import Page PageSpec PageTable PageTableSpec PageTableOps PageTableRange PageTableDirs.
Local Open Scope Z_scope.

#[local] Instance no_slabs : Reclaim := fun s => Done 0 s.

(** ** The boot loader's memory *)
Fixpoint zseq (i : Z) (n : nat) : list Z := match n with O => [] | S n => i :: zseq (i + 1) n end.
Definition upto (n : Z) : list Z := zseq 0 (Z.to_nat n).

Definition words (a n : Z) (m : gmap Z Z) : gmap Z Z := foldr (fun i m => <[a + 4 * i := 0]> m) m (upto n).

(** The directory at 0x2000, a table for the first 4 MB, one for the kernel, and
    the map of the memory: usable from 1 MB to 0x196000. *)
Definition boot_mem : gmap Z Z :=
  let m := words 0x2000 3072 (words 0x9000 16 (words 0x100000 153600 ∅)) in
  let m := foldr (fun i m => <[0x3000 + 4 * i := 0x103 + 4096 * i]> (<[0x4000 + 4 * i := 0x100103 + 4096 * i]> m)) m (upto 1024) in
  let m := <[0x2000 := 0x3103]> (<[0x2000 + 4 * 768 := 0x4103]> m) in
  <[0x9000 := 1]> (<[0x9004 := 0x100000]> (<[0x900c := 0x96000]> (<[0x9014 := 1]> m))).

Definition empty_pages : pstate := Pstate [] 0.
Definition boot : ptst := PtSt boot_mem 0x2000 0 0 1 0 empty_pages.

Definition run_pt {A} (m : T A) (s : ptst) : ptst := match m s with Done _ s' => s' | _ => s end.

Definition inited : ptst := run_pt (pt_init 0xc0010000) boot.
Definition booted : ptst := run_pt pt_template_init inited.

Definition DIR : Z := 0xc0010000.
Definition LAY : layout := Layout 0xc0096000 (fun _ => 0xc0014000) 0xc0012000.

(** ** A check of the invariant *)
Definition some {A} (o : option A) : bool := match o with Some _ => true | None => false end.
Definition kpg (i : Z) : Z := kernel_start + 4096 * i.

Definition entry_check (m : gmap Z Z) (a j target : Z) : bool :=
  match mw m a j with Some e => present e && (Z.land e PAGE_MASK =? k2p target) | None => false end.

Definition dir_check (m : gmap Z Z) (p : Z) : bool :=
  entry_check m p 768 0xc0014000 && entry_check m p 1023 0xc0012000 &&
  forallb (fun i => match mw m p i with Some e => negb (present e) || (i =? 0) | None => false end) (upto 768).

Definition mem_check (m : gmap Z Z) : bool :=
  forallb (fun i => forallb (fun j => some (mw m (kpg i) j)) (upto 1024)) (upto 150) &&
  forallb (fun i => entry_check m 0xc0014000 i (kpg i)) (upto 150).

Lemma upto_in n i : 0 <= i < n -> In i (upto n).
Proof.
  intros Hi. unfold upto. assert (forall k j, j <= i < j + Z.of_nat k -> In i (zseq j k)) as Hz; [|apply Hz; lia].
  clear. induction k as [|k IH]; intros j Hj; [lia|]. destruct (decide (j = i)) as [->|]; [by left|]. right. apply IH. lia.
Qed.

Lemma forallb_upto f n i : forallb f (upto n) = true -> 0 <= i < n -> f i = true.
Proof. intros Hf Hi. rewrite forallb_forall in Hf. by apply Hf, upto_in. Qed.

Lemma kpage_number a : kpage LAY a -> exists i, 0 <= i < 150 /\ a = kpg i.
Proof.
  unfold kpage, kpg, kernel_start. cbn [l_top LAY]. intros (H1 & H2 & H3). exists ((a - 3221225472) / 4096). split; dlia.
Qed.

Lemma entry_check_sound m a j t : entry_check m a j t = true ->
  exists e, mw m a j = Some e /\ present e = true /\ Z.land e PAGE_MASK = k2p t.
Proof.
  unfold entry_check. destruct (mw m a j) as [e|]; [|done]. intros [H1 H2%Z.eqb_eq]%andb_true_iff. by exists e.
Qed.

Lemma kmem_check_sound m : mem_check m = true -> kernel_map LAY m.
Proof.
  intros [H1 H2]%andb_true_iff. split.
  - cbn. unfold kernel_start. split; [lia|done].
  - intros va Hva. destruct (kword_split LAY va Hva) as (a & j & Ha & Hj & ->); [done|].
    destruct (kpage_number a Ha) as (i & Hi & ->). pose proof (forallb_upto _ _ j (forallb_upto _ _ i H1 Hi) Hj) as E. cbv beta in E.
    unfold mw in E. destruct (m !! _); [eauto|done].
  - intros i Hi. unfold kpage, kernel_start. cbn. split_and!; [lia|lia|done].
  - unfold kpage, kernel_start. cbn. split_and!; [lia|lia|done].
  - intros a Ha. destruct (kpage_number a Ha) as (i & Hi & ->).
    destruct (entry_check_sound _ _ _ _ (forallb_upto _ _ i H2 Hi)) as (e & E & He). exists e. split; [|done]. rewrite <- E. unfold mw.
    f_equal. f_equal. cbn [l_ktab LAY]. f_equal. rewrite ptindex_mod. unfold kpg, kernel_start. dlia.
Qed.

Lemma dir_check_sound m p : dir_check m p = true -> pd_kernel LAY m p /\ user_dir m p ∅.
Proof.
  unfold dir_check. intros [[H1 H2]%andb_true_iff H3]%andb_true_iff. split.
  - intros i Hi. assert (i = 768 \/ i = 1023) as [-> | ->] by (unfold kidx in Hi; cbn in Hi; lia).
    + exact (entry_check_sound _ _ _ _ H1).
    + exact (entry_check_sound _ _ _ _ H2).
  - intros i Hi. unfold user_idx in Hi. pose proof (forallb_upto _ _ i H3 ltac:(lia)) as E. cbv beta in E.
    destruct (mw m p i) as [e|]; [|done]. exists e. rewrite lookup_empty. split; [done|].
    apply orb_true_iff in E as [E|E]; [by apply negb_true_iff|lia].
Qed.

(** ** The allocator *)
Definition TMPL : Z := 0xc0093000.

Definition range_pages : pstate := Eval vm_compute in
  match page_add_range (0xc0015000 + 1024) 0xc0096000 empty_pages with Done _ s => s | _ => empty_pages end.
Definition taken_pages : pstate := Eval vm_compute in
  match page_alloc_n 2 range_pages with Done _ s => s | _ => empty_pages end.

Lemma empty_pages_ok : pages_ok empty_pages.
Proof. split; [by intros [|]..|done]. Qed.

Lemma range_pages_ok : pages_ok range_pages /\ forall x, free_at range_pages x <-> 0xc0015000 <= x < 0xc0095000.
Proof.
  destruct (page_add_range_run empty_pages (0xc0015000 + 1024) 0xc0096000 1 empty_pages_ok ltac:(lia) ltac:(lia)
    ltac:(vm_compute; reflexivity) ltac:(intros h Hh; by apply elem_of_nil in Hh) ltac:(vm_compute; reflexivity))
    as (s' & Hrun & Hok & Hfree & _).
  assert (s' = range_pages) as -> by (vm_compute in Hrun; injection Hrun as <-; reflexivity). split; [exact Hok|].
  intros x. rewrite Hfree. change (PAGE_ALIGN_DOWN (0xc0015000 + 1024)) with 0xc0015000.
  change (usable_end 0xc0015000 (PAGE_ALIGN_DOWN 0xc0096000)) with 0xc0095000. split; [|by right].
  intros [(g & Hg & _)|Hx]; [inversion Hg|exact Hx].
Qed.

Lemma taken_pages_took : took range_pages 1 TMPL taken_pages.
Proof.
  destruct (page_alloc_order_run range_pages 1 (proj1 range_pages_ok)) as [(a & s' & Hrun & Ht)|[Hno _]].
  - assert (a = TMPL /\ s' = taken_pages) as [-> ->] by (vm_compute in Hrun; injection Hrun as <- <-; split; reflexivity). exact Ht.
  - exfalso. specialize (Hno _ 7%nat ltac:(left) ltac:(lia)). vm_compute in Hno. discriminate.
Qed.

Definition ptst_check (s : ptst) : bool :=
  mem_check (phys s) && dir_check (phys s) DIR && dir_check (phys s) TMPL && (cr3 s =? k2p DIR) &&
  (current_pagedir s =? DIR) && (template_pagedir s =? TMPL) && (final_page s =? 0xc0012000).

(** Two pages of one page table mapped, then the page between them unmapped. *)
Definition two_pages : T unit :=
  pt_map DIR 0x400000 0x150000 7 7 ;; pt_map DIR 0x409000 0x151000 7 7 ;; ret tt.

Definition ptes (s : ptst) : Z * Z := (pte_at (phys s) DIR 0x400000, pte_at (phys s) DIR 0x409000).

Definition got_dir (o : outcome ptst (option Z)) : bool := match o with Done (Some _) _ => true | _ => false end.

(** Everything that is computed from the state [i] after [pt_init]. *)
Definition facts (i : ptst) : bool * pstate * bool * pstate * bool * (Z * Z) * (Z * Z) :=
  let b := run_pt pt_template_init i in
  let s1 := run_pt two_pages b in
  (entry_check (phys i) DIR 769 0xc0015000, pt_pages i, ptst_check b, pt_pages b, got_dir (pt_create_pagedir b),
   ptes s1, ptes (run_pt (pt_unmap_range DIR 0x403000 0x404000) s1)).

Lemma inited_facts :
  facts inited = (true, range_pages, true, taken_pages, true, (0x150007, 0x151007), (0, 0)).
Proof. vm_compute. reflexivity. Qed.

Lemma facts_split i c1 p1 c2 p2 c3 e1 e2 : facts i = (c1, p1, c2, p2, c3, e1, e2) ->
  entry_check (phys i) DIR 769 0xc0015000 = c1 /\ pt_pages i = p1 /\ ptst_check (run_pt pt_template_init i) = c2 /\
  pt_pages (run_pt pt_template_init i) = p2 /\ got_dir (pt_create_pagedir (run_pt pt_template_init i)) = c3 /\
  ptes (run_pt two_pages (run_pt pt_template_init i)) = e1 /\
  ptes (run_pt (pt_unmap_range DIR 0x403000 0x404000) (run_pt two_pages (run_pt pt_template_init i))) = e2.
Proof. unfold facts. cbv zeta. intros E. injection E as <- <- <- <- <- <- <-. by split_and!. Qed.

Lemma booted_facts :
  entry_check (phys inited) DIR 769 0xc0015000 = true /\ pt_pages inited = range_pages /\ ptst_check booted = true /\
  pt_pages booted = taken_pages /\ got_dir (pt_create_pagedir booted) = true /\
  ptes (run_pt two_pages booted) = (0x150007, 0x151007) /\
  ptes (run_pt (pt_unmap_range DIR 0x403000 0x404000) (run_pt two_pages booted)) = (0, 0).
Proof. exact (facts_split inited _ _ _ _ _ _ _ inited_facts). Qed.

Lemma booted_checked : ptst_check booted = true.
Proof. destruct booted_facts as (_ & _ & E & _). exact E. Qed.

Lemma booted_pages : pt_pages booted = taken_pages.
Proof. destruct booted_facts as (_ & _ & _ & E & _). exact E. Qed.

(** ** The invariant after the set-up *)
Definition DIRS : dirs := {[DIR := ∅; TMPL := ∅]}.

Lemma dirs_lookup p tabs : DIRS !! p = Some tabs -> (p = DIR \/ p = TMPL) /\ tabs = ∅.
Proof.
  unfold DIRS. intros [[<- <-]|[_ [<- <-]%lookup_singleton_Some]]%lookup_insert_Some; [split; [by left|done]|split; [by right|done]].
Qed.

Lemma dirs_owned o a : owns LAY DIRS o a ->
  (o, a) ∈ [(OTab 768, 0xc0014000); (OFinal, 0xc0012000); (ODir DIR, 0xc0010000); (ODirV DIR, 0xc0011000);
            (ODir TMPL, 0xc0093000); (ODirV TMPL, 0xc0094000)].
Proof.
  intros Ho. inversion Ho as [i Hi| |p tabs Hp|p tabs Hp|p tabs i t Hp Ht]; subst.
  - assert (i = 768) as -> by (unfold kidx in Hi; cbn in Hi; lia). by left.
  - right. by left.
  - apply dirs_lookup in Hp as [[-> | ->] _]; repeat ((by left) || right).
  - apply dirs_lookup in Hp as [[-> | ->] _]; repeat ((by left) || right).
  - apply dirs_lookup in Hp as [_ ->]. by rewrite lookup_empty in Ht.
Qed.

Ltac owned H := repeat (apply elem_of_cons in H as [H|H]; [injection H as -> ->|]); [..|by apply elem_of_nil in H].

Lemma dirs_page o a : owns LAY DIRS o a -> kpage LAY a.
Proof. intros H%dirs_owned. owned H; unfold kpage, kernel_start; cbn; split_and!; lia || done. Qed.

Lemma dirs_inj o o' a : owns LAY DIRS o a -> owns LAY DIRS o' a -> o = o'.
Proof.
  intros H%dirs_owned H'%dirs_owned. owned H;
    repeat (apply elem_of_cons in H' as [H'|H']; [congruence|]); by apply elem_of_nil in H'.
Qed.

Lemma ptst_check_sound s : ptst_check s = true -> pt_pages s = taken_pages -> pt_ok LAY DIRS s.
Proof.
  unfold ptst_check. rewrite !andb_true_iff, !Z.eqb_eq. intros ((((((C1 & C2) & C3) & C4) & C5) & C6) & C7) Ep.
  destruct (dir_check_sound _ _ C2) as [K1 U1]. destruct (dir_check_sound _ _ C3) as [K2 U2].
  pose proof taken_pages_took as Ht. destruct range_pages_ok as [_ Hr].
  assert (forall x, free_at taken_pages x -> 0xc0015000 <= x < 0xc0093000) as Hfree.
  { intros x [Hx Hn]%(tk_free _ _ _ _ Ht). apply Hr in Hx. unfold in_block, TMPL in Hn. change (bsize 1) with 8192 in Hn. lia. }
  split; rewrite ?Ep.
  - split; [by apply kmem_check_sound|..].
    + intros p tabs [[-> | ->] _]%dirs_lookup; done.
    + intros p tabs [[-> | ->] ->]%dirs_lookup; done.
    + intros p tabs i t [_ ->]%dirs_lookup Hti. by rewrite lookup_empty in Hti.
    + exact dirs_page.
    + exact dirs_inj.
  - exact C7.
  - rewrite C5. eexists. apply lookup_insert_eq.
  - rewrite C4, C5. reflexivity.
  - rewrite C6. unfold DIRS. rewrite lookup_insert_ne by done. apply lookup_singleton_eq.
  - apply Ht.
  - intros x Hx%Hfree. unfold kernel_start. cbn. lia.
  - intros o a x Ho%dirs_owned Hx Hf%Hfree. unfold in_block in Hx. change (bsize 0) with 4096 in Hx. owned Ho; lia.
  - intros p tabs i t [_ ->]%dirs_lookup Hti. by rewrite lookup_empty in Hti.
Qed.

Lemma ptst_check_tmpl s : ptst_check s = true -> template_pagedir s = TMPL.
Proof. unfold ptst_check. rewrite !andb_true_iff, !Z.eqb_eq. tauto. Qed.

Lemma paging_ok : pt_ok LAY DIRS booted.
Proof. exact (ptst_check_sound booted booted_checked booted_pages). Qed.

(** ** The theorems at work *)
Lemma booted_dir : is_Some (DIRS !! DIR) /\ DIR <> template_pagedir booted.
Proof.
  split; [eexists; apply lookup_insert_eq|]. rewrite (ptst_check_tmpl booted booted_checked). discriminate.
Qed.

(** There is a free page. *)
Lemma booted_free : ~ (forall h k, h ∈ pagegroup_list (pt_pages booted) -> listof h k = []).
Proof.
  rewrite booted_pages. intros Hno. specialize (Hno _ 6%nat ltac:(left)). vm_compute in Hno. discriminate.
Qed.

Lemma user_page_400000 : user_page 0x400000.
Proof. unfold user_page, USER_MEM_LOW, USER_MEM_HIGH. split; [lia|done]. Qed.

Lemma pt_map_spec_witness : exists g' s',
  pt_map DIR 0x400000 0x150000 7 7 booted = Done 0 s' /\ pt_ok LAY g' s' /\
  translate (phys s') (k2p DIR) (0x400000 + 5) = Some (0x150000 + 5).
Proof.
  destruct (pt_map_spec LAY DIRS booted DIR 0x400000 0x150000 7 7 paging_ok (proj1 booted_dir) (proj2 booted_dir) user_page_400000
    ltac:(lia) eq_refl ltac:(lia) eq_refl ltac:(lia)) as [(g' & s' & E & Hok & _ & _ & Ht)|[Hno _]]; [|by destruct booted_free].
  exists g', s'. exact (conj E (conj Hok (Ht eq_refl 5 ltac:(lia)))).
Defined.

(** A page is mapped, which takes a page table, and its range unmapped: the page
    table is free again. *)
Lemma pt_unmap_range_spec_witness : exists s1 s2 t,
  pt_map DIR 0x400000 0x150000 7 7 booted = Done 0 s1 /\ pte_at (phys s1) DIR 0x400000 = 0x150007 /\ ~ free_at (pt_pages s1) t /\
  pt_unmap_range DIR 0x400000 0xc0000000 s1 = Done tt s2 /\ pte_at (phys s2) DIR 0x400000 = 0 /\ free_at (pt_pages s2) t.
Proof.
  destruct (pt_map_run LAY DIRS booted DIR 0x400000 0x150000 7 7 paging_ok (proj1 booted_dir) (proj2 booted_dir) user_page_400000
    ltac:(lia) eq_refl ltac:(lia) eq_refl ltac:(lia)) as [(g1 & s1 & E1 & Hok1 & Hd & Hb1 & _)|[Hno _]]; [|destruct (booted_free Hno)].
  assert (pte_at (phys s1) DIR 0x400000 = 0x150007) as Ep.
  { rewrite (Hb1 DIR 0x400000 (proj1 booted_dir) user_page_400000). rewrite bool_decide_eq_true_2 by reflexivity. reflexivity. }
  destruct (proj2 (Hd DIR) (proj1 booted_dir)) as [tabs Htabs]. change (0x400000 =? 0x400000) with true in *.
  destruct (tabs !! 1) as [t|] eqn:Et.
  2:{ rewrite (pte_at_tabs LAY g1 (phys s1) DIR tabs 0x400000 (pk_spaces _ _ _ Hok1) Htabs user_page_400000) in Ep.
      change (vaddr_to_pdindex 0x400000) with 1 in Ep. rewrite Et in Ep. discriminate Ep. }
  destruct (pt_unmap_range_spec LAY g1 s1 DIR tabs 0x400000 0xc0000000 Hok1 Htabs ltac:(lia) eq_refl eq_refl
    ltac:(unfold USER_MEM_LOW; lia) ltac:(unfold USER_MEM_HIGH; lia)) as (s2 & tabs' & E2 & Hok2 & _ & Hf & Hb2).
  exists s1, s2, t. split; [exact E1|]. split; [exact Ep|].
  assert (in_block t 0 t) as Hin by (unfold in_block; change (bsize 0) with 4096; lia).
  split; [exact (pk_used _ _ _ Hok1 (OUser DIR 1) t t ltac:(by econstructor) Hin)|]. split; [exact E2|].
  split; [rewrite (Hb2 DIR 0x400000 ltac:(eauto) user_page_400000), bool_decide_eq_true_2 by reflexivity; rewrite bool_decide_eq_true_2; [reflexivity|left; lia]|].
  apply Hf. right. exists 1, t. split; [unfold covered; lia|]. exact (conj Et Hin).
Defined.

Lemma pt_unmap_spec_witness : exists s', pt_unmap DIR 0x400000 booted = Done tt s' /\ pt_ok LAY DIRS s'.
Proof.
  destruct (pt_unmap_spec LAY DIRS booted DIR 0x400000 paging_ok (proj1 booted_dir) user_page_400000) as (s' & E & Hok & _).
  exists s'. exact (conj E Hok).
Defined.

Lemma booted_tmpl : is_Some (DIRS !! TMPL).
Proof. unfold DIRS. rewrite lookup_insert_ne by discriminate. eexists. apply lookup_singleton_eq. Qed.

Lemma pt_set_spec_witness : exists s',
  pt_set TMPL booted = Done tt s' /\ cr3 s' = k2p TMPL /\ translate (phys s') (cr3 s') 0xc0001234 = Some 0x101234.
Proof.
  destruct (pt_set_spec LAY DIRS booted TMPL paging_ok booted_tmpl) as (s' & E & _ & _ & Ec & _ & Ht).
  exists s'. split; [exact E|]. split; [exact Ec|]. exact (Ht 0xc0001234 ltac:(unfold kernel_start; cbn; lia)).
Defined.

Lemma no_dir_none (s : ptst) : got_dir ((on_pages slab_allocators_reclaim ;; ret None) s) = false.
Proof. reflexivity. Qed.

Lemma booted_two_pages : pt_create_pagedir booted <> (on_pages slab_allocators_reclaim ;; ret None) booted.
Proof.
  destruct booted_facts as (_ & _ & _ & _ & E & _). intros E'. rewrite E', no_dir_none in E. discriminate E.
Qed.

Lemma pt_create_pagedir_spec_witness : exists a s',
  pt_create_pagedir booted = Done (Some a) s' /\ pt_ok LAY (<[a := ∅]> DIRS) s' /\ pte_at (phys s') a 0x400000 = 0.
Proof.
  destruct (pt_create_pagedir_spec LAY DIRS booted paging_ok) as [(a & s' & E & _ & Hok & _ & H0 & _)|[_ E]];
    [|destruct (booted_two_pages E)].
  exists a, s'. exact (conj E (conj Hok (H0 0x400000 user_page_400000))).
Defined.

(** A directory made and given back: the free pages are what they were. *)
Lemma pt_destroy_pagedir_spec_witness : exists a s1 s2,
  pt_create_pagedir booted = Done (Some a) s1 /\ pt_destroy_pagedir a s1 = Done tt s2 /\
  forall x, free_at (pt_pages s2) x <-> free_at (pt_pages booted) x.
Proof.
  destruct (create_dir_run LAY DIRS booted paging_ok) as [(a & s1 & E & Hn & Hok & _ & _ & Ht & Ec & Em)|[_ E]];
    [|destruct (booted_two_pages E)].
  destruct (pt_destroy_pagedir_spec LAY (<[a := ∅]> DIRS) s1 a ∅ Hok (lookup_insert_eq _ _ _)) as (s2 & E2 & _ & _ & Hf).
  - intros ->. destruct (pk_cur _ _ _ paging_ok) as [t Hc]. rewrite <- Ec in Hc. congruence.
  - intros ->. pose proof (pk_tmpl _ _ _ paging_ok) as Hc. rewrite <- Em in Hc. congruence.
  - exact (tk_owned _ _ _ _ Ht).
  - exists a, s1, s2. split; [exact E|]. split; [exact E2|]. intros x. rewrite Hf, (tk_free _ _ _ _ Ht).
    pose proof (tk_was _ _ _ _ Ht x). assert (~ in_tables ∅ 1 767 x) by (intros (k & t & _ & Hk & _); by rewrite lookup_empty in Hk).
    destruct (decide (in_block a 1 x)); tauto.
Defined.

(** ** Too much unmapped

    Two pages of one page table are mapped, and the page between them is
    unmapped: nothing of the page table is left. *)
Example unmap_range_overreach :
  let s1 := run_pt two_pages booted in
  ptes s1 = (0x150007, 0x151007) /\ ptes (run_pt (pt_unmap_range DIR 0x403000 0x404000) s1) = (0, 0).
Proof. destruct booted_facts as (_ & _ & _ & _ & _ & E). exact E. Qed.

(** ** A page table on the free list

    [pt_init] passes [(uintptr_t) pagetable + PT_ENTRY_COUNT], 1024 bytes into the
    last page table it filled, to [page_add_range], which rounds down: the
    page of a page table the kernel's directory refers to is free for the taking. *)
Example last_table_is_free :
  entry_check (phys inited) DIR 769 0xc0015000 = true /\ pt_pages inited = range_pages /\ free_at range_pages 0xc0015000.
Proof.
  destruct booted_facts as (E1 & E2 & _). split; [exact E1|]. split; [exact E2|]. apply range_pages_ok. lia.
Qed.
End PageTableDemo.
