(* ===== verification/PFrame.v ===== *)
(** * Page frames ([mm/pframe.c], [include/mm/pframe.h], [include/mm/mmobj.h])

    A page frame caches one page of a memory object.  It is linked into three
    lists at a time: the allocated or the pinned list ([pf_link]), its chain of
    the hash table ([pf_hlink]) and its object's list of resident pages
    ([pf_olink]).  The lists are sequences of frames; what [list.h] does to
    sequences is proved in [KList].  [list_remove] of a link that is on no list
    is [Stuck].

    The operations of memory objects are the interface [MmobjOps]: [ref] and
    [put] act on the state, the operations that move the contents of a page act
    on a world [W] of their own, which is a component of the state, and do not
    give up the processor.  A loop that is out of fuel has not returned: it is
    [Blocked].  A thread that sleeps on a busy page is [Blocked].

    A frame's structure comes from a slab: [pf_fresh] is the next address and
    [pf_oom] says which coming allocations fail.  Its page comes from the page
    allocator, its mappings are undone in the page tables. *)

From Stdlib Require Import ZArith Lia.
From stdpp Require Import base list gmap.
From S2P Require Import Prelude Page PageTable.
Import Page PageTable.

Module PFrame.
Local Open Scope Z_scope.

Definition PF_HASH_SIZE : Z := 17.
Definition PF_BUSY : Z := 1.
Definition PF_DIRTY : Z := 2.

Record pframe := Pframe {
  pf_obj : option Z;
  pf_pagenum : Z;
  pf_addr : Z;
  pf_flags : Z;
  pf_waitq : list Z;
  pf_pincount : Z
}.

(** [vma_proc] is the page directory of the process the area belongs to. *)
Record vmarea := Vmarea { vma_start : Z; vma_end : Z; vma_off : Z; vma_proc : option Z }.

(** The union [mmo_un]. *)
Inductive mmo_union := mmo_vmas (l : list vmarea) | mmo_bottom_obj (o : Z).

Record mmobj_t := Mmobj {
  mmo_refcount : Z;
  mmo_nrespages : Z;
  mmo_respages : list Z;
  mmo_un : mmo_union;
  mmo_shadowed : option Z
}.

Record pfst (W : Type) := Pfst {
  pframes : gmap Z pframe;
  mmobjs : gmap Z mmobj_t;
  npinned : Z;
  pinned_list : list Z;
  nallocated : Z;
  alloc_list : list Z;
  pframe_hash : list (list Z);
  nfreepages_min : Z;
  nfreepages_target : Z;
  alloc_waitq : list Z;
  pf_fresh : Z;
  pf_oom : list bool;
  pf_runq : list Z;
  pf_pt : ptst;
  pf_world : W
}.
Arguments Pfst {W}.
Arguments pframes {W} _.
Arguments mmobjs {W} _.
Arguments npinned {W} _.
Arguments pinned_list {W} _.
Arguments nallocated {W} _.
Arguments alloc_list {W} _.
Arguments pframe_hash {W} _.
Arguments nfreepages_min {W} _.
Arguments nfreepages_target {W} _.
Arguments alloc_waitq {W} _.
Arguments pf_fresh {W} _.
Arguments pf_oom {W} _.
Arguments pf_runq {W} _.
Arguments pf_pt {W} _.
Arguments pf_world {W} _.

(** ** Updates *)
Section Updates.
Context {W : Type}.
Implicit Types s : pfst W.

Definition up_frames f s := Pfst (f (pframes s)) (mmobjs s) (npinned s) (pinned_list s) (nallocated s) (alloc_list s)
  (pframe_hash s) (nfreepages_min s) (nfreepages_target s) (alloc_waitq s) (pf_fresh s) (pf_oom s) (pf_runq s) (pf_pt s) (pf_world s).
Definition up_objs f s := Pfst (pframes s) (f (mmobjs s)) (npinned s) (pinned_list s) (nallocated s) (alloc_list s)
  (pframe_hash s) (nfreepages_min s) (nfreepages_target s) (alloc_waitq s) (pf_fresh s) (pf_oom s) (pf_runq s) (pf_pt s) (pf_world s).
Definition up_pinned n l s := Pfst (pframes s) (mmobjs s) n l (nallocated s) (alloc_list s)
  (pframe_hash s) (nfreepages_min s) (nfreepages_target s) (alloc_waitq s) (pf_fresh s) (pf_oom s) (pf_runq s) (pf_pt s) (pf_world s).
Definition up_alloc n l s := Pfst (pframes s) (mmobjs s) (npinned s) (pinned_list s) n l
  (pframe_hash s) (nfreepages_min s) (nfreepages_target s) (alloc_waitq s) (pf_fresh s) (pf_oom s) (pf_runq s) (pf_pt s) (pf_world s).
Definition up_hash f s := Pfst (pframes s) (mmobjs s) (npinned s) (pinned_list s) (nallocated s) (alloc_list s)
  (f (pframe_hash s)) (nfreepages_min s) (nfreepages_target s) (alloc_waitq s) (pf_fresh s) (pf_oom s) (pf_runq s) (pf_pt s) (pf_world s).
Definition up_limits m t s := Pfst (pframes s) (mmobjs s) (npinned s) (pinned_list s) (nallocated s) (alloc_list s)
  (pframe_hash s) m t (alloc_waitq s) (pf_fresh s) (pf_oom s) (pf_runq s) (pf_pt s) (pf_world s).
Definition up_waitq q s := Pfst (pframes s) (mmobjs s) (npinned s) (pinned_list s) (nallocated s) (alloc_list s)
  (pframe_hash s) (nfreepages_min s) (nfreepages_target s) q (pf_fresh s) (pf_oom s) (pf_runq s) (pf_pt s) (pf_world s).
Definition up_slab n o s := Pfst (pframes s) (mmobjs s) (npinned s) (pinned_list s) (nallocated s) (alloc_list s)
  (pframe_hash s) (nfreepages_min s) (nfreepages_target s) (alloc_waitq s) n o (pf_runq s) (pf_pt s) (pf_world s).
Definition up_runq q s := Pfst (pframes s) (mmobjs s) (npinned s) (pinned_list s) (nallocated s) (alloc_list s)
  (pframe_hash s) (nfreepages_min s) (nfreepages_target s) (alloc_waitq s) (pf_fresh s) (pf_oom s) q (pf_pt s) (pf_world s).
Definition up_pt t s := Pfst (pframes s) (mmobjs s) (npinned s) (pinned_list s) (nallocated s) (alloc_list s)
  (pframe_hash s) (nfreepages_min s) (nfreepages_target s) (alloc_waitq s) (pf_fresh s) (pf_oom s) (pf_runq s) t (pf_world s).
Definition up_world (w : W) s : pfst W := Pfst (pframes s) (mmobjs s) (npinned s) (pinned_list s) (nallocated s) (alloc_list s)
  (pframe_hash s) (nfreepages_min s) (nfreepages_target s) (alloc_waitq s) (pf_fresh s) (pf_oom s) (pf_runq s) (pf_pt s) w.
End Updates.

Definition pf_set_flags (f : Z) (x : pframe) : pframe :=
  Pframe (pf_obj x) (pf_pagenum x) (pf_addr x) f (pf_waitq x) (pf_pincount x).
Definition pf_set_obj (o : option Z) (x : pframe) : pframe :=
  Pframe o (pf_pagenum x) (pf_addr x) (pf_flags x) (pf_waitq x) (pf_pincount x).
Definition pf_set_waitq (q : list Z) (x : pframe) : pframe :=
  Pframe (pf_obj x) (pf_pagenum x) (pf_addr x) (pf_flags x) q (pf_pincount x).
Definition mo_set_ref (r : Z) (y : mmobj_t) : mmobj_t :=
  Mmobj r (mmo_nrespages y) (mmo_respages y) (mmo_un y) (mmo_shadowed y).
Definition mo_set_res (n : Z) (l : list Z) (y : mmobj_t) : mmobj_t :=
  Mmobj (mmo_refcount y) n l (mmo_un y) (mmo_shadowed y).

(** ** Flags *)
Definition pframe_is_busy (x : pframe) : bool := negb (Z.land (pf_flags x) PF_BUSY =? 0).
Definition pframe_is_dirty (x : pframe) : bool := negb (Z.land (pf_flags x) PF_DIRTY =? 0).
Definition pframe_is_pinned (x : pframe) : bool := negb (pf_pincount x =? 0).
Definition pframe_is_free (x : pframe) : bool := bool_decide (pf_obj x = None).
Definition pframe_set_busy (x : pframe) : pframe := pf_set_flags (Z.lor (pf_flags x) PF_BUSY) x.
Definition pframe_clear_busy (x : pframe) : pframe := pf_set_flags (Z.land (pf_flags x) (Z.lnot PF_BUSY)) x.
Definition pframe_set_dirty (x : pframe) : pframe := pf_set_flags (Z.lor (pf_flags x) PF_DIRTY) x.
Definition pframe_clear_dirty (x : pframe) : pframe := pf_set_flags (Z.land (pf_flags x) (Z.lnot PF_DIRTY)) x.

Definition hash_page (obj pagenum : Z) : Z := u32 (obj + pagenum) mod PF_HASH_SIZE.

(** ** The operations of memory objects *)
Class MmobjOps (W : Type) := {
  mmo_ref : Z -> kern (pfst W) unit;
  mmo_put : Z -> kern (pfst W) unit;
  mmo_lookuppage : Z -> Z -> Z -> kern (pfst W) (Z * option Z);
  mmo_fillpage : Z -> pframe -> kern W Z;
  mmo_dirtypage : Z -> pframe -> kern W Z;
  mmo_cleanpage : Z -> pframe -> kern W Z
}.

Section Frames.
Context {W : Type} `{MmobjOps W} `{Reclaim}.
Local Abbreviation K := (kern (pfst W)).

Definition get_pf (pf : Z) : K pframe := fun s => deref (pframes s !! pf) s.
Definition set_pf (pf : Z) (f : pframe -> pframe) : K unit :=
  let* x := get_pf pf in modify (up_frames <[pf := f x]>).
Definition get_obj (o : Z) : K mmobj_t := fun s => deref (mmobjs s !! o) s.
Definition set_obj (o : Z) (f : mmobj_t -> mmobj_t) : K unit :=
  let* y := get_obj o in modify (up_objs <[o := f y]>).

(** A call of the page table code, and of the page allocator. *)
Definition on_pt {A} (m : T A) : K A := fun s =>
  match m (pf_pt s) with
  | Done a t => Done a (up_pt t s)
  | Panic => Panic
  | Stuck => Stuck
  | Blocked => Blocked
  end.
Definition on_pages {A} (m : P A) : K A := on_pt (PageTable.on_pages m).

Definition on_world {A} (m : kern W A) : K A := fun s =>
  match m (pf_world s) with
  | Done a w => Done a (up_world w s)
  | Panic => Panic
  | Stuck => Stuck
  | Blocked => Blocked
  end.

(** [slab_obj_alloc(pframe_allocator)]: [None] is a failure. *)
Definition slab_alloc : K (option Z) :=
  let* oom := gets pf_oom in
  let* n := gets pf_fresh in
  if default false (head oom) then modify (up_slab n (tail oom)) ;; ret None
  else modify (up_slab (n + 1) (tail oom)) ;; ret (Some n).

(** [list_remove(&pf->pf_link)], with the counters untouched. *)
Definition remove_link (pf : Z) : K unit :=
  let* a := gets alloc_list in
  let* p := gets pinned_list in
  let* na := gets nallocated in
  let* np := gets npinned in
  if bool_decide (pf ∈ a) then modify (up_alloc na (filter (fun q => q <> pf) a))
  else if bool_decide (pf ∈ p) then modify (up_pinned np (filter (fun q => q <> pf) p))
  else stuck.

(** [list_remove(&pf->pf_hlink)] *)
Definition remove_hlink (pf : Z) : K unit :=
  let* h := gets pframe_hash in
  if bool_decide (pf ∈ concat h) then modify (up_hash (fmap (filter (fun q => q <> pf)))) else stuck.

(** [list_remove(&pf->pf_olink)] for a frame on the list of [o]. *)
Definition remove_olink (o pf : Z) : K unit :=
  let* y := get_obj o in
  if bool_decide (pf ∈ mmo_respages y)
  then set_obj o (fun y => mo_set_res (mmo_nrespages y) (filter (fun q => q <> pf) (mmo_respages y)) y)
  else stuck.

Definition insert_hash (o pagenum pf : Z) : K unit :=
  let* h := gets pframe_hash in
  let i := Z.to_nat (hash_page o pagenum) in
  let* b := deref (h !! i) in
  modify (up_hash <[i := pf :: b]>).

(** [sched_broadcast_on(&pf->pf_waitq)] *)
Definition broadcast_pf (pf : Z) : K unit :=
  let* x := get_pf pf in
  set_pf pf (pf_set_waitq []) ;;
  let* q := gets pf_runq in
  modify (up_runq (q ++ pf_waitq x)).

(** ** The functions *)
Definition pframe_init : K unit :=
  modify (up_pinned 0 []) ;;
  modify (up_alloc 0 []) ;;
  modify (up_hash (fun _ => replicate (Z.to_nat PF_HASH_SIZE) [])) ;;
  let* n := on_pages page_free_count in
  modify (up_limits 0 (Z.shiftr n 1)) ;;
  modify (up_waitq []).

(** The frame of the chain with the given identity. *)
Fixpoint find_chain (o pagenum : Z) (chain : list Z) : K (option Z) :=
  match chain with
  | [] => ret None
  | pf :: chain =>
      let* x := get_pf pf in
      if bool_decide (pf_obj x = Some o) && (pagenum =? pf_pagenum x) then ret (Some pf)
      else find_chain o pagenum chain
  end.

Definition pframe_get_resident (o pagenum : Z) : K (option Z) :=
  let* h := gets pframe_hash in
  let* chain := deref (h !! Z.to_nat (hash_page o pagenum)) in
  let* r := find_chain o pagenum chain in
  match r with
  | None => ret None
  | Some pf =>
      let* x := get_pf pf in
      (if negb (pframe_is_pinned x) then
         remove_link pf ;;
         let* a := gets alloc_list in
         let* n := gets nallocated in
         modify (up_alloc n (a ++ [pf]))
       else ret tt) ;;
      ret (Some pf)
  end.

Definition pframe_alloc (o pagenum : Z) : K (option Z) :=
  let* r := slab_alloc in
  match r with
  | None => ret None
  | Some pf =>
      let* a := on_pages page_alloc in
      match a with
      | None => ret None
      | Some addr =>
          let* n := gets nallocated in
          let* l := gets alloc_list in
          modify (up_alloc (n + 1) (l ++ [pf])) ;;
          modify (up_frames <[pf := Pframe (Some o) pagenum addr 0 [] 0]>) ;;
          insert_hash o pagenum pf ;;
          mmo_ref o ;;
          set_obj o (fun y => mo_set_res (mmo_nrespages y + 1) (mmo_respages y) y) ;;
          set_obj o (fun y => mo_set_res (mmo_nrespages y) (pf :: mmo_respages y) y) ;;
          ret (Some pf)
      end
  end.

Definition pframe_fill (pf : Z) : K Z :=
  set_pf pf pframe_set_busy ;;
  let* x := get_pf pf in
  let* o := deref (pf_obj x) in
  let* r := on_world (mmo_fillpage o x) in
  set_pf pf pframe_clear_busy ;;
  broadcast_pf pf ;;
  ret r.

(** Stubs: they print a message.  [*result] keeps its value. *)
Definition pframe_get (o pagenum : Z) (result : option Z) : K (Z * option Z) := ret (0, result).
Definition pframe_pin (pf : Z) : K unit := ret tt.
Definition pframe_unpin (pf : Z) : K unit := ret tt.

Definition pframe_lookup (o pagenum forwrite : Z) : K (Z * option Z) := mmo_lookuppage o pagenum forwrite.

Definition pframe_dirty (pf : Z) : K Z :=
  let* x := get_pf pf in
  kassert (negb (pframe_is_busy x)) ;;
  set_pf pf pframe_set_busy ;;
  let* x := get_pf pf in
  let* o := deref (pf_obj x) in
  let* r := on_world (mmo_dirtypage o x) in
  (if r =? 0 then set_pf pf pframe_set_dirty else ret tt) ;;
  set_pf pf pframe_clear_busy ;;
  broadcast_pf pf ;;
  ret r.

Definition mmobj_bottom_obj (o : Z) : K Z :=
  let* y := get_obj o in
  match mmo_shadowed y, mmo_un y with
  | None, _ => ret o
  | Some _, mmo_bottom_obj b => ret b
  | Some _, mmo_vmas _ => stuck
  end.

(** The member of the union that was not stored last is not read. *)
Definition mmobj_bottom_vmas (o : Z) : K (list vmarea) :=
  let* b := mmobj_bottom_obj o in
  let* y := get_obj b in
  match mmo_un y with
  | mmo_vmas l => ret l
  | mmo_bottom_obj _ => stuck
  end.

Fixpoint unmap_areas (pagenum : Z) (l : list vmarea) : K unit :=
  match l with
  | [] => ret tt
  | v :: l =>
      (if (vma_off v <=? pagenum) && (pagenum <? u32 (vma_off v + u32 (vma_end v - vma_start v))) then
         let vaddr := u32 (Z.shiftl (u32 (vma_start v + pagenum - vma_off v)) 12) in
         match vma_proc v with
         | Some pd => on_pt (pt_unmap pd vaddr)
         | None => ret tt
         end
       else ret tt) ;;
      unmap_areas pagenum l
  end.

Definition pframe_remove_from_pts (pf : Z) : K unit :=
  let* x := get_pf pf in
  let* o := deref (pf_obj x) in
  let* l := mmobj_bottom_vmas o in
  unmap_areas (pf_pagenum x) l.

Definition pframe_clean (pf : Z) : K Z :=
  let* x := get_pf pf in
  kassert (pframe_is_dirty x) ;;
  kassert (pf_pincount x =? 0) ;;
  set_pf pf pframe_clear_dirty ;;
  pframe_remove_from_pts pf ;;
  set_pf pf pframe_set_busy ;;
  let* x := get_pf pf in
  let* o := deref (pf_obj x) in
  let* r := on_world (mmo_cleanpage o x) in
  (if r <? 0 then set_pf pf pframe_set_dirty else ret tt) ;;
  set_pf pf pframe_clear_busy ;;
  broadcast_pf pf ;;
  ret r.

(** The bytes of the structure survive [slab_obj_free], so that the link on
    the object's list can still be taken out after it. *)
Definition pframe_free (pf : Z) : K unit :=
  let* x := get_pf pf in
  kassert (negb (pframe_is_pinned x)) ;;
  kassert (negb (pframe_is_free x)) ;;
  kassert (negb (pframe_is_busy x)) ;;
  let* o := deref (pf_obj x) in
  pframe_remove_from_pts pf ;;
  remove_hlink pf ;;
  set_pf pf (pf_set_obj None) ;;
  let* n := gets nallocated in
  let* l := gets alloc_list in
  modify (up_alloc (n - 1) l) ;;
  remove_link pf ;;
  on_pages (page_free (pf_addr x)) ;;
  modify (up_frames (delete pf)) ;;
  set_obj o (fun y => mo_set_res (mmo_nrespages y - 1) (mmo_respages y) y) ;;
  remove_olink o pf ;;
  mmo_put o.

Definition pframe_migrate (pf dest : Z) : K unit :=
  let* x := get_pf pf in
  kassert (negb (pframe_is_busy x)) ;;
  let* r := pframe_get_resident dest (pf_pagenum x) in
  match r with
  | Some _ =>
      pframe_unpin pf ;;
      pframe_clean pf ;;
      pframe_free pf
  | None =>
      let* src := deref (pf_obj x) in
      set_pf pf (pf_set_obj (Some dest)) ;;
      remove_hlink pf ;;
      remove_olink src pf ;;
      set_obj src (fun y => mo_set_res (mmo_nrespages y - 1) (mmo_respages y) y) ;;
      mmo_put src ;;
      insert_hash dest (pf_pagenum x) pf ;;
      set_obj dest (fun y => mo_set_res (mmo_nrespages y) (pf :: mmo_respages y) y) ;;
      set_obj dest (fun y => mo_set_res (mmo_nrespages y + 1) (mmo_respages y) y) ;;
      mmo_ref dest
  end.

(** One pass over the allocated list: true is [goto list_start]. *)
Fixpoint clean_pass (l : list Z) : K bool :=
  match l with
  | [] => ret false
  | pf :: l =>
      let* x := get_pf pf in
      kassert (negb (pframe_is_pinned x)) ;;
      kassert (negb (pframe_is_free x)) ;;
      if pframe_is_busy x then blocked
      else if pframe_is_dirty x then pframe_clean pf ;; ret true
      else clean_pass l
  end.

(** One unit of fuel for each pass. *)
Fixpoint pframe_clean_all (fuel : nat) : K unit :=
  match fuel with
  | O => blocked
  | S fuel =>
      let* l := gets alloc_list in
      let* again := clean_pass l in
      if again : bool then pframe_clean_all fuel else ret tt
  end.


(** [list_iterate] keeps the next link, so the pages can be freed. *)
Fixpoint free_each (l : list Z) : K unit :=
  match l with
  | [] => ret tt
  | pf :: l =>
      let* x := get_pf pf in
      kassert (negb (pframe_is_dirty x)) ;;
      kassert (negb (pframe_is_busy x)) ;;
      kassert (negb (pframe_is_pinned x)) ;;
      pframe_free pf ;;
      free_each l
  end.

(** [pframe_shutdown] once the pageout daemon has been waited for. *)
Definition shutdown_pages (fuel : nat) : K unit :=
  let* n := gets npinned in
  kassert (0 =? n) ;;
  pframe_clean_all fuel ;;
  let* l := gets alloc_list in
  free_each l.

(** The loop of the pageout daemon, one unit of fuel for each page it cleans or
    frees. *)
Fixpoint pageout_loop (fuel : nat) : K unit :=
  match fuel with
  | O => blocked
  | S fuel =>
      let* n := on_pages page_free_count in
      let* target := gets nfreepages_target in
      let* l := gets alloc_list in
      match l with
      | [] => ret tt
      | pf :: _ =>
          if target <=? n then ret tt
          else
            let* x := get_pf pf in
            if pframe_is_busy x then blocked
            else
              (if pframe_is_dirty x then pframe_clean pf ;; ret tt else pframe_free pf) ;;
              pageout_loop fuel
      end
  end.

(** One round of [pageoutd_run], up to the daemon's sleep. *)
Definition pageoutd_round (fuel : nat) : K unit :=
  let* n := gets nallocated in
  kassert (0 <=? n) ;;
  pageout_loop fuel ;;
  let* q := gets alloc_waitq in
  let* r := gets pf_runq in
  modify (up_waitq []) ;;
  modify (up_runq (r ++ q)).
End Frames.
End PFrame.
