(* ===== verification/PFrameSpec.v ===== *)
(** * Page frames: the invariant of the page cache

    What ties the lists, the hash table, the objects and the page allocator
    together; the resident page hash as a partial function from identities to
    frames; allocation and release; unmapping a page everywhere.

    Memory objects are behind the interface [MmobjOps] with its laws
    [MmobjLaws]. *)

From Stdlib Require Import ZArith Lia.
From stdpp Require Import base list gmap.
From S2P Require Import Prelude Page PageSpec PageTable PageTableSpec PageTableOps PageTableRange PFrame.

Module PFrameSpec.
Import Page PageSpec PageTable PageTableSpec PageTableOps PageTableRange PFrame.
Local Open Scope Z_scope.

(** [fields] evaluates the fields of updated states. *)
Ltac fields := cbv beta iota delta [pframes mmobjs npinned pinned_list nallocated alloc_list pframe_hash nfreepages_min nfreepages_target
  alloc_waitq pf_fresh pf_oom pf_runq pf_pt pf_world up_frames up_objs up_pinned up_alloc up_hash up_limits up_waitq up_slab
  up_runq up_pt up_world].

(** What [mmobj.h] says of the operations: [ref] adds a reference, [put] drops
    one and does nothing else while references remain besides those of the
    resident pages; reading and writing pages returns 0 or an error.  Objects that
    live as long as their driver do not count references: [mmo_counts] is 1 for
    those that do and 0 for those that do not. *)
Class MmobjLaws (W : Type) `{MmobjOps W} := {
  mmo_counts : Z -> Z;
  counts_law o : mmo_counts o = 0 \/ mmo_counts o = 1;
  ref_law o (s : pfst W) y : mmobjs s !! o = Some y ->
    mmo_ref o s = Done tt (up_objs <[o := mo_set_ref (mmo_refcount y + mmo_counts o) y]> s);
  put_law o (s : pfst W) y : mmobjs s !! o = Some y -> (mmo_counts o <> 0 -> mmo_nrespages y < mmo_refcount y - mmo_counts o) ->
    mmo_put o s = Done tt (up_objs <[o := mo_set_ref (mmo_refcount y - mmo_counts o) y]> s);
  fill_law o x w : pf_obj x = Some o -> exists r w', mmo_fillpage o x w = Done r w' /\ r <= 0;
  dirty_law o x w : pf_obj x = Some o -> exists r w', mmo_dirtypage o x w = Done r w' /\ r <= 0;
  clean_law o x w : pf_obj x = Some o -> exists r w', mmo_cleanpage o x w = Done r w' /\ r <= 0
}.

(** The object has references besides those of its resident pages, if it counts
    them. *)
Definition outlives {W} `{MmobjLaws W} (o : Z) (y : mmobj_t) : Prop :=
  mmo_counts o <> 0 -> mmo_nrespages y < mmo_refcount y.

(** ** The invariant *)
Section Inv.
Context {W : Type} (L : layout) (g : dirs).
Implicit Types s : pfst W.

(** The identity of the page in the frame [pf]. *)
Definition ident s (pf : Z) : option (Z * Z) :=
  x ← pframes s !! pf; o ← pf_obj x; Some (o, pf_pagenum x).

(** The areas over the object [o]: those of the bottom of its shadow chain. *)
Definition areas_of (objs : gmap Z mmobj_t) (o : Z) : option (list vmarea) :=
  y ← objs !! o;
  b ← match mmo_shadowed y, mmo_un y with
      | None, _ => Some y
      | Some _, mmo_bottom_obj b => objs !! b
      | Some _, mmo_vmas _ => None
      end;
  match mmo_un b with mmo_vmas l => Some l | mmo_bottom_obj _ => None end.

(** An area of user pages, over pages of its object, in a live address space. *)
Record area_ok (v : vmarea) : Prop := {
  ao_proc pd : vma_proc v = Some pd -> is_Some (g !! pd);
  ao_range : 1024 <= vma_start v /\ vma_start v <= vma_end v /\ vma_end v <= 0xc0000;
  ao_off : 0 <= vma_off v /\ vma_off v + (vma_end v - vma_start v) < 2 ^ 32
}.

(** The frames [fs] on the lists, in the hash table and at their objects. *)
Record pf_ok s : Prop := {
  k_lists : NoDup (alloc_list s ++ pinned_list s);
  k_dom pf : pf ∈ alloc_list s ++ pinned_list s <-> is_Some (pframes s !! pf);
  k_counts : nallocated s = Z.of_nat (length (alloc_list s)) /\ npinned s = Z.of_nat (length (pinned_list s));
  k_pin pf x : pframes s !! pf = Some x -> pf ∈ alloc_list s <-> pf_pincount x = 0;
  k_ident pf : is_Some (pframes s !! pf) -> exists o n, ident s pf = Some (o, n) /\ is_Some (mmobjs s !! o) /\ 0 <= n < 2 ^ 32;
  k_unique pf pf' i : ident s pf = Some i -> ident s pf' = Some i -> pf = pf';
  k_buckets : length (pframe_hash s) = Z.to_nat PF_HASH_SIZE;
  k_hash i c : pframe_hash s !! i = Some c -> NoDup c /\
    forall pf, pf ∈ c <-> exists o n, ident s pf = Some (o, n) /\ Z.to_nat (hash_page o n) = i;
  k_res o y : mmobjs s !! o = Some y -> NoDup (mmo_respages y) /\ mmo_nrespages y = Z.of_nat (length (mmo_respages y)) /\
    forall pf, pf ∈ mmo_respages y <-> exists n, ident s pf = Some (o, n);
  k_areas o : is_Some (mmobjs s !! o) -> exists l, areas_of (mmobjs s) o = Some l /\ Forall area_ok l;
  k_fresh pf : is_Some (pframes s !! pf) -> pf < pf_fresh s;
  k_pt : pt_ok L g (pf_pt s);
  k_page pf x : pframes s !! pf = Some x -> allocated (pt_pages (pf_pt s)) (pf_addr x) 0 /\ kpage L (pf_addr x) /\
    forall w, ~ owns L g w (pf_addr x);
  k_addr pf pf' x x' : pframes s !! pf = Some x -> pframes s !! pf' = Some x' -> pf_addr x = pf_addr x' -> pf = pf'
}.

Lemma hash_bound o n : (Z.to_nat (hash_page o n) < Z.to_nat PF_HASH_SIZE)%nat.
Proof.
  unfold hash_page. pose proof (Z.mod_pos_bound (u32 (o + n)) PF_HASH_SIZE ltac:(done)). lia.
Qed.

Lemma ident_frame s pf o n : ident s pf = Some (o, n) ->
  exists x, pframes s !! pf = Some x /\ pf_obj x = Some o /\ pf_pagenum x = n.
Proof.
  unfold ident. destruct (pframes s !! pf) as [x|]; [|done]. cbn. destruct (pf_obj x) as [o'|] eqn:Eo; [|done]. cbn.
  intros [= -> <-]. eauto.
Qed.

Lemma frame_ident s pf x o : pframes s !! pf = Some x -> pf_obj x = Some o -> ident s pf = Some (o, pf_pagenum x).
Proof. unfold ident. intros -> E. cbn. by rewrite E. Qed.

Lemma ok_chain s o n : pf_ok s -> exists c, pframe_hash s !! Z.to_nat (hash_page o n) = Some c.
Proof. intros Hs. apply lookup_lt_is_Some. rewrite (k_buckets _ Hs). apply hash_bound. Qed.

Lemma ok_frame s pf x : pf_ok s -> pframes s !! pf = Some x -> exists o y, pf_obj x = Some o /\ mmobjs s !! o = Some y /\
  ident s pf = Some (o, pf_pagenum x) /\ 0 <= pf_pagenum x < 2 ^ 32.
Proof.
  intros Hs Hx. destruct (k_ident _ Hs pf ltac:(eauto)) as (o & n & Hi & [y Hy] & Hn).
  pose proof Hi as (x' & Hx' & Ho & <-)%ident_frame. assert (x' = x) as -> by congruence. by exists o, y.
Qed.

(** The frame fields the invariant is about. *)
Definition core (x : pframe) : option Z * Z * Z * Z := (pf_obj x, pf_pagenum x, pf_addr x, pf_pincount x).

Definition same_cores (m m' : gmap Z pframe) : Prop := core <$> m' = core <$> m.

Lemma same_cores_lookup m m' pf : same_cores m m' -> core <$> m' !! pf = core <$> m !! pf.
Proof. unfold same_cores. intros E. rewrite <- !lookup_fmap. by rewrite E. Qed.

Lemma same_cores_frame m m' pf x : same_cores m m' -> m' !! pf = Some x -> exists x0, m !! pf = Some x0 /\ core x = core x0.
Proof.
  intros E H. pose proof (same_cores_lookup _ _ pf E) as Hl. rewrite H in Hl. destruct (m !! pf) as [x0|]; [|done].
  injection Hl as Hl. exists x0. split; [done|]. unfold core. congruence.
Qed.

Lemma same_cores_some m m' pf : same_cores m m' -> is_Some (m' !! pf) <-> is_Some (m !! pf).
Proof.
  intros E. pose proof (same_cores_lookup _ _ pf E) as Hl.
  destruct (m' !! pf), (m !! pf); try done; split; intros H; eauto; by apply is_Some_None in H.
Qed.

Lemma same_cores_insert m pf x x' : m !! pf = Some x -> core x' = core x -> same_cores m (<[pf := x']> m).
Proof.
  intros Hx E. unfold same_cores. rewrite fmap_insert, E. apply insert_id. by rewrite lookup_fmap, Hx.
Qed.

(** Flags, wait queues and the world may change. *)
Lemma ok_same_cores s s' : pf_ok s -> same_cores (pframes s) (pframes s') -> mmobjs s' = mmobjs s ->
  alloc_list s' = alloc_list s -> pinned_list s' = pinned_list s -> nallocated s' = nallocated s -> npinned s' = npinned s ->
  pframe_hash s' = pframe_hash s -> pf_fresh s' = pf_fresh s ->
  pt_ok L g (pf_pt s') -> pt_pages (pf_pt s') = pt_pages (pf_pt s) -> pf_ok s'.
Proof.
  intros Hs E Eo Ea Ep Ena Enp Eh Ef Hpt Epg.
  assert (forall pf, ident s' pf = ident s pf) as Hid.
  { intros pf. unfold ident. pose proof (same_cores_lookup _ _ pf E) as Hl.
    destruct (pframes s' !! pf), (pframes s !! pf); try done. injection Hl as E1 E2 _ _. cbn. by rewrite E1, E2. }
  destruct Hs. split; rewrite ?Eo, ?Ea, ?Ep, ?Ena, ?Enp, ?Eh, ?Ef, ?Epg; try done.
  - intros pf. rewrite (same_cores_some _ _ _ E). auto.
  - intros pf x (x0 & Hx0 & [= _ _ _ ->])%(same_cores_frame _ _ _ _ E). auto.
  - intros pf Hp%(same_cores_some _ _ _ E). rewrite Hid. auto.
  - intros pf pf' i. rewrite !Hid. eauto.
  - intros i c Hc. destruct (k_hash0 i c Hc) as [? Hi]. split; [done|]. intros pf. rewrite Hi. by setoid_rewrite Hid.
  - intros o y Hy. destruct (k_res0 o y Hy) as (? & ? & Hi). split_and!; try done. intros pf. rewrite Hi. by setoid_rewrite Hid.
  - intros pf Hp%(same_cores_some _ _ _ E). auto.
  - intros pf x (x0 & Hx0 & [= _ _ -> _])%(same_cores_frame _ _ _ _ E). eauto.
  - intros pf pf' x x' (x0 & Hx0 & [= _ _ -> _])%(same_cores_frame _ _ _ _ E)
      (x1 & Hx1 & [= _ _ -> _])%(same_cores_frame _ _ _ _ E). eauto.
Qed.

Lemma ok_perm s l : pf_ok s -> l ≡ₚ alloc_list s -> pf_ok (up_alloc (nallocated s) l s).
Proof.
  intros Hs E. destruct Hs. split; cbn; try done; intros; rewrite ?E; auto.
Qed.
End Inv.

Section Frames.
Context {W : Type} `{MmobjLaws W} `{Reclaim} (L : layout) (g : dirs).
Implicit Types s : pfst W.
Local Abbreviation ok := (pf_ok L g).

Lemma get_pf_run s pf x : pframes s !! pf = Some x -> get_pf pf s = Done x s.
Proof. intros E. unfold get_pf. by rewrite E. Qed.

Lemma set_pf_run s pf x f : pframes s !! pf = Some x -> set_pf pf f s = Done tt (up_frames <[pf := f x]> s).
Proof. intros E. unfold set_pf. by krun (get_pf_run s pf x E). Qed.

Lemma get_obj_run s o y : mmobjs s !! o = Some y -> get_obj o s = Done y s.
Proof. intros E. unfold get_obj. by rewrite E. Qed.

Lemma set_obj_run s o y f : mmobjs s !! o = Some y -> set_obj o f s = Done tt (up_objs <[o := f y]> s).
Proof. intros E. unfold set_obj. by krun (get_obj_run s o y E). Qed.

(** ** Unmapping *)

(** Page [n] of the object is the page [va] of the area, in the directory [p]. *)
Definition maps_at (n p va : Z) (v : vmarea) : bool :=
  bool_decide (vma_proc v = Some p) && ((vma_off v <=? n) && (n <? vma_off v + (vma_end v - vma_start v))) &&
  (va =? 4096 * (vma_start v + n - vma_off v)).

(** The tables [t'] are [t] with page [n] unmapped from the areas [l]. *)
Record unmapped_from (l : list vmarea) (n : Z) (t t' : ptst) : Prop := {
  uf_ok : pt_ok L g t';
  uf_pages : pt_pages t' = pt_pages t;
  uf_entry p va : is_Some (g !! p) -> user_page va ->
    pte_at (phys t') p va = if existsb (maps_at n p va) l then 0 else pte_at (phys t) p va
}.

Lemma pt_unmap_pages p va t t' : pt_unmap p va t = Done tt t' -> pt_pages t' = pt_pages t.
Proof.
  assert (forall a w t1 t2, store a w t1 = Done tt t2 -> pt_pages t2 = pt_pages t1) as Hst.
  { intros a w t1 t2. unfold store. destruct (translate _ _ _) as [b|]; [|done]. destruct (phys t1 !! b); [|done]. by intros [= <-]. }
  assert (forall a t1 t2 r, load a t1 = Done r t2 -> t2 = t1) as Hld.
  { intros a t1 t2 r. unfold load, deref. destruct (translate _ _ _) as [b|]; [|done]. destruct (phys t1 !! b); [|done]. by intros [= _ <-]. }
  unfold pt_unmap. intros E. kinv E. unfold kassert in Hrun. case_match; [|done]. injection Hrun as _ <-.
  kinv Hrest. unfold kassert in Hrun. case_match; [|done]. injection Hrun as _ <-.
  kinv Hrest0. apply Hld in Hrun as ->. destruct (present _); [|by injection Hrest as <-].
  kinv Hrest. apply Hld in Hrun as ->. by apply Hst in Hrest0.
Qed.

Lemma area_vaddr v n : area_ok g v -> vma_off v <= n -> n < vma_off v + (vma_end v - vma_start v) ->
  u32 (Z.shiftl (u32 (vma_start v + n - vma_off v)) 12) = 4096 * (vma_start v + n - vma_off v) /\
  user_page (4096 * (vma_start v + n - vma_off v)).
Proof.
  intros [_ (? & ? & ?) [? ?]] ? ?. rewrite (u32_small (vma_start v + n - vma_off v)) by lia. rewrite Z.shiftl_mul_pow2 by lia.
  change (2 ^ 12) with 4096. rewrite u32_small by lia. split; [lia|]. unfold user_page, USER_MEM_LOW, USER_MEM_HIGH. split; [lia|dlia].
Qed.

Lemma on_pt_run {A} (m : T A) s a t : m (pf_pt s) = Done a t -> on_pt m s = Done a (up_pt t s).
Proof. unfold on_pt. by intros ->. Qed.

Lemma unmapped_refl n t : pt_ok L g t -> unmapped_from [] n t t.
Proof. by split. Qed.

Lemma unmap_one n v l t t' t'' : unmapped_from [v] n t t' -> unmapped_from l n t' t'' -> unmapped_from (v :: l) n t t''.
Proof.
  intros [_ P1 E1] [O2 P2 E2]. split; [done|by rewrite P2|]. intros p va Hp Hva. rewrite E2, E1 by done. cbn.
  destruct (maps_at n p va v), (existsb _ l); done.
Qed.

Lemma unmap_areas_run n l : 0 <= n -> forall s, pt_ok L g (pf_pt s) -> Forall (area_ok g) l ->
  exists t, unmap_areas n l s = Done tt (up_pt t s) /\ unmapped_from l n (pf_pt s) t.
Proof.
  intros Hn. induction l as [|v l IH]; intros s Hs Hl; cbn [unmap_areas].
  { exists (pf_pt s). split; [by destruct s|by apply unmapped_refl]. }
  apply Forall_cons in Hl as [Hv Hl]. pose proof Hv as [_ (? & ? & ?) [? ?]].
  rewrite (u32_small (vma_end v - vma_start v)), (u32_small (vma_off v + (vma_end v - vma_start v))) by lia.
  assert (exists t, (if (vma_off v <=? n) && (n <? vma_off v + (vma_end v - vma_start v)) then
      match vma_proc v with
      | Some pd => on_pt (pt_unmap pd (u32 (Z.shiftl (u32 (vma_start v + n - vma_off v)) 12)))
      | None => ret tt
      end else ret tt) s = Done tt (up_pt t s) /\ unmapped_from [v] n (pf_pt s) t) as (t & Et & Ht).
  { assert (unmapped_from [v] n (pf_pt s) (pf_pt s) -> exists t, ret tt s = Done tt (up_pt t s) /\ unmapped_from [v] n (pf_pt s) t) as Hsame.
    { intros Hu. exists (pf_pt s). split; [by destruct s|done]. }
    destruct ((vma_off v <=? n) && _) eqn:Ec.
    - destruct (vma_proc v) as [pd|] eqn:Ep.
      + apply andb_true_iff in Ec as Hc. rewrite Z.leb_le, Z.ltb_lt in Hc. destruct (area_vaddr v n Hv) as [-> Hu]; [lia..|].
        destruct (pt_unmap_spec L g (pf_pt s) pd _ Hs (ao_proc _ _ Hv _ Ep) Hu) as (t & Et & Ht & Hb).
        exists t. split; [by apply on_pt_run|]. split; [done|by eapply pt_unmap_pages|]. intros p va Hp Hva.
        rewrite (Hb p va Hp Hva). cbn [existsb]. rewrite orb_false_r. unfold maps_at. rewrite Ep, Ec.
        destruct (decide (p = pd)) as [->|];
          [rewrite !bool_decide_eq_true_2 by done|rewrite !bool_decide_eq_false_2 by congruence]; done.
      + apply Hsame. split; [done..|]. intros. cbn. unfold maps_at. by rewrite Ep.
    - apply Hsame. split; [done..|]. intros. cbn. unfold maps_at. by rewrite Ec, andb_false_r. }
  krun Et. destruct (IH (up_pt t s)) as (t' & E' & H'); [apply Ht|done|]. exists t'. split; [by rewrite E'|by eapply unmap_one].
Qed.

Lemma remove_from_pts_run s pf x o l : pframes s !! pf = Some x -> pf_obj x = Some o -> 0 <= pf_pagenum x ->
  areas_of (mmobjs s) o = Some l -> Forall (area_ok g) l -> pt_ok L g (pf_pt s) ->
  exists t, pframe_remove_from_pts pf s = Done tt (up_pt t s) /\ unmapped_from l (pf_pagenum x) (pf_pt s) t.
Proof.
  intros Hx Ho Hn Hl Hok Hpt. unfold pframe_remove_from_pts. krun (get_pf_run s pf x Hx).
  rewrite Ho. erewrite bind_done by reflexivity. cbn beta.
  assert (mmobj_bottom_vmas o s = Done l s) as E.
  { unfold mmobj_bottom_vmas, mmobj_bottom_obj. unfold areas_of in Hl. destruct (mmobjs s !! o) as [y|] eqn:Ey; [|done]. cbn in Hl.
    rewrite bind_assoc. krun (get_obj_run s o y Ey).
    destruct (mmo_shadowed y); [destruct (mmo_un y) as [|b]; [done|]|]; (erewrite bind_done by reflexivity); cbn beta.
    - destruct (mmobjs s !! b) as [yb|] eqn:Eb; [|done]. cbn in Hl. krun (get_obj_run s b yb Eb).
      destruct (mmo_un yb); [by injection Hl as <-|done].
    - krun (get_obj_run s o y Ey). cbn in Hl. destruct (mmo_un y); [by injection Hl as <-|done]. }
  krun E. by apply unmap_areas_run.
Qed.

(** ** The resident page hash *)
Lemma find_chain_run s o n c : (forall pf, pf ∈ c -> is_Some (pframes s !! pf)) ->
  exists r, find_chain o n c s = Done r s /\
    match r with
    | Some pf => pf ∈ c /\ ident s pf = Some (o, n)
    | None => forall pf, pf ∈ c -> ident s pf <> Some (o, n)
    end.
Proof.
  induction c as [|pf c IH]; intros Hc; cbn [find_chain].
  { exists None. split; [done|]. by intros pf ?%elem_of_nil. }
  destruct (Hc pf ltac:(left)) as [x Hx]. krun (get_pf_run s pf x Hx).
  destruct (bool_decide _ && _) eqn:E.
  - apply andb_true_iff in E as [Eo%bool_decide_eq_true_1 En%Z.eqb_eq]. subst n. exists (Some pf). split; [done|].
    split; [left|by apply frame_ident].
  - destruct IH as (r & Er & Hr); [intros q Hq; apply Hc; by right|]. exists r. split; [done|].
    destruct r as [q|]; [destruct Hr; split; [by right|done]|].
    intros q [->|Hq]%elem_of_cons; [|by apply Hr]. intros (x' & Hx' & Eo & En)%ident_frame.
    assert (x' = x) as -> by congruence. subst n. rewrite bool_decide_eq_true_2, Z.eqb_refl in E by done. done.
Qed.

Definition touch (pf : Z) s : pfst W := up_alloc (nallocated s) (filter (fun q => q <> pf) (alloc_list s) ++ [pf]) s.

Lemma alloc_nodup s : ok s -> NoDup (alloc_list s).
Proof. intros Hs. pose proof (k_lists _ _ _ Hs) as Hn. by apply NoDup_app in Hn as (? & _ & _). Qed.

Lemma remove_pf_link_run s pf : ok s -> pf ∈ alloc_list s ->
  remove_link pf s = Done tt (up_alloc (nallocated s) (filter (fun q => q <> pf) (alloc_list s)) s).
Proof.
  intros Hs Hpf. unfold remove_link. do 4 (erewrite bind_done by reflexivity; cbn beta). by rewrite bool_decide_eq_true_2.
Qed.

Lemma touch_ok s pf : ok s -> pf ∈ alloc_list s -> ok (touch pf s).
Proof.
  intros Hs Hpf. apply ok_perm; [done|]. rewrite (filter_ne_perm pf (alloc_list s)) at 2 by (try done; by apply alloc_nodup).
  by rewrite Permutation_app_comm.
Qed.

Lemma get_resident_run s o n : ok s ->
  exists r s', pframe_get_resident o n s = Done r s' /\ ok s' /\
    (forall pf, r = Some pf <-> ident s pf = Some (o, n)) /\
    s' = match r with
         | Some pf => if decide (pf ∈ alloc_list s) then touch pf s else s
         | None => s
         end.
Proof.
  intros Hs. unfold pframe_get_resident. erewrite bind_done by reflexivity. cbn beta.
  destruct (ok_chain L g s o n Hs) as [c Hc]. destruct (k_hash _ _ _ Hs _ _ Hc) as [_ Hin].
  rewrite Hc. erewrite bind_done by reflexivity. cbn beta.
  destruct (find_chain_run s o n c) as (r & Er & Hr).
  { intros pf (o' & n' & (x & Hx & _)%ident_frame & _)%Hin. eauto. }
  krun Er. destruct r as [pf|].
  - destruct Hr as [_ Hid]. pose proof Hid as (x & Hx & _)%ident_frame. krun (get_pf_run s pf x Hx).
    assert (forall q, Some pf = Some q <-> ident s q = Some (o, n)) as Hq.
    { intros q. split; [by intros [= <-]|]. intros Hiq. f_equal. by eapply (k_unique _ _ _ Hs). }
    pose proof (k_pin _ _ _ Hs pf x Hx) as Hpin. unfold pframe_is_pinned. rewrite negb_involutive.
    destruct (decide (pf ∈ alloc_list s)) as [Ha|Ha].
    + rewrite (proj2 (Z.eqb_eq _ _)) by (by apply Hpin). exists (Some pf), (touch pf s).
      split; [|split_and!; [by apply touch_ok|done|by rewrite decide_True]].
      rewrite bind_assoc. by krun (remove_pf_link_run s pf Hs Ha).
    + rewrite (proj2 (Z.eqb_neq _ _)) by (by intros ?%Hpin). exists (Some pf), s. split_and!; try done. by rewrite decide_False.
  - exists None, s. split_and!; try done. intros pf. split; [done|]. intros Hid. exfalso. eapply Hr; [|done].
    apply Hin. eauto.
Qed.

(** C10: [pframe_get_resident] is the lookup of a partial function from identities
    to frames: it returns the frame that holds page [n] of [o] exactly when there
    is one, wherever its hash puts it.  The page it returns becomes the most
    recently requested one unless it is pinned; nothing else changes. *)
Theorem pframe_get_resident_spec s o n : ok s ->
  exists r s', pframe_get_resident o n s = Done r s' /\ ok s' /\
    (forall pf, r = Some pf <-> ident s pf = Some (o, n)) /\
    s' = match r with
         | Some pf => if decide (pf ∈ alloc_list s) then touch pf s else s
         | None => s
         end.
Proof. apply get_resident_run. Qed.

(** ** Release *)
Local Abbreviation but pf := (filter (fun q : Z => q <> pf)).

(** The state without the frame [pf], which was on the allocated list and held a
    page of [o], the object [y]. *)
Definition without (pf o : Z) (y : mmobj_t) (t : ptst) s : pfst W :=
  Pfst (delete pf (pframes s))
    (<[o := Mmobj (mmo_refcount y - mmo_counts o) (mmo_nrespages y - 1) (but pf (mmo_respages y)) (mmo_un y) (mmo_shadowed y)]> (mmobjs s))
    (npinned s) (pinned_list s) (nallocated s - 1) (but pf (alloc_list s)) (but pf <$> pframe_hash s)
    (nfreepages_min s) (nfreepages_target s) (alloc_waitq s) (pf_fresh s) (pf_oom s) (pf_runq s) t (pf_world s).

(** The page tables do not care which of the other pages are free. *)
Lemma gave_ok t a ps : pt_ok L g t -> kpage L a -> (forall w, ~ owns L g w a) -> gave (pt_pages t) 0 a ps ->
  pt_ok L g (up_ptpages ps t).
Proof.
  intros [H1' H2 H3 H4 H5 H6 H7 H8 H9] Hk Hno Hg.
  assert (forall w b x, owns L g w b -> in_block b 0 x -> ~ in_block a 0 x) as Hd.
  { intros w b x Hw Hx Hx'. assert (b = a) as -> by (eapply blocks_disjoint; eauto; [apply (so_page _ _ _ H1' _ _ Hw)|apply Hk]). by eapply Hno. }
  split; try done; cbn.
  - apply Hg.
  - intros x [Hx|Hx]%(gv_free _ _ _ _ Hg); [by apply H7|]. unfold in_block, kpage in *. change (bsize 0) with 4096 in Hx. lia.
  - intros w b x Hw Hx [Hf|Hf]%(gv_free _ _ _ _ Hg); [by eapply H8|by eapply Hd].
  - intros p tabs i u Hp Hu. eapply allocated_geo; [apply (gv_geo _ _ _ _ Hg)| |by eapply H9].
    intros x Hx [Hf|Hf]%(gv_free _ _ _ _ Hg); [done|]. by edestruct (Hd (OUser p i) u x); [econstructor| |].
Qed.

Lemma areas_of_insert objs o y y' o' : objs !! o = Some y -> mmo_un y' = mmo_un y -> mmo_shadowed y' = mmo_shadowed y ->
  areas_of (<[o := y']> objs) o' = areas_of objs o'.
Proof.
  intros Hy Eu Es. unfold areas_of.
  assert (forall q, exists f, <[o := y']> objs !! q = f <$> objs !! q /\ forall z, objs !! q = Some z -> mmo_un (f z) = mmo_un z /\ mmo_shadowed (f z) = mmo_shadowed z) as Hq.
  { intros q. destruct (decide (q = o)) as [->|].
    - exists (fun _ => y'). rewrite lookup_insert_eq, Hy. split; [done|]. by intros z [= <-].
    - exists id. rewrite lookup_insert_ne by done. split; [by destruct (objs !! q)|done]. }
  destruct (Hq o') as (f & -> & Hf). destruct (objs !! o') as [z|]; [|done]. cbn. destruct (Hf z eq_refl) as [-> ->].
  destruct (mmo_shadowed z); [destruct (mmo_un z) as [|b]; [done|]|].
  - destruct (Hq b) as (f' & -> & Hf'). destruct (objs !! b) as [zb|]; [|done]. cbn. by destruct (Hf' zb eq_refl) as [-> _].
  - cbn. by destruct (Hf z eq_refl) as [-> _].
Qed.

Lemma elem_but (pf q : Z) (l : list Z) : q ∈ but pf l <-> q ∈ l /\ q <> pf.
Proof. rewrite list_elem_of_filter. tauto. Qed.

Lemma ident_without s pf o y t q : ident (without pf o y t s) q = if decide (q = pf) then None else ident s q.
Proof.
  unfold ident. cbn [pframes without]. destruct (decide (q = pf)) as [->|]; [by rewrite lookup_delete_eq|by rewrite lookup_delete_ne].
Qed.

Lemma without_lists s pf x o y t : ok s -> pframes s !! pf = Some x -> pf ∈ alloc_list s ->
  NoDup (but pf (alloc_list s) ++ pinned_list s) /\
  (forall q, q ∈ but pf (alloc_list s) ++ pinned_list s <-> is_Some (pframes (without pf o y t s) !! q)) /\
  nallocated s - 1 = Z.of_nat (length (but pf (alloc_list s))).
Proof.
  intros Hs Hx Ha. pose proof (k_lists _ _ _ Hs) as Hnd. rewrite (filter_ne_perm pf (alloc_list s)) in Hnd by (try done; by apply alloc_nodup).
  cbn in Hnd. apply NoDup_cons in Hnd as [Hni Hnd]. split_and!; [done| |].
  - intros q. cbn. destruct (decide (q = pf)) as [->|].
    + rewrite lookup_delete_eq. split; [done|by intros ?%is_Some_None].
    + rewrite lookup_delete_ne, <- (k_dom _ _ _ Hs q), !elem_of_app, elem_but by done. naive_solver.
  - rewrite (proj1 (k_counts _ _ _ Hs)), (filter_ne_length pf (alloc_list s)) by (try done; by apply alloc_nodup). lia.
Qed.

Lemma without_ok s pf x o y t : ok s -> pframes s !! pf = Some x -> pf_obj x = Some o -> mmobjs s !! o = Some y ->
  pf ∈ alloc_list s -> pt_ok L g t -> gave (pt_pages (pf_pt s)) 0 (pf_addr x) (pt_pages t) -> ok (without pf o y t s).
Proof.
  intros Hs Hx Ho Hy Ha Ht Hg. destruct (without_lists s pf x o y t Hs Hx Ha) as (HL1 & HL2 & HL3).
  assert (forall q z, pframes (without pf o y t s) !! q = Some z -> q <> pf /\ pframes s !! q = Some z) as Hfr.
  { intros q z Hz. cbn in Hz. by apply lookup_delete_Some in Hz as [? ?]. }
  assert (forall q, is_Some (mmobjs (without pf o y t s) !! q) <-> is_Some (mmobjs s !! q)) as Hobj.
  { intros q. cbn. destruct (decide (q = o)) as [->|]; [rewrite lookup_insert_eq, Hy; split; eauto|by rewrite lookup_insert_ne]. }
  assert (forall q i, ident (without pf o y t s) q = Some i <-> ident s q = Some i /\ q <> pf) as Hid.
  { intros q i. rewrite ident_without. case_decide; naive_solver. }
  assert (NoDup (mmo_respages y) /\ pf ∈ mmo_respages y) as [Hrn Hrp].
  { destruct (k_res _ _ _ Hs o y Hy) as (? & _ & Hr). split; [done|]. apply Hr. eexists. by apply frame_ident. }
  split; try (exact HL1 || exact HL2 || exact (conj HL3 (proj2 (k_counts _ _ _ Hs))) || exact Ht).
  - intros q z [Hq Hz]%Hfr. cbn. rewrite elem_but, (k_pin _ _ _ Hs q z Hz). tauto.
  - intros q [z [Hq Hz]%Hfr]. destruct (k_ident _ _ _ Hs q ltac:(eauto)) as (o' & n & ? & ? & ?). exists o', n. by rewrite Hid, Hobj.
  - intros q q' i [? _]%Hid [? _]%Hid. by eapply (k_unique _ _ _ Hs).
  - cbn. rewrite length_fmap. apply Hs.
  - cbn [pframe_hash without]. intros i c (c0 & -> & Hc0)%list_lookup_fmap_Some. destruct (k_hash _ _ _ Hs i c0 Hc0) as [? Hin].
    split; [by apply NoDup_filter|]. intros q. rewrite elem_but, Hin. setoid_rewrite Hid. naive_solver.
  - cbn [mmobjs without]. intros o' y' Hy'. destruct (decide (o' = o)) as [->|].
    + rewrite lookup_insert_eq in Hy'. injection Hy' as <-. cbn. destruct (k_res _ _ _ Hs o y Hy) as (_ & -> & Hr).
      split_and!; [by apply NoDup_filter|rewrite (filter_ne_length pf (mmo_respages y)) by done; lia|].
      intros q. rewrite elem_but, Hr. setoid_rewrite Hid. naive_solver.
    + rewrite lookup_insert_ne in Hy' by done. destruct (k_res _ _ _ Hs o' y' Hy') as (? & ? & Hr). split_and!; try done.
      intros q. rewrite Hr. setoid_rewrite Hid. split; [|naive_solver]. intros [k Hk]. exists k. split; [done|]. intros ->.
      rewrite (frame_ident s pf x o Hx Ho) in Hk. congruence.
  - intros o' Ho'%Hobj. cbn [mmobjs without]. rewrite (areas_of_insert _ _ y) by done. by apply (k_areas _ _ _ Hs).
  - intros q [z [_ Hz]%Hfr]. apply (k_fresh _ _ _ Hs). eauto.
  - intros q z [Hq Hz]%Hfr. destruct (k_page _ _ _ Hs q z Hz) as (Hal & Hk & Hno). split_and!; try done. cbn.
    eapply allocated_geo; [apply (gv_geo _ _ _ _ Hg)| |done]. intros a Hin [Hf|Hf]%(gv_free _ _ _ _ Hg); [done|].
    destruct Hq. apply (k_addr _ _ _ Hs q pf z x Hz Hx). eapply blocks_disjoint; eauto; [apply Hk|].
    by destruct (k_page _ _ _ Hs pf x Hx) as (_ & (_ & _ & ?) & _).
  - intros q q' z z' [_ Hz]%Hfr [_ Hz']%Hfr. by apply (k_addr _ _ _ Hs).
Qed.
End Frames.
End PFrameSpec.
