(* ===== verification/PFrameOps.v ===== *)
(** * Page frames: allocation, release, dirtying, cleaning and migration

    What each operation of [mm/pframe.c] on one frame does, on every branch. *)

From Stdlib Require Import ZArith Lia.
From stdpp Require Import base list gmap.
From S2P Require Import Prelude Page PageSpec PageTable PageTableSpec PageTableOps PageTableRange PFrame PFrameSpec.

Module PFrameOps.
Import Page PageSpec PageTable PageTableSpec PageTableOps PageTableRange PFrame PFrameSpec.
Local Open Scope Z_scope.

Section Ops.
Context {W : Type} `{MmobjLaws W} `{Reclaim} (L : layout) (g : dirs).
Implicit Types s : pfst W.
Local Abbreviation ok := (pf_ok L g).
Local Abbreviation but pf := (filter (fun q : Z => q <> pf)).

(** ** Release *)
Lemma remove_hlink_run s pf o n : ok s -> ident s pf = Some (o, n) ->
  remove_hlink pf s = Done tt (up_hash (fmap (but pf)) s).
Proof.
  intros Hs Hi. unfold remove_hlink. erewrite bind_done by reflexivity. cbn beta. rewrite bool_decide_eq_true_2; [done|].
  destruct (ok_chain L g s o n Hs) as [c Hc]. apply list_elem_of_In, in_concat. exists c. split.
  - apply list_elem_of_In. by eapply list_elem_of_lookup_2.
  - apply list_elem_of_In, (k_hash _ _ _ Hs _ _ Hc). eauto.
Qed.

Lemma frame_pages_run {A} (m : P A) s a ps : m (pt_pages (pf_pt s)) = Done a ps ->
  PFrame.on_pages m s = Done a (up_pt (up_ptpages ps (pf_pt s)) s).
Proof. intros E. apply on_pt_run. by apply PageTableOps.on_pages_run. Qed.

Lemma objs_twice s o y y' : up_objs <[o := y']> (up_objs <[o := y]> s) = up_objs <[o := y']> s.
Proof. unfold up_objs. cbn. by rewrite insert_insert_eq. Qed.

(** Taking the frame off its object's list and dropping its reference. *)
Lemma leave_object s o y pf : mmobjs s !! o = Some y -> pf ∈ mmo_respages y -> outlives o y ->
  (set_obj o (fun y => mo_set_res (mmo_nrespages y - 1) (mmo_respages y) y) ;; remove_olink o pf ;; mmo_put o) s =
  Done tt (up_objs <[o := Mmobj (mmo_refcount y - mmo_counts o) (mmo_nrespages y - 1) (but pf (mmo_respages y)) (mmo_un y) (mmo_shadowed y)]> s).
Proof.
  intros Hy Hpf Hn. krun (set_obj_run s o y (fun y => mo_set_res (mmo_nrespages y - 1) (mmo_respages y) y) Hy).
  set (y1 := mo_set_res _ _ y). set (s1 := up_objs _ s).
  assert (mmobjs s1 !! o = Some y1) as Hy1 by apply lookup_insert_eq.
  unfold remove_olink. rewrite bind_assoc. krun (get_obj_run s1 o y1 Hy1). rewrite bool_decide_eq_true_2 by done.
  krun (set_obj_run s1 o y1 (fun y => mo_set_res (mmo_nrespages y) (but pf (mmo_respages y)) y) Hy1).
  rewrite (put_law o _ (mo_set_res (mmo_nrespages y - 1) (but pf (mmo_respages y)) y)); [|apply lookup_insert_eq|cbn; intros Hc; specialize (Hn Hc); destruct (counts_law o); lia].
  unfold s1. by rewrite !objs_twice.
Qed.

Lemma pframe_free_run s pf x o y l : ok s -> pframes s !! pf = Some x -> pf_obj x = Some o -> mmobjs s !! o = Some y ->
  areas_of (mmobjs s) o = Some l -> pf_pincount x = 0 -> pframe_is_busy x = false -> outlives o y ->
  exists t ps, pframe_free pf s = Done tt (without pf o y (up_ptpages ps t) s) /\
    unmapped_from L g l (pf_pagenum x) (pf_pt s) t /\ gave (pt_pages (pf_pt s)) 0 (pf_addr x) ps /\
    ok (without pf o y (up_ptpages ps t) s).
Proof.
  intros Hs Hx Ho Hy Hl Hpin Hbusy Href. destruct (ok_frame _ _ _ _ _ Hs Hx) as (o' & y' & Ho' & _ & Hid & Hn).
  rewrite Ho in Ho'. injection Ho' as <-. pose proof (proj2 (k_pin _ _ _ Hs pf x Hx) Hpin) as Ha.
  destruct (k_areas _ _ _ Hs o ltac:(eauto)) as (l' & Hl' & Hal). rewrite Hl in Hl'. injection Hl' as <-.
  destruct (remove_from_pts_run L g s pf x o l Hx Ho (proj1 Hn) Hl Hal (k_pt _ _ _ Hs)) as (t & Et & Ht).
  destruct (k_page _ _ _ Hs pf x Hx) as (Hpg & Hkp & Hno).
  destruct (page_free_order_run (pt_pages (pf_pt s)) (pf_addr x) 0 (pk_pages _ _ _ (k_pt _ _ _ Hs)) ltac:(lia) Hpg) as (ps & Ef & Hg).
  exists t, ps. split; [|split_and!; [done|done|]].
  - unfold pframe_free. krun (get_pf_run s pf x Hx). unfold pframe_is_pinned, pframe_is_free. rewrite Hpin, Hbusy, bool_decide_eq_false_2 by congruence.
    do 3 (erewrite bind_done by reflexivity; cbn beta). rewrite Ho. erewrite bind_done by reflexivity. cbn beta. krun Et.
    assert (ok (up_pt t s)) as Hs1 by (apply (ok_same_cores L g s); try done; [apply Ht|by apply (uf_pages _ _ _ _ _ _ Ht)]).
    krun (remove_hlink_run (up_pt t s) pf o _ Hs1 Hid).
    erewrite bind_done by (by apply set_pf_run with (x := x)). cbn beta. do 3 (erewrite bind_done by reflexivity; cbn beta).
    erewrite bind_done; [|unfold remove_link; do 4 (erewrite bind_done by reflexivity; cbn beta); rewrite bool_decide_eq_true_2 by done; reflexivity].
    cbn beta. assert (page_free (pf_addr x) (pt_pages t) = Done tt ps) as Ef' by (rewrite (uf_pages _ _ _ _ _ _ Ht); exact Ef).
    match goal with |- bind _ _ ?S = _ => set (s5 := S) end.
    krun (frame_pages_run (page_free (pf_addr x)) s5 tt ps Ef'). erewrite bind_done by reflexivity. cbn beta. rewrite leave_object with (y := y); [|done| |done].
    + unfold without, s5. destruct s. fields. by rewrite delete_insert_eq.
    + apply (k_res _ _ _ Hs o y Hy). eauto.
  - apply (without_ok L g s pf x); try done. apply (gave_ok L g t (pf_addr x)); try done; [apply Ht|].
    by rewrite (uf_pages _ _ _ _ _ _ Ht).
Qed.

(** ** Allocation *)

(** The state with a new frame for page [n] of [o], the object [y], at the end of
    the allocated list. *)
Definition with_frame (o n addr : Z) (y : mmobj_t) (t : ptst) s : pfst W :=
  let pf := pf_fresh s in
  let i := Z.to_nat (hash_page o n) in
  Pfst (<[pf := Pframe (Some o) n addr 0 [] 0]> (pframes s))
    (<[o := Mmobj (mmo_refcount y + mmo_counts o) (mmo_nrespages y + 1) (pf :: mmo_respages y) (mmo_un y) (mmo_shadowed y)]> (mmobjs s))
    (npinned s) (pinned_list s) (nallocated s + 1) (alloc_list s ++ [pf])
    (<[i := pf :: default [] (pframe_hash s !! i)]> (pframe_hash s))
    (nfreepages_min s) (nfreepages_target s) (alloc_waitq s) (pf + 1) (tail (pf_oom s)) (pf_runq s) t (pf_world s).

Lemma join_object s o y pf : mmobjs s !! o = Some y ->
  (mmo_ref o ;; set_obj o (fun y => mo_set_res (mmo_nrespages y + 1) (mmo_respages y) y) ;;
   set_obj o (fun y => mo_set_res (mmo_nrespages y) (pf :: mmo_respages y) y) ;; ret (Some pf)) s =
  Done (Some pf) (up_objs <[o := Mmobj (mmo_refcount y + mmo_counts o) (mmo_nrespages y + 1) (pf :: mmo_respages y) (mmo_un y) (mmo_shadowed y)]> s).
Proof.
  intros Hy. krun (ref_law o s y Hy). set (y1 := mo_set_ref _ y).
  erewrite bind_done by (apply set_obj_run with (y := y1); apply lookup_insert_eq). cbn beta. rewrite objs_twice.
  erewrite bind_done by (eapply set_obj_run; apply lookup_insert_eq). cbn beta. by rewrite objs_twice.
Qed.

Lemma fresh_none s : ok s -> pframes s !! pf_fresh s = None.
Proof.
  intros Hs. destruct (pframes s !! pf_fresh s) as [x|] eqn:E; [|done]. pose proof (k_fresh _ _ _ Hs (pf_fresh s) ltac:(eauto)). lia.
Qed.

Lemma with_frame_ident s o n a y t q : ident (with_frame o n a y t s) q = if decide (q = pf_fresh s) then Some (o, n) else ident s q.
Proof.
  unfold ident. cbn [pframes with_frame]. case_decide as E; [subst q; by rewrite lookup_insert_eq|by rewrite lookup_insert_ne].
Qed.

Lemma with_frame_lists s o n a y t : ok s ->
  NoDup ((alloc_list s ++ [pf_fresh s]) ++ pinned_list s) /\
  (forall q, q ∈ (alloc_list s ++ [pf_fresh s]) ++ pinned_list s <-> is_Some (pframes (with_frame o n a y t s) !! q)).
Proof.
  intros Hs. pose proof (fresh_none s Hs) as Hf. pose proof (k_dom _ _ _ Hs) as Hd. split.
  - rewrite (Permutation_app_comm (alloc_list s)). cbn. apply NoDup_cons. split; [|apply Hs]. rewrite Hd, Hf. by intros ?%is_Some_None.
  - intros q. rewrite (Permutation_app_comm (alloc_list s)). cbn. rewrite elem_of_cons, Hd.
    destruct (decide (q = pf_fresh s)) as [->|]; [rewrite lookup_insert_eq; naive_solver|rewrite lookup_insert_ne by done; naive_solver].
Qed.

Lemma taken_apart s a ps q z : ok s -> took (pt_pages (pf_pt s)) 0 a ps -> pframes s !! q = Some z -> pf_addr z <> a.
Proof.
  intros Hs Hta Hz Ea. destruct (k_page _ _ _ Hs q z Hz) as ((? & ? & ? & _ & _ & _ & Hx) & _ & _). rewrite Ea in Hx.
  assert (in_block a 0 a) as Hin by (unfold in_block; change (bsize 0) with 4096; lia). by apply (Hx a Hin), (tk_was _ _ _ _ Hta).
Qed.

Lemma with_frame_ok s o n a y t : ok s -> mmobjs s !! o = Some y -> 0 <= n < 2 ^ 32 -> (forall pf, ident s pf <> Some (o, n)) ->
  pt_ok L g t -> took (pt_pages (pf_pt s)) 0 a (pt_pages t) -> kpage L a -> (forall w, ~ owns L g w a) ->
  ok (with_frame o n a y t s).
Proof.
  intros Hs Hy Hn Hnew Ht Hta Hka Hna. destruct (with_frame_lists s o n a y t Hs) as [HL1 HL2]. set (s' := with_frame o n a y t s).
  assert (forall q z, pframes s' !! q = Some z ->
    (q = pf_fresh s /\ z = Pframe (Some o) n a 0 [] 0) \/ (q <> pf_fresh s /\ pframes s !! q = Some z)) as Hfr.
  { intros q z Hz. cbn in Hz. apply lookup_insert_Some in Hz as [[<- <-]|[? ?]]; [left|right]; eauto. }
  assert (forall q, is_Some (mmobjs s' !! q) <-> is_Some (mmobjs s !! q)) as Hobj.
  { intros q. cbn. destruct (decide (q = o)) as [->|]; [rewrite lookup_insert_eq, Hy; split; eauto|by rewrite lookup_insert_ne]. }
  assert (forall q i, ident s' q = Some i <-> (q = pf_fresh s /\ i = (o, n)) \/ (q <> pf_fresh s /\ ident s q = Some i)) as Hid.
  { intros q i. unfold s'. rewrite with_frame_ident. case_decide; naive_solver. }
  assert (forall q i, ident s q = Some i -> q <> pf_fresh s) as Hold.
  { intros q [o' n'] (z & Hz & _)%ident_frame ->. by rewrite (fresh_none s Hs) in Hz. }
  pose proof (fresh_none s Hs) as Hf0.
  split; try (exact HL1 || exact HL2 || exact Ht).
  - destruct (k_counts _ _ _ Hs) as [E1 E2]. split; [|exact E2]. cbn. rewrite E1, length_app. cbn. lia.
  - intros q z [[-> ->]|[Hq Hz]]%Hfr; cbn; rewrite elem_of_app, list_elem_of_singleton; [tauto|].
    rewrite (k_pin _ _ _ Hs q z Hz). tauto.
  - intros q [z [[-> _]|[Hq Hz]]%Hfr].
    + exists o, n. rewrite Hid, Hobj. eauto.
    + destruct (k_ident _ _ _ Hs q ltac:(eauto)) as (o' & n' & ? & ? & ?). exists o', n'. rewrite Hid, Hobj. eauto.
  - intros q q' i [[-> ->]|[? Hi]]%Hid [[-> Ei]|[? Hi']]%Hid; subst; [done|by destruct (Hnew q')|by destruct (Hnew q)|by eapply (k_unique _ _ _ Hs)].
  - cbn. rewrite length_insert. apply Hs.
  - cbn [pframe_hash with_frame s']. destruct (ok_chain L g s o n Hs) as [c0 Hc0]. set (j := Z.to_nat (hash_page o n)) in *.
    destruct (k_hash _ _ _ Hs j c0 Hc0) as [Hnd0 Hin0]. rewrite Hc0. cbn [default from_option].
    intros i c Hc. apply list_lookup_insert_Some in Hc as [(<- & <- & _)|[Hij Hc]].
    + split; [apply NoDup_cons; split; [|done]; intros (? & ? & ?%Hold & _)%Hin0; done|]. intros q. rewrite elem_of_cons, Hin0.
      setoid_rewrite Hid. split; [intros [->|(o' & n' & Hi & E)]; [exists o, n|exists o', n']; naive_solver|]. intros (o' & n' & [[-> E]|[? Hi]] & E'); eauto.
    + destruct (k_hash _ _ _ Hs i c Hc) as [? Hin]. split; [done|]. intros q. rewrite Hin. setoid_rewrite Hid.
      split; [intros (o' & n' & Hi & E); exists o', n'; eauto|]. intros (o' & n' & [[-> [= -> ->]]|[? Hi]] & E'); [by destruct Hij|eauto].
  - cbn [mmobjs with_frame s']. intros o' y' [[<- <-]|[Ho Hy']]%lookup_insert_Some; cbn.
    + destruct (k_res _ _ _ Hs o y Hy) as (Hnd & -> & Hr). split_and!; [|lia|].
      * apply NoDup_cons. split; [|done]. intros [? ?%Hold]%Hr. done.
      * intros q. rewrite elem_of_cons, Hr. setoid_rewrite Hid. split; [intros [->|[k Hk]]; eauto 6|]. intros [k [[-> _]|[? Hk]]]; eauto.
    + destruct (k_res _ _ _ Hs o' y' Hy') as (? & ? & Hr). split_and!; try done. intros q. rewrite Hr. setoid_rewrite Hid.
      split; [intros [k Hk]; eauto 6|]. intros [k [[_ [= -> _]]|[? Hk]]]; [done|eauto].
  - intros o' Ho'%Hobj. cbn [mmobjs with_frame s']. rewrite (areas_of_insert _ _ y) by done. by apply (k_areas _ _ _ Hs).
  - intros q [z [[-> _]|[_ Hz]]%Hfr]; cbn; [lia|]. pose proof (k_fresh _ _ _ Hs q ltac:(eauto)). lia.
  - intros q z [[-> ->]|[Hq Hz]]%Hfr; [split_and!; try done; apply Hta|].
    destruct (k_page _ _ _ Hs q z Hz) as (Hal & Hk & Hno). split_and!; try done. cbn.
    eapply allocated_geo; [apply (tk_geo _ _ _ _ Hta)| |done]. intros b _ Hb. by apply (tk_free _ _ _ _ Hta).
  - pose proof (fun q z => taken_apart s a _ q z Hs Hta) as Hne.
    intros q q' z z' [[-> ->]|[_ Hz]]%Hfr [[-> ->]|[_ Hz']]%Hfr; cbn; intros E; [done|by destruct (Hne _ _ Hz')|by destruct (Hne _ _ Hz)|].
    by eapply (k_addr _ _ _ Hs).
Qed.

Lemma insert_hash_run s o n pf : ok s ->
  let i := Z.to_nat (hash_page o n) in
  forall s1, pframe_hash s1 = pframe_hash s ->
  insert_hash o n pf s1 = Done tt (up_hash <[i := pf :: default [] (pframe_hash s !! i)]> s1).
Proof.
  intros Hs i s1 E. destruct (ok_chain L g s o n Hs) as [c Hc]. fold i in Hc. unfold insert_hash. erewrite bind_done by reflexivity. cbn beta zeta.
  fold i. rewrite E, Hc. by erewrite bind_done by reflexivity.
Qed.

(** What [pframe_alloc] does when the slab has a structure. *)
Lemma pframe_alloc_run s o n y : ok s -> mmobjs s !! o = Some y -> 0 <= n < 2 ^ 32 -> (forall pf, ident s pf <> Some (o, n)) ->
  default false (head (pf_oom s)) = false ->
  (exists a ps, pframe_alloc o n s = Done (Some (pf_fresh s)) (with_frame o n a y (up_ptpages ps (pf_pt s)) s) /\
     took (pt_pages (pf_pt s)) 0 a ps /\ ok (with_frame o n a y (up_ptpages ps (pf_pt s)) s)) \/
  ((forall h k, h ∈ pagegroup_list (pt_pages (pf_pt s)) -> listof h k = []) /\
   pframe_alloc o n s = (PFrame.on_pages slab_allocators_reclaim ;; ret None) (up_slab (pf_fresh s + 1) (tail (pf_oom s)) s)).
Proof.
  intros Hs Hy Hn Hnew Hoom. unfold pframe_alloc, slab_alloc. rewrite !bind_assoc. do 2 (erewrite bind_done by reflexivity; cbn beta; rewrite ?bind_assoc).
  rewrite Hoom. rewrite bind_assoc. do 2 (erewrite bind_done by reflexivity; cbn beta iota). set (s1 := up_slab _ _ s).
  destruct (page_alloc_order_run (pt_pages (pf_pt s)) 0 (pk_pages _ _ _ (k_pt _ _ _ Hs))) as [(a & ps & Ea & Hta)|[Hno Ea]].
  - left. exists a, ps. split; [|split; [done|]].
    + krun (frame_pages_run page_alloc s1 (Some a) ps Ea). do 4 (erewrite bind_done by reflexivity; cbn beta).
      match goal with |- bind _ _ ?S = _ => krun (insert_hash_run s o n (pf_fresh s) Hs S eq_refl) end.
      erewrite join_object by done.
      unfold s1, with_frame. by destruct s.
    + destruct (took_ok L g (pf_pt s) 0 a ps (k_pt _ _ _ Hs) Hta) as [Hpt Hown]. destruct (Hown 0 ltac:(cbn; lia)) as [Hka Hoa].
      rewrite Z.mul_0_r, Z.add_0_r in Hka, Hoa. by apply with_frame_ok.
  - right. split; [intros h k Hh; apply (Hno h k Hh); lia|].
    assert (PFrame.on_pages page_alloc s1 = (PFrame.on_pages slab_allocators_reclaim ;; ret None) s1) as E.
    { unfold PFrame.on_pages, on_pt, PageTable.on_pages, page_alloc. cbn [pf_pt up_slab s1]. rewrite Ea. unfold bind, ret.
      cbn [pf_pt up_slab s1]. by destruct (slab_allocators_reclaim (pt_pages (pf_pt s))). }
    unfold bind at 1. rewrite E. unfold bind. by destruct (PFrame.on_pages slab_allocators_reclaim s1).
Qed.

(** ** Input and output *)
Lemma busy_bit x : pframe_is_busy x = Z.testbit (pf_flags x) 0.
Proof.
  unfold pframe_is_busy. change PF_BUSY with (Z.ones 1). rewrite Z.land_ones, Z.bit0_odd by lia. change (2 ^ 1) with 2.
  rewrite Zmod_odd. by destruct (Z.odd (pf_flags x)).
Qed.

Lemma dirty_bit x : pframe_is_dirty x = Z.testbit (pf_flags x) 1.
Proof.
  unfold pframe_is_dirty. destruct (Z.testbit (pf_flags x) 1) eqn:E.
  - destruct (Z.eqb_spec (Z.land (pf_flags x) PF_DIRTY) 0) as [E0|]; [|done].
    apply (f_equal (fun z => Z.testbit z 1)) in E0. by rewrite Z.land_spec, E in E0.
  - destruct (Z.eqb_spec (Z.land (pf_flags x) PF_DIRTY) 0) as [|E0]; [done|]. destruct E0. apply Z.bits_inj'. intros k Hk.
    rewrite Z.land_spec, Z.bits_0. destruct (decide (k = 1)) as [->|]; [by rewrite E|].
    change PF_DIRTY with (2 ^ 1). rewrite Z.pow2_bits_false by lia. apply andb_false_r.
Qed.

(** The frame after an operation of its object that returned [r] and left it
    dirty or not. *)
Definition after_io (d : pframe -> pframe) (x : pframe) : pframe := pf_set_waitq [] (pframe_clear_busy (d (pframe_set_busy x))).

Lemma after_io_flags d x : pframe_is_busy (after_io d x) = false /\ pframe_is_dirty (after_io d x) = pframe_is_dirty (d (pframe_set_busy x)).
Proof.
  rewrite !busy_bit, !dirty_bit. cbn [after_io pf_set_waitq pframe_clear_busy pf_set_flags pf_flags]. rewrite !Z.land_spec, !Z.lnot_spec by lia.
  change (Z.testbit PF_BUSY 0) with true. change (Z.testbit PF_BUSY 1) with false. cbn. by rewrite andb_false_r, andb_true_r.
Qed.

Lemma set_dirty_bit x : pframe_is_dirty (pframe_set_dirty x) = true.
Proof. rewrite dirty_bit. cbn [pframe_set_busy pframe_clear_busy pframe_set_dirty pframe_clear_dirty pf_set_flags pf_flags]. rewrite Z.lor_spec. apply orb_true_r. Qed.
Lemma clear_dirty_bit x : pframe_is_dirty (pframe_clear_dirty x) = false.
Proof. rewrite dirty_bit. cbn [pframe_set_busy pframe_clear_busy pframe_set_dirty pframe_clear_dirty pf_set_flags pf_flags]. rewrite Z.land_spec, Z.lnot_spec by lia. apply andb_false_r. Qed.
Lemma set_busy_dirty x : pframe_is_dirty (pframe_set_busy x) = pframe_is_dirty x.
Proof. rewrite !dirty_bit. cbn [pframe_set_busy pframe_clear_busy pframe_set_dirty pframe_clear_dirty pf_set_flags pf_flags]. rewrite Z.lor_spec. apply orb_false_r. Qed.
Lemma clear_dirty_busy x : pframe_is_busy (pframe_clear_dirty x) = pframe_is_busy x.
Proof. rewrite !busy_bit. cbn [pframe_set_busy pframe_clear_busy pframe_set_dirty pframe_clear_dirty pf_set_flags pf_flags]. rewrite Z.land_spec, Z.lnot_spec by lia. apply andb_true_r. Qed.

Lemma frames_twice s pf x x' : up_frames <[pf := x']> (up_frames <[pf := x]> s) = up_frames <[pf := x']> s.
Proof. unfold up_frames. cbn. by rewrite insert_insert_eq. Qed.

Lemma on_world_run {A} (m : kern W A) s a w : m (pf_world s) = Done a w -> on_world m s = Done a (up_world w s).
Proof. unfold on_world. by intros ->. Qed.

(** The state after the frame [pf] has become [x] and its waiters run. *)
Definition io_state (pf : Z) (x : pframe) (q : list Z) (w : W) s : pfst W :=
  up_frames <[pf := x]> (up_runq (pf_runq s ++ q) (up_world w s)).

(** From marking the page busy to waking those who waited for it. *)
Lemma io_run s pf x o (op : Z -> pframe -> kern W Z) (mark : Z -> kern (pfst W) unit) d r w :
  pframes s !! pf = Some x -> pf_obj x = Some o -> op o (pframe_set_busy x) (pf_world s) = Done r w ->
  (forall s1 x1, pframes s1 !! pf = Some x1 -> mark r s1 = Done tt (up_frames <[pf := d x1]> s1)) ->
  pf_waitq (d (pframe_set_busy x)) = pf_waitq x ->
  (set_pf pf pframe_set_busy ;;
   let* x := get_pf pf in
   let* o := deref (pf_obj x) in
   let* r := on_world (op o x) in
   mark r ;;
   set_pf pf pframe_clear_busy ;;
   broadcast_pf pf ;;
   ret r) s = Done r (io_state pf (after_io d x) (pf_waitq x) w s).
Proof.
  intros Hx Ho Hop Hm Hd. krun (set_pf_run s pf x pframe_set_busy Hx). set (s1 := up_frames _ s).
  assert (pframes s1 !! pf = Some (pframe_set_busy x)) as Hx1 by apply lookup_insert_eq. krun (get_pf_run s1 pf _ Hx1).
  change (pf_obj (pframe_set_busy x)) with (pf_obj x). rewrite Ho. erewrite bind_done by reflexivity. cbn beta.
  krun (on_world_run (op o (pframe_set_busy x)) s1 r w Hop). set (s2 := up_world w s1).
  krun (Hm s2 (pframe_set_busy x) Hx1).
  erewrite bind_done by (apply set_pf_run; apply lookup_insert_eq). cbn beta. rewrite frames_twice.
  unfold broadcast_pf. rewrite bind_assoc. erewrite bind_done by (apply get_pf_run; apply lookup_insert_eq). cbn beta.
  rewrite bind_assoc. erewrite bind_done by (apply set_pf_run; apply lookup_insert_eq). cbn beta. rewrite frames_twice.
  change (pf_waitq (pframe_clear_busy (d (pframe_set_busy x)))) with (pf_waitq (d (pframe_set_busy x))). rewrite Hd.
  unfold io_state, s2, s1. destruct s. unfold ret. fields. cbn. by rewrite insert_insert_eq.
Qed.

Definition mark (b : bool) : pframe -> pframe := if b then pframe_set_dirty else id.

Lemma mark_dirty_run (b : bool) pf s x : pframes s !! pf = Some x ->
  (if b then set_pf pf pframe_set_dirty else ret tt) s = Done tt (up_frames <[pf := mark b x]> s).
Proof.
  intros Hx. destruct b; [by apply set_pf_run|]. unfold up_frames, ret. cbn. rewrite insert_id by done. by destruct s.
Qed.

Lemma after_io_core b x : core (after_io (mark b) x) = core x.
Proof. by destruct b. Qed.

Lemma after_io_dirty b x : pframe_is_dirty (after_io (mark b) x) = b || pframe_is_dirty x.
Proof.
  rewrite (proj2 (after_io_flags _ _)). destruct b; cbn [mark orb]; [apply set_dirty_bit|apply set_busy_dirty].
Qed.

Lemma io_ok s pf x x' q w : ok s -> pframes s !! pf = Some x -> core x' = core x -> ok (io_state pf x' q w s).
Proof. intros Hs Hx Hc. apply (ok_same_cores L g s); try done; [by eapply same_cores_insert|apply Hs]. Qed.

Lemma io_twice pf x x' q w s : io_state pf x' q w (up_frames <[pf := x]> s) = io_state pf x' q w s.
Proof. unfold io_state. destruct s. fields. by rewrite insert_insert_eq. Qed.

Lemma pframe_clean_run s pf x o l : ok s -> pframes s !! pf = Some x -> pf_obj x = Some o -> areas_of (mmobjs s) o = Some l ->
  pframe_is_dirty x = true -> pf_pincount x = 0 ->
  exists r w t, mmo_cleanpage o (pframe_set_busy (pframe_clear_dirty x)) (pf_world s) = Done r w /\ r <= 0 /\
    pframe_clean pf s = Done r (io_state pf (after_io (mark (r <? 0)) (pframe_clear_dirty x)) (pf_waitq x) w (up_pt t s)) /\
    unmapped_from L g l (pf_pagenum x) (pf_pt s) t /\ ok (up_pt t s).
Proof.
  intros Hs Hx Ho Hl Hdirty Hpin. destruct (ok_frame _ _ _ _ _ Hs Hx) as (o' & y & Ho' & Hy & Hid & Hn).
  rewrite Ho in Ho'. injection Ho' as <-. destruct (k_areas _ _ _ Hs o ltac:(eauto)) as (l' & Hl' & Hal). rewrite Hl in Hl'. injection Hl' as <-.
  set (s1 := up_frames <[pf := pframe_clear_dirty x]> s). assert (pframes s1 !! pf = Some (pframe_clear_dirty x)) as Hx1 by apply lookup_insert_eq.
  destruct (remove_from_pts_run L g s1 pf (pframe_clear_dirty x) o l Hx1 Ho (proj1 Hn) Hl Hal (k_pt _ _ _ Hs)) as (t & Et & Ht).
  destruct (clean_law o (pframe_set_busy (pframe_clear_dirty x)) (pf_world s) Ho) as (r & w & Ec & Hr).
  exists r, w, t. split; [done|]. split; [done|]. split; [|split; [exact Ht|]].
  - unfold pframe_clean. krun (get_pf_run s pf x Hx). rewrite Hdirty, Hpin. do 2 (erewrite bind_done by reflexivity; cbn beta).
    krun (set_pf_run s pf x pframe_clear_dirty Hx). fold s1. krun Et.
    erewrite (io_run (up_pt t s1) pf (pframe_clear_dirty x) o mmo_cleanpage _ (mark (r <? 0)) r w); [|done|done|exact Ec| |by destruct (r <? 0)].
    + change (up_pt t s1) with (up_frames <[pf := pframe_clear_dirty x]> (up_pt t s)). by rewrite io_twice.
    + intros s2 x2 Hx2. by apply mark_dirty_run.
  - apply (ok_same_cores L g s); try done; [apply Ht|by apply (uf_pages _ _ _ _ _ _ Ht)].
Qed.

Lemma pframe_clean_clean s pf x : pframes s !! pf = Some x -> pframe_is_dirty x = false -> pframe_clean pf s = Panic.
Proof. intros Hx Hd. unfold pframe_clean. krun (get_pf_run s pf x Hx). by rewrite Hd. Qed.

Lemma pframe_dirty_run s pf x o : ok s -> pframes s !! pf = Some x -> pf_obj x = Some o -> pframe_is_busy x = false ->
  exists r w, mmo_dirtypage o (pframe_set_busy x) (pf_world s) = Done r w /\ r <= 0 /\
    pframe_dirty pf s = Done r (io_state pf (after_io (mark (r =? 0)) x) (pf_waitq x) w s) /\
    ok (io_state pf (after_io (mark (r =? 0)) x) (pf_waitq x) w s).
Proof.
  intros Hs Hx Ho Hb. destruct (dirty_law o (pframe_set_busy x) (pf_world s) Ho) as (r & w & Ed & Hr). exists r, w. split; [done|]. split; [done|]. split.
  - unfold pframe_dirty. krun (get_pf_run s pf x Hx). rewrite Hb. erewrite bind_done by reflexivity. cbn beta.
    apply (io_run s pf x o mmo_dirtypage); [done|done|done| |by destruct (r =? 0)]. intros s2 x2 Hx2. by apply mark_dirty_run.
  - eapply io_ok; [done|done|apply after_io_core].
Qed.

Lemma pframe_fill_run s pf x o : ok s -> pframes s !! pf = Some x -> pf_obj x = Some o ->
  exists r w, mmo_fillpage o (pframe_set_busy x) (pf_world s) = Done r w /\ r <= 0 /\
    pframe_fill pf s = Done r (io_state pf (after_io id x) (pf_waitq x) w s) /\ ok (io_state pf (after_io id x) (pf_waitq x) w s).
Proof.
  intros Hs Hx Ho. destruct (fill_law o (pframe_set_busy x) (pf_world s) Ho) as (r & w & Ed & Hr). exists r, w. split; [done|]. split; [done|]. split.
  - pose proof (io_run s pf x o mmo_fillpage (fun _ => ret tt) id r w Hx Ho Ed (fun s2 x2 Hx2 => mark_dirty_run false pf s2 x2 Hx2) eq_refl) as E.
    rewrite <- E. unfold pframe_fill. reflexivity.
  - eapply io_ok; [done|done|]. exact (after_io_core false x).
Qed.

(** ** The operations against the specification *)

(** An empty cache over the objects there are. *)
Record no_frames s : Prop := {
  nf_frames : pframes s = ∅;
  nf_objs o y : mmobjs s !! o = Some y -> mmo_nrespages y = 0 /\ mmo_respages y = [];
  nf_areas o : is_Some (mmobjs s !! o) -> exists l, areas_of (mmobjs s) o = Some l /\ Forall (area_ok g) l;
  nf_pt : pt_ok L g (pf_pt s)
}.

(** [pframe_init] establishes the invariant of the page cache, and sets the
    target of the pageout daemon to half of the free pages. *)
Theorem pframe_init_ok s : no_frames s -> exists s', pframe_init s = Done tt s' /\ ok s' /\
  pframes s' = ∅ /\ mmobjs s' = mmobjs s /\ alloc_list s' = [] /\ pinned_list s' = [] /\
  nfreepages_target s' = page_freecount (pt_pages (pf_pt s)) / 2 /\ nfreepages_min s' = 0 /\
  pf_pt s' = pf_pt s /\ pf_world s' = pf_world s /\ pf_oom s' = pf_oom s /\ pf_fresh s' = pf_fresh s.
Proof.
  intros [Hf Ho Ha Hp]. assert (exists s', pframe_init s = Done tt s' /\ s' =
    Pfst (pframes s) (mmobjs s) 0 [] 0 [] (replicate (Z.to_nat PF_HASH_SIZE) []) 0 (Z.shiftr (page_freecount (pt_pages (pf_pt s))) 1) []
      (pf_fresh s) (pf_oom s) (pf_runq s) (pf_pt s) (pf_world s)) as (s' & E & Es').
  { eexists. split; [|reflexivity]. by destruct s as [? ? ? ? ? ? ? ? ? ? ? ? ? [] ?]. }
  exists s'. subst s'. split; [exact E|]. split; [|split_and!; try done; cbn; by rewrite Z.shiftr_div_pow2 by lia].
  assert (forall pf, pframes s !! pf = None) as Hno by (intros pf; by rewrite Hf, lookup_empty).
  split; cbn; unfold ident; cbn; try done; try (intros pf; rewrite Hno; by intros ?%is_Some_None); try (intros pf ? ?; by rewrite Hno).
  - apply NoDup_nil_2.
  - intros pf. rewrite Hno. split; [by intros ?%elem_of_nil|by intros ?%is_Some_None].
  - intros pf x. by rewrite Hno.
  - intros i c [-> _]%lookup_replicate. split; [apply NoDup_nil_2|]. intros pf. rewrite Hno. split; [by intros ?%elem_of_nil|by intros (? & ? & ? & _)].
  - intros o y Hy. destruct (Ho o y Hy) as [-> ->]. split_and!; [apply NoDup_nil_2|done|]. intros pf. rewrite Hno.
    split; [by intros ?%elem_of_nil|by intros [? ?]].
  - intros pf x. by rewrite Hno.
Qed.

(** [pframe_alloc] of a page that is not resident: with a structure from the
    slab and a page from the allocator there is a new frame, the most recently
    requested one, which [pframe_get_resident] then finds; the page was free and
    no other frame changes.  Without, nothing is added. *)
Theorem pframe_alloc_spec s o n y : ok s -> mmobjs s !! o = Some y -> 0 <= n < 2 ^ 32 -> (forall pf, ident s pf <> Some (o, n)) ->
  let pf := pf_fresh s in
  let full := default false (head (pf_oom s)) in
  (full = false /\ exists a s', pframe_alloc o n s = Done (Some pf) s' /\ ok s' /\
     pframes s' = <[pf := Pframe (Some o) n a 0 [] 0]> (pframes s) /\ pframes s !! pf = None /\ alloc_list s' = alloc_list s ++ [pf] /\
     took (pt_pages (pf_pt s)) 0 a (pt_pages (pf_pt s')) /\ exists s'', pframe_get_resident o n s' = Done (Some pf) s'') \/
  (full = true /\ pframe_alloc o n s = Done None (up_slab pf (tail (pf_oom s)) s)) \/
  (full = false /\ (forall h k, h ∈ pagegroup_list (pt_pages (pf_pt s)) -> listof h k = []) /\
   pframe_alloc o n s = (PFrame.on_pages slab_allocators_reclaim ;; ret None) (up_slab (pf + 1) (tail (pf_oom s)) s)).
Proof.
  intros Hs Hy Hn Hnew pf full. destruct full eqn:Ef.
  - right; left. split; [done|]. unfold pframe_alloc, slab_alloc. rewrite !bind_assoc. erewrite bind_done by reflexivity. cbn beta.
    rewrite bind_assoc. erewrite bind_done by reflexivity. cbn beta. unfold full in Ef. by rewrite Ef.
  - destruct (pframe_alloc_run s o n y Hs Hy Hn Hnew Ef) as [(a & ps & E & Ht & Hok)|Hno]; [left|by right; right].
    split; [done|]. exists a. eexists. split; [exact E|]. split_and!; try done; [by apply fresh_none|].
    destruct (get_resident_run L g _ o n Hok) as (r & s'' & Er & _ & Hr & _). exists s''. rewrite Er. f_equal. apply Hr.
    rewrite with_frame_ident. by rewrite decide_True.
Qed.

(** C11: [pframe_free] of a page that is neither pinned nor busy: the page is no
    longer resident, it is unmapped from every area of its object and from nowhere
    else, its page frame is free again, and the object has lost one resident page
    and one reference. *)
Theorem pframe_free_spec s pf x o y l : ok s -> pframes s !! pf = Some x -> pf_obj x = Some o -> mmobjs s !! o = Some y ->
  areas_of (mmobjs s) o = Some l -> pf_pincount x = 0 -> pframe_is_busy x = false -> outlives o y ->
  exists s', pframe_free pf s = Done tt s' /\ ok s' /\
    pframes s' = delete pf (pframes s) /\ alloc_list s' = but pf (alloc_list s) /\ pframe_get_resident o (pf_pagenum x) s' = Done None s' /\
    gave (pt_pages (pf_pt s)) 0 (pf_addr x) (pt_pages (pf_pt s')) /\
    (forall p va, is_Some (g !! p) -> user_page va ->
       pte_at (phys (pf_pt s')) p va = if existsb (maps_at (pf_pagenum x) p va) l then 0 else pte_at (phys (pf_pt s)) p va) /\
    exists y', mmobjs s' = <[o := y']> (mmobjs s) /\ mmo_nrespages y' = mmo_nrespages y - 1 /\ mmo_refcount y' = mmo_refcount y - mmo_counts o.
Proof.
  intros Hs Hx Ho Hy Hl Hpin Hb Hn. destruct (pframe_free_run s pf x o y l Hs Hx Ho Hy Hl Hpin Hb Hn) as (t & ps & E & Ht & Hg & Hok).
  eexists. split; [exact E|]. split; [done|]. split_and!; try done.
  - destruct (get_resident_run L g _ o (pf_pagenum x) Hok) as (r & s'' & Er & _ & Hr & Es). rewrite Er. destruct r as [q|]; [|by subst s''].
    pose proof (proj1 (Hr q) eq_refl) as Hq. rewrite ident_without in Hq. case_decide as Ne; [done|]. destruct Ne.
    eapply (k_unique _ _ _ Hs); [done|]. by apply frame_ident.
  - apply Ht.
  - by eexists.
Qed.

(** [pframe_clean] of a dirty page that is not pinned writes it once, wakes
    those who waited for it and leaves it clean exactly when the write succeeded;
    a later access to it faults, for it is unmapped.  No list changes. *)
Theorem pframe_clean_spec s pf x o l : ok s -> pframes s !! pf = Some x -> pf_obj x = Some o -> areas_of (mmobjs s) o = Some l ->
  pframe_is_dirty x = true -> pf_pincount x = 0 ->
  exists r w s' x', mmo_cleanpage o (pframe_set_busy (pframe_clear_dirty x)) (pf_world s) = Done r w /\ pframe_clean pf s = Done r s' /\ ok s' /\
    pframes s' = <[pf := x']> (pframes s) /\ core x' = core x /\ pframe_is_dirty x' = (r <? 0) /\ pframe_is_busy x' = false /\
    pf_world s' = w /\ pf_runq s' = pf_runq s ++ pf_waitq x /\ alloc_list s' = alloc_list s /\ mmobjs s' = mmobjs s /\
    unmapped_from L g l (pf_pagenum x) (pf_pt s) (pf_pt s').
Proof.
  intros Hs Hx Ho Hl Hd Hpin. destruct (pframe_clean_run s pf x o l Hs Hx Ho Hl Hd Hpin) as (r & w & t & Ew & _ & E & Ht & Hok).
  exists r, w. eexists. exists (after_io (mark (r <? 0)) (pframe_clear_dirty x)). split; [exact Ew|]. split; [exact E|]. split_and!; try done.
  - apply io_ok with (x := x); [done|done|]. by rewrite after_io_core.
  - by rewrite after_io_core.
  - by rewrite after_io_dirty, clear_dirty_bit, orb_false_r.
  - apply after_io_flags.
Qed.
End Ops.
End PFrameOps.
