(* ===== verification/PFrameMove.v ===== *)
(** * Page frames: migration

    [pframe_migrate] hands a page to another object of its shadow chain; when that
    object has a page of the same number already, the page is dropped. *)

From Stdlib Require Import ZArith Lia.
From stdpp Require Import base list gmap.
From S2P Require Import Prelude Page PageSpec PageTable PageTableSpec PageTableOps PageTableRange PFrame PFrameSpec PFrameOps.

Module PFrameMove.
Import Page PageSpec PageTable PageTableSpec PageTableOps PageTableRange PFrame PFrameSpec PFrameOps.
Local Open Scope Z_scope.

Section Move.
Context {W : Type} `{MmobjLaws W} `{Reclaim} (L : layout) (g : dirs).
Implicit Types s : pfst W.
Local Abbreviation ok := (pf_ok L g).
Local Abbreviation but pf := (filter (fun q : Z => q <> pf)).

(** The state in which the frame [pf] of [src], the object [ys], is a frame of
    [dest], the object [yd]. *)
Definition moved (pf : Z) (x : pframe) (src dest : Z) (ys yd : mmobj_t) s : pfst W :=
  let i := Z.to_nat (hash_page dest (pf_pagenum x)) in
  let h := but pf <$> pframe_hash s in
  Pfst (<[pf := pf_set_obj (Some dest) x]> (pframes s))
    (<[dest := Mmobj (mmo_refcount yd + mmo_counts dest) (mmo_nrespages yd + 1) (pf :: mmo_respages yd) (mmo_un yd) (mmo_shadowed yd)]>
      (<[src := Mmobj (mmo_refcount ys - mmo_counts src) (mmo_nrespages ys - 1) (but pf (mmo_respages ys)) (mmo_un ys) (mmo_shadowed ys)]> (mmobjs s)))
    (npinned s) (pinned_list s) (nallocated s) (alloc_list s) (<[i := pf :: default [] (h !! i)]> h)
    (nfreepages_min s) (nfreepages_target s) (alloc_waitq s) (pf_fresh s) (pf_oom s) (pf_runq s) (pf_pt s) (pf_world s).

Lemma moved_ident pf x src dest ys yd s q :
  ident (moved pf x src dest ys yd s) q = if decide (q = pf) then Some (dest, pf_pagenum x) else ident s q.
Proof. unfold ident. cbn [pframes moved]. case_decide as E; [subst q; by rewrite lookup_insert_eq|by rewrite lookup_insert_ne]. Qed.

Section Moved.
Context s (pf : Z) (x : pframe) (src dest : Z) (ys yd : mmobj_t).
Hypotheses (Hs : ok s) (Hx : pframes s !! pf = Some x) (Hsrc : pf_obj x = Some src).
Hypotheses (Hys : mmobjs s !! src = Some ys) (Hyd : mmobjs s !! dest = Some yd).
Hypothesis Hnew : forall q, ident s q <> Some (dest, pf_pagenum x).
Local Abbreviation s' := (moved pf x src dest ys yd s).

Lemma moved_was : ident s pf = Some (src, pf_pagenum x) /\ src <> dest.
Proof.
  pose proof (frame_ident s pf x src Hx Hsrc) as Hi. split; [done|]. intros ->. by apply (Hnew pf).
Qed.

Lemma moved_now q i : ident s' q = Some i <-> (q = pf /\ i = (dest, pf_pagenum x)) \/ (q <> pf /\ ident s q = Some i).
Proof. rewrite moved_ident. case_decide; naive_solver. Qed.

Lemma moved_objs q : is_Some (mmobjs s' !! q) <-> is_Some (mmobjs s !! q).
Proof.
  cbn. destruct (decide (q = dest)) as [->|]; [rewrite lookup_insert_eq, Hyd; split; eauto|].
  rewrite lookup_insert_ne by done. destruct (decide (q = src)) as [->|]; [rewrite lookup_insert_eq, Hys; split; eauto|by rewrite lookup_insert_ne].
Qed.

Lemma moved_hash i c : pframe_hash s' !! i = Some c -> NoDup c /\
  forall q, q ∈ c <-> exists o n, ident s' q = Some (o, n) /\ Z.to_nat (hash_page o n) = i.
Proof.
  cbn [pframe_hash moved]. set (j := Z.to_nat (hash_page dest (pf_pagenum x))).
  destruct (ok_chain L g s dest (pf_pagenum x) Hs) as [c0 Hc0]. fold j in Hc0. rewrite list_lookup_fmap, Hc0. cbn [fmap option_fmap option_map default from_option id].
  intros Hc. apply list_lookup_insert_Some in Hc as [(<- & <- & _)|[Hij Hc]].
  - destruct (k_hash _ _ _ Hs j c0 Hc0) as [Hnd Hin]. split.
    + apply NoDup_cons. split; [rewrite elem_but; tauto|by apply NoDup_filter].
    + intros q. rewrite elem_of_cons, elem_but, Hin. setoid_rewrite moved_now. split.
      * intros [->|[(o & n & Hi & E) Hq]]; [exists dest, (pf_pagenum x)|exists o, n]; naive_solver.
      * intros (o & n & [[-> _]|[Hq Hi]] & E); [by left|right; eauto].
  - apply list_lookup_fmap_Some in Hc as (c1 & -> & Hc1). destruct (k_hash _ _ _ Hs i c1 Hc1) as [Hnd Hin].
    split; [by apply NoDup_filter|]. intros q. rewrite elem_but, Hin. setoid_rewrite moved_now. split.
    + intros [(o & n & Hi & E) Hq]. eauto 7.
    + intros (o & n & [[-> [= -> ->]]|[Hq Hi]] & E); [by destruct Hij|eauto].
Qed.

Lemma moved_res o y : mmobjs s' !! o = Some y -> NoDup (mmo_respages y) /\ mmo_nrespages y = Z.of_nat (length (mmo_respages y)) /\
  forall q, q ∈ mmo_respages y <-> exists n, ident s' q = Some (o, n).
Proof.
  destruct moved_was as [Hpf Hne]. cbn [mmobjs moved]. intros [[<- <-]|[Hod Hy]]%lookup_insert_Some; cbn.
  - destruct (k_res _ _ _ Hs dest yd Hyd) as (Hnd & -> & Hr). split_and!; [|lia|].
    + apply NoDup_cons. split; [|done]. rewrite Hr. intros [n Hn]. congruence.
    + intros q. rewrite elem_of_cons, Hr. setoid_rewrite moved_now. split.
      * intros [->|[n Hn]]; [eauto 6|]. exists n. right. split; [|done]. intros ->. congruence.
      * intros [n [[-> _]|[_ Hn]]]; eauto.
  - apply lookup_insert_Some in Hy as [[<- <-]|[Hos Hy]]; cbn.
    + destruct (k_res _ _ _ Hs src ys Hys) as (Hnd & -> & Hr). assert (pf ∈ mmo_respages ys) as Hin by (apply Hr; eauto).
      split_and!; [by apply NoDup_filter|rewrite (filter_ne_length pf (mmo_respages ys)) by done; lia|].
      intros q. rewrite elem_but, Hr. setoid_rewrite moved_now. split; [intros [[n Hn] Hq]; eauto|].
      intros [n [[_ [= -> _]]|[Hq Hn]]]; [done|eauto].
    + destruct (k_res _ _ _ Hs o y Hy) as (Hnd & Hn & Hr). split_and!; try done. intros q. rewrite Hr. setoid_rewrite moved_now.
      split; [intros [n Hi]; exists n; right; split; [|done]; intros ->; congruence|]. intros [n [[_ [= -> _]]|[_ Hi]]]; [done|eauto].
Qed.

Lemma moved_ok : ok s'.
Proof.
  destruct moved_was as [Hpf Hne].
  assert (forall q z, pframes s' !! q = Some z -> exists z0, pframes s !! q = Some z0 /\ pf_addr z = pf_addr z0 /\ pf_pincount z = pf_pincount z0) as Hfr.
  { intros q z. cbn. intros [[<- <-]|[_ Hz]]%lookup_insert_Some; eauto. }
  assert (forall q, is_Some (pframes s' !! q) <-> is_Some (pframes s !! q)) as Hdom.
  { intros q. cbn. destruct (decide (q = pf)) as [->|]; [rewrite lookup_insert_eq, Hx; split; eauto|by rewrite lookup_insert_ne]. }
  split; try (exact moved_hash || exact moved_res || exact (k_lists _ _ _ Hs) || exact (k_counts _ _ _ Hs) || exact (k_pt _ _ _ Hs)).
  - intros q. rewrite Hdom. apply Hs.
  - intros q z (z0 & Hz0 & _ & ->)%Hfr. by apply (k_pin _ _ _ Hs).
  - intros q Hq%Hdom. destruct (k_ident _ _ _ Hs q Hq) as (o & n & Hi & Ho & Hn). destruct (decide (q = pf)) as [->|].
    + exists dest, (pf_pagenum x). rewrite moved_now, moved_objs, Hyd. rewrite Hpf in Hi. injection Hi as <- <-. eauto.
    + exists o, n. rewrite moved_now, moved_objs. eauto.
  - intros q q' i [[-> ->]|[Hq Hi]]%moved_now [[-> Ei]|[Hq' Hi']]%moved_now; subst;
      [done|by destruct (Hnew q')|by destruct (Hnew q)|by eapply (k_unique _ _ _ Hs)].
  - cbn. rewrite length_insert, length_fmap. apply Hs.
  - intros o Ho%moved_objs. cbn [mmobjs moved].
    rewrite (areas_of_insert _ dest yd) by (try done; by rewrite lookup_insert_ne). rewrite (areas_of_insert _ src ys) by done. by apply (k_areas _ _ _ Hs).
  - intros q Hq%Hdom. by apply (k_fresh _ _ _ Hs).
  - intros q z (z0 & Hz0 & -> & _)%Hfr. exact (k_page _ _ _ Hs q z0 Hz0).
  - intros q q' z z' (z0 & Hz0 & -> & _)%Hfr (z1 & Hz1 & -> & _)%Hfr. exact (k_addr _ _ _ Hs q q' z0 z1 Hz0 Hz1).
Qed.
End Moved.

Lemma move_objects s src dest ys yd pf n : mmobjs s !! src = Some ys -> mmobjs s !! dest = Some yd -> src <> dest ->
  pf ∈ mmo_respages ys -> outlives src ys ->
  is_Some (pframe_hash s !! Z.to_nat (hash_page dest n)) ->
  (remove_olink src pf ;;
   set_obj src (fun y => mo_set_res (mmo_nrespages y - 1) (mmo_respages y) y) ;;
   mmo_put src ;;
   insert_hash dest n pf ;;
   set_obj dest (fun y => mo_set_res (mmo_nrespages y) (pf :: mmo_respages y) y) ;;
   set_obj dest (fun y => mo_set_res (mmo_nrespages y + 1) (mmo_respages y) y) ;;
   mmo_ref dest) s =
  Done tt (up_objs (fun m =>
    <[dest := Mmobj (mmo_refcount yd + mmo_counts dest) (mmo_nrespages yd + 1) (pf :: mmo_respages yd) (mmo_un yd) (mmo_shadowed yd)]>
      (<[src := Mmobj (mmo_refcount ys - mmo_counts src) (mmo_nrespages ys - 1) (but pf (mmo_respages ys)) (mmo_un ys) (mmo_shadowed ys)]> m))
    (up_hash (fun h => <[Z.to_nat (hash_page dest n) := pf :: default [] (h !! Z.to_nat (hash_page dest n))]> h) s)).
Proof.
  intros Hs Hd Hne Hpf Hn [c Hc]. unfold remove_olink. rewrite bind_assoc. krun (get_obj_run s src ys Hs).
  rewrite bool_decide_eq_true_2 by done. erewrite bind_done by (by eapply set_obj_run). cbn beta.
  erewrite bind_done by (eapply set_obj_run; apply lookup_insert_eq). cbn beta. rewrite objs_twice.
  erewrite bind_done; [|eapply put_law; [apply lookup_insert_eq|cbn; intros Hcs; specialize (Hn Hcs); destruct (counts_law src); lia]]. cbn beta. rewrite objs_twice.
  set (ys' := mo_set_ref _ _). unfold insert_hash at 1. rewrite !bind_assoc. erewrite bind_done by reflexivity. cbn beta zeta.
  rewrite bind_assoc. erewrite bind_done; [|unfold deref; cbn; rewrite Hc; reflexivity]. cbn beta. erewrite bind_done by reflexivity. cbn beta.
  erewrite bind_done; [|eapply set_obj_run; cbn; by rewrite lookup_insert_ne]. cbn beta.
  erewrite bind_done by (eapply set_obj_run; apply lookup_insert_eq). cbn beta. rewrite objs_twice.
  erewrite ref_law by apply lookup_insert_eq. rewrite objs_twice. destruct s. fields. cbn in Hc |- *. by rewrite Hc.
Qed.

(** [pframe_migrate] to an object without that page: the page keeps its frame
    and its contents and belongs to [dest]; it is found there by its new identity
    and no longer at [src], the counts and references of both follow, and every
    other page is where it was. *)
Theorem pframe_migrate_moves s pf x src dest ys yd : ok s -> pframes s !! pf = Some x -> pf_obj x = Some src -> pframe_is_busy x = false ->
  mmobjs s !! src = Some ys -> mmobjs s !! dest = Some yd -> outlives src ys ->
  (forall q, ident s q <> Some (dest, pf_pagenum x)) ->
  exists s', pframe_migrate pf dest s = Done tt s' /\ s' = moved pf x src dest ys yd s /\ ok s' /\
    ident s' pf = Some (dest, pf_pagenum x) /\ (forall q, ident s' q <> Some (src, pf_pagenum x)) /\
    (forall q, q <> pf -> ident s' q = ident s q).
Proof.
  intros Hs Hx Hsrc Hb Hys Hyd Hn Hnew. destruct (moved_was s pf x src dest ys Hx Hsrc Hys Hnew) as [Hpf Hne].
  exists (moved pf x src dest ys yd s). split_and!; [|done|by apply moved_ok| | |].
  - unfold pframe_migrate. krun (get_pf_run s pf x Hx). rewrite Hb. erewrite bind_done by reflexivity. cbn beta.
    destruct (get_resident_run L g s dest (pf_pagenum x) Hs) as (r & s1 & E & _ & Hr & Es1). krun E.
    destruct r as [q|]; [by destruct (Hnew q); apply Hr|]. subst s1. rewrite Hsrc. erewrite bind_done by reflexivity. cbn beta.
    krun (set_pf_run s pf x (pf_set_obj (Some dest)) Hx). set (s1 := up_frames _ s).
    destruct (ok_chain L g s src (pf_pagenum x) Hs) as [c Hc]. destruct (ok_chain L g s dest (pf_pagenum x) Hs) as [c' Hc'].
    assert (remove_hlink pf s1 = Done tt (up_hash (fmap (but pf)) s1)) as Eh.
    { pose proof (remove_hlink_run L g s pf src (pf_pagenum x) Hs Hpf) as E1. unfold remove_hlink in *. unfold bind, gets in *.
      cbn [pframe_hash up_frames s1]. by destruct (bool_decide _). }
    krun Eh. rewrite (move_objects _ src dest ys yd); try done.
    + apply (k_res _ _ _ Hs src ys Hys). eauto.
    + cbn. rewrite list_lookup_fmap, Hc'. eauto.
  - by rewrite moved_ident, decide_True.
  - intros q. rewrite moved_ident. case_decide as E; [intros [= ->]; done|]. intros Hq. destruct E. by eapply (k_unique _ _ _ Hs).
  - intros q Hq. by rewrite moved_ident, decide_False.
Qed.

(** [pframe_migrate] of a clean page to an object that has a page of the same
    number stops the kernel: it calls [pframe_clean], which asserts that the page is
    dirty. *)
Theorem pframe_migrate_clean_panics s pf x dest q : ok s -> pframes s !! pf = Some x -> pframe_is_busy x = false -> pframe_is_dirty x = false ->
  ident s q = Some (dest, pf_pagenum x) -> pframe_migrate pf dest s = Panic.
Proof.
  intros Hs Hx Hb Hd Hq. unfold pframe_migrate. krun (get_pf_run s pf x Hx). rewrite Hb. erewrite bind_done by reflexivity. cbn beta.
  destruct (get_resident_run L g s dest (pf_pagenum x) Hs) as (r & s1 & E & _ & Hr & Es1). krun E.
  apply Hr in Hq as ->. erewrite bind_done by reflexivity. cbn beta.
  assert (pframes s1 !! pf = Some x) as Hx1 by (subst s1; by case_decide).
  unfold bind. by rewrite (pframe_clean_clean s1 pf x Hx1 Hd).
Qed.
End Move.
End PFrameMove.
