(* ===== verification/PFrameOut.v ===== *)
(** * Page frames: synchronisation, pageout and shutdown

    [pframe_clean_all] ends when writing succeeds and never when it fails;
    the pageout daemon frees the least recently requested pages until its target
    is met; [pframe_shutdown] empties the cache.  These run while no page is busy:
    no other thread is reading or writing one. *)

From Stdlib Require Import ZArith Lia.
From stdpp Require Import base list gmap.
From S2P Require Import Prelude Page PageSpec PageTable PageTableSpec PageTableOps PageTableRange PFrame PFrameSpec PFrameOps.

Module PFrameOut.
Import Page PageSpec PageTable PageTableSpec PageTableOps PageTableRange PFrame PFrameSpec PFrameOps.
Local Open Scope Z_scope.

Section Out.
Context {W : Type} `{MmobjLaws W} `{Reclaim} (L : layout) (g : dirs).
Implicit Types s : pfst W.
Local Abbreviation ok := (pf_ok L g).

(** Whether the frame [pf] is dirty. *)
Definition dirty_at s (pf : Z) : bool := match pframes s !! pf with Some x => pframe_is_dirty x | None => false end.

(** No page is busy. *)
Definition idle s : Prop := forall pf x, pframes s !! pf = Some x -> pframe_is_busy x = false.

(** Every object has references besides those of its resident pages, if it counts
    them. *)
Definition held s : Prop := forall o y, mmobjs s !! o = Some y -> outlives o y.

(** Writing pages changes flags, wait queues, the run queue, page tables and the
    world. *)
Record wrote s s' : Prop := {
  wr_cores : same_cores (pframes s) (pframes s');
  wr_objs : mmobjs s' = mmobjs s;
  wr_alloc : alloc_list s' = alloc_list s;
  wr_pinned : pinned_list s' = pinned_list s;
  wr_npinned : npinned s' = npinned s;
  wr_pages : pt_pages (pf_pt s') = pt_pages (pf_pt s);
  wr_target : nfreepages_target s' = nfreepages_target s;
  wr_waitq : alloc_waitq s' = alloc_waitq s
}.

Lemma wrote_refl s : wrote s s.
Proof. by split. Qed.

Lemma wrote_trans s1 s2 s3 : wrote s1 s2 -> wrote s2 s3 -> wrote s1 s3.
Proof.
  intros [C1 O1 A1 P1 N1 G1 T1 Q1] [C2 O2 A2 P2 N2 G2 T2 Q2]. split; [|congruence..]. unfold same_cores in *. congruence.
Qed.

(** ** One page *)
Lemma clean_one s pf : ok s -> idle s -> pf ∈ alloc_list s -> dirty_at s pf = true ->
  exists o x r w s', pf_obj x = Some o /\ pframes s !! pf = Some x /\
    mmo_cleanpage o (pframe_set_busy (pframe_clear_dirty x)) (pf_world s) = Done r w /\ r <= 0 /\
    pframe_clean pf s = Done r s' /\ pf_world s' = w /\ ok s' /\ idle s' /\ wrote s s' /\
    dirty_at s' pf = (r <? 0) /\ forall q, q <> pf -> pframes s' !! q = pframes s !! q.
Proof.
  intros Hs Hi Ha Hd. unfold dirty_at in Hd. destruct (pframes s !! pf) as [x|] eqn:Hx; [|done].
  destruct (ok_frame _ _ _ _ _ Hs Hx) as (o & y & Ho & Hy & Hid & Hn). destruct (k_areas _ _ _ Hs o ltac:(eauto)) as (l & Hl & _).
  destruct (pframe_clean_run L g s pf x o l Hs Hx Ho Hl Hd (proj1 (k_pin _ _ _ Hs pf x Hx) Ha)) as (r & w & t & Ec & Hr & E & Ht & Hok).
  set (x' := after_io (mark (r <? 0)) (pframe_clear_dirty x)) in *. set (s' := io_state _ _ _ _ _) in E.
  assert (core x' = core x) as Hc by (unfold x'; by rewrite after_io_core).
  exists o, x, r, w, s'. split_and!; try done.
  - by apply io_ok with (x := x).
  - intros q z. cbn. intros [[<- <-]|[_ Hz]]%lookup_insert_Some; [apply after_io_flags|by apply (Hi q)].
  - split; try done; [by eapply same_cores_insert|apply Ht].
  - unfold dirty_at. cbn. rewrite lookup_insert_eq. unfold x'. by rewrite after_io_dirty, clear_dirty_bit, orb_false_r.
  - intros q Hq. cbn. by rewrite lookup_insert_ne.
Qed.

(** ** What is written *)

(** The dirty frames of a list, in its order. *)
Definition dirty_frames s (l : list Z) : list pframe :=
  omap (fun pf => match pframes s !! pf with Some x => if pframe_is_dirty x then Some x else None | None => None end) l.

(** The pages of [l] are written to their objects one after the other: what that
    makes of the world. *)
Inductive written : list pframe -> W -> W -> Prop :=
| written_none w : written [] w w
| written_page x o l w w1 w2 : pf_obj x = Some o ->
    mmo_cleanpage o (pframe_set_busy (pframe_clear_dirty x)) w = Done 0 w1 -> written l w1 w2 -> written (x :: l) w w2.

Lemma written_app l l' w w1 w2 : written l w w1 -> written l' w1 w2 -> written (l ++ l') w w2.
Proof. induction 1 as [|x o l w w0 w1' Ho Ec _ IH]; [done|]. intros Hl'. cbn [app]. eapply written_page; eauto. Qed.

Lemma dirty_frames_same s s' l : (forall q, q ∈ l -> pframes s' !! q = pframes s !! q) -> dirty_frames s' l = dirty_frames s l.
Proof.
  intros Hq. induction l as [|q l IH]; [done|]. unfold dirty_frames in *. cbn [omap list_omap].
  rewrite (Hq q) by left. rewrite IH; [done|]. intros k Hk. apply Hq. by right.
Qed.

Lemma dirty_frames_none s l : (forall q, q ∈ l -> dirty_at s q = false) -> dirty_frames s l = [].
Proof.
  intros Hq. induction l as [|q l IH]; [done|]. unfold dirty_frames in *. cbn [omap list_omap].
  pose proof (Hq q ltac:(left)) as Hd. unfold dirty_at in Hd. destruct (pframes s !! q) as [x|]; rewrite ?Hd; apply IH; intros k Hk; apply Hq; by right.
Qed.

Lemma dirty_frames_app s l1 l2 : dirty_frames s (l1 ++ l2) = dirty_frames s l1 ++ dirty_frames s l2.
Proof. apply omap_app. Qed.

(** The first dirty page of the list has been cleaned. *)
Lemma dirty_frames_step s s' l1 pf l2 x : NoDup (l1 ++ pf :: l2) -> (forall q, q ∈ l1 -> dirty_at s q = false) ->
  pframes s !! pf = Some x -> pframe_is_dirty x = true -> dirty_at s' pf = false -> (forall q, q <> pf -> pframes s' !! q = pframes s !! q) ->
  dirty_frames s (l1 ++ pf :: l2) = x :: dirty_frames s' (l1 ++ pf :: l2).
Proof.
  intros Hnd Hl1 Hx Hd Hd' Hq. apply NoDup_app in Hnd as (_ & Hn1 & [Hn2 _]%NoDup_cons).
  rewrite !dirty_frames_app. change (pf :: l2) with ([pf] ++ l2). rewrite !dirty_frames_app.
  assert (forall l, pf ∉ l -> dirty_frames s' l = dirty_frames s l) as Hsame by (intros l Hl; apply dirty_frames_same; intros q Hin; apply Hq; by intros ->).
  rewrite (dirty_frames_none s' [pf]) by (by intros q ->%list_elem_of_singleton).
  rewrite (Hsame l1) by (intros Hin; apply (Hn1 pf Hin); left). rewrite (Hsame l2) by done.
  rewrite (dirty_frames_none s l1) by done. unfold dirty_frames at 1. cbn [omap list_omap]. by rewrite Hx, Hd.
Qed.

(** ** [pframe_clean_all] *)
Lemma clean_pass_run s l : ok s -> idle s -> (forall pf, pf ∈ l -> pf ∈ alloc_list s) ->
  ((forall pf, pf ∈ l -> dirty_at s pf = false) /\ clean_pass l s = Done false s) \/
  (exists l1 pf l2, l = l1 ++ pf :: l2 /\ (forall q, q ∈ l1 -> dirty_at s q = false) /\ dirty_at s pf = true /\
     clean_pass l s = (pframe_clean pf ;; ret true) s).
Proof.
  intros Hs Hi. induction l as [|pf l IH]; intros Hl; cbn [clean_pass].
  { left. split; [|done]. by intros ? ?%elem_of_nil. }
  assert (pf ∈ alloc_list s) as Ha by (apply Hl; left).
  destruct (proj1 (k_dom _ _ _ Hs pf)) as [x Hx]; [apply elem_of_app; by left|]. krun (get_pf_run s pf x Hx).
  destruct (ok_frame _ _ _ _ _ Hs Hx) as (o & _ & Ho & _). unfold pframe_is_pinned, pframe_is_free.
  rewrite (proj1 (k_pin _ _ _ Hs pf x Hx) Ha), bool_decide_eq_false_2 by congruence. do 2 (erewrite bind_done by reflexivity; cbn beta).
  rewrite (Hi pf x Hx). destruct (pframe_is_dirty x) eqn:Hd.
  - right. exists [], pf, l. split; [done|]. split; [by intros ? ?%elem_of_nil|]. split; [|done]. unfold dirty_at. by rewrite Hx.
  - assert (dirty_at s pf = false) as Hdp by (unfold dirty_at; by rewrite Hx).
    destruct IH as [[Hcl E]|(l1 & q & l2 & -> & Hl1 & Hdq & E)]; [intros q Hq; apply Hl; by right| |].
    + left. split; [|done]. by intros q [->|Hq%Hcl]%elem_of_cons.
    + right. exists (pf :: l1), q, l2. split; [done|]. split; [by intros k [->|Hk%Hl1]%elem_of_cons|done].
Qed.

Definition dirty_in s (l : list Z) : nat := length (filter (fun pf => dirty_at s pf = true) l).
Definition ndirty s : nat := dirty_in s (alloc_list s).

Lemma dirty_in_less s s' l pf : NoDup l -> pf ∈ l -> dirty_at s pf = true -> dirty_at s' pf = false ->
  (forall q, q <> pf -> dirty_at s' q = dirty_at s q) -> (dirty_in s' l < dirty_in s l)%nat.
Proof.
  intros Hnd Ha Hd Hd' Hq. unfold dirty_in.
  destruct (list_elem_of_split _ _ Ha) as (l1 & l2 & E). rewrite E in Hnd. rewrite E, !filter_app.
  rewrite !filter_cons, decide_False, decide_True by congruence. rewrite !length_app. cbn.
  apply NoDup_app in Hnd as (_ & Hn1 & Hn2). apply NoDup_cons in Hn2 as [Hn2 _].
  assert (forall l : list Z, pf ∉ l -> filter (fun q => dirty_at s' q = true) l = filter (fun q => dirty_at s q = true) l) as Hf.
  { induction l0 as [|q l0 IH]; [done|]. intros [Hpq Hl]%not_elem_of_cons. rewrite !filter_cons, IH by done. specialize (Hq q (not_eq_sym Hpq)).
    destruct (decide (dirty_at s' q = true)), (decide (dirty_at s q = true)); congruence. }
  rewrite !Hf; [lia|done|]. intros Hin. apply (Hn1 pf Hin). left.
Qed.

Lemma dirty_same s s' q : pframes s' !! q = pframes s !! q -> dirty_at s' q = dirty_at s q.
Proof. unfold dirty_at. by intros ->. Qed.

(** Writing a page always succeeds, or always fails. *)
Definition writes_succeed : Prop := forall o x (w : W), pf_obj x = Some o -> exists w', mmo_cleanpage o x w = Done 0 w'.
Definition writes_fail : Prop := forall o x (w : W), pf_obj x = Some o -> exists r w', mmo_cleanpage o x w = Done r w' /\ r < 0.

(** [pframe_clean_all] ends and leaves every page of the allocated list clean and
    where it was, when writing succeeds: one pass for each dirty page and one more
    are enough. *)
Lemma pframe_clean_all_ends s fuel : ok s -> idle s -> writes_succeed -> (ndirty s < fuel)%nat ->
  exists s', pframe_clean_all fuel s = Done tt s' /\ ok s' /\ idle s' /\ wrote s s' /\
    written (dirty_frames s (alloc_list s)) (pf_world s) (pf_world s') /\
    forall pf, pf ∈ alloc_list s' -> dirty_at s' pf = false.
Proof.
  revert s. induction fuel as [|fuel IH]; intros s Hs Hi Hw Hf; [lia|]. cbn [pframe_clean_all]. erewrite bind_done by reflexivity. cbn beta.
  destruct (clean_pass_run s (alloc_list s) Hs Hi (fun _ Hin => Hin)) as [[Hcl E]|(l1 & pf & l2 & El & Hl1 & Hd & E)].
  { krun E. exists s. rewrite (dirty_frames_none s) by done. split_and!; try done; first [apply wrote_refl|constructor]. }
  assert (pf ∈ alloc_list s) as Ha by (rewrite El; apply elem_of_app; right; left).
  destruct (clean_one s pf Hs Hi Ha Hd) as (o & x & r & w & s1 & Hxo & Hx & Ew & _ & Ec & Hw1 & Hs1 & Hi1 & Hwr & Hd1 & Hq).
  destruct (Hw o (pframe_set_busy (pframe_clear_dirty x)) (pf_world s) Hxo) as [w' Ew']. rewrite Ew in Ew'. injection Ew' as -> ->.
  unfold bind at 1. rewrite E. krun Ec. unfold ret. destruct (IH s1 Hs1 Hi1 Hw) as (s' & E' & Hs' & Hi' & Hwr' & Hwt & Hcl).
  { pose proof (dirty_in_less s s1 _ pf (alloc_nodup L g s Hs) Ha Hd Hd1 (fun q Hne => dirty_same _ _ _ (Hq q Hne))).
    unfold ndirty in *. rewrite (wr_alloc _ _ Hwr). lia. }
  exists s'. split_and!; try done; [by eapply wrote_trans|]. pose proof (alloc_nodup L g s Hs) as Hnd. rewrite El in Hnd |- *.
  rewrite (dirty_frames_step s s1 l1 pf l2 x); try done; [|unfold dirty_at in Hd; by rewrite Hx in Hd].
  eapply written_page; [done|exact Ew|]. rewrite <- Hw1. rewrite (wr_alloc _ _ Hwr), El in Hwt. exact Hwt.
Qed.

(** [pframe_clean_all] never ends when there is a dirty page and writing
    fails: it takes no notice of the result of [pframe_clean], which leaves the page
    dirty, and starts over. *)
Theorem pframe_clean_all_never s fuel : ok s -> idle s -> writes_fail -> (exists pf, pf ∈ alloc_list s /\ dirty_at s pf = true) ->
  pframe_clean_all fuel s = Blocked.
Proof.
  revert s. induction fuel as [|fuel IH]; intros s Hs Hi Hw (pf0 & Ha0 & Hd0); [done|]. cbn [pframe_clean_all]. erewrite bind_done by reflexivity. cbn beta.
  destruct (clean_pass_run s (alloc_list s) Hs Hi (fun _ Hin => Hin)) as [[Hcl _]|(l1 & pf & l2 & El & _ & Hd & E)]; [by rewrite Hcl in Hd0|].
  assert (pf ∈ alloc_list s) as Ha by (rewrite El; apply elem_of_app; right; left).
  destruct (clean_one s pf Hs Hi Ha Hd) as (o & x & r & w & s1 & Hxo & Hx & Ew & _ & Ec & _ & Hs1 & Hi1 & Hwr & Hd1 & Hq).
  destruct (Hw o (pframe_set_busy (pframe_clear_dirty x)) (pf_world s) Hxo) as (r' & w' & Ew' & Hr). rewrite Ew in Ew'. injection Ew' as <- <-.
  unfold bind at 1. rewrite E. krun Ec. unfold ret. apply IH; try done. exists pf. rewrite (wr_alloc _ _ Hwr), Hd1. split; [done|]. by apply Z.ltb_lt.
Qed.

(** ** The pageout daemon *)
Definition free_count s : Z := page_freecount (pt_pages (pf_pt s)).

Lemma free_count_run s : PFrame.on_pages page_free_count s = Done (free_count s) s.
Proof. by destruct s as [? ? ? ? ? ? ? ? ? ? ? ? ? [] ?]. Qed.

(** A page is gone from the cache. *)
Record evicted s (pf : Z) s' : Prop := {
  ev_ok : ok s';
  ev_idle : idle s';
  ev_held : held s';
  ev_alloc : alloc_list s' = filter (fun q => q <> pf) (alloc_list s);
  ev_pinned : pinned_list s' = pinned_list s;
  ev_frame : pframes s' !! pf = None;
  ev_frames q : q <> pf -> pframes s' !! q = pframes s !! q;
  ev_objs q : is_Some (mmobjs s' !! q) <-> is_Some (mmobjs s !! q);
  ev_count : free_count s' = u32 (free_count s + 1);
  ev_target : nfreepages_target s' = nfreepages_target s;
  ev_waitq : alloc_waitq s' = alloc_waitq s
}.

Lemma free_one s pf : ok s -> idle s -> held s -> pf ∈ alloc_list s ->
  exists s', pframe_free pf s = Done tt s' /\ evicted s pf s' /\ pf_world s' = pf_world s.
Proof.
  intros Hs Hi Hh Ha. destruct (proj1 (k_dom _ _ _ Hs pf)) as [x Hx]; [apply elem_of_app; by left|].
  destruct (ok_frame _ _ _ _ _ Hs Hx) as (o & y & Ho & Hy & Hid & Hn). destruct (k_areas _ _ _ Hs o ltac:(eauto)) as (l & Hl & _).
  destruct (pframe_free_run L g s pf x o y l Hs Hx Ho Hy Hl (proj1 (k_pin _ _ _ Hs pf x Hx) Ha) (Hi pf x Hx) (Hh o y Hy)) as (t & ps & E & Ht & Hg & Hok).
  eexists. split; [exact E|]. split; [|reflexivity]. split; try done.
  - intros q z. cbn. intros [_ Hz]%lookup_delete_Some. by apply (Hi q).
  - intros q z. cbn. intros [[<- <-]|[_ Hz]]%lookup_insert_Some; [|by apply (Hh q)]. cbn. intros Hc. pose proof (Hh o y Hy Hc). cbn. destruct (counts_law o); lia.
  - apply lookup_delete_eq.
  - intros q Hq. by apply lookup_delete_ne.
  - intros q. cbn. destruct (decide (q = o)) as [->|]; [rewrite lookup_insert_eq, Hy; split; eauto|by rewrite lookup_insert_ne].
  - unfold free_count. cbn. by rewrite (gv_count _ _ _ _ Hg).
Qed.

Lemma filter_head (pf : Z) l : NoDup (pf :: l) -> filter (fun q => q <> pf) (pf :: l) = l.
Proof. intros [Hn _]%NoDup_cons. rewrite filter_cons_False by naive_solver. by apply filter_ne_id. Qed.

(** While the target is not met the daemon frees the least recently requested
    page, after cleaning it if it is dirty. *)
Lemma pageout_step s pf l fuel : ok s -> idle s -> held s -> writes_succeed -> alloc_list s = pf :: l -> free_count s < nfreepages_target s ->
  exists f s', pageout_loop (S (S fuel)) s = pageout_loop f s' /\ (fuel <= f)%nat /\ evicted s pf s' /\
    written (dirty_frames s [pf]) (pf_world s) (pf_world s').
Proof.
  intros Hs Hi Hh Hw Hl Ht. assert (pf ∈ alloc_list s) as Ha by (rewrite Hl; left).
  assert (forall s0 f, alloc_list s0 = pf :: l -> free_count s0 = free_count s -> nfreepages_target s0 = nfreepages_target s ->
    ok s0 -> idle s0 -> pageout_loop (S f) s0 = ((if dirty_at s0 pf then pframe_clean pf ;; ret tt else pframe_free pf) ;; pageout_loop f) s0) as Hstep.
  { intros s0 f El Ec Et Hs0 Hi0. cbn [pageout_loop]. krun (free_count_run s0).
    do 2 (erewrite bind_done by reflexivity; cbn beta). rewrite El, Ec, Et.
    rewrite (proj2 (Z.leb_gt _ _) Ht). destruct (proj1 (k_dom _ _ _ Hs0 pf)) as [x Hx]; [rewrite El; apply elem_of_app; left; left|].
    krun (get_pf_run s0 pf x Hx). rewrite (Hi0 pf x Hx). unfold dirty_at. by rewrite Hx. }
  destruct (dirty_at s pf) eqn:Hd.
  - destruct (clean_one s pf Hs Hi Ha Hd) as (o & x & r & w & s1 & Hxo & Hx & Ew & _ & Ec & Hw1 & Hs1 & Hi1 & Hwr & Hd1 & Hq).
    destruct (Hw o (pframe_set_busy (pframe_clear_dirty x)) (pf_world s) Hxo) as [w' Ew']. rewrite Ew in Ew'. injection Ew' as -> ->.
    assert (held s1) as Hh1 by (intros q z; rewrite (wr_objs _ _ Hwr); apply Hh).
    destruct (free_one s1 pf Hs1 Hi1 Hh1 ltac:(by rewrite (wr_alloc _ _ Hwr))) as (s' & Ef & He & Hw2). exists fuel, s'. split; [|split; [lia|split]].
    + rewrite Hstep, Hd by done. rewrite bind_assoc. krun Ec. erewrite bind_done by reflexivity. cbn beta.
      rewrite (Hstep s1), Hd1; [by krun Ef|by rewrite (wr_alloc _ _ Hwr)|unfold free_count; by rewrite (wr_pages _ _ Hwr)|apply Hwr|done|done].
    + destruct He as [E1 E2 E3 E4 E5 E6 E7 E8 E9 E10 E11]. destruct Hwr as [C1 C2 C3 C4 C5 C6 C7 C8]. split; try done.
      * by rewrite E4, C3.
      * by rewrite E5.
      * intros q Hne. by rewrite E7, Hq.
      * intros q. by rewrite E8, C2.
      * rewrite E9. unfold free_count. by rewrite C6.
      * by rewrite E10.
      * by rewrite E11.
    + unfold dirty_frames. cbn [omap list_omap]. unfold dirty_at in Hd. rewrite Hx in Hd |- *. rewrite Hd, Hw2, Hw1.
      eapply written_page; [done|exact Ew|constructor].
  - destruct (free_one s pf Hs Hi Hh Ha) as (s' & Ef & He & Hw1). exists (S fuel), s'. split; [|split; [lia|split; [done|]]].
    + rewrite Hstep, Hd by done. by krun Ef.
    + rewrite (dirty_frames_none s), Hw1 by (by intros q ->%list_elem_of_singleton). constructor.
Qed.

(** How many pages the daemon has to free. *)
Definition quota s : nat := Nat.min (length (alloc_list s)) (Z.to_nat (nfreepages_target s - free_count s)).

Lemma take_frames s pf l s' s'' k : evicted s pf s' -> pf ∉ l -> (k <= length l)%nat ->
  (forall q, pframes s'' !! q = if decide (q ∈ take k l) then None else pframes s' !! q) ->
  forall q, pframes s'' !! q = if decide (q ∈ take (S k) (pf :: l)) then None else pframes s !! q.
Proof.
  intros He Hn Hk Hf q. rewrite Hf. cbn [take]. destruct (decide (q = pf)) as [->|Hq].
  - rewrite (decide_True (P := pf ∈ pf :: take k l)) by left. case_decide; [done|]. apply (ev_frame _ _ _ He).
  - rewrite (ev_frames _ _ _ He q Hq). apply decide_ext. rewrite elem_of_cons. naive_solver.
Qed.

(** One run of the loop, and what it leaves. *)
Record paged_out s s' : Prop := {
  pd_ok : ok s';
  pd_idle : idle s';
  pd_held : held s';
  pd_alloc : alloc_list s' = drop (quota s) (alloc_list s);
  pd_frames pf : pframes s' !! pf = if decide (pf ∈ take (quota s) (alloc_list s)) then None else pframes s !! pf;
  pd_free : free_count s' = free_count s + Z.of_nat (quota s);
  pd_waitq : alloc_waitq s' = alloc_waitq s;
  pd_written : written (dirty_frames s (take (quota s) (alloc_list s))) (pf_world s) (pf_world s')
}.

(** Two rounds for each page and one more are enough. *)
Lemma pageout_loop_run s fuel : ok s -> idle s -> held s -> writes_succeed ->
  0 <= free_count s -> free_count s + Z.of_nat (length (alloc_list s)) < 2 ^ 32 -> (2 * length (alloc_list s) < fuel)%nat ->
  exists s', pageout_loop fuel s = Done tt s' /\ paged_out s s'.
Proof.
  intros Hs Hi Hh Hw Hc0. remember (alloc_list s) as l eqn:Hl. symmetry in Hl. revert fuel s Hs Hi Hh Hc0 Hl.
  assert (forall fuel s, ok s -> idle s -> held s -> (0 < fuel)%nat -> alloc_list s = [] \/ nfreepages_target s <= free_count s ->
    exists s', pageout_loop fuel s = Done tt s' /\ paged_out s s') as Hstop.
  { intros [|fuel] s Hs Hi Hh Hf Hor; [lia|]. exists s. assert (quota s = 0%nat) as Hq by (unfold quota; destruct Hor as [->|]; cbn; lia). split.
    - cbn [pageout_loop]. krun (free_count_run s). do 2 (erewrite bind_done by reflexivity; cbn beta).
      destruct (alloc_list s); [done|]. destruct Hor as [|Hle]; [done|]. by rewrite (proj2 (Z.leb_le _ _) Hle).
    - split; rewrite ?Hq; try done; [lia|constructor]. }
  induction l as [|pf l IH]; intros fuel s Hs Hi Hh Hc0 Hl Hc Hf; [apply Hstop; auto; lia|].
  destruct (Z.le_gt_cases (nfreepages_target s) (free_count s)) as [Ht|Ht]; [apply Hstop; auto; lia|].
  destruct fuel as [|[|fuel]]; cbn in Hf; [lia..|].
  destruct (pageout_step s pf l fuel Hs Hi Hh Hw Hl Ht) as (f & s1 & E & Hle & He & Hwt). rewrite E.
  pose proof (alloc_nodup L g s Hs) as Hnd. rewrite Hl in Hnd.
  assert (alloc_list s1 = l) as Hl1 by (rewrite (ev_alloc _ _ _ He), Hl; by apply filter_head).
  assert (free_count s1 = free_count s + 1) as Ec by (rewrite (ev_count _ _ _ He); apply u32_small; cbn in Hc; lia).
  cbn [length] in Hc.
  destruct (IH f s1 (ev_ok _ _ _ He) (ev_idle _ _ _ He) (ev_held _ _ _ He) ltac:(lia) Hl1 ltac:(lia) ltac:(lia)) as (s' & E' & Hp).
  exists s'. split; [done|].
  assert (quota s = S (quota s1)) as Hq by (unfold quota; rewrite Hl, Hl1, Ec, (ev_target _ _ _ He); cbn [length]; lia).
  destruct Hp as [P1 P2 P3 P4 P5 P6 P7 P8]. split; try done; rewrite ?Hq, ?Hl.
  - by rewrite P4, Hl1.
  - rewrite Hl1 in P5. apply (take_frames s pf l s1 s'); [done|by apply NoDup_cons in Hnd as [? _]| |done]. unfold quota. rewrite Hl1. lia.
  - rewrite P6, Ec. lia.
  - by rewrite P7, (ev_waitq _ _ _ He).
  - cbn [take]. change (pf :: take (quota s1) l) with ([pf] ++ take (quota s1) l). rewrite dirty_frames_app. eapply written_app; [exact Hwt|].
    rewrite Hl1 in P8. rewrite (dirty_frames_same s1 s) by (intros q Hq'; symmetry; apply (ev_frames _ _ _ He); intros ->;
      apply NoDup_cons in Hnd as [Hni _]; apply Hni; rewrite <- (take_drop (quota s1) l); apply elem_of_app; by left). exact P8.
Qed.

(** C12: a round of the pageout daemon returns, when writing succeeds, no page is
    busy and the objects outlive their pages.  It frees the least recently
    requested pages, from the head of the allocated list: as many as the target
    asks for, or all there are.  Of these it has written exactly the dirty ones,
    each once and in that order; nothing else is written.  The other frames are
    untouched and keep their order, and the threads that waited for memory run
    again. *)
Theorem pageoutd_round_spec s fuel : ok s -> idle s -> held s -> writes_succeed ->
  0 <= free_count s -> free_count s + Z.of_nat (length (alloc_list s)) < 2 ^ 32 -> (2 * length (alloc_list s) < fuel)%nat ->
  exists s', pageoutd_round fuel s = Done tt s' /\ ok s' /\
    alloc_list s' = drop (quota s) (alloc_list s) /\ free_count s' = free_count s + Z.of_nat (quota s) /\
    (forall pf, pframes s' !! pf = if decide (pf ∈ take (quota s) (alloc_list s)) then None else pframes s !! pf) /\
    written (dirty_frames s (take (quota s) (alloc_list s))) (pf_world s) (pf_world s') /\
    alloc_waitq s' = [] /\ forall t, t ∈ alloc_waitq s -> t ∈ pf_runq s'.
Proof.
  intros Hs Hi Hh Hw Hc0 Hc Hf. destruct (pageout_loop_run s fuel Hs Hi Hh Hw Hc0 Hc Hf) as (s1 & E & [P1 P2 P3 P4 P5 P6 P7 P8]).
  unfold pageoutd_round. erewrite bind_done by reflexivity. cbn beta. rewrite (proj1 (k_counts _ _ _ Hs)), (proj2 (Z.leb_le _ _)) by lia.
  erewrite bind_done by reflexivity. cbn beta. krun E. do 2 (erewrite bind_done by reflexivity; cbn beta).
  eexists. split; [reflexivity|]. split_and!; try done.
  - by apply (ok_same_cores L g s1); try apply P1.
  - intros t Ht. cbn. rewrite P7. apply elem_of_app. by right.
Qed.

(** ** Shutting down *)
Lemma free_each_run l : forall s, ok s -> idle s -> held s -> alloc_list s = l -> (forall pf, pf ∈ l -> dirty_at s pf = false) ->
  exists s', free_each l s = Done tt s' /\ ok s' /\ alloc_list s' = [] /\ pinned_list s' = pinned_list s /\ pf_world s' = pf_world s /\
    (forall q, is_Some (mmobjs s' !! q) <-> is_Some (mmobjs s !! q)).
Proof.
  induction l as [|pf l IH]; intros s Hs Hi Hh Hl Hcl; cbn [free_each]; [by exists s|].
  pose proof (alloc_nodup L g s Hs) as Hnd. rewrite Hl in Hnd. assert (pf ∈ alloc_list s) as Ha by (rewrite Hl; left).
  destruct (free_one s pf Hs Hi Hh Ha) as (s1 & Ef & He & Hw1). destruct (proj1 (k_dom _ _ _ Hs pf)) as [x Hx]; [apply elem_of_app; by left|].
  krun (get_pf_run s pf x Hx). pose proof (Hcl pf ltac:(left)) as Hd. unfold dirty_at in Hd. rewrite Hx in Hd. unfold pframe_is_pinned.
  rewrite Hd, (Hi pf x Hx), (proj1 (k_pin _ _ _ Hs pf x Hx) Ha). do 3 (erewrite bind_done by reflexivity; cbn beta). krun Ef.
  destruct (IH s1) as (s' & E' & Hs' & Ha' & Hp' & Hw' & Ho'); try apply He.
  - rewrite (ev_alloc _ _ _ He), Hl. by apply filter_head.
  - intros q Hq. rewrite (dirty_same s s1); [apply Hcl; by right|]. apply (ev_frames _ _ _ He). intros ->. by apply NoDup_cons in Hnd as [? _].
  - exists s'. split_and!; try done; [by rewrite Hp'; apply He|congruence|]. intros q. by rewrite Ho', (ev_objs _ _ _ He).
Qed.

(** C13: once the pageout daemon is gone, with writing that succeeds, no page busy or
    pinned and objects that outlive their pages, [pframe_shutdown] returns: it
    has written every dirty page once, in the order of the allocated list, and
    nothing else; no frame is left, no chain of the hash table holds one and
    every object has lost its resident pages. *)
Theorem shutdown_empties s fuel : ok s -> idle s -> held s -> writes_succeed -> pinned_list s = [] -> (ndirty s < fuel)%nat ->
  exists s', shutdown_pages fuel s = Done tt s' /\ written (dirty_frames s (alloc_list s)) (pf_world s) (pf_world s') /\ pframes s' = ∅ /\ Forall (fun c => c = []) (pframe_hash s') /\
    (forall o, is_Some (mmobjs s' !! o) <-> is_Some (mmobjs s !! o)) /\
    forall o y, mmobjs s' !! o = Some y -> mmo_nrespages y = 0 /\ mmo_respages y = [].
Proof.
  intros Hs Hi Hh Hw Hp Hf. unfold shutdown_pages. erewrite bind_done by reflexivity. cbn beta.
  rewrite (proj2 (k_counts _ _ _ Hs)), Hp. erewrite bind_done by reflexivity. cbn beta.
  destruct (pframe_clean_all_ends s fuel Hs Hi Hw Hf) as (s1 & E1 & Hs1 & Hi1 & Hwr & Hwt & Hcl). krun E1. erewrite bind_done by reflexivity. cbn beta.
  destruct (free_each_run (alloc_list s1) s1) as (s2 & E2 & Hs2 & Ha2 & Hp2 & Hw2 & Ho2); try done.
  { intros o y. rewrite (wr_objs _ _ Hwr). apply Hh. }
  rewrite (wr_pinned _ _ Hwr), Hp in Hp2. exists s2. split; [done|].
  assert (forall pf, pframes s2 !! pf = None) as Hno.
  { intros pf. apply eq_None_not_Some. rewrite <- (k_dom _ _ _ Hs2 pf), Ha2, Hp2. by intros ?%elem_of_nil. }
  assert (forall pf i, ident s2 pf <> Some i) as Hid by (intros pf i; unfold ident; by rewrite Hno).
  split; [by rewrite Hw2|]. split_and!.
  - by apply map_eq.
  - apply Forall_lookup. intros i c Hc. destruct (k_hash _ _ _ Hs2 i c Hc) as [_ Hin]. destruct c as [|q c]; [done|].
    destruct (proj1 (Hin q) ltac:(left)) as (? & ? & ?%Hid & _). done.
  - intros o. by rewrite Ho2, (wr_objs _ _ Hwr).
  - intros o y Hy. destruct (k_res _ _ _ Hs2 o y Hy) as (_ & -> & Hin). destruct (mmo_respages y) as [|q c]; [done|].
    destruct (proj1 (Hin q) ltac:(left)) as (? & ?%Hid). done.
Qed.
End Out.
End PFrameOut.
