(* ===== verification/BlockPages.v ===== *)
(** * The pages of block devices ([drivers/blockdev.c])

    A block device is a memory object, [bd_mmobj] at offset 8 of its structure; page
    [n] of it is block [n] of the device.  The driver below is the interface
    [BlockOps]; with its laws [BlockLaws] the functions of [blockdev.c] are an
    instance of the interface of memory objects.  [blockdev_flush_all] writes and
    frees the resident pages of one device: afterwards the blocks hold what the
    pages held. *)

From Stdlib Require Import ZArith Lia.
From stdpp Require Import base list gmap.
From S2P Require Import Prelude Page PageSpec PageTable PageTableSpec PageTableOps PFrame PFrameSpec PFrameOps PFrameOut.

Module BlockPages.
Import Page PageSpec PageTable PageTableSpec PageTableOps PFrame PFrameSpec PFrameOps PFrameOut.
Local Open Scope Z_scope.

(** [read_block(bdev, buf, loc, count)] and [write_block] *)
Class BlockOps (W : Type) := {
  read_block : Z -> Z -> Z -> Z -> kern W Z;
  write_block : Z -> Z -> Z -> Z -> kern W Z
}.

Section Dev.
Context {W : Type} `{BlockOps W}.
Local Abbreviation K := (kern (pfst W)).

Definition mmobj_of (dev : Z) : Z := dev + 8.
Definition container_of (o : Z) : Z := o - 8.

Definition blockdev_ref (o : Z) : K unit := ret tt.
Definition blockdev_put (o : Z) : K unit := ret tt.
Definition blockdev_lookuppage (o pagenum forwrite : Z) : K (Z * option Z) := pframe_get o pagenum None.

Definition blockdev_fillpage (o : Z) (pf : pframe) : kern W Z :=
  kassert (negb (pframe_is_free pf)) ;;
  let* obj := deref (pf_obj pf) in
  read_block (container_of obj) (pf_addr pf) (pf_pagenum pf) 1.

Definition blockdev_dirtypage (o : Z) (pf : pframe) : kern W Z := ret 0.

Definition blockdev_cleanpage (o : Z) (pf : pframe) : kern W Z :=
  kassert (negb (pframe_is_free pf)) ;;
  let* obj := deref (pf_obj pf) in
  write_block (container_of obj) (pf_addr pf) (pf_pagenum pf) 1.

#[export] Instance blockdev_mmobj_ops : MmobjOps W := {|
  mmo_ref := blockdev_ref;
  mmo_put := blockdev_put;
  mmo_lookuppage := blockdev_lookuppage;
  mmo_fillpage := blockdev_fillpage;
  mmo_dirtypage := blockdev_dirtypage;
  mmo_cleanpage := blockdev_cleanpage
|}.

(** ** [blockdev_flush_all] *)
Context `{Reclaim}.

(** One pass over the resident pages: true is [goto clean]. *)
Fixpoint flush_pass (l : list Z) : K bool :=
  match l with
  | [] => ret false
  | pf :: l =>
      let* x := get_pf pf in
      if pframe_is_dirty x then pframe_clean pf ;; ret true
      else flush_pass l
  end.

(** One unit of fuel for each pass. *)
Fixpoint flush_clean (fuel : nat) (o : Z) : K unit :=
  match fuel with
  | O => blocked
  | S fuel =>
      let* y := get_obj o in
      let* again := flush_pass (mmo_respages y) in
      if again : bool then flush_clean fuel o else ret tt
  end.

Fixpoint flush_free (l : list Z) : K unit :=
  match l with
  | [] => ret tt
  | pf :: l =>
      let* x := get_pf pf in
      kassert (negb (pframe_is_dirty x)) ;;
      pframe_free pf ;;
      flush_free l
  end.

Definition blockdev_flush_all (fuel : nat) (dev : Z) : K unit :=
  let o := mmobj_of dev in
  flush_clean fuel o ;;
  let* y := get_obj o in
  flush_free (mmo_respages y).
End Dev.

(** What drivers promise: a read fills the page with the block, a write fills the
    block with the page, or there is an error. *)
Class BlockLaws (W C : Type) `{BlockOps W} := {
  content : W -> Z -> C;
  stored : W -> Z -> Z -> C;
  read_law dev a n w : (exists r w', read_block dev a n 1 w = Done r w' /\ r < 0) \/
    exists w', read_block dev a n 1 w = Done 0 w' /\ content w' a = stored w dev n /\
      (forall b, b <> a -> content w' b = content w b) /\ forall d m, stored w' d m = stored w d m;
  write_law dev a n w : (exists r w', write_block dev a n 1 w = Done r w' /\ r < 0) \/
    exists w', write_block dev a n 1 w = Done 0 w' /\ stored w' dev n = content w a /\
      (forall d m, (d, m) <> (dev, n) -> stored w' d m = stored w d m) /\ forall b, content w' b = content w b
}.

Section Spec.
Context {W C : Type} `{BlockLaws W C} `{Reclaim} (L : layout) (g : dirs).
Implicit Types s : pfst W.
Local Abbreviation ok := (pf_ok L g).

Lemma blockdev_clean_run o x (w : W) : pf_obj x = Some o ->
  mmo_cleanpage o x w = write_block (container_of o) (pf_addr x) (pf_pagenum x) 1 w.
Proof. intros Ho. cbn. unfold blockdev_cleanpage, pframe_is_free. by rewrite Ho. Qed.

Lemma blockdev_fill_run o x (w : W) : pf_obj x = Some o ->
  mmo_fillpage o x w = read_block (container_of o) (pf_addr x) (pf_pagenum x) 1 w.
Proof. intros Ho. cbn. unfold blockdev_fillpage, pframe_is_free. by rewrite Ho. Qed.

Lemma same_ref y : mo_set_ref (mmo_refcount y + 0) y = y.
Proof. destruct y. unfold mo_set_ref. cbn. by rewrite Z.add_0_r. Qed.

Lemma objs_same s o y : mmobjs s !! o = Some y -> up_objs <[o := mo_set_ref (mmo_refcount y + 0) y]> s = s.
Proof. intros Hy. rewrite same_ref. unfold up_objs. rewrite insert_id by done. by destruct s. Qed.

(** The objects of block devices are memory objects that do not count references. *)
#[export, refine] Instance blockdev_laws : MmobjLaws W := {| mmo_counts := fun _ => 0 |}.
Proof.
  - intros _. by left.
  - intros o s y Hy. by rewrite (objs_same s o y Hy).
  - intros o s y Hy _. by rewrite Z.sub_0_r, <- (Z.add_0_r (mmo_refcount y)), (objs_same s o y Hy).
  - intros o x w Ho. rewrite (blockdev_fill_run o x w Ho).
    destruct (read_law (container_of o) (pf_addr x) (pf_pagenum x) w) as [(r & w' & E & Hr)|(w' & E & _)]; [exists r, w'|exists 0, w']; split; try done; lia.
  - intros o x w _. by exists 0, w.
  - intros o x w Ho. rewrite (blockdev_clean_run o x w Ho).
    destruct (write_law (container_of o) (pf_addr x) (pf_pagenum x) w) as [(r & w' & E & Hr)|(w' & E & _)]; [exists r, w'|exists 0, w']; split; try done; lia.
Defined.

Lemma block_held s : held s.
Proof. intros o y _ Hc. by destruct Hc. Qed.

(** ** Flushing *)
Lemma flush_pass_run s l : (forall pf, pf ∈ l -> is_Some (pframes s !! pf)) ->
  ((forall pf, pf ∈ l -> dirty_at s pf = false) /\ flush_pass l s = Done false s) \/
  (exists pf, pf ∈ l /\ dirty_at s pf = true /\ flush_pass l s = (pframe_clean pf ;; ret true) s).
Proof.
  induction l as [|pf l IH]; intros Hl; cbn [flush_pass].
  { left. split; [|done]. by intros ? ?%elem_of_nil. }
  destruct (Hl pf ltac:(left)) as [x Hx]. krun (get_pf_run s pf x Hx).
  assert (dirty_at s pf = pframe_is_dirty x) as Hd by (unfold dirty_at; by rewrite Hx).
  destruct (pframe_is_dirty x).
  - right. exists pf. split; [left|done].
  - destruct IH as [[Hcl E]|(q & Hq & Hdq & E)]; [intros q Hq; apply Hl; by right| |].
    + left. split; [|done]. intros q [->|Hq]%elem_of_cons; [done|by apply Hcl].
    + right. exists q. split_and!; [by right|done|done].
Qed.

(** The pages of [o] that were dirty in [s0] and are not in [s] are on the device;
    no other block has changed. *)
Record synced (o : Z) s0 s : Prop := {
  sy_content b : content (pf_world s) b = content (pf_world s0) b;
  sy_written pf x : pframes s0 !! pf = Some x -> pf_obj x = Some o -> pframe_is_dirty x = true -> dirty_at s pf = false ->
    stored (pf_world s) (container_of o) (pf_pagenum x) = content (pf_world s0) (pf_addr x);
  sy_other d n : (forall pf x, pframes s0 !! pf = Some x -> pf_obj x = Some o -> pframe_is_dirty x = true -> (d, n) <> (container_of o, pf_pagenum x)) ->
    stored (pf_world s) d n = stored (pf_world s0) d n
}.

(** A state on the way: only pages [l] of [o] have been written. *)
Record flushing (o : Z) (l : list Z) s0 s : Prop := {
  fl_ok : ok s;
  fl_idle : idle s;
  fl_wrote : wrote s0 s;
  fl_synced : synced o s0 s;
  fl_dirty pf : dirty_at s pf = true -> dirty_at s0 pf = true;
  fl_other q : q ∉ l -> pframes s !! q = pframes s0 !! q
}.

Lemma flushing_refl o l s : ok s -> idle s -> flushing o l s s.
Proof.
  intros Hs Hi. split; try done. split; try done. intros pf x Hx _ Hd. unfold dirty_at. rewrite Hx. congruence.
Qed.

(** A page is written. *)
Lemma flushing_step o l s0 s pf x w s' : writes_succeed -> flushing o l s0 s -> ok s0 -> pf ∈ l -> pframes s !! pf = Some x -> pf_obj x = Some o ->
  dirty_at s pf = true -> mmo_cleanpage o (pframe_set_busy (pframe_clear_dirty x)) (pf_world s) = Done 0 w -> pf_world s' = w ->
  ok s' -> idle s' -> wrote s s' -> dirty_at s' pf = false -> (forall q, q <> pf -> pframes s' !! q = pframes s !! q) ->
  flushing o l s0 s'.
Proof.
  intros Hw [F1 F2 F3 F4 F5 F6] Hs0 Hin Hx Ho Hd Ew Hw' Hs' Hi' Hwr Hd' Hq.
  rewrite (blockdev_clean_run o) in Ew by done.
  destruct (write_law (container_of o) (pf_addr x) (pf_pagenum x) (pf_world s)) as [(r & w1 & E & Hr)|(w1 & E & Hst & Hsame & Hcont)].
  { cbn in Ew. rewrite E in Ew. injection Ew as -> _. lia. }
  cbn in Ew. rewrite E in Ew. injection Ew as ->.
  destruct (same_cores_frame _ _ _ _ (wr_cores _ _ F3) Hx) as (x0 & Hx0 & Hc). injection Hc as Hob Hn Ha _. rewrite Ho in Hob.
  assert (pframe_is_dirty x0 = true) as Hd0 by (specialize (F5 pf Hd); unfold dirty_at in F5; by rewrite Hx0 in F5).
  assert (forall q, q <> pf -> dirty_at s' q = dirty_at s q) as Hdq by (intros q Hne; by apply dirty_same, Hq).
  split; try done.
  - by eapply wrote_trans.
  - destruct F4 as [G1 G2 G3]. split.
    + intros b. by rewrite Hw', Hcont, G1.
    + intros p z Hz Hzo Hzd Hpd. rewrite Hw'. destruct (decide (p = pf)) as [->|Hne].
      * assert (z = x0) as -> by congruence. rewrite <- Hn, Hst, <- Ha. apply G1.
      * rewrite Hsame; [apply (G2 p); try done; by rewrite <- Hdq|]. intros [= En]. destruct Hne. apply (k_unique _ _ _ Hs0 p pf (o, pf_pagenum z)).
        -- by apply frame_ident.
        -- rewrite En, Hn. by apply frame_ident.
    + intros d n Hoth. rewrite Hw', Hsame; [by apply G3|]. rewrite Hn. by apply (Hoth pf x0).
  - intros q Hdq'. destruct (decide (q = pf)) as [->|Hne]; [by apply F5|]. apply F5. by rewrite <- Hdq.
  - intros q Hq'. rewrite Hq; [by apply F6|]. intros ->. done.
Qed.

Lemma flush_clean_run fuel o l s0 : writes_succeed -> ok s0 -> NoDup l -> (forall y, mmobjs s0 !! o = Some y -> mmo_respages y = l) ->
  is_Some (mmobjs s0 !! o) -> (forall pf, pf ∈ l -> pf ∈ alloc_list s0) ->
  forall s, flushing o l s0 s -> (dirty_in s l < fuel)%nat ->
  exists s', flush_clean fuel o s = Done tt s' /\ flushing o l s0 s' /\ forall pf, pf ∈ l -> dirty_at s' pf = false.
Proof.
  intros Hw Hs0 Hnd Hl [y Hy] Hal. induction fuel as [|fuel IH]; intros s Hf Hlt; [lia|]. cbn [flush_clean].
  pose proof Hf as [F1 F2 F3 F4 F5 F6]. pose proof Hy as Hy1. rewrite <- (wr_objs _ _ F3) in Hy1. krun (get_obj_run s o y Hy1). rewrite (Hl y Hy).
  assert (forall pf, pf ∈ l -> is_Some (pframes s !! pf)) as Hfr.
  { intros pf Hpf. apply (k_dom _ _ _ F1), elem_of_app. left. rewrite (wr_alloc _ _ F3). by apply Hal. }
  destruct (flush_pass_run s l Hfr) as [[Hcl E]|(pf & Hin & Hd & E)].
  { krun E. by exists s. }
  assert (pf ∈ alloc_list s) as Ha by (rewrite (wr_alloc _ _ F3); by apply Hal).
  destruct (clean_one L g s pf F1 F2 Ha Hd) as (o' & x & r & w & s1 & Hxo & Hx & Ew & _ & Ec & Hw1 & Hs1 & Hi1 & Hwr & Hd1 & Hq).
  destruct (Hw o' (pframe_set_busy (pframe_clear_dirty x)) (pf_world s) Hxo) as [w' Ew']. rewrite Ew in Ew'. injection Ew' as -> ->.
  assert (o' = o) as ->.
  { rewrite <- (Hl y Hy) in Hin. apply (k_res _ _ _ F1 o y Hy1) in Hin as [n (x' & Hx' & Ho' & _)%ident_frame]. congruence. }
  unfold bind at 1. rewrite E. krun Ec. unfold ret. apply IH; [by eapply flushing_step|].
  pose proof (dirty_in_less s s1 l pf Hnd Hin Hd Hd1 (fun q Hne => dirty_same _ _ _ (Hq q Hne))). lia.
Qed.

Lemma flush_free_run l : forall s, ok s -> idle s -> NoDup l -> (forall pf, pf ∈ l -> pf ∈ alloc_list s) -> (forall pf, pf ∈ l -> dirty_at s pf = false) ->
  exists s', flush_free l s = Done tt s' /\ ok s' /\ pf_world s' = pf_world s /\
    forall q, pframes s' !! q = if decide (q ∈ l) then None else pframes s !! q.
Proof.
  induction l as [|pf l IH]; intros s Hs Hi Hnd Hal Hcl; cbn [flush_free].
  { exists s. by split_and!. }
  apply NoDup_cons in Hnd as [Hn Hnd]. pose proof (Hal pf ltac:(left)) as Ha.
  destruct (free_one L g s pf Hs Hi (block_held s) Ha) as (s1 & Ef & He & Ew).
  destruct (proj1 (k_dom _ _ _ Hs pf)) as [x Hx]; [apply elem_of_app; by left|]. krun (get_pf_run s pf x Hx).
  pose proof (Hcl pf ltac:(left)) as Hd. unfold dirty_at in Hd. rewrite Hx in Hd. rewrite Hd. erewrite bind_done by reflexivity. cbn beta. krun Ef.
  assert (forall q, q ∈ l -> q <> pf) as Hne by (intros q Hq ->; done).
  destruct (IH s1 (ev_ok _ _ _ _ _ He) (ev_idle _ _ _ _ _ He) Hnd) as (s' & E & Hs' & Ew' & Hf).
  - intros q Hq. rewrite (ev_alloc _ _ _ _ _ He). apply elem_but. split; [apply Hal; by right|by apply Hne].
  - intros q Hq. rewrite (dirty_same s s1); [apply Hcl; by right|]. apply (ev_frames _ _ _ _ _ He). by apply Hne.
  - exists s'. split_and!; try done; [by rewrite Ew'|]. intros q. rewrite Hf. destruct (decide (q = pf)) as [->|Hq].
    + rewrite (decide_True (P := pf ∈ pf :: l)) by left. rewrite decide_False by done. apply (ev_frame _ _ _ _ _ He).
    + rewrite (ev_frames _ _ _ _ _ He q Hq). apply decide_ext. rewrite elem_of_cons. naive_solver.
Qed.

(** C14: [blockdev_flush_all] returns when writing succeeds and no page of the
    device is pinned.  The device has no resident page left; every block whose page
    was dirty holds what the page held, every other block of every device is
    unchanged, and so are the frames of other objects. *)
Theorem blockdev_flush_all_spec s dev y fuel : ok s -> idle s -> writes_succeed -> mmobjs s !! mmobj_of dev = Some y ->
  (forall pf, pf ∈ mmo_respages y -> pf ∈ alloc_list s) -> (dirty_in s (mmo_respages y) < fuel)%nat ->
  exists s', blockdev_flush_all fuel dev s = Done tt s' /\ ok s' /\
    (forall q, pframes s' !! q = if decide (q ∈ mmo_respages y) then None else pframes s !! q) /\
    (forall y', mmobjs s' !! mmobj_of dev = Some y' -> mmo_respages y' = [] /\ mmo_nrespages y' = 0) /\
    (forall pf x, pf ∈ mmo_respages y -> pframes s !! pf = Some x -> pframe_is_dirty x = true ->
       stored (pf_world s') dev (pf_pagenum x) = content (pf_world s) (pf_addr x)) /\
    (forall d n, (forall pf x, pf ∈ mmo_respages y -> pframes s !! pf = Some x -> pframe_is_dirty x = true -> (d, n) <> (dev, pf_pagenum x)) ->
       stored (pf_world s') d n = stored (pf_world s) d n).
Proof.
  intros Hs Hi Hw Hy Hal Hf. set (o := mmobj_of dev) in *. assert (container_of o = dev) as Hdev by (unfold container_of, o, mmobj_of; lia).
  destruct (k_res _ _ _ Hs o y Hy) as (Hnd & _ & Hin). set (l := mmo_respages y) in *.
  assert (forall pf x, pframes s !! pf = Some x -> pf ∈ l <-> pf_obj x = Some o) as Hmem.
  { intros pf x Hx. rewrite Hin. split; [intros [n (x' & Hx' & Ho & _)%ident_frame]; congruence|]. intros Ho. eexists. by apply frame_ident. }
  destruct (flush_clean_run fuel o l s Hw Hs Hnd ltac:(intros z Hz; rewrite Hy in Hz; by injection Hz as <-) ltac:(eauto) Hal s
    (flushing_refl o l s Hs Hi) Hf) as (s1 & E1 & [F1 F2 F3 F4 F5 F6] & Hcl).
  destruct (flush_free_run l s1 F1 F2 Hnd) as (s2 & E2 & Hs2 & Ew2 & Hf2); [intros pf Hpf; rewrite (wr_alloc _ _ F3); by apply Hal|done|].
  exists s2. split.
  { unfold blockdev_flush_all. fold o. krun E1. pose proof Hy as Hy1. rewrite <- (wr_objs _ _ F3) in Hy1. by krun (get_obj_run s1 o y Hy1). }
  split; [done|]. split_and!.
  - intros q. rewrite Hf2. case_decide; [done|]. by apply F6.
  - intros y' Hy'. destruct (k_res _ _ _ Hs2 o y' Hy') as (_ & -> & Hin2).
    destruct (mmo_respages y') as [|q r]; [done|]. destruct (proj1 (Hin2 q) ltac:(left)) as [n (x & Hx & Ho & _)%ident_frame]. exfalso.
    rewrite Hf2 in Hx. case_decide as Hq; [done|]. rewrite F6 in Hx by done. by apply Hq, (Hmem q x Hx).
  - intros pf x Hpf Hx Hd. rewrite Ew2, <- Hdev. apply (sy_written _ _ _ F4 pf x Hx); [by apply (Hmem pf x Hx)|done|by apply Hcl].
  - intros d n Hoth. rewrite Ew2. apply (sy_other _ _ _ F4). intros pf x Hx Ho Hd. rewrite Hdev. apply (Hoth pf x); [by apply (Hmem pf x Hx)|done|done].
Qed.

(** Filling a page reads the block of its number. *)
Lemma pframe_fill_reads s pf x dev : ok s -> pframes s !! pf = Some x -> pf_obj x = Some (mmobj_of dev) ->
  exists r s', pframe_fill pf s = Done r s' /\ ok s' /\ (r = 0 -> content (pf_world s') (pf_addr x) = stored (pf_world s) dev (pf_pagenum x)).
Proof.
  intros Hs Hx Ho. destruct (pframe_fill_run L g s pf x _ Hs Hx Ho) as (r & w & Er & _ & E & Hok). exists r. eexists. split; [exact E|].
  split; [done|]. intros ->. rewrite blockdev_fill_run in Er by done.
  assert (container_of (mmobj_of dev) = dev) as Hdev by (unfold container_of, mmobj_of; lia). rewrite Hdev in Er. cbn in Er.
  destruct (read_law dev (pf_addr x) (pf_pagenum x) (pf_world s)) as [(r & w' & E' & Hr)|(w' & E' & Hc & _)]; rewrite E' in Er; [injection Er as -> _; lia|].
  injection Er as ->. exact Hc.
Qed.
End Spec.
End BlockPages.
