(* ===== verification/PFrameDemo.v ===== *)
(** * Page frames: instances

    Two kinds of memory object, one whose writes succeed and keep a log and one
    whose writes fail, over the address space and the pages [pt_init] leaves. *)

From Stdlib Require Import ZArith Lia.
From stdpp Require Import base list gmap.
From S2P Require Import Prelude Page PageSpec PageTable PageTableSpec PageTableOps PageTableDemo PFrame PFrameSpec PFrameOps PFrameOut PFrameMove.

Module PFrameDemo.
Import Page PageSpec PageTable PageTableSpec PageTableOps PageTableDemo PFrame PFrameSpec PFrameOps PFrameOut PFrameMove.
Local Open Scope Z_scope.

(** ** The objects *)
Section Objects.
Context {W : Type}.
Definition count_ref (d o : Z) : kern (pfst W) unit := set_obj o (fun y => mo_set_ref (mmo_refcount y + d) y).

Lemma count_ref_run d o (s : pfst W) y : mmobjs s !! o = Some y ->
  count_ref d o s = Done tt (up_objs <[o := mo_set_ref (mmo_refcount y + d) y]> s).
Proof. intros Hy. unfold count_ref, set_obj, bind, get_obj. by rewrite Hy. Qed.
End Objects.

(** The pages written, by object and number. *)
Definition disk : Type := list (Z * Z).
#[export] Instance disk_ops : MmobjOps disk := {|
  mmo_ref := count_ref 1;
  mmo_put := count_ref (-1);
  mmo_lookuppage := fun o n _ => let* r := pframe_get_resident o n in ret (0, r);
  mmo_fillpage := fun _ _ => ret 0;
  mmo_dirtypage := fun _ _ => ret 0;
  mmo_cleanpage := fun o x => modify (fun l => (o, pf_pagenum x) :: l) ;; ret 0
|}.
#[export, refine] Instance disk_laws : MmobjLaws disk := {| mmo_counts := fun _ => 1 |}.
Proof.
  - intros _. by right.
  - intros o s y Hy. exact (count_ref_run 1 o s y Hy).
  - intros o s y Hy _. exact (count_ref_run (-1) o s y Hy).
  - intros o x w _. by exists 0, w.
  - intros o x w _. by exists 0, w.
  - intros o x w _. by exists 0, ((o, pf_pagenum x) :: w).
Qed.

(** A disk that answers every write with an error. *)
Inductive broken := Broken.
#[export] Instance broken_ops : MmobjOps broken := {|
  mmo_ref := count_ref 1;
  mmo_put := count_ref (-1);
  mmo_lookuppage := fun o n _ => let* r := pframe_get_resident o n in ret (0, r);
  mmo_fillpage := fun _ _ => ret 0;
  mmo_dirtypage := fun _ _ => ret 0;
  mmo_cleanpage := fun _ _ => ret (-5)
|}.
#[export, refine] Instance broken_laws : MmobjLaws broken := {| mmo_counts := fun _ => 1 |}.
Proof.
  - intros _. by right.
  - intros o s y Hy. exact (count_ref_run 1 o s y Hy).
  - intros o s y Hy _. exact (count_ref_run (-1) o s y Hy).
  - intros o x w _. by exists 0, w.
  - intros o x w _. by exists 0, w.
  - intros o x w _. by exists (-5), w.
Qed.

Lemma disk_succeeds : writes_succeed (W := disk).
Proof. intros o x w _. by eexists. Qed.

Lemma broken_fails : writes_fail (W := broken).
Proof. intros o x w _. exists (-5), w. split; [reflexivity|lia]. Qed.

Lemma disk_dirties o x (w : disk) : mmo_dirtypage o x w = Done 0 w.
Proof. reflexivity. Qed.

Lemma broken_dirties o x (w : broken) : mmo_dirtypage o x w = Done 0 w.
Proof. reflexivity. Qed.

(** ** A cache *)
#[local] Opaque booted LAY DIRS.

Section Cache.
Context {W : Type} `{MmobjLaws W} `{Reclaim} (w0 : W).

(** Six pages of object 1008 are mapped at the start of the user memory of the first
    address space. *)
Definition demo_area : vmarea := Vmarea 1024 1030 0 (Some DIR).
Definition demo_objs : gmap Z mmobj_t := {[ 1008 := Mmobj 2 0 [] (mmo_vmas [demo_area]) None; 2 := Mmobj 3 0 [] (mmo_vmas []) None ]}.
Definition powered_on : pfst W := Pfst ∅ demo_objs 7 [] 7 [] [] 9 9 [] 100 [] [] booted w0.

Lemma demo_objs_lookup o y : demo_objs !! o = Some y ->
  (o = 1008 /\ y = Mmobj 2 0 [] (mmo_vmas [demo_area]) None) \/ (o = 2 /\ y = Mmobj 3 0 [] (mmo_vmas []) None).
Proof.
  unfold demo_objs. intros [[<- <-]|[_ E]]%lookup_insert_Some; [by left|]. apply lookup_singleton_Some in E as [<- <-]. by right.
Qed.

Lemma powered_on_empty : no_frames LAY DIRS powered_on.
Proof.
  split.
  - reflexivity.
  - intros o y [[-> ->]|[-> ->]]%demo_objs_lookup; done.
  - intros o [y [[-> ->]|[-> ->]]%demo_objs_lookup]; eexists; (split; [reflexivity|]); [|by constructor].
    constructor; [|constructor]. split; cbn; [|lia|lia]. intros pd [= <-]. apply booted_dir.
  - exact paging_ok.
Qed.


Lemma cache_started : exists s : pfst W, pframe_init powered_on = Done tt s /\ pf_ok LAY DIRS s /\ pframes s = ∅ /\ mmobjs s = demo_objs /\
  alloc_list s = [] /\ pinned_list s = [] /\ pf_pt s = booted /\ pf_oom s = [] /\ pf_fresh s = 100 /\ pf_world s = w0.
Proof.
  destruct (pframe_init_ok LAY DIRS powered_on powered_on_empty) as (s & E & Hs & Hf & Ho & Ha & Hp & _ & _ & Hpt & Hw & Hoom & Hfr).
  exists s. exact (conj E (conj Hs (conj Hf (conj Ho (conj Ha (conj Hp (conj Hpt (conj Hoom (conj Hfr Hw))))))))).
Qed.

(** One page of object 1008 is resident, clean. *)
Record one_page (s : pfst W) (x : pframe) : Prop := {
  op_ok : pf_ok LAY DIRS s;
  op_frames : pframes s = {[ 100 := x ]};
  op_id : pf_obj x = Some 1008 /\ pf_pagenum x = 3 /\ pf_pincount x = 0;
  op_flags : pframe_is_busy x = false;
  op_alloc : alloc_list s = [100];
  op_pinned : pinned_list s = [];
  op_objs : mmobjs s = <[1008 := Mmobj (2 + mmo_counts 1008) 1 [100] (mmo_vmas [demo_area]) None]> demo_objs
}.

Lemma cache_filled : exists (s : pfst W) x, one_page s x /\ pframe_is_dirty x = false /\ free_count s = u32 (page_freecount (pt_pages booted) - 1) /\ pf_world s = w0.
Proof.
  destruct cache_started as (s & _ & Hs & Hf & Ho & Ha & Hp & Hpt & Hoom & Hfr & Hw).
  set (y := Mmobj 2 0 [] (mmo_vmas [demo_area]) None). assert (mmobjs s !! 1008 = Some y) as Hy by (rewrite Ho; reflexivity).
  assert (forall pf, ident s pf <> Some (1008, 3)) as Hnew by (intros pf; unfold ident; rewrite Hf, lookup_empty; discriminate).
  assert (default false (head (pf_oom s)) = false) as Hroom by (rewrite Hoom; reflexivity).
  destruct (pframe_alloc_run LAY DIRS s 1008 3 y Hs Hy ltac:(lia) Hnew Hroom) as [(a & ps & _ & Ht & Hok)|[Hno _]].
  - exists (with_frame 1008 3 a y (up_ptpages ps (pf_pt s)) s), (Pframe (Some 1008) 3 a 0 [] 0). split; [|split; [reflexivity|]].
    + split; [exact Hok|..]; unfold with_frame; cbn [pframes alloc_list pinned_list mmobjs]; rewrite ?Hf, ?Ha, ?Hp, ?Ho, ?Hfr; repeat split; reflexivity.
    + split; [|exact Hw]. unfold free_count. rewrite <- Hpt. exact (tk_count _ _ _ _ Ht).
  - rewrite Hpt in Hno. destruct (booted_free Hno).
Qed.

(** The page is dirty. *)
Lemma cache_dirtied : (forall o x w, mmo_dirtypage o x w = Done 0 w) -> exists (s : pfst W) x, one_page s x /\ pframe_is_dirty x = true /\
  free_count s = u32 (page_freecount (pt_pages booted) - 1) /\ pf_world s = w0.
Proof.
  intros Hd. destruct cache_filled as (s & x & [Hok Hf (Hob & Hn & Hpin) Hb Ha Hp Ho] & _ & Hc & Hw).
  assert (pframes s !! 100 = Some x) as Hx by (rewrite Hf; apply lookup_singleton_eq).
  destruct (pframe_dirty_run LAY DIRS s 100 x 1008 Hok Hx Hob Hb) as (r & w & Er & _ & _ & Hok'). rewrite Hd in Er. injection Er as <- <-.
  exists (io_state 100 (after_io (mark (0 =? 0)) x) (pf_waitq x) (pf_world s) s), (after_io (mark (0 =? 0)) x). split.
  - clear Hc Hw. split; try done; [cbn; rewrite Hf; apply insert_singleton_eq|apply after_io_flags].
  - split; [by rewrite after_io_dirty|exact (conj Hc Hw)].
Qed.

Lemma one_page_frame s x : one_page s x -> pframes s !! 100 = Some x.
Proof. intros Ho. rewrite (op_frames _ _ Ho). apply lookup_singleton_eq. Qed.

Lemma one_page_idle s x : one_page s x -> idle s.
Proof. intros Ho pf z. rewrite (op_frames _ _ Ho). intros [_ <-]%lookup_singleton_Some. apply Ho. Qed.

Lemma one_page_held s x : one_page s x -> held s.
Proof.
  intros Ho o y. rewrite (op_objs _ _ Ho). intros [[<- <-]|[_ [[-> ->]|[-> ->]]%demo_objs_lookup]]%lookup_insert_Some Hc; cbn; try lia.
  destruct (counts_law 1008); lia.
Qed.

Lemma one_page_obj s x : one_page s x -> mmobjs s !! 1008 = Some (Mmobj (2 + mmo_counts 1008) 1 [100] (mmo_vmas [demo_area]) None).
Proof. intros Ho. rewrite (op_objs _ _ Ho). apply lookup_insert_eq. Qed.

Lemma one_page_limits m t s x : one_page s x -> one_page (up_limits m t s) x.
Proof.
  intros [Hok Hf Hi Hb Ha Hp Ho]. split; try assumption. apply (ok_same_cores LAY DIRS s); try reflexivity; [exact Hok|]. exact (k_pt _ _ _ Hok).
Qed.

Lemma one_page_areas s x : one_page s x -> areas_of (mmobjs s) 1008 = Some [demo_area].
Proof. intros Ho. unfold areas_of. by rewrite (one_page_obj s x Ho). Qed.
End Cache.

(** ** The theorems at work *)
#[local] Instance no_reclaim : Reclaim := fun s => Done 0 s.

Lemma pframe_get_resident_spec_witness : exists s : pfst disk,
  (exists s', pframe_get_resident 1008 3 s = Done (Some 100) s' /\ alloc_list s' = [100]) /\ exists s', pframe_get_resident 1008 20 s = Done None s'.
Proof.
  destruct (cache_filled (W := disk) []) as (s & x & Ho & _). exists s.
  destruct (pframe_get_resident_spec LAY DIRS s 1008 3 (op_ok _ _ Ho)) as (r & s' & E & _ & Hr & Es).
  destruct (pframe_get_resident_spec LAY DIRS s 1008 20 (op_ok _ _ Ho)) as (r' & s'' & E' & _ & Hr' & _).
  pose proof (op_id _ _ Ho) as (Hob & Hn & _). pose proof (frame_ident s 100 x 1008 (one_page_frame s x Ho) Hob) as Hid. rewrite Hn in Hid.
  apply Hr in Hid. subst r s'. split.
  - eexists. split; [exact E|]. rewrite decide_True by (rewrite (op_alloc _ _ Ho); left). cbn. by rewrite (op_alloc _ _ Ho).
  - exists s''. rewrite E'. f_equal. destruct r' as [q|]; [|done]. pose proof (proj1 (Hr' q) eq_refl) as (z & Hz & _ & Hzn)%ident_frame.
    rewrite (op_frames _ _ Ho) in Hz. apply lookup_singleton_Some in Hz as [_ <-]. rewrite Hn in Hzn. discriminate Hzn.
Defined.

Lemma pframe_free_spec_witness : exists (s s' : pfst disk), pframe_free 100 s = Done tt s' /\ pframes s' = ∅ /\
  pframe_get_resident 1008 3 s' = Done None s' /\ pte_at (phys (pf_pt s')) DIR 0x403000 = 0.
Proof.
  destruct (cache_filled (W := disk) []) as (s & x & Ho & _). pose proof (op_id _ _ Ho) as (Hob & Hn & Hpin).
  destruct (pframe_free_spec LAY DIRS s 100 x 1008 _ _ (op_ok _ _ Ho) (one_page_frame s x Ho) Hob (one_page_obj s x Ho) (one_page_areas s x Ho) Hpin
    (op_flags _ _ Ho) (one_page_held s x Ho 1008 _ (one_page_obj s x Ho))) as (s' & E & _ & Hf & _ & Hres & _ & Hpt & _).
  exists s, s'. split; [exact E|]. split; [rewrite Hf, (op_frames _ _ Ho); apply delete_singleton_eq|]. rewrite Hn in Hres, Hpt. split; [exact Hres|].
  rewrite (Hpt DIR 0x403000 (proj1 booted_dir)); [|unfold user_page, USER_MEM_LOW, USER_MEM_HIGH; split; [lia|done]].
  cbn [existsb]. unfold maps_at. rewrite bool_decide_eq_true_2 by reflexivity. reflexivity.
Defined.

Lemma booted_count : 0 < page_freecount (pt_pages booted) < 1000.
Proof. rewrite booted_pages. split; vm_compute; reflexivity. Qed.

(** The frame of the cache is the only one to write. *)
Lemma one_page_written (s : pfst disk) x w : one_page s x -> pframe_is_dirty x = true -> pf_world s = [] ->
  written (dirty_frames s [100]) (pf_world s) w -> w = [(1008, 3)].
Proof.
  intros Ho Hd Hw. unfold dirty_frames. cbn [omap list_omap]. rewrite (one_page_frame s x Ho), Hd, Hw.
  pose proof (op_id _ _ Ho) as (Hob & Hn & _). intros Hwr. inversion Hwr as [|x' o l w' w1 w2 Ho' Ec Hl]; subst.
  inversion Hl; subst. rewrite Hob in Ho'. injection Ho' as <-. injection Ec as <-. cbn. by rewrite Hn.
Qed.

(** With a target above the number of free pages the page goes, and it has been
    written. *)
Lemma pageoutd_round_spec_witness : exists (s s' : pfst disk), alloc_list s = [100] /\ dirty_at s 100 = true /\ pf_world s = [] /\
  pageoutd_round 3 s = Done tt s' /\ alloc_list s' = [] /\ pframes s' !! 100 = None /\ free_count s' = free_count s + 1 /\
  pf_world s' = [(1008, 3)].
Proof.
  destruct (cache_dirtied (W := disk) [] disk_dirties) as (s0 & x & Ho0 & Hd & Hc & Hw). pose proof booted_count as Hb. rewrite u32_small in Hc by lia.
  pose proof (one_page_limits 0 1000 s0 x Ho0) as Ho. set (s := up_limits 0 1000 s0) in Ho. change (free_count s0) with (free_count s) in Hc.
  pose proof (op_alloc _ _ Ho) as Ha. assert (quota s = 1%nat) as Hq.
  { unfold quota. rewrite Ha. change (nfreepages_target s) with 1000. cbn [length]. lia. }
  destruct (pageoutd_round_spec LAY DIRS s 3 (op_ok _ _ Ho) (one_page_idle s x Ho) (one_page_held s x Ho) disk_succeeds ltac:(lia)
    ltac:(rewrite Ha; cbn [length]; lia) ltac:(rewrite Ha; cbn [length]; lia)) as (s' & E & _ & Hal & Hfc & Hfr & Hwr & _).
  exists s, s'. rewrite Ha, Hq in Hal, Hwr. rewrite Hq in Hfc. specialize (Hfr 100). rewrite Ha, Hq, decide_True in Hfr by left.
  assert (dirty_at s 100 = true) as Hda by (unfold dirty_at; rewrite (one_page_frame s x Ho); exact Hd).
  exact (conj Ha (conj Hda (conj Hw (conj E (conj Hal (conj Hfr (conj Hfc (one_page_written s x _ Ho Hd Hw Hwr)))))))).
Defined.

Lemma shutdown_empties_witness : exists (s s' : pfst disk), dirty_at s 100 = true /\ pf_world s = [] /\ shutdown_pages 2 s = Done tt s' /\
  pframes s' = ∅ /\ pf_world s' = [(1008, 3)].
Proof.
  destruct (cache_dirtied (W := disk) [] disk_dirties) as (s & x & Ho & Hd & _ & Hw).
  destruct (shutdown_empties LAY DIRS s 2 (op_ok _ _ Ho) (one_page_idle s x Ho) (one_page_held s x Ho) disk_succeeds (op_pinned _ _ Ho)) as (s' & E & Hwr & Hf & _).
  - unfold ndirty, dirty_in. rewrite (op_alloc _ _ Ho), filter_cons, filter_nil. case_decide; cbn [length]; lia.
  - exists s, s'. rewrite (op_alloc _ _ Ho) in Hwr. split; [unfold dirty_at; rewrite (one_page_frame s x Ho); exact Hd|].
    exact (conj Hw (conj E (conj Hf (one_page_written s x _ Ho Hd Hw Hwr)))).
Defined.

(** On the broken disk [pframe_clean_all] writes the page again and again. *)
Example sync_never_ends : exists s : pfst broken, alloc_list s = [100] /\ forall fuel, pframe_clean_all fuel s = Blocked.
Proof.
  destruct (cache_dirtied (W := broken) Broken broken_dirties) as (s & x & Ho & Hd & _). exists s. split; [exact (op_alloc _ _ Ho)|]. intros fuel.
  apply (pframe_clean_all_never LAY DIRS s fuel (op_ok _ _ Ho) (one_page_idle s x Ho) broken_fails). exists 100.
  rewrite (op_alloc _ _ Ho). split; [left|]. unfold dirty_at. rewrite (one_page_frame s x Ho). exact Hd.
Qed.

(** A clean page that migrates to its own object, which has it, stops the kernel. *)
Example migrate_panics : exists s : pfst disk, pframe_migrate 100 1008 s = Panic.
Proof.
  destruct (cache_filled (W := disk) []) as (s & x & Ho & Hd & _). exists s. pose proof (op_id _ _ Ho) as (Hob & Hn & _).
  apply (pframe_migrate_clean_panics LAY DIRS s 100 x 1008 100 (op_ok _ _ Ho) (one_page_frame s x Ho) (op_flags _ _ Ho) Hd).
  apply frame_ident; [exact (one_page_frame s x Ho)|exact Hob].
Qed.
End PFrameDemo.
