(* ===== verification/BlockDemo.v ===== *)
(** * The pages of block devices: an instance

    A driver that keeps its blocks in a function; a page of a device is dirtied and
    the device flushed. *)

From Stdlib Require Import ZArith Lia.
From stdpp Require Import base list gmap.
From S2P Require Import Prelude Page PageSpec PageTable PageTableSpec PageTableOps PageTableDemo PFrame PFrameSpec PFrameOps PFrameOut PFrameDemo BlockPages.

Module BlockDemo.
Import Page PageSpec PageTable PageTableSpec PageTableOps PageTableDemo PFrame PFrameSpec PFrameOps PFrameOut PFrameDemo BlockPages.
Local Open Scope Z_scope.

(** The contents of pages by address and of blocks by device and number. *)
Record machine := Machine { m_mem : Z -> Z; m_blocks : Z -> Z -> Z }.

#[export] Instance ramdisk : BlockOps machine := {|
  read_block := fun dev a n _ m => Done 0 (Machine (fun b => if b =? a then m_blocks m dev n else m_mem m b) (m_blocks m));
  write_block := fun dev a n _ m => Done 0 (Machine (m_mem m) (fun d k => if (d =? dev) && (k =? n) then m_mem m a else m_blocks m d k))
|}.

#[export, refine] Instance ramdisk_laws : BlockLaws machine Z := {| content := m_mem; stored := m_blocks |}.
Proof.
  - intros dev a n w. right. eexists. split; [reflexivity|]. cbn. rewrite Z.eqb_refl. split_and!; try done.
    intros b Hb. by rewrite (proj2 (Z.eqb_neq _ _) Hb).
  - intros dev a n w. right. eexists. split; [reflexivity|]. cbn. rewrite !Z.eqb_refl. split_and!; try done.
    intros d m Hne. destruct (Z.eqb_spec d dev) as [->|]; [|done]. destruct (Z.eqb_spec m n) as [->|]; [|done]. by destruct Hne.
Defined.

Lemma ramdisk_succeeds : writes_succeed (W := machine).
Proof. intros o x w Ho. rewrite (blockdev_clean_run o x w Ho). by eexists. Qed.

Lemma ramdisk_dirties o x (w : machine) : mmo_dirtypage o x w = Done 0 w.
Proof. reflexivity. Qed.

#[local] Opaque booted LAY DIRS.
#[local] Instance no_reclaiming : Reclaim := fun s => Done 0 s.

(** Page 3 of the device at 1000 is dirty; after flushing block 3 holds what the page
    held and block 4 is what it was. *)
Lemma blockdev_flush_all_spec_witness : exists (s s' : pfst machine) x, pframes s !! 100 = Some x /\ pframe_is_dirty x = true /\
  blockdev_flush_all 2 1000 s = Done tt s' /\ pframes s' !! 100 = None /\
  m_blocks (pf_world s') 1000 3 = m_mem (pf_world s) (pf_addr x) /\ m_blocks (pf_world s') 1000 4 = m_blocks (pf_world s) 1000 4.
Proof.
  destruct (cache_dirtied (Machine (fun a => a) (fun _ _ => 0)) ramdisk_dirties) as (s & x & Ho & Hd & _).
  pose proof (one_page_obj s x Ho) as Hy. pose proof (one_page_frame s x Ho) as Hx. pose proof (op_id _ _ Ho) as (_ & Hn & _).
  destruct (blockdev_flush_all_spec LAY DIRS s 1000 _ 2 (op_ok _ _ Ho) (one_page_idle s x Ho) ramdisk_succeeds Hy) as (s' & E & _ & Hf & _ & Hw & Hoth).
  - cbn [mmo_respages]. rewrite (op_alloc _ _ Ho). done.
  - unfold dirty_in. cbn [mmo_respages]. rewrite filter_cons, filter_nil. case_decide; cbn [length]; lia.
  - exists s, s', x. split; [exact Hx|]. split; [exact Hd|]. split; [exact E|]. split_and!.
    + rewrite Hf, decide_True by left. reflexivity.
    + rewrite <- Hn. exact (Hw 100 x ltac:(left) Hx Hd).
    + apply (Hoth 1000 4). intros pf z Hpf Hz _ [= En]. cbn [mmo_respages] in Hpf. apply list_elem_of_singleton in Hpf as ->.
      assert (z = x) as -> by congruence. rewrite Hn in En. discriminate En.
Defined.
End BlockDemo.
