(* ===== verification/S5.v ===== *)
(** * Free lists of the System V file system ([fs/s5fs/s5fs_subr.c], [include/fs/s5fs/s5fs.h])

    The part of the file system that is written: returning blocks to the list of
    free blocks, and taking inodes from and returning them to the list of free
    inodes.  The superblock, the inodes and the nodes of the block list are words of
    the pages of the block device: a block is 1024 words, and the superblock is read
    and written in the page of block 0, wherever the code has a pointer into it.

    The page cache below is the interface [BlockCache], what the functions of
    [mm/pframe.h] are to do for the memory object of the device ([pframe_get] and
    pinning are stubs in [mm/pframe.c], see [PFrame]).  A pointer into a page is a
    frame and an index: nothing is promised about a frame that has been given away.
    One thread is in the file system. *)

From Stdlib Require Import ZArith Lia.
From stdpp Require Import base list gmap.
From S2P Require Import Prelude Vnode.

Module S5.
Local Open Scope Z_scope.

Definition S5_SUPER_BLOCK : Z := 0.
Definition S5_NBLKS_PER_FNODE : Z := 30.
Definition S5_BLOCK_SIZE : Z := 4096.
Definition S5_NDIRECT_BLOCKS : Z := 28.
(** [S5_BLOCK_SIZE / sizeof(s5_inode_t)], and words of an inode. *)
Definition SIZEOF_INODE : Z := 128.
Definition INODE_WORDS : Z := 32.
Definition S5_INODES_PER_BLOCK : Z := S5_BLOCK_SIZE / SIZEOF_INODE.
Definition S5_NIDIRECT_BLOCKS : Z := S5_BLOCK_SIZE / 4.

Definition S5_TYPE_FREE : Z := 0x0.
Definition S5_TYPE_DATA : Z := 0x1.
Definition S5_TYPE_DIR : Z := 0x2.
Definition S5_TYPE_CHR : Z := 0x4.
Definition S5_TYPE_BLK : Z := 0x8.
Definition S5_MAGIC : Z := 29311.
Definition S5_CURRENT_VERSION : Z := 3.

(** [(uint32_t) -1] *)
Definition NONE : Z := 2 ^ 32 - 1.

Definition S5_INODE_BLOCK (inum : Z) : Z := inum / S5_INODES_PER_BLOCK + 1.
Definition S5_INODE_OFFSET (inum : Z) : Z := inum mod S5_INODES_PER_BLOCK.

(** The words of [s5_super_t]. *)
Definition s5s_magic : Z := 0.
Definition s5s_free_inode : Z := 1.
Definition s5s_nfree : Z := 2.
Definition s5s_free_blocks : Z := 3.
Definition s5s_root_inode : Z := 33.
Definition s5s_num_inodes : Z := 34.
Definition s5s_version : Z := 35.

(** The words of [s5_inode_t]; the type is the lower and the link count the upper
    half of one word, the next free inode and the size share one. *)
Definition s5_next_free : Z := 0.
Definition s5_size : Z := 0.
Definition s5_number : Z := 1.
Definition s5_type_links : Z := 2.
Definition s5_direct_blocks : Z := 3.
Definition s5_indirect_block : Z := 31.

(** [bc_get] is [pframe_get] on the object of the device, with its result and what
    it stores; [bc_load] and [bc_store] access a word of a page. *)
Class BlockCache (S : Type) := {
  bc_get : Z -> kern S (Z * option Z);
  bc_dirty : Z -> kern S Z;
  bc_pin : Z -> kern S unit;
  bc_unpin : Z -> kern S unit;
  bc_load : Z -> Z -> kern S Z;
  bc_store : Z -> Z -> Z -> kern S unit;
  lock_s5 : kern S unit;
  unlock_s5 : kern S unit
}.

(** The frame with the superblock. *)
Record s5fs := S5fs { s5f_super : Z }.
(** A pointer to an inode. *)
Record iptr := Iptr { ip_frame : Z; ip_base : Z }.

Section Ops.
Context {S : Type} `{BlockCache S}.
Local Abbreviation K := (kern S).

(** [KASSERT(p)] on the frame a [pframe_get] has stored. *)
Definition got (r : Z * option Z) : K Z :=
  match r.2 with Some p => ret p | None => panic end.

(** The common part of the macros [s5_dirty_super] and [s5_dirty_inode]. *)
Definition s5_dirty_block (b : Z) : K unit :=
  let* r := bc_get b in
  let* p := got r in
  let* err := bc_dirty p in
  kassert (err =? 0).

Definition s5_dirty_super : K unit := s5_dirty_block S5_SUPER_BLOCK.

Definition load_inode (ip : iptr) (k : Z) : K Z := bc_load (ip_frame ip) (ip_base ip + k).
Definition store_inode (ip : iptr) (k x : Z) : K unit := bc_store (ip_frame ip) (ip_base ip + k) x.

Definition s5_dirty_inode (ip : iptr) : K unit :=
  let* n := load_inode ip s5_number in s5_dirty_block (S5_INODE_BLOCK n).

Definition type_of_word (w : Z) : Z := Z.land w 0xFFFF.
Definition with_type (t w : Z) : Z := Z.lor (Z.land w 0xFFFF0000) t.
Definition with_links (n w : Z) : Z := Z.lor (Z.land w 0xFFFF) (Z.shiftl (n mod 2 ^ 16) 16).

Definition s5_inode_type (ip : iptr) : K Z := let* w := load_inode ip s5_type_links in ret (type_of_word w).
Definition set_type (ip : iptr) (t : Z) : K unit :=
  let* w := load_inode ip s5_type_links in store_inode ip s5_type_links (with_type t w).
Definition set_links (ip : iptr) (n : Z) : K unit :=
  let* w := load_inode ip s5_type_links in store_inode ip s5_type_links (with_links n w).

(** [memcpy] and [memset] of whole words. *)
Fixpoint s5_copy_words (n : nat) (dst d src s : Z) : K unit :=
  match n with
  | O => ret tt
  | Datatypes.S n =>
      let* x := bc_load src s in
      bc_store dst d x ;;
      s5_copy_words n dst (d + 1) src (s + 1)
  end.
Fixpoint s5_zero_words (n : nat) (p i : Z) : K unit :=
  match n with
  | O => ret tt
  | Datatypes.S n => bc_store p i 0 ;; s5_zero_words n p (i + 1)
  end.

Definition s5_free_block (fs : s5fs) (blockno : Z) : K unit :=
  let s := s5f_super fs in
  lock_s5 ;;
  let* nfree := bc_load s s5s_nfree in
  kassert (nfree <? S5_NBLKS_PER_FNODE) ;;
  (if S5_NBLKS_PER_FNODE - 1 =? nfree then
     let* r := bc_get blockno in
     let* prev_free_blocks := deref r.2 in
     s5_copy_words (Z.to_nat S5_NBLKS_PER_FNODE) prev_free_blocks 0 s s5s_free_blocks ;;
     bc_dirty prev_free_blocks ;;
     bc_store s s5s_nfree 0 ;;
     bc_store s (s5s_free_blocks + (S5_NBLKS_PER_FNODE - 1)) blockno
   else
     bc_store s s5s_nfree (u32 (nfree + 1)) ;;
     bc_store s (s5s_free_blocks + nfree) blockno) ;;
  s5_dirty_super ;;
  unlock_s5.

Definition known_type (t : Z) : bool :=
  (S5_TYPE_DATA =? t) || (S5_TYPE_DIR =? t) || (S5_TYPE_CHR =? t) || (S5_TYPE_BLK =? t).

Definition s5_alloc_inode (fs : s5fs) (type devid : Z) : K Z :=
  let s := s5f_super fs in
  kassert (known_type type) ;;
  lock_s5 ;;
  let* fi := bc_load s s5s_free_inode in
  if fi =? NONE then unlock_s5 ;; ret (- Vnode.ENOSPC) else
  let* r := bc_get (S5_INODE_BLOCK fi) in
  let* inodep := got r in
  let inode := Iptr inodep (INODE_WORDS * S5_INODE_OFFSET fi) in
  let* num := load_inode inode s5_number in
  kassert (num =? fi) ;;
  let* next := load_inode inode s5_next_free in
  bc_store s s5s_free_inode next ;;
  bc_pin inodep ;;
  s5_dirty_super ;;
  bc_unpin inodep ;;
  store_inode inode s5_size 0 ;;
  set_type inode type ;;
  set_links inode 0 ;;
  s5_zero_words (Z.to_nat S5_NDIRECT_BLOCKS) inodep (ip_base inode + s5_direct_blocks) ;;
  store_inode inode s5_indirect_block (if (S5_TYPE_CHR =? type) || (S5_TYPE_BLK =? type) then u32 devid else 0) ;;
  s5_dirty_inode inode ;;
  unlock_s5 ;;
  ret (s32 num).

(** The [n] direct blocks from [i] on. *)
Fixpoint free_direct (fs : s5fs) (inode : iptr) (n : nat) (i : Z) : K unit :=
  match n with
  | O => ret tt
  | Datatypes.S n =>
      let* b := load_inode inode (s5_direct_blocks + i) in
      (if negb (b =? 0) then
         s5_free_block fs b ;;
         s5_dirty_inode inode ;;
         store_inode inode (s5_direct_blocks + i) 0
       else ret tt) ;;
      free_direct fs inode n (i + 1)
  end.

(** The [n] blocks from [i] on of the indirect block in the frame [ibp]. *)
Fixpoint free_indirect (fs : s5fs) (inode : iptr) (ibp : Z) (n : nat) (i : Z) : K unit :=
  match n with
  | O => ret tt
  | Datatypes.S n =>
      let* b := bc_load ibp i in
      let* ind := load_inode inode s5_indirect_block in
      kassert (negb (b =? ind)) ;;
      (if negb (b =? 0) then s5_free_block fs b else ret tt) ;;
      free_indirect fs inode ibp n (i + 1)
  end.

Definition s5_free_inode (fs : s5fs) (inode : iptr) : K unit :=
  let s := s5f_super fs in
  let* t := s5_inode_type inode in
  kassert (known_type t) ;;
  free_direct fs inode (Z.to_nat S5_NDIRECT_BLOCKS) 0 ;;
  let* t := s5_inode_type inode in
  let* ind := load_inode inode s5_indirect_block in
  (if ((S5_TYPE_DATA =? t) || (S5_TYPE_DIR =? t)) && negb (ind =? 0) then
     let* r := bc_get ind in
     let* ibp := got r in
     bc_pin ibp ;;
     free_indirect fs inode ibp (Z.to_nat S5_NIDIRECT_BLOCKS) 0 ;;
     bc_unpin ibp ;;
     let* ind := load_inode inode s5_indirect_block in
     s5_free_block fs ind
   else ret tt) ;;
  store_inode inode s5_indirect_block 0 ;;
  set_type inode S5_TYPE_FREE ;;
  s5_dirty_inode inode ;;
  lock_s5 ;;
  let* next := bc_load s s5s_free_inode in
  store_inode inode s5_next_free next ;;
  let* num := load_inode inode s5_number in
  bc_store s s5s_free_inode num ;;
  unlock_s5 ;;
  s5_dirty_inode inode ;;
  s5_dirty_super.

(** 0 for a superblock that is in order and -1 for one that is not. *)
Definition s5_check_super (super : Z) : K Z :=
  let* magic := bc_load super s5s_magic in
  let* free_inode := bc_load super s5s_free_inode in
  let* num_inodes := bc_load super s5s_num_inodes in
  let* root_inode := bc_load super s5s_root_inode in
  if negb ((magic =? S5_MAGIC) && ((free_inode <? num_inodes) || (free_inode =? NONE)) && (root_inode <? num_inodes)) then ret (-1) else
  let* version := bc_load super s5s_version in
  if negb (version =? S5_CURRENT_VERSION) then ret (-1) else ret 0.
End Ops.
End S5.
