(* ===== verification/S5Spec.v ===== *)
(** * What the free lists hold

    The laws of the page cache and the operations of [S5] on the two free lists.  A
    cache may drop any frame that is not pinned whenever a page that is not resident
    is asked for, and with it what was stored without the page having been marked
    dirty.  The contents of the device as the kernel sees them are a function from
    block numbers to words; the free lists are read off that function. *)

From Stdlib Require Import ZArith Lia.
From stdpp Require Import base list gmap.
From S2P Require Import Prelude Vnode S5.

Module S5Spec.
Import S5.
Local Open Scope Z_scope.

Definition words : Type := Z -> list Z.
Definition upd (v : words) (b : Z) (l : list Z) : words := fun b' => if decide (b' = b) then l else v b'.
Definition word (l : list Z) (i : Z) : Z := l !!! Z.to_nat i.
Definition put (i x : Z) (l : list Z) : list Z := <[Z.to_nat i := x]> l.

(** What the kernel sees of a cache. *)
Class CacheView (S : Type) := {
  view : S -> words;
  frame_of : S -> Z -> option Z;
  pins : S -> Z -> Z;
  (** The page is marked dirty or the same as its block on the device. *)
  safe : S -> Z -> Prop;
  locked : S -> bool
}.

(** A step that drops no frame. *)
Record change {S} `{CacheView S} (v : words) (n : Z -> Z) (sf : Z -> Prop) (l : bool) (s s' : S) : Prop := {
  ch_view b : view s' b = v b;
  ch_frame b : frame_of s' b = frame_of s b;
  ch_pins q : pins s' q = n q;
  ch_safe b : sf b -> safe s' b;
  ch_lock : locked s' = l
}.

Definition is_pinned {S} `{CacheView S} (s : S) (b : Z) : Prop := exists p, frame_of s b = Some p /\ 0 < pins s p.

Class BlockCacheLaws (S : Type) `{BlockCache S} `{CacheView S} := {
  view_length s b : length (view s b) = 1024%nat;
  pins_pos s p : 0 <= pins s p;
  load_law s b p i : frame_of s b = Some p -> 0 <= i < 1024 -> bc_load p i s = Done (word (view s b) i) s;
  store_law s b p i x : frame_of s b = Some p -> 0 <= i < 1024 -> exists s', bc_store p i x s = Done tt s' /\
    change (upd (view s) b (put i x (view s b))) (pins s) (fun b' => b' <> b /\ safe s b') (locked s) s s';
  get_hit s b p : frame_of s b = Some p -> exists s', bc_get b s = Done (0, Some p) s' /\
    change (view s) (pins s) (safe s) (locked s) s s';
  get_miss s b : frame_of s b = None -> exists p s', bc_get b s = Done (0, Some p) s' /\ frame_of s' b = Some p /\
    (forall b', safe s b' \/ is_pinned s b' -> view s' b' = view s b') /\
    (forall b' q, frame_of s b' = Some q -> 0 < pins s q -> frame_of s' b' = Some q /\ pins s' q = pins s q) /\
    (forall b', safe s b' -> safe s' b') /\ locked s' = locked s;
  dirty_law s b p : frame_of s b = Some p -> exists s', bc_dirty p s = Done 0 s' /\
    change (view s) (pins s) (fun b' => b' = b \/ safe s b') (locked s) s s';
  pin_law s b p : frame_of s b = Some p -> exists s', bc_pin p s = Done tt s' /\
    change (view s) (fun q => if decide (q = p) then pins s q + 1 else pins s q) (safe s) (locked s) s s';
  unpin_law s b p : frame_of s b = Some p -> 0 < pins s p -> exists s', bc_unpin p s = Done tt s' /\
    change (view s) (fun q => if decide (q = p) then pins s q - 1 else pins s q) (safe s) (locked s) s s';
  lock_law s : locked s = false -> exists s', lock_s5 s = Done tt s' /\ change (view s) (pins s) (safe s) true s s';
  unlock_law s : locked s = true -> exists s', unlock_s5 s = Done tt s' /\ change (view s) (pins s) (safe s) false s s'
}.

(** ** Words *)
Lemma word_put i x l j : 0 <= i < Z.of_nat (length l) -> 0 <= j -> word (put i x l) j = if decide (j = i) then x else word l j.
Proof.
  intros Hi Hj. unfold word, put. destruct (decide (j = i)) as [->|Hne].
  - apply list_lookup_total_insert_eq. lia.
  - apply list_lookup_total_insert_ne. lia.
Qed.

Lemma put_length i x l : length (put i x l) = length l.
Proof. apply length_insert. Qed.

Lemma upd_eq v b l : upd v b l b = l.
Proof. unfold upd. by rewrite decide_True. Qed.

Lemma upd_ne v b l b' : b' <> b -> upd v b l b' = v b'.
Proof. intros. unfold upd. by rewrite decide_False. Qed.

(** The results of [s5_copy_words] and [s5_zero_words]. *)
Fixpoint copy_list (n : nat) (d o : Z) (m l : list Z) : list Z :=
  match n with O => l | Datatypes.S n => copy_list n (d + 1) (o + 1) m (put d (word m o) l) end.
Fixpoint zero_list (n : nat) (i : Z) (l : list Z) : list Z :=
  match n with O => l | Datatypes.S n => zero_list n (i + 1) (put i 0 l) end.

Lemma copy_list_length n : forall d o m l, length (copy_list n d o m l) = length l.
Proof. induction n as [|n IH]; intros; cbn [copy_list]; [done|]. by rewrite IH, put_length. Qed.

Lemma zero_list_length n : forall i l, length (zero_list n i l) = length l.
Proof. induction n as [|n IH]; intros; cbn [zero_list]; [done|]. by rewrite IH, put_length. Qed.

Lemma word_copy n : forall d o m l j, 0 <= d -> d + Z.of_nat n <= Z.of_nat (length l) -> 0 <= j ->
  word (copy_list n d o m l) j = if decide (d <= j < d + Z.of_nat n) then word m (o + (j - d)) else word l j.
Proof.
  induction n as [|n IH]; intros d o m l j Hd Hl Hj; cbn [copy_list]; [rewrite decide_False by lia; done|].
  rewrite IH by (rewrite ?put_length; lia). rewrite word_put by lia.
  destruct (decide (j = d)) as [->|]; [rewrite decide_False by lia; rewrite decide_True by lia; f_equal; lia|].
  destruct (decide (d + 1 <= j < d + 1 + Z.of_nat n)); [rewrite decide_True by lia; f_equal; lia|by rewrite decide_False by lia].
Qed.

Lemma word_zero n : forall i l j, 0 <= i -> i + Z.of_nat n <= Z.of_nat (length l) -> 0 <= j ->
  word (zero_list n i l) j = if decide (i <= j < i + Z.of_nat n) then 0 else word l j.
Proof.
  induction n as [|n IH]; intros i l j Hi Hl Hj; cbn [zero_list]; [rewrite decide_False by lia; done|].
  rewrite IH by (rewrite ?put_length; lia). rewrite word_put by lia.
  destruct (decide (j = i)) as [->|]; [rewrite decide_False by lia; rewrite decide_True by lia; done|].
  destruct (decide (i + 1 <= j < i + 1 + Z.of_nat n)); [by rewrite decide_True by lia|by rewrite decide_False by lia].
Qed.

(** ** Steps *)
Section Steps.
Context {S : Type} `{BlockCacheLaws S}.
Implicit Types s : S.

(** Every page is safe or pinned: nothing the kernel sees can be lost. *)
Definition stable s : Prop := forall b, safe s b \/ is_pinned s b.

(** Pinned frames stay, and so does what is safe outside [U]. *)
Record kept (U : list Z) s s' : Prop := {
  kp_frame b p : frame_of s b = Some p -> 0 < pins s p -> frame_of s' b = Some p /\ pins s' p = pins s p;
  kp_safe b : b ∉ U -> safe s b -> safe s' b
}.

Lemma kept_refl s : kept [] s s.
Proof. by split. Qed.

Lemma kept_trans U V s s1 s2 : kept U s s1 -> kept V s1 s2 -> kept (U ++ V) s s2.
Proof.
  intros [F1 S1] [F2 S2]. split.
  - intros b p Hf Hp. destruct (F1 b p Hf Hp) as [Hf1 Hp1]. rewrite <- Hp1 in *. by apply F2.
  - intros b [Hu Hv]%not_elem_of_app Hs. auto.
Qed.

(** Pages that are safe again need not be listed. *)
Lemma kept_safe U V s s' : kept U s s' -> (forall b, b ∈ U -> b ∈ V \/ safe s' b) -> kept V s s'.
Proof.
  intros [F1 S1] HU. split; [done|]. intros b Hb Hs. destruct (decide (b ∈ U)) as [Hin|]; [|auto]. destruct (HU b Hin); [done|done].
Qed.

Lemma change_kept v sf l s s' U : change v (pins s) sf l s s' -> (forall b, b ∉ U -> safe s b -> sf b) -> kept U s s'.
Proof.
  intros [C1 C2 C3 C4 C5] HU. split.
  - intros b p Hf Hp. by rewrite C2, C3.
  - intros b Hb Hs. by apply C4, HU.
Qed.

Lemma stable_kept s s' : stable s -> kept [] s s' -> stable s'.
Proof.
  intros Hst [F1 S1] b. destruct (Hst b) as [Hs|(p & Hf & Hp)].
  - left. apply S1; [apply not_elem_of_nil|done].
  - right. destruct (F1 b p Hf Hp) as [Hf' Hp']. exists p. split; [done|lia].
Qed.

Lemma get_page_run s b : stable s -> exists p s', bc_get b s = Done (0, Some p) s' /\ frame_of s' b = Some p /\
  kept [] s s' /\ (forall b', view s' b' = view s b') /\ locked s' = locked s.
Proof.
  intros Hst. destruct (frame_of s b) as [p|] eqn:Hf.
  - destruct (get_hit s b p Hf) as (s' & E & C). exists p, s'. split; [done|]. pose proof C as [C1 C2 C3 C4 C5].
    split_and!; try done; [by rewrite C2|]. by eapply change_kept.
  - destruct (get_miss s b Hf) as (p & s' & E & Hf' & V & F & Hs & L). exists p, s'. split_and!; try done.
    + split; [done|]. intros b' _. apply Hs.
    + intros b'. apply V, Hst.
Qed.

Lemma got_some {A} p (f : Z -> kern S A) s : bind (got (0, Some p)) f s = f p s.
Proof. reflexivity. Qed.

Lemma dirty_block_hit s b p : frame_of s b = Some p -> exists s', s5_dirty_block b s = Done tt s' /\
  change (view s) (pins s) (fun b' => b' = b \/ safe s b') (locked s) s s'.
Proof.
  intros Hf. destruct (get_hit s b p Hf) as (s1 & E1 & [C1 C2 C3 C4 C5]).
  destruct (dirty_law s1 b p) as (s2 & E2 & [D1 D2 D3 D4 D5]); [by rewrite C2|].
  exists s2. split. { unfold s5_dirty_block. krun E1. rewrite got_some. by krun E2. }
  split; try congruence. intros b' [->|Hs]; apply D4; auto.
Qed.

Lemma dirty_block_run s b : stable s -> exists s', s5_dirty_block b s = Done tt s' /\ kept [] s s' /\
  (forall b', view s' b' = view s b') /\ safe s' b /\ locked s' = locked s.
Proof.
  intros Hst. destruct (get_page_run s b Hst) as (p & s1 & E1 & Hf & K1 & V1 & L1).
  destruct (dirty_law s1 b p Hf) as (s2 & E2 & C). pose proof C as [D1 D2 D3 D4 D5]. exists s2.
  split. { unfold s5_dirty_block. krun E1. rewrite got_some. by krun E2. } split_and!; try congruence.
  - apply (kept_trans [] [] s s1 s2 K1). eapply change_kept; [exact C|]. intros b' _ Hb. by right.
  - apply D4. by left.
Qed.

(** ** Copying and clearing *)
Lemma store_word_run s b p i x : frame_of s b = Some p -> 0 <= i < 1024 -> exists s', bc_store p i x s = Done tt s' /\
  kept [b] s s' /\ (forall b', view s' b' = upd (view s) b (put i x (view s b)) b') /\ (forall b', frame_of s' b' = frame_of s b') /\ (forall q, pins s' q = pins s q) /\ locked s' = locked s.
Proof.
  intros Hf Hi. destruct (store_law s b p i x Hf Hi) as (s' & E & C). pose proof C as [C1 C2 C3 C4 C5]. exists s'. split_and!; try done.
  eapply change_kept; [exact C|]. intros b' Hb Hs. split; [|done]. intros ->. by destruct Hb; left.
Qed.

Lemma copy_words_run n s b p c q : forall d o, frame_of s b = Some p -> frame_of s c = Some q -> b <> c ->
  0 <= d -> d + Z.of_nat n <= 1024 -> 0 <= o -> o + Z.of_nat n <= 1024 ->
  exists s', s5_copy_words n p d q o s = Done tt s' /\ kept [b] s s' /\
    (forall b', view s' b' = upd (view s) b (copy_list n d o (view s c) (view s b)) b') /\ (forall b', frame_of s' b' = frame_of s b') /\ (forall q, pins s' q = pins s q) /\ locked s' = locked s.
Proof.
  revert s. induction n as [|n IH]; intros s d o Hb Hc Hne Hd Hd' Ho Ho'; cbn [s5_copy_words copy_list].
  { exists s. split_and!; try done.
    intros b'. unfold upd. by destruct (decide (b' = b)) as [->|]. }
  krun (load_law s c q o Hc ltac:(lia)).
  destruct (store_word_run s b p d (word (view s c) o) Hb ltac:(lia)) as (s1 & E1 & K1 & V1 & F1 & P1 & L1). krun E1.
  destruct (IH s1 (d + 1) (o + 1)) as (s2 & E2 & K2 & V2 & F2 & P2 & L2); try lia; [by rewrite F1|by rewrite F1|].
  exists s2. split_and!; try congruence.
  - eapply kept_safe; [by apply (kept_trans [b] [b] s s1 s2)|]. set_solver.
  - intros b'. rewrite V2. unfold upd. destruct (decide (b' = b)) as [->|Hn]; [|by rewrite V1, upd_ne].
    rewrite !V1, upd_eq, upd_ne by done. done.
Qed.

Lemma zero_words_run n b p : forall s i, frame_of s b = Some p -> 0 <= i -> i + Z.of_nat n <= 1024 ->
  exists s', s5_zero_words n p i s = Done tt s' /\ kept [b] s s' /\
    (forall b', view s' b' = upd (view s) b (zero_list n i (view s b)) b') /\ (forall b', frame_of s' b' = frame_of s b') /\ (forall q, pins s' q = pins s q) /\ locked s' = locked s.
Proof.
  induction n as [|n IH]; intros s i Hb Hi Hi'; cbn [s5_zero_words zero_list].
  { exists s. split_and!; try done. intros b'. unfold upd. by destruct (decide (b' = b)) as [->|]. }
  destruct (store_word_run s b p i 0 Hb ltac:(lia)) as (s1 & E1 & K1 & V1 & F1 & P1 & L1). krun E1.
  destruct (IH s1 (i + 1)) as (s2 & E2 & K2 & V2 & F2 & P2 & L2); try lia; [by rewrite F1|].
  exists s2. split_and!; try congruence.
  - eapply kept_safe; [by apply (kept_trans [b] [b] s s1 s2)|]. set_solver.
  - intros b'. rewrite V2. unfold upd. destruct (decide (b' = b)) as [->|Hn]; [|by rewrite V1, upd_ne]. by rewrite !V1, upd_eq.
Qed.
End Steps.
End S5Spec.
