(* ===== verification/S5Lists.v ===== *)
(** * The free lists on the device

    The list of free blocks is a chain of nodes of 29 block numbers and the number of
    the next node, which is a free block too; the first node is in the superblock and
    may be partly filled.  The list of free inodes goes through the inodes. *)

From Stdlib Require Import ZArith Lia.
From stdpp Require Import base list gmap.
From S2P Require Import Prelude Vnode S5 S5Spec.

Module S5Lists.
Import S5 S5Spec.
Local Open Scope Z_scope.

(** A word of the superblock and of an inode. *)
Definition sword (v : words) (k : Z) : Z := word (v S5_SUPER_BLOCK) k.
Definition iword (v : words) (i k : Z) : Z := word (v (S5_INODE_BLOCK i)) (INODE_WORDS * S5_INODE_OFFSET i + k).

Definition node (v : words) (b : Z) : list Z := word (v b) <$> seqZ 0 29.

Inductive chain (v : words) : Z -> list Z -> Prop :=
| chain_end : chain v NONE []
| chain_node b l : b <> NONE -> chain v (word (v b) 29) l -> chain v b (b :: node v b ++ l).

Definition first_node (v : words) : list Z := (fun k => sword v (s5s_free_blocks + k)) <$> seqZ 0 (sword v s5s_nfree).

Inductive ichain (v : words) : Z -> list Z -> Prop :=
| ichain_end : ichain v NONE []
| ichain_cons i l : 0 <= i < sword v s5s_num_inodes -> ichain v (iword v i s5_next_free) l -> ichain v i (i :: l).

(** A block behind the inodes. *)
Definition data_block (v : words) (b : Z) : Prop := S5_INODE_BLOCK (sword v s5s_num_inodes - 1) < b < NONE.

Definition sized (v : words) : Prop := forall b, length (v b) = 1024%nat.

(** Every inode has its number. *)
Definition numbered (v : words) : Prop :=
  0 < sword v s5s_num_inodes <= 2 ^ 31 /\ forall i, 0 <= i < sword v s5s_num_inodes -> iword v i s5_number = i.

Record blocks_free (v : words) (fl : list Z) : Prop := {
  bf_nfree : 0 <= sword v s5s_nfree <= 29;
  bf_list : exists l, chain v (sword v (s5s_free_blocks + 29)) l /\ fl ≡ₚ first_node v ++ l;
  bf_nodup : NoDup fl;
  bf_data b : b ∈ fl -> data_block v b
}.

Record inodes_free (v : words) (il : list Z) : Prop := {
  if_chain : ichain v (sword v s5s_free_inode) il;
  if_nodup : NoDup il
}.

Record fs_ok (v : words) (il fl : list Z) : Prop := {
  fo_sized : sized v;
  fo_numbered : numbered v;
  fo_inodes : inodes_free v il;
  fo_blocks : blocks_free v fl
}.

(** ** Places *)
Lemma inode_place i n : 0 <= i < n -> 1 <= S5_INODE_BLOCK i <= S5_INODE_BLOCK (n - 1) /\ 0 <= INODE_WORDS * S5_INODE_OFFSET i <= 992.
Proof.
  unfold S5_INODE_BLOCK, S5_INODE_OFFSET, INODE_WORDS. change S5_INODES_PER_BLOCK with 32. intros Hi. dlia.
Qed.

Lemma inode_apart i j k m : 0 <= k < 32 -> 0 <= m < 32 -> 0 <= i -> 0 <= j -> S5_INODE_BLOCK i = S5_INODE_BLOCK j ->
  INODE_WORDS * S5_INODE_OFFSET i + k = INODE_WORDS * S5_INODE_OFFSET j + m -> i = j /\ k = m.
Proof.
  unfold S5_INODE_BLOCK, S5_INODE_OFFSET, INODE_WORDS. change S5_INODES_PER_BLOCK with 32. intros. dlia.
Qed.

(** ** What the lists depend on *)
Lemma ichain_ext v v' i l : ichain v i l -> sword v' s5s_num_inodes = sword v s5s_num_inodes ->
  (forall j, j ∈ l -> iword v' j s5_next_free = iword v j s5_next_free) -> ichain v' i l.
Proof.
  intros Hc Hn. induction Hc as [|i l Hi Hc IH]; intros Hl; constructor; [by rewrite Hn|].
  rewrite Hl by left. apply IH. intros j Hj. apply Hl. by right.
Qed.

Lemma ichain_in v i l : ichain v i l -> forall j, j ∈ l -> 0 <= j < sword v s5s_num_inodes.
Proof. induction 1; intros j; [by intros ?%elem_of_nil|]. intros [->|?]%elem_of_cons; auto. Qed.

Lemma ichain_first v m l : ichain v m l -> m = NONE \/ m < sword v s5s_num_inodes.
Proof. destruct 1; [by left|right; lia]. Qed.

Lemma ichain_head v m i l : ichain v m (i :: l) -> m = i /\ 0 <= i < sword v s5s_num_inodes /\ ichain v (iword v i s5_next_free) l.
Proof. intros Hc. by inversion Hc; subst. Qed.

Lemma chain_ext v v' b l : chain v b l -> (forall c, c ∈ l -> v' c = v c) -> chain v' b l.
Proof.
  induction 1 as [|b l Hb Hc IH]; intros Hl; [constructor|].
  replace (node v b) with (node v' b) by (unfold node; by rewrite (Hl b) by left). constructor; [done|].
  rewrite (Hl b) by left. apply IH. intros c Hin. apply Hl. right. apply elem_of_app. by right.
Qed.

Lemma first_node_ext v v' : sword v' s5s_nfree = sword v s5s_nfree ->
  (forall k, 0 <= k < sword v s5s_nfree -> sword v' (s5s_free_blocks + k) = sword v (s5s_free_blocks + k)) -> first_node v' = first_node v.
Proof.
  intros Hn Hk. unfold first_node. rewrite Hn. apply list_fmap_ext. intros j x Hx%lookup_seqZ. apply Hk. lia.
Qed.

Lemma blocks_free_ext v v' fl : blocks_free v fl -> (forall k, 2 <= k <= 34 -> sword v' k = sword v k) -> (forall b, b ∈ fl -> v' b = v b) ->
  blocks_free v' fl.
Proof.
  intros [Hn (l & Hc & Hp) Hnd Hd] Hs Hb. unfold s5s_nfree, s5s_free_blocks in *. split.
  - unfold s5s_nfree. by rewrite Hs by lia.
  - exists l. rewrite Hs by (unfold s5s_free_blocks; lia). split; [eapply chain_ext; [exact Hc|]; intros c Hin; apply Hb; rewrite Hp; apply elem_of_app; by right|].
    by rewrite (first_node_ext v v') by (intros; unfold s5s_nfree, s5s_free_blocks in *; apply Hs; lia).
  - done.
  - intros b Hin. unfold data_block. rewrite Hs by (unfold s5s_num_inodes; lia). by apply Hd.
Qed.

Lemma numbered_ext v v' : numbered v -> sword v' s5s_num_inodes = sword v s5s_num_inodes ->
  (forall i, 0 <= i < sword v s5s_num_inodes -> iword v' i s5_number = iword v i s5_number) -> numbered v'.
Proof. intros [Hn Hi] Hs Hw. split; rewrite Hs; [done|]. intros i Hr. rewrite Hw by done. by apply Hi. Qed.

(** The lists of contents that agree are the same. *)
Lemma fs_ok_proper v v' il fl : (forall b, v' b = v b) -> fs_ok v il fl -> fs_ok v' il fl.
Proof.
  intros Hv [Hl Hn [Hi Hnd] Hf].
  assert (forall k, sword v' k = sword v k) as Hs by (intros k; unfold sword; by rewrite Hv).
  assert (forall i k, iword v' i k = iword v i k) as Hw by (intros i k; unfold iword; by rewrite Hv).
  split.
  - intros b. rewrite Hv. apply Hl.
  - by apply (numbered_ext v).
  - split; [|done]. rewrite Hs. by apply (ichain_ext v).
  - by apply (blocks_free_ext v).
Qed.

(** ** Freeing a block *)
Definition freed (b : Z) (v : words) : words :=
  let s := v S5_SUPER_BLOCK in
  let n := word s s5s_nfree in
  if n =? 29 then upd (upd v b (copy_list 30 0 s5s_free_blocks s (v b))) S5_SUPER_BLOCK (put (s5s_free_blocks + 29) b (put s5s_nfree 0 s))
  else upd v S5_SUPER_BLOCK (put (s5s_free_blocks + n) b (put s5s_nfree (n + 1) s)).

Lemma freed_proper b v v' : (forall c, v' c = v c) -> forall c, freed b v' c = freed b v c.
Proof. intros Hv c. unfold freed, upd. rewrite !Hv. destruct (_ =? 29); repeat destruct (decide _); auto. Qed.

Section Freed.
Context (v : words) (b : Z) (Hl : sized v) (Hn : 0 <= sword v s5s_nfree <= 29) (Hb : b <> S5_SUPER_BLOCK).

Lemma freed_super k : 0 <= k -> sword (freed b v) k =
  if sword v s5s_nfree =? 29 then (if decide (k = 32) then b else if decide (k = 2) then 0 else sword v k)
  else (if decide (k = 3 + sword v s5s_nfree) then b else if decide (k = 2) then sword v s5s_nfree + 1 else sword v k).
Proof.
  intros Hk. unfold freed, sword in *. assert (Z.of_nat (length (v S5_SUPER_BLOCK)) = 1024) as Hlen by (rewrite Hl; done).
  destruct (Z.eqb_spec (word (v S5_SUPER_BLOCK) s5s_nfree) 29); rewrite upd_eq, !word_put by (rewrite ?put_length, ?Hlen; unfold s5s_free_blocks, s5s_nfree in *; lia);
    unfold s5s_free_blocks, s5s_nfree in *; done.
Qed.

Lemma freed_other c : c <> S5_SUPER_BLOCK -> c <> b -> freed b v c = v c.
Proof. intros Hc Hcb. unfold freed. destruct (_ =? 29); by rewrite !upd_ne by done. Qed.

Lemma freed_sized : sized (freed b v).
Proof.
  intros c. unfold freed, upd. destruct (_ =? 29); repeat destruct (decide _); subst; rewrite ?put_length, ?copy_list_length; apply Hl.
Qed.

Lemma freed_node : sword v s5s_nfree = 29 -> node (freed b v) b = first_node v /\ word (freed b v b) 29 = sword v (s5s_free_blocks + 29).
Proof.
  intros Hfull. assert (forall k, 0 <= k < 30 -> word (freed b v b) k = sword v (s5s_free_blocks + k)) as Hw.
  { intros k Hk. unfold freed. fold (sword v s5s_nfree). rewrite Hfull. change (29 =? 29) with true. cbn iota.
    rewrite upd_ne, upd_eq, word_copy by (rewrite ?Hl; done || lia). rewrite decide_True by lia. unfold sword. f_equal. lia. }
  split; [|by apply Hw]. unfold node, first_node. rewrite Hfull. apply list_fmap_ext. intros j x Hx%lookup_seqZ. apply Hw. lia.
Qed.
End Freed.

Lemma data_nonzero v b : numbered v -> data_block v b -> b <> S5_SUPER_BLOCK /\ b <> NONE /\ forall i, 0 <= i < sword v s5s_num_inodes -> S5_INODE_BLOCK i <> b.
Proof.
  intros [Hn _] [Hb1 Hb2]. pose proof (inode_place 0 (sword v s5s_num_inodes) ltac:(lia)) as [[_ H0] _].
  change (S5_INODE_BLOCK 0) with 1 in H0. unfold S5_SUPER_BLOCK. split_and!; [lia|lia|].
  intros i Hi. pose proof (inode_place i _ Hi). lia.
Qed.

Lemma freed_num v b : sized v -> 0 <= sword v s5s_nfree <= 29 -> forall k, 0 <= k -> k < 2 \/ 32 < k -> sword (freed b v) k = sword v k.
Proof.
  intros Hl Hn k Hk Hk'. rewrite freed_super by done. destruct (_ =? 29); repeat case_decide; lia.
Qed.

Lemma seqZ_snoc n : 0 <= n -> seqZ 0 (n + 1) = seqZ 0 n ++ [n].
Proof. intros Hn. rewrite (seqZ_app 0 n 1) by lia. by rewrite Z.add_0_l. Qed.

Lemma freed_blocks v fl b : sized v -> numbered v -> blocks_free v fl -> data_block v b -> b ∉ fl -> blocks_free (freed b v) (b :: fl).
Proof.
  intros Hl Hnum [Hn (l & Hc & Hp) Hnd Hd] Hb Hni. destruct (data_nonzero v b Hnum Hb) as (Hb0 & HbN & _).
  assert (chain (freed b v) (sword v (s5s_free_blocks + 29)) l) as Hc'.
  { apply (chain_ext v); [done|]. intros c Hin. assert (c ∈ fl) as Hfl by (rewrite Hp; apply elem_of_app; by right).
    apply freed_other; [apply (data_nonzero v); auto|]. by intros ->. }
  pose proof (freed_super v b Hl Hn) as Hs. split.
  - rewrite Hs by done. unfold s5s_nfree in *. destruct (Z.eqb_spec (sword v 2) 29); repeat case_decide; lia.
  - destruct (decide (sword v s5s_nfree = 29)) as [Hfull|Hfree].
    + destruct (freed_node v b Hl Hb0 Hfull) as [Hnode Hmore]. exists (b :: node (freed b v) b ++ l).
      rewrite Hs, Hfull by done. cbn. split; [constructor; [done|by rewrite Hmore]|].
      unfold first_node at 1. rewrite Hs, Hfull by done. cbn. rewrite Hnode. by rewrite Hp.
    + exists l. rewrite Hs by done. rewrite (proj2 (Z.eqb_neq _ _) Hfree). unfold s5s_free_blocks, s5s_nfree in *.
      rewrite decide_False by lia. rewrite decide_False by done. split; [done|].
      unfold first_node, s5s_nfree, s5s_free_blocks. rewrite Hs by done. rewrite (proj2 (Z.eqb_neq _ _) Hfree), decide_False, decide_True by lia.
      rewrite seqZ_snoc, fmap_app by lia. cbn. rewrite Hs, (proj2 (Z.eqb_neq _ _) Hfree), decide_True by lia.
      rewrite (list_fmap_ext _ (fun k => sword v (3 + k))).
      2:{ intros j x Hx%lookup_seqZ. rewrite Hs, (proj2 (Z.eqb_neq _ _) Hfree) by lia. by rewrite !decide_False by lia. }
      rewrite Hp. unfold first_node, s5s_nfree, s5s_free_blocks. rewrite <- (assoc (++)). cbn. apply Permutation_middle.
  - apply NoDup_cons. done.
  - intros c Hin. unfold data_block. rewrite (freed_num v b) by (done || unfold s5s_num_inodes; lia).
    apply elem_of_cons in Hin as [->|Hin]; [done|by apply Hd].
Qed.

(** A block goes onto the list; the inodes and all other blocks are unchanged. *)
Lemma freed_fs_ok v il fl b : fs_ok v il fl -> data_block v b -> b ∉ fl -> fs_ok (freed b v) il (b :: fl).
Proof.
  intros [Hl Hnum [Hi Hind] Hf] Hb Hni. destruct (data_nonzero v b Hnum Hb) as (Hb0 & _ & Hib). pose proof (bf_nfree _ _ Hf) as Hn.
  assert (forall k, 0 <= k -> k < 2 \/ 32 < k -> sword (freed b v) k = sword v k) as Hs by (by apply freed_num).
  assert (forall i k, 0 <= i < sword v s5s_num_inodes -> iword (freed b v) i k = iword v i k) as Hw.
  { intros i k Hr. unfold iword. rewrite freed_other; [done| |by apply Hib]. pose proof (inode_place i _ Hr). unfold S5_SUPER_BLOCK. lia. }
  split.
  - by apply freed_sized.
  - apply (numbered_ext v); [done|by apply Hs; [done|right]|]. intros i Hr. by apply Hw.
  - split; [|done]. rewrite Hs by (unfold s5s_free_inode; lia). apply (ichain_ext v); [done|by apply Hs; [done|right]|].
    intros j Hj. apply Hw. by eapply ichain_in.
  - by apply freed_blocks.
Qed.
End S5Lists.
