(* ===== verification/S5Ops.v ===== *)
(** * The operations on the free lists

    Each operation returns, leaves the list it works on with one element more or one
    less, and marks what it has changed: no page is left that could be lost. *)

From Stdlib Require Import ZArith Lia.
From stdpp Require Import base list gmap.
From S2P Require Import Prelude Vnode S5 S5Spec S5Lists.

Module S5Ops.
Import S5 S5Spec S5Lists.
Local Open Scope Z_scope.

Section Ops.
Context {S : Type} `{BlockCacheLaws S} (fs : s5fs).
Implicit Types s : S.

(** The superblock is in a pinned frame since the file system was mounted. *)
Definition mounted s : Prop := frame_of s S5_SUPER_BLOCK = Some (s5f_super fs) /\ 0 < pins s (s5f_super fs).

Lemma mounted_kept U s s' : mounted s -> kept U s s' -> mounted s'.
Proof. intros [Hf Hp] K. destruct (kp_frame _ _ _ K _ _ Hf Hp) as [Hf' Hp']. split; [done|lia]. Qed.

Lemma sized_view s : sized (view s).
Proof. intros b. apply view_length. Qed.

Lemma word_range s k : mounted s -> 0 <= k < 1024 -> bc_load (s5f_super fs) k s = Done (sword (view s) k) s.
Proof. intros [Hf _] Hk. by apply load_law. Qed.

(** The block becomes a node of the list: what [s5_free_block] does when the node in
    the superblock is full. *)
Lemma new_node_run s b : stable s -> mounted s -> b <> S5_SUPER_BLOCK -> exists s',
  (forall k : kern S unit, (let* r := bc_get b in
   let* prev_free_blocks := deref r.2 in
   s5_copy_words (Z.to_nat S5_NBLKS_PER_FNODE) prev_free_blocks 0 (s5f_super fs) s5s_free_blocks ;;
   bc_dirty prev_free_blocks ;;
   k) s = k s') /\ kept [] s s' /\
  (forall b', view s' b' = upd (view s) b (copy_list 30 0 s5s_free_blocks (view s S5_SUPER_BLOCK) (view s b)) b') /\ locked s' = locked s.
Proof.
  intros Hst Hm Hb. destruct (get_page_run s b Hst) as (p & s1 & E1 & Hf & K1 & V1 & L1).
  destruct (mounted_kept _ _ _ Hm K1) as [Hf0 _].
  destruct (copy_words_run (Z.to_nat S5_NBLKS_PER_FNODE) s1 b p S5_SUPER_BLOCK (s5f_super fs) 0 s5s_free_blocks) as (s2 & E2 & K2 & V2 & F2 & P2 & L2); try done.
  destruct (dirty_law s2 b p) as (s3 & E3 & C); [by rewrite F2|]. pose proof C as [C1 C2 C3 C4 C5].
  exists s3. split_and!.
  - intros k. krun E1. cbn [snd]. erewrite (bind_done _ _ _ p) by reflexivity. krun E2. by krun E3.
  - eapply (kept_safe ([] ++ [b] ++ [])); [apply (kept_trans _ _ s s1); [done|]; apply (kept_trans _ _ s1 s2); [done|]|].
    + eapply change_kept; [exact C|]. intros b' _ Hs. by right.
    + intros b' [->|[]%elem_of_nil]%elem_of_cons. right. apply C4. by left.
  - intros b'. rewrite C1, V2. unfold upd. destruct (decide (b' = b)) as [->|]; [by rewrite !V1|apply V1].
  - congruence.
Qed.

(** Two words of the superblock are stored, and it is marked dirty. *)
Lemma super_stores_run s i x j y : mounted s -> 0 <= i < 1024 -> 0 <= j < 1024 -> exists s',
  (bc_store (s5f_super fs) i x ;; bc_store (s5f_super fs) j y) s = Done tt s' /\ kept [S5_SUPER_BLOCK] s s' /\
  (forall b', view s' b' = upd (view s) S5_SUPER_BLOCK (put j y (put i x (view s S5_SUPER_BLOCK))) b') /\ locked s' = locked s.
Proof.
  intros Hm Hi Hj. pose proof Hm as [Hf Hp]. destruct (store_word_run s _ _ i x Hf Hi) as (s1 & E1 & K1 & V1 & F1 & P1 & L1).
  destruct (store_word_run s1 S5_SUPER_BLOCK (s5f_super fs) j y) as (s2 & E2 & K2 & V2 & F2 & P2 & L2); [by rewrite F1|done|].
  exists s2. split_and!; [by krun E1| |..].
  - eapply kept_safe; [by apply (kept_trans [S5_SUPER_BLOCK] [S5_SUPER_BLOCK] s s1 s2)|]. set_solver.
  - intros b'. rewrite V2. unfold upd. destruct (decide (b' = S5_SUPER_BLOCK)) as [->|]; [by rewrite V1, upd_eq|by rewrite V1, upd_ne].
  - congruence.
Qed.

Lemma dirty_super_run s : mounted s -> exists s', s5_dirty_super s = Done tt s' /\ kept [] s s' /\
  (forall b', view s' b' = view s b') /\ safe s' S5_SUPER_BLOCK /\ locked s' = locked s.
Proof.
  intros [Hf Hp]. destruct (dirty_block_hit s _ _ Hf) as (s' & E & C). pose proof C as [C1 C2 C3 C4 C5]. exists s'. split_and!; try done.
  - eapply change_kept; [exact C|]. intros b' _ Hs. by right.
  - apply C4. by left.
Qed.

Lemma lock_fs_run s : locked s = false -> exists s', lock_s5 s = Done tt s' /\ kept [] s s' /\ (forall b', view s' b' = view s b') /\
  (forall b', frame_of s' b' = frame_of s b') /\ locked s' = true.
Proof. intros L. destruct (lock_law s L) as (s' & E & C). pose proof C as [C1 C2 C3 C4 C5]. exists s'. split_and!; try done. by eapply change_kept. Qed.

Lemma unlock_fs_run s : locked s = true -> exists s', unlock_s5 s = Done tt s' /\ kept [] s s' /\ (forall b', view s' b' = view s b') /\
  (forall b', frame_of s' b' = frame_of s b') /\ locked s' = false.
Proof. intros L. destruct (unlock_law s L) as (s' & E & C). pose proof C as [C1 C2 C3 C4 C5]. exists s'. split_and!; try done. by eapply change_kept. Qed.

(** The assignments of [s5_free_block], in both branches. *)
Definition push_block (b n : Z) : kern S unit :=
  if S5_NBLKS_PER_FNODE - 1 =? n then
    let* r := bc_get b in
    let* prev_free_blocks := deref r.2 in
    s5_copy_words (Z.to_nat S5_NBLKS_PER_FNODE) prev_free_blocks 0 (s5f_super fs) s5s_free_blocks ;;
    bc_dirty prev_free_blocks ;;
    bc_store (s5f_super fs) s5s_nfree 0 ;;
    bc_store (s5f_super fs) (s5s_free_blocks + (S5_NBLKS_PER_FNODE - 1)) b
  else
    bc_store (s5f_super fs) s5s_nfree (u32 (n + 1)) ;;
    bc_store (s5f_super fs) (s5s_free_blocks + n) b.

Lemma push_block_run s b : stable s -> mounted s -> b <> S5_SUPER_BLOCK -> 0 <= sword (view s) s5s_nfree <= 29 ->
  exists s', push_block b (sword (view s) s5s_nfree) s = Done tt s' /\ kept [S5_SUPER_BLOCK] s s' /\
    (forall b', view s' b' = freed b (view s) b') /\ locked s' = locked s.
Proof.
  intros Hst Hm Hb Hn. unfold push_block, freed, sword in *. set (n := word (view s S5_SUPER_BLOCK) s5s_nfree) in *.
  change (S5_NBLKS_PER_FNODE - 1) with 29. rewrite (Z.eqb_sym 29 n). destruct (Z.eqb_spec n 29) as [Hfull|Hfree].
  - destruct (new_node_run s b Hst Hm Hb) as (s2 & E2 & K2 & V2 & L2).
    rewrite E2. destruct (super_stores_run s2 s5s_nfree 0 (s5s_free_blocks + 29) b (mounted_kept _ _ _ Hm K2) ltac:(done) ltac:(done)) as (s3 & E3 & K3 & V3 & L3).
    exists s3. split_and!; [done|by apply (kept_trans [] _ _ s2)| |congruence].
    intros b'. rewrite V3. unfold upd. rewrite !V2. unfold upd. rewrite (decide_False (P := S5_SUPER_BLOCK = b)) by done. done.
  - destruct (super_stores_run s s5s_nfree (u32 (n + 1)) (s5s_free_blocks + n) b Hm ltac:(done) ltac:(unfold s5s_free_blocks; lia)) as (s3 & E3 & K3 & V3 & L3).
    exists s3. split_and!; [done|done| |congruence]. intros b'. by rewrite V3, u32_small by lia.
Qed.

Lemma free_block_run s b : stable s -> locked s = false -> mounted s -> 0 <= sword (view s) s5s_nfree <= 29 -> b <> S5_SUPER_BLOCK ->
  exists s', s5_free_block fs b s = Done tt s' /\ kept [] s s' /\ (forall b', view s' b' = freed b (view s) b') /\ locked s' = false.
Proof.
  intros Hst Hl Hm Hn Hb. destruct (lock_fs_run s Hl) as (s1 & E1 & K1 & V1 & _ & L1). unfold s5_free_block. krun E1.
  pose proof (mounted_kept _ _ _ Hm K1) as Hm1. krun (word_range s1 s5s_nfree Hm1 ltac:(done)).
  assert (sword (view s1) s5s_nfree = sword (view s) s5s_nfree) as Hn1 by (unfold sword; by rewrite V1).
  rewrite (bind_done _ _ s1 tt s1) by (apply kassert_true, Z.ltb_lt; unfold S5_NBLKS_PER_FNODE; lia).
  fold (push_block b (sword (view s1) s5s_nfree)).
  destruct (push_block_run s1 b (stable_kept _ _ Hst K1) Hm1 Hb ltac:(lia)) as (s2 & E2 & K2 & V2 & L2). krun E2.
  destruct (dirty_super_run s2 (mounted_kept _ _ _ Hm1 K2)) as (s3 & E3 & K3 & V3 & S3 & L3). krun E3.
  destruct (unlock_fs_run s3) as (s4 & E4 & K4 & V4 & _ & L4); [congruence|]. exists s4. split_and!; try done.
  - eapply (kept_safe ([] ++ [S5_SUPER_BLOCK] ++ [] ++ [])); [apply (kept_trans _ _ s s1); [done|]; apply (kept_trans _ _ s1 s2); [done|]; by apply (kept_trans _ _ s2 s3)|].
    intros b' [->|[]%elem_of_nil]%elem_of_cons. right. by apply (kp_safe _ _ _ K4); [apply not_elem_of_nil|].
  - intros b'. rewrite V4, V3, V2. by apply freed_proper.
Qed.

(** The state between operations: no page can be lost, nobody is in the file system. *)
Record ready s : Prop := {
  rd_safe b : safe s b;
  rd_lock : locked s = false;
  rd_super : mounted s
}.

Lemma ready_stable s : ready s -> stable s.
Proof. intros Hr b. left. by apply rd_safe. Qed.

Lemma ready_kept s s' : ready s -> kept [] s s' -> locked s' = false -> ready s'.
Proof.
  intros [R1 R2 R3] K L. split; [|done|by eapply mounted_kept]. intros b. apply (kp_safe _ _ _ K); [apply not_elem_of_nil|done].
Qed.

(** [s5_free_block] puts a block of the data area on the list of free blocks:
    the list is well formed and has exactly that block more, whether the node in the
    superblock had room or the block has become a node itself.  No other block but
    the superblock has changed, and everything that was stored is marked to be
    written. *)
Theorem s5_free_block_spec s b il fl : ready s -> fs_ok (view s) il fl -> data_block (view s) b -> b ∉ fl ->
  exists s', s5_free_block fs b s = Done tt s' /\ ready s' /\ fs_ok (view s') il (b :: fl) /\
    (forall c, c <> S5_SUPER_BLOCK -> c <> b -> view s' c = view s c).
Proof.
  intros Hr Hok Hb Hni. destruct (data_nonzero _ _ (fo_numbered _ _ _ Hok) Hb) as (Hb0 & _).
  destruct (free_block_run s b (ready_stable s Hr) (rd_lock _ Hr) (rd_super _ Hr) (bf_nfree _ _ (fo_blocks _ _ _ Hok)) Hb0) as (s' & E & K & V & L).
  exists s'. split_and!; [done|by apply (ready_kept s)| |].
  - apply (fs_ok_proper (freed b (view s))); [done|by apply freed_fs_ok].
  - intros c Hc Hcb. rewrite V. by apply freed_other.
Qed.

(** The check at mounting and unmounting looks at five words of the superblock; what
    it asks of the list of free inodes holds of every well-formed one. *)
Theorem s5_check_super_ok s il fl : mounted s -> fs_ok (view s) il fl -> sword (view s) s5s_root_inode < sword (view s) s5s_num_inodes ->
  s5_check_super (s5f_super fs) s =
    Done (if (sword (view s) s5s_magic =? S5_MAGIC) && (sword (view s) s5s_version =? S5_CURRENT_VERSION) then 0 else -1) s.
Proof.
  intros Hm Hok Hroot. unfold s5_check_super.
  krun (word_range s s5s_magic Hm ltac:(done)). krun (word_range s s5s_free_inode Hm ltac:(done)).
  krun (word_range s s5s_num_inodes Hm ltac:(done)). krun (word_range s s5s_root_inode Hm ltac:(done)). rewrite (proj2 (Z.ltb_lt _ _) Hroot), andb_true_r.
  assert ((sword (view s) s5s_free_inode <? sword (view s) s5s_num_inodes) || (sword (view s) s5s_free_inode =? NONE) = true) as ->.
  { apply orb_true_iff. destruct (ichain_first _ _ _ (if_chain _ _ (fo_inodes _ _ _ Hok))); [right; by apply Z.eqb_eq|left; by apply Z.ltb_lt]. }
  rewrite andb_true_r. destruct (_ =? S5_MAGIC); [|done]. cbn [negb]. krun (word_range s s5s_version Hm ltac:(done)). by destruct (_ =? S5_CURRENT_VERSION).
Qed.
End Ops.
End S5Ops.
