(* ===== verification/S5Inode.v ===== *)
(** * Taking and returning inodes

    [s5_alloc_inode] takes the first inode off the list of free inodes and
    initialises it; [s5_free_inode] returns the blocks of an inode and puts it on the
    list. *)

From Stdlib Require Import ZArith Lia.
From stdpp Require Import base list gmap.
From S2P Require Import Prelude Vnode S5 S5Spec S5Lists S5Ops.

Module S5Inode.
Import S5 S5Spec S5Lists S5Ops.
Local Open Scope Z_scope.

(** The words of a block with a new inode at [o]. *)
Definition new_inode (o type ind : Z) (l : list Z) : list Z :=
  let l := put (o + s5_size) 0 l in
  let l := put (o + s5_type_links) (with_type type (word l (o + s5_type_links))) l in
  let l := put (o + s5_type_links) (with_links 0 (word l (o + s5_type_links))) l in
  put (o + s5_indirect_block) ind (zero_list 28 (o + s5_direct_blocks) l).

Lemma typed_word t w : 0 <= t < 2 ^ 16 -> type_of_word (with_type t w) = t /\ with_links 0 (with_type t w) = t.
Proof.
  intros Ht. assert (Z.land (with_type t w) 0xFFFF = t) as E.
  { unfold with_type. rewrite Z.land_lor_distr_l, <- Z.land_assoc. change (Z.land 0xFFFF0000 0xFFFF) with 0. rewrite Z.land_0_r, Z.lor_0_l.
    change 0xFFFF with (Z.ones 16). rewrite Z.land_ones by lia. by apply Z.mod_small. }
  split; [done|]. unfold with_links. rewrite E. change (Z.shiftl (0 mod 2 ^ 16) 16) with 0. apply Z.lor_0_r.
Qed.

Lemma new_inode_word o type ind l j : length l = 1024%nat -> 0 <= o <= 992 -> 0 <= type < 2 ^ 16 -> 0 <= j -> word (new_inode o type ind l) j =
  if decide (o <= j < o + 32) then
    (if decide (j = o + 1) then word l j else if decide (j = o + 2) then type else if decide (j = o + 31) then ind else 0)
  else word l j.
Proof.
  intros Hl Ho Ht Hj. unfold new_inode. assert (Z.of_nat (length l) = 1024) as Hlen by lia.
  unfold s5_indirect_block, s5_direct_blocks, s5_type_links, s5_size.
  rewrite word_put by (rewrite ?zero_list_length, ?put_length; lia). rewrite word_zero by (rewrite ?put_length; lia).
  rewrite !word_put by (rewrite ?put_length; lia). rewrite !(decide_True (P := o + 2 = o + 2)) by done. rewrite (proj2 (typed_word type _ Ht)).
  repeat case_decide; try done; lia.
Qed.

(** The contents once inode [i] has been taken, and the list goes on with [next]. *)
Definition taken (i type ind next : Z) (v : words) : words :=
  upd (upd v S5_SUPER_BLOCK (put s5s_free_inode next (v S5_SUPER_BLOCK))) (S5_INODE_BLOCK i)
    (new_inode (INODE_WORDS * S5_INODE_OFFSET i) type ind (v (S5_INODE_BLOCK i))).

Section Taken.
Context (v : words) (i type ind next : Z) (Hl : sized v) (Hi : 0 <= i < sword v s5s_num_inodes) (Ht : 0 <= type < 2 ^ 16).
Local Abbreviation v' := (taken i type ind next v).

Lemma taken_other b : b <> S5_SUPER_BLOCK -> b <> S5_INODE_BLOCK i -> v' b = v b.
Proof. intros Hb Hbi. unfold taken. by rewrite !upd_ne. Qed.

Lemma taken_super k : 0 <= k -> sword v' k = if decide (k = s5s_free_inode) then next else sword v k.
Proof.
  intros Hk. pose proof (inode_place i _ Hi). unfold sword, taken. rewrite upd_ne by (unfold S5_SUPER_BLOCK; lia).
  rewrite upd_eq, word_put; [done|rewrite Hl; done|done].
Qed.

Lemma taken_inode k : 0 <= k < 32 -> iword v' i k =
  if decide (k = s5_number) then iword v i k else if decide (k = s5_type_links) then type else if decide (k = s5_indirect_block) then ind else 0.
Proof.
  intros Hk. pose proof (inode_place i _ Hi). unfold iword, taken. rewrite upd_eq, new_inode_word by (done || lia). rewrite decide_True by lia.
  unfold s5_number, s5_type_links, s5_indirect_block. repeat case_decide; lia || done.
Qed.

Lemma taken_others j k : 0 <= j < sword v s5s_num_inodes -> j <> i -> 0 <= k < 32 -> iword v' j k = iword v j k.
Proof.
  intros Hj Hji Hk. pose proof (inode_place i _ Hi). pose proof (inode_place j _ Hj). unfold iword, taken.
  destruct (decide (S5_INODE_BLOCK j = S5_INODE_BLOCK i)) as [E|].
  - rewrite E, upd_eq, new_inode_word by (done || lia). rewrite decide_False; [done|].
    intros Hr. destruct (inode_apart j i k (INODE_WORDS * S5_INODE_OFFSET j + k - INODE_WORDS * S5_INODE_OFFSET i)); lia.
  - rewrite !upd_ne by (done || unfold S5_SUPER_BLOCK; lia). done.
Qed.

Lemma taken_fs_ok il fl : fs_ok v (i :: il) fl -> next = iword v i s5_next_free -> fs_ok v' il fl.
Proof.
  intros [_ Hn [Hc [Hni Hnd]%NoDup_cons] Hf] Hnext.
  assert (sword v' s5s_num_inodes = sword v s5s_num_inodes) as Hs by (by rewrite taken_super by done).
  destruct (ichain_head _ _ _ _ Hc) as (_ & _ & Hc'). split.
  - intros b. unfold taken, upd. pose proof (Hl b). repeat destruct (decide _); subst; try done; [|by rewrite put_length].
    unfold new_inode. by rewrite put_length, zero_list_length, !put_length.
  - apply (numbered_ext v); [done|done|]. intros j Hj. destruct (decide (j = i)) as [->|]; [by rewrite taken_inode|by rewrite taken_others].
  - split; [|done]. rewrite taken_super by done. rewrite decide_True by done. apply (ichain_ext v); [by rewrite Hnext|done|]. intros j Hj.
    rewrite taken_others; [done|by eapply ichain_in| |done]. by intros ->.
  - apply (blocks_free_ext v); [done| |].
    + intros k Hk. rewrite taken_super by lia. rewrite decide_False; [done|]. unfold s5s_free_inode. lia.
    + intros b Hb. destruct (data_nonzero v b Hn (bf_data _ _ Hf b Hb)) as (Hb0 & _ & Hbi). apply taken_other; [done|]. intros ->. by apply (Hbi i).
Qed.
End Taken.

Section Alloc.
Context {S : Type} `{BlockCacheLaws S} (fs : s5fs).
Implicit Types s : S.

(** Words of one resident page are stored, and nothing else happens. *)
Record stores (b : Z) (f : list Z -> list Z) s s' : Prop := {
  st_kept : kept [b] s s';
  st_view b' : view s' b' = upd (view s) b (f (view s b)) b';
  st_frame b' : frame_of s' b' = frame_of s b';
  st_pins q : pins s' q = pins s q;
  st_lock : locked s' = locked s
}.

Lemma stores_trans b f g s s1 s2 : stores b f s s1 -> stores b g s1 s2 -> stores b (fun l => g (f l)) s s2.
Proof.
  intros [K1 V1 F1 P1 L1] [K2 V2 F2 P2 L2]. split; try congruence.
  - eapply kept_safe; [by apply (kept_trans [b] [b] s s1 s2)|]. set_solver.
  - intros b'. rewrite V2. unfold upd. destruct (decide (b' = b)) as [->|]; [by rewrite V1, upd_eq|by rewrite V1, upd_ne].
Qed.

Lemma stores_store s b p i x : frame_of s b = Some p -> 0 <= i < 1024 -> exists s', bc_store p i x s = Done tt s' /\ stores b (put i x) s s'.
Proof. intros Hf Hi. destruct (store_word_run s b p i x Hf Hi) as (s' & E & K & V & F & P & L). by exists s'. Qed.

Lemma stores_zero s b p n i : frame_of s b = Some p -> 0 <= i -> i + Z.of_nat n <= 1024 ->
  exists s', s5_zero_words n p i s = Done tt s' /\ stores b (zero_list n i) s s'.
Proof. intros Hf Hi Hn. destruct (zero_words_run n b p s i Hf Hi Hn) as (s' & E & K & V & F & P & L). by exists s'. Qed.

(** The word of the type and the link count is changed. *)
Lemma stores_update s b p i g : frame_of s b = Some p -> 0 <= i < 1024 ->
  exists s', (let* w := bc_load p i in bc_store p i (g w)) s = Done tt s' /\ stores b (fun l => put i (g (word l i)) l) s s'.
Proof.
  intros Hf Hi. krun (load_law s b p i Hf Hi). destruct (stores_store s b p i (g (word (view s b) i)) Hf Hi) as (s' & E & [K V F P L]).
  by exists s'.
Qed.

Lemma init_inode_run s b p o type ind : frame_of s b = Some p -> 0 <= o <= 992 -> exists s',
  (forall A (k : kern S A), (store_inode (Iptr p o) s5_size 0 ;;
   set_type (Iptr p o) type ;;
   set_links (Iptr p o) 0 ;;
   s5_zero_words (Z.to_nat S5_NDIRECT_BLOCKS) p (o + s5_direct_blocks) ;;
   store_inode (Iptr p o) s5_indirect_block ind ;;
   k) s = k s') /\ stores b (new_inode o type ind) s s'.
Proof.
  intros Hf Ho. unfold store_inode, set_type, set_links, load_inode, store_inode. cbn [ip_frame ip_base].
  destruct (stores_store s b p (o + s5_size) 0 Hf ltac:(unfold s5_size; lia)) as (s1 & E1 & T1). rewrite <- (st_frame _ _ _ _ T1) in Hf.
  destruct (stores_update s1 b p (o + s5_type_links) (with_type type) Hf ltac:(unfold s5_type_links; lia)) as (s2 & E2 & T2). rewrite <- (st_frame _ _ _ _ T2) in Hf.
  destruct (stores_update s2 b p (o + s5_type_links) (with_links 0) Hf ltac:(unfold s5_type_links; lia)) as (s3 & E3 & T3). rewrite <- (st_frame _ _ _ _ T3) in Hf.
  destruct (stores_zero s3 b p (Z.to_nat S5_NDIRECT_BLOCKS) (o + s5_direct_blocks) Hf ltac:(unfold s5_direct_blocks; lia) ltac:(change (Z.of_nat (Z.to_nat S5_NDIRECT_BLOCKS)) with 28; unfold s5_direct_blocks; lia)) as (s4 & E4 & T4).
  rewrite <- (st_frame _ _ _ _ T4) in Hf.
  destruct (stores_store s4 b p (o + s5_indirect_block) ind Hf ltac:(unfold s5_indirect_block; lia)) as (s5 & E5 & T5).
  exists s5. split; [intros A k; krun E1; krun E2; krun E3; krun E4; by krun E5|]. exact (stores_trans _ _ _ _ _ _ (stores_trans _ _ _ _ _ _ (stores_trans _ _ _ _ _ _ (stores_trans _ _ _ _ _ _ T1 T2) T3) T4) T5).
Qed.

(** The list of free inodes goes on in the superblock: the page of the inode stays
    where it is meanwhile. *)
Lemma take_inode_run s b p next : mounted fs s -> frame_of s b = Some p -> exists s',
  (forall A (k : kern S A), (bc_store (s5f_super fs) s5s_free_inode next ;;
   bc_pin p ;;
   s5_dirty_super ;;
   bc_unpin p ;;
   k) s = k s') /\ kept [] s s' /\ (forall b', view s' b' = upd (view s) S5_SUPER_BLOCK (put s5s_free_inode next (view s S5_SUPER_BLOCK)) b') /\
    (forall b', frame_of s' b' = frame_of s b') /\ locked s' = locked s.
Proof.
  intros [Hsup Hpin] Hf. destruct (store_word_run s _ _ s5s_free_inode next Hsup ltac:(done)) as (s1 & E1 & K1 & V1 & F1 & P1 & L1).
  destruct (pin_law s1 b p) as (s2 & E2 & [C1 C2 C3 C4 C5]); [by rewrite F1|].
  destruct (dirty_block_hit s2 S5_SUPER_BLOCK (s5f_super fs)) as (s3 & E3 & [D1 D2 D3 D4 D5]); [by rewrite C2, F1|].
  destruct (unpin_law s3 b p) as (s4 & E4 & [G1 G2 G3 G4 G5]).
  { by rewrite D2, C2, F1. }
  { rewrite D3, C3, decide_True by done. pose proof (pins_pos s1 p). lia. }
  exists s4. split; [intros A k; krun E1; krun E2; unfold s5_dirty_super; krun E3; by krun E4|]. split_and!; [|intros b'; by rewrite G1, D1, C1, V1|intros b'; by rewrite G2, D2, C2, F1|congruence].
  split.
  - intros c q Hc Hq. rewrite G2, D2, C2, F1. split; [done|]. rewrite G3, D3, C3, P1. destruct (decide (q = p)); lia.
  - intros c _ Hs. apply G4, D4. destruct (decide (c = S5_SUPER_BLOCK)); [by left|right]. apply C4, (kp_safe _ _ _ K1); [|done]. set_solver.
Qed.

Definition indirect_of (type devid : Z) : Z := if (S5_TYPE_CHR =? type) || (S5_TYPE_BLK =? type) then u32 devid else 0.

Lemma known_types t : known_type t = true -> t = 1 \/ t = 2 \/ t = 4 \/ t = 8.
Proof. unfold known_type. intros [[[E|E]%orb_true_iff|E]%orb_true_iff|E]%orb_true_iff; apply Z.eqb_eq in E; unfold S5_TYPE_DATA, S5_TYPE_DIR, S5_TYPE_CHR, S5_TYPE_BLK in E; lia. Qed.

Lemma dirty_inode_run s b p i o : frame_of s b = Some p -> word (view s b) (o + s5_number) = i -> S5_INODE_BLOCK i = b -> 0 <= o <= 992 ->
  exists s', s5_dirty_inode (Iptr p o) s = Done tt s' /\ change (view s) (pins s) (fun b' => b' = b \/ safe s b') (locked s) s s'.
Proof.
  intros Hf Hw Hb Ho. unfold s5_dirty_inode, load_inode. cbn [ip_frame ip_base].
  krun (load_law s b p (o + s5_number) Hf ltac:(unfold s5_number; lia)). rewrite Hw, Hb. by apply (dirty_block_hit s b p).
Qed.

(** Without a free inode nothing happens. *)
Lemma alloc_none_run s type devid fl : ready fs s -> fs_ok (view s) [] fl -> known_type type = true ->
  exists s', s5_alloc_inode fs type devid s = Done (- Vnode.ENOSPC) s' /\ ready fs s' /\ forall b, view s' b = view s b.
Proof.
  intros Hr Hok Ht. unfold s5_alloc_inode. rewrite (bind_done _ _ s tt s) by (by apply kassert_true).
  destruct (lock_fs_run s (rd_lock _ _ Hr)) as (s1 & E1 & K1 & V1 & _ & L1). krun E1.
  krun (word_range fs s1 s5s_free_inode (mounted_kept _ _ _ _ (rd_super _ _ Hr) K1) ltac:(done)).
  assert (sword (view s1) s5s_free_inode = NONE) as ->.
  { destruct (fo_inodes _ _ _ Hok) as [Hc _]. unfold sword. rewrite V1. by inversion Hc. }
  rewrite Z.eqb_refl. destruct (unlock_fs_run s1 L1) as (s2 & E2 & K2 & V2 & _ & L2). krun E2. exists s2. split_and!; [done| |intros b; by rewrite V2].
  apply (ready_kept _ s); [done|by apply (kept_trans [] [] s s1)|done].
Qed.

Lemma alloc_inode_run s type devid i il fl : ready fs s -> fs_ok (view s) (i :: il) fl -> known_type type = true ->
  exists s', s5_alloc_inode fs type devid s = Done i s' /\ ready fs s' /\
    forall b, view s' b = taken i type (indirect_of type devid) (iword (view s) i s5_next_free) (view s) b.
Proof.
  intros Hr Hok Ht. destruct (fo_inodes _ _ _ Hok) as [Hc _]. destruct (fo_numbered _ _ _ Hok) as [Hnum Hnr].
  destruct (ichain_head _ _ _ _ Hc) as (Hfi & Hi & _). set (b := S5_INODE_BLOCK i) in *. set (o := INODE_WORDS * S5_INODE_OFFSET i).
  pose proof (inode_place i _ Hi) as [Hb Ho]. fold b o in Hb, Ho.
  unfold s5_alloc_inode. rewrite (bind_done _ _ s tt s) by (by apply kassert_true).
  destruct (lock_fs_run s (rd_lock _ _ Hr)) as (s1 & E1 & K1 & V1 & _ & L1). krun E1. pose proof (mounted_kept _ _ _ _ (rd_super _ _ Hr) K1) as Hm1.
  krun (word_range fs s1 s5s_free_inode Hm1 ltac:(done)). replace (sword (view s1) s5s_free_inode) with i by (unfold sword; by rewrite V1).
  rewrite (proj2 (Z.eqb_neq i NONE)) by (unfold NONE; lia).
  destruct (get_page_run s1 b (stable_kept _ _ (ready_stable _ _ Hr) K1)) as (p & s2 & E2 & Hf & K2 & V2 & L2). fold b. krun E2. rewrite got_some. fold o.
  pose proof (mounted_kept _ _ _ _ Hm1 K2) as Hm2.
  assert (forall k, 0 <= k < 32 -> load_inode (Iptr p o) k s2 = Done (iword (view s) i k) s2) as Hload.
  { intros k Hk. unfold load_inode. cbn [ip_frame ip_base]. rewrite (load_law s2 b p) by (done || lia). unfold iword. by rewrite V2, V1. }
  krun (Hload s5_number ltac:(done)). rewrite Hnr by done. rewrite (bind_done _ _ s2 tt s2) by (apply kassert_true, Z.eqb_refl).
  krun (Hload s5_next_free ltac:(done)). set (next := iword (view s) i s5_next_free).
  destruct (take_inode_run s2 b p next Hm2 Hf) as (s3 & E3 & K3 & V3 & F3 & L3). rewrite E3. rewrite <- F3 in Hf.
  cbn [ip_base]. destruct (init_inode_run s3 b p o type (indirect_of type devid) Hf Ho) as (s4 & E4 & [K4 V4 F4 P4 L4]). fold (indirect_of type devid). rewrite E4.
  rewrite <- F4 in Hf. assert (forall c, view s4 c = taken i type (indirect_of type devid) next (view s) c) as V4'.
  { intros c. rewrite V4. unfold taken. fold b o. unfold upd. rewrite !V3. unfold upd. rewrite (decide_False (P := b = S5_SUPER_BLOCK)) by (unfold S5_SUPER_BLOCK; lia).
    repeat destruct (decide _); rewrite ?V2, ?V1; done. }
  destruct (dirty_inode_run s4 b p i o Hf) as (s5 & E5 & C); [|done|done|].
  { rewrite V4'. change (iword (taken i type (indirect_of type devid) next (view s)) i s5_number = i).
    rewrite taken_inode by (apply (fo_sized _ _ _ Hok) || done || (pose proof (known_types _ Ht); lia)). cbn. by apply Hnr. }
  krun E5. pose proof C as [C1 C2 C3 C4 C5]. destruct (unlock_fs_run s5) as (s6 & E6 & K6 & V6 & _ & L6); [congruence|]. krun E6.
  exists s6. unfold ret. rewrite s32_small by lia. split_and!; [done| |intros c; by rewrite V6, C1].
  apply (ready_kept _ s); [done| |done].
  eapply (kept_safe ([] ++ [] ++ [] ++ [b] ++ [] ++ [])).
  - apply (kept_trans _ _ s s1); [done|]. apply (kept_trans _ _ s1 s2); [done|]. apply (kept_trans _ _ s2 s3); [done|]. apply (kept_trans _ _ s3 s4); [done|].
    apply (kept_trans _ _ s4 s5); [|done]. eapply change_kept; [exact C|]. intros c _ Hs. by right.
  - intros c [->|[]%elem_of_nil]%elem_of_cons. right. apply (kp_safe _ _ _ K6); [apply not_elem_of_nil|]. apply C4. by left.
Qed.

(** C15: [s5_alloc_inode] returns the first inode of the list of free inodes, which
    is then gone from the list, with its number kept, the type given, no size, no
    links and no blocks; the number of the device is in the place of the indirect
    block.  No other inode, no other block and no other word of the superblock has
    changed, and everything stored is marked to be written.  Without a free inode the
    result is -ENOSPC and nothing has changed. *)
Theorem s5_alloc_inode_spec s type devid il fl : ready fs s -> fs_ok (view s) il fl -> known_type type = true ->
  exists r s', s5_alloc_inode fs type devid s = Done r s' /\ ready fs s' /\
  match il with
  | [] => r = - Vnode.ENOSPC /\ forall b, view s' b = view s b
  | i :: il => r = i /\ fs_ok (view s') il fl /\
      (forall k, 0 <= k < 32 -> iword (view s') i k = if decide (k = s5_number) then i else if decide (k = s5_type_links) then type
         else if decide (k = s5_indirect_block) then indirect_of type devid else 0) /\
      (forall j k, 0 <= j < sword (view s) s5s_num_inodes -> j <> i -> 0 <= k < 32 -> iword (view s') j k = iword (view s) j k) /\
      (forall b, b <> S5_SUPER_BLOCK -> b <> S5_INODE_BLOCK i -> view s' b = view s b) /\
      (forall k, 0 <= k -> k <> s5s_free_inode -> sword (view s') k = sword (view s) k)
  end.
Proof.
  intros Hr Hok Ht. destruct il as [|i il].
  { destruct (alloc_none_run s type devid fl Hr Hok Ht) as (s' & E & Hr' & V). by exists (- Vnode.ENOSPC), s'. }
  destruct (alloc_inode_run s type devid i il fl Hr Hok Ht) as (s' & E & Hr' & V). exists i, s'. split; [done|]. split; [done|].
  pose proof (fo_sized _ _ _ Hok) as Hl. destruct (ichain_head _ _ _ _ (if_chain _ _ (fo_inodes _ _ _ Hok))) as (_ & Hi & _).
  assert (0 <= type < 2 ^ 16) as Ht' by (pose proof (known_types _ Ht); lia).
  assert (forall j k, iword (view s') j k = iword (taken i type (indirect_of type devid) (iword (view s) i s5_next_free) (view s)) j k) as Hw
    by (intros j k; unfold iword; by rewrite V).
  split_and!; try done.
  - eapply fs_ok_proper; [exact V|]. by apply taken_fs_ok.
  - intros k Hk. rewrite Hw, taken_inode by done. destruct (decide (k = s5_number)) as [->|]; [|done]. by apply (fo_numbered _ _ _ Hok).
  - intros j k Hj Hji Hk. by rewrite Hw, taken_others.
  - intros b Hb Hbi. rewrite V. by apply taken_other.
  - intros k Hk Hk1. unfold sword. rewrite V. fold (sword (taken i type (indirect_of type devid) (iword (view s) i s5_next_free) (view s)) k).
    rewrite taken_super by done. by rewrite decide_False.
Qed.
End Alloc.
End S5Inode.
