(* ===== verification/S5Free.v ===== *)
(** * Returning an inode

    [s5_free_inode] frees the blocks of an inode, the indirect block among them, and
    puts the inode on the list of free inodes. *)

From Stdlib Require Import ZArith Lia.
From stdpp Require Import base list gmap.
From S2P Require Import Prelude Vnode S5 S5Spec S5Lists S5Ops S5Inode.

Module S5Free.
Import S5 S5Spec S5Lists S5Ops S5Inode.
Local Open Scope Z_scope.

Lemma fs_ok_perm v il fl fl' : fl ≡ₚ fl' -> fs_ok v il fl -> fs_ok v il fl'.
Proof.
  intros Hp [Hl Hn Hi [Bn (l & Hc & Hl') Bd Bb]]. split; try done. split; try done.
  - exists l. by rewrite <- Hp.
  - by rewrite <- Hp.
  - intros b. rewrite <- Hp. apply Bb.
Qed.

(** The numbers other than 0 among [f i], ..., [f (i + n - 1)]. *)
Fixpoint blocks_from (f : Z -> Z) (n : nat) (i : Z) : list Z :=
  match n with
  | O => []
  | Datatypes.S n => if f i =? 0 then blocks_from f n (i + 1) else f i :: blocks_from f n (i + 1)
  end.

Lemma blocks_from_ext f g n : forall i, (forall j, i <= j < i + Z.of_nat n -> f j = g j) -> blocks_from f n i = blocks_from g n i.
Proof.
  induction n as [|n IH]; intros i Hf; cbn [blocks_from]; [done|]. rewrite (Hf i) by lia. rewrite (IH (i + 1)) by (intros; apply Hf; lia). done.
Qed.

(** A word of an inode is stored. *)
Definition iput (i k x : Z) (v : words) : words :=
  upd v (S5_INODE_BLOCK i) (put (INODE_WORDS * S5_INODE_OFFSET i + k) x (v (S5_INODE_BLOCK i))).

Lemma iput_iword v i k x j m n : sized v -> 0 <= i < n -> 0 <= j < n -> 0 <= k < 32 -> 0 <= m < 32 ->
  iword (iput i k x v) j m = if decide (j = i /\ m = k) then x else iword v j m.
Proof.
  intros Hl Hi Hj Hk Hm. pose proof (inode_place i n Hi). pose proof (inode_place j n Hj). unfold iword, iput.
  destruct (decide (S5_INODE_BLOCK j = S5_INODE_BLOCK i)) as [E|].
  - rewrite E, upd_eq, word_put by (rewrite ?Hl; lia).
    destruct (decide (j = i /\ m = k)) as [[-> ->]|Hne]; [by rewrite decide_True|]. rewrite decide_False; [done|].
    intros E'. by destruct Hne; apply (inode_apart j i m k); try lia.
  - rewrite upd_ne by done. rewrite decide_False; [done|]. by intros [-> _].
Qed.

Lemma iput_sized i k x v : sized v -> sized (iput i k x v).
Proof. intros Hl b. unfold iput, upd. destruct (decide _) as [->|]; [rewrite put_length|]; apply Hl. Qed.

Lemma iput_super v i k x n m : 0 <= i < n -> sword (iput i k x v) m = sword v m.
Proof. intros Hi. pose proof (inode_place i n Hi). unfold sword, iput. rewrite upd_ne; [done|]. unfold S5_SUPER_BLOCK. lia. Qed.

Section Freeing.
Context (v0 : words) (i : Z) (il fl : list Z) (Hi : 0 <= i < sword v0 s5s_num_inodes) (Hni : i ∉ il).

(** The blocks [bs] have been freed since [v0]. *)
Record freeing (bs : list Z) (v : words) : Prop := {
  fr_ok : fs_ok v il (bs ++ fl);
  fr_other c : c <> S5_SUPER_BLOCK -> c <> S5_INODE_BLOCK i -> c ∉ bs -> v c = v0 c;
  fr_inodes j k : 0 <= j < sword v0 s5s_num_inodes -> j <> i -> 0 <= k < 32 -> iword v j k = iword v0 j k;
  fr_super k : 0 <= k -> k < 2 \/ 32 < k -> sword v k = sword v0 k
}.

Lemma freeing_num bs v : freeing bs v -> sword v s5s_num_inodes = sword v0 s5s_num_inodes.
Proof. intros [_ _ _ Hs]. apply Hs; unfold s5s_num_inodes; lia. Qed.

Lemma freeing_proper bs v v' : (forall b, v' b = v b) -> freeing bs v -> freeing bs v'.
Proof.
  intros Hv [F1 F2 F3 F4]. split.
  - by apply (fs_ok_proper v).
  - intros. rewrite Hv. auto.
  - intros. unfold iword. rewrite Hv. by apply F3.
  - intros. unfold sword. rewrite Hv. by apply F4.
Qed.

Lemma freeing_perm bs bs' v : bs ≡ₚ bs' -> freeing bs v -> freeing bs' v.
Proof.
  intros Hp [F1 F2 F3 F4]. split; try done.
  - eapply fs_ok_perm; [|exact F1]. by rewrite Hp.
  - intros c. rewrite <- Hp. apply F2.
Qed.

Lemma freeing_free bs v b : freeing bs v -> data_block v0 b -> b ∉ bs ++ fl ->
  freeing (b :: bs) (freed b v) /\ forall j k, 0 <= j < sword v0 s5s_num_inodes -> iword (freed b v) j k = iword v j k.
Proof.
  intros F Hb Hnb. pose proof (freeing_num _ _ F) as Hnum. destruct F as [F1 F2 F3 F4].
  assert (data_block v b) as Hb' by (unfold data_block; by rewrite Hnum).
  destruct (data_nonzero v b (fo_numbered _ _ _ F1) Hb') as (Hb0 & _ & Hbi).
  assert (forall j k, 0 <= j < sword v0 s5s_num_inodes -> iword (freed b v) j k = iword v j k) as Hw.
  { intros j k Hj. unfold iword. rewrite freed_other; [done| |rewrite <- Hnum in Hj; by apply Hbi]. pose proof (inode_place j _ Hj). unfold S5_SUPER_BLOCK. lia. }
  split; [|done]. split.
  - cbn. by apply freed_fs_ok.
  - intros c Hc0 Hci [Hcb Hc]%not_elem_of_cons. rewrite freed_other by done. auto.
  - intros j k Hj Hji Hk. rewrite Hw by done. auto.
  - intros k Hk Hk'. rewrite freed_num; [by apply F4|apply (fo_sized _ _ _ F1)|apply (bf_nfree _ _ (fo_blocks _ _ _ F1))|done|done].
Qed.

(** Any word of the inode but its number may be stored. *)
Lemma freeing_iput bs v k x : freeing bs v -> 0 <= k < 32 -> k <> s5_number -> freeing bs (iput i k x v).
Proof.
  intros F Hk Hkn. pose proof (freeing_num _ _ F) as Hnum. destruct F as [F1 F2 F3 F4]. pose proof F1 as [Hl Hn [Hc Hnd] Hf].
  assert (forall m, sword (iput i k x v) m = sword v m) as Hs by (intros m; by eapply iput_super).
  assert (forall j m, 0 <= j < sword v0 s5s_num_inodes -> 0 <= m < 32 -> ~ (j = i /\ m = k) -> iword (iput i k x v) j m = iword v j m) as Hw.
  { intros j m Hj Hm Hne. rewrite (iput_iword v i k x j m _ Hl Hi Hj) by done. by rewrite decide_False. }
  split.
  - split.
    + by apply iput_sized.
    + apply (numbered_ext v); [done|apply Hs|]. rewrite Hnum. intros j Hj. apply Hw; [done|done|]. by intros [_ <-].
    + split; [|done]. rewrite Hs. apply (ichain_ext v); [done|apply Hs|]. intros j Hj. apply Hw; [|done|].
      * rewrite <- Hnum. by eapply ichain_in.
      * intros [-> _]. done.
    + apply (blocks_free_ext v); [done|intros; apply Hs|]. intros b Hb. destruct (data_nonzero v b Hn (bf_data _ _ Hf b Hb)) as (_ & _ & Hbi).
      unfold iput. rewrite upd_ne; [done|]. intros ->. apply (Hbi i); [by rewrite Hnum|done].
  - intros c Hc0 Hci Hcb. unfold iput. rewrite upd_ne by done. auto.
  - intros j m Hj Hji Hm. rewrite Hw by naive_solver. auto.
  - intros m Hm Hm'. rewrite Hs. auto.
Qed.
End Freeing.

(** The inode goes onto the list of free inodes. *)
Definition ipush (i : Z) (v : words) : words := upd v S5_SUPER_BLOCK (put s5s_free_inode i (v S5_SUPER_BLOCK)).

Lemma ipush_super i v k : sized v -> 0 <= k -> sword (ipush i v) k = if decide (k = s5s_free_inode) then i else sword v k.
Proof. intros Hl Hk. unfold sword, ipush. rewrite upd_eq, word_put; [done|by rewrite Hl|done]. Qed.

Lemma ipush_iword i v j k n : 0 <= j < n -> iword (ipush i v) j k = iword v j k.
Proof. intros Hj. pose proof (inode_place j n Hj). unfold iword, ipush. rewrite upd_ne; [done|]. unfold S5_SUPER_BLOCK. lia. Qed.

Lemma ipush_fs_ok i v il fl : fs_ok v il fl -> 0 <= i < sword v s5s_num_inodes -> i ∉ il -> iword v i s5_next_free = sword v s5s_free_inode ->
  fs_ok (ipush i v) (i :: il) fl.
Proof.
  intros [Hl Hn [Hc Hnd] Hf] Hi Hni Hnext.
  assert (sword (ipush i v) s5s_num_inodes = sword v s5s_num_inodes) as Hs by (by rewrite ipush_super by done).
  split.
  - intros b. unfold ipush, upd. destruct (decide _) as [->|]; [rewrite put_length|]; apply Hl.
  - apply (numbered_ext v); [done|done|]. intros j Hj. by eapply ipush_iword.
  - split; [|by apply NoDup_cons]. rewrite ipush_super, decide_True by done. constructor; [by rewrite Hs|].
    rewrite (ipush_iword i v i _ _ Hi), Hnext. apply (ichain_ext v); [done|done|]. intros j Hj. eapply ipush_iword. by eapply ichain_in.
  - apply (blocks_free_ext v); [done| |].
    + intros k Hk. rewrite ipush_super by (done || lia). rewrite decide_False; [done|]. unfold s5s_free_inode. lia.
    + intros b Hb. destruct (data_nonzero v b Hn (bf_data _ _ Hf b Hb)) as (Hb0 & _). unfold ipush. by rewrite upd_ne.
Qed.

Section Loops.
Context {S : Type} `{BlockCacheLaws S} (fs : s5fs) (v0 : words) (i p : Z) (il fl : list Z).
Context (Hi : 0 <= i < sword v0 s5s_num_inodes) (Hni : i ∉ il).
Implicit Types s : S.
Local Abbreviation ib := (S5_INODE_BLOCK i).
Local Abbreviation ip := (Iptr p (INODE_WORDS * S5_INODE_OFFSET i)).
Local Abbreviation fr := (freeing v0 i il fl).

(** The page of the inode is pinned, and the only one that may not be marked. *)
Record held s : Prop := {
  hd_super : mounted fs s;
  hd_page : frame_of s ib = Some p;
  hd_pin : 0 < pins s p;
  hd_lock : locked s = false;
  hd_safe c : c <> ib -> safe s c
}.

Lemma held_stable s : held s -> stable s.
Proof. intros [_ Hp Hn _ Hs] b. destruct (decide (b = ib)) as [->|]; [right; by exists p|left; auto]. Qed.

Lemma held_kept s s' : held s -> kept [ib] s s' -> locked s' = false -> held s'.
Proof.
  intros [Hm Hp Hn _ Hs] K L. destruct (kp_frame _ _ _ K _ _ Hp Hn) as [Hp' Hn']. split; try done; [by eapply mounted_kept|lia|].
  intros c Hc. apply (kp_safe _ _ _ K); [|auto]. by rewrite list_elem_of_singleton.
Qed.

Lemma kept_ib s s' : kept [] s s' -> kept [ib] s s'.
Proof. intros K. eapply kept_safe; [exact K|]. by intros b []%elem_of_nil. Qed.

Lemma inode_load s k : frame_of s ib = Some p -> 0 <= k < 32 -> load_inode ip k s = Done (iword (view s) i k) s.
Proof. intros Hs Hk. pose proof (inode_place i _ Hi). unfold load_inode. cbn [ip_frame ip_base]. apply load_law; [done|lia]. Qed.

Lemma inode_store s k x : frame_of s ib = Some p -> 0 <= k < 32 -> exists s', store_inode ip k x s = Done tt s' /\ kept [ib] s s' /\
  (forall b, view s' b = iput i k x (view s) b) /\ locked s' = locked s.
Proof.
  intros Hs Hk. pose proof (inode_place i _ Hi).
  destruct (store_word_run s ib p (INODE_WORDS * S5_INODE_OFFSET i + k) x Hs ltac:(lia)) as (s' & E & K & V & F & P & L). by exists s'.
Qed.

Lemma freeing_number bs v : fr bs v -> iword v i s5_number = i.
Proof. intros F. apply (fo_numbered _ _ _ (fr_ok _ _ _ _ _ _ F)). by rewrite (freeing_num _ _ _ _ _ _ F). Qed.

Lemma inode_dirty s bs : frame_of s ib = Some p -> fr bs (view s) -> exists s', s5_dirty_inode ip s = Done tt s' /\ kept [] s s' /\ (forall b, view s' b = view s b) /\
  safe s' ib /\ locked s' = locked s.
Proof.
  intros Hp F. pose proof (inode_place i _ Hi). destruct (dirty_inode_run s ib p i (INODE_WORDS * S5_INODE_OFFSET i) Hp (freeing_number _ _ F) eq_refl ltac:(lia)) as (s' & E & C).
  pose proof C as [C1 C2 C3 C4 C5]. exists s'. split_and!; try done; [|apply C4; by left]. eapply change_kept; [exact C|]. intros b _ Hb. by right.
Qed.

(** One block of the inode is freed. *)
Lemma free_one_block s bs b : held s -> fr bs (view s) -> data_block v0 b -> b ∉ bs ++ fl ->
  exists s', s5_free_block fs b s = Done tt s' /\ kept [] s s' /\ held s' /\ fr (b :: bs) (view s') /\
    (forall k, 0 <= k < 32 -> iword (view s') i k = iword (view s) i k).
Proof.
  intros Hs F Hb Hnb. destruct (freeing_free v0 i il fl bs (view s) b F Hb Hnb) as [F' Hw].
  assert (data_block (view s) b) as Hb' by (unfold data_block; by rewrite (freeing_num _ _ _ _ _ _ F)).
  destruct (data_nonzero _ _ (fo_numbered _ _ _ (fr_ok _ _ _ _ _ _ F)) Hb') as (Hb0 & _).
  destruct (free_block_run fs s b (held_stable s Hs) (hd_lock _ Hs) (hd_super _ Hs) (bf_nfree _ _ (fo_blocks _ _ _ (fr_ok _ _ _ _ _ _ F))) Hb0) as (s' & E & K & V & L).
  exists s'. split_and!; try done.
  - apply (held_kept s); [done|by apply kept_ib|done].
  - by apply (freeing_proper v0 i il fl _ (freed b (view s))).
  - intros k Hk. unfold iword. rewrite V. by apply Hw.
Qed.

(** A direct block is freed and its number cleared. *)
Lemma free_direct_one s bs k : held s -> fr bs (view s) -> 0 <= k < 28 -> let b := iword (view s) i (s5_direct_blocks + k) in
  data_block v0 b -> b ∉ bs ++ fl ->
  exists s', (s5_free_block fs b ;; s5_dirty_inode ip ;; store_inode ip (s5_direct_blocks + k) 0) s = Done tt s' /\ kept [ib] s s' /\ held s' /\ fr (b :: bs) (view s') /\
    forall m, 0 <= m < 32 -> iword (view s') i m = if decide (m = s5_direct_blocks + k) then 0 else iword (view s) i m.
Proof.
  intros Hs F Hk b Hb Hnb. assert (0 <= s5_direct_blocks + k < 32) as Hr by (unfold s5_direct_blocks; lia).
  destruct (free_one_block s bs b Hs F Hb Hnb) as (s1 & E1 & K1 & Hs1 & F1 & W1).
  destruct (inode_dirty s1 (b :: bs) (hd_page _ Hs1) F1) as (s2 & E2 & K2 & V2 & S2 & L2).
  assert (held s2) as Hs2 by (apply (held_kept s1); [done|by apply kept_ib|rewrite L2; apply (hd_lock _ Hs1)]).
  destruct (inode_store s2 (s5_direct_blocks + k) 0 (hd_page _ Hs2) Hr) as (s3 & E3 & K3 & V3 & L3). exists s3. split_and!.
  - krun E1. by krun E2.
  - apply (kept_trans [] [ib] s s1); [done|]. by apply (kept_trans [] [ib] s1 s2).
  - apply (held_kept s2); [done|done|rewrite L3; apply (hd_lock _ Hs2)].
  - eapply freeing_proper; [exact V3|]. apply freeing_iput; [done|done| |done|unfold s5_direct_blocks, s5_number; lia]. by apply (freeing_proper _ _ _ _ _ (view s1)).
  - intros m Hm. unfold iword at 1. rewrite V3. fold (iword (iput i (s5_direct_blocks + k) 0 (view s2)) i m).
    rewrite (iput_iword _ i _ _ i m _ (sized_view s2) Hi Hi Hr Hm). rewrite <- (W1 m) by done. unfold iword at 1. rewrite V2. repeat case_decide; naive_solver.
Qed.

Lemma free_direct_run n : forall s k bs, held s -> fr bs (view s) -> 0 <= k -> k + Z.of_nat n <= 28 ->
  let ds := blocks_from (fun k => iword (view s) i (s5_direct_blocks + k)) n k in
  NoDup (ds ++ bs ++ fl) -> (forall b, b ∈ ds -> data_block v0 b) ->
  exists s', free_direct fs ip n k s = Done tt s' /\ kept [ib] s s' /\ held s' /\ fr (ds ++ bs) (view s') /\
    forall m, 0 <= m < 32 -> iword (view s') i m = if decide (s5_direct_blocks + k <= m < s5_direct_blocks + k + Z.of_nat n) then 0 else iword (view s) i m.
Proof.
  induction n as [|n IH]; intros s k bs Hs F Hk Hk' ds Hnd Hds; subst ds; cbn [free_direct blocks_from] in *.
  { exists s. split_and!; try done. intros m Hm. by rewrite decide_False by lia. }
  krun (inode_load s (s5_direct_blocks + k) (hd_page _ Hs) ltac:(unfold s5_direct_blocks; lia)). set (b := iword (view s) i (s5_direct_blocks + k)) in *.
  destruct (Z.eqb_spec b 0) as [Hb0|Hb0]; cbn [negb].
  { erewrite bind_done by reflexivity. cbn beta. destruct (IH s (k + 1) bs) as (s' & E & K & Hs' & F' & W); try done; [lia|lia|].
    exists s'. split_and!; try done. intros m Hm. rewrite W by done. destruct (decide (m = s5_direct_blocks + k)) as [->|]; [|repeat case_decide; lia || done].
    rewrite decide_False by lia. by rewrite decide_True by lia. }
  cbn [app] in Hnd. apply NoDup_cons in Hnd as [Hnb Hnd].
  destruct (free_direct_one s bs k Hs F ltac:(lia)) as (s1 & E1 & K1 & Hs1 & F1 & W1); [apply Hds; left|fold b; set_solver|].
  fold b in E1, F1. krun E1. assert (blocks_from (fun k => iword (view s1) i (s5_direct_blocks + k)) n (k + 1) = blocks_from (fun k => iword (view s) i (s5_direct_blocks + k)) n (k + 1)) as Hds1.
  { apply blocks_from_ext. intros j Hj. rewrite W1 by (unfold s5_direct_blocks; lia). by rewrite decide_False by lia. }
  destruct (IH s1 (k + 1) (b :: bs) Hs1 F1 ltac:(lia) ltac:(lia)) as (s2 & E2 & K2 & Hs2 & F2 & W2); rewrite ?Hds1.
  { cbn [app]. rewrite <- Permutation_middle. apply NoDup_cons. done. }
  { intros c Hc. apply Hds. by right. }
  exists s2. split_and!; try done.
  - eapply kept_safe; [by apply (kept_trans [ib] [ib] s s1 s2)|]. set_solver.
  - eapply freeing_perm; [|exact F2]. rewrite Hds1. symmetry. apply Permutation_middle.
  - intros m Hm. rewrite W2, W1 by done. repeat case_decide; lia || done.
Qed.

Lemma free_indirect_run n : forall s k bs q ind, held s -> fr bs (view s) -> frame_of s ind = Some q -> 0 < pins s q -> 0 <= k -> k + Z.of_nat n <= 1024 ->
  iword (view s) i s5_indirect_block = ind -> ind <> S5_SUPER_BLOCK -> ind <> ib -> ind ∉ bs ++ fl ->
  let ds := blocks_from (word (v0 ind)) n k in
  NoDup (ds ++ bs ++ fl) -> (forall b, b ∈ ds -> data_block v0 b) -> ind ∉ ds ->
  exists s', free_indirect fs ip q n k s = Done tt s' /\ kept [ib] s s' /\ held s' /\ fr (ds ++ bs) (view s') /\
    forall m, 0 <= m < 32 -> iword (view s') i m = iword (view s) i m.
Proof.
  induction n as [|n IH]; intros s k bs q ind Hs F Hq Hpin Hk Hk' Hind Hi0 Hib Hfl ds Hnd Hds Hself; subst ds; cbn [free_indirect blocks_from] in *.
  { exists s. by split_and!. }
  assert (view s ind = v0 ind) as Hpage by (apply (fr_other _ _ _ _ _ _ F); [done|done|set_solver]).
  krun (load_law s ind q k Hq ltac:(lia)). rewrite Hpage. krun (inode_load s s5_indirect_block (hd_page _ Hs) ltac:(done)). rewrite Hind.
  set (b := word (v0 ind) k) in *.
  destruct (Z.eqb_spec b 0) as [Hb0|Hb0]; cbn [negb].
  { destruct (Z.eqb_spec b ind) as [Hbi|_]; [destruct Hi0; unfold S5_SUPER_BLOCK; lia|]. do 2 (erewrite bind_done by reflexivity; cbn beta).
    apply (IH s (k + 1) bs q ind); done || lia. }
  destruct (Z.eqb_spec b ind) as [Hbi|_]; [by destruct Hself; rewrite <- Hbi; left|]. erewrite bind_done by reflexivity. cbn beta.
  cbn [app] in Hnd. apply NoDup_cons in Hnd as [Hnb Hnd].
  destruct (free_one_block s bs b Hs F) as (s1 & E1 & K1 & Hs1 & F1 & W1); [apply Hds; left|set_solver|]. krun E1.
  destruct (kp_frame _ _ _ K1 _ _ Hq Hpin) as [Hq1 Hpin1].
  destruct (IH s1 (k + 1) (b :: bs) q ind Hs1 F1 Hq1 ltac:(lia) ltac:(lia) ltac:(lia)) as (s2 & E2 & K2 & Hs2 & F2 & W2); try done.
  { by rewrite W1. }
  { set_solver. }
  { cbn [app]. rewrite <- Permutation_middle. apply NoDup_cons. done. }
  { intros c Hc. apply Hds. by right. }
  { set_solver. }
  exists s2. split_and!; try done.
  - by apply (kept_trans [] [ib] s s1).
  - eapply freeing_perm; [|exact F2]. symmetry. apply Permutation_middle.
  - intros m Hm. rewrite W2 by done. by apply W1.
Qed.

(** What happens between pinning a frame and unpinning it leaves the pins as they were. *)
Lemma kept_pinned U q s1 s2 s3 s4 :
  change (view s1) (fun r => if decide (r = q) then pins s1 r + 1 else pins s1 r) (safe s1) (locked s1) s1 s2 -> kept U s2 s3 ->
  change (view s3) (fun r => if decide (r = q) then pins s3 r - 1 else pins s3 r) (safe s3) (locked s3) s3 s4 -> kept U s1 s4.
Proof.
  intros [C1 C2 C3 C4 C5] K [D1 D2 D3 D4 D5]. split.
  - intros c r Hc Hr. assert (frame_of s2 c = Some r /\ 0 < pins s2 r) as [Hc2 Hr2] by (rewrite C2, C3; split; [done|destruct (decide (r = q)); lia]).
    destruct (kp_frame _ _ _ K _ _ Hc2 Hr2) as [Hc3 Hr3]. rewrite D2, D3, Hr3, C3. split; [done|]. destruct (decide (r = q)); lia.
  - intros c Hc Hs. apply D4, (kp_safe _ _ _ K); [done|]. by apply C4.
Qed.

(** The indirect block and the blocks it lists. *)
Definition listed_blocks (n : nat) (ind : Z) : list Z := blocks_from (word (v0 ind)) n 0.
Definition indirect_blocks (t ind : Z) : list Z :=
  if ((S5_TYPE_DATA =? t) || (S5_TYPE_DIR =? t)) && negb (ind =? 0) then ind :: listed_blocks (Z.to_nat S5_NIDIRECT_BLOCKS) ind else [].

(** The blocks are freed while the page of the indirect block is pinned. *)
Lemma free_listed_run n s bs ind : Z.of_nat n <= 1024 -> held s -> fr bs (view s) -> iword (view s) i s5_indirect_block = ind -> data_block v0 ind ->
  ind ∉ listed_blocks n ind -> ind ∉ bs ++ fl -> NoDup (listed_blocks n ind ++ bs ++ fl) -> (forall b, b ∈ listed_blocks n ind -> data_block v0 b) ->
  exists s', (forall A (k : kern S A), (let* r := bc_get ind in
     let* ibp := got r in
     bc_pin ibp ;;
     free_indirect fs ip ibp n 0 ;;
     bc_unpin ibp ;;
     k) s = k s') /\ kept [ib] s s' /\ held s' /\ fr (listed_blocks n ind ++ bs) (view s') /\
    forall m, 0 <= m < 32 -> iword (view s') i m = iword (view s) i m.
Proof.
  intros Hlen Hs F Hind Hdi Hn1 Hn2 Hnd Hds.
  assert (data_block (view s) ind) as Hdi' by (unfold data_block; by rewrite (freeing_num _ _ _ _ _ _ F)).
  destruct (data_nonzero _ _ (fo_numbered _ _ _ (fr_ok _ _ _ _ _ _ F)) Hdi') as (Hi0 & _ & Hib).
  destruct (get_page_run s ind (held_stable s Hs)) as (q & s1 & E1 & Hq & K1 & V1 & L1).
  assert (held s1) as Hs1 by (apply (held_kept s); [done|by apply kept_ib|rewrite L1; apply (hd_lock _ Hs)]).
  destruct (pin_law s1 ind q Hq) as (s2 & E2 & C). pose proof C as [C1 C2 C3 C4 C5].
  assert (held s2) as Hs2.
  { destruct Hs1 as [[M1 M2] P1 P2 G1 G2]. split; [split|..]; try congruence; [rewrite C3; destruct (decide _); lia|rewrite C3; destruct (decide _); lia|]. intros c Hc. by apply C4, G2. }
  assert (forall b, view s2 b = view s b) as V2 by (intros b; by rewrite C1, V1).
  assert (frame_of s2 ind = Some q /\ 0 < pins s2 q) as [Hq2 Hp2] by (rewrite C2, C3, decide_True by done; pose proof (pins_pos s1 q); split; [done|lia]).
  assert (fr bs (view s2)) as F2 by (by apply (freeing_proper _ _ _ _ _ (view s))).
  assert (iword (view s2) i s5_indirect_block = ind) as Hind2 by (unfold iword; by rewrite V2).
  assert (ind <> ib) as Hib' by (intros ->; apply (Hib i); [by rewrite (freeing_num _ _ _ _ _ _ F)|done]).
  destruct (free_indirect_run n s2 0 bs q ind Hs2 F2 Hq2 Hp2 (Z.le_refl 0) Hlen Hind2 Hi0 Hib' Hn2 Hnd Hds Hn1)
    as (s3 & E3 & K3 & Hs3 & F3 & W3).
  destruct (kp_frame _ _ _ K3 ind q Hq2 Hp2) as [Hq3 Hp3].
  destruct (unpin_law s3 ind q Hq3 ltac:(lia)) as (s4 & E4 & D).
  pose proof (kept_pinned _ _ _ _ _ _ C K3 D) as K4. pose proof D as [D1 D2 D3 D4 D5]. exists s4. split_and!.
  - intros A k. krun E1. rewrite got_some. krun E2. krun E3. by krun E4.
  - by apply (kept_trans [] [ib] s s1).
  - apply (held_kept s1); [done|done|rewrite D5; apply (hd_lock _ Hs3)].
  - by apply (freeing_proper _ _ _ _ _ (view s3)).
  - intros m Hm. unfold iword at 1. rewrite D1. fold (iword (view s3) i m). rewrite W3 by done. unfold iword. by rewrite V2.
Qed.

#[local] Opaque listed_blocks.
Lemma free_tree_run s bs : held s -> fr bs (view s) ->
  let t := type_of_word (iword (view s) i s5_type_links) in let ind := iword (view s) i s5_indirect_block in
  NoDup (indirect_blocks t ind ++ bs ++ fl) -> (forall b, b ∈ indirect_blocks t ind -> data_block v0 b) ->
  exists s', (if ((S5_TYPE_DATA =? t) || (S5_TYPE_DIR =? t)) && negb (ind =? 0) then
     let* r := bc_get ind in
     let* ibp := got r in
     bc_pin ibp ;;
     free_indirect fs ip ibp (Z.to_nat S5_NIDIRECT_BLOCKS) 0 ;;
     bc_unpin ibp ;;
     let* ind := load_inode ip s5_indirect_block in
     s5_free_block fs ind
   else ret tt) s = Done tt s' /\ kept [ib] s s' /\ held s' /\ fr (indirect_blocks t ind ++ bs) (view s') /\
    forall m, 0 <= m < 32 -> iword (view s') i m = iword (view s) i m.
Proof.
  intros Hs F t ind Hnd Hds. unfold indirect_blocks in *. destruct (_ && _); [|exists s; by split_and!].
  cbn [app] in Hnd. apply NoDup_cons in Hnd as [Hn Hnd]. pose proof Hn as [Hn1 Hn2]%not_elem_of_app.
  destruct (free_listed_run (Z.to_nat S5_NIDIRECT_BLOCKS) s bs ind (Z.le_refl 1024) Hs F eq_refl (Hds ind ltac:(left)) Hn1 Hn2 Hnd) as (s1 & E1 & K1 & Hs1 & F1 & W1); [intros b Hb; apply Hds; by right|].
  rewrite E1. krun (inode_load s1 s5_indirect_block (hd_page _ Hs1) ltac:(done)). rewrite W1 by done. fold ind.
  destruct (free_one_block s1 (listed_blocks (Z.to_nat S5_NIDIRECT_BLOCKS) ind ++ bs) ind Hs1 F1 (Hds ind ltac:(left))) as (s2 & E2 & K2 & Hs2 & F2 & W2); [by rewrite <- (assoc (++))|].
  exists s2. split_and!; try done.
  - by apply (kept_trans [ib] [] s s1).
  - intros m Hm. rewrite W2 by done. by apply W1.
Qed.

(** The inode is cleared. *)
Definition cleared (v : words) : words :=
  iput i s5_type_links (with_type S5_TYPE_FREE (iword v i s5_type_links)) (iput i s5_indirect_block 0 v).

Lemma clear_inode_run s bs : held s -> fr bs (view s) -> exists s',
  (forall A (k : kern S A), (store_inode ip s5_indirect_block 0 ;; set_type ip S5_TYPE_FREE ;; s5_dirty_inode ip ;; k) s = k s') /\
  kept [ib] s s' /\ held s' /\ fr bs (view s') /\ (forall b, view s' b = cleared (view s) b).
Proof.
  intros Hs F. destruct (inode_store s s5_indirect_block 0 (hd_page _ Hs) ltac:(done)) as (s1 & E1 & K1 & V1 & L1).
  assert (held s1) as Hs1 by (apply (held_kept s); [done|done|rewrite L1; apply (hd_lock _ Hs)]).
  destruct (inode_store s1 s5_type_links (with_type S5_TYPE_FREE (iword (view s1) i s5_type_links)) (hd_page _ Hs1) ltac:(done)) as (s2 & E2 & K2 & V2 & L2).
  assert (held s2) as Hs2 by (apply (held_kept s1); [done|done|rewrite L2; apply (hd_lock _ Hs1)]).
  assert (iword (view s1) i s5_type_links = iword (view s) i s5_type_links) as Hw.
  { unfold iword at 1. rewrite V1. fold (iword (iput i s5_indirect_block 0 (view s)) i s5_type_links).
    rewrite (iput_iword _ i _ _ i _ _ (sized_view s) Hi Hi) by done. by rewrite decide_False by (by intros [_ ?]). }
  assert (forall b, view s2 b = cleared (view s) b) as V2'.
  { intros b. rewrite V2, Hw. unfold cleared, iput at 1 2, upd. rewrite !V1. done. }
  assert (fr bs (view s2)) as F2 by (eapply freeing_proper; [exact V2'|]; unfold cleared; by do 2 (apply freeing_iput; [done|done| |done|done])).
  destruct (inode_dirty s2 bs (hd_page _ Hs2) F2) as (s3 & E3 & K3 & V3 & S3 & L3). exists s3. split_and!.
  - intros A k. krun E1. unfold set_type. rewrite bind_assoc. krun (inode_load s1 s5_type_links (hd_page _ Hs1) ltac:(done)). krun E2. by krun E3.
  - eapply kept_safe; [apply (kept_trans [ib] ([ib] ++ []) s s1); [done|by apply (kept_trans [ib] [] s1 s2)]|]. set_solver.
  - apply (held_kept s2); [done|by apply kept_ib|rewrite L3; apply (hd_lock _ Hs2)].
  - by apply (freeing_proper _ _ _ _ _ (view s2)).
  - intros b. by rewrite V3.
Qed.

(** ... and put on the list, and both pages are marked. *)
Lemma push_inode_run s bs : held s -> fr bs (view s) -> exists s',
  (lock_s5 ;;
   let* next := bc_load (s5f_super fs) s5s_free_inode in
   store_inode ip s5_next_free next ;;
   let* num := load_inode ip s5_number in
   bc_store (s5f_super fs) s5s_free_inode num ;;
   unlock_s5 ;;
   s5_dirty_inode ip ;;
   s5_dirty_super) s = Done tt s' /\ ready fs s' /\ kept [] s s' /\
   (forall b, view s' b = ipush i (iput i s5_next_free (sword (view s) s5s_free_inode) (view s)) b).
Proof.
  intros Hs F. destruct (lock_fs_run s (hd_lock _ Hs)) as (s1 & E1 & K1 & V1 & F1 & L1). krun E1.
  pose proof (mounted_kept _ _ _ _ (hd_super _ Hs) K1) as Hm1. krun (word_range fs s1 s5s_free_inode Hm1 ltac:(done)).
  assert (sword (view s1) s5s_free_inode = sword (view s) s5s_free_inode) as -> by (unfold sword; by rewrite V1).
  set (next := sword (view s) s5s_free_inode). assert (frame_of s1 ib = Some p) as Hp1 by (rewrite F1; apply (hd_page _ Hs)).
  destruct (inode_store s1 s5_next_free next Hp1 ltac:(done)) as (s2 & E2 & K2 & V2 & L2). krun E2.
  assert (forall b, view s2 b = iput i s5_next_free next (view s) b) as V2'.
  { intros b. rewrite V2. unfold iput, upd. by rewrite !V1. }
  assert (fr bs (view s2)) as F2 by (eapply freeing_proper; [exact V2'|]; by apply freeing_iput).
  pose proof (kept_trans _ _ _ _ _ K1 K2) as K12. destruct (kp_frame _ _ _ K12 _ _ (hd_page _ Hs) (hd_pin _ Hs)) as [Hp2 Hn2].
  krun (inode_load s2 s5_number Hp2 ltac:(done)). rewrite (freeing_number _ _ F2).
  pose proof (mounted_kept _ _ _ _ Hm1 K2) as [Hm2 Hm2'].
  destruct (store_word_run s2 _ _ s5s_free_inode i Hm2 ltac:(done)) as (s3 & E3 & K3 & V3 & F3 & P3 & L3). krun E3.
  destruct (unlock_fs_run s3) as (s4 & E4 & K4 & V4 & F4 & L4); [congruence|]. krun E4.
  assert (frame_of s4 ib = Some p) as Hp4 by (by rewrite F4, F3).
  assert (forall b, view s4 b = ipush i (view s2) b) as V4' by (intros b; by rewrite V4, V3).
  destruct (dirty_inode_run s4 ib p i (INODE_WORDS * S5_INODE_OFFSET i) Hp4) as (s5 & E5 & C); [|done|pose proof (inode_place i _ Hi); lia|].
  { rewrite V4'. change (iword (ipush i (view s2)) i s5_number = i). rewrite (ipush_iword _ _ _ _ _ Hi). by apply (freeing_number bs). }
  krun E5. pose proof C as [C1 C2 C3 C4 C5].
  assert (kept ([] ++ [ib] ++ [S5_SUPER_BLOCK] ++ [] ++ []) s s5) as K5.
  { apply (kept_trans _ _ s s1); [done|]. apply (kept_trans _ _ s1 s2); [done|]. apply (kept_trans _ _ s2 s3); [done|]. apply (kept_trans _ _ s3 s4); [done|].
    eapply change_kept; [exact C|]. intros c _ Hc. by right. }
  destruct (dirty_super_run fs s5 (mounted_kept _ _ _ _ (hd_super _ Hs) K5)) as (s6 & E6 & K6 & V6 & S6 & L6). exists s6.
  assert (safe s6 ib) as Sib by (apply (kp_safe _ _ _ K6); [apply not_elem_of_nil|]; apply C4; by left).
  assert (kept [] s s6) as K.
  { eapply kept_safe; [exact (kept_trans _ _ _ _ _ K5 K6)|]. cbn. intros c [->|[->|[]%elem_of_nil]%elem_of_cons]%elem_of_cons; by right. }
  split_and!; [done| |done|].
  - split; [|congruence|by apply (mounted_kept _ _ _ _ (hd_super _ Hs) K)]. intros c. destruct (decide (c = ib)) as [->|Hc]; [done|].
    apply (kp_safe _ _ _ K); [apply not_elem_of_nil|]. by apply (hd_safe _ Hs).
  - intros b. rewrite V6, C1, V4'. unfold ipush, upd. by rewrite !V2'.
Qed.
End Loops.

(** The blocks of an inode: the indirect block, what it lists and the direct blocks. *)
Definition inode_blocks (v : words) (i : Z) : list Z :=
  indirect_blocks v (type_of_word (iword v i s5_type_links)) (iword v i s5_indirect_block) ++
  blocks_from (fun k => iword v i (s5_direct_blocks + k)) 28 0.

Section Whole.
Context {S : Type} `{BlockCacheLaws S} (fs : s5fs).
Implicit Types s : S.

(** The words of the inode that are left. *)
Lemma cleared_word v i k n : sized v -> 0 <= i < n -> 2 <= k < 32 -> iword (cleared i v) i k =
  if decide (k = s5_type_links) then with_type S5_TYPE_FREE (iword v i s5_type_links) else if decide (k = s5_indirect_block) then 0 else iword v i k.
Proof.
  intros Hl Hi Hk. unfold cleared. rewrite (iput_iword _ i _ _ i k n) by (try apply iput_sized; done || lia).
  rewrite (iput_iword _ i _ _ i k n) by (done || lia). repeat case_decide; naive_solver.
Qed.

(** The run, up to the last steps: [s2] is the state in which all blocks are free. *)
Lemma free_inode_run s i p il fl : ready fs s -> fs_ok (view s) il fl -> 0 <= i < sword (view s) s5s_num_inodes -> i ∉ il ->
  known_type (type_of_word (iword (view s) i s5_type_links)) = true -> frame_of s (S5_INODE_BLOCK i) = Some p -> 0 < pins s p ->
  NoDup (inode_blocks (view s) i ++ fl) -> (forall b, b ∈ inode_blocks (view s) i -> data_block (view s) b) ->
  exists s2 s3 s', s5_free_inode fs (Iptr p (INODE_WORDS * S5_INODE_OFFSET i)) s = Done tt s' /\ ready fs s' /\
    (forall k, s5_direct_blocks <= k < s5_indirect_block -> iword (view s2) i k = 0) /\
    freeing (view s) i il fl (inode_blocks (view s) i) (view s3) /\ (forall b, view s3 b = cleared i (view s2) b) /\
    (forall b, view s' b = ipush i (iput i s5_next_free (sword (view s3) s5s_free_inode) (view s3)) b).
Proof.
  intros Hr Hok Hi Hni Ht Hp Hpin Hnd Hds. set (v0 := view s) in *. set (ip := Iptr p (INODE_WORDS * S5_INODE_OFFSET i)).
  assert (held fs i p s) as Hs by (destruct Hr; by split).
  assert (freeing v0 i il fl [] v0) as F by (by split).
  unfold inode_blocks in Hnd, Hds. set (ds := blocks_from _ 28 0) in *. rewrite <- (assoc (++)) in Hnd.
  unfold s5_free_inode. fold ip.
  assert (forall s1 A (f : Z -> kern S A), frame_of s1 (S5_INODE_BLOCK i) = Some p ->
    bind (s5_inode_type ip) f s1 = f (type_of_word (iword (view s1) i s5_type_links)) s1) as Htype.
  { intros s1 A f Hp1. unfold s5_inode_type. rewrite bind_assoc. unfold ip. by krun (inode_load v0 i p Hi s1 s5_type_links Hp1 ltac:(done)). }
  rewrite Htype by done. rewrite (bind_done _ _ s tt s) by (by apply kassert_true).
  destruct (free_direct_run fs v0 i p il fl Hi Hni (Z.to_nat S5_NDIRECT_BLOCKS) s 0 [] Hs F) as (s1 & E1 & K1 & Hs1 & F1 & W1); [done|done| |intros b Hb; apply Hds, elem_of_app; by right|].
  { apply NoDup_app in Hnd as (_ & _ & Hnd). done. }
  krun E1. rewrite Htype by apply (hd_page _ _ _ _ Hs1). unfold ip at 1. krun (inode_load v0 i p Hi s1 s5_indirect_block (hd_page _ _ _ _ Hs1) ltac:(done)).
  destruct (free_tree_run fs v0 i p il fl Hi Hni s1 (ds ++ []) Hs1 F1) as (s2 & E2 & K2 & Hs2 & F2 & W2).
  { rewrite !W1 by done. rewrite app_nil_r. done. }
  { intros b. rewrite !W1 by done. intros Hb. apply Hds, elem_of_app. by left. }
  krun E2. rewrite !W1 in F2 by done. rewrite app_nil_r in F2. fold (inode_blocks v0 i) in F2.
  destruct (clear_inode_run fs v0 i p il fl Hi Hni s2 (inode_blocks v0 i) Hs2 F2) as (s3 & E3 & K3 & Hs3 & F3 & V3). unfold ip. rewrite E3.
  destruct (push_inode_run fs v0 i p il fl Hi Hni s3 (inode_blocks v0 i) Hs3 F3) as (s4 & E4 & Hr4 & K4 & V4). exists s2, s3, s4.
  split_and!; [exact E4|done| |done|done|done]. intros k Hk. unfold s5_direct_blocks, s5_indirect_block in Hk. rewrite W2, W1 by lia.
  apply decide_True. change (Z.of_nat (Z.to_nat S5_NDIRECT_BLOCKS)) with 28. unfold s5_direct_blocks. lia.
Qed.


(** C16: [s5_free_inode], on an inode in use whose page is pinned, returns every block
    of the inode to the list of free blocks (direct, indirect and listed, each once)
    and puts the inode on the list of free inodes, as a free inode without blocks.
    No other inode and no block that was not the inode's has changed, and everything
    stored is marked to be written. *)
Theorem s5_free_inode_spec s i p il fl : ready fs s -> fs_ok (view s) il fl -> 0 <= i < sword (view s) s5s_num_inodes -> i ∉ il ->
  known_type (type_of_word (iword (view s) i s5_type_links)) = true -> frame_of s (S5_INODE_BLOCK i) = Some p -> 0 < pins s p ->
  NoDup (inode_blocks (view s) i ++ fl) -> (forall b, b ∈ inode_blocks (view s) i -> data_block (view s) b) ->
  exists s', s5_free_inode fs (Iptr p (INODE_WORDS * S5_INODE_OFFSET i)) s = Done tt s' /\ ready fs s' /\
    fs_ok (view s') (i :: il) (inode_blocks (view s) i ++ fl) /\
    type_of_word (iword (view s') i s5_type_links) = S5_TYPE_FREE /\ (forall k, s5_direct_blocks <= k <= s5_indirect_block -> iword (view s') i k = 0) /\
    (forall j k, 0 <= j < sword (view s) s5s_num_inodes -> j <> i -> 0 <= k < 32 -> iword (view s') j k = iword (view s) j k) /\
    (forall b, b <> S5_SUPER_BLOCK -> b <> S5_INODE_BLOCK i -> b ∉ inode_blocks (view s) i -> view s' b = view s b).
Proof.
  intros Hr Hok Hi Hni Ht Hp Hpin Hnd Hds. destruct (free_inode_run s i p il fl Hr Hok Hi Hni Ht Hp Hpin Hnd Hds) as (s2 & s3 & s4 & E4 & Hr4 & W2 & F3 & V3 & V4).
  set (v0 := view s) in *. exists s4. split; [exact E4|]. split; [done|].
  set (next := sword (view s3) s5s_free_inode) in *.
  assert (freeing v0 i il fl (inode_blocks v0 i) (iput i s5_next_free next (view s3))) as F4 by (by apply freeing_iput).
  assert (forall j k, 0 <= j < sword v0 s5s_num_inodes -> iword (view s4) j k = iword (iput i s5_next_free next (view s3)) j k) as W4.
  { intros j k Hj. unfold iword at 1. rewrite V4. exact (ipush_iword i _ j k _ Hj). }
  assert (forall k, 2 <= k < 32 -> iword (view s4) i k = iword (cleared i (view s2)) i k) as W.
  { intros k Hk. rewrite W4, (iput_iword _ _ _ _ _ _ _ (sized_view s3) Hi Hi) by (done || lia). rewrite decide_False by (unfold s5_next_free; lia). unfold iword. by rewrite V3. }
  split_and!.
  - eapply fs_ok_proper; [exact V4|]. apply ipush_fs_ok; [apply (fr_ok _ _ _ _ _ _ F4)|by rewrite (freeing_num _ _ _ _ _ _ F4)|done|].
    rewrite (iput_iword _ _ _ _ _ _ _ (sized_view s3) Hi Hi) by (unfold s5_next_free; lia). rewrite decide_True by done. symmetry. by eapply iput_super.
  - rewrite W, (cleared_word _ _ _ _ (sized_view s2) Hi) by (unfold s5_type_links; lia). rewrite decide_True by done. by apply typed_word.
  - intros k Hk. unfold s5_direct_blocks, s5_indirect_block in Hk. rewrite W, (cleared_word _ _ _ _ (sized_view s2) Hi) by lia.
    rewrite decide_False by (unfold s5_type_links; lia). destruct (decide (k = s5_indirect_block)) as [|Hk']; [reflexivity|]. apply W2. unfold s5_direct_blocks, s5_indirect_block in *. lia.
  - intros j k Hj Hji Hk. rewrite W4 by done. by apply (fr_inodes _ _ _ _ _ _ F4).
  - intros b Hb0 Hbi Hbn. rewrite V4. unfold ipush. rewrite upd_ne by done. by apply (fr_other _ _ _ _ _ _ F4).
Qed.
End Whole.
End S5Free.
