(* ===== verification/S5Demo.v ===== *)
(** * A small System V disk

    A page cache that drops every frame that is not pinned whenever it has to read a
    block, writing back only what is marked dirty, is an instance of the interface;
    a pointer into a frame that has been dropped is dangling.  The theorems on the
    free lists are applied to a disk with eight inodes. *)

From Stdlib Require Import ZArith Lia.
From stdpp Require Import base list gmap countable.
From S2P Require Import Prelude Vnode S5 S5Spec S5Lists S5Ops S5Inode S5Free.

Module S5Demo.
Import S5 S5Spec S5Lists S5Ops S5Inode S5Free.
Local Open Scope Z_scope.

Record frame := Frame { f_gen : Z; f_words : list Z; f_dirty : bool; f_pins : nat }.
Record machine := Machine { m_disk : gmap Z (list Z); m_frames : gmap Z frame; m_next : Z; m_locked : bool }.

Definition page (l : list Z) : list Z := resize 1024 0 l.

(** Frames are named by the block they hold and the time they were filled. *)
Definition fid (b g : Z) : Z := Z.pos (encode (b, g)).

Definition find_frame (p : Z) (s : machine) : option (Z * frame) :=
  match decode (A := Z * Z) (Z.to_pos p) with
  | Some (b, g) => match m_frames s !! b with Some f => if decide (fid b (f_gen f) = p) then Some (b, f) else None | None => None end
  | None => None
  end.

Lemma find_frame_some p s b f : find_frame p s = Some (b, f) <-> m_frames s !! b = Some f /\ fid b (f_gen f) = p.
Proof.
  unfold find_frame. split.
  - destruct (decode _) as [[b' g]|]; [|done]. destruct (m_frames s !! b') as [f'|] eqn:Hf; [|done]. destruct (decide _) as [Hp|]; [|done].
    intros [= -> ->]. done.
  - intros [Hf <-]. unfold fid at 1. cbn. rewrite decode_encode, Hf. by rewrite decide_True.
Qed.

Definition set_frame (b : Z) (f : frame) (s : machine) : machine := Machine (m_disk s) (<[b := f]> (m_frames s)) (m_next s) (m_locked s).
Definition set_locked (l : bool) (s : machine) : machine := Machine (m_disk s) (m_frames s) (m_next s) l.

Definition on_frame {A} (p : Z) (g : frame -> A * frame) : kern machine A := fun s =>
  match find_frame p s with
  | None => Stuck
  | Some (b, f) => Done (g f).1 (set_frame b (g f).2 s)
  end.

Definition written (s : machine) : gmap Z (list Z) :=
  omap (fun f => if f_dirty f && bool_decide (f_pins f = 0%nat) then Some (f_words f) else None) (m_frames s) ∪ m_disk s.

Definition fetch (b : Z) : kern machine (Z * option Z) := fun s =>
  match m_frames s !! b with
  | Some f => Done (0, Some (fid b (f_gen f))) s
  | None =>
      let f := Frame (m_next s) (default [] (written s !! b)) false 0 in
      Done (0, Some (fid b (m_next s)))
        (Machine (written s) (<[b := f]> (filter (fun x => f_pins x.2 <> 0%nat) (m_frames s))) (m_next s + 1) (m_locked s))
  end.

#[export] Instance demo_cache : BlockCache machine := {|
  bc_get := fetch;
  bc_dirty := fun p => on_frame p (fun f => (0, Frame (f_gen f) (f_words f) true (f_pins f)));
  bc_pin := fun p => on_frame p (fun f => (tt, Frame (f_gen f) (f_words f) (f_dirty f) (f_pins f + 1)));
  bc_unpin := fun p => on_frame p (fun f => (tt, Frame (f_gen f) (f_words f) (f_dirty f) (f_pins f - 1)));
  bc_load := fun p i s => match find_frame p s with Some (_, f) => Done (word (page (f_words f)) i) s | None => Stuck end;
  bc_store := fun p i x => on_frame p (fun f => (tt, Frame (f_gen f) (put i x (page (f_words f))) (f_dirty f) (f_pins f)));
  lock_s5 := fun s => if m_locked s then Blocked else Done tt (set_locked true s);
  unlock_s5 := fun s => if m_locked s then Done tt (set_locked false s) else Panic
|}.

Definition stored (s : machine) (b : Z) : list Z := page (default [] (m_disk s !! b)).

#[export] Instance demo_view : CacheView machine := {|
  view := fun s b => match m_frames s !! b with Some f => page (f_words f) | None => stored s b end;
  frame_of := fun s b => (fun f => fid b (f_gen f)) <$> m_frames s !! b;
  pins := fun s p => match find_frame p s with Some (_, f) => Z.of_nat (f_pins f) | None => 0 end;
  safe := fun s b => forall f, m_frames s !! b = Some f -> f_dirty f = true \/ page (f_words f) = stored s b;
  locked := m_locked
|}.

Lemma page_length l : length (page l) = 1024%nat.
Proof. apply length_resize. Qed.

Lemma page_id l : length l = 1024%nat -> page l = l.
Proof. intros Hl. unfold page. by rewrite resize_all_alt. Qed.

Lemma frame_of_some (s : machine) b p : frame_of s b = Some p -> exists f, m_frames s !! b = Some f /\ fid b (f_gen f) = p /\ find_frame p s = Some (b, f).
Proof.
  cbn. intros Hf. apply fmap_Some in Hf as (f & Hf & ->). exists f. split_and!; [done|done|]. by apply find_frame_some.
Qed.

(** A frame is replaced by one of the same name. *)
Lemma find_set s b f f' q : m_frames s !! b = Some f -> f_gen f' = f_gen f ->
  find_frame q (set_frame b f' s) = if decide (q = fid b (f_gen f)) then Some (b, f') else find_frame q s.
Proof.
  intros Hf Hg. destruct (decide (q = fid b (f_gen f))) as [->|Hne].
  - apply find_frame_some. cbn. rewrite lookup_insert_eq. by rewrite Hg.
  - destruct (find_frame q s) as [[c x]|] eqn:Hq.
    + apply find_frame_some in Hq as [Hc <-]. apply find_frame_some. cbn. rewrite lookup_insert_ne; [done|]. intros ->. rewrite Hf in Hc. by injection Hc as ->.
    + destruct (find_frame q (set_frame b f' s)) as [[c x]|] eqn:Hq'; [|done]. apply find_frame_some in Hq' as [Hc Hx]. cbn in Hc.
      destruct (decide (c = b)) as [->|]; [rewrite lookup_insert_eq in Hc; injection Hc as <-; rewrite Hg in Hx; by destruct Hne|].
      rewrite lookup_insert_ne in Hc by done. assert (find_frame q s = Some (c, x)) as E by (by apply find_frame_some). congruence.
Qed.

Lemma change_mono v n sf l (s s' : machine) v' n' sf' : change v n sf l s s' -> (forall b, v' b = v b) -> (forall q, n' q = n q) -> (forall b, sf' b -> sf b) ->
  change v' n' sf' l s s'.
Proof. intros [C1 C2 C3 C4 C5] Hv Hn Hs. split; try done; intros; rewrite ?Hv, ?Hn; auto. Qed.

Lemma on_frame_change {A} (s : machine) b p f (g : frame -> A * frame) : m_frames s !! b = Some f -> fid b (f_gen f) = p -> f_gen (g f).2 = f_gen f ->
  on_frame p g s = Done (g f).1 (set_frame b (g f).2 s) /\
  change (upd (view s) b (page (f_words (g f).2))) (fun q => if decide (q = p) then Z.of_nat (f_pins (g f).2) else pins s q)
    (fun c => if decide (c = b) then f_dirty (g f).2 = true \/ page (f_words (g f).2) = stored s b else safe s c) (locked s) s (set_frame b (g f).2 s).
Proof.
  intros Hf Hp Hg. assert (find_frame p s = Some (b, f)) as Hfind by (by apply find_frame_some). split; [unfold on_frame; by rewrite Hfind|]. split.
  - intros c. unfold upd. cbn. destruct (decide (c = b)) as [->|]; [by rewrite lookup_insert_eq|by rewrite lookup_insert_ne].
  - intros c. cbn. destruct (decide (c = b)) as [->|]; [rewrite lookup_insert_eq, Hf; cbn; by rewrite Hg|by rewrite lookup_insert_ne].
  - intros q. cbn. rewrite (find_set s b f) by done. rewrite Hp. by destruct (decide (q = p)).
  - intros c. destruct (decide (c = b)) as [->|].
    + intros Hs x. cbn. rewrite lookup_insert_eq. by intros [= <-].
    + intros Hs x. cbn. rewrite lookup_insert_ne by done. apply Hs.
  - done.
Qed.

Lemma change_refl (s : machine) : change (view s) (pins s) (safe s) (locked s) s s.
Proof. by split. Qed.

Lemma locked_change l (s : machine) : change (view s) (pins s) (safe s) l s (set_locked l s).
Proof. by split. Qed.

Lemma view_eq (s : machine) b : view s b = match m_frames s !! b with Some f => page (f_words f) | None => stored s b end.
Proof. reflexivity. Qed.

Lemma frame_of_eq (s : machine) b : frame_of s b = (fun f => fid b (f_gen f)) <$> m_frames s !! b.
Proof. reflexivity. Qed.

Lemma view_of s b f : m_frames s !! b = Some f -> view s b = page (f_words f).
Proof. cbn. by intros ->. Qed.

Lemma pins_of s b f : m_frames s !! b = Some f -> pins s (fid b (f_gen f)) = Z.of_nat (f_pins f).
Proof. intros Hf. cbn. by rewrite (proj2 (find_frame_some _ s b f)). Qed.

(** Reading a block: frames that are pinned stay, dirty ones are written. *)
Lemma written_lookup s b : written s !! b = match m_frames s !! b with
  | Some f => if f_dirty f && bool_decide (f_pins f = 0%nat) then Some (f_words f) else m_disk s !! b
  | None => m_disk s !! b end.
Proof.
  unfold written. rewrite lookup_union, lookup_omap. destruct (m_frames s !! b) as [f|]; cbn; [destruct (_ && _)|]; by destruct (m_disk s !! b).
Qed.

Lemma fetch_miss s b : m_frames s !! b = None -> exists p s', fetch b s = Done (0, Some p) s' /\ frame_of s' b = Some p /\
    (forall b', safe s b' \/ is_pinned s b' -> view s' b' = view s b') /\
    (forall b' q, frame_of s b' = Some q -> 0 < pins s q -> frame_of s' b' = Some q /\ pins s' q = pins s q) /\
    (forall b', safe s b' -> safe s' b') /\ locked s' = locked s.
Proof.
  intros Hb. unfold fetch. rewrite Hb. eexists _, _. split; [reflexivity|].
  set (f0 := Frame (m_next s) (default [] (written s !! b)) false 0).
  set (s' := Machine _ _ _ _).
  assert (forall c, m_frames s' !! c = if decide (c = b) then Some f0 else match m_frames s !! c with Some f => if decide (f_pins f = 0%nat) then None else Some f | None => None end) as Hm.
  { intros c. cbn. destruct (decide (c = b)) as [->|]; [by rewrite lookup_insert_eq|]. rewrite lookup_insert_ne by done.
    destruct (m_frames s !! c) as [f|] eqn:Hc.
    - destruct (decide (f_pins f = 0%nat)); [rewrite map_lookup_filter_None; right; naive_solver|rewrite map_lookup_filter_Some; done].
    - rewrite map_lookup_filter_None. by left. }
  split_and!.
  - rewrite frame_of_eq, Hm, decide_True by done. done.
  - intros c Hc. rewrite !view_eq, Hm. destruct (decide (c = b)) as [->|Hcb].
    { rewrite Hb. cbn. rewrite written_lookup, Hb. done. }
    destruct (m_frames s !! c) as [f|] eqn:Hf; [|unfold stored; cbn; by rewrite written_lookup, Hf].
    destruct (decide (f_pins f = 0%nat)) as [Hp|Hp]; [|done]. unfold stored. cbn. rewrite written_lookup, Hf, bool_decide_true by done. rewrite andb_true_r.
    destruct Hc as [Hs|(q & Hq & Hpin)].
    + destruct (f_dirty f) eqn:Hd; [done|]. destruct (Hs f Hf) as [|E]; [congruence|]. by rewrite E.
    + rewrite frame_of_eq, Hf in Hq. injection Hq as <-. rewrite (pins_of s c f Hf) in Hpin. lia.
  - intros c q Hq Hpin. apply frame_of_some in Hq as (f & Hf & Hq & Hfind). subst q. rewrite (pins_of s c f Hf) in *.
    assert (m_frames s' !! c = Some f) as Hf'. { rewrite Hm. rewrite decide_False by congruence. rewrite Hf. by rewrite decide_False by lia. }
    split; [rewrite frame_of_eq, Hf'; done|]. by apply pins_of.
  - intros c Hs f. rewrite Hm. destruct (decide (c = b)) as [->|Hcb]; [intros [= <-]; by right|]. destruct (m_frames s !! c) as [x|] eqn:Hf; [|done].
    destruct (decide (f_pins x = 0%nat)) as [|Hp]; [done|]. intros [= <-]. destruct (Hs x Hf) as [|E]; [by left|right]. rewrite E.
    unfold stored. cbn. rewrite written_lookup, Hf, (bool_decide_false) by done. by rewrite andb_false_r.
  - done.
Qed.

(** The page is not stored into. *)
Lemma flags_change {A} (s : machine) b p f (g : frame -> A * frame) : m_frames s !! b = Some f -> fid b (f_gen f) = p -> f_gen (g f).2 = f_gen f ->
  f_words (g f).2 = f_words f -> (f_dirty (g f).2 = f_dirty f \/ f_dirty (g f).2 = true) ->
  on_frame p g s = Done (g f).1 (set_frame b (g f).2 s) /\
  change (view s) (fun q => if decide (q = p) then Z.of_nat (f_pins (g f).2) else pins s q)
    (fun c => c = b /\ f_dirty (g f).2 = true \/ safe s c) (locked s) s (set_frame b (g f).2 s).
Proof.
  intros Hf Hp Hg Hw Hd. destruct (on_frame_change s b p f g Hf Hp Hg) as [E C]. split; [done|]. eapply change_mono; [exact C| |done|].
  - intros c. unfold upd. rewrite Hw. destruct (decide (c = b)) as [->|]; [by apply view_of|done].
  - intros c [[-> Hs]|Hs]; [rewrite decide_True by done; by left|]. destruct (decide (c = b)) as [->|]; [|done].
    rewrite Hw. destruct (Hs f Hf); [left|by right]. destruct Hd; congruence.
Qed.

#[export, refine] Instance demo_laws : BlockCacheLaws machine := {}.
Proof.
  - intros s b. rewrite view_eq. destruct (m_frames s !! b); apply page_length.
  - intros s p. cbn. destruct (find_frame p s) as [[? ?]|]; lia.
  - intros s b p i Hf _. apply frame_of_some in Hf as (f & Hf & Hp & Hfind). rewrite (view_of s b f Hf). cbn. by rewrite Hfind.
  - intros s b p i x Hf Hi. apply frame_of_some in Hf as (f & Hf & Hp & Hfind).
    destruct (on_frame_change s b p f (fun f => (tt, Frame (f_gen f) (put i x (page (f_words f))) (f_dirty f) (f_pins f))) Hf Hp eq_refl) as [E C].
    eexists. split; [exact E|]. eapply change_mono; [exact C| | |].
    + intros c. rewrite (view_of s b f Hf). cbn [snd f_words]. by rewrite (page_id (put _ _ _)) by (by rewrite put_length, page_length).
    + intros q. cbn [snd f_pins]. destruct (decide (q = p)) as [->|]; [|done]. rewrite <- Hp. by apply pins_of.
    + intros c [Hc Hs]. by rewrite decide_False.
  - intros s b p Hf. apply frame_of_some in Hf as (f & Hf & Hp & Hfind). exists s. split; [cbn; unfold fetch; by rewrite Hf, Hp|apply change_refl].
  - intros s b Hf. apply fetch_miss. by apply fmap_None in Hf.
  - intros s b p Hf. apply frame_of_some in Hf as (f & Hf & Hp & Hfind).
    destruct (flags_change s b p f (fun f => (0, Frame (f_gen f) (f_words f) true (f_pins f))) Hf Hp eq_refl eq_refl ltac:(by right)) as [E C].
    eexists. split; [exact E|]. eapply change_mono; [exact C|done| |].
    + intros q. cbn [snd f_pins]. destruct (decide (q = p)) as [->|]; [|done]. rewrite <- Hp. by apply pins_of.
    + intros c [->|Hs]; [by left|by right].
  - intros s b p Hf. apply frame_of_some in Hf as (f & Hf & Hp & Hfind).
    destruct (flags_change s b p f (fun f => (tt, Frame (f_gen f) (f_words f) (f_dirty f) (f_pins f + 1))) Hf Hp eq_refl eq_refl ltac:(by left)) as [E C].
    eexists. split; [exact E|]. eapply change_mono; [exact C|done| |].
    + intros q. cbn [snd f_pins]. destruct (decide (q = p)) as [->|]; [|done]. rewrite <- Hp, (pins_of s b f Hf). lia.
    + intros c Hs. by right.
  - intros s b p Hf Hpos. apply frame_of_some in Hf as (f & Hf & Hp & Hfind).
    destruct (flags_change s b p f (fun f => (tt, Frame (f_gen f) (f_words f) (f_dirty f) (f_pins f - 1))) Hf Hp eq_refl eq_refl ltac:(by left)) as [E C].
    eexists. split; [exact E|]. eapply change_mono; [exact C|done| |].
    + intros q. cbn [snd f_pins]. destruct (decide (q = p)) as [->|]; [|done]. rewrite <- Hp, (pins_of s b f Hf) in *. lia.
    + intros c Hs. by right.
  - intros s Hl. exists (set_locked true s). split; [cbn in *; by rewrite Hl|apply locked_change].
  - intros s Hl. exists (set_locked false s). split; [cbn in *; by rewrite Hl|apply locked_change].
Defined.

(** ** A disk *)
Definition disk_inode (next num type : Z) (direct : list Z) (ind : Z) : list Z := [next; num; type] ++ resize 28 0 direct ++ [ind].

(** Eight inodes, of which 2 and 3 are free; inode 1 is a file with the blocks 9 and 10
    and the indirect block 11, which lists 12 and 13.  The [n] blocks from 20 on are free. *)
Definition super (n : Z) : list Z := [S5_MAGIC; 2; n] ++ resize 29 0 (seqZ 20 n) ++ [NONE; 0; 8; S5_CURRENT_VERSION].
Definition inodes : list Z :=
  disk_inode 0 0 S5_TYPE_DIR [] 0 ++ disk_inode 24576 1 S5_TYPE_DATA [9; 10] 11 ++ disk_inode 3 2 0 [] 0 ++ disk_inode NONE 3 0 [] 0 ++
  disk_inode 0 4 S5_TYPE_DIR [] 0 ++ disk_inode 0 5 S5_TYPE_DIR [] 0 ++ disk_inode 0 6 S5_TYPE_DIR [] 0 ++ disk_inode 0 7 S5_TYPE_DIR [] 0.

(** The superblock and the page of the inodes are in pinned frames. *)
Definition disk_with (n : Z) : machine :=
  Machine {[ 0 := super n; 1 := inodes; 11 := [12; 0; 13] ]} {[ 0 := Frame 1 (super n) false 1; 1 := Frame 2 inodes false 1 ]} 3 false.
Definition demo_fs : s5fs := S5fs (fid 0 1).

Lemma demo_ready n : ready demo_fs (disk_with n).
Proof.
  split; [|done|split; done]. intros b f Hf. cbn in Hf.
  apply lookup_insert_Some in Hf as [[<- <-]|[_ Hf]]; [right; reflexivity|]. apply lookup_singleton_Some in Hf as [<- <-]. right. reflexivity.
Qed.

Lemma demo_number n i : 0 <= i < 8 -> iword (view (disk_with n)) i s5_number = i.
Proof.
  intros Hi. assert (i = 0 \/ i = 1 \/ i = 2 \/ i = 3 \/ i = 4 \/ i = 5 \/ i = 6 \/ i = 7) as H by lia.
  repeat destruct H as [->|H]; [reflexivity..|]. subst. reflexivity.
Qed.

Lemma demo_ok n : n ∈ [28; 29] -> fs_ok (view (disk_with n)) [2; 3] (seqZ 20 n).
Proof.
  intros Hn. assert (sword (view (disk_with n)) s5s_nfree = n /\ sword (view (disk_with n)) s5s_num_inodes = 8 /\
    first_node (view (disk_with n)) = seqZ 20 n /\ sword (view (disk_with n)) (s5s_free_blocks + 29) = NONE) as (H1 & H2 & H3 & H4).
  { apply elem_of_cons in Hn as [->|Hn]; [|apply list_elem_of_singleton in Hn as ->]; vm_compute; done. }
  split.
  - intros b. apply view_length.
  - split; rewrite H2; [lia|]. intros i Hi. by apply demo_number.
  - split; [|by apply (bool_decide_unpack _); vm_compute].
    change (sword (view (disk_with n)) s5s_free_inode) with 2. constructor; [by rewrite H2|].
    change (iword (view (disk_with n)) 2 s5_next_free) with 3. constructor; [by rewrite H2|].
    change (iword (view (disk_with n)) 3 s5_next_free) with NONE. constructor.
  - split.
    + rewrite H1. set_solver by lia.
    + exists []. rewrite H4, H3, app_nil_r. split; [constructor|done].
    + apply NoDup_seqZ.
    + intros b Hb%elem_of_seqZ. unfold data_block. rewrite H2. change (S5_INODE_BLOCK (8 - 1)) with 1. unfold NONE. set_solver by lia.
Qed.

(** With 29 blocks in the superblock the block 9 becomes a node. *)
Lemma s5_free_block_spec_witness : exists s', s5_free_block demo_fs 9 (disk_with 29) = Done tt s' /\ fs_ok (view s') [2; 3] (9 :: seqZ 20 29).
Proof.
  destruct (s5_free_block_spec demo_fs (disk_with 29) 9 [2; 3] (seqZ 20 29) (demo_ready 29)) as (s' & E & _ & Hok & _).
  - apply demo_ok. right. left.
  - split; vm_compute; reflexivity.
  - by apply (bool_decide_unpack _); vm_compute.
  - by exists s'.
Defined.

Lemma s5_alloc_inode_spec_witness : exists s', s5_alloc_inode demo_fs S5_TYPE_BLK 256 (disk_with 29) = Done 2 s' /\ fs_ok (view s') [3] (seqZ 20 29) /\
  iword (view s') 2 s5_indirect_block = 256.
Proof.
  destruct (s5_alloc_inode_spec demo_fs (disk_with 29) S5_TYPE_BLK 256 [2; 3] (seqZ 20 29) (demo_ready 29)) as (r & s' & E & _ & -> & Hok & Hw & _).
  - apply demo_ok. right. left.
  - reflexivity.
  - exists s'. split; [exact E|]. split; [exact Hok|]. by rewrite (Hw s5_indirect_block) by done.
Defined.

Lemma demo_blocks : inode_blocks (view (disk_with 28)) 1 = [11; 12; 13; 9; 10].
Proof. vm_compute. reflexivity. Qed.

(** All five blocks of the file are freed, the second one as a node. *)
Lemma s5_free_inode_spec_witness : exists s', s5_free_inode demo_fs (Iptr (fid 1 2) 32) (disk_with 28) = Done tt s' /\
  fs_ok (view s') [1; 2; 3] ([11; 12; 13; 9; 10] ++ seqZ 20 28).
Proof.
  destruct (s5_free_inode_spec demo_fs (disk_with 28) 1 (fid 1 2) [2; 3] (seqZ 20 28) (demo_ready 28)) as (s' & E & _ & Hok & _).
  - apply demo_ok. left.
  - by vm_compute.
  - by apply (bool_decide_unpack _); vm_compute.
  - reflexivity.
  - reflexivity.
  - reflexivity.
  - rewrite demo_blocks. by apply (bool_decide_unpack _); vm_compute.
  - rewrite demo_blocks. intros b Hb. assert (2 <= b <= 13) by set_solver by lia. unfold data_block. change (S5_INODE_BLOCK _) with 1. unfold NONE. lia.
  - exists s'. split; [exact E|]. rewrite demo_blocks in Hok. exact Hok.
Defined.
End S5Demo.
