(* ===== verification/Slab.v ===== *)
(** * The slab allocator ([mm/slab.c])

    A slab is a block of pages cut into objects of one size, each followed by a
    [struct slab_bufctl]; the [struct slab] comes after the last one.  A free
    object's [slab_bufctl] points to the next free object of the slab, that of an
    object in use to the slab.  Objects carry a red zone at each end
    ([SLAB_REDZONE]) and a flag that says whether they are free
    ([SLAB_CHECK_FREE]).

    The structures are in finite maps of the state, by their address.  Pages come
    from [Page].  Memory that is poisoned ([MM_POISON]) holds no structure any
    more.  The address of the static allocator and those of the names are
    parameters. *)

From Stdlib Require Import ZArith Lia.
From stdpp Require Import base list gmap.
From S2P Require Import Prelude Page.

Module Slab.
Local Open Scope Z_scope.

(** ** Data *)
Record slab := MkSlab {
  s_next : option Z;
  s_inuse : Z;
  s_free : option Z;
  s_addr : Z
}.

Record slab_allocator := MkAllocator {
  sa_next : option Z;
  sa_name : Z;
  sa_objsize : Z;
  sa_slabs : option Z;
  sa_order : Z;
  sa_slab_nobjs : Z
}.

(** The union of [sb_next] and [sb_slab] is one pointer. *)
Record slab_bufctl := MkBufctl { sb_u : option Z; sb_free : bool }.

Definition SIZEOF_SLAB : Z := 16.
Definition SIZEOF_ALLOCATOR : Z := 24.
Definition SIZEOF_BUFCTL : Z := 8.
Definition SIZEOF_REDZONE : Z := 4.
Definition SIZEOF_PTR : Z := 4.
Definition SLAB_REDZONE : Z := 0xdeadbeef.
Definition SLAB_MAX_ORDER : Z := 5.
Definition KMALLOC_SIZE_MIN_ORDER : Z := 6.
Definition KMALLOC_SIZE_MAX_ORDER : Z := 18.

Record mem := Mem {
  m_slabs : gmap Z slab;
  m_allocators : gmap Z slab_allocator;
  m_bufctls : gmap Z slab_bufctl;
  m_words : gmap Z Z;
  m_pages : Page.pstate;
  slab_allocators : option Z;
  kmalloc_allocators : list (option Z)
}.

Abbreviation M := (kern mem).

Definition up_slabs f m := Mem (f (m_slabs m)) (m_allocators m) (m_bufctls m) (m_words m) (m_pages m) (slab_allocators m) (kmalloc_allocators m).
Definition up_allocators f m := Mem (m_slabs m) (f (m_allocators m)) (m_bufctls m) (m_words m) (m_pages m) (slab_allocators m) (kmalloc_allocators m).
Definition up_bufctls f m := Mem (m_slabs m) (m_allocators m) (f (m_bufctls m)) (m_words m) (m_pages m) (slab_allocators m) (kmalloc_allocators m).
Definition up_words f m := Mem (m_slabs m) (m_allocators m) (m_bufctls m) (f (m_words m)) (m_pages m) (slab_allocators m) (kmalloc_allocators m).
Definition up_pages p m := Mem (m_slabs m) (m_allocators m) (m_bufctls m) (m_words m) p (slab_allocators m) (kmalloc_allocators m).
Definition up_list o m := Mem (m_slabs m) (m_allocators m) (m_bufctls m) (m_words m) (m_pages m) o (kmalloc_allocators m).
Definition up_kmalloc f m := Mem (m_slabs m) (m_allocators m) (m_bufctls m) (m_words m) (m_pages m) (slab_allocators m) (f (kmalloc_allocators m)).

Definition get_slab (s : Z) : M slab := fun m => deref (m_slabs m !! s) m.
Definition put_slab (s : Z) (x : slab) : M unit := modify (up_slabs <[s := x]>).
Definition get_allocator (a : Z) : M slab_allocator := fun m => deref (m_allocators m !! a) m.
Definition put_allocator (a : Z) (x : slab_allocator) : M unit := modify (up_allocators <[a := x]>).
Definition get_bufctl (b : Z) : M slab_bufctl := fun m => deref (m_bufctls m !! b) m.
Definition put_bufctl (b : Z) (x : slab_bufctl) : M unit := modify (up_bufctls <[b := x]>).
Definition get_word (a : Z) : M Z := fun m => deref (m_words m !! a) m.
Definition put_word (a x : Z) : M unit := modify (up_words <[a := x]>).

(** [memset] over [n] bytes from [lo]: what was stored there is gone. *)
Definition outside (lo n : Z) (a : Z) : Prop := ~ (lo <= a < lo + n).
#[export] Instance outside_dec lo n a : Decision (outside lo n a).
Proof. unfold outside. apply _. Defined.

Definition poison (lo n : Z) : M unit :=
  modify (fun m => up_slabs (filter (fun p => outside lo n (fst p)))
    (up_allocators (filter (fun p => outside lo n (fst p)))
      (up_bufctls (filter (fun p => outside lo n (fst p)))
        (up_words (filter (fun p => outside lo n (fst p))) m)))).

(** ** Places *)
Definition obj_bufctl (al : slab_allocator) (obj : Z) : Z := u32 (obj + sa_objsize al).
Definition next_obj (al : slab_allocator) (obj : Z) : Z := u32 (obj + sa_objsize al + SIZEOF_BUFCTL).
Definition front_rz (obj : Z) : Z := obj.
Definition rear_rz (al : slab_allocator) (obj : Z) : Z := u32 (obj + sa_objsize al - SIZEOF_PTR).

Definition verify_redzones (al : slab_allocator) (obj : Z) : M unit :=
  let* f := get_word (front_rz obj) in
  (if f =? SLAB_REDZONE then ret tt else panic) ;;
  let* r := get_word (rear_rz al obj) in
  if r =? SLAB_REDZONE then ret tt else panic.

(** ** Sizes *)
Definition _slab_size (objsize nobjs : Z) : Z := u32 (nobjs * (objsize + SIZEOF_BUFCTL) + SIZEOF_SLAB).
Definition _slab_nobjs (objsize order : Z) : Z :=
  s32 (u32 (Page.PAGE_SIZE * 2 ^ order - SIZEOF_SLAB) / u32 (objsize + SIZEOF_BUFCTL)).
Definition _slab_waste (objsize order : Z) : Z :=
  s32 (Page.PAGE_SIZE * 2 ^ order - _slab_size objsize (_slab_nobjs objsize order)).

(** The first order from [0] up whose block holds one object. *)
Definition min_order (minsize : Z) : option nat :=
  List.find (fun order => minsize <=? s32 (Page.PAGE_SIZE * 2 ^ Z.of_nat order)) (seq 0 Page.PAGE_NSIZES).

(** The order with the least waste among [best] and the given ones. *)
Fixpoint best_of (objsize : Z) (orders : list Z) (best_order best_waste : Z) : Z :=
  match orders with
  | [] => best_order
  | order :: orders =>
      let waste := _slab_waste objsize order in
      if waste <? best_waste then best_of objsize orders order waste
      else best_of objsize orders best_order best_waste
  end.

(** The orders from [lo] to [SLAB_MAX_ORDER - 1]. *)
Definition orders_from (lo : Z) : list Z := Z.of_nat <$> seq (Z.to_nat lo) (Z.to_nat (SLAB_MAX_ORDER - lo)).

Definition _calc_slab_size (sa : Z) : M unit :=
  let* al := get_allocator sa in
  let objsize := sa_objsize al in
  match min_order (s32 (_slab_size objsize 1)) with
  | None => panic
  | Some minorder =>
      let minorder := Z.of_nat minorder in
      let best := best_of objsize (orders_from (minorder + 1)) minorder (_slab_waste objsize minorder) in
      put_allocator sa (MkAllocator (sa_next al) (sa_name al) objsize (sa_slabs al) best (_slab_nobjs objsize best))
  end.

(** [name] is never NULL here. *)
Definition _allocator_init (sa name size : Z) : M unit :=
  put_allocator sa (MkAllocator None name (u32 (size + 2 * SIZEOF_REDZONE)) None 0 0) ;;
  _calc_slab_size sa ;;
  let* al := get_allocator sa in
  let* l := gets slab_allocators in
  put_allocator sa (MkAllocator l (sa_name al) (sa_objsize al) (sa_slabs al) (sa_order al) (sa_slab_nobjs al)) ;;
  modify (up_list (Some sa)).

(** ** Reclaiming *)

(** [prev]: the place that points to the current slab, [&a->sa_slabs] or
    [&s->s_next]. *)
Inductive slab_ref := InAllocator (a : Z) | InSlab (s : Z).

Definition set_link (l : slab_ref) (next : option Z) : M unit :=
  match l with
  | InAllocator a =>
      let* al := get_allocator a in
      put_allocator a (MkAllocator (sa_next al) (sa_name al) (sa_objsize al) next (sa_order al) (sa_slab_nobjs al))
  | InSlab s => let* x := get_slab s in put_slab s (MkSlab next (s_inuse x) (s_free x) (s_addr x))
  end.

(** A page operation on the pages of the state. *)
Definition on_pages {A} (p : Page.P A) : M A := fun m =>
  match p (m_pages m) with
  | Done a ps => Done a (up_pages ps m)
  | Panic => Panic
  | Stuck => Stuck
  | Blocked => Blocked
  end.

(** [page_free_n] poisons the block it puts on the free lists, whose size is the
    power of two above [npages]. *)
Definition free_pages_n (start npages : Z) : M unit :=
  match Page.order_for npages with
  | None => panic
  | Some order => poison start (2 ^ Z.of_nat order * Page.PAGE_SIZE) ;; on_pages (Page._page_free_order start order)
  end.

(** The loop over the slabs of one allocator: the number of pages freed so far
    and whether the target was met. *)
Fixpoint reclaim_slabs (fuel : nat) (target a : Z) (prev : slab_ref) (s : option Z) (freed : Z) : M (Z * bool) :=
  match fuel with
  | O => blocked
  | S fuel =>
      match s with
      | None => ret (freed, false)
      | Some s =>
          let* x := get_slab s in
          let next := s_next x in
          let* al := get_allocator a in
          let* r :=
            (if s_inuse x =? 0 then
               set_link prev next ;;
               let npages := 2 ^ sa_order al in
               free_pages_n (s_addr x) npages ;;
               ret (prev, s32 (freed + npages))
             else ret (InSlab s, freed)) in
          if (0 <? target) && (target <=? snd r) then ret (snd r, true)
          else reclaim_slabs fuel target a (fst r) next (snd r)
      end
  end.

Fixpoint reclaim_all (fuel : nat) (target : Z) (a : option Z) (freed : Z) : M Z :=
  match fuel with
  | O => blocked
  | S fuel =>
      match a with
      | None => ret freed
      | Some a =>
          let* al := get_allocator a in
          let* n := gets (fun m => S (size (m_slabs m))) in
          let* r := reclaim_slabs n target a (InAllocator a) (sa_slabs al) freed in
          if snd r : bool then ret (fst r)
          else let* al := get_allocator a in reclaim_all fuel target (sa_next al) (fst r)
      end
  end.

(** A list has no more elements than there are structures: that many rounds are
    enough. *)
Definition slab_allocators_reclaim (target : Z) : M Z :=
  let* a := gets slab_allocators in
  let* n := gets (fun m => S (size (m_allocators m))) in
  reclaim_all n target a 0.

(** ** Growing *)

(** [page_alloc_n] as it is seen from here: when there is no block it calls
    [slab_allocators_reclaim(0)] and returns NULL; a block is poisoned. *)
Definition alloc_pages_n (npages : Z) : M (option Z) :=
  let* r := on_pages (@Page.page_alloc_n (fun ps => Done 0 ps) npages) in
  match r with
  | None => slab_allocators_reclaim 0 ;; ret None
  | Some addr =>
      match Page.order_for npages with
      | None => panic
      | Some order => poison addr (2 ^ Z.of_nat order * Page.PAGE_SIZE) ;; ret (Some addr)
      end
  end.

(** The first [n] objects from [obj], each pointing to the next; the object
    after them. *)
Fixpoint chain_objs (al : slab_allocator) (n : nat) (obj : Z) : M Z :=
  match n with
  | O => ret obj
  | S n =>
      put_bufctl (obj_bufctl al obj) (MkBufctl (Some (next_obj al obj)) true) ;;
      chain_objs al n (next_obj al obj)
  end.

Fixpoint mark_objs (al : slab_allocator) (n : nat) (obj : Z) : M unit :=
  match n with
  | O => ret tt
  | S n =>
      put_word (front_rz obj) SLAB_REDZONE ;;
      put_word (rear_rz al obj) SLAB_REDZONE ;;
      mark_objs al n (next_obj al obj)
  end.

(** Address 0 is NULL to the caller of [page_alloc_n]. *)
Definition _slab_allocator_grow (sa : Z) : M bool :=
  let* al := get_allocator sa in
  let* r := alloc_pages_n (2 ^ sa_order al) in
  match r with
  | None => ret false
  | Some addr =>
      if addr =? 0 then ret false
      else
        let* al := get_allocator sa in
        let* obj := chain_objs al (Z.to_nat (sa_slab_nobjs al - 1)) addr in
        put_bufctl (obj_bufctl al obj) (MkBufctl None true) ;;
        let s := next_obj al obj in
        mark_objs al (Z.to_nat (sa_slab_nobjs al)) addr ;;
        put_slab s (MkSlab (sa_slabs al) 0 (Some addr) addr) ;;
        put_allocator sa (MkAllocator (sa_next al) (sa_name al) (sa_objsize al) (Some s) (sa_order al) (sa_slab_nobjs al)) ;;
        ret true
  end.

(** ** Objects *)

(** [while (slab && slab->s_inuse == nobjs) slab = slab->s_next] *)
Fixpoint find_slab (fuel : nat) (nobjs : Z) (s : option Z) : M (option Z) :=
  match fuel with
  | O => blocked
  | S fuel =>
      match s with
      | None => ret None
      | Some s =>
          let* x := get_slab s in
          if s_inuse x =? nobjs then find_slab fuel nobjs (s_next x) else ret (Some s)
      end
  end.

(** [for (;;)]: each round but the last one grows the allocator. *)
Fixpoint find_or_grow (fuel : nat) (sa : Z) : M (option Z) :=
  match fuel with
  | O => blocked
  | S fuel =>
      let* al := get_allocator sa in
      let* n := gets (fun m => S (size (m_slabs m))) in
      let* s := find_slab n (sa_slab_nobjs al) (sa_slabs al) in
      let* ok :=
        match s with
        | None => ret false
        | Some s => let* x := get_slab s in ret (s_inuse x <? sa_slab_nobjs al)
        end in
      if ok : bool then ret s
      else
        let* grown := _slab_allocator_grow sa in
        if grown : bool then find_or_grow fuel sa else ret None
  end.

(** A round that grows takes at least one page. *)
Definition slab_obj_alloc (sa : Z) : M (option Z) :=
  let* n := gets (fun m => S (S (Z.to_nat (Page.page_freecount (m_pages m))))) in
  let* s := find_or_grow n sa in
  match s with
  | None => ret None
  | Some s =>
      let* al := get_allocator sa in
      let* x := get_slab s in
      let* obj := deref (s_free x) in
      let* b := get_bufctl (obj_bufctl al obj) in
      put_slab s (MkSlab (s_next x) (s_inuse x) (sb_u b) (s_addr x)) ;;
      put_bufctl (obj_bufctl al obj) (MkBufctl (Some s) false) ;;
      let* x := get_slab s in
      put_slab s (MkSlab (s_next x) (s32 (s_inuse x + 1)) (s_free x) (s_addr x)) ;;
      verify_redzones al obj ;;
      ret (Some (u32 (obj + SIZEOF_REDZONE)))
  end.

Definition slab_obj_free (sa : Z) (obj : Z) : M unit :=
  let obj := u32 (obj - SIZEOF_REDZONE) in
  let* al := get_allocator sa in
  verify_redzones al obj ;;
  let* b := get_bufctl (obj_bufctl al obj) in
  kassert (negb (sb_free b)) ;;
  put_bufctl (obj_bufctl al obj) (MkBufctl (sb_u b) true) ;;
  let* s := deref (sb_u b) in
  let* x := get_slab s in
  put_bufctl (obj_bufctl al obj) (MkBufctl (s_free x) true) ;;
  put_slab s (MkSlab (s_next x) (s32 (s_inuse x - 1)) (Some obj) (s_addr x)).

Section Boot.
Context (slab_allocator_allocator : Z) (slab_name : Z) (kmalloc_names : nat -> Z).

Definition slab_allocator_create (name size : Z) : M (option Z) :=
  let* r := slab_obj_alloc slab_allocator_allocator in
  match r with
  | None => ret None
  | Some sa => _allocator_init sa name size ;; ret (Some sa)
  end.

(** The loop of [slab_init] over the sizes [2^(order)]. *)
Fixpoint create_buckets (i : nat) (n : nat) : M unit :=
  match n with
  | O => ret tt
  | S n =>
      let* r := slab_allocator_create (kmalloc_names i) (2 ^ (KMALLOC_SIZE_MIN_ORDER + Z.of_nat i)) in
      modify (up_kmalloc <[i := r]>) ;;
      (if bool_decide (r = None) then panic else ret tt) ;;
      create_buckets (S i) n
  end.

Definition slab_init : M unit :=
  _allocator_init slab_allocator_allocator slab_name SIZEOF_ALLOCATOR ;;
  create_buckets 0 13.
End Boot.

(** ** [kmalloc] *)

(** The first bucket that holds [size] bytes. *)
Definition bucket_for (size : Z) : option nat :=
  List.find (fun i => size <=? 2 ^ (KMALLOC_SIZE_MIN_ORDER + Z.of_nat i)) (seq 0 13).

Definition kmalloc (size : Z) : M (option Z) :=
  let size := u32 (size + SIZEOF_PTR) in
  match bucket_for size with
  | None => panic
  | Some i =>
      let* cs := gets (fun m => kmalloc_allocators m !! i) in
      let* sa := deref (mjoin cs) in
      let* addr := slab_obj_alloc sa in
      match addr with
      | None => ret None
      | Some addr =>
          poison addr size ;;
          put_word addr sa ;;
          ret (Some (u32 (addr + SIZEOF_PTR)))
      end
  end.

Definition kfree (addr : Z) : M unit :=
  let addr := u32 (addr - SIZEOF_PTR) in
  let* sa := get_word addr in
  let* al := get_allocator sa in
  poison addr (s32 (sa_objsize al - SIZEOF_REDZONE * 2)) ;;
  slab_obj_free sa addr.

Definition malloc (size : Z) : M (option Z) := kmalloc size.
Definition free (addr : Z) : M unit := kfree addr.
End Slab.
