(* ===== verification/SlabSpec.v ===== *)
(** * The slab allocator: abstract state and refinement

    The abstract state of the slab allocators gives each allocator its slabs and
    each slab the numbers of its free objects; [mem_ok] relates it to the
    structures in memory.  Allocating takes a number off a slab's list, freeing
    puts it back, growing adds a slab with all its numbers, and reclaiming takes
    away slabs whose objects are all free. *)

From Stdlib Require Import ZArith Lia.
From stdpp Require Import base list gmap.
From S2P Require Import Prelude Page PageSpec Slab.

Module SlabSpec.
Import PageSpec Slab.
Local Open Scope Z_scope.

(** ** Sizes *)

(** The distance from one object of a slab to the next. *)
Definition stride (al : slab_allocator) : Z := sa_objsize al + SIZEOF_BUFCTL.

(** The bytes of a block of pages. *)
Definition block_bytes (order : Z) : Z := Page.PAGE_SIZE * 2 ^ order.

(** The objects and the [struct slab] fit in the pages of a slab. *)
Record al_ok (al : slab_allocator) : Prop := AlOk {
  ak_objsize : 8 <= sa_objsize al;
  ak_order : 0 <= sa_order al < 8;
  ak_nobjs : 1 <= sa_slab_nobjs al;
  ak_fits : sa_slab_nobjs al * stride al + SIZEOF_SLAB <= block_bytes (sa_order al)
}.

Lemma block_bytes_bsize order : 0 <= order -> block_bytes order = bsize (Z.to_nat order).
Proof. intros. unfold block_bytes, bsize, Page.PAGE_SIZE, Page.PAGE_SHIFT. rewrite Z.pow_add_r, Z2Nat.id by lia. lia. Qed.

Lemma block_bytes_bound order : 0 <= order < 8 -> 4096 <= block_bytes order <= 2 ^ 19.
Proof.
  intros. unfold block_bytes. change Page.PAGE_SIZE with (2 ^ 12). rewrite <- Z.pow_add_r by lia.
  split; [change 4096 with (2 ^ 12)|]; apply Z.pow_le_mono_r; lia.
Qed.

Lemma block_bytes_mono a b : 0 <= a <= b -> block_bytes a <= block_bytes b.
Proof. intros. unfold block_bytes. apply Z.mul_le_mono_nonneg_l; [done|]. apply Z.pow_le_mono_r; lia. Qed.

(** With no overflow, the number of objects is the largest that fits. *)
Lemma slab_nobjs_eq objsize order : 0 <= objsize < 2 ^ 31 -> 0 <= order < 8 ->
  _slab_nobjs objsize order = (block_bytes order - 16) / (objsize + 8).
Proof.
  intros Ho Hr. pose proof (block_bytes_bound order Hr). unfold _slab_nobjs, SIZEOF_SLAB, SIZEOF_BUFCTL.
  fold (block_bytes order). rewrite !u32_small by lia. apply s32_small.
  split; [|apply Z.div_lt_upper_bound; lia]. transitivity 0; [lia|]. apply Z.div_pos; lia.
Qed.

Lemma slab_waste_eq objsize order : 0 <= objsize < 2 ^ 31 -> 0 <= order < 8 ->
  _slab_waste objsize order = (block_bytes order - 16) mod (objsize + 8).
Proof.
  intros Ho Hr. pose proof (block_bytes_bound order Hr). unfold _slab_waste, _slab_size. rewrite slab_nobjs_eq by done.
  fold (block_bytes order). unfold SIZEOF_SLAB, SIZEOF_BUFCTL.
  pose proof (Z.div_mod (block_bytes order - 16) (objsize + 8)). pose proof (Z.mod_pos_bound (block_bytes order - 16) (objsize + 8)).
  pose proof (Z.div_pos (block_bytes order - 16) (objsize + 8)).
  rewrite u32_small by nia. rewrite s32_small by nia. nia.
Qed.

Lemma min_order_spec minsize : 0 <= minsize ->
  match min_order minsize with
  | Some k => (k < 8)%nat /\ minsize <= block_bytes (Z.of_nat k) /\
      forall j, (j < k)%nat -> block_bytes (Z.of_nat j) < minsize
  | None => 2 ^ 19 < minsize
  end.
Proof.
  intros Hm. unfold min_order. pose proof (find_seq (fun order => minsize <=? s32 (Page.PAGE_SIZE * 2 ^ Z.of_nat order)) 0 Page.PAGE_NSIZES) as Hf.
  assert (Hs : forall j, (j < 8)%nat -> s32 (Page.PAGE_SIZE * 2 ^ Z.of_nat j) = block_bytes (Z.of_nat j)).
  { intros j Hj. pose proof (block_bytes_bound (Z.of_nat j) ltac:(lia)). apply s32_small. fold (block_bytes (Z.of_nat j)). lia. }
  unfold Page.PAGE_NSIZES in *. destruct (List.find _ _) as [k|].
  - destruct Hf as (Hk & Hle & Hlt). split_and!; [lia|rewrite Hs in Hle by lia; by apply Z.leb_le|].
    intros j Hj. specialize (Hlt j ltac:(lia)). rewrite Hs in Hlt by lia. by apply Z.leb_gt.
  - specialize (Hf 7%nat ltac:(lia)). rewrite Hs in Hf by lia. by apply Z.leb_gt in Hf.
Qed.

Lemma best_of_spec objsize orders o w : 0 <= objsize < 2 ^ 31 ->
  (forall o', o' ∈ orders -> 0 <= o' < 8) -> 0 <= o < 8 -> w = _slab_waste objsize o ->
  let b := best_of objsize orders o w in
  (b = o \/ b ∈ orders) /\ _slab_waste objsize b <= w /\ forall o', o' ∈ orders -> _slab_waste objsize b <= _slab_waste objsize o'.
Proof.
  intros Ho. revert o w. induction orders as [|o1 orders IH]; intros o w Hin Hr Hw; cbn [best_of].
  { subst w. split_and!; [by left|done|]. intros o' Hx. by apply elem_of_nil in Hx. }
  destruct (Z.ltb_spec (_slab_waste objsize o1) w) as [Hlt|Hge].
  - destruct (IH o1 (_slab_waste objsize o1)) as (H1 & H2 & H3); [intros; apply Hin; by right|apply Hin; by left|done|].
    split_and!; [right; destruct H1 as [->|]; [by left|by right]|lia|].
    intros o' [->|Hx]%elem_of_cons; [done|by apply H3].
  - destruct (IH o w) as (H1 & H2 & H3); [intros; apply Hin; by right|done|done|].
    split_and!; [destruct H1; [by left|right; by right]|done|]. intros o' [->|Hx]%elem_of_cons; [lia|by apply H3].
Qed.

Lemma elem_orders_from lo o : 0 <= lo -> o ∈ orders_from lo <-> lo <= o < SLAB_MAX_ORDER.
Proof.
  intros Hlo. unfold orders_from. rewrite list_elem_of_fmap. setoid_rewrite elem_of_seq. unfold SLAB_MAX_ORDER. split.
  - intros (y & -> & Hy). lia.
  - intros Ho. exists (Z.to_nat o). lia.
Qed.

(** Among equals the smallest order wins. *)
Lemma best_of_first objsize n : forall a o, o < Z.of_nat a ->
  let b := best_of objsize (Z.of_nat <$> seq a n) o (_slab_waste objsize o) in
  (b = o \/ Z.of_nat a <= b) /\ forall o', o' = o \/ Z.of_nat a <= o' -> o' < b -> _slab_waste objsize b < _slab_waste objsize o'.
Proof.
  induction n as [|n IH]; intros a o Ho; cbn [seq fmap list_fmap best_of]; [split; [by left|intros; lia]|].
  destruct (Z.ltb_spec (_slab_waste objsize (Z.of_nat a)) (_slab_waste objsize o)) as [Hlt|Hge].
  - destruct (IH (S a) (Z.of_nat a) ltac:(lia)) as [H1 H2]. set (b := best_of _ _ _ _) in *. split; [right; lia|].
    intros o' Ho' Hb. destruct (decide (o' = o)) as [->|]; [|apply H2; lia].
    destruct H1 as [->|H1]; [done|]. specialize (H2 (Z.of_nat a) ltac:(by left) ltac:(lia)). lia.
  - destruct (IH (S a) o ltac:(lia)) as [H1 H2]. set (b := best_of _ _ _ _) in *. split; [destruct H1; [by left|right; lia]|].
    intros o' Ho' Hb. destruct (decide (o' = Z.of_nat a)) as [->|]; [|apply H2; [destruct Ho'; [by left|right; lia]|done]].
    specialize (H2 o ltac:(by left) ltac:(lia)). lia.
Qed.

(** The waste of a slab of [2^order] pages. *)
Definition waste (objsize order : Z) : Z := (block_bytes order - SIZEOF_SLAB) mod (objsize + SIZEOF_BUFCTL).

Lemma calc_run m sa al :
  m_allocators m !! sa = Some al -> 0 <= sa_objsize al -> sa_objsize al + 24 <= 2 ^ 19 ->
  exists al' minorder,
    _calc_slab_size sa m = Done tt (up_allocators <[sa := al']> m) /\
    al' = MkAllocator (sa_next al) (sa_name al) (sa_objsize al) (sa_slabs al) (sa_order al') (sa_slab_nobjs al') /\
    0 <= minorder <= sa_order al' /\ sa_order al' < 8 /\ 1 <= sa_slab_nobjs al' /\
    sa_slab_nobjs al' * stride al + SIZEOF_SLAB <= block_bytes (sa_order al') < (sa_slab_nobjs al' + 1) * stride al + SIZEOF_SLAB /\
    (forall o, 0 <= o < minorder -> block_bytes o < stride al + SIZEOF_SLAB) /\
    (forall o, minorder <= o -> o = minorder \/ o < SLAB_MAX_ORDER -> waste (sa_objsize al) (sa_order al') <= waste (sa_objsize al) o) /\
    (forall o, minorder <= o < sa_order al' -> waste (sa_objsize al) (sa_order al') < waste (sa_objsize al) o).
Proof.
  intros Hal H0 Hb. set (objsize := sa_objsize al) in *.
  assert (Esz : s32 (_slab_size objsize 1) = objsize + 24).
  { unfold _slab_size, SIZEOF_BUFCTL, SIZEOF_SLAB. rewrite u32_small by lia. rewrite s32_small by lia. lia. }
  pose proof (min_order_spec (objsize + 24) ltac:(lia)) as Hmin.
  unfold _calc_slab_size. erewrite bind_done by (unfold get_allocator, deref; by rewrite Hal). fold objsize. rewrite Esz.
  destruct (min_order (objsize + 24)) as [k|]; [|lia]. destruct Hmin as (Hk & Hfit & Hless).
  pose proof (best_of_spec objsize (orders_from (Z.of_nat k + 1)) (Z.of_nat k) (_slab_waste objsize (Z.of_nat k)) ltac:(lia)) as Hbest.
  destruct (best_of_first objsize (Z.to_nat (SLAB_MAX_ORDER - (Z.of_nat k + 1))) (k + 1) (Z.of_nat k) ltac:(lia)) as [_ Hfirst].
  replace (Z.of_nat <$> seq (k + 1) _) with (orders_from (Z.of_nat k + 1)) in Hfirst by (unfold orders_from; do 2 f_equal; lia).
  cbv zeta in Hbest. set (b := best_of _ _ _ _) in *.
  destruct Hbest as (Hb1 & Hb2 & Hb3); [|lia|done|].
  { intros o Ho. apply elem_orders_from in Ho; [|lia]. unfold SLAB_MAX_ORDER in Ho. lia. }
  assert (Hbr : Z.of_nat k <= b < 8).
  { destruct Hb1 as [->|Hb1]; [lia|]. apply elem_orders_from in Hb1; [|lia]. unfold SLAB_MAX_ORDER in Hb1. lia. }
  pose proof (block_bytes_mono (Z.of_nat k) b ltac:(lia)) as Hmono.
  exists (MkAllocator (sa_next al) (sa_name al) objsize (sa_slabs al) b (_slab_nobjs objsize b)), (Z.of_nat k).
  cbn [sa_order sa_slab_nobjs]. rewrite slab_nobjs_eq by lia. unfold stride, SIZEOF_SLAB, SIZEOF_BUFCTL. fold objsize.
  pose proof (Z.div_mod (block_bytes b - 16) (objsize + 8)) as Hdm. pose proof (Z.mod_pos_bound (block_bytes b - 16) (objsize + 8)) as Hmp.
  assert (1 <= (block_bytes b - 16) / (objsize + 8)) as H1 by (apply Z.div_le_lower_bound; lia).
  split_and!; try done; try lia; try nia.
  - intros o Ho. pose proof (Hless (Z.to_nat o) ltac:(lia)) as Hl. rewrite Z2Nat.id in Hl by lia. lia.
  - intros o Hge Ho. unfold waste, SIZEOF_SLAB, SIZEOF_BUFCTL.
    rewrite <- !slab_waste_eq by (unfold SLAB_MAX_ORDER in Ho; lia).
    destruct (decide (o = Z.of_nat k)) as [->|]; [done|]. apply Hb3. apply elem_orders_from; lia.
  - intros o Hge. unfold waste, SIZEOF_SLAB, SIZEOF_BUFCTL. rewrite <- !slab_waste_eq by lia. apply Hfirst; lia.
Qed.

(** ** The abstract state and the invariant *)
Record ghost := Ghost { g_slabs : gmap Z (list Z); g_free : gmap Z (list nat) }.

(** Object [j] of the slab whose first object is at [a]. *)
Definition obj_at (al : slab_allocator) (a : Z) (j : nat) : Z := a + Z.of_nat j * stride al.

(** The list of slabs from [p]. *)
Fixpoint slab_list (S : gmap Z slab) (p : option Z) (l : list Z) : Prop :=
  match l with
  | [] => p = None
  | s :: l => p = Some s /\ exists x, S !! s = Some x /\ slab_list S (s_next x) l
  end.

(** The list of free objects from [p]. *)
Fixpoint free_chain (B : gmap Z slab_bufctl) (al : slab_allocator) (a : Z) (p : option Z) (l : list nat) : Prop :=
  match l with
  | [] => p = None
  | j :: l => p = Some (obj_at al a j) /\
      exists b, B !! (obj_at al a j + sa_objsize al) = Some b /\ free_chain B al a (sb_u b) l
  end.

Fixpoint alloc_list (A : gmap Z slab_allocator) (p : option Z) (l : list Z) : Prop :=
  match l with
  | [] => p = None
  | a :: l => p = Some a /\ exists al, A !! a = Some al /\ alloc_list A (sa_next al) l
  end.

Record slab_ok (m : mem) (g : ghost) (al : slab_allocator) (s : Z) (x : slab) (F : list nat) : Prop := SlabOk {
  so_slab : m_slabs m !! s = Some x;
  so_free : g_free g !! s = Some F;
  so_place : s = s_addr x + sa_slab_nobjs al * stride al;
  so_addr : 0 < s_addr x;
  so_pages : allocated (m_pages m) (s_addr x) (Z.to_nat (sa_order al));
  so_nodup : NoDup F;
  so_range j : j ∈ F -> Z.of_nat j < sa_slab_nobjs al;
  so_chain : free_chain (m_bufctls m) al (s_addr x) (s_free x) F;
  so_inuse : s_inuse x = sa_slab_nobjs al - Z.of_nat (length F);
  so_obj j : Z.of_nat j < sa_slab_nobjs al ->
    exists b, m_bufctls m !! (obj_at al (s_addr x) j + sa_objsize al) = Some b /\
      sb_free b = bool_decide (j ∈ F) /\ (j ∉ F -> sb_u b = Some s);
  so_redzones j : Z.of_nat j < sa_slab_nobjs al ->
    m_words m !! obj_at al (s_addr x) j = Some SLAB_REDZONE /\
    m_words m !! (obj_at al (s_addr x) j + sa_objsize al - SIZEOF_PTR) = Some SLAB_REDZONE
}.

(** Slab [s], which is [x], belongs to allocator [sa], which is [al]; its free
    objects are [F]. *)
Definition has_slab (m : mem) (g : ghost) (sa : Z) (al : slab_allocator) (s : Z) (x : slab) (F : list nat) : Prop :=
  m_allocators m !! sa = Some al /\ m_slabs m !! s = Some x /\ g_free g !! s = Some F /\
  exists SL, g_slabs g !! sa = Some SL /\ s ∈ SL.

Definition in_slab (al : slab_allocator) (x : slab) (a : Z) : Prop :=
  s_addr x <= a < s_addr x + block_bytes (sa_order al).

Record mem_ok (m : mem) (g : ghost) : Prop := MemOk {
  mo_pages : pages_ok (m_pages m);
  mo_alloc sa al : m_allocators m !! sa = Some al ->
    al_ok al /\ exists SL, g_slabs g !! sa = Some SL /\ NoDup SL /\ slab_list (m_slabs m) (sa_slabs al) SL;
  mo_slab sa al s : m_allocators m !! sa = Some al -> (exists SL, g_slabs g !! sa = Some SL /\ s ∈ SL) ->
    exists x F, slab_ok m g al s x F;
  mo_dom sa SL : g_slabs g !! sa = Some SL -> is_Some (m_allocators m !! sa);
  mo_apart sa al s x F sa' al' s' x' F' : has_slab m g sa al s x F -> has_slab m g sa' al' s' x' F' ->
    (sa, s) <> (sa', s') -> forall a, in_slab al x a -> ~ in_slab al' x' a;
  mo_housed sa al : m_allocators m !! sa = Some al -> ~ free_at (m_pages m) sa /\
    forall sa' al' s x F, has_slab m g sa' al' s x F -> in_slab al' x sa ->
      exists j, Z.of_nat j < sa_slab_nobjs al' /\ j ∉ F /\
        obj_at al' (s_addr x) j <= sa < obj_at al' (s_addr x) j + sa_objsize al';
  mo_chain : exists AL, NoDup AL /\ alloc_list (m_allocators m) (slab_allocators m) AL
}.

(** Object [o], as its user sees it, is in use. *)
Definition live (m : mem) (g : ghost) (sa o : Z) : Prop :=
  exists al s x F j, has_slab m g sa al s x F /\ Z.of_nat j < sa_slab_nobjs al /\ j ∉ F /\
    o = obj_at al (s_addr x) j + SIZEOF_REDZONE.

(** ** Places in a slab *)
Lemma stride_pos al : al_ok al -> 16 <= stride al.
Proof. intros []. unfold stride, SIZEOF_BUFCTL. lia. Qed.

Lemma obj_at_inj al a j j' : al_ok al -> obj_at al a j = obj_at al a j' -> j = j'.
Proof. intros Hal E. pose proof (stride_pos al Hal). unfold obj_at in E. nia. Qed.

Lemma obj_at_S al a j : obj_at al a (S j) = obj_at al a j + sa_objsize al + SIZEOF_BUFCTL.
Proof. unfold obj_at, stride. lia. Qed.

(** An object and its [slab_bufctl] lie in the block, before the [struct slab]. *)
Lemma obj_at_bounds al a j : al_ok al -> Z.of_nat j < sa_slab_nobjs al ->
  a <= obj_at al a j /\ obj_at al a j + sa_objsize al + SIZEOF_BUFCTL <= a + sa_slab_nobjs al * stride al /\
  a + sa_slab_nobjs al * stride al + SIZEOF_SLAB <= a + block_bytes (sa_order al).
Proof.
  intros Hal Hj. pose proof (stride_pos al Hal). destruct Hal. unfold obj_at. unfold stride, SIZEOF_BUFCTL in *. nia.
Qed.

Lemma has_slab_ok m g sa al s x F : mem_ok m g -> has_slab m g sa al s x F -> al_ok al /\ slab_ok m g al s x F.
Proof.
  intros Hm (Hal & Hx & HF & HSL). split; [by apply (mo_alloc _ _ Hm sa)|].
  destruct (mo_slab _ _ Hm _ _ _ Hal HSL) as (x' & F' & Hok). destruct Hok. by simplify_eq.
Qed.

Lemma ok_has_slab m g sa al s x F SL : m_allocators m !! sa = Some al -> g_slabs g !! sa = Some SL -> s ∈ SL ->
  slab_ok m g al s x F -> has_slab m g sa al s x F.
Proof. intros ? ? ? []. split_and!; eauto. Qed.

(** Everything in a block is below [2^32]. *)
Lemma slab_bounds m g al s x F : mem_ok m g -> al_ok al -> slab_ok m g al s x F ->
  0 < s_addr x /\ s_addr x + block_bytes (sa_order al) < 2 ^ 32.
Proof.
  intros Hm Hal Hs. destruct (allocated_bounds _ _ _ (mo_pages _ _ Hm) (so_pages _ _ _ _ _ _ Hs)).
  rewrite block_bytes_bsize by apply Hal. pose proof (so_addr _ _ _ _ _ _ Hs). lia.
Qed.

Lemma obj_addrs m g al s x F j : mem_ok m g -> al_ok al -> slab_ok m g al s x F -> Z.of_nat j < sa_slab_nobjs al ->
  let o := obj_at al (s_addr x) j in
  obj_bufctl al o = o + sa_objsize al /\ rear_rz al o = o + sa_objsize al - SIZEOF_PTR /\
  u32 (o + SIZEOF_REDZONE) = o + SIZEOF_REDZONE /\ u32 (o + SIZEOF_REDZONE - SIZEOF_REDZONE) = o /\
  next_obj al o = obj_at al (s_addr x) (S j) /\ in_slab al x (o + sa_objsize al).
Proof.
  intros Hm Hal Hs Hj o. destruct (slab_bounds _ _ _ _ _ _ Hm Hal Hs). pose proof (obj_at_bounds al (s_addr x) j Hal Hj).
  pose proof (ak_objsize _ Hal). fold o in H1. unfold obj_bufctl, rear_rz, next_obj, in_slab. rewrite obj_at_S. fold o.
  unfold SIZEOF_BUFCTL, SIZEOF_PTR, SIZEOF_REDZONE, SIZEOF_SLAB in *. rewrite !u32_small by lia. lia.
Qed.

(** ** What a slab does not depend on *)
Lemma free_chain_ext B B' al a p l :
  (forall j, j ∈ l -> B' !! (obj_at al a j + sa_objsize al) = B !! (obj_at al a j + sa_objsize al)) ->
  free_chain B al a p l -> free_chain B' al a p l.
Proof.
  revert p. induction l as [|j l IH]; intros p HB; cbn; [done|]. intros [-> (b & Hb & Hl)]. split; [done|].
  exists b. rewrite HB by left. split; [done|]. apply IH; [|done]. intros i Hi. apply HB. by right.
Qed.

Lemma slab_list_upd S s x x' p l : S !! s = Some x -> s_next x' = s_next x ->
  slab_list S p l -> slab_list (<[s := x']> S) p l.
Proof.
  intros Hs Hn. revert p. induction l as [|s1 l IH]; intros p; cbn; [done|]. intros [-> (x1 & Hx1 & Hl)]. split; [done|].
  destruct (decide (s = s1)) as [<-|Hne].
  - rewrite Hs in Hx1. injection Hx1 as <-. exists x'. rewrite lookup_insert_eq, Hn. split; [done|by apply IH].
  - exists x1. rewrite lookup_insert_ne by done. split; [done|by apply IH].
Qed.

Lemma slab_list_ext S S' p l : (forall s, s ∈ l -> S' !! s = S !! s) -> slab_list S p l -> slab_list S' p l.
Proof.
  revert p. induction l as [|s l IH]; intros p HS; cbn; [done|]. intros [-> (x & Hx & Hl)]. split; [done|].
  exists x. rewrite HS by left. split; [done|]. apply IH; [|done]. intros i Hi. apply HS. by right.
Qed.

Lemma bufctl_in_slab al x j : al_ok al -> Z.of_nat j < sa_slab_nobjs al -> in_slab al x (obj_at al (s_addr x) j + sa_objsize al).
Proof.
  intros Hal Hj. pose proof (obj_at_bounds al (s_addr x) j Hal Hj). pose proof (ak_objsize _ Hal).
  unfold in_slab, SIZEOF_BUFCTL, SIZEOF_SLAB in *. lia.
Qed.

Lemma slab_frame m m' g g' al s x F :
  al_ok al -> slab_ok m g al s x F ->
  m_slabs m' !! s = m_slabs m !! s -> g_free g' !! s = g_free g !! s ->
  (forall j, Z.of_nat j < sa_slab_nobjs al ->
     m_bufctls m' !! (obj_at al (s_addr x) j + sa_objsize al) = m_bufctls m !! (obj_at al (s_addr x) j + sa_objsize al)) ->
  (forall j, Z.of_nat j < sa_slab_nobjs al -> m_words m !! obj_at al (s_addr x) j = m_words m' !! obj_at al (s_addr x) j /\
     m_words m !! (obj_at al (s_addr x) j + sa_objsize al - SIZEOF_PTR) = m_words m' !! (obj_at al (s_addr x) j + sa_objsize al - SIZEOF_PTR)) ->
  allocated (m_pages m') (s_addr x) (Z.to_nat (sa_order al)) ->
  slab_ok m' g' al s x F.
Proof.
  intros Hal [] Es Ef EB EW Hp.
  split; try done; [by rewrite Es|by rewrite Ef| | |].
  - apply (free_chain_ext (m_bufctls m)); [|done]. intros j Hj. apply EB. auto.
  - intros j Hj. rewrite EB by done. auto.
  - intros j Hj. destruct (EW j Hj) as [<- <-]. auto.
Qed.

(** Words outside the slab do not matter either. *)
Lemma slab_words al x j a (W : gmap Z Z) v : al_ok al -> Z.of_nat j < sa_slab_nobjs al -> ~ in_slab al x a ->
  W !! obj_at al (s_addr x) j = <[a := v]> W !! obj_at al (s_addr x) j /\
  W !! (obj_at al (s_addr x) j + sa_objsize al - SIZEOF_PTR) = <[a := v]> W !! (obj_at al (s_addr x) j + sa_objsize al - SIZEOF_PTR).
Proof.
  intros Hal Hj Ha. pose proof (obj_at_bounds al (s_addr x) j Hal Hj). pose proof (ak_objsize _ Hal).
  unfold in_slab, SIZEOF_BUFCTL, SIZEOF_SLAB, SIZEOF_PTR in *.
  rewrite !lookup_insert_ne; [done|..]; intros ->; lia.
Qed.

Lemma owner_unique m g sa al s x F sa' al' x' F' : mem_ok m g ->
  has_slab m g sa al s x F -> has_slab m g sa' al' s x' F' -> sa' = sa.
Proof.
  intros Hm H1 H2. destruct (decide (sa' = sa)) as [|Hne]; [done|]. exfalso.
  destruct (has_slab_ok _ _ _ _ _ _ _ Hm H1) as [Ha1 _]. destruct (has_slab_ok _ _ _ _ _ _ _ Hm H2) as [Ha2 _].
  apply (mo_apart _ _ Hm _ _ _ _ _ _ _ _ _ _ H1 H2 ltac:(congruence) (s_addr x)).
  - pose proof (block_bytes_bound _ (ak_order _ Ha1)). unfold in_slab. lia.
  - destruct H1 as (_ & Hx1 & _), H2 as (_ & Hx2 & _). simplify_eq.
    pose proof (block_bytes_bound _ (ak_order _ Ha2)). unfold in_slab. lia.
Qed.

(** *** A step on one object of a slab *)
Definition step_mem (s b : Z) (x' : slab) (b' : slab_bufctl) (m : mem) : mem :=
  up_slabs <[s := x']> (up_bufctls <[b := b']> m).
Definition step_ghost (s : Z) (F' : list nat) (g : ghost) : ghost := Ghost (g_slabs g) (<[s := F']> (g_free g)).

Lemma step_has_slab m g s b x' b' F' sa1 al1 s1 x1 F1 x F :
  m_slabs m !! s = Some x -> g_free g !! s = Some F ->
  has_slab (step_mem s b x' b' m) (step_ghost s F' g) sa1 al1 s1 x1 F1 ->
  (s1 = s /\ x1 = x' /\ F1 = F' /\ has_slab m g sa1 al1 s x F) \/ (s1 <> s /\ has_slab m g sa1 al1 s1 x1 F1).
Proof.
  intros Hx HF (Hal & Hx1 & HF1 & HSL).
  cbn [step_mem step_ghost up_slabs up_bufctls m_slabs m_bufctls m_allocators g_free g_slabs] in *. destruct (decide (s1 = s)) as [->|Hne].
  - left. rewrite lookup_insert_eq in Hx1. rewrite lookup_insert_eq in HF1. simplify_eq. split_and!; try done.
  - right. rewrite lookup_insert_ne in Hx1 by done. rewrite lookup_insert_ne in HF1 by done. split_and!; try done.
Qed.

Lemma slab_step m g sa al s x F j x' b' F' :
  mem_ok m g -> has_slab m g sa al s x F -> Z.of_nat j < sa_slab_nobjs al ->
  s_next x' = s_next x -> s_addr x' = s_addr x ->
  let m' := step_mem s (obj_at al (s_addr x) j + sa_objsize al) x' b' m in
  slab_ok m' (step_ghost s F' g) al s x' F' ->
  (forall sa0 al0 i, m_allocators m !! sa0 = Some al0 -> i ∉ F ->
     obj_at al (s_addr x) i <= sa0 < obj_at al (s_addr x) i + sa_objsize al -> i ∉ F') ->
  mem_ok m' (step_ghost s F' g).
Proof.
  intros Hm Hs Hj En Ea m' Hok Hhouse. destruct (has_slab_ok _ _ _ _ _ _ _ Hm Hs) as [Hal Hsok].
  destruct Hs as (Hsa & Hx & HF & SL0 & HSL0 & Hin0). assert (Hs : has_slab m g sa al s x F) by (split_and!; eauto).
  destruct (obj_addrs _ _ _ _ _ _ _ Hm Hal Hsok Hj) as (_ & _ & _ & _ & _ & Hb).
  split.
  - apply Hm.
  - intros sa1 al1 Hal1. destruct (mo_alloc _ _ Hm sa1 al1 Hal1) as [Hok1 (SL & HSL & Hnd & Hl)].
    split; [done|]. exists SL. split_and!; try done. by eapply slab_list_upd.
  - intros sa1 al1 s1 Hal1 HSL1. change (m_allocators m !! sa1 = Some al1) in Hal1. destruct (decide (s1 = s)) as [->|Hne].
    + destruct (mo_slab _ _ Hm sa1 al1 s Hal1 HSL1) as (x1 & F1 & Hok1).
      assert (sa1 = sa) as ->.
      { eapply (owner_unique m g); [done|exact Hs|]. destruct HSL1 as (SL & ? & ?). by eapply ok_has_slab. }
      rewrite Hsa in Hal1. injection Hal1 as <-. eauto.
    + destruct (mo_slab _ _ Hm sa1 al1 s1 Hal1 HSL1) as (x1 & F1 & Hok1). exists x1, F1.
      destruct (mo_alloc _ _ Hm sa1 al1 Hal1) as [Hok1' _].
      apply (slab_frame m m' g); try done.
      * cbn [m' step_mem up_slabs m_slabs]. by rewrite lookup_insert_ne.
      * cbn [step_ghost g_free]. by rewrite lookup_insert_ne.
      * intros i Hi. pose proof (bufctl_in_slab al1 x1 i Hok1' Hi) as Ha.
        cbn [m' step_mem up_slabs up_bufctls m_bufctls]. rewrite lookup_insert_ne; [done|]. intros E. rewrite <- E in Ha. destruct HSL1 as (SL & ? & ?).
        apply (mo_apart _ _ Hm sa al s x F sa1 al1 s1 x1 F1 Hs ltac:(by eapply ok_has_slab) ltac:(congruence) _ Hb Ha).
      * apply Hok1.
  - apply Hm.
  - intros sa1 al1 s1 x1 F1 sa2 al2 s2 x2 F2 H1 H2 Hne a.
    assert (Hback : forall sa0 al0 s0 x0 F0, has_slab m' (step_ghost s F' g) sa0 al0 s0 x0 F0 ->
      exists y G, has_slab m g sa0 al0 s0 y G /\ (in_slab al0 x0 a <-> in_slab al0 y a)).
    { intros sa0 al0 s0 x0 F0 H0. destruct (step_has_slab _ _ _ _ _ _ _ _ _ _ _ _ _ _ Hx HF H0) as [(-> & -> & -> & Hh)|[_ Hh]].
      - exists x, F. split; [done|]. unfold in_slab. by rewrite Ea.
      - by exists x0, F0. }
    destruct (Hback _ _ _ _ _ H1) as (y1 & G1 & K1 & ->). destruct (Hback _ _ _ _ _ H2) as (y2 & G2 & K2 & ->).
    by eapply (mo_apart _ _ Hm).
  - intros sa0 al0 Hal0. destruct (mo_housed _ _ Hm sa0 al0 Hal0) as [Hnf Hh]. split; [done|].
    intros sa1 al1 s1 x1 F1 H1 Hin1.
    destruct (step_has_slab _ _ _ _ _ _ _ _ _ _ _ _ _ _ Hx HF H1) as [(-> & -> & -> & Hh1)|[_ Hh1]]; [|by eapply Hh].
    assert (sa1 = sa) as -> by (by eapply (owner_unique m g)).
    destruct Hh1 as (Hal1 & _). rewrite Hsa in Hal1. injection Hal1 as <-. unfold in_slab in Hin1. rewrite Ea in *.
    destruct (Hh _ _ _ _ _ Hs Hin1) as (i & Hi1 & Hi2 & Hi3). exists i. split_and!; try done; [by eapply Hhouse|lia..].
  - apply Hm.
Qed.

Lemma nobjs_bound al : al_ok al -> sa_slab_nobjs al <= 2 ^ 19.
Proof.
  intros Hal. pose proof (block_bytes_bound _ (ak_order _ Hal)). pose proof (stride_pos _ Hal).
  pose proof (ak_fits _ Hal). unfold SIZEOF_SLAB in *. nia.
Qed.

Lemma free_length (F : list nat) n : NoDup F -> (forall j, j ∈ F -> Z.of_nat j < n) -> 0 <= n -> Z.of_nat (length F) <= n.
Proof.
  intros Hnd Hr Hn. assert (length F <= length (seq 0 (Z.to_nat n)))%nat as Hl; [|rewrite length_seq in Hl; lia].
  apply submseteq_length, NoDup_submseteq; [done|]. intros i Hi. apply elem_of_seq. specialize (Hr i Hi). lia.
Qed.

(** *** Taking the first free object *)
Lemma take_slab_ok m g al s x F j b :
  al_ok al -> slab_ok m g al s x (j :: F) ->
  m_bufctls m !! (obj_at al (s_addr x) j + sa_objsize al) = Some b ->
  let x' := MkSlab (s_next x) (s32 (s_inuse x + 1)) (sb_u b) (s_addr x) in
  slab_ok (step_mem s (obj_at al (s_addr x) j + sa_objsize al) x' (MkBufctl (Some s) false) m)
    (step_ghost s F g) al s x' F.
Proof.
  intros Hal [] Hb x'. pose proof (nobjs_bound al Hal).
  pose proof (free_length _ _ so_nodup0 so_range0 ltac:(pose proof (ak_nobjs _ Hal); lia)) as Hlen. cbn [length] in Hlen. apply NoDup_cons in so_nodup0 as [Hni Hnd].
  assert (Hj : Z.of_nat j < sa_slab_nobjs al) by (apply so_range0; left).
  assert (Hdiff : forall i, i <> j -> obj_at al (s_addr x) j + sa_objsize al <> obj_at al (s_addr x) i + sa_objsize al).
  { intros i Hij E. apply Hij. apply (obj_at_inj al (s_addr x)); [done|lia]. }
  cbn [free_chain] in so_chain0. destruct so_chain0 as [Hp (b1 & Hb1 & Hch)]. rewrite Hb in Hb1. injection Hb1 as <-.
  split; cbn [step_mem step_ghost up_slabs up_bufctls m_slabs m_bufctls m_pages m_words g_free x' s_next s_addr s_free s_inuse]; try done.
  - apply lookup_insert_eq.
  - apply lookup_insert_eq.
  - intros i Hi. apply so_range0. by right.
  - apply (free_chain_ext (m_bufctls m)); [|done]. intros i Hi. apply lookup_insert_ne, Hdiff. by intros ->.
  - rewrite so_inuse0. cbn [length]. rewrite s32_small by lia. lia.
  - intros i Hi. destruct (decide (i = j)) as [->|Hij].
    + exists (MkBufctl (Some s) false). rewrite lookup_insert_eq. split_and!; try done. symmetry. by apply bool_decide_eq_false_2.
    + destruct (so_obj0 i Hi) as (b1 & Hb1 & Hf & Hu). exists b1. rewrite lookup_insert_ne by auto. split_and!; try done.
      * rewrite Hf. apply bool_decide_ext. rewrite elem_of_cons. naive_solver.
      * intros Hn. apply Hu. by apply not_elem_of_cons.
Qed.

(** *** Giving an object back *)
Lemma give_slab_ok m g al s x F j :
  al_ok al -> slab_ok m g al s x F -> Z.of_nat j < sa_slab_nobjs al -> j ∉ F ->
  let x' := MkSlab (s_next x) (s32 (s_inuse x - 1)) (Some (obj_at al (s_addr x) j)) (s_addr x) in
  slab_ok (step_mem s (obj_at al (s_addr x) j + sa_objsize al) x' (MkBufctl (s_free x) true) m)
    (step_ghost s (j :: F) g) al s x' (j :: F).
Proof.
  intros Hal [] Hj Hni x'. pose proof (nobjs_bound al Hal).
  pose proof (free_length F _ so_nodup0 so_range0 ltac:(pose proof (ak_nobjs _ Hal); lia)).
  assert (Hdiff : forall i, i <> j -> obj_at al (s_addr x) j + sa_objsize al <> obj_at al (s_addr x) i + sa_objsize al).
  { intros i Hij E. apply Hij. apply (obj_at_inj al (s_addr x)); [done|lia]. }
  split; cbn [step_mem step_ghost up_slabs up_bufctls m_slabs m_bufctls m_pages m_words g_free x' s_next s_addr s_free s_inuse]; try done.
  - apply lookup_insert_eq.
  - apply lookup_insert_eq.
  - by apply NoDup_cons.
  - intros i [->|Hi]%elem_of_cons; [done|auto].
  - split; [done|]. exists (MkBufctl (s_free x) true). rewrite lookup_insert_eq. split; [done|].
    apply (free_chain_ext (m_bufctls m)); [|done]. intros i Hi. apply lookup_insert_ne, Hdiff. by intros ->.
  - rewrite so_inuse0. cbn [length]. rewrite s32_small by lia. lia.
  - intros i Hi. destruct (decide (i = j)) as [->|Hij].
    + exists (MkBufctl (s_free x) true). rewrite lookup_insert_eq. split_and!; [done| |].
      * symmetry. apply bool_decide_eq_true_2. left.
      * intros Hn. destruct Hn. left.
    + destruct (so_obj0 i Hi) as (b1 & Hb1 & Hf & Hu). exists b1. rewrite lookup_insert_ne by auto. split_and!; try done.
      * rewrite Hf. apply bool_decide_ext. rewrite elem_of_cons. naive_solver.
      * intros Hn. apply Hu. by apply not_elem_of_cons in Hn as [_ Hn].
Qed.

Lemma verify_run m al o : m_words m !! o = Some SLAB_REDZONE -> m_words m !! rear_rz al o = Some SLAB_REDZONE ->
  verify_redzones al o m = Done tt m.
Proof.
  intros H1 H2. unfold verify_redzones, front_rz. erewrite bind_done by (unfold get_word, deref; by rewrite H1).
  rewrite Z.eqb_refl. erewrite bind_done by reflexivity. erewrite bind_done by (unfold get_word, deref; by rewrite H2).
  by rewrite Z.eqb_refl.
Qed.

(** The last part of [slab_obj_alloc]. *)
Definition take_obj (sa s : Z) : M (option Z) :=
  let* al := get_allocator sa in
  let* x := get_slab s in
  let* obj := deref (s_free x) in
  let* b := get_bufctl (obj_bufctl al obj) in
  put_slab s (MkSlab (s_next x) (s_inuse x) (sb_u b) (s_addr x)) ;;
  put_bufctl (obj_bufctl al obj) (MkBufctl (Some s) false) ;;
  let* x := get_slab s in
  put_slab s (MkSlab (s_next x) (s32 (s_inuse x + 1)) (s_free x) (s_addr x)) ;;
  verify_redzones al obj ;;
  ret (Some (u32 (obj + SIZEOF_REDZONE))).

Lemma take_obj_run m g sa al s x F j : mem_ok m g -> has_slab m g sa al s x (j :: F) ->
  exists m', take_obj sa s m = Done (Some (obj_at al (s_addr x) j + SIZEOF_REDZONE)) m' /\
    mem_ok m' (step_ghost s F g) /\
    exists b, m' = step_mem s (obj_at al (s_addr x) j + sa_objsize al)
      (MkSlab (s_next x) (s32 (s_inuse x + 1)) (sb_u b) (s_addr x)) (MkBufctl (Some s) false) m.
Proof.
  intros Hm Hs. destruct (has_slab_ok _ _ _ _ _ _ _ Hm Hs) as [Hal Hok].
  assert (Hj : Z.of_nat j < sa_slab_nobjs al) by (apply (so_range _ _ _ _ _ _ Hok); left).
  destruct (obj_addrs _ _ _ _ _ _ _ Hm Hal Hok Hj) as (E1 & E2 & E3 & _).
  pose proof (so_chain _ _ _ _ _ _ Hok) as Hch. cbn [free_chain] in Hch. destruct Hch as [Hp (b & Hb & _)].
  pose proof (take_slab_ok _ _ _ _ _ _ _ _ Hal Hok Hb) as Hok'. cbv zeta in Hok'.
  set (o := obj_at al (s_addr x) j) in *. set (x' := MkSlab _ _ _ _) in *.
  exists (step_mem s (o + sa_objsize al) x' (MkBufctl (Some s) false) m). split_and!; [| |by exists b].
  - destruct Hs as (Hsa & Hx & _). unfold take_obj.
    erewrite bind_done by (unfold get_allocator, deref; by rewrite Hsa).
    erewrite bind_done by (unfold get_slab, deref; by rewrite Hx).
    erewrite bind_done by (unfold deref; by rewrite Hp).
    rewrite E1. erewrite bind_done by (unfold get_bufctl, deref; by rewrite Hb).
    do 2 (erewrite bind_done by reflexivity).
    erewrite bind_done by (unfold get_slab, deref; cbn [up_bufctls up_slabs m_slabs]; by rewrite lookup_insert_eq).
    erewrite bind_done by reflexivity. cbn [s_next s_inuse s_free s_addr]. fold x'.
    replace (up_slabs <[s := x']> _) with (step_mem s (o + sa_objsize al) x' (MkBufctl (Some s) false) m).
    2:{ unfold step_mem, up_slabs, up_bufctls. cbn. f_equal. by rewrite insert_insert_eq. }
    destruct (so_redzones _ _ _ _ _ _ Hok j Hj) as [R1 R2].
    erewrite bind_done by (apply verify_run; [exact R1|rewrite E2; exact R2]). by rewrite E3.
  - apply slab_step with (sa := sa) (F := j :: F); try done. intros sa0 al0 i _ Hn _. by apply not_elem_of_cons in Hn as [_ Hn].
Qed.

(** No allocator structure is in object [j]. *)
Definition unhoused (m : mem) (al : slab_allocator) (x : slab) (j : nat) : Prop :=
  forall sa0 al0, m_allocators m !! sa0 = Some al0 ->
    ~ (obj_at al (s_addr x) j <= sa0 < obj_at al (s_addr x) j + sa_objsize al).

Lemma give_obj_run m g sa al s x F j : mem_ok m g -> has_slab m g sa al s x F -> Z.of_nat j < sa_slab_nobjs al ->
  j ∉ F -> unhoused m al x j ->
  exists m', slab_obj_free sa (obj_at al (s_addr x) j + SIZEOF_REDZONE) m = Done tt m' /\
    mem_ok m' (step_ghost s (j :: F) g) /\
    m' = step_mem s (obj_at al (s_addr x) j + sa_objsize al)
      (MkSlab (s_next x) (s32 (s_inuse x - 1)) (Some (obj_at al (s_addr x) j)) (s_addr x)) (MkBufctl (s_free x) true) m.
Proof.
  intros Hm Hs Hj Hni Hun. destruct (has_slab_ok _ _ _ _ _ _ _ Hm Hs) as [Hal Hok].
  destruct (obj_addrs _ _ _ _ _ _ _ Hm Hal Hok Hj) as (E1 & E2 & _ & E4 & _).
  pose proof (give_slab_ok _ _ _ _ _ _ _ Hal Hok Hj Hni) as Hok'. cbv zeta in Hok'.
  destruct (so_obj _ _ _ _ _ _ Hok j Hj) as (b & Hb & Hf & Hu). rewrite bool_decide_eq_false_2 in Hf by done.
  destruct (so_redzones _ _ _ _ _ _ Hok j Hj) as [R1 R2].
  eexists. split_and!; [| |reflexivity].
  - destruct Hs as (Hsa & Hx & _). unfold slab_obj_free. rewrite E4.
    erewrite bind_done by (unfold get_allocator, deref; by rewrite Hsa).
    erewrite bind_done by (apply verify_run; [exact R1|rewrite E2; exact R2]). rewrite E1.
    erewrite bind_done by (unfold get_bufctl, deref; by rewrite Hb). rewrite Hf.
    erewrite bind_done by (by apply kassert_true). erewrite bind_done by reflexivity. rewrite (Hu Hni).
    erewrite bind_done by reflexivity.
    erewrite bind_done by (unfold get_slab, deref; cbn [up_bufctls m_slabs]; by rewrite Hx).
    erewrite bind_done by reflexivity. unfold put_slab, modify, step_mem, up_slabs, up_bufctls. cbn. do 2 f_equal.
    by rewrite insert_insert_eq.
  - apply slab_step with (sa := sa) (F := F); try done.
    intros sa0 al0 i Hal0 Hn Hin [->|Hi]%elem_of_cons; [|done]. by apply (Hun sa0 al0).
Qed.

(** The flag of a free object gives a second release away. *)
Lemma free_again_panics m g sa al s x F j : mem_ok m g -> has_slab m g sa al s x F -> Z.of_nat j < sa_slab_nobjs al ->
  j ∈ F -> slab_obj_free sa (obj_at al (s_addr x) j + SIZEOF_REDZONE) m = Panic.
Proof.
  intros Hm Hs Hj Hin. destruct (has_slab_ok _ _ _ _ _ _ _ Hm Hs) as [Hal Hok].
  destruct (obj_addrs _ _ _ _ _ _ _ Hm Hal Hok Hj) as (E1 & E2 & _ & E4 & _).
  destruct (so_obj _ _ _ _ _ _ Hok j Hj) as (b & Hb & Hf & _). rewrite bool_decide_eq_true_2 in Hf by done.
  destruct (so_redzones _ _ _ _ _ _ Hok j Hj) as [R1 R2]. destruct Hs as (Hsa & _). unfold slab_obj_free. rewrite E4.
  erewrite bind_done by (unfold get_allocator, deref; by rewrite Hsa).
  erewrite bind_done by (apply verify_run; [exact R1|rewrite E2; exact R2]). rewrite E1.
  erewrite bind_done by (unfold get_bufctl, deref; by rewrite Hb). by rewrite Hf.
Qed.

(** ** Finding a slab with a free object *)
Lemma slab_list_size (S : gmap Z slab) p l : NoDup l -> slab_list S p l -> (length l <= size S)%nat.
Proof.
  intros Hnd Hl. assert (Hin : forall s, s ∈ l -> is_Some (S !! s)).
  { revert p Hl. induction l as [|s l IH]; intros p Hl s1 H1; [by apply elem_of_nil in H1|].
    cbn in Hl. destruct Hl as [_ (x & Hx & Hl)]. apply NoDup_cons in Hnd as [_ Hnd].
    apply elem_of_cons in H1 as [->|H1]; [by eexists|by eapply IH]. }
  clear Hl. rewrite <- size_dom. rewrite <- (size_list_to_set (C := gset Z) l Hnd). apply subseteq_size.
  intros s Hs. apply elem_of_list_to_set in Hs. by apply elem_of_dom, Hin.
Qed.

Lemma find_slab_run m n fuel p l : slab_list (m_slabs m) p l -> (length l < fuel)%nat ->
  exists r, find_slab fuel n p m = Done r m /\
    match r with
    | Some s => s ∈ l /\ exists x, m_slabs m !! s = Some x /\ s_inuse x <> n
    | None => forall s x, s ∈ l -> m_slabs m !! s = Some x -> s_inuse x = n
    end.
Proof.
  revert p fuel. induction l as [|s l IH]; intros p [|fuel] Hl Hf; cbn [length] in Hf; try lia; cbn [find_slab slab_list] in *.
  - subst p. exists None. split; [done|]. intros s x Hs. by apply elem_of_nil in Hs.
  - destruct Hl as [-> (x & Hx & Hl)]. erewrite bind_done by (unfold get_slab, deref; by rewrite Hx).
    destruct (Z.eqb_spec (s_inuse x) n) as [En|En].
    + destruct (IH (s_next x) fuel Hl ltac:(lia)) as (r & Hr & Hp). exists r. split; [done|].
      destruct r as [s1|]; [destruct Hp; split; [by right|done]|].
      intros s1 x1 [->|H1]%elem_of_cons Hx1; [congruence|by eapply Hp].
    + exists (Some s). split; [done|]. split; [left|]. by exists x.
Qed.

(** ** New slabs *)
Lemma frame_back m m' g : mem_ok m g -> m_allocators m' = m_allocators m ->
  (forall sa al s x F, has_slab m g sa al s x F -> m_slabs m' !! s = Some x) ->
  forall sa al s x F, has_slab m' g sa al s x F -> has_slab m g sa al s x F.
Proof.
  intros Hm EA Hfr sa al s x F (Hal & Hx & HF & SL & HSL & Hin). rewrite EA in Hal.
  destruct (mo_slab _ _ Hm sa al s Hal ltac:(eauto)) as (x1 & F1 & Hok).
  pose proof (ok_has_slab _ _ _ _ _ _ _ _ Hal HSL Hin Hok) as Hs. pose proof (Hfr _ _ _ _ _ Hs) as Hx1.
  rewrite Hx in Hx1. injection Hx1 as ->. destruct Hs as (_ & _ & HF1 & _). rewrite HF in HF1. injection HF1 as ->.
  by eapply ok_has_slab.
Qed.

Lemma frame_live m m' g : mem_ok m g -> m_allocators m' = m_allocators m ->
  (forall sa al s x F, has_slab m g sa al s x F -> m_slabs m' !! s = Some x) ->
  forall sa o, live m' g sa o <-> live m g sa o.
Proof.
  intros Hm EA Hfr sa o. split.
  - intros (al & s & x & F & j & Hs & Hj). exists al, s, x, F, j. split; [|done]. by apply (frame_back m m' g).
  - intros (al & s & x & F & j & Hs & Hj). exists al, s, x, F, j. split; [|done]. pose proof (Hfr _ _ _ _ _ Hs).
    destruct Hs as (? & ? & ? & ?). by rewrite <- EA in *.
Qed.

Lemma mem_frame m m' g :
  mem_ok m g -> pages_ok (m_pages m') -> m_allocators m' = m_allocators m -> slab_allocators m' = slab_allocators m ->
  (forall sa al s x F, has_slab m g sa al s x F ->
     m_slabs m' !! s = Some x /\
     (forall j, Z.of_nat j < sa_slab_nobjs al ->
        m_bufctls m' !! (obj_at al (s_addr x) j + sa_objsize al) = m_bufctls m !! (obj_at al (s_addr x) j + sa_objsize al)) /\
     (forall j, Z.of_nat j < sa_slab_nobjs al -> m_words m !! obj_at al (s_addr x) j = m_words m' !! obj_at al (s_addr x) j /\
        m_words m !! (obj_at al (s_addr x) j + sa_objsize al - SIZEOF_PTR) = m_words m' !! (obj_at al (s_addr x) j + sa_objsize al - SIZEOF_PTR)) /\
     allocated (m_pages m') (s_addr x) (Z.to_nat (sa_order al))) ->
  (forall sa al, m_allocators m !! sa = Some al -> ~ free_at (m_pages m') sa) ->
  mem_ok m' g.
Proof.
  intros Hm Hp EA EL Hfr Hh.
  pose proof (frame_back m m' g Hm EA (fun sa al s x F Hs => proj1 (Hfr sa al s x F Hs))) as Hback.
  split; rewrite ?EA, ?EL; try (by apply Hm).
  - done.
  - intros sa al Hal. destruct (mo_alloc _ _ Hm sa al Hal) as [Hok (SL & HSL & Hnd & Hl)]. split; [done|].
    exists SL. split_and!; try done. apply (slab_list_ext (m_slabs m)); [|done]. intros s Hs.
    destruct (mo_slab _ _ Hm sa al s Hal ltac:(eauto)) as (x & F & Hsok).
    destruct (Hfr sa al s x F ltac:(by eapply ok_has_slab)) as (-> & _). symmetry. apply Hsok.
  - intros sa al s Hal HSL. destruct (mo_slab _ _ Hm sa al s Hal HSL) as (x & F & Hsok). exists x, F.
    destruct HSL as (SL & HSL & Hin). destruct (Hfr sa al s x F ltac:(by eapply ok_has_slab)) as (H1 & H2 & H3 & H4).
    apply (slab_frame m m' g); try done; [by apply (mo_alloc _ _ Hm sa)|]. rewrite H1. symmetry. apply Hsok.
  - intros sa al s x F sa' al' s' x' F' H1%Hback H2%Hback. by apply (mo_apart _ _ Hm sa al s x F sa' al' s' x' F').
  - intros sa al Hal. split; [by eapply Hh|]. intros sa' al' s x F H1%Hback. by apply (proj2 (mo_housed _ _ Hm sa al Hal) sa' al' s x F).
Qed.

(** Memory is poisoned. *)
Definition pois (lo n : Z) (m : mem) : mem :=
  up_slabs (filter (fun p => outside lo n (fst p))) (up_allocators (filter (fun p => outside lo n (fst p)))
    (up_bufctls (filter (fun p => outside lo n (fst p))) (up_words (filter (fun p => outside lo n (fst p))) m))).

Lemma poison_run lo n m : poison lo n m = Done tt (pois lo n m).
Proof. done. Qed.

Lemma lookup_outside {A} (X : gmap Z A) lo n a : outside lo n a -> filter (fun p => outside lo n (fst p)) X !! a = X !! a.
Proof.
  intros Ho. destruct (X !! a) as [v|] eqn:E.
  - by apply map_lookup_filter_Some.
  - apply map_lookup_filter_None. by left.
Qed.

Lemma filter_outside {A} (X : gmap Z A) lo n : (forall a v, X !! a = Some v -> outside lo n a) ->
  filter (fun p => outside lo n (fst p)) X = X.
Proof. intros H. apply map_filter_id. intros a v Hv. by eapply H. Qed.

(** Poisoning a block that meets no slab and no allocator. *)
Section Poison.
Context (m : mem) (g : ghost) (p' : Page.pstate) (lo n : Z) (Hm : mem_ok m g).
Context (Hout : forall sa al s x F, has_slab m g sa al s x F -> forall a, in_slab al x a -> outside lo n a).
Context (Hsa : forall sa al, m_allocators m !! sa = Some al -> outside lo n sa).
Let m' := pois lo n (up_pages p' m).

Lemma poison_allocators : m_allocators m' = m_allocators m.
Proof using Hsa. apply filter_outside. apply Hsa. Qed.

Lemma poison_slabs sa al s x F : has_slab m g sa al s x F -> m_slabs m' !! s = Some x.
Proof using Hm Hout.
  intros Hs. destruct (has_slab_ok _ _ _ _ _ _ _ Hm Hs) as [Hal Hok].
  pose proof (stride_pos _ Hal). pose proof (ak_fits _ Hal). pose proof (ak_nobjs _ Hal). unfold SIZEOF_SLAB in *.
  cbn [m' pois up_slabs m_slabs up_pages up_allocators up_bufctls up_words]. rewrite lookup_outside; [apply Hok|].
  apply (Hout _ _ _ _ _ Hs). unfold in_slab. rewrite (so_place _ _ _ _ _ _ Hok). nia.
Qed.

Lemma poison_live sa o : live m' g sa o <-> live m g sa o.
Proof using All. apply frame_live; [done|apply poison_allocators|apply poison_slabs]. Qed.

Lemma poison_ok : pages_ok p' ->
  (forall sa al s x F, has_slab m g sa al s x F -> allocated p' (s_addr x) (Z.to_nat (sa_order al))) ->
  (forall sa al, m_allocators m !! sa = Some al -> ~ free_at p' sa) -> mem_ok m' g.
Proof using All.
  intros Hp Hall Hf. apply (mem_frame m); try done; [apply poison_allocators|].
  intros sa al s x F Hs. destruct (has_slab_ok _ _ _ _ _ _ _ Hm Hs) as [Hal Hok]. pose proof (Hout _ _ _ _ _ Hs) as Ho.
  pose proof (ak_objsize _ Hal). split_and!; [by eapply poison_slabs| | |by eapply Hall].
  - intros j Hj. apply lookup_outside, Ho. by apply bufctl_in_slab.
  - intros j Hj. pose proof (obj_at_bounds al (s_addr x) j Hal Hj). unfold SIZEOF_BUFCTL, SIZEOF_SLAB, SIZEOF_PTR in *.
    split; symmetry; apply lookup_outside, Ho; unfold in_slab; lia.
Qed.
End Poison.

(** *** Laying out a block *)
Lemma chain_run al a n i m : al_ok al -> 0 <= a -> a + block_bytes (sa_order al) < 2 ^ 32 ->
  Z.of_nat (i + n) < sa_slab_nobjs al ->
  exists B, chain_objs al n (obj_at al a i) m = Done (obj_at al a (i + n)) (up_bufctls (fun _ => B) m) /\
    (forall j, (i <= j < i + n)%nat -> B !! (obj_at al a j + sa_objsize al) = Some (MkBufctl (Some (obj_at al a (S j))) true)) /\
    (forall z, (forall j, (i <= j < i + n)%nat -> z <> obj_at al a j + sa_objsize al) -> B !! z = m_bufctls m !! z).
Proof.
  intros Hal H0 H32. revert i m. induction n as [|n IH]; intros i m Hn.
  - exists (m_bufctls m). rewrite Nat.add_0_r. split_and!; [by destruct m|intros; lia|done].
  - cbn [chain_objs]. pose proof (obj_at_bounds al a i Hal ltac:(lia)) as Hb. pose proof (ak_objsize _ Hal).
    unfold SIZEOF_BUFCTL, SIZEOF_SLAB in Hb. unfold obj_bufctl, next_obj. rewrite !u32_small by (unfold SIZEOF_BUFCTL; lia).
    rewrite <- obj_at_S. erewrite bind_done by reflexivity.
    destruct (IH (S i) (up_bufctls <[obj_at al a i + sa_objsize al := MkBufctl (Some (obj_at al a (S i))) true]> m) ltac:(lia))
      as (B & Hr & Hin & Hout).
    exists B. split_and!.
    + rewrite Hr. by replace (S i + n)%nat with (i + S n)%nat by lia.
    + intros j Hj. destruct (decide (j = i)) as [->|]; [|apply Hin; lia].
      rewrite Hout; [cbn; apply lookup_insert_eq|]. intros k Hk E. assert (i = k) by (apply (obj_at_inj al a); [done|lia]). lia.
    + intros z Hz. rewrite Hout by (intros; apply Hz; lia). cbn. apply lookup_insert_ne. apply not_eq_sym, Hz. lia.
Qed.

Lemma mark_run al a n i m : al_ok al -> 0 <= a -> a + block_bytes (sa_order al) < 2 ^ 32 ->
  Z.of_nat (i + n) <= sa_slab_nobjs al ->
  exists W, mark_objs al n (obj_at al a i) m = Done tt (up_words (fun _ => W) m) /\
    (forall j, (i <= j < i + n)%nat -> W !! obj_at al a j = Some SLAB_REDZONE /\
       W !! (obj_at al a j + sa_objsize al - SIZEOF_PTR) = Some SLAB_REDZONE) /\
    (forall z, W !! z = m_words m !! z \/ (W !! z = Some SLAB_REDZONE /\ a <= z < a + block_bytes (sa_order al))).
Proof.
  intros Hal H0 H32. revert i m. induction n as [|n IH]; intros i m Hn.
  - exists (m_words m). split_and!; [by destruct m|intros; lia|by left].
  - cbn [mark_objs]. pose proof (obj_at_bounds al a i Hal ltac:(lia)) as Hb. pose proof (ak_objsize _ Hal).
    unfold SIZEOF_BUFCTL, SIZEOF_SLAB in Hb. unfold front_rz, rear_rz, next_obj.
    rewrite !u32_small by (unfold SIZEOF_BUFCTL, SIZEOF_PTR; lia). rewrite <- obj_at_S. do 2 (erewrite bind_done by reflexivity).
    set (r := obj_at al a i + sa_objsize al - SIZEOF_PTR).
    assert (Hm1 : forall z, (<[r := SLAB_REDZONE]> (<[obj_at al a i := SLAB_REDZONE]> (m_words m))) !! z =
      if bool_decide (z = r \/ z = obj_at al a i) then Some SLAB_REDZONE else m_words m !! z).
    { intros z. case_bool_decide as Hz; [|rewrite !lookup_insert_ne; naive_solver].
      destruct (decide (r = z)) as [->|]; [apply lookup_insert_eq|]. rewrite lookup_insert_ne by done.
      destruct Hz as [->| ->]; [done|apply lookup_insert_eq]. }
    destruct (IH (S i) (up_words <[r := SLAB_REDZONE]> (up_words <[obj_at al a i := SLAB_REDZONE]> m)) ltac:(lia)) as (W & Hr & Hin & Hout).
    cbn [up_words m_words] in Hout. setoid_rewrite Hm1 in Hout. exists W. split_and!; [done| |].
    + intros j Hj. destruct (decide (j = i)) as [->|]; [|apply Hin; lia]. fold r.
      split; [destruct (Hout (obj_at al a i)) as [->|[-> _]]|destruct (Hout r) as [->|[-> _]]]; try done;
        by rewrite bool_decide_eq_true_2 by auto.
    + intros z. destruct (Hout z) as [->|]; [|by right]. case_bool_decide as Hz; [right|by left].
      split; [done|]. unfold r, SIZEOF_PTR in Hz. lia.
Qed.

(** The whole free list of a new slab. *)
Lemma fresh_chain B al a n i : (forall j, (i <= j < i + n)%nat -> B !! (obj_at al a j + sa_objsize al) = Some (MkBufctl (Some (obj_at al a (S j))) true)) ->
  B !! (obj_at al a (i + n) + sa_objsize al) = Some (MkBufctl None true) ->
  free_chain B al a (Some (obj_at al a i)) (seq i (S n)).
Proof.
  revert i. induction n as [|n IH]; intros i Hin Hlast.
  - rewrite Nat.add_0_r in Hlast. cbn. split; [done|]. by exists (MkBufctl None true).
  - rewrite <- cons_seq. split; [done|]. exists (MkBufctl (Some (obj_at al a (S i))) true). split; [apply Hin; lia|].
    apply IH; [intros; apply Hin; lia|]. by replace (S i + n)%nat with (i + S n)%nat by lia.
Qed.

Definition with_slabs (al : slab_allocator) (p : option Z) : slab_allocator :=
  MkAllocator (sa_next al) (sa_name al) (sa_objsize al) p (sa_order al) (sa_slab_nobjs al).

Lemma free_chain_with B al p a q l : free_chain B (with_slabs al p) a q l <-> free_chain B al a q l.
Proof.
  revert q. induction l as [|j l IH]; intros q; cbn; [done|]. change (obj_at (with_slabs al p) a j) with (obj_at al a j).
  by setoid_rewrite IH.
Qed.

Lemma slab_ok_with m g al p s x F : slab_ok m g al s x F <-> slab_ok m g (with_slabs al p) s x F.
Proof. split; intros []; split; try assumption; by apply free_chain_with in so_chain0 || by apply free_chain_with. Qed.

Lemma al_ok_with al p : al_ok al -> al_ok (with_slabs al p).
Proof. intros []. by split. Qed.

(** *** Adding a slab *)
Definition add_slab_mem (sa : Z) (al : slab_allocator) (s : Z) (x : slab) (B : gmap Z slab_bufctl) (W : gmap Z Z) (m : mem) : mem :=
  up_allocators <[sa := with_slabs al (Some s)]> (up_slabs <[s := x]> (up_words (fun _ => W) (up_bufctls (fun _ => B) m))).
Definition add_slab_ghost (sa s : Z) (SL : list Z) (n : nat) (g : ghost) : ghost :=
  Ghost (<[sa := s :: SL]> (g_slabs g)) (<[s := seq 0 n]> (g_free g)).

Lemma alloc_list_upd (A : gmap Z slab_allocator) sa al al' p l : A !! sa = Some al -> sa_next al' = sa_next al ->
  alloc_list A p l -> alloc_list (<[sa := al']> A) p l.
Proof.
  intros Hs Hn. revert p. induction l as [|a l IH]; intros p; cbn; [done|]. intros [-> (al1 & Hx1 & Hl)]. split; [done|].
  destruct (decide (sa = a)) as [<-|Hne].
  - rewrite Hs in Hx1. injection Hx1 as <-. exists al'. rewrite lookup_insert_eq, Hn. split; [done|by apply IH].
  - exists al1. rewrite lookup_insert_ne by done. split; [done|by apply IH].
Qed.

Section AddSlab.
Context (m : mem) (g : ghost) (sa : Z) (al : slab_allocator) (SL : list Z) (a : Z) (B : gmap Z slab_bufctl) (W : gmap Z Z).
Context (Hm : mem_ok m g) (Hsa : m_allocators m !! sa = Some al) (HSL : g_slabs g !! sa = Some SL).
Context (Hall : allocated (m_pages m) a (Z.to_nat (sa_order al))) (Ha0 : 0 < a).
Let inside (z : Z) : Prop := a <= z < a + block_bytes (sa_order al).
Context (Hfar : forall sa' al' s' x' F', has_slab m g sa' al' s' x' F' -> forall z, in_slab al' x' z -> ~ inside z).
Context (Hno : forall sa0 al0, m_allocators m !! sa0 = Some al0 -> ~ inside sa0).
Let n := Z.to_nat (sa_slab_nobjs al).
Let s := obj_at al a n.
Let x := MkSlab (sa_slabs al) 0 (Some a) a.
Context (HB1 : forall j, (j < n - 1)%nat -> B !! (obj_at al a j + sa_objsize al) = Some (MkBufctl (Some (obj_at al a (S j))) true)).
Context (HB2 : B !! (obj_at al a (n - 1) + sa_objsize al) = Some (MkBufctl None true)).
Context (HB3 : forall z, ~ inside z -> B !! z = m_bufctls m !! z).
Context (HW1 : forall j, (j < n)%nat -> W !! obj_at al a j = Some SLAB_REDZONE /\
  W !! (obj_at al a j + sa_objsize al - SIZEOF_PTR) = Some SLAB_REDZONE).
Context (HW2 : forall z, ~ inside z -> W !! z = m_words m !! z).
Let m' := add_slab_mem sa al s x B W m.
Let g' := add_slab_ghost sa s SL n g.

Lemma new_place : al_ok al /\ (1 <= n)%nat /\ Z.of_nat n = sa_slab_nobjs al /\ inside s.
Proof using Hm Hsa.
  destruct (mo_alloc _ _ Hm sa al Hsa) as [Hal _]. pose proof (ak_nobjs _ Hal). pose proof (ak_fits _ Hal). pose proof (stride_pos _ Hal).
  unfold inside, s, n, obj_at, SIZEOF_SLAB in *. split_and!; try done; try lia; nia.
Qed.

Lemma new_slab_ok : slab_ok m' g' al s x (seq 0 n).
Proof using All.
  destruct new_place as (Hal & Hn1 & Hn & Hins).
  assert (HBj : forall j, (j < n)%nat -> exists b, B !! (obj_at al a j + sa_objsize al) = Some b /\ sb_free b = true).
  { intros j Hj. destruct (decide (j < n - 1)%nat); [eexists; split; [by apply HB1|done]|].
    replace j with (n - 1)%nat by lia. by eexists. }
  split; cbn [m' g' add_slab_mem add_slab_ghost up_allocators up_slabs up_words up_bufctls m_slabs m_words m_bufctls m_pages g_free x s_addr s_free s_inuse s_next].
  - apply lookup_insert_eq.
  - apply lookup_insert_eq.
  - unfold s, obj_at. by rewrite Hn.
  - done.
  - done.
  - apply NoDup_seq.
  - intros j [_ Hj]%elem_of_seq. lia.
  - replace n with (S (n - 1)) by lia. replace a with (obj_at al a 0) at 2 by (unfold obj_at; lia).
    apply fresh_chain; [intros j Hj; apply HB1; lia|done].
  - rewrite length_seq. lia.
  - intros j Hj. destruct (HBj j ltac:(lia)) as (b & Hb & Hf). exists b. split_and!; [done| |].
    + rewrite Hf. symmetry. apply bool_decide_eq_true_2, elem_of_seq. lia.
    + intros Hni. destruct Hni. apply elem_of_seq. lia.
  - intros j Hj. apply HW1. lia.
Qed.

Lemma new_not_old sa2 SL2 : g_slabs g !! sa2 = Some SL2 -> s ∉ SL2.
Proof using All.
  destruct new_place as (_ & _ & _ & Hins). intros HSL2 Hin2. destruct (mo_dom _ _ Hm _ _ HSL2) as [al2 H2].
  destruct (mo_slab _ _ Hm sa2 al2 s H2 ltac:(eauto)) as (x2 & F2 & Hok2).
  apply (Hfar sa2 al2 s x2 F2 ltac:(by eapply ok_has_slab) s); [|done].
  destruct (mo_alloc _ _ Hm _ _ H2) as [Hal2 _]. pose proof (stride_pos _ Hal2). pose proof (ak_fits _ Hal2). pose proof (ak_nobjs _ Hal2).
  unfold in_slab. rewrite (so_place _ _ _ _ _ _ Hok2). unfold SIZEOF_SLAB in *. nia.
Qed.

(** The slabs of the new state are the new one and the old ones. *)
Lemma new_has_slab sa1 al1 s1 x1 F1 : has_slab m' g' sa1 al1 s1 x1 F1 ->
  (sa1 = sa /\ s1 = s /\ al1 = with_slabs al (Some s) /\ x1 = x) \/
  (s1 <> s /\ exists al2, has_slab m g sa1 al2 s1 x1 F1 /\ (al1 = al2 \/ (sa1 = sa /\ al2 = al /\ al1 = with_slabs al (Some s)))).
Proof using All.
  intros (Hal1 & Hx1 & HF1 & SL1 & HSL1 & Hin1).
  cbn [m' g' add_slab_mem add_slab_ghost up_allocators up_slabs m_allocators m_slabs g_free g_slabs] in *.
  assert (Hold : forall sa2 al2, m_allocators m !! sa2 = Some al2 -> (exists SL2, g_slabs g !! sa2 = Some SL2 /\ s1 ∈ SL2) ->
    s1 <> s /\ has_slab m g sa2 al2 s1 x1 F1).
  { intros sa2 al2 H2 (SL2 & HSL2 & Hin2). assert (s1 <> s) as Hne by (intros ->; by eapply new_not_old).
    split; [done|]. rewrite lookup_insert_ne in Hx1 by done. rewrite lookup_insert_ne in HF1 by done.
    split_and!; try done. by exists SL2. }
  destruct (decide (sa1 = sa)) as [->|Hne].
  - rewrite lookup_insert_eq in Hal1. rewrite lookup_insert_eq in HSL1. injection Hal1 as <-. injection HSL1 as <-.
    destruct (decide (s1 = s)) as [->|Hs1].
    + left. rewrite lookup_insert_eq in Hx1. injection Hx1 as <-. done.
    + right. apply elem_of_cons in Hin1 as [->|Hin1]; [done|]. destruct (Hold sa al Hsa ltac:(eauto)) as [_ Hs].
      split; [done|]. exists al. split; [done|]. by right.
  - rewrite lookup_insert_ne in Hal1 by done. rewrite lookup_insert_ne in HSL1 by done.
    destruct (Hold sa1 al1 Hal1 ltac:(eauto)) as [Hs1 Hs]. right. split; [done|]. exists al1. auto.
Qed.

Lemma old_slab_ok sa1 al1 s1 x1 F1 : has_slab m g sa1 al1 s1 x1 F1 -> slab_ok m' g' al1 s1 x1 F1.
Proof using All.
  intros Hs. destruct (has_slab_ok _ _ _ _ _ _ _ Hm Hs) as [Hal1 Hok]. pose proof (Hfar _ _ _ _ _ Hs) as Hz.
  assert (s1 <> s) as Hne by (destruct Hs as (_ & _ & _ & SL1 & ? & ?); intros ->; by eapply new_not_old).
  apply (slab_frame m m' g); try done.
  - cbn [m' add_slab_mem up_allocators up_slabs m_slabs]. by rewrite lookup_insert_ne.
  - cbn [g' add_slab_ghost g_free]. by rewrite lookup_insert_ne.
  - intros j Hj. apply HB3, Hz. by apply bufctl_in_slab.
  - intros j Hj. pose proof (obj_at_bounds al1 (s_addr x1) j Hal1 Hj). pose proof (ak_objsize _ Hal1).
    unfold SIZEOF_BUFCTL, SIZEOF_SLAB, SIZEOF_PTR in *. split; symmetry; apply HW2, Hz; unfold in_slab; lia.
  - apply Hok.
Qed.

Lemma new_apart sa1 al1 s1 x1 F1 sa2 al2 s2 x2 F2 : has_slab m' g' sa1 al1 s1 x1 F1 -> has_slab m' g' sa2 al2 s2 x2 F2 ->
  (sa1, s1) <> (sa2, s2) -> forall z, in_slab al1 x1 z -> ~ in_slab al2 x2 z.
Proof using All.
  intros H1 H2 Hne z Hz1 Hz2.
  destruct (new_has_slab _ _ _ _ _ H1) as [(-> & -> & -> & ->)|(_ & al1' & K1 & E1)];
    destruct (new_has_slab _ _ _ _ _ H2) as [(-> & -> & -> & ->)|(_ & al2' & K2 & E2)].
  - done.
  - apply (Hfar _ _ _ _ _ K2 z); [|done]. by destruct E2 as [->|(-> & -> & ->)].
  - apply (Hfar _ _ _ _ _ K1 z); [|done]. by destruct E1 as [->|(-> & -> & ->)].
  - apply (mo_apart _ _ Hm _ _ _ _ _ _ _ _ _ _ K1 K2 Hne z).
    + by destruct E1 as [->|(-> & -> & ->)].
    + by destruct E2 as [->|(-> & -> & ->)].
Qed.

Lemma new_lists sa1 al1 : m_allocators m' !! sa1 = Some al1 ->
  al_ok al1 /\ exists SL1, g_slabs g' !! sa1 = Some SL1 /\ NoDup SL1 /\ slab_list (m_slabs m') (sa_slabs al1) SL1.
Proof using All.
  cbn [m' g' add_slab_mem add_slab_ghost up_allocators up_slabs up_words up_bufctls m_allocators m_slabs g_slabs].
  assert (Hkeep : forall sa2 SL2 p, g_slabs g !! sa2 = Some SL2 -> slab_list (m_slabs m) p SL2 -> slab_list (<[s := x]> (m_slabs m)) p SL2).
  { intros sa2 SL2 p H2. apply slab_list_ext. intros s2 Hs2. apply lookup_insert_ne. intros <-. by eapply new_not_old. }
  destruct (decide (sa = sa1)) as [<-|Hne].
  - rewrite lookup_insert_eq. intros [= <-]. destruct (mo_alloc _ _ Hm sa al Hsa) as [Hal (SL1 & HSL1 & Hnd & Hl)].
    rewrite HSL in HSL1. injection HSL1 as <-. split; [by apply al_ok_with|]. exists (s :: SL). rewrite lookup_insert_eq.
    split_and!; [done| |].
    + apply NoDup_cons. split; [by eapply new_not_old|done].
    + split; [done|]. exists x. rewrite lookup_insert_eq. split; [done|]. by eapply Hkeep.
  - rewrite !lookup_insert_ne by done. intros H1. destruct (mo_alloc _ _ Hm sa1 al1 H1) as [Hal (SL1 & HSL1 & Hnd & Hl)].
    split; [done|]. exists SL1. split_and!; try done. by eapply Hkeep.
Qed.

Lemma add_slab_ok : mem_ok m' g'.
Proof using All.
  split.
  - apply Hm.
  - apply new_lists.
  - intros sa1 al1 s1 H1 (SL1 & HSL1 & Hin1).
    cbn [m' g' add_slab_mem add_slab_ghost up_allocators m_allocators g_slabs] in H1, HSL1. destruct (decide (sa1 = sa)) as [->|Hne].
    + rewrite lookup_insert_eq in H1. rewrite lookup_insert_eq in HSL1. injection H1 as <-. injection HSL1 as <-.
      apply elem_of_cons in Hin1 as [->|Hin1].
      * exists x, (seq 0 n). apply slab_ok_with, new_slab_ok.
      * destruct (mo_slab _ _ Hm sa al s1 Hsa ltac:(eauto)) as (x1 & F1 & Hok1). exists x1, F1.
        apply slab_ok_with. apply (old_slab_ok sa). by eapply ok_has_slab.
    + rewrite lookup_insert_ne in H1 by done. rewrite lookup_insert_ne in HSL1 by done.
      destruct (mo_slab _ _ Hm sa1 al1 s1 H1 ltac:(eauto)) as (x1 & F1 & Hok1). exists x1, F1.
      apply (old_slab_ok sa1). by eapply ok_has_slab.
  - intros sa1 SL1. cbn [m' g' add_slab_mem add_slab_ghost up_allocators m_allocators g_slabs].
    destruct (decide (sa = sa1)) as [<-|Hne]; [rewrite !lookup_insert_eq; by eexists|]. rewrite !lookup_insert_ne by done. apply Hm.
  - apply new_apart.
  - intros sa0 al0 H0. assert (exists al0', m_allocators m !! sa0 = Some al0') as [al0' H0'].
    { cbn [m' add_slab_mem up_allocators m_allocators] in H0. destruct (decide (sa = sa0)) as [<-|]; [by eexists|].
      rewrite lookup_insert_ne in H0 by done. by eexists. }
    destruct (mo_housed _ _ Hm sa0 al0' H0') as [Hnf Hh]. split; [done|]. intros sa1 al1 s1 x1 F1 H1 Hin1.
    destruct (new_has_slab _ _ _ _ _ H1) as [(-> & -> & -> & ->)|(_ & al1' & K1 & E1)].
    + by destruct (Hno sa0 al0' H0').
    + destruct E1 as [->|(-> & -> & ->)]; by apply (Hh _ _ _ _ _ K1).
  - destruct (mo_chain _ _ Hm) as (AL & Hnd & Hl). exists AL. split; [done|].
    cbn [m' add_slab_mem up_allocators m_allocators slab_allocators up_slabs up_words up_bufctls].
    by apply (alloc_list_upd _ _ al).
Qed.
End AddSlab.

(** ** Taking slabs away *)
Definition with_next (x : slab) (q : option Z) : slab := MkSlab q (s_inuse x) (s_free x) (s_addr x).

(** The structures of [m1] are those of [m], list pointers aside. *)
Record relinked (m m1 : mem) : Prop := Relinked {
  rl_alloc sa : match m_allocators m !! sa, m_allocators m1 !! sa with
    | Some al, Some al1 => exists p, al1 = with_slabs al p
    | None, None => True
    | _, _ => False
    end;
  rl_slab s : match m_slabs m !! s, m_slabs m1 !! s with
    | Some x, Some x1 => exists q, x1 = with_next x q
    | None, None => True
    | _, _ => False
    end;
  rl_bufctls : m_bufctls m1 = m_bufctls m;
  rl_words : m_words m1 = m_words m;
  rl_pages : m_pages m1 = m_pages m;
  rl_list : slab_allocators m1 = slab_allocators m;
  rl_kmalloc : kmalloc_allocators m1 = kmalloc_allocators m
}.

Lemma relinked_alloc m m1 sa al : relinked m m1 -> m_allocators m !! sa = Some al ->
  exists p, m_allocators m1 !! sa = Some (with_slabs al p).
Proof. intros Hr H. pose proof (rl_alloc _ _ Hr sa) as HA. rewrite H in HA. destruct (m_allocators m1 !! sa); [|done]. destruct HA as [p ->]. eauto. Qed.

Lemma relinked_alloc' m m1 sa al1 : relinked m m1 -> m_allocators m1 !! sa = Some al1 ->
  exists al p, m_allocators m !! sa = Some al /\ al1 = with_slabs al p.
Proof. intros Hr H. pose proof (rl_alloc _ _ Hr sa) as HA. rewrite H in HA. destruct (m_allocators m !! sa); [|done]. destruct HA as [p ->]. eauto. Qed.

Lemma relinked_slab m m1 s x : relinked m m1 -> m_slabs m !! s = Some x -> exists q, m_slabs m1 !! s = Some (with_next x q).
Proof. intros Hr H. pose proof (rl_slab _ _ Hr s) as HA. rewrite H in HA. destruct (m_slabs m1 !! s); [|done]. destruct HA as [p ->]. eauto. Qed.

Lemma relinked_ok m m1 g al p s x q F : relinked m m1 -> slab_ok m g al s x F -> m_slabs m1 !! s = Some (with_next x q) ->
  forall g1, g_free g1 = g_free g -> slab_ok m1 g1 (with_slabs al p) s (with_next x q) F.
Proof.
  intros [] [] Hx g1 Hg. split; rewrite ?rl_bufctls0, ?rl_words0, ?rl_pages0, ?Hg; try done. by apply free_chain_with.
Qed.

Lemma alloc_list_relinked m m1 p l : relinked m m1 -> alloc_list (m_allocators m) p l -> alloc_list (m_allocators m1) p l.
Proof.
  intros Hr. revert p. induction l as [|a l IH]; intros p; cbn; [done|]. intros [-> (al & Hal & Hl)]. split; [done|].
  destruct (relinked_alloc _ _ _ _ Hr Hal) as [q Hq]. exists (with_slabs al q). split; [done|]. by apply IH.
Qed.

Lemma relink_back m m1 g g1 :
  mem_ok m g -> relinked m m1 -> g_free g1 = g_free g ->
  (forall sa SL1, g_slabs g1 !! sa = Some SL1 -> exists SL, g_slabs g !! sa = Some SL /\ sublist SL1 SL) ->
  forall sa al1 s x1 F, has_slab m1 g1 sa al1 s x1 F ->
    exists al p x q, has_slab m g sa al s x F /\ al1 = with_slabs al p /\ x1 = with_next x q.
Proof.
  intros Hm Hr Hf Hsub sa al1 s x1 F (H1 & Hx1 & HF & SL1 & HSL1 & Hin). destruct (relinked_alloc' _ _ _ _ Hr H1) as (al & p & Hal & ->).
  destruct (Hsub _ _ HSL1) as (SL & HSL & Hs). rewrite Hf in HF.
  assert (Hin' : s ∈ SL) by (by eapply sublist_subseteq).
  destruct (mo_slab _ _ Hm sa al s Hal ltac:(eauto)) as (x & F' & Hok).
  destruct (relinked_slab _ _ _ _ Hr (so_slab _ _ _ _ _ _ Hok)) as [q Hq]. rewrite Hx1 in Hq. injection Hq as ->.
  exists al, p, x, q. split; [|done]. split; [done|]. split; [apply Hok|]. split; [done|]. by exists SL.
Qed.

Lemma relink_ok m m1 g g1 :
  mem_ok m g -> relinked m m1 -> g_free g1 = g_free g ->
  (forall sa SL1, g_slabs g1 !! sa = Some SL1 -> exists SL, g_slabs g !! sa = Some SL /\ sublist SL1 SL) ->
  (forall sa al1, m_allocators m1 !! sa = Some al1 -> exists SL1, g_slabs g1 !! sa = Some SL1 /\ slab_list (m_slabs m1) (sa_slabs al1) SL1) ->
  mem_ok m1 g1.
Proof.
  intros Hm Hr Hf Hsub Hlist.
  pose proof (relink_back m m1 g g1 Hm Hr Hf Hsub) as Hback.
  split.
  - rewrite (rl_pages _ _ Hr). apply Hm.
  - intros sa al1 H1. destruct (relinked_alloc' _ _ _ _ Hr H1) as (al & p & Hal & ->).
    destruct (mo_alloc _ _ Hm sa al Hal) as [Hok (SL & HSL & Hnd & _)]. split; [by apply al_ok_with|].
    destruct (Hlist _ _ H1) as (SL1 & HSL1 & Hl). exists SL1. split_and!; try done.
    destruct (Hsub _ _ HSL1) as (SL' & HSL' & Hs). rewrite HSL in HSL'. injection HSL' as <-. by eapply sublist_NoDup.
  - intros sa al1 s H1 (SL1 & HSL1 & Hin). destruct (relinked_alloc' _ _ _ _ Hr H1) as (al & p & Hal & ->).
    destruct (Hsub _ _ HSL1) as (SL & HSL & Hs). assert (Hin' : s ∈ SL) by (by eapply sublist_subseteq).
    destruct (mo_slab _ _ Hm sa al s Hal ltac:(eauto)) as (x & F & Hok).
    destruct (relinked_slab _ _ _ _ Hr (so_slab _ _ _ _ _ _ Hok)) as [q Hq].
    exists (with_next x q), F. by eapply relinked_ok.
  - intros sa SL1 HSL1. destruct (Hsub _ _ HSL1) as (SL & HSL & _). destruct (mo_dom _ _ Hm _ _ HSL) as [al Hal].
    destruct (relinked_alloc _ _ _ _ Hr Hal) as [p ->]. by eexists.
  - intros sa al s x F sa' al' s' x' F' H1 H2 Hne a.
    destruct (Hback _ _ _ _ _ H1) as (? & ? & ? & ? & K1 & -> & ->). destruct (Hback _ _ _ _ _ H2) as (? & ? & ? & ? & K2 & -> & ->).
    apply (mo_apart _ _ Hm _ _ _ _ _ _ _ _ _ _ K1 K2 Hne a).
  - intros sa al1 H1. destruct (relinked_alloc' _ _ _ _ Hr H1) as (al & p & Hal & ->). rewrite (rl_pages _ _ Hr).
    destruct (mo_housed _ _ Hm sa al Hal) as [Hnf Hh]. split; [done|]. intros sa' al' s x F H2.
    destruct (Hback _ _ _ _ _ H2) as (? & ? & ? & ? & K2 & -> & ->). apply (Hh _ _ _ _ _ K2).
  - destruct (mo_chain _ _ Hm) as (AL & Hnd & Hl). exists AL. rewrite (rl_list _ _ Hr). split; [done|]. by eapply alloc_list_relinked.
Qed.

(** [prev] is the place that points to what follows [L1] in the list. *)
Definition prev_of (sa : Z) (L1 : list Z) : slab_ref :=
  match last L1 with None => InAllocator sa | Some s => InSlab s end.

Lemma slab_list_app S p L1 L2 : slab_list S p (L1 ++ L2) -> exists q, slab_list S q L2 /\
  match last L1 with None => q = p | Some s => exists x, S !! s = Some x /\ s_next x = q end.
Proof.
  revert p. induction L1 as [|s L1 IH]; intros p; cbn [app slab_list]; [intros Hl; by exists p|].
  intros [-> (x & Hx & Hl)]. destruct (IH _ Hl) as (q & Hq & Hp). exists q. split; [done|].
  rewrite last_cons. destruct (last L1); [done|]. subst q. eauto.
Qed.

Lemma slab_list_cut S p L0 s0 x0 q L2 : NoDup (L0 ++ [s0]) -> s0 ∉ L2 -> S !! s0 = Some x0 ->
  (exists L, slab_list S p (L0 ++ s0 :: L)) -> slab_list S q L2 ->
  slab_list (<[s0 := with_next x0 q]> S) p (L0 ++ s0 :: L2).
Proof.
  intros Hnd Hni Hx0 (L & Hl) Hq. revert p Hl Hnd. induction L0 as [|s L0 IH]; intros p; cbn [app slab_list].
  - intros [-> _] _. split; [done|]. exists (with_next x0 q). rewrite lookup_insert_eq. split; [done|].
    apply (slab_list_ext S); [|done]. intros s Hs. apply lookup_insert_ne. by intros ->.
  - intros [-> (x & Hx & Hl)] [Hn Hnd]%NoDup_cons. split; [done|]. exists x. rewrite lookup_insert_ne; [by eauto|].
    intros <-. apply Hn, elem_of_app. right. left.
Qed.

Definition cut_ghost (sa : Z) (SL : list Z) (g : ghost) : ghost := Ghost (<[sa := SL]> (g_slabs g)) (g_free g).

Lemma cut_sub g sa L1 s L2 : g_slabs g !! sa = Some (L1 ++ s :: L2) ->
  forall sa' SL1, g_slabs (cut_ghost sa (L1 ++ L2) g) !! sa' = Some SL1 -> exists SL, g_slabs g !! sa' = Some SL /\ sublist SL1 SL.
Proof.
  intros HSL sa' SL1. cbn [cut_ghost g_slabs]. destruct (decide (sa = sa')) as [<-|Hne].
  - rewrite lookup_insert_eq. intros [= <-]. exists (L1 ++ s :: L2). split; [done|]. apply sublist_app; [done|]. by constructor.
  - rewrite lookup_insert_ne by done. intros H. by exists SL1.
Qed.

Lemma relinked_next m s x q : m_slabs m !! s = Some x -> relinked m (up_slabs <[s := with_next x q]> m).
Proof.
  intros Hx. split; try done; intros k; cbn [up_slabs m_allocators m_slabs].
  - destruct (m_allocators m !! k) as [al|]; [|done]. exists (sa_slabs al). by destruct al.
  - destruct (decide (s = k)) as [<-|]; [rewrite lookup_insert_eq, Hx; eauto|].
    rewrite lookup_insert_ne by done. destruct (m_slabs m !! k) as [y|]; [|done]. exists (s_next y). by destruct y.
Qed.

Lemma relinked_first m sa al p : m_allocators m !! sa = Some al -> relinked m (up_allocators <[sa := with_slabs al p]> m).
Proof.
  intros Hal. split; try done; intros k; cbn [up_allocators m_allocators m_slabs].
  - destruct (decide (sa = k)) as [<-|]; [rewrite lookup_insert_eq, Hal; eauto|].
    rewrite lookup_insert_ne by done. destruct (m_allocators m !! k) as [al'|]; [|done]. exists (sa_slabs al'). by destruct al'.
  - destruct (m_slabs m !! k) as [y|]; [|done]. exists (s_next y). by destruct y.
Qed.

(** A slab is on the list of one allocator only. *)
Lemma one_list m g sa al SL sa1 al1 SL1 s : mem_ok m g -> m_allocators m !! sa = Some al -> g_slabs g !! sa = Some SL ->
  m_allocators m !! sa1 = Some al1 -> g_slabs g !! sa1 = Some SL1 -> s ∈ SL -> s ∈ SL1 -> sa1 = sa.
Proof.
  intros Hm H HSL H1 HSL1 Hs Hs1.
  destruct (mo_slab _ _ Hm sa1 al1 s H1 ltac:(eauto)) as (y1 & F1 & Hok1).
  destruct (mo_slab _ _ Hm sa al s H ltac:(eauto)) as (y2 & F2 & Hok2).
  by eapply (owner_unique m g sa al s y2 F2 sa1 al1 y1 F1); [|eapply ok_has_slab|eapply ok_has_slab].
Qed.

Lemma unlink_mid m g sa al L0 s0 x0 s L2 x :
  mem_ok m g -> m_allocators m !! sa = Some al -> g_slabs g !! sa = Some (L0 ++ s0 :: s :: L2) ->
  NoDup (L0 ++ s0 :: s :: L2) -> slab_list (m_slabs m) (sa_slabs al) (L0 ++ s0 :: s :: L2) ->
  m_slabs m !! s0 = Some x0 -> slab_list (m_slabs m) (s_next x) L2 ->
  let m1 := up_slabs <[s0 := with_next x0 (s_next x)]> m in
  mem_ok m1 (cut_ghost sa (L0 ++ s0 :: L2) g) /\ slab_list (m_slabs m1) (s_next x) L2.
Proof.
  intros Hm Hsa HSL Hnd Hl Hx0 HL2 m1.
  apply NoDup_app in Hnd as (Hnd0 & Hnd1 & Hnd2). apply NoDup_cons in Hnd2 as [[Hne Hni]%not_elem_of_cons _].
  split; cycle 1.
  { apply (slab_list_ext (m_slabs m)); [|done]. intros z Hz. apply lookup_insert_ne. by intros ->. }
  apply (relink_ok m m1 g); [done|by apply relinked_next|done| |].
  - replace (L0 ++ s0 :: L2) with ((L0 ++ [s0]) ++ L2) by (by rewrite <- app_assoc).
    apply (cut_sub g sa (L0 ++ [s0]) s L2). by rewrite <- app_assoc.
  - intros sa1 al1 H1. cbn [m1 cut_ghost up_slabs m_allocators m_slabs g_slabs] in *. destruct (decide (sa = sa1)) as [<-|Hsne].
    + rewrite Hsa in H1. injection H1 as <-. rewrite lookup_insert_eq. eexists. split; [reflexivity|].
      apply slab_list_cut; try done; [|by eexists]. apply NoDup_app. split_and!; [done| |apply NoDup_singleton].
      intros z Hz ->%list_elem_of_singleton. apply (Hnd1 _ Hz). left.
    + rewrite lookup_insert_ne by done. destruct (mo_alloc _ _ Hm sa1 al1 H1) as [_ (SL1 & HSL1 & _ & Hl1)].
      exists SL1. split; [done|]. apply (slab_list_ext (m_slabs m)); [|done]. intros z Hz. apply lookup_insert_ne. intros <-.
      apply Hsne. eapply (one_list m g sa1 al1 SL1 sa al); try done. apply elem_of_app. right. left.
Qed.

Lemma unlink_first m g sa al s L2 x :
  mem_ok m g -> m_allocators m !! sa = Some al -> g_slabs g !! sa = Some (s :: L2) -> slab_list (m_slabs m) (s_next x) L2 ->
  mem_ok (up_allocators <[sa := with_slabs al (s_next x)]> m) (cut_ghost sa L2 g).
Proof.
  intros Hm Hsa HSL HL2. set (m1 := up_allocators _ m). apply (relink_ok m m1 g); [done|by apply relinked_first|done| |].
  - apply (cut_sub g sa [] s L2). done.
  - intros sa1 al1 H1. cbn [m1 cut_ghost up_allocators m_allocators m_slabs g_slabs] in *. destruct (decide (sa = sa1)) as [<-|Hsne].
    + rewrite lookup_insert_eq in H1. injection H1 as <-. rewrite lookup_insert_eq. by eexists.
    + rewrite lookup_insert_ne in H1 by done. rewrite lookup_insert_ne by done.
      destruct (mo_alloc _ _ Hm sa1 al1 H1) as [_ (SL1 & HSL1 & _ & Hl1)]. by exists SL1.
Qed.

Lemma unlink_run m g sa al L1 s L2 x :
  mem_ok m g -> m_allocators m !! sa = Some al -> g_slabs g !! sa = Some (L1 ++ s :: L2) -> m_slabs m !! s = Some x ->
  exists m1, set_link (prev_of sa L1) (s_next x) m = Done tt m1 /\ relinked m m1 /\ mem_ok m1 (cut_ghost sa (L1 ++ L2) g) /\
    slab_list (m_slabs m1) (s_next x) L2.
Proof.
  intros Hm Hsa HSL Hx. destruct (mo_alloc _ _ Hm sa al Hsa) as [_ (SL & HSL' & Hnd & Hl)].
  rewrite HSL in HSL'. injection HSL' as <-. destruct (slab_list_app _ _ _ _ Hl) as (q & Hq & Hp). cbn [slab_list] in Hq.
  destruct Hq as [-> (x' & Hx' & HL2)]. rewrite Hx in Hx'. injection Hx' as <-.
  unfold prev_of. destruct (last L1) as [s0|] eqn:Hlast.
  - apply last_Some in Hlast as [L0 ->]. destruct Hp as (x0 & Hx0 & _).
    rewrite <- app_assoc in Hnd, Hl, HSL |- *. cbn [app] in Hnd, Hl, HSL |- *.
    destruct (unlink_mid m g sa al L0 s0 x0 s L2 x) as [Hm1 Hl1]; try done.
    eexists. split_and!; [|by apply (relinked_next m s0 x0 (s_next x))|exact Hm1|exact Hl1].
    unfold set_link. by erewrite bind_done by (unfold get_slab, deref; by rewrite Hx0).
  - apply last_None in Hlast as ->. cbn [app] in *. pose proof (unlink_first m g sa al s L2 x Hm Hsa HSL HL2) as Hm1.
    eexists. split_and!; [|by apply (relinked_first m sa al (s_next x))|exact Hm1|exact HL2].
    unfold set_link. by erewrite bind_done by (unfold get_allocator, deref; by rewrite Hsa).
Qed.

(** *** Giving the pages of an empty slab back *)
Lemma order_for_pow order : 0 <= order < 8 -> Page.order_for (2 ^ order) = Some (Z.to_nat order).
Proof.
  intros Ho. pose proof (Z.pow_lt_mono_r 2 order 31). pose proof (Z.pow_pos_nonneg 2 order).
  pose proof (order_for_spec (2 ^ order) ltac:(lia)) as Hs. destruct (Page.order_for (2 ^ order)) as [k|].
  - destruct Hs as (Hk & Hle & Hgt). apply Z.pow_le_mono_r_iff in Hle; [|lia..]. f_equal.
    destruct Hgt as [->|Hgt]; [lia|]. apply Z.pow_lt_mono_r_iff in Hgt; [|lia..]. lia.
  - pose proof (Z.pow_le_mono_r 2 order 7). lia.
Qed.

Lemma full_free (F : list nat) n : NoDup F -> (forall j, j ∈ F -> Z.of_nat j < n) -> Z.of_nat (length F) = n ->
  forall j, Z.of_nat j < n -> j ∈ F.
Proof.
  intros Hnd Hr Hl j Hj. assert (Hp : F ≡ₚ seq 0 (Z.to_nat n)).
  { apply submseteq_length_Permutation; [|rewrite length_seq; lia]. apply NoDup_submseteq; [done|].
    intros i Hi. apply elem_of_seq. specialize (Hr i Hi). lia. }
  rewrite Hp. apply elem_of_seq. lia.
Qed.

(** The objects in use are the same ones, the allocators the same but for their
    lists of slabs. *)
Record same_live (m : mem) (g : ghost) (m' : mem) (g' : ghost) : Prop := SameLive {
  sl_live sa o : live m' g' sa o <-> live m g sa o;
  sl_alloc sa al : m_allocators m !! sa = Some al -> exists p, m_allocators m' !! sa = Some (with_slabs al p);
  sl_list : slab_allocators m' = slab_allocators m;
  sl_kmalloc : kmalloc_allocators m' = kmalloc_allocators m;
  sl_back sa al : m_allocators m' !! sa = Some al -> is_Some (m_allocators m !! sa)
}.

Lemma same_live_refl m g : same_live m g m g.
Proof. split; [done| |done|done|eauto]. intros sa al H. exists (sa_slabs al). rewrite H. by destruct al. Qed.

Lemma same_live_trans m g m1 g1 m2 g2 : same_live m g m1 g1 -> same_live m1 g1 m2 g2 -> same_live m g m2 g2.
Proof.
  intros [A1 A2 A3 A4 A5] [B1 B2 B3 B4 B5]. split; [intros; by rewrite B1, A1| |congruence|congruence|intros sa al [al1 H]%B5; by eapply A5]. intros sa al H. destruct (A2 _ _ H) as [p Hp].
  destruct (B2 _ _ Hp) as [q Hq]. by exists q.
Qed.

Lemma cut_live m m1 g sa al L1 s L2 x F : mem_ok m g -> relinked m m1 -> g_slabs g !! sa = Some (L1 ++ s :: L2) ->
  has_slab m g sa al s x F -> s_inuse x = 0 -> same_live m g m1 (cut_ghost sa (L1 ++ L2) g).
Proof.
  intros Hm Hr HSL Hs H0. destruct (has_slab_ok _ _ _ _ _ _ _ Hm Hs) as [Hal Hok].
  split; [|intros; by eapply relinked_alloc|apply Hr|apply Hr|intros sa1 al1 H1; destruct (relinked_alloc' _ _ _ _ Hr H1) as (al2 & p & H2 & _); eauto]. intros sa1 o. split.
  - intros (al1 & s1 & x1 & F1 & j & Hs1 & Hj).
    destruct (relink_back m m1 g (cut_ghost sa (L1 ++ L2) g) Hm Hr eq_refl (cut_sub g sa L1 s L2 HSL) _ _ _ _ _ Hs1) as (al2 & p & x2 & q & Hs2 & -> & ->).
    by exists al2, s1, x2, F1, j.
  - intros (al1 & s1 & x1 & F1 & j & Hs1 & Hj & Hn & ->).
    assert (s1 <> s) as Hne.
    { intros ->. pose proof (owner_unique _ _ _ _ _ _ _ _ _ _ _ Hm Hs Hs1) as ->.
      destruct Hs as (Ha & Hx & HF & _), Hs1 as (Ha1 & Hx1 & HF1 & _). simplify_eq. apply Hn.
      apply (full_free F (sa_slab_nobjs al)); [apply Hok|apply Hok| |done]. pose proof (so_inuse _ _ _ _ _ _ Hok). lia. }
    destruct Hs1 as (Ha1 & Hx1 & HF1 & SL1 & HSL1 & Hin1).
    destruct (relinked_alloc _ _ _ _ Hr Ha1) as [p Hp]. destruct (relinked_slab _ _ _ _ Hr Hx1) as [q Hq].
    exists (with_slabs al1 p), s1, (with_next x1 q), F1, j. split; [|done]. split_and!; try done.
    cbn [cut_ghost g_slabs]. destruct (decide (sa = sa1)) as [<-|Hsne].
    + rewrite lookup_insert_eq. eexists. split; [done|]. rewrite HSL in HSL1. injection HSL1 as <-.
      apply elem_of_app in Hin1 as [|[|]%elem_of_cons]; [apply elem_of_app; by left|done|apply elem_of_app; by right].
    + rewrite lookup_insert_ne by done. by exists SL1.
Qed.

Lemma in_slab_block al x a : al_ok al -> in_slab al x a <-> in_block (s_addr x) (Z.to_nat (sa_order al)) a.
Proof. intros Hal. unfold in_slab, in_block. by rewrite block_bytes_bsize by apply Hal. Qed.

(** The unlinked slab's pages are freed. *)
Section DropPages.
Context (m m1 : mem) (g : ghost) (sa : Z) (al : slab_allocator) (L1 L2 : list Z) (s : Z) (x : slab) (F : list nat) (p' : Page.pstate).
Context (Hm : mem_ok m g) (Hs : has_slab m g sa al s x F) (HSL : g_slabs g !! sa = Some (L1 ++ s :: L2)) (H0 : s_inuse x = 0).
Let g1 := cut_ghost sa (L1 ++ L2) g.
Context (Hr : relinked m m1) (Hm1 : mem_ok m1 g1) (Hgave : gave (m_pages m) (Z.to_nat (sa_order al)) (s_addr x) p').
Let lo := s_addr x.
Let n := block_bytes (sa_order al).
Let m2 := pois lo n (up_pages p' m1).

Lemma drop_back sa1 al1 s1 x1 F1 : has_slab m1 g1 sa1 al1 s1 x1 F1 -> exists al2 p x2 q,
  has_slab m g sa1 al2 s1 x2 F1 /\ al1 = with_slabs al2 p /\ x1 = with_next x2 q /\ (sa, s) <> (sa1, s1).
Proof using Hm Hs HSL Hr.
  intros H1. pose proof H1 as (_ & _ & _ & SL1 & HSL1 & Hin1).
  destruct (relink_back m m1 g g1 Hm Hr eq_refl (cut_sub g sa L1 s L2 HSL) _ _ _ _ _ H1) as (al2 & p & x2 & q & H2 & E1 & E2).
  exists al2, p, x2, q. split_and!; try done. intros [= <- <-]. cbn [g1 cut_ghost g_slabs] in HSL1.
  rewrite lookup_insert_eq in HSL1. injection HSL1 as <-. destruct (mo_alloc _ _ Hm sa al) as [_ (SL & HSL' & Hnd & _)]; [apply Hs|].
  rewrite HSL in HSL'. injection HSL' as <-. apply NoDup_app in Hnd as (_ & N1 & N2). apply NoDup_cons in N2 as [N2 _].
  apply elem_of_app in Hin1 as [Hin1|Hin1]; [|done]. apply (N1 _ Hin1). left.
Qed.

Lemma drop_out sa1 al1 s1 x1 F1 : has_slab m1 g1 sa1 al1 s1 x1 F1 -> forall a, in_slab al1 x1 a -> outside lo n a.
Proof using Hm Hs HSL Hr.
  intros H1 a Ha Hin. destruct (drop_back _ _ _ _ _ H1) as (al2 & p & x2 & q & H2 & -> & -> & Hne).
  apply (mo_apart _ _ Hm _ _ _ _ _ _ _ _ _ _ Hs H2 Hne a Hin Ha).
Qed.

Lemma drop_allocators sa1 al1 : m_allocators m1 !! sa1 = Some al1 -> outside lo n sa1.
Proof using Hm Hs H0 Hr.
  intros H1 Hin. destruct (has_slab_ok _ _ _ _ _ _ _ Hm Hs) as [Hal Hok].
  destruct (relinked_alloc' _ _ _ _ Hr H1) as (al2 & p & H2 & ->). destruct (mo_housed _ _ Hm _ _ H2) as [Hnf Hh].
  destruct (Hh _ _ _ _ _ Hs Hin) as (j & Hj & Hn & _). apply Hn.
  apply (full_free F (sa_slab_nobjs al)); [apply Hok|apply Hok| |done]. pose proof (so_inuse _ _ _ _ _ _ Hok). lia.
Qed.

Lemma drop_ok : mem_ok m2 g1 /\ same_live m1 g1 m2 g1 /\ (forall s', s' ∈ L2 -> m_slabs m2 !! s' = m_slabs m1 !! s').
Proof using All.
  destruct (has_slab_ok _ _ _ _ _ _ _ Hm Hs) as [Hal Hok]. destruct Hgave as [Gok Ggeo Gfree _]. split_and!.
  - apply (poison_ok m1 g1 p' lo n Hm1 drop_out drop_allocators Gok).
    + intros sa1 al1 s1 x1 F1 H1. destruct (drop_back _ _ _ _ _ H1) as (al2 & p & x2 & q & H2 & -> & -> & Hne).
      destruct (has_slab_ok _ _ _ _ _ _ _ Hm H2) as [Hal2 Hok2]. apply (allocated_geo (m_pages m)); [done| |apply Hok2].
      intros z Hz. rewrite Gfree. intros [|Hin]; [done|]. exfalso.
      apply (mo_apart _ _ Hm _ _ _ _ _ _ _ _ _ _ Hs H2 Hne z); by apply in_slab_block.
    + intros sa1 al1 H1. rewrite Gfree. intros [Hfr|Hin].
      * destruct (relinked_alloc' _ _ _ _ Hr H1) as (al2 & p & H2 & _). by destruct (mo_housed _ _ Hm _ _ H2) as [Hnf _].
      * apply (drop_allocators _ _ H1). by apply (in_slab_block al x).
  - split; [apply (poison_live m1 g1 p' lo n Hm1 drop_out drop_allocators)| |done|done|
      intros sa1 al1; unfold m2; rewrite (poison_allocators m1 p' lo n drop_allocators); eauto]. intros sa1 al1 H1. exists (sa_slabs al1).
    unfold m2. rewrite (poison_allocators m1 p' lo n drop_allocators), H1. by destruct al1.
  - intros s' Hs'. destruct (relinked_alloc _ _ _ _ Hr (proj1 Hs)) as [p Hp].
    assert (HSL1 : exists SL, g_slabs g1 !! sa = Some SL /\ s' ∈ SL).
    { cbn [g1 cut_ghost g_slabs]. rewrite lookup_insert_eq. eexists. split; [done|]. apply elem_of_app. by right. }
    destruct (mo_slab _ _ Hm1 sa _ s' Hp HSL1) as (x' & F' & Hok'). destruct HSL1 as (SL1 & HSL1 & Hin1).
    rewrite (so_slab _ _ _ _ _ _ Hok'). eapply (poison_slabs m1 g1 p' lo n Hm1 drop_out). by eapply ok_has_slab.
Qed.
End DropPages.

(** One round of the loop over the slabs, on an empty slab. *)
Lemma drop_slab_run m g sa al L1 s L2 x F :
  mem_ok m g -> has_slab m g sa al s x F -> g_slabs g !! sa = Some (L1 ++ s :: L2) -> s_inuse x = 0 ->
  exists m2, (set_link (prev_of sa L1) (s_next x) ;; free_pages_n (s_addr x) (2 ^ sa_order al)) m = Done tt m2 /\
    mem_ok m2 (cut_ghost sa (L1 ++ L2) g) /\ same_live m g m2 (cut_ghost sa (L1 ++ L2) g) /\
    slab_list (m_slabs m2) (s_next x) L2 /\
    Page.page_freecount (m_pages m2) = u32 (Page.page_freecount (m_pages m) + 2 ^ sa_order al).
Proof.
  intros Hm Hs HSL H0. destruct (has_slab_ok _ _ _ _ _ _ _ Hm Hs) as [Hal Hok]. pose proof Hs as (Hsa & Hx & _).
  destruct (unlink_run m g sa al L1 s L2 x Hm Hsa HSL Hx) as (m1 & Hrun & Hr & Hm1 & HL2).
  destruct (page_free_order_run (m_pages m) (s_addr x) (Z.to_nat (sa_order al))) as (p' & Hfree & Hg);
    [apply Hm|pose proof (ak_order _ Hal); lia|apply Hok|].
  destruct (drop_ok m m1 g sa al L1 L2 s x F p' Hm Hs HSL H0 Hr Hm1 Hg) as (Hok2 & Hlive & Hsl).
  eexists. split_and!; [|exact Hok2| | |].
  - krun Hrun. unfold free_pages_n. rewrite order_for_pow by apply Hal. erewrite bind_done by apply poison_run.
    unfold on_pages. cbn [pois up_slabs up_allocators up_bufctls up_words m_pages]. rewrite (rl_pages _ _ Hr), Hfree.
    rewrite <- bsize_pages, <- block_bytes_bsize by apply Hal. done.
  - eapply same_live_trans; [|exact Hlive]. by eapply cut_live.
  - by eapply slab_list_ext.
  - cbn [pois up_slabs up_allocators up_bufctls up_words up_pages m_pages]. rewrite (gv_count _ _ _ _ Hg).
    by rewrite Z2Nat.id by apply Hal.
Qed.

(** *** The loops *)
Lemma seq2_ret {A} (m1 m2 : M unit) (a : A) m u m' : (m1 ;; m2) m = Done u m' -> (m1 ;; m2 ;; ret a) m = Done a m'.
Proof. unfold bind. destruct (m1 m) as [? x| | |]; try done. by intros ->. Qed.

Lemma u32_s32 a b : u32 (a + s32 b) = u32 (a + b).
Proof.
  unfold u32, s32. rewrite Z.add_sub_assoc, Zminus_mod, (Zplus_mod_idemp_r (b + 2 ^ 31)), <- Zminus_mod. f_equal. lia.
Qed.

(** What reclaiming does: the slabs of [g'] are among those of [g], the objects in
    use are the same ones, and [n] pages are back. *)
Record reclaimed (m : mem) (g : ghost) (n : Z) (m' : mem) (g' : ghost) : Prop := Reclaimed {
  rc_ok : mem_ok m' g';
  rc_live : same_live m g m' g';
  rc_free : g_free g' = g_free g;
  rc_count : Page.page_freecount (m_pages m') = u32 (Page.page_freecount (m_pages m) + n)
}.

Lemma reclaimed_trans m g n m1 g1 n1 m2 g2 : reclaimed m g n m1 g1 -> reclaimed m1 g1 n1 m2 g2 -> reclaimed m g (n + n1) m2 g2.
Proof.
  intros [A1 A2 A3 A4] [B1 B2 B3 B4]. split; [done|by eapply same_live_trans|congruence|].
  rewrite B4, A4. unfold u32. rewrite Zplus_mod_idemp_l. f_equal. lia.
Qed.

Lemma reclaimed_refl m g : mem_ok m g -> reclaimed m g 0 m g.
Proof.
  intros Hm. split; [done|apply same_live_refl|done|]. rewrite Z.add_0_r. rewrite (po_count _ (mo_pages _ _ Hm)).
  unfold u32. symmetry. apply Z.mod_mod. lia.
Qed.

(** The slab has an object in use. *)
Definition busy (g : ghost) (al : slab_allocator) (s : Z) : Prop :=
  forall F, g_free g !! s = Some F -> Z.of_nat (length F) <> sa_slab_nobjs al.

Lemma reclaimed_drop m g m2 g2 k freed : mem_ok m2 g2 -> same_live m g m2 g2 -> g_free g2 = g_free g ->
  Page.page_freecount (m_pages m2) = u32 (Page.page_freecount (m_pages m) + k) ->
  reclaimed m g (s32 (freed + k) - freed) m2 g2.
Proof.
  intros Hm Hl Hf Hc. split; [done..|]. rewrite Hc.
  replace (Page.page_freecount (m_pages m) + (s32 (freed + k) - freed)) with (Page.page_freecount (m_pages m) - freed + s32 (freed + k)) by lia.
  rewrite u32_s32. f_equal. lia.
Qed.

Lemma prev_of_snoc sa L s : prev_of sa (L ++ [s]) = InSlab s.
Proof. unfold prev_of. by rewrite last_snoc. Qed.

Lemma reclaim_slabs_run fuel target sa :
  forall m g al L1 L2 p freed, mem_ok m g -> m_allocators m !! sa = Some al -> g_slabs g !! sa = Some (L1 ++ L2) ->
  slab_list (m_slabs m) p L2 -> (length L2 < fuel)%nat ->
  exists freed' b m' g' L2', reclaim_slabs fuel target sa (prev_of sa L1) p freed m = Done (freed', b) m' /\
    reclaimed m g (freed' - freed) m' g' /\ (target <= 0 -> b = false) /\
    (forall sa', sa' <> sa -> g_slabs g' !! sa' = g_slabs g !! sa') /\ g_slabs g' !! sa = Some (L1 ++ L2') /\
    (b = false -> Forall (busy g al) L2').
Proof.
  induction fuel as [|fuel IH]; intros m g al L1 L2 p freed Hm Hsa HSL Hl Hf; [lia|]. cbn [reclaim_slabs].
  destruct L2 as [|s L2]; cbn [slab_list length] in *.
  { subst p. exists freed, false, m, g, []. split_and!; try done. rewrite Z.sub_diag. by apply reclaimed_refl. }
  destruct Hl as [-> (x & Hx & Hl)].
  destruct (mo_slab _ _ Hm sa al s Hsa) as (x' & F & Hok); [eexists; split; [done|]; apply elem_of_app; right; left|].
  pose proof (so_slab _ _ _ _ _ _ Hok) as Hx'. rewrite Hx in Hx'. injection Hx' as <-.
  assert (Hs : has_slab m g sa al s x F) by (eapply ok_has_slab; try done; apply elem_of_app; right; left).
  erewrite bind_done by (unfold get_slab, deref; by rewrite Hx).
  erewrite bind_done by (unfold get_allocator, deref; by rewrite Hsa).
  destruct (Z.eqb_spec (s_inuse x) 0) as [H0|H0].
  - destruct (drop_slab_run m g sa al L1 s L2 x F Hm Hs HSL H0) as (m2 & Hrun & Hm2 & Hlive & Hl2 & Hc).
    set (g2 := cut_ghost sa (L1 ++ L2) g) in *. set (f2 := s32 (freed + 2 ^ sa_order al)).
    assert (HSL2 : g_slabs g2 !! sa = Some (L1 ++ L2)) by apply lookup_insert_eq.
    assert (Hoth : forall sa', sa' <> sa -> g_slabs g2 !! sa' = g_slabs g !! sa') by (intros; by apply lookup_insert_ne).
    pose proof (reclaimed_drop m g m2 g2 _ freed Hm2 Hlive eq_refl Hc) as Hrec. fold f2 in Hrec.
    krun (seq2_ret _ _ (prev_of sa L1, f2) _ _ _ Hrun). cbn [fst snd].
    destruct ((0 <? target) && (target <=? f2)) eqn:Ht.
    + exists f2, true, m2, g2, L2. split_and!; try done. intros. apply andb_true_iff in Ht as [Ht%Z.ltb_lt _]. lia.
    + destruct (sl_alloc _ _ _ _ Hlive _ _ Hsa) as [q Hq].
      destruct (IH m2 g2 _ L1 L2 (s_next x) f2 Hm2 Hq HSL2 Hl2 ltac:(lia)) as (f' & b & m' & g' & L2' & Hr & Hrc & Hb & Ho & HL & Hby).
      exists f', b, m', g', L2'. split_and!; try done.
      * replace (f' - freed) with (f2 - freed + (f' - f2)) by lia. by eapply reclaimed_trans.
      * intros sa' Hne. rewrite Ho by done. by apply Hoth.
  - erewrite bind_done by reflexivity. cbn [fst snd]. assert (Hbs : busy g al s).
    { intros F' HF'. rewrite (so_free _ _ _ _ _ _ Hok) in HF'. injection HF' as <-. pose proof (so_inuse _ _ _ _ _ _ Hok). lia. }
    destruct ((0 <? target) && (target <=? freed)) eqn:Ht.
    + exists freed, true, m, g, (s :: L2). rewrite Z.sub_diag. split_and!; try done; [by apply reclaimed_refl|].
      intros. apply andb_true_iff in Ht as [Ht%Z.ltb_lt _]. lia.
    + rewrite <- (prev_of_snoc sa L1 s).
      destruct (IH m g al (L1 ++ [s]) L2 (s_next x) freed Hm Hsa ltac:(by rewrite <- app_assoc) Hl ltac:(lia))
        as (f' & b & m' & g' & L2' & Hr & Hrc & Hb & Ho & HL & Hby).
      exists f', b, m', g', (s :: L2'). split_and!; try done; [by rewrite <- app_assoc in HL|].
      intros. constructor; auto.
Qed.

Lemma alloc_list_in (A : gmap Z slab_allocator) p l : alloc_list A p l -> forall a, a ∈ l -> is_Some (A !! a).
Proof.
  revert p. induction l as [|b l IH]; intros p Hl a Ha; [by apply elem_of_nil in Ha|].
  cbn in Hl. destruct Hl as [_ (al & Hal & Hl)]. apply elem_of_cons in Ha as [->|Ha]; [by eexists|by eapply IH].
Qed.

Lemma alloc_list_unique (A : gmap Z slab_allocator) p l l' : alloc_list A p l -> alloc_list A p l' -> l = l'.
Proof.
  revert p l'. induction l as [|a l IH]; intros p [|b l']; cbn; try done; [by intros -> [? _]|by intros [-> _]|].
  intros [-> (al & Hal & Hl)] [[= <-] (al' & Hal' & Hl')]. simplify_eq. f_equal. by eapply IH.
Qed.

Lemma alloc_list_size (A : gmap Z slab_allocator) p l : NoDup l -> alloc_list A p l -> (length l <= size A)%nat.
Proof.
  intros Hnd Hl. rewrite <- size_dom, <- (size_list_to_set (C := gset Z) l Hnd). apply subseteq_size.
  intros a Ha. apply elem_of_list_to_set in Ha. apply elem_of_dom. by eapply alloc_list_in.
Qed.

Lemma alloc_list_same m g m' g' p l : same_live m g m' g' -> alloc_list (m_allocators m) p l -> alloc_list (m_allocators m') p l.
Proof.
  intros Hs. revert p. induction l as [|a l IH]; intros p; cbn; [done|]. intros [-> (al & Hal & Hl)]. split; [done|].
  destruct (sl_alloc _ _ _ _ Hs _ _ Hal) as [q Hq]. exists (with_slabs al q). split; [done|]. by apply IH.
Qed.

Lemma reclaim_all_run fuel target :
  forall m g AL p freed, mem_ok m g -> NoDup AL -> alloc_list (m_allocators m) p AL -> (length AL < fuel)%nat ->
  exists freed' m' g', reclaim_all fuel target p freed m = Done freed' m' /\ reclaimed m g (freed' - freed) m' g' /\
    (forall sa, sa ∉ AL -> g_slabs g' !! sa = g_slabs g !! sa) /\
    (target <= 0 -> forall sa al SL, sa ∈ AL -> m_allocators m !! sa = Some al -> g_slabs g' !! sa = Some SL -> Forall (busy g al) SL).
Proof.
  induction fuel as [|fuel IH]; intros m g AL p freed Hm Hnd Hl Hf; [lia|]. cbn [reclaim_all].
  destruct AL as [|sa AL]; cbn [alloc_list length] in *.
  { subst p. exists freed, m, g. rewrite Z.sub_diag. split_and!; try done; [by apply reclaimed_refl|].
    intros _ sa al SL Hsa. by apply elem_of_nil in Hsa. }
  destruct Hl as [-> (al & Hsa & Hl)]. apply NoDup_cons in Hnd as [Hni Hnd].
  destruct (mo_alloc _ _ Hm sa al Hsa) as [_ (SL & HSL & HndS & HlS)]. pose proof (slab_list_size _ _ _ HndS HlS).
  erewrite bind_done by (unfold get_allocator, deref; by rewrite Hsa). erewrite bind_done by reflexivity.
  destruct (reclaim_slabs_run (S (size (m_slabs m))) target sa m g al [] SL (sa_slabs al) freed Hm Hsa HSL HlS ltac:(lia))
    as (f1 & b & m1 & g1 & SL1 & Hrun & Hrec & Hb & Hoth & HSL1 & Hbusy).
  change (prev_of sa []) with (InAllocator sa) in Hrun. krun Hrun. cbn [fst snd app] in *. destruct b.
  { exists f1, m1, g1. split_and!; try done.
    - intros sa' [Hne _]%not_elem_of_cons. by apply Hoth.
    - intros Ht. by specialize (Hb Ht). }
  destruct (sl_alloc _ _ _ _ (rc_live _ _ _ _ _ Hrec) _ _ Hsa) as [q Hq].
  erewrite bind_done by (unfold get_allocator, deref; by rewrite Hq). cbn [with_slabs sa_next].
  destruct (IH m1 g1 AL (sa_next al) f1 (rc_ok _ _ _ _ _ Hrec) Hnd
    (alloc_list_same _ _ _ _ _ _ (rc_live _ _ _ _ _ Hrec) Hl) ltac:(lia)) as (f2 & m2 & g2 & Hrun2 & Hrec2 & Hoth2 & Hb2).
  exists f2, m2, g2. split_and!; [done| | |].
  - replace (f2 - freed) with (f1 - freed + (f2 - f1)) by lia. by eapply reclaimed_trans.
  - intros sa' [Hne Hn]%not_elem_of_cons. rewrite Hoth2 by done. by apply Hoth.
  - intros Ht sa' al' SL' [->|Hin]%elem_of_cons Hal' HSL'.
    + rewrite Hsa in Hal'. injection Hal' as <-. rewrite Hoth2, HSL1 in HSL' by done. injection HSL' as <-. by apply Hbusy.
    + destruct (sl_alloc _ _ _ _ (rc_live _ _ _ _ _ Hrec) _ _ Hal') as [r Hr].
      pose proof (Hb2 Ht sa' _ SL' Hin Hr HSL') as HF. eapply Forall_impl; [exact HF|].
      intros s Hbs F HF'. apply (Hbs F). by rewrite (rc_free _ _ _ _ _ Hrec).
Qed.

Lemma reclaim_run m g target : mem_ok m g ->
  exists n m' g', slab_allocators_reclaim target m = Done n m' /\ reclaimed m g n m' g' /\
    (target <= 0 -> forall AL sa al SL, alloc_list (m_allocators m) (slab_allocators m) AL -> sa ∈ AL ->
       m_allocators m !! sa = Some al -> g_slabs g' !! sa = Some SL -> Forall (busy g al) SL).
Proof.
  intros Hm. destruct (mo_chain _ _ Hm) as (AL & Hnd & Hl). pose proof (alloc_list_size _ _ _ Hnd Hl).
  unfold slab_allocators_reclaim. do 2 (erewrite bind_done by reflexivity).
  destruct (reclaim_all_run (S (size (m_allocators m))) target m g AL (slab_allocators m) 0 Hm Hnd Hl ltac:(lia))
    as (n & m' & g' & Hrun & Hrec & _ & Hb). rewrite Z.sub_0_r in Hrec. exists n, m', g'. split_and!; try done.
  intros Ht AL' sa al SL Hl' Hin. assert (AL' = AL) as -> by (by eapply alloc_list_unique). by apply Hb.
Qed.

(** ** Theorems *)
(** [slab_allocators_reclaim] returns the number of pages it has given back to
    the page allocator, keeps the invariant and every object in use, and with a
    target of 0 or less leaves no slab without an object in use. *)
Theorem slab_allocators_reclaim_spec m g target : mem_ok m g ->
  exists n m' g', slab_allocators_reclaim target m = Done n m' /\ mem_ok m' g' /\
    (forall sa o, live m' g' sa o <-> live m g sa o) /\
    Page.page_freecount (m_pages m') = u32 (Page.page_freecount (m_pages m) + n) /\
    (target <= 0 -> forall AL sa al SL, alloc_list (m_allocators m) (slab_allocators m) AL -> sa ∈ AL ->
       m_allocators m !! sa = Some al -> g_slabs g' !! sa = Some SL -> Forall (busy g al) SL).
Proof.
  intros Hm. destruct (reclaim_run m g target Hm) as (n & m' & g' & Hrun & Hrec & Hb). exists n, m', g'. split_and!; try done; apply Hrec.
Qed.

(** [_calc_slab_size] picks the order of least waste, and of these the
    smallest, from the smallest block that holds an object up to
    [SLAB_MAX_ORDER], and as many objects as fit with the [struct slab]. *)
Theorem calc_slab_size_optimal m sa al :
  m_allocators m !! sa = Some al -> 0 <= sa_objsize al -> sa_objsize al + 24 <= 2 ^ 19 ->
  exists al' minorder, _calc_slab_size sa m = Done tt (up_allocators <[sa := al']> m) /\
    0 <= minorder <= sa_order al' /\ sa_order al' < 8 /\ 1 <= sa_slab_nobjs al' /\
    sa_slab_nobjs al' * stride al + SIZEOF_SLAB <= block_bytes (sa_order al') < (sa_slab_nobjs al' + 1) * stride al + SIZEOF_SLAB /\
    (forall o, 0 <= o < minorder -> block_bytes o < stride al + SIZEOF_SLAB) /\
    (forall o, minorder <= o -> o = minorder \/ o < SLAB_MAX_ORDER -> waste (sa_objsize al) (sa_order al') <= waste (sa_objsize al) o) /\
    (forall o, minorder <= o < sa_order al' -> waste (sa_objsize al) (sa_order al') < waste (sa_objsize al) o).
Proof. intros H1 H2 H3. destruct (calc_run m sa al H1 H2 H3) as (al' & mo & ? & _ & ?). by exists al', mo. Qed.
End SlabSpec.
