(* ===== verification/SlabAlloc.v ===== *)
(** * The slab allocator: growth, allocation and release

    The theorems on the entry points of [Slab], over the invariant of
    [SlabSpec]. *)

From Stdlib Require Import ZArith Lia.
From stdpp Require Import base list gmap.
From S2P Require Import Prelude Page PageSpec Slab SlabSpec.

Module SlabAlloc.
Import PageSpec Slab SlabSpec.
Local Open Scope Z_scope.

(** ** Pages for a slab *)

(** No free block has [2^k] pages or more. *)
Definition no_block (p : Page.pstate) (k : nat) : Prop :=
  forall g j, g ∈ Page.pagegroup_list p -> (k <= j)%nat -> listof g j = [].

Lemma alloc_pages_run m g order : mem_ok m g -> 0 <= order < 8 ->
  (exists a p', alloc_pages_n (2 ^ order) m = Done (Some a) (pois a (block_bytes order) (up_pages p' m)) /\
     took (m_pages m) (Z.to_nat order) a p') \/
  (exists n m' g', alloc_pages_n (2 ^ order) m = Done None m' /\ reclaimed m g n m' g' /\ no_block (m_pages m) (Z.to_nat order)).
Proof.
  intros Hm Ho. unfold alloc_pages_n.
  assert (Hpg : forall r p1, @Page._page_alloc_order (fun ps => Done 0 ps) (Z.to_nat order) (m_pages m) = Done r p1 ->
    on_pages (@Page.page_alloc_n (fun ps => Done 0 ps) (2 ^ order)) m = Done r (up_pages p1 m)).
  { intros r p1 H. unfold on_pages, Page.page_alloc_n. by rewrite order_for_pow, H by done. }
  destruct (@page_alloc_order_run (fun ps => Done 0 ps) (m_pages m) (Z.to_nat order) (mo_pages _ _ Hm)) as [(a & p' & Hr & Ht)|[Hno Hr]].
  - left. exists a, p'. split; [|done]. krun (Hpg _ _ Hr). rewrite order_for_pow by done.
    erewrite bind_done by apply poison_run. rewrite <- bsize_pages, <- block_bytes_bsize by lia. done.
  - right. destruct (reclaim_run m g 0 Hm) as (n & m' & g' & Hrun & Hrec & _). exists n, m', g'. split_and!; try done.
    krun (Hpg None (m_pages m) Hr). replace (up_pages (m_pages m) m) with m by (by destruct m). by krun Hrun.
Qed.

(** A block that was free meets no slab and no allocator. *)
Section Fresh.
Context (m : mem) (g : ghost) (a : Z) (k : nat) (p' : Page.pstate) (Hm : mem_ok m g) (Ht : took (m_pages m) k a p').
Let n := bsize k.

Lemma fresh_out sa al s x F : has_slab m g sa al s x F -> forall z, in_slab al x z -> outside a n z.
Proof using All.
  intros Hs z Hz Hin. destruct (has_slab_ok _ _ _ _ _ _ _ Hm Hs) as [Hal Hok].
  destruct (so_pages _ _ _ _ _ _ Hok) as (i & gr & c & _ & _ & _ & Hno). apply (Hno z); [by apply (in_slab_block al x)|].
  by apply (tk_was _ _ _ _ Ht).
Qed.

Lemma fresh_allocators sa al : m_allocators m !! sa = Some al -> outside a n sa.
Proof using All. intros Hsa Hin. destruct (mo_housed _ _ Hm _ _ Hsa) as [Hnf _]. by apply Hnf, (tk_was _ _ _ _ Ht). Qed.

Lemma fresh_block_ok : mem_ok (pois a n (up_pages p' m)) g.
Proof using All.
  apply (poison_ok m g p' a n Hm fresh_out fresh_allocators); [apply Ht| |].
  - intros sa al s x F Hs. destruct (has_slab_ok _ _ _ _ _ _ _ Hm Hs) as [Hal Hok].
    apply (allocated_geo (m_pages m)); [apply Ht| |apply Hok]. intros z _. rewrite (tk_free _ _ _ _ Ht). tauto.
  - intros sa al Hsa. rewrite (tk_free _ _ _ _ Ht). destruct (mo_housed _ _ Hm _ _ Hsa). tauto.
Qed.

Lemma fresh_same : same_live m g (pois a n (up_pages p' m)) g.
Proof using All.
  split; [apply (poison_live m g p' a n Hm fresh_out fresh_allocators)| |done|done|
    intros sa al; rewrite (poison_allocators m p' a n fresh_allocators); eauto]. intros sa al Hsa. exists (sa_slabs al).
  rewrite (poison_allocators m p' a n fresh_allocators), Hsa. by destruct al.
Qed.
End Fresh.

(** ** Growth *)

(** A new slab brings no object in use. *)
Lemma add_slab_live m g sa al SL a B W :
  let n := Z.to_nat (sa_slab_nobjs al) in let s := obj_at al a n in
  let m' := add_slab_mem sa al s (MkSlab (sa_slabs al) 0 (Some a) a) B W m in let g' := add_slab_ghost sa s SL n g in
  mem_ok m g -> m_allocators m !! sa = Some al -> g_slabs g !! sa = Some SL ->
  (forall sa2 SL2, g_slabs g !! sa2 = Some SL2 -> s ∉ SL2) ->
  (forall sa1 al1 s1 x1 F1, has_slab m' g' sa1 al1 s1 x1 F1 -> s1 <> s -> exists al2, has_slab m g sa1 al2 s1 x1 F1 /\
     (al1 = al2 \/ (sa1 = sa /\ al2 = al /\ al1 = with_slabs al (Some s)))) ->
  same_live m g m' g'.
Proof.
  intros n s m' g' Hm Hsa HSL Hnew Hback.
  assert (Hal' : forall sa1 al1, m_allocators m !! sa1 = Some al1 -> exists p, m_allocators m' !! sa1 = Some (with_slabs al1 p)).
  { intros sa1 al1 H1. cbn [m' add_slab_mem up_allocators m_allocators]. destruct (decide (sa = sa1)) as [<-|].
    - rewrite lookup_insert_eq. rewrite Hsa in H1. injection H1 as <-. eauto.
    - rewrite lookup_insert_ne by done. exists (sa_slabs al1).
      change (m_allocators m !! sa1 = Some (with_slabs al1 (sa_slabs al1))). rewrite H1. by destruct al1. }
  split; [|done|done|done|intros sa1 al1; cbn [m' add_slab_mem up_allocators m_allocators]; destruct (decide (sa = sa1)) as [<-|]; [by rewrite Hsa|rewrite lookup_insert_ne by done; eauto]].
  intros sa1 o. split.
  - intros (al1 & s1 & x1 & F1 & j & Hs1 & Hj & Hn & ->). destruct (decide (s1 = s)) as [->|Hne].
    + exfalso. destruct Hs1 as (Ha1 & _ & HF1 & SL1 & HSL1 & Hin1). cbn [m' g' add_slab_mem add_slab_ghost up_allocators m_allocators g_slabs g_free] in *.
      rewrite lookup_insert_eq in HF1. injection HF1 as <-. apply Hn, elem_of_seq. destruct (decide (sa = sa1)) as [<-|].
      * rewrite lookup_insert_eq in Ha1. injection Ha1 as <-. cbn [with_slabs sa_slab_nobjs] in Hj. lia.
      * rewrite lookup_insert_ne in HSL1 by done. by destruct (Hnew _ _ HSL1).
    + destruct (Hback _ _ _ _ _ Hs1 Hne) as (al2 & Hs2 & E). exists al2, s1, x1, F1, j. split; [done|].
      destruct E as [->|(-> & -> & ->)]; done.
  - intros (al1 & s1 & x1 & F1 & j & Hs1 & Hj & Hn & ->). pose proof Hs1 as (Ha1 & Hx1 & HF1 & SL1 & HSL1 & Hin1).
    assert (s1 <> s) as Hne by (intros ->; by eapply Hnew). destruct (Hal' _ _ Ha1) as [p Hp].
    exists (with_slabs al1 p), s1, x1, F1, j. split; [|done]. split_and!; try done.
    + cbn [m' add_slab_mem up_allocators up_slabs m_slabs]. by rewrite lookup_insert_ne.
    + cbn [g' add_slab_ghost g_free]. by rewrite lookup_insert_ne.
    + cbn [g' add_slab_ghost g_slabs]. destruct (decide (sa = sa1)) as [<-|].
      * rewrite lookup_insert_eq. rewrite HSL in HSL1. injection HSL1 as <-. eexists. split; [done|]. by right.
      * rewrite lookup_insert_ne by done. by exists SL1.
Qed.

(** The part of [_slab_allocator_grow] after the pages are there. *)
Definition lay_out (sa addr : Z) : M bool :=
  let* al := get_allocator sa in
  let* obj := chain_objs al (Z.to_nat (sa_slab_nobjs al - 1)) addr in
  put_bufctl (obj_bufctl al obj) (MkBufctl None true) ;;
  let s := next_obj al obj in
  mark_objs al (Z.to_nat (sa_slab_nobjs al)) addr ;;
  put_slab s (MkSlab (sa_slabs al) 0 (Some addr) addr) ;;
  put_allocator sa (MkAllocator (sa_next al) (sa_name al) (sa_objsize al) (Some s) (sa_order al) (sa_slab_nobjs al)) ;;
  ret true.

Lemma lay_out_run m sa al a : m_allocators m !! sa = Some al -> al_ok al -> 0 < a -> a + block_bytes (sa_order al) < 2 ^ 32 ->
  let n := Z.to_nat (sa_slab_nobjs al) in
  let inside z := a <= z < a + block_bytes (sa_order al) in
  exists B W, lay_out sa a m = Done true (add_slab_mem sa al (obj_at al a n) (MkSlab (sa_slabs al) 0 (Some a) a) B W m) /\
    (forall j, (j < n - 1)%nat -> B !! (obj_at al a j + sa_objsize al) = Some (MkBufctl (Some (obj_at al a (S j))) true)) /\
    B !! (obj_at al a (n - 1) + sa_objsize al) = Some (MkBufctl None true) /\
    (forall z, ~ inside z -> B !! z = m_bufctls m !! z) /\
    (forall j, (j < n)%nat -> W !! obj_at al a j = Some SLAB_REDZONE /\
       W !! (obj_at al a j + sa_objsize al - SIZEOF_PTR) = Some SLAB_REDZONE) /\
    (forall z, ~ inside z -> W !! z = m_words m !! z).
Proof.
  intros Hsa Hal Ha H32 n inside. pose proof (ak_nobjs _ Hal). pose proof (ak_objsize _ Hal).
  assert (E0 : obj_at al a 0 = a) by (unfold obj_at; lia).
  destruct (chain_run al a (n - 1) 0 m Hal ltac:(lia) H32 ltac:(lia)) as (B0 & Hch & HB1 & HB2). rewrite E0 in Hch. cbn [Nat.add] in Hch.
  pose proof (obj_at_bounds al a (n - 1) Hal ltac:(lia)) as Hb. unfold SIZEOF_BUFCTL, SIZEOF_SLAB in Hb.
  set (last := obj_at al a (n - 1)) in *. set (B := <[last + sa_objsize al := MkBufctl None true]> B0).
  destruct (mark_run al a n 0 (up_bufctls (fun _ => B) m) Hal ltac:(lia) H32 ltac:(lia)) as (W & Hmk & HW1 & HW2). rewrite E0 in Hmk.
  exists B, W. split_and!.
  - unfold lay_out. erewrite bind_done by (unfold get_allocator, deref; by rewrite Hsa).
    replace (Z.to_nat (sa_slab_nobjs al - 1)) with (n - 1)%nat by lia. krun Hch.
    unfold obj_bufctl, next_obj. rewrite !u32_small by (unfold SIZEOF_BUFCTL; lia).
    replace (last + sa_objsize al + SIZEOF_BUFCTL) with (obj_at al a n)
      by (unfold last; replace n with (S (n - 1)) at 1 by lia; apply obj_at_S).
    erewrite bind_done by reflexivity. krun Hmk. done.
  - intros j Hj. unfold B. rewrite lookup_insert_ne; [apply HB1; lia|]. intros E.
    assert (n - 1 = j)%nat by (apply (obj_at_inj al a); [done|unfold last in E; lia]). lia.
  - apply lookup_insert_eq.
  - intros z Hz. unfold B. rewrite lookup_insert_ne by (intros <-; apply Hz; unfold inside; lia). apply HB2.
    intros j Hj ->. apply Hz. pose proof (obj_at_bounds al a j Hal ltac:(lia)). unfold inside, SIZEOF_BUFCTL, SIZEOF_SLAB in *. lia.
  - intros j Hj. apply HW1. lia.
  - intros z Hz. by destruct (HW2 z) as [->|[_ ?]].
Qed.

Lemma grow_run m g sa al SL : mem_ok m g -> m_allocators m !! sa = Some al -> g_slabs g !! sa = Some SL ->
  exists b m' g', _slab_allocator_grow sa m = Done b m' /\ mem_ok m' g' /\ same_live m g m' g' /\
    if b : bool then exists s p x, m_allocators m' !! sa = Some (with_slabs al p) /\ g_slabs g' !! sa = Some (s :: SL) /\
      m_slabs m' !! s = Some x /\ s_inuse x = 0
    else free_at (m_pages m) 0 \/ no_block (m_pages m) (Z.to_nat (sa_order al)).
Proof.
  intros Hm Hsa HSL. destruct (mo_alloc _ _ Hm _ _ Hsa) as [Hal _]. unfold _slab_allocator_grow.
  erewrite bind_done by (unfold get_allocator, deref; by rewrite Hsa).
  destruct (alloc_pages_run m g (sa_order al) Hm (ak_order _ Hal)) as [(a & p' & Hrun & Ht)|(n & m' & g' & Hrun & Hrec & Hno)]; krun Hrun.
  2:{ exists false, m', g'. split_and!; [done|apply Hrec|apply Hrec|by right]. }
  rewrite block_bytes_bsize in Hrun |- * by apply Hal. set (k := Z.to_nat (sa_order al)) in *.
  pose proof (fresh_block_ok m g a k p' Hm Ht) as Hm1. pose proof (fresh_same m g a k p' Hm Ht) as Hs1.
  set (m1 := pois a (bsize k) (up_pages p' m)) in *.
  destruct (Z.eqb_spec a 0) as [->|Ha].
  { exists false, m1, g. split_and!; try done. left. apply (tk_was _ _ _ _ Ht). unfold in_block. pose proof (bsize_pos k). lia. }
  assert (Hsa1 : m_allocators m1 !! sa = Some al) by (unfold m1; by rewrite (poison_allocators m p' a (bsize k) (fresh_allocators m g a k p' Hm Ht))).
  destruct (allocated_bounds _ _ _ (tk_ok _ _ _ _ Ht) (tk_owned _ _ _ _ Ht)) as [Ha0 H32]. unfold k in H32. rewrite <- block_bytes_bsize in H32 by apply Hal.
  destruct (lay_out_run m1 sa al a Hsa1 Hal ltac:(lia) H32) as (B & W & Hlay & HB1 & HB2 & HB3 & HW1 & HW2).
  assert (Hfar : forall sa' al' s' x' F', has_slab m1 g sa' al' s' x' F' -> forall z, in_slab al' x' z ->
    ~ (a <= z < a + block_bytes (sa_order al))).
  { intros sa' al' s' x' F' H1 z Hz. rewrite block_bytes_bsize by apply Hal. fold k.
    apply (fresh_out m g a k p' Hm Ht sa' al' s' x' F'); [|done].
    apply (frame_back m m1 g Hm); [by apply (poison_allocators m p' a (bsize k) (fresh_allocators m g a k p' Hm Ht))| |done].
    apply (poison_slabs m g p' a (bsize k) Hm (fresh_out m g a k p' Hm Ht)). }
  assert (Hno : forall sa0 al0, m_allocators m1 !! sa0 = Some al0 -> ~ (a <= sa0 < a + block_bytes (sa_order al))).
  { intros sa0 al0 H1. rewrite block_bytes_bsize by apply Hal. fold k.
    unfold m1 in H1. rewrite (poison_allocators m p' a (bsize k) (fresh_allocators m g a k p' Hm Ht)) in H1.
    by apply (fresh_allocators m g a k p' Hm Ht sa0 al0). }
  assert (Hall : allocated (m_pages m1) a (Z.to_nat (sa_order al))) by apply Ht.
  pose proof (add_slab_ok m1 g sa al SL a B W Hm1 Hsa1 HSL Hall ltac:(lia) Hfar Hno HB1 HB2 HB3 HW1 HW2) as Hok2.
  pose proof (new_not_old m1 g sa al SL a B W Hm1 Hsa1 HSL Hall ltac:(lia) Hfar Hno HB1 HB2 HB3 HW1 HW2) as Hnew.
  pose proof (new_has_slab m1 g sa al SL a B W Hm1 Hsa1 HSL Hall ltac:(lia) Hfar Hno HB1 HB2 HB3 HW1 HW2) as Hback.
  eexists true, _, _. split_and!; [exact Hlay|exact Hok2| |].
  - eapply same_live_trans; [exact Hs1|]. apply add_slab_live; try done.
    intros sa1 al1 s1 x1 F1 H1 Hne. destruct (Hback _ _ _ _ _ H1) as [(_ & E & _)|[_ ?]]; done.
  - eexists _, _, _. split_and!; [apply lookup_insert_eq|apply lookup_insert_eq|apply lookup_insert_eq|done].
Qed.

(** ** Objects *)

(** The slab the search ends at has a free object. *)
Lemma found_slab m g sa al SL s x : mem_ok m g -> m_allocators m !! sa = Some al -> g_slabs g !! sa = Some SL -> s ∈ SL ->
  m_slabs m !! s = Some x -> s_inuse x <> sa_slab_nobjs al ->
  s_inuse x < sa_slab_nobjs al /\ exists j F, has_slab m g sa al s x (j :: F).
Proof.
  intros Hm Hsa HSL Hin Hx Hne. destruct (mo_slab _ _ Hm sa al s Hsa ltac:(eauto)) as (x' & F & Hok).
  pose proof (so_slab _ _ _ _ _ _ Hok) as E. rewrite Hx in E. injection E as <-. pose proof (so_inuse _ _ _ _ _ _ Hok).
  destruct F as [|j F]; [cbn in *; lia|]. split; [cbn [length] in *; lia|]. exists j, F. by eapply ok_has_slab.
Qed.

Lemma find_run m g sa al : mem_ok m g -> m_allocators m !! sa = Some al ->
  exists r SL, find_slab (S (size (m_slabs m))) (sa_slab_nobjs al) (sa_slabs al) m = Done r m /\ g_slabs g !! sa = Some SL /\
    match r with
    | Some s => exists x j F, m_slabs m !! s = Some x /\ s_inuse x < sa_slab_nobjs al /\ has_slab m g sa al s x (j :: F)
    | None => forall s x, s ∈ SL -> m_slabs m !! s = Some x -> s_inuse x = sa_slab_nobjs al
    end.
Proof.
  intros Hm Hsa. destruct (mo_alloc _ _ Hm _ _ Hsa) as [_ (SL & HSL & Hnd & Hl)]. pose proof (slab_list_size _ _ _ Hnd Hl).
  destruct (find_slab_run m (sa_slab_nobjs al) (S (size (m_slabs m))) _ _ Hl ltac:(lia)) as (r & Hr & Hp).
  exists r, SL. split_and!; try done. destruct r as [s|]; [|done]. destruct Hp as [Hin (x & Hx & Hne)].
  destruct (found_slab m g sa al SL s x Hm Hsa HSL Hin Hx Hne) as [? (j & F & ?)]. eauto 7.
Qed.

Lemma find_or_grow_run m g sa al fuel : mem_ok m g -> m_allocators m !! sa = Some al -> (2 <= fuel)%nat ->
  exists r m' g', find_or_grow fuel sa m = Done r m' /\ mem_ok m' g' /\ same_live m g m' g' /\
    match r with
    | Some s => exists p x j F, has_slab m' g' sa (with_slabs al p) s x (j :: F)
    | None => free_at (m_pages m) 0 \/ no_block (m_pages m) (Z.to_nat (sa_order al))
    end.
Proof.
  intros Hm Hsa Hfuel. destruct fuel as [|[|fuel]]; [lia..|]. cbn [find_or_grow].
  assert (Hhit : forall m al n s x, m_slabs m !! s = Some x -> s_inuse x < sa_slab_nobjs al ->
    (let* ok := (let* x := get_slab s in ret (s_inuse x <? sa_slab_nobjs al)) in
     if ok : bool then ret (Some s) else n) m = Done (Some s) m).
  { intros m0 al0 n s x Hx Hlt. rewrite bind_assoc.
    erewrite bind_done by (unfold get_slab, deref; by rewrite Hx). erewrite bind_done by reflexivity.
    by rewrite (proj2 (Z.ltb_lt _ _)). }
  erewrite bind_done by (unfold get_allocator, deref; by rewrite Hsa). erewrite bind_done by reflexivity.
  destruct (find_run m g sa al Hm Hsa) as (r & SL & Hr & HSL & Hp). krun Hr. destruct r as [s|].
  { destruct Hp as (x & j & F & Hx & Hlt & Hs). exists (Some s), m, g. split_and!; [by apply (Hhit m al _ s x)|done|apply same_live_refl|].
    exists (sa_slabs al), x, j, F. by destruct al. }
  erewrite bind_done by reflexivity. cbn beta iota.
  destruct (grow_run m g sa al SL Hm Hsa HSL) as (b & m1 & g1 & Hg & Hm1 & Hs1 & Hb). krun Hg. destruct b.
  2:{ exists None, m1, g1. done. }
  destruct Hb as (s & p & x & Hsa1 & HSL1 & Hx & H0).
  erewrite bind_done by (unfold get_allocator, deref; by rewrite Hsa1). erewrite bind_done by reflexivity.
  destruct (find_run m1 g1 sa _ Hm1 Hsa1) as (r & SL1 & Hr1 & HSL1' & Hp1). krun Hr1. destruct r as [s1|].
  - destruct Hp1 as (x1 & j & F & Hx1 & Hlt & Hs). exists (Some s1), m1, g1.
    split_and!; [by apply (Hhit m1 (with_slabs al p) _ s1 x1)|done|done|]. by exists p, x1, j, F.
  - exfalso. rewrite HSL1 in HSL1'. injection HSL1' as <-. specialize (Hp1 s x ltac:(left) Hx).
    destruct (mo_alloc _ _ Hm _ _ Hsa) as [Hal _]. pose proof (ak_nobjs _ Hal). cbn [with_slabs sa_slab_nobjs] in Hp1. lia.
Qed.

(** The object taken was free and is now in use; the others are as before. *)
Lemma step_live m g sa al s x F b x' b' F' : mem_ok m g -> has_slab m g sa al s x F -> s_addr x' = s_addr x ->
  let m' := step_mem s b x' b' m in let g' := step_ghost s F' g in
  forall sa1 o, live m' g' sa1 o <->
    (exists al1 s1 x1 F1 j, has_slab m g sa1 al1 s1 x1 F1 /\ s1 <> s /\ Z.of_nat j < sa_slab_nobjs al1 /\ j ∉ F1 /\
       o = obj_at al1 (s_addr x1) j + SIZEOF_REDZONE) \/
    (sa1 = sa /\ exists j, Z.of_nat j < sa_slab_nobjs al /\ j ∉ F' /\ o = obj_at al (s_addr x) j + SIZEOF_REDZONE).
Proof.
  intros Hm Hs Ea m' g' sa1 o. pose proof Hs as (Hsa & Hx & HF & SL & HSL & Hin). split.
  - intros (al1 & s1 & x1 & F1 & j & Hs1 & Hj & Hn & ->).
    destruct (step_has_slab _ _ _ _ _ _ _ _ _ _ _ _ _ _ Hx HF Hs1) as [(-> & -> & -> & Hh)|[Hne Hh]].
    + right. pose proof (owner_unique _ _ _ _ _ _ _ _ _ _ _ Hm Hs Hh) as ->. split; [done|].
      destruct Hh as (Ha1 & _). rewrite Hsa in Ha1. injection Ha1 as <-. exists j. by rewrite Ea.
    + left. by exists al1, s1, x1, F1, j.
  - intros [(al1 & s1 & x1 & F1 & j & (Ha1 & Hx1 & HF1 & SL1 & HSL1 & Hin1) & Hne & Hj & Hn & ->)|[-> (j & Hj & Hn & ->)]].
    + exists al1, s1, x1, F1, j. split; [|done]. split_and!; [done| | |by exists SL1].
      * cbn [m' step_mem up_slabs m_slabs]. by rewrite lookup_insert_ne.
      * cbn [g' step_ghost g_free]. by rewrite lookup_insert_ne.
    + exists al, s, x', F', j. rewrite Ea. split; [|done]. split_and!; [done|apply lookup_insert_eq|apply lookup_insert_eq|by exists SL].
Qed.

Lemma live_split m g sa al s x F : mem_ok m g -> has_slab m g sa al s x F ->
  forall sa1 o, live m g sa1 o <->
    (exists al1 s1 x1 F1 j, has_slab m g sa1 al1 s1 x1 F1 /\ s1 <> s /\ Z.of_nat j < sa_slab_nobjs al1 /\ j ∉ F1 /\
       o = obj_at al1 (s_addr x1) j + SIZEOF_REDZONE) \/
    (sa1 = sa /\ exists j, Z.of_nat j < sa_slab_nobjs al /\ j ∉ F /\ o = obj_at al (s_addr x) j + SIZEOF_REDZONE).
Proof.
  intros Hm Hs sa1 o. pose proof Hs as (Hsa & Hx & HF & SL & HSL & Hin). split.
  - intros (al1 & s1 & x1 & F1 & j & Hs1 & Hj & Hn & ->). destruct (decide (s1 = s)) as [->|Hne].
    + right. pose proof (owner_unique _ _ _ _ _ _ _ _ _ _ _ Hm Hs Hs1) as ->. split; [done|].
      destruct Hs1 as (Ha1 & Hx1 & HF1 & _). simplify_eq. by exists j.
    + left. by exists al1, s1, x1, F1, j.
  - intros [(al1 & s1 & x1 & F1 & j & Hs1 & _ & Hrest)|[-> (j & Hrest)]]; [by exists al1, s1, x1, F1, j|by exists al, s, x, F, j].
Qed.

Lemma obj_alloc_run m g sa al : mem_ok m g -> m_allocators m !! sa = Some al ->
  exists r m' g', slab_obj_alloc sa m = Done r m' /\ mem_ok m' g' /\
    (forall sa1 al1, m_allocators m !! sa1 = Some al1 -> exists p, m_allocators m' !! sa1 = Some (with_slabs al1 p)) /\
    (forall sa1 al1, m_allocators m' !! sa1 = Some al1 -> is_Some (m_allocators m !! sa1)) /\
    kmalloc_allocators m' = kmalloc_allocators m /\
    match r with
    | Some o => ~ live m g sa o /\ (forall sa1 o1, live m' g' sa1 o1 <-> live m g sa1 o1 \/ (sa1 = sa /\ o1 = o)) /\
        exists p s x F j, has_slab m' g' sa (with_slabs al p) s x F /\ Z.of_nat j < sa_slab_nobjs al /\ j ∉ F /\
          o = obj_at al (s_addr x) j + SIZEOF_REDZONE /\ unhoused m' (with_slabs al p) x j
    | None => (forall sa1 o1, live m' g' sa1 o1 <-> live m g sa1 o1) /\
        (free_at (m_pages m) 0 \/ no_block (m_pages m) (Z.to_nat (sa_order al)))
    end.
Proof.
  intros Hm Hsa. unfold slab_obj_alloc. erewrite bind_done by reflexivity.
  destruct (find_or_grow_run m g sa al (S (S (Z.to_nat (Page.page_freecount (m_pages m))))) Hm Hsa ltac:(lia))
    as (r & m1 & g1 & Hr & Hm1 & Hs1 & Hp). krun Hr. destruct r as [s|].
  2:{ exists None, m1, g1. split_and!; try done; apply Hs1. }
  destruct Hp as (p & x & j & F & Hs). destruct (has_slab_ok _ _ _ _ _ _ _ Hm1 Hs) as [Hal Hok].
  destruct (take_obj_run m1 g1 sa (with_slabs al p) s x F j Hm1 Hs) as (m2 & Hrun & Hm2 & b & E).
  exists (Some (obj_at al (s_addr x) j + SIZEOF_REDZONE)), m2, (step_ghost s F g1).
  pose proof (so_nodup _ _ _ _ _ _ Hok) as [Hni _]%NoDup_cons.
  assert (Hj : Z.of_nat j < sa_slab_nobjs al) by (apply (so_range _ _ _ _ _ _ Hok); left).
  split_and!; [exact Hrun|done|subst m2; apply Hs1|subst m2; apply Hs1|subst m2; apply Hs1| | |].
  - rewrite <- (sl_live _ _ _ _ Hs1). rewrite (live_split m1 g1 sa _ s x _ Hm1 Hs). intros [(al1 & s1 & x1 & F1 & i & H1 & Hne & Hi & _ & Eo)|[_ (i & _ & Hn & Eo)]].
    + destruct (has_slab_ok _ _ _ _ _ _ _ Hm1 H1) as [Hal1 _].
      apply (mo_apart _ _ Hm1 _ _ _ _ _ _ _ _ _ _ H1 Hs ltac:(congruence) (obj_at al (s_addr x) j)).
      * pose proof (obj_at_bounds al1 (s_addr x1) i Hal1 Hi). pose proof (ak_objsize _ Hal1). unfold in_slab, SIZEOF_SLAB, SIZEOF_BUFCTL in *. lia.
      * pose proof (obj_at_bounds (with_slabs al p) (s_addr x) j Hal Hj) as Hb. pose proof (ak_objsize _ Hal).
        change (obj_at (with_slabs al p)) with (obj_at al) in Hb. unfold in_slab, SIZEOF_SLAB, SIZEOF_BUFCTL in *. lia.
    + change (obj_at (with_slabs al p)) with (obj_at al) in Eo.
      assert (i = j) as -> by (apply (obj_at_inj (with_slabs al p) (s_addr x)); [done|]; change (obj_at (with_slabs al p)) with (obj_at al); lia).
      apply Hn. left.
  - intros sa1 o1. rewrite <- (sl_live _ _ _ _ Hs1), (live_split m1 g1 sa _ s x _ Hm1 Hs). subst m2.
    rewrite (step_live m1 g1 sa _ s x (j :: F)) by done. split.
    + intros [Hl|[-> (i & Hi & Hn & ->)]]; [by left; left|]. destruct (decide (i = j)) as [->|]; [by right|].
      left; right. split; [done|]. exists i. split_and!; try done. by apply not_elem_of_cons.
    + intros [[Hl|[-> (i & Hi & Hn & ->)]]|[-> ->]]; [by left| |].
      * right. split; [done|]. exists i. by apply not_elem_of_cons in Hn as [_ Hn].
      * right. split; [done|]. by exists j.
  - exists p, s, (MkSlab (s_next x) (s32 (s_inuse x + 1)) (sb_u b) (s_addr x)), F, j. split_and!; try done.
    + subst m2. destruct Hs as (? & ? & ? & SL & ? & ?). split_and!; [done|apply lookup_insert_eq|apply lookup_insert_eq|by exists SL].
    + intros sa0 al0 H0 Hin. subst m2. destruct (mo_housed _ _ Hm1 sa0 al0 H0) as [_ Hh].
      cbn [s_addr] in Hin. pose proof (obj_at_bounds (with_slabs al p) (s_addr x) j Hal Hj) as Hb.
      destruct (Hh _ _ _ _ _ Hs) as (i & Hi & Hn & Hin').
      { unfold in_slab, SIZEOF_SLAB, SIZEOF_BUFCTL in *. lia. }
      apply Hn. assert (i = j) as ->; [|left]. pose proof (stride_pos _ Hal). unfold obj_at, stride, SIZEOF_BUFCTL in *. nia.
Qed.

(** ** The part of an object its user may write *)

(** No allocator structure is in object [o] of [sa]. *)
Definition plain (m : mem) (sa o : Z) : Prop :=
  forall al sa0 al0, m_allocators m !! sa = Some al -> m_allocators m !! sa0 = Some al0 ->
    ~ (o - SIZEOF_REDZONE <= sa0 < o - SIZEOF_REDZONE + sa_objsize al).

(** Byte [z] is one of those object [o] of allocator [al] offers its user. *)
Definition payload (al : slab_allocator) (o z : Z) : Prop := o <= z < o + sa_objsize al - 2 * SIZEOF_REDZONE.

(** The places of a slab that hold its structure. *)
Definition struct_at (al : slab_allocator) (s : Z) (x : slab) (z : Z) : Prop :=
  z = s \/ exists i, Z.of_nat i < sa_slab_nobjs al /\
    (z = obj_at al (s_addr x) i \/ z = obj_at al (s_addr x) i + sa_objsize al - SIZEOF_PTR \/ z = obj_at al (s_addr x) i + sa_objsize al).

Lemma struct_in_slab m g al s x F z : al_ok al -> slab_ok m g al s x F -> struct_at al s x z -> in_slab al x z.
Proof.
  intros Hal Hok Hz. pose proof (ak_objsize _ Hal). pose proof (ak_fits _ Hal). pose proof (ak_nobjs _ Hal). pose proof (stride_pos _ Hal).
  unfold in_slab. destruct Hz as [->|(i & Hi & Hz)].
  - rewrite (so_place _ _ _ _ _ _ Hok). unfold SIZEOF_SLAB in *. nia.
  - pose proof (obj_at_bounds al (s_addr x) i Hal Hi). unfold SIZEOF_SLAB, SIZEOF_BUFCTL, SIZEOF_PTR in *. lia.
Qed.

Lemma payload_in_slab al x j z : al_ok al -> Z.of_nat j < sa_slab_nobjs al ->
  payload al (obj_at al (s_addr x) j + SIZEOF_REDZONE) z -> in_slab al x z.
Proof.
  intros Hal Hj. pose proof (obj_at_bounds al (s_addr x) j Hal Hj). unfold payload, in_slab, SIZEOF_REDZONE, SIZEOF_SLAB, SIZEOF_BUFCTL in *. lia.
Qed.

Lemma payload_not_struct m g sa al s x F j sa1 al1 s1 x1 F1 z : mem_ok m g -> has_slab m g sa al s x F -> Z.of_nat j < sa_slab_nobjs al ->
  has_slab m g sa1 al1 s1 x1 F1 -> struct_at al1 s1 x1 z -> ~ payload al (obj_at al (s_addr x) j + SIZEOF_REDZONE) z.
Proof.
  intros Hm Hs Hj Hs1 Hz Hp. destruct (has_slab_ok _ _ _ _ _ _ _ Hm Hs) as [Hal Hok]. destruct (has_slab_ok _ _ _ _ _ _ _ Hm Hs1) as [Hal1 Hok1].
  pose proof (payload_in_slab al x j z Hal Hj Hp) as Hin. pose proof (struct_in_slab _ _ _ _ _ _ _ Hal1 Hok1 Hz) as Hin1.
  destruct (decide ((sa, s) = (sa1, s1))) as [E|Hne]; [|by apply (mo_apart _ _ Hm _ _ _ _ _ _ _ _ _ _ Hs Hs1 Hne z)].
  injection E as <- <-. destruct Hs as (Ha & Hx & _), Hs1 as (Ha1 & Hx1 & _). rewrite Ha in Ha1. rewrite Hx in Hx1. injection Ha1 as <-. injection Hx1 as <-.
  pose proof (stride_pos _ Hal). pose proof (obj_at_bounds al (s_addr x) j Hal Hj). unfold payload in Hp.
  destruct Hz as [->|(i & Hi & Hz)].
  - rewrite (so_place _ _ _ _ _ _ Hok) in Hp. unfold SIZEOF_REDZONE, SIZEOF_BUFCTL in *. lia.
  - unfold obj_at, SIZEOF_REDZONE, SIZEOF_PTR, stride, SIZEOF_BUFCTL in *. destruct (Z.lt_trichotomy (Z.of_nat i) (Z.of_nat j)) as [|[|]]; nia.
Qed.

(** Writing the payload of an object keeps the invariant and the objects in use. *)
Lemma write_payload m m' g sa al s x F j : mem_ok m g -> has_slab m g sa al s x F -> Z.of_nat j < sa_slab_nobjs al ->
  m_pages m' = m_pages m -> m_allocators m' = m_allocators m -> slab_allocators m' = slab_allocators m ->
  (forall z, ~ payload al (obj_at al (s_addr x) j + SIZEOF_REDZONE) z ->
     m_slabs m' !! z = m_slabs m !! z /\ m_bufctls m' !! z = m_bufctls m !! z /\ m_words m' !! z = m_words m !! z) ->
  mem_ok m' g /\ forall sa1 o, live m' g sa1 o <-> live m g sa1 o.
Proof.
  intros Hm Hs Hj EP EA EL Hz.
  assert (Hsl : forall sa1 al1 s1 x1 F1, has_slab m g sa1 al1 s1 x1 F1 -> m_slabs m' !! s1 = Some x1).
  { intros sa1 al1 s1 x1 F1 Hs1. rewrite (proj1 (Hz s1 (payload_not_struct _ _ _ _ _ _ _ _ _ _ _ _ _ _ Hm Hs Hj Hs1 (or_introl eq_refl)))). apply Hs1. }
  split; [|intros sa1 o; by apply frame_live]. apply (mem_frame m); try done; rewrite EP; [apply Hm| |intros sa1 al1 H1; by apply (mo_housed _ _ Hm sa1 al1)].
  intros sa1 al1 s1 x1 F1 Hs1. split_and!; [by eapply Hsl| | |].
  - intros i Hi. apply Hz, (payload_not_struct m g sa al s x F j sa1 al1 s1 x1 F1); try done. right. eauto 7.
  - intros i Hi. split; symmetry; apply Hz, (payload_not_struct m g sa al s x F j sa1 al1 s1 x1 F1); try done; right; eauto 7.
  - apply (so_pages _ _ _ _ _ _ (proj2 (has_slab_ok _ _ _ _ _ _ _ Hm Hs1))).
Qed.

(** ** Releasing an object *)
Lemma plain_unhoused m g sa al s x F j : mem_ok m g -> has_slab m g sa al s x F -> plain m sa (obj_at al (s_addr x) j + SIZEOF_REDZONE) -> unhoused m al x j.
Proof. intros Hm Hs Hp sa0 al0 H0. specialize (Hp al sa0 al0 (proj1 Hs) H0). by rewrite Z.add_simpl_r in Hp. Qed.

Lemma give_run m g sa o : mem_ok m g -> live m g sa o -> plain m sa o ->
  exists m' g', slab_obj_free sa o m = Done tt m' /\ mem_ok m' g' /\
    (forall sa1 o1, live m' g' sa1 o1 <-> live m g sa1 o1 /\ (sa1, o1) <> (sa, o)) /\
    m_pages m' = m_pages m /\ m_allocators m' = m_allocators m /\ kmalloc_allocators m' = kmalloc_allocators m /\
    slab_obj_free sa o m' = Panic.
Proof.
  intros Hm (al & s & x & F & j & Hs & Hj & Hn & ->) Hp.
  destruct (give_obj_run m g sa al s x F j Hm Hs Hj Hn (plain_unhoused _ _ _ _ _ _ _ _ Hm Hs Hp)) as (m' & Hrun & Hm' & E).
  destruct (has_slab_ok _ _ _ _ _ _ _ Hm Hs) as [Hal Hok].
  exists m', (step_ghost s (j :: F) g). split_and!; try done; try (by subst m').
  - intros sa1 o1. rewrite (live_split m g sa _ s x _ Hm Hs). subst m'. rewrite (step_live m g sa al s x F) by done. split.
    + intros [(al1 & s1 & x1 & F1 & i & Hs1 & Hne & Hi & Hni & ->)|[-> (i & Hi & Hni & ->)]].
      * split; [left; by exists al1, s1, x1, F1, i|]. intros [= -> E]. destruct (has_slab_ok _ _ _ _ _ _ _ Hm Hs1) as [Hal1 _].
        apply (mo_apart _ _ Hm _ _ _ _ _ _ _ _ _ _ Hs1 Hs ltac:(congruence) (obj_at al (s_addr x) j)).
        -- pose proof (obj_at_bounds al1 (s_addr x1) i Hal1 Hi). pose proof (ak_objsize _ Hal1). unfold in_slab, SIZEOF_SLAB, SIZEOF_BUFCTL in *. lia.
        -- pose proof (obj_at_bounds al (s_addr x) j Hal Hj). pose proof (ak_objsize _ Hal). unfold in_slab, SIZEOF_SLAB, SIZEOF_BUFCTL in *. lia.
      * apply not_elem_of_cons in Hni as [Hne Hni]. split; [right; split; [done|]; by exists i|]. intros [= E]. apply Hne.
        apply (obj_at_inj al (s_addr x)); [done|lia].
    + intros [[(al1 & s1 & x1 & F1 & i & Hs1 & Hne & Hi & Hni & ->)|[-> (i & Hi & Hni & ->)]] Hd].
      * left. by exists al1, s1, x1, F1, i.
      * right. split; [done|]. exists i. split_and!; try done. apply not_elem_of_cons. split; [congruence|done].
  - set (x' := MkSlab (s_next x) (s32 (s_inuse x - 1)) (Some (obj_at al (s_addr x) j)) (s_addr x)) in *.
    change (s_addr x) with (s_addr x'). apply (free_again_panics m' (step_ghost s (j :: F) g) sa al s x' (j :: F)); try done; [|left].
    subst m'. destruct Hs as (? & ? & ? & SL & ? & ?). split_and!; [done|apply lookup_insert_eq|apply lookup_insert_eq|by exists SL].
Qed.

Lemma alloc_plain m g sa al : mem_ok m g -> m_allocators m !! sa = Some al ->
  exists r m' g', slab_obj_alloc sa m = Done r m' /\ mem_ok m' g' /\
    (forall sa1 al1, m_allocators m !! sa1 = Some al1 -> exists p, m_allocators m' !! sa1 = Some (with_slabs al1 p)) /\
    (forall sa1 al1, m_allocators m' !! sa1 = Some al1 -> is_Some (m_allocators m !! sa1)) /\
    kmalloc_allocators m' = kmalloc_allocators m /\
    match r with
    | Some o => ~ live m g sa o /\ (forall sa1 o1, live m' g' sa1 o1 <-> live m g sa1 o1 \/ (sa1 = sa /\ o1 = o)) /\
        plain m' sa o
    | None => (forall sa1 o1, live m' g' sa1 o1 <-> live m g sa1 o1) /\
        (free_at (m_pages m) 0 \/ no_block (m_pages m) (Z.to_nat (sa_order al)))
    end.
Proof.
  intros Hm Hsa. destruct (obj_alloc_run m g sa al Hm Hsa) as (r & m' & g' & Hr & Hm' & HA & HB & HK & H). exists r, m', g'. split_and!; try done.
  destruct r as [o|]; [|done]. destruct H as (Hn & Hl & p & s & x & F & j & Hs & Hj & Hni & -> & Hun). split_and!; try done.
  intros al1 sa0 al0 H1 H0 Hin. pose proof Hs as (H1' & _). rewrite H1 in H1'. injection H1' as ->. apply (Hun sa0 al0 H0).
  change (obj_at (with_slabs al p)) with (obj_at al). by rewrite Z.add_simpl_r in Hin.
Qed.

(** ** Theorems *)
(** C20: [slab_obj_alloc] of a known allocator returns an object that was not in
    use and adds it, and nothing else, to the objects in use; the invariant is
    kept, also when the allocator has to grow.  It returns NULL only when no free
    block of pages is large enough for a slab (or the block at address 0 is the
    one it gets), and then the objects in use are the same. *)
Theorem slab_obj_alloc_spec m g sa al : mem_ok m g -> m_allocators m !! sa = Some al ->
  exists r m' g', slab_obj_alloc sa m = Done r m' /\ mem_ok m' g' /\
    match r with
    | Some o => ~ live m g sa o /\ (forall sa1 o1, live m' g' sa1 o1 <-> live m g sa1 o1 \/ (sa1 = sa /\ o1 = o)) /\ plain m' sa o
    | None => (forall sa1 o1, live m' g' sa1 o1 <-> live m g sa1 o1) /\
        (free_at (m_pages m) 0 \/ no_block (m_pages m) (Z.to_nat (sa_order al)))
    end.
Proof. intros Hm Hsa. destruct (alloc_plain m g sa al Hm Hsa) as (r & m' & g' & ? & ? & _ & _ & _ & ?). by exists r, m', g'. Qed.

(** C21: [slab_obj_free] of an object in use that holds no allocator takes it, and
    nothing else, out of the objects in use and keeps the invariant; releasing the
    object a second time panics. *)
Theorem slab_obj_free_spec m g sa o : mem_ok m g -> live m g sa o -> plain m sa o ->
  exists m' g', slab_obj_free sa o m = Done tt m' /\ mem_ok m' g' /\
    (forall sa1 o1, live m' g' sa1 o1 <-> live m g sa1 o1 /\ (sa1, o1) <> (sa, o)) /\
    slab_obj_free sa o m' = Panic.
Proof. intros Hm Hl Hp. destruct (give_run m g sa o Hm Hl Hp) as (m' & g' & ? & ? & ? & _ & _ & _ & ?). by exists m', g'. Qed.

(** ** The objects of a run *)
Lemma live_apart m g sa al o sa' al' o' z : mem_ok m g ->
  m_allocators m !! sa = Some al -> m_allocators m !! sa' = Some al' -> live m g sa o -> live m g sa' o' ->
  (sa, o) <> (sa', o') -> payload al o z -> ~ payload al' o' z.
Proof.
  intros Hm Ha Ha' (al1 & s & x & F & j & Hs & Hj & Hn & ->) (al2 & s' & x' & F' & j' & Hs' & Hj' & Hn' & ->) Hne Hz Hz'.
  pose proof Hs as (E1 & _). pose proof Hs' as (E2 & _). rewrite Ha in E1. rewrite Ha' in E2. injection E1 as <-. injection E2 as <-.
  destruct (has_slab_ok _ _ _ _ _ _ _ Hm Hs) as [Hal Hok]. destruct (has_slab_ok _ _ _ _ _ _ _ Hm Hs') as [Hal' _].
  pose proof (payload_in_slab al x j z Hal Hj Hz) as Hin. pose proof (payload_in_slab al' x' j' z Hal' Hj' Hz') as Hin'.
  destruct (decide ((sa, s) = (sa', s'))) as [[= <- <-]|Hd].
  - destruct Hs as (_ & Hx & _), Hs' as (_ & Hx' & _). rewrite Hx in Hx'. injection Hx' as <-. rewrite Ha in Ha'. injection Ha' as <-.
    assert (j <> j') by congruence. pose proof (stride_pos _ Hal). unfold payload, obj_at, stride, SIZEOF_REDZONE, SIZEOF_BUFCTL in *.
    destruct (Z.lt_trichotomy (Z.of_nat j) (Z.of_nat j')) as [|[|]]; nia.
  - by apply (mo_apart _ _ Hm _ _ _ _ _ _ _ _ _ _ Hs Hs' Hd z).
Qed.

Lemma live_not_free m g sa al o z : mem_ok m g -> m_allocators m !! sa = Some al -> live m g sa o -> payload al o z -> ~ free_at (m_pages m) z.
Proof.
  intros Hm Ha (al1 & s & x & F & j & Hs & Hj & Hn & ->) Hz. pose proof Hs as (E1 & _). rewrite Ha in E1. injection E1 as <-.
  destruct (has_slab_ok _ _ _ _ _ _ _ Hm Hs) as [Hal Hok]. destruct (so_pages _ _ _ _ _ _ Hok) as (i & gr & c & _ & _ & _ & Hf).
  apply Hf, in_slab_block, (payload_in_slab al x j z); done.
Qed.

Lemma plain_kept m m' sa o : (forall sa1 al1, m_allocators m !! sa1 = Some al1 -> exists p, m_allocators m' !! sa1 = Some (with_slabs al1 p)) ->
  (forall sa1 al1, m_allocators m' !! sa1 = Some al1 -> is_Some (m_allocators m !! sa1)) -> is_Some (m_allocators m !! sa) ->
  plain m sa o -> plain m' sa o.
Proof.
  intros HA HB [al Hal] Hp al' sa0 al0 H' H0. destruct (HB _ _ H0) as [al1 H1]. destruct (HA _ _ Hal) as [p E]. rewrite H' in E. injection E as ->.
  exact (Hp al sa0 al1 Hal H1).
Qed.

(** A run of calls, with the objects that have been handed out and not given
    back: their allocators and addresses. *)
Inductive slab_call : mem * list (Z * Z) -> mem * list (Z * Z) -> Prop :=
| CallAlloc m H sa al o m' : m_allocators m !! sa = Some al -> slab_obj_alloc sa m = Done (Some o) m' -> slab_call (m, H) (m', (sa, o) :: H)
| CallNone m H sa al m' : m_allocators m !! sa = Some al -> slab_obj_alloc sa m = Done None m' -> slab_call (m, H) (m', H)
| CallFree m H1 sa o H2 m' : slab_obj_free sa o m = Done tt m' -> slab_call (m, H1 ++ (sa, o) :: H2) (m', H1 ++ H2).

Definition handed (p : mem * list (Z * Z)) : Prop := NoDup p.2 /\ exists g, mem_ok p.1 g /\
  forall sa o, (sa, o) ∈ p.2 -> live p.1 g sa o /\ plain p.1 sa o.

Lemma live_allocator m g sa o : live m g sa o -> is_Some (m_allocators m !! sa).
Proof. intros (al & s & x & F & j & (Ha & _) & _). eauto. Qed.

Lemma handed_call p q : slab_call p q -> handed p -> handed q.
Proof.
  intros Hc. destruct Hc as [m H sa al o m' Hsa E|m H sa al m' Hsa E|m H1 sa o H2 m' E]; intros (Hnd & g & Hm & HH); cbn [fst snd] in *.
  - destruct (alloc_plain m g sa al Hm Hsa) as (r & m1 & g' & E1 & Hm' & HA & HB & _ & Hr). rewrite E in E1. injection E1 as <- <-.
    destruct Hr as (Hno & Hl & Hp). split.
    + apply NoDup_cons. split; [|done]. cbn [snd]. intros Hin. by apply Hno, HH.
    + exists g'. split; [done|]. cbn [fst snd]. intros sa1 o1 [[= -> ->]|Hin]%elem_of_cons; [split; [apply Hl; by right|done]|].
      destruct (HH sa1 o1 Hin) as [Hl1 Hp1]. split; [apply Hl; by left|]. apply (plain_kept m); try done. by eapply live_allocator.
  - destruct (alloc_plain m g sa al Hm Hsa) as (r & m1 & g' & E1 & Hm' & HA & HB & _ & Hr). rewrite E in E1. injection E1 as <- <-.
    destruct Hr as [Hl _]. split; [done|]. exists g'. split; [done|]. cbn [fst snd]. intros sa1 o1 Hin.
    destruct (HH sa1 o1 Hin) as [Hl1 Hp1]. split; [by apply Hl|]. apply (plain_kept m); try done. by eapply live_allocator.
  - destruct (HH sa o ltac:(apply elem_of_app; right; left)) as [Hlo Hpo].
    destruct (give_run m g sa o Hm Hlo Hpo) as (m1 & g' & E1 & Hm' & Hl & _ & EA & _). rewrite E in E1. injection E1 as <-.
    apply NoDup_app in Hnd as (Hn1 & Hd & [Hn2 Hn3]%NoDup_cons). split.
    + apply NoDup_app. split_and!; try done. intros x Hx Hx2. apply (Hd x Hx). by right.
    + exists g'. split; [done|]. cbn [fst snd]. intros sa1 o1 Hin.
      assert ((sa1, o1) ∈ H1 ++ (sa, o) :: H2) as Hin' by (apply elem_of_app in Hin as [?|?]; apply elem_of_app; [by left|right; by right]).
      destruct (HH sa1 o1 Hin') as [Hl1 Hp1]. split; [|unfold plain; by rewrite EA]. apply Hl. split; [done|]. intros [= -> ->].
      apply elem_of_app in Hin as [Hin|Hin]; [apply (Hd _ Hin); left|done].
Qed.

Lemma handed_run p q : rtc slab_call p q -> handed p -> handed q.
Proof. induction 1 as [|p p' q Hc _ IH]; [done|]. intros Hp. by eapply IH, handed_call. Qed.

(** C23: after any run of [slab_obj_alloc], and of [slab_obj_free] of objects it
    returned, from a state that satisfies the invariant, the objects handed out
    and not given back do not overlap, whatever their allocators: the bytes two
    of them offer their users are disjoint, and none of these bytes is on a free
    page. *)
Theorem slab_objs_apart m g m' H i j sa o sa' o' al al' z : mem_ok m g -> rtc slab_call (m, []) (m', H) ->
  H !! i = Some (sa, o) -> H !! j = Some (sa', o') -> i <> j ->
  m_allocators m' !! sa = Some al -> m_allocators m' !! sa' = Some al' ->
  payload al o z -> ~ payload al' o' z /\ ~ free_at (m_pages m') z.
Proof.
  intros Hm Hr Hi Hj Hij Ha Ha' Hz.
  assert (handed (m', H)) as (Hnd & g' & Hm' & HH).
  { apply (handed_run _ _ Hr). split; [apply NoDup_nil_2|].
    exists g. split; [done|]. by intros ? ? ?%elem_of_nil. }
  cbn [fst snd] in *. destruct (HH sa o) as [Hl _]; [by eapply list_elem_of_lookup_2|]. destruct (HH sa' o') as [Hl' _]; [by eapply list_elem_of_lookup_2|].
  split; [|by eapply (live_not_free m' g' sa al o)]. eapply (live_apart m' g' sa al o); try done.
  intros E. apply Hij. eapply NoDup_lookup; [exact Hnd|exact Hi|by rewrite E].
Qed.
End SlabAlloc.
