(* ===== verification/Kmalloc.v ===== *)
(** * [kmalloc] and [kfree]

    The buckets of [mm/slab.c] over the objects of [SlabAlloc]. *)

From Stdlib Require Import ZArith Lia.
From stdpp Require Import base list gmap.
From S2P Require Import Prelude Page PageSpec Slab SlabSpec SlabAlloc.

Module Kmalloc.
Import Slab PageSpec SlabSpec SlabAlloc.
Local Open Scope Z_scope.

(** What [slab_init] sets up for [kmalloc]: bucket [i] has an allocator for
    objects of [2^(6+i)] bytes. *)
Definition buckets_ok (m : mem) : Prop :=
  forall i : nat, (i < 13)%nat -> exists sa al, kmalloc_allocators m !! i = Some (Some sa) /\
    m_allocators m !! sa = Some al /\ sa_objsize al = 2 ^ (KMALLOC_SIZE_MIN_ORDER + Z.of_nat i) + 2 * SIZEOF_REDZONE.

(** [a] is a block of at least [size] bytes [kmalloc] has handed out: the four
    bytes before it name the allocator. *)
Definition kblock (m : mem) (g : ghost) (a size : Z) : Prop :=
  exists sa al, m_words m !! (a - SIZEOF_PTR) = Some sa /\ m_allocators m !! sa = Some al /\
    live m g sa (a - SIZEOF_PTR) /\ plain m sa (a - SIZEOF_PTR) /\
    size + SIZEOF_PTR <= sa_objsize al - 2 * SIZEOF_REDZONE.

(** ** The bucket *)
Lemma bucket_for_spec size : match bucket_for size with
  | Some i => (i < 13)%nat /\ size <= 2 ^ (KMALLOC_SIZE_MIN_ORDER + Z.of_nat i) /\
      forall k : nat, (k < i)%nat -> 2 ^ (KMALLOC_SIZE_MIN_ORDER + Z.of_nat k) < size
  | None => 2 ^ KMALLOC_SIZE_MAX_ORDER < size
  end.
Proof.
  unfold bucket_for. pose proof (find_seq (fun i => size <=? 2 ^ (KMALLOC_SIZE_MIN_ORDER + Z.of_nat i)) 0 13) as H.
  destruct (List.find _ _) as [i|].
  - destruct H as (H1 & H2 & H3). split_and!; [lia|lia|]. intros k Hk. specialize (H3 k ltac:(lia)). lia.
  - specialize (H 12%nat ltac:(lia)). change (KMALLOC_SIZE_MIN_ORDER + Z.of_nat 12) with KMALLOC_SIZE_MAX_ORDER in H. lia.
Qed.

(** ** Writing to an object *)
Lemma live_at m g sa o : live m g sa o -> exists al, m_allocators m !! sa = Some al.
Proof. intros (al & s & x & F & j & (Hsa & _) & _). eauto. Qed.

Lemma live_pos m g sa al o : mem_ok m g -> live m g sa o -> m_allocators m !! sa = Some al ->
  SIZEOF_REDZONE < o /\ o + sa_objsize al < 2 ^ 32.
Proof.
  intros Hm (al' & s & x & F & j & Hs & Hj & Hn & ->) Hsa. destruct (has_slab_ok _ _ _ _ _ _ _ Hm Hs) as [Hal Hok].
  pose proof Hs as (Hsa' & _). rewrite Hsa in Hsa'. injection Hsa' as <-.
  destruct (slab_bounds _ _ _ _ _ _ Hm Hal Hok). pose proof (obj_at_bounds al (s_addr x) j Hal Hj).
  unfold SIZEOF_REDZONE, SIZEOF_SLAB, SIZEOF_BUFCTL in *. lia.
Qed.

(** Writing over the payload of an object in use, when no allocator is in it. *)
Lemma write_live m m' g sa al o : mem_ok m g -> live m g sa o -> m_allocators m !! sa = Some al ->
  m_pages m' = m_pages m -> m_allocators m' = m_allocators m -> slab_allocators m' = slab_allocators m ->
  (forall z, ~ payload al o z -> m_slabs m' !! z = m_slabs m !! z /\ m_bufctls m' !! z = m_bufctls m !! z /\ m_words m' !! z = m_words m !! z) ->
  mem_ok m' g /\ forall sa1 o1, live m' g sa1 o1 <-> live m g sa1 o1.
Proof.
  intros Hm (al' & s & x & F & j & Hs & Hj & Hn & ->) Hsa EP EA EL Hz. pose proof Hs as (Hsa' & _). rewrite Hsa in Hsa'. injection Hsa' as <-.
  by apply (write_payload m m' g sa al s x F j).
Qed.

Lemma pois_live m g sa al o n : mem_ok m g -> live m g sa o -> plain m sa o -> m_allocators m !! sa = Some al ->
  n <= sa_objsize al - 2 * SIZEOF_REDZONE ->
  mem_ok (pois o n m) g /\ (forall sa1 o1, live (pois o n m) g sa1 o1 <-> live m g sa1 o1) /\
  m_allocators (pois o n m) = m_allocators m.
Proof.
  intros Hm Hl Hp Hsa Hn.
  assert (EA : m_allocators (pois o n m) = m_allocators m).
  { apply filter_outside. intros sa0 al0 H0. specialize (Hp al sa0 al0 Hsa H0). unfold outside, SIZEOF_REDZONE in *. lia. }
  assert (Hz : forall z, ~ payload al o z -> outside o n z) by (unfold payload, outside; lia).
  destruct (write_live m (pois o n m) g sa al o Hm Hl Hsa) as [H1 H2]; try done.
  intros z Hnz%Hz. unfold pois. cbn [up_slabs up_allocators up_bufctls up_words m_slabs m_bufctls m_words]. by rewrite !lookup_outside.
Qed.

Lemma word_live m g sa al o a v : mem_ok m g -> live m g sa o -> m_allocators m !! sa = Some al -> payload al o a ->
  let m' := up_words <[a := v]> m in
  mem_ok m' g /\ forall sa1 o1, live m' g sa1 o1 <-> live m g sa1 o1.
Proof.
  intros Hm Hl Hsa Ha m'. apply (write_live m m' g sa al o); try done. intros z Hnz. split_and!; try done.
  cbn [m' up_words m_words]. rewrite lookup_insert_ne; [done|congruence].
Qed.

(** ** Allocating and releasing *)
Lemma plain_ext m m' sa o : m_allocators m' = m_allocators m -> plain m sa o -> plain m' sa o.
Proof. unfold plain. by intros ->. Qed.

Lemma buckets_ext m m' : buckets_ok m -> kmalloc_allocators m' = kmalloc_allocators m ->
  (forall sa al, m_allocators m !! sa = Some al -> exists p, m_allocators m' !! sa = Some (with_slabs al p)) -> buckets_ok m'.
Proof.
  intros Hb EK HA i Hi. destruct (Hb i Hi) as (sa & al & H1 & H2 & H3). destruct (HA sa al H2) as (p & Hp).
  exists sa, (with_slabs al p). by rewrite EK.
Qed.

(** What [kmalloc] leaves behind: the objects in use are those of before and the
    one of the block, or those of before when it fails. *)
Definition kmalloc_post (m : mem) (g : ghost) (size : Z) (r : option Z) (m' : mem) (g' : ghost) : Prop :=
  match r with
  | Some a => kblock m' g' a size /\ exists sa, ~ live m g sa (a - SIZEOF_PTR) /\ m_words m' !! (a - SIZEOF_PTR) = Some sa /\
      forall sa1 o1, live m' g' sa1 o1 <-> live m g sa1 o1 \/ (sa1 = sa /\ o1 = a - SIZEOF_PTR)
  | None => (forall sa1 o1, live m' g' sa1 o1 <-> live m g sa1 o1) /\
      (free_at (m_pages m) 0 \/ exists k, (k < 8)%nat /\ no_block (m_pages m) k)
  end.

Lemma kmalloc_run m g size : mem_ok m g -> buckets_ok m -> 0 <= size -> size + SIZEOF_PTR <= 2 ^ KMALLOC_SIZE_MAX_ORDER ->
  exists r m' g', kmalloc size m = Done r m' /\ mem_ok m' g' /\ buckets_ok m' /\ kmalloc_post m g size r m' g'.
Proof.
  intros Hm Hb H0 Hmax. unfold kmalloc. unfold SIZEOF_PTR in Hmax. change (2 ^ KMALLOC_SIZE_MAX_ORDER) with 262144 in Hmax.
  assert (E : u32 (size + SIZEOF_PTR) = size + 4) by (unfold SIZEOF_PTR; apply u32_small; lia). rewrite E.
  pose proof (bucket_for_spec (size + 4)) as HB. destruct (bucket_for (size + 4)) as [i|].
  2:{ change (2 ^ KMALLOC_SIZE_MAX_ORDER) with 262144 in HB. lia. }
  destruct HB as (Hi & Hfit & _). destruct (Hb i Hi) as (sa & al & HK & Hsa & Hsz).
  erewrite bind_done by reflexivity. rewrite HK. cbn [mjoin option_join]. erewrite bind_done by reflexivity.
  destruct (alloc_plain m g sa al Hm Hsa) as (r & m1 & g1 & Hr & Hm1 & HA & _ & HKm & Hp). krun Hr.
  pose proof (buckets_ext m m1 Hb HKm HA) as Hb1. destruct r as [o|].
  2:{ exists None, m1, g1. split_and!; try done. destruct Hp as [Hl Hno]. split; [done|]. destruct Hno as [|Hno]; [by left|right].
      destruct (mo_alloc _ _ Hm sa al Hsa) as [Hal _]. pose proof (ak_order _ Hal). exists (Z.to_nat (sa_order al)). split; [lia|done]. }
  destruct Hp as (Hn & Hl & Hpl). destruct (HA sa al Hsa) as (p & Hsa1).
  assert (Hlo : live m1 g1 sa o) by (apply Hl; by right).
  destruct (pois_live m1 g1 sa _ o (size + 4) Hm1 Hlo Hpl Hsa1) as (Hm2 & Hl2 & EA2); [cbn [with_slabs sa_objsize]; lia|].
  erewrite bind_done by apply poison_run. set (m2 := pois o (size + 4) m1) in *.
  assert (Hsa2 : m_allocators m2 !! sa = Some (with_slabs al p)) by (by rewrite EA2).
  destruct (word_live m2 g1 sa (with_slabs al p) o o sa Hm2) as [Hm3 Hl3]; [by apply Hl2|done|unfold payload; cbn [with_slabs sa_objsize]; lia|].
  erewrite bind_done by reflexivity. set (m3 := up_words <[o := sa]> m2) in *.
  destruct (live_pos m1 g1 sa _ o Hm1 Hlo Hsa1) as [Ho1 Ho2]. cbn [with_slabs sa_objsize] in Ho2. unfold SIZEOF_REDZONE in *.
  assert (E4 : u32 (o + SIZEOF_PTR) = o + SIZEOF_PTR) by (unfold SIZEOF_PTR; apply u32_small; lia).
  exists (Some (o + SIZEOF_PTR)), m3, g1. split_and!; [by rewrite E4|done| |].
  { apply (buckets_ext m1); [done|done|]. intros sa1 al1 H1. exists (sa_slabs al1). change (m_allocators m3) with (m_allocators m2). rewrite EA2, H1. by destruct al1. }
  assert (Hw : m_words m3 !! o = Some sa) by apply lookup_insert_eq.
  cbn [kmalloc_post]. rewrite Z.add_simpl_r. split.
  - exists sa, (with_slabs al p). rewrite Z.add_simpl_r. split_and!; [done|done| | |].
    + by apply Hl3, Hl2.
    + by apply (plain_ext m1).
    + cbn [with_slabs sa_objsize]. unfold SIZEOF_PTR, SIZEOF_REDZONE. lia.
  - exists sa. split_and!; try done. intros sa1 o1. by rewrite Hl3, Hl2.
Qed.

Lemma kfree_run m g a size : mem_ok m g -> buckets_ok m -> kblock m g a size -> 0 <= size ->
  exists sa m' g', m_words m !! (a - SIZEOF_PTR) = Some sa /\ kfree a m = Done tt m' /\ mem_ok m' g' /\ buckets_ok m' /\
    (forall sa1 o1, live m' g' sa1 o1 <-> live m g sa1 o1 /\ (sa1, o1) <> (sa, a - SIZEOF_PTR)) /\
    m_pages m' = m_pages m.
Proof.
  intros Hm Hb (sa & al & Hw & Hsa & Hl & Hp & Hsz) H0. destruct (live_pos m g sa al _ Hm Hl Hsa) as [Ho1 Ho2].
  set (o := a - SIZEOF_PTR) in *. unfold SIZEOF_PTR, SIZEOF_REDZONE in *. exists sa.
  assert (E : u32 (a - SIZEOF_PTR) = o) by (unfold o, SIZEOF_PTR in *; apply u32_small; lia).
  destruct (mo_alloc _ _ Hm sa al Hsa) as [Hal _]. pose proof (ak_objsize _ Hal). pose proof (ak_fits _ Hal).
  pose proof (ak_nobjs _ Hal). pose proof (block_bytes_bound (sa_order al) (ak_order _ Hal)).
  assert (Es : s32 (sa_objsize al - SIZEOF_REDZONE * 2) = sa_objsize al - 8).
  { unfold SIZEOF_REDZONE. rewrite s32_small; [lia|]. unfold stride, SIZEOF_BUFCTL, SIZEOF_SLAB in *. nia. }
  destruct (pois_live m g sa al o (sa_objsize al - 8) Hm Hl Hp Hsa) as (Hm2 & Hl2 & EA2); [unfold SIZEOF_REDZONE; lia|].
  set (m2 := pois o (sa_objsize al - 8) m) in *.
  destruct (give_run m2 g sa o Hm2) as (m' & g' & Hrun & Hm' & Hl' & EP & EA & EK & _); [by apply Hl2|by apply (plain_ext m)|].
  exists m', g'. split_and!; try done.
  - unfold kfree. rewrite E. erewrite bind_done by (unfold get_word, deref; by rewrite Hw).
    erewrite bind_done by (unfold get_allocator, deref; by rewrite Hsa). rewrite Es. by erewrite bind_done by apply poison_run.
  - apply (buckets_ext m); [done|done|]. intros sa1 al1 Hal1. exists (sa_slabs al1). rewrite EA, EA2, Hal1. by destruct al1.
  - intros sa1 o1. by rewrite Hl', Hl2.
Qed.

(** ** Theorems *)

(** [kmalloc] returns a block of at least the bytes asked for, in an object
    that was not in use, and keeps the invariant; it fails only when the page
    allocator has no block for a slab of the bucket. *)
Theorem kmalloc_spec m g size : mem_ok m g -> buckets_ok m -> 0 <= size -> size + SIZEOF_PTR <= 2 ^ KMALLOC_SIZE_MAX_ORDER ->
  exists r m' g', kmalloc size m = Done r m' /\ mem_ok m' g' /\ buckets_ok m' /\ kmalloc_post m g size r m' g'.
Proof. apply kmalloc_run. Qed.

(** C22: [kfree] of what [kmalloc] returned puts the objects in use back to those
    there were before [kmalloc], whatever the user has written to the block in
    between. *)
Theorem kmalloc_kfree m g size a m1 W : mem_ok m g -> buckets_ok m -> 0 <= size -> size + SIZEOF_PTR <= 2 ^ KMALLOC_SIZE_MAX_ORDER ->
  kmalloc size m = Done (Some a) m1 -> (forall z, ~ (a <= z < a + size) -> W !! z = m_words m1 !! z) ->
  exists m2 g2, kfree a (up_words (fun _ => W) m1) = Done tt m2 /\ mem_ok m2 g2 /\ buckets_ok m2 /\
    forall sa o, live m2 g2 sa o <-> live m g sa o.
Proof.
  intros Hm Hb H0 Hmax Hrun HW.
  destruct (kmalloc_run m g size Hm Hb H0 Hmax) as (r & m0 & g1 & Hr & Hm1 & Hb1 & Hpost). rewrite Hrun in Hr. injection Hr as <- <-.
  destruct Hpost as [(sa1 & al & Hw1 & Hsa & Hl1 & Hp & Hsz) (sa & Hn & Hw & Hl)].
  rewrite Hw in Hw1. injection Hw1 as <-. unfold SIZEOF_PTR in *. set (m1' := up_words (fun _ => W) m1).
  destruct (write_live m1 m1' g1 sa al (a - 4) Hm1 Hl1 Hsa) as [Hm2 Hl2]; try done.
  { intros z Hz. split_and!; try done. apply HW. unfold payload in Hz. lia. }
  assert (Hw' : m_words m1' !! (a - 4) = Some sa) by (cbn [m1' up_words m_words]; rewrite HW by lia; done).
  destruct (kfree_run m1' g1 a size Hm2 Hb1) as (sa2 & m2 & g2 & Hw2 & Hfree & Hm3 & Hb3 & Hl3 & _); [|done|].
  { exists sa, al. split_and!; [done|done|by apply Hl2|done|unfold SIZEOF_PTR; lia]. }
  unfold SIZEOF_PTR in *. rewrite Hw' in Hw2. injection Hw2 as <-. exists m2, g2. split_and!; try done.
  intros sa1 o1. rewrite Hl3, Hl2, Hl. split.
  - intros [[?|[-> ->]] Hne]; [done|by destruct Hne].
  - intros H1. split; [by left|]. intros [= -> ->]. done.
Qed.
End Kmalloc.
