(* ===== verification/SlabBoot.v ===== *)
(** * Setting up the slab allocator

    [slab_init] establishes the invariant of [SlabSpec] and the buckets of
    [kmalloc]; [slab_allocator_create] keeps the invariant. *)

From Stdlib Require Import ZArith Lia.
From stdpp Require Import base list gmap.
From S2P Require Import Prelude Page PageSpec Slab SlabSpec SlabAlloc Kmalloc.

Module SlabBoot.
Import Slab PageSpec SlabSpec SlabAlloc Kmalloc.
Local Open Scope Z_scope.

(** ** A new allocator *)

(** The place of a new allocator: not in free memory, and in a slab only as an
    object in use. *)
Definition housed (m : mem) (g : ghost) (sa : Z) : Prop :=
  ~ free_at (m_pages m) sa /\
  forall sa' al' s x F, has_slab m g sa' al' s x F -> in_slab al' x sa ->
    exists j, Z.of_nat j < sa_slab_nobjs al' /\ j ∉ F /\
      obj_at al' (s_addr x) j <= sa < obj_at al' (s_addr x) j + sa_objsize al'.

Definition new_ghost (sa : Z) (g : ghost) : ghost := Ghost (<[sa := []]> (g_slabs g)) (g_free g).
Definition new_mem (sa : Z) (al : slab_allocator) (m : mem) : mem := up_list (Some sa) (up_allocators <[sa := al]> m).

Section NewAllocator.
Context (m : mem) (g : ghost) (sa : Z) (al : slab_allocator) (Hm : mem_ok m g) (Hsa : m_allocators m !! sa = None).
Context (Hal : al_ok al) (Hnone : sa_slabs al = None) (Hnext : sa_next al = slab_allocators m) (Hh : housed m g sa).

Lemma new_back sa1 al1 s x F : has_slab (new_mem sa al m) (new_ghost sa g) sa1 al1 s x F -> has_slab m g sa1 al1 s x F /\ sa1 <> sa.
Proof using All.
  intros (H1 & H2 & H3 & SL & H4 & H5). cbn [new_ghost g_slabs] in H4. destruct (decide (sa1 = sa)) as [->|Hne].
  { rewrite lookup_insert_eq in H4. injection H4 as <-. by apply elem_of_nil in H5. }
  rewrite lookup_insert_ne in H4 by done. cbn [new_mem up_list up_allocators m_allocators] in H1. rewrite lookup_insert_ne in H1 by done.
  split; [|done]. split_and!; [done|done|done|by exists SL].
Qed.

Lemma new_forth sa1 al1 s x F : has_slab m g sa1 al1 s x F -> has_slab (new_mem sa al m) (new_ghost sa g) sa1 al1 s x F.
Proof using All.
  intros (H1 & H2 & H3 & SL & H4 & H5). assert (sa1 <> sa) by congruence.
  split_and!; [|done|done|exists SL; split; [|done]].
  - cbn [new_mem up_list up_allocators m_allocators]. by rewrite lookup_insert_ne.
  - cbn [new_ghost g_slabs]. by rewrite lookup_insert_ne.
Qed.

Lemma new_live sa1 o : live (new_mem sa al m) (new_ghost sa g) sa1 o <-> live m g sa1 o.
Proof using All.
  split; intros (al1 & s & x & F & j & Hs & Hr); exists al1, s, x, F, j; (split; [|done]); [by apply new_back in Hs as [? _]|by apply new_forth].
Qed.

Lemma new_ok : mem_ok (new_mem sa al m) (new_ghost sa g).
Proof using All.
  split.
  - apply Hm.
  - intros sa1 al1 H1. cbn [new_mem up_list up_allocators m_allocators new_ghost g_slabs] in *. destruct (decide (sa1 = sa)) as [->|].
    + rewrite lookup_insert_eq in H1. injection H1 as <-. split; [done|]. exists []. rewrite lookup_insert_eq.
      split_and!; [done|constructor|done].
    + rewrite lookup_insert_ne in H1 by done. rewrite lookup_insert_ne by done. by apply (mo_alloc _ _ Hm).
  - intros sa1 al1 s H1 (SL & HSL & Hin). cbn [new_mem up_list up_allocators m_allocators new_ghost g_slabs] in *.
    destruct (decide (sa1 = sa)) as [->|]; [rewrite lookup_insert_eq in HSL; injection HSL as <-; by apply elem_of_nil in Hin|].
    rewrite lookup_insert_ne in H1 by done. rewrite lookup_insert_ne in HSL by done. destruct (mo_slab _ _ Hm sa1 al1 s H1 ltac:(by exists SL)) as (x & F & Hok).
    exists x, F. destruct Hok. by split.
  - intros sa1 SL H1. cbn [new_mem up_list up_allocators m_allocators new_ghost g_slabs] in *.
    destruct (decide (sa1 = sa)) as [->|]; [rewrite lookup_insert_eq; by eexists|].
    rewrite lookup_insert_ne in H1 by done. rewrite lookup_insert_ne by done. by apply (mo_dom _ _ Hm _ SL).
  - intros sa1 al1 s1 x1 F1 sa2 al2 s2 x2 F2 [H1 _]%new_back [H2 _]%new_back. by apply (mo_apart _ _ Hm sa1 al1 s1 x1 F1 sa2 al2 s2 x2 F2).
  - intros sa1 al1 H1. cbn [new_mem up_list up_allocators m_allocators] in H1. destruct (decide (sa1 = sa)) as [->|].
    + destruct Hh as [Hf Hin]. split; [done|]. intros sa2 al2 s x F [Hs _]%new_back. by apply (Hin sa2 al2 s x F).
    + rewrite lookup_insert_ne in H1 by done. destruct (mo_housed _ _ Hm sa1 al1 H1) as [Hf Hin]. split; [done|].
      intros sa2 al2 s x F [Hs _]%new_back. by apply (Hin sa2 al2 s x F).
  - destruct (mo_chain _ _ Hm) as (AL & Hnd & Hl). exists (sa :: AL).
    assert (Hni : sa ∉ AL) by (intros Hin; destruct (alloc_list_in _ _ _ Hl sa Hin); congruence).
    split; [by constructor|]. split; [done|]. exists al. cbn [new_mem up_list up_allocators m_allocators]. rewrite lookup_insert_eq.
    split; [done|]. rewrite Hnext. revert Hl Hni. generalize (slab_allocators m). clear Hnd Hnext. induction AL as [|a AL IH]; intros q Hl Hni; [done|].
    apply not_elem_of_cons in Hni as [Hne Hni]. destruct Hl as [-> (y & Hy & Hl)]. split; [done|]. exists y. rewrite lookup_insert_ne by done.
    split; [done|]. by apply IH.
Qed.
End NewAllocator.

Lemma init_run m g sa name size : mem_ok m g -> m_allocators m !! sa = None -> housed m g sa -> 0 <= size -> size + 32 <= 2 ^ 19 ->
  exists al, _allocator_init sa name size m = Done tt (new_mem sa al m) /\ mem_ok (new_mem sa al m) (new_ghost sa g) /\
    sa_objsize al = size + 2 * SIZEOF_REDZONE /\
    (forall sa1 o, live (new_mem sa al m) (new_ghost sa g) sa1 o <-> live m g sa1 o) /\
    block_bytes (sa_order al) < (sa_slab_nobjs al + 1) * stride al + SIZEOF_SLAB /\
    (forall o, 0 <= o < sa_order al -> block_bytes o < stride al + SIZEOF_SLAB \/ waste (sa_objsize al) (sa_order al) < waste (sa_objsize al) o).
Proof.
  intros Hm Hsa Hh H0 Hmax.
  set (al0 := MkAllocator None name (u32 (size + 2 * SIZEOF_REDZONE)) None 0 0). set (m0 := up_allocators <[sa := al0]> m).
  assert (E8 : sa_objsize al0 = size + 8) by (cbn [al0 sa_objsize]; unfold SIZEOF_REDZONE; apply u32_small; lia).
  destruct (calc_run m0 sa al0 (lookup_insert_eq _ _ _) ltac:(lia) ltac:(lia)) as (al1 & mo & Hrun & E1 & Hmo & Hord & Hn & Hfit & Hmin & _ & Hfirst).
  set (al := MkAllocator (slab_allocators m) (sa_name al1) (sa_objsize al1) (sa_slabs al1) (sa_order al1) (sa_slab_nobjs al1)).
  assert (Eo : sa_objsize al = size + 8) by (cbn [al sa_objsize]; by rewrite E1, <- E8).
  assert (Est : stride al = stride al0) by (unfold stride; lia).
  assert (Eal : al_ok al).
  { split; [lia|cbn [al sa_order]; lia|done|]. rewrite Est. cbn [al sa_slab_nobjs sa_order]. lia. }
  assert (Esl : sa_slabs al = None) by (cbn [al sa_slabs]; by rewrite E1).
  exists al. split_and!.
  - unfold _allocator_init. erewrite bind_done by reflexivity. fold al0.
    krun Hrun.
    assert (Hg : get_allocator sa (up_allocators <[sa := al1]> m0) = Done al1 (up_allocators <[sa := al1]> m0))
      by (unfold get_allocator, deref; cbn [up_allocators m_allocators]; by rewrite lookup_insert_eq).
    krun Hg. erewrite bind_done by reflexivity. cbn [up_allocators slab_allocators m0]. fold al.
    erewrite bind_done by reflexivity. unfold modify, new_mem, up_list, up_allocators. cbn. by rewrite !insert_insert_eq.
  - by apply new_ok.
  - by rewrite Eo.
  - intros sa1 o. by apply new_live.
  - rewrite Est. cbn [al sa_order sa_slab_nobjs]. lia.
  - intros o Ho. rewrite Est, Eo, <- E8. cbn [al sa_order] in *. destruct (decide (o < mo)); [left; apply Hmin; lia|right; apply Hfirst; lia].
Qed.

(** ** Objects from a slab that has one *)

(** With a free object in one of its slabs the allocator does not grow. *)
Lemma find_hit m g sa al s0 x0 j0 F0 fuel : mem_ok m g -> has_slab m g sa al s0 x0 (j0 :: F0) ->
  exists s x j F, find_or_grow (S fuel) sa m = Done (Some s) m /\ has_slab m g sa al s x (j :: F).
Proof.
  intros Hm Hs0. pose proof Hs0 as (Hsa & Hx0 & HF0 & SL0 & HSL0 & Hin0). cbn [find_or_grow].
  erewrite bind_done by (unfold get_allocator, deref; by rewrite Hsa). erewrite bind_done by reflexivity.
  destruct (find_run m g sa al Hm Hsa) as (r & SL & Hr & HSL & Hp). krun Hr. destruct r as [s|].
  - destruct Hp as (x & j & F & Hx & Hlt & Hs). exists s, x, j, F. split; [|done]. rewrite bind_assoc.
    erewrite bind_done by (unfold get_slab, deref; by rewrite Hx). erewrite bind_done by reflexivity. by rewrite (proj2 (Z.ltb_lt _ _)).
  - exfalso. rewrite HSL0 in HSL. injection HSL as <-. specialize (Hp s0 x0 Hin0 Hx0).
    destruct (has_slab_ok _ _ _ _ _ _ _ Hm Hs0) as [_ Hok]. pose proof (so_inuse _ _ _ _ _ _ Hok) as Hi. cbn [length] in Hi. lia.
Qed.

(** Allocator [sa] can give [n] objects without growing. *)
Definition room (m : mem) (g : ghost) (sa : Z) (n : nat) : Prop :=
  exists al s x F, has_slab m g sa al s x F /\ (n <= length F)%nat.

(** The object taken is a place for an allocator. *)
Lemma taken_housed m g sa al s x F j : mem_ok m g -> has_slab m g sa al s x F -> Z.of_nat j < sa_slab_nobjs al -> j ∉ F ->
  housed m g (obj_at al (s_addr x) j + SIZEOF_REDZONE).
Proof.
  intros Hm Hs Hj Hn. destruct (has_slab_ok _ _ _ _ _ _ _ Hm Hs) as [Hal Hok]. pose proof (ak_objsize _ Hal).
  pose proof (obj_at_bounds al (s_addr x) j Hal Hj) as Hb. set (o := obj_at al (s_addr x) j + SIZEOF_REDZONE).
  assert (Hin : in_slab al x o) by (unfold o, in_slab, SIZEOF_REDZONE, SIZEOF_SLAB, SIZEOF_BUFCTL in *; lia). split.
  - destruct (so_pages _ _ _ _ _ _ Hok) as (i & gr & c & _ & _ & _ & Hf). apply Hf. by apply in_slab_block.
  - intros sa1 al1 s1 x1 F1 Hs1 Hin1. destruct (decide ((sa, s) = (sa1, s1))) as [[= <- <-]|Hne].
    + destruct Hs as (? & ? & ? & _), Hs1 as (? & ? & ? & _). simplify_eq. exists j. split_and!; try done; unfold o, SIZEOF_REDZONE; lia.
    + destruct (mo_apart _ _ Hm _ _ _ _ _ _ _ _ _ _ Hs Hs1 Hne o Hin Hin1).
Qed.

(** What is left of [slab_obj_alloc] once a slab is found. *)
Lemma obj_take_run m g sa al s x j F n : mem_ok m g -> has_slab m g sa al s x (j :: F) -> room m g sa (S n) ->
  exists m' g' o, take_obj sa s m = Done (Some o) m' /\ mem_ok m' g' /\ room m' g' sa n /\
    m_allocators m' = m_allocators m /\ kmalloc_allocators m' = kmalloc_allocators m /\
    m_allocators m' !! o = None /\ housed m' g' o.
Proof.
  intros Hm Hs (al0 & s0 & x0 & F0 & Hs0 & Hlen). destruct (has_slab_ok _ _ _ _ _ _ _ Hm Hs) as [Hal Hok].
  destruct (take_obj_run m g sa al s x F j Hm Hs) as (m' & Hrun & Hm' & b & E).
  pose proof (so_nodup _ _ _ _ _ _ Hok) as [Hni _]%NoDup_cons.
  assert (Hj : Z.of_nat j < sa_slab_nobjs al) by (apply (so_range _ _ _ _ _ _ Hok); left).
  set (x' := MkSlab (s_next x) (s32 (s_inuse x + 1)) (sb_u b) (s_addr x)) in *. set (o := obj_at al (s_addr x) j + SIZEOF_REDZONE).
  pose proof Hs as (Hsa & Hx & HF & SL & HSL & Hin).
  assert (Hs' : has_slab m' (step_ghost s F g) sa al s x' F) by (subst m'; split_and!; [done|apply lookup_insert_eq|apply lookup_insert_eq|by exists SL]).
  exists m', (step_ghost s F g), o. split_and!; try done; try (by subst m').
  - destruct (decide (s0 = s)) as [->|Hne].
    + exists al, s, x', F. split; [done|]. destruct Hs0 as (_ & _ & HF0 & _). rewrite HF in HF0. injection HF0 as <-. cbn [length] in Hlen. lia.
    + exists al0, s0, x0, F0. split; [|lia]. destruct Hs0 as (? & ? & ? & SL0 & ? & ?). subst m'.
      split_and!; [done| | |by exists SL0]; cbn [step_mem step_ghost up_slabs m_slabs g_free]; by rewrite lookup_insert_ne.
  - subst m'. change (m_allocators m !! o = None). destruct (m_allocators m !! o) as [al1|] eqn:Ho; [exfalso|done].
    destruct (mo_housed _ _ Hm o al1 Ho) as [_ Hh]. pose proof (ak_objsize _ Hal). pose proof (obj_at_bounds al (s_addr x) j Hal Hj) as Hb.
    destruct (Hh _ _ _ _ _ Hs) as (i & Hi & Hn & Hin').
    { unfold o, in_slab, SIZEOF_REDZONE, SIZEOF_SLAB, SIZEOF_BUFCTL in *. lia. }
    apply Hn. assert (i = j) as ->; [|left]. pose proof (stride_pos _ Hal). unfold o, obj_at, stride, SIZEOF_BUFCTL, SIZEOF_REDZONE in *. nia.
  - change (s_addr x) with (s_addr x') in o. by apply (taken_housed m' (step_ghost s F g) sa al s x' F j).
Qed.

(** [sa] can give [n] objects: it has them, or it has no slab yet and there is a
    block for a slab of that many. *)
Definition ready (m : mem) (g : ghost) (sa : Z) (n : nat) : Prop :=
  room m g sa n \/
  exists al, m_allocators m !! sa = Some al /\ g_slabs g !! sa = Some [] /\ Z.of_nat n <= sa_slab_nobjs al /\
    ~ free_at (m_pages m) 0 /\ ~ no_block (m_pages m) (Z.to_nat (sa_order al)).

Definition kept (m m' : mem) : Prop :=
  kmalloc_allocators m' = kmalloc_allocators m /\
  forall sa al, m_allocators m !! sa = Some al -> exists p, m_allocators m' !! sa = Some (with_slabs al p).

Lemma room_hit m g sa n fuel : mem_ok m g -> room m g sa (S n) ->
  exists s m' g' o, find_or_grow (S fuel) sa m = Done (Some s) m /\ take_obj sa s m = Done (Some o) m' /\ mem_ok m' g' /\ room m' g' sa n /\
    m_allocators m' = m_allocators m /\ kmalloc_allocators m' = kmalloc_allocators m /\ m_allocators m' !! o = None /\ housed m' g' o.
Proof.
  intros Hm Hr. pose proof Hr as (al0 & s0 & x0 & [|j0 F0] & Hs0 & Hlen); [cbn [length] in Hlen; lia|].
  destruct (find_hit m g sa al0 s0 x0 j0 F0 fuel Hm Hs0) as (s & x & j & F & Hf & Hs).
  destruct (obj_take_run m g sa al0 s x j F n Hm Hs Hr) as (m' & g' & o & H). by exists s, m', g', o.
Qed.

Lemma obj_run m g sa n : mem_ok m g -> ready m g sa (S n) ->
  exists o m' g', slab_obj_alloc sa m = Done (Some o) m' /\ mem_ok m' g' /\ room m' g' sa n /\ kept m m' /\
    m_allocators m' !! o = None /\ housed m' g' o.
Proof.
  intros Hm [Hr|(al & Hsa & HSL & Hn & H0 & Hblk)]; unfold slab_obj_alloc; erewrite bind_done by reflexivity.
  - destruct (room_hit m g sa n (S (Z.to_nat (Page.page_freecount (m_pages m)))) Hm Hr) as (s & m' & g' & o & Hf & Ht & Hm' & Hr' & EA & EK & Ho & Hh).
    exists o, m', g'. krun Hf. split_and!; try done. split; [done|]. intros sa1 al1 H1. exists (sa_slabs al1). rewrite EA, H1. by destruct al1.
  - destruct (grow_run m g sa al [] Hm Hsa HSL) as (b & m1 & g1 & Hg & Hm1 & Hs1 & Hb). destruct b; [|by destruct Hb].
    destruct Hb as (s1 & p & x1 & Hsa1 & HSL1 & Hx1 & Hi).
    destruct (mo_slab _ _ Hm1 sa _ s1 Hsa1 ltac:(exists [s1]; split; [done|left])) as (x & F & Hok).
    pose proof (so_slab _ _ _ _ _ _ Hok) as E. rewrite Hx1 in E. injection E as <-.
    assert (Hr : room m1 g1 sa (S n)).
    { exists (with_slabs al p), s1, x1, F. split; [apply (ok_has_slab m1 g1 sa _ s1 x1 F [s1]); try done; left|].
      pose proof (so_inuse _ _ _ _ _ _ Hok) as E. rewrite Hi in E. cbn [with_slabs sa_slab_nobjs] in E. lia. }
    destruct (room_hit m1 g1 sa n (Z.to_nat (Page.page_freecount (m_pages m))) Hm1 Hr) as (s & m' & g' & o & Hf & Ht & Hm' & Hr' & EA & EK & Ho & Hh).
    assert (Hf0 : find_or_grow (S (S (Z.to_nat (Page.page_freecount (m_pages m))))) sa m = Done (Some s) m1).
    { cbn [find_or_grow]. erewrite bind_done by (unfold get_allocator, deref; by rewrite Hsa). erewrite bind_done by reflexivity.
      assert (Hnone : sa_slabs al = None).
      { destruct (mo_alloc _ _ Hm sa al Hsa) as [_ (SL & HSL' & _ & Hl)]. rewrite HSL in HSL'. injection HSL' as <-. done. }
      rewrite Hnone. erewrite bind_done by reflexivity. erewrite bind_done by reflexivity. cbn beta iota. krun Hg. exact Hf. }
    exists o, m', g'. krun Hf0. split_and!; try done. split; [rewrite EK; apply Hs1|].
    intros sa1 al1 H1. rewrite EA. by apply (sl_alloc _ _ _ _ Hs1).
Qed.

(** ** The buckets *)

(** The first [i] buckets are there. *)
Definition filled (m : mem) (i : nat) : Prop :=
  forall k : nat, (k < i)%nat -> exists sa al, kmalloc_allocators m !! k = Some (Some sa) /\
    m_allocators m !! sa = Some al /\ sa_objsize al = 2 ^ (KMALLOC_SIZE_MIN_ORDER + Z.of_nat k) + 2 * SIZEOF_REDZONE.

Section Boot.
Context (slab_allocator_allocator slab_name : Z) (kmalloc_names : nat -> Z).
Abbreviation saa := slab_allocator_allocator.

Lemma allocator_create_run m g name size n : mem_ok m g -> ready m g saa (S n) -> 0 <= size -> size + 32 <= 2 ^ 19 ->
  exists sa al m' g', slab_allocator_create saa name size m = Done (Some sa) m' /\ mem_ok m' g' /\ room m' g' saa n /\ kept m m' /\
    m_allocators m' !! sa = Some al /\ sa_objsize al = size + 2 * SIZEOF_REDZONE.
Proof.
  intros Hm Hr H0 Hmax. destruct (obj_run m g saa n Hm Hr) as (o & m1 & g1 & Hrun & Hm1 & Hr1 & [EK HA] & Ho & Hh).
  destruct (init_run m1 g1 o name size Hm1 Ho Hh H0 Hmax) as (al & Hinit & Hm2 & Hsz & _).
  exists o, al, (new_mem o al m1), (new_ghost o g1). split_and!; try done.
  - unfold slab_allocator_create. krun Hrun. by krun Hinit.
  - destruct Hr1 as (al0 & s & x & F & Hs & Hlen). exists al0, s, x, F. split; [|done].
    destruct Hs as (H1 & H2 & H3 & SL & H4 & H5). assert (saa <> o) by congruence. split_and!; [|done|done|exists SL; split; [|done]].
    + cbn [new_mem up_list up_allocators m_allocators]. by rewrite lookup_insert_ne.
    + assert (o <> saa) by congruence. cbn [new_ghost g_slabs]. by rewrite lookup_insert_ne.
  - split; [done|]. intros sa1 al1 H1. destruct (HA sa1 al1 H1) as (p & Hp). exists p.
    cbn [new_mem up_list up_allocators m_allocators]. rewrite lookup_insert_ne; [done|congruence].
  - cbn [new_mem up_list up_allocators m_allocators]. apply lookup_insert_eq.
Qed.

Lemma filled_step m m' i sa al : filled m i -> kept m m' -> (i < length (kmalloc_allocators m))%nat ->
  m_allocators m' !! sa = Some al -> sa_objsize al = 2 ^ (KMALLOC_SIZE_MIN_ORDER + Z.of_nat i) + 2 * SIZEOF_REDZONE ->
  filled (up_kmalloc <[i := Some sa]> m') (S i).
Proof.
  intros Hf [EK HA] Hi Hsa Hsz k Hk. cbn [up_kmalloc kmalloc_allocators m_allocators]. destruct (decide (k = i)) as [->|].
  - exists sa, al. rewrite list_lookup_insert_eq by (by rewrite EK). done.
  - destruct (Hf k ltac:(lia)) as (sa1 & al1 & H1 & H2 & H3). destruct (HA sa1 al1 H2) as (p & Hp). exists sa1, (with_slabs al1 p).
    rewrite list_lookup_insert_ne by done. by rewrite EK.
Qed.

Lemma kmalloc_ok f m g : mem_ok m g -> mem_ok (up_kmalloc f m) g.
Proof. intros []. split; try done. intros sa al s H1 H2. destruct (mo_slab0 sa al s H1 H2) as (x & F & []). by exists x, F. Qed.

Lemma create_buckets_run n : forall m g i, mem_ok m g -> ready m g saa n -> length (kmalloc_allocators m) = 13%nat -> (i + n = 13)%nat -> filled m i ->
  exists m' g', create_buckets saa kmalloc_names i n m = Done tt m' /\ mem_ok m' g' /\ buckets_ok m'.
Proof.
  induction n as [|n IH]; intros m g i Hm Hr Hlen Hi Hf; cbn [create_buckets].
  { exists m, g. split_and!; [done|done|]. assert (i = 13%nat) as -> by lia. exact Hf. }
  assert (Hsz : 2 ^ (KMALLOC_SIZE_MIN_ORDER + Z.of_nat i) <= 2 ^ 18) by (apply Z.pow_le_mono_r; unfold KMALLOC_SIZE_MIN_ORDER; lia).
  pose proof (Z.pow_nonneg 2 (KMALLOC_SIZE_MIN_ORDER + Z.of_nat i) ltac:(lia)).
  destruct (allocator_create_run m g (kmalloc_names i) (2 ^ (KMALLOC_SIZE_MIN_ORDER + Z.of_nat i)) n Hm Hr ltac:(lia) ltac:(lia))
    as (sa & al & m1 & g1 & Hrun & Hm1 & Hr1 & Hk & Hsa & Ho).
  krun Hrun. erewrite bind_done by reflexivity. erewrite bind_done by reflexivity.
  apply (IH (up_kmalloc <[i := Some sa]> m1) g1); [by apply kmalloc_ok|by left| |lia|].
  - cbn [up_kmalloc kmalloc_allocators]. by rewrite length_insert, (proj1 Hk).
  - apply (filled_step m m1 i sa al); try done. lia.
Qed.

(** *** [slab_init] *)

(** The state [slab_init] starts from: only the page allocator is set up. *)
Definition boot_mem (p : Page.pstate) : mem := Mem ∅ ∅ ∅ ∅ p None (replicate 13 None).

Lemma boot_ok p : pages_ok p -> mem_ok (boot_mem p) (Ghost ∅ ∅).
Proof.
  intros Hp. split; cbn [boot_mem m_pages m_allocators g_slabs slab_allocators]; try (intros *; rewrite lookup_empty; done); [done| |].
  - intros sa al s x F sa' al' s' x' F' (H1 & _). cbn [boot_mem m_allocators] in H1. by rewrite lookup_empty in H1.
  - exists []. split; [constructor|done].
Qed.

Lemma slab_init_run p : pages_ok p -> ~ free_at p saa -> ~ free_at p 0 -> ~ no_block p 0 ->
  exists m' g', slab_init saa slab_name kmalloc_names (boot_mem p) = Done tt m' /\ mem_ok m' g' /\ buckets_ok m'.
Proof using Type.
  intros Hp Hs H0 Hblk. pose proof (boot_ok p Hp) as Hm.
  destruct (init_run (boot_mem p) (Ghost ∅ ∅) saa slab_name SIZEOF_ALLOCATOR Hm) as (al & Hinit & Hm1 & Hsz & _ & Hfit & Hfirst);
    [apply lookup_empty| |done|unfold SIZEOF_ALLOCATOR; lia|].
  { split; [done|]. intros sa al s x F (H1 & _). cbn [boot_mem m_allocators] in H1. by rewrite lookup_empty in H1. }
  unfold SIZEOF_ALLOCATOR, SIZEOF_REDZONE in Hsz. change (24 + 2 * 4) with 32 in Hsz. set (m1 := new_mem saa al (boot_mem p)) in *.
  assert (Hsa : m_allocators m1 !! saa = Some al) by apply lookup_insert_eq.
  destruct (mo_alloc _ _ Hm1 saa al Hsa) as [Hal _]. pose proof (ak_order _ Hal) as Ho.
  assert (Hst : stride al = 40) by (unfold stride, SIZEOF_BUFCTL; lia).
  assert (E0 : sa_order al = 0).
  { destruct (decide (sa_order al = 0)) as [|Hne]; [done|]. destruct (Hfirst 0 ltac:(lia)) as [Hb|Hw].
    - rewrite Hst in Hb. done.
    - rewrite Hsz in Hw. change (waste 32 0) with 0 in Hw. unfold waste in Hw.
      pose proof (Z.mod_pos_bound (block_bytes (sa_order al) - SIZEOF_SLAB) (32 + SIZEOF_BUFCTL) ltac:(done)). lia. }
  rewrite E0, Hst in Hfit. change (block_bytes 0) with 4096 in Hfit. unfold SIZEOF_SLAB in Hfit.
  destruct (create_buckets_run 13 m1 (new_ghost saa (Ghost ∅ ∅)) 0 Hm1) as (m' & g' & Hrun & Hm' & Hb); [|done|done|intros k Hk; lia|].
  - right. exists al. split_and!; [done|apply lookup_insert_eq|lia|done|by rewrite E0].
  - exists m', g'. split_and!; [|done|done]. unfold slab_init. krun Hinit. exact Hrun.
Qed.

(** [slab_init], with a free page and the static allocator outside free
    memory, completes, establishes the invariant and sets up the buckets of
    [kmalloc]. *)
Theorem slab_init_spec p : pages_ok p -> ~ free_at p saa -> ~ free_at p 0 -> ~ no_block p 0 ->
  exists m' g', slab_init saa slab_name kmalloc_names (boot_mem p) = Done tt m' /\ mem_ok m' g' /\ buckets_ok m'.
Proof using Type. apply slab_init_run. Qed.
End Boot.
End SlabBoot.
