(* ===== verification/SlabDemo.v ===== *)
(** * The slab allocator at work

    [slab_init] on 128 pages from 1 MB on, and the theorems of [Kmalloc] applied
    to the state it leaves. *)

From Stdlib Require Import ZArith Lia.
From stdpp Require Import base list gmap.
From S2P Require Import Prelude Page PageSpec PageDemo Slab SlabSpec SlabAlloc Kmalloc SlabBoot.

Module SlabDemo.
Import Page Slab PageSpec SlabSpec SlabAlloc Kmalloc SlabBoot.
Local Open Scope Z_scope.

Definition base : Z := 0x100000.
Definition ram : Page.pstate := Eval vm_compute in PageDemo.run_or (Page.page_add_range base (base + 129 * 4096)) PageDemo.empty.

Lemma ram_ok : pages_ok ram /\ forall x, free_at ram x <-> base <= x < base + 128 * 4096.
Proof.
  destruct (page_add_range_run PageDemo.empty base (base + 129 * 4096) 1 PageDemo.empty_ok ltac:(done) ltac:(done) ltac:(done)
    ltac:(intros h Hh; by apply elem_of_nil in Hh) ltac:(vm_compute; reflexivity)) as (s' & Hrun & Hok & Hf & _).
  assert (s' = ram) as -> by (vm_compute in Hrun; injection Hrun as <-; reflexivity). split; [done|].
  assert (Eu : usable_end (PAGE_ALIGN_DOWN base) (PAGE_ALIGN_DOWN (base + 129 * 4096)) = base + 128 * 4096) by (vm_compute; reflexivity).
  assert (Ed : PAGE_ALIGN_DOWN base = base) by (vm_compute; reflexivity).
  intros x. rewrite Hf, Eu, Ed. split; [intros [H|H]; [exfalso|exact H]|intros H; right; exact H].
  destruct H as (h & Hh & _). apply elem_of_nil in Hh. exact Hh.
Qed.

Lemma ram_block : ~ no_block ram 0.
Proof.
  intros H. destruct (Page.pagegroup_list ram) as [|h l] eqn:E; [done|].
  specialize (H h 7%nat ltac:(rewrite E; left) ltac:(lia)). revert E H. vm_compute. intros [= <- _]. done.
Qed.

(** The state after [slab_init], with the static allocator at 0x1000. *)
Definition saa : Z := 0x1000.
Definition booted : mem := match slab_init saa 1 (fun _ => 2) (boot_mem ram) with Done _ m => m | _ => boot_mem ram end.

Lemma slab_init_spec_witness :
  slab_init saa 1 (fun _ => 2) (boot_mem ram) = Done tt booted /\ exists g, mem_ok booted g /\ buckets_ok booted.
Proof.
  destruct ram_ok as [Hok Hf].
  destruct (slab_init_spec saa 1 (fun _ => 2) ram Hok) as (m' & g' & Hrun & Hm & Hb);
    [rewrite Hf; unfold saa, base; lia|rewrite Hf; unfold base; lia|exact ram_block|].
  unfold booted. rewrite Hrun. exact (conj eq_refl (ex_intro _ g' (conj Hm Hb))).
Defined.

Lemma booted_ok : exists g, mem_ok booted g /\ buckets_ok booted.
Proof.
  destruct ram_ok as [Hok Hf].
  destruct (slab_init_run saa 1 (fun _ => 2) ram Hok) as (m' & g' & Hrun & Hm & Hb);
    [rewrite Hf; unfold saa, base; lia|rewrite Hf; unfold base; lia|exact ram_block|].
  unfold booted. rewrite Hrun. exact (ex_intro _ g' (conj Hm Hb)).
Qed.

#[local] Opaque booted.

(** The allocator of the first bucket. *)
Definition sa0 : Z := 1568772.
Definition al0 : slab_allocator := MkAllocator (Some 4096) 2 72 None 0 51.
Lemma sa0_al0 : m_allocators booted !! sa0 = Some al0.
Proof. vm_compute. reflexivity. Qed.

(** The value and the state of a run. *)
Definition val {A} (r : outcome mem (option A)) : option A := match r with Done v _ => v | _ => None end.
Definition after {A} (r : outcome mem A) : mem := match r with Done _ m => m | _ => booted end.

Lemma done_inj {A} (r : outcome mem A) v m v' m' : r = Done v m -> r = Done v' m' -> v' = v /\ m' = m.
Proof. intros -> [= <- <-]. done. Qed.

Definition obj1 : Z := 1564676.
Definition taken1 : mem := after (slab_obj_alloc sa0 booted).
Lemma obj1_run : val (slab_obj_alloc sa0 booted) = Some obj1.
Proof. vm_compute. reflexivity. Qed.

Lemma slab_obj_alloc_spec_witness : exists g g', mem_ok booted g /\ slab_obj_alloc sa0 booted = Done (Some obj1) taken1 /\ mem_ok taken1 g' /\
  forall sa1 o1, live taken1 g' sa1 o1 <-> live booted g sa1 o1 \/ (sa1 = sa0 /\ o1 = obj1).
Proof.
  destruct booted_ok as (g & Hm & _).
  destruct (slab_obj_alloc_spec booted g sa0 al0 Hm sa0_al0) as (r & m' & g' & Hrun & Hm' & Hp).
  pose proof obj1_run as E. rewrite Hrun in E. unfold taken1. rewrite Hrun. cbn [val after] in *. subst r.
  exact (ex_intro _ g (ex_intro _ g' (conj Hm (conj eq_refl (conj Hm' (proj1 (proj2 Hp))))))).
Defined.

Lemma taken1_ok : exists g, mem_ok taken1 g /\ live taken1 g sa0 obj1 /\ plain taken1 sa0 obj1 /\
  exists p, m_allocators taken1 !! sa0 = Some (with_slabs al0 p).
Proof.
  destruct booted_ok as (g & Hm & _). destruct (alloc_plain booted g sa0 al0 Hm sa0_al0) as (r & m' & g' & Hrun & Hm' & HA & _ & _ & Hp).
  pose proof obj1_run as E. unfold taken1. rewrite Hrun in *. cbn [val after] in *. subst r. destruct Hp as (_ & Hl & Hp).
  exact (ex_intro _ g' (conj Hm' (conj (proj2 (Hl sa0 obj1) (or_intror (conj eq_refl eq_refl))) (conj Hp (HA sa0 al0 sa0_al0))))).
Qed.

Lemma slab_obj_free_spec_witness : exists m' g', slab_obj_free sa0 obj1 taken1 = Done tt m' /\ mem_ok m' g' /\ slab_obj_free sa0 obj1 m' = Panic.
Proof.
  destruct taken1_ok as (g & Hm & Hl & Hp & _). destruct (slab_obj_free_spec taken1 g sa0 obj1 Hm Hl Hp) as (m' & g' & H1 & H2 & _ & H3).
  exact (ex_intro _ m' (ex_intro _ g' (conj H1 (conj H2 H3)))).
Defined.

Definition obj2 : Z := 1564756.
Definition taken2 : mem := after (slab_obj_alloc sa0 taken1).
Lemma obj2_run : val (slab_obj_alloc sa0 taken1) = Some obj2.
Proof. vm_compute. reflexivity. Qed.

Lemma taken_run : rtc slab_call (booted, []) (taken2, [(sa0, obj2); (sa0, obj1)]).
Proof.
  destruct taken1_ok as (g & Hm & _ & _ & p & Hsa). destruct booted_ok as (g0 & Hm0 & _).
  destruct (alloc_plain booted g0 sa0 al0 Hm0 sa0_al0) as (r1 & m1 & g1 & E1 & _).
  destruct (alloc_plain taken1 g sa0 _ Hm Hsa) as (r2 & m2 & g2 & E2 & _).
  pose proof obj1_run as V1. rewrite E1 in V1. cbn [val] in V1. subst r1. pose proof obj2_run as V2. rewrite E2 in V2. cbn [val] in V2. subst r2.
  assert (m1 = taken1) as -> by (unfold taken1; rewrite E1; reflexivity). assert (m2 = taken2) as -> by (unfold taken2; rewrite E2; reflexivity).
  eapply rtc_l; [exact (CallAlloc booted [] sa0 al0 obj1 taken1 sa0_al0 E1)|]. apply rtc_once. exact (CallAlloc taken1 _ sa0 _ obj2 taken2 Hsa E2).
Qed.

Lemma slab_objs_apart_witness : exists al, m_allocators taken2 !! sa0 = Some al /\
  payload al obj1 (obj1 + 63) /\ ~ payload al obj2 (obj1 + 63) /\ ~ free_at (m_pages taken2) (obj1 + 63).
Proof.
  destruct booted_ok as (g0 & Hm0 & _). destruct taken1_ok as (g & Hm & _ & _ & p & Hsa).
  destruct (alloc_plain taken1 g sa0 _ Hm Hsa) as (r & m' & g' & Hrun & _ & HA & _). destruct (HA _ _ Hsa) as (q & Hsa').
  assert (m' = taken2) as -> by (unfold taken2; rewrite Hrun; reflexivity). set (al := with_slabs (with_slabs al0 p) q) in *.
  assert (Hz : payload al obj1 (obj1 + 63)) by (unfold payload, obj1, SIZEOF_REDZONE; cbn; lia).
  exact (ex_intro _ al (conj Hsa' (conj Hz
    (slab_objs_apart booted g0 taken2 _ 1 0 sa0 obj1 sa0 obj2 al al (obj1 + 63) Hm0 taken_run eq_refl eq_refl ltac:(lia) Hsa' Hsa' Hz)))).
Defined.

Lemma slab_allocators_reclaim_spec_witness : exists n m' g', slab_allocators_reclaim 0 taken1 = Done n m' /\ mem_ok m' g' /\
  Page.page_freecount (m_pages m') = u32 (Page.page_freecount (m_pages taken1) + n).
Proof.
  destruct taken1_ok as (g & Hm & _). destruct (slab_allocators_reclaim_spec taken1 g 0 Hm) as (n & m' & g' & H1 & H2 & _ & H3 & _).
  exact (ex_intro _ n (ex_intro _ m' (ex_intro _ g' (conj H1 (conj H2 H3))))).
Defined.

Lemma calc_slab_size_optimal_witness : exists al', _calc_slab_size sa0 booted = Done tt (up_allocators <[sa0 := al']> booted) /\ sa_order al' < 8.
Proof.
  destruct (calc_slab_size_optimal booted sa0 al0 sa0_al0 ltac:(done) ltac:(done)) as (al' & mo & H1 & _ & H2 & _).
  exact (ex_intro _ al' (conj H1 H2)).
Defined.

Definition blk1 : Z := 1441800.
Definition given : mem := after (kmalloc 100 booted).
Lemma blk1_run : kmalloc 100 booted = Done (Some blk1) given.
Proof.
  assert (E : val (kmalloc 100 booted) = Some blk1) by (vm_compute; reflexivity).
  unfold given. destruct (kmalloc 100 booted); [|done..]. cbn in *. by subst.
Qed.

Lemma kmalloc_spec_witness : exists g g', mem_ok booted g /\ kmalloc 100 booted = Done (Some blk1) given /\ mem_ok given g' /\
  kmalloc_post booted g 100 (Some blk1) given g'.
Proof.
  destruct booted_ok as (g & Hm & Hb). destruct (kmalloc_spec booted g 100 Hm Hb ltac:(lia) ltac:(done)) as (r & m' & g' & Hrun & Hm' & _ & Hp).
  destruct (done_inj _ _ _ _ _ blk1_run Hrun) as [-> ->].
  exact (ex_intro _ g (ex_intro _ g' (conj Hm (conj blk1_run (conj Hm' Hp))))).
Defined.

(** The user writes the last word of the block. *)
Lemma kmalloc_kfree_witness : exists g m2 g2, mem_ok booted g /\
  kfree blk1 (up_words (fun _ => <[blk1 + 96 := 7]> (m_words given)) given) = Done tt m2 /\ mem_ok m2 g2 /\
  forall sa o, live m2 g2 sa o <-> live booted g sa o.
Proof.
  destruct booted_ok as (g & Hm & Hb).
  destruct (kmalloc_kfree booted g 100 blk1 given (<[blk1 + 96 := 7]> (m_words given)) Hm Hb ltac:(lia) ltac:(done) blk1_run) as (m2 & g2 & H1 & H2 & _ & H3).
  { intros z Hz. apply lookup_insert_ne. lia. }
  exact (ex_intro _ g (ex_intro _ m2 (ex_intro _ g2 (conj Hm (conj H1 (conj H2 H3)))))).
Defined.

Lemma run_facts (r : outcome mem (option Z)) v o sa n : val r = Some v -> m_words (after r) !! o = Some sa ->
  sa_objsize <$> m_allocators (after r) !! sa = Some n ->
  exists m sa al, r = Done (Some v) m /\ m_words m !! o = Some sa /\ m_allocators m !! sa = Some al /\ sa_objsize al = n.
Proof.
  intros E Ew Ea. destruct r as [w m| | |]; try discriminate E. cbn [val after] in *. subst w.
  destruct (m_allocators m !! sa) as [al|] eqn:Hal; [|discriminate Ea]. injection Ea as Es. exists m, sa, al. by rewrite Hal.
Qed.

(** Adding the size of the pointer to the allocator wraps: asked for [2^32 - 1] bytes,
    [kmalloc] returns a block of the smallest bucket, 60 bytes. *)
Theorem kmalloc_wraps : exists m sa al, kmalloc (2 ^ 32 - 1) booted = Done (Some (obj1 + 4)) m /\
  m_words m !! obj1 = Some sa /\ m_allocators m !! sa = Some al /\ sa_objsize al = 60 + SIZEOF_PTR + 2 * SIZEOF_REDZONE.
Proof.
  apply (run_facts (kmalloc (2 ^ 32 - 1) booted) (obj1 + 4) obj1 sa0 72); vm_compute; reflexivity.
Qed.
End SlabDemo.
