(* ===== verification/VirtTerm.v ===== *)
(** * Screen and virtual terminals ([drivers/tty/screen.c], [virtterm.c])

    A terminal keeps its text in a circular buffer of [SCROLL_BUFSIZE] characters;
    the screen shows [DISPLAY_SIZE] of them from [vt_top] on.  A terminal is its
    index in [vt_terms] and stands for its driver too ([driver_to_vt]); [None] is
    the NULL driver.  Video memory is the page [screen_init] maps, 2048 words; the
    CRT controller is its address register and its registers.  Calls of the
    callback of a terminal, which is outside this file, are recorded in
    [delivered]. *)

From Stdlib Require Import ZArith Lia Ascii String.
From stdpp Require Import base list gmap.
From S2P Require Import Prelude.

Module VirtTerm.
Local Open Scope Z_scope.

(** ** Data *)
Definition DISPLAY_WIDTH : Z := 80.
Definition DISPLAY_HEIGHT : Z := 25.
Definition DISPLAY_SIZE : Z := 2000.
Definition SCROLL_BUFSIZE : Z := 10000.
Definition NTERMS : Z := 3.

Record virtterm := VT {
  vt_head : Z;
  vt_tail : Z;
  vt_top : Z;
  vt_cursor : Z;
  vt_buf : list Z;
  vt_tempbuf : list Z;
  ttd_ops : bool;
  ttd_callback : option Z;
  ttd_callback_arg : Z
}.

(** Functions [keyboard_register_handler] is given. *)
Inductive char_handler := VtKeyboardHandler.

Record tstate := TS {
  vt_terms : list virtterm;
  vt_curterm : option nat;
  videoram : list Z;
  crt_addr : Z;
  crt_regs : gmap Z Z;
  keyboard_handler : option char_handler;
  curmask : Z;
  ipl : Z;
  delivered : list (Z * Z * Z)
}.

Abbreviation M := (kern tstate).

Definition t_head v t := VT v (vt_tail t) (vt_top t) (vt_cursor t) (vt_buf t) (vt_tempbuf t) (ttd_ops t) (ttd_callback t) (ttd_callback_arg t).
Definition t_tail v t := VT (vt_head t) v (vt_top t) (vt_cursor t) (vt_buf t) (vt_tempbuf t) (ttd_ops t) (ttd_callback t) (ttd_callback_arg t).
Definition t_top v t := VT (vt_head t) (vt_tail t) v (vt_cursor t) (vt_buf t) (vt_tempbuf t) (ttd_ops t) (ttd_callback t) (ttd_callback_arg t).
Definition t_cursor v t := VT (vt_head t) (vt_tail t) (vt_top t) v (vt_buf t) (vt_tempbuf t) (ttd_ops t) (ttd_callback t) (ttd_callback_arg t).
Definition t_buf v t := VT (vt_head t) (vt_tail t) (vt_top t) (vt_cursor t) v (vt_tempbuf t) (ttd_ops t) (ttd_callback t) (ttd_callback_arg t).
Definition t_temp v t := VT (vt_head t) (vt_tail t) (vt_top t) (vt_cursor t) (vt_buf t) v (ttd_ops t) (ttd_callback t) (ttd_callback_arg t).
Definition t_driver o c a t := VT (vt_head t) (vt_tail t) (vt_top t) (vt_cursor t) (vt_buf t) (vt_tempbuf t) o c a.

Definition s_terms f s := TS (f (vt_terms s)) (vt_curterm s) (videoram s) (crt_addr s) (crt_regs s) (keyboard_handler s) (curmask s) (ipl s) (delivered s).
Definition s_cur v s := TS (vt_terms s) v (videoram s) (crt_addr s) (crt_regs s) (keyboard_handler s) (curmask s) (ipl s) (delivered s).
Definition s_vram v s := TS (vt_terms s) (vt_curterm s) v (crt_addr s) (crt_regs s) (keyboard_handler s) (curmask s) (ipl s) (delivered s).
Definition s_crt a r s := TS (vt_terms s) (vt_curterm s) (videoram s) a r (keyboard_handler s) (curmask s) (ipl s) (delivered s).
Definition s_handler v s := TS (vt_terms s) (vt_curterm s) (videoram s) (crt_addr s) (crt_regs s) v (curmask s) (ipl s) (delivered s).
Definition s_mask v s := TS (vt_terms s) (vt_curterm s) (videoram s) (crt_addr s) (crt_regs s) (keyboard_handler s) v (ipl s) (delivered s).
Definition s_ipl v s := TS (vt_terms s) (vt_curterm s) (videoram s) (crt_addr s) (crt_regs s) (keyboard_handler s) (curmask s) v (delivered s).
Definition s_deliver e s := TS (vt_terms s) (vt_curterm s) (videoram s) (crt_addr s) (crt_regs s) (keyboard_handler s) (curmask s) (ipl s) (delivered s ++ [e]).

Definition get_term (i : nat) : M virtterm := fun s => deref (vt_terms s !! i) s.
Definition set_term (i : nat) (f : virtterm -> virtterm) : M unit := modify (s_terms (alter f i)).
Definition curterm : M nat := fun s => deref (vt_curterm s) s.

(** ** Arrays *)

(** [memcpy] of [xs] to offset [off] of an array: [None] past its end. *)
Definition splice (l : list Z) (off : Z) (xs : list Z) : option (list Z) :=
  if (0 <=? off) && (off + Z.of_nat (length xs) <=? Z.of_nat (length l))
  then Some (take (Z.to_nat off) l ++ xs ++ drop (Z.to_nat off + length xs) l) else None.

(** The [n] bytes of an array from [off] on; a negative size is a huge one. *)
Definition slice (l : list Z) (off n : Z) : option (list Z) :=
  if (0 <=? off) && (0 <=? n) && (off + n <=? Z.of_nat (length l))
  then Some (take (Z.to_nat n) (drop (Z.to_nat off) l)) else None.

Definition fill (l : list Z) (off v n : Z) : option (list Z) :=
  if 0 <=? n then splice l off (replicate (Z.to_nat n) v) else None.

(** ** The screen *)
Definition CRT_CONTROL_ADDR : Z := 0x3d4.
Definition CRT_CONTROL_DATA : Z := 0x3d5.
Definition CURSOR_HIGH : Z := 0x0e.
Definition CURSOR_LOW : Z := 0x0f.
Definition DEFAULT_ATTRIB : Z := 0x0f.

Definition u8 (x : Z) : Z := x mod 2 ^ 8.
Definition u16 (x : Z) : Z := x mod 2 ^ 16.

(** The controller: the address register selects the register data goes to. *)
Definition outb (port v : Z) : M unit :=
  modify (fun s => if port =? CRT_CONTROL_ADDR then s_crt (u8 v) (crt_regs s) s
    else if port =? CRT_CONTROL_DATA then s_crt (crt_addr s) (<[crt_addr s := u8 v]> (crt_regs s)) s else s).

Definition screen_move_cursor (x y : Z) : M unit :=
  let x := u8 x in let y := u8 y in
  let pos := u16 (y * DISPLAY_WIDTH + x) in
  outb CRT_CONTROL_ADDR CURSOR_HIGH ;;
  outb CRT_CONTROL_DATA (Z.shiftr pos 8) ;;
  outb CRT_CONTROL_ADDR CURSOR_LOW ;;
  outb CRT_CONTROL_DATA (Z.land pos 0xff).

Definition poke (off v : Z) : M unit :=
  let* vr := gets videoram in
  let* vr' := deref (splice vr off [u16 v]) in
  modify (s_vram vr').

(** [(attrib << 8) | c], where [c] is a signed [char]. *)
Definition cell (attrib c : Z) : Z := Z.lor (Z.shiftl attrib 8) c.

Definition screen_putchar (c x y : Z) : M unit := poke (u8 y * DISPLAY_WIDTH + u8 x) (cell DEFAULT_ATTRIB c).
Definition screen_putchar_attrib (c x y attrib : Z) : M unit := poke (u8 y * DISPLAY_WIDTH + u8 x) (cell (u8 attrib) c).

Definition screen_putbuf (buf : list Z) : M unit :=
  let* b := deref (slice buf 0 DISPLAY_SIZE) in
  let* vr := gets videoram in
  let* vr' := deref (splice vr 0 ((fun c => u16 (cell DEFAULT_ATTRIB c)) <$> b)) in
  modify (s_vram vr').

Definition screen_putbuf_attrib (buf : list Z) : M unit :=
  let* b := deref (slice buf 0 DISPLAY_SIZE) in
  let* vr := gets videoram in
  let* vr' := deref (splice vr 0 b) in
  modify (s_vram vr').

Definition screen_clear : M unit :=
  let* vr := gets videoram in
  let* vr' := deref (splice vr 0 (replicate (Z.to_nat DISPLAY_SIZE) (u16 (cell DEFAULT_ATTRIB 0x20)))) in
  modify (s_vram vr').

(** ** Places in the circular buffer; C division truncates. *)
Definition circ_dist (to from : Z) : Z := Z.rem (to - from + SCROLL_BUFSIZE) SCROLL_BUFSIZE.
Definition next_row (i : Z) : Z := Z.rem ((Z.quot i DISPLAY_WIDTH + 1) * DISPLAY_WIDTH) SCROLL_BUFSIZE.
Definition buf_add (ptr amt : Z) : Z := Z.rem (ptr + amt + SCROLL_BUFSIZE) SCROLL_BUFSIZE.

(** ** Drawing *)
Definition vt_cursor_redraw : M unit :=
  let* i := curterm in
  let* t := get_term i in
  let rel_cursor := circ_dist (vt_cursor t) (vt_top t) in
  screen_move_cursor (Z.rem rel_cursor DISPLAY_WIDTH) (Z.quot rel_cursor DISPLAY_WIDTH).

(** [memcpy(vt_tempbuf + d, vt_buf + s, n)] *)
Definition copy_temp (i : nat) (d s n : Z) : M unit :=
  let* t := get_term i in
  let* b := deref (slice (vt_buf t) s n) in
  let* tb := deref (splice (vt_tempbuf t) d b) in
  set_term i (t_temp tb).

Definition vt_redraw : M unit :=
  let* i := curterm in
  let* t := get_term i in
  let* tb := deref (fill (vt_tempbuf t) 0 0 DISPLAY_SIZE) in
  set_term i (t_temp tb) ;;
  (if vt_top t <=? vt_tail t then
     if vt_tail t - vt_top t <=? DISPLAY_SIZE then copy_temp i 0 (vt_top t) (vt_tail t - vt_top t)
     else copy_temp i 0 (vt_top t) DISPLAY_SIZE
   else
     let first_part_size := SCROLL_BUFSIZE - vt_top t in
     if DISPLAY_SIZE <=? first_part_size then copy_temp i 0 (vt_top t) DISPLAY_SIZE
     else
       copy_temp i 0 (vt_top t) first_part_size ;;
       if first_part_size + vt_tail t <=? DISPLAY_SIZE then copy_temp i first_part_size 0 (vt_tail t)
       else copy_temp i first_part_size 0 (DISPLAY_SIZE - first_part_size)) ;;
  let* t := get_term i in
  screen_putbuf (vt_tempbuf t) ;;
  vt_cursor_redraw.

(** ** Characters *)
Definition BS : Z := 8.
Definition NL : Z := 10.
Definition CR : Z := 13.

(** [handle_tail] *)
Definition handle_tail (i : nat) (new_cursor : Z) : M unit :=
  let* t := get_term i in
  if circ_dist (vt_tail t) (vt_cursor t) <=? circ_dist new_cursor (vt_cursor t) then
    let new_tail := next_row new_cursor in
    (if circ_dist (vt_tail t) new_tail <=? circ_dist (vt_tail t) (vt_head t)
     then set_term i (t_head (next_row new_tail)) else ret tt) ;;
    (if vt_tail t <=? new_tail then
       let* b := deref (fill (vt_buf t) (vt_tail t) 0 (new_tail - vt_tail t)) in
       set_term i (t_buf b)
     else
       let* b := deref (fill (vt_buf t) (vt_tail t) 0 (SCROLL_BUFSIZE - vt_tail t)) in
       let* b := deref (fill b 0 0 new_tail) in
       set_term i (t_buf b)) ;;
    set_term i (t_tail new_tail)
  else ret tt.

(** Whether a displayable character was put into the buffer. *)
Definition vt_handle_char (i : nat) (c : Z) : M bool :=
  let* t := get_term i in
  let new_cursor := vt_cursor t in
  if c =? BS then
    let new_cursor := if negb (new_cursor =? vt_head t) then buf_add new_cursor (-1) else new_cursor in
    set_term i (t_cursor new_cursor) ;; ret false
  else if c =? CR then
    set_term i (t_cursor (Z.quot new_cursor DISPLAY_WIDTH * DISPLAY_WIDTH)) ;; ret false
  else if c =? NL then
    let new_cursor := next_row new_cursor in
    handle_tail i new_cursor ;; set_term i (t_cursor new_cursor) ;; ret false
  else
    let* b := deref (splice (vt_buf t) new_cursor [c]) in
    set_term i (t_buf b) ;;
    let new_cursor := buf_add new_cursor 1 in
    handle_tail i new_cursor ;; set_term i (t_cursor new_cursor) ;; ret true.

Definition vt_provide_char (ttyd : option nat) (c : Z) : M unit :=
  kassert (bool_decide (ttyd <> None)) ;;
  let* vt := deref ttyd in
  let* t := get_term vt in
  let old_cursor := vt_cursor t in
  let old_top := vt_top t in
  (if DISPLAY_SIZE <=? circ_dist (vt_cursor t) (vt_top t)
   then set_term vt (t_top (buf_add (next_row (vt_cursor t)) (- DISPLAY_SIZE))) else ret tt) ;;
  let* can_write_char := vt_handle_char vt c in
  let* cur := gets vt_curterm in
  if bool_decide (cur = Some vt) then
    let* t := get_term vt in
    if old_top =? vt_top t then
      (if can_write_char : bool then
         let rel_cursor := circ_dist old_cursor (vt_top t) in
         screen_putchar c (Z.rem rel_cursor DISPLAY_WIDTH) (Z.quot rel_cursor DISPLAY_WIDTH)
       else ret tt) ;;
      vt_cursor_redraw
    else vt_redraw
  else ret tt.

(** ** Terminals *)
Definition vt_num_terminals : M Z := ret NTERMS.

(** A negative [id] is an address before the array. *)
Definition vt_get_tty_driver (id : Z) : M (option nat) :=
  if NTERMS <=? id then ret None else if id <? 0 then stuck else ret (Some (Z.to_nat id)).

Definition vt_scroll (lines : Z) (scroll_up : bool) : M unit :=
  let* i := curterm in
  let* t := get_term i in
  (if scroll_up then
     if circ_dist (vt_top t) (vt_head t) <? lines * DISPLAY_WIDTH then set_term i (t_top (vt_head t))
     else set_term i (t_top (buf_add (vt_top t) (- lines * DISPLAY_WIDTH)))
   else
     if circ_dist (vt_tail t) (vt_top t) <? (lines + 1) * DISPLAY_WIDTH
     then set_term i (t_top (buf_add (vt_tail t) (- DISPLAY_WIDTH)))
     else set_term i (t_top (buf_add (vt_top t) (lines * DISPLAY_WIDTH)))) ;;
  vt_redraw.

Definition vt_switch (term : Z) : M Z :=
  if (term <? 0) || (NTERMS <=? term) then ret (-1)
  else modify (s_cur (Some (Z.to_nat term))) ;; vt_redraw ;; ret 0.

Fixpoint provide_all (ttyd : option nat) (cs : list Z) : M unit :=
  match cs with
  | [] => ret tt
  | c :: cs => vt_provide_char ttyd c ;; provide_all ttyd cs
  end.

Definition chars (s : string) : list Z := (fun a => Z.of_nat (nat_of_ascii a)) <$> list_ascii_of_string s.

Definition vt_print_shutdown : M unit :=
  let* cur := gets vt_curterm in
  match cur with
  | None => ret tt
  | Some i =>
      let* t := get_term i in
      kassert (ttd_ops t) ;;
      provide_all (Some i) (replicate 20 NL) ;;
      provide_all (Some i) (chars "                   It is now safe to turn off your computer") ;;
      provide_all (Some i) (replicate 14 NL)
  end.

Definition vt_register_callback_handler (ttyd : option nat) (callback : option Z) (arg : Z) : M (option Z) :=
  kassert (bool_decide (ttyd <> None)) ;;
  let* i := deref ttyd in
  let* t := get_term i in
  set_term i (t_driver (ttd_ops t) callback arg) ;;
  ret (ttd_callback t).

Definition vt_unregister_callback_handler (ttyd : option nat) : M (option Z) :=
  kassert (bool_decide (ttyd <> None)) ;;
  let* i := deref ttyd in
  let* t := get_term i in
  set_term i (t_driver (ttd_ops t) None (ttd_callback_arg t)) ;;
  ret (ttd_callback t).

Definition INTR_KEYBOARD : Z := 0xe0.

Definition vt_block_io (ttyd : option nat) : M Z :=
  kassert (bool_decide (ttyd <> None)) ;;
  let* oldipl := gets ipl in
  modify (s_ipl INTR_KEYBOARD) ;;
  ret oldipl.

Definition vt_unblock_io (ttyd : option nat) (data : Z) : M unit :=
  let oldipl := u8 data in
  kassert (bool_decide (ttyd <> None)) ;;
  let* l := gets ipl in
  kassert (l =? INTR_KEYBOARD) ;;
  modify (s_ipl oldipl).

Definition vt_keyboard_handler (c : Z) : M unit :=
  let* cur := gets vt_curterm in
  match cur with
  | None => ret tt
  | Some i =>
      let* t := get_term i in
      match ttd_callback t with
      | None => ret tt
      | Some f => modify (s_deliver (f, ttd_callback_arg t, c))
      end
  end.

Definition keyboard_register_handler (handler : option char_handler) : M unit := modify (s_handler handler).

Fixpoint init_terms (i : nat) (n : nat) : M unit :=
  match n with
  | O => ret tt
  | S n =>
      let* t := get_term i in
      let* b := deref (fill (vt_buf t) 0 0 SCROLL_BUFSIZE) in
      set_term i (t_buf b) ;;
      set_term i (t_top 0) ;;
      set_term i (t_cursor 0) ;;
      set_term i (t_head 0) ;;
      set_term i (t_tail DISPLAY_WIDTH) ;;
      set_term i (t_driver true None 0) ;;
      init_terms (S i) n
  end.

Definition vt_init : M unit :=
  init_terms 0 (Z.to_nat NTERMS) ;;
  modify (s_cur (Some 0%nat)) ;;
  vt_redraw ;;
  keyboard_register_handler (Some VtKeyboardHandler).

(** The state before: static data are zero, video memory holds [vr]. *)
Definition zero_term : virtterm := VT 0 0 0 0 (replicate (Z.to_nat SCROLL_BUFSIZE) 0) (replicate (Z.to_nat DISPLAY_SIZE) 0) false None 0.
Definition fresh (vr : list Z) (mask level : Z) : tstate :=
  TS (replicate (Z.to_nat NTERMS) zero_term) None vr 0 ∅ None mask level [].
End VirtTerm.
