(* ===== verification/VirtTermSpec.v ===== *)
(** * What a virtual terminal shows

    The circular buffer of a terminal implements a text of at most 124 rows
    ([represents]); [vt_redraw] and the optimised drawing of [vt_provide_char]
    both leave the picture of the current terminal in video memory ([drawn]). *)

From Stdlib Require Import ZArith Lia.
From stdpp Require Import base list gmap.
From S2P Require Import Prelude VirtTerm.

Module VirtTermSpec.
Import VirtTerm.
Local Open Scope Z_scope.

(** ** Circular arithmetic *)
Definition wrap (x : Z) : Z := x mod 10000.

Ltac mlia := Z.div_mod_to_equations; lia.
Ltac ring_unfold := unfold SCROLL_BUFSIZE, DISPLAY_WIDTH, DISPLAY_SIZE, DISPLAY_HEIGHT in *.

Lemma wrap_range x : 0 <= wrap x < 10000.
Proof. unfold wrap. mlia. Qed.

Lemma wrap_small x : 0 <= x < 10000 -> wrap x = x.
Proof. unfold wrap. mlia. Qed.

Lemma circ_dist_wrap h x y : circ_dist (wrap (h + x)) (wrap (h + y)) = wrap (x - y).
Proof. unfold circ_dist, wrap. ring_unfold. rewrite Z.rem_mod_nonneg by mlia. mlia. Qed.

(** The same with one or both of the places given by themselves. *)
Lemma circ_dist_range a b : 0 <= a < 10000 -> 0 <= b < 10000 -> circ_dist a b = wrap (a - b).
Proof. intros. unfold circ_dist, wrap. ring_unfold. rewrite Z.rem_mod_nonneg by mlia. mlia. Qed.

Lemma buf_add_wrap x d : -10000 <= d -> buf_add (wrap x) d = wrap (x + d).
Proof. intros. unfold buf_add, wrap. ring_unfold. rewrite Z.rem_mod_nonneg by mlia. mlia. Qed.

Lemma next_row_wrap r x : next_row (wrap (80 * r + x)) = wrap (80 * r + (x / 80 + 1) * 80).
Proof. unfold next_row, wrap. ring_unfold. rewrite Z.quot_div_nonneg, Z.rem_mod_nonneg by mlia. mlia. Qed.

Lemma row_start r x : Z.quot (wrap (80 * r + x)) 80 * 80 = wrap (80 * r + x / 80 * 80).
Proof. unfold wrap. rewrite Z.quot_div_nonneg by mlia. mlia. Qed.

(** ** Arrays *)
Definition zget (l : list Z) (x : Z) : option Z := l !! Z.to_nat x.

Lemma splice_some l off xs : 0 <= off -> off + Z.of_nat (length xs) <= Z.of_nat (length l) ->
  exists l', splice l off xs = Some l' /\ length l' = length l /\
    forall x, 0 <= x -> zget l' x = if decide (off <= x < off + Z.of_nat (length xs)) then zget xs (x - off) else zget l x.
Proof.
  intros H0 H1. eexists. unfold splice. rewrite (proj2 (Z.leb_le _ _) H0), (proj2 (Z.leb_le _ _) H1). cbn [andb]. split_and!; [done| |].
  - rewrite !length_app, length_take, length_drop. lia.
  - intros x Hx. unfold zget. destruct (decide (Z.to_nat x < Z.to_nat off)%nat).
    + rewrite lookup_app_l by (rewrite length_take; lia). rewrite lookup_take_lt by lia. by rewrite decide_False by lia.
    + rewrite lookup_app_r by (rewrite length_take; lia). rewrite length_take, Nat.min_l by lia.
      destruct (decide (off <= x < off + Z.of_nat (length xs))).
      * rewrite lookup_app_l by lia. f_equal. lia.
      * rewrite lookup_app_r by lia. rewrite lookup_drop. f_equal. lia.
Qed.

Lemma slice_some l off n : 0 <= off -> 0 <= n -> off + n <= Z.of_nat (length l) ->
  exists b, slice l off n = Some b /\ Z.of_nat (length b) = n /\ forall x, 0 <= x < n -> zget b x = zget l (off + x).
Proof.
  intros H0 H1 H2. eexists. unfold slice.
  rewrite (proj2 (Z.leb_le _ _) H0), (proj2 (Z.leb_le _ _) H1), (proj2 (Z.leb_le _ _) H2). cbn [andb]. split_and!; [done| |].
  - rewrite length_take, length_drop. lia.
  - intros x Hx. unfold zget. rewrite lookup_take_lt by lia. rewrite lookup_drop. f_equal. lia.
Qed.

Lemma zget_zeros n x : 0 <= x < n -> zget (replicate (Z.to_nat n) 0) x = Some 0.
Proof. intros. unfold zget. apply lookup_replicate. split; [done|lia]. Qed.

Lemma memset_some l off n : 0 <= off -> 0 <= n -> off + n <= Z.of_nat (length l) ->
  exists l', fill l off 0 n = Some l' /\ length l' = length l /\
    forall x, 0 <= x -> zget l' x = if decide (off <= x < off + n) then Some 0 else zget l x.
Proof.
  intros H0 H1 H2. unfold fill. rewrite (proj2 (Z.leb_le _ _) H1).
  destruct (splice_some l off (replicate (Z.to_nat n) 0)) as (l' & E & Hlen & Hg); [done|rewrite length_replicate; lia|].
  exists l'. split_and!; try done. intros x Hx. rewrite Hg by done. rewrite length_replicate, Z2Nat.id by lia.
  destruct (decide _); [|done]. apply zget_zeros. lia.
Qed.

Lemma zget_ext (l l' : list Z) : length l = length l' -> (forall x, 0 <= x < Z.of_nat (length l) -> zget l x = zget l' x) -> l = l'.
Proof.
  intros Hlen H. apply list_eq. intros i. destruct (decide (i < length l)%nat).
  - specialize (H (Z.of_nat i) ltac:(lia)). unfold zget in H. by rewrite Nat2Z.id in H.
  - rewrite !lookup_ge_None_2 by lia. done.
Qed.

(** ** The state *)
Definition upd (i : nat) (t : virtterm) (s : tstate) : tstate := s_terms <[i := t]> s.

Lemma set_run i f s t : vt_terms s !! i = Some t -> set_term i f s = Done tt (upd i (f t) s).
Proof. intros Ht. unfold set_term, modify, upd, s_terms. do 2 f_equal. rewrite list_insert_alter. apply list_alter_ext; [|done]. intros y Hy. congruence. Qed.

Lemma upd_get i t t0 s : vt_terms s !! i = Some t0 -> vt_terms (upd i t s) !! i = Some t.
Proof. intros H. cbn [upd s_terms vt_terms]. apply list_lookup_insert_eq. by eapply lookup_lt_Some. Qed.

Lemma upd_upd i t t' s : upd i t' (upd i t s) = upd i t' s.
Proof. unfold upd, s_terms. cbn. by rewrite list_insert_insert_eq. Qed.

Lemma get_run i s t : vt_terms s !! i = Some t -> get_term i s = Done t s.
Proof. intros H. unfold get_term, deref. by rewrite H. Qed.

(** ** Texts *)

(** A text: its characters row by row, and the place of the cursor. *)
Record text := Text { t_cells : list Z; t_at : Z }.

Definition blank_row : list Z := replicate 80 0.

(** A new row at the end; the first one goes when there are 124. *)
Definition add_row (x : text) : text :=
  let l := t_cells x ++ blank_row in
  if Z.of_nat (length (t_cells x)) <? 124 * 80 then Text l (t_at x) else Text (drop 80 l) (t_at x - 80).

Definition settle (x : text) : text := if t_at x <? Z.of_nat (length (t_cells x)) then x else add_row x.

Definition put (c : Z) (x : text) : text :=
  if c =? BS then Text (t_cells x) (if t_at x =? 0 then 0 else t_at x - 1)
  else if c =? CR then Text (t_cells x) (t_at x / 80 * 80)
  else if c =? NL then settle (Text (t_cells x) ((t_at x / 80 + 1) * 80))
  else settle (Text (<[Z.to_nat (t_at x) := c]> (t_cells x)) (t_at x + 1)).

Definition rowed (x : Z) : Prop := exists r, x = 80 * r /\ 0 <= r < 125.

(** The terminal holds the text. *)
Record represents (t : virtterm) (x : text) : Prop := Represents {
  rp_buf : Z.of_nat (length (vt_buf t)) = 10000;
  rp_temp : Z.of_nat (length (vt_tempbuf t)) = 2000;
  rp_head : rowed (vt_head t);
  rp_top : rowed (vt_top t);
  rp_rows : exists n, Z.of_nat (length (t_cells x)) = 80 * n /\ 1 <= n <= 124;
  rp_tail : vt_tail t = wrap (vt_head t + Z.of_nat (length (t_cells x)));
  rp_cursor : vt_cursor t = wrap (vt_head t + t_at x);
  rp_at : 0 <= t_at x < Z.of_nat (length (t_cells x));
  rp_cells j : 0 <= j < Z.of_nat (length (t_cells x)) -> zget (vt_buf t) (wrap (vt_head t + j)) = zget (t_cells x) j
}.

Lemma rowed_wrap r : rowed (wrap (80 * r)).
Proof. exists (r mod 125). unfold wrap. mlia. Qed.

Lemma wrap_wrap a b : wrap (wrap a + b) = wrap (a + b).
Proof. unfold wrap. mlia. Qed.

Lemma zget_app (l k : list Z) x : 0 <= x -> zget (l ++ k) x = if decide (x < Z.of_nat (length l)) then zget l x else zget k (x - Z.of_nat (length l)).
Proof.
  intros Hx. unfold zget. destruct (decide _); [by rewrite lookup_app_l by lia|]. rewrite lookup_app_r by lia. f_equal. lia.
Qed.

Lemma zget_drop n (l : list Z) x : 0 <= x -> zget (drop n l) x = zget l (Z.of_nat n + x).
Proof. intros. unfold zget. rewrite lookup_drop. f_equal. lia. Qed.

(** Everything but the buffer, its ends and the cursor. *)
Definition same_rest (t t' : virtterm) : Prop :=
  vt_top t' = vt_top t /\ vt_tempbuf t' = vt_tempbuf t /\ ttd_ops t' = ttd_ops t /\
  ttd_callback t' = ttd_callback t /\ ttd_callback_arg t' = ttd_callback_arg t.

(** What happens to the buffer: [adv] when the tail moves on by a row, which is
    cleared; [w] the character stored at the cursor, if any. *)
Definition effect (adv : bool) (w : option Z) (t t' : virtterm) : Prop :=
  vt_tail t' = (if adv then wrap (vt_tail t + 80) else vt_tail t) /\
  forall y, 0 <= y -> zget (vt_buf t') y =
    if decide (adv = true /\ vt_tail t <= y < vt_tail t + 80) then Some 0
    else if decide (is_Some w /\ y = vt_cursor t) then w else zget (vt_buf t) y.

(** The row after the text is cleared. *)
Lemma clear_row i s t t1 q (b := vt_buf t) : vt_terms s !! i = Some t1 -> Z.of_nat (length b) = 10000 -> vt_tail t = 80 * q -> 0 <= q < 125 ->
  let new_tail := wrap (vt_tail t + 80) in
  exists b', (if vt_tail t <=? new_tail then
       let* b := deref (fill (vt_buf t) (vt_tail t) 0 (new_tail - vt_tail t)) in set_term i (t_buf b)
     else
       let* b := deref (fill (vt_buf t) (vt_tail t) 0 (SCROLL_BUFSIZE - vt_tail t)) in
       let* b := deref (fill b 0 0 new_tail) in set_term i (t_buf b)) s = Done tt (upd i (t_buf b' t1) s) /\
    Z.of_nat (length b') = 10000 /\
    forall y, 0 <= y -> zget b' y = if decide (vt_tail t <= y < vt_tail t + 80) then Some 0 else zget b y.
Proof.
  intros Ht Hlen Hq Hr new_tail. subst b. set (b := vt_buf t) in *. ring_unfold. destruct (Z.leb_spec (vt_tail t) new_tail) as [Hle|Hgt].
  - assert (E : new_tail = vt_tail t + 80) by (unfold new_tail, wrap in *; mlia).
    destruct (memset_some b (vt_tail t) (new_tail - vt_tail t)) as (b' & Hb & Hl & Hg); [lia..|].
    exists b'. split_and!; [|lia|].
    + rewrite Hb. erewrite bind_done by reflexivity. by apply set_run.
    + intros y Hy. rewrite Hg by done. by replace (vt_tail t + (new_tail - vt_tail t)) with (vt_tail t + 80) by lia.
  - assert (E : vt_tail t = 9920 /\ new_tail = 0) by (unfold new_tail, wrap in *; mlia). destruct E as [E1 E2].
    destruct (memset_some b (vt_tail t) (10000 - vt_tail t)) as (b1 & Hb1 & Hl1 & Hg1); [lia..|].
    destruct (memset_some b1 0 new_tail) as (b2 & Hb2 & Hl2 & Hg2); [lia..|].
    exists b2. split_and!; [|lia|].
    + rewrite Hb1. erewrite bind_done by reflexivity. rewrite Hb2. erewrite bind_done by reflexivity. by apply set_run.
    + intros y Hy. rewrite Hg2 by done. rewrite decide_False by lia. rewrite Hg1 by done. by replace (vt_tail t + (10000 - vt_tail t)) with (vt_tail t + 80) by lia.
Qed.

Lemma tail_run i s t x k : vt_terms s !! i = Some t -> represents t x -> t_at x < k <= Z.of_nat (length (t_cells x)) ->
  exists t', handle_tail i (wrap (vt_head t + k)) s = Done tt (upd i t' s) /\ same_rest t t' /\
    effect (k =? Z.of_nat (length (t_cells x))) None t t' /\
    represents (t_cursor (wrap (vt_head t + k)) t') (settle (Text (t_cells x) k)).
Proof.
  intros Ht Hrp Hk. pose proof Hrp as [Hb Htp (hr & Eh & Hhr) Htop (n & En & Hn) Etail Ecur Hat Hcells]. set (len := Z.of_nat (length (t_cells x))) in *.
  unfold handle_tail. erewrite bind_done by (by apply get_run).
  assert (D1 : circ_dist (vt_tail t) (vt_cursor t) = len - t_at x) by (rewrite Etail, Ecur, circ_dist_wrap; apply wrap_small; lia).
  assert (D2 : circ_dist (wrap (vt_head t + k)) (vt_cursor t) = k - t_at x) by (rewrite Ecur, circ_dist_wrap; apply wrap_small; lia).
  rewrite D1, D2. unfold settle. cbn [t_at t_cells]. fold len. destruct (Z.ltb_spec k len) as [Hlt|Hge].
  { rewrite (proj2 (Z.leb_gt _ _)) by lia. rewrite (proj2 (Z.eqb_neq _ _)) by lia. exists t. split_and!; [|done| |].
    2:{ split; [done|]. intros y Hy. rewrite decide_False by (intros [? _]; done). by rewrite decide_False by (intros [[? ?] _]; done). }
    - unfold ret, upd, s_terms. rewrite list_insert_id by done. by destruct s.
    - split; cbn [t_cursor vt_buf vt_tempbuf vt_head vt_top vt_tail vt_cursor t_cells t_at]; try done; [by exists hr|by exists n|lia]. }
  assert (Ek : k = len) by lia. rewrite Ek in *. rewrite (proj2 (Z.leb_le _ _)) by lia.
  assert (Ent : next_row (wrap (vt_head t + len)) = wrap (vt_tail t + 80)) by (rewrite Eh, next_row_wrap, Etail, Eh, wrap_wrap, En; f_equal; mlia).
  rewrite Ent.
  assert (D3 : circ_dist (vt_tail t) (wrap (vt_tail t + 80)) = 9920).
  { rewrite <- (wrap_small (vt_tail t)) at 1 by (rewrite Etail; apply wrap_range). rewrite <- (Z.add_0_r (vt_tail t)) at 1.
    rewrite circ_dist_wrap. reflexivity. }
  assert (D4 : circ_dist (vt_tail t) (vt_head t) = len).
  { rewrite Etail. rewrite <- (wrap_small (vt_head t)) at 2 by lia. rewrite <- (Z.add_0_r (vt_head t)) at 2. rewrite circ_dist_wrap, wrap_small; lia. }
  rewrite D3, D4. set (t1 := if 9920 <=? len then t_head (next_row (wrap (vt_tail t + 80))) t else t).
  assert (Hd : (if 9920 <=? len then set_term i (t_head (next_row (wrap (vt_tail t + 80)))) else ret tt) s = Done tt (upd i t1 s)).
  { unfold t1. destruct (9920 <=? len); [by apply set_run|]. unfold ret, upd, s_terms. rewrite list_insert_id by done. by destruct s. }
  krun Hd. assert (Eq : exists q, vt_tail t = 80 * q /\ 0 <= q < 125).
  { destruct (rowed_wrap (hr + n)) as (q & E & Hq). exists q. rewrite Etail, Eh, En. split; [|done]. rewrite <- E. f_equal. lia. }
  destruct Eq as (q & Eq & Hq).
  destruct (clear_row i (upd i t1 s) t t1 q) as (b' & Hrun & Hlen & Hg); [by eapply upd_get|done..|].
  krun Hrun. rewrite upd_upd. exists (t_tail (wrap (vt_tail t + 80)) (t_buf b' t1)). split_and!.
  - erewrite set_run by (by eapply upd_get). by rewrite upd_upd.
  - unfold t1. by destruct (9920 <=? len).
  - rewrite Z.eqb_refl. split; [done|]. intros y Hy. cbn [t_tail vt_buf t_buf]. rewrite Hg by done.
    destruct (decide (vt_tail t <= y < vt_tail t + 80)); [by rewrite decide_True|].
    rewrite decide_False by (intros [_ ?]; done). by rewrite decide_False by (intros [[? ?] _]; done).
  - assert (Hnew : forall j, 0 <= j < len + 80 -> 80 <= j \/ len < 9920 -> zget b' (wrap (vt_head t + j)) = zget (t_cells x ++ blank_row) j).
    { intros j Hj Hj'. pose proof (wrap_range (vt_head t + j)). rewrite Hg by lia. rewrite zget_app by lia. fold len.
      assert (Hin : vt_tail t <= wrap (vt_head t + j) < vt_tail t + 80 <-> len <= j) by (rewrite Etail, Eh, En in *; unfold wrap in *; mlia).
      destruct (decide (j < len)).
      - rewrite decide_False by lia. apply Hcells. lia.
      - rewrite decide_True by lia. symmetry. apply (zget_zeros 80). lia. }
    unfold add_row, t1. cbn [t_cells t_at]. fold len. destruct (Z.ltb_spec len (124 * 80)).
    + rewrite (proj2 (Z.leb_gt _ _)) by lia.
      assert (El : Z.of_nat (length (t_cells x ++ blank_row)) = len + 80) by (rewrite length_app; change (length blank_row) with 80%nat; lia).
      split; cbn [t_cursor t_tail t_buf vt_buf vt_tempbuf vt_head vt_top vt_tail vt_cursor t_cells t_at]; rewrite ?El; try done.
      * by exists hr.
      * exists (n + 1). lia.
      * rewrite Etail, wrap_wrap. f_equal. lia.
      * lia.
      * intros j Hj. apply Hnew; lia.
    + rewrite (proj2 (Z.leb_le _ _)) by lia. assert (El9 : len = 9920) by lia.
      assert (Eh' : next_row (wrap (vt_tail t + 80)) = wrap (vt_head t + 80)).
      { rewrite Eq, next_row_wrap. rewrite <- Eq, Etail, El9. unfold wrap. mlia. }
      assert (El : Z.of_nat (length (drop 80 (t_cells x ++ blank_row))) = len) by (rewrite length_drop, length_app; change (length blank_row) with 80%nat; lia).
      split; cbn [t_cursor t_tail t_buf t_head vt_buf vt_tempbuf vt_head vt_top vt_tail vt_cursor t_cells t_at]; rewrite ?El, ?Eh'; try done.
      * rewrite Eh. replace (80 * hr + 80) with (80 * (hr + 1)) by lia. apply rowed_wrap.
      * exists n. lia.
      * rewrite Etail, !wrap_wrap. f_equal. lia.
      * rewrite wrap_wrap. f_equal. lia.
      * lia.
      * intros j Hj. rewrite wrap_wrap, zget_drop by lia. rewrite <- Hnew by lia. f_equal. f_equal. lia.
Qed.

(** *** A character *)
Definition printable (c : Z) : bool := negb (c =? BS) && negb (c =? CR) && negb (c =? NL).

Lemma cursor_ok t x k : represents t x -> 0 <= k < Z.of_nat (length (t_cells x)) ->
  represents (t_cursor (wrap (vt_head t + k)) t) (Text (t_cells x) k).
Proof. intros [] Hk. by split. Qed.

Lemma effect_none t nc : effect false None t (t_cursor nc t).
Proof. split; [done|]. intros y Hy. rewrite decide_False by (intros [? _]; done). by rewrite decide_False by (intros [[? ?] _]; done). Qed.

Lemma store_ok t x c b : represents t x -> splice (vt_buf t) (vt_cursor t) [c] = Some b ->
  represents (t_buf b t) (Text (<[Z.to_nat (t_at x) := c]> (t_cells x)) (t_at x)) /\
  forall y, 0 <= y -> zget b y = if decide (y = vt_cursor t) then Some c else zget (vt_buf t) y.
Proof.
  intros [Hb Htp (hr & Eh & Hhr) Htop (n & En & Hn) Etail Ecur Hat Hcells] Hs. pose proof (wrap_range (vt_head t + t_at x)).
  destruct (splice_some (vt_buf t) (vt_cursor t) [c]) as (b' & E & Hl & Hg); [lia|cbn [length]; lia|]. rewrite Hs in E. injection E as <-.
  assert (Hg' : forall y, 0 <= y -> zget b y = if decide (y = vt_cursor t) then Some c else zget (vt_buf t) y).
  { intros y Hy. rewrite Hg by done. cbn [length]. destruct (decide (y = vt_cursor t)) as [->|].
    - rewrite decide_True by lia. by rewrite Z.sub_diag.
    - by rewrite decide_False by lia. }
  split; [|done]. split; cbn [t_buf vt_buf vt_tempbuf vt_head vt_top vt_tail vt_cursor t_cells t_at]; rewrite ?length_insert; try done; [lia|by exists hr|by exists n|].
  intros j Hj. rewrite Hg' by apply wrap_range. rewrite Ecur. destruct (decide (j = t_at x)) as [->|Hne].
  - rewrite decide_True by done. unfold zget. rewrite list_lookup_insert_eq by lia. done.
  - rewrite decide_False by (rewrite Eh in *; unfold wrap; mlia). rewrite Hcells by done. unfold zget. by rewrite list_lookup_insert_ne by lia.
Qed.

Lemma char_run i c s t x : vt_terms s !! i = Some t -> represents t x ->
  exists t' adv, vt_handle_char i c s = Done (printable c) (upd i t' s) /\ same_rest t t' /\ represents t' (put c x) /\
    effect adv (if printable c then Some c else None) t t' /\
    (adv = true -> Z.of_nat (length (t_cells x)) <= t_at x + 80).
Proof.
  intros Ht Hrp. pose proof Hrp as [Hb Htp (hr & Eh & Hhr) Htop (n & En & Hn) Etail Ecur Hat Hcells].
  unfold vt_handle_char, printable, put. erewrite bind_done by (by apply get_run). ring_unfold.
  assert (Hrow : 0 <= t_at x / 80 * 80 <= t_at x /\ t_at x < (t_at x / 80 + 1) * 80 <= Z.of_nat (length (t_cells x))) by (rewrite En in *; mlia).
  destruct (c =? BS).
  { set (nc := if negb _ then _ else _). erewrite bind_done by (by apply set_run). exists (t_cursor nc t), false. split_and!; [done|done| |by apply effect_none|done].
    assert (Enc : nc = wrap (vt_head t + (if t_at x =? 0 then 0 else t_at x - 1))).
    { unfold nc. rewrite Ecur, buf_add_wrap by lia. destruct (Z.eqb_spec (t_at x) 0) as [->|Hne].
      - rewrite Z.add_0_r, wrap_small, Z.eqb_refl by lia. done.
      - destruct (Z.eqb_spec (wrap (vt_head t + t_at x)) (vt_head t)) as [E|]; [exfalso; unfold wrap in E; mlia|]. cbn [negb]. f_equal. lia. }
    rewrite Enc. apply cursor_ok; [done|]. destruct (Z.eqb_spec (t_at x) 0); lia. }
  destruct (c =? CR).
  { erewrite bind_done by (by apply set_run). eexists _, false. split_and!; [done|done| |by apply effect_none|done].
    rewrite Ecur, Eh, row_start. rewrite <- Eh. by apply cursor_ok; [|lia]. }
  destruct (c =? NL).
  { rewrite Ecur, Eh, next_row_wrap, <- Eh. destruct (tail_run i s t x ((t_at x / 80 + 1) * 80) Ht Hrp ltac:(lia)) as (t' & Hrun & Hsame & Heff & Hok).
    krun Hrun. erewrite bind_done by (apply set_run; by eapply upd_get). rewrite upd_upd.
    eexists _, _. split_and!; [done|done|exact Hok|exact Heff|]. intros E%Z.eqb_eq. mlia. }
  destruct (splice_some (vt_buf t) (vt_cursor t) [c]) as (b & Eb & _); [rewrite Ecur; apply wrap_range|rewrite Ecur; pose proof (wrap_range (vt_head t + t_at x)); cbn [length]; lia|].
  destruct (store_ok t x c b Hrp Eb) as [Hrp1 Hst]. rewrite Eb. erewrite bind_done by reflexivity. erewrite bind_done by (by apply set_run).
  rewrite Ecur, buf_add_wrap, <- Z.add_assoc by lia.
  destruct (tail_run i (upd i (t_buf b t) s) (t_buf b t) _ (t_at x + 1) (upd_get _ _ _ _ Ht) Hrp1) as (t' & Hrun & Hsame & [Het Heb] & Hok); [cbn [t_at t_cells]; rewrite length_insert; lia|].
  cbn [t_buf vt_head] in Hrun. krun Hrun. rewrite upd_upd. erewrite bind_done by (apply set_run; by eapply upd_get). rewrite upd_upd.
  eexists _, _. split_and!; [done|exact Hsame|exact Hok| |].
  - split; [exact Het|]. cbn [t_cursor vt_buf]. intros y Hy. rewrite Heb by done. cbn [t_buf vt_tail vt_buf vt_cursor]. cbn [t_cells] in *.
    destruct (decide (_ = true /\ _)); [done|]. rewrite decide_False by (intros [[? ?] _]; done). rewrite Hst by done.
    cbn [negb andb]. destruct (decide (y = vt_cursor t)) as [->|]; [by rewrite decide_True|by rewrite decide_False by (intros [_ ?]; done)].
  - cbn [t_cells]. rewrite length_insert. intros E%Z.eqb_eq. lia.
Qed.

(** ** The picture of a terminal *)

(** Place [j] of the screen: the text from [vt_top] on up to the tail, then
    nothing. *)
Definition pic (t : virtterm) (j : Z) : option Z :=
  if j <? circ_dist (vt_tail t) (vt_top t) then zget (vt_buf t) (wrap (vt_top t + j)) else Some 0.

Definition word (c : Z) : Z := u16 (cell DEFAULT_ATTRIB c).

(** Terminal [t] is in video memory, and the cursor where it is. *)
Record drawn (vr : list Z) (regs : gmap Z Z) (t : virtterm) : Prop := Drawn {
  dr_cells j : 0 <= j < 2000 -> zget vr j = word <$> pic t j;
  dr_high : regs !! CURSOR_HIGH = Some (circ_dist (vt_cursor t) (vt_top t) / 256);
  dr_low : regs !! CURSOR_LOW = Some (circ_dist (vt_cursor t) (vt_top t) mod 256)
}.

(** The shape of a terminal, whatever its text. *)
Definition shaped (t : virtterm) : Prop := exists x, represents t x.

Lemma shaped_facts t : shaped t -> Z.of_nat (length (vt_buf t)) = 10000 /\ Z.of_nat (length (vt_tempbuf t)) = 2000 /\
  rowed (vt_top t) /\ rowed (vt_tail t) /\ 0 <= vt_cursor t < 10000.
Proof.
  intros (x & [Hb Htp (hr & Eh & Hhr) Htop (n & En & Hn) Etail Ecur Hat Hcells]). split_and!; try done.
  - rewrite Etail, Eh, En, <- Z.mul_add_distr_l. apply rowed_wrap.
  - rewrite Ecur. apply wrap_range.
  - rewrite Ecur. apply wrap_range.
Qed.

Lemma copy_run i s t d so n : vt_terms s !! i = Some t -> 0 <= d -> 0 <= so -> 0 <= n ->
  so + n <= Z.of_nat (length (vt_buf t)) -> d + n <= Z.of_nat (length (vt_tempbuf t)) ->
  exists tb, copy_temp i d so n s = Done tt (upd i (t_temp tb t) s) /\ length tb = length (vt_tempbuf t) /\
    forall y, 0 <= y -> zget tb y = if decide (d <= y < d + n) then zget (vt_buf t) (so + (y - d)) else zget (vt_tempbuf t) y.
Proof.
  intros Ht Hd Hs Hn Hso Hdn. destruct (slice_some (vt_buf t) so n) as (b & Eb & Hl & Hb); [done..|].
  destruct (splice_some (vt_tempbuf t) d b) as (tb & Et & Hlt & Hg); [lia..|].
  exists tb. split_and!; [|done|].
  - unfold copy_temp. erewrite bind_done by (by apply get_run). rewrite Eb. erewrite bind_done by reflexivity.
    rewrite Et. erewrite bind_done by reflexivity. by apply set_run.
  - intros y Hy. rewrite Hg by done. rewrite Hl. destruct (decide _); [|done]. apply Hb. lia.
Qed.

(** The four ways to fill the temporary buffer are one. *)
Lemma fill_run i s t : vt_terms s !! i = Some t -> shaped t -> (forall y, 0 <= y < 2000 -> zget (vt_tempbuf t) y = Some 0) ->
  exists tb, (if vt_top t <=? vt_tail t then
     if vt_tail t - vt_top t <=? DISPLAY_SIZE then copy_temp i 0 (vt_top t) (vt_tail t - vt_top t)
     else copy_temp i 0 (vt_top t) DISPLAY_SIZE
   else
     if DISPLAY_SIZE <=? SCROLL_BUFSIZE - vt_top t then copy_temp i 0 (vt_top t) DISPLAY_SIZE
     else
       copy_temp i 0 (vt_top t) (SCROLL_BUFSIZE - vt_top t) ;;
       if SCROLL_BUFSIZE - vt_top t + vt_tail t <=? DISPLAY_SIZE then copy_temp i (SCROLL_BUFSIZE - vt_top t) 0 (vt_tail t)
       else copy_temp i (SCROLL_BUFSIZE - vt_top t) 0 (DISPLAY_SIZE - (SCROLL_BUFSIZE - vt_top t))) s = Done tt (upd i (t_temp tb t) s) /\
    Z.of_nat (length tb) = 2000 /\ forall j, 0 <= j < 2000 -> zget tb j = pic t j.
Proof.
  intros Ht Hsh Hz. destruct (shaped_facts t Hsh) as (Hb & Htp & (tr & Etop & Htr) & (lr & Etail & Hlr) & _). ring_unfold.
  assert (Hd : circ_dist (vt_tail t) (vt_top t) = wrap (vt_tail t - vt_top t)) by (apply circ_dist_range; lia).
  assert (Hone : forall n, 0 <= n <= 2000 -> vt_top t + n <= 10000 -> (n = 2000 \/ n = wrap (vt_tail t - vt_top t)) -> (n <= wrap (vt_tail t - vt_top t)) ->
    exists tb, copy_temp i 0 (vt_top t) n s = Done tt (upd i (t_temp tb t) s) /\ Z.of_nat (length tb) = 2000 /\ forall j, 0 <= j < 2000 -> zget tb j = pic t j).
  { intros n Hn Hin Hor Hle. destruct (copy_run i s t 0 (vt_top t) n Ht) as (tb & Hrun & Hl & Hg); [lia..|].
    exists tb. split_and!; [done|lia|]. intros j Hj. rewrite Hg by lia. unfold pic. rewrite Hd. destruct (Z.ltb_spec j (wrap (vt_tail t - vt_top t))).
    - rewrite decide_True by lia. rewrite wrap_small by lia. f_equal. lia.
    - rewrite decide_False by lia. apply Hz. lia. }
  destruct (Z.leb_spec (vt_top t) (vt_tail t)).
  { assert (wrap (vt_tail t - vt_top t) = vt_tail t - vt_top t) as E by (apply wrap_small; lia).
    destruct (Z.leb_spec (vt_tail t - vt_top t) 2000); apply Hone; lia. }
  assert (E : wrap (vt_tail t - vt_top t) = 10000 - vt_top t + vt_tail t) by (unfold wrap; mlia).
  destruct (Z.leb_spec 2000 (10000 - vt_top t)); [apply Hone; lia|].
  destruct (copy_run i s t 0 (vt_top t) (10000 - vt_top t) Ht) as (tb & Hrun & Hl & Hg); [lia..|]. krun Hrun.
  set (n := Z.min (vt_tail t) (2000 - (10000 - vt_top t))).
  destruct (copy_run i (upd i (t_temp tb t) s) (t_temp tb t) (10000 - vt_top t) 0 n (upd_get _ _ _ _ Ht)) as (tb' & Hrun' & Hl' & Hg');
    [lia|lia|lia|cbn [t_temp vt_buf]; lia|cbn [t_temp vt_tempbuf]; lia|].
  exists tb'. cbn [t_temp vt_buf vt_tempbuf] in Hl', Hg'. split_and!; [|lia|].
  - rewrite upd_upd in Hrun'. replace (t_temp tb' (t_temp tb t)) with (t_temp tb' t) in Hrun' by done.
    destruct (Z.leb_spec (10000 - vt_top t + vt_tail t) 2000).
    + replace (vt_tail t) with n by lia. exact Hrun'.
    + replace (2000 - (10000 - vt_top t)) with n by lia. exact Hrun'.
  - intros j Hj. rewrite Hg' by lia. unfold pic. rewrite Hd, E. destruct (decide (10000 - vt_top t <= j < 10000 - vt_top t + n)).
    + rewrite (proj2 (Z.ltb_lt _ _)) by lia. f_equal. unfold wrap. mlia.
    + rewrite Hg by lia. destruct (decide (0 <= j < 0 + (10000 - vt_top t))).
      * rewrite (proj2 (Z.ltb_lt _ _)) by lia. rewrite wrap_small by lia. f_equal. lia.
      * rewrite (proj2 (Z.ltb_ge _ _)) by lia. apply Hz. lia.
Qed.

(** *** The screen *)
Definition cursor_at (p : Z) (s : tstate) : tstate :=
  s_crt CURSOR_LOW (<[CURSOR_LOW := p mod 256]> (<[CURSOR_HIGH := p / 256]> (crt_regs s))) s.

Lemma move_run p s : 0 <= p < 10000 -> screen_move_cursor (Z.rem p DISPLAY_WIDTH) (Z.quot p DISPLAY_WIDTH) s = Done tt (cursor_at p s).
Proof.
  intros Hp. unfold screen_move_cursor. ring_unfold. rewrite Z.rem_mod_nonneg, Z.quot_div_nonneg by lia.
  assert (E : u16 (u8 (p / 80) * 80 + u8 (p mod 80)) = p) by (unfold u16, u8; rewrite !Z.mod_small by mlia; mlia). rewrite E.
  assert (Es : u8 (Z.shiftr p 8) = p / 256) by (rewrite Z.shiftr_div_pow2 by lia; unfold u8; apply Z.mod_small; change (2 ^ 8) with 256; mlia).
  assert (El : u8 (Z.land p 255) = p mod 256) by (change 255 with (Z.ones 8); rewrite Z.land_ones by lia; unfold u8; change (2 ^ 8) with 256; apply Z.mod_mod; lia).
  unfold outb, bind, modify, cursor_at, s_crt. cbn -[u8 Z.shiftr Z.land insert]. by rewrite Es, El.
Qed.

Lemma cursor_drawn s t : (forall j, 0 <= j < 2000 -> zget (videoram s) j = word <$> pic t j) ->
  let s' := cursor_at (circ_dist (vt_cursor t) (vt_top t)) s in drawn (videoram s') (crt_regs s') t.
Proof. intros H s'. split; [done|..]; cbn [s' cursor_at s_crt crt_regs]; [by rewrite lookup_insert_ne, lookup_insert_eq by done|by rewrite lookup_insert_eq]. Qed.

Lemma cursor_redraw_run i s t : vt_curterm s = Some i -> vt_terms s !! i = Some t -> shaped t ->
  vt_cursor_redraw s = Done tt (cursor_at (circ_dist (vt_cursor t) (vt_top t)) s).
Proof.
  intros Hc Ht Hsh. destruct (shaped_facts t Hsh) as (_ & _ & (tr & Etop & Htr) & _ & Hcur).
  unfold vt_cursor_redraw. erewrite bind_done by (unfold curterm, deref; by rewrite Hc). erewrite bind_done by (by apply get_run).
  apply move_run. rewrite circ_dist_range by lia. apply wrap_range.
Qed.

Lemma putbuf_run tb s : Z.of_nat (length tb) = 2000 -> length (videoram s) = 2048%nat ->
  exists vr, screen_putbuf tb s = Done tt (s_vram vr s) /\ length vr = 2048%nat /\
    forall j, 0 <= j < 2000 -> zget vr j = word <$> zget tb j.
Proof.
  intros Hl Hv. destruct (slice_some tb 0 2000) as (b & Eb & Hb & Hg); [lia..|].
  destruct (splice_some (videoram s) 0 (word <$> b)) as (vr & Ev & Hlv & Hgv); [lia|rewrite length_fmap; lia|].
  exists vr. split_and!; [|lia|].
  - unfold screen_putbuf. change DISPLAY_SIZE with 2000. rewrite Eb. do 2 (erewrite bind_done by reflexivity). fold word.
    change (fun c => u16 (cell DEFAULT_ATTRIB c)) with word. rewrite Ev. by erewrite bind_done by reflexivity.
  - intros j Hj. rewrite Hgv, length_fmap by lia. rewrite decide_True by lia. unfold zget at 1. rewrite list_lookup_fmap.
    fold (zget b (j - 0)). rewrite Z.sub_0_r, Hg by lia. done.
Qed.

(** The state but for the screen and the terminals. *)
Definition same_else (s s' : tstate) : Prop :=
  vt_curterm s' = vt_curterm s /\ keyboard_handler s' = keyboard_handler s /\ curmask s' = curmask s /\
  ipl s' = ipl s /\ delivered s' = delivered s.

Lemma pic_temp tb t j : pic (t_temp tb t) j = pic t j.
Proof. done. Qed.

Lemma temp_ok tb t x : Z.of_nat (length tb) = 2000 -> represents t x -> represents (t_temp tb t) x.
Proof. intros Hl []. by split. Qed.

Lemma redraw_run i s t : vt_curterm s = Some i -> vt_terms s !! i = Some t -> shaped t -> length (videoram s) = 2048%nat ->
  exists s' tb, vt_redraw s = Done tt s' /\ vt_terms s' = <[i := t_temp tb t]> (vt_terms s) /\ Z.of_nat (length tb) = 2000 /\
    length (videoram s') = 2048%nat /\ drawn (videoram s') (crt_regs s') (t_temp tb t) /\ same_else s s'.
Proof.
  intros Hc Ht Hsh Hv. pose proof Hsh as (x & Hx). destruct (shaped_facts t Hsh) as (Hb & Htp & _).
  destruct (memset_some (vt_tempbuf t) 0 2000) as (tb0 & E0 & Hl0 & Hg0); [lia..|].
  assert (Hsh0 : shaped (t_temp tb0 t)) by (exists x; apply temp_ok; [lia|done]).
  destruct (fill_run i (upd i (t_temp tb0 t) s) (t_temp tb0 t)) as (tb & Hfill & Hl & Hg); [by eapply upd_get|done| |].
  { intros y Hy. cbn [t_temp vt_tempbuf]. rewrite Hg0 by lia. by rewrite decide_True by lia. }
  rewrite upd_upd in Hfill. change (t_temp tb (t_temp tb0 t)) with (t_temp tb t) in Hfill. cbn [t_temp vt_top vt_tail] in Hfill.
  set (s1 := upd i (t_temp tb t) s) in *. assert (Ht1 : vt_terms s1 !! i = Some (t_temp tb t)) by (by eapply upd_get).
  destruct (putbuf_run tb s1 Hl Hv) as (vr & Hput & Hlv & Hgv).
  assert (Hsh1 : shaped (t_temp tb t)) by (exists x; by apply temp_ok).
  pose proof (cursor_redraw_run i (s_vram vr s1) (t_temp tb t) Hc Ht1 Hsh1) as Hcur.
  exists (cursor_at (circ_dist (vt_cursor t) (vt_top t)) (s_vram vr s1)), tb. split_and!; [|reflexivity|done|done| |done].
  - unfold vt_redraw. erewrite bind_done by (unfold curterm, deref; by rewrite Hc). erewrite bind_done by (by apply get_run).
    change DISPLAY_SIZE with 2000 in *. rewrite E0. erewrite bind_done by reflexivity. erewrite bind_done by (by apply set_run).
    cbv zeta. krun Hfill. erewrite bind_done by (by apply get_run). krun Hput. exact Hcur.
  - apply (cursor_drawn (s_vram vr s1) (t_temp tb t)). intros j Hj. cbn [s_vram videoram]. by rewrite Hgv, Hg.
Qed.

(** ** Writing *)

(** In a text of at most 100 rows the cursor, when it is on the screen, is in
    the part of the text that is shown. *)
Lemma visible_short t x : represents t x -> Z.of_nat (length (t_cells x)) <= 8000 ->
  circ_dist (vt_cursor t) (vt_top t) < 2000 -> circ_dist (vt_cursor t) (vt_top t) < circ_dist (vt_tail t) (vt_top t).
Proof.
  intros Hrp Hlen. pose proof (shaped_facts t (ex_intro _ x Hrp)) as (_ & _ & (tr & Etop & Htr) & (lr & Etl & Hlr) & Hcur).
  destruct Hrp as [_ _ (hr & Eh & Hhr) _ (n & En & Hn) Etail Ecur Hat _].
  rewrite !circ_dist_range by lia. rewrite Etail, Ecur, Eh, Etop, En in *. unfold wrap. mlia.
Qed.

(** What a character changes in the picture. *)
Lemma pic_step t t' x adv w rel : represents t x -> same_rest t t' -> effect adv w t t' ->
  (adv = true -> Z.of_nat (length (t_cells x)) <= t_at x + 80) -> rel = circ_dist (vt_cursor t) (vt_top t) -> rel < 2000 ->
  (is_Some w -> rel < circ_dist (vt_tail t) (vt_top t)) ->
  forall j, 0 <= j < 2000 -> pic t' j = if decide (is_Some w /\ j = rel) then w else pic t j.
Proof.
  intros Hrp (Etp & _) [Et Eb] Hadv Erel Hrel Hvis j Hj.
  pose proof (shaped_facts t (ex_intro _ x Hrp)) as (_ & _ & (tr & Etop & Htr) & (lr & Etl & Hlr) & Hcur).
  destruct Hrp as [_ _ (hr & Eh & Hhr) _ (n & En & Hn) Etail Ecur Hat _].
  assert (Hpos : wrap (vt_top t + j) = vt_cursor t <-> j = rel).
  { rewrite Erel, circ_dist_range by lia. unfold wrap in *. split; intros; mlia. }
  set (d := circ_dist (vt_tail t) (vt_top t)) in *. assert (Ed : d = wrap (vt_tail t - vt_top t)) by (apply circ_dist_range; lia).
  unfold pic. rewrite Etp, Et. fold d. pose proof (wrap_range (vt_top t + j)). rewrite Eb by lia. destruct adv.
  - specialize (Hadv eq_refl).
    assert (Ed' : circ_dist (wrap (vt_tail t + 80)) (vt_top t) = d + 80 /\ rel < d).
    { rewrite circ_dist_range by (pose proof (wrap_range (vt_tail t + 80)); lia). rewrite Erel, circ_dist_range in * by lia.
      rewrite Ed, Etail, Ecur, Eh, Etop, En in *. unfold wrap in *. mlia. }
    destruct Ed' as [-> Hv]. assert (Hin : vt_tail t <= wrap (vt_top t + j) < vt_tail t + 80 <-> d <= j < d + 80).
    { rewrite Ed, Etl, Etop in *. unfold wrap in *. mlia. }
    destruct (Z.ltb_spec j (d + 80)).
    + destruct (decide (j < d)).
      * rewrite decide_False by (intros [_ ?]; lia). rewrite (proj2 (Z.ltb_lt j d)) by lia.
        destruct (decide (is_Some w /\ j = rel)) as [[? ?]|Hn']; [by rewrite decide_True by (split; [done|by apply Hpos])|].
        rewrite decide_False; [done|]. intros [? ?%Hpos]. by apply Hn'.
      * rewrite decide_True by (split; [done|lia]). rewrite decide_False by (intros [_ ?]; lia). by rewrite (proj2 (Z.ltb_ge j d)) by lia.
    + rewrite decide_False by (intros [_ ?]; lia). by rewrite (proj2 (Z.ltb_ge j d)) by lia.
  - fold d. rewrite (decide_False (P := false = true /\ _)) by (intros [? _]; done).
    destruct (decide (is_Some w /\ j = rel)) as [[Hw ->]|Hn'].
    + rewrite (proj2 (Z.ltb_lt rel d)) by auto. rewrite decide_True; [done|]. split; [done|by apply Hpos].
    + destruct (j <? d); [|done]. rewrite decide_False; [done|]. intros [? ?%Hpos]. by apply Hn'.
Qed.

(** Moving the top so that the cursor is on the last row of the screen. *)
Lemma retop_ok t x : represents t x -> 2000 <= circ_dist (vt_cursor t) (vt_top t) ->
  let t1 := t_top (buf_add (next_row (vt_cursor t)) (- DISPLAY_SIZE)) t in
  represents t1 x /\ circ_dist (vt_cursor t1) (vt_top t1) < 2000 /\ vt_top t1 <> vt_top t.
Proof.
  intros Hrp Hoff t1. pose proof (shaped_facts t (ex_intro _ x Hrp)) as (_ & _ & (tr & Etop & Htr) & _ & Hcur).
  pose proof Hrp as [Hb Htp (hr & Eh & Hhr) Htop (n & En & Hn) Etail Ecur Hat Hcells].
  assert (E : buf_add (next_row (vt_cursor t)) (- DISPLAY_SIZE) = wrap (80 * (hr + t_at x / 80 + 1 - 25))).
  { rewrite Ecur, Eh, next_row_wrap, buf_add_wrap by (ring_unfold; lia). ring_unfold. f_equal. lia. }
  assert (H2 : circ_dist (vt_cursor t) (wrap (80 * (hr + t_at x / 80 + 1 - 25))) < 2000).
  { rewrite circ_dist_range by (try done; apply wrap_range). rewrite Ecur, Eh. unfold wrap. mlia. }
  unfold t1. rewrite E. split_and!; [|exact H2|].
  - split; cbn [t_top vt_buf vt_tempbuf vt_head vt_top vt_tail vt_cursor]; try done; [by exists hr|apply rowed_wrap|by exists n].
  - cbn [t_top vt_top]. intros Eq. rewrite Eq in H2. lia.
Qed.

Lemma putchar_run c rel s : 0 <= rel < 2000 -> length (videoram s) = 2048%nat ->
  exists vr, screen_putchar c (Z.rem rel DISPLAY_WIDTH) (Z.quot rel DISPLAY_WIDTH) s = Done tt (s_vram vr s) /\ length vr = 2048%nat /\
    forall j, 0 <= j -> zget vr j = if decide (j = rel) then Some (word c) else zget (videoram s) j.
Proof.
  intros Hr Hv. ring_unfold. rewrite Z.rem_mod_nonneg, Z.quot_div_nonneg by lia.
  destruct (splice_some (videoram s) rel [word c]) as (vr & Ev & Hl & Hg); [lia|cbn [length]; lia|].
  exists vr. split_and!; [|lia|].
  - unfold screen_putchar, poke. ring_unfold. erewrite bind_done by reflexivity.
    assert (E : u8 (rel / 80) * 80 + u8 (rel mod 80) = rel) by (unfold u8; rewrite !Z.mod_small by mlia; mlia).
    rewrite E. fold (word c). rewrite Ev. by erewrite bind_done by reflexivity.
  - intros j Hj. rewrite Hg by done. cbn [length]. destruct (decide (j = rel)) as [->|].
    + rewrite decide_True by lia. by rewrite Z.sub_diag.
    + by rewrite decide_False by lia.
Qed.

(** ** All terminals *)
Record tty_ok (s : tstate) (X : list text) : Prop := TtyOk {
  to_count : length X = 3%nat;
  to_terms : Forall2 represents (vt_terms s) X;
  to_vram : length (videoram s) = 2048%nat;
  to_screen : exists k t, vt_curterm s = Some k /\ vt_terms s !! k = Some t /\ drawn (videoram s) (crt_regs s) t
}.

Lemma tty_term s X i x : tty_ok s X -> X !! i = Some x -> exists t, vt_terms s !! i = Some t /\ represents t x.
Proof. intros Hs Hx. destruct (Forall2_lookup_r _ _ _ _ _ (to_terms _ _ Hs) Hx) as (t & Ht & Hr). eauto. Qed.

Lemma upd_same i t s : vt_terms s !! i = Some t -> upd i t s = s.
Proof. intros H. unfold upd, s_terms. rewrite list_insert_id by done. by destruct s. Qed.

Lemma redraw_ok s X i t : Forall2 represents (vt_terms s) X -> length X = 3%nat -> length (videoram s) = 2048%nat ->
  vt_curterm s = Some i -> vt_terms s !! i = Some t ->
  exists s', vt_redraw s = Done tt s' /\ tty_ok s' X /\ same_else s s' /\
    exists tb, vt_terms s' = <[i := t_temp tb t]> (vt_terms s).
Proof.
  intros HX Hl Hv Hc Ht. destruct (Forall2_lookup_l _ _ _ _ _ HX Ht) as (x & Hx & Hrp).
  destruct (redraw_run i s t Hc Ht (ex_intro _ x Hrp) Hv) as (s' & tb & Hrun & Et & Hlt & Hv' & Hd & Hse).
  exists s'. split_and!; [done| |done|by exists tb]. split; [done| |done|].
  - rewrite Et. rewrite <- (list_insert_id X i x Hx). apply Forall2_insert; [done|by apply temp_ok].
  - exists i, (t_temp tb t). split_and!; [by rewrite (proj1 Hse)| |done]. rewrite Et. apply list_lookup_insert_eq. by eapply lookup_lt_Some.
Qed.

(** The character alone is as good as the whole picture. *)
Lemma draw_char_run i c s t t2 x adv : let rel := circ_dist (vt_cursor t) (vt_top t) in let s2 := upd i t2 s in
  length (videoram s) = 2048%nat -> drawn (videoram s) (crt_regs s) t -> represents t x -> same_rest t t2 ->
  effect adv (if printable c then Some c else None) t t2 -> (adv = true -> Z.of_nat (length (t_cells x)) <= t_at x + 80) ->
  rel < 2000 -> Z.of_nat (length (t_cells x)) <= 8000 ->
  exists vr, (if printable c then screen_putchar c (Z.rem rel DISPLAY_WIDTH) (Z.quot rel DISPLAY_WIDTH) else ret tt) s2 = Done tt (s_vram vr s2) /\
    length vr = 2048%nat /\ forall j, 0 <= j < 2000 -> zget vr j = word <$> pic t2 j.
Proof.
  intros rel s2 Hv Hd Hrp Hsame Heff Hadv Hrel Hshort.
  assert (Hrel0 : 0 <= rel).
  { pose proof (shaped_facts t (ex_intro _ x Hrp)) as (_ & _ & (tr & Etop & Htr) & _ & Hc). unfold rel. rewrite circ_dist_range by lia. apply wrap_range. }
  pose proof (pic_step t t2 x adv _ _ Hrp Hsame Heff Hadv eq_refl Hrel (fun _ => visible_short t x Hrp Hshort Hrel)) as Hpic. fold rel in Hpic.
  destruct (printable c).
  - destruct (putchar_run c rel s2 (conj Hrel0 Hrel) Hv) as (vr & Hp & Hlv & Hg). exists vr. split_and!; try done. intros j Hj. rewrite Hg, Hpic by lia.
    destruct (decide (j = rel)) as [->|Hne]; [by rewrite decide_True by (split; [by eexists|done])|]. rewrite decide_False by (intros [_ ?]; done). by apply (dr_cells _ _ _ Hd).
  - exists (videoram s2). split_and!; [by destruct s|done|]. intros j Hj. rewrite Hpic by lia. rewrite decide_False by (intros [[? ?] _]; done). by apply (dr_cells _ _ _ Hd).
Qed.

Lemma provide_run i c s X x : tty_ok s X -> X !! i = Some x ->
  (vt_curterm s = Some i -> Z.of_nat (length (t_cells x)) <= 8000) ->
  exists s', vt_provide_char (Some i) c s = Done tt s' /\ tty_ok s' (<[i := put c x]> X) /\ same_else s s'.
Proof.
  intros Hs Hx Hshort. destruct (tty_term s X i x Hs Hx) as (t & Ht & Hrp). pose proof Hs as [Hl HX Hv (k & tk & Hk & Htk & Hd)].
  unfold vt_provide_char. erewrite bind_done by (by apply kassert_true). erewrite bind_done by reflexivity.
  erewrite bind_done by (by apply get_run). change DISPLAY_SIZE with 2000 at 1.
  set (off := 2000 <=? circ_dist (vt_cursor t) (vt_top t)).
  set (t1 := if off then t_top (buf_add (next_row (vt_cursor t)) (- DISPLAY_SIZE)) t else t).
  assert (H1 : represents t1 x /\ circ_dist (vt_cursor t1) (vt_top t1) < 2000 /\ (vt_top t =? vt_top t1) = negb off /\ vt_cursor t1 = vt_cursor t /\ (off = false -> t1 = t)).
  { unfold t1, off. destruct (Z.leb_spec 2000 (circ_dist (vt_cursor t) (vt_top t))) as [Hoff|Hon].
    - destruct (retop_ok t x Hrp Hoff) as (A & B & C). split_and!; [done|done|by apply Z.eqb_neq, not_eq_sym|done|done].
    - split_and!; try done. apply Z.eqb_refl. }
  destruct H1 as (Hrp1 & Hrel & Etopq & Ecur1 & Et1).
  assert (Hset : (if off then set_term i (t_top (buf_add (next_row (vt_cursor t)) (- DISPLAY_SIZE))) else ret tt) s = Done tt (upd i t1 s)).
  { unfold t1. destruct off; [by apply set_run|]. by rewrite upd_same. }
  krun Hset. destruct (char_run i c (upd i t1 s) t1 x (upd_get _ _ _ _ Ht) Hrp1) as (t2 & adv & Hchar & Hsame & Hrp2 & Heff & Hadv).
  krun Hchar. rewrite upd_upd. erewrite bind_done by reflexivity. cbn [upd s_terms vt_curterm].
  set (s2 := upd i t2 s) in *. assert (Ht2 : vt_terms s2 !! i = Some t2) by (by eapply upd_get).
  assert (HX2 : Forall2 represents (vt_terms s2) (<[i := put c x]> X)) by (by apply Forall2_insert).
  destruct (bool_decide_reflect (vt_curterm s = Some i)) as [Hcur|Hcur].
  2:{ exists s2. split_and!; [done| |done]. split; [by rewrite length_insert|done|done|]. exists k, tk. split_and!; [done| |done].
      cbn [s2 upd s_terms vt_terms]. rewrite list_lookup_insert_ne by congruence. done. }
  rewrite Hk in Hcur. injection Hcur as ->. rewrite Ht in Htk. injection Htk as <-.
  erewrite bind_done by (by apply get_run). rewrite (proj1 Hsame), Etopq. destruct off; cbn [negb].
  { destruct (redraw_ok s2 (<[i := put c x]> X) i t2 HX2 ltac:(by rewrite length_insert) Hv Hk Ht2) as (s' & Hrun & Hok & Hse & _). exists s'. split_and!; [exact Hrun|exact Hok|exact Hse]. }
  rewrite (Et1 eq_refl) in *. clear Et1 Etopq.
  destruct (draw_char_run i c s t t2 x adv Hv Hd Hrp Hsame Heff Hadv Hrel (Hshort Hk)) as (vr & Hdraw & Hlv & Hg).
  krun Hdraw.
  pose proof (cursor_redraw_run i (s_vram vr s2) t2 Hk Ht2 (ex_intro _ _ Hrp2)) as Hc.
  eexists. split_and!; [exact Hc| |done]. split; [by rewrite length_insert|done|done|].
  exists i, t2. split_and!; [done|done|]. by apply (cursor_drawn (s_vram vr s2)).
Qed.

(** ** Scrolling and switching *)
Lemma top_ok t x q : represents t x -> rowed q -> represents (t_top q t) x.
Proof. intros [] Hq. by split. Qed.

Lemma rowed_add x k : rowed x -> -125 <= k -> rowed (buf_add x (k * 80)).
Proof. intros (r & -> & Hr) Hk. rewrite <- (wrap_small (80 * r)), buf_add_wrap by lia. replace (80 * r + k * 80) with (80 * (r + k)) by lia. apply rowed_wrap. Qed.

(** Where [vt_top] goes: [lines] rows up, but not above the head; or down, but
    not below the last row. *)
Definition scrolled (t : virtterm) (lines : Z) (up : bool) (top' : Z) : Prop :=
  rowed top' /\
  if up then circ_dist top' (vt_head t) = Z.max 0 (circ_dist (vt_top t) (vt_head t) - lines * 80)
  else circ_dist (vt_tail t) top' = Z.max 80 (circ_dist (vt_tail t) (vt_top t) - lines * 80).

Lemma scroll_top i s t x lines (up : bool) : vt_terms s !! i = Some t -> represents t x -> 0 <= lines ->
  exists q, (if up then
     if circ_dist (vt_top t) (vt_head t) <? lines * DISPLAY_WIDTH then set_term i (t_top (vt_head t))
     else set_term i (t_top (buf_add (vt_top t) (- lines * DISPLAY_WIDTH)))
   else
     if circ_dist (vt_tail t) (vt_top t) <? (lines + 1) * DISPLAY_WIDTH
     then set_term i (t_top (buf_add (vt_tail t) (- DISPLAY_WIDTH)))
     else set_term i (t_top (buf_add (vt_top t) (lines * DISPLAY_WIDTH)))) s = Done tt (upd i (t_top q t) s) /\ scrolled t lines up q.
Proof.
  intros Ht Hrp Hl. pose proof (shaped_facts t (ex_intro _ x Hrp)) as (_ & _ & Htop & Htail & _). pose proof (rp_head _ _ Hrp) as Hhead.
  pose proof Htop as (tr & Etop & Htr). pose proof Htail as (lr & Etl & Hlr). pose proof Hhead as (hr & Eh & Hhr). ring_unfold. unfold scrolled. destruct up.
  - rewrite (circ_dist_range (vt_top t)) by lia. destruct (Z.ltb_spec (wrap (vt_top t - vt_head t)) (lines * 80)) as [H|H].
    + exists (vt_head t). split_and!; [by apply set_run|done|]. rewrite circ_dist_range by lia. rewrite Z.sub_diag. change (wrap 0) with 0. lia.
    + assert (lines <= 125) by (pose proof (wrap_range (vt_top t - vt_head t)); lia).
      exists (buf_add (vt_top t) (- lines * 80)). split_and!; [by apply set_run|apply rowed_add; [done|lia]|].
      rewrite <- (wrap_small (vt_top t)) at 1 by lia. rewrite buf_add_wrap by lia. rewrite circ_dist_range by (try apply wrap_range; lia).
      unfold wrap in *. mlia.
  - rewrite (circ_dist_range (vt_tail t) (vt_top t)) by lia. destruct (Z.ltb_spec (wrap (vt_tail t - vt_top t)) ((lines + 1) * 80)) as [H|H].
    + exists (buf_add (vt_tail t) (- 80)). split_and!; [by apply set_run|apply (rowed_add _ (-1)); [done|lia]|].
      rewrite <- (wrap_small (vt_tail t)) at 2 by lia. rewrite buf_add_wrap by lia. rewrite circ_dist_range by (try apply wrap_range; lia).
      unfold wrap in *. mlia.
    + exists (buf_add (vt_top t) (lines * 80)). split_and!; [by apply set_run|apply rowed_add; [done|lia]|].
      rewrite <- (wrap_small (vt_top t)) at 1 by lia. rewrite buf_add_wrap by lia. rewrite circ_dist_range by (try apply wrap_range; lia).
      unfold wrap in *. mlia.
Qed.

Lemma scroll_run s X lines up : tty_ok s X -> 0 <= lines ->
  exists s' i t t', vt_scroll lines up s = Done tt s' /\ tty_ok s' X /\ same_else s s' /\
    vt_curterm s = Some i /\ vt_terms s !! i = Some t /\ vt_terms s' !! i = Some t' /\ scrolled t lines up (vt_top t').
Proof.
  intros Hs Hl. pose proof Hs as [Hlen HX Hv (k & t & Hk & Ht & Hd)]. destruct (Forall2_lookup_l _ _ _ _ _ HX Ht) as (x & Hx & Hrp).
  destruct (scroll_top k s t x lines up Ht Hrp Hl) as (q & Hset & Hq).
  assert (Ht1 : vt_terms (upd k (t_top q t) s) !! k = Some (t_top q t)) by (by eapply upd_get).
  destruct (redraw_ok (upd k (t_top q t) s) X k (t_top q t)) as (s' & Hrun & Hok & Hse & tb & Et); try done.
  { rewrite <- (list_insert_id X k x Hx). apply Forall2_insert; [done|]. apply top_ok; [done|apply Hq]. }
  exists s', k, t, (t_temp tb (t_top q t)). split_and!; try done.
  - unfold vt_scroll. erewrite bind_done by (unfold curterm, deref; by rewrite Hk). erewrite bind_done by (by apply get_run). krun Hset. exact Hrun.
  - rewrite Et. apply list_lookup_insert_eq. by eapply lookup_lt_Some.
Qed.

Lemma vt_switch_run s X term : tty_ok s X ->
  if (term <? 0) || (3 <=? term) then vt_switch term s = Done (-1) s
  else exists s', vt_switch term s = Done 0 s' /\ tty_ok s' X /\ same_else (s_cur (Some (Z.to_nat term)) s) s'.
Proof.
  intros Hs. unfold vt_switch. change NTERMS with 3. destruct (Z.ltb_spec term 0); [done|]. destruct (Z.leb_spec 3 term); [done|]. cbn [orb].
  pose proof Hs as [Hlen HX Hv _]. pose proof (Forall2_length _ _ _ HX) as El.
  destruct (lookup_lt_is_Some_2 (vt_terms s) (Z.to_nat term) ltac:(lia)) as (t & Ht).
  destruct (redraw_ok (s_cur (Some (Z.to_nat term)) s) X (Z.to_nat term) t) as (s' & Hrun & Hok & Hse & _); try done.
  exists s'. split_and!; [|done|exact Hse]. erewrite bind_done by reflexivity. by krun Hrun.
Qed.

(** ** Starting *)
Definition blank : text := Text blank_row 0.

(** A terminal as [vt_init] leaves it. *)
Definition zeros (n : Z) : list Z := replicate (Z.to_nat n) 0.
Lemma zeros_length n : 0 <= n -> Z.of_nat (length (zeros n)) = n.
Proof. intros. unfold zeros. rewrite length_replicate. by apply Z2Nat.id. Qed.

Definition init_term (t : virtterm) : virtterm := VT 0 80 0 0 (zeros SCROLL_BUFSIZE) (vt_tempbuf t) true None 0.

Lemma zeros_memset (l : list Z) n : 0 <= n -> Z.of_nat (length l) = n -> fill l 0 0 n = Some (zeros n).
Proof.
  intros Hn Hl. unfold fill. fold (zeros n). pose proof (zeros_length n Hn). rewrite (proj2 (Z.leb_le _ _) Hn). unfold splice.
  rewrite (proj2 (Z.leb_le (0 + _) _)) by lia. cbn [andb Z.leb Z.compare Z.to_nat Nat.add].
  rewrite take_0, drop_ge by lia. cbn [app]. by rewrite app_nil_r.
Qed.

Lemma init_term_ok t : Z.of_nat (length (vt_tempbuf t)) = 2000 -> represents (init_term t) blank.
Proof.
  intros Ht. split; cbn [init_term vt_buf vt_tempbuf vt_head vt_top vt_tail vt_cursor blank t_cells t_at].
  - by apply zeros_length.
  - done.
  - by exists 0.
  - by exists 0.
  - by exists 1.
  - done.
  - done.
  - done.
  - intros j Hj. change (length blank_row) with 80%nat in Hj. rewrite wrap_small by lia.
    unfold zeros. rewrite zget_zeros by (unfold SCROLL_BUFSIZE; lia). symmetry. apply (zget_zeros 80). lia.
Qed.

Lemma init_terms_run n : forall i s, (forall k t, vt_terms s !! k = Some t -> Z.of_nat (length (vt_buf t)) = 10000) ->
  (i + n <= length (vt_terms s))%nat ->
  exists l, init_terms i n s = Done tt (s_terms (fun _ => l) s) /\ length l = length (vt_terms s) /\
    forall k t, vt_terms s !! k = Some t -> l !! k = Some (if decide (i <= k < i + n)%nat then init_term t else t).
Proof.
  induction n as [|n IH]; intros i s Hl Hin; cbn [init_terms].
  { exists (vt_terms s). split_and!; [by destruct s|done|]. intros k t Hk. rewrite decide_False by lia. done. }
  destruct (lookup_lt_is_Some_2 (vt_terms s) i ltac:(lia)) as (t & Ht).
  erewrite bind_done by (by apply get_run). rewrite (zeros_memset (vt_buf t) SCROLL_BUFSIZE) by (try done; by eapply Hl).
  erewrite bind_done by reflexivity. erewrite bind_done by (by apply set_run).
  do 5 (erewrite bind_done by (apply set_run; by eapply upd_get); rewrite upd_upd).
  set (t' := t_driver _ _ _ _). assert (Et : t' = init_term t) by done. clearbody t'. subst t'.
  destruct (IH (S i) (upd i (init_term t) s)) as (l & Hrun & Hlen & Hk).
  - intros k t' Hk. destruct (decide (k = i)) as [->|].
    + erewrite upd_get in Hk by done. injection Hk as <-. by apply zeros_length.
    + cbn [upd s_terms vt_terms] in Hk. rewrite list_lookup_insert_ne in Hk by done. by eapply Hl.
  - cbn [upd s_terms vt_terms]. rewrite length_insert. lia.
  - exists l. split_and!; [exact Hrun|rewrite Hlen; cbn [upd s_terms vt_terms]; by rewrite length_insert|].
    intros k t0 Hk0. destruct (decide (k = i)) as [->|].
    + rewrite Ht in Hk0. injection Hk0 as <-. rewrite (Hk i (init_term t)) by (by eapply upd_get). rewrite decide_False by lia. by rewrite decide_True by lia.
    + rewrite (Hk k t0) by (cbn [upd s_terms vt_terms]; by rewrite list_lookup_insert_ne). do 2 f_equal.
      destruct (decide (S i <= k < S i + n)%nat); [by rewrite decide_True by lia|by rewrite decide_False by lia].
Qed.

Lemma vt_init_run vr mask level : length vr = 2048%nat ->
  exists s', vt_init (fresh vr mask level) = Done tt s' /\ tty_ok s' [blank; blank; blank] /\
    vt_curterm s' = Some 0%nat /\ keyboard_handler s' = Some VtKeyboardHandler /\ curmask s' = mask /\ ipl s' = level /\ delivered s' = [].
Proof.
  intros Hv. unfold vt_init. set (s0 := fresh vr mask level).
  assert (Hz : forall k t, vt_terms s0 !! k = Some t -> t = zero_term) by (intros k t Hk; by apply lookup_replicate in Hk as [-> _]).
  destruct (init_terms_run (Z.to_nat NTERMS) 0 s0) as (l & Hrun & Hlen & Hk).
  { intros k t ->%Hz. by apply zeros_length. }
  { done. }
  krun Hrun. erewrite bind_done by reflexivity. set (s1 := s_cur (Some 0%nat) _).
  assert (Hl : l = replicate 3 (init_term zero_term)).
  { apply list_eq. intros k. destruct (decide (k < 3)%nat).
    - rewrite lookup_replicate_2 by done. rewrite (Hk k zero_term) by (by apply lookup_replicate_2). by rewrite decide_True by (change (Z.to_nat NTERMS) with 3%nat; lia).
    - rewrite !lookup_ge_None_2; [done|rewrite length_replicate; lia|rewrite Hlen; change (length (vt_terms s0)) with 3%nat; lia]. }
  destruct (redraw_ok s1 [blank; blank; blank] 0 (init_term zero_term)) as (s' & Hdraw & Hok & (E1 & E2 & E3 & E4 & E5) & tb & Et).
  { change (vt_terms s1) with l. rewrite Hl. assert (Hi : represents (init_term zero_term) blank) by (apply init_term_ok; by apply zeros_length).
    do 3 (apply Forall2_cons; split; [exact Hi|]). apply Forall2_nil. exact I. }
  { reflexivity. }
  { exact Hv. }
  { reflexivity. }
  { change (vt_terms s1) with l. rewrite Hl. reflexivity. }
  krun Hdraw. exists (s_handler (Some VtKeyboardHandler) s'). split_and!; [reflexivity| |exact E1|reflexivity|exact E3|exact E4|exact E5].
  clear -Hok. destruct Hok as [A B C (k & t & D)]. split; [done|done|done|by exists k, t].
Qed.

(** ** Theorems *)

(** C25: [vt_handle_char] implements writing a character to a text of at most 124
    rows: backspace, carriage return, newline and other characters move the
    cursor and change the text as [put] says, a row is added at the end when the
    cursor leaves the last one, and the first row goes when there are 124. *)
Theorem vt_handle_char_refines i c s t x : vt_terms s !! i = Some t -> represents t x ->
  exists t', vt_handle_char i c s = Done (printable c) (upd i t' s) /\ same_rest t t' /\ represents t' (put c x).
Proof. intros Ht Hrp. destruct (char_run i c s t x Ht Hrp) as (t' & adv & ? & ? & ? & _). by exists t'. Qed.

(** [vt_redraw] draws, in whichever of its four ways, the text from [vt_top]
    up to the tail and blanks after it. *)
Theorem vt_redraw_spec i s t x : vt_curterm s = Some i -> vt_terms s !! i = Some t -> represents t x -> length (videoram s) = 2048%nat ->
  exists s' tb, vt_redraw s = Done tt s' /\ vt_terms s' = <[i := t_temp tb t]> (vt_terms s) /\
    drawn (videoram s') (crt_regs s') (t_temp tb t) /\ same_else s s'.
Proof.
  intros Hc Ht Hrp Hv. destruct (redraw_run i s t Hc Ht (ex_intro _ x Hrp) Hv) as (s' & tb & ? & ? & _ & _ & ? & ?). by exists s', tb.
Qed.

(** [vt_scroll] moves the top of the screen by the rows asked for, stops at the
    head of the buffer and at its last row, keeps every text and shows the
    result. *)
Theorem vt_scroll_spec s X lines up : tty_ok s X -> 0 <= lines ->
  exists s' i t t', vt_scroll lines up s = Done tt s' /\ tty_ok s' X /\ same_else s s' /\
    vt_curterm s = Some i /\ vt_terms s !! i = Some t /\ vt_terms s' !! i = Some t' /\ scrolled t lines up (vt_top t').
Proof. apply scroll_run. Qed.
End VirtTermSpec.
