(* ===== verification/Keyboard.v ===== *)
(** * The keyboard driver ([drivers/tty/keyboard.c])

    The interrupt handler: scan codes become characters for the current
    terminal, switches of the terminal and scrolling.  The declarations of
    [curmask] and its bits are not in the sources; the bits are parameters
    ([Masks]), of which only that they are different bits matters
    ([MaskLaws]). *)

From Stdlib Require Import ZArith Lia Ascii String.
From stdpp Require Import base list gmap.
From S2P Require Import Prelude VirtTerm VirtTermSpec.

Module Keyboard.
Import VirtTerm VirtTermSpec.
Local Open Scope Z_scope.

Class Masks := { SHIFT_MASK : Z; CTRL_MASK : Z; ESC_MASK : Z }.

Class MaskLaws `{Masks} : Prop := {
  shift_pos : 0 < SHIFT_MASK;
  ctrl_pos : 0 < CTRL_MASK;
  shift_ctrl : Z.land SHIFT_MASK CTRL_MASK = 0;
  shift_esc : Z.land SHIFT_MASK ESC_MASK = 0;
  ctrl_esc : Z.land CTRL_MASK ESC_MASK = 0
}.

Definition LSHIFT : Z := 0x2a.
Definition RSHIFT : Z := 0x36.
Definition CTRL : Z := 0x1d.
Definition ESC0 : Z := 0xe0.
Definition ESC1 : Z := 0xe1.
Definition SCROLL_UP : Z := 0x0e.
Definition SCROLL_DOWN : Z := 0x1c.
Definition VT_KEY_LOW : Z := 0x3b.
Definition VT_KEY_HIGH : Z := 0x44.
Definition BREAK_MASK : Z := 0x80.
Definition NORMAL_KEY_HIGH : Z := 0x39.
Definition NO_CHAR : Z := 0xff.

(** The tables, with the NUL of the string literal. *)
Definition normal_scancodes : list Z :=
  [0; 27] ++ chars "1234567890-=" ++ [8] ++ [9] ++ chars "qwertyuiop[]" ++ [10] ++ [0] ++
  chars "asdfghjkl;'`" ++ [0] ++ chars "\" ++ chars "zxcvbnm,./" ++ [0; 0; 0] ++ chars " " ++ [0].
Definition shift_scancodes : list Z :=
  [0; 27] ++ chars "!@#$%^&*()_+" ++ [8] ++ [9] ++ chars "QWERTYUIOP{}" ++ [10] ++ [0] ++
  chars "ASDFGHJKL:" ++ [34] ++ chars "~" ++ [0] ++ chars "|" ++ chars "ZXCVBNM<>?" ++ [0; 0; 0] ++ chars " " ++ [0].

Definition table (l : list Z) (sc : Z) : M Z := fun s => deref (l !! Z.to_nat sc) s.

Definition mask_set (m : Z) : M unit := modify (fun s => s_mask (Z.lor (curmask s) m) s).
Definition mask_clear (m : Z) : M unit := modify (fun s => s_mask (Z.ldiff (curmask s) m) s).
Definition bit (m mask : Z) : bool := negb (Z.land m mask =? 0).

Section Handler.
Context `{Masks}.

(** [code] is what [inb(KEYBOARD_IN_PORT)] gives. *)
Definition keyboard_intr_handler (code : Z) : M unit :=
  let sc := u8 code in
  let break_code := Z.land sc BREAK_MASK in
  let sc := Z.ldiff sc BREAK_MASK in
  let* m := gets curmask in
  let* c :=
    (if negb (break_code =? 0) then
       (if (sc =? LSHIFT) || (sc =? RSHIFT) then mask_clear SHIFT_MASK
        else if sc =? CTRL then mask_clear CTRL_MASK else ret tt) ;; ret NO_CHAR
     else if (sc =? LSHIFT) || (sc =? RSHIFT) then mask_set SHIFT_MASK ;; ret NO_CHAR
     else if sc =? CTRL then mask_set CTRL_MASK ;; ret NO_CHAR
     else if bit m ESC_MASK then mask_clear ESC_MASK ;; ret NO_CHAR
     else if (sc =? ESC0) || (sc =? ESC1) then mask_set ESC_MASK ;; ret NO_CHAR
     else if (VT_KEY_LOW <=? sc) && (sc <=? VT_KEY_HIGH) then vt_switch (sc - VT_KEY_LOW) ;; ret NO_CHAR
     else if bit m CTRL_MASK && (sc =? SCROLL_DOWN) then vt_scroll DISPLAY_HEIGHT false ;; ret NO_CHAR
     else if bit m CTRL_MASK && (sc =? SCROLL_UP) then vt_scroll DISPLAY_HEIGHT true ;; ret NO_CHAR
     else if NORMAL_KEY_HIGH <? sc then ret NO_CHAR
     else if bit m CTRL_MASK then
       let* c := table shift_scancodes sc in
       if (0x40 <=? c) && (c <? 0x60) then ret (u8 (c - 0x40)) else ret NO_CHAR
     else if bit m SHIFT_MASK then table shift_scancodes sc
     else table normal_scancodes sc) in
  let* h := gets keyboard_handler in
  match h with
  | Some VtKeyboardHandler => if negb (c =? NO_CHAR) then vt_keyboard_handler c else ret tt
  | None => ret tt
  end.

(** ** What keys mean *)
Inductive key := Press (c : Z) | Switch (k : Z) | ScrollKey (up : bool) | Shift (down : bool) | Ctrl (down : bool) | Nothing.

(** A scan code from 0 to 255, with shift or control held. *)
Definition key_of (shift ctrl : bool) (code : Z) : key :=
  let sc := code mod 128 in
  if (sc =? LSHIFT) || (sc =? RSHIFT) then Shift (code <? 128)
  else if sc =? CTRL then Ctrl (code <? 128)
  else if 128 <=? code then Nothing
  else if (VT_KEY_LOW <=? sc) && (sc <=? VT_KEY_HIGH) then Switch (sc - VT_KEY_LOW)
  else if ctrl && (sc =? SCROLL_DOWN) then ScrollKey false
  else if ctrl && (sc =? SCROLL_UP) then ScrollKey true
  else if NORMAL_KEY_HIGH <? sc then Nothing
  else if ctrl then
    let c := nth (Z.to_nat sc) shift_scancodes 0 in
    if (0x40 <=? c) && (c <? 0x60) then Press (c - 0x40) else Nothing
  else Press (nth (Z.to_nat sc) (if shift then shift_scancodes else normal_scancodes) 0).

(** The modifiers held down; the escape bit is clear. *)
Record held (s : tstate) (shift ctrl : bool) : Prop := Held {
  hd_nonneg : 0 <= curmask s;
  hd_shift : bit (curmask s) SHIFT_MASK = shift;
  hd_ctrl : bit (curmask s) CTRL_MASK = ctrl;
  hd_esc : bit (curmask s) ESC_MASK = false
}.
End Handler.

(** ** The tables *)
Lemma table_bytes l sc : l = normal_scancodes \/ l = shift_scancodes -> 0 <= sc <= 0x39 ->
  exists c, l !! Z.to_nat sc = Some c /\ nth (Z.to_nat sc) l 0 = c /\ 0 <= c < 128.
Proof.
  intros Hl Hsc. set (ok := fun k => match l !! k with Some c => (nth k l 0 =? c) && (0 <=? c) && (c <? 128) | None => false end).
  assert (Hall : forallb ok (seq 0 58) = true) by (unfold ok; destruct Hl as [-> | ->]; vm_compute; reflexivity).
  rewrite forallb_forall in Hall. specialize (Hall (Z.to_nat sc) ltac:(apply in_seq; lia)). unfold ok in Hall.
  destruct (l !! Z.to_nat sc) as [c|]; [|done]. exists c. split; [done|]. lia.
Qed.

(** The break bit and the rest of a scan code. *)
Lemma code_parts code : 0 <= code < 256 ->
  u8 code = code /\ negb (Z.land code BREAK_MASK =? 0) = (128 <=? code) /\ Z.ldiff code BREAK_MASK = code mod 128.
Proof.
  intros Hc. set (ok := fun k => (u8 (Z.of_nat k) =? Z.of_nat k) && eqb (negb (Z.land (Z.of_nat k) BREAK_MASK =? 0)) (128 <=? Z.of_nat k) &&
    (Z.ldiff (Z.of_nat k) BREAK_MASK =? Z.of_nat k mod 128)).
  assert (Hall : forallb ok (seq 0 256) = true) by (vm_compute; reflexivity).
  rewrite forallb_forall in Hall. specialize (Hall (Z.to_nat code) ltac:(apply in_seq; lia)). unfold ok in Hall.
  rewrite Z2Nat.id in Hall by lia. apply andb_prop in Hall as [[H1 H2]%andb_prop H3]. apply eqb_prop in H2. lia.
Qed.

(** *** Bits *)
Lemma bit_lor_other m a b : Z.land a b = 0 -> bit (Z.lor m a) b = bit m b.
Proof. intros Hab. unfold bit. by rewrite Z.land_lor_distr_l, Hab, Z.lor_0_r. Qed.

Lemma bit_lor_same m a : 0 < a -> bit (Z.lor m a) a = true.
Proof.
  intros Ha. unfold bit. rewrite Z.land_lor_distr_l, Z.land_diag. destruct (Z.eqb_spec (Z.lor (Z.land m a) a) 0) as [E|]; [|done].
  apply Z.lor_eq_0_iff in E. lia.
Qed.

Lemma bit_ldiff_same m a : bit (Z.ldiff m a) a = false.
Proof.
  unfold bit. replace (Z.land (Z.ldiff m a) a) with 0; [done|]. symmetry. apply Z.bits_inj'. intros n Hn.
  rewrite Z.land_spec, Z.ldiff_spec, Z.bits_0. destruct (Z.testbit m n), (Z.testbit a n); done.
Qed.

Lemma bit_ldiff_other m a b : Z.land a b = 0 -> bit (Z.ldiff m a) b = bit m b.
Proof.
  intros Hab. unfold bit. do 2 f_equal. apply Z.bits_inj'. intros n Hn. rewrite !Z.land_spec, Z.ldiff_spec.
  assert (Hz : Z.testbit a n && Z.testbit b n = false) by (by rewrite <- Z.land_spec, Hab, Z.bits_0).
  destruct (Z.testbit m n), (Z.testbit a n), (Z.testbit b n); done.
Qed.

Section Spec.
Context `{MaskLaws}.

Lemma land_swap a b : Z.land a b = 0 -> Z.land b a = 0.
Proof. by rewrite Z.land_comm. Qed.

Lemma held_shift s ct sh (down : bool) : held s sh ct ->
  exists m, (if down then mask_set SHIFT_MASK else mask_clear SHIFT_MASK) s = Done tt (s_mask m s) /\ held (s_mask m s) down ct.
Proof.
  intros [Hn Hs Hc He]. pose proof shift_pos. destruct down; eexists; (split; [reflexivity|]); split; cbn [s_mask curmask].
  - apply Z.lor_nonneg. lia.
  - by apply bit_lor_same.
  - rewrite bit_lor_other; [done|apply shift_ctrl].
  - rewrite bit_lor_other; [done|apply shift_esc].
  - apply Z.ldiff_nonneg. by left.
  - apply bit_ldiff_same.
  - rewrite bit_ldiff_other; [done|apply shift_ctrl].
  - rewrite bit_ldiff_other; [done|apply shift_esc].
Qed.

Lemma held_ctrl s ct sh (down : bool) : held s sh ct ->
  exists m, (if down then mask_set CTRL_MASK else mask_clear CTRL_MASK) s = Done tt (s_mask m s) /\ held (s_mask m s) sh down.
Proof.
  intros [Hn Hs Hc He]. pose proof ctrl_pos. destruct down; eexists; (split; [reflexivity|]); split; cbn [s_mask curmask].
  - apply Z.lor_nonneg. lia.
  - rewrite bit_lor_other; [done|apply land_swap, shift_ctrl].
  - by apply bit_lor_same.
  - rewrite bit_lor_other; [done|apply ctrl_esc].
  - apply Z.ldiff_nonneg. by left.
  - rewrite bit_ldiff_other; [done|apply land_swap, shift_ctrl].
  - apply bit_ldiff_same.
  - rewrite bit_ldiff_other; [done|apply ctrl_esc].
Qed.

(** What the terminals see of a key. *)
Definition calls (s : tstate) (c : Z) : list (Z * Z * Z) :=
  match vt_curterm s ≫= fun i => vt_terms s !! i with
  | Some t => match ttd_callback t with Some f => [(f, ttd_callback_arg t, c)] | None => [] end
  | None => []
  end.

Definition key_post (k : key) (s : tstate) (sh ct : bool) (s' : tstate) : Prop :=
  match k with
  | Shift d => held s' d ct /\ delivered s' = delivered s /\ vt_curterm s' = vt_curterm s
  | Ctrl d => held s' sh d /\ delivered s' = delivered s /\ vt_curterm s' = vt_curterm s
  | Nothing => s' = s
  | Press c => s' = TS (vt_terms s) (vt_curterm s) (videoram s) (crt_addr s) (crt_regs s) (keyboard_handler s) (curmask s) (ipl s) (delivered s ++ calls s c)
  | Switch k => held s' sh ct /\ delivered s' = delivered s /\ vt_curterm s' = if k <? 3 then Some (Z.to_nat k) else vt_curterm s
  | ScrollKey up => held s' sh ct /\ delivered s' = delivered s /\ vt_curterm s' = vt_curterm s /\
      exists i t t', vt_curterm s = Some i /\ vt_terms s !! i = Some t /\ vt_terms s' !! i = Some t' /\ scrolled t 25 up (vt_top t')
  end.

(** The end of the handler. *)
Definition pass (c : Z) : M unit :=
  let* h := gets keyboard_handler in
  match h with
  | Some VtKeyboardHandler => if negb (c =? NO_CHAR) then vt_keyboard_handler c else ret tt
  | None => ret tt
  end.

Lemma pass_none s : pass NO_CHAR s = Done tt s.
Proof. unfold pass. erewrite bind_done by reflexivity. by destruct (keyboard_handler s) as [[]|]. Qed.

Lemma pass_char s c k t : keyboard_handler s = Some VtKeyboardHandler -> vt_curterm s = Some k -> vt_terms s !! k = Some t -> c <> NO_CHAR ->
  exists s', pass c s = Done tt s' /\ key_post (Press c) s false false s'.
Proof.
  intros Hh Hk Ht Hc. unfold pass. erewrite bind_done by reflexivity. rewrite Hh, (proj2 (Z.eqb_neq _ _) Hc). cbn [negb].
  unfold vt_keyboard_handler. erewrite bind_done by reflexivity. rewrite Hk. erewrite bind_done by (by apply get_run).
  cbn [key_post]. unfold calls. rewrite Hk. cbn [mbind option_bind]. rewrite Ht. destruct (ttd_callback t) as [f|]; eexists; (split; [reflexivity|]).
  - unfold s_deliver. by rewrite Hk, Hh.
  - rewrite app_nil_r. destruct s; cbn in *; by subst.
Qed.

Lemma held_same s s' sh ct : held s sh ct -> curmask s' = curmask s -> held s' sh ct.
Proof. intros [] E. split; by rewrite E. Qed.

Lemma mask_ok m s X : tty_ok s X -> tty_ok (s_mask m s) X.
Proof. intros [A B C (k & t & D)]. split; try done. by exists k, t. Qed.

Lemma deliver_ok e s X : tty_ok s X ->
  tty_ok (TS (vt_terms s) (vt_curterm s) (videoram s) (crt_addr s) (crt_regs s) (keyboard_handler s) (curmask s) (ipl s) e) X.
Proof. intros [A B C (k & t & D)]. split; try done. by exists k, t. Qed.

Lemma silent_run s (m : M Z) s1 : m s = Done NO_CHAR s1 -> (let* c := m in pass c) s = Done tt s1.
Proof. intros Hm. krun Hm. apply pass_none. Qed.

Lemma scroll_key_run s X sh ct up : tty_ok s X -> held s sh ct ->
  exists s', (let* c := vt_scroll DISPLAY_HEIGHT up ;; ret NO_CHAR in pass c) s = Done tt s' /\ tty_ok s' X /\
    keyboard_handler s' = keyboard_handler s /\ ipl s' = ipl s /\ key_post (ScrollKey up) s sh ct s'.
Proof.
  intros Hok Hheld. destruct (scroll_run s X 25 up Hok ltac:(lia)) as (s' & i & t0 & t' & Hrun & Hok' & (F1 & F2 & F3 & F4 & F5) & Hrest).
  exists s'. split_and!; try done; [apply silent_run; by krun Hrun|]. cbn [key_post]. split_and!; try done; [by apply (held_same s)|by exists i, t0, t'].
Qed.

Lemma press_run s X sh ct (m : M Z) c : tty_ok s X -> keyboard_handler s = Some VtKeyboardHandler -> m s = Done c s -> 0 <= c < 128 ->
  exists s', (let* c := m in pass c) s = Done tt s' /\ tty_ok s' X /\
    keyboard_handler s' = keyboard_handler s /\ ipl s' = ipl s /\ key_post (Press c) s sh ct s'.
Proof.
  intros Hok Hh Hm Hc. pose proof Hok as [_ _ _ (k & t & Hk & Ht & _)]. krun Hm.
  destruct (pass_char s c k t Hh Hk Ht ltac:(unfold NO_CHAR; lia)) as (s' & Hp & Hpost).
  exists s'. split; [done|]. cbn [key_post] in Hpost |- *. subst s'. split_and!; try done. by apply deliver_ok.
Qed.

Lemma key_run s X sh ct code : tty_ok s X -> held s sh ct -> keyboard_handler s = Some VtKeyboardHandler -> 0 <= code < 256 ->
  exists s', keyboard_intr_handler code s = Done tt s' /\ tty_ok s' X /\ keyboard_handler s' = keyboard_handler s /\ ipl s' = ipl s /\
    key_post (key_of sh ct code) s sh ct s'.
Proof using All.
  intros Hok Hheld Hh Hcode. pose proof Hheld as [_ Hsh Hct Hesc].
  destruct (code_parts code Hcode) as (E1 & E2 & E3). unfold keyboard_intr_handler. rewrite E1, E2, E3.
  erewrite bind_done by reflexivity. rewrite Hct, Hsh, Hesc. fold pass. unfold key_of. set (sc := code mod 128) in *.
  assert (Hsc : 0 <= sc < 128) by (unfold sc; Z.div_mod_to_equations; lia).
  pose proof (silent_run s) as Hstep.
  destruct (Z.leb_spec 128 code) as [Hbr|Hmk].
  { rewrite (proj2 (Z.ltb_ge code 128)) by done. destruct ((sc =? LSHIFT) || (sc =? RSHIFT)).
    { destruct (held_shift s ct sh false Hheld) as (m & Hm & Hd). exists (s_mask m s). split_and!; [|by apply mask_ok|done|done|done].
      apply Hstep. by krun Hm. }
    destruct (sc =? CTRL).
    { destruct (held_ctrl s ct sh false Hheld) as (m & Hm & Hd). exists (s_mask m s). split_and!; [|by apply mask_ok|done|done|done].
      apply Hstep. by krun Hm. }
    exists s. split_and!; [by apply Hstep|done|done|done|done]. }
  rewrite (proj2 (Z.ltb_lt code 128)) by done. destruct ((sc =? LSHIFT) || (sc =? RSHIFT)).
  { destruct (held_shift s ct sh true Hheld) as (m & Hm & Hd). exists (s_mask m s). split_and!; [|by apply mask_ok|done|done|done].
    apply Hstep. by krun Hm. }
  destruct (sc =? CTRL).
  { destruct (held_ctrl s ct sh true Hheld) as (m & Hm & Hd). exists (s_mask m s). split_and!; [|by apply mask_ok|done|done|done].
    apply Hstep. by krun Hm. }
  assert (He : (sc =? ESC0) || (sc =? ESC1) = false) by (unfold ESC0, ESC1; lia). rewrite He.
  destruct ((VT_KEY_LOW <=? sc) && (sc <=? VT_KEY_HIGH)) eqn:Hvt.
  { pose proof (vt_switch_run s X (sc - VT_KEY_LOW) Hok) as Hsw.
    rewrite (proj2 (Z.ltb_ge (sc - VT_KEY_LOW) 0)) in Hsw by lia. cbn [orb] in Hsw. cbn [key_post].
    destruct (Z.leb_spec 3 (sc - VT_KEY_LOW)).
    - exists s. rewrite (proj2 (Z.ltb_ge (sc - VT_KEY_LOW) 3)) by done. split_and!; try done. apply Hstep. by krun Hsw.
    - destruct Hsw as (s' & Hsw & Hok' & F1 & F2 & F3 & F4 & F5). exists s'. rewrite (proj2 (Z.ltb_lt (sc - VT_KEY_LOW) 3)) by done.
      split_and!; try done; [apply Hstep; by krun Hsw|by apply (held_same s)]. }
  destruct (ct && (sc =? SCROLL_DOWN)); [by apply scroll_key_run|]. destruct (ct && (sc =? SCROLL_UP)); [by apply scroll_key_run|].
  destruct (Z.ltb_spec NORMAL_KEY_HIGH sc) as [|Hnorm]; [exists s; split_and!; [by apply Hstep|done..]|].
  destruct (table_bytes normal_scancodes sc (or_introl eq_refl) ltac:(unfold NORMAL_KEY_HIGH in *; lia)) as (cn & En & Enth & Hcn).
  destruct (table_bytes shift_scancodes sc (or_intror eq_refl) ltac:(unfold NORMAL_KEY_HIGH in *; lia)) as (cs & Es & Esth & Hcs).
  destruct ct.
  - rewrite Esth. destruct ((64 <=? cs) && (cs <? 96)) eqn:Hr.
    + apply press_run; [done|done| |lia]. erewrite bind_done by (unfold table, deref; by rewrite Es). rewrite Hr. unfold ret, u8. rewrite Z.mod_small by lia. done.
    + exists s. split_and!; try done. apply Hstep. erewrite bind_done by (unfold table, deref; by rewrite Es). by rewrite Hr.
  - destruct sh; [rewrite Esth|rewrite Enth]; apply press_run; try done; try lia; unfold table, deref; [by rewrite Es|by rewrite En].
Qed.

(** ** Theorems *)

(** the keyboard interrupt handler returns for every scan code and does what
    the key means: it changes the modifiers held, switches or scrolls the
    terminal, or calls the callback of the current terminal with the character;
    the screen goes on to show the current terminal. *)
Theorem keyboard_intr_handler_spec s X sh ct code :
  tty_ok s X -> held s sh ct -> keyboard_handler s = Some VtKeyboardHandler -> 0 <= code < 256 ->
  exists s', keyboard_intr_handler code s = Done tt s' /\ tty_ok s' X /\ keyboard_handler s' = keyboard_handler s /\ ipl s' = ipl s /\
    key_post (key_of sh ct code) s sh ct s'.
Proof using All. apply key_run. Qed.

(** Every printable character has a key. *)
Theorem keyboard_types_ascii c : 32 <= c < 127 -> exists code shift, 0 <= code < 128 /\ key_of shift false code = Press c.
Proof using Type.
  intros Hc. set (ok := fun k => existsb (fun sc => existsb (fun sh : bool =>
    match key_of sh false (Z.of_nat sc) with Press d => d =? Z.of_nat k | _ => false end) [false; true]) (seq 0 128)).
  assert (Hall : forallb ok (seq 32 95) = true) by (vm_compute; reflexivity).
  rewrite forallb_forall in Hall. specialize (Hall (Z.to_nat c) ltac:(apply in_seq; lia)). unfold ok in Hall.
  apply existsb_exists in Hall as (sc & Hsc & (sh & _ & Hk)%existsb_exists). apply in_seq in Hsc.
  exists (Z.of_nat sc), sh. split; [lia|]. destruct (key_of sh false (Z.of_nat sc)); try discriminate Hk. apply Z.eqb_eq in Hk. subst c0. by rewrite Z2Nat.id by lia.
Qed.

(** ** All that happens to the terminals

    The tty layer writes to a terminal, the keyboard interrupts.  Texts of at
    most 100 rows (see [visible_short]). *)
Inductive tty_step : tstate * list text -> tstate * list text -> Prop :=
| StepWrite s X i x c s' : X !! i = Some x -> Z.of_nat (length (t_cells x)) <= 8000 ->
    vt_provide_char (Some i) c s = Done tt s' -> tty_step (s, X) (s', <[i := put c x]> X)
| StepKey s X code s' : 0 <= code < 256 -> keyboard_intr_handler code s = Done tt s' -> tty_step (s, X) (s', X).

(** The system as a whole. *)
Definition sys_ok (p : tstate * list text) : Prop :=
  tty_ok p.1 p.2 /\ keyboard_handler p.1 = Some VtKeyboardHandler /\ exists sh ct, held p.1 sh ct.

Lemma sys_step p q : sys_ok p -> tty_step p q -> sys_ok q.
Proof using All.
  intros (Hok & Hh & sh & ct & Hd) Hst. unfold sys_ok. destruct Hst as [s X i x c s' Hx Hl Hrun|s X code s' Hc Hrun]; cbn [fst snd] in *.
  - destruct (provide_run i c s X x Hok Hx (fun _ => Hl)) as (s1 & Hrun1 & Hok1 & F1 & F2 & F3 & F4 & F5). rewrite Hrun in Hrun1. injection Hrun1 as <-.
    split_and!; [done|by rewrite F2|]. exists sh, ct. by apply (held_same s).
  - destruct (key_run s X sh ct code Hok Hd Hh Hc) as (s1 & Hrun1 & Hok1 & F1 & F2 & Hpost). rewrite Hrun in Hrun1. injection Hrun1 as <-.
    split_and!; [done|by rewrite F1|]. destruct (key_of sh ct code); cbn [key_post] in Hpost.
    + exists sh, ct. subst s'. by apply (held_same s).
    + exists sh, ct. apply Hpost.
    + exists sh, ct. apply Hpost.
    + eexists _, _. apply Hpost.
    + eexists _, _. apply Hpost.
    + exists sh, ct. by subst s'.
Qed.

(** C24: from the state [vt_init] sets up, after any sequence of keyboard
    interrupts and of characters written to terminals whose text has at most 8000
    cells when they are written, the screen shows exactly the current terminal,
    whose buffer holds its text; every further interrupt returns, and so does
    every further write to a terminal of at most 8000 cells.  Within that bound
    the optimised drawing of [vt_provide_char] is as good as a redraw. *)
Theorem tty_screen_invariant vr mask level s0 s X : length vr = 2048%nat -> 0 <= mask -> bit mask ESC_MASK = false ->
  vt_init (fresh vr mask level) = Done tt s0 -> rtc tty_step (s0, [blank; blank; blank]) (s, X) ->
  tty_ok s X /\
  (forall i x c, X !! i = Some x -> Z.of_nat (length (t_cells x)) <= 8000 ->
     exists s', vt_provide_char (Some i) c s = Done tt s' /\ tty_ok s' (<[i := put c x]> X)) /\
  (forall code, 0 <= code < 256 -> exists s', keyboard_intr_handler code s = Done tt s').
Proof using All.
  intros Hv Hm He Hinit Hr. destruct (vt_init_run vr mask level Hv) as (s1 & Hi & Hok & _ & Hh & Em & _). rewrite Hinit in Hi. injection Hi as <-.
  assert (Hsys : sys_ok (s, X)).
  { assert (H0' : sys_ok (s0, [blank; blank; blank])).
    { split_and!; [done|done|]. cbn [fst]. eexists _, _. split; rewrite Em; [done|reflexivity|reflexivity|done]. }
    revert H0'. induction Hr as [|p q r Hpq Hqr IH]; [done|]. intros Hp. apply IH. by eapply sys_step. }
  destruct Hsys as (Hok' & Hh' & sh & ct & Hd). cbn [fst snd] in *. split_and!; [done| |].
  - intros i x c Hx Hl. destruct (provide_run i c s X x Hok' Hx (fun _ => Hl)) as (s' & Hrun & Hok1 & _). exact (ex_intro _ s' (conj Hrun Hok1)).
  - intros code Hc. destruct (key_run s X sh ct code Hok' Hd Hh' Hc) as (s' & Hrun & _). exact (ex_intro _ s' Hrun).
Qed.
End Spec.
End Keyboard.
