(* ===== verification/TtyDemo.v ===== *)
(** * Terminals at work

    The terminals after [vt_init], with a callback on the first one and a line of
    text, on which the theorems are applied; and the backspace that takes the
    screen away from the text. *)

From Stdlib Require Import ZArith Lia String.
From stdpp Require Import base list gmap.
From S2P Require Import Prelude VirtTerm VirtTermSpec Keyboard.

Module TtyDemo.
Import VirtTerm VirtTermSpec Keyboard.
Local Open Scope Z_scope.

#[export] Instance pc_masks : Masks := {| SHIFT_MASK := 1; CTRL_MASK := 2; ESC_MASK := 4 |}.
#[export] Instance pc_mask_laws : MaskLaws.
Proof. split; done. Qed.

Definition vram0 : list Z := replicate 2048 0.
Definition after {A} (m : M A) (s : tstate) : tstate := match m s with Done _ s' => s' | _ => s end.

Definition started : tstate := after vt_init (fresh vram0 0 0).

Lemma started_run : vt_init (fresh vram0 0 0) = Done tt started.
Proof.
  destruct (vt_init_run vram0 0 0 (length_replicate _ _)) as (s' & Hrun & _). unfold started, after. rewrite Hrun. reflexivity.
Qed.

Lemma started_ok : tty_ok started [blank; blank; blank] /\ vt_curterm started = Some 0%nat /\
  keyboard_handler started = Some VtKeyboardHandler /\ curmask started = 0.
Proof.
  destruct (vt_init_run vram0 0 0 (length_replicate _ _)) as (s' & Hrun & Hok & Hc & Hh & Hm & _).
  unfold started, after. rewrite Hrun. exact (conj Hok (conj Hc (conj Hh Hm))).
Qed.

Lemma started_held : held started false false.
Proof. destruct started_ok as (_ & _ & _ & E). split; rewrite E; reflexivity || lia. Qed.

Lemma started_term : exists t, vt_terms started !! 0%nat = Some t /\ represents t blank.
Proof. exact (tty_term started _ 0 blank (proj1 started_ok) eq_refl). Qed.

#[local] Opaque started.

Lemma vt_handle_char_refines_witness : exists t t', vt_terms started !! 0%nat = Some t /\
  vt_handle_char 0 65 started = Done true (upd 0 t' started) /\ represents t' (put 65 blank).
Proof.
  destruct started_term as (t & Ht & Hrp). destruct (vt_handle_char_refines 0 65 started t blank Ht Hrp) as (t' & H1 & _ & H2).
  exact (ex_intro _ t (ex_intro _ t' (conj Ht (conj H1 H2)))).
Defined.

Lemma vt_redraw_spec_witness : exists s' t, vt_redraw started = Done tt s' /\ drawn (videoram s') (crt_regs s') t.
Proof.
  destruct started_ok as (Hok & Hc & _). destruct started_term as (t & Ht & Hrp).
  destruct (vt_redraw_spec 0 started t blank Hc Ht Hrp (to_vram _ _ Hok)) as (s' & tb & H1 & _ & H2 & _).
  exact (ex_intro _ s' (ex_intro _ (t_temp tb t) (conj H1 H2))).
Defined.

Lemma vt_scroll_spec_witness : exists s' t t', vt_scroll 25 true started = Done tt s' /\ tty_ok s' [blank; blank; blank] /\ scrolled t 25 true (vt_top t').
Proof.
  destruct (vt_scroll_spec started [blank; blank; blank] 25 true (proj1 started_ok) ltac:(lia)) as (s' & i & t & t' & H1 & H2 & _ & _ & _ & _ & H3).
  exact (ex_intro _ s' (ex_intro _ t (ex_intro _ t' (conj H1 (conj H2 H3))))).
Defined.

(** The key of the letter a. *)
Lemma keyboard_intr_handler_spec_witness : exists s', keyboard_intr_handler 0x1e started = Done tt s' /\ tty_ok s' [blank; blank; blank] /\
  key_of false false 0x1e = Press 97 /\ key_post (Press 97) started false false s'.
Proof.
  destruct started_ok as (Hok & _ & Hh & _).
  destruct (keyboard_intr_handler_spec started [blank; blank; blank] false false 0x1e Hok started_held Hh ltac:(lia)) as (s' & H1 & H2 & _ & _ & H3).
  exact (ex_intro _ s' (conj H1 (conj H2 (conj eq_refl H3)))).
Defined.

Lemma keyboard_types_ascii_witness : exists code shift, 0 <= code < 128 /\ key_of shift false code = Press 126.
Proof. exact (keyboard_types_ascii 126 ltac:(lia)). Defined.

(** A character is written to the second terminal. *)
Lemma one_step : exists s', rtc tty_step (started, [blank; blank; blank]) (s', [blank; put 65 blank; blank]).
Proof.
  destruct (provide_run 1 65 started [blank; blank; blank] blank (proj1 started_ok) eq_refl (fun _ => ltac:(vm_compute; discriminate))) as (s' & Hrun & _).
  exists s'. apply rtc_once. apply (StepWrite started [blank; blank; blank] 1 blank 65 s' eq_refl); [vm_compute; discriminate|exact Hrun].
Qed.

Lemma tty_screen_invariant_witness : exists s', rtc tty_step (started, [blank; blank; blank]) (s', [blank; put 65 blank; blank]) /\
  tty_ok s' [blank; put 65 blank; blank].
Proof.
  destruct one_step as (s' & Hr).
  exact (ex_intro _ s' (conj Hr (proj1 (tty_screen_invariant vram0 0 0 started s' _ (length_replicate _ _) ltac:(lia) eq_refl started_run Hr)))).
Defined.

(** ** What goes wrong *)

(** The places of the screen that a redraw would change. *)
Definition stale (s : tstate) : list nat :=
  let s' := after vt_redraw s in List.filter (fun j => negb (bool_decide (videoram s !! j = videoram s' !! j))) (seq 0 2000).

(** With more than 100 rows in the buffer and the cursor taken back to the first
    one, [vt_top] lands in the unused row at the end of the buffer: the text is not
    on the screen, and the character drawn by itself is one a redraw would
    remove. *)
Theorem vt_drawing_differs :
  stale (after (provide_all (Some 0%nat) (replicate 123 NL ++ replicate (Z.to_nat 9839) BS ++ [120])) started) = [81%nat].
Proof. vm_compute. reflexivity. Qed.

(** Alt is said to be ignored; its key sends NUL to the terminal. *)
Lemma alt_sends_nul : key_of false false 0x38 = Press 0.
Proof. reflexivity. Qed.

(** The escape prefix of the grey keys is not seen: with its high bit gone it is
    neither [ESC0] nor [ESC1], so that the Enter of the key pad is a newline. *)
Lemma escape_unseen : key_of false false 0xe0 = Nothing /\ key_of false false 0x1c = Press NL.
Proof. split; reflexivity. Qed.
End TtyDemo.
