(* ===== verification/Init.v ===== *)
(** * Initialisation calls ([util/init.c], [include/util/init.h])

    The linker collects, in the section [.init], a record for each [init_func]
    and, after it, one for each of its [init_depends]: a word and a string.  The
    word is the address of the function, or 0 for a dependency.
    [init_call_all] reads the section and calls every function after those it
    depends on.

    The memory from [kernel_start_init] on is a list of [char]s; a pointer into it
    is the rest of the list.  The functions called are recorded by their place in
    the list of functions. *)

From Stdlib Require Import ZArith Lia.
From stdpp Require Import base list gmap.
From S2P Require Import Prelude KString.

Module Init.
Import KString.
Local Open Scope Z_scope.

(** ** Data *)
Record init_function := InitFunction {
  if_func : Z;
  if_name : list Z;
  if_search : Z;
  if_called : bool;
  if_deps : list (list Z)
}.

Record istate := IState {
  funcs : list init_function;
  _init_search_count : Z;
  calls : list nat;
  oom : list bool
}.

Abbreviation M := (kern istate).

Definition set_search v f := InitFunction (if_func f) (if_name f) v (if_called f) (if_deps f).
Definition set_called f := InitFunction (if_func f) (if_name f) (if_search f) true (if_deps f).
Definition add_dep d f := InitFunction (if_func f) (if_name f) (if_search f) (if_called f) (if_deps f ++ [d]).
Definition up_funcs g s := IState (g (funcs s)) (_init_search_count s) (calls s) (oom s).
Definition up_count v s := IState (funcs s) v (calls s) (oom s).
Definition up_calls i s := IState (funcs s) (_init_search_count s) (calls s ++ [i]) (oom s).

Definition get (i : nat) : M init_function := fun s => deref (funcs s !! i) s.

(** [kmalloc] and the [KASSERT] on its result. *)
Definition alloc : M unit := fun s =>
  match oom s with
  | true :: _ => Panic
  | _ => Done tt (IState (funcs s) (_init_search_count s) (calls s) (tail (oom s)))
  end.

(** ** Calling *)

(** The function of that name: the first in the list. *)
Fixpoint find_name (name : list Z) (i : nat) (fs : list init_function) : M (option nat) :=
  match fs with
  | [] => ret None
  | f :: fs =>
      let* r := deref (strcmp name (if_name f)) in
      if r =? 0 then ret (Some i) else find_name name (S i) fs
  end.

(** The loop over the dependencies of [func]; [call] is the recursive call. *)
Fixpoint init_deps (call : nat -> M unit) (func : nat) (deps : list (list Z)) : M unit :=
  match deps with
  | [] => ret tt
  | dep :: deps =>
      let* fs := gets funcs in
      let* found := find_name dep 0 fs in
      match found with
      | None => panic
      | Some i =>
          let* x := get func in
          let* f := get i in
          if if_search x =? if_search f then panic
          else
            (if negb (if_called f) then
               modify (up_funcs (alter (set_search (if_search x)) i)) ;; call i
             else ret tt) ;;
            init_deps call func deps
      end
  end.

(** Each nested call marks a function that had another mark. *)
Fixpoint _init_call (fuel : nat) (func : nat) : M unit :=
  match fuel with
  | O => blocked
  | S fuel =>
      let* x := get func in
      init_deps (_init_call fuel) func (if_deps x) ;;
      let* x := get func in
      kassert (negb (if_called x)) ;;
      modify (up_calls func) ;;
      modify (up_funcs (alter set_called func))
  end.

(** ** Reading the section *)
Definition byte (c : Z) : Z := c mod 256.

(** A word, least significant byte first. *)
Definition word_at (buf : list Z) : option Z :=
  match buf with
  | a :: b :: c :: d :: _ => Some (byte a + 256 * (byte b + 256 * (byte c + 256 * byte d)))
  | _ => None
  end.

(** [room] bytes remain of the section: [buf < end] while it is positive. *)
Fixpoint read_deps (fuel : nat) (func : nat) (buf : list Z) (room : Z) : M (list Z * Z) :=
  match fuel with
  | O => blocked
  | S fuel =>
      let* w := deref (word_at buf) in
      if (w =? 0) && (0 <? room) then
        alloc ;;
        let name := drop 4 buf in
        modify (up_funcs (alter (add_dep name) func)) ;;
        let* l := deref (strlen name) in
        read_deps fuel func (drop (4 + l + 1) buf) (room - Z.of_nat (4 + l + 1))
      else ret (buf, room)
  end.

Fixpoint read_funcs (fuel : nat) (buf : list Z) (room : Z) : M Z :=
  match fuel with
  | O => blocked
  | S fuel =>
      if 0 <? room then
        alloc ;;
        let* w := deref (word_at buf) in
        kassert (negb (w =? 0)) ;;
        let name := drop 4 buf in
        let* n := gets (fun s => length (funcs s)) in
        modify (up_funcs (fun fs => fs ++ [InitFunction w name 0 false []])) ;;
        let* l := deref (strlen name) in
        let* r := read_deps fuel n (drop (4 + l + 1) buf) (room - Z.of_nat (4 + l + 1)) in
        read_funcs fuel (fst r) (snd r)
      else ret room
  end.

(** ** [init_call_all] *)
Fixpoint call_each (n : nat) (func : nat) : M unit :=
  match n with
  | O => ret tt
  | S n =>
      let* x := get func in
      (if negb (if_called x) then
         let* c := gets _init_search_count in
         let c := s32 (c + 1) in
         modify (up_count c) ;;
         modify (up_funcs (alter (set_search c) func)) ;;
         let* k := gets (fun s => S (length (funcs s))) in
         _init_call k func
       else ret tt) ;;
      call_each n (S func)
  end.

(** [mem] is the memory from [kernel_start_init] on, [size] the size of the
    section; each round of the reading loops takes at least five bytes. *)
Definition init_call_all (mem : list Z) (size : Z) : M unit :=
  modify (up_funcs (fun _ => [])) ;;
  let* room := read_funcs (S (length mem)) mem size in
  kassert (room =? 0) ;;
  let* n := gets (fun s => length (funcs s)) in
  call_each n 0.

(** ** What the macros put into the section *)
Definition long (w : Z) : list Z := s8 <$> [w; w / 2 ^ 8; w / 2 ^ 16; w / 2 ^ 24].
Definition init_func (func : Z) (name : list Z) : list Z := long func ++ cstring name.
Definition init_depends (name : list Z) : list Z := long 0 ++ cstring name.

(** A function, its name and the names it depends on. *)
Definition entry : Type := Z * list Z * list (list Z).
Definition emit_entry (e : entry) : list Z :=
  init_func e.1.1 e.1.2 ++ concat (init_depends <$> e.2).
Definition emit (es : list entry) : list Z := concat (emit_entry <$> es).
End Init.
