(* ===== verification/InitSpec.v ===== *)
(** * The order of initialisation

    [init_call_all] reads back what the macros have put into the section, and
    calls every function once and after those it depends on, or panics. *)

From Stdlib Require Import ZArith Lia.
From stdpp Require Import base list gmap.
From S2P Require Import Prelude KString Init.

Module InitSpec.
Import KString Init.
Local Open Scope Z_scope.

(** ** Runs that return or panic *)
Definition ends {A} (m : M A) (s : istate) (Q : A -> istate -> Prop) : Prop :=
  match m s with Done a s' => Q a s' | Panic => True | _ => False end.

Lemma ends_bind {A B} (m : M A) (f : A -> M B) s Q : ends m s (fun a s' => ends (f a) s' Q) -> ends (bind m f) s Q.
Proof. unfold ends, bind. by destruct (m s). Qed.

Lemma ends_mono {A} (m : M A) s (P Q : A -> istate -> Prop) : ends m s P -> (forall a s', P a s' -> Q a s') -> ends m s Q.
Proof. unfold ends. destruct (m s); naive_solver. Qed.

Lemma ends_run {A} (m : M A) s a s' (Q : A -> istate -> Prop) : m s = Done a s' -> Q a s' -> ends m s Q.
Proof. unfold ends. by intros ->. Qed.

(** ** Names *)

(** The string a pointer points to. *)
Definition holds (p name : list Z) : Prop := exists r, p = name ++ 0 :: r.
Definition proper (name : list Z) : Prop := Forall is_char name /\ 0 ∉ name.

(** A function's name and those of its dependencies. *)
Definition node : Type := list Z * list (list Z).
Definition matches (f : init_function) (e : node) : Prop := holds (if_name f) e.1 /\ Forall2 holds (if_deps f) e.2.

Definition wf_table (T : list node) : Prop := forall e, e ∈ T -> proper e.1 /\ Forall proper e.2.

(** The first function of that name. *)
Definition place (T : list node) (d : list Z) : option nat := fst <$> list_find (fun e => e.1 = d) T.

Lemma find_name_run s d d0 fs T : forall i, holds d d0 -> proper d0 -> Forall2 matches fs T -> wf_table T ->
  find_name d i fs s = Done (Nat.add i <$> place T d0) s.
Proof.
  intros i (r & ->) [Hd0 Nd0] HT. revert i. induction HT as [|f e fs T [(t & Ef) _] HT IH]; intros i Hwf; [done|].
  cbn [find_name]. destruct (Hwf e ltac:(left)) as [[He Ne] _].
  destruct (strcmp_zero d0 e.1 r t Hd0 He Nd0 Ne) as (v & Ev & Hv). rewrite Ef, Ev. erewrite bind_done by reflexivity.
  unfold place. cbn [list_find]. destruct (decide (e.1 = d0)) as [E|E].
  - rewrite (proj2 Hv) by done. cbn. by rewrite Nat.add_0_r.
  - destruct (Z.eqb_spec v 0) as [Ez|]; [exfalso; apply E; symmetry; by apply Hv|].
    rewrite IH by (intros e' ?; apply Hwf; by right). unfold place. f_equal.
    destruct (list_find (fun e => e.1 = d0) T) as [[j y]|]; cbn; [|done]. f_equal. lia.
Qed.

Lemma place_lt T d j : place T d = Some j -> (j < length T)%nat.
Proof.
  unfold place. destruct (list_find (fun e => e.1 = d) T) as [[k e]|] eqn:E; [|done]. intros [= <-]. apply list_find_Some in E as (E & _). by eapply lookup_lt_Some.
Qed.

(** ** The invariant *)
Definition needs (T : list node) (i j : nat) : Prop := exists e d, T !! i = Some e /\ d ∈ e.2 /\ place T d = Some j.

Record order_ok (T : list node) (s : istate) : Prop := OrderOk {
  oo_table : Forall2 matches (funcs s) T;
  oo_called i f : funcs s !! i = Some f -> if_called f = true <-> i ∈ calls s;
  oo_range i : i ∈ calls s -> (i < length T)%nat;
  oo_nodup : NoDup (calls s);
  oo_order l1 i l2 : calls s = l1 ++ i :: l2 -> forall j, needs T i j -> j ∈ l1;
  oo_exist i e d : i ∈ calls s -> T !! i = Some e -> d ∈ e.2 -> is_Some (place T d)
}.

(** The functions without mark [c]. *)
Definition unmarked (c : Z) (s : istate) : nat := length (filter (fun f => if_search f <> c) (funcs s)).

(** What a search with mark [c] does to the state. *)
Record searched (T : list node) (c : Z) (s s' : istate) : Prop := Searched {
  se_ok : order_ok T s';
  se_calls : exists l, calls s' = calls s ++ l;
  se_unmarked : (unmarked c s' <= unmarked c s)%nat;
  se_marked i f : funcs s !! i = Some f -> if_search f = c -> exists f', funcs s' !! i = Some f' /\ if_search f' = c;
  se_deps i f : funcs s !! i = Some f -> exists f', funcs s' !! i = Some f' /\ if_deps f' = if_deps f;
  se_count : _init_search_count s' = _init_search_count s;
  se_searches i f' : funcs s' !! i = Some f' -> exists f, funcs s !! i = Some f /\ (if_search f' = if_search f \/ if_search f' = c)
}.

Lemma searched_refl T c s : order_ok T s -> searched T c s s.
Proof. intros. split; try done; eauto. exists []. by rewrite app_nil_r. Qed.

Lemma searched_trans T c s s1 s2 : searched T c s s1 -> searched T c s1 s2 -> searched T c s s2.
Proof.
  intros [A1 (l & A2) A3 A4 A5 A6 A7] [B1 (k & B2) B3 B4 B5 B6 B7]. split; try done.
  - exists (l ++ k). by rewrite B2, A2, app_assoc.
  - lia.
  - intros i f Hi Hc. destruct (A4 i f Hi Hc) as (f' & Hf' & Hc'). by apply (B4 i f').
  - intros i f Hi. destruct (A5 i f Hi) as (f' & Hf' & E'). destruct (B5 i f' Hf') as (f2 & ? & E2). exists f2. split; [done|congruence].
  - congruence.
  - intros i f2 Hi. destruct (B7 i f2 Hi) as (f1 & H1 & [E1|E1]); [|destruct (A7 i f1 H1) as (f & ? & _); eauto].
    destruct (A7 i f1 H1) as (f & ? & [E|E]); exists f; (split; [done|]); [left|right]; congruence.
Qed.

(** ** Steps *)
Lemma table_alter T g i fs : (forall f e, matches f e -> matches (g f) e) -> Forall2 matches fs T -> Forall2 matches (alter g i fs) T.
Proof.
  intros Hg HT. revert i. induction HT as [|f e fs T Hf HT IH]; intros [|i]; cbn; constructor; auto.
Qed.

Lemma filter_alter_length (P : init_function -> Prop) `{!forall x, Decision (P x)} g i fs f : fs !! i = Some f -> P f -> ~ P (g f) ->
  S (length (filter P (alter g i fs))) = length (filter P fs).
Proof.
  revert i. induction fs as [|h fs IH]; intros [|i] Hi Hp Hn; try done; cbn in Hi.
  - injection Hi as ->. change (alter g 0%nat (f :: fs)) with (g f :: fs). by rewrite (filter_cons_False P (g f)), (filter_cons_True P f) by done.
  - change (alter g (S i) (h :: fs)) with (h :: alter g i fs). specialize (IH i Hi Hp Hn). destruct (decide (P h)).
    + rewrite !filter_cons_True by done. cbn [length]. by f_equal.
    + by rewrite !filter_cons_False by done.
Qed.

Lemma filter_alter_same (P : init_function -> Prop) `{!forall x, Decision (P x)} g i fs : (forall f, P (g f) <-> P f) ->
  length (filter P (alter g i fs)) = length (filter P fs).
Proof.
  intros Hg. revert i. induction fs as [|h fs IH]; intros [|i]; try done.
  - change (alter g 0%nat (h :: fs)) with (g h :: fs). destruct (decide (P h)).
    + rewrite (filter_cons_True P (g h)) by (by apply Hg). by rewrite filter_cons_True.
    + rewrite (filter_cons_False P (g h)) by (by rewrite Hg). by rewrite filter_cons_False.
  - change (alter g (S i) (h :: fs)) with (h :: alter g i fs).
    destruct (decide (P h)); [rewrite !filter_cons_True by done; cbn [length]; by rewrite IH|by rewrite !filter_cons_False by done].
Qed.

Lemma mark_step T c s i f : order_ok T s -> funcs s !! i = Some f -> if_search f <> c ->
  let s1 := up_funcs (alter (set_search c) i) s in
  searched T c s s1 /\ funcs s1 !! i = Some (set_search c f) /\ S (unmarked c s1) = unmarked c s.
Proof.
  intros Hok Hi Hc s1.
  assert (Hlk : forall k h, funcs s1 !! k = Some h -> exists h0, funcs s !! k = Some h0 /\ (h = h0 \/ (k = i /\ h = set_search c h0))).
  { intros k h Hk. cbn [s1 up_funcs funcs] in Hk. rewrite list_lookup_alter in Hk. destruct (decide (i = k)) as [<-|]; [|eauto].
    rewrite Hi in Hk. injection Hk as <-. eauto. }
  assert (Hlk' : forall k h, funcs s !! k = Some h -> funcs s1 !! k = Some (if decide (k = i) then set_search c h else h)).
  { intros k h Hk. cbn [s1 up_funcs funcs]. rewrite list_lookup_alter. destruct (decide (i = k)) as [<-|]; [rewrite decide_True, Hk by done; done|].
    by rewrite decide_False by done. }
  assert (Hun : S (unmarked c s1) = unmarked c s) by (unfold unmarked; cbn [s1 up_funcs funcs]; apply (filter_alter_length _ _ _ _ f); [done|done|by intros Hn; apply Hn]).
  destruct Hok as [A B C D E F]. split_and!; [|by rewrite (Hlk' i f Hi), decide_True|done]. split.
  - split; try done; [by apply table_alter|]. intros k h Hk. destruct (Hlk k h Hk) as (h0 & Hh0 & [->|[-> ->]]); by apply (B _ h0).
  - exists []. cbn. by rewrite app_nil_r.
  - lia.
  - intros k h Hk Hs. rewrite (Hlk' k h Hk). eexists. split; [done|]. by destruct (decide (k = i)).
  - intros k h Hk. rewrite (Hlk' k h Hk). eexists. split; [done|]. by destruct (decide (k = i)).
  - done.
  - intros k h Hk. destruct (Hlk k h Hk) as (h0 & Hh0 & [->|[-> ->]]); exists h0; auto.
Qed.

Lemma call_step T c s i e f : order_ok T s -> funcs s !! i = Some f -> if_called f = false -> T !! i = Some e ->
  (forall d, d ∈ e.2 -> exists j, place T d = Some j /\ j ∈ calls s) ->
  let s' := up_funcs (alter set_called i) (up_calls i s) in searched T c s s' /\ i ∈ calls s'.
Proof.
  intros Hok Hi Hf He Hdeps s'. pose proof Hok as [A B C D E F].
  assert (Hlk : forall k h, funcs s !! k = Some h -> funcs s' !! k = Some (if decide (k = i) then set_called h else h)).
  { intros k h Hk. cbn [s' up_funcs up_calls funcs]. rewrite list_lookup_alter. destruct (decide (i = k)) as [<-|]; [rewrite decide_True, Hk by done; done|].
    by rewrite decide_False by done. }
  assert (Hback : forall k h, funcs s' !! k = Some h -> exists h0, funcs s !! k = Some h0 /\ h = if decide (k = i) then set_called h0 else h0).
  { intros k h Hk. destruct (funcs s !! k) as [h0|] eqn:E0; [rewrite (Hlk k h0 E0) in Hk; injection Hk as <-; eauto|].
    cbn [s' up_funcs up_calls funcs] in Hk. rewrite list_lookup_alter, E0 in Hk. destruct (decide (i = k)) as [<-|]; [congruence|done]. }
  assert (Hni : i ∉ calls s) by (rewrite <- (B i f Hi); by rewrite Hf).
  cbn [s' up_funcs up_calls calls]. split; [|apply elem_of_app; right; by left]. split; try done.
  - split; cbn [s' up_funcs up_calls calls].
    + by apply table_alter.
    + intros k h Hk. destruct (Hback k h Hk) as (h0 & Hh0 & ->). rewrite elem_of_app, list_elem_of_singleton. destruct (decide (k = i)) as [->|]; [cbn; naive_solver|].
      rewrite (B k h0 Hh0). naive_solver.
    + intros k [Hk|Hk]%elem_of_app; [by apply C|]. apply list_elem_of_singleton in Hk as ->. by eapply lookup_lt_Some.
    + apply NoDup_app. split_and!; [done| |apply NoDup_singleton]. intros k Hk Hk'. apply list_elem_of_singleton in Hk' as ->. done.
    + intros l1 k l2 Hl j (e' & d & He' & Hd & Hj). destruct l2 as [|y l2 _] using rev_ind.
      * apply app_inj_tail in Hl as [<- <-]. rewrite He in He'. injection He' as <-. destruct (Hdeps d Hd) as (j' & Hj' & Hin). congruence.
      * rewrite app_comm_cons, app_assoc in Hl. apply app_inj_tail in Hl as [Hl _]. apply (E l1 k l2 Hl). by exists e', d.
    + intros k e' d [Hk|Hk]%elem_of_app He' Hd; [by apply (F k e' d)|]. apply list_elem_of_singleton in Hk as ->. rewrite He in He'. injection He' as <-.
      destruct (Hdeps d Hd) as (j & -> & _). by eexists.
  - by exists [i].
  - unfold unmarked. cbn [s' up_funcs up_calls funcs]. by rewrite filter_alter_same.
  - intros k h Hk Hs. rewrite (Hlk k h Hk). eexists. split; [done|]. by destruct (decide (k = i)).
  - intros k h Hk. rewrite (Hlk k h Hk). eexists. split; [done|]. by destruct (decide (k = i)).
  - intros k h Hk. destruct (Hback k h Hk) as (h0 & Hh0 & ->). exists h0. split; [done|]. left. by destruct (decide (k = i)).
Qed.

(** ** A search *)
Definition call_spec (T : list node) (c : Z) (fuel : nat) : Prop :=
  forall i f s, order_ok T s -> funcs s !! i = Some f -> if_search f = c -> (unmarked c s < fuel)%nat ->
    ends (_init_call fuel i) s (fun _ s' => searched T c s s' /\ i ∈ calls s').

Lemma get_ends i f s : funcs s !! i = Some f -> get i s = Done f s.
Proof. intros H. unfold get, deref. by rewrite H. Qed.

Lemma deps_ends T c fuel (IH : call_spec T c fuel) (Hwf : wf_table T) i : forall deps names f s, Forall2 holds deps names -> Forall proper names ->
  order_ok T s -> funcs s !! i = Some f -> if_search f = c -> (unmarked c s <= fuel)%nat ->
  ends (init_deps (_init_call fuel) i deps) s (fun _ s' => searched T c s s' /\ forall d, d ∈ names -> exists j, place T d = Some j /\ j ∈ calls s').
Proof.
  induction deps as [|p deps IHd]; intros names f s Hds Hps Hok Hf Hc Hfuel; inversion Hds as [|? d ? names' Hd Hds']; subst; cbn [init_deps].
  { split; [by apply searched_refl|]. intros d Hd. by apply elem_of_nil in Hd. }
  apply Forall_cons in Hps as [Hp Hps]. apply ends_bind. eapply ends_run; [reflexivity|]. apply ends_bind.
  eapply ends_run; [by apply (find_name_run s p d (funcs s) T 0 Hd Hp (oo_table _ _ Hok))|].
  destruct (place T d) as [j|] eqn:Hj; cbn [fmap option_fmap option_map Nat.add]; [|done].
  apply ends_bind. eapply ends_run; [by apply get_ends|]. pose proof (place_lt T d j Hj) as Hlt.
  rewrite <- (Forall2_length _ _ _ (oo_table _ _ Hok)) in Hlt. destruct (lookup_lt_is_Some_2 (funcs s) j Hlt) as (h & Hh).
  apply ends_bind. eapply ends_run; [by apply get_ends|]. destruct (Z.eqb_spec (if_search f) (if_search h)) as [|Hne]; [done|].
  apply ends_bind. apply (ends_mono _ _ (fun _ s1 => searched T (if_search f) s s1 /\ j ∈ calls s1)).
  - destruct (if_called h) eqn:Hcall; cbn [negb].
    + split; [by apply searched_refl|]. by apply (oo_called _ _ Hok j h).
    + destruct (mark_step T (if_search f) s j h Hok Hh ltac:(congruence)) as (Hs1 & Hj1 & Hun). apply ends_bind. eapply ends_run; [reflexivity|].
      eapply ends_mono; [apply (IH j (set_search (if_search f) h)); [apply Hs1|done|done|lia]|].
      intros [] s2 [Hs2 Hin]. split; [by eapply searched_trans|done].
  - intros [] s1 [Hs1 Hin]. destruct (se_marked _ _ _ _ Hs1 i f Hf eq_refl) as (f1 & Hf1 & Ef1).
    eapply ends_mono; [apply (IHd names' f1 s1 Hds' Hps (se_ok _ _ _ _ Hs1) Hf1 Ef1); pose proof (se_unmarked _ _ _ _ Hs1); lia|].
    intros [] s2 [Hs2 Hall]. split; [by eapply searched_trans|]. intros d' [->|Hd']%elem_of_cons; [|by apply Hall].
    exists j. split; [done|]. destruct (se_calls _ _ _ _ Hs2) as (l & ->). apply elem_of_app. by left.
Qed.

Lemma call_ends T c (Hwf : wf_table T) fuel : call_spec T c fuel.
Proof.
  induction fuel as [|fuel IH]; intros i f s Hok Hf Hc Hfuel; [lia|]. cbn [_init_call].
  apply ends_bind. eapply ends_run; [by apply get_ends|]. destruct (Forall2_lookup_l _ _ _ _ _ (oo_table _ _ Hok) Hf) as (e & He & Hname & Hdeps).
  destruct (Hwf e ltac:(by eapply list_elem_of_lookup_2)) as [_ Hproper].
  apply ends_bind. eapply ends_mono; [apply (deps_ends T c fuel IH Hwf i (if_deps f) e.2 f s); try done; lia|].
  intros [] s1 [Hs1 Hall]. destruct (se_marked _ _ _ _ Hs1 i f Hf Hc) as (f1 & Hf1 & Ef1).
  apply ends_bind. eapply ends_run; [by apply get_ends|]. apply ends_bind. destruct (if_called f1) eqn:Hcall; [done|].
  eapply ends_run; [reflexivity|]. apply ends_bind. eapply ends_run; [reflexivity|]. eapply ends_run; [reflexivity|].
  destruct (call_step T c s1 i e f1 (se_ok _ _ _ _ Hs1) Hf1 Hcall He Hall) as [Hs2 Hin]. split; [by eapply searched_trans|done].
Qed.

(** ** All functions *)
Lemma each_ends T (Hwf : wf_table T) n : forall i s, order_ok T s -> (i + n = length T)%nat -> (forall k, (k < i)%nat -> k ∈ calls s) ->
  ends (call_each n i) s (fun _ s' => order_ok T s' /\ forall k, (k < length T)%nat -> k ∈ calls s').
Proof.
  induction n as [|n IH]; intros i s Hok Hi Hk; cbn [call_each]; [split; [done|]; intros k Hlt; apply Hk; lia|].
  pose proof (Forall2_length _ _ _ (oo_table _ _ Hok)) as Hlen.
  destruct (lookup_lt_is_Some_2 (funcs s) i ltac:(lia)) as (f & Hf). apply ends_bind. eapply ends_run; [by apply get_ends|].
  apply ends_bind. apply (ends_mono _ _ (fun _ s1 => order_ok T s1 /\ (exists l, calls s1 = calls s ++ l) /\ i ∈ calls s1)).
  - destruct (if_called f) eqn:Hc; cbn [negb].
    { split_and!; [done|exists []; by rewrite app_nil_r|by apply (oo_called _ _ Hok i f)]. }
    apply ends_bind. eapply ends_run; [reflexivity|]. set (c := s32 (_init_search_count s + 1)).
    apply ends_bind. eapply ends_run; [reflexivity|]. apply ends_bind. eapply ends_run; [reflexivity|].
    apply ends_bind. eapply ends_run; [reflexivity|]. set (s1 := up_funcs _ _).
    assert (Hok1 : order_ok T s1 /\ funcs s1 !! i = Some (set_search c f)).
    { assert (Hok0 : order_ok T (up_count c s)) by (destruct Hok; by split). destruct (decide (if_search f = c)) as [Ec|Ec].
      - assert (E : s1 = up_count c s).
        { unfold s1, up_funcs, up_count. cbn. f_equal. apply list_eq. intros k. rewrite list_lookup_alter. destruct (decide (i = k)) as [<-|]; [|done].
          rewrite Hf. cbn. f_equal. rewrite <- Ec. by destruct f. }
        rewrite E. split; [done|]. cbn [up_count funcs]. rewrite Hf. f_equal. rewrite <- Ec. by destruct f.
      - destruct (mark_step T c (up_count c s) i f Hok0 Hf Ec) as (Hs & Hf1 & _). split; [apply Hs|done]. }
    destruct Hok1 as [Hok1 Hf1]. eapply ends_mono; [apply (call_ends T c Hwf _ i _ s1 Hok1 Hf1 eq_refl)|].
    { unfold unmarked. pose proof (length_filter (fun f => if_search f <> c) (funcs s1)). lia. }
    intros [] s2 [Hs2 Hin]. split_and!; [apply Hs2|apply Hs2|done].
  - intros [] s1 (Hok1 & (l & El) & Hin). apply (IH (S i) s1 Hok1 ltac:(lia)). intros k Hlt. destruct (decide (k = i)) as [->|]; [done|].
    rewrite El. apply elem_of_app. left. apply Hk. lia.
Qed.

Lemma calls_all T s : order_ok T s -> (forall k, (k < length T)%nat -> k ∈ calls s) -> calls s ≡ₚ seq 0 (length T).
Proof.
  intros Hok Hall. apply NoDup_Permutation; [apply Hok|apply NoDup_seq|]. intros k. rewrite elem_of_seq. split.
  - intros Hk%(oo_range _ _ Hok). lia.
  - intros Hk. apply Hall. lia.
Qed.

(** *** When every function comes after its dependencies *)
Definition sorted (T : list node) : Prop := forall i e d, T !! i = Some e -> d ∈ e.2 -> exists j, place T d = Some j /\ (j < i)%nat.

Lemma deps_skip T (Hwf : wf_table T) call i f : forall deps names s, Forall2 holds deps names -> Forall proper names -> order_ok T s ->
  funcs s !! i = Some f -> (forall d, d ∈ names -> exists j h, place T d = Some j /\ funcs s !! j = Some h /\ if_called h = true /\ if_search h <> if_search f) ->
  init_deps call i deps s = Done tt s.
Proof.
  induction deps as [|p deps IH]; intros names s Hds Hps Hok Hf Hall; inversion Hds as [|? d ? names' Hd Hds']; subst; cbn [init_deps]; [done|].
  apply Forall_cons in Hps as [Hp Hps]. destruct (Hall d ltac:(left)) as (j & h & Hj & Hh & Hc & Hs).
  erewrite bind_done by reflexivity. krun (find_name_run s p d (funcs s) T 0 Hd Hp (oo_table _ _ Hok) Hwf). rewrite Hj. cbn [fmap option_fmap option_map Nat.add].
  erewrite bind_done by (by apply get_ends). erewrite bind_done by (by apply get_ends). rewrite (proj2 (Z.eqb_neq _ _)) by done. rewrite Hc. cbn [negb].
  erewrite bind_done by reflexivity. apply (IH names'); try done. intros d' Hd'. apply Hall. by right.
Qed.

Lemma each_sorted T (Hwf : wf_table T) (Hso : sorted T) n : forall i s, order_ok T s -> (i + n = length T)%nat -> calls s = seq 0 i ->
  (forall k h, funcs s !! k = Some h -> if_search h <= _init_search_count s) -> 0 <= _init_search_count s -> _init_search_count s + Z.of_nat n < 2 ^ 31 ->
  exists s', call_each n i s = Done tt s' /\ calls s' = seq 0 (length T).
Proof.
  induction n as [|n IH]; intros i s Hok Hi Hcalls Hle H0 Hmax; cbn [call_each].
  { exists s. split; [done|]. rewrite Hcalls. f_equal. lia. }
  pose proof (Forall2_length _ _ _ (oo_table _ _ Hok)) as Hlen.
  destruct (lookup_lt_is_Some_2 (funcs s) i ltac:(lia)) as (f & Hf).
  destruct (Forall2_lookup_l _ _ _ _ _ (oo_table _ _ Hok) Hf) as (e & He & Hname & Hdeps). destruct (Hwf e ltac:(by eapply list_elem_of_lookup_2)) as [_ Hproper].
  assert (Hnc : if_called f = false).
  { destruct (if_called f) eqn:Hc; [|done]. apply (oo_called _ _ Hok i f Hf) in Hc. rewrite Hcalls, elem_of_seq in Hc. lia. }
  erewrite bind_done by (by apply get_ends). rewrite Hnc. cbn [negb]. set (c := s32 (_init_search_count s + 1)).
  assert (Ec : c = _init_search_count s + 1) by (apply s32_small; lia).
  assert (Hok0 : order_ok T (up_count c s)) by (destruct Hok; by split).
  destruct (mark_step T c (up_count c s) i f Hok0 Hf ltac:(specialize (Hle i f Hf); lia)) as (Hs1 & Hf1 & _). set (s1 := up_funcs (alter (set_search c) i) (up_count c s)) in *.
  assert (Hdone : forall d, d ∈ e.2 -> exists j h, place T d = Some j /\ funcs s1 !! j = Some h /\ if_called h = true /\ if_search h <> if_search (set_search c f)).
  { intros d Hd. destruct (Hso i e d He Hd) as (j & Hj & Hlt). destruct (lookup_lt_is_Some_2 (funcs s) j ltac:(lia)) as (h & Hh).
    exists j, h. split_and!; [done|cbn [s1 up_funcs up_count funcs]; by rewrite list_lookup_alter_ne by lia| |].
    - apply (oo_called _ _ Hok j h Hh). rewrite Hcalls, elem_of_seq. lia.
    - cbn [set_search if_search]. specialize (Hle j h Hh). lia. }
  pose proof (deps_skip T Hwf (_init_call (length (funcs s1))) i (set_search c f) (if_deps f) e.2 s1 Hdeps Hproper (se_ok _ _ _ _ Hs1) Hf1 Hdone) as Hskip.
  set (s2 := up_funcs (alter set_called i) (up_calls i s1)).
  assert (Hcall : (let* c := gets _init_search_count in let c := s32 (c + 1) in modify (up_count c) ;; modify (up_funcs (alter (set_search c) i)) ;;
    let* k := gets (fun s => S (length (funcs s))) in _init_call k i) s = Done tt s2).
  { do 4 (erewrite bind_done by reflexivity). fold c. fold s1. cbn [_init_call]. erewrite bind_done by (by apply get_ends). cbn [set_search if_deps].
    krun Hskip. erewrite bind_done by (by apply get_ends). cbn [set_search if_called]. rewrite Hnc. by do 2 (erewrite bind_done by reflexivity). }
  krun Hcall. destruct (call_step T c s1 i e (set_search c f) (se_ok _ _ _ _ Hs1) Hf1 Hnc He) as [Hs2 _].
  { intros d Hd. destruct (Hdone d Hd) as (j & h & Hj & Hh & Hc & _). exists j. split; [done|]. by apply (oo_called _ _ (se_ok _ _ _ _ Hs1) j h). }
  fold s2 in Hs2. apply (IH (S i) s2 (se_ok _ _ _ _ Hs2)); [lia| | | |].
  - cbn [s2 up_funcs up_calls calls s1 up_count]. rewrite Hcalls. by rewrite seq_S.
  - intros k h Hk. rewrite (se_count _ _ _ _ Hs2), (se_count _ _ _ _ Hs1). cbn [up_count _init_search_count].
    destruct (se_searches _ _ _ _ (searched_trans _ _ _ _ _ Hs1 Hs2) k h Hk) as (h0 & Hh0 & [->| ->]); [|lia]. specialize (Hle k h0 Hh0). lia.
  - rewrite (se_count _ _ _ _ Hs2), (se_count _ _ _ _ Hs1). cbn [up_count _init_search_count]. lia.
  - rewrite (se_count _ _ _ _ Hs2), (se_count _ _ _ _ Hs1). cbn [up_count _init_search_count]. lia.
Qed.

(** ** Reading the section *)
Lemma byte_s8 x : byte (s8 x) = x mod 256.
Proof. unfold byte, s8. Z.div_mod_to_equations. lia. Qed.

Lemma word_long w r : 0 <= w < 2 ^ 32 -> word_at (long w ++ r) = Some w.
Proof.
  intros Hw. unfold long. cbn [fmap list_fmap app word_at]. rewrite !byte_s8. f_equal.
  change (2 ^ 8) with 256. change (2 ^ 16) with 65536. change (2 ^ 24) with 16777216. Z.div_mod_to_equations. lia.
Qed.

Lemma entry_alloc_run s : oom s = [] -> alloc s = Done tt s.
Proof. intros E. unfold alloc. rewrite E. destruct s; cbn in *. by subst. Qed.

(** A record: its word, its name and what follows. *)
Lemma record_run w name r : 0 <= w < 2 ^ 32 -> 0 ∉ name ->
  let buf := long w ++ cstring name ++ r in
  word_at buf = Some w /\ strlen (drop 4 buf) = Some (length name) /\ holds (drop 4 buf) name /\ drop (4 + length name + 1) buf = r /\
  length buf = (5 + length name + length r)%nat.
Proof.
  intros Hw Hn buf. assert (E : drop 4 buf = name ++ 0 :: r) by (unfold buf, cstring; cbn [long fmap list_fmap app drop]; by rewrite <- app_assoc).
  split_and!; [by apply word_long|rewrite E; by apply strlen_cstring|by exists r| |].
  - replace (4 + length name + 1)%nat with (4 + (length name + 1))%nat by lia. rewrite <- drop_drop, E. rewrite (app_assoc name [0] r : name ++ 0 :: r = _).
    apply drop_app_length'. rewrite length_app. done.
  - unfold buf, cstring. rewrite !length_app. cbn [long fmap list_fmap length]. lia.
Qed.

(** Where the dependencies of a function end. *)
Definition stops (r : list Z) (k : Z) : Prop := exists w, word_at r = Some w /\ (w <> 0 \/ k = 0).

Definition with_deps (ps : list (list Z)) (f : init_function) : init_function :=
  InitFunction (if_func f) (if_name f) (if_search f) (if_called f) (if_deps f ++ ps).

Lemma read_deps_run ds : forall fuel func r k s, (length (concat (init_depends <$> ds) ++ r) < fuel)%nat -> 0 <= k -> stops r k ->
  Forall (fun d => 0 ∉ d) ds -> oom s = [] ->
  exists ps, read_deps fuel func (concat (init_depends <$> ds) ++ r) (Z.of_nat (length (concat (init_depends <$> ds))) + k) s
      = Done (r, k) (up_funcs (alter (with_deps ps) func) s) /\ Forall2 holds ps ds.
Proof.
  induction ds as [|d ds IH]; intros fuel func r k s Hf Hk Hst Hds Ho; (destruct fuel as [|fuel]; [lia|]).
  - exists []. split; [|constructor]. destruct Hst as (w & Hw & Hst). cbn [fmap list_fmap concat app length read_deps]. rewrite Hw. erewrite bind_done by reflexivity.
    assert (Eb : (w =? 0) && (0 <? Z.of_nat 0 + k) = false) by (destruct Hst as [Hst| ->]; [by rewrite (proj2 (Z.eqb_neq _ _) Hst)|apply andb_false_r]).
    rewrite Eb. cbn. unfold ret. f_equal. destruct s as [fs c cl o]. unfold up_funcs. cbn. f_equal.
    symmetry. apply list_alter_id. intros [? ? ? ? dd]. unfold with_deps. cbn. by rewrite app_nil_r.
  - apply Forall_cons in Hds as [Hd Hds]. set (D := concat (init_depends <$> ds)) in *.
    assert (Ebuf : concat (init_depends <$> d :: ds) ++ r = long 0 ++ cstring d ++ D ++ r) by (cbn [fmap list_fmap concat]; unfold init_depends at 1; by rewrite <- !app_assoc).
    destruct (record_run 0 d (D ++ r) ltac:(lia) Hd) as (E1 & E2 & E3 & E4 & E5).
    assert (Elen : length (concat (init_depends <$> d :: ds)) = (5 + length d + length D)%nat) by (rewrite <- Ebuf in E5; rewrite !length_app in E5; lia).
    rewrite Ebuf in Hf |- *. set (buf := long 0 ++ cstring d ++ D ++ r) in *. rewrite Elen.
    cbn [read_deps]. rewrite E1. erewrite bind_done by reflexivity. rewrite (proj2 (Z.ltb_lt 0 _)) by lia. cbn [Z.eqb andb].
    erewrite bind_done by (by apply entry_alloc_run). erewrite bind_done by reflexivity. rewrite E2. erewrite bind_done by reflexivity. rewrite E4.
    replace (Z.of_nat (5 + length d + length D) + k - Z.of_nat (4 + length d + 1)) with (Z.of_nat (length D) + k) by lia.
    destruct (IH fuel func r k (up_funcs (alter (add_dep (drop 4 buf)) func) s)) as (ps & Hrun & Hps); try done; [lia|].
    exists (drop 4 buf :: ps). split; [|by constructor]. rewrite Hrun. f_equal. unfold up_funcs. cbn. f_equal. rewrite list_alter_alter_eq.
    apply list_alter_ext; [|done]. intros f _. unfold with_deps, add_dep, compose. cbn. by rewrite <- app_assoc.
Qed.

Lemma list_alter_snoc g (fs : list init_function) f : alter g (length fs) (fs ++ [f]) = fs ++ [g f].
Proof. induction fs as [|h fs IH]; [done|]. cbn. by f_equal. Qed.

(** *** The whole section *)
Definition entry_ok (e : entry) : Prop := 0 < e.1.1 < 2 ^ 32 /\ proper e.1.2 /\ Forall proper e.2.
Definition node_of (e : entry) : node := (e.1.2, e.2).

(** What is read back for an entry. *)
Definition read_back (f : init_function) (e : entry) : Prop :=
  if_func f = e.1.1 /\ holds (if_name f) e.1.2 /\ Forall2 holds (if_deps f) e.2 /\ if_search f = 0 /\ if_called f = false.

Lemma emit_stops es rest : Forall entry_ok es -> (4 <= length rest)%nat -> stops (emit es ++ rest) (Z.of_nat (length (emit es))).
Proof.
  intros Hes Hr. destruct es as [|e es].
  - destruct rest as [|a [|b [|c [|d rest]]]]; cbn [length] in Hr; try lia. eexists. split; [reflexivity|by right].
  - apply Forall_cons in Hes as [(Hw & _) _]. exists e.1.1. split; [|left; lia].
    unfold emit. cbn [fmap list_fmap concat]. unfold emit_entry at 1, init_func. rewrite <- !app_assoc. apply word_long. lia.
Qed.

Lemma read_funcs_run es : forall fuel rest s, (length (emit es ++ rest) < fuel)%nat -> (4 <= length rest)%nat -> Forall entry_ok es -> oom s = [] ->
  exists fs, read_funcs fuel (emit es ++ rest) (Z.of_nat (length (emit es))) s = Done 0 (up_funcs (fun l => l ++ fs) s) /\ Forall2 read_back fs es.
Proof.
  induction es as [|e es IH]; intros fuel rest s Hf Hr Hes Ho; (destruct fuel as [|fuel]; [lia|]); cbn [read_funcs].
  - exists []. split; [|constructor]. cbn. unfold ret, up_funcs. rewrite app_nil_r. by destruct s.
  - pose proof Hes as Hes0. apply Forall_cons in Hes as [(Hw & [Hc Hn] & Hds) Hes]. destruct e as [[w name] ds]. cbn [fst snd] in *.
    set (D := concat (init_depends <$> ds)). set (E := emit es).
    assert (Ebuf : emit (@cons entry (w, name, ds) es) ++ rest = long w ++ cstring name ++ (D ++ E ++ rest)).
    { unfold emit. cbn [fmap list_fmap concat]. unfold emit_entry at 1, init_func. cbn [fst snd]. by rewrite <- !app_assoc. }
    destruct (record_run w name (D ++ E ++ rest) ltac:(lia) Hn) as (E1 & E2 & E3 & E4 & E5).
    assert (Elen : length (emit (@cons entry (w, name, ds) es)) = (5 + length name + length D + length E)%nat) by (rewrite <- Ebuf in E5; rewrite !length_app in E5; lia).
    rewrite Ebuf in Hf |- *. set (buf := long w ++ cstring name ++ D ++ E ++ rest) in *. rewrite Elen. rewrite (proj2 (Z.ltb_lt 0 _)) by lia.
    erewrite bind_done by (by apply entry_alloc_run). rewrite E1. erewrite bind_done by reflexivity.
    erewrite bind_done by (apply kassert_true; rewrite (proj2 (Z.eqb_neq w 0)) by lia; done). do 2 (erewrite bind_done by reflexivity). rewrite E2. erewrite bind_done by reflexivity. rewrite E4.
    replace (Z.of_nat (5 + length name + length D + length E) - Z.of_nat (4 + length name + 1)) with (Z.of_nat (length D) + Z.of_nat (length E)) by lia.
    set (f0 := InitFunction w (drop 4 buf) 0 false []). set (s1 := up_funcs (fun fs => fs ++ [f0]) s).
    destruct (read_deps_run ds fuel (length (funcs s)) (E ++ rest) (Z.of_nat (length E)) s1) as (ps & Hrun & Hps); try done; [fold D; lia|lia|by apply emit_stops| |].
    { eapply Forall_impl; [exact Hds|]. by intros d []. }
    fold D in Hrun. krun Hrun. cbn [fst snd].
    assert (Es2 : up_funcs (alter (with_deps ps) (length (funcs s))) s1 = up_funcs (fun fs => fs ++ [with_deps ps f0]) s).
    { unfold s1, up_funcs. cbn. f_equal. by rewrite list_alter_snoc. }
    rewrite Es2. destruct (IH fuel rest (up_funcs (fun fs => fs ++ [with_deps ps f0]) s)) as (fs & Hrun2 & Hfs); try done; [fold E; rewrite !length_app in *; lia|].
    exists (with_deps ps f0 :: fs). split; [|by constructor]. fold E in Hrun2. rewrite Hrun2. f_equal. unfold up_funcs. cbn. by rewrite <- app_assoc.
Qed.

Definition nodes (es : list entry) : list node := node_of <$> es.

Lemma nodes_wf es : Forall entry_ok es -> wf_table (nodes es).
Proof. intros Hes e (x & -> & Hx)%list_elem_of_fmap. rewrite Forall_forall in Hes. by destruct (Hes x Hx) as (_ & ? & ?). Qed.

(** The state the calls start from. *)
Lemma start_run es rest s : Forall entry_ok es -> (4 <= length rest)%nat -> oom s = [] -> calls s = [] ->
  exists s1, (forall A (k : M A), (modify (up_funcs (fun _ => [])) ;; let* r := read_funcs (S (length (emit es ++ rest))) (emit es ++ rest) (Z.of_nat (length (emit es))) in
      kassert (r =? 0) ;; k) s = k s1) /\
    Forall2 read_back (funcs s1) es /\ order_ok (nodes es) s1 /\ calls s1 = [] /\ _init_search_count s1 = _init_search_count s.
Proof.
  intros Hes Hr Ho Hc. destruct (read_funcs_run es (S (length (emit es ++ rest))) rest (up_funcs (fun _ => []) s)) as (fs & Hrun & Hfs); try done; [lia|].
  exists (up_funcs (fun _ => fs) s). split_and!; try done.
  - intros A k. erewrite bind_done by reflexivity. krun Hrun. by erewrite bind_done by (by apply kassert_true).
  - assert (Hm : Forall2 matches fs (nodes es)).
    { unfold nodes. apply Forall2_fmap_r. eapply Forall2_impl; [exact Hfs|]. intros f e (_ & ? & ? & _). done. }
    split; cbn [up_funcs funcs calls]; rewrite ?Hc; try done.
    + intros i f Hi. destruct (Forall2_lookup_l _ _ _ _ _ Hfs Hi) as (e & _ & _ & _ & _ & _ & ->). split; [done|]. by intros H%elem_of_nil.
    + by intros i H%elem_of_nil.
    + constructor.
    + by intros [|? ?] ? ? ?.
    + by intros i e d H%elem_of_nil.
Qed.

(** What has been called in order has no circle. *)
Lemma order_tc T s i j : order_ok T s -> tc (needs T) i j -> forall l1 l2, calls s = l1 ++ i :: l2 -> j ∈ l1.
Proof.
  intros Hok Htc. induction Htc as [i j Hn|i k j Hn Htc IH]; intros l1 l2 Hl; [by apply (oo_order _ _ Hok l1 i l2)|].
  pose proof (oo_order _ _ Hok l1 i l2 Hl k Hn) as Hk. apply list_elem_of_split in Hk as (a & b & ->).
  rewrite <- app_assoc in Hl. cbn [app] in Hl. specialize (IH a _ Hl). apply elem_of_app. by left.
Qed.

Lemma needs_lt T i j : tc (needs T) i j -> (i < length T)%nat.
Proof. intros [x y (e & d & He & _)|x y z (e & d & He & _) _]; by eapply lookup_lt_Some. Qed.

Lemma order_acyclic T s : order_ok T s -> (forall k, (k < length T)%nat -> k ∈ calls s) -> forall i, ~ tc (needs T) i i.
Proof.
  intros Hok Hall i Htc. pose proof (Hall i (needs_lt T i i Htc)) as Hi.
  apply list_elem_of_split in Hi as (a & b & Hl). pose proof (order_tc T s i i Hok Htc a b Hl) as Hin.
  pose proof (oo_nodup _ _ Hok) as Hnd. rewrite Hl in Hnd. apply NoDup_app in Hnd as (_ & Hd & _). apply (Hd i Hin). by left.
Qed.

(** ** Theorems *)

(** [init_call_all] reads back from the section exactly the functions, names
    and dependencies the macros [init_func] and [init_depends] have put there. *)
Theorem init_section_roundtrip es rest s : Forall entry_ok es -> (4 <= length rest)%nat -> oom s = [] -> funcs s = [] ->
  exists s', read_funcs (S (length (emit es ++ rest))) (emit es ++ rest) (Z.of_nat (length (emit es))) s = Done 0 s' /\
    Forall2 read_back (funcs s') es.
Proof.
  intros Hes Hr Ho Hf. destruct (read_funcs_run es (S (length (emit es ++ rest))) rest s) as (fs & Hrun & Hfs); try done; [lia|].
  eexists. split; [exact Hrun|]. cbn [up_funcs funcs]. by rewrite Hf.
Qed.

(** C30: [init_call_all] returns or panics.  When it returns it has called every
    function once, each one after all the functions it depends on; the
    dependencies exist and have no circle. *)
Theorem init_call_all_order es rest s : Forall entry_ok es -> (4 <= length rest)%nat -> oom s = [] -> calls s = [] ->
  match init_call_all (emit es ++ rest) (Z.of_nat (length (emit es))) s with
  | Done _ s' => calls s' ≡ₚ seq 0 (length es) /\
      (forall l1 i l2 j, calls s' = l1 ++ i :: l2 -> needs (nodes es) i j -> j ∈ l1) /\
      (forall e d, e ∈ es -> d ∈ e.2 -> is_Some (place (nodes es) d)) /\
      (forall i, ~ tc (needs (nodes es)) i i)
  | Panic => True
  | _ => False
  end.
Proof.
  intros Hes Hr Ho Hc. destruct (start_run es rest s Hes Hr Ho Hc) as (s1 & Hrun & Hfs & Hok & Hc1 & _).
  unfold init_call_all. rewrite Hrun. erewrite bind_done by reflexivity. rewrite (Forall2_length _ _ _ (oo_table _ _ Hok)).
  pose proof (each_ends (nodes es) (nodes_wf es Hes) (length (nodes es)) 0 s1 Hok eq_refl ltac:(intros; lia)) as He. unfold ends in He.
  destruct (call_each _ 0 s1) as [[] s'| | |]; [|done..]. destruct He as [Hok' Hall]. split_and!.
  - rewrite (calls_all _ _ Hok' Hall). unfold nodes. by rewrite length_fmap.
  - intros l1 i l2 j Hl. by apply (oo_order _ _ Hok' l1 i l2).
  - intros e d (i & Hi)%list_elem_of_lookup Hd. assert (Ht : nodes es !! i = Some (node_of e)) by (unfold nodes; rewrite list_lookup_fmap; exact (f_equal (fmap node_of) Hi)).
    apply (oo_exist _ _ Hok' i (node_of e) d); [|done|done]. apply Hall. by eapply lookup_lt_Some.
  - by eapply order_acyclic.
Qed.

(** when every function comes in the section after those it depends on,
    [init_call_all] returns and has called them in the order of the section. *)
Theorem init_call_all_sorted es rest s : Forall entry_ok es -> (4 <= length rest)%nat -> oom s = [] -> calls s = [] ->
  _init_search_count s = 0 -> Z.of_nat (length es) < 2 ^ 31 -> sorted (nodes es) ->
  exists s', init_call_all (emit es ++ rest) (Z.of_nat (length (emit es))) s = Done tt s' /\ calls s' = seq 0 (length es).
Proof.
  intros Hes Hr Ho Hc H0 Hmax Hso. destruct (start_run es rest s Hes Hr Ho Hc) as (s1 & Hrun & Hfs & Hok & Hc1 & Hcount).
  assert (El : length (nodes es) = length es) by apply length_fmap.
  unfold init_call_all. rewrite Hrun. erewrite bind_done by reflexivity. rewrite (Forall2_length _ _ _ (oo_table _ _ Hok)). rewrite <- El.
  apply (each_sorted (nodes es) (nodes_wf es Hes) Hso (length (nodes es)) 0 s1 Hok eq_refl Hc1); rewrite ?Hcount, ?H0; [|lia|lia].
  intros k h Hk. destruct (Forall2_lookup_l _ _ _ _ _ Hfs Hk) as (e & _ & _ & _ & _ & -> & _). done.
Qed.
End InitSpec.
