(* ===== verification/InitDemo.v ===== *)
(** * Initialisation of the kernel

    The functions the kernel registers, on which the theorems are applied, and
    dependencies without a circle that [init_call_all] takes for one. *)

From Stdlib Require Import ZArith Lia Ascii String.
From stdpp Require Import base list gmap.
From S2P Require Import Prelude KString Init InitSpec.

Module InitDemo.
Import KString Init InitSpec.
Local Open Scope Z_scope.

Definition str (s : string) : list Z := (fun a => Z.of_nat (nat_of_ascii a)) <$> list_ascii_of_string s.

(** Functions of [fs], [proc] and [api], each after its dependencies. *)
Definition kernel_entries : list entry :=
  [(0xc0001000, str "sched_init", []); (0xc0001100, str "kthread_reapd_init", [str "sched_init"]);
   (0xc0001200, str "binfmt_init", []); (0xc0001300, str "elf32_init", [str "binfmt_init"]);
   (0xc0001400, str "vnode_init", []); (0xc0001500, str "file_init", []);
   (0xc0001600, str "vfs_init", [str "vnode_init"; str "file_init"])].

(** The same, dependencies last. *)
Definition reversed_entries : list entry := rev kernel_entries.

Definition padding : list Z := [0; 0; 0; 0].
Definition cold : istate := IState [] 0 [] [].
Definition boot (es : list entry) : outcome istate unit := init_call_all (emit es ++ padding) (Z.of_nat (length (emit es))) cold.

Definition properb (n : list Z) : bool := forallb (fun c => (-128 <=? c) && (c <? 128) && negb (c =? 0)) n.
Definition entry_okb (e : entry) : bool := (0 <? e.1.1) && (e.1.1 <? 2 ^ 32) && properb e.1.2 && forallb properb e.2.

Lemma properb_ok n : properb n = true -> proper n.
Proof.
  unfold properb. rewrite forallb_forall. intros H. split.
  - apply Forall_forall. intros c Hc%list_elem_of_In. specialize (H c Hc). unfold is_char. lia.
  - intros H0%list_elem_of_In. specialize (H 0 H0). done.
Qed.

Lemma entry_okb_ok es : forallb entry_okb es = true -> Forall entry_ok es.
Proof.
  rewrite forallb_forall. intros H. apply Forall_forall. intros e He%list_elem_of_In. specialize (H e He). unfold entry_okb in H.
  apply andb_prop in H as [[[H1 H2]%andb_prop H3]%andb_prop H4]. split_and!; [lia|lia|by apply properb_ok|].
  apply Forall_forall. intros d Hd%list_elem_of_In. apply properb_ok. by apply (proj1 (forallb_forall _ _) H4).
Qed.

Lemma kernel_ok : Forall entry_ok kernel_entries.
Proof. apply entry_okb_ok. vm_compute. reflexivity. Qed.

Lemma reversed_ok : Forall entry_ok reversed_entries.
Proof. apply entry_okb_ok. vm_compute. reflexivity. Qed.

Lemma kernel_sorted : sorted (nodes kernel_entries).
Proof.
  intros i e d Hi Hd. unfold nodes, kernel_entries in Hi. do 7 (destruct i as [|i]; [cbn in Hi; injection Hi as <-; cbn [node_of fst snd] in Hd;
    repeat (apply elem_of_cons in Hd as [->|Hd]; [eexists; split; [vm_compute; reflexivity|lia]|]); by apply elem_of_nil in Hd|]). done.
Qed.

Lemma init_section_roundtrip_witness : exists s', read_funcs (S (length (emit kernel_entries ++ padding))) (emit kernel_entries ++ padding)
    (Z.of_nat (length (emit kernel_entries))) cold = Done 0 s' /\ Forall2 read_back (funcs s') kernel_entries.
Proof. exact (init_section_roundtrip kernel_entries padding cold kernel_ok ltac:(cbn; lia) eq_refl eq_refl). Defined.

Lemma init_call_all_sorted_witness : exists s', boot kernel_entries = Done tt s' /\ calls s' = [0; 1; 2; 3; 4; 5; 6]%nat.
Proof. exact (init_call_all_sorted kernel_entries padding cold kernel_ok ltac:(cbn; lia) eq_refl eq_refl eq_refl ltac:(done) kernel_sorted). Defined.

Lemma reversed_calls : match boot reversed_entries with Done _ s => calls s | _ => [] end = [2; 1; 0; 4; 3; 6; 5]%nat.
Proof. vm_compute. reflexivity. Qed.

Lemma init_call_all_order_witness :
  match boot reversed_entries with Done _ s' => calls s' ≡ₚ seq 0 7 | Panic => True | _ => False end /\
  match boot reversed_entries with Done _ s => calls s | _ => [] end = [2; 1; 0; 4; 3; 6; 5]%nat.
Proof.
  split; [|exact reversed_calls]. pose proof (init_call_all_order reversed_entries padding cold reversed_ok ltac:(cbn; lia) eq_refl eq_refl) as H.
  unfold boot. destruct (init_call_all _ _ _); [exact (proj1 H)|exact H..].
Defined.

(** A needs B and C, B needs C: there is no circle, and yet the second time C is
    met in the search the function panics. *)
Definition diamond : list entry := [(1, str "A", [str "B"; str "C"]); (2, str "B", [str "C"]); (3, str "C", [])].

Theorem init_diamond_panics : boot diamond = Panic /\ Forall entry_ok diamond.
Proof. split; [vm_compute; reflexivity|]. apply entry_okb_ok. vm_compute. reflexivity. Qed.
End InitDemo.
