(* ===== verification/Dev.v ===== *)
(** * Device tables ([drivers/bytedev.c], [blockdev.c], [include/drivers/dev.h])

    Device numbers, and the registered byte and block devices.  A device is a
    structure at an address; the tables are the lists of the addresses, in the
    order of registration.  The set-up of the drivers ([tty_init],
    [memdevs_init], [ata_init]) registers devices and is outside.  The tables
    implement the interface [Devs] the VFS layer is written against. *)

From Stdlib Require Import ZArith Lia.
From stdpp Require Import base list gmap.
From S2P Require Import Prelude Vnode.

Module Dev.
Local Open Scope Z_scope.

(** ** Device numbers *)
Definition MINOR_BITS : Z := 8.
Definition MINOR_MASK : Z := 2 ^ MINOR_BITS - 1.
Definition MAJOR (devid : Z) : Z := Z.shiftr devid MINOR_BITS.
Definition MINOR (devid : Z) : Z := Z.land devid MINOR_MASK.
Definition MKDEVID (major minor : Z) : Z := u32 (Z.lor (Z.shiftl major MINOR_BITS) minor).
Definition NULL_DEVID : Z := MKDEVID 0 0.

(** ** Data *)
Record bytedev := Bytedev { cd_id : Z; cd_ops : option Z }.

Record mmobj := Mmobj {
  mmo_ops : option Z;
  mmo_refcount : Z;
  mmo_nrespages : Z;
  mmo_respages : list Z;
  mmo_vmas : list Z;
  mmo_shadowed : option Z
}.

Record blockdev := Blockdev { bd_id : Z; bd_ops : option Z; bd_mmobj : mmobj }.

Record dstate := DState {
  d_bytedevs : gmap Z bytedev;
  d_blockdevs : gmap Z blockdev;
  bytedevs : list Z;
  blockdevs : list Z
}.

Abbreviation M := (kern dstate).

Definition up_bytedevs f s := DState (d_bytedevs s) (d_blockdevs s) (f (bytedevs s)) (blockdevs s).
Definition up_blockdevs f s := DState (d_bytedevs s) (d_blockdevs s) (bytedevs s) (f (blockdevs s)).
Definition up_blockdev a f s := DState (d_bytedevs s) (alter f a (d_blockdevs s)) (bytedevs s) (blockdevs s).

Definition get_bytedev (a : Z) : M bytedev := fun s => deref (d_bytedevs s !! a) s.
Definition get_blockdev (a : Z) : M blockdev := fun s => deref (d_blockdevs s !! a) s.

(** ** Byte devices *)
Definition bytedev_list_init : M unit := modify (up_bytedevs (fun _ => [])).

Fixpoint bytedev_seen (id : Z) (l : list Z) : M bool :=
  match l with
  | [] => ret false
  | a :: l => let* cd := get_bytedev a in if id =? cd_id cd then ret true else bytedev_seen id l
  end.

(** [None] is the NULL pointer. *)
Definition bytedev_register (dev : option Z) : M Z :=
  match dev with
  | None => ret (-1)
  | Some a =>
      let* d := get_bytedev a in
      if (NULL_DEVID =? cd_id d) || bool_decide (cd_ops d = None) then ret (-1)
      else
        let* l := gets bytedevs in
        let* seen := bytedev_seen (cd_id d) l in
        if seen : bool then ret (-1)
        else modify (up_bytedevs (fun l => l ++ [a])) ;; ret 0
  end.

Fixpoint bytedev_scan (id : Z) (l : list Z) : M (option Z) :=
  match l with
  | [] => ret None
  | a :: l =>
      let* cd := get_bytedev a in
      kassert (negb (NULL_DEVID =? cd_id cd)) ;;
      if id =? cd_id cd then ret (Some a) else bytedev_scan id l
  end.
Definition bytedev_lookup (id : Z) : M (option Z) := let* l := gets bytedevs in bytedev_scan id l.

(** ** Block devices *)
Definition blockdev_list_init : M unit := modify (up_blockdevs (fun _ => [])).

(** [ops] is the address of [blockdev_mmobj_ops]. *)
Definition mmobj_init (ops : Z) : mmobj := Mmobj (Some ops) 0 0 [] [] None.

Fixpoint blockdev_scan (id : Z) (l : list Z) : M (option Z) :=
  match l with
  | [] => ret None
  | a :: l => let* bd := get_blockdev a in if id =? bd_id bd then ret (Some a) else blockdev_scan id l
  end.

Definition blockdev_register (ops : Z) (dev : option Z) : M Z :=
  match dev with
  | None => ret (-1)
  | Some a =>
      let* d := get_blockdev a in
      if (NULL_DEVID =? bd_id d) || bool_decide (bd_ops d = None) then ret (-1)
      else
        let* l := gets blockdevs in
        let* r := blockdev_scan (bd_id d) l in
        match r with
        | Some _ => ret (-1)
        | None =>
            modify (up_blockdev a (fun d => Blockdev (bd_id d) (bd_ops d) (mmobj_init ops))) ;;
            modify (up_blockdevs (fun l => l ++ [a])) ;; ret 0
        end
  end.
Definition blockdev_lookup (id : Z) : M (option Z) := let* l := gets blockdevs in blockdev_scan id l.

(** ** Lemmas *)
Lemma land_minor x : Z.land x MINOR_MASK = x mod 256.
Proof. change MINOR_MASK with (Z.ones 8). by rewrite Z.land_ones. Qed.

Lemma mkdevid_sum major minor : 0 <= major < 2 ^ 24 -> 0 <= minor < 256 -> MKDEVID major minor = major * 256 + minor.
Proof.
  intros Hj Hn. unfold MKDEVID, MINOR_BITS. assert (E : Z.lor (Z.shiftl major 8) minor = major * 256 + minor).
  { rewrite Z.shiftl_mul_pow2 by lia. change (2 ^ 8) with 256.
    assert (Hl : Z.land (major * 256) minor = 0).
    { apply Z.bits_inj'. intros n Hn'. rewrite Z.land_spec, Z.bits_0. change 256 with (2 ^ 8). destruct (decide (n < 8)).
      - rewrite Z.mul_pow2_bits_low by lia. done.
      - rewrite (Z.bits_above_log2 minor n); [apply andb_false_r|lia|]. destruct (decide (minor = 0)) as [->|]; [cbn; lia|].
        apply Z.lt_le_trans with 8; [|lia]. apply Z.log2_lt_pow2; lia. }
    pose proof (Z.add_lor_land (major * 256) minor). lia. }
  rewrite E. apply u32_small. lia.
Qed.

(** ** The invariant

    The devices of a table exist, none has the null number and no two have the
    same. *)
Record table_ok {D} (id : D -> Z) (m : gmap Z D) (l : list Z) : Prop := TableOk {
  tb_dev a : a ∈ l -> exists d, m !! a = Some d /\ id d <> NULL_DEVID;
  tb_inj a b d e : a ∈ l -> b ∈ l -> m !! a = Some d -> m !! b = Some e -> id d = id e -> a = b
}.

Record dev_ok (s : dstate) : Prop := DevOk {
  dv_byte : table_ok cd_id (d_bytedevs s) (bytedevs s);
  dv_block : table_ok bd_id (d_blockdevs s) (blockdevs s)
}.

(** The device of that number, if there is one. *)
Definition has_id {D} (id : D -> Z) (m : gmap Z D) (l : list Z) (n a : Z) : Prop := a ∈ l /\ exists d, m !! a = Some d /\ id d = n.

Lemma table_add {D} (id : D -> Z) (m : gmap Z D) l a d : table_ok id m l -> m !! a = Some d -> id d <> NULL_DEVID ->
  (forall b, ~ has_id id m l (id d) b) -> table_ok id m (l ++ [a]).
Proof.
  intros [H1 H2] Ha Hn Hf. split.
  - intros b [Hb|Hb]%elem_of_app; [by apply H1|]. apply list_elem_of_singleton in Hb as ->. eauto.
  - intros b c e f [Hb|Hb]%elem_of_app [Hc|Hc]%elem_of_app He Hf' E; rewrite ?list_elem_of_singleton in *; subst.
    + by eapply H2.
    + exfalso. rewrite Ha in Hf'. injection Hf' as <-. apply (Hf b). split; [done|]. eauto.
    + exfalso. rewrite Ha in He. injection He as <-. apply (Hf c). split; [done|]. by exists f.
    + done.
Qed.

Lemma table_upd {D} (id : D -> Z) (m : gmap Z D) l a g : (forall d, id (g d) = id d) -> table_ok id m l -> table_ok id (alter g a m) l.
Proof.
  intros Hg [H1 H2].
  assert (Hb : forall b d, alter g a m !! b = Some d -> exists d0, m !! b = Some d0 /\ id d = id d0).
  { intros b d Hd. destruct (decide (b = a)) as [->|Hne].
    - rewrite lookup_alter_eq in Hd. apply fmap_Some in Hd as (d0 & ? & ->). eauto.
    - rewrite lookup_alter_ne in Hd by done. eauto. }
  split.
  - intros b Hin. destruct (H1 b Hin) as (d & Hd & Hn). destruct (decide (b = a)) as [->|].
    + exists (g d). rewrite lookup_alter_eq, Hd. split; [done|]. by rewrite Hg.
    + exists d. by rewrite lookup_alter_ne.
  - intros b c d e Hb' Hc Hd He E. destruct (Hb b d Hd) as (d0 & Hd0 & E0), (Hb c e He) as (e0 & He0 & E1).
    apply (H2 b c d0 e0); congruence.
Qed.

Lemma byte_seen_run s n l : (forall a, a ∈ l -> exists d, d_bytedevs s !! a = Some d) ->
  exists b, bytedev_seen n l s = Done b s /\ (b = true <-> exists a, has_id cd_id (d_bytedevs s) l n a).
Proof.
  induction l as [|a l IH]; intros Hl; cbn [bytedev_seen].
  { exists false. split; [done|]. split; [done|]. by intros (a & H%elem_of_nil & _). }
  destruct (Hl a ltac:(left)) as (d & Hd). erewrite bind_done by (unfold get_bytedev, deref; by rewrite Hd).
  destruct (Z.eqb_spec n (cd_id d)) as [->|Hne].
  { exists true. split; [done|]. split; [|done]. intros _. exists a. split; [left|]. eauto. }
  destruct (IH ltac:(intros; apply Hl; by right)) as (b & Hrun & Hb). exists b. split; [done|]. rewrite Hb. split.
  - intros (c & Hc & He). exists c. split; [by right|done].
  - intros (c & [->|Hc]%elem_of_cons & e & He & E); [rewrite Hd in He; injection He as <-; congruence|]. exists c. split; [done|]. eauto.
Qed.

Lemma byte_scan_run s n l : (forall a, a ∈ l -> exists d, d_bytedevs s !! a = Some d /\ cd_id d <> NULL_DEVID) ->
  exists r, bytedev_scan n l s = Done r s /\
    match r with Some a => has_id cd_id (d_bytedevs s) l n a | None => forall a, ~ has_id cd_id (d_bytedevs s) l n a end.
Proof.
  induction l as [|a l IH]; intros Hl; cbn [bytedev_scan].
  { exists None. split; [done|]. by intros a [H%elem_of_nil _]. }
  destruct (Hl a ltac:(left)) as (d & Hd & Hn). erewrite bind_done by (unfold get_bytedev, deref; by rewrite Hd).
  erewrite bind_done by (apply kassert_true; rewrite (proj2 (Z.eqb_neq _ _)) by done; done).
  destruct (Z.eqb_spec n (cd_id d)) as [->|Hne].
  { exists (Some a). split; [done|]. split; [left|]. eauto. }
  destruct (IH ltac:(intros; apply Hl; by right)) as (r & Hrun & Hr). exists r. split; [done|]. destruct r as [c|].
  - destruct Hr as [Hc He]. split; [by right|done].
  - intros c [[->|Hc]%elem_of_cons (e & He & E)]; [rewrite Hd in He; injection He as <-; congruence|]. apply (Hr c). split; [done|]. eauto.
Qed.

Lemma block_scan_run s n l : (forall a, a ∈ l -> exists d, d_blockdevs s !! a = Some d) ->
  exists r, blockdev_scan n l s = Done r s /\
    match r with Some a => has_id bd_id (d_blockdevs s) l n a | None => forall a, ~ has_id bd_id (d_blockdevs s) l n a end.
Proof.
  induction l as [|a l IH]; intros Hl; cbn [blockdev_scan].
  { exists None. split; [done|]. by intros a [H%elem_of_nil _]. }
  destruct (Hl a ltac:(left)) as (d & Hd). erewrite bind_done by (unfold get_blockdev, deref; by rewrite Hd).
  destruct (Z.eqb_spec n (bd_id d)) as [->|Hne].
  { exists (Some a). split; [done|]. split; [left|]. eauto. }
  destruct (IH ltac:(intros; apply Hl; by right)) as (r & Hrun & Hr). exists r. split; [done|]. destruct r as [c|].
  - destruct Hr as [Hc He]. split; [by right|done].
  - intros c [[->|Hc]%elem_of_cons (e & He & E)]; [rewrite Hd in He; injection He as <-; congruence|]. apply (Hr c). split; [done|]. eauto.
Qed.

Lemma byte_lookup_run s n : dev_ok s -> exists r, bytedev_lookup n s = Done r s /\
  forall a, r = Some a <-> has_id cd_id (d_bytedevs s) (bytedevs s) n a.
Proof.
  intros [[H1 H2] _]. unfold bytedev_lookup. erewrite bind_done by reflexivity.
  destruct (byte_scan_run s n (bytedevs s) H1) as (r & Hrun & Hr). exists r. split; [done|]. intros a. destruct r as [b|].
  - split; [by intros [= <-]|]. intros (Ha & d & Hd & E). destruct Hr as (Hb & e & He & E'). f_equal. apply (H2 b a e d); congruence.
  - split; [done|]. intros Ha. by destruct (Hr a).
Qed.

Lemma block_lookup_run s n : dev_ok s -> exists r, blockdev_lookup n s = Done r s /\
  forall a, r = Some a <-> has_id bd_id (d_blockdevs s) (blockdevs s) n a.
Proof.
  intros [_ [H1 H2]]. unfold blockdev_lookup. erewrite bind_done by reflexivity.
  destruct (block_scan_run s n (blockdevs s)) as (r & Hrun & Hr); [intros a Ha; destruct (H1 a Ha) as (d & ? & _); eauto|]. exists r. split; [done|]. intros a. destruct r as [b|].
  - split; [by intros [= <-]|]. intros (Ha & d & Hd & E). destruct Hr as (Hb & e & He & E'). f_equal. apply (H2 b a e d); congruence.
  - split; [done|]. intros Ha. by destruct (Hr a).
Qed.

(** ** Theorems *)

(** a device number is its major and its minor number. *)
Theorem mkdevid_roundtrip major minor : 0 <= major < 2 ^ 24 -> 0 <= minor < 256 ->
  MAJOR (MKDEVID major minor) = major /\ MINOR (MKDEVID major minor) = minor.
Proof.
  intros Hj Hn. rewrite mkdevid_sum by done. unfold MAJOR, MINOR. rewrite land_minor, Z.shiftr_div_pow2 by done.
  change (2 ^ MINOR_BITS) with 256. Z.div_mod_to_equations. lia.
Qed.

(** [bytedev_register] accepts a device with operations and a number that is
    not null and not taken, which [bytedev_lookup] then finds, while the lookups of
    other numbers are as before; it refuses any other device with -1 and no
    change.  The numbers in the table stay different. *)
Theorem bytedev_register_lookup s a d : dev_ok s -> d_bytedevs s !! a = Some d ->
  exists r s', bytedev_register (Some a) s = Done r s' /\ dev_ok s' /\
    ((r = 0 /\ cd_id d <> NULL_DEVID /\ cd_ops d <> None /\ bytedev_lookup (cd_id d) s = Done None s /\
      bytedev_lookup (cd_id d) s' = Done (Some a) s' /\
      forall n x, n <> cd_id d -> bytedev_lookup n s = Done x s <-> bytedev_lookup n s' = Done x s') \/
     (r = -1 /\ s' = s /\ (cd_id d = NULL_DEVID \/ cd_ops d = None \/ exists b, bytedev_lookup (cd_id d) s = Done (Some b) s))).
Proof.
  intros Hok Hd. unfold bytedev_register. erewrite bind_done by (unfold get_bytedev, deref; by rewrite Hd).
  destruct (Z.eqb_spec NULL_DEVID (cd_id d)) as [E|Hne]; cbn [orb]; [exists (-1), s; split_and!; [done|done|right; auto]|].
  destruct (bool_decide_reflect (cd_ops d = None)) as [E|Hops]; [exists (-1), s; split_and!; [done|done|right; auto]|].
  erewrite bind_done by reflexivity. pose proof Hok as [[H1 H2] Hblk].
  destruct (byte_seen_run s (cd_id d) (bytedevs s)) as (b & Hrun & Hb); [intros x Hx; destruct (H1 x Hx) as (e & ? & _); eauto|]. krun Hrun.
  destruct (byte_lookup_run s (cd_id d) Hok) as (r & Hl & Hr). destruct b.
  { destruct (proj1 Hb eq_refl) as (c & Hc). apply Hr in Hc as ->. exists (-1), s. split_and!; [done|done|right; eauto 6]. }
  assert (Hfree : forall c, ~ has_id cd_id (d_bytedevs s) (bytedevs s) (cd_id d) c) by (intros c Hc; enough (false = true) by done; apply Hb; eauto).
  set (s' := up_bytedevs (fun l => l ++ [a]) s). assert (Hok' : dev_ok s') by (split; [by apply (table_add _ _ _ _ d)|done]).
  exists 0, s'. split_and!; [done|done|left]. split_and!; try done.
  - destruct r as [c|]; [|done]. by destruct (Hfree c); apply Hr.
  - destruct (byte_lookup_run s' (cd_id d) Hok') as (r' & Hl' & Hr'). rewrite Hl'. f_equal. apply Hr'. split; [cbn; apply elem_of_app; right; by left|]. eauto.
  - intros n x Hn. destruct (byte_lookup_run s n Hok) as (y & Hy & Ey), (byte_lookup_run s' n Hok') as (y' & Hy' & Ey'). rewrite Hy, Hy'.
    assert (y = y') as <-; [|split; intros [= <-]; done].
    assert (Hiff : forall c, y = Some c <-> y' = Some c).
    { intros c. rewrite Ey, Ey'. unfold has_id. cbn [s' up_bytedevs d_bytedevs bytedevs]. rewrite elem_of_app, list_elem_of_singleton. split.
      - intros [? ?]. auto.
      - intros [[?| ->] (e & He & E)]; [eauto|]. rewrite Hd in He. injection He as <-. congruence. }
    by apply option_eq.
Qed.

(** [blockdev_register] likewise, and it sets the memory object of the device
    up. *)
Theorem blockdev_register_lookup s ops a d : dev_ok s -> d_blockdevs s !! a = Some d ->
  exists r s', blockdev_register ops (Some a) s = Done r s' /\ dev_ok s' /\
    ((r = 0 /\ bd_id d <> NULL_DEVID /\ bd_ops d <> None /\ blockdev_lookup (bd_id d) s = Done None s /\
      blockdev_lookup (bd_id d) s' = Done (Some a) s' /\ d_blockdevs s' !! a = Some (Blockdev (bd_id d) (bd_ops d) (mmobj_init ops))) \/
     (r = -1 /\ s' = s /\ (bd_id d = NULL_DEVID \/ bd_ops d = None \/ exists b, blockdev_lookup (bd_id d) s = Done (Some b) s))).
Proof.
  intros Hok Hd. unfold blockdev_register. erewrite bind_done by (unfold get_blockdev, deref; by rewrite Hd).
  destruct (Z.eqb_spec NULL_DEVID (bd_id d)) as [E|Hne]; cbn [orb]; [exists (-1), s; split_and!; [done|done|right; auto]|].
  destruct (bool_decide_reflect (bd_ops d = None)) as [E|Hops]; [exists (-1), s; split_and!; [done|done|right; auto]|].
  pose proof Hok as [Hbyte Hblk]. destruct (block_lookup_run s (bd_id d) Hok) as (r & Hl & Hr).
  erewrite bind_done by reflexivity. unfold blockdev_lookup in Hl at 1. erewrite bind_done in Hl by reflexivity. krun Hl. destruct r as [b|].
  { exists (-1), s. split_and!; [done|done|right]. split_and!; [done|done|right; right]. exists b. unfold blockdev_lookup. erewrite bind_done by reflexivity. exact Hl. }
  assert (Hfree : forall c, ~ has_id bd_id (d_blockdevs s) (blockdevs s) (bd_id d) c) by (intros c Hc%Hr; done).
  set (g := fun d => Blockdev (bd_id d) (bd_ops d) (mmobj_init ops)). set (s' := up_blockdevs (fun l => l ++ [a]) (up_blockdev a g s)).
  assert (Ha : d_blockdevs s' !! a = Some (g d)) by (cbn [s' up_blockdevs up_blockdev d_blockdevs]; by rewrite lookup_alter_eq, Hd).
  assert (Hok' : dev_ok s').
  { split; [done|]. cbn [s' up_blockdevs up_blockdev d_blockdevs blockdevs]. apply table_upd; [done|]. by apply (table_add _ _ _ _ d). }
  exists 0, s'. split_and!; [done|done|left]. split_and!; [done|done|done|exact Hl| |exact Ha].
  - destruct (block_lookup_run s' (bd_id d) Hok') as (r' & Hl' & Hr'). rewrite Hl'. f_equal. apply Hr'. split; [cbn; apply elem_of_app; right; by left|]. eauto.
Qed.

(** The tables as the interface of the VFS layer. *)
Definition table_devs (s : dstate) : Vnode.Devs := {|
  Vnode.bytedev_lookup := fun n => match bytedev_lookup n s with Done r _ => r | _ => None end;
  Vnode.blockdev_lookup := fun n => match blockdev_lookup n s with Done r _ => r | _ => None end |}.

(** ** Witnesses *)
Definition two_devs : dstate :=
  DState {[1 := Bytedev (MKDEVID 1 0) (Some 7); 2 := Bytedev (MKDEVID 2 0) (Some 7)]} {[3 := Blockdev (MKDEVID 1 0) (Some 8) (mmobj_init 0)]} [1] [].

Lemma two_devs_ok : dev_ok two_devs.
Proof.
  split; split.
  - intros a [->|H%elem_of_nil]%elem_of_cons; [|done]. eexists. split; [vm_compute; reflexivity|]. vm_compute. discriminate.
  - intros a b d e [->|H%elem_of_nil]%elem_of_cons [->|H'%elem_of_nil]%elem_of_cons; done.
  - by intros a H%elem_of_nil.
  - by intros a b d e H%elem_of_nil.
Qed.

Lemma mkdevid_roundtrip_witness : MAJOR (MKDEVID 2 1) = 2 /\ MINOR (MKDEVID 2 1) = 1.
Proof. exact (mkdevid_roundtrip 2 1 ltac:(lia) ltac:(lia)). Defined.

Lemma bytedev_register_lookup_witness : exists r s', bytedev_register (Some 2) two_devs = Done r s' /\ r = 0 /\ dev_ok s'.
Proof.
  destruct (bytedev_register_lookup two_devs 2 (Bytedev (MKDEVID 2 0) (Some 7)) two_devs_ok eq_refl) as (r & s' & Hrun & Hok & _).
  assert (E : r = 0) by (vm_compute in Hrun; injection Hrun as <- _; reflexivity).
  exact (ex_intro _ r (ex_intro _ s' (conj Hrun (conj E Hok)))).
Defined.

Lemma blockdev_register_lookup_witness : exists r s', blockdev_register 9 (Some 3) two_devs = Done r s' /\ r = 0 /\ dev_ok s'.
Proof.
  destruct (blockdev_register_lookup two_devs 9 3 (Blockdev (MKDEVID 1 0) (Some 8) (mmobj_init 0)) two_devs_ok eq_refl) as (r & s' & Hrun & Hok & _).
  assert (E : r = 0) by (vm_compute in Hrun; injection Hrun as <- _; reflexivity).
  exact (ex_intro _ r (ex_intro _ s' (conj Hrun (conj E Hok)))).
Defined.
End Dev.
