(* ===== verification/Gdt.v ===== *)
(** * Segments ([main/gdt.c], [include/main/gdt.h])

    The global descriptor table and the task state segment, as the code fills them
    in and as the processor reads them.  The task state segment is its 26 words. *)

From Stdlib Require Import ZArith Lia.
From stdpp Require Import base list gmap.
From S2P Require Import Prelude.

Module Gdt.
Local Open Scope Z_scope.

Definition GDT_COUNT : Z := 16.
Definition GDT_KERNEL_TEXT : Z := 0x08.
Definition GDT_KERNEL_DATA : Z := 0x10.
Definition GDT_USER_TEXT : Z := 0x18.
Definition GDT_USER_DATA : Z := 0x20.
Definition GDT_TSS : Z := 0x28.

Record gdt_entry := GdtEntry {
  ge_limitlo : Z;
  ge_baselo : Z;
  ge_basemid : Z;
  ge_access : Z;
  ge_flags : Z;
  ge_basehi : Z
}.
Definition zero_entry : gdt_entry := GdtEntry 0 0 0 0 0 0.

(** Indices of words of the task state segment, and its size. *)
Definition ts_esp0 : nat := 1.
Definition ts_ss0 : nat := 2.
Definition ts_iopb : nat := 25.
Definition SIZEOF_TSS : Z := 4 * 26.

(** [gdtr] and [tr] are what [lgdt] and [ltr] have loaded. *)
Record gdtst := Gdtst { gdt : list gdt_entry; tss : list Z; gdtr : option (Z * Z); tr : option Z }.
Abbreviation G := (kern gdtst).

Definition up_gdt f s := Gdtst (f (gdt s)) (tss s) (gdtr s) (tr s).
Definition up_tss f s := Gdtst (gdt s) (f (tss s)) (gdtr s) (tr s).
Definition up_gdtr x s := Gdtst (gdt s) (tss s) x (tr s).
Definition up_tr x s := Gdtst (gdt s) (tss s) (gdtr s) x.

Definition gdt_u8 (z : Z) : Z := z mod 256.
Definition gdt_u16 (z : Z) : Z := z mod 65536.

Definition segment_ok (segment : Z) : bool := (segment <? GDT_COUNT * 8) && (segment mod 8 =? 0).

(** The entry the assignments leave. *)
Definition make_entry (base limit ring : Z) (exec dir rw : bool) : gdt_entry :=
  let access := 0x80 in
  let access := gdt_u8 (Z.lor access (Z.shiftl ring 5)) in
  let access := Z.lor access 0x10 in
  let access := if exec then Z.lor access 0x08 else access in
  let access := if dir then Z.lor access 0x04 else access in
  let access := if rw then Z.lor access 0x02 else access in
  GdtEntry (gdt_u16 limit) (gdt_u16 base) (gdt_u8 (Z.shiftr base 16)) access (gdt_u8 (Z.lor 0xC0 (gdt_u8 (Z.shiftr limit 16)))) (gdt_u8 (Z.shiftr base 24)).

Definition gdt_set_entry (segment base limit ring : Z) (exec dir rw : bool) : G unit :=
  kassert (segment_ok segment) ;;
  kassert (ring <=? 3) ;;
  kassert (limit <=? 0xFFFFF) ;;
  modify (up_gdt <[Z.to_nat (segment / 8) := make_entry base limit ring exec dir rw]>).

Definition gdt_clear (segment : Z) : G unit :=
  kassert (segment_ok segment) ;;
  modify (up_gdt <[Z.to_nat (segment / 8) := zero_entry]>).

Definition gdt_set_kernel_stack (addr : Z) : G unit := modify (up_tss <[ts_esp0 := u32 addr]>).

(** The three assignments that turn the descriptor of a code segment into that of
    a task state segment. *)
Definition make_tss (e : gdt_entry) : gdt_entry :=
  GdtEntry (ge_limitlo e) (ge_baselo e) (ge_basemid e) (Z.lor (Z.land (ge_access e) (Z.lnot 0x10)) 0x01)
    (Z.land (ge_flags e) (Z.lnot 0x80)) (ge_basehi e).

(** [gdt_at] and [tss_at] are the addresses of the two structures. *)
Definition gdt_init (gdt_at tss_at : Z) : G unit :=
  modify (up_gdt (fun _ => replicate (Z.to_nat GDT_COUNT) zero_entry)) ;;
  gdt_set_entry GDT_KERNEL_TEXT 0 0xFFFFF 0 true false true ;;
  gdt_set_entry GDT_KERNEL_DATA 0 0xFFFFF 0 false false true ;;
  gdt_set_entry GDT_USER_TEXT 0 0xFFFFF 3 true false true ;;
  gdt_set_entry GDT_USER_DATA 0 0xFFFFF 3 false false true ;;
  modify (up_gdtr (Some (GDT_COUNT * 8, gdt_at))) ;;
  gdt_set_entry GDT_TSS tss_at SIZEOF_TSS 0 true false false ;;
  let* l := gets gdt in
  let* e := deref (l !! Z.to_nat (GDT_TSS / 8)) in
  modify (up_gdt <[Z.to_nat (GDT_TSS / 8) := make_tss e]>) ;;
  modify (up_tss (fun _ => replicate 26 0)) ;;
  modify (up_tss <[ts_ss0 := GDT_KERNEL_DATA]>) ;;
  modify (up_tss <[ts_iopb := SIZEOF_TSS]>) ;;
  modify (up_tr (Some GDT_TSS)).

(** ** How the processor reads a descriptor *)
Record descriptor := Descriptor {
  sd_base : Z;
  sd_limit : Z;
  sd_present : bool;
  sd_dpl : Z;
  sd_system : bool;
  sd_type : Z
}.

Definition decode (e : gdt_entry) : descriptor :=
  let limit := ge_limitlo e + Z.land (ge_flags e) 15 * 65536 in
  Descriptor (ge_baselo e + ge_basemid e * 2 ^ 16 + ge_basehi e * 2 ^ 24)
    (if Z.testbit (ge_flags e) 7 then limit * 4096 + 4095 else limit)
    (Z.testbit (ge_access e) 7) (Z.land (Z.shiftr (ge_access e) 5) 3) (negb (Z.testbit (ge_access e) 4)) (Z.land (ge_access e) 15).

(** The type of a code or data segment. *)
Definition type_of (exec dir rw : bool) : Z := (if exec then 8 else 0) + (if dir then 4 else 0) + (if rw then 2 else 0).

Lemma flags_decode h : 0 <= h < 16 -> Z.land (gdt_u8 (Z.lor 0xC0 (gdt_u8 h))) 15 = h /\ Z.testbit (gdt_u8 (Z.lor 0xC0 (gdt_u8 h))) 7 = true.
Proof.
  intros Hh. rewrite <-(Z2Nat.id h) by lia. assert (Z.to_nat h < 16)%nat as Hn by lia. revert Hn. generalize (Z.to_nat h) as n. intros n Hn.
  do 16 (destruct n as [|n]; [done|]). lia.
Qed.

Lemma access_decode ring exec dir rw : 0 <= ring <= 3 ->
  let a := ge_access (make_entry 0 0 ring exec dir rw) in
  Z.testbit a 7 = true /\ Z.land (Z.shiftr a 5) 3 = ring /\ Z.testbit a 4 = true /\ Z.land a 15 = type_of exec dir rw.
Proof.
  intros Hr. assert (ring = 0 \/ ring = 1 \/ ring = 2 \/ ring = 3) as [->|[->|[->| ->]]] by lia; destruct exec, dir, rw; done.
Qed.

(** The processor reads what was asked for: a present segment of that privilege and
    type, from [base] on, of [limit] + 1 pages. *)
Lemma make_entry_decode base limit ring exec dir rw : 0 <= base < 2 ^ 32 -> 0 <= limit <= 0xFFFFF -> 0 <= ring <= 3 ->
  decode (make_entry base limit ring exec dir rw) = Descriptor base (limit * 4096 + 4095) true ring false (type_of exec dir rw).
Proof.
  intros Hb Hl Hr. destruct (access_decode ring exec dir rw Hr) as (A1 & A2 & A3 & A4).
  change (ge_access (make_entry 0 0 ring exec dir rw)) with (ge_access (make_entry base limit ring exec dir rw)) in *.
  rewrite Z.shiftr_div_pow2 in * by lia.
  assert (0 <= limit / 2 ^ 16 < 16) as Hh by (change (2 ^ 16) with 65536; dlia).
  destruct (flags_decode (limit / 2 ^ 16) Hh) as [F1 F2]. unfold decode. rewrite A1, A3, A4. rewrite Z.shiftr_div_pow2, A2 by lia.
  cbn [make_entry ge_limitlo ge_baselo ge_basemid ge_basehi ge_flags]. rewrite !Z.shiftr_div_pow2, F1, F2 by lia. unfold gdt_u8, gdt_u16.
  f_equal; [|do 2 f_equal]; change (2 ^ 16) with 65536; change (2 ^ 24) with 16777216; dlia.
Qed.

(** [gdt_set_entry] changes the one entry, and only for arguments that fit. *)
Theorem gdt_set_entry_spec s segment base limit ring exec dir rw :
  length (gdt s) = Z.to_nat GDT_COUNT -> 0 <= segment -> 0 <= base < 2 ^ 32 -> 0 <= limit -> 0 <= ring ->
  gdt_set_entry segment base limit ring exec dir rw s =
    (if segment_ok segment && (ring <=? 3) && (limit <=? 0xFFFFF)
     then Done tt (up_gdt <[Z.to_nat (segment / 8) := make_entry base limit ring exec dir rw]> s) else Panic) /\
  (segment_ok segment = true -> 0 <= ring <= 3 -> limit <= 0xFFFFF ->
   exists e, <[Z.to_nat (segment / 8) := make_entry base limit ring exec dir rw]> (gdt s) !! Z.to_nat (segment / 8) = Some e /\
     decode e = Descriptor base (limit * 4096 + 4095) true ring false (type_of exec dir rw)).
Proof.
  intros Hlen Hseg Hb Hl Hr. split.
  - unfold gdt_set_entry, bind, kassert, modify. destruct (segment_ok segment), (ring <=? 3), (limit <=? 0xFFFFF); done.
  - intros Hok Hr3 Hl2. exists (make_entry base limit ring exec dir rw). split; [|by apply make_entry_decode].
    apply list_lookup_insert_eq. rewrite Hlen. unfold segment_ok, GDT_COUNT in *. apply andb_true_iff in Hok as [Hs _]. apply Z.ltb_lt in Hs.
    apply Z2Nat.inj_lt; [dlia|lia|]. dlia.
Qed.

(** The descriptor at a segment selector. *)
Definition segment_at (s : gdtst) (segment : Z) : option descriptor := decode <$> gdt s !! Z.to_nat (segment / 8).

(** after [gdt_init] the processor sees flat segments of 4 GB for code and data
    of the kernel (ring 0) and of user programs (ring 3), no segment at selector 0,
    and a free 32-bit task state segment at its address, whose ring 0 stack segment
    is the kernel's data segment. *)
Theorem gdt_init_flat s gdt_at tss_at : 0 <= tss_at < 2 ^ 32 ->
  exists s', gdt_init gdt_at tss_at s = Done tt s' /\
    segment_at s' 0 = Some (Descriptor 0 0 false 0 true 0) /\
    segment_at s' GDT_KERNEL_TEXT = Some (Descriptor 0 (2 ^ 32 - 1) true 0 false 10) /\
    segment_at s' GDT_KERNEL_DATA = Some (Descriptor 0 (2 ^ 32 - 1) true 0 false 2) /\
    segment_at s' GDT_USER_TEXT = Some (Descriptor 0 (2 ^ 32 - 1) true 3 false 10) /\
    segment_at s' GDT_USER_DATA = Some (Descriptor 0 (2 ^ 32 - 1) true 3 false 2) /\
    segment_at s' GDT_TSS = Some (Descriptor tss_at SIZEOF_TSS true 0 true 9) /\
    tr s' = Some GDT_TSS /\ tss s' !! ts_ss0 = Some GDT_KERNEL_DATA.
Proof.
  intros Ht. pose proof (make_entry_decode tss_at SIZEOF_TSS 0 true false false Ht ltac:(done) ltac:(done)) as Hd. apply (f_equal sd_base) in Hd.
  eexists. split; [reflexivity|]. split_and!; try reflexivity.
  trans (Some (Descriptor (sd_base (decode (make_entry tss_at SIZEOF_TSS 0 true false false))) SIZEOF_TSS true 0 true 9)); [reflexivity|].
  by rewrite Hd.
Qed.

(** How the processor decides whether code of ring 3 may use a port: byte [k] of the
    task state segment, and the bit of the port in the I/O permission map, whose
    offset is the upper half of the last word; a map beyond the limit permits none. *)
Definition tss_byte (l : list Z) (k : Z) : option Z :=
  w ← l !! Z.to_nat (k / 4); Some (Z.land (Z.shiftr w (8 * (k mod 4))) 255).

Definition port_permitted (l : list Z) (limit port : Z) : bool :=
  match l !! ts_iopb with
  | None => false
  | Some w =>
      let k := Z.shiftr w 16 + port / 8 in
      if limit <? k + 1 then false
      else match tss_byte l k with Some b => negb (Z.testbit b (port mod 8)) | None => false end
  end.

(** The size of the segment is stored in the whole of [ts_iopb], so that the offset
    of the map is 0 and the zeroes of the segment itself are taken for permissions:
    whatever the kernel's stack, code of ring 3 may use the ports of the keyboard
    controller.  With the size in the upper half no port would be permitted. *)
Theorem user_ports_open s gdt_at tss_at addr : exists s',
  (gdt_init gdt_at tss_at ;; gdt_set_kernel_stack addr) s = Done tt s' /\
  tss s' !! ts_iopb = Some SIZEOF_TSS /\ port_permitted (tss s') SIZEOF_TSS 0x60 = true /\ port_permitted (tss s') SIZEOF_TSS 0x64 = true.
Proof. by eexists. Qed.

Theorem shifted_iopb_closes l port : 0 <= port -> length l = 26%nat ->
  port_permitted (<[ts_iopb := Z.shiftl SIZEOF_TSS 16]> l) SIZEOF_TSS port = false.
Proof.
  intros Hp Hl. unfold port_permitted. rewrite list_lookup_insert_eq by (rewrite Hl; unfold ts_iopb; lia).
  change (Z.shiftr _ 16) with SIZEOF_TSS. destruct (Z.ltb_spec SIZEOF_TSS (SIZEOF_TSS + port / 8 + 1)) as [_|H]; [done|]. dlia.
Qed.
End Gdt.
