(* ===== verification/KErrno.v ===== *)
(** * The texts of error numbers ([strerror] of [util/string.c], the numbers of [include/errno.h]) *)

From Stdlib Require Import ZArith String.
From stdpp Require Import base list option.
From S2P Require Import Prelude.

Module Errno.
Local Open Scope Z_scope.
Local Open Scope string_scope.


(** The cases of [strerror], in the order of the source. *)
Definition strerror_cases : list (Z * string) :=
  [(1 (* EPERM *), "Not super-user");
   (2 (* ENOENT *), "No such file or directory");
   (3 (* ESRCH *), "No such process");
   (4 (* EINTR *), "interrupted system call");
   (5 (* EIO *), "I/O error");
   (6 (* ENXIO *), "No such device or address");
   (7 (* E2BIG *), "Arg list too long");
   (8 (* ENOEXEC *), "Exec format error");
   (9 (* EBADF *), "Bad file number");
   (10 (* ECHILD *), "No children");
   (11 (* EAGAIN *), "Resource temporarily unavailable");
   (12 (* ENOMEM *), "Not enough core");
   (13 (* EACCES *), "Permission denied");
   (14 (* EFAULT *), "Bad address");
   (15 (* ENOTBLK *), "Block device required");
   (16 (* EBUSY *), "Mount device busy");
   (17 (* EEXIST *), "File exists");
   (18 (* EXDEV *), "Cross-device link");
   (19 (* ENODEV *), "No such device");
   (20 (* ENOTDIR *), "Not a directory");
   (21 (* EISDIR *), "Is a directory");
   (22 (* EINVAL *), "Invalid argument");
   (23 (* ENFILE *), "File table overflow");
   (24 (* EMFILE *), "Too many open files");
   (25 (* ENOTTY *), "Inappropriate ioctl for device");
   (26 (* ETXTBSY *), "Text file busy");
   (27 (* EFBIG *), "File too large");
   (28 (* ENOSPC *), "No space left on device");
   (29 (* ESPIPE *), "Illegal seek");
   (30 (* EROFS *), "Read only file system");
   (31 (* EMLINK *), "Too many links");
   (32 (* EPIPE *), "Broken pipe");
   (33 (* EDOM *), "Math arg out of domain of func");
   (34 (* ERANGE *), "Math result not representable");
   (42 (* ENOMSG *), "No message of desired type");
   (43 (* EIDRM *), "Identifier removed");
   (44 (* ECHRNG *), "Channel number out of range");
   (45 (* EL2NSYNC *), "Level 2 not synchronized");
   (46 (* EL3HLT *), "Level 3 halted");
   (47 (* EL3RST *), "Level 3 reset");
   (48 (* ELNRNG *), "Link number out of range");
   (49 (* EUNATCH *), "Protocol driver not attached");
   (50 (* ENOCSI *), "No CSI structure available");
   (51 (* EL2HLT *), "Level 2 halted");
   (35 (* EDEADLK *), "Deadlock condition.");
   (37 (* ENOLCK *), "No record locks available.");
   (125 (* ECANCELED *), "Operation canceled");
   (95 (* ENOTSUP *), "Operation not supported");
   (122 (* EDQUOT *), "Disc quota exceeded");
   (52 (* EBADE *), "invalid exchange");
   (53 (* EBADR *), "invalid request descriptor");
   (54 (* EXFULL *), "exchange full");
   (55 (* ENOANO *), "no anode");
   (56 (* EBADRQC *), "invalid request code");
   (57 (* EBADSLT *), "invalid slot");
   (59 (* EBFONT *), "bad font file fmt");
   (60 (* ENOSTR *), "Device not a stream");
   (61 (* ENODATA *), "no data (for no delay io)");
   (62 (* ETIME *), "timer expired");
   (63 (* ENOSR *), "out of streams resources");
   (64 (* ENONET *), "Machine is not on the network");
   (65 (* ENOPKG *), "Package not installed");
   (66 (* EREMOTE *), "The object is remote");
   (67 (* ENOLINK *), "the link has been severed");
   (68 (* EADV *), "advertise error");
   (69 (* ESRMNT *), "srmount error");
   (70 (* ECOMM *), "Communication error on send");
   (71 (* EPROTO *), "Protocol error");
   (72 (* EMULTIHOP *), "multihop attempted");
   (74 (* EBADMSG *), "trying to read unreadable message");
   (36 (* ENAMETOOLONG *), "path name is too long");
   (75 (* EOVERFLOW *), "value too large to be stored in data type");
   (76 (* ENOTUNIQ *), "given log. name not unique");
   (77 (* EBADFD *), "f.d. invalid for this operation");
   (78 (* EREMCHG *), "Remote address changed");
   (79 (* ELIBACC *), "Can't access a needed shared lib.");
   (80 (* ELIBBAD *), "Accessing a corrupted shared lib.");
   (81 (* ELIBSCN *), ".lib section in a.out corrupted.");
   (82 (* ELIBMAX *), "Attempting to link in too many libs.");
   (83 (* ELIBEXEC *), "Attempting to exec a shared library.");
   (84 (* EILSEQ *), "Illegal byte sequence.");
   (38 (* ENOSYS *), "Unsupported file system operation");
   (40 (* ELOOP *), "Symbolic link loop");
   (85 (* ERESTART *), "Restartable system call");
   (86 (* ESTRPIPE *), "if pipe/FIFO, don't sleep in stream head");
   (39 (* ENOTEMPTY *), "directory not empty");
   (87 (* EUSERS *), "Too many users (for UFS)");
   (88 (* ENOTSOCK *), "Socket operation on non-socket");
   (89 (* EDESTADDRREQ *), "Destination address required");
   (90 (* EMSGSIZE *), "Message too long");
   (91 (* EPROTOTYPE *), "Protocol wrong type for socket");
   (92 (* ENOPROTOOPT *), "Protocol not available");
   (93 (* EPROTONOSUPPORT *), "Protocol not supported");
   (94 (* ESOCKTNOSUPPORT *), "Socket type not supported");
   (96 (* EPFNOSUPPORT *), "Protocol family not supported");
   (97 (* EAFNOSUPPORT *), "Address family not supported by protocol family");
   (98 (* EADDRINUSE *), "Address already in use");
   (99 (* EADDRNOTAVAIL *), "Can't assign requested address");
   (100 (* ENETDOWN *), "Network is down");
   (101 (* ENETUNREACH *), "Network is unreachable");
   (102 (* ENETRESET *), "Network dropped connection because of reset");
   (103 (* ECONNABORTED *), "Software caused connection abort");
   (104 (* ECONNRESET *), "Connection reset by peer");
   (105 (* ENOBUFS *), "No buffer space available");
   (106 (* EISCONN *), "Socket is already connected");
   (107 (* ENOTCONN *), "Socket is not connected");
   (108 (* ESHUTDOWN *), "Can't send after socket shutdown");
   (109 (* ETOOMANYREFS *), "Too many references: can't splice");
   (110 (* ETIMEDOUT *), "Connection timed out");
   (111 (* ECONNREFUSED *), "Connection refused");
   (112 (* EHOSTDOWN *), "Host is down");
   (113 (* EHOSTUNREACH *), "No route to host");
   (114 (* EALREADY *), "operation already in progress");
   (115 (* EINPROGRESS *), "operation now in progress");
   (116 (* ESTALE *), "Stale NFS file handle")].

(** [None] is the null pointer of the default case. *)
Definition strerror (errnum : Z) : option string :=
  snd ∘ snd <$> list_find (fun c => fst c = errnum) strerror_cases.

(** The source is a C [switch], so no two cases have the same number, and the
    order of the cases does not matter. *)
Lemma strerror_cases_distinct : NoDup (fst <$> strerror_cases).
Proof. apply (bool_decide_unpack _). by vm_compute. Qed.

Lemma strerror_case n t : strerror n = Some t <-> (n, t) ∈ strerror_cases.
Proof.
  unfold strerror. split.
  - intros H. apply fmap_Some in H as ([i [n' t']] & H & ->).
    apply list_find_Some in H as (Hi & <- & _). apply list_elem_of_lookup_2 in Hi. exact Hi.
  - intros H. destruct (list_find_elem_of (fun c => fst c = n) _ _ H eq_refl) as [[i [n' t']] Hf].
    rewrite Hf. apply list_find_Some in Hf as (Hi & Hn & _). cbn in Hn |- *. subst n'. f_equal.
    apply list_elem_of_lookup in H as [j Hj].
    assert (i = j) as ->.
    { eapply NoDup_lookup; [apply strerror_cases_distinct| |]; rewrite list_lookup_fmap; [by rewrite Hi|by rewrite Hj]. }
    rewrite Hj in Hi. by injection Hi.
Qed.
End Errno.
