(* ===== verification/Math.v ===== *)
(** * 64-bit division ([util/math.c])

    On a 32-bit processor the compiler turns the division of [long long] values
    into calls of [__udivdi3], [__umoddi3] and [__divdi3].  They rest on
    [__qdivrem], Knuth's Algorithm D on digits of 16 bits kept in [unsigned
    long]s.  The model keeps the three local arrays, the pointers into them
    (offsets that move past leading zeros) and the wrap-around of 32-bit
    arithmetic.  [None] is what C gives no meaning to: a division by zero, an
    access outside an array or the use of an element that was never set; a loop
    that would run longer than its fuel is [None] too. *)

From Stdlib Require Import ZArith Lia.
From stdpp Require Import base list gmap option.
From S2P Require Import Prelude.

Module Math.
Local Open Scope Z_scope.

Definition HALF_BITS : Z := 16.

Definition HHALF (x : Z) : Z := Z.shiftr x HALF_BITS.
Definition LHALF (x : Z) : Z := Z.land x (Z.shiftl 1 HALF_BITS - 1).

(** The digit base. *)
Definition B : Z := Z.shiftl 1 HALF_BITS.

Definition COMBINE (a b : Z) : Z := Z.lor (u32 (Z.shiftl a HALF_BITS)) b.

(** [union uu]: the halves of a quad and back. *)
Definition ulH (q : Z) : Z := Z.shiftr q 32.
Definition ulL (q : Z) : Z := Z.land q (Z.ones 32).
Definition uq_of (h l : Z) : Z := Z.lor (Z.shiftl h 32) l.

(** [digit uspace[5], vspace[5], qspace[5]]: an element that has not been set
    is not in the map. *)
Abbreviation arr := (gmap Z Z) (only parsing).
Definition dget (a : arr) (i : Z) : option Z := a !! i.
Definition dset (a : arr) (i x : Z) : option arr :=
  if (0 <=? i) && (i <? 5) then Some (<[i := x]> a) else None.

(** [x / y] and [x % y] on [unsigned long]. *)
Definition udiv (x y : Z) : option Z := if y =? 0 then None else Some (x / y).
Definition umod (x y : Z) : option Z := if y =? 0 then None else Some (x mod y).

(** [shl(p, len, sh)], [p] at offset [p] of [a]; [k] is [len - i]. *)
Fixpoint shl_loop (a : arr) (p i : Z) (k : nat) (sh : Z) : option arr :=
  match k with
  | O => x ← dget a (p + i); dset a (p + i) (LHALF (u32 (Z.shiftl x sh)))
  | S k =>
      x ← dget a (p + i);
      y ← dget a (p + i + 1);
      a ← dset a (p + i) (Z.lor (LHALF (u32 (Z.shiftl x sh))) (Z.shiftr y (HALF_BITS - sh)));
      shl_loop a p (i + 1) k sh
  end.
Definition shl (a : arr) (p : Z) (len : nat) (sh : Z) : option arr := shl_loop a p 0 len sh.

(** The digits of a quad, in elements 1 to 4. *)
Definition set_digits (a : arr) (x : Z) : option arr :=
  a ← dset a 1 (HHALF (ulH x));
  a ← dset a 2 (LHALF (ulH x));
  a ← dset a 3 (HHALF (ulL x));
  dset a 4 (LHALF (ulL x)).

(** The quad in elements 1 to 4. *)
Definition get_digits (a : arr) : option Z :=
  a1 ← dget a 1; a2 ← dget a 2; a3 ← dget a 3; a4 ← dget a 4;
  Some (uq_of (COMBINE a1 a2) (COMBINE a3 a4)).

(** [for (n = 4; v[1] == 0; v++) if (--n == 1) ...]: [inl t] leaves for the
    division by the single digit [t], [inr (v, n)] goes on. *)
Fixpoint skip_v (fuel : nat) (vs : arr) (v n : Z) : option (Z + Z * Z) :=
  match fuel with
  | O => None
  | S fuel =>
      x ← dget vs (v + 1);
      if x =? 0 then
        let n := n - 1 in
        if n =? 1 then t ← dget vs (v + 2); Some (inl t)
        else skip_v fuel vs (v + 1) n
      else Some (inr (v, n))
  end.

(** [for (m = 4 - n; u[1] == 0; u++) m--] *)
Fixpoint skip_u (fuel : nat) (us : arr) (u m : Z) : option (Z * Z) :=
  match fuel with
  | O => None
  | S fuel =>
      x ← dget us (u + 1);
      if x =? 0 then skip_u fuel us (u + 1) (m - 1) else Some (u, m)
  end.

(** The division by one digit, unrolled. *)
Definition short_div (us : arr) (t : Z) (arq : bool) : option (Z * option Z) :=
  u1 ← dget us 1; u2 ← dget us 2; u3 ← dget us 3; u4 ← dget us 4;
  q1 ← udiv u1 t;
  r1 ← umod u1 t; let rbj := COMBINE r1 u2 in
  q2 ← udiv rbj t;
  r2 ← umod rbj t; let rbj := COMBINE r2 u3 in
  q3 ← udiv rbj t;
  r3 ← umod rbj t; let rbj := COMBINE r3 u4 in
  q4 ← udiv rbj t;
  r4 ← umod rbj t;
  Some (uq_of (COMBINE q1 q2) (COMBINE q3 q4), if arq then Some r4 else None).

(** [for (i = 4 - m; --i >= 0;) q[i] = 0] *)
Fixpoint zero_q (qs : arr) (i : nat) : option arr :=
  match i with
  | O => Some qs
  | S i => qs ← dset qs (Z.of_nat i) 0; zero_q qs i
  end.

(** D1: [for (t = v[1]; t < B / 2; t <<= 1) d++] *)
Fixpoint norm_shift (fuel : nat) (t d : Z) : option Z :=
  match fuel with
  | O => None
  | S fuel => if t <? B / 2 then norm_shift fuel (u32 (Z.shiftl t 1)) (d + 1) else Some d
  end.

(** D3: [while (v2 * qhat > COMBINE(rhat, uj2)) { qhat--; if ((rhat += v1) >= B) break; }];
    [qhat_too_big] is the entry into the body of the loop. *)
Fixpoint qhat_loop (fuel : nat) (v1 v2 uj2 qhat rhat : Z) : option Z :=
  match fuel with
  | O => None
  | S fuel =>
      if u32 (v2 * qhat) >? COMBINE rhat uj2 then
        let qhat := u32 (qhat - 1) in
        let rhat := u32 (rhat + v1) in
        if rhat >=? B then Some qhat else qhat_loop fuel v1 v2 uj2 qhat rhat
      else Some qhat
  end.
Definition qhat_too_big (v1 v2 uj2 qhat rhat : Z) : option Z :=
  let qhat := u32 (qhat - 1) in
  let rhat := u32 (rhat + v1) in
  if rhat >=? B then Some qhat else qhat_loop 3 v1 v2 uj2 qhat rhat.

Definition guess_q (v1 v2 uj0 uj1 uj2 : Z) : option Z :=
  if uj0 =? v1 then qhat_too_big v1 v2 uj2 B uj1
  else
    let nn := COMBINE uj0 uj1 in
    qhat ← udiv nn v1;
    rhat ← umod nn v1;
    qhat_loop 3 v1 v2 uj2 qhat rhat.

(** D4: multiply and subtract, [i] counting down; [t] is the borrow. *)
Fixpoint mul_sub (us vs : arr) (u v j : Z) (i : nat) (qhat t : Z) : option (arr * Z) :=
  match i with
  | O => Some (us, t)
  | S i' =>
      x ← dget us (u + (Z.of_nat i + j));
      y ← dget vs (v + Z.of_nat i);
      let t := u32 (x - y * qhat - t) in
      us ← dset us (u + (Z.of_nat i + j)) (LHALF t);
      mul_sub us vs u v j i' qhat (Z.land (B - HHALF t) (B - 1))
  end.

(** D6: add back; [t] is the carry. *)
Fixpoint add_back (us vs : arr) (u v j : Z) (i : nat) (t : Z) : option (arr * Z) :=
  match i with
  | O => Some (us, t)
  | S i' =>
      x ← dget us (u + (Z.of_nat i + j));
      y ← dget vs (v + Z.of_nat i);
      let t := u32 (t + x + y) in
      us ← dset us (u + (Z.of_nat i + j)) (LHALF t);
      add_back us vs u v j i' (HHALF t)
  end.

(** D3 to D6, one digit of the quotient. *)
Definition div_digit (us vs : arr) (u v : Z) (n : nat) (v1 v2 j : Z) : option (arr * Z) :=
  uj0 ← dget us (u + (j + 0));
  uj1 ← dget us (u + (j + 1));
  uj2 ← dget us (u + (j + 2));
  qhat ← guess_q v1 v2 uj0 uj1 uj2;
  '(us, t) ← mul_sub us vs u v j n qhat 0;
  x ← dget us (u + j);
  let t := u32 (x - t) in
  us ← dset us (u + j) (LHALF t);
  if HHALF t =? 0 then Some (us, qhat)
  else
    let qhat := u32 (qhat - 1) in
    '(us, t) ← add_back us vs u v j n 0;
    x ← dget us (u + j);
    us ← dset us (u + j) (LHALF (u32 (x + t)));
    Some (us, qhat).

(** D2 and D7: [k] digits of the quotient are left, [j] to [m]. *)
Fixpoint div_loop (us vs qs : arr) (u v q : Z) (n : nat) (v1 v2 j : Z) (k : nat) : option (arr * arr) :=
  match k with
  | O => Some (us, qs)
  | S k =>
      '(us, qhat) ← div_digit us vs u v n v1 v2 j;
      qs ← dset qs (q + j) qhat;
      div_loop us vs qs u v q n v1 v2 (j + 1) k
  end.

(** [for (i = m + n; i > m; --i) u[i] = (u[i] >> d) | LHALF(u[i - 1] << (HALF_BITS - d))];
    [k] is [i - m]. *)
Fixpoint unshift (us : arr) (u m : Z) (k : nat) (d : Z) : option arr :=
  match k with
  | O => Some us
  | S k' =>
      let i := m + Z.of_nat k in
      x ← dget us (u + i);
      y ← dget us (u + (i - 1));
      us ← dset us (u + i) (Z.lor (Z.shiftr x d) (LHALF (u32 (Z.shiftl y (HALF_BITS - d)))));
      unshift us u m k' d
  end.

(** Program D on the digits of the dividend and the divisor. *)
Definition long_div (us vs : arr) (v n : Z) (arq : bool) : option (Z * option Z) :=
  '(u, m) ← skip_u 5 us 0 (4 - n);
  qs ← zero_q ∅ (Z.to_nat (4 - m));
  let q := 4 - m in
  t ← dget vs (v + 1);
  d ← norm_shift 17 t 0;
  us ← (if 0 <? d then shl us u (Z.to_nat (m + n)) d else Some us);
  vs ← (if 0 <? d then shl vs (v + 1) (Z.to_nat (n - 1)) d else Some vs);
  v1 ← dget vs (v + 1);
  v2 ← dget vs (v + 2);
  '(us, qs) ← div_loop us vs qs u v q (Z.to_nat n) v1 v2 0 (Z.to_nat (m + 1));
  rem ← (if arq then
           us ← (if negb (d =? 0) then
                   us ← unshift us u m (Z.to_nat n) d;
                   dset us (u + m) 0
                 else Some us);
           r ← get_digits us;
           Some (Some r)
         else Some None);
  quo ← get_digits qs;
  Some (quo, rem).

(** The quotient and, when [arq] is not NULL, the remainder. *)
Definition __qdivrem (uq vq : Z) (arq : bool) : option (Z * option Z) :=
  if vq =? 0 then None
  else if uq <? vq then Some (0, if arq then Some uq else None)
  else
    us ← dset ∅ 0 0;
    us ← set_digits us uq;
    vs ← set_digits ∅ vq;
    r ← skip_v 5 vs 0 4;
    match r with
    | inl t => short_div us t arq
    | inr (v, n) => long_div us vs v n arq
    end.

Definition u64 (z : Z) : Z := z mod 2 ^ 64.
Definition s64 (z : Z) : Z := (z + 2 ^ 63) mod 2 ^ 64 - 2 ^ 63.

Definition __divdi3 (a b : Z) : option Z :=
  let '(ua, neg) := if a <? 0 then (u64 (- u64 a), true) else (u64 a, false) in
  let '(ub, neg) := if b <? 0 then (u64 (- u64 b), negb neg) else (u64 b, neg) in
  '(uq, _) ← __qdivrem ua ub false;
  Some (s64 (if neg : bool then u64 (- uq) else uq)).

Definition __udivdi3 (a b : Z) : option Z := fst <$> __qdivrem a b false.

Definition __umoddi3 (a b : Z) : option Z :=
  '(_, r) ← __qdivrem a b true; r.

(** [while (current) { current >>= 1; ++result; y <<= 1; }] on [int]s; a
    negative [current] never becomes 0. *)
Fixpoint log2_loop (fuel : nat) (current y result : Z) : option (Z * Z) :=
  match fuel with
  | O => None
  | S fuel =>
      if current =? 0 then Some (y, result)
      else log2_loop fuel (Z.shiftr current 1) (s32 (Z.shiftl y 1)) (result + 1)
  end.
Definition log2 (x : Z) : option Z :=
  '(y, result) ← log2_loop 32 x 1 0;
  let y := Z.shiftr y 1 in
  Some (if y =? x then result - 1 else result).

Example qdivrem_small : __qdivrem 1000 7 true = Some (142, Some 6).
Proof. vm_compute. reflexivity. Qed.
Example qdivrem_large : __qdivrem (2 ^ 64 - 1) (2 ^ 33 + 12345) true
  = Some ((2 ^ 64 - 1) / (2 ^ 33 + 12345), Some ((2 ^ 64 - 1) mod (2 ^ 33 + 12345))).
Proof. vm_compute. reflexivity. Qed.
(** The rare case in which the guess is one too large. *)
Example qdivrem_add_back : __qdivrem (2 ^ 63) (2 ^ 47 + 1) true
  = Some ((2 ^ 63) / (2 ^ 47 + 1), Some ((2 ^ 63) mod (2 ^ 47 + 1))).
Proof. vm_compute. reflexivity. Qed.
End Math.
