(* ===== verification/MathSpec.v ===== *)
(** * The division routines divide

    [digits a i k x]: the [k] elements of [a] from [i] on are digits in base
    2^16 and their value is [x].  Each loop of Algorithm D is described by what
    it does to such numbers; Knuth's theorem on the guess of a quotient digit
    ([guess_spec]) is stated on the top digits and the rest of both numbers. *)

From Stdlib Require Import ZArith Lia.
From stdpp Require Import base list gmap option.
From S2P Require Import Prelude Math.
Import Math.

Module MathSpec.
Local Open Scope Z_scope.

(** ** Words *)
Lemma lor_add a b n : 0 <= n -> 0 <= b < 2 ^ n -> Z.lor (a * 2 ^ n) b = a * 2 ^ n + b.
Proof.
  intros Hn Hb.
  rewrite <- Z.shiftl_mul_pow2 by done.
  assert (Hl : Z.land (Z.shiftl a n) b = 0).
  { apply Z.bits_inj'. intros i Hi. rewrite Z.land_spec, Z.bits_0.
    destruct (Z.lt_ge_cases i n); [by rewrite Z.shiftl_spec_low|].
    assert (Z.testbit b i = false) as ->; [|by rewrite andb_false_r].
    destruct (Z.eq_dec b 0) as [->|]; [apply Z.bits_0|].
    apply Z.bits_above_log2; [lia|]. assert (Z.log2 b < n); [|lia]. apply Z.log2_lt_pow2; lia. }
  rewrite <- Z.lxor_lor by done. symmetry. by apply Z.add_nocarry_lxor.
Qed.

Lemma B_eq : B = 65536. Proof. reflexivity. Qed.
Lemma B2_eq : B * B = 2 ^ 32. Proof. reflexivity. Qed.

Lemma HHALF_eq x : HHALF x = x / B.
Proof. unfold HHALF. by rewrite Z.shiftr_div_pow2. Qed.

Lemma LHALF_eq x : LHALF x = x mod B.
Proof. unfold LHALF. change (Z.shiftl 1 HALF_BITS - 1) with (Z.ones 16). by rewrite Z.land_ones. Qed.

Lemma land_B1 x : Z.land x (B - 1) = x mod B.
Proof. change (B - 1) with (Z.ones 16). by rewrite Z.land_ones. Qed.

Lemma COMBINE_eq a b : 0 <= a < B -> 0 <= b < B -> COMBINE a b = a * B + b.
Proof.
  intros Ha Hb. unfold COMBINE. rewrite Z.shiftl_mul_pow2 by done.
  change HALF_BITS with 16. rewrite u32_small by (rewrite B_eq in *; lia).
  by rewrite lor_add by (change (2 ^ 16) with B; lia).
Qed.

Lemma uq_of_eq h l : 0 <= l < 2 ^ 32 -> uq_of h l = h * 2 ^ 32 + l.
Proof. intros. unfold uq_of. rewrite Z.shiftl_mul_pow2 by done. by apply lor_add. Qed.

Lemma ulH_eq q : ulH q = q / 2 ^ 32.
Proof. unfold ulH. by rewrite Z.shiftr_div_pow2. Qed.
Lemma ulL_eq q : ulL q = q mod 2 ^ 32.
Proof. unfold ulL. by rewrite Z.land_ones. Qed.

Lemma radix_lt a c P Q : 0 <= a < P -> 0 <= c < Q -> 0 <= a * Q + c < P * Q.
Proof. nia. Qed.

(** ** Numbers in arrays *)
Fixpoint digits (a : arr) (i : Z) (k : nat) (x : Z) : Prop :=
  match k with
  | O => x = 0
  | S k => exists y d, digits a i k y /\ a !! (i + Z.of_nat k) = Some d /\ 0 <= d < B /\ x = y * B + d
  end.

Lemma B_pos : 0 < B. Proof. reflexivity. Qed.
Lemma Bpow_pos k : 0 <= k -> 0 < B ^ k.
Proof. intros. apply Z.pow_pos_nonneg; [apply B_pos|done]. Qed.
Lemma Bpow_S k : B ^ Z.of_nat (S k) = B * B ^ Z.of_nat k.
Proof. rewrite Nat2Z.inj_succ, Z.pow_succ_r; lia. Qed.

Lemma digits_range a i k x : digits a i k x -> 0 <= x < B ^ Z.of_nat k.
Proof.
  revert x. induction k as [|k IH]; intros x; cbn [digits]; [intros ->; done|].
  intros (y & d & Hy & _ & Hd & ->). specialize (IH _ Hy). rewrite Bpow_S. nia.
Qed.

Lemma digits_fun a i k x y : digits a i k x -> digits a i k y -> x = y.
Proof.
  revert x y. induction k as [|k IH]; intros x y; cbn [digits]; [by intros -> ->|].
  intros (x' & d & Hx & Hd & _ & ->) (y' & e & Hy & He & _ & ->).
  rewrite Hd in He. injection He as ->. by rewrite (IH _ _ Hx Hy).
Qed.

Lemma digits_ext a a' i k x :
  (forall p, i <= p < i + Z.of_nat k -> a' !! p = a !! p) -> digits a i k x -> digits a' i k x.
Proof.
  revert x. induction k as [|k IH]; intros x Hext; cbn [digits]; [done|].
  intros (y & d & Hy & Hd & Hr & ->). exists y, d. split; [|split; [|done]].
  - apply IH; [|done]. intros p Hp. apply Hext. lia.
  - rewrite Hext by lia. done.
Qed.

Lemma digits_insert a i k x p d :
  p < i \/ i + Z.of_nat k <= p -> digits a i k x -> digits (<[p := d]> a) i k x.
Proof. intros Hp. apply digits_ext. intros q Hq. rewrite lookup_insert_ne by lia. done. Qed.

(** Taking off the first digit. *)
Lemma digits_cons a i k x :
  digits a i (S k) x <->
  exists d y, a !! i = Some d /\ 0 <= d < B /\ digits a (i + 1) k y /\ x = d * B ^ Z.of_nat k + y.
Proof.
  revert x. induction k as [|k IH]; intros x.
  - cbn [digits]. split.
    + intros (y & d & -> & Hd & Hr & ->). exists d, 0. rewrite Z.add_0_r in Hd. split_and!; try done; change (Z.of_nat 0) with 0; rewrite ?Z.pow_0_r; lia.
    + intros (d & y & Hd & Hr & -> & ->). exists 0, d. rewrite Z.add_0_r. split_and!; try done; change (Z.of_nat 0) with 0; rewrite ?Z.pow_0_r; lia.
  - split.
    + intros (y & d & Hy & Hd & Hr & ->). apply IH in Hy as (e & z & He & Her & Hz & ->).
      exists e, (z * B + d). split; [done|]. split; [done|]. split; [|rewrite Bpow_S; lia].
      exists z, d. split; [done|]. split; [|done]. rewrite <- Hd. f_equal. lia.
    + intros (e & y & He & Her & (z & d & Hz & Hd & Hr & ->) & ->).
      exists (e * B ^ Z.of_nat k + z), d. split; [apply IH; eauto 10|].
      split; [rewrite <- Hd; f_equal; lia|]. split; [done|]. rewrite Bpow_S. lia.
Qed.

Lemma digits_app a i k l x :
  digits a i (k + l) x <->
  exists y z, digits a i k y /\ digits a (i + Z.of_nat k) l z /\ x = y * B ^ Z.of_nat l + z.
Proof.
  revert x. induction l as [|l IH]; intros x.
  - rewrite Nat.add_0_r. cbn [digits Z.of_nat]. split.
    + intros H. exists x, 0. split_and!; [done|done|rewrite Z.pow_0_r; lia].
    + intros (y & z & H & -> & ->). by rewrite Z.pow_0_r, Z.mul_1_r, Z.add_0_r.
  - rewrite Nat.add_succ_r. cbn [digits]. split.
    + intros (y & d & Hy & Hd & Hr & ->). apply IH in Hy as (y1 & z1 & H1 & H2 & ->).
      exists y1, (z1 * B + d). split; [done|]. split; [|rewrite Bpow_S; lia].
      exists z1, d. split_and!; try done; try lia. rewrite <- Hd. f_equal. lia.
    + intros (y & z & Hy & (z1 & d & Hz & Hd & Hr & ->) & ->).
      exists (y * B ^ Z.of_nat l + z1), d. split; [apply IH; eauto 10|].
      split; [rewrite <- Hd; f_equal; lia|]. split; [done|]. rewrite Bpow_S. lia.
Qed.

(** An array all of whose elements exist, the accesses of the C code on it. *)
Lemma dget_some a i d : a !! i = Some d -> dget a i = Some d.
Proof. done. Qed.
Lemma dset_some a i d : 0 <= i < 5 -> dset a i d = Some (<[i := d]> a).
Proof. intros. unfold dset. destruct (Z.leb_spec 0 i), (Z.ltb_spec i 5); try lia. done. Qed.

Lemma pow_lt_B sh : 0 <= sh < 16 -> 0 < 2 ^ sh < B.
Proof.
  intros. change B with (2 ^ 16). split; [apply Z.pow_pos_nonneg; lia|apply Z.pow_lt_mono_r; lia].
Qed.
Lemma B_split sh : 0 <= sh <= 16 -> B = 2 ^ (16 - sh) * 2 ^ sh.
Proof. intros. rewrite <- Z.pow_add_r by lia. by replace (16 - sh + sh) with 16 by lia. Qed.

(** ** Shifting left *)
Lemma shl_digit sh d e : 0 < sh < 16 -> 0 <= d < B -> 0 <= e < B ->
  let w := Z.lor (LHALF (u32 (Z.shiftl d sh))) (Z.shiftr e (HALF_BITS - sh)) in
  w = (d * 2 ^ sh) mod B + e / 2 ^ (16 - sh) /\ 0 <= w < B.
Proof.
  intros Hsh Hd He w.
  pose proof (pow_lt_B sh ltac:(lia)) as Hp. pose proof (B_split sh ltac:(lia)) as HB.
  assert (Hp' : 0 < 2 ^ (16 - sh)) by (apply Z.pow_pos_nonneg; lia).
  assert (He1 : 0 <= e / 2 ^ (16 - sh) < 2 ^ sh).
  { split; [apply Z.div_pos; lia|]. apply Z.div_lt_upper_bound; [lia|]. rewrite <- HB. lia. }
  pose proof (Z.mod_pos_bound d (2 ^ (16 - sh)) ltac:(lia)) as Hd1.
  assert (Ew : w = (d mod 2 ^ (16 - sh)) * 2 ^ sh + e / 2 ^ (16 - sh)).
  { unfold w. rewrite LHALF_eq, Z.shiftl_mul_pow2, Z.shiftr_div_pow2 by (change HALF_BITS with 16; lia).
    rewrite u32_small by (rewrite <- B2_eq; nia).
    rewrite HB. rewrite Z.mul_mod_distr_r by lia. change HALF_BITS with 16. apply lor_add; lia. }
  rewrite Ew. rewrite HB. rewrite Z.mul_mod_distr_r by lia. split; [done|]. by apply radix_lt.
Qed.

Lemma shl_carry sh e z k : 0 < sh < 16 -> 0 <= k -> 0 <= z < B ^ k ->
  (e * B ^ k + z) * 2 ^ sh / (B * B ^ k) = e / 2 ^ (16 - sh).
Proof.
  intros Hsh Hk Hz.
  pose proof (pow_lt_B sh ltac:(lia)) as Hp. pose proof (B_split sh ltac:(lia)) as HB.
  assert (Hp' : 0 < 2 ^ (16 - sh)) by (apply Z.pow_pos_nonneg; lia).
  replace (B * B ^ k) with (B ^ k * 2 ^ (16 - sh) * 2 ^ sh) by (rewrite HB at 2; lia).
  rewrite Z.div_mul_cancel_r by nia. rewrite <- Z.div_div by lia. f_equal.
  symmetry. apply Z.div_unique with z; lia.
Qed.

Lemma shl_loop_spec sh p k : forall a i x,
  0 < sh < 16 -> 0 <= p + i -> p + i + Z.of_nat k < 5 ->
  digits a (p + i) (S k) x ->
  exists a', shl_loop a p i k sh = Some a' /\
    digits a' (p + i) (S k) ((x * 2 ^ sh) mod B ^ Z.of_nat (S k)) /\
    (forall q, q < p + i \/ p + i + Z.of_nat k < q -> a' !! q = a !! q).
Proof.
  induction k as [|k IH]; intros a i x Hsh Hlo Hhi Hx.
  - apply digits_cons in Hx as (d & y & Hd & Hr & Hy & ->). cbn [digits] in Hy. subst y.
    cbn [shl_loop]. rewrite (dget_some _ _ _ Hd). cbn [mbind option_bind].
    rewrite dset_some by lia. eexists. split; [done|]. split.
    + rewrite LHALF_eq, Z.shiftl_mul_pow2 by lia.
      apply digits_cons. exists ((d * 2 ^ sh) mod B), 0. rewrite lookup_insert_eq.
      assert (Hp : 0 < 2 ^ sh < B) by (apply pow_lt_B; lia).
      rewrite u32_small by (rewrite <- B2_eq; nia).
      split_and!; try done; try (apply Z.mod_pos_bound, B_pos).
      change (B ^ Z.of_nat 0) with 1. change (B ^ Z.of_nat 1) with B.
      rewrite !Z.mul_1_r, !Z.add_0_r. done.
    + intros q Hq. rewrite lookup_insert_ne by lia. done.
  - apply digits_cons in Hx as (d & y & Hd & Hr & Hy & ->).
    pose proof Hy as Hy'. apply digits_cons in Hy' as (e & z & He & Her & Hz & Ey).
    cbn [shl_loop]. rewrite (dget_some _ _ _ Hd). cbn [mbind option_bind].
    rewrite (dget_some _ _ _ He). cbn [mbind option_bind]. rewrite dset_some by lia. cbn [mbind option_bind].
    set (w := Z.lor _ _).
    destruct (IH (<[p + i := w]> a) (i + 1) y) as (a' & E & Hd' & Hfr); try lia.
    { rewrite Z.add_assoc. apply digits_insert; [lia|done]. }
    exists a'. split; [done|]. rewrite Z.add_assoc in *. split.
    + apply digits_cons. exists w, ((y * 2 ^ sh) mod B ^ Z.of_nat (S k)).
      destruct (shl_digit sh d e) as [Ew Hw]; [lia|done|done|]. fold w in Ew, Hw.
      pose proof (digits_range _ _ _ _ Hz) as Hzr.
      pose proof (shl_carry sh e z (Z.of_nat k) ltac:(lia) ltac:(lia) Hzr) as Ecarry.
      rewrite <- Ey, <- Bpow_S in Ecarry.
      rewrite Hfr by lia. rewrite lookup_insert_eq. split_and!; try done; try lia.
      pose proof (Bpow_pos (Z.of_nat (S k)) ltac:(lia)) as HBS.
      rewrite (Bpow_S (S k)). rewrite (Z.mul_comm B).
      rewrite Z.rem_mul_r by (pose proof B_pos; lia).
      rewrite Z.mul_add_distr_r. replace (d * B ^ Z.of_nat (S k) * 2 ^ sh) with (d * 2 ^ sh * B ^ Z.of_nat (S k)) by lia.
      rewrite (Z.add_comm (d * 2 ^ sh * _)), Z.mod_add, Z.div_add by lia. rewrite Ecarry.
      assert ((e / 2 ^ (16 - sh) + d * 2 ^ sh) mod B = w) as ->; [|lia].
      rewrite <- (Z.mod_small w B Hw), Ew, Z.add_comm. by rewrite Zplus_mod_idemp_l.
    + intros q Hq. rewrite Hfr by lia. rewrite lookup_insert_ne by lia. done.
Qed.

Lemma shl_spec a p len sh x :
  0 < sh < 16 -> 0 <= p -> p + Z.of_nat len < 5 ->
  digits a p (S len) x -> x * 2 ^ sh < B ^ Z.of_nat (S len) ->
  exists a', shl a p len sh = Some a' /\ digits a' p (S len) (x * 2 ^ sh) /\
    (forall q, q < p \/ p + Z.of_nat len < q -> a' !! q = a !! q).
Proof.
  intros Hsh Hlo Hhi Hx Hsm. unfold shl.
  destruct (shl_loop_spec sh p len a 0 x) as (a' & E & Hd & Hfr); try (rewrite ?Z.add_0_r; done || lia).
  rewrite Z.add_0_r in *. exists a'. split; [done|]. split; [|done].
  pose proof (digits_range _ _ _ _ Hx).
  rewrite Z.mod_small in Hd; [done|]. split; [|done]. apply Z.mul_nonneg_nonneg; [lia|]. apply Z.pow_nonneg; lia.
Qed.

(** ** Shifting back *)
Lemma unshift_digit d x y : 0 < d < 16 -> 0 <= x < B -> 0 <= y < B ->
  Z.lor (Z.shiftr x d) (LHALF (u32 (Z.shiftl y (HALF_BITS - d)))) = (y * 2 ^ (16 - d)) mod B + x / 2 ^ d.
Proof.
  intros Hd Hx Hy. pose proof (B_split (16 - d) ltac:(lia)) as HB.
  replace (16 - (16 - d)) with d in HB by lia.
  destruct (shl_digit (16 - d) y x) as [E _]; [lia|done|done|].
  replace (HALF_BITS - (16 - d)) with d in E by (change HALF_BITS with 16; lia).
  replace (16 - (16 - d)) with d in E by lia. rewrite <- E. change HALF_BITS with 16. apply Z.lor_comm.
Qed.

Lemma unshift_spec d u m k : forall us x,
  0 < d < 16 -> 0 <= u + m -> u + m + Z.of_nat k < 5 ->
  digits us (u + m) (S k) x ->
  exists us', unshift us u m k d = Some us' /\
    digits us' (u + m + 1) k ((x / 2 ^ d) mod B ^ Z.of_nat k) /\
    (forall q, q <= u + m \/ u + m + Z.of_nat k < q -> us' !! q = us !! q).
Proof.
  induction k as [|k IH]; intros us x Hd Hlo Hhi Hx.
  - exists us. split; [done|]. split; [|done]. cbn [digits]. apply Z.mod_1_r.
  - destruct Hx as (y & e & Hy & He & Her & ->). pose proof Hy as (y' & f & _ & Hf & Hfr & Ey).
    cbn [unshift]. rewrite (dget_some us (u + (m + Z.of_nat (S k))) e) by (rewrite <- He; f_equal; lia). cbn [mbind option_bind].
    rewrite (dget_some _ _ f) by (rewrite <- Hf; f_equal; lia). cbn [mbind option_bind].
    rewrite dset_some by lia. cbn [mbind option_bind]. set (w := Z.lor _ _).
    destruct (IH (<[u + (m + Z.of_nat (S k)) := w]> us) y) as (us' & E & Hd' & Hus); [done|lia|lia|apply digits_insert; [lia|done]|].
    exists us'. split; [done|]. split.
    + pose proof (B_split d ltac:(lia)) as HB.
      assert (Hp : 0 < 2 ^ d) by (apply Z.pow_pos_nonneg; lia).
      assert (Hp' : 0 < 2 ^ (16 - d)) by (apply Z.pow_pos_nonneg; lia).
      assert (Exd : (y * B + e) / 2 ^ d = y * 2 ^ (16 - d) + e / 2 ^ d).
      { rewrite HB. replace (y * (2 ^ (16 - d) * 2 ^ d) + e) with (e + y * 2 ^ (16 - d) * 2 ^ d) by lia.
        rewrite Z.div_add by lia. lia. }
      assert (Ew : w = ((y * B + e) / 2 ^ d) mod B).
      { unfold w. rewrite unshift_digit by done. rewrite Exd, Ey.
        replace ((y' * B + f) * 2 ^ (16 - d) + e / 2 ^ d) with (f * 2 ^ (16 - d) + e / 2 ^ d + y' * 2 ^ (16 - d) * B) by lia.
        rewrite Z.mod_add by done. rewrite <- Zplus_mod_idemp_l. symmetry. apply Z.mod_small.
        destruct (shl_digit (16 - d) f e) as [E1 E2]; [lia|done|done|].
        replace (16 - (16 - d)) with d in E1 by lia. rewrite <- E1. done. }
      exists ((y / 2 ^ d) mod B ^ Z.of_nat k), w. split; [done|]. split; [|split].
      * rewrite Hus by lia. rewrite lookup_insert. by rewrite decide_True by lia.
      * rewrite Ew. apply Z.mod_pos_bound, B_pos.
      * rewrite Bpow_S. pose proof (Bpow_pos (Z.of_nat k) ltac:(lia)).
        rewrite Z.rem_mul_r by (pose proof B_pos; lia). rewrite <- Ew.
        rewrite Z.div_div, (Z.mul_comm (2 ^ d)), <- Z.div_div by (pose proof B_pos; lia).
        rewrite Z.div_add_l, (Z.div_small e) by (pose proof B_pos; lia). rewrite Z.add_0_r. lia.
    + intros q Hq. rewrite Hus by lia. rewrite lookup_insert_ne by lia. done.
Qed.

(** ** Multiply and subtract, add back *)
Lemma borrow_step x y q t :
  0 <= x < B -> 0 <= y < B -> 0 <= q < B -> 0 <= t < B ->
  let w := u32 (x - y * q - t) in
  x - y * q - t = LHALF w - B * Z.land (B - HHALF w) (B - 1) /\
  0 <= LHALF w < B /\ 0 <= Z.land (B - HHALF w) (B - 1) < B.
Proof.
  intros Hx Hy Hq Ht w. rewrite land_B1, LHALF_eq, HHALF_eq.
  split; [|split; apply Z.mod_pos_bound, B_pos].
  assert (Hyq : 0 <= y * q <= (B - 1) * (B - 1)) by nia.
  unfold w, u32. rewrite B_eq in *. Z.div_mod_to_equations. lia.
Qed.

Lemma mul_sub_spec vs u v j qhat i : forall us t x y,
  0 <= qhat < B -> 0 <= t < B -> 0 <= u + j -> u + j + Z.of_nat i < 5 ->
  digits us (u + j + 1) i x -> digits vs (v + 1) i y ->
  exists us' t' x', mul_sub us vs u v j i qhat t = Some (us', t') /\
    digits us' (u + j + 1) i x' /\ 0 <= t' < B /\
    x - qhat * y - t = x' - B ^ Z.of_nat i * t' /\
    (forall q, q <= u + j \/ u + j + Z.of_nat i < q -> us' !! q = us !! q).
Proof.
  induction i as [|i IH]; intros us t x y Hq Ht Hlo Hhi Hx Hy.
  - cbn [digits] in Hx, Hy. subst. exists us, t, 0. cbn [mul_sub]. change (B ^ Z.of_nat 0) with 1.
    split_and!; try done; lia.
  - destruct Hx as (x1 & xd & Hx1 & Hxd & Hxr & ->). destruct Hy as (y1 & yd & Hy1 & Hyd & Hyr & ->).
    cbn [mul_sub]. rewrite (dget_some us _ xd) by (rewrite <- Hxd; f_equal; lia). cbn [mbind option_bind].
    rewrite (dget_some vs _ yd) by (rewrite <- Hyd; f_equal; lia). cbn [mbind option_bind].
    rewrite dset_some by lia. cbn [mbind option_bind].
    destruct (borrow_step xd yd qhat t) as (Ew & Hl & Hb); try done.
    set (w := u32 (xd - yd * qhat - t)) in *.
    destruct (IH (<[u + (Z.of_nat (S i) + j) := LHALF w]> us) (Z.land (B - HHALF w) (B - 1)) x1 y1)
      as (us' & t' & x' & E & Hd & Ht' & Eq & Hfr); [done|done|done|lia|apply digits_insert; [lia|done]|done|].
    exists us', t', (x' * B + LHALF w). split; [done|]. split; [|split; [done|split]].
    + exists x', (LHALF w). split; [done|]. split; [|done].
      rewrite Hfr by lia. rewrite lookup_insert. by rewrite decide_True by lia.
    + rewrite Bpow_S. nia.
    + intros q Hq'. rewrite Hfr by lia. rewrite lookup_insert_ne by lia. done.
Qed.

Lemma add_back_spec vs u v j i : forall us t x y,
  0 <= t <= 1 -> 0 <= u + j -> u + j + Z.of_nat i < 5 ->
  digits us (u + j + 1) i x -> digits vs (v + 1) i y ->
  exists us' t' x', add_back us vs u v j i t = Some (us', t') /\
    digits us' (u + j + 1) i x' /\ 0 <= t' <= 1 /\
    x + y + t = x' + B ^ Z.of_nat i * t' /\
    (forall q, q <= u + j \/ u + j + Z.of_nat i < q -> us' !! q = us !! q).
Proof.
  induction i as [|i IH]; intros us t x y Ht Hlo Hhi Hx Hy.
  - cbn [digits] in Hx, Hy. subst. exists us, t, 0. cbn [add_back]. change (B ^ Z.of_nat 0) with 1.
    split_and!; try done; lia.
  - destruct Hx as (x1 & xd & Hx1 & Hxd & Hxr & ->). destruct Hy as (y1 & yd & Hy1 & Hyd & Hyr & ->).
    cbn [add_back]. rewrite (dget_some us _ xd) by (rewrite <- Hxd; f_equal; lia). cbn [mbind option_bind].
    rewrite (dget_some vs _ yd) by (rewrite <- Hyd; f_equal; lia). cbn [mbind option_bind].
    rewrite dset_some by lia. cbn [mbind option_bind].
    rewrite u32_small by (rewrite B_eq in *; lia). rewrite LHALF_eq, HHALF_eq.
    assert (Ew : t + xd + yd = (t + xd + yd) mod B + B * ((t + xd + yd) / B)) by (pose proof (Z.div_mod (t + xd + yd) B); lia).
    assert (Hc : 0 <= (t + xd + yd) / B <= 1) by (rewrite B_eq in *; Z.div_mod_to_equations; lia).
    pose proof (Z.mod_pos_bound (t + xd + yd) B B_pos) as Hl.
    destruct (IH (<[u + (Z.of_nat (S i) + j) := (t + xd + yd) mod B]> us) ((t + xd + yd) / B) x1 y1)
      as (us' & t' & x' & E & Hd & Ht' & Eq & Hfr); [done|done|lia|apply digits_insert; [lia|done]|done|].
    exists us', t', (x' * B + (t + xd + yd) mod B). split; [done|]. split; [|split; [done|split]].
    + exists x', ((t + xd + yd) mod B). split; [done|]. split; [|done].
      rewrite Hfr by lia. rewrite lookup_insert. by rewrite decide_True by lia.
    + rewrite Bpow_S. set (c := (t + xd + yd) / B) in *. set (r := (t + xd + yd) mod B) in *. nia.
    + intros q Hq'. rewrite Hfr by lia. rewrite lookup_insert_ne by lia. done.
Qed.

(** ** The guess of a quotient digit

    The dividend is [(nn * B + u2) * P + ul] with [nn] its two top digits, the
    divisor [(v1 * B + v2) * P + vl]. *)
Lemma norm_large v1 v2 P vl :
  B <= 2 * v1 /\ v1 < B -> 0 <= v2 < B -> 0 < P -> 0 <= vl < P -> B * P <= (v1 * B + v2) * P + vl.
Proof. rewrite B_eq. nia. Qed.

Section Guess.
Context (v1 v2 nn u2 P ul vl : Z).
Context (Hv1 : B <= 2 * v1 /\ v1 < B) (Hv2 : 0 <= v2 < B) (Hu2 : 0 <= u2 < B).
Context (HP : 0 < P) (Hul : 0 <= ul < P) (Hvl : 0 <= vl < P) (Hnn : 0 <= nn).

Let T := (nn * B + u2) * P + ul.
Let V := (v1 * B + v2) * P + vl.

Lemma guess_V : B * P <= V.
Proof. by apply norm_large. Qed.

(** Not below the digit: the test of the loop succeeds only when [q] is too large. *)
Lemma guess_too_big q r : q * v1 + r = nn -> v2 * q > r * B + u2 -> 0 <= q -> T / V <= q - 1.
Proof.
  intros Eq Ht Hq. pose proof guess_V. pose proof B_pos.
  assert (q * (v1 * B + v2) >= nn * B + u2 + 1) by nia.
  assert (T < V * q) by (unfold T, V; nia).
  pose proof (Z.div_lt_upper_bound T V q ltac:(nia) ltac:(done)). lia.
Qed.

(** Above the digit by one at most. *)
Lemma guess_close q : 0 <= q < B -> q * (v1 * B + v2) <= nn * B + u2 -> q <= T / V + 1.
Proof.
  intros Hq Hle. pose proof guess_V. pose proof B_pos.
  assert (HV : 0 < V) by nia.
  assert ((q - 1) * V <= T).
  { unfold T, V in *. assert (q * vl <= B * P) by nia. nia. }
  assert (q - 1 <= T / V); [|lia]. apply Z.div_le_lower_bound; lia.
Qed.

Lemma guess_start q : q * v1 <= nn < (q + 1) * v1 -> 0 <= q -> T / V <= q.
Proof.
  intros Hq Hq0. pose proof guess_V. pose proof B_pos.
  assert (T < V * (q + 1)).
  { unfold T, V. assert ((nn + 1) * (B * P) <= (q + 1) * v1 * (B * P)) by nia. nia. }
  pose proof (Z.div_lt_upper_bound T V (q + 1) ltac:(nia) ltac:(done)). lia.
Qed.

Lemma qhat_loop_spec fuel : forall q r,
  q * v1 + r = nn -> 0 <= r < B -> 0 <= q < B -> T / V <= q -> B <= r + Z.of_nat fuel * v1 ->
  exists q', qhat_loop (S fuel) v1 v2 u2 q r = Some q' /\ T / V <= q' <= T / V + 1 /\ 0 <= q' < B.
Proof.
  induction fuel as [|fuel IH]; intros q r Eq Hr Hq Hle Hf; [lia|].
  assert (Hm : 0 <= v2 * q <= (B - 1) * (B - 1)) by nia.
  cbn [qhat_loop]. rewrite COMBINE_eq by done. rewrite u32_small by (rewrite <- B2_eq; nia).
  rewrite Z.gtb_ltb. destruct (Z.ltb_spec (r * B + u2) (v2 * q)) as [Ht|Ht].
  2:{ exists q. split; [done|]. split; [|done]. split; [done|]. apply guess_close; [done|]. nia. }
  assert (Hq1 : T / V <= q - 1) by (apply (guess_too_big q r); lia).
  assert (0 < q) by nia.
  rewrite (u32_small (q - 1)), (u32_small (r + v1)) by (pose proof B_eq; lia).
  rewrite Z.geb_leb. destruct (Z.leb_spec B (r + v1)) as [Hb|Hb].
  - exists (q - 1). split; [done|]. split; [|lia]. split; [done|].
    apply guess_close; [lia|]. assert (v2 * (q - 1) <= (B - 1) * (B - 1)) by nia. nia.
  - apply IH; try lia.
Qed.
End Guess.

(** D3: the guess is the digit or one more, and fits a digit. *)
Lemma guess_spec v1 v2 uj0 uj1 uj2 P ul vl :
  B <= 2 * v1 /\ v1 < B -> 0 <= v2 < B -> 0 <= uj0 < B -> 0 <= uj1 < B -> 0 <= uj2 < B ->
  0 < P -> 0 <= ul < P -> 0 <= vl < P ->
  let T := ((uj0 * B + uj1) * B + uj2) * P + ul in
  let V := (v1 * B + v2) * P + vl in
  T < V * B ->
  exists q, guess_q v1 v2 uj0 uj1 uj2 = Some q /\ T / V <= q <= T / V + 1 /\ 0 <= q < B.
Proof.
  intros Hv1 Hv2 H0 H1 H2 HP Hul Hvl T V HT.
  pose proof (norm_large v1 v2 P vl Hv1 Hv2 HP Hvl) as HV. fold V in HV.
  assert (Hlt : T / V < B) by (apply Z.div_lt_upper_bound; [rewrite B_eq in *; lia|done]).
  assert (Hlt' : T / V <= B - 1) by lia.
  assert (Hle : uj0 <= v1).
  { destruct (Z.le_gt_cases uj0 v1) as [|Hgt]; [done|exfalso]. pose proof B_pos.
    assert (HV' : V < (v1 + 1) * (B * P)) by (unfold V; nia).
    assert (HTl : uj0 * (B * P) * B <= T).
    { unfold T. assert (0 <= uj1 * B * P) by nia. nia. }
    assert (Hm : (v1 + 1) * (B * P) <= uj0 * (B * P)) by (apply Z.mul_le_mono_nonneg_r; nia). nia. }
  unfold guess_q. destruct (Z.eqb_spec uj0 v1) as [->|Hne].
  - unfold qhat_too_big. rewrite (u32_small (B - 1)), (u32_small (uj1 + v1)) by (pose proof B_eq; lia).
    rewrite Z.geb_leb. destruct (Z.leb_spec B (uj1 + v1)) as [Hb|Hb].
    + exists (B - 1). split; [done|]. split; [|lia]. split; [lia|].
      apply (guess_close v1 v2 (v1 * B + uj1) uj2 P ul vl); try done; try lia. nia.
    + apply (qhat_loop_spec v1 v2 (v1 * B + uj1) uj2 P ul vl); try done; lia || nia.
  - rewrite COMBINE_eq by done. unfold udiv, umod.
    destruct (Z.eqb_spec v1 0) as [->|_]; [rewrite B_eq in *; lia|]. cbn [mbind option_bind].
    set (nn := uj0 * B + uj1) in *.
    pose proof (Z.div_mod nn v1 ltac:(lia)) as Edm. pose proof (Z.mod_pos_bound nn v1 ltac:(lia)) as Hm.
    assert (Hq : 0 <= nn / v1 < B).
    { split; [apply Z.div_pos; nia|]. apply Z.div_lt_upper_bound; [lia|]. unfold nn. nia. }
    apply (qhat_loop_spec v1 v2 nn uj2 P ul vl); try done; try lia; try nia.
    apply guess_start; try done; try lia; nia.
Qed.

(** ** A digit of the quotient *)
Lemma digits_top0 a i k x : digits a i (S k) x -> x < B ^ Z.of_nat k -> a !! i = Some 0 /\ digits a (i + 1) k x.
Proof.
  intros (d & y & Hd & Hr & Hy & ->)%digits_cons Hx. pose proof (digits_range _ _ _ _ Hy).
  assert (d = 0) as -> by nia. by rewrite Z.mul_0_l, Z.add_0_l.
Qed.

Lemma digits_cons0 a i k x : a !! i = Some 0 -> digits a (i + 1) k x -> digits a i (S k) x.
Proof. intros. apply digits_cons. exists 0, x. pose proof B_pos. split_and!; try done; lia. Qed.

(** What is left after the subtraction, with [e] the top word and [x'] the rest. *)
Lemma sub_result T V q Bn e x' :
  0 <= T -> 0 < V < Bn -> 0 <= x' < Bn -> T / V <= q <= T / V + 1 -> T - q * V = e * Bn + x' ->
  (q = T / V /\ e = 0 /\ x' = T mod V) \/ (q = T / V + 1 /\ e = -1 /\ x' + V = Bn + T mod V).
Proof.
  intros HT HV Hx Hq E. pose proof (Z.div_mod T V ltac:(lia)) as Ed. pose proof (Z.mod_pos_bound T V ltac:(lia)) as Hm.
  assert (q = T / V \/ q = T / V + 1) as [Hc|Hc] by lia; rewrite Hc in E.
  - assert (e * Bn + x' = T mod V) by lia. assert (e = 0) by nia. left. lia.
  - assert (e * Bn + x' = T mod V - V) by lia. assert (e = -1) by nia. right. nia.
Qed.

(** What the guess needs to know about the two numbers. *)
Lemma guess_digits us vs p w k T V v1 v2 :
  digits us p (S (S (S k))) T -> digits vs w (S (S k)) V ->
  vs !! w = Some v1 -> vs !! (w + 1) = Some v2 -> B <= 2 * v1 -> T < V * B ->
  exists u0 u1 u2 q, us !! p = Some u0 /\ us !! (p + 1) = Some u1 /\ us !! (p + 2) = Some u2 /\
    guess_q v1 v2 u0 u1 u2 = Some q /\ T / V <= q <= T / V + 1 /\ 0 <= q < B.
Proof.
  intros HT HV H1 H2 Hn Hlt.
  apply digits_cons in HT as (u0 & X1 & Hu0 & Hr0 & HT & ->).
  apply digits_cons in HT as (u1 & X2 & Hu1 & Hr1 & HT & ->).
  apply digits_cons in HT as (u2 & ul & Hu2 & Hr2 & HT & ->).
  apply digits_cons in HV as (w1 & Y1 & Hw1 & Hs1 & HV & ->).
  apply digits_cons in HV as (w2 & vl & Hw2 & Hs2 & HV & ->).
  rewrite H1 in Hw1. injection Hw1 as <-. rewrite H2 in Hw2. injection Hw2 as <-.
  pose proof (Bpow_pos (Z.of_nat k) ltac:(lia)) as HP. rewrite !Bpow_S in *. set (P := B ^ Z.of_nat k) in *.
  assert (EV : v1 * (B * P) + (v2 * P + vl) = (v1 * B + v2) * P + vl) by lia. rewrite EV in *.
  assert (ET : u0 * (B * (B * P)) + (u1 * (B * P) + (u2 * P + ul)) = ((u0 * B + u1) * B + u2) * P + ul) by lia.
  rewrite ET in *.
  destruct (guess_spec v1 v2 u0 u1 u2 P ul vl) as (q & Eq & Hq); try done.
  { lia. } { exact (digits_range _ _ _ _ HT). } { exact (digits_range _ _ _ _ HV). }
  exists u0, u1, u2, q. split; [done|]. split; [done|]. split; [rewrite <- Hu2; f_equal; lia|]. done.
Qed.

Lemma div_digit_spec us vs u v k v1 v2 j T V :
  let n := S (S k) in
  0 <= u + j -> u + j + Z.of_nat n < 5 ->
  digits us (u + j) (S n) T -> digits vs (v + 1) n V ->
  vs !! (v + 1) = Some v1 -> vs !! (v + 2) = Some v2 -> B <= 2 * v1 -> T < V * B ->
  exists us', div_digit us vs u v n v1 v2 j = Some (us', T / V) /\
    digits us' (u + j) (S n) (T mod V) /\ 0 <= T / V < B /\
    (forall q, q < u + j \/ u + j + Z.of_nat n < q -> us' !! q = us !! q).
Proof.
  intros n Hlo Hhi HT HV H1 H2 Hn Hlt.
  destruct (guess_digits us vs (u + j) (v + 1) k T V v1 v2) as (u0 & u1 & u2 & q & E0 & E1 & E2 & Eq & Hq & Hqr); try done.
  { rewrite <- H2. f_equal. lia. }
  pose proof (digits_range _ _ _ _ HT) as HTr. pose proof (digits_range _ _ _ _ HV) as HVr.
  assert (HVp : 0 < V) by (pose proof B_pos; nia).
  pose proof HT as (d & X & Hd & Hdr & HX & EX)%digits_cons.
  rewrite E0 in Hd. injection Hd as <-.
  destruct (mul_sub_spec vs u v j q n us 0 X V) as (us1 & t1 & x1 & Em & Hx1 & Ht1 & Ex1 & Hf1); try done; try lia.
  unfold div_digit.
  rewrite (dget_some us (u + (j + 0)) u0) by (rewrite <- E0; f_equal; lia). cbn [mbind option_bind].
  rewrite (dget_some us (u + (j + 1)) u1) by (rewrite <- E1; f_equal; lia). cbn [mbind option_bind].
  rewrite (dget_some us (u + (j + 2)) u2) by (rewrite <- E2; f_equal; lia). cbn [mbind option_bind].
  rewrite Eq. cbn [mbind option_bind]. rewrite Em. cbn [mbind option_bind].
  rewrite (dget_some us1 (u + j) u0) by (rewrite Hf1 by lia; done). cbn [mbind option_bind].
  rewrite dset_some by lia. cbn [mbind option_bind].
  pose proof (digits_range _ _ _ _ Hx1) as Hx1r. pose proof (Z.mod_pos_bound T V HVp) as Hm.
  assert (Hqd : 0 <= T / V) by (apply Z.div_pos; lia).
  assert (Hqlt : T / V < B) by (apply Z.div_lt_upper_bound; lia).
  destruct (sub_result T V q (B ^ Z.of_nat n) (u0 - t1) x1) as [(-> & He & Hx)|(-> & He & Hx)]; try done; try lia.
  - rewrite He. change (u32 0) with 0. change (HHALF 0) with 0. cbn [Z.eqb]. eexists. split; [done|].
    split; [|split; [done|]].
    + apply digits_cons0; [by rewrite lookup_insert_eq|]. apply digits_insert; [lia|]. by rewrite <- Hx.
    + intros p Hp. rewrite lookup_insert_ne by lia. apply Hf1. lia.
  - rewrite He. change (u32 (-1)) with (2 ^ 32 - 1). change (HHALF (2 ^ 32 - 1)) with (B - 1).
    change (LHALF (2 ^ 32 - 1)) with (B - 1). change (B - 1 =? 0) with false. cbn iota.
    destruct (add_back_spec vs u v j n (<[u + j := B - 1]> us1) 0 x1 V) as (us2 & t2 & x2 & Ea & Hx2 & Ht2 & Ex2 & Hf2); try done; try lia.
    { apply digits_insert; [lia|done]. }
    rewrite Ea. cbn [mbind option_bind].
    rewrite (dget_some us2 (u + j) (B - 1)) by (rewrite Hf2 by lia; by rewrite lookup_insert_eq).
    cbn [mbind option_bind]. rewrite dset_some by lia. cbn [mbind option_bind].
    pose proof (digits_range _ _ _ _ Hx2) as Hx2r. rewrite Z.add_0_r, Hx in Ex2.
    assert (t2 = 1) as -> by nia. change (LHALF (u32 (B - 1 + 1))) with 0.
    rewrite u32_small by (pose proof B_eq; lia). replace (T / V + 1 - 1) with (T / V) by lia.
    eexists. split; [done|]. split; [|split; [done|]].
    + apply digits_cons0; [by rewrite lookup_insert_eq|]. apply digits_insert; [lia|].
      by replace (T mod V) with x2 by lia.
    + intros p Hp. rewrite !lookup_insert_ne, Hf2 by lia. rewrite lookup_insert_ne by lia. apply Hf1. lia.
Qed.

Lemma div_step R T V z Bk : 0 < Bk -> 0 < V -> 0 <= T -> R = T * Bk + z ->
  let R' := T mod V * Bk + z in R mod V = R' mod V /\ R / V = (T / V) * Bk + R' / V.
Proof.
  intros HB HV HT -> R'. pose proof (Z.div_mod T V ltac:(lia)) as E.
  assert (T * Bk + z = R' + T / V * Bk * V) as -> by (unfold R'; rewrite E at 1; ring).
  rewrite Z.mod_add, Z.div_add by lia. lia.
Qed.

Lemma div_loop_spec vs u v q l v1 v2 V k :
  let n := S (S l) in
  digits vs (v + 1) n V -> vs !! (v + 1) = Some v1 -> vs !! (v + 2) = Some v2 -> B <= 2 * v1 ->
  forall us qs j R,
  0 <= u + j -> u + j + Z.of_nat (n + k) <= 5 -> 0 <= q + j -> q + j + Z.of_nat k <= 5 ->
  digits us (u + j) (n + k) R -> R < V * B ^ Z.of_nat k ->
  exists us' qs', div_loop us vs qs u v q n v1 v2 j k = Some (us', qs') /\
    digits us' (u + j) (n + k) (R mod V) /\ digits qs' (q + j) k (R / V) /\
    (forall p, p < u + j -> us' !! p = us !! p) /\ (forall p, p < q + j -> qs' !! p = qs !! p).
Proof.
  intros n HV H1 H2 Hn. pose proof (digits_range _ _ _ _ HV) as HVr.
  induction k as [|k IH]; intros us qs j R Hu Hu' Hq Hq' HR Hlt.
  - pose proof (digits_range _ _ _ _ HR). change (B ^ Z.of_nat 0) with 1 in Hlt.
    exists us, qs. split; [done|]. rewrite Z.mod_small, Z.div_small by lia. done.
  - replace (n + S k)%nat with (S n + k)%nat in HR by lia.
    apply digits_app in HR as (T & z & HT & Hz & ER).
    pose proof (digits_range _ _ _ _ HT) as HTr. pose proof (digits_range _ _ _ _ Hz) as Hzr.
    pose proof (Bpow_pos (Z.of_nat k) ltac:(lia)) as HB. rewrite Bpow_S in Hlt.
    assert (HTlt : T < V * B) by nia. assert (HVp : 0 < V) by (pose proof B_pos; nia).
    destruct (div_digit_spec us vs u v l v1 v2 j T V) as (us1 & E1 & Hd1 & Hqd & Hf1); try done; try (fold n; lia).
    destruct (div_step R T V z (B ^ Z.of_nat k) HB HVp ltac:(lia) ER) as [Em Eq].
    pose proof (Z.mod_pos_bound T V HVp) as HTm.
    destruct (digits_top0 _ _ _ _ Hd1) as [Htop Hd1']; [exact (Z.lt_trans _ _ _ (proj2 HTm) (proj2 HVr))|].
    destruct (IH us1 (<[q + j := T / V]> qs) (j + 1) (T mod V * B ^ Z.of_nat k + z))
      as (us' & qs' & El & Hus & Hqs & Hfu & Hfq); try lia.
    { rewrite Z.add_assoc. apply digits_app. exists (T mod V), z. split; [done|]. split; [|done].
      eapply digits_ext; [|replace (u + j + 1 + Z.of_nat n) with (u + j + Z.of_nat (S n)) by lia; exact Hz].
      intros p Hp. apply Hf1. lia. }
    { nia. }
    exists us', qs'. fold n in E1. cbn [div_loop]. rewrite E1. cbn [mbind option_bind].
    rewrite dset_some by lia. cbn [mbind option_bind]. split; [done|]. rewrite Em, Eq. rewrite !Z.add_assoc in Hus, Hqs.
    split; [|split; [|split]].
    + replace (n + S k)%nat with (S (n + k)) by lia. apply digits_cons0; [|done]. rewrite Hfu by lia. done.
    + apply digits_cons. exists (T / V), ((T mod V * B ^ Z.of_nat k + z) / V).
      split; [rewrite Hfq by lia; by rewrite lookup_insert_eq|]. done.
    + intros p Hp. rewrite Hfu by lia. apply Hf1. lia.
    + intros p Hp. rewrite Hfq by lia. rewrite lookup_insert_ne by lia. done.
Qed.

(** ** Leading zeros and normalisation *)
Lemma digits_pad a c : forall i k x,
  (forall p, i <= p < i + Z.of_nat c -> a !! p = Some 0) ->
  digits a (i + Z.of_nat c) k x -> digits a i (c + k) x.
Proof.
  induction c as [|c IH]; intros i k x Hz Hx; [by rewrite Z.add_0_r in Hx|].
  cbn [Nat.add]. apply digits_cons0; [apply Hz; lia|]. apply IH; [intros; apply Hz; lia|].
  by replace (i + 1 + Z.of_nat c) with (i + Z.of_nat (S c)) by lia.
Qed.

Lemma digits_suffix a c : forall i k x,
  digits a i (c + k) x -> x < B ^ Z.of_nat k ->
  digits a (i + Z.of_nat c) k x /\ (forall p, i <= p < i + Z.of_nat c -> a !! p = Some 0).
Proof.
  induction c as [|c IH]; intros i k x Hx Hlt.
  { rewrite Z.add_0_r. split; [done|lia]. }
  cbn [Nat.add] in Hx. destruct (digits_top0 _ _ _ _ Hx) as [H0 Hx'].
  { eapply Z.lt_le_trans; [done|]. apply Z.pow_le_mono_r; [apply B_pos|lia]. }
  destruct (IH _ _ _ Hx' Hlt) as [H1 H2].
  split; [by replace (i + Z.of_nat (S c)) with (i + 1 + Z.of_nat c) by lia|].
  intros p Hp. destruct (decide (p = i)) as [->|]; [done|]. apply H2. lia.
Qed.

Lemma digits_head a i k x d : a !! i = Some d -> d <> 0 -> digits a i (S k) x -> B ^ Z.of_nat k <= x.
Proof.
  intros Hd H0 (e & y & He & Hr & Hy & ->)%digits_cons. pose proof (digits_range _ _ _ _ Hy).
  rewrite Hd in He. injection He as <-. nia.
Qed.

Lemma skip_u_spec us m0 U : U <> 0 -> forall L u fuel,
  0 <= u -> (L < fuel)%nat -> digits us (u + 1) L U -> us !! u = Some 0 ->
  exists u' L', skip_u fuel us u (m0 + Z.of_nat L) = Some (u', m0 + Z.of_nat L') /\
    u' + Z.of_nat L' = u + Z.of_nat L /\ u <= u' /\ digits us (u' + 1) L' U /\
    (0 < L')%nat /\ B ^ (Z.of_nat L' - 1) <= U /\
    (forall p, u <= p <= u' -> us !! p = Some 0).
Proof.
  intros HU L. induction L as [|L IH]; intros u fuel Hu Hf HL H0; [done|].
  destruct fuel as [|fuel]; [lia|]. pose proof HL as (d & y & Hd & Hr & Hy & EU)%digits_cons.
  cbn [skip_u]. rewrite (dget_some _ _ _ Hd). cbn [mbind option_bind].
  destruct (Z.eqb_spec d 0) as [->|Hne].
  - rewrite Z.mul_0_l, Z.add_0_l in EU. subst y.
    destruct (IH (u + 1) fuel) as (u' & L' & E & H1 & H2 & H3 & H4 & H5 & H6); [lia|lia|done|done|].
    exists u', L'. replace (m0 + Z.of_nat (S L) - 1) with (m0 + Z.of_nat L) by lia.
    split_and!; try done; try lia. intros p Hp. destruct (decide (p = u)) as [->|]; [done|]. apply H6. lia.
  - exists u, (S L). split_and!; try done; try lia.
    + replace (Z.of_nat (S L) - 1) with (Z.of_nat L) by lia. by apply (digits_head us (u + 1) L U d).
    + intros p Hp. by replace p with u by lia.
Qed.

Lemma skip_v_spec vs V : V <> 0 -> forall l v fuel,
  (S l < fuel)%nat -> digits vs (v + 1) (S (S l)) V ->
  (0 < V < B /\ skip_v fuel vs v (Z.of_nat (S (S l))) = Some (inl V)) \/
  exists v' l' t, skip_v fuel vs v (Z.of_nat (S (S l))) = Some (inr (v', Z.of_nat (S (S l')))) /\
    v' + Z.of_nat l' = v + Z.of_nat l /\ v <= v' /\ digits vs (v' + 1) (S (S l')) V /\
    vs !! (v' + 1) = Some t /\ t <> 0.
Proof.
  intros HV l. induction l as [|l IH]; intros v fuel Hf Hd.
  all: destruct fuel as [|fuel]; [lia|]; pose proof Hd as (d & y & Hd1 & Hr & Hy & EU)%digits_cons.
  all: cbn [skip_v]; rewrite (dget_some vs (v + 1) d) by done; cbn [mbind option_bind].
  all: destruct (Z.eqb_spec d 0) as [->|Hne]; [rewrite Z.mul_0_l, Z.add_0_l in EU; subst y|].
  - left. change (Z.of_nat 2 - 1 =? 1) with true. cbn iota.
    apply digits_cons in Hy as (e & y & He & Her & Hy & EV). cbn [digits] in Hy. subst y.
    change (B ^ Z.of_nat 0) with 1 in EV. assert (e = V) as -> by lia. split; [lia|].
    rewrite (dget_some vs (v + 2) V) by (rewrite <- He; f_equal; lia). done.
  - right. exists v, O, d. done.
  - destruct (Z.eqb_spec (Z.of_nat (S (S (S l))) - 1) 1) as [|_]; [lia|].
    replace (Z.of_nat (S (S (S l))) - 1) with (Z.of_nat (S (S l))) by lia.
    destruct (IH (v + 1) fuel) as [H|(v' & l' & t & E & H1 & H2 & H3)]; [lia|done|by left|right].
    exists v', l', t. split; [done|]. split; [lia|]. split; [lia|done].
  - right. exists v, (S l), d. done.
Qed.

Lemma norm_shift_S fuel t d :
  norm_shift (S fuel) t d = if t <? 32768 then norm_shift fuel (u32 (Z.shiftl t 1)) (d + 1) else Some d.
Proof. reflexivity. Qed.

Lemma norm_shift_spec fuel : forall t d,
  0 < t < B -> B <= 2 * (t * 2 ^ Z.of_nat fuel) ->
  exists e, norm_shift (S fuel) t d = Some (d + Z.of_nat e) /\
    B <= 2 * (t * 2 ^ Z.of_nat e) /\ t * 2 ^ Z.of_nat e < B.
Proof.
  induction fuel as [|fuel IH]; intros t d Ht Hf; rewrite norm_shift_S; destruct (Z.ltb_spec t 32768) as [Hs|Hs].
  - change (2 ^ Z.of_nat 0) with 1 in Hf. pose proof B_eq. lia.
  - exists O. rewrite Z.add_0_r. split; [done|]. change (2 ^ Z.of_nat 0) with 1. pose proof B_eq. lia.
  - rewrite Z.shiftl_mul_pow2, u32_small by (pose proof B_eq; lia). change (2 ^ 1) with 2.
    rewrite Nat2Z.inj_succ, Z.pow_succ_r in Hf by lia.
    destruct (IH (t * 2) (d + 1)) as (e & E & H1 & H2); [pose proof B_eq; lia|lia|].
    exists (S e). rewrite Nat2Z.inj_succ, Z.pow_succ_r by lia. rewrite E.
    split; [f_equal; lia|]. lia.
  - exists O. rewrite Z.add_0_r. split; [done|]. change (2 ^ Z.of_nat 0) with 1. pose proof B_eq. lia.
Qed.

(** ** Quads *)
Lemma digits4 a i x : digits a i 4 x <->
  exists a1 a2 a3 a4, a !! i = Some a1 /\ a !! (i + 1) = Some a2 /\ a !! (i + 2) = Some a3 /\ a !! (i + 3) = Some a4 /\
    0 <= a1 < B /\ 0 <= a2 < B /\ 0 <= a3 < B /\ 0 <= a4 < B /\ x = (a1 * B + a2) * 2 ^ 32 + (a3 * B + a4).
Proof.
  rewrite <- B2_eq. cbn [digits]. change (Z.of_nat 3) with 3. change (Z.of_nat 2) with 2.
  change (Z.of_nat 1) with 1. change (Z.of_nat 0) with 0. rewrite Z.add_0_r. split.
  - intros (y & d & (y1 & d1 & (y2 & d2 & (y3 & d3 & -> & H3 & R3 & ->) & H2 & R2 & ->) & H1 & R1 & ->) & H & R & ->).
    exists d3, d2, d1, d. split_and!; try done; lia.
  - intros (d3 & d2 & d1 & d & H3 & H2 & H1 & H & R3 & R2 & R1 & R & ->).
    exists ((d3 * B + d2) * B + d1), d. split; [|split_and!; try done; lia].
    exists (d3 * B + d2), d1. split; [|done]. exists d3, d2. split; [|done]. exists 0, d3. done.
Qed.

Lemma COMBINE_range a b : 0 <= a < B -> 0 <= b < B -> 0 <= COMBINE a b < 2 ^ 32.
Proof. intros. rewrite COMBINE_eq by done. pose proof B_eq. lia. Qed.

Lemma get_digits_spec a x : digits a 1 4 x -> get_digits a = Some x.
Proof.
  intros (a1 & a2 & a3 & a4 & H1 & H2 & H3 & H4 & R1 & R2 & R3 & R4 & ->)%digits4. unfold get_digits.
  change (1 + 1) with 2 in H2. change (1 + 2) with 3 in H3. change (1 + 3) with 4 in H4.
  rewrite (dget_some a 1 a1), (dget_some a 2 a2), (dget_some a 3 a3), (dget_some a 4 a4) by done.
  cbn [mbind option_bind]. rewrite uq_of_eq by (by apply COMBINE_range). by rewrite !COMBINE_eq by done.
Qed.

Lemma set_digits_spec a x : 0 <= x < 2 ^ 64 ->
  exists a', set_digits a x = Some a' /\ digits a' 1 4 x /\ a' !! 0 = a !! 0.
Proof.
  intros Hx. unfold set_digits. rewrite !LHALF_eq, !HHALF_eq, ulH_eq, ulL_eq.
  repeat (rewrite dset_some by lia; cbn [mbind option_bind]). eexists. split; [done|].
  split; [|by rewrite !lookup_insert_ne by done]. apply digits4. rewrite B_eq.
  exists (x / 2 ^ 32 / 65536), ((x / 2 ^ 32) mod 65536), (x mod 2 ^ 32 / 65536), ((x mod 2 ^ 32) mod 65536).
  do 4 (split; [by simplify_map_eq|]). Z.div_mod_to_equations. lia.
Qed.

(** Division by one digit, of one digit after another. *)
Lemma short_step r d t : 0 <= r < t -> 0 <= d < B -> t < B ->
  let x := COMBINE r d in
  udiv x t = Some ((r * B + d) / t) /\ umod x t = Some ((r * B + d) mod t) /\
  0 <= (r * B + d) / t < B /\ 0 <= (r * B + d) mod t < t.
Proof.
  intros Hr Hd Ht x. unfold x, udiv, umod. rewrite COMBINE_eq by lia. destruct (Z.eqb_spec t 0); [lia|].
  split; [done|]. split; [done|]. split; [|apply Z.mod_pos_bound; lia].
  split; [apply Z.div_pos; nia|]. apply Z.div_lt_upper_bound; nia.
Qed.

Lemma short_div_spec us U t arq : digits us 1 4 U -> 0 < t < B ->
  short_div us t arq = Some (U / t, if arq then Some (U mod t) else None).
Proof.
  intros (u1 & u2 & u3 & u4 & H1 & H2 & H3 & H4 & R1 & R2 & R3 & R4 & EU)%digits4 Ht. unfold short_div.
  change (1 + 1) with 2 in H2. change (1 + 2) with 3 in H3. change (1 + 3) with 4 in H4.
  rewrite (dget_some us 1 u1), (dget_some us 2 u2), (dget_some us 3 u3), (dget_some us 4 u4) by done. cbn [mbind option_bind].
  destruct (short_step 0 u1 t) as (Q1 & M1 & Q1r & M1r); [lia|done|lia|].
  rewrite (COMBINE_eq 0 u1) in Q1, M1 by (done || (pose proof B_pos; lia)).
  rewrite Z.mul_0_l, Z.add_0_l in *. rewrite Q1, M1. cbn [mbind option_bind].
  destruct (short_step (u1 mod t) u2 t) as (Q2 & M2 & Q2r & M2r); [done|done|lia|]. rewrite Q2, M2. cbn [mbind option_bind].
  set (r2 := (u1 mod t * B + u2) mod t) in *.
  destruct (short_step r2 u3 t) as (Q3 & M3 & Q3r & M3r); [done|done|lia|]. rewrite Q3, M3. cbn [mbind option_bind].
  set (r3 := (r2 * B + u3) mod t) in *.
  destruct (short_step r3 u4 t) as (Q4 & M4 & Q4r & M4r); [done|done|lia|]. rewrite Q4, M4. cbn [mbind option_bind].
  rewrite uq_of_eq, !COMBINE_eq by (done || by apply COMBINE_range).
  pose proof (Z.div_mod u1 t ltac:(lia)) as D1. pose proof (Z.div_mod (u1 mod t * B + u2) t ltac:(lia)) as D2.
  pose proof (Z.div_mod (r2 * B + u3) t ltac:(lia)) as D3. pose proof (Z.div_mod (r3 * B + u4) t ltac:(lia)) as D4.
  fold r2 in D2. fold r3 in D3.
  set (Q := (u1 / t * B + (u1 mod t * B + u2) / t) * 2 ^ 32 + ((r2 * B + u3) / t * B + (r3 * B + u4) / t)).
  set (r4 := (r3 * B + u4) mod t) in *.
  assert (E : U = t * Q + r4).
  { rewrite EU. unfold Q. rewrite <- B2_eq. clear - D1 D2 D3 D4. nia. }
  rewrite (Z.div_unique U t Q r4 ltac:(lia) E), (Z.mod_unique U t Q r4 ltac:(lia) E). done.
Qed.

Lemma zero_q_spec i : forall qs, (i <= 5)%nat ->
  exists qs', zero_q qs i = Some qs' /\ (forall p, 0 <= p < Z.of_nat i -> qs' !! p = Some 0).
Proof.
  induction i as [|i IH]; intros qs Hi; [exists qs; split; [done|lia]|].
  cbn [zero_q]. rewrite dset_some by lia. cbn [mbind option_bind].
  assert (Hz : forall qs0 k, (k <= i)%nat -> qs0 !! Z.of_nat i = Some 0 ->
    forall qs', zero_q qs0 k = Some qs' -> qs' !! Z.of_nat i = Some 0).
  { intros qs0 k. revert qs0. induction k as [|k IHk]; intros qs0 Hk H0 qs' E; [cbn in E; congruence|].
    cbn [zero_q] in E. rewrite dset_some in E by lia. cbn [mbind option_bind] in E.
    apply (IHk (<[Z.of_nat k := 0]> qs0)); [lia| |done]. rewrite lookup_insert_ne by lia. done. }
  destruct (IH (<[Z.of_nat i := 0]> qs)) as (qs' & E & H); [lia|]. exists qs'. split; [done|].
  intros p Hp. destruct (decide (p = Z.of_nat i)) as [->|]; [|apply H; lia].
  eapply (Hz (<[Z.of_nat i := 0]> qs) i); [lia|by rewrite lookup_insert_eq|done].
Qed.

(** ** Program D *)
Lemma shl_fits V t d k y : 0 <= d < 16 -> 0 <= t -> 0 <= k -> 0 <= y < B ^ k -> V = t * B ^ k + y -> t * 2 ^ d < B ->
  V * 2 ^ d < B * B ^ k.
Proof.
  intros Hd Ht Hk Hy -> Hb. pose proof (B_split d ltac:(lia)) as HB. pose proof (pow_lt_B d Hd) as Hp.
  pose proof (Bpow_pos k Hk). assert (Ht1 : t < 2 ^ (16 - d)).
  { apply (Z.mul_lt_mono_pos_r (2 ^ d)); [lia|]. by rewrite <- HB. }
  set (Bk := B ^ k) in *. rewrite HB. set (P := 2 ^ (16 - d)) in *. set (D := 2 ^ d) in *.
  assert (t * Bk + y < P * Bk) by nia. nia.
Qed.

Lemma norm_lt_16 t d : 0 < t -> t * 2 ^ d < B -> d < 16.
Proof.
  intros Ht Hb. destruct (Z.lt_ge_cases d 16); [done|].
  assert (B <= 2 ^ d) by (change B with (2 ^ 16); apply Z.pow_le_mono_r; lia). nia.
Qed.

(** The dividend has at least as many digits as the divisor. *)
Lemma leading_digits us U n : 0 < Z.of_nat n <= 4 -> digits us 1 4 U -> us !! 0 = Some 0 -> B ^ (Z.of_nat n - 1) <= U ->
  exists u m, skip_u 5 us 0 (4 - Z.of_nat n) = Some (u, Z.of_nat m) /\ 0 <= u /\
    u + Z.of_nat (n + m) = 4 /\ digits us u (S (n + m)) U /\ U < B ^ Z.of_nat (n + m) /\
    (forall p, 0 <= p <= u -> us !! p = Some 0).
Proof.
  intros Hn HU H0 HUn. pose proof (Bpow_pos (Z.of_nat n - 1) ltac:(lia)).
  destruct (skip_u_spec us (- Z.of_nat n) U ltac:(lia) 4 0 5) as (u & L & Eu & HuL & Hu & HL & HL0 & HUl & Hz); [done|lia|done|done|].
  pose proof (digits_range _ _ _ _ HL) as HLr.
  assert (HnL : (n <= L)%nat).
  { destruct (Nat.le_gt_cases n L) as [|Hgt]; [done|exfalso].
    assert (B ^ Z.of_nat L <= B ^ (Z.of_nat n - 1)) by (apply Z.pow_le_mono_r; [apply B_pos|lia]). lia. }
  exists u, (L - n)%nat. replace (n + (L - n))%nat with L by lia.
  replace (4 - Z.of_nat n) with (- Z.of_nat n + Z.of_nat 4) by lia. rewrite Eu.
  split; [by replace (- Z.of_nat n + Z.of_nat L) with (Z.of_nat (L - n)) by lia|].
  split_and!; try done; try lia. apply digits_cons0; [apply Hz; lia|done].
Qed.

(** The quotient is complete in the last four elements. *)
Lemma quotient_spec qs m Q : (m <= 4)%nat -> (forall p, 0 <= p < 4 - Z.of_nat m -> qs !! p = Some 0) ->
  digits qs (4 - Z.of_nat m) (S m) Q -> Q < B ^ 4 -> get_digits qs = Some Q.
Proof.
  intros Hm Hz HQ Hlt. apply get_digits_spec, (digits_top0 qs 0 4); [|done].
  replace 5%nat with (Z.to_nat (4 - Z.of_nat m) + S m)%nat by lia. apply digits_pad.
  - intros p Hp. apply Hz. lia.
  - by rewrite Z2Nat.id by lia.
Qed.

(** D1 on both arrays. *)
Lemma normalise us vs u v L l d U V t :
  0 <= u -> u + Z.of_nat L = 4 -> 0 <= v -> v + Z.of_nat (S (S l)) = 4 ->
  digits us u (S L) U -> U < B ^ Z.of_nat L ->
  digits vs (v + 1) (S (S l)) V -> vs !! (v + 1) = Some t ->
  0 <= d -> B <= 2 * (t * 2 ^ d) -> t * 2 ^ d < B -> t <> 0 ->
  exists us' vs' v1 v2,
    (if 0 <? d then shl us u L d else Some us) = Some us' /\
    (if 0 <? d then shl vs (v + 1) (S l) d else Some vs) = Some vs' /\
    digits us' u (S L) (U * 2 ^ d) /\ digits vs' (v + 1) (S (S l)) (V * 2 ^ d) /\
    vs' !! (v + 1) = Some v1 /\ vs' !! (v + 2) = Some v2 /\ B <= 2 * v1 /\
    (forall p, p < u -> us' !! p = us !! p).
Proof.
  intros Hu HL Hv Hl HU HUlt HV Ht Hd Hb1 Hb2 Ht0.
  pose proof HV as (t' & y & Ht' & Htr & Hy & EV)%digits_cons. rewrite Ht in Ht'. injection Ht' as <-.
  pose proof (digits_range _ _ _ _ Hy) as Hyr. pose proof (digits_range _ _ _ _ HU) as HUr.
  assert (Hd16 : d < 16) by (apply (norm_lt_16 t); lia).
  pose proof (shl_fits V t d (Z.of_nat (S l)) y ltac:(lia) ltac:(lia) ltac:(lia) Hyr EV Hb2) as Hfit.
  pose proof (pow_lt_B d ltac:(lia)) as Hp.
  assert (Hnorm : exists us' vs',
    (if 0 <? d then shl us u L d else Some us) = Some us' /\
    (if 0 <? d then shl vs (v + 1) (S l) d else Some vs) = Some vs' /\
    digits us' u (S L) (U * 2 ^ d) /\ digits vs' (v + 1) (S (S l)) (V * 2 ^ d) /\
    (forall p, p < u -> us' !! p = us !! p)).
  { destruct (Z.ltb_spec 0 d) as [Hpos|Hz].
    - destruct (shl_spec us u L d U) as (us' & E1 & D1 & F1); [lia|lia|lia|done|rewrite Bpow_S; nia|].
      destruct (shl_spec vs (v + 1) (S l) d V) as (vs' & E2 & D2 & F2); [lia|lia|lia|done|by rewrite Bpow_S|].
      exists us', vs'. split_and!; try done. intros p Hp'. apply F1. lia.
    - assert (d = 0) as -> by lia. rewrite !Z.mul_1_r. eauto 10. }
  destruct Hnorm as (us' & vs' & E1 & E2 & D1 & D2 & F).
  pose proof D2 as (v1 & Y1 & Hv1 & Hv1r & HY1 & EV1)%digits_cons.
  pose proof HY1 as (v2 & Y2 & Hv2 & Hv2r & HY2 & _)%digits_cons.
  pose proof (digits_range _ _ _ _ HY1) as HY1r.
  exists us', vs', v1, v2. split_and!; try done; [rewrite <- Hv2; f_equal; lia|].
  pose proof (Bpow_pos (Z.of_nat (S l)) ltac:(lia)). assert (t * 2 ^ d <= v1) by nia. lia.
Qed.

(** The remainder is shifted back into the low digits. *)
Lemma remainder_spec us u m l d R (z : forall p, 0 <= p < u -> us !! p = Some 0) :
  let n := S (S l) in
  0 <= u -> 0 <= d < 16 -> u + Z.of_nat m + Z.of_nat n = 4 -> 0 <= R < B ^ Z.of_nat n -> R * 2 ^ d < B ^ Z.of_nat n ->
  digits us u (n + S m) (R * 2 ^ d) ->
  (us1 ← (if negb (d =? 0) then
            us1 ← unshift us u (Z.of_nat m) n d; dset us1 (u + Z.of_nat m) 0
          else Some us);
   r ← get_digits us1; Some (Some r)) = Some (Some R).
Proof.
  intros n Hu Hd Hsum HR HRd HD.
  assert (Hget : exists us1, (if negb (d =? 0) then
            us1 ← unshift us u (Z.of_nat m) n d; dset us1 (u + Z.of_nat m) 0
          else Some us) = Some us1 /\ digits us1 1 4 R).
  { replace (n + S m)%nat with (S m + n)%nat in HD by lia.
    destruct (digits_suffix us (S m) u n _ HD HRd) as [HD' Hz].
    destruct (Z.eqb_spec d 0) as [->|Hd0]; cbn [negb].
    - exists us. split; [done|]. rewrite Z.mul_1_r in HD'.
      replace 4%nat with (Z.to_nat (u + Z.of_nat m) + n)%nat by lia. apply digits_pad.
      + intros p Hp. destruct (Z.lt_ge_cases p u); [apply z; lia|apply Hz; lia].
      + by replace (1 + Z.of_nat (Z.to_nat (u + Z.of_nat m))) with (u + Z.of_nat (S m)) by lia.
    - assert (HD1 : digits us (u + Z.of_nat m) (S n) (R * 2 ^ d)).
      { apply digits_cons0; [apply Hz; lia|]. by replace (u + Z.of_nat m + 1) with (u + Z.of_nat (S m)) by lia. }
      destruct (unshift_spec d u (Z.of_nat m) n us (R * 2 ^ d)) as (us1 & E & HD2 & Hf); [lia|lia|lia|done|].
      rewrite E. cbn [mbind option_bind]. rewrite dset_some by lia. eexists. split; [done|].
      rewrite Z.div_mul, Z.mod_small in HD2 by (done || (apply Z.pow_nonzero; lia)).
      replace 4%nat with (Z.to_nat (u + Z.of_nat m) + n)%nat by lia. apply digits_pad.
      + intros p Hp. destruct (decide (p = u + Z.of_nat m)) as [->|]; [by rewrite lookup_insert_eq|].
        rewrite lookup_insert_ne by done. rewrite Hf by lia.
        destruct (Z.lt_ge_cases p u); [apply z; lia|apply Hz; lia].
      + replace (1 + Z.of_nat (Z.to_nat (u + Z.of_nat m))) with (u + Z.of_nat m + 1) by lia.
        apply digits_insert; [lia|done]. }
  destruct Hget as (us1 & -> & HD1). cbn [mbind option_bind]. by rewrite (get_digits_spec _ _ HD1).
Qed.

Lemma quotient_fits U V D Bl Bm : U < Bl * Bm -> Bl <= V -> 0 < Bm -> 0 < D -> U * D < V * D * Bm.
Proof. intros. assert (U < V * Bm) by nia. nia. Qed.

Lemma div_le_self U V : 0 <= U -> 0 < V -> U / V <= U.
Proof. intros. apply Z.div_le_upper_bound; nia. Qed.

Lemma long_div_spec us vs v l U V t arq :
  let n := S (S l) in
  digits us 1 4 U -> us !! 0 = Some 0 -> 0 <= v -> v + Z.of_nat n = 4 ->
  digits vs (v + 1) n V -> vs !! (v + 1) = Some t -> t <> 0 -> V <= U ->
  long_div us vs v (Z.of_nat n) arq = Some (U / V, if arq then Some (U mod V) else None).
Proof.
  intros n HU H0 Hv Hvn HV Ht Ht0 Hle.
  pose proof (digits_range _ _ _ _ HU) as HUr. pose proof (digits_range _ _ _ _ HV) as HVr.
  pose proof (digits_head _ _ _ _ _ Ht Ht0 HV) as HVl.
  pose proof (Bpow_pos (Z.of_nat (S l)) ltac:(lia)) as HB1.
  destruct (leading_digits us U n) as (u & m & Eu & Hu & Hum & HL & HLr & Hz); [lia|done|done| |].
  { replace (Z.of_nat n - 1) with (Z.of_nat (S l)) by lia. lia. }
  unfold long_div. rewrite Eu. cbn [mbind option_bind].
  destruct (zero_q_spec (Z.to_nat (4 - Z.of_nat m)) ∅) as (qs & Eq & Hqz); [lia|]. rewrite Eq. cbn [mbind option_bind].
  rewrite (dget_some vs (v + 1) t) by done. cbn [mbind option_bind].
  pose proof HV as (t' & y & Ht' & Htr & _)%digits_cons. rewrite Ht in Ht'. injection Ht' as <-.
  destruct (norm_shift_spec 16 t 0) as (d & Ed & Hd1 & Hd2); [lia|change (2 ^ Z.of_nat 16) with B; nia|].
  rewrite Ed. cbn [mbind option_bind]. rewrite Z.add_0_l.
  destruct (normalise us vs u v (n + m) l (Z.of_nat d) U V t) as (us1 & vs1 & v1 & v2 & E1 & E2 & D1 & D2 & Hv1 & Hv2 & Hn & Hf); try done; try lia.
  replace (Z.to_nat (Z.of_nat m + Z.of_nat n)) with (n + m)%nat by lia. rewrite E1. cbn [mbind option_bind].
  replace (Z.to_nat (Z.of_nat n - 1)) with (S l) by lia. rewrite E2. cbn [mbind option_bind].
  rewrite (dget_some vs1 (v + 1) v1), (dget_some vs1 (v + 2) v2) by done. cbn [mbind option_bind].
  assert (Hd16 : 0 <= Z.of_nat d < 16) by (split; [lia|apply (norm_lt_16 t); lia]).
  pose proof (pow_lt_B _ Hd16) as Hp. pose proof (digits_range _ _ _ _ D2) as HVr'. set (D := 2 ^ Z.of_nat d) in *.
  destruct (div_loop_spec vs1 u v (4 - Z.of_nat m) l v1 v2 (V * D) (S m)) with (us := us1) (qs := qs) (j := 0) (R := U * D)
    as (us2 & qs2 & El & DU & DQ & Fu & Fq); try done; try lia.
  { rewrite Z.add_0_r. by replace (S (S l) + S m)%nat with (S (n + m)) by lia. }
  { apply (quotient_fits U V D (B ^ Z.of_nat (S l))); [|lia|apply Bpow_pos; lia|lia].
    rewrite <- Z.pow_add_r by lia. replace (Z.of_nat (S l) + Z.of_nat (S m)) with (Z.of_nat (n + m)) by lia. done. }
  replace (Z.to_nat (Z.of_nat n)) with n by lia. replace (Z.to_nat (Z.of_nat m + 1)) with (S m) by lia.
  fold n in El. rewrite El. cbn [mbind option_bind]. rewrite Z.add_0_r in *.
  rewrite Z.mul_mod_distr_r in DU by lia. rewrite Z.div_mul_cancel_r in DQ by lia.
  pose proof (Z.mod_pos_bound U V ltac:(lia)) as Hm.
  assert (Equo : get_digits qs2 = Some (U / V)).
  { apply (quotient_spec qs2 m); [lia| |done|].
    - intros p Hp'. rewrite Fq by lia. apply Hqz. lia.
    - apply Z.le_lt_trans with U; [apply div_le_self; lia|exact (proj2 HUr)]. }
  assert (Erem : forall b : bool, (if b then
           us3 ← (if negb (Z.of_nat d =? 0) then
                   us3 ← unshift us2 u (Z.of_nat m) n (Z.of_nat d); dset us3 (u + Z.of_nat m) 0
                 else Some us2);
           r ← get_digits us3; Some (Some r)
         else Some None) = Some (if b then Some (U mod V) else None)).
  { intros [|]; [|done]. apply (remainder_spec us2 u m l (Z.of_nat d)); [|lia|done|lia| | |done].
    - intros p Hp'. rewrite Fu, Hf by lia. apply Hz. lia.
    - fold n. clear - Hm HVr. lia.
    - fold n D. apply Z.lt_trans with (V * D); [|exact (proj2 HVr')].
      apply Z.mul_lt_mono_pos_r; [exact (proj1 Hp)|exact (proj2 Hm)]. }
  rewrite Erem. cbn [mbind option_bind]. rewrite Equo. done.
Qed.

(** ** The routines *)
Lemma qdivrem_run uq vq arq : 0 <= uq < 2 ^ 64 -> 0 < vq < 2 ^ 64 ->
  __qdivrem uq vq arq = Some (uq / vq, if arq then Some (uq mod vq) else None).
Proof.
  intros Hu Hv. unfold __qdivrem. destruct (Z.eqb_spec vq 0); [lia|].
  destruct (Z.ltb_spec uq vq) as [Hlt|Hge].
  { rewrite Z.div_small, Z.mod_small by lia. done. }
  rewrite dset_some by lia. cbn [mbind option_bind].
  destruct (set_digits_spec (<[0 := 0]> ∅) uq Hu) as (us & Eus & HU & H0). rewrite Eus. cbn [mbind option_bind].
  rewrite lookup_insert_eq in H0.
  destruct (set_digits_spec ∅ vq ltac:(lia)) as (vs & Evs & HV & _). rewrite Evs. cbn [mbind option_bind].
  destruct (skip_v_spec vs vq ltac:(lia) 2 0 5) as [(Ht & Es)|(v & l & t & Es & H1 & H2 & H3 & H4 & H5)]; [lia|done| |].
  - change (Z.of_nat 4) with 4 in Es. rewrite Es. cbn [mbind option_bind]. by apply short_div_spec.
  - change (Z.of_nat 4) with 4 in Es. rewrite Es. cbn [mbind option_bind].
    apply (long_div_spec us vs v l uq vq t); try done; lia.
Qed.

(** C26: [__qdivrem] divides: for every dividend and every divisor other than
    zero it returns, its result is the quotient, and the remainder is stored
    when asked for; no step of it leaves an array, uses an element that was not
    set or divides by zero. *)
Theorem qdivrem_spec uq vq arq : 0 <= uq < 2 ^ 64 -> 0 < vq < 2 ^ 64 ->
  __qdivrem uq vq arq = Some (uq / vq, if arq then Some (uq mod vq) else None).
Proof. apply qdivrem_run. Qed.

Lemma udivdi3_run a b : 0 <= a < 2 ^ 64 -> 0 < b < 2 ^ 64 -> __udivdi3 a b = Some (a / b).
Proof. intros. unfold __udivdi3. by rewrite qdivrem_run. Qed.

Lemma umoddi3_run a b : 0 <= a < 2 ^ 64 -> 0 < b < 2 ^ 64 -> __umoddi3 a b = Some (a mod b).
Proof. intros. unfold __umoddi3. by rewrite qdivrem_run. Qed.

Lemma u64_abs a : - 2 ^ 63 <= a < 2 ^ 63 -> a < 0 -> u64 (- u64 a) = Z.abs a.
Proof. intros. unfold u64. Z.div_mod_to_equations. lia. Qed.

(** [__divdi3] rounds towards zero, like division in C, and wraps around in
    the only case whose quotient is no [int64_t]. *)
Theorem divdi3_spec a b : - 2 ^ 63 <= a < 2 ^ 63 -> - 2 ^ 63 <= b < 2 ^ 63 -> b <> 0 ->
  __divdi3 a b = Some (s64 (Z.quot a b)).
Proof.
  intros Ha Hb Hb0. unfold __divdi3.
  assert (Hu : forall x, 0 <= x < 2 ^ 63 -> u64 x = x) by (intros; unfold u64; apply Z.mod_small; lia).
  assert (Hs : forall x, s64 (u64 x) = s64 x) by (intros; unfold s64, u64; by rewrite Zplus_mod_idemp_l).
  rewrite Z.quot_div by done.
  destruct (Z.ltb_spec a 0) as [La|La], (Z.ltb_spec b 0) as [Lb|Lb]; cbn [negb];
    rewrite ?u64_abs, ?(Hu a), ?(Hu b) by lia; rewrite qdivrem_run by lia; cbn [mbind option_bind]; rewrite ?Hs; f_equal; f_equal.
  - rewrite !Z.sgn_neg by lia. ring.
  - rewrite (Z.sgn_neg a), (Z.sgn_pos b), (Z.abs_eq b) by lia. ring.
  - rewrite (Z.sgn_neg b), (Z.abs_eq a) by lia. destruct (decide (a = 0)) as [->|]; [by rewrite Z.div_0_l by lia|].
    rewrite Z.sgn_pos by lia. ring.
  - rewrite (Z.sgn_pos b), (Z.abs_eq a), (Z.abs_eq b) by lia. destruct (decide (a = 0)) as [->|]; [by rewrite Z.div_0_l by lia|].
    rewrite Z.sgn_pos by lia. ring.
Qed.

(** ** Logarithms *)
Lemma log2_loop_spec fuel : forall x y r,
  0 <= x < 2 ^ Z.of_nat fuel -> 0 < y -> 2 * x * y < 2 ^ 31 ->
  exists k, log2_loop (S fuel) x y r = Some (y * 2 ^ k, r + k) /\ 0 <= k /\
    x < 2 ^ k /\ (x = 0 -> k = 0) /\ (0 < x -> 0 < k /\ 2 ^ (k - 1) <= x).
Proof.
  induction fuel as [|fuel IH]; intros x y r Hx Hy Hf.
  all: change (log2_loop (S ?n) x y r) with (if x =? 0 then Some (y, r) else log2_loop n (Z.shiftr x 1) (s32 (Z.shiftl y 1)) (r + 1)).
  all: destruct (Z.eqb_spec x 0) as [->|Hne]; [exists 0; rewrite Z.mul_1_r, Z.add_0_r; split_and!; try done; lia|].
  - change (2 ^ Z.of_nat 0) with 1 in Hx. lia.
  - rewrite Nat2Z.inj_succ, Z.pow_succ_r in Hx by lia.
    rewrite Z.shiftl_mul_pow2, Z.shiftr_div_pow2, s32_small by nia.
    change (2 ^ 1) with 2.
    assert (Hh : x = 2 * (x / 2) \/ x = 2 * (x / 2) + 1) by (Z.div_mod_to_equations; lia).
    destruct (IH (x / 2) (y * 2) (r + 1)) as (k & E & Hk & Hlt & Hz & Hge); [lia|lia|nia|].
    exists (k + 1). rewrite E. rewrite Z.pow_add_r by lia. change (2 ^ 1) with 2.
    split; [f_equal; f_equal; ring|]. split; [lia|]. split; [lia|]. split; [done|]. intros _. split; [lia|].
    replace (k + 1 - 1) with k by lia. destruct (Z.le_gt_cases (x / 2) 0) as [H0|Hp].
    + rewrite Hz by lia. change (2 ^ 0) with 1. lia.
    + destruct (Hge Hp) as [Hk0 Hle]. replace k with (1 + (k - 1)) by lia. rewrite Z.pow_add_r by lia.
      change (2 ^ 1) with 2. lia.
Qed.

(** [log2] is the logarithm rounded up, as its comment says, for every
    argument whose double is an [int]. *)
Theorem log2_spec x : 0 < x < 2 ^ 30 -> log2 x = Some (Z.log2_up x).
Proof.
  intros Hx. unfold log2.
  destruct (log2_loop_spec 31 x 1 0) as (k & E & Hk & Hlt & _ & Hge); [cbn; lia|lia|lia|].
  rewrite E. cbn [mbind option_bind]. destruct (Hge ltac:(lia)) as [Hk0 Hle].
  rewrite Z.mul_1_l, Z.add_0_l, Z.shiftr_div_pow2 by lia.
  replace (2 ^ k / 2 ^ 1) with (2 ^ (k - 1)).
  2:{ replace k with (k - 1 + 1) at 2 by lia. rewrite Z.pow_add_r, Z.div_mul by lia. done. }
  destruct (Z.eqb_spec (2 ^ (k - 1)) x) as [<-|Hne].
  - by rewrite Z.log2_up_pow2 by lia.
  - f_equal. symmetry. apply Z.log2_up_unique; [lia|]. unfold Z.pred. split; [|lia]. replace (k + -1) with (k - 1) by lia. lia.
Qed.

(** 2^30 is a power of two, but the doubling of [y] has overflowed. *)
Theorem log2_overflow : log2 (2 ^ 30) = Some 31.
Proof. vm_compute. reflexivity. Qed.

(** A negative argument is shifted to -1 and stays there. *)
Theorem log2_negative : log2 (-1) = None.
Proof. vm_compute. reflexivity. Qed.

Lemma qdivrem_spec_witness :
  __qdivrem (2 ^ 63) (2 ^ 47 + 1) true = Some (2 ^ 63 / (2 ^ 47 + 1), Some (2 ^ 63 mod (2 ^ 47 + 1))).
Proof. apply (qdivrem_spec (2 ^ 63) (2 ^ 47 + 1) true); vm_compute; done. Defined.

Lemma divdi3_spec_witness : __divdi3 (-7) 2 = Some (s64 (Z.quot (-7) 2)).
Proof. apply (divdi3_spec (-7) 2); vm_compute; done. Defined.

Lemma log2_spec_witness : log2 33 = Some (Z.log2_up 33).
Proof. apply (log2_spec 33); vm_compute; done. Defined.
End MathSpec.
