(* ===== verification/Printf.v ===== *)
(** * Formatted output and input ([util/printf.c], [include/ctype.h])

    Memory is a map from addresses to chars, and one from addresses to the
    integer objects [%n] and [vsscanf] store into.  [fmt] is the rest of the
    format string with its terminator.  An argument of a variable argument list
    is one word, or two for a [long long].  [None] is what C gives no meaning
    to: an access to memory that is not there, an argument that is missing or
    of the wrong size.  The division of [long long] values is the call of
    [__udivdi3] and [__umoddi3] the compiler makes of it.  Pointers and
    [unsigned] arithmetic wrap around at 32 bits; so does [int] arithmetic. *)

From Stdlib Require Import ZArith Lia Ascii String.
From stdpp Require Import base list gmap option.
From S2P Require Import Prelude KString Math.
Import KString Math.

Module Printf.
Local Open Scope Z_scope.

(** The code of a character constant. *)
Definition ch (c : ascii) : Z := Z.of_N (N_of_ascii c).
Arguments ch c%_char_scope.

(** ** Character classes *)
Definition _U : Z := 1.
Definition _L : Z := 2.
Definition _D : Z := 4.
Definition _C : Z := 8.
Definition _P : Z := 16.
Definition _S : Z := 32.
Definition _X : Z := 64.
Definition _SP : Z := 128.

Definition _ctype : list Z :=
  replicate 8 _C ++
  [_C; Z.lor _C _S; Z.lor _C _S; Z.lor _C _S; Z.lor _C _S; Z.lor _C _S; _C; _C] ++
  replicate 16 _C ++
  Z.lor _S _SP :: replicate 15 _P ++
  replicate 10 _D ++ replicate 6 _P ++
  _P :: replicate 6 (Z.lor _U _X) ++ replicate 20 _U ++ replicate 5 _P ++
  _P :: replicate 6 (Z.lor _L _X) ++ replicate 20 _L ++ replicate 4 _P ++ [_C] ++
  replicate 32 0 ++
  Z.lor _S _SP :: replicate 31 _P ++
  replicate 23 _U ++ [_P] ++ replicate 7 _U ++ [_L] ++
  replicate 23 _L ++ [_P] ++ replicate 8 _L.

Definition u8 (c : Z) : Z := c mod 256.
Definition __ismask (c : Z) : Z := default 0 (_ctype !! Z.to_nat (u8 c)).
Definition mask (c m : Z) : bool := negb (Z.land (__ismask c) m =? 0).

Definition isdigit (c : Z) : bool := mask c _D.
Definition islower (c : Z) : bool := mask c _L.
Definition isspace (c : Z) : bool := mask c _S.
Definition isxdigit (c : Z) : bool := mask c (Z.lor _D _X).
Definition toupper (c : Z) : Z :=
  if islower c then u8 (u8 c - (ch "a" - ch "A")) else u8 c.

(** ** Memory and arguments *)
Record pmem := Mem { chars : gmap Z Z; cells : gmap Z Z }.

Definition load (m : pmem) (a : Z) : option Z := chars m !! a.
Definition store (m : pmem) (a c : Z) : option pmem :=
  match chars m !! a with
  | Some _ => Some (Mem (<[a := c]> (chars m)) (cells m))
  | None => None
  end.
Definition store_cell (m : pmem) (a x : Z) : option pmem :=
  match cells m !! a with
  | Some _ => Some (Mem (chars m) (<[a := x]> (cells m)))
  | None => None
  end.

(** [int], [long], [size_t] and pointers are words, [long long] is two. *)
Inductive va := Word (w : Z) | Quad (q : Z).

Definition va_word (args : list va) : option (Z * list va) :=
  match args with Word w :: args => Some (u32 w, args) | _ => None end.
Definition va_quad (args : list va) : option (Z * list va) :=
  match args with Quad q :: args => Some (u64 q, args) | _ => None end.

(** ** Numbers in text *)

(** [*cp - '0'] or [toupper( *cp) - 'A' + 10] *)
Definition digit_value (c : Z) : Z :=
  if isdigit c then c - ch "0" else toupper c - ch "A" + 10.

(** The loop of [simple_strtoul] ([wrap] is [u32]) and [simple_strtoull]
    ([u64]).  [cp] stays in memory, so there is an iteration per char at most. *)
Fixpoint strtou_loop (wrap : Z -> Z) (fuel : nat) (m : pmem) (cp base result : Z) : option (Z * Z) :=
  match fuel with
  | O => None
  | S fuel =>
      c ← load m cp;
      if isxdigit c && (wrap (digit_value c) <? base)
      then strtou_loop wrap fuel m (cp + 1) base (wrap (result * base + wrap (digit_value c)))
      else Some (result, cp)
  end.

(** The value and the end pointer. *)
Definition strtou (wrap : Z -> Z) (m : pmem) (cp base : Z) : option (Z * Z) :=
  '(cp, base) ←
    (if base =? 0 then
       c ← load m cp;
       if c =? ch "0" then
         c1 ← load m (cp + 1);
         if c1 =? ch "x" then
           c2 ← load m (cp + 2);
           if isxdigit c2 then Some (cp + 2, 16) else Some (cp + 1, 8)
         else Some (cp + 1, 8)
       else Some (cp, 10)
     else Some (cp, base));
  strtou_loop wrap (S (size (chars m))) m cp base 0.

Definition simple_strtoul : pmem -> Z -> Z -> option (Z * Z) := strtou u32.
Definition simple_strtoull : pmem -> Z -> Z -> option (Z * Z) := strtou u64.

Definition simple_strtol (m : pmem) (cp base : Z) : option (Z * Z) :=
  c ← load m cp;
  if c =? ch "-" then '(v, e) ← simple_strtoul m (cp + 1) base; Some (s32 (- v), e)
  else '(v, e) ← simple_strtoul m cp base; Some (s32 v, e).

Definition simple_strtoll (m : pmem) (cp base : Z) : option (Z * Z) :=
  c ← load m cp;
  if c =? ch "-" then '(v, e) ← simple_strtoull m (cp + 1) base; Some (s64 (- v), e)
  else '(v, e) ← simple_strtoull m cp base; Some (s64 v, e).

(** [while (isdigit( **s)) i = i * 10 + *(( *s)++) - '0'] *)
Fixpoint skip_atoi (s : list Z) (i : Z) : option (Z * list Z) :=
  match s with
  | [] => None
  | c :: s' => if isdigit c then skip_atoi s' (s32 (i * 10 + c - ch "0")) else Some (i, s)
  end.

(** ** Output *)
Definition ZEROPAD : Z := 1.
Definition SIGN : Z := 2.
Definition PLUS : Z := 4.
Definition SPACE : Z := 8.
Definition LEFT : Z := 16.
Definition SPECIAL : Z := 32.
Definition LARGE : Z := 64.

Definition flag (flags f : Z) : bool := negb (Z.land flags f =? 0).

Definition codes (s : string) : list Z := ch <$> String.list_ascii_of_string s.
Arguments codes s%_string_scope.
Definition small_digits : list Z :=
  codes "0123456789abcdefghijklmnopqrstuvwxyz".
Definition large_digits : list Z :=
  codes "0123456789ABCDEFGHIJKLMNOPQRSTUVWXYZ".

(** A format string with its terminator. *)
Definition cfmt (s : string) : list Z := codes s ++ [0].
Arguments cfmt s%_string_scope.

(** Where the output stands: memory and [str]. *)
Definition out : Type := pmem * Z.

(** [if (str <= end) *str = c; ++str] *)
Definition outc (endp c : Z) (st : out) : option out :=
  let '(m, str) := st in
  m ← (if str <=? endp then store m str c else Some m);
  Some (m, u32 (str + 1)).

Fixpoint emit_n (endp : Z) (n : nat) (c : Z) (st : out) : option out :=
  match n with O => Some st | S n => st ← outc endp c st; emit_n endp n c st end.

Fixpoint emit_list (endp : Z) (l : list Z) (st : out) : option out :=
  match l with [] => Some st | c :: l => st ← outc endp c st; emit_list endp l st end.

(** [while (size-- > 0)] with a char per round. *)
Definition pad (endp c size : Z) (st : out) : option (out * Z) :=
  st ← emit_n endp (Z.to_nat size) c st;
  Some (st, s32 (Z.min size 0 - 1)).

(** [while (num2 != 0) { tmp[i++] = digits[num2 % base2]; num2 /= base2; }] on
    [char tmp[66]]. *)
Fixpoint num_loop (fuel : nat) (digits : list Z) (num2 base2 : Z) (tmp : list Z) : option (list Z) :=
  match fuel with
  | O => None
  | S fuel =>
      if num2 =? 0 then Some tmp
      else
        r ← __umoddi3 num2 base2;
        d ← digits !! Z.to_nat r;
        num2 ← __udivdi3 num2 base2;
        if (length tmp <? 66)%nat then num_loop fuel digits num2 base2 (tmp ++ [d]) else None
  end.

(** The sign, the number without it and what is left of the field. *)
Definition take_sign (num size type : Z) : Z * Z * Z :=
  if flag type SIGN then
    if num <? 0 then (ch "-", s64 (- num), s32 (size - 1))
    else if flag type PLUS then (ch "+", num, s32 (size - 1))
    else if flag type SPACE then (ch " ", num, s32 (size - 1))
    else (0, num, size)
  else (0, num, size).

Definition number (endp : Z) (st : out) (num base size precision type : Z) : option out :=
  let digits := if flag type LARGE then large_digits else small_digits in
  let type := if flag type LEFT then Z.ldiff type ZEROPAD else type in
  if (base <? 2) || (36 <? base) then Some st
  else
    let c := if flag type ZEROPAD then ch "0" else ch " " in
    let '(sign, num, size) := take_sign num size type in
    let size := if flag type SPECIAL then
                  if base =? 16 then s32 (size - 2) else if base =? 8 then s32 (size - 1) else size
                else size in
    tmp ← (if num =? 0 then Some [ch "0"] else num_loop 66 digits (u64 num) base []);
    let i := Z.of_nat (length tmp) in
    let precision := if precision <? i then i else precision in
    let size := s32 (size - precision) in
    '(st, size) ← (if negb (flag type (ZEROPAD + LEFT)) then pad endp (ch " ") size st else Some (st, size));
    st ← (if negb (sign =? 0) then outc endp sign st else Some st);
    st ← (if flag type SPECIAL then
            if base =? 8 then outc endp (ch "0") st
            else if base =? 16 then
              st ← outc endp (ch "0") st;
              x ← digits !! 33%nat;
              outc endp x st
            else Some st
          else Some st);
    '(st, size) ← (if negb (flag type LEFT) then pad endp c size st else Some (st, size));
    st ← emit_n endp (Z.to_nat (precision - i)) (ch "0") st;
    st ← emit_list endp (reverse tmp) st;
    '(st, _) ← pad endp (ch " ") size st;
    Some st.

(** ** Conversion specifications *)

(** [repeat: ++fmt; switch ( *fmt) ...]: the flags and [fmt] at the first char
    that is none. *)
Fixpoint get_flags (fmt : list Z) (flags : Z) : option (Z * list Z) :=
  match fmt with
  | [] => None
  | c :: fmt' =>
      if c =? ch "-" then get_flags fmt' (Z.lor flags LEFT)
      else if c =? ch "+" then get_flags fmt' (Z.lor flags PLUS)
      else if c =? ch " " then get_flags fmt' (Z.lor flags SPACE)
      else if c =? ch "#" then get_flags fmt' (Z.lor flags SPECIAL)
      else if c =? ch "0" then get_flags fmt' (Z.lor flags ZEROPAD)
      else Some (flags, fmt)
  end.

Definition get_width (fmt : list Z) (args : list va) (flags : Z) : option (Z * Z * list Z * list va) :=
  c ← head fmt;
  if isdigit c then '(w, fmt) ← skip_atoi fmt 0; Some (w, flags, fmt, args)
  else if c =? ch "*" then
    '(w, args) ← va_word args;
    let w := s32 w in
    if w <? 0 then Some (s32 (- w), Z.lor flags LEFT, tail fmt, args)
    else Some (w, flags, tail fmt, args)
  else Some (-1, flags, fmt, args).

Definition get_precision (fmt : list Z) (args : list va) : option (Z * list Z * list va) :=
  c ← head fmt;
  if c =? ch "." then
    let fmt := tail fmt in
    c ← head fmt;
    '(p, fmt, args) ←
      (if isdigit c then '(p, fmt) ← skip_atoi fmt 0; Some (p, fmt, args)
       else if c =? ch "*" then '(p, args) ← va_word args; Some (s32 p, tail fmt, args)
       else Some (-1, fmt, args));
    Some (if p <? 0 then 0 else p, fmt, args)
  else Some (-1, fmt, args).

Definition get_qualifier (fmt : list Z) : option (Z * list Z) :=
  c ← head fmt;
  '(q, fmt) ←
    (if (c =? ch "h") || (c =? ch "l") || (c =? ch "L") || (c =? ch "Z") then
       let fmt := tail fmt in
       c' ← head fmt;
       if (c =? ch "l") && (c' =? ch "l") then Some (ch "L", tail fmt) else Some (c, fmt)
     else Some (-1, fmt));
  c ← head fmt;
  if c =? ch "q" then Some (ch "L", tail fmt) else Some (q, fmt).

(** A string in memory, or the literal that stands for NULL. *)
Inductive src := At (a : Z) | Lit (l : list Z).
Definition src_char (m : pmem) (s : src) (i : nat) : option Z :=
  match s with At a => load m (a + Z.of_nat i) | Lit l => l !! i end.

(** [strnlen(s, count)]: a string ends before the memory does. *)
Fixpoint strnlen_src (fuel : nat) (m : pmem) (s : src) (i : nat) (count : Z) : option nat :=
  match fuel with
  | O => None
  | S fuel =>
      if count =? 0 then Some i
      else c ← src_char m s i;
           if c =? 0 then Some i else strnlen_src fuel m s (S i) (count - 1)
  end.

(** [for (i = 0; i < len; ++i)]: [k] chars are left. *)
Fixpoint copy_src (endp : Z) (s : src) (i k : nat) (st : out) : option out :=
  match k with
  | O => Some st
  | S k => c ← (if snd st <=? endp then src_char (fst st) s i else Some 0);
           st ← outc endp c st;
           copy_src endp s (S i) k st
  end.

(** [case 'c'] *)
Definition conv_c (endp : Z) (st : out) (flags width : Z) (args : list va) : option (out * list va) :=
  '(st, width) ←
    (if negb (flag flags LEFT)
     then st ← emit_n endp (Z.to_nat (width - 1)) (ch " ") st; Some (st, s32 (Z.min (width - 1) 0))
     else Some (st, width));
  '(w, args) ← va_word args;
  st ← outc endp (s8 w) st;
  st ← emit_n endp (Z.to_nat (width - 1)) (ch " ") st;
  Some (st, args).

(** [case 's'] *)
Definition conv_s (endp : Z) (st : out) (flags width precision : Z) (args : list va) : option (out * list va) :=
  '(a, args) ← va_word args;
  let s := if a =? 0 then Lit (codes "<NULL>" ++ [0]) else At a in
  len ← strnlen_src (7 + size (chars (fst st))) (fst st) s 0 (u32 precision);
  let n := Z.of_nat len in
  '(st, width) ←
    (if negb (flag flags LEFT)
     then st ← emit_n endp (Z.to_nat (width - n)) (ch " ") st; Some (st, s32 (Z.min width n - 1))
     else Some (st, width));
  st ← copy_src endp s 0 len st;
  st ← emit_n endp (Z.to_nat (width - n)) (ch " ") st;
  Some (st, args).

(** [case 'p'] *)
Definition conv_p (endp : Z) (st : out) (flags width precision : Z) (args : list va) : option (out * list va) :=
  let '(width, flags) := if width =? -1 then (8, Z.lor flags ZEROPAD) else (width, flags) in
  '(w, args) ← va_word args;
  st ← number endp st w 16 width precision flags;
  Some (st, args).

(** [case 'n'] *)
Definition conv_n (buf : Z) (st : out) (args : list va) : option (out * list va) :=
  let '(m, str) := st in
  '(ip, args) ← va_word args;
  m ← store_cell m ip (str - buf);
  Some ((m, str), args).

Definition u16 (z : Z) : Z := z mod 2 ^ 16.
Definition s16 (z : Z) : Z := (z + 2 ^ 15) mod 2 ^ 16 - 2 ^ 15.

(** The argument of an integer conversion, as [unsigned long long]. *)
Definition int_arg (qualifier flags : Z) (args : list va) : option (Z * list va) :=
  if qualifier =? ch "L" then '(q, args) ← va_quad args; Some (q, args)
  else
    '(w, args) ← va_word args;
    Some (if qualifier =? ch "l" then (if flag flags SIGN then u64 (s32 w) else w)
          else if qualifier =? ch "Z" then w
          else if qualifier =? ch "h" then (if flag flags SIGN then u64 (s16 (u16 w)) else u16 w)
          else (if flag flags SIGN then u64 (s32 w) else w), args).

(** [switch ( *fmt)] and the call of [number] after it; [fmt] is left after the
    specification. *)
Definition convert (endp buf : Z) (st : out) (flags width precision qualifier : Z)
    (fmt : list Z) (args : list va) : option (out * list Z * list va) :=
  c ← head fmt;
  let int (base flags : Z) :=
    '(num, args) ← int_arg qualifier flags args;
    st ← number endp st (s64 num) base width precision flags;
    Some (st, tail fmt, args) in
  if c =? ch "c" then '(st, args) ← conv_c endp st flags width args; Some (st, tail fmt, args)
  else if c =? ch "s" then '(st, args) ← conv_s endp st flags width precision args; Some (st, tail fmt, args)
  else if c =? ch "p" then '(st, args) ← conv_p endp st flags width precision args; Some (st, tail fmt, args)
  else if c =? ch "n" then '(st, args) ← conv_n buf st args; Some (st, tail fmt, args)
  else if c =? ch "%" then st ← outc endp (ch "%") st; Some (st, tail fmt, args)
  else if c =? ch "o" then int 8 flags
  else if c =? ch "X" then int 16 (Z.lor flags LARGE)
  else if c =? ch "x" then int 16 flags
  else if (c =? ch "d") || (c =? ch "i") then int 10 (Z.lor flags SIGN)
  else if c =? ch "u" then int 10 flags
  else
    st ← outc endp (ch "%") st;
    if negb (c =? 0) then st ← outc endp c st; Some (st, tail fmt, args)
    else Some (st, fmt, args).

Definition directive (endp buf : Z) (st : out) (fmt : list Z) (args : list va) : option (out * list Z * list va) :=
  '(flags, fmt) ← get_flags fmt 0;
  '(width, flags, fmt, args) ← get_width fmt args flags;
  '(precision, fmt, args) ← get_precision fmt args;
  '(qualifier, fmt) ← get_qualifier fmt;
  convert endp buf st flags width precision qualifier fmt args.

(** [for (; *fmt; ++fmt)] *)
Fixpoint fmt_loop (fuel : nat) (endp buf : Z) (st : out) (fmt : list Z) (args : list va) : option out :=
  match fuel with
  | O => None
  | S fuel =>
      c ← head fmt;
      if c =? 0 then Some st
      else if negb (c =? ch "%") then st ← outc endp c st; fmt_loop fuel endp buf st (tail fmt) args
      else '(st, fmt, args) ← directive endp buf st (tail fmt) args; fmt_loop fuel endp buf st fmt args
  end.

(** The memory and the length of the text. *)
Definition vsnprintf (m : pmem) (buf size : Z) (fmt : list Z) (args : list va) : option (pmem * Z) :=
  let endp := u32 (buf + size - 1) in
  let '(endp, size) := if endp <? u32 (buf - 1) then (2 ^ 32 - 1, u32 (2 ^ 32 - buf)) else (endp, size) in
  '(m, str) ← fmt_loop (S (length fmt)) endp buf (m, buf) fmt args;
  m ← (if str <=? endp then store m str 0
       else if 0 <? size then store m endp 0
       else Some m);
  Some (m, s32 (str - buf)).

Definition snprintf (m : pmem) (buf size : Z) (fmt : list Z) (args : list va) : option (pmem * Z) :=
  vsnprintf m buf size fmt args.

Definition vsprintf (m : pmem) (buf : Z) (fmt : list Z) (args : list va) : option (pmem * Z) :=
  vsnprintf m buf (2 ^ 32 - 1) fmt args.

Definition sprintf (m : pmem) (buf : Z) (fmt : list Z) (args : list va) : option (pmem * Z) :=
  vsprintf m buf fmt args.

(** The memory, [*str], [*size] and the value returned; a length below 0 is
    refused by the [KASSERT]. *)
Definition iprintf (m : pmem) (str size : Z) (fmt : list Z) (args : list va) : option (pmem * Z * Z * Z) :=
  '(m, len) ← vsnprintf m str size fmt args;
  if len <? 0 then None
  else
    let len := Z.min len (s32 (size - 1)) in
    let size := u32 (size - len) in
    Some (m, u32 (str + len), size, u32 (size - 1)).

(** ** Input *)

(** [while (isspace( *str)) ++str] and [while (!isspace( *str) && *str) str++] *)
Fixpoint skip_while (p : Z -> bool) (fuel : nat) (m : pmem) (str : Z) : option Z :=
  match fuel with
  | O => None
  | S fuel => c ← load m str; if p c then skip_while p fuel m (str + 1) else Some str
  end.
Fixpoint skip_fmt (p : Z -> bool) (fmt : list Z) : option (list Z) :=
  match fmt with
  | [] => None
  | c :: fmt' => if p c then skip_fmt p fmt' else Some fmt
  end.
Definition in_word (c : Z) : bool := negb (isspace c) && negb (c =? 0).

(** [do { *s++ = *str++; } while (--field_width > 0 && *str)] *)
Fixpoint scan_chars (fuel : nat) (m : pmem) (s str width : Z) : option (pmem * Z) :=
  match fuel with
  | O => None
  | S fuel =>
      c ← load m str;
      m ← store m s c;
      let width := s32 (width - 1) in
      if 0 <? width then
        c ← load m (str + 1);
        if negb (c =? 0) then scan_chars fuel m (s + 1) (str + 1) width else Some (m, str + 1)
      else Some (m, str + 1)
  end.

(** [while ( *str && !isspace( *str) && field_width--) *s++ = *str++; *s = 0] *)
Fixpoint scan_string (fuel : nat) (m : pmem) (s str width : Z) : option (pmem * Z) :=
  match fuel with
  | O => None
  | S fuel =>
      c ← load m str;
      if in_word c && negb (width =? 0)
      then m ← store m s c; scan_string fuel m (s + 1) (str + 1) (s32 (width - 1))
      else m ← store m s 0; Some (m, str)
  end.

(** The qualifier: [h], [l], [L], [Z] or [z], doubled for [hh] and [ll]. *)
Definition scan_qualifier (fmt : list Z) : option (Z * list Z) :=
  c ← head fmt;
  if (c =? ch "h") || (c =? ch "l") || (c =? ch "L") || (c =? ch "Z") || (c =? ch "z") then
    let fmt := tail fmt in
    c' ← head fmt;
    if c =? c' then
      if c =? ch "h" then Some (ch "H", tail fmt)
      else if c =? ch "l" then Some (ch "L", tail fmt)
      else Some (c, fmt)
    else Some (c, fmt)
  else Some (-1, fmt).

(** Whether an integer of the base can start with the char. *)
Definition bad_digit (base digit : Z) : bool :=
  (digit =? 0)
  || ((base =? 16) && negb (isxdigit digit))
  || ((base =? 10) && negb (isdigit digit))
  || ((base =? 8) && (negb (isdigit digit) || (ch "7" <? digit)))
  || ((base =? 0) && negb (isdigit digit)).

(** [switch (qualifier)]: the value stored and [next]. *)
Definition scan_int (m : pmem) (str base qualifier : Z) (is_sign : bool) : option (Z * Z) :=
  if qualifier =? ch "H" then
    if is_sign then '(v, next) ← simple_strtol m str base; Some (s8 v, next)
    else '(v, next) ← simple_strtoul m str base; Some (u8 v, next)
  else if qualifier =? ch "h" then
    if is_sign then '(v, next) ← simple_strtol m str base; Some (s16 v, next)
    else '(v, next) ← simple_strtoul m str base; Some (u16 v, next)
  else if qualifier =? ch "L" then
    if is_sign then simple_strtoll m str base else simple_strtoull m str base
  else if (qualifier =? ch "Z") || (qualifier =? ch "z") then simple_strtoul m str base
  else
    if is_sign then simple_strtol m str base else simple_strtoul m str base.

(** What a conversion does next: go on, or leave the loop. *)
Inductive scan := Cont (m : pmem) (str num : Z) (fmt : list Z) (args : list va) | Stop (m : pmem) (num : Z).

(** The integer conversions. *)
Definition scan_integer (m : pmem) (str num base qualifier : Z) (is_sign : bool)
    (fmt : list Z) (args : list va) : option scan :=
  str ← skip_while isspace (S (size (chars m))) m str;
  digit ← load m str;
  digit ← (if is_sign && (digit =? ch "-") then load m (str + 1) else Some digit);
  if bad_digit base digit then Some (Stop m num)
  else
    '(p, args) ← va_word args;
    '(v, next) ← scan_int m str base qualifier is_sign;
    m ← store_cell m p v;
    Some (if next =? 0 then Stop m (num + 1) else Cont m next (num + 1) fmt args).

(** The rest of a specification, [fmt] after its percent sign. *)
Definition scan_directive (m : pmem) (buf str num : Z) (fmt : list Z) (args : list va) : option scan :=
  c ← head fmt;
  if c =? ch "*" then
    fmt ← skip_fmt in_word fmt;
    str ← skip_while in_word (S (size (chars m))) m str;
    Some (Cont m str num fmt args)
  else
    '(width, fmt) ← (if isdigit c then skip_atoi fmt 0 else Some (-1, fmt));
    '(qualifier, fmt) ← scan_qualifier fmt;
    c ← head fmt;
    d ← (if c =? 0 then Some 0 else load m str);
    if (c =? 0) || (d =? 0) then Some (Stop m num)
    else
      let fmt := tail fmt in
      let int base is_sign := scan_integer m str num base qualifier is_sign fmt args in
      if c =? ch "c" then
        '(s, args) ← va_word args;
        '(m, str) ← scan_chars (S (size (chars m))) m s str (if width =? -1 then 1 else width);
        Some (Cont m str (num + 1) fmt args)
      else if c =? ch "s" then
        '(s, args) ← va_word args;
        str ← skip_while isspace (S (size (chars m))) m str;
        '(m, str) ← scan_string (S (size (chars m))) m s str (if width =? -1 then 2 ^ 31 - 1 else width);
        Some (Cont m str (num + 1) fmt args)
      else if c =? ch "n" then
        '(p, args) ← va_word args;
        m ← store_cell m p (str - buf);
        Some (Cont m str num fmt args)
      else if c =? ch "o" then int 8 false
      else if (c =? ch "x") || (c =? ch "X") then int 16 false
      else if c =? ch "i" then int 0 true
      else if c =? ch "d" then int 10 true
      else if c =? ch "u" then int 10 false
      else if c =? ch "%" then
        if d =? ch "%" then Some (Cont m (str + 1) num fmt args) else Some (Stop m num)
      else Some (Stop m num).

(** [while ( *fmt && *str)] *)
Fixpoint scan_loop (fuel : nat) (m : pmem) (buf str num : Z) (fmt : list Z) (args : list va) : option (pmem * Z) :=
  match fuel with
  | O => None
  | S fuel =>
      f ← head fmt;
      c ← (if f =? 0 then Some 0 else load m str);
      if (f =? 0) || (c =? 0) then Some (m, num)
      else
        '(fmt, str) ←
          (if isspace f then
             fmt ← skip_fmt isspace fmt;
             str ← skip_while isspace (S (size (chars m))) m str;
             Some (fmt, str)
           else Some (fmt, str));
        f ← head fmt;
        if negb (f =? ch "%") && negb (f =? 0) then
          c ← load m str;
          if f =? c then scan_loop fuel m buf (str + 1) num (tail fmt) args else Some (m, num)
        else if f =? 0 then Some (m, num)
        else
          r ← scan_directive m buf str num (tail fmt) args;
          match r with
          | Stop m num => Some (m, num)
          | Cont m str num fmt args => scan_loop fuel m buf str num fmt args
          end
  end.

(** The memory and the number of conversions.  Every round uses up part of the
    format. *)
Definition vsscanf (m : pmem) (buf : Z) (fmt : list Z) (args : list va) : option (pmem * Z) :=
  scan_loop (S (length fmt)) m buf buf 0 fmt args.

Definition sscanf (m : pmem) (buf : Z) (fmt : list Z) (args : list va) : option (pmem * Z) :=
  vsscanf m buf fmt args.

(** ** Examples *)
Definition blank (a n : nat) : gmap Z Z := list_to_map ((fun i => (Z.of_nat i, 35)) <$> seq a n).
Definition text (m : pmem) (a n : nat) : list Z := omap (fun i => chars m !! Z.of_nat i) (seq a n).

Example snprintf_ex :
  ((fun r => (text (fst r) 100 12, snd r)) <$>
     snprintf (Mem (blank 100 12) ∅) 100 10 (cfmt "[%+5d|%#x]") [Word (-42); Word 255])
  = Some (codes "[  -42|0x" ++ [0; 35; 35], 12).
Proof. vm_compute. reflexivity. Qed.

Example sscanf_ex :
  (m ← fst <$> snprintf (Mem (blank 100 20) {[ 8 := 0; 16 := 0 ]}) 100 20 (cfmt "%d %x") [Word (-42); Word 255];
   '(m, n) ← sscanf m 100 (cfmt "%d %x") [Word 8; Word 16];
   Some (cells m !! 8, cells m !! 16, n))
  = Some (Some (-42), Some 255, 2).
Proof. vm_compute. reflexivity. Qed.
End Printf.
