(* ===== verification/PrintfSpec.v ===== *)
(** * What formatted output and input do

    The output of a call is a list of chars.  [emit_list] writes the part of it
    that fits; [number] emits [num_text], the text of a number in a field;
    [vsnprintf] emits the [render]ing of its format, cut to the buffer, and
    returns the length of the whole text; [sscanf] reads back what [snprintf]
    has printed. *)

From Stdlib Require Import ZArith Lia Ascii String.
From stdpp Require Import base list gmap option.
From S2P Require Import Prelude KString Math MathSpec Printf.
Import KString Math MathSpec Printf.

Module PrintfSpec.
Local Open Scope Z_scope.

(** ** Writing a list of chars *)
Fixpoint put_chars (cs : gmap Z Z) (a : Z) (l : list Z) : gmap Z Z :=
  match l with [] => cs | c :: l => put_chars (<[a := c]> cs) (a + 1) l end.

Definition mapped (cs : gmap Z Z) (a n : Z) : Prop := forall p, a <= p < a + n -> is_Some (cs !! p).

Lemma put_chars_app cs a l1 l2 :
  put_chars cs a (l1 ++ l2) = put_chars (put_chars cs a l1) (a + Z.of_nat (length l1)) l2.
Proof.
  revert cs a. induction l1 as [|c l1 IH]; intros cs a; cbn [put_chars app length].
  - by rewrite Z.add_0_r.
  - rewrite IH. f_equal. lia.
Qed.

Lemma put_chars_out cs a l p : p < a \/ a + Z.of_nat (length l) <= p -> put_chars cs a l !! p = cs !! p.
Proof.
  revert cs a. induction l as [|c l IH]; intros cs a Hp; [done|]. cbn [put_chars length] in *.
  rewrite IH by lia. rewrite lookup_insert_ne by lia. done.
Qed.

Lemma put_chars_in cs a l i c : l !! i = Some c -> put_chars cs a l !! (a + Z.of_nat i) = Some c.
Proof.
  revert cs a i. induction l as [|d l IH]; intros cs a i Hi; [done|]. destruct i as [|i]; cbn [put_chars].
  - injection Hi as ->. rewrite put_chars_out by lia. rewrite Z.add_0_r. apply lookup_insert_eq.
  - replace (a + Z.of_nat (S i)) with (a + 1 + Z.of_nat i) by lia. by apply IH.
Qed.

Lemma put_chars_mapped cs a l b n : mapped cs b n -> mapped (put_chars cs a l) b n.
Proof.
  intros Hm p Hp. destruct (decide (a <= p < a + Z.of_nat (length l))) as [Hin|Hout].
  - destruct (lookup_lt_is_Some_2 l (Z.to_nat (p - a))) as [c Hc]; [lia|].
    exists c. replace p with (a + Z.of_nat (Z.to_nat (p - a))) by lia. by apply put_chars_in.
  - rewrite put_chars_out by lia. by apply Hm.
Qed.

Lemma put_chars_size cs a l : mapped cs a (Z.of_nat (length l)) -> size (put_chars cs a l) = size cs.
Proof.
  revert cs a. induction l as [|c l IH]; intros cs a Hm; [done|]. cbn [put_chars length] in *.
  destruct (Hm a ltac:(lia)) as [d Hd]. rewrite IH.
  - by rewrite map_size_insert_Some.
  - intros p Hp. destruct (decide (p = a)) as [->|]; [by rewrite lookup_insert_eq|].
    rewrite lookup_insert_ne by done. apply Hm. lia.
Qed.

Lemma emit_list_app endp l1 l2 st : emit_list endp (l1 ++ l2) st = st1 ← emit_list endp l1 st; emit_list endp l2 st1.
Proof.
  revert st. induction l1 as [|c l1 IH]; intros st; [done|]. cbn [emit_list app].
  destruct (outc endp c st); cbn [mbind option_bind]; [apply IH|done].
Qed.

Lemma emit_n_list endp n c st : emit_n endp n c st = emit_list endp (replicate n c) st.
Proof.
  revert st. induction n as [|n IH]; intros st; [done|]. cbn [emit_n replicate emit_list].
  destruct (outc endp c st); cbn [mbind option_bind]; [apply IH|done].
Qed.

Lemma emit_one endp c st : outc endp c st = emit_list endp [c] st.
Proof. cbn [emit_list]. by destruct (outc endp c st). Qed.

(** The state after [l] has been written from [buf] on, of which the first
    [cap] chars have a place. *)
Definition shown (m : pmem) (buf : Z) (cap : nat) (l : list Z) : out :=
  (Mem (put_chars (chars m) buf (take cap l)) (cells m), buf + Z.of_nat (length l)).

Lemma emit_list_shown m buf cap l l' :
  0 <= buf -> buf + Z.of_nat (length (l ++ l')) < 2 ^ 32 -> mapped (chars m) buf (Z.of_nat cap) ->
  emit_list (buf + Z.of_nat cap - 1) l' (shown m buf cap l) = Some (shown m buf cap (l ++ l')).
Proof.
  revert l. induction l' as [|c l' IH]; intros l Hb Hlt Hm.
  - by rewrite app_nil_r.
  - rewrite length_app in Hlt. cbn [length] in Hlt. cbn [emit_list].
    assert (E : outc (buf + Z.of_nat cap - 1) c (shown m buf cap l) = Some (shown m buf cap (l ++ [c]))).
    { unfold outc, shown. rewrite length_app. cbn [length].
      destruct (Z.leb_spec (buf + Z.of_nat (length l)) (buf + Z.of_nat cap - 1)) as [Hle|Hgt].
      - unfold store. cbn [chars]. destruct (put_chars_mapped (chars m) buf (take cap l) _ _ Hm (buf + Z.of_nat (length l))) as [d ->]; [lia|].
        cbn [mbind option_bind cells]. rewrite u32_small by lia. do 2 f_equal; [|lia].
        rewrite !take_ge by (rewrite ?length_app; cbn [length]; lia). by rewrite put_chars_app.
      - cbn [mbind option_bind]. rewrite u32_small by lia. do 2 f_equal; [|lia].
        rewrite take_app_le by lia. done. }
    rewrite E. cbn [mbind option_bind]. rewrite IH; [|done|rewrite !length_app; cbn [length]; lia|done].
    by rewrite <- app_assoc.
Qed.

(** ** Digits *)

(** The digits of a number, the last first. *)
Fixpoint rdigits (fuel : nat) (b n : Z) : list Z :=
  match fuel with
  | O => []
  | S fuel => if n =? 0 then [] else n mod b :: rdigits fuel b (n / b)
  end.

(** The number with the given digits, the first first. *)
Definition undigits (b : Z) (ds : list Z) : Z := foldl (fun x d => x * b + d) 0 ds.

Lemma undigits_snoc b ds d : undigits b (ds ++ [d]) = undigits b ds * b + d.
Proof. unfold undigits. by rewrite foldl_app. Qed.

Lemma rdigits_range fuel b n d : 2 <= b -> d ∈ rdigits fuel b n -> 0 <= d < b.
Proof.
  intros Hb. revert n. induction fuel as [|fuel IH]; intros n; cbn [rdigits]; [by intros ?%elem_of_nil|].
  destruct (n =? 0); [by intros ?%elem_of_nil|]. intros [->|H]%elem_of_cons; [apply Z.mod_pos_bound; lia|by eapply IH].
Qed.

Lemma div_lt_pow b n k : 2 <= b -> 0 <= n < 2 ^ Z.of_nat (S k) -> 0 <= n / b < 2 ^ Z.of_nat k.
Proof.
  intros Hb Hn. rewrite Nat2Z.inj_succ, Z.pow_succ_r in Hn by lia. split; [apply Z.div_pos; lia|].
  apply Z.div_lt_upper_bound; nia.
Qed.

Lemma rdigits_value fuel b n : 2 <= b -> 0 <= n < 2 ^ Z.of_nat fuel -> undigits b (reverse (rdigits fuel b n)) = n.
Proof.
  intros Hb. revert n. induction fuel as [|fuel IH]; intros n Hn; cbn [rdigits].
  - change (2 ^ Z.of_nat 0) with 1 in Hn. unfold undigits. cbn. lia.
  - destruct (Z.eqb_spec n 0) as [->|Hne]; [done|].
    rewrite reverse_cons, undigits_snoc, IH by (by apply div_lt_pow).
    pose proof (Z.div_mod n b ltac:(lia)). lia.
Qed.

Lemma rdigits_length fuel b n : (length (rdigits fuel b n) <= fuel)%nat.
Proof. revert n. induction fuel as [|fuel IH]; intros n; cbn [rdigits]; [done|]. destruct (n =? 0); cbn [length]; [lia|]. specialize (IH (n / b)). lia. Qed.

Definition digit_char (large : bool) (d : Z) : Z :=
  default 0 ((if large then large_digits else small_digits) !! Z.to_nat d).

Lemma digit_lookup (large : bool) d : 0 <= d < 36 ->
  (if large then large_digits else small_digits) !! Z.to_nat d = Some (digit_char large d).
Proof.
  intros Hd. unfold digit_char. destruct (lookup_lt_is_Some_2 (if large then large_digits else small_digits) (Z.to_nat d)) as [c ->]; [|done].
  assert (length (if large then large_digits else small_digits) = 36%nat) as -> by (by destruct large). lia.
Qed.

Lemma num_loop_spec large b fuel : forall n tmp, 2 <= b <= 36 -> 0 <= n < 2 ^ Z.of_nat fuel -> (fuel <= 64)%nat ->
  (length tmp + fuel <= 66)%nat ->
  num_loop (S fuel) (if large : bool then large_digits else small_digits) n b tmp
  = Some (tmp ++ (digit_char large <$> rdigits fuel b n)).
Proof.
  induction fuel as [|fuel IH]; intros n tmp Hb Hn Hf Hl.
  - change (2 ^ Z.of_nat 0) with 1 in Hn. assert (n = 0) as -> by lia. cbn. by rewrite app_nil_r.
  - cbn [rdigits]. set (fu := S fuel) in *. cbn [num_loop]. subst fu.
    destruct (Z.eqb_spec n 0) as [->|Hne]; [cbn; by rewrite app_nil_r|].
    assert (2 ^ Z.of_nat (S fuel) <= 2 ^ 64) by (apply Z.pow_le_mono_r; lia).
    rewrite umoddi3_run by lia. cbn [mbind option_bind].
    rewrite digit_lookup by (pose proof (Z.mod_pos_bound n b); lia). cbn [mbind option_bind].
    rewrite udivdi3_run by lia. cbn [mbind option_bind].
    destruct (Nat.ltb_spec (length tmp) 66) as [_|]; [|lia].
    rewrite IH; [|done|apply div_lt_pow; lia|lia|rewrite length_app; cbn [length]; lia].
    cbn [fmap list_fmap]. by rewrite <- app_assoc.
Qed.

Lemma num_loop_more fuel : forall digits n b tmp,
  is_Some (num_loop fuel digits n b tmp) -> num_loop (S fuel) digits n b tmp = num_loop fuel digits n b tmp.
Proof.
  induction fuel as [|fuel IH]; intros digits n b tmp; [by intros []|]. intros H.
  set (fu := S fuel) at 1. cbn [num_loop] in H |- *. subst fu.
  destruct (n =? 0); [done|]. destruct (__umoddi3 n b) as [r|]; cbn [mbind option_bind] in *; [|done].
  destruct (digits !! Z.to_nat r) as [d|]; cbn [mbind option_bind] in *; [|done].
  destruct (__udivdi3 n b) as [q|]; cbn [mbind option_bind] in *; [|done].
  destruct (length tmp <? 66)%nat; [|done]. by apply IH.
Qed.

(** ** The text of a number *)
Lemma flag_bit t k : 0 <= k -> flag t (2 ^ k) = Z.testbit t k.
Proof.
  intros Hk. unfold flag. destruct (Z.testbit t k) eqn:E.
  - apply negb_true_iff, Z.eqb_neq. intros H0.
    assert (H : Z.testbit (Z.land t (2 ^ k)) k = false) by (rewrite H0; apply Z.bits_0).
    rewrite Z.land_spec, E, Z.pow2_bits_true in H by done. done.
  - apply negb_false_iff, Z.eqb_eq. apply Z.bits_inj'. intros i Hi. rewrite Z.land_spec, Z.bits_0.
    destruct (decide (i = k)) as [->|]; [by rewrite E|]. rewrite Z.pow2_bits_false by done. apply andb_false_r.
Qed.

Lemma flag_ldiff t k : 0 < k -> flag (Z.ldiff t ZEROPAD) (2 ^ k) = flag t (2 ^ k).
Proof.
  intros Hk. rewrite !flag_bit by lia. rewrite Z.ldiff_spec. change ZEROPAD with (2 ^ 0).
  rewrite Z.pow2_bits_false by lia. apply andb_true_r.
Qed.

Lemma flag_ldiff0 t : flag (Z.ldiff t ZEROPAD) ZEROPAD = false.
Proof. change ZEROPAD with (2 ^ 0). rewrite flag_bit, Z.ldiff_spec, Z.pow2_bits_true by done. apply andb_false_r. Qed.

Lemma flag_or t a b : flag t (Z.lor a b) = flag t a || flag t b.
Proof.
  unfold flag. rewrite Z.land_lor_distr_r.
  destruct (Z.eqb_spec (Z.land t a) 0) as [Ha|Ha], (Z.eqb_spec (Z.land t b) 0) as [Hb|Hb]; cbn [negb orb].
  - by rewrite Ha, Hb.
  - by apply negb_true_iff, Z.eqb_neq; rewrite Z.lor_eq_0_iff; intros [].
  - by apply negb_true_iff, Z.eqb_neq; rewrite Z.lor_eq_0_iff; intros [].
  - by apply negb_true_iff, Z.eqb_neq; rewrite Z.lor_eq_0_iff; intros [].
Qed.

(** The digits of [n >= 0]. *)
Definition num_digits (type base n : Z) : list Z :=
  if n =? 0 then [ch "0"] else reverse (digit_char (flag type LARGE) <$> rdigits 64 base n).

Definition num_sign (type num : Z) : list Z :=
  if flag type SIGN then
    if num <? 0 then [ch "-"] else if flag type PLUS then [ch "+"] else if flag type SPACE then [ch " "] else []
  else [].

Definition num_prefix (type base : Z) : list Z :=
  if flag type SPECIAL then
    if base =? 8 then [ch "0"] else if base =? 16 then [ch "0"; digit_char (flag type LARGE) 33] else []
  else [].

(** The value that is printed: the magnitude of a signed number, or the number
    taken as unsigned. *)
Definition num_value (type num : Z) : Z := if flag type SIGN then Z.abs num else u64 num.

(** At least [precision] digits in a field of [size] chars: blanks or, with
    [ZEROPAD], zeros after the sign fill it up on the left, with [LEFT] blanks on
    the right. *)
Definition num_text (num base size precision type : Z) : list Z :=
  let ds := num_digits type base (num_value type num) in
  let body := replicate (Z.to_nat precision - length ds) (ch "0") ++ ds in
  let pre := num_sign type num ++ num_prefix type base in
  let w := (Z.to_nat size - length pre - length body)%nat in
  if flag type LEFT then pre ++ body ++ replicate w (ch " ")
  else if flag type ZEROPAD then pre ++ replicate w (ch "0") ++ body
  else replicate w (ch " ") ++ pre ++ body.

Lemma num_value_range type num : - 2 ^ 63 <= num < 2 ^ 63 -> 0 <= num_value type num < 2 ^ 64.
Proof. intros. unfold num_value. destruct (flag type SIGN); [lia|]. unfold u64. Z.div_mod_to_equations. lia. Qed.

Lemma take_sign_spec num size type :
  - 2 ^ 63 <= num < 2 ^ 63 -> - 2 ^ 30 <= size <= 2 ^ 30 ->
  exists sign num', take_sign num size type = (sign, num', size - Z.of_nat (length (num_sign type num))) /\
    num_sign type num = (if sign =? 0 then [] else [sign]) /\
    (num' =? 0) = (num_value type num =? 0) /\ (num' <> 0 -> u64 num' = num_value type num).
Proof.
  intros Hn Hs. unfold take_sign, num_sign, num_value.
  assert (Hu : forall x, 0 <= x < 2 ^ 64 -> u64 x = x) by (intros; unfold u64; by apply Z.mod_small).
  destruct (flag type SIGN).
  - destruct (Z.ltb_spec num 0) as [Hneg|Hpos].
    + exists (ch "-"), (s64 (- num)). rewrite s32_small by lia. split; [done|]. split; [done|].
      unfold s64. rewrite Z.abs_neq by lia. unfold u64.
      destruct (Z.eqb_spec ((- num + 2 ^ 63) mod 2 ^ 64 - 2 ^ 63) 0), (Z.eqb_spec (- num) 0);
        split; try done; try (Z.div_mod_to_equations; lia).
    + rewrite Z.abs_eq by done.
      destruct (flag type PLUS); [|destruct (flag type SPACE)].
      * exists (ch "+"), num. rewrite s32_small by lia. split_and!; try done. intros _. apply Hu. lia.
      * exists (ch " "), num. rewrite s32_small by lia. split_and!; try done. intros _. apply Hu. lia.
      * exists 0, num. rewrite Z.sub_0_r. split_and!; try done. intros _. apply Hu. lia.
  - exists 0, num. rewrite Z.sub_0_r. split_and!; try done.
    unfold u64. destruct (Z.eqb_spec num 0) as [->|]; [done|]. symmetry. apply Z.eqb_neq. Z.div_mod_to_equations. lia.
Qed.

Lemma num_digits_tmp type base num' n :
  2 <= base <= 36 -> 0 <= n < 2 ^ 64 -> (num' =? 0) = (n =? 0) -> (num' <> 0 -> u64 num' = n) ->
  (if num' =? 0 then Some [ch "0"]
   else num_loop 66 (if flag type LARGE then large_digits else small_digits) (u64 num') base [])
  = Some (reverse (num_digits type base n)).
Proof.
  intros Hb Hn E0 Eu. unfold num_digits. destruct (Z.eqb_spec num' 0) as [->|Hne]; rewrite <- E0; [done|].
  rewrite (Eu Hne).
  assert (H65 : num_loop 65 (if flag type LARGE then large_digits else small_digits) n base []
    = Some (digit_char (flag type LARGE) <$> rdigits 64 base n)) 
    by (apply (num_loop_spec (flag type LARGE) base 64 n []); [lia|exact Hn|lia|cbn [length]; lia]).
  rewrite reverse_involutive, <- H65.
  apply num_loop_more. by rewrite H65.
Qed.

Lemma pad_list endp c size st :
  pad endp c size st = st1 ← emit_list endp (replicate (Z.to_nat size) c) st; Some (st1, s32 (Z.min size 0 - 1)).
Proof. unfold pad. by rewrite emit_n_list. Qed.

Lemma emit_prefix endp type base st :
  (if flag type SPECIAL then
     if base =? 8 then outc endp (ch "0") st
     else if base =? 16 then
       st ← outc endp (ch "0") st;
       x ← (if flag type LARGE then large_digits else small_digits) !! 33%nat;
       outc endp x st
     else Some st
   else Some st) = emit_list endp (num_prefix type base) st.
Proof.
  unfold num_prefix. destruct (flag type SPECIAL); [|done].
  destruct (base =? 8); [apply emit_one|]. destruct (base =? 16); [|done].
  cbn [emit_list]. destruct (outc endp (ch "0") st) as [st1|]; cbn [mbind option_bind]; [|done].
  change 33%nat with (Z.to_nat 33). rewrite (digit_lookup (flag type LARGE) 33) by lia. cbn [mbind option_bind].
  by destruct (outc endp (digit_char (flag type LARGE) 33) st1).
Qed.

Lemma emit_sign endp sign st :
  (if negb (sign =? 0) then outc endp sign st else Some st) = emit_list endp (if sign =? 0 then [] else [sign]) st.
Proof. destruct (sign =? 0); [done|apply emit_one]. Qed.

Lemma obind_ext {A C} (o : option A) (f g : A -> option C) : (forall a, f a = g a) -> (o ≫= f) = (o ≫= g).
Proof. intros H. destruct o; cbn; auto. Qed.

(** [emit_step] runs the next [emit_list] of both sides. *)
Ltac emit_step :=
  rewrite emit_list_app;
  match goal with |- context [emit_list ?e ?l ?s] => destruct (emit_list e l s); cbn [mbind option_bind fst snd]; [|done] end.

Lemma pad_none endp c size st : size <= 0 -> pad endp c size st = Some (st, s32 (size - 1)).
Proof. intros. rewrite pad_list. replace (Z.to_nat size) with O by lia. cbn. by rewrite Z.min_l. Qed.

(** The padding around the sign, the prefix and the digits. *)
Lemma number_layout endp st type pre (sg px ds : list Z) precision size :
  pre = sg ++ px -> - 2 ^ 31 + 2 <= size < 2 ^ 31 ->
  let c := if flag type ZEROPAD then ch "0" else ch " " in
  let z := replicate (Z.to_nat (precision - Z.of_nat (length ds))) (ch "0") in
  let w := Z.to_nat size in
  (flag type LEFT = true -> flag type ZEROPAD = false) ->
  ('(st, size) ← (if negb (flag type ZEROPAD || flag type LEFT) then pad endp (ch " ") size st else Some (st, size));
   st ← emit_list endp sg st;
   st ← emit_list endp px st;
   '(st, size) ← (if negb (flag type LEFT) then pad endp c size st else Some (st, size));
   st ← emit_n endp (Z.to_nat (precision - Z.of_nat (length ds))) (ch "0") st;
   st ← emit_list endp ds st;
   '(st, _) ← pad endp (ch " ") size st;
   Some st)
  = emit_list endp (if flag type LEFT then pre ++ (z ++ ds) ++ replicate w (ch " ")
                    else if flag type ZEROPAD then pre ++ replicate w (ch "0") ++ z ++ ds
                    else replicate w (ch " ") ++ pre ++ z ++ ds) st.
Proof.
  intros -> Hs c z w HLZ. unfold c, w.
  assert (Hend : forall (s1 : out) x, x <= 0 ->
    (st ← emit_n endp (Z.to_nat (precision - Z.of_nat (length ds))) (ch "0") s1;
     st ← emit_list endp ds st;
     '(st, _) ← pad endp (ch " ") x st; Some st) = emit_list endp (z ++ ds) s1).
  { intros s1 x Hx. rewrite emit_n_list. unfold z. emit_step.
    destruct (emit_list endp ds o) as [s2|]; cbn [mbind option_bind]; [|done]. by rewrite pad_none by done. }
  assert (Hs32 : s32 (Z.min size 0 - 1) = Z.min size 0 - 1) by (apply s32_small; lia).
  destruct (flag type LEFT) eqn:EL; [rewrite HLZ by done|destruct (flag type ZEROPAD) eqn:EZ]; cbn [orb negb mbind option_bind].
  - unfold z. rewrite <- !app_assoc. emit_step. emit_step. rewrite emit_n_list. emit_step. emit_step.
    rewrite pad_list. by destruct (emit_list endp (replicate (Z.to_nat size) (ch " ")) _).
  - rewrite <- !app_assoc. emit_step. emit_step. rewrite pad_list. emit_step. apply Hend. rewrite Hs32. lia.
  - rewrite pad_list. emit_step. rewrite <- !app_assoc. emit_step. emit_step.
    rewrite Hs32, pad_none by lia. cbn [mbind option_bind]. apply Hend. rewrite s32_small; lia.
Qed.

(** The flags but [ZEROPAD] survive. *)
Lemma flag_type type f k : f = 2 ^ k -> 0 < k ->
  flag (if flag type LEFT then Z.ldiff type ZEROPAD else type) f = flag type f.
Proof. intros -> Hk. destruct (flag type LEFT); [by apply flag_ldiff|done]. Qed.

Lemma number_run endp st num base size precision type :
  2 <= base <= 36 -> - 2 ^ 63 <= num < 2 ^ 63 -> -1 <= size <= 2 ^ 30 -> -1 <= precision <= 2 ^ 30 ->
  number endp st num base size precision type = emit_list endp (num_text num base size precision type) st.
Proof.
  intros Hb Hn Hs Hp. unfold number.
  set (type' := if flag type LEFT then Z.ldiff type ZEROPAD else type).
  assert (F1 : flag type' SIGN = flag type SIGN) by (by apply (flag_type _ _ 1)).
  assert (F2 : flag type' PLUS = flag type PLUS) by (by apply (flag_type _ _ 2)).
  assert (F3 : flag type' SPACE = flag type SPACE) by (by apply (flag_type _ _ 3)).
  assert (F4 : flag type' LEFT = flag type LEFT) by (by apply (flag_type _ _ 4)).
  assert (F5 : flag type' SPECIAL = flag type SPECIAL) by (by apply (flag_type _ _ 5)).
  assert (F0 : flag type LEFT = true -> flag type' ZEROPAD = false).
  { unfold type'. intros ->. apply flag_ldiff0. }
  destruct (Z.ltb_spec base 2), (Z.ltb_spec 36 base); try lia. cbn [orb].
  destruct (take_sign_spec num size type') as (sign & num' & E & Esg & E0 & Eu); [done|lia|].
  assert (Hsg : num_sign type' num = num_sign type num) by (unfold num_sign; by rewrite F1, F2, F3).
  assert (Hnv : num_value type' num = num_value type num) by (unfold num_value; by rewrite F1).
  rewrite Hsg in *. rewrite Hnv in *. rewrite E, F5.
  rewrite (num_digits_tmp type base num' (num_value type num)); [|done|by apply num_value_range|done|done].
  cbn [mbind option_bind]. set (ds := num_digits type base (num_value type num)).
  rewrite length_reverse, reverse_involutive.
  assert (Hlen : (length ds <= 64)%nat).
  { unfold ds, num_digits. destruct (num_value type num =? 0); [cbn; lia|]. rewrite length_reverse, length_fmap. apply rdigits_length. }
  assert (Hsl : (length (num_sign type num) <= 1)%nat) by (rewrite Esg; destruct (sign =? 0); cbn; lia).
  change (ZEROPAD + LEFT) with (Z.lor ZEROPAD LEFT). rewrite flag_or.
  set (sz := if flag type SPECIAL then _ else _).
  assert (Esz : sz = size - Z.of_nat (length (num_sign type num)) - Z.of_nat (length (num_prefix type base))).
  { unfold sz, num_prefix. destruct (flag type SPECIAL); [|cbn [length]; lia].
    destruct (Z.eqb_spec base 16), (Z.eqb_spec base 8); cbn [length]; try lia; rewrite s32_small; lia. }
  assert (Hpl : (length (num_prefix type base) <= 2)%nat).
  { unfold num_prefix. destruct (flag type SPECIAL), (base =? 8), (base =? 16); cbn [length]; lia. }
  set (pr := if precision <? Z.of_nat (length ds) then Z.of_nat (length ds) else precision).
  assert (Hpr : Z.of_nat (length ds) <= pr <= 2 ^ 30 + 64) by (unfold pr; destruct (Z.ltb_spec precision (Z.of_nat (length ds))); lia).
  rewrite (s32_small (sz - pr)) by lia.
  transitivity (emit_list endp
    (let pre := num_sign type num ++ num_prefix type base in
     let z := replicate (Z.to_nat (pr - Z.of_nat (length ds))) (ch "0") in
     let w := Z.to_nat (sz - pr) in
     if flag type' LEFT then pre ++ (z ++ ds) ++ replicate w (ch " ")
     else if flag type' ZEROPAD then pre ++ replicate w (ch "0") ++ z ++ ds
     else replicate w (ch " ") ++ pre ++ z ++ ds) st).
  - rewrite <- (number_layout endp st type' _ (num_sign type num) (num_prefix type base) ds pr (sz - pr));
      [|done|lia|by rewrite F4].
    apply obind_ext. intros [st1 sz1]. rewrite emit_sign, <- Esg. apply obind_ext. intros st2.
    rewrite emit_prefix. done.
  - cbv zeta. f_equal. unfold num_text. fold ds. rewrite F4.
    assert (Hz : Z.to_nat (pr - Z.of_nat (length ds)) = (Z.to_nat precision - length ds)%nat).
    { unfold pr. destruct (Z.ltb_spec precision (Z.of_nat (length ds))); lia. }
    assert (Hw : Z.to_nat (sz - pr) = (Z.to_nat size - length (num_sign type num ++ num_prefix type base)
      - length (replicate (Z.to_nat precision - length ds) (ch "0") ++ ds))%nat).
    { rewrite !length_app, length_replicate, Esz. unfold pr. destruct (Z.ltb_spec precision (Z.of_nat (length ds))); lia. }
    rewrite Hz, Hw. unfold type'. by destruct (flag type LEFT).
Qed.

(** [number] emits the text of the number: sign, prefix, leading zeros up to
    the precision and the digits, padded to the field; the digits, read as a
    numeral in the base, are the number. *)
Theorem number_spec endp st num base size precision type :
  2 <= base <= 36 -> - 2 ^ 63 <= num < 2 ^ 63 -> -1 <= size <= 2 ^ 30 -> -1 <= precision <= 2 ^ 30 ->
  number endp st num base size precision type = emit_list endp (num_text num base size precision type) st /\
  undigits base (reverse (rdigits 64 base (num_value type num))) = num_value type num.
Proof.
  intros Hb Hn Hs Hp. split; [by apply number_run|].
  apply rdigits_value; [lia|]. exact (num_value_range type num Hn).
Qed.
End PrintfSpec.
