(* ===== verification/PrintfRef.v ===== *)
(** * The text of a format

    [render] gives the text of a format and its arguments as a list of chars,
    and what [%n] stores.  It is written apart from [vsnprintf]: the flags of a
    specification are the set of its flag chars, widths and precisions are
    numerals or arguments, an argument is wrapped to the size its modifier
    names, and a number is laid out from its value.  [strs a] is the string at
    the address [a].  There is no text for fields of more than 2^30 chars.
    The second half shows that the readers of [vsnprintf] agree with it. *)

From Stdlib Require Import ZArith Lia Ascii String.
From stdpp Require Import base list gmap option.
From S2P Require Import Prelude KString Math MathSpec Printf PrintfSpec.
Import KString Math MathSpec Printf PrintfSpec.

Module PrintfRef.
Local Open Scope Z_scope.

(** ** Reading a conversion specification *)

(** The longest prefix of chars with [p]; a char without [p] has to follow. *)
Fixpoint span_while (p : Z -> bool) (l : list Z) : option (list Z * list Z) :=
  match l with
  | [] => None
  | c :: l' => if p c then '(a, r) ← span_while p l'; Some (c :: a, r) else Some ([], l)
  end.

Definition one_of (l : list Z) (c : Z) : bool := existsb (Z.eqb c) l.
Definition is_flag : Z -> bool := one_of (codes "-+ #0").
Definition decimal (c : Z) : bool := (48 <=? c) && (c <=? 57).
Definition numeral (ds : list Z) : Z := foldl (fun x d => 10 * x + (d - 48)) 0 ds.

(** A width or a precision: a numeral, an argument or nothing. *)
Inductive amount := Absent | Numeral (n : Z) | Star.

Definition read_amount (fmt : list Z) : option (amount * list Z) :=
  '(ds, r) ← span_while decimal fmt;
  match ds, r with
  | [], c :: r' => if c =? ch "*" then Some (Star, r') else Some (Absent, r)
  | _, _ => Some (Numeral (numeral ds), r)
  end.

Definition read_precision (fmt : list Z) : option (option amount * list Z) :=
  c ← head fmt;
  if c =? ch "." then '(p, r) ← read_amount (tail fmt); Some (Some p, r) else Some (None, fmt).

(** [h], [l], [ll] or [L], [Z] *)
Inductive modifier := NoMod | Short | Long | LongLong | SizeT.

Definition read_letter (fmt : list Z) : modifier * list Z :=
  match fmt with
  | [] => (NoMod, [])
  | c :: r =>
      if c =? ch "h" then (Short, r)
      else if c =? ch "l" then
        match r with
        | c' :: r' => if c' =? ch "l" then (LongLong, r') else (Long, r)
        | [] => (Long, r)
        end
      else if c =? ch "L" then (LongLong, r)
      else if c =? ch "Z" then (SizeT, r)
      else (NoMod, fmt)
  end.

(** A [q] after it, or alone, is a [long long] too. *)
Definition read_modifier (fmt : list Z) : modifier * list Z :=
  match read_letter fmt with
  | (md, c :: r) => if c =? ch "q" then (LongLong, r) else (md, c :: r)
  | (md, []) => (md, [])
  end.

(** ** Arguments *)
Definition wrap (signed : bool) (bits v : Z) : Z :=
  let u := v mod 2 ^ bits in
  if signed && (2 ^ (bits - 1) <=? u) then u - 2 ^ bits else u.

Definition word_arg (args : list va) : option (Z * list va) :=
  match args with Word w :: args => Some (w mod 2 ^ 32, args) | _ => None end.

(** A [size_t] is never negative. *)
Definition read_int (md : modifier) (signed : bool) (args : list va) : option (Z * list va) :=
  match md, args with
  | LongLong, Quad q :: args => Some (wrap signed 64 q, args)
  | SizeT, Word w :: args => Some (wrap false 32 w, args)
  | Short, Word w :: args => Some (wrap signed 16 w, args)
  | (NoMod | Long), Word w :: args => Some (wrap signed 32 w, args)
  | _, _ => None
  end.

(** The flags and the width; a negative argument is a width with [-]. *)
Definition eval_width (w : amount) (fs : list Z) (args : list va) : option (option Z * list Z * list va) :=
  match w with
  | Absent => Some (None, fs, args)
  | Numeral n => Some (Some n, fs, args)
  | Star => '(v, args) ← read_int NoMod true args;
            Some (Some (Z.abs v), if v <? 0 then ch "-" :: fs else fs, args)
  end.

(** A dot alone and a negative argument are a precision of 0. *)
Definition eval_precision (p : option amount) (args : list va) : option (option Z * list va) :=
  match p with
  | None => Some (None, args)
  | Some Absent => Some (Some 0, args)
  | Some (Numeral n) => Some (Some n, args)
  | Some Star => '(v, args) ← read_int NoMod true args; Some (Some (Z.max 0 v), args)
  end.

(** ** The text of a conversion *)
Definition has (fs : list Z) (c : ascii) : bool := one_of fs (ch c).
Arguments has fs c%_char_scope.

Definition blanks (n : nat) : list Z := replicate n (ch " ").
Definition field_size (w : option Z) : nat := Z.to_nat (default 0 w).

Definition justify (fs : list Z) (w : option Z) (t : list Z) : list Z :=
  let sp := blanks (field_size w - length t) in
  if has fs "-" then t ++ sp else sp ++ t.

Definition digit_of (upper : bool) (d : Z) : Z :=
  if d <? 10 then ch "0" + d else (if upper then ch "A" else ch "a") + (d - 10).
Definition digits_of (upper : bool) (base n : Z) : list Z :=
  if n =? 0 then [ch "0"] else reverse (digit_of upper <$> rdigits 64 base n).

Definition sign_of (fs : list Z) (signed : bool) (v : Z) : list Z :=
  if negb signed then []
  else if v <? 0 then [ch "-"] else if has fs "+" then [ch "+"] else if has fs " " then [ch " "] else [].
Definition base_prefix (fs : list Z) (upper : bool) (base : Z) : list Z :=
  if negb (has fs "#") then []
  else if base =? 16 then [ch "0"; if upper then ch "X" else ch "x"] else if base =? 8 then [ch "0"] else [].

(** The sign, the prefix and at least [p] digits in a field of [w] chars: it is
    filled up with blanks on the right with [-], with zeros before the digits
    with [0] alone, and else with blanks on the left. *)
Definition text_int (fs : list Z) (w p : option Z) (signed upper : bool) (base v : Z) : list Z :=
  let ds := digits_of upper base (Z.abs v) in
  let body := replicate (field_size p - length ds) (ch "0") ++ ds in
  let pre := sign_of fs signed v ++ base_prefix fs upper base in
  let n := (field_size w - length pre - length body)%nat in
  if has fs "-" then pre ++ body ++ blanks n
  else if has fs "0" then pre ++ replicate n (ch "0") ++ body
  else blanks n ++ pre ++ body.

Definition str_arg (strs : Z -> option (list Z)) (a : Z) : option (list Z) :=
  if a =? 0 then Some (codes "<NULL>") else strs a.
Definition cut (p : option Z) (s : list Z) : list Z :=
  match p with None => s | Some n => take (Z.to_nat n) s end.

(** The signedness, the case and the base of an integer conversion. *)
Definition int_conv (c : Z) : option (bool * bool * Z) :=
  if one_of (codes "di") c then Some (true, false, 10)
  else if c =? ch "u" then Some (false, false, 10)
  else if c =? ch "o" then Some (false, false, 8)
  else if c =? ch "x" then Some (false, false, 16)
  else if c =? ch "X" then Some (false, true, 16)
  else None.

(** ** The text of a format *)
Section Render.
Context (strs : Z -> option (list Z)).

Definition small_amount (a : option Z) : bool := default 0 a <=? 2 ^ 30.

(** The text of the conversion [c], the stores of [%n] and the arguments left;
    [pos] chars have been written before. *)
Definition render_conv (pos : nat) (fs : list Z) (w p : option Z) (md : modifier) (c : Z) (args : list va)
    : option (list Z * list (Z * Z) * list va) :=
  if negb (small_amount w && small_amount p) then None
  else match int_conv c with
  | Some (signed, upper, base) =>
      '(v, args) ← read_int md signed args; Some (text_int fs w p signed upper base v, [], args)
  | None =>
      if c =? ch "c" then '(v, args) ← word_arg args; Some (justify fs w [wrap true 8 v], [], args)
      else if c =? ch "s" then
        '(a, args) ← word_arg args; s ← str_arg strs a; Some (justify fs w (cut p s), [], args)
      else if c =? ch "p" then
        '(v, args) ← word_arg args;
        Some (match w with
              | None => text_int (ch "0" :: fs) (Some 8) p false false 16 v
              | Some _ => text_int fs w p false false 16 v
              end, [], args)
      else if c =? ch "n" then '(a, args) ← word_arg args; Some ([], [(a, Z.of_nat pos)], args)
      else if c =? ch "%" then Some ([ch "%"], [], args)
      else if c =? 0 then Some ([ch "%"], [], args)
      else Some ([ch "%"; c], [], args)
  end.

(** [fmt] follows the [%]; with it what is left of the format. *)
Definition render_directive (pos : nat) (fmt : list Z) (args : list va)
    : option (list Z * list (Z * Z) * list Z * list va) :=
  '(fs, fmt) ← span_while is_flag fmt;
  '(w, fmt) ← read_amount fmt;
  '(p, fmt) ← read_precision fmt;
  let '(md, fmt) := read_modifier fmt in
  c ← head fmt;
  '(w, fs, args) ← eval_width w fs args;
  '(p, args) ← eval_precision p args;
  '(t, ws, args) ← render_conv pos fs w p md c args;
  Some (t, ws, if c =? 0 then fmt else tail fmt, args).

Fixpoint render_loop (fuel : nat) (pos : nat) (fmt : list Z) (args : list va) : option (list Z * list (Z * Z)) :=
  match fuel with
  | O => None
  | S fuel =>
      c ← head fmt;
      if c =? 0 then Some ([], [])
      else if c =? ch "%" then
        '(t, ws, fmt, args) ← render_directive pos (tail fmt) args;
        '(t', ws') ← render_loop fuel (pos + length t) fmt args;
        Some (t ++ t', ws ++ ws')
      else '(t, ws) ← render_loop fuel (S pos) (tail fmt) args; Some (c :: t, ws)
  end.

(** The text, and the integer objects [%n] stores into with their values. *)
Definition render (fmt : list Z) (args : list va) : option (list Z * list (Z * Z)) :=
  render_loop (S (length fmt)) 0 fmt args.
End Render.

(** ** The readers of [vsnprintf] *)
(** What the bits of [flags] say of the set of flag chars. *)
Definition means (fl : Z) (fs : list Z) (signed upper : bool) : Prop :=
  flag fl LEFT = has fs "-" /\ flag fl PLUS = has fs "+" /\ flag fl SPACE = has fs " " /\
  flag fl SPECIAL = has fs "#" /\ flag fl ZEROPAD = has fs "0" /\ flag fl SIGN = signed /\ flag fl LARGE = upper.

Lemma flag_lor a b f : flag (Z.lor a b) f = flag a f || flag b f.
Proof. unfold flag. rewrite (Z.land_comm _ f). change (negb (Z.land f (Z.lor a b) =? 0)) with (flag f (Z.lor a b)). rewrite flag_or. unfold flag. by rewrite !(Z.land_comm f). Qed.

Lemma has_app fs fs' c : has (fs ++ fs') c = has fs c || has fs' c.
Proof. unfold has, one_of. apply existsb_app. Qed.

(** Another flag char sets its bit. *)
Lemma means_set fl fs c f signed upper : means fl fs signed upper ->
  (c = ch "-" /\ f = LEFT \/ c = ch "+" /\ f = PLUS \/ c = ch " " /\ f = SPACE \/
   c = ch "#" /\ f = SPECIAL \/ c = ch "0" /\ f = ZEROPAD) -> means (Z.lor fl f) (c :: fs) signed upper.
Proof.
  intros (H1 & H2 & H3 & H4 & H5 & H6 & H7) Hcf. unfold means. rewrite !flag_lor, H1, H2, H3, H4, H5, H6, H7.
  unfold has, one_of. cbn [existsb].
  destruct Hcf as [[-> ->]|[[-> ->]|[[-> ->]|[[-> ->]|[-> ->]]]]]; cbn; rewrite ?orb_true_r, ?orb_false_r; repeat split.
Qed.

Lemma means_mode fl fs signed upper f :
  means fl fs false false -> (f = SIGN /\ (signed, upper) = (true, false) \/ f = LARGE /\ (signed, upper) = (false, true)) ->
  means (Z.lor fl f) fs signed upper.
Proof.
  intros (H1 & H2 & H3 & H4 & H5 & H6 & H7) Hf. unfold means. rewrite !flag_lor, H1, H2, H3, H4, H5, H6, H7.
  destruct Hf as [[-> [= -> ->]]|[-> [= -> ->]]]; cbn; rewrite ?orb_false_r; repeat split.
Qed.

Lemma means_ext fl fs fs' signed upper : (forall c, has fs c = has fs' c) -> means fl fs signed upper -> means fl fs' signed upper.
Proof. intros H. unfold means. by rewrite !H. Qed.

Lemma get_flags_read fmt : forall fs r fl fs0, span_while is_flag fmt = Some (fs, r) -> means fl fs0 false false ->
  exists fl', get_flags fmt fl = Some (fl', r) /\ means fl' (fs0 ++ fs) false false.
Proof.
  induction fmt as [|c fmt IH]; intros fs r fl fs0; [done|]. cbn [span_while get_flags].
  unfold is_flag at 1, one_of. replace (codes "-+ #0") with [ch "-"; ch "+"; ch " "; ch "#"; ch "0"] by reflexivity. cbn [existsb].
  assert (Hstep : forall f, means (Z.lor fl f) (c :: fs0) false false ->
    ('(a, r) ← span_while is_flag fmt; Some (c :: a, r)) = Some (fs, r) ->
    exists fl', get_flags fmt (Z.lor fl f) = Some (fl', r) /\ means fl' (fs0 ++ fs) false false).
  { intros f Hf Hs. cbn [fst snd] in *. destruct (span_while is_flag fmt) as [[a r']|]; cbn [mbind option_bind] in Hs; [|done]. injection Hs as <- <-.
    destruct (IH a r' (Z.lor fl f) (c :: fs0) eq_refl Hf) as (fl' & E & Hm). exists fl'. split; [done|].
    eapply means_ext; [|exact Hm]. intros x. change ((c :: fs0) ++ a) with ([c] ++ fs0 ++ a).
    change (c :: a) with ([c] ++ a). rewrite !has_app. by destruct (has [c] x), (has fs0 x), (has a x). }
  intros Hs Hm.
  destruct (Z.eqb_spec c (ch "-")) as [->|]; [apply Hstep; [apply means_set; auto 9|done]|].
  destruct (Z.eqb_spec c (ch "+")) as [->|]; [apply Hstep; [apply means_set; auto 9|done]|].
  destruct (Z.eqb_spec c (ch " ")) as [->|]; [apply Hstep; [apply means_set; auto 9|done]|].
  destruct (Z.eqb_spec c (ch "#")) as [->|]; [apply Hstep; [apply means_set; auto 9|done]|].
  destruct (Z.eqb_spec c (ch "0")) as [->|]; [apply Hstep; [apply means_set; auto 9|done]|].
  cbn [orb] in Hs. injection Hs as <- <-. exists fl. by rewrite app_nil_r.
Qed.

Lemma isdigit_decimal c : is_char c -> isdigit c = decimal c.
Proof.
  intros Hc. assert (H : forallb (fun n => eqb (isdigit (Z.of_nat n - 128)) (decimal (Z.of_nat n - 128))) (seq 0 256) = true) by (vm_compute; reflexivity).
  rewrite forallb_forall in H. specialize (H (Z.to_nat (c + 128))). apply eqb_prop.
  replace (Z.of_nat (Z.to_nat (c + 128)) - 128) with c in H by (unfold is_char in Hc; lia). apply H, in_seq. unfold is_char in Hc. lia.
Qed.

(** [span_while] splits its list. *)
Lemma span_while_app p l a r : span_while p l = Some (a, r) -> l = a ++ r /\ r <> [].
Proof.
  revert a. induction l as [|c l IH]; intros a; [done|]. cbn [span_while]. destruct (p c); [|by intros [= <- <-]].
  destruct (span_while p l) as [[a' r']|]; cbn [mbind option_bind]; [|done]. intros [= <- <-].
  destruct (IH a' eq_refl) as [-> Hr]. done.
Qed.

Lemma numeral_ge ds : Forall (fun d => decimal d = true) ds -> forall i, 0 <= i -> i <= foldl (fun x d => 10 * x + (d - 48)) i ds.
Proof.
  induction 1 as [|d ds Hd _ IH]; intros i Hi; cbn [foldl]; [lia|]. unfold decimal in Hd.
  apply andb_true_iff in Hd as [H1%Z.leb_le H2%Z.leb_le]. specialize (IH (10 * i + (d - 48)) ltac:(lia)). lia.
Qed.

Lemma span_while_forall p l a r : span_while p l = Some (a, r) -> Forall (fun d => p d = true) a.
Proof.
  revert a. induction l as [|c l IH]; intros a; [done|]. cbn [span_while]. destruct (p c) eqn:E; [|by intros [= <- <-]].
  destruct (span_while p l) as [[a' r']|]; cbn [mbind option_bind]; [|done]. intros [= <- <-]. constructor; auto.
Qed.

Lemma skip_atoi_read fmt : Forall is_char fmt -> forall ds r i, span_while decimal fmt = Some (ds, r) -> 0 <= i ->
  foldl (fun x d => 10 * x + (d - 48)) i ds <= 2 ^ 30 -> skip_atoi fmt i = Some (foldl (fun x d => 10 * x + (d - 48)) i ds, r).
Proof.
  induction 1 as [|c fmt Hc _ IH]; intros ds r i; [done|]. cbn [span_while skip_atoi]. rewrite isdigit_decimal by done.
  destruct (decimal c) eqn:Ed; [|intros [= <- <-]; done].
  destruct (span_while decimal fmt) as [[a r']|] eqn:Es; cbn [mbind option_bind]; [|done]. intros [= <- <-] Hi Hv. cbn [foldl] in *.
  pose proof (span_while_forall _ _ _ _ Es) as Ha. unfold decimal in Ed. apply andb_true_iff in Ed as [H1%Z.leb_le H2%Z.leb_le].
  pose proof (numeral_ge a Ha (10 * i + (c - 48)) ltac:(lia)).
  change (ch "0") with 48. rewrite s32_small by lia. replace (i * 10 + c - 48) with (10 * i + (c - 48)) by lia. apply IH; [done|lia|done].
Qed.

(** The wraps of the code. *)
Lemma wrap_s32 v : wrap true 32 v = s32 (u32 v).
Proof. unfold wrap, s32, u32. cbn [andb]. destruct (Z.leb_spec (2 ^ (32 - 1)) (v mod 2 ^ 32)); Z.div_mod_to_equations; lia. Qed.
Lemma wrap_s8 v : wrap true 8 (v mod 2 ^ 32) = s8 (u32 v).
Proof. unfold wrap, s8, u32. cbn [andb]. change (2 ^ (8 - 1)) with 128. change (2 ^ 8) with 256. destruct (Z.leb_spec 128 (v mod 2 ^ 32 mod 256)); Z.div_mod_to_equations; lia. Qed.

Definition enc (a : option Z) : Z := default (-1) a.
Definition amount_ok (a : option Z) : Prop := match a with Some n => 0 <= n <= 2 ^ 30 | None => True end.

Lemma amount_ok_enc a : amount_ok a -> -1 <= enc a <= 2 ^ 30.
Proof. destruct a; cbn; lia. Qed.

Lemma numeral_pos fmt ds r : span_while decimal fmt = Some (ds, r) -> 0 <= numeral ds.
Proof. intros E%span_while_forall. by apply (numeral_ge ds E 0). Qed.

(** What [read_amount] finds, in the terms of the code's tests. *)
Lemma read_amount_cases fmt w r : Forall is_char fmt -> read_amount fmt = Some (w, r) ->
  exists c, head fmt = Some c /\
  match w with
  | Numeral n => isdigit c = true /\ 0 <= n /\ (n <= 2 ^ 30 -> skip_atoi fmt 0 = Some (n, r))
  | Star => isdigit c = false /\ (c =? ch "*") = true /\ r = tail fmt
  | Absent => isdigit c = false /\ (c =? ch "*") = false /\ r = fmt
  end.
Proof.
  intros Hf. unfold read_amount. destruct (span_while decimal fmt) as [[ds r0]|] eqn:Es; cbn [mbind option_bind]; [|done].
  destruct (span_while_app _ _ _ _ Es) as [E Hr0]. destruct fmt as [|c fmt]; [done|]. exists c. split; [done|].
  pose proof (isdigit_decimal c (Forall_inv Hf)) as Ei. destruct ds as [|d ds].
  - cbn [app] in E. subst r0. assert (decimal c = false) as Ec.
    { cbn [span_while] in Es. destruct (decimal c); [|done]. destruct (span_while decimal fmt) as [[??]|]; cbn in Es; congruence. }
    rewrite Ec in Ei. destruct (c =? ch "*") eqn:E0; injection H as <- <-; done.
  - injection H as <- <-. assert (decimal c = true) as Ec.
    { cbn [span_while] in Es. destruct (decimal c); [done|congruence]. }
    rewrite Ec in Ei. split; [done|]. split; [by eapply numeral_pos|]. intros Hv. by apply (skip_atoi_read (c :: fmt) Hf (d :: ds) r0 0 Es).
Qed.

Lemma get_width_read fmt w r fs wo fs' args args' fl : Forall is_char fmt -> read_amount fmt = Some (w, r) ->
  eval_width w fs args = Some (wo, fs', args') -> small_amount wo = true -> means fl fs false false ->
  exists fl', get_width fmt args fl = Some (enc wo, fl', r, args') /\ means fl' fs' false false /\ amount_ok wo.
Proof.
  intros Hf Hr He Hs Hm. destruct (read_amount_cases _ _ _ Hf Hr) as (c & Ec & Hw). unfold get_width. rewrite Ec. cbn [mbind option_bind].
  unfold small_amount in Hs. apply Z.leb_le in Hs. destruct w as [|n|]; cbn [eval_width] in He.
  - destruct Hw as (-> & -> & ->). injection He as <- <- <-. by exists fl.
  - destruct Hw as (-> & Hn & Ha). injection He as <- <- <-. cbn [from_option id] in Hs. rewrite Ha by done. cbn [mbind option_bind]. by exists fl.
  - destruct Hw as (-> & -> & ->). destruct args as [|[x|q] args0]; cbn [read_int mbind option_bind] in He; [done| |done].
    injection He as <- <- <-. cbn [va_word mbind option_bind]. rewrite wrap_s32 in *. cbn [from_option id] in Hs. change (u32 (u32 x)) with (u32 x mod 2 ^ 32).
    set (v := s32 (u32 x)) in *. destruct (Z.ltb_spec v 0).
    + exists (Z.lor fl LEFT). rewrite s32_small by lia. unfold enc. cbn [from_option id]. rewrite Z.abs_neq in * by lia.
      split; [done|]. split; [apply means_set; auto|cbn; lia].
    + exists fl. unfold enc. cbn [from_option id]. rewrite Z.abs_eq in * by lia. split; [done|]. split; [done|cbn; lia].
Qed.

Lemma get_precision_read fmt p r po args args' : Forall is_char fmt -> read_precision fmt = Some (p, r) ->
  eval_precision p args = Some (po, args') -> small_amount po = true ->
  get_precision fmt args = Some (enc po, r, args') /\ amount_ok po.
Proof.
  intros Hf. unfold read_precision, get_precision. destruct fmt as [|c fmt]; [done|]. cbn [head mbind option_bind tail].
  destruct (c =? ch "."); [|by intros [= <- <-] [= <- <-] _].
  destruct (read_amount fmt) as [[w r0]|] eqn:Er; cbn [mbind option_bind]; [|done]. intros [= <- <-] He Hs.
  apply Forall_inv_tail in Hf. destruct (read_amount_cases _ _ _ Hf Er) as (d & Ed & Hw). rewrite Ed. cbn [mbind option_bind].
  unfold small_amount in Hs. apply Z.leb_le in Hs. destruct w as [|n|]; cbn [eval_precision] in He.
  - destruct Hw as (-> & -> & ->). by injection He as <- <-.
  - destruct Hw as (-> & Hn & Ha). injection He as <- <-. cbn [from_option id] in Hs. rewrite Ha by done. cbn [mbind option_bind]. destruct (Z.ltb_spec n 0); [lia|]. done.
  - destruct Hw as (-> & -> & ->). destruct args as [|[x|q] args0]; cbn [read_int mbind option_bind] in He; [done| |done].
    injection He as <- <-. cbn [va_word mbind option_bind]. rewrite wrap_s32 in *. cbn [from_option id] in Hs. set (v := s32 (u32 x)) in *. unfold enc. cbn [from_option id amount_ok].
    destruct (Z.ltb_spec v 0); (split; [by rewrite ?Z.max_l, ?Z.max_r by lia|lia]).
Qed.

Definition letter (md : modifier) : Z :=
  match md with NoMod => -1 | Short => ch "h" | Long => ch "l" | LongLong => ch "L" | SizeT => ch "Z" end.

Lemma get_qualifier_read fmt md c r : read_modifier fmt = (md, r) -> head r = Some c -> get_qualifier fmt = Some (letter md, r).
Proof.
  unfold read_modifier, read_letter, get_qualifier. destruct fmt as [|a fmt]; [by intros [= <- <-]|]. cbn [head mbind option_bind tail].
  assert (Hq : forall md' f, match f with c :: r => if c =? ch "q" then (LongLong, r) else (md', c :: r) | [] => (md', []) end = (md, r) ->
    head r = Some c -> (c ← head f; if c =? ch "q" then Some (ch "L", tail f) else Some (letter md', f)) = Some (letter md, r)).
  { intros md' [|x f] H Hh; [by injection H as <- <-|]. cbn [head tail mbind option_bind]. by destruct (x =? ch "q"); injection H as <- <-. }
  destruct (Z.eqb_spec a (ch "h")) as [->|Hh]; [|destruct (Z.eqb_spec a (ch "l")) as [->|Hl]; [|destruct (Z.eqb_spec a (ch "L")) as [->|HL]; [|destruct (Z.eqb_spec a (ch "Z")) as [->|HZ]]]];
    cbn [orb andb]; intros H Hr.
  - destruct fmt as [|b fmt]; [by injection H as <- <-|]. change (ch "h" =? ch "l") with false. cbn [head mbind option_bind andb]. exact (Hq Short (b :: fmt) H Hr).
  - destruct fmt as [|b fmt]; [by injection H as <- <-|]. change (ch "l" =? ch "l") with true. cbn [head mbind option_bind andb tail].
    destruct (b =? ch "l"); [exact (Hq LongLong _ H Hr)|exact (Hq Long (b :: fmt) H Hr)].
  - destruct fmt as [|b fmt]; [by injection H as <- <-|]. change (ch "L" =? ch "l") with false. cbn [head mbind option_bind andb]. exact (Hq LongLong (b :: fmt) H Hr).
  - destruct fmt as [|b fmt]; [by injection H as <- <-|]. change (ch "Z" =? ch "l") with false. cbn [head mbind option_bind andb]. exact (Hq SizeT (b :: fmt) H Hr).
  - cbn [mbind option_bind]. exact (Hq NoMod (a :: fmt) H Hr).
Qed.

(** The number the code has for an argument. *)
Lemma int_arg_read md fl fs signed upper args v args' : means fl fs signed upper -> read_int md signed args = Some (v, args') ->
  exists num, int_arg (letter md) fl args = Some (num, args') /\
    (if signed then s64 num = v else u64 (s64 num) = v) /\ (signed = false -> 0 <= v).
Proof.
  intros (_ & _ & _ & _ & _ & Hsg & _). unfold int_arg. rewrite Hsg.
  destruct md, args as [|[x|q] args0]; try done; cbn [read_int]; intros [= <- <-];
    (eexists; split; [reflexivity|]); unfold wrap; destruct signed; cbn [andb];
    repeat match goal with |- context [letter ?a =? ?b] => let t := eval vm_compute in (letter a =? b) in change (letter a =? b) with t; cbn iota end;
    unfold s64, u64, u32, s32, s16, u16;
    match goal with |- context [?a <=? ?b] => destruct (Z.leb_spec a b) | _ => idtac end; split; try done; intros; Z.div_mod_to_equations; lia.
Qed.

(** ** The text of a number *)
Lemma digit_of_char upper d : 0 <= d < 36 -> digit_char upper d = digit_of upper d.
Proof.
  intros Hd. assert (H : forallb (fun n => (digit_char true (Z.of_nat n) =? digit_of true (Z.of_nat n)) && (digit_char false (Z.of_nat n) =? digit_of false (Z.of_nat n))) (seq 0 36) = true) by (vm_compute; reflexivity).
  rewrite forallb_forall in H. specialize (H (Z.to_nat d) ltac:(apply in_seq; lia)). rewrite Z2Nat.id in H by lia.
  apply andb_true_iff in H as [H1%Z.eqb_eq H2%Z.eqb_eq]. by destruct upper.
Qed.

Lemma digits_of_num type base n : 2 <= base <= 36 -> num_digits type base n = digits_of (flag type LARGE) base n.
Proof.
  intros Hb. unfold num_digits, digits_of. destruct (n =? 0); [done|]. f_equal. apply list_fmap_ext. intros i d Hd.
  apply list_elem_of_lookup_2, rdigits_range in Hd; [|lia]. apply digit_of_char. lia.
Qed.

Lemma num_text_int fl fs w p signed upper base num v :
  means fl fs signed upper -> base = 8 \/ base = 10 \/ base = 16 -> - 2 ^ 63 <= num < 2 ^ 63 ->
  (if signed then num = v else u64 num = v) ->
  num_text num base (enc w) (enc p) fl = text_int fs w p signed upper base v.
Proof.
  intros (H1 & H2 & H3 & H4 & H5 & H6 & H7) Hb Hn Hv. unfold num_text, text_int. rewrite digits_of_num by lia.
  assert (num_value fl num = Z.abs v) as ->.
  { unfold num_value. rewrite H6. destruct signed; [by subst|]. subst v. rewrite Z.abs_eq; [done|]. unfold u64. apply Z.mod_pos_bound. lia. }
  assert (num_sign fl num = sign_of fs signed v) as ->.
  { unfold num_sign, sign_of. rewrite H2, H3, H6. destruct signed; [by subst|done]. }
  assert (num_prefix fl base = base_prefix fs upper base) as ->.
  { unfold num_prefix, base_prefix. rewrite H4, H7. destruct (has fs "#"); [|done]. by destruct Hb as [->|[->| ->]]; destruct upper. }
  rewrite H1, H5, H7. assert (forall a, Z.to_nat (enc a) = field_size a) as He by (by intros []). by rewrite !He.
Qed.
End PrintfRef.
