(* ===== verification/PrintfFmt.v ===== *)
(** * [vsnprintf] writes the rendering of its format

    With [PrintfRef.render] as the reference: the chars that fit are stored, the
    text is terminated, [%n] stores the length so far, and the length of the
    whole text is returned. *)

From Stdlib Require Import ZArith Lia Ascii String.
From stdpp Require Import base list gmap option.
From S2P Require Import Prelude KString Math MathSpec Printf PrintfSpec PrintfRef.
Import KString Math MathSpec Printf PrintfSpec PrintfRef.

Module PrintfFmt.
Local Open Scope Z_scope.

(** ** Strings in memory *)
Definition str_at (cs : gmap Z Z) (a : Z) (s : list Z) : Prop :=
  0 ∉ s /\ forall i c, (s ++ [0]) !! i = Some c -> cs !! (a + Z.of_nat i) = Some c.

Definition src_str (m : pmem) (x : src) (s : list Z) : Prop :=
  0 ∉ s /\ forall i c, (s ++ [0]) !! i = Some c -> src_char m x i = Some c.

Lemma strnlen_src_spec m x s : src_str m x s -> forall fuel i count,
  (i <= length s)%nat -> 0 <= count -> (length s - i < fuel)%nat ->
  strnlen_src fuel m x i count = Some (Nat.min (length s) (i + Z.to_nat count)).
Proof.
  intros [H0 Hs] fuel. induction fuel as [|fuel IH]; intros i count Hi Hc Hf; [lia|].
  cbn [strnlen_src]. destruct (Z.eqb_spec count 0) as [->|Hne]; [f_equal; lia|].
  destruct (decide (i = length s)) as [->|Hlt].
  - rewrite (Hs (length s) 0) by (by rewrite lookup_app_r, Nat.sub_diag by lia). cbn [mbind option_bind]. change (0 =? 0) with true. f_equal. lia.
  - destruct (lookup_lt_is_Some_2 s i) as [c Hci]; [lia|].
    rewrite (Hs i c) by (by apply lookup_app_l_Some). cbn [mbind option_bind].
    destruct (Z.eqb_spec c 0) as [->|_]; [by apply list_elem_of_lookup_2 in Hci|].
    rewrite IH by lia. f_equal. lia.
Qed.

(** A block of memory counts in its size. *)
Lemma mapped_size cs a n : mapped cs a (Z.of_nat n) -> (n <= size cs)%nat.
Proof.
  intros Hm. set (keys := (fun i => a + Z.of_nat i) <$> seq 0 n).
  assert (Hnd : NoDup keys) by (apply NoDup_fmap_2; [intros ?? ?; lia|apply NoDup_seq]).
  assert (Hsub : (list_to_set keys : gset Z) ⊆ dom cs).
  { intros p Hp. apply elem_of_list_to_set, list_elem_of_fmap in Hp as (i & -> & Hi).
    apply elem_of_seq in Hi. apply elem_of_dom, Hm. lia. }
  apply subseteq_size in Hsub. rewrite size_list_to_set in Hsub by done. rewrite size_dom in Hsub.
  unfold keys in Hsub. rewrite length_fmap, length_seq in Hsub. lia.
Qed.

Lemma lookups_mapped (cs : gmap Z Z) a (l : list Z) :
  (forall i c, l !! i = Some c -> cs !! (a + Z.of_nat i) = Some c) -> mapped cs a (Z.of_nat (length l)).
Proof.
  intros Hl p Hp. destruct (lookup_lt_is_Some_2 l (Z.to_nat (p - a))) as [c Hc]; [lia|].
  exists c. rewrite <- (Hl _ _ Hc). f_equal. lia.
Qed.

Lemma str_at_size cs a s : str_at cs a s -> (length s < size cs)%nat.
Proof.
  intros [_ Hs]. apply lookups_mapped, mapped_size in Hs. rewrite length_app in Hs. cbn [length] in Hs. lia.
Qed.

(** ** The code emits the text *)
Section Output.
Context (cs : gmap Z Z) (buf : Z) (cap : nat) (strs : Z -> option (list Z)).
Context (Hbuf : 0 <= buf) (Hmap : mapped cs buf (Z.of_nat cap)).
Context (Hstrs : forall a s, strs a = Some s ->
  str_at cs a s /\ Z.of_nat (length s) < 2 ^ 31 /\ (a + Z.of_nat (length s) < buf \/ buf + Z.of_nat cap <= a)).

Let endp := buf + Z.of_nat cap - 1.
Let sh (ce : gmap Z Z) := shown (Mem cs ce) buf cap.
Let fits (l : list Z) : Prop := buf + Z.of_nat (length l) < 2 ^ 32.

Lemma fits_app l l' : fits (l ++ l') -> fits l.
Proof. unfold fits. rewrite length_app. lia. Qed.

Lemma emit_sh ce l l' : fits (l ++ l') -> emit_list endp l' (sh ce l) = Some (sh ce (l ++ l')).
Proof. intros. by apply emit_list_shown. Qed.

(** The buffer does not touch the strings. *)
Lemma sh_src ce a s l : strs a = Some s -> src_str (fst (sh ce l)) (At a) s.
Proof.
  intros Ha. destruct (Hstrs _ _ Ha) as ([H0 Hs] & _ & Hd). split; [done|].
  intros i c Hi. cbn [src_char]. unfold load, sh, shown. cbn [fst chars].
  pose proof (lookup_lt_Some _ _ _ Hi) as Hlt. rewrite length_app in Hlt. cbn [length] in Hlt.
  pose proof (length_take_le l cap) as Htk. rewrite put_chars_out; [by apply Hs|].
  rewrite length_take. lia.
Qed.

Lemma sh_size ce l : size (chars (fst (sh ce l))) = size cs.
Proof.
  unfold sh, shown. cbn [fst chars]. apply put_chars_size. intros p Hp. apply Hmap.
  rewrite length_take in Hp. lia.
Qed.

Lemma copy_src_run ce x s k : (forall l, src_str (fst (sh ce l)) x s) -> forall i l,
  (i + k <= length s)%nat -> fits (l ++ take k (drop i s)) ->
  copy_src endp x i k (sh ce l) = Some (sh ce (l ++ take k (drop i s))).
Proof.
  intros Hx. induction k as [|k IH]; intros i l Hi Hf; [by rewrite app_nil_r|].
  destruct (lookup_lt_is_Some_2 s i) as [c Hc]; [lia|].
  rewrite (drop_S s c i Hc) in *. cbn [take firstn] in *.
  change (firstn k (drop (S i) s)) with (take k (drop (S i) s)) in *.
  replace (l ++ c :: take k (drop (S i) s)) with ((l ++ [c]) ++ take k (drop (S i) s)) in * by (by rewrite <- app_assoc).
  cbn [copy_src].
  assert (Ec : exists d, (if snd (sh ce l) <=? endp then src_char (fst (sh ce l)) x i else Some 0) = Some d /\ sh ce (l ++ [d]) = sh ce (l ++ [c])).
  { destruct (Z.leb_spec (snd (sh ce l)) endp) as [Hle|Hgt].
    - exists c. split; [|done]. apply (proj2 (Hx l)). by apply lookup_app_l_Some.
    - exists 0. split; [done|]. unfold sh, shown in *. cbn [snd] in Hgt. unfold endp in Hgt.
      rewrite !take_app_le, !length_app by lia. done. }
  destruct Ec as (d & -> & Ed). cbn [mbind option_bind].
  rewrite emit_one, emit_sh, Ed; [|apply fits_app in Hf; unfold fits in *; rewrite length_app in *; done].
  cbn [mbind option_bind]. apply IH; [lia|done].
Qed.

(** [emit_sh] for the next piece of the text. *)
Ltac emit_run :=
  rewrite ?emit_n_list, ?emit_one;
  rewrite emit_sh by (unfold fits in *; rewrite ?length_app in *; cbn [length] in *; lia);
  cbn [mbind option_bind].

Lemma field_left w n : (field_size w - n)%nat = Z.to_nat (enc w - Z.of_nat n).
Proof. unfold field_size, enc. destruct w; cbn [from_option id]; lia. Qed.

Lemma conv_c_run ce l fs fl w args v args' :
  amount_ok w -> flag fl LEFT = has fs "-" -> word_arg args = Some (v, args') -> fits (l ++ justify fs w [wrap true 8 v]) ->
  conv_c endp (sh ce l) fl (enc w) args = Some (sh ce (l ++ justify fs w [wrap true 8 v]), args').
Proof.
  intros Hw Hl Ea. destruct args as [|[x|q] args0]; [done| |done]. injection Ea as <- <-. rewrite wrap_s8.
  pose proof (amount_ok_enc w Hw). unfold conv_c, justify, blanks. rewrite Hl. cbn [length].
  rewrite field_left. change (Z.of_nat 1) with 1.
  destruct (has fs "-"); cbn [negb mbind option_bind va_word]; intros Hf.
  - rewrite app_assoc in Hf |- *. emit_run. emit_run. done.
  - rewrite app_assoc in Hf |- *. emit_run. emit_run.
    rewrite s32_small by lia. replace (Z.to_nat (Z.min (enc w - 1) 0 - 1)) with O by lia. done.
Qed.

Lemma str_arg_src ce a s l : str_arg strs a = Some s ->
  src_str (fst (sh ce l)) (if a =? 0 then Lit (codes "<NULL>" ++ [0]) else At a) s.
Proof.
  unfold str_arg. destruct (Z.eqb_spec a 0) as [->|]; [|apply sh_src].
  intros [= <-]. split; [|done]. intros H. by repeat (apply elem_of_cons in H as [H|H]; [done|]); apply elem_of_nil in H.
Qed.

Lemma str_arg_length ce a s l : str_arg strs a = Some s ->
  Z.of_nat (length s) < 2 ^ 31 /\ (length s < 7 + size (chars (fst (sh ce l))))%nat.
Proof.
  unfold str_arg. destruct (a =? 0); [by intros [= <-]; cbn; lia|]. intros Ha.
  destruct (Hstrs _ _ Ha) as (Hs & Hl & _). apply str_at_size in Hs. rewrite sh_size. lia.
Qed.

(** The length [strnlen] finds with the precision is that of the cut string. *)
Lemma cut_length p s : amount_ok p -> Z.of_nat (length s) < 2 ^ 31 ->
  let len := Nat.min (length s) (0 + Z.to_nat (u32 (enc p))) in len = length (cut p s) /\ take len (drop 0 s) = cut p s.
Proof.
  intros Hp Hl. rewrite drop_0. unfold enc. destruct p as [n|]; cbn [from_option id cut amount_ok] in *.
  - rewrite u32_small by lia. cbv zeta. rewrite length_take. split; [lia|].
    destruct (Nat.le_ge_cases (length s) (Z.to_nat n)); [rewrite !take_ge by lia; done|]. by rewrite Nat.min_r by lia.
  - change (u32 (-1)) with (2 ^ 32 - 1). rewrite Nat.min_l by lia. split; [done|]. by apply take_ge.
Qed.

Lemma conv_s_run ce l fs fl w p args a args' s :
  amount_ok w -> amount_ok p -> flag fl LEFT = has fs "-" -> word_arg args = Some (a, args') ->
  str_arg strs a = Some s -> fits (l ++ justify fs w (cut p s)) ->
  conv_s endp (sh ce l) fl (enc w) (enc p) args = Some (sh ce (l ++ justify fs w (cut p s)), args').
Proof.
  intros Hw Hp Hleft Ea Es. destruct args as [|[y|q] args0]; [done| |done]. injection Ea as <- <-.
  change (y mod 2 ^ 32) with (u32 y) in *. set (a := u32 y) in *.
  unfold conv_s, justify, blanks. rewrite Hleft. cbn [va_word mbind option_bind]. fold a.
  destruct (str_arg_length ce a s l Es) as [Hl1 Hl2]. pose proof (amount_ok_enc w Hw) as Hwr.
  set (x := if a =? 0 then _ else _). pose proof (fun l0 => str_arg_src ce a s l0 Es) as Hx. fold x in Hx.
  rewrite (strnlen_src_spec _ x s (Hx l)) by (try (pose proof (u32_range (enc p))); lia). cbn [mbind option_bind].
  destruct (cut_length p s Hp Hl1) as [El Et]. set (len := Nat.min (length s) _) in *. set (t := cut p s) in *.
  assert (Hsp : Z.to_nat (enc w - Z.of_nat len) = (field_size w - length t)%nat) by (rewrite field_left, El; done).
  assert (Hlt : (length t <= length s)%nat) by (unfold t; destruct p; cbn [cut]; rewrite ?length_take; lia).
  destruct (has fs "-"); cbn [negb mbind option_bind]; intros Hf.
  - rewrite (copy_src_run ce x s len Hx); rewrite ?Et; [|lia|rewrite app_assoc in Hf; by apply fits_app in Hf].
    cbn [mbind option_bind]. rewrite Hsp. rewrite app_assoc in Hf |- *. emit_run. done.
  - rewrite Hsp. rewrite app_assoc in Hf |- *. emit_run.
    rewrite (copy_src_run ce x s len Hx); rewrite ?Et; [|lia|done]. cbn [mbind option_bind].
    rewrite s32_small by lia.
    replace (Z.to_nat (Z.min (enc w) (Z.of_nat len) - 1 - Z.of_nat len)) with O by lia. done.
Qed.

Lemma number_sh ce l fs fl w p signed upper base num v :
  means fl fs signed upper -> base = 8 \/ base = 10 \/ base = 16 -> - 2 ^ 63 <= num < 2 ^ 63 ->
  (if signed then num = v else u64 num = v) -> amount_ok w -> amount_ok p ->
  fits (l ++ text_int fs w p signed upper base v) ->
  number endp (sh ce l) num base (enc w) (enc p) fl = Some (sh ce (l ++ text_int fs w p signed upper base v)).
Proof.
  intros Hm Hb Hn Hv Hw Hp Hf. apply amount_ok_enc in Hw, Hp. rewrite number_run by (done || lia).
  rewrite (num_text_int fl fs w p signed upper base num v) by done. by apply emit_sh.
Qed.

Lemma conv_p_run ce l fs fl w p args v args' t :
  means fl fs false false -> amount_ok w -> amount_ok p -> word_arg args = Some (v, args') ->
  t = match w with
      | None => text_int (ch "0" :: fs) (Some 8) p false false 16 v
      | Some _ => text_int fs w p false false 16 v
      end -> fits (l ++ t) ->
  conv_p endp (sh ce l) fl (enc w) (enc p) args = Some (sh ce (l ++ t), args').
Proof.
  intros Hm Hw Hp Ea -> Hf. destruct args as [|[y|q] args0]; [done| |done]. injection Ea as <- <-.
  change (y mod 2 ^ 32) with (u32 y) in *. pose proof (u32_range y) as Hy.
  assert (u64 (u32 y) = u32 y) as Ey by (unfold u64; apply Z.mod_small; lia).
  unfold conv_p. destruct w as [n|].
  - assert ((enc (Some n) =? -1) = false) as -> by (apply Z.eqb_neq; cbn in *; lia). cbn [va_word mbind option_bind].
    rewrite (number_sh ce l fs fl (Some n) p false false 16 (u32 y) (u32 y)) by (done || lia). done.
  - change (enc None =? -1) with true. cbn iota. cbn [va_word mbind option_bind]. change 8 with (enc (Some 8)).
    rewrite (number_sh ce l (ch "0" :: fs) (Z.lor fl ZEROPAD) (Some 8) p false false 16 (u32 y) (u32 y));
      try done; try lia. by apply means_set; auto 9.
Qed.

(** What the stores of [%n] leave. *)
Definition put_cells (ce : gmap Z Z) (ws : list (Z * Z)) : gmap Z Z := foldl (fun c w => <[w.1 := w.2]> c) ce ws.
Definition stores_in (ce : gmap Z Z) (ws : list (Z * Z)) : Prop := forall a n, (a, n) ∈ ws -> is_Some (ce !! a).

Lemma s64_range z : - 2 ^ 63 <= s64 z < 2 ^ 63.
Proof. unfold s64. Z.div_mod_to_equations. lia. Qed.

Lemma int_run ce l fs fl w p md signed upper base args (fmt : list Z) t ws args' :
  means fl fs signed upper -> base = 8 \/ base = 10 \/ base = 16 -> amount_ok w -> amount_ok p ->
  ('(v, args) ← read_int md signed args; Some (text_int fs w p signed upper base v, [], args)) = Some (t, ws, args') ->
  fits (l ++ t) ->
  ('(num, args) ← int_arg (letter md) fl args;
   st ← number endp (sh ce l) (s64 num) base (enc w) (enc p) fl;
   Some (st, tail fmt, args)) = Some (sh (put_cells ce ws) (l ++ t), tail fmt, args').
Proof.
  intros Hm Hb Hw Hp Hr Hf. destruct (read_int md signed args) as [[v args1]|] eqn:Er; cbn [mbind option_bind] in Hr; [|done].
  injection Hr as <- <- <-. destruct (int_arg_read md fl fs signed upper args v args1 Hm Er) as (num & -> & Hv & _).
  cbn [mbind option_bind]. rewrite (number_sh ce l fs fl w p signed upper base (s64 num) v) by (done || apply s64_range). done.
Qed.

Lemma convert_run ce l fs fl w p md c fmt args t ws args' :
  render_conv strs (length l) fs w p md c args = Some (t, ws, args') -> head fmt = Some c ->
  means fl fs false false -> amount_ok w -> amount_ok p -> stores_in ce ws -> fits (l ++ t) ->
  convert endp buf (sh ce l) fl (enc w) (enc p) (letter md) fmt args =
    Some (sh (put_cells ce ws) (l ++ t), if c =? 0 then fmt else tail fmt, args').
Proof.
  unfold render_conv, convert. intros Hr -> Hm Hw Hp Hst Hf. cbn [mbind option_bind]. destruct (negb _); [done|].
  pose proof Hm as (Hleft & _).
  destruct (Z.eqb_spec c (ch "c")) as [->|Hc].
  { replace (int_conv (ch "c")) with (@None (bool * bool * Z)) in Hr by reflexivity. change (ch "c" =? 0) with false.
    destruct (word_arg args) as [[v args1]|] eqn:Ea; cbn [mbind option_bind] in Hr; [|done]. injection Hr as <- <- <-.
    by rewrite (conv_c_run ce l fs fl w args v args1). }
  destruct (Z.eqb_spec c (ch "s")) as [->|Hs].
  { replace (int_conv (ch "s")) with (@None (bool * bool * Z)) in Hr by reflexivity. change (ch "s" =? 0) with false.
    destruct (word_arg args) as [[a args1]|] eqn:Ea; cbn [mbind option_bind] in Hr; [|done].
    destruct (str_arg strs a) as [s|] eqn:Es; cbn [mbind option_bind] in Hr; [|done]. injection Hr as <- <- <-.
    by rewrite (conv_s_run ce l fs fl w p args a args1 s). }
  destruct (Z.eqb_spec c (ch "p")) as [->|Hp'].
  { replace (int_conv (ch "p")) with (@None (bool * bool * Z)) in Hr by reflexivity. change (ch "p" =? 0) with false.
    destruct (word_arg args) as [[v args1]|] eqn:Ea; cbn [mbind option_bind] in Hr; [|done]. injection Hr as <- <- <-.
    by rewrite (conv_p_run ce l fs fl w p args v args1 _ Hm Hw Hp Ea eq_refl). }
  destruct (Z.eqb_spec c (ch "n")) as [->|Hn].
  { replace (int_conv (ch "n")) with (@None (bool * bool * Z)) in Hr by reflexivity. change (ch "n" =? 0) with false.
    destruct args as [|[y|q] args1]; cbn [word_arg mbind option_bind] in Hr; [done| |done]. injection Hr as <- <- <-.
    destruct (Hst _ _ (list_elem_of_here _ _)) as [d Hd]. unfold conv_n, sh, shown. cbn [va_word mbind option_bind].
    unfold store_cell. cbn [cells chars]. change (y mod 2 ^ 32) with (u32 y) in *. rewrite Hd. cbn [mbind option_bind].
    rewrite app_nil_r. unfold put_cells. cbn [foldl fst snd]. by replace (buf + Z.of_nat (length l) - buf) with (Z.of_nat (length l)) by lia. }
  destruct (Z.eqb_spec c (ch "%")) as [->|Hpc].
  { replace (int_conv (ch "%")) with (@None (bool * bool * Z)) in Hr by reflexivity. change (ch "%" =? 0) with false.
    injection Hr as <- <- <-. emit_run. done. }
  destruct (Z.eqb_spec c (ch "o")) as [->|Ho]; [change (ch "o" =? 0) with false; apply (int_run ce l fs fl w p md false false 8); auto|].
  destruct (Z.eqb_spec c (ch "X")) as [->|HX]; [change (ch "X" =? 0) with false; apply (int_run ce l fs (Z.lor fl LARGE) w p md false true 16); auto; by apply means_mode; auto|].
  destruct (Z.eqb_spec c (ch "x")) as [->|Hx]; [change (ch "x" =? 0) with false; apply (int_run ce l fs fl w p md false false 16); auto|].
  destruct (Z.eqb_spec c (ch "d")) as [->|Hd]; [change (ch "d" =? 0) with false; apply (int_run ce l fs (Z.lor fl SIGN) w p md true false 10); auto; by apply means_mode; auto|].
  destruct (Z.eqb_spec c (ch "i")) as [->|Hi]; [change (ch "i" =? 0) with false; apply (int_run ce l fs (Z.lor fl SIGN) w p md true false 10); auto; by apply means_mode; auto|].
  destruct (Z.eqb_spec c (ch "u")) as [->|Hu]; [change (ch "u" =? 0) with false; apply (int_run ce l fs fl w p md false false 10); auto|].
  assert (int_conv c = None) as Ec.
  { unfold int_conv, one_of. replace (codes "di") with [ch "d"; ch "i"] by reflexivity. cbn [existsb].
    by rewrite !(proj2 (Z.eqb_neq _ _)) by done. }
  rewrite Ec in Hr. cbn [orb]. destruct (c =? 0); injection Hr as <- <- <-; cbn [negb]; emit_run; [done|].
  emit_run. by rewrite <- app_assoc.
Qed.

Lemma Forall_suffix {A} (P : A -> Prop) l a r : l = a ++ r -> Forall P l -> Forall P r.
Proof. intros ->. by intros [_ H]%Forall_app. Qed.

(** The readers leave a suffix of the format. *)
Lemma read_amount_forall P fmt w r : Forall P fmt -> read_amount fmt = Some (w, r) -> Forall P r.
Proof.
  intros Hf. unfold read_amount. destruct (span_while decimal fmt) as [[ds r0]|] eqn:Es; cbn [mbind option_bind]; [|done].
  apply span_while_app in Es as [-> _]. apply Forall_app in Hf as [_ Hf].
  destruct ds; [destruct r0 as [|c r0]|]; [by intros [= _ <-]| |by intros [= _ <-]].
  pose proof (Forall_inv Hf) as Hc; apply Forall_inv_tail in Hf. destruct (c =? ch "*"); intros [= _ <-]; [done|by constructor].
Qed.

Lemma read_precision_forall P fmt p r : Forall P fmt -> read_precision fmt = Some (p, r) -> Forall P r.
Proof.
  intros Hf. unfold read_precision. destruct Hf as [|c fmt Hc Hf]; [done|]. cbn [head tail mbind option_bind].
  destruct (c =? ch "."); [|intros [= _ <-]; by constructor].
  destruct (read_amount fmt) as [[w r0]|] eqn:Er; cbn [mbind option_bind]; [|done]. intros [= _ <-]. by eapply read_amount_forall.
Qed.

Lemma read_modifier_forall P fmt md r : Forall P fmt -> read_modifier fmt = (md, r) -> Forall P r.
Proof.
  intros Hf. unfold read_modifier. assert (Forall P (read_letter fmt).2) as Hl.
  { unfold read_letter. destruct Hf as [|a fmt Ha Hf]; [done|]. destruct Hf as [|b fmt Hb Hf]; repeat case_match; cbn; auto. }
  destruct (read_letter fmt) as [md' [|c r']]; cbn [snd] in Hl; [by intros [= _ <-]|].
  pose proof (Forall_inv_tail Hl). destruct (c =? ch "q"); intros H'; by injection H' as _ <-.
Qed.

Lemma render_conv_small pos fs w p md c args r :
  render_conv strs pos fs w p md c args = Some r -> small_amount w = true /\ small_amount p = true.
Proof. unfold render_conv. destruct (small_amount w), (small_amount p); done. Qed.

Lemma directive_run ce l fmt args t ws fmt' args' : Forall is_char fmt ->
  render_directive strs (length l) fmt args = Some (t, ws, fmt', args') -> stores_in ce ws -> fits (l ++ t) ->
  directive endp buf (sh ce l) fmt args = Some (sh (put_cells ce ws) (l ++ t), fmt', args') /\ Forall is_char fmt'.
Proof.
  unfold render_directive, directive. intros Hc Hr Hst Hf.
  destruct (span_while is_flag fmt) as [[fs fmt1]|] eqn:E1; cbn [mbind option_bind] in Hr; [|done].
  destruct (get_flags_read fmt fs fmt1 0 [] E1) as (fl & -> & Hm); [by repeat split|]. cbn [mbind option_bind app] in *.
  assert (Hc1 : Forall is_char fmt1) by (apply span_while_app in E1 as [-> _]; by apply Forall_app in Hc as [_ ?]).
  destruct (read_amount fmt1) as [[w fmt2]|] eqn:E2; cbn [mbind option_bind] in Hr; [|done].
  pose proof (read_amount_forall _ _ _ _ Hc1 E2) as Hc2.
  destruct (read_precision fmt2) as [[p fmt3]|] eqn:E3; cbn [mbind option_bind] in Hr; [|done].
  pose proof (read_precision_forall _ _ _ _ Hc2 E3) as Hc3.
  destruct (read_modifier fmt3) as [md fmt4] eqn:E4. pose proof (read_modifier_forall _ _ _ _ Hc3 E4) as Hc4.
  destruct (head fmt4) as [c|] eqn:E5; cbn [mbind option_bind] in Hr; [|done].
  destruct (eval_width w fs args) as [[[wo fs'] args1]|] eqn:E6; cbn [mbind option_bind] in Hr; [|done].
  destruct (eval_precision p args1) as [[po args2]|] eqn:E7; cbn [mbind option_bind] in Hr; [|done].
  destruct (render_conv strs _ fs' wo po md c args2) as [[[t0 ws0] args3]|] eqn:E8; cbn [mbind option_bind] in Hr; [|done].
  injection Hr as <- <- <- <-. destruct (render_conv_small _ _ _ _ _ _ _ _ E8) as [Hsw Hsp].
  destruct (get_width_read fmt1 w fmt2 fs wo fs' args args1 fl Hc1 E2 E6 Hsw Hm) as (fl' & -> & Hm' & Hw). cbn [mbind option_bind].
  destruct (get_precision_read fmt2 p fmt3 po args1 args2 Hc2 E3 E7 Hsp) as [-> Hp]. cbn [mbind option_bind].
  rewrite (get_qualifier_read fmt3 md c fmt4 E4 E5). cbn [mbind option_bind]. split; [by apply (convert_run ce l fs')|].
  destruct (c =? 0); [done|]. destruct fmt4; [done|]. by apply Forall_inv_tail in Hc4.
Qed.

Lemma put_cells_app ce ws ws' : put_cells ce (ws ++ ws') = put_cells (put_cells ce ws) ws'.
Proof. apply foldl_app. Qed.

Lemma put_cells_in ce ws a : is_Some (ce !! a) -> is_Some (put_cells ce ws !! a).
Proof.
  revert ce. induction ws as [|[b n] ws IH]; intros ce H; [done|]. apply IH. cbn [fst snd].
  destruct (decide (a = b)) as [->|]; [rewrite lookup_insert_eq; eauto|by rewrite lookup_insert_ne].
Qed.

Lemma fmt_loop_run fuel : forall ce fmt args l t ws, Forall is_char fmt ->
  render_loop strs fuel (length l) fmt args = Some (t, ws) -> stores_in ce ws -> fits (l ++ t) ->
  fmt_loop fuel endp buf (sh ce l) fmt args = Some (sh (put_cells ce ws) (l ++ t)).
Proof.
  induction fuel as [|fuel IH]; intros ce fmt args l t ws Hc; [done|]. cbn [render_loop fmt_loop].
  destruct Hc as [|c fmt Hc0 Hc]; cbn [head tail mbind option_bind]; [done|].
  destruct (c =? 0); [intros [= <- <-] _ _; by rewrite app_nil_r|].
  destruct (c =? ch "%"); cbn [negb]; intros Hr Hst Hf.
  - destruct (render_directive strs (length l) fmt args) as [[[[t1 ws1] fmt1] args1]|] eqn:Ed; cbn [mbind option_bind] in Hr; [|done].
    rewrite <- length_app in Hr.
    destruct (render_loop strs fuel (length (l ++ t1)) fmt1 args1) as [[t2 ws2]|] eqn:El; cbn [mbind option_bind] in Hr; [|done].
    injection Hr as <- <-. rewrite app_assoc in Hf |- *.
    destruct (directive_run ce l fmt args t1 ws1 fmt1 args1 Hc Ed) as [-> Hc1];
      [intros a n Ha; eapply Hst, elem_of_app; eauto|by apply fits_app in Hf|]. cbn [mbind option_bind].
    rewrite put_cells_app. apply IH; try done. intros a n Ha. apply put_cells_in. eapply Hst, elem_of_app. eauto.
  - replace (S (length l)) with (length (l ++ [c])) in Hr by (rewrite length_app; cbn; lia).
    destruct (render_loop strs fuel (length (l ++ [c])) fmt args) as [[t2 ws2]|] eqn:El; cbn [mbind option_bind] in Hr; [|done].
    injection Hr as <- <-. replace (l ++ c :: t2) with ((l ++ [c]) ++ t2) in * by (by rewrite <- app_assoc).
    rewrite emit_one, emit_sh by (by apply fits_app in Hf). cbn [mbind option_bind]. by apply IH.
Qed.
End Output.

(** ** [vsnprintf] *)
Lemma sh_start m buf cap : shown m buf cap [] = (m, buf).
Proof. unfold shown. destruct m, cap; cbn; by rewrite Z.add_0_r. Qed.

(** What a call leaves in memory: the text cut to the buffer and its terminator. *)
Definition printed (m : pmem) (buf size : Z) (t : list Z) : pmem :=
  if size =? 0 then m
  else Mem (put_chars (chars m) buf (take (Z.to_nat size - 1) t ++ [0])) (cells m).

Lemma put_terminator m buf cap t :
  mapped (chars m) buf (Z.of_nat cap) -> (0 < cap)%nat ->
  store (fst (shown m buf cap t)) (buf + Z.of_nat (Nat.min (length t) (cap - 1))) 0
  = Some (printed m buf (Z.of_nat cap) t).
Proof.
  intros Hm Hc. unfold store, shown, printed. cbn [fst chars cells].
  destruct (put_chars_mapped (chars m) buf (take cap t) _ _ Hm (buf + Z.of_nat (Nat.min (length t) (cap - 1)))) as [d ->]; [lia|].
  destruct (Z.eqb_spec (Z.of_nat cap) 0); [lia|]. do 2 f_equal. rewrite Nat2Z.id, put_chars_app. cbn [put_chars].
  rewrite length_take. destruct (Nat.le_gt_cases cap (length t)) as [Hge|Hlt].
  - rewrite Nat.min_r, Nat.min_l by lia.
    destruct (lookup_lt_is_Some_2 t (cap - 1)) as [c Hct]; [lia|].
    replace (take cap t) with (take (cap - 1) t ++ [c]).
    2:{ rewrite <- take_S_r by done. f_equal. lia. }
    rewrite put_chars_app. cbn [put_chars]. rewrite length_take, Nat.min_l by lia. by rewrite insert_insert_eq.
  - rewrite !take_ge, Nat.min_l, Nat.min_r by lia. done.
Qed.

Lemma vsnprintf_run m buf size fmt args strs t ws :
  0 < buf -> 0 <= size -> buf + size <= 2 ^ 32 -> buf + Z.of_nat (length t) < 2 ^ 32 ->
  Z.of_nat (length t) < 2 ^ 31 -> mapped (chars m) buf size -> Forall is_char fmt ->
  (forall a s, strs a = Some s ->
    str_at (chars m) a s /\ Z.of_nat (length s) < 2 ^ 31 /\ (a + Z.of_nat (length s) < buf \/ buf + size <= a)) ->
  render strs fmt args = Some (t, ws) -> stores_in (cells m) ws ->
  vsnprintf m buf size fmt args = Some (printed (Mem (chars m) (put_cells (cells m) ws)) buf size t, Z.of_nat (length t)).
Proof.
  intros Hb Hs Hbs Ht Ht2 Hm Hfc Hst Hr Hws. unfold vsnprintf.
  rewrite (u32_small (buf + size - 1)), (u32_small (buf - 1)) by lia.
  destruct (Z.ltb_spec (buf + size - 1) (buf - 1)); [lia|].
  replace size with (Z.of_nat (Z.to_nat size)) in * by lia. set (cap := Z.to_nat size) in *.
  set (m0 := Mem (chars m) (put_cells (cells m) ws)).
  assert (Hl : fmt_loop (S (length fmt)) (buf + Z.of_nat cap - 1) buf (m, buf) fmt args = Some (shown m0 buf cap t)).
  { rewrite <- (sh_start m buf cap) at 1. destruct m as [cs ce].
    by apply (fmt_loop_run cs buf cap strs ltac:(lia) Hm Hst (S (length fmt)) ce fmt args [] t ws). }
  rewrite Hl. cbn [mbind option_bind]. destruct (shown m0 buf cap t) as [m1 str] eqn:Esh.
  assert (Estr : str = buf + Z.of_nat (length t)) by (unfold shown in Esh; congruence). subst str.
  assert (Es : (if buf + Z.of_nat (length t) <=? buf + Z.of_nat cap - 1 then store m1 (buf + Z.of_nat (length t)) 0
    else if 0 <? Z.of_nat cap then store m1 (buf + Z.of_nat cap - 1) 0 else Some m1)
    = Some (printed m0 buf (Z.of_nat cap) t)).
  { destruct (Z.ltb_spec 0 (Z.of_nat cap)) as [Hpos|Hz].
    - pose proof (put_terminator m0 buf cap t Hm ltac:(lia)) as Hput. rewrite Esh in Hput. cbn [fst] in Hput.
      destruct (Z.leb_spec (buf + Z.of_nat (length t)) (buf + Z.of_nat cap - 1)).
      + by rewrite Nat.min_l in Hput by lia.
      + rewrite Nat.min_r in Hput by lia. by replace (buf + Z.of_nat cap - 1) with (buf + Z.of_nat (cap - 1)) by lia.
    - assert (E0 : cap = O) by lia. rewrite E0 in *.
      destruct (Z.leb_spec (buf + Z.of_nat (length t)) (buf + Z.of_nat 0 - 1)); [lia|].
      unfold shown in Esh. cbn in Esh. by injection Esh as <-. }
  rewrite Es. cbn [mbind option_bind]. rewrite s32_small by lia. do 2 f_equal. lia.
Qed.

(** A format without [%n]. *)
Lemma vsnprintf_text m buf size fmt args strs t :
  0 < buf -> 0 <= size -> buf + size <= 2 ^ 32 -> buf + Z.of_nat (length t) < 2 ^ 32 ->
  Z.of_nat (length t) < 2 ^ 31 -> mapped (chars m) buf size -> Forall is_char fmt ->
  (forall a s, strs a = Some s ->
    str_at (chars m) a s /\ Z.of_nat (length s) < 2 ^ 31 /\ (a + Z.of_nat (length s) < buf \/ buf + size <= a)) ->
  render strs fmt args = Some (t, []) ->
  vsnprintf m buf size fmt args = Some (printed m buf size t, Z.of_nat (length t)).
Proof.
  intros. replace (printed m buf size t) with (printed (Mem (chars m) (put_cells (cells m) [])) buf size t) by (by destruct m).
  apply (vsnprintf_run m buf size fmt args strs t []); try done. by intros ? ? ?%elem_of_nil.
Qed.

(** C27: [vsnprintf] writes the text of its format, cut to the size of the buffer
    less one and terminated, and returns the length of the whole text; it stores
    the length so far for each [%n] and changes no other memory, with a size of 0
    none but for [%n].  The text is the one of [render], which has none where a
    width or precision exceeds 2^30 or an argument is missing. *)
Theorem vsnprintf_spec m buf size fmt args strs t ws :
  0 < buf -> 0 <= size -> buf + size <= 2 ^ 32 -> buf + Z.of_nat (length t) < 2 ^ 32 ->
  Z.of_nat (length t) < 2 ^ 31 -> mapped (chars m) buf size -> Forall is_char fmt ->
  (forall a s, strs a = Some s ->
    str_at (chars m) a s /\ Z.of_nat (length s) < 2 ^ 31 /\ (a + Z.of_nat (length s) < buf \/ buf + size <= a)) ->
  render strs fmt args = Some (t, ws) -> stores_in (cells m) ws ->
  exists m', vsnprintf m buf size fmt args = Some (m', Z.of_nat (length t)) /\ cells m' = put_cells (cells m) ws /\
    (forall p, p < buf \/ buf + size <= p -> chars m' !! p = chars m !! p) /\
    (0 < size -> forall i c, (take (Z.to_nat size - 1) t ++ [0]) !! i = Some c -> chars m' !! (buf + Z.of_nat i) = Some c).
Proof.
  intros Hb Hs Hbs Ht Ht2 Hm Hfc Hst Hr Hws. eexists.
  split; [by apply (vsnprintf_run m buf size fmt args strs t ws)|]. unfold printed.
  destruct (Z.eqb_spec size 0) as [->|Hne]; [split; [done|]; split; [done|lia]|]. split; [done|]. split.
  - intros p Hp. cbn [chars]. apply put_chars_out. rewrite length_app, length_take. cbn [length]. lia.
  - intros _ i c Hi. cbn [chars]. by apply put_chars_in.
Qed.
End PrintfFmt.
