(* ===== verification/PrintfScan.v ===== *)
(** * Printed numbers are read back

    [simple_strtoul] and [simple_strtoull] read the digits of a number in any
    base up to 16, and [sscanf] with [%d] stores the number that [snprintf] with
    [%d] has printed. *)

From Stdlib Require Import ZArith Lia Ascii String.
From stdpp Require Import base list gmap option.
From S2P Require Import Prelude KString Math MathSpec Printf PrintfSpec PrintfRef PrintfFmt.
Import KString Math MathSpec Printf PrintfSpec PrintfRef PrintfFmt.

Module PrintfScan.
Local Open Scope Z_scope.

(** The chars of [l] are at [a]. *)
Definition holds (m : pmem) (a : Z) (l : list Z) : Prop :=
  forall i c, l !! i = Some c -> chars m !! (a + Z.of_nat i) = Some c.

Lemma holds_cons m a c l : holds m a (c :: l) -> load m a = Some c /\ holds m (a + 1) l.
Proof.
  intros H. split.
  - unfold load. rewrite <- (H O c) by done. f_equal. lia.
  - intros i d Hi. rewrite <- (H (S i) d) by done. f_equal. lia.
Qed.

Lemma holds_size m a l : holds m a l -> (length l <= size (chars m))%nat.
Proof. intros H. by apply lookups_mapped, mapped_size in H. Qed.

(** ** Digits are what the character table says *)
Lemma digit_char_facts (large : bool) d : 0 <= d < 16 ->
  isxdigit (digit_char large d) = true /\ digit_value (digit_char large d) = d /\
  isspace (digit_char large d) = false /\ (digit_char large d =? 0) = false /\ (digit_char large d =? ch "-") = false.
Proof.
  intros Hd.
  assert (H : forallb (fun n => let c := digit_char large (Z.of_nat n) in
    isxdigit c && (digit_value c =? Z.of_nat n) && negb (isspace c) && negb (c =? 0) && negb (c =? ch "-")) (seq 0 16) = true)
    by (destruct large; vm_compute; done).
  rewrite forallb_forall in H. specialize (H (Z.to_nat d)). rewrite Z2Nat.id in H by lia.
  assert (Hin : In (Z.to_nat d) (seq 0 16)) by (apply in_seq; lia). specialize (H Hin). cbv beta zeta in H.
  rewrite !andb_true_iff, !negb_true_iff, Z.eqb_eq in H. tauto.
Qed.

Lemma digit_char_decimal (large : bool) d : 0 <= d < 10 -> isdigit (digit_char large d) = true.
Proof.
  intros Hd.
  assert (H : forallb (fun n => isdigit (digit_char large (Z.of_nat n))) (seq 0 10) = true) by (destruct large; vm_compute; done).
  rewrite forallb_forall in H. specialize (H (Z.to_nat d)). rewrite Z2Nat.id in H by lia. apply H, in_seq. lia.
Qed.

(** ** Reading digits *)
Lemma undigits_mono b ds : 2 <= b -> Forall (fun d => 0 <= d) ds -> forall x, 0 <= x ->
  x <= foldl (fun x d => x * b + d) x ds.
Proof.
  intros Hb Hds. induction Hds as [|d ds Hd Hds IH]; intros x Hx; [cbn; lia|].
  cbn [foldl]. specialize (IH (x * b + d)). nia.
Qed.

Section Read.
Context (wrap : Z -> Z) (W : Z) (Hwrap : forall x, 0 <= x < W -> wrap x = x) (HW : 16 <= W).
Context (m : pmem) (b : Z) (large : bool) (Hb : 2 <= b <= 16).

(** [c] ends a number. *)
Definition ends (c : Z) : Prop := isxdigit c = false.

Lemma strtou_loop_run ds c : ends c -> Forall (fun d => 0 <= d < b) ds -> forall fuel a x,
  0 <= x -> foldl (fun x d => x * b + d) x ds < W -> (length ds < fuel)%nat ->
  holds m a ((digit_char large <$> ds) ++ [c]) ->
  strtou_loop wrap fuel m a b x = Some (foldl (fun x d => x * b + d) x ds, a + Z.of_nat (length ds)).
Proof.
  intros Hc Hds. induction Hds as [|d ds Hd Hds IH]; intros fuel a x Hx Hlt Hf Hm;
    (destruct fuel as [|fuel]; [cbn [length] in Hf; lia|]); cbn [strtou_loop fmap list_fmap app foldl length] in *;
    apply holds_cons in Hm as [E Hm]; rewrite E; cbn [mbind option_bind].
  - rewrite Hc. cbn [andb]. by rewrite Z.add_0_r.
  - destruct (digit_char_facts large d) as (Ex & Ev & _); [lia|]. rewrite Ex, Ev. cbn [andb].
    assert (Hle : x * b + d <= foldl (fun x d => x * b + d) (x * b + d) ds).
    { apply undigits_mono; [lia| |nia]. eapply Forall_impl; [|exact Hds]. intros y Hy. cbn in Hy. lia. }
    rewrite (Hwrap d), (Hwrap (x * b + d)) by nia. destruct (Z.ltb_spec d b); [|lia].
    rewrite IH; [f_equal; f_equal; lia|nia|done|lia|done].
Qed.

Lemma strtou_run n fuel a c : ends c -> 0 <= n < W -> n < 2 ^ 64 ->
  (length (num_digits (if large then LARGE else 0) b n) < fuel)%nat ->
  holds m a (num_digits (if large then LARGE else 0) b n ++ [c]) ->
  strtou_loop wrap fuel m a b 0 = Some (n, a + Z.of_nat (length (num_digits (if large then LARGE else 0) b n))).
Proof.
  intros Hc Hn Hn64. unfold num_digits.
  assert (El : flag (if large then LARGE else 0) LARGE = large) by (by destruct large). rewrite El.
  destruct (Z.eqb_spec n 0) as [->|Hne]; intros Hf Hm.
  - apply (strtou_loop_run [0] c Hc); [repeat constructor; lia|lia|cbn; lia|done|]. by destruct large.
  - rewrite <- fmap_reverse in *. rewrite length_fmap in *.
    pose proof (rdigits_value 64 b n ltac:(lia) ltac:(lia)) as Hv. unfold undigits in Hv.
    rewrite (strtou_loop_run (reverse (rdigits 64 b n)) c Hc); rewrite ?Hv; try done; try lia.
    apply Forall_forall. intros d Hd. apply list_elem_of_In in Hd. rewrite elem_of_reverse in Hd. apply (rdigits_range 64 b n d); [lia|exact Hd].
Qed.
End Read.

Lemma strtoul_run m a b (large : bool) n c :
  2 <= b <= 16 -> 0 <= n < 2 ^ 32 -> isxdigit c = false ->
  holds m a (num_digits (if large then LARGE else 0) b n ++ [c]) ->
  simple_strtoul m a b = Some (n, a + Z.of_nat (length (num_digits (if large then LARGE else 0) b n))).
Proof.
  intros Hb Hn Hc Hm. unfold simple_strtoul, strtou. destruct (Z.eqb_spec b 0); [lia|]. cbn [mbind option_bind].
  pose proof (holds_size _ _ _ Hm) as Hs. rewrite length_app in Hs. cbn [length] in Hs.
  apply (strtou_run u32 (2 ^ 32) u32_small) with (c := c); try done; lia.
Qed.

(** [simple_strtoul] reads what [number] prints: the digits of a 32-bit number
    in a base up to 16, small or large, give the number and a pointer to the char
    after them. *)
Theorem strtoul_reads_digits m a b (large : bool) n c :
  2 <= b <= 16 -> 0 <= n < 2 ^ 32 -> isxdigit c = false ->
  holds m a (num_digits (if large then LARGE else 0) b n ++ [c]) ->
  simple_strtoul m a b = Some (n, a + Z.of_nat (length (num_digits (if large then LARGE else 0) b n))).
Proof. apply strtoul_run. Qed.

(** ** [%d] *)
Lemma num_digits_head type b n : 2 <= b <= 16 -> 0 <= n < 2 ^ 64 ->
  exists d l, num_digits type b n = digit_char (flag type LARGE) d :: l /\ 0 <= d < b.
Proof.
  intros Hb Hn. unfold num_digits. destruct (Z.eqb_spec n 0) as [->|Hne].
  { exists 0, []. split; [by destruct (flag type LARGE)|lia]. }
  rewrite <- fmap_reverse. destruct (reverse (rdigits 64 b n)) as [|d l] eqn:E.
  - apply (f_equal (undigits b)) in E. rewrite rdigits_value in E by lia. by cbn in E.
  - exists d, (digit_char (flag type LARGE) <$> l). split; [done|]. apply (rdigits_range 64 b n); [lia|].
    rewrite <- elem_of_reverse, E. left.
Qed.

Lemma rdigits_short b k : 2 <= b -> forall fuel n, 0 <= n < b ^ Z.of_nat k -> (length (rdigits fuel b n) <= k)%nat.
Proof.
  intros Hb. induction k as [|k IH]; intros fuel n Hn; (destruct fuel as [|fuel]; [cbn; lia|]); cbn [rdigits].
  - change (b ^ Z.of_nat 0) with 1 in Hn. assert (n = 0) as -> by lia. done.
  - destruct (n =? 0); cbn [length]; [lia|]. specialize (IH fuel (n / b)).
    rewrite Nat2Z.inj_succ, Z.pow_succ_r in Hn by lia.
    assert (0 <= n / b < b ^ Z.of_nat k) by (split; [apply Z.div_pos; lia|apply Z.div_lt_upper_bound; lia]).
    specialize (IH ltac:(done)). lia.
Qed.

(** The text of [%d]. *)
Definition dec_text (n : Z) : list Z := (if n <? 0 then [ch "-"] else []) ++ num_digits 0 10 (Z.abs n).

Lemma dec_text_length n : - 2 ^ 31 <= n < 2 ^ 31 -> (length (dec_text n) <= 11)%nat.
Proof.
  intros Hn. unfold dec_text. rewrite length_app.
  assert ((length (num_digits 0 10 (Z.abs n)) <= 10)%nat).
  { unfold num_digits. destruct (Z.abs n =? 0); [cbn; lia|]. rewrite length_reverse, length_fmap.
    apply rdigits_short; lia. }
  destruct (n <? 0); cbn [length]; lia.
Qed.

Lemma render_d strs n : - 2 ^ 31 <= n < 2 ^ 31 -> render strs (cfmt "%d") [Word n] = Some (dec_text n, []).
Proof.
  intros Hn. transitivity (Some (text_int [] None None true false 10 (wrap true 32 n) ++ [], @nil (Z * Z))); [reflexivity|].
  rewrite wrap_s32. replace (s32 (u32 n)) with n by (unfold s32, u32; Z.div_mod_to_equations; lia).
  rewrite app_nil_r. unfold text_int, dec_text. change (has [] "-") with false. change (has [] "0") with false.
  change (field_size None) with O. cbn [app replicate Nat.sub]. rewrite !Nat.sub_0_l. cbn [replicate app blanks].
  change (base_prefix [] false 10) with (@nil Z). rewrite app_nil_r. unfold sign_of. cbn [negb].
  change (has [] "+") with false. change (has [] " ") with false. rewrite (digits_of_num 0 10) by lia.
  change (flag 0 LARGE) with false. by destruct (n <? 0).
Qed.

(** Reading the text of [%d]. *)
Lemma strtol_run m a n c : - 2 ^ 31 <= n < 2 ^ 31 -> isxdigit c = false -> holds m a (dec_text n ++ [c]) ->
  simple_strtol m a 10 = Some (n, a + Z.of_nat (length (dec_text n))).
Proof.
  intros Hn Hc. unfold dec_text, simple_strtol. destruct (Z.ltb_spec n 0) as [Hneg|Hpos]; cbn [app]; intros Hm.
  - apply holds_cons in Hm as [E Hm]. rewrite E. cbn [mbind option_bind]. change (ch "-" =? ch "-") with true. cbn iota.
    rewrite (strtoul_run m (a + 1) 10 false (Z.abs n) c) by (done || lia). cbn [mbind option_bind length].
    rewrite s32_small by lia. f_equal. f_equal; lia.
  - destruct (num_digits_head 0 10 (Z.abs n)) as (d & l & Ed & Hd); [lia|lia|].
    pose proof Hm as Hm'. rewrite Ed in Hm'. apply holds_cons in Hm' as [E _]. rewrite E. cbn [mbind option_bind].
    destruct (digit_char_facts (flag 0 LARGE) d) as (_ & _ & _ & _ & ->); [lia|].
    rewrite (strtoul_run m a 10 false (Z.abs n) c) by (done || lia). cbn [mbind option_bind].
    rewrite s32_small by lia. f_equal. f_equal. lia.
Qed.

Lemma skip_while_none p fuel m a c : load m a = Some c -> p c = false -> skip_while p (S fuel) m a = Some a.
Proof. intros E Hp. cbn [skip_while]. rewrite E. cbn [mbind option_bind]. by rewrite Hp. Qed.

(** What [scan_integer] tests before it reads the number. *)
Lemma dec_text_start m a n c : - 2 ^ 31 <= n < 2 ^ 31 -> holds m a (dec_text n ++ [c]) ->
  exists c0 d, load m a = Some c0 /\ isspace c0 = false /\ (c0 =? 0) = false /\
    (if true && (c0 =? ch "-") then load m (a + 1) else Some c0) = Some d /\ bad_digit 10 d = false.
Proof.
  intros Hn Hm. unfold dec_text in Hm. destruct (num_digits_head 0 10 (Z.abs n)) as (d & l & Ed & Hd); [lia|lia|].
  destruct (digit_char_facts (flag 0 LARGE) d) as (_ & _ & Hsp & H0 & Hm1); [lia|].
  assert (Hbad : bad_digit 10 (digit_char (flag 0 LARGE) d) = false).
  { unfold bad_digit. rewrite H0, digit_char_decimal by done. done. }
  rewrite Ed in Hm. destruct (n <? 0); cbn [app] in Hm; apply holds_cons in Hm as [E Hm].
  - apply holds_cons in Hm as [E1 _]. exists (ch "-"), (digit_char (flag 0 LARGE) d). done.
  - exists (digit_char (flag 0 LARGE) d), (digit_char (flag 0 LARGE) d). rewrite Hm1. done.
Qed.

Lemma sscanf_d m a p n c : 0 < a -> 0 <= p < 2 ^ 32 -> is_Some (cells m !! p) -> - 2 ^ 31 <= n < 2 ^ 31 ->
  isxdigit c = false -> holds m a (dec_text n ++ [c]) ->
  sscanf m a (cfmt "%d") [Word p] = Some (Mem (chars m) (<[p := n]> (cells m)), 1).
Proof.
  intros Ha Hp [x Hx] Hn Hc Hm.
  destruct (dec_text_start m a n c Hn Hm) as (c0 & d & E0 & Hsp & Hz & Ed & Hbad).
  unfold sscanf, vsscanf. change (cfmt "%d") with [ch "%"; ch "d"; 0]. cbn [length scan_loop head mbind option_bind].
  change (ch "%" =? 0) with false. cbn iota. rewrite E0. cbn [mbind option_bind orb]. rewrite Hz.
  change (isspace (ch "%")) with false. change (negb (ch "%" =? ch "%")) with false.
  cbn [head tail mbind option_bind andb]. cbn iota.
  assert (Es : scan_directive m a a 0 [ch "d"; 0] [Word p] = scan_integer m a 0 10 (-1) true [0] [Word p]).
  { unfold scan_directive. cbn [head mbind option_bind]. change (ch "d" =? ch "*") with false. change (isdigit (ch "d")) with false.
    cbn iota. cbn [mbind option_bind]. change (scan_qualifier [ch "d"; 0]) with (Some (-1, [ch "d"; 0])). cbn [mbind option_bind head].
    change (ch "d" =? 0) with false. cbn iota. rewrite E0. cbn [mbind option_bind orb]. rewrite Hz. done. }
  change (ch "%" =? 0) with false. cbn iota. rewrite Es.
  unfold scan_integer. rewrite (skip_while_none isspace (size (chars m)) m a c0 E0 Hsp). cbn [mbind option_bind].
  rewrite E0. cbn [mbind option_bind]. rewrite Ed. cbn [mbind option_bind]. rewrite Hbad.
  cbn [va_word mbind option_bind]. rewrite u32_small by done.
  change (scan_int m a 10 (-1) true) with (simple_strtol m a 10). rewrite (strtol_run m a n c) by done.
  cbn [mbind option_bind]. unfold store_cell. rewrite Hx. cbn [mbind option_bind].
  destruct (Z.eqb_spec (a + Z.of_nat (length (dec_text n))) 0); [lia|]. done.
Qed.

(** C28: Printing a number with [snprintf("%d")] into a buffer of at least 12 bytes
    and reading it back with [sscanf("%d")] stores the number: every [int]
    survives the round trip, the smallest included. *)
Theorem snprintf_sscanf m buf size p n :
  0 < buf -> 12 <= size -> buf + size <= 2 ^ 32 -> mapped (chars m) buf size ->
  0 <= p < 2 ^ 32 -> is_Some (cells m !! p) -> - 2 ^ 31 <= n < 2 ^ 31 ->
  exists m1 len m2, snprintf m buf size (cfmt "%d") [Word n] = Some (m1, len) /\
    sscanf m1 buf (cfmt "%d") [Word p] = Some (m2, 1) /\ cells m2 !! p = Some n.
Proof.
  intros Hb Hs Hbs Hm Hp Hx Hn. pose proof (dec_text_length n Hn) as Hl.
  exists (printed m buf size (dec_text n)), (Z.of_nat (length (dec_text n))),
    (Mem (chars (printed m buf size (dec_text n))) (<[p := n]> (cells (printed m buf size (dec_text n))))).
  assert (Hc : cells (printed m buf size (dec_text n)) = cells m) by (unfold printed; by destruct (size =? 0)).
  split; [|split; [|cbn [cells]; apply lookup_insert_eq]].
  - unfold snprintf. apply (vsnprintf_text m buf size _ _ (fun _ => None)); try done; try lia; [by repeat constructor|by apply render_d].
  - apply (sscanf_d _ _ _ _ 0); try done; [by rewrite Hc|].
    intros i c Hi. unfold printed. destruct (Z.eqb_spec size 0); [lia|]. cbn [chars].
    apply put_chars_in. rewrite take_ge by lia. done.
Qed.
End PrintfScan.
