(* ===== verification/PrintfDemo.v ===== *)
(** * Concrete calls of the formatting functions

    A buffer of twelve bytes at 100, a string at 300 and integer objects at 8 and
    16, on which the theorems are applied. *)

From Stdlib Require Import ZArith Lia Ascii String.
From stdpp Require Import base list gmap option.
From S2P Require Import Prelude KString Math Printf PrintfSpec PrintfRef PrintfFmt PrintfScan.
Import KString Math Printf PrintfSpec PrintfRef PrintfFmt PrintfScan.

Module PrintfDemo.
Local Open Scope Z_scope.

Definition demo_mem : pmem :=
  Mem (put_chars (put_chars ∅ 100 (replicate 12 (ch "#"))) 300 (cfmt "hi")) {[ 8 := 0; 16 := 0 ]}.

Definition demo_strs (a : Z) : option (list Z) := if a =? 300 then Some (codes "hi") else None.

Lemma put_mapped cs a l : mapped (put_chars cs a l) a (Z.of_nat (length l)).
Proof. apply lookups_mapped. intros i c Hi. by apply put_chars_in. Qed.

Lemma demo_mapped : mapped (chars demo_mem) 100 12.
Proof. apply (put_chars_mapped _ 300 _ 100 12). exact (put_mapped ∅ 100 (replicate 12 (ch "#"))). Qed.

Lemma demo_strs_ok a s : demo_strs a = Some s ->
  str_at (chars demo_mem) a s /\ Z.of_nat (length s) < 2 ^ 31 /\ (a + Z.of_nat (length s) < 100 \/ 100 + 12 <= a).
Proof.
  unfold demo_strs. destruct (Z.eqb_spec a 300) as [->|]; [|done]. intros [= <-]. split; [|cbn; lia]. split.
  - intros H. apply list_elem_of_In in H. cbn in H. unfold ch in H. cbn in H. lia.
  - intros i c Hi. apply (put_chars_in _ 300 (cfmt "hi")). exact Hi.
Qed.

Lemma vsnprintf_spec_witness : exists m',
  vsnprintf demo_mem 100 12 (cfmt "%s=%-*hd%n%#x;") [Word 300; Word 5; Word 65494; Word 8; Word 255] = Some (m', 13) /\
  cells m' = <[8 := 8]> (cells demo_mem) /\
  (forall p, p < 100 \/ 100 + 12 <= p -> chars m' !! p = chars demo_mem !! p) /\
  (0 < 12 -> forall i c, (take (Z.to_nat 12 - 1) (codes "hi=-42  0xff;") ++ [0]) !! i = Some c -> chars m' !! (100 + Z.of_nat i) = Some c).
Proof.
  apply (vsnprintf_spec demo_mem 100 12 (cfmt "%s=%-*hd%n%#x;") [Word 300; Word 5; Word 65494; Word 8; Word 255] demo_strs (codes "hi=-42  0xff;") [(8, 8)]);
    [lia|lia|lia|vm_compute; reflexivity|vm_compute; reflexivity|exact demo_mapped|by repeat constructor|exact demo_strs_ok|vm_compute; reflexivity|].
  intros a n [= -> ->]%list_elem_of_singleton. by exists 0.
Defined.

Lemma number_spec_witness :
  number 111 (demo_mem, 100) (-255) 16 8 4 (Z.lor SIGN ZEROPAD) = emit_list 111 (codes "-00000ff") (demo_mem, 100) /\
  undigits 16 (reverse (rdigits 64 16 255)) = 255.
Proof. apply (number_spec 111 (demo_mem, 100) (-255) 16 8 4 (Z.lor SIGN ZEROPAD)); lia. Defined.

Lemma strtoul_reads_digits_witness :
  simple_strtoul (Mem (put_chars ∅ 100 (cfmt "beef")) ∅) 100 16 = Some (48879, 104).
Proof.
  apply (strtoul_reads_digits (Mem (put_chars ∅ 100 (cfmt "beef")) ∅) 100 16 false 48879 0); [lia|lia|vm_compute; reflexivity|].
  intros i c Hi. apply (put_chars_in ∅ 100 (cfmt "beef")). rewrite <- Hi. vm_compute. reflexivity.
Defined.

Lemma snprintf_sscanf_witness : exists m1 len m2,
  snprintf demo_mem 100 12 (cfmt "%d") [Word (- 2 ^ 31)] = Some (m1, len) /\
  sscanf m1 100 (cfmt "%d") [Word 8] = Some (m2, 1) /\ cells m2 !! 8 = Some (- 2 ^ 31).
Proof.
  apply (snprintf_sscanf demo_mem 100 12 8 (- 2 ^ 31)); try lia; [exact demo_mapped|]. by exists 0.
Defined.
End PrintfDemo.
