(* ===== verification/Debug.v ===== *)
(** * Debugging modes ([util/debug.c], [include/util/debug.h])

    The set of active modes is a 64-bit word; the table gives modes their names and
    colours.  [dbg_add_modes] reads a list of names, [dbg_modes_info] writes one.
    Where the names of the table are in memory is a parameter.  What is printed has
    no counterpart except for the options a warning is printed for. *)

From Stdlib Require Import ZArith Lia Ascii String.
From stdpp Require Import base list gmap.
From S2P Require Import Prelude KString Math Printf.
Import KString Math Printf.

Module Debug.
Local Open Scope Z_scope.

Record dbg_mode := DbgMode { d_name : list Z; d_mode : Z; d_color : list Z }.

Definition DBG_MODE (x : Z) : Z := Z.shiftl 1 x.
Definition DBG_ALL : Z := 2 ^ 64 - 1.
Definition DBG_ERROR : Z := DBG_MODE 14.
Definition DBG_DEFAULT : Z := DBG_ERROR.

(** The escape sequences of the colours: [ESC], an attribute, a foreground. *)
Definition esc (s : string) : list Z := 27 :: codes s.
Arguments esc s%_string_scope.

Definition dbg_entry (name : string) (bit : Z) (color : string) : dbg_mode := DbgMode (codes name) (DBG_MODE bit) (esc color).
Arguments dbg_entry name%_string_scope bit%_Z_scope color%_string_scope.

(** [DBG_TAB] up to the entry with the name NULL. *)
Definition dbg_tab : list dbg_mode := [
  dbg_entry "error" 14 "[1;37;40m"; dbg_entry "temp" 5 "[0m"; dbg_entry "print" 24 "[0m"; dbg_entry "test" 30 "[31;40m";
  dbg_entry "testpass" 31 "[32;40m"; dbg_entry "testfail" 32 "[31;40m";
  dbg_entry "proc" 11 "[34;40m"; dbg_entry "thr" 23 "[36;40m"; dbg_entry "sched" 3 "[32;40m"; dbg_entry "init" 2 "[0m";
  dbg_entry "term" 9 "[1;35;40m"; dbg_entry "disk" 4 "[33;40m"; dbg_entry "memdev" 33 "[1;34;40m";
  dbg_entry "vfs" 20 "[37;40m"; dbg_entry "fref" 16 "[35;40m"; dbg_entry "vnref" 12 "[36;40m";
  dbg_entry "s5fs" 21 "[1;31;40m"; dbg_entry "pframe" 13 "[1;35;40m";
  dbg_entry "anon" 34 "[37;40m"; dbg_entry "vmmap" 35 "[1;32;40m"; dbg_entry "fork" 10 "[1;33;40m"; dbg_entry "brk" 18 "[33;40m";
  dbg_entry "exec" 19 "[1;31;40m"; dbg_entry "elf" 37 "[1;32;40m"; dbg_entry "pgtbl" 17 "[1;34;40m"; dbg_entry "osyscall" 25 "[1;35;40m";
  dbg_entry "vm" 28 "[31;40m"; dbg_entry "syscall" 15 "[31;40m";
  dbg_entry "intr" 8 "[1;31;40m"; dbg_entry "kmalloc" 6 "[35;40m"; dbg_entry "pagealloc" 7 "[37;40m"; dbg_entry "kb" 22 "[34;40m";
  dbg_entry "core" 0 "[32;40m"; dbg_entry "mm" 1 "[31;40m"; dbg_entry "user" 38 "[1;33;40m";
  DbgMode (codes "all") DBG_ALL (esc "[0m") ].

Record dbgst := Dbgst {
  dbg_modes : Z;
  dbg_savept : option (list Z);
  dbg_warned : list (list Z)
}.
Abbreviation D := (kern dbgst).

Definition set_modes (m : Z) (s : dbgst) : dbgst := Dbgst m (dbg_savept s) (dbg_warned s).
Definition set_savept (p : option (list Z)) (s : dbgst) : dbgst := Dbgst (dbg_modes s) p (dbg_warned s).
Definition warn (name : list Z) (s : dbgst) : dbgst := Dbgst (dbg_modes s) (dbg_savept s) (dbg_warned s ++ [name]).

(** ** Colours *)
Fixpoint color_loop (mode : Z) (tab : list dbg_mode) : D (list Z) :=
  match tab with
  | [] => panic
  | e :: tab => if negb (Z.land (d_mode e) mode =? 0) then ret (d_color e) else color_loop mode tab
  end.
Definition dbg_color (mode : Z) : D (list Z) := color_loop mode dbg_tab.

Definition dbg_active (mode : Z) : D bool := let* m := gets dbg_modes in ret (negb (Z.land m mode =? 0)).

(** ** Adding modes *)

(** The entry with the name, a C string. *)
Fixpoint find_mode (name : list Z) (tab : list dbg_mode) : option (option dbg_mode) :=
  match tab with
  | [] => Some None
  | e :: tab => v ← strcmp name (cstring (d_name e)); if v =? 0 then Some (Some e) else find_mode name tab
  end.

Definition dbg_add_mode (name : list Z) : D unit :=
  let* c := deref (head name) in
  let cancel := c =? ch "-" in
  let name := if cancel then tail name else name in
  let* r := deref (find_mode name dbg_tab) in
  match r with
  | None => modify (warn name)
  | Some e =>
      if cancel then modify (fun s => set_modes (Z.land (dbg_modes s) (Z.lnot (d_mode e))) s)
      else modify (fun s => set_modes (Z.lor (dbg_modes s) (d_mode e)) s)
  end.

(** [name = strtok(string, ",")]; a token is the text its pointer designates. *)
Definition next_name (string : option (list Z)) : D (option (list Z)) :=
  let* p := gets dbg_savept in
  let* r := deref (strtok p string (codes "," ++ [0])) in
  modify (set_savept (snd r)) ;;
  ret (fst r).

Fixpoint modes_loop (fuel : nat) (string : option (list Z)) : D unit :=
  match fuel with
  | O => blocked
  | S fuel =>
      let* name := next_name string in
      match name with
      | None => ret tt
      | Some t => dbg_add_mode (cstring t) ;; modes_loop fuel None
      end
  end.

(** [env0] is what the array holds before. *)
Definition dbg_add_modes (env0 modes : list Z) : D unit :=
  let* env := deref (strncpy env0 modes 256) in
  modes_loop (256 + 2) (Some env).

Definition dbg_init (env0 dbg_option : list Z) : D unit :=
  modify (set_modes DBG_DEFAULT) ;;
  dbg_add_modes env0 dbg_option.

(** ** Listing modes *)
Section Info.
(** The address of the name of each entry. *)
Context (name_at : dbg_mode -> Z).

Definition listed (modes : Z) (e : dbg_mode) : bool := negb (Z.land modes (d_mode e) =? 0) && negb (d_mode e =? DBG_ALL).

(** The memory, [buf] and [size] when the loop is left. *)
Fixpoint info_loop (modes : Z) (tab : list dbg_mode) (m : pmem) (buf size : Z) : option (pmem * Z * Z) :=
  match tab with
  | [] => Some (m, buf, size)
  | e :: tab =>
      if listed modes e then
        '(m, len) ← snprintf m buf size (codes "%s," ++ [0]) [Word (name_at e)];
        if s32 size <=? len then Some (m, buf, size)
        else info_loop modes tab m (buf + len) (u32 (size - len))
      else info_loop modes tab m buf size
  end.

(** The memory and the number returned; a size of 0 is refused by the [KASSERT]. *)
Definition dbg_modes_info (modes : Z) (m : pmem) (buf size : Z) : option (pmem * Z) :=
  if negb (0 <? size) then None else
  '(m, b, sz) ← info_loop modes dbg_tab m buf size;
  if sz =? size then m ← store m b 0; Some (m, 0)
  else m ← store m (b - 1) 0; Some (m, u32 (size - sz + 1)).
End Info.
End Debug.
