(* ===== verification/DebugSpec.v ===== *)
(** * Debugging modes: the list of names and the set of modes

    [dbg_add_modes] applies the options of a list one after the other;
    [dbg_modes_info] writes a list that sets the modes again. *)

From Stdlib Require Import ZArith Lia Ascii String.
From stdpp Require Import base list gmap.
From S2P Require Import Prelude KString Math Printf PrintfSpec PrintfRef PrintfFmt Debug.
Import KString Math Printf PrintfSpec PrintfRef PrintfFmt.

Module DebugSpec.
Import Debug.
Local Open Scope Z_scope.

(** ** Reading a list of options *)
Definition comma : Z := ch ",".
Definition entry_named (n : list Z) : option dbg_mode := head (filter (fun e => d_name e = n) dbg_tab).

(** The modes after one option. *)
Definition option_applied (m : Z) (t : list Z) : Z :=
  match t with
  | c :: n =>
      if c =? ch "-" then match entry_named n with Some e => Z.land m (Z.lnot (d_mode e)) | None => m end
      else match entry_named t with Some e => Z.lor m (d_mode e) | None => m end
  | [] => m
  end.

Definition word_ok (t : list Z) : Prop := Forall is_char t /\ 0 ∉ t.

Lemma names_ok : Forall (fun e => word_ok (d_name e)) dbg_tab.
Proof.
  unfold dbg_tab. repeat (apply Forall_cons; split; [split; [apply chars_of; vm_compute; reflexivity|apply no_nul; vm_compute; reflexivity]|]). apply Forall_nil_2.
Qed.

Lemma find_mode_spec n tab : word_ok n -> Forall (fun e => word_ok (d_name e)) tab ->
  find_mode (cstring n) tab = Some (head (filter (fun e => d_name e = n) tab)).
Proof.
  intros [Hc H0]. induction tab as [|e tab IH]; intros Ht; [done|]. apply Forall_cons in Ht as [[He He0] Ht]. cbn [find_mode].
  destruct (strcmp_zero n (d_name e) [] [] Hc He H0 He0) as (v & E & Hv). unfold cstring. rewrite E. cbn [mbind option_bind].
  rewrite filter_cons. destruct (Z.eqb_spec v 0) as [Ev|Ev].
  - rewrite decide_True by (symmetry; by apply Hv). done.
  - rewrite decide_False by (intros En; apply Ev, Hv; done). by apply IH.
Qed.

Lemma dbg_add_mode_run t s : word_ok t ->
  exists s', dbg_add_mode (cstring t) s = Done tt s' /\ dbg_modes s' = option_applied (dbg_modes s) t /\ dbg_savept s' = dbg_savept s.
Proof.
  intros Ht. assert (forall n, word_ok n -> find_mode (cstring n) dbg_tab = Some (entry_named n)) as Hf.
  { intros n Hn. by apply find_mode_spec, names_ok. }
  unfold dbg_add_mode. destruct t as [|c n].
  - cbn [cstring app head]. erewrite bind_done by reflexivity. cbn beta. change (0 =? ch "-") with false. cbn iota zeta.
    change [0] with (cstring []). rewrite Hf by done. by eexists.
  - cbn [cstring app head]. erewrite bind_done by reflexivity. cbn beta zeta. cbn [option_applied tail].
    assert (word_ok n) as Hn. { destruct Ht as [Hc H0]. apply Forall_cons in Hc as [_ Hc]. apply not_elem_of_cons in H0 as [_ H0]. done. }
    destruct (c =? ch "-").
    + change (n ++ [0]) with (cstring n). rewrite Hf by done. erewrite bind_done by reflexivity. cbn beta. destruct (entry_named n); by eexists.
    + change (c :: n ++ [0]) with (cstring (c :: n)). rewrite Hf by done. erewrite bind_done by reflexivity. cbn beta. destruct (entry_named (c :: n)); by eexists.
Qed.

Lemma modes_loop_run fuel : forall str toks s, strtok_all fuel (dbg_savept s) str (codes "," ++ [0]) = Some toks -> Forall word_ok toks ->
  exists s', modes_loop fuel str s = Done tt s' /\ dbg_modes s' = foldl option_applied (dbg_modes s) toks.
Proof.
  induction fuel as [|fuel IH]; intros str toks s E Ht; [done|]. cbn [strtok_all modes_loop] in *. unfold next_name. rewrite bind_assoc.
  erewrite bind_done by reflexivity. cbn beta. destruct (strtok _ _ _) as [[tok sv]|]; [|done]. cbn [mbind option_bind] in E.
  rewrite bind_assoc. erewrite bind_done by reflexivity. cbn beta. rewrite bind_assoc. erewrite bind_done by reflexivity. cbn beta.
  erewrite bind_done by reflexivity. cbn beta. cbn [fst snd]. destruct tok as [t|]; [|injection E as <-; by eexists].
  destruct (strtok_all fuel sv None _) as [ts|] eqn:Ets; [|done]. injection E as <-. apply Forall_cons in Ht as [Ht Hts].
  destruct (dbg_add_mode_run t (set_savept sv s) Ht) as (s1 & E1 & Em & Es). krun E1.
  destruct (IH None ts s1) as (s' & E' & Em'); [by rewrite Es|done|]. exists s'. split; [done|]. by rewrite Em', Em.
Qed.

Lemma strncpy_whole s r count : forall dest, 0 ∉ s -> (length s < count)%nat -> (count <= length dest)%nat ->
  strncpy dest (s ++ 0 :: r) count = Some (s ++ 0 :: drop (S (length s)) dest).
Proof.
  revert count. induction s as [|c s IH]; intros [|count] [|d dest] H0 Hl Hd; cbn in *; try lia; [done|].
  apply not_elem_of_cons in H0 as [Hc H0]. destruct (Z.eqb_spec c 0); [congruence|]. rewrite IH by (try done; lia). done.
Qed.

(** The fields of a text are words. *)
Lemma fields_ok seps s : forall cur, word_ok cur -> word_ok s -> Forall word_ok (fields seps cur s).
Proof.
  induction s as [|c s IH]; intros cur Hc [Hs H0]; cbn [fields].
  - destruct cur; [apply Forall_nil_2|by apply Forall_singleton].
  - apply Forall_cons in Hs as [Hcc Hs]. apply not_elem_of_cons in H0 as [Hc0 H0].
    assert (word_ok []) as He by (split; [apply Forall_nil_2|apply not_elem_of_nil]).
    case_bool_decide; [destruct cur; [by apply IH|apply Forall_cons; split; [done|by apply IH]]|].
    apply IH; [|done]. destruct Hc as [Hc1 Hc2]. split; [apply Forall_app; split; [done|by apply Forall_singleton]|].
    rewrite elem_of_app, list_elem_of_singleton. intros [?|?]; [done|congruence].
Qed.

(** [dbg_add_modes] applies the options between the commas, from left to right, to
    the modes, when the list fits into its buffer. *)
Lemma dbg_add_modes_run env0 s d : length env0 = 256%nat -> word_ok s -> (length s < 256)%nat ->
  exists d', dbg_add_modes env0 (cstring s) d = Done tt d' /\ dbg_modes d' = foldl option_applied (dbg_modes d) (fields (codes ",") [] s).
Proof.
  intros He [Hc H0] Hl. unfold dbg_add_modes, cstring. rewrite strncpy_whole by (try done; lia). erewrite bind_done by reflexivity. cbn beta.
  apply modes_loop_run; [|by apply fields_ok; [split; [apply Forall_nil_2|apply not_elem_of_nil]|]].
  apply (strtok_all_spec (codes ",") [] ltac:(apply no_nul; reflexivity) (length s)) with (r := drop (S (length s)) env0); try done; lia.
Qed.

(** ** Writing a list *)

(** Names with commas between them, and after each of them. *)
Fixpoint joined (l : list (list Z)) : list Z :=
  match l with
  | [] => []
  | [n] => n
  | n :: l => n ++ comma :: joined l
  end.
Definition listing (l : list (list Z)) : list Z := concat ((fun n => n ++ [comma]) <$> l).

Lemma listing_joined n l : listing (n :: l) = joined (n :: l) ++ [comma].
Proof.
  revert n. induction l as [|n' l IH]; intros n; [unfold listing; cbn; apply app_nil_r|].
  change (listing (n :: n' :: l)) with ((n ++ [comma]) ++ listing (n' :: l)). rewrite IH.
  change (joined (n :: n' :: l)) with (n ++ comma :: joined (n' :: l)). by rewrite <- !app_assoc.
Qed.

Definition field_ok (n : list Z) : Prop := n <> [] /\ comma ∉ n.

Lemma fields_word n : comma ∉ n -> forall cur r, fields (codes ",") cur (n ++ r) = fields (codes ",") (cur ++ n) r.
Proof.
  induction n as [|c n IH]; intros Hn cur r; [by rewrite app_nil_r|]. apply not_elem_of_cons in Hn as [Hc Hn]. cbn [fields app].
  rewrite bool_decide_eq_false_2; [|change (codes ",") with [comma]; rewrite list_elem_of_singleton; congruence].
  rewrite IH by done. by rewrite <- app_assoc.
Qed.

Lemma fields_joined l : Forall field_ok l -> fields (codes ",") [] (joined l) = l.
Proof.
  induction l as [|n l IH]; intros Hl; [done|]. apply Forall_cons in Hl as [[Hn Hc] Hl]. destruct l as [|n' l].
  - cbn [joined]. rewrite <- (app_nil_r n) at 1. rewrite fields_word by done. cbn. by destruct n.
  - change (joined (n :: n' :: l)) with (n ++ comma :: joined (n' :: l)). rewrite fields_word by done. cbn [app fields].
    rewrite bool_decide_eq_true_2 by (change (codes ",") with [comma]; left). destruct n as [|c n]; [done|]. by rewrite IH.
Qed.

Section Info.
Context (name_at : dbg_mode -> Z).

(** The names are in memory, apart from the buffer. *)
Definition names_in (cs : gmap Z Z) (buf size : Z) : Prop := forall e, e ∈ dbg_tab ->
  0 < name_at e < 2 ^ 32 /\ str_at cs (name_at e) (d_name e) /\
  (name_at e + Z.of_nat (length (d_name e)) < buf \/ buf + size <= name_at e).

Lemma render_loop_step strs fuel pos fmt args : render_loop strs (S fuel) pos fmt args =
  c ← head fmt;
  if c =? 0 then Some ([], [])
  else if c =? ch "%" then
    '(t, ws, fmt, args) ← render_directive strs pos (tail fmt) args;
    '(t', ws') ← render_loop strs fuel (pos + length t) fmt args;
    Some (t ++ t', ws ++ ws')
  else '(t, ws) ← render_loop strs fuel (S pos) (tail fmt) args; Some (c :: t, ws).
Proof. reflexivity. Qed.

Lemma render_directive_s strs pos a n r : str_arg strs (a mod 2 ^ 32) = Some n ->
  render_directive strs pos (ch "s" :: r) [Word a] = Some (n, [], r, []).
Proof.
  intros E. unfold render_directive. change (span_while is_flag (ch "s" :: r)) with (Some ([] : list Z, ch "s" :: r)).
  cbn [mbind option_bind]. change (read_amount (ch "s" :: r)) with (Some (Absent, ch "s" :: r)).
  cbn [mbind option_bind]. change (read_precision (ch "s" :: r)) with (Some (None : option amount, ch "s" :: r)).
  cbn [mbind option_bind]. change (read_modifier (ch "s" :: r)) with (NoMod, ch "s" :: r).
  cbn [mbind option_bind head eval_width eval_precision]. unfold render_conv.
  change (int_conv (ch "s")) with (None : option (bool * bool * Z)). change (negb (small_amount None && small_amount None)) with false.
  change (ch "s" =? ch "c") with false. change (ch "s" =? ch "s") with true. change (ch "s" =? 0) with false.
  cbn [word_arg mbind option_bind]. rewrite E. reflexivity.
Qed.

Lemma render_name a n : 0 < a < 2 ^ 32 ->
  render (fun b => if b =? a then Some n else None) (codes "%s," ++ [0]) [Word a] = Some (n ++ [comma], []).
Proof.
  intros Ha. set (strs := fun b => if b =? a then Some n else None).
  unfold render. change (codes "%s," ++ [0]) with [ch "%"; ch "s"; comma; 0]. cbn [length]. rewrite render_loop_step. cbn [head tail mbind option_bind].
  change (ch "%" =? 0) with false. change (ch "%" =? ch "%") with true. cbn iota.
  rewrite (render_directive_s strs _ a n) by (rewrite Z.mod_small by lia; unfold str_arg, strs; by rewrite (proj2 (Z.eqb_neq a 0)), Z.eqb_refl by lia).
  cbn [mbind option_bind]. rewrite render_loop_step. reflexivity.
Qed.

Lemma put_chars_over cs b t u : u <> [] -> put_chars (put_chars cs b (t ++ [0])) (b + Z.of_nat (length t)) u = put_chars cs b (t ++ u).
Proof.
  intros Hu. rewrite !put_chars_app. destruct u as [|c u]; [done|]. cbn [put_chars]. by rewrite insert_insert_eq.
Qed.

Lemma names_in_put cs B S b l : names_in cs B S -> B <= b -> b + Z.of_nat (length l) <= B + S -> names_in (put_chars cs b l) B S.
Proof.
  intros Hn Hb Hl e He. destruct (Hn e He) as (Ha & [H0 Hs] & Hd). split; [done|]. split; [|done]. split; [done|].
  intros i c Hi. rewrite put_chars_out; [by apply Hs|]. apply lookup_lt_Some in Hi. rewrite length_app in Hi. cbn in Hi. lia.
Qed.

Lemma snprintf_name m B S buf size e : names_in (chars m) B S -> e ∈ dbg_tab -> B <= buf -> buf + size <= B + S ->
  0 < buf -> 0 <= size < 2 ^ 31 -> buf + size <= 2 ^ 32 -> mapped (chars m) buf size -> Z.of_nat (length (d_name e)) + 1 < size ->
  snprintf m buf size (codes "%s," ++ [0]) [Word (name_at e)] =
    Some (Mem (put_chars (chars m) buf ((d_name e ++ [comma]) ++ [0])) (cells m), Z.of_nat (length (d_name e)) + 1).
Proof.
  intros Hn He HB HS Hb Hs H32 Hm Hl. destruct (Hn e He) as (Ha & Hstr & Hd). unfold snprintf.
  assert (length (d_name e ++ [comma]) = (length (d_name e) + 1)%nat) as Elen by (rewrite length_app; cbn; lia).
  rewrite (vsnprintf_text m buf size _ _ (fun b => if b =? name_at e then Some (d_name e) else None) (d_name e ++ [comma])); try done; rewrite ?Elen; try lia.
  - unfold printed. destruct (Z.eqb_spec size 0); [lia|]. rewrite take_ge by (rewrite Elen; lia). do 2 f_equal. lia.
  - by repeat constructor.
  - intros a t. destruct (Z.eqb_spec a (name_at e)) as [->|]; [|done]. intros [= <-]. split; [done|]. lia.
  - by apply render_name.
Qed.

Definition names_of (modes : Z) (tab : list dbg_mode) : list (list Z) := d_name <$> filter (fun e => listed modes e = true) tab.

Lemma info_loop_run modes B S tab : forall m buf size, (forall e, e ∈ tab -> e ∈ dbg_tab) -> names_in (chars m) B S ->
  B <= buf -> buf + size <= B + S -> 0 < buf -> buf + size <= 2 ^ 32 -> size < 2 ^ 31 -> mapped (chars m) buf size ->
  Z.of_nat (length (listing (names_of modes tab))) < size ->
  info_loop name_at modes tab m buf size = Some
    (match names_of modes tab with [] => m | l => Mem (put_chars (chars m) buf (listing l ++ [0])) (cells m) end,
     buf + Z.of_nat (length (listing (names_of modes tab))), size - Z.of_nat (length (listing (names_of modes tab)))).
Proof.
  induction tab as [|e tab IH]; intros m buf size Htab Hn HB HS Hb H32 Hs Hm Hl; cbn [info_loop].
  { cbn. by rewrite Z.add_0_r, Z.sub_0_r. }
  unfold names_of in *. rewrite filter_cons in Hl |- *. destruct (listed modes e) eqn:Ee; [|rewrite decide_False by done; apply IH; eauto; intros q Hq; apply Htab; by right].
  rewrite decide_True in Hl |- * by done. cbn [fmap list_fmap] in Hl |- *. set (l := d_name <$> _) in *.
  change (listing (d_name e :: l)) with ((d_name e ++ [comma]) ++ listing l) in *.
  rewrite !length_app in *. cbn [length] in *. set (n := d_name e) in *.
  rewrite (snprintf_name m B S) by (try done; try (apply Htab; left); fold n; lia). cbn [mbind option_bind]. fold n.
  rewrite s32_small, u32_small by lia. destruct (Z.leb_spec size (Z.of_nat (length n) + 1)); [lia|].
  rewrite IH; cbn [chars cells].
  - fold l. f_equal. f_equal; [f_equal|lia]; [|lia]. destruct l as [|n' l'] eqn:El.
    + cbn. by rewrite app_nil_r.
    + f_equal. replace (buf + (Z.of_nat (length n) + 1)) with (buf + Z.of_nat (length (n ++ [comma]))) by (rewrite length_app; cbn; lia).
      rewrite put_chars_over by (by destruct (listing (n' :: l'))). by rewrite app_assoc.
  - intros q Hq. apply Htab. by right.
  - apply names_in_put; [done|done|]. rewrite !length_app. cbn. lia.
  - lia.
  - lia.
  - lia.
  - lia.
  - lia.
  - intros q Hq. apply (put_chars_mapped _ _ _ _ _ Hm). lia.
  - fold l. lia.
Qed.

Lemma listing_filter P `{forall e, Decision (P e)} tab :
  (length (listing (d_name <$> filter P tab)) <= length (listing (d_name <$> tab)))%nat.
Proof.
  induction tab as [|e tab IH]; [done|]. rewrite filter_cons. unfold listing in *. case_decide; cbn; rewrite !length_app; lia.
Qed.

Lemma listing_short modes : (length (listing (names_of modes dbg_tab)) <= 202)%nat.
Proof. etransitivity; [apply listing_filter|]. vm_compute. lia. Qed.

(** [dbg_modes_info] leaves the names of the active modes, with commas between them,
    in a buffer that is large enough. *)
Lemma dbg_modes_info_run modes m buf size : names_in (chars m) buf size -> 0 < buf -> buf + size <= 2 ^ 32 -> 202 < size < 2 ^ 31 ->
  mapped (chars m) buf size -> exists m', dbg_modes_info name_at modes m buf size =
      Some (m', match names_of modes dbg_tab with [] => 0 | l => Z.of_nat (length (joined l)) + 2 end) /\
    str_at (chars m') buf (joined (names_of modes dbg_tab)) /\ forall p, p < buf \/ buf + size <= p -> chars m' !! p = chars m !! p.
Proof.
  intros Hn Hb H32 Hs Hm. pose proof (listing_short modes) as Hl. unfold dbg_modes_info. rewrite (proj2 (Z.ltb_lt 0 size)) by lia. cbn [negb].
  rewrite (info_loop_run modes buf size dbg_tab m buf size (fun _ He => He) Hn) by (try done; lia). cbn [mbind option_bind].
  assert (Forall (fun n => 0 ∉ n) (names_of modes dbg_tab)) as H0.
  { unfold names_of. apply Forall_fmap, Forall_forall. intros e [_ He]%list_elem_of_filter. pose proof names_ok as Hok.
    rewrite Forall_forall in Hok. apply (Hok e He). }
  destruct (names_of modes dbg_tab) as [|n l] eqn:El.
  - cbn [listing joined fmap list_fmap concat length]. rewrite Z.sub_0_r, Z.add_0_r, Z.eqb_refl. destruct (Hm buf ltac:(lia)) as [d Hd].
    unfold store. rewrite Hd. eexists. split; [reflexivity|]. cbn. split; [split; [apply not_elem_of_nil|]|].
    + intros [|i] c [= <-]. rewrite Z.add_0_r. apply lookup_insert_eq.
    + intros p Hp. rewrite lookup_insert_ne by lia. done.
  - rewrite listing_joined in Hl |- *. set (t := joined (n :: l)) in *. rewrite length_app in Hl |- *. cbn [length] in Hl |- *.
    destruct (Z.eqb_spec (size - Z.of_nat (length t + 1)) size); [lia|]. unfold store. cbn [chars cells].
    replace (buf + Z.of_nat (length t + 1) - 1) with (buf + Z.of_nat (length t)) by lia.
    rewrite (put_chars_in _ _ _ (length t) comma) by (rewrite <- app_assoc; by rewrite lookup_app_r, Nat.sub_diag by lia).
    eexists. split; [cbn [mbind option_bind]; do 2 f_equal; rewrite u32_small by lia; lia|]. cbn [chars]. split.
    + split.
      * clear -H0. subst t. revert n H0. induction l as [|n' l IH]; intros n [Hn Hl]%Forall_cons; [done|].
        change (joined (n :: n' :: l)) with (n ++ comma :: joined (n' :: l)). rewrite elem_of_app, elem_of_cons. intros [?|[?|?]]; [done|done|by eapply IH].
      * intros i c Hi. destruct (decide (i = length t)) as [->|Hne].
        -- rewrite lookup_app_r, Nat.sub_diag in Hi by lia. injection Hi as <-. apply lookup_insert_eq.
        -- rewrite lookup_insert_ne by lia. apply lookup_lt_Some in Hi as Hlt. rewrite length_app in Hlt. cbn [length] in Hlt.
           rewrite lookup_app_l in Hi by lia. apply put_chars_in. rewrite <- app_assoc. by apply lookup_app_l_Some.
    + intros p Hp. rewrite lookup_insert_ne by lia. apply put_chars_out. rewrite !length_app. cbn [length]. lia.
Qed.
End Info.

(** ** From the modes to the list and back *)

(** The modes with a name, other than [all]. *)
Definition known (tab : list dbg_mode) : Z := foldr (fun e k => if d_mode e =? DBG_ALL then k else Z.lor (d_mode e) k) 0 tab.

Lemma land_bit m k : 0 <= k -> Z.land m (2 ^ k) = if Z.testbit m k then 2 ^ k else 0.
Proof.
  intros Hk. apply Z.bits_inj'. intros i Hi. rewrite Z.land_spec, Z.pow2_bits_eqb by done.
  destruct (Z.eqb_spec k i) as [->|Hne].
  - rewrite andb_true_r. destruct (Z.testbit m i); [by rewrite Z.pow2_bits_true|by rewrite Z.bits_0].
  - rewrite andb_false_r. destruct (Z.testbit m k); [by rewrite Z.pow2_bits_false|by rewrite Z.bits_0].
Qed.

Lemma apply_names modes tab : Forall (fun e => (forall m, option_applied m (d_name e) = Z.lor m (d_mode e)) /\
    (d_mode e = DBG_ALL \/ exists k, 0 <= k /\ d_mode e = 2 ^ k)) tab ->
  forall acc, foldl option_applied acc (names_of modes tab) = Z.lor acc (Z.land modes (known tab)).
Proof.
  induction tab as [|e tab IH]; intros Ht acc; [cbn; by rewrite Z.land_0_r, Z.lor_0_r|]. apply Forall_cons in Ht as [[He Hk] Ht].
  unfold names_of. rewrite filter_cons. cbn [known foldr]. fold (known tab). unfold listed. destruct Hk as [Hall|(k & Hk & Ek)].
  - rewrite Hall, Z.eqb_refl, andb_false_r. rewrite decide_False by done. by apply IH.
  - destruct (Z.eqb_spec (d_mode e) DBG_ALL) as [E|_]; [|].
    { rewrite andb_false_r, decide_False by done. by apply IH. }
    rewrite andb_true_r, Z.land_lor_distr_r, Ek, land_bit by done. destruct (Z.testbit modes k).
    + rewrite (proj2 (Z.eqb_neq (2 ^ k) 0)) by (pose proof (Z.pow_pos_nonneg 2 k); lia). rewrite decide_True by done. cbn [fmap list_fmap foldl].
      change (d_name <$> filter _ tab) with (names_of modes tab). rewrite IH, He, Ek by done. by rewrite Z.lor_assoc.
    + rewrite Z.eqb_refl, decide_False, Z.lor_0_l by done. by apply IH.
Qed.

Lemma table_ok : Forall (fun e => (forall m, option_applied m (d_name e) = Z.lor m (d_mode e)) /\
  (d_mode e = DBG_ALL \/ exists k, 0 <= k /\ d_mode e = 2 ^ k)) dbg_tab.
Proof.
  unfold dbg_tab. repeat (apply Forall_cons; split; [split; [intros m; reflexivity|]|]); try apply Forall_nil_2; try (by left);
    match goal with |- context [dbg_entry _ ?k _] => right; exists k; split; [lia|reflexivity] end.
Qed.

Lemma names_fields modes : Forall (fun n => field_ok n /\ word_ok n) (names_of modes dbg_tab).
Proof.
  unfold names_of. apply Forall_fmap, Forall_forall. intros e [_ He]%list_elem_of_filter.
  assert (Forall (fun e => field_ok (d_name e)) dbg_tab) as Hf.
  { unfold dbg_tab. repeat (apply Forall_cons; split; [split; [discriminate|apply (bool_decide_unpack (comma ∉ _)); vm_compute; exact I]|]). apply Forall_nil_2. }
  pose proof names_ok as Hok. rewrite Forall_forall in Hf, Hok. split; [by apply Hf|by apply Hok].
Qed.

Lemma joined_ok l : Forall word_ok l -> word_ok (joined l).
Proof.
  induction l as [|n l IH]; intros Hl; [split; [apply Forall_nil_2|apply not_elem_of_nil]|]. apply Forall_cons in Hl as [[Hc H0] Hl].
  destruct l as [|n' l]; [done|]. change (joined (n :: n' :: l)) with (n ++ [comma] ++ joined (n' :: l)). destruct (IH Hl) as [Hc' H0'].
  split; [apply Forall_app; split; [done|apply Forall_cons; split; [done|done]]|]. rewrite !elem_of_app, list_elem_of_singleton. intros [?|[?|?]]; done.
Qed.

Lemma joined_names_length n l : length (listing (n :: l)) = S (length (joined (n :: l))).
Proof. rewrite listing_joined, length_app. cbn [length]. lia. Qed.

(** C29: the list [dbg_modes_info] writes into a buffer of more than 202 bytes,
    given to [dbg_add_modes] when no mode is active, activates the same modes again:
    all those that have a name. *)
Theorem dbg_modes_roundtrip name_at modes m buf size env0 d : names_in name_at (chars m) buf size -> 0 < buf -> buf + size <= 2 ^ 32 ->
  202 < size < 2 ^ 31 -> mapped (chars m) buf size -> length env0 = 256%nat -> dbg_modes d = 0 ->
  exists m' r s d', dbg_modes_info name_at modes m buf size = Some (m', r) /\ str_at (chars m') buf s /\
    dbg_add_modes env0 (cstring s) d = Done tt d' /\ dbg_modes d' = Z.land modes (known dbg_tab).
Proof.
  intros Hn Hb H32 Hs Hm He Hd. destruct (dbg_modes_info_run name_at modes m buf size Hn Hb H32 Hs Hm) as (m' & E & Hstr & _).
  pose proof (names_fields modes) as Hf. apply Forall_and in Hf as [Hf Hw]. set (l := names_of modes dbg_tab) in *.
  destruct (dbg_add_modes_run env0 (joined l) d He (joined_ok l Hw)) as (d' & Ed & Em).
  { pose proof (listing_short modes) as Hl. fold l in Hl. destruct l as [|n l']; [cbn; lia|]. rewrite joined_names_length in Hl. lia. }
  exists m'. eexists. exists (joined l), d'. split; [exact E|]. split; [done|]. split; [done|].
  rewrite Em, fields_joined, Hd by done. unfold l. rewrite (apply_names modes dbg_tab table_ok). apply Z.lor_0_l.
Qed.

(** Every mode has a colour: [dbg_color] does not panic. *)
Theorem dbg_color_found mode s : 0 < mode < 2 ^ 64 -> exists c, dbg_color mode s = Done c s.
Proof.
  intros Hm. unfold dbg_color. assert (exists e, e ∈ dbg_tab /\ Z.land (d_mode e) mode <> 0) as (e & He & Hne).
  { exists (DbgMode (codes "all") DBG_ALL (esc "[0m")). split; [unfold dbg_tab; do 35 right; left|].
    cbn [d_mode]. change DBG_ALL with (Z.ones 64). rewrite Z.land_comm, Z.land_ones, Z.mod_small by lia. lia. }
  induction dbg_tab as [|e0 tab IH]; [by apply elem_of_nil in He|]. cbn [color_loop].
  destruct (Z.eqb_spec (Z.land (d_mode e0) mode) 0) as [E|E]; [|by eexists]. cbn [negb].
  apply elem_of_cons in He as [->|He]; [done|by apply IH].
Qed.
End DebugSpec.
