(* ===== verification/DebugDemo.v ===== *)
(** * Debugging modes: instances

    The names of the table 16 bytes apart from 4096 on, and a buffer behind them. *)

From Stdlib Require Import ZArith Lia Ascii String.
From stdpp Require Import base list gmap.
From S2P Require Import Prelude KString Math Printf PrintfSpec PrintfRef PrintfFmt Debug DebugSpec.
Import KString Math Printf PrintfSpec PrintfRef PrintfFmt.

Module DebugDemo.
Import Debug DebugSpec.
Local Open Scope Z_scope.

Definition at_bit (e : dbg_mode) : Z := 4096 + 16 * Z.log2 (d_mode e).
Definition blank : gmap Z Z := put_chars ∅ 16384 (replicate 256 35).
Definition dbg_mem : pmem := Mem (foldr (fun e cs => put_chars cs (at_bit e) (cstring (d_name e))) blank dbg_tab) ∅.

(** Executable checks. *)
Definition str_check (cs : gmap Z Z) (a : Z) (s : list Z) : bool :=
  forallb (fun c => negb (c =? 0)) s && forallb (fun p => bool_decide (cs !! (a + Z.of_nat (fst p)) = Some (snd p))) (imap pair (s ++ [0])).

Lemma str_check_sound cs a s : str_check cs a s = true -> str_at cs a s.
Proof.
  unfold str_check. rewrite andb_true_iff. intros [H0 Hc]. split; [by apply no_nul|]. intros i c Hi.
  rewrite forallb_forall in Hc. assert ((i, c) ∈ imap pair (s ++ [0])) as Hin.
  { apply (list_elem_of_lookup_2 _ i). by rewrite list_lookup_imap, Hi. }
  apply list_elem_of_In, Hc in Hin. by apply bool_decide_eq_true_1 in Hin.
Qed.

Definition entry_check (e : dbg_mode) : bool :=
  (0 <? at_bit e) && (at_bit e + Z.of_nat (length (d_name e)) <? 16384) && str_check (chars dbg_mem) (at_bit e) (d_name e).

Lemma entries_checked : forallb entry_check dbg_tab = true.
Proof. vm_compute. reflexivity. Qed.

Lemma dbg_names : names_in at_bit (chars dbg_mem) 16384 256.
Proof.
  intros e He. pose proof entries_checked as Hc. rewrite forallb_forall in Hc. apply list_elem_of_In, Hc in He.
  unfold entry_check in He. rewrite !andb_true_iff, !Z.ltb_lt in He. destruct He as [[H1 H2] H3].
  split; [lia|]. split; [by apply str_check_sound|lia].
Qed.

Lemma dbg_buffer : mapped (chars dbg_mem) 16384 256.
Proof.
  unfold dbg_mem. cbn [chars]. generalize dbg_tab. intros tab. induction tab as [|e tab IH]; cbn [foldr].
  - intros p Hp. destruct (lookup_lt_is_Some_2 (replicate 256 35) (Z.to_nat (p - 16384))) as [c Hc]; [rewrite length_replicate; lia|].
    exists c. unfold blank. replace p with (16384 + Z.of_nat (Z.to_nat (p - 16384))) by lia. by apply put_chars_in.
  - by apply put_chars_mapped.
Qed.

(** Modes 0, 1, 14 and 40: the last has no name. *)
Definition some_modes : Z := 2 ^ 40 + 2 ^ 14 + 3.

Lemma dbg_modes_roundtrip_witness : exists m' r s d',
  dbg_modes_info at_bit some_modes dbg_mem 16384 256 = Some (m', r) /\ str_at (chars m') 16384 s /\
  dbg_add_modes (replicate 256 0) (cstring s) (Dbgst 0 None []) = Done tt d' /\ dbg_modes d' = 2 ^ 14 + 3.
Proof.
  destruct (dbg_modes_roundtrip at_bit some_modes dbg_mem 16384 256 (replicate 256 0) (Dbgst 0 None []) dbg_names ltac:(lia) ltac:(lia) ltac:(lia) dbg_buffer
    (length_replicate _ _) eq_refl) as (m' & r & s & d' & E & Hs & Ed & Em).
  exists m', r, s, d'. split; [exact E|]. split; [exact Hs|]. split; [exact Ed|]. rewrite Em. vm_compute. reflexivity.
Defined.

(** Everything but the interrupts, and an option there is not. *)
Example some_options : forall d, dbg_init (replicate 256 7) (codes "all,-intr,nosuch" ++ [0]) d =
  Done tt (Dbgst (2 ^ 64 - 1 - 2 ^ 8) (dbg_savept (Dbgst 0 None [])) (dbg_warned d ++ [codes "nosuch" ++ [0]])).
Proof. intros [m p w]. vm_compute. reflexivity. Qed.

(** [strncpy] does not terminate a list of 256 bytes or more, and [strtok] reads on
    behind the array. *)
Example long_option_list : forall d, dbg_add_modes (replicate 256 0) (replicate 300 (ch "a") ++ [0]) d = Stuck.
Proof. intros [m p w]. vm_compute. reflexivity. Qed.
End DebugDemo.
