(* ===== verification/KShell.v ===== *)
(** * The kernel shell ([test/kshell/])

    The shell reads a line into a buffer of the stack, scans it in place, and
    calls a command with pointers into it.  A [char *] into that buffer is its
    offset, [line] and [kt_text] included.  The buffers of
    [kshell_execute_next] are components of the state: what they hold when the
    function is entered is arbitrary, a variable that has no value yet is
    [None].  An access outside a buffer is [Stuck].

    The system calls the shell makes are those of the interface [SysCalls]; the
    text of a message is the one [vsnprintf] stores for its format
    ([PrintfRef.render]). *)

From Stdlib Require Import ZArith Lia Ascii String.
From stdpp Require Import base list option.
From S2P Require Import Prelude KString Vnode Ramfs Namev Printf PrintfRef PrintfFmt KErrno.
Import KString Vnode Ramfs Namev Printf PrintfRef PrintfFmt.

Module KShell.
Local Open Scope Z_scope.

Definition KSH_BUF_SIZE : Z := 1024.
Definition KSH_CMD_NAME_LEN : nat := 16.
Definition KSH_MAX_ARGS : nat := 128.
Definition KSH_DESC_LEN : nat := 64.

(** [char redirect_in[MAXPATHLEN]], [char redirect_out[MAXPATHLEN]] *)
Definition redirect_size : nat := 1024.

(** ** The system calls

    A string argument is the bytes from its first to the end of the object it
    is in. *)
Class SysCalls (W : Type) := {
  do_open : list Z -> Z -> kern W Z;
  do_close : Z -> kern W Z;
  do_read : Z -> Z -> kern W (Z * list Z);
  do_write : Z -> list Z -> Z -> kern W Z;
  do_stat : list Z -> kern W (Z * option stat);
  do_getdent : Z -> list Z -> kern W (Z * option (Z * list Z));
  do_chdir : list Z -> kern W Z;
  do_unlink : list Z -> kern W Z;
  do_link : list Z -> list Z -> kern W Z;
  do_rmdir : list Z -> kern W Z;
  do_mkdir : list Z -> kern W Z
}.

(** ** Data *)
Record kshell := Kshell { ksh_fd : Z; ksh_out_fd : Z; ksh_in_fd : Z }.

Inductive token_type := KTT_WORD | KTT_REDIRECT_IN | KTT_REDIRECT_OUT | KTT_REDIRECT_OUT_APPEND | KTT_EOL.
#[global] Instance token_type_eq_dec : EqDecision token_type := ltac:(solve_decision).

Record token := Token { kt_type : token_type; kt_text : nat; kt_textlen : nat }.

Record command (F : Type) := Command { kc_name : list Z; kc_cmd_func : F; kc_desc : list Z }.
Arguments Command {F} kc_name kc_cmd_func kc_desc.
Arguments kc_name {F} c.
Arguments kc_cmd_func {F} c.
Arguments kc_desc {F} c.

(** The two redirection buffers. *)
Inductive redirect := RIn | ROut.

Record shell_state (W F : Type) := State {
  s_sys : W;
  s_ksh : kshell;
  kshell_commands_list : list (command F);
  s_buf : list Z;
  s_rin : list Z;
  s_rout : list Z;
  s_append : option Z;
  s_args : list (option nat)
}.
Arguments State {W F} s_sys s_ksh kshell_commands_list s_buf s_rin s_rout s_append s_args.
Arguments s_sys {W F} s.
Arguments s_ksh {W F} s.
Arguments kshell_commands_list {W F} s.
Arguments s_buf {W F} s.
Arguments s_rin {W F} s.
Arguments s_rout {W F} s.
Arguments s_append {W F} s.
Arguments s_args {W F} s.

(** ** Scanning *)

(** [while (line[i] != EOL && isspace(line[i])) ++i] *)
Fixpoint span_space (l : list Z) : option nat :=
  match l with
  | [] => None
  | c :: l => if negb (c =? 0) && isspace c then S <$> span_space l else Some O
  end.

Definition word_char (c : Z) : bool :=
  negb (isspace c) && negb (c =? ch "<") && negb (c =? ch ">") && negb (c =? 0).

(** [while (!isspace(line[i]) && line[i] != '<' && line[i] != '>' && line[i] != EOL) ++i] *)
Fixpoint span_word (l : list Z) : option nat :=
  match l with
  | [] => None
  | c :: l => if word_char c then S <$> span_word l else Some O
  end.

(** The return value and the token. *)
Definition next_token (buf : list Z) (line : nat) : option (nat * token) :=
  i ← span_space (drop line buf);
  let text := (line + i)%nat in
  c ← buf !! text;
  if c =? 0 then Some (0%nat, Token KTT_EOL text 0)
  else if c =? ch "<" then Some (1%nat, Token KTT_REDIRECT_IN text 1)
  else if c =? ch ">" then
    d ← buf !! S text;
    if d =? ch ">" then Some (2%nat, Token KTT_REDIRECT_OUT_APPEND text 2)
    else Some (1%nat, Token KTT_REDIRECT_OUT text 1)
  else
    n ← span_word (drop text buf);
    Some ((i + n)%nat, Token KTT_WORD text n).

Definition kshell_token_type_str (t : token_type) : list Z :=
  match t with
  | KTT_WORD => codes "text"
  | KTT_REDIRECT_IN => codes "<"
  | KTT_REDIRECT_OUT => codes ">"
  | KTT_REDIRECT_OUT_APPEND => codes ">>"
  | KTT_EOL => codes "end of line"
  end.

(** The object [o] with its bytes from offset [n] on replaced. *)
Definition splice (o : list Z) (n : nat) (r : list Z) : list Z := take n o ++ r.

(** [o[n] = c] *)
Definition put {A} (o : list A) (n : nat) (c : A) : option (list A) :=
  if (n <? length o)%nat then Some (<[n := c]> o) else None.

(** ** Commands *)

(** [kmalloc] returns an object with arbitrary contents, or [NULL]. *)
Definition kshell_command_create {F} (obj : option (list Z * list Z)) (name : list Z) (cmd_func : F)
    (desc : option (list Z)) : option (option (command F)) :=
  match obj with
  | None => Some None
  | Some (n, d) =>
      len ← strnlen name KSH_CMD_NAME_LEN;
      n ← strncpy n name len;
      n ← put n len 0;
      d ← match desc with
          | Some desc =>
              len ← strnlen desc KSH_DESC_LEN;
              d ← strncpy d desc len;
              put d len 0
          | None => put d 0%nat 0
          end;
      Some (Some (Command n cmd_func d))
  end.

(** The test of [kshell_lookup_command]. *)
Definition command_matches {F} (name : list Z) (namelen : nat) (c : command F) : option bool :=
  r ← strncmp (kc_name c) name namelen;
  if r =? 0 then
    n ← strnlen (kc_name c) namelen;
    Some (bool_decide (namelen = n))
  else Some false.

Fixpoint find_command {F} (name : list Z) (namelen : nat) (l : list (command F)) : option (option (command F)) :=
  match l with
  | [] => Some None
  | c :: l =>
      b ← command_matches name namelen c;
      if b : bool then Some (Some c) else find_command name namelen l
  end.

Definition kshell_lookup_command {F} (l : list (command F)) (name : list Z) (namelen : nat)
    : option (option (command F)) :=
  find_command name (if (KSH_CMD_NAME_LEN <? namelen)%nat then KSH_CMD_NAME_LEN else namelen) l.

(** ** Messages *)

(** An argument of [kprintf]: a string, the null pointer, or an [int]. *)
Inductive parg := PStr (s : list Z) | PNull | PInt (z : Z).

(** The arguments as words: the [i]-th string is at address [i + 1]. *)
Fixpoint arg_words (strs : list (list Z)) (args : list parg) : list va * list (list Z) :=
  match args with
  | [] => ([], strs)
  | PStr s :: args =>
      let '(w, strs') := arg_words (strs ++ [s]) args in
      (Word (Z.of_nat (length strs) + 1) :: w, strs')
  | PNull :: args => let '(w, strs') := arg_words strs args in (Word 0 :: w, strs')
  | PInt z :: args => let '(w, strs') := arg_words strs args in (Word z :: w, strs')
  end.

Definition message (fmt : string) (args : list parg) : option (list Z) :=
  let '(w, strs) := arg_words [] args in
  fst <$> render (fun a => if a <? 1 then None else strs !! Z.to_nat (a - 1)) (codes fmt ++ [0]) w.

Section Shell.
Context {W F : Type} `{SysCalls W}.

Local Abbreviation K A := (kern (shell_state W F) A).

Definition set_sys (w : W) (s : shell_state W F) : shell_state W F :=
  State w (s_ksh s) (kshell_commands_list s) (s_buf s) (s_rin s) (s_rout s) (s_append s) (s_args s).
Definition set_ksh (k : kshell) (s : shell_state W F) : shell_state W F :=
  State (s_sys s) k (kshell_commands_list s) (s_buf s) (s_rin s) (s_rout s) (s_append s) (s_args s).
Definition set_cmds (l : list (command F)) (s : shell_state W F) : shell_state W F :=
  State (s_sys s) (s_ksh s) l (s_buf s) (s_rin s) (s_rout s) (s_append s) (s_args s).
Definition set_buf (b : list Z) (s : shell_state W F) : shell_state W F :=
  State (s_sys s) (s_ksh s) (kshell_commands_list s) b (s_rin s) (s_rout s) (s_append s) (s_args s).
Definition set_redirect (r : redirect) (b : list Z) (s : shell_state W F) : shell_state W F :=
  match r with
  | RIn => State (s_sys s) (s_ksh s) (kshell_commands_list s) (s_buf s) b (s_rout s) (s_append s) (s_args s)
  | ROut => State (s_sys s) (s_ksh s) (kshell_commands_list s) (s_buf s) (s_rin s) b (s_append s) (s_args s)
  end.
Definition set_append (a : option Z) (s : shell_state W F) : shell_state W F :=
  State (s_sys s) (s_ksh s) (kshell_commands_list s) (s_buf s) (s_rin s) (s_rout s) a (s_args s).
Definition set_args (a : list (option nat)) (s : shell_state W F) : shell_state W F :=
  State (s_sys s) (s_ksh s) (kshell_commands_list s) (s_buf s) (s_rin s) (s_rout s) (s_append s) a.
Definition get_redirect (r : redirect) (s : shell_state W F) : list Z :=
  match r with RIn => s_rin s | ROut => s_rout s end.

(** A system call. *)
Definition sys {A} (m : kern W A) : K A :=
  fun s => match m (s_sys s) with
           | Done a w => Done a (set_sys w s)
           | Panic => Panic
           | Stuck => Stuck
           | Blocked => Blocked
           end.

Definition kshell_write (buf : list Z) (nbytes : Z) : K Z :=
  let* k := gets s_ksh in
  let* retval := sys (do_write (ksh_out_fd k) buf nbytes) in
  if negb (retval =? nbytes) && (0 <=? retval) then panic else ret retval.

Definition kshell_read (nbytes : Z) : K (Z * list Z) :=
  let* k := gets s_ksh in
  sys (do_read (ksh_in_fd k) nbytes).

(** [vsnprintf] stores at most [KSH_BUF_SIZE - 1] chars and a terminator. *)
Definition kprintf (fmt : string) (args : list parg) : K unit :=
  let* t := deref (message fmt args) in
  let text := take (Z.to_nat KSH_BUF_SIZE - 1) t in
  kshell_write (text ++ [0]) (Z.of_nat (length text)) ;;
  ret tt.

Definition kshell_next_token (line : nat) : K (nat * token) :=
  let* buf := gets s_buf in
  deref (next_token buf line).

Definition kshell_scrub_token (t : token) : K unit :=
  let* buf := gets s_buf in
  let* r := deref (memset (drop (kt_text t) buf) (ch " ") (kt_textlen t)) in
  modify (set_buf (splice buf (kt_text t) r)).

Definition redirect_of (t : token_type) : option (redirect * option Z) :=
  match t with
  | KTT_REDIRECT_OUT => Some (ROut, Some 0)
  | KTT_REDIRECT_OUT_APPEND => Some (ROut, Some 1)
  | KTT_REDIRECT_IN => Some (RIn, None)
  | _ => None
  end.

Definition unexpected_token (t : token) : K Z :=
  kprintf "kshell: Unexpected token '%s'
" [PStr (kshell_token_type_str (kt_type t))] ;;
  ret (-1).

(** The part of the loop that reads the name of the file: [Some] is the return
    value at a token that is not a word. *)
Definition redirect_name (re : redirect) (line : nat) : K (option Z) :=
  let* r := kshell_next_token line in
  let '(retval, t) := r in
  if (retval =? 0)%nat || negb (bool_decide (kt_type t = KTT_WORD)) then
    let* e := unexpected_token t in
    ret (Some e)
  else
    let* buf := gets s_buf in
    let* o := gets (get_redirect re) in
    let* o := deref (strncpy o (drop (kt_text t) buf) (kt_textlen t)) in
    let* o := deref (put o (kt_textlen t) 0) in
    modify (set_redirect re o) ;;
    kshell_scrub_token t ;;
    ret None.

(** An iteration moves [line] on by at least one char of the line. *)
Fixpoint find_redirection_loop (fuel : nat) (line : nat) : K Z :=
  match fuel with
  | O => blocked
  | S fuel =>
      let* r := kshell_next_token line in
      let '(retval, t) := r in
      if (retval =? 0)%nat then ret 0
      else
        kassert (negb (bool_decide (kt_type t = KTT_EOL))) ;;
        let line := (line + retval)%nat in
        if bool_decide (kt_type t = KTT_WORD) then find_redirection_loop fuel line
        else
          let* re := deref (redirect_of (kt_type t)) in
          (match snd re with Some a => modify (set_append (Some a)) | None => ret tt end) ;;
          kshell_scrub_token t ;;
          let* e := redirect_name (fst re) line in
          match e with
          | Some e => ret e
          | None => find_redirection_loop fuel line
          end
  end.

Definition kshell_find_redirection : K Z :=
  let* buf := gets s_buf in
  find_redirection_loop (S (length buf)) 0.

(** [argv + n] is where the argument is stored; the return value and
    [*arglen], with the offset of the argument. *)
Definition kshell_find_next_arg (line n : nat) : K (nat * nat * nat) :=
  let* r := kshell_next_token line in
  let '(retval, t) := r in
  if (retval =? 0)%nat then
    kassert (bool_decide (kt_type t = KTT_EOL)) ;;
    ret (0, 0, 0)%nat
  else
    kassert (bool_decide (kt_type t = KTT_WORD)) ;;
    let* args := gets s_args in
    let* args := deref (put args n (Some (kt_text t))) in
    modify (set_args args) ;;
    let* buf := gets s_buf in
    let* c := deref (buf !! (line + retval)%nat) in
    let* buf := deref (put buf (if c =? 0 then (line + retval + 1)%nat else (line + retval)%nat) 0) in
    modify (set_buf buf) ;;
    ret (retval, kt_textlen t, kt_text t).

(** The number of arguments; [line] is [buf] in the source. *)
Fixpoint get_args_loop (fuel : nat) (max_args line argc : nat) : K nat :=
  match fuel with
  | O => blocked
  | S fuel =>
      let* r := kshell_find_next_arg line argc in
      let '(found, arglen, arg) := r in
      if (found =? 0)%nat || negb (argc <? max_args)%nat then ret argc
      else get_args_loop fuel max_args (arg + arglen + 1) (S argc)
  end.

Definition kshell_get_args (max_args : nat) : K nat :=
  kassert (0 <? max_args)%nat ;;
  get_args_loop (S max_args) max_args 0 0.

(** [argv[n]] *)
Definition argv (n : nat) : K (list Z) :=
  let* args := gets s_args in
  let* a := deref (args !! n) in
  let* a := deref a in
  let* buf := gets s_buf in
  ret (drop a buf).

(** The string a [char *] points to. *)
Definition cstr (p : list Z) : K (list Z) :=
  let* n := deref (strlen p) in
  ret (take n p).

(** ** Redirection *)
Definition kshell_undirect : K unit :=
  let* k := gets s_ksh in
  (if negb (ksh_in_fd k =? ksh_fd k) then
     let* r := sys (do_close (ksh_in_fd k)) in
     if r <? 0 then panic else modify (set_ksh (Kshell (ksh_fd k) (ksh_out_fd k) (ksh_fd k)))
   else ret tt) ;;
  let* k := gets s_ksh in
  if negb (ksh_out_fd k =? ksh_fd k) then
    let* r := sys (do_close (ksh_out_fd k)) in
    if r <? 0 then panic else modify (set_ksh (Kshell (ksh_fd k) (ksh_fd k) (ksh_in_fd k)))
  else ret tt.

Definition open_error (name : list Z) (fd : Z) : K Z :=
  let* t := cstr name in
  kprintf "kshell: %s: Error opening file
" [PStr t] ;;
  kshell_undirect ;;
  ret fd.

Definition redirect_output (append : option Z) (redirect_out : list Z) : K Z :=
  let* c := deref (head redirect_out) in
  if negb (c =? 0) then
    let* a := deref append in
    let flags := if negb (a =? 0) then Z.lor (Z.lor O_WRONLY O_CREAT) O_APPEND else Z.lor O_WRONLY O_CREAT in
    let* fd := sys (do_open redirect_out flags) in
    if fd <? 0 then open_error redirect_out fd
    else
      let* k := gets s_ksh in
      modify (set_ksh (Kshell (ksh_fd k) fd (ksh_in_fd k))) ;;
      ret 0
  else ret 0.

Definition kshell_redirect (redirect_in redirect_out : list Z) (append : option Z) : K Z :=
  let* c := deref (head redirect_in) in
  if negb (c =? 0) then
    let* fd := sys (do_open redirect_in (Z.lor O_RDONLY O_CREAT)) in
    if fd <? 0 then open_error redirect_in fd
    else
      let* k := gets s_ksh in
      modify (set_ksh (Kshell (ksh_fd k) (ksh_out_fd k) fd)) ;;
      redirect_output append redirect_out
  else redirect_output append redirect_out.

(** ** A line *)

(** [cmd->kc_cmd_func(ksh, argc, args)] *)
Context (call : F -> nat -> K Z).

Definition run_command (argc : nat) (nbytes : Z) : K Z :=
  let* a := argv 0 in
  let* n := deref (strlen a) in
  let* r := deref (strncmp a (codes "exit" ++ [0]) n) in
  if r =? 0 then ret 0
  else
    let* cmds := gets kshell_commands_list in
    let* c := deref (kshell_lookup_command cmds a n) in
    match c with
    | None =>
        let* t := cstr a in
        kprintf "kshell: %s not a valid command
" [PStr t] ;;
        ret nbytes
    | Some c =>
        let* retval := call (kc_cmd_func c) argc in
        ret (if retval <? 0 then retval else nbytes)
    end.

Definition execute_line (nbytes : Z) : K Z :=
  let* i := gets s_rin in
  let* o := gets s_rout in
  let* i := deref (put i 0 0) in
  let* o := deref (put o 0 0) in
  modify (set_redirect RIn i) ;;
  modify (set_redirect ROut o) ;;
  let* r := kshell_find_redirection in
  if r <? 0 then ret nbytes
  else
    let* i := gets s_rin in
    let* o := gets s_rout in
    let* a := gets s_append in
    let* r := kshell_redirect i o a in
    if r <? 0 then ret nbytes
    else
      let* argc := kshell_get_args KSH_MAX_ARGS in
      if (argc =? 0)%nat then ret nbytes else run_command argc nbytes.

(** The bytes of a read at the start of the buffer. *)
Definition store_read (bytes : list Z) : K unit :=
  let* buf := gets s_buf in
  let* b := deref (memcpy buf bytes (length bytes)) in
  modify (set_buf b).

Definition terminate_line (nbytes : Z) : K Z :=
  let* buf := gets s_buf in
  let* c := deref (buf !! Z.to_nat (nbytes - 1)) in
  let n := if c =? 10 then nbytes - 1 else nbytes in
  let* b := deref (put buf (Z.to_nat n) 0) in
  modify (set_buf b) ;;
  ret n.

Definition kshell_execute_next : K Z :=
  modify (set_append None) ;;
  modify (set_args (replicate KSH_MAX_ARGS None)) ;;
  kprintf "%s " [PStr (codes "kshell$")] ;;
  let* r := kshell_read KSH_BUF_SIZE in
  store_read (snd r) ;;
  let nbytes := fst r in
  if nbytes <=? 0 then ret nbytes
  else if nbytes =? 1 then ret 1
  else
    let* nbytes := terminate_line nbytes in
    let* r := execute_line nbytes in
    kshell_undirect ;;
    ret r.
End Shell.
End KShell.
