(* ===== verification/KShellSpec.v ===== *)
(** * The lines of the kernel shell

    A reference reading of a command line, by tokens ([lex]) and then by words
    and redirections ([parse]), and the proof that the scanner, which works in
    place and in two passes over one buffer, implements it. *)

From Stdlib Require Import ZArith Lia Ascii String.
From stdpp Require Import base list option.
From S2P Require Import Prelude KString Printf KShell.
Import KString Printf KShell.

Module KShellSpec.
Local Open Scope Z_scope.

(** ** The reference *)
Inductive tok := TWord (w : list Z) | TRedir (t : token_type).

Definition flush (cur : list Z) (ts : list tok) : list tok :=
  match cur with [] => ts | _ => TWord cur :: ts end.

Fixpoint lex (cur l : list Z) : list tok :=
  match l with
  | [] => flush cur []
  | c :: l =>
      if isspace c then flush cur (lex [] l)
      else if c =? ch "<" then flush cur (TRedir KTT_REDIRECT_IN :: lex [] l)
      else if c =? ch ">" then
        flush cur
          (match l with
           | d :: l' => if d =? ch ">" then TRedir KTT_REDIRECT_OUT_APPEND :: lex [] l'
                        else TRedir KTT_REDIRECT_OUT :: lex [] l
           | [] => [TRedir KTT_REDIRECT_OUT]
           end)
      else lex (cur ++ [c]) l
  end.

(** What a line asks for: the words of the command, and the files its input
    and output are redirected to. *)
Record plan := Plan { p_in : list Z; p_out : list Z; p_append : option Z }.

Definition plan_redirect (t : token_type) (f : list Z) (p : plan) : plan :=
  match redirect_of t with
  | Some (RIn, _) => Plan f (p_out p) (p_append p)
  | Some (ROut, a) => Plan (p_in p) f a
  | None => p
  end.

(** The words and the plan, or the token that is out of place. *)
Fixpoint parse (p : plan) (ts : list tok) : token_type + list (list Z) * plan :=
  match ts with
  | [] => inr ([], p)
  | TWord w :: ts =>
      match parse p ts with
      | inr (ws, p) => inr (w :: ws, p)
      | inl t => inl t
      end
  | [TRedir _] => inl KTT_EOL
  | TRedir t :: TWord f :: ts => parse (plan_redirect t f p) ts
  | TRedir _ :: TRedir u :: _ => inl u
  end.

(** ** Characters *)
Definition blank (l : list Z) : Prop := Forall (fun c => isspace c = true) l.
Definition wordy (l : list Z) : Prop := Forall (fun c => word_char c = true) l.
Definition starts_word (l : list Z) : Prop := exists c l', l = c :: l' /\ word_char c = true.

Lemma word_char_inv c : word_char c = true ->
  isspace c = false /\ (c =? ch "<") = false /\ (c =? ch ">") = false /\ (c =? 0) = false.
Proof. unfold word_char. rewrite !andb_true_iff, !negb_true_iff. tauto. Qed.

Lemma isspace_cases c : isspace c = true ->
  (c =? ch "<") = false /\ (c =? ch ">") = false /\ (c =? 0) = false.
Proof.
  intros Hc. repeat split; apply not_true_is_false; intros ->%Z.eqb_eq; by vm_compute in Hc.
Qed.

Lemma not_word_char c : word_char c = false -> (c =? 0) = false ->
  isspace c = true \/ c = ch "<" \/ c = ch ">".
Proof.
  unfold word_char. intros H H0. rewrite H0 in H. destruct (isspace c); [by left|right].
  destruct (Z.eqb_spec c (ch "<")); [by left|right]. by destruct (Z.eqb_spec c (ch ">")).
Qed.

Lemma space_not_word c : isspace c = true -> word_char c = false.
Proof. unfold word_char. by intros ->. Qed.

(** ** Spans *)
Lemma split_blank l : exists sp body, l = sp ++ body /\ blank sp /\
  (body = [] \/ exists c b, body = c :: b /\ isspace c = false).
Proof.
  induction l as [|c l (sp & body & -> & Hs & Hb)]; [by exists [], []; repeat split; [constructor|left]|].
  destruct (isspace c) eqn:Ec.
  - exists (c :: sp), body. split; [done|]. split; [by constructor|done].
  - exists [], (c :: sp ++ body). repeat split; [constructor|right; eauto].
Qed.

Lemma split_word l : exists w b, l = w ++ b /\ wordy w /\ ~ starts_word b.
Proof.
  induction l as [|c l (w & b & -> & Hw & Hb)].
  - exists [], []. repeat split; [constructor|]. by intros (? & ? & ? & _).
  - destruct (word_char c) eqn:Ec.
    + exists (c :: w), b. split; [done|]. split; [by constructor|done].
    + exists [], (c :: w ++ b). repeat split; [constructor|]. intros (d & l' & [= <- _] & ?). congruence.
Qed.

Lemma span_space_blank sp c r : blank sp -> isspace c = false -> span_space (sp ++ c :: r) = Some (length sp).
Proof.
  intros Hs Hc. induction Hs as [|d sp Hd _ IH]; cbn [app span_space length].
  - by rewrite Hc, andb_false_r.
  - destruct (isspace_cases d Hd) as (_ & _ & ->). rewrite Hd, IH. done.
Qed.

Lemma span_word_wordy w c r : wordy w -> word_char c = false -> span_word (w ++ c :: r) = Some (length w).
Proof.
  intros Hw Hc. induction Hw as [|d w Hd _ IH]; cbn [app span_word length]; [by rewrite Hc|].
  by rewrite Hd, IH.
Qed.

(** ** Tokens of a line *)
Lemma lex_blank sp l : blank sp -> lex [] (sp ++ l) = lex [] l.
Proof. induction 1 as [|c sp Hc _ IH]; [done|]. cbn [app lex]. by rewrite Hc. Qed.

Lemma lex_cur w : wordy w -> forall cur l, lex cur (w ++ l) = lex (cur ++ w) l.
Proof.
  induction 1 as [|c w Hc _ IH]; intros cur l; [by rewrite app_nil_r|].
  apply word_char_inv in Hc as (H1 & H2 & H3 & _). cbn [app lex].
  by rewrite H1, H2, H3, IH, <- app_assoc.
Qed.

Lemma lex_word w l : wordy w -> w <> [] -> ~ starts_word l -> 0 ∉ l ->
  lex [] (w ++ l) = TWord w :: lex [] l.
Proof.
  intros Hw Hne Hl H0. rewrite lex_cur by done. cbn [app].
  assert (flush w = cons (TWord w)) as Hf by (by destruct w).
  destruct l as [|c l]; cbn [lex]; [by rewrite Hf|].
  assert (word_char c = false) as Hcw by (apply not_true_is_false; intros Hc; apply Hl; by exists c, l).
  assert ((c =? 0) = false) as Hc0 by (apply Z.eqb_neq; intros ->; apply H0; left).
  destruct (not_word_char c Hcw Hc0) as [Hc|[->| ->]]; [by rewrite Hc, Hf|by cbn; rewrite Hf|by cbn; rewrite Hf].
Qed.

(** ** What the scanner sees *)

(** The buffer: what is behind the scanner, the rest of the line, the
    terminator and what is after it. *)
Definition buffer (pre rest junk : list Z) : list Z := pre ++ rest ++ 0 :: junk.

Lemma drop_buffer (pre l : list Z) : drop (length pre) (pre ++ l) = l.
Proof. by rewrite drop_app_length. Qed.

Lemma lookup_buffer (pre : list Z) c l : (pre ++ c :: l) !! length pre = Some c.
Proof. by rewrite list_lookup_middle. Qed.

Lemma next_token_skip pre sp c b : blank sp -> isspace c = false ->
  next_token (pre ++ sp ++ c :: b) (length pre) =
    (let text := length (pre ++ sp) in
     if c =? 0 then Some (0%nat, Token KTT_EOL text 0)
     else if c =? ch "<" then Some (1%nat, Token KTT_REDIRECT_IN text 1)
     else if c =? ch ">" then
       d ← b !! 0%nat;
       if d =? ch ">" then Some (2%nat, Token KTT_REDIRECT_OUT_APPEND text 2)
       else Some (1%nat, Token KTT_REDIRECT_OUT text 1)
     else
       n ← span_word (c :: b);
       Some ((length sp + n)%nat, Token KTT_WORD text n)).
Proof.
  intros Hs Hc. unfold next_token. rewrite drop_buffer, span_space_blank by done. cbn [mbind option_bind].
  rewrite <- length_app, app_assoc, lookup_buffer, drop_buffer. cbn [mbind option_bind].
  rewrite (lookup_app_r (pre ++ sp) (c :: b) (S _)) by lia.
  by rewrite Nat.sub_succ_l, Nat.sub_diag by lia.
Qed.

Lemma next_eol pre sp junk : blank sp ->
  next_token (pre ++ sp ++ 0 :: junk) (length pre) = Some (0%nat, Token KTT_EOL (length (pre ++ sp)) 0).
Proof. intros Hs. by rewrite next_token_skip. Qed.

Lemma next_word pre sp w c b : blank sp -> wordy w -> w <> [] -> word_char c = false ->
  next_token (pre ++ sp ++ w ++ c :: b) (length pre) =
    Some (length (sp ++ w), Token KTT_WORD (length (pre ++ sp)) (length w)).
Proof.
  intros Hs Hw Hne Hc. destruct w as [|d w]; [done|].
  assert (word_char d = true) as Hd by (by inversion Hw).
  apply word_char_inv in Hd as (H1 & H2 & H3 & H4). cbn [app].
  rewrite next_token_skip by done. cbn zeta. rewrite H4, H2, H3.
  change (d :: w ++ c :: b) with ((d :: w) ++ c :: b). rewrite span_word_wordy by done.
  cbn [mbind option_bind]. by rewrite (length_app sp).
Qed.

(** The redirection token at the head of [body], with the length of its text. *)
Definition redir_head (body : list Z) (t : token_type) (b : list Z) : Prop :=
  t = KTT_REDIRECT_IN /\ body = ch "<" :: b \/
  t = KTT_REDIRECT_OUT_APPEND /\ body = ch ">" :: ch ">" :: b \/
  t = KTT_REDIRECT_OUT /\ body = ch ">" :: b /\ head b <> Some (ch ">").

Definition redir_len (t : token_type) : nat := if bool_decide (t = KTT_REDIRECT_OUT_APPEND) then 2 else 1.

Lemma redir_length body t b : redir_head body t b -> length body = (redir_len t + length b)%nat.
Proof. by intros [[-> ->]|[[-> ->]|[-> [-> _]]]]. Qed.

Lemma lex_redir body t b : redir_head body t b -> lex [] body = TRedir t :: lex [] b.
Proof.
  intros [[-> ->]|[[-> ->]|[-> [-> Hb]]]]; [done|done|]. cbn. destruct b as [|d b]; [done|].
  destruct (Z.eqb_spec d (ch ">")) as [->|]; [by destruct Hb|done].
Qed.

Lemma next_redir pre sp body t b junk : blank sp -> redir_head body t b ->
  next_token (pre ++ sp ++ body ++ 0 :: junk) (length pre) =
    Some (redir_len t, Token t (length (pre ++ sp)) (redir_len t)).
Proof.
  intros Hs [[-> ->]|[[-> ->]|[-> [-> Hb]]]]; cbn [app]; rewrite next_token_skip by done; [done|done|].
  cbn -[ch]. destruct b as [|d b]; [done|]. cbn -[ch]. destruct (Z.eqb_spec d (ch ">")) as [->|]; [by destruct Hb|done].
Qed.

(** A line is blank, or its first token is a word, or a redirection. *)
Lemma line_cases l : 0 ∉ l -> exists sp body, l = sp ++ body /\ blank sp /\
  (body = [] \/
   (exists w b, body = w ++ b /\ wordy w /\ w <> [] /\ ~ starts_word b) \/
   (exists t b, redir_head body t b)).
Proof.
  intros H0. destruct (split_blank l) as (sp & body & -> & Hs & Hb). exists sp, body. split; [done|]. split; [done|].
  destruct Hb as [->|(c & b & -> & Hc)]; [by left|right].
  destruct (word_char c) eqn:Ec.
  - left. destruct (split_word (c :: b)) as (w & b' & E & Hw & Hb). exists w, b'. repeat split; try done.
    intros ->. cbn in E. subst b'. apply Hb. by exists c, b.
  - right. destruct (not_word_char c Ec) as [H|[->| ->]].
    + apply Z.eqb_neq. intros ->. apply H0, elem_of_app. right. left.
    + congruence.
    + exists KTT_REDIRECT_IN, b. by left.
    + destruct b as [|d b]; [exists KTT_REDIRECT_OUT, []; right; right; done|].
      destruct (decide (d = ch ">")) as [->|Hne]; [exists KTT_REDIRECT_OUT_APPEND, b; by right; left|].
      exists KTT_REDIRECT_OUT, (d :: b). right; right. repeat split. cbn. congruence.
Qed.

(** ** The first pass: redirections *)

(** The words behind the scanner are [ws], whatever follows; a word may follow
    directly only when the rest of the line begins with one. *)
Definition behind (pre : list Z) (ws : list (list Z)) (rest : list Z) : Prop :=
  forall x, 0 ∉ x -> (starts_word x -> starts_word rest) -> lex [] (pre ++ x) = (TWord <$> ws) ++ lex [] x.

Lemma blank_no_word sp l : blank sp -> sp <> [] -> ~ starts_word (sp ++ l).
Proof.
  intros Hs Hne (c & l' & E & Hc). destruct Hs as [|d sp Hd _]; [done|].
  injection E as -> _. apply word_char_inv in Hc as [Hc _]. congruence.
Qed.

Lemma blank_no_nul sp : blank sp -> 0 ∉ sp.
Proof. intros Hs Hin%list_elem_of_In. by apply (proj1 (List.Forall_forall _ _) Hs) in Hin. Qed.

Lemma wordy_no_nul w : wordy w -> 0 ∉ w.
Proof. intros Hw Hin%list_elem_of_In. by apply (proj1 (List.Forall_forall _ _) Hw) in Hin. Qed.

Lemma behind_blank pre ws rest sp rest' : behind pre ws rest -> blank sp -> sp <> [] ->
  behind (pre ++ sp) ws rest'.
Proof.
  intros Hb Hs Hne x Hx _. rewrite <- app_assoc, Hb, lex_blank; [done|done| |].
  - rewrite elem_of_app. intros [?|?]; [by eapply blank_no_nul|done].
  - intros H. by apply blank_no_word in H.
Qed.

Lemma behind_word pre ws sp w rest : behind pre ws (sp ++ w ++ rest) -> blank sp -> wordy w -> w <> [] ->
  ~ starts_word rest -> behind (pre ++ sp ++ w) (ws ++ [w]) rest.
Proof.
  intros Hb Hs Hw Hne Hr x Hx Hsx. rewrite <- !app_assoc, Hb.
  - rewrite lex_blank, lex_word by tauto. by rewrite fmap_app, <- app_assoc.
  - rewrite !elem_of_app. intros [?|[?|?]]; [by eapply blank_no_nul|by eapply wordy_no_nul|done].
  - destruct sp as [|c sp]; [|intros H; by apply (blank_no_word (c :: sp)) in H].
    cbn. intros _. destruct w as [|c w]; [done|]. exists c, (w ++ rest). split; [done|]. by inversion Hw.
Qed.

Lemma memset_over (w y : list Z) c : memset (w ++ y) c (length w) = Some (replicate (length w) (s8 c) ++ y).
Proof. induction w as [|d w IH]; [by destruct y|]. cbn. by rewrite IH. Qed.

Lemma blank_spaces n : blank (replicate n (ch " ")).
Proof. by apply Forall_replicate. Qed.

Section Scan.
Context {W F : Type} `{SysCalls W}.
Implicit Types s : shell_state W F.

(** Everything but the scanner's own variables. *)
Definition keeps s s' : Prop :=
  s_sys s' = s_sys s /\ s_ksh s' = s_ksh s /\ kshell_commands_list s' = kshell_commands_list s /\
  s_args s' = s_args s.

Lemma keeps_trans s1 s2 s3 : keeps s1 s2 -> keeps s2 s3 -> keeps s1 s3.
Proof. unfold keeps. intuition congruence. Qed.

(** The redirection buffers hold the names of the plan. *)
Definition plan_ok s (p : plan) : Prop :=
  (exists r, s_rin s = p_in p ++ 0 :: r) /\ (exists r, s_rout s = p_out p ++ 0 :: r) /\
  s_append s = p_append p /\ length (s_rin s) = redirect_size /\ length (s_rout s) = redirect_size.

Lemma plan_ok_redirect s s' p t re f o r :
  plan_ok s p -> redirect_of t = Some re -> o = f ++ 0 :: r -> length o = redirect_size ->
  get_redirect (fst re) s' = o -> (forall q, q <> fst re -> get_redirect q s' = get_redirect q s) ->
  s_append s' = (match snd re with Some a => Some a | None => s_append s end) ->
  plan_ok s' (plan_redirect t f p).
Proof.
  intros (Hi & Ho & Ha & Hli & Hlo) Et Eo Hl Hget Hq Hap. unfold plan_redirect, plan_ok.
  destruct t; [done| | | |done]; injection Et as <-; cbn in *.
  - specialize (Hq ROut ltac:(done)). cbn in Hq. rewrite Hget, Hq, Hap, Eo. rewrite Eo in Hl. by repeat split; eauto.
  - specialize (Hq RIn ltac:(done)). cbn in Hq. rewrite Hget, Hq, Hap, Eo. rewrite Eo in Hl. by repeat split; eauto.
  - specialize (Hq RIn ltac:(done)). cbn in Hq. rewrite Hget, Hq, Hap, Eo. rewrite Eo in Hl. by repeat split; eauto.
Qed.

Lemma scrub_run s x w y t : s_buf s = x ++ w ++ y -> kt_text t = length x -> kt_textlen t = length w ->
  kshell_scrub_token t s = Done tt (set_buf (x ++ replicate (length w) (ch " ") ++ y) s).
Proof.
  intros Hb Ht Hl. unfold kshell_scrub_token, bind, gets. rewrite Hb, Ht, Hl, drop_buffer, memset_over. cbn -[s8].
  unfold splice. by rewrite take_app_length.
Qed.

Lemma next_token_run s line r : next_token (s_buf s) line = Some r -> kshell_next_token line s = Done r s.
Proof. intros E. unfold kshell_next_token, bind, gets. by rewrite E. Qed.

Lemma not_starts_word rest junk : 0 ∉ rest -> ~ starts_word rest ->
  exists c b, rest ++ 0 :: junk = c :: b /\ word_char c = false.
Proof.
  intros H0 Hr. destruct rest as [|c b]; [by exists 0, junk|]. exists c, (b ++ 0 :: junk). split; [done|].
  apply not_true_is_false. intros Hc. apply Hr. by exists c, b.
Qed.

Lemma next_word_line s pre sp w rest junk : s_buf s = pre ++ sp ++ w ++ rest ++ 0 :: junk ->
  blank sp -> wordy w -> w <> [] -> 0 ∉ rest -> ~ starts_word rest ->
  kshell_next_token (length pre) s =
    Done (length (sp ++ w), Token KTT_WORD (length (pre ++ sp)) (length w)) s.
Proof.
  intros Hb Hs Hw Hne H0 Hr. apply next_token_run. rewrite Hb.
  destruct (not_starts_word rest junk H0 Hr) as (c & b & -> & Hc). by apply next_word.
Qed.

(** The redirection's word: stored, and replaced with spaces. *)
Lemma redirect_name_run s re pre sp w rest junk : s_buf s = pre ++ sp ++ w ++ rest ++ 0 :: junk ->
  blank sp -> wordy w -> w <> [] -> 0 ∉ rest -> ~ starts_word rest ->
  (length w < length (get_redirect re s))%nat ->
  exists o r, o = w ++ 0 :: r /\ length o = length (get_redirect re s) /\
    redirect_name re (length pre) s =
      Done None (set_buf (pre ++ (sp ++ replicate (length w) (ch " ")) ++ rest ++ 0 :: junk) (set_redirect re o s)).
Proof.
  intros Hb Hs Hw Hne H0 Hr Hl. unfold redirect_name.
  erewrite bind_done by (by eapply next_word_line). cbn iota beta.
  rewrite length_app. destruct (length w) as [|n] eqn:En; [by destruct w|]. rewrite <- En in *.
  destruct (Nat.eqb_spec (length sp + length w) 0) as [|_]; [lia|]. rewrite bool_decide_eq_true_2 by done. cbn [orb negb].
  assert (0 ∉ w ++ rest) as H0'.
  { rewrite elem_of_app. intros [?|?]; [by eapply wordy_no_nul|done]. }
  destruct (strncpy_terminate (w ++ rest) junk (length w) (get_redirect re s) H0' Hl) as (o & r & Eo & Er & Lo).
  assert (drop (length (pre ++ sp)) (s_buf s) = (w ++ rest) ++ 0 :: junk) as Hd.
  { by rewrite Hb, app_assoc, drop_buffer, <- app_assoc. }
  unfold bind at 1 2 3, gets. cbn [kt_text kt_textlen]. rewrite Hd, Eo. cbn [deref]. unfold put.
  destruct (Nat.ltb_spec (length w) (length o)) as [_|]; [|lia].
  exists (<[length w := 0]> o), r. rewrite take_app_length in Er. split; [done|]. split; [by rewrite length_insert|].
  unfold bind at 1, deref. unfold bind at 1, modify.
  erewrite bind_done.
  2: { eapply (scrub_run _ (pre ++ sp) w (rest ++ 0 :: junk)); [|done|done]. destruct re; cbn; by rewrite Hb, <- !app_assoc. }
  by rewrite <- !app_assoc.
Qed.

Lemma redirect_name_bad s re line n t : next_token (s_buf s) line = Some (n, t) -> kt_type t <> KTT_WORD ->
  redirect_name re line s = bind (unexpected_token t) (fun e => ret (Some e)) s.
Proof.
  intros Hn Ht. unfold redirect_name. erewrite bind_done by (by apply next_token_run). cbn iota beta.
  rewrite bool_decide_eq_false_2 by done. by rewrite orb_true_r.
Qed.

(** The state when a redirection token has been replaced with spaces. *)
Definition scrubbed s (re : redirect * option Z) (b : list Z) : shell_state W F :=
  set_buf b (match snd re with Some a => set_append (Some a) s | None => s end).

Lemma loop_redir fuel s pre sp body t b junk re : s_buf s = pre ++ sp ++ body ++ 0 :: junk ->
  blank sp -> redir_head body t b -> redirect_of t = Some re ->
  exists sp' pre', blank sp' /\ length sp' = length sp /\ length pre' = (length pre + redir_len t)%nat /\
  (exists hd, pre' = pre ++ hd /\ blank hd /\ hd <> []) /\
  find_redirection_loop (S fuel) (length pre) s =
    bind (redirect_name (fst re) (length pre'))
      (fun e => match e with Some e => ret e | None => find_redirection_loop fuel (length pre') end)
      (scrubbed s re (pre' ++ sp' ++ b ++ 0 :: junk)).
Proof.
  intros Hb Hs Hbody Ht. set (k := redir_len t). set (all := sp ++ replicate k (ch " ")).
  assert (blank all) as Hall by (apply Forall_app; split; [done|apply blank_spaces]).
  assert (0 < k)%nat as Hk by (unfold k, redir_len; case_bool_decide; lia).
  assert (length all = (length sp + k)%nat) as Hla by (unfold all; by rewrite length_app, length_replicate).
  exists (drop k all), (pre ++ take k all). split; [by apply Forall_drop|]. split; [rewrite length_drop; lia|].
  rewrite length_app, length_take, Nat.min_l by lia. split; [done|]. split.
  { exists (take k all). split; [done|]. split; [by apply Forall_take|]. intros E. apply (f_equal length) in E.
    rewrite length_take in E. cbn in E. lia. }
  cbn [find_redirection_loop]. erewrite bind_done by (apply next_token_run; rewrite Hb; by eapply next_redir).
  cbn iota beta. fold k. destruct (Nat.eqb_spec k 0) as [|_]; [lia|]. cbn [kt_type].
  assert (t <> KTT_EOL /\ t <> KTT_WORD) as [He Hw] by (split; intros ->; done).
  rewrite (bool_decide_eq_false_2 (t = KTT_EOL)), (bool_decide_eq_false_2 (t = KTT_WORD)) by done.
  cbn [negb]. unfold bind at 1. cbn [kassert]. rewrite Ht. unfold bind at 1. cbn [deref].
  assert (exists x, length x = k /\ body = x ++ b) as (x & Hx & ->).
  { destruct Hbody as [[-> ->]|[[-> ->]|[-> [-> _]]]]; [by exists [ch "<"]|by exists [ch ">"; ch ">"]|by exists [ch ">"]]. }
  assert ((match snd re with Some a => modify (set_append (Some a)) | None => ret tt end) s =
          Done tt (match snd re with Some a => set_append (Some a) s | None => s end)) as Ha by (by destruct (snd re)).
  erewrite bind_done by exact Ha. erewrite bind_done.
  2: { eapply (scrub_run _ (pre ++ sp) x (b ++ 0 :: junk)); [|done|done].
       rewrite <- !app_assoc in *. by destruct (snd re). }
  unfold scrubbed. rewrite Hx. do 2 f_equal. rewrite <- !app_assoc. f_equal.
  rewrite (app_assoc (take k all)), take_drop. unfold all. by rewrite <- app_assoc.
Qed.

(** What the first pass does with the words [ws] behind it. *)
Definition first_pass s (n : nat) (ws : list (list Z)) (junk : list Z) (p : plan) (ts : list tok)
    (o : outcome (shell_state W F) Z) : Prop :=
  match parse p ts with
  | inr (ws', p') => exists s' line', o = Done 0 s' /\ s_buf s' = line' ++ 0 :: junk /\ length line' = n /\
      0 ∉ line' /\ lex [] line' = TWord <$> (ws ++ ws') /\ plan_ok s' p' /\ keeps s s'
  | inl u => exists s' t, o = unexpected_token t s' /\ kt_type t = u /\ keeps s s'
  end.

Lemma first_pass_keeps s s1 n ws junk p ts o : keeps s s1 -> first_pass s1 n ws junk p ts o ->
  first_pass s n ws junk p ts o.
Proof.
  unfold first_pass. intros Hk. destruct (parse p ts) as [u|[ws' p']].
  - intros (s' & t & ? & ? & ?). exists s', t. eauto using keeps_trans.
  - intros (s' & l & ? & ? & ? & ? & ? & ? & ?). exists s', l. repeat (split; [done|]). by eapply keeps_trans.
Qed.

Lemma first_pass_word s n ws w junk p ts o : first_pass s n (ws ++ [w]) junk p ts o ->
  first_pass s n ws junk p (TWord w :: ts) o.
Proof.
  unfold first_pass. cbn [parse]. destruct (parse p ts) as [u|[ws' p']]; [done|].
  by rewrite <- app_assoc.
Qed.

Lemma first_pass_redir s re junk p t b pre' sp' fuel n ws :
  0 ∉ b -> blank sp' -> redirect_of t = Some re -> plan_ok s p -> (length b < redirect_size)%nat ->
  (forall s1 rest f, s_buf s1 = pre' ++ rest ++ 0 :: junk -> 0 ∉ rest -> length rest = length (sp' ++ b) ->
     plan_ok s1 (plan_redirect t f p) ->
     first_pass s1 n ws junk (plan_redirect t f p) (lex [] rest) (find_redirection_loop fuel (length pre') s1)) ->
  first_pass s n ws junk p (TRedir t :: lex [] b)
    (bind (redirect_name (fst re) (length pre'))
       (fun e => match e with Some e => ret e | None => find_redirection_loop fuel (length pre') end)
       (scrubbed s re (pre' ++ sp' ++ b ++ 0 :: junk))).
Proof.
  intros H0 Hs' Ht Hp Hlb IH. destruct (line_cases b H0) as (sp & body & -> & Hs & Hcase).
  set (s1 := scrubbed _ _ _).
  assert (keeps s s1) as Hk by (unfold s1, scrubbed; by destruct (snd re)).
  assert (blank (sp' ++ sp)) as Hss by (by apply Forall_app).
  assert (forall x, (pre' ++ sp' ++ (sp ++ x) ++ 0 :: junk) = pre' ++ (sp' ++ sp) ++ x ++ 0 :: junk) as Easc
    by (intros x; by rewrite <- !app_assoc).
  assert (s_buf s1 = pre' ++ (sp' ++ sp) ++ body ++ 0 :: junk) as Hb1 by (rewrite <- Easc; by unfold s1, scrubbed; destruct (snd re)).
  assert (forall n0 u, next_token (s_buf s1) (length pre') = Some (n0, u) -> kt_type u <> KTT_WORD ->
    parse p (TRedir t :: lex [] (sp ++ body)) = inl (kt_type u) ->
    first_pass s n ws junk p (TRedir t :: lex [] (sp ++ body))
      (bind (redirect_name (fst re) (length pre'))
       (fun e => match e with Some e => ret e | None => find_redirection_loop fuel (length pre') end) s1)) as Hbad.
  { intros n0 u Hn Hu Hpar. unfold first_pass. rewrite Hpar. exists s1, u. split; [|done].
    unfold bind at 1. rewrite (redirect_name_bad s1 (fst re) _ n0 u) by done. unfold bind, ret. by destruct (unexpected_token u s1). }
  rewrite lex_blank in * by done. destruct Hcase as [->|[(w & r & -> & Hw & Hne & Hr)|(u & r & Hbody)]].
  - eapply Hbad; [rewrite Hb1; by apply next_eol|done|done].
  - apply not_elem_of_app in H0 as [H0s H0]. apply not_elem_of_app in H0 as [H0w H0r].
    destruct Hp as (Hi & Ho & Ha & Hli & Hlo). rewrite !length_app in Hlb.
    assert (length (get_redirect (fst re) s1) = redirect_size) as Hlen
      by (unfold s1, scrubbed; destruct (snd re), (fst re); done).
    rewrite <- (app_assoc w) in Hb1.
    destruct (redirect_name_run s1 (fst re) pre' (sp' ++ sp) w r junk) as (o & q & Eo & Lo & E); try done; [rewrite Hlen; lia|].
    erewrite bind_done by exact E. rewrite lex_word by done. cbn [parse].
    apply (first_pass_keeps _ (set_buf (pre' ++ ((sp' ++ sp) ++ replicate (length w) (ch " ")) ++ r ++ 0 :: junk) (set_redirect (fst re) o s1))).
    { eapply keeps_trans; [exact Hk|]. by destruct (fst re). }
    specialize (IH (set_buf (pre' ++ ((sp' ++ sp) ++ replicate (length w) (ch " ")) ++ r ++ 0 :: junk) (set_redirect (fst re) o s1))
      (((sp' ++ sp) ++ replicate (length w) (ch " ")) ++ r) w).
    rewrite lex_blank in IH by (apply Forall_app; split; [done|apply blank_spaces]). apply IH.
    + cbn. by rewrite <- !app_assoc.
    + rewrite elem_of_app. intros [Hin|?]; [|done]. revert Hin. apply blank_no_nul, Forall_app. split; [done|apply blank_spaces].
    + rewrite !length_app, length_replicate. lia.
    + eapply (plan_ok_redirect s _ p t re w o q); try done; [lia|by destruct (fst re)| |].
      * intros [] Hq; unfold s1, scrubbed; destruct (fst re), (snd re); done.
      * unfold s1, scrubbed. destruct (fst re), (snd re); done.
  - eapply Hbad; [rewrite Hb1; by eapply next_redir|by destruct Hbody as [[-> _]|[[-> _]|[-> _]]]|].
    by rewrite (lex_redir _ _ _ Hbody).
Qed.

Lemma find_loop_run fuel : forall s pre rest junk ws p,
  s_buf s = pre ++ rest ++ 0 :: junk -> 0 ∉ pre -> 0 ∉ rest -> behind pre ws rest -> plan_ok s p ->
  (length rest < fuel)%nat -> (length rest <= redirect_size)%nat ->
  first_pass s (length pre + length rest) ws junk p (lex [] rest) (find_redirection_loop fuel (length pre) s).
Proof.
  induction fuel as [|fuel IH]; intros s pre rest junk ws p Hb Hpre H0 Hbeh Hp Hf Hm; [lia|].
  destruct (line_cases rest H0) as (sp & body & -> & Hs & Hcase). rewrite lex_blank by done.
  destruct Hcase as [->|[(w & r & -> & Hw & Hne & Hr)|(t & b & Hbody)]].
  - exists s, (pre ++ sp). cbn [find_redirection_loop]. rewrite app_nil_r in *.
    erewrite bind_done by (apply next_token_run; rewrite Hb; by apply next_eol). cbn iota beta.
    rewrite length_app, <- app_assoc. repeat (split; [done|]). split; [by rewrite not_elem_of_app|]. split.
    { rewrite app_nil_r. rewrite Hbeh by done. by rewrite <- (app_nil_r sp), lex_blank, app_nil_r. }
    done.
  - apply not_elem_of_app in H0 as [H0s [H0w H0r]%not_elem_of_app]. rewrite lex_word by done.
    rewrite <- !app_assoc in Hb. cbn [find_redirection_loop].
    erewrite bind_done by (by eapply next_word_line). cbn iota beta.
    destruct (Nat.eqb_spec (length (sp ++ w)) 0) as [E|_]; [by destruct sp, w|].
    unfold bind at 1. cbn [kt_type]. rewrite !bool_decide_eq_false_2, bool_decide_eq_true_2 by done. cbn [negb kassert].
    rewrite <- (length_app pre (sp ++ w)). apply first_pass_word.
    replace (length pre + length (sp ++ w ++ r))%nat with (length (pre ++ sp ++ w) + length r)%nat
      by (rewrite !length_app; lia).
    apply IH; try done; [by rewrite <- !app_assoc|by rewrite !not_elem_of_app|by apply behind_word| |];
      rewrite !length_app in *; destruct w; [done|cbn in *; lia|done|lia].
  - assert (exists re, redirect_of t = Some re) as [re Ht].
    { destruct Hbody as [[-> _]|[[-> _]|[-> _]]]; eauto. }
    rewrite <- app_assoc in Hb. rewrite (lex_redir _ _ _ Hbody). pose proof (redir_length _ _ _ Hbody) as Hlen.
    assert (0 < redir_len t)%nat as Hk by (unfold redir_len; case_bool_decide; lia).
    destruct (loop_redir fuel s pre sp body t b junk re Hb Hs Hbody Ht)
      as (sp' & pre' & Hs' & Hls & Hlp & (hd & -> & Hhd & Hhne) & E).
    rewrite E. apply not_elem_of_app in H0 as [H0s H0b].
    assert (0 ∉ b) as H0b' by (destruct Hbody as [[_ ->]|[[_ ->]|[_ [-> _]]]]; rewrite !not_elem_of_cons in H0b; tauto).
    rewrite length_app in Hf, Hm. apply first_pass_redir; try done; [lia|].
    intros s1 rest f Hb1 Hr0 Hlr Hp1. rewrite length_app in Hlr.
    replace (length pre + length (sp ++ body))%nat with (length (pre ++ hd) + length rest)%nat by (rewrite Hlp, (length_app sp body); lia).
    apply IH; try done; [|by eapply behind_blank|lia|lia].
    rewrite not_elem_of_app. split; [done|by apply blank_no_nul].
Qed.

(** ** The second pass: arguments *)

(** The pointers of [args] point to the words [ws], each with its terminator. *)
Definition args_ok (b : list Z) (args : list (option nat)) (ws : list (list Z)) : Prop :=
  forall k w, ws !! k = Some w -> exists a r, args !! k = Some (Some a) /\ drop a b = w ++ 0 :: r.

Lemma args_ok_app b x args ws : args_ok b args ws -> args_ok (b ++ x) args ws.
Proof.
  intros Hok k w Hk. destruct (Hok k w Hk) as (a & r & Ha & Hd). exists a, (r ++ x). split; [done|].
  rewrite drop_app_le, Hd, <- app_assoc; [done|]. apply (f_equal length) in Hd.
  rewrite length_drop, length_app in Hd. cbn in Hd. lia.
Qed.

Lemma args_ok_snoc b args ws w a r : args_ok b args ws -> (length ws < length args)%nat ->
  drop a b = w ++ 0 :: r -> args_ok b (<[length ws := Some a]> args) (ws ++ [w]).
Proof.
  intros Hok Hl Hd k v Hk. apply lookup_app_Some in Hk as [Hk|[Hk1 Hk2]].
  - destruct (Hok k v Hk) as (a' & r' & Ha & ?). exists a', r'. split; [|done].
    apply lookup_lt_Some in Hk. by rewrite list_lookup_insert_ne by lia.
  - apply list_lookup_singleton_Some in Hk2 as [Hk2 <-]. exists a, r. split; [|done].
    replace k with (length ws) by lia. by apply list_lookup_insert_eq.
Qed.

(** A line that is all words. *)
Lemma words_cases rest ws : 0 ∉ rest -> lex [] rest = TWord <$> ws ->
  (ws = [] /\ blank rest) \/
  (exists sp w b ws', rest = sp ++ w ++ b /\ blank sp /\ wordy w /\ w <> [] /\ ~ starts_word b /\ ws = w :: ws' /\
     lex [] b = TWord <$> ws').
Proof.
  intros H0 Hl. destruct (line_cases rest H0) as (sp & body & -> & Hs & Hc). rewrite lex_blank in Hl by done.
  destruct Hc as [->|[(w & b & -> & Hw & Hne & Hb)|(t & b & Hb)]].
  - left. rewrite app_nil_r. by destruct ws.
  - right. rewrite !not_elem_of_app in H0. rewrite lex_word in Hl by tauto.
    destruct ws as [|v ws']; [done|]. injection Hl as <- Hl. by exists sp, w, b, ws'.
  - rewrite (lex_redir _ _ _ Hb) in Hl. by destruct ws.
Qed.

(** What follows a word of such a line: its end, or a space. *)
Lemma after_word b ws : 0 ∉ b -> ~ starts_word b -> lex [] b = TWord <$> ws ->
  b = [] \/ exists c b', b = c :: b' /\ isspace c = true /\ lex [] b' = TWord <$> ws.
Proof.
  intros H0 Hb Hl. destruct b as [|c b]; [by left|right]. exists c, b. split; [done|].
  assert (isspace c = true) as Es; [|by cbn [lex] in Hl; rewrite Es in Hl].
  destruct (words_cases _ _ H0 Hl) as [[_ Hs]|(sp & w & b' & ws' & E & Hs & Hw & Hne & _)]; [by inversion Hs|].
  destruct Hs as [|d sp Hd _]; [|by injection E as -> _].
  destruct w as [|d w]; [done|]. destruct Hb. exists c, b. split; [done|]. injection E as -> _. by inversion Hw.
Qed.

Lemma find_next_arg_run s n pre sp w c b : s_buf s = pre ++ sp ++ w ++ c :: b ->
  blank sp -> wordy w -> w <> [] -> word_char c = false -> (n < length (s_args s))%nat ->
  (c = 0 -> b <> []) ->
  exists b', (if c =? 0 then b' = 0 :: tail b else b' = b) /\
  kshell_find_next_arg (length pre) n s =
    Done (length (sp ++ w), length w, length (pre ++ sp))
      (set_buf ((pre ++ sp ++ w ++ [0]) ++ b') (set_args (<[n := Some (length (pre ++ sp))]> (s_args s)) s)).
Proof.
  intros Hb Hs Hw Hne Hc Hn Hc0. unfold kshell_find_next_arg.
  erewrite bind_done by (apply next_token_run; rewrite Hb; by apply next_word). cbn iota beta.
  destruct (Nat.eqb_spec (length (sp ++ w)) 0) as [E|_]; [by destruct sp, w|].
  cbn [kt_type]. rewrite bool_decide_eq_true_2 by done. unfold bind, gets, modify, put, ret. cbn [kassert kt_text kt_textlen].
  destruct (Nat.ltb_spec n (length (s_args s))) as [_|]; [|lia]. cbn [deref s_buf set_args].
  assert (s_buf s = (pre ++ sp ++ w) ++ c :: b) as Hb' by (by rewrite Hb, <- !app_assoc).
  rewrite <- length_app, Hb', lookup_buffer. cbn [deref]. destruct (Z.eqb_spec c 0) as [->|Hne0].
  - destruct b as [|d b]; [by destruct Hc0|]. exists (0 :: b). split; [done|].
    destruct (Nat.ltb_spec (length (pre ++ sp ++ w) + 1) (length ((pre ++ sp ++ w) ++ 0 :: d :: b))) as [_|Hlt].
    2: { rewrite length_app in Hlt. cbn in Hlt. lia. }
    cbn [deref]. do 2 f_equal. rewrite insert_app_r. by rewrite <- !app_assoc.
  - exists b. split; [done|].
    destruct (Nat.ltb_spec (length (pre ++ sp ++ w)) (length ((pre ++ sp ++ w) ++ c :: b))) as [_|Hlt].
    2: { rewrite length_app in Hlt. cbn in Hlt. lia. }
    cbn [deref]. do 2 f_equal. rewrite <- (Nat.add_0_r (length (pre ++ sp ++ w))), insert_app_r.
    cbn. by rewrite <- !app_assoc.
Qed.
End Scan.
End KShellSpec.
