(* ===== verification/KShellLine.v ===== *)
(** * A command line from the buffer to the command

    The two passes over the line composed, the command they call, and the
    streams a redirection opens and closes. *)

From Stdlib Require Import ZArith Lia Ascii String.
From stdpp Require Import base list option.
From S2P Require Import Prelude KString Printf KShell KShellSpec.
Import KString Printf KShell KShellSpec.

Module KShellLine.
Local Open Scope Z_scope.

Create HintDb shell discriminated.

Section Line.
Context {W F : Type} `{SysCalls W}.
Implicit Types s : shell_state W F.

(** Everything but the line and the arguments. *)
Definition keeps_sys s s' : Prop :=
  s_sys s' = s_sys s /\ s_ksh s' = s_ksh s /\ kshell_commands_list s' = kshell_commands_list s.

Lemma get_args_loop_run fuel max : forall s pre rest junk done ws,
  s_buf s = pre ++ rest ++ 0 :: junk -> 0 ∉ rest -> lex [] rest = TWord <$> ws ->
  ws = [] \/ junk <> [] -> args_ok pre (s_args s) done ->
  (max <= length (s_args s))%nat -> (length done + length ws <= max)%nat -> (length ws < fuel)%nat ->
  exists s', get_args_loop fuel max (length pre) (length done) s = Done (length (done ++ ws)) s' /\
    args_ok (s_buf s') (s_args s') (done ++ ws) /\ keeps_sys s s'.
Proof.
  induction fuel as [|fuel IH]; intros s pre rest junk done ws Hb H0 Hl Hj Hok Hm Hn Hf; [lia|].
  cbn [get_args_loop]. destruct (words_cases rest ws H0 Hl) as [[-> Hs]|(sp & w & b & ws' & -> & Hs & Hw & Hne & Hnb & -> & Hl')].
  - exists s. rewrite app_nil_r. unfold kshell_find_next_arg, bind at 1.
    erewrite bind_done by (apply next_token_run; rewrite Hb; by apply next_eol). cbn iota beta.
    split; [done|]. split; [rewrite Hb; by apply args_ok_app|done].
  - destruct Hj as [|Hj]; [done|]. rewrite !not_elem_of_app in H0. destruct H0 as (_ & _ & H0b). cbn [length] in *.
    rewrite <- !app_assoc in Hb. destruct (not_starts_word b junk H0b Hnb) as (c & r & Ecr & Hc).
    rewrite Ecr in Hb. assert (c = 0 -> r <> []) as Hcr.
    { intros ->. destruct b as [|d b]; [by injection Ecr as <-|]. injection Ecr as -> _. destruct H0b. left. }
    destruct (find_next_arg_run s (length done) pre sp w c r) as (b' & Hb' & E); try done; [lia|].
    erewrite bind_done by exact E. cbn iota beta.
    destruct (Nat.eqb_spec (length (sp ++ w)) 0) as [E0|_]; [by destruct sp, w|].
    destruct (Nat.ltb_spec (length done) max) as [_|]; [|lia]. cbn [orb negb].
    set (s1 := set_buf _ _) in *. set (pre1 := pre ++ sp ++ w ++ [0]).
    replace (length (pre ++ sp) + length w + 1)%nat with (length pre1) by (unfold pre1; rewrite !length_app; cbn; lia).
    replace (S (length done)) with (length (done ++ [w])) by (rewrite length_app; cbn; lia).
    replace (done ++ w :: ws') with ((done ++ [w]) ++ ws') by (by rewrite <- app_assoc).
    assert (args_ok pre1 (s_args s1) (done ++ [w])) as Hok1.
    { apply (args_ok_snoc pre1 (s_args s) done w _ []); [by apply args_ok_app|lia|].
      unfold pre1. by rewrite (app_assoc pre), drop_buffer. }
    assert (length (s_args s1) = length (s_args s)) as Hla by (cbn; by rewrite length_insert).
    assert (exists rest1 junk1, s_buf s1 = pre1 ++ rest1 ++ 0 :: junk1 /\ 0 ∉ rest1 /\ lex [] rest1 = TWord <$> ws' /\
              (ws' = [] \/ junk1 <> [])) as (rest1 & junk1 & Hb1 & H01 & Hl1 & Hj1).
    { destruct (after_word b ws' H0b Hnb Hl') as [->|(d & b2 & -> & Hd & Hl2)].
      - exists [], (list.tail r). injection Ecr as <- <-. cbn in Hb'. subst b'. repeat split; [by apply not_elem_of_nil|done|].
        left. by destruct ws'.
      - exists b2, junk. injection Ecr as -> <-. apply not_elem_of_cons in H0b as [Hc0 H0b].
        destruct (Z.eqb_spec c 0) as [->|_]; [done|]. subst b'. by repeat split; try right. }
    destruct (IH s1 pre1 rest1 junk1 (done ++ [w]) ws') as (s' & E' & Hok' & Hk); try done;
      [lia|rewrite length_app; cbn; lia|lia|]. by exists s'.
Qed.

(** The arguments are the words of the line, in order. *)
Lemma get_args_run s line junk ws : s_buf s = line ++ 0 :: junk -> 0 ∉ line -> lex [] line = TWord <$> ws ->
  junk <> [] -> length (s_args s) = KSH_MAX_ARGS -> (length ws <= KSH_MAX_ARGS)%nat ->
  exists s', kshell_get_args KSH_MAX_ARGS s = Done (length ws) s' /\
    args_ok (s_buf s') (s_args s') ws /\ keeps_sys s s'.
Proof.
  intros Hb H0 Hl Hj Ha Hn. unfold kshell_get_args, bind, kassert. cbn [Nat.ltb Nat.leb KSH_MAX_ARGS].
  destruct (get_args_loop_run (S KSH_MAX_ARGS) KSH_MAX_ARGS s [] line junk [] ws) as (s' & E & Hok); try done;
    [by right|by rewrite Ha|lia|]. by exists s'.
Qed.

(** ** Commands by name *)
Definition string_ok (n : list Z) : Prop := 0 ∉ n /\ Forall is_char n.

(** A command as [kshell_command_create] leaves it. *)
Definition command_ok (c : command F) : Prop :=
  exists n r, kc_name c = n ++ 0 :: r /\ string_ok n.

Definition cname (c : command F) : list Z := match strlen (kc_name c) with Some n => take n (kc_name c) | None => [] end.

Lemma cname_stored c n r : kc_name c = n ++ 0 :: r -> 0 ∉ n -> cname c = n.
Proof. intros E H0. unfold cname. rewrite E, strlen_cstring by done. by rewrite take_app_length. Qed.

Lemma strnlen_string n r k : 0 ∉ n -> strnlen (n ++ 0 :: r) k = Some (Nat.min k (length n)).
Proof.
  intros H0. revert k. induction n as [|c n IH]; intros [|k]; cbn [app strnlen length]; [done|done|done|].
  apply not_elem_of_cons in H0 as [Hc H0]. destruct (Z.eqb_spec c 0); [congruence|]. by rewrite IH.
Qed.

Lemma strncmp_strings k : forall a b r q, string_ok a -> string_ok b ->
  exists v, strncmp (a ++ 0 :: r) (b ++ 0 :: q) k = Some v /\ (v = 0 <-> take k a = take k b).
Proof.
  assert (is_char 0) as Hz by (unfold is_char; lia). unfold strncmp.
  induction k as [|k IH]; intros a b r q [Na Ha] [Nb Hb]; [by exists 0|].
  destruct a as [|c a], b as [|d b]; cbn [app strncmp_loop take firstn].
  - by exists 0.
  - apply Forall_cons_1 in Hb as [Hd _]. apply not_elem_of_cons in Nb as [Hd0 _].
    pose proof (s8_zero 0 d Hz Hd) as H8. destruct (Z.eqb_spec (s8 (0 - d)) 0) as [E|E]; [tauto|].
    eexists. split; [done|]. by split.
  - apply Forall_cons_1 in Ha as [Hc _]. apply not_elem_of_cons in Na as [Hc0 _].
    pose proof (s8_zero c 0 Hc Hz) as H8. destruct (Z.eqb_spec (s8 (c - 0)) 0) as [E|E]; [destruct Hc0; symmetry; tauto|].
    eexists. split; [done|]. by split.
  - apply Forall_cons_1 in Ha as [Hc Ha], Hb as [Hd Hb].
    apply not_elem_of_cons in Na as [Hc0 Na], Nb as [Hd0 Nb]. pose proof (s8_zero c d Hc Hd) as H8.
    destruct (Z.eqb_spec (s8 (c - d)) 0) as [E|E]; cbn [negb orb].
    + destruct (Z.eqb_spec c 0); [congruence|]. destruct (IH a b r q) as (v & Ev & Hv); [by split|by split|].
      rewrite E, Ev. exists v. rewrite (proj1 H8 E). split; [done|]. by apply cons_iff.
    + eexists. split; [done|]. split; [done|]. intros [= -> _]. exfalso. by apply E, H8.
Qed.

Lemma take_prefix (n a : list Z) : take (length n) a = n <-> n `prefix_of` a.
Proof.
  split; [|intros [k ->]; by rewrite take_app_length]. intros E. exists (drop (length n) a).
  rewrite <- E at 1. by rewrite take_drop.
Qed.

Lemma command_matches_spec c name r k : command_ok c -> string_ok name -> (k <= length name)%nat ->
  command_matches (name ++ 0 :: r) k c = Some (bool_decide (take k name `prefix_of` cname c)).
Proof.
  intros (n & q & En & Hn) Hname Hk. unfold command_matches. rewrite (cname_stored c n q En) by apply Hn.
  assert (length (take k name) = k) as Hlk by (rewrite length_take; lia).
  rewrite En. destruct (strncmp_strings k n name q r Hn Hname) as (v & -> & Hv). cbn [mbind option_bind].
  assert (v = 0 <-> take k name `prefix_of` n) as Hp by (by rewrite Hv, <- take_prefix, Hlk).
  destruct (Z.eqb_spec v 0) as [->|Hne].
  - rewrite strnlen_string by apply Hn. cbn [mbind option_bind]. f_equal.
    apply bool_decide_ext. split; [tauto|]. intros Hpre%prefix_length. lia.
  - by rewrite bool_decide_eq_false_2 by tauto.
Qed.

(** The first command whose name begins with the given one, of which at most
    [KSH_CMD_NAME_LEN] chars count. *)
Lemma lookup_run l name r : Forall command_ok l -> string_ok name ->
  kshell_lookup_command l (name ++ 0 :: r) (length name) =
    Some (head (filter (fun c => take KSH_CMD_NAME_LEN name `prefix_of` cname c) l)).
Proof.
  intros Hl Hn. unfold kshell_lookup_command. set (k := if (_ <? _)%nat then _ else _).
  assert (k <= length name /\ take k name = take KSH_CMD_NAME_LEN name)%nat as [Hk Et].
  { unfold k. destruct (Nat.ltb_spec KSH_CMD_NAME_LEN (length name)); split; try done; [lia|].
    by rewrite !take_ge by lia. }
  induction Hl as [|c l Hc _ IH]; [done|]. cbn [find_command]. rewrite command_matches_spec by done.
  cbn [mbind option_bind]. rewrite Et, filter_cons. by case_bool_decide; case_decide.
Qed.

(** ** The line *)
Definition exits (w : list Z) : bool := bool_decide (w `prefix_of` codes "exit").

Context (call : F -> nat -> kern (shell_state W F) Z).

Lemma argv_run s k ws w : args_ok (s_buf s) (s_args s) ws -> ws !! k = Some w ->
  exists r, argv k s = Done (w ++ 0 :: r) s.
Proof.
  intros Hok Hk. destruct (Hok k w Hk) as (a & r & Ha & Hd). exists r.
  unfold argv, bind, gets, ret. rewrite Ha. cbn [deref]. by rewrite Hd.
Qed.

Lemma cstr_run s w r : 0 ∉ w -> cstr (w ++ 0 :: r) s = Done w s.
Proof. intros H0. unfold cstr, bind. rewrite strlen_cstring by done. cbn. by rewrite take_app_length. Qed.

(** The first word selects the command. *)
Lemma run_command_run s w ws argc nbytes : args_ok (s_buf s) (s_args s) (w :: ws) -> string_ok w ->
  Forall command_ok (kshell_commands_list s) ->
  run_command call argc nbytes s =
    (if exits w then Done 0 s
     else match head (filter (fun c => take KSH_CMD_NAME_LEN w `prefix_of` cname c) (kshell_commands_list s)) with
          | None => (kprintf "kshell: %s not a valid command
" [PStr w] ;; ret nbytes) s
          | Some c => (let* retval := call (kc_cmd_func c) argc in ret (if retval <? 0 then retval else nbytes)) s
          end).
Proof.
  intros Hok Hw Hc. destruct (argv_run s 0 _ w Hok eq_refl) as [r Ea]. unfold run_command.
  erewrite bind_done by exact Ea. unfold bind at 1 2. rewrite strlen_cstring by apply Hw. cbn [deref].
  destruct (strncmp_strings (length w) w (codes "exit") r [] Hw) as (v & -> & Hv).
  { by split; [apply no_nul|apply chars_of]. }
  cbn [deref]. assert (v = 0 <-> w `prefix_of` codes "exit") as Hp.
  { rewrite Hv, <- take_prefix, take_ge by lia. by split. }
  unfold exits. destruct (Z.eqb_spec v 0) as [->|Hne]; case_bool_decide; try tauto.
  unfold bind at 1 2, gets. rewrite lookup_run by done. cbn [deref]. destruct (head _) as [c|]; [done|].
  erewrite bind_done by (apply cstr_run, Hw). done.
Qed.

(** ** Code that leaves the line alone *)

(** [m] changes at most the system and the shell's descriptors; [quiet m] not
    even those descriptors. *)
Definition same_line s s' : Prop :=
  kshell_commands_list s' = kshell_commands_list s /\ s_buf s' = s_buf s /\ s_rin s' = s_rin s /\
  s_rout s' = s_rout s /\ s_append s' = s_append s /\ s_args s' = s_args s.

Definition framed {A} (R : shell_state W F -> shell_state W F -> Prop) (m : kern (shell_state W F) A) : Prop :=
  forall s a s', m s = Done a s' -> R s s'.

Definition quiet_line s s' : Prop := same_line s s' /\ s_ksh s' = s_ksh s.

#[global] Instance same_line_preorder : PreOrder same_line.
Proof. split; [by intros s|]. unfold same_line. intros s1 s2 s3. intuition congruence. Qed.
#[global] Instance quiet_line_preorder : PreOrder quiet_line.
Proof. split; [by intros s|]. unfold quiet_line, same_line. intros s1 s2 s3. intuition congruence. Qed.

Lemma framed_bind {A B} R `{!PreOrder R} (m : kern (shell_state W F) A) (f : A -> kern (shell_state W F) B) :
  framed R m -> (forall a, framed R (f a)) -> framed R (bind m f).
Proof. intros Hm Hf s b s' (a & s1 & E1 & E2)%bind_inv. etransitivity; [by eapply Hm|by eapply Hf]. Qed.

Lemma framed_ret {A} R `{!PreOrder R} (a : A) : framed R (ret a).
Proof. intros s b s' [= _ <-]. reflexivity. Qed.

Lemma framed_gets {A} R `{!PreOrder R} (f : shell_state W F -> A) : framed R (gets f).
Proof. intros s b s' [= _ <-]. reflexivity. Qed.

Lemma framed_deref {A} R `{!PreOrder R} (o : option A) : framed R (deref o).
Proof. intros s b s'. destruct o; [|done]. intros [= _ <-]. reflexivity. Qed.

Lemma framed_panic {A} R : framed (A := A) R panic.
Proof. by intros s b s'. Qed.

Lemma framed_if {A} R (b : bool) (m1 m2 : kern (shell_state W F) A) : framed R m1 -> framed R m2 -> framed R (if b then m1 else m2).
Proof. by destruct b. Qed.

Lemma quiet_sys {A} (m : kern W A) : framed quiet_line (sys m).
Proof. intros s a s'. unfold sys. destruct (m (s_sys s)) as [x w| | |]; [|done..]. by intros [= _ <-]. Qed.

Lemma framed_quiet {A} (m : kern (shell_state W F) A) : framed quiet_line m -> framed same_line m.
Proof. intros Hm s a s' E. by apply Hm in E as [? _]. Qed.

Lemma framed_ksh k : framed same_line (modify (set_ksh k)).
Proof. by intros s a s' [= _ <-]. Qed.

#[local] Hint Resolve framed_bind framed_ret framed_gets framed_deref framed_panic framed_if quiet_sys framed_ksh
  same_line_preorder quiet_line_preorder : shell.

Ltac framed := repeat first [apply framed_bind; [typeclasses eauto| |intros ?]|apply framed_if|eauto with shell].

Lemma quiet_kprintf fmt args : framed quiet_line (kprintf fmt args).
Proof. unfold kprintf, kshell_write. framed. Qed.
#[local] Hint Resolve quiet_kprintf : shell.

Lemma framed_undirect : framed same_line kshell_undirect.
Proof. unfold kshell_undirect. framed; apply framed_quiet; framed. Qed.

Lemma framed_redirect i o a : framed same_line (kshell_redirect i o a).
Proof.
  unfold kshell_redirect, redirect_output, open_error, cstr.
  framed; first [apply framed_undirect|apply framed_quiet; framed].
Qed.

(** ** The streams *)

(** Neither stream is redirected. *)
Definition undirected s : Prop := ksh_in_fd (s_ksh s) = ksh_fd (s_ksh s) /\ ksh_out_fd (s_ksh s) = ksh_fd (s_ksh s).

Lemma undirect_run s u s' : kshell_undirect s = Done u s' -> undirected s'.
Proof.
  unfold kshell_undirect. intros (k & s0 & [= <- <-] & E)%bind_inv. apply bind_inv in E as (u1 & s1 & E1 & E).
  assert (ksh_in_fd (s_ksh s1) = ksh_fd (s_ksh s1)) as Hin.
  { destruct (Z.eqb_spec (ksh_in_fd (s_ksh s)) (ksh_fd (s_ksh s))) as [Heq|_]; cbn [negb] in E1.
    - by injection E1 as _ <-.
    - apply bind_inv in E1 as (r & s2 & _ & E1). destruct (r <? 0); [done|]. by injection E1 as _ <-. }
  apply bind_inv in E as (k & s2 & [= <- <-] & E).
  destruct (Z.eqb_spec (ksh_out_fd (s_ksh s1)) (ksh_fd (s_ksh s1))) as [Heq|_]; cbn [negb] in E.
  - by injection E as _ <-.
  - apply bind_inv in E as (r & s3 & E3 & E). destruct (r <? 0); [done|]. injection E as _ <-. cbn.
    by apply quiet_sys in E3 as [_ _].
Qed.

Lemma open_error_run s name fd r s' : open_error name fd s = Done r s' -> undirected s'.
Proof.
  unfold open_error. intros (t & s1 & _ & E)%bind_inv. apply bind_inv in E as (u & s2 & _ & E).
  apply bind_inv in E as (v & s3 & E3 & [= _ <-]). by eapply undirect_run.
Qed.

(** a redirection that fails leaves both streams on the terminal. *)
Theorem kshell_redirect_error s i o a r s' :
  kshell_redirect i o a s = Done r s' -> r < 0 -> undirected s'.
Proof.
  assert (forall s, redirect_output a o s = Done r s' -> r < 0 -> undirected s') as Hout.
  { intros s0 (c & s1 & _ & E)%bind_inv. destruct (negb (c =? 0)).
    - apply bind_inv in E as (x & s2 & _ & E). apply bind_inv in E as (fd & s3 & _ & E). destruct (fd <? 0).
      + intros _. by eapply open_error_run.
      + apply bind_inv in E as (k & s4 & _ & E). apply bind_inv in E as (u & s5 & _ & [= <- _]). lia.
    - injection E as <- _. lia. }
  unfold kshell_redirect. intros (c & s1 & _ & E)%bind_inv. destruct (negb (c =? 0)); [|by eapply Hout].
  apply bind_inv in E as (fd & s2 & _ & E). destruct (fd <? 0); [intros _; by eapply open_error_run|].
  apply bind_inv in E as (k & s3 & _ & E). apply bind_inv in E as (u & s4 & _ & E). by eapply Hout.
Qed.

(** ** A whole line *)
Definition no_plan : plan := Plan [] [] None.

(** The state in which a line is executed: the line is in the buffer with at
    least one byte after its terminator. *)
Definition at_line s (line : list Z) : Prop :=
  (exists junk, s_buf s = line ++ 0 :: junk /\ junk <> []) /\ 0 ∉ line /\ (length line <= redirect_size)%nat /\
  length (s_rin s) = redirect_size /\ length (s_rout s) = redirect_size /\ s_append s = None /\
  length (s_args s) = KSH_MAX_ARGS.

(** The state after the first pass, up to [s0]. *)
Lemma find_redirection_run s line : at_line s line ->
  exists i o, put (s_rin s) 0%nat 0 = Some i /\ put (s_rout s) 0%nat 0 = Some o /\
  let s0 := set_redirect ROut o (set_redirect RIn i s) in
  exists junk, junk <> [] /\ first_pass s (length line) [] junk no_plan (lex [] line) (kshell_find_redirection s0).
Proof.
  intros ((junk & Hb & Hj) & H0 & Hl & Hi & Ho & Ha & _).
  assert (forall o : list Z, length o = redirect_size -> exists r, put o 0%nat 0 = Some (0 :: r) /\ length (0 :: r) = redirect_size) as Hput.
  { intros [|c r] Hlen; [done|]. exists r. split; [done|by rewrite <- Hlen]. }
  destruct (Hput _ Hi) as (i & -> & Li), (Hput _ Ho) as (o & -> & Lo). exists (0 :: i), (0 :: o). split; [done|]. split; [done|].
  cbn zeta. set (s0 := set_redirect ROut _ _). exists junk. split; [done|].
  apply (first_pass_keeps s s0); [done|]. unfold kshell_find_redirection, bind, gets.
  apply (find_loop_run _ s0 [] line junk [] no_plan); try done; [by apply not_elem_of_nil| |].
  - unfold plan_ok. cbn. repeat split; eauto.
  - cbn. rewrite Hb, length_app. lia.
Qed.

(** a line with a redirection that is not followed by a word prints a
    message that names the token found and executes nothing. *)
Theorem execute_line_unexpected s line n u : at_line s line -> parse no_plan (lex [] line) = inl u ->
  exists s1, keeps s s1 /\
    execute_line call n s = (kprintf "kshell: Unexpected token '%s'
" [PStr (kshell_token_type_str u)] ;; ret n) s1.
Proof.
  intros Hs Hp. destruct (find_redirection_run s line Hs) as (i & o & Ei & Eo & junk & Hj & Hf).
  unfold first_pass in Hf. rewrite Hp in Hf. destruct Hf as (s1 & t & Ef & <- & Hk). exists s1. split; [done|].
  unfold execute_line. unfold bind at 1 2 3 4, gets. rewrite Ei, Eo. cbn [deref].
  unfold bind at 1 2, modify. unfold bind at 1. rewrite Ef. unfold unexpected_token, bind, ret.
  by destruct (kprintf _ _ s1).
Qed.

(** C4: a line is executed as the reference reads it.  After its redirections
    have been made, the command is called with the words of the line that are
    left as its arguments: the command is the first whose name begins with the
    first word, and a first word that is a prefix of ["exit"] ends the shell. *)
Theorem execute_line_spec s line n w ws p :
  at_line s line -> parse no_plan (lex [] line) = inr (w :: ws, p) ->
  (length (w :: ws) <= KSH_MAX_ARGS)%nat -> string_ok w -> Forall command_ok (kshell_commands_list s) ->
  exists s1, keeps s s1 /\ plan_ok s1 p /\
  forall r s2, kshell_redirect (s_rin s1) (s_rout s1) (p_append p) s1 = Done r s2 ->
    if r <? 0 then execute_line call n s = Done n s2
    else exists s3, keeps_sys s2 s3 /\ args_ok (s_buf s3) (s_args s3) (w :: ws) /\
      execute_line call n s =
        (if exits w then Done 0 s3
         else match head (filter (fun c => take KSH_CMD_NAME_LEN w `prefix_of` cname c) (kshell_commands_list s)) with
              | None => (kprintf "kshell: %s not a valid command
" [PStr w] ;; ret n) s3
              | Some c => (let* retval := call (kc_cmd_func c) (length (w :: ws)) in
                           ret (if retval <? 0 then retval else n)) s3
              end).
Proof.
  intros Hs Hp Hn Hw Hc. destruct (find_redirection_run s line Hs) as (i & o & Ei & Eo & junk & Hj & Hf).
  unfold first_pass in Hf. rewrite Hp in Hf. destruct Hf as (s1 & line1 & Ef & Hb1 & _ & H01 & Hl1 & Hp1 & Hk).
  exists s1. split; [done|]. split; [done|]. intros r s2 Er.
  assert (execute_line call n s =
          (if r <? 0 then ret n else
             let* argc := kshell_get_args KSH_MAX_ARGS in
             if (argc =? 0)%nat then ret n else run_command call argc n) s2) as ->.
  { unfold execute_line. unfold bind at 1 2 3 4, gets. rewrite Ei, Eo. cbn [deref]. unfold bind at 1 2, modify.
    unfold bind at 1. rewrite Ef. unfold bind at 1 2 3. change (0 <? 0) with false. cbn iota beta. destruct Hp1 as (_ & _ & -> & _). unfold bind at 1.
    rewrite Er. by destruct (r <? 0). }
  destruct (r <? 0); [done|]. destruct (framed_redirect _ _ _ _ _ _ Er) as (Ec2 & Eb2 & _ & _ & _ & Ea2).
  destruct Hk as (_ & _ & Ec1 & Ea1).
  destruct (get_args_run s2 line1 junk (w :: ws)) as (s3 & E3 & Hok & Hk3); try done.
  { by rewrite Eb2. }
  { rewrite Ea2, Ea1. apply Hs. }
  exists s3. split; [done|]. split; [done|]. erewrite bind_done by exact E3. cbn [length Nat.eqb].
  assert (kshell_commands_list s3 = kshell_commands_list s) as Ecs by (destruct Hk3 as (_ & _ & ->); congruence).
  rewrite (run_command_run s3 w ws) by (try done; by rewrite Ecs). by rewrite Ecs.
Qed.
End Line.
End KShellLine.
