(* ===== verification/KShellCmds.v ===== *)
(** * The commands of the kernel shell ([test/kshell/commands.c]) and the shell
    of the first process ([kshell_create], [kshell_destroy], [initproc_run])

    The loops that read a file or a directory to its end have fuel: they end
    when the system call says so. *)

From Stdlib Require Import ZArith Lia Ascii String.
From stdpp Require Import base list option.
From S2P Require Import Prelude KString Vnode Ramfs Namev VfsSyscall Printf KErrno KShell.
Import KString Vnode Ramfs Namev Printf KErrno KShell.

Module KShellCmds.
Local Open Scope Z_scope.

Inductive cmd_func :=
| cmd_help | cmd_exit | cmd_echo | cmd_cat | cmd_ls | cmd_cd | cmd_rm
| cmd_link | cmd_rmdir | cmd_mkdir | cmd_stat | cmd_tester.

Definition S_IFLNK : Z := 4096.
Definition S_ISREG (m : Z) : bool := S_TYPE m =? S_IFREG.
Definition S_ISLNK (m : Z) : bool := S_TYPE m =? S_IFLNK.

Definition get_file_type_str (mode : Z) : list Z :=
  if S_ISCHR mode then codes "character special file"
  else if S_ISDIR mode then codes "directory"
  else if S_ISBLK mode then codes "block special file"
  else if S_ISREG mode then codes "regular file"
  else if S_ISLNK mode then codes "symbolic link"
  else codes "unknown".

Definition errstr (e : Z) : parg :=
  match Errno.strerror e with Some t => PStr (codes t) | None => PNull end.

(** [memcpy] into the middle of an object. *)
Definition copy_at (o : list Z) (n : nat) (src : list Z) (count : nat) : option (list Z) :=
  r ← memcpy (drop n o) src count; Some (splice o n r).

Section Commands.
Context {W : Type} `{SysCalls W}.
Context (fuel : nat).

Local Abbreviation K A := (kern (shell_state W cmd_func) A).

Definition arg_string (n : nat) : K parg :=
  let* a := argv n in
  let* t := cstr a in
  ret (PStr t).

(** [list_iterate] over the commands; [spaces] is the local array. *)
Fixpoint help_loop (spaces : list Z) (l : list (command cmd_func)) : K Z :=
  match l with
  | [] => ret 0
  | c :: l =>
      let* namelen := deref (strnlen (kc_name c) KSH_CMD_NAME_LEN) in
      let* sp := deref (put spaces (KSH_CMD_NAME_LEN - namelen) 0) in
      let* n := cstr (kc_name c) in
      let* t := cstr sp in
      let* d := cstr (kc_desc c) in
      kprintf "%s%s%s
" [PStr n; PStr t; PStr d] ;;
      let* sp := deref (put sp (KSH_CMD_NAME_LEN - namelen) (ch " ")) in
      help_loop sp l
  end.

Definition kshell_help : K Z :=
  kprintf "Available commands:
" [] ;;
  let* l := gets kshell_commands_list in
  help_loop (replicate KSH_CMD_NAME_LEN (ch " ")) l.

(** [for (i = 1; i < argc - 1; ++i) kprintf(ksh, "%s ", argv[i])]; [n] is the
    number of iterations left. *)
Fixpoint echo_loop (n i : nat) : K unit :=
  match n with
  | O => ret tt
  | S n => let* a := arg_string i in kprintf "%s " [a] ;; echo_loop n (S i)
  end.

Definition kshell_echo (argc : nat) : K Z :=
  if (argc =? 1)%nat then kprintf "
" [] ;; ret 0
  else
    echo_loop (argc - 2) 1 ;;
    let* a := arg_string (argc - 1) in
    kprintf "%s
" [a] ;;
    ret 0.

(** The last value of [retval]. *)
Fixpoint cat_file (fuel : nat) (fd : Z) : K Z :=
  match fuel with
  | O => blocked
  | S fuel =>
      let* r := sys (do_read fd KSH_BUF_SIZE) in
      if fst r <=? 0 then ret (fst r)
      else
        let* w := kshell_write (snd r) (fst r) in
        if w <? 0 then ret w else cat_file fuel fd
  end.

Definition cat_one (i : nat) : K unit :=
  let* a := argv i in
  let* t := arg_string i in
  let* fd := sys (do_open a O_RDONLY) in
  if fd <? 0 then kprintf "Error opening file: %s
" [t]
  else
    let* retval := cat_file fuel fd in
    (if retval <? 0 then kprintf "Error reading or writing %s: %d
" [t; PInt retval] else ret tt) ;;
    let* retval := sys (do_close fd) in
    if retval <? 0 then panic else ret tt.

(** [for (i = ...; i < argc; ++i) body(i)]; [n] is the number of iterations. *)
Fixpoint each_arg (body : nat -> K unit) (n i : nat) : K unit :=
  match n with
  | O => ret tt
  | S n => body i ;; each_arg body n (S i)
  end.

Definition kshell_cat (argc : nat) : K Z :=
  if (argc <? 2)%nat then kprintf "Usage: cat <files>
" [] ;; ret 0
  else each_arg cat_one (argc - 1) 1 ;; ret 0.

(** [direntname] and the name in [dirent] are local variables. *)
Fixpoint ls_loop (fuel : nat) (fd : Z) (arglen : nat) (direntname dname : list Z) : K Z :=
  match fuel with
  | O => blocked
  | S fuel =>
      let* r := sys (do_getdent fd dname) in
      if negb (fst r =? VfsSyscall.SIZEOF_DIRENT_T) then ret (fst r)
      else
        let dname := match snd r with Some (_, n) => n | None => dname end in
        let* direntname := deref (copy_at direntname (arglen + 1) dname (Z.to_nat NAME_LEN + 1)) in
        let* st := sys (do_stat direntname) in
        let* t := cstr dname in
        (if fst st <? 0 then kprintf "Error stat'ing %s
" [PStr t]
         else
           let* sb := deref (snd st) in
           if S_ISDIR (st_mode sb) then kprintf "%s/
" [PStr t] else kprintf "%s
" [PStr t]) ;;
        ls_loop fuel fd arglen direntname dname
  end.

Definition ls_entries (fd : Z) (arglen : nat) (name dname : list Z) : K Z :=
  let direntname := replicate (Z.to_nat KSH_BUF_SIZE) 0 in
  let* o := deref (copy_at direntname 0 name arglen) in
  let* o := deref (put o arglen (ch "/")) in
  let* o := deref (put o (arglen + Z.to_nat NAME_LEN + 1) 0) in
  let* ret' := ls_loop fuel fd arglen o dname in
  sys (do_close fd) ;;
  ret ret'.

(** [dname] is what the name of the local [dirent] holds. *)
Definition kshell_ls (dname : list Z) (argc : nat) : K Z :=
  if (3 <? argc)%nat then kprintf "Usage: ls <directory>
" [] ;; ret 0
  else if (argc =? 2)%nat then
    let* a := argv 1 in
    let* t := arg_string 1 in
    let* st := sys (do_stat a) in
    if fst st <? 0 then
      if fst st =? - ENOENT then kprintf "%s does not exist
" [t] ;; ret 0 else ret (fst st)
    else
      let* sb := deref (snd st) in
      if negb (S_ISDIR (st_mode sb)) then kprintf "%s is not a directory
" [t] ;; ret 0
      else
        let* fd := sys (do_open a O_RDONLY) in
        if fd <? 0 then kprintf "Could not find directory: %s
" [t] ;; ret 0
        else
          let* arglen := deref (strnlen a (Z.to_nat KSH_BUF_SIZE)) in
          ls_entries fd arglen a dname
  else
    kassert (argc =? 1)%nat ;;
    let* fd := sys (do_open (codes "." ++ [0]) O_RDONLY) in
    if fd <? 0 then kprintf "Could not find directory: .
" [] ;; ret 0
    else ls_entries fd 1 (codes ".") dname.

Definition kshell_cd (argc : nat) : K Z :=
  if (argc <? 2)%nat then kprintf "Usage: cd <directory>
" [] ;; ret 0
  else
    let* a := argv 1 in
    let* r := sys (do_chdir a) in
    (if r <? 0 then let* t := arg_string 1 in kprintf "Error cd'ing into %s
" [t] else ret tt) ;;
    ret 0.

Definition kshell_rm (argc : nat) : K Z :=
  if (argc <? 2)%nat then kprintf "Usage: rm <file>
" [] ;; ret 0
  else
    let* a := argv 1 in
    let* r := sys (do_unlink a) in
    (if r <? 0 then let* t := arg_string 1 in kprintf "Error unlinking %s
" [t] else ret tt) ;;
    ret 0.

Definition kshell_link (argc : nat) : K Z :=
  if (argc <? 3)%nat then kprintf "Usage: link <src> <dst>
" [] ;; ret 0
  else
    let* a := argv 1 in
    let* b := argv 2 in
    let* r := sys (do_link a b) in
    (if r <? 0 then
       let* t := arg_string 1 in
       let* u := arg_string 2 in
       kprintf "Error linking %s to %s: %d
" [t; u; PInt r]
     else ret tt) ;;
    ret 0.

(** The loop [rmdir], [mkdir] and [stat] share: [exit_val] is 1 after a
    failure. *)
Fixpoint each_exit (body : nat -> K bool) (n i : nat) (exit_val : Z) : K Z :=
  match n with
  | O => ret exit_val
  | S n => let* ok := body i in each_exit body n (S i) (if ok : bool then exit_val else 1)
  end.

Definition rmdir_one (i : nat) : K bool :=
  let* a := argv i in
  let* r := sys (do_rmdir a) in
  if r <? 0 then
    let* t := arg_string i in
    kprintf "rmdir: failed to remove `%s': %s
" [t; errstr (- r)] ;;
    ret false
  else ret true.

Definition kshell_rmdir (argc : nat) : K Z :=
  if (argc <? 2)%nat then kprintf "Usage: rmdir DIRECTORY...
" [] ;; ret 1
  else each_exit rmdir_one (argc - 1) 1 0.

Definition mkdir_one (i : nat) : K bool :=
  let* a := argv i in
  let* r := sys (do_mkdir a) in
  if r <? 0 then
    let* t := arg_string i in
    kprintf "mkdir: cannot create directory `%s': %s
" [t; errstr (- r)] ;;
    ret false
  else ret true.

Definition kshell_mkdir (argc : nat) : K Z :=
  if (argc <? 2)%nat then kprintf "Usage: mkdir DIRECTORY...
" [] ;; ret 1
  else each_exit mkdir_one (argc - 1) 1 0.

Definition stat_one (i : nat) : K bool :=
  let* a := argv i in
  let* r := sys (do_stat a) in
  let* t := arg_string i in
  if fst r <? 0 then
    kprintf "Cannot state `%s': %s
" [t; errstr (- fst r)] ;;
    ret false
  else
    let* b := deref (snd r) in
    kprintf "File: `%s'
" [t] ;;
    kprintf "Size: %d
" [PInt (st_size b)] ;;
    kprintf "Blocks: %d
" [PInt (st_blocks b)] ;;
    kprintf "IO Block: %d
" [PInt (st_blksize b)] ;;
    kprintf "%s
" [PStr (get_file_type_str (st_mode b))] ;;
    kprintf "Inode: %d
" [PInt (st_ino b)] ;;
    kprintf "Links: %d
" [PInt (st_nlink b)] ;;
    ret true.

Definition kshell_stat (argc : nat) : K Z :=
  if (argc <? 2)%nat then kprintf "Usage: stat FILE...
" [] ;; ret 1
  else each_exit stat_one (argc - 1) 1 0.

(** [tester] is the test suite the first process adds. *)
Definition call_command (dname : list Z) (tester : nat -> K Z) (f : cmd_func) (argc : nat) : K Z :=
  match f with
  | cmd_help => kshell_help
  | cmd_exit => panic
  | cmd_echo => kshell_echo argc
  | cmd_cat => kshell_cat argc
  | cmd_ls => kshell_ls dname argc
  | cmd_cd => kshell_cd argc
  | cmd_rm => kshell_rm argc
  | cmd_link => kshell_link argc
  | cmd_rmdir => kshell_rmdir argc
  | cmd_mkdir => kshell_mkdir argc
  | cmd_stat => kshell_stat argc
  | cmd_tester => tester argc
  end.

(** ** Set-up *)

(** [obj] is what [kmalloc] returns. *)
Definition kshell_add_command (obj : option (list Z * list Z)) (name : string) (f : cmd_func) (desc : string) : K unit :=
  let* c := deref (kshell_command_create obj (codes name ++ [0]) f (Some (codes desc ++ [0]))) in
  kassert (bool_decide (is_Some c)) ;;
  let* c := deref c in
  let* l := gets kshell_commands_list in
  modify (set_cmds (l ++ [c])).

Definition commands : list (string * cmd_func * string) :=
  [("help", cmd_help, "prints a list of available commands");
   ("echo", cmd_echo, "display a line of text");
   ("cat", cmd_cat, "concatenate files and print on the standard output");
   ("ls", cmd_ls, "list directory contents");
   ("cd", cmd_cd, "change the working directory");
   ("rm", cmd_rm, "remove files");
   ("link", cmd_link, "call the link function to create a link to a file");
   ("rmdir", cmd_rmdir, "remove empty directories");
   ("mkdir", cmd_mkdir, "make directories");
   ("stat", cmd_stat, "display file status");
   ("exit", cmd_exit, "exits the shell")]%string.

Definition kshell_init (alloc : cmd_func -> option (list Z * list Z)) : K unit :=
  modify (set_cmds []) ;;
  foldr (fun c k => kshell_add_command (alloc c.1.2) c.1.1 c.1.2 c.2 ;; k) (ret tt) commands.

(** [ok] is whether [kmalloc] returns an object; the result is whether the
    shell exists, its descriptors then being in the state. *)
Definition kshell_create (ok : bool) (ttyid : Z) : K bool :=
  if negb ok then ret false
  else
    let* path := deref (message "/dev/tty%u" [PInt ttyid]) in
    let* fd := sys (do_open (path ++ [0]) O_RDWR) in
    if fd <? 0 then ret false
    else
      modify (set_ksh (Kshell fd fd fd)) ;;
      ret true.

Definition kshell_destroy : K unit :=
  kprintf "Bye!
" [] ;;
  let* k := gets s_ksh in
  let* r := sys (do_close (ksh_fd k)) in
  if r <? 0 then panic else ret tt.

(** The loop of [initproc_run]; the buffers of each call hold what the stack
    holds. *)
Fixpoint shell_loop (dname : list Z) (tester : nat -> K Z) (fuel : nat) : K Z :=
  match fuel with
  | O => blocked
  | S fuel =>
      let* err := kshell_execute_next (call_command dname tester) in
      if 0 <? err then shell_loop dname tester fuel else ret err
  end.

(** The part of [initproc_run] that runs the shell. *)
Definition initproc_shell (dname : list Z) (tester : nat -> K Z) (ok : bool) (obj : option (list Z * list Z)) : K unit :=
  let* created := kshell_create ok 0 in
  kshell_add_command obj "test" cmd_tester "Tests vfstest.c" ;;
  kassert created ;;
  let* err := shell_loop dname tester fuel in
  kassert (err =? 0) ;;
  kshell_destroy.
End Commands.

(** ** The virtual file system as the system the shell runs on *)
#[export] Instance vfs_calls `{Devs} `{Abi} `{VfsSyscall.CdevOps} : SysCalls vst := {
  KShell.do_open := VfsSyscall.do_open;
  KShell.do_close := VfsSyscall.do_close;
  KShell.do_read := VfsSyscall.do_read;
  KShell.do_write := VfsSyscall.do_write;
  KShell.do_stat := VfsSyscall.do_stat;
  KShell.do_getdent := VfsSyscall.do_getdent;
  KShell.do_chdir := VfsSyscall.do_chdir;
  KShell.do_unlink := VfsSyscall.do_unlink;
  KShell.do_link := VfsSyscall.do_link;
  KShell.do_rmdir := VfsSyscall.do_rmdir;
  KShell.do_mkdir := VfsSyscall.do_mkdir
}.
End KShellCmds.
