(* ===== verification/KShellOut.v ===== *)
(** * What the kernel shell prints

    Proved for every system whose output is a log: a class of systems that the
    shell's commands print to. *)

From Stdlib Require Import ZArith Lia Ascii String.
From stdpp Require Import base list option.
From S2P Require Import Prelude KString Printf PrintfRef PrintfFmt KShell KShellSpec KShellLine KShellCmds.
Import KString Printf PrintfRef PrintfFmt KShell KShellSpec KShellLine KShellCmds.

Module KShellOut.
Local Open Scope Z_scope.

(** A system that writes everything it is given to the end of a log. *)
Class Console (W : Type) `{SysCalls W} := {
  console_log : W -> list Z;
  console_write : forall fd t w, exists w',
    do_write fd (t ++ [0]) (Z.of_nat (length t)) w = Done (Z.of_nat (length t)) w' /\
    console_log w' = console_log w ++ t
}.

Section Output.
Context {W : Type} `{Console W}.
Implicit Types s : shell_state W cmd_func.

Definition printed s : list Z := console_log (s_sys s).

Lemma kprintf_run s fmt args t : message fmt args = Some t -> (length t < 1024)%nat ->
  exists s', kprintf fmt args s = Done tt s' /\ printed s' = printed s ++ t /\ same_line s s'.
Proof.
  intros Em Hl. unfold kprintf, kshell_write, sys, bind, gets, ret. rewrite Em. cbn [deref].
  rewrite take_ge by (unfold KSH_BUF_SIZE; lia).
  destruct (console_write (ksh_out_fd (s_ksh s)) t (s_sys s)) as (w' & E & Hlog). rewrite E.
  rewrite Z.eqb_refl. cbn [negb andb]. by exists (set_sys w' s).
Qed.

Lemma message_word_space w : message "%s " [PStr w] = Some (w ++ codes " ").
Proof. reflexivity. Qed.

Lemma message_word_line w : message "%s
" [PStr w] = Some (w ++ [10]).
Proof. reflexivity. Qed.

Lemma arg_string_run s k ws w : args_ok (s_buf s) (s_args s) ws -> ws !! k = Some w -> 0 ∉ w ->
  arg_string k s = Done (PStr w) s.
Proof.
  intros Hok Hk Hw. destruct (argv_run s k ws w Hok Hk) as [r E]. unfold arg_string.
  erewrite bind_done by exact E. erewrite bind_done by (by apply cstr_run). done.
Qed.

(** The words, separated by spaces. *)
Fixpoint join (ws : list (list Z)) : list Z :=
  match ws with
  | [] => []
  | [w] => w
  | w :: ws => w ++ codes " " ++ join ws
  end.

Definition printable (w : list Z) : Prop := 0 ∉ w /\ (length w < 1023)%nat.

Lemma echo_loop_run n : forall s pre mid post,
  args_ok (s_buf s) (s_args s) (pre ++ mid ++ post) -> Forall printable mid -> length mid = n ->
  exists s', echo_loop n (length pre) s = Done tt s' /\
    printed s' = printed s ++ concat (map (fun w => w ++ codes " ") mid) /\ same_line s s'.
Proof.
  induction n as [|n IH]; intros s pre mid post Hok Hm Hn.
  - destruct mid; [|done]. exists s. split; [done|]. by rewrite app_nil_r.
  - destruct mid as [|w mid]; [done|]. apply Forall_cons_1 in Hm as [[Hw Hlw] Hm]. cbn [echo_loop].
    erewrite bind_done by (eapply arg_string_run; [done|by apply list_lookup_middle|done]).
    destruct (kprintf_run s _ _ _ (message_word_space w)) as (s1 & E1 & Hp1 & Hs1); [rewrite length_app; cbn; lia|].
    erewrite bind_done by exact E1. replace (S (length pre)) with (length (pre ++ [w])) by (rewrite length_app; cbn; lia).
    destruct (IH s1 (pre ++ [w]) mid post) as (s2 & E2 & Hp2 & Hs2); [|done|by injection Hn|].
    { destruct Hs1 as (_ & -> & _ & _ & _ & ->). by rewrite <- app_assoc. }
    exists s2. split; [done|]. split; [|by etransitivity].
    rewrite Hp2, Hp1. cbn [map concat]. by rewrite !app_assoc.
Qed.

Lemma join_snoc mid w : concat (map (fun w => w ++ codes " ") mid) ++ w = join (mid ++ [w]).
Proof.
  induction mid as [|v mid IH]; [done|]. cbn [map concat app join].
  destruct (mid ++ [w]) as [|u l] eqn:E; [by destruct mid|]. rewrite <- E. rewrite <- !app_assoc, IH. by rewrite E.
Qed.

(** [echo] prints its arguments, separated by single spaces, and a newline. *)
Theorem echo_spec s c ws : args_ok (s_buf s) (s_args s) (c :: ws) -> Forall printable ws ->
  exists s', kshell_echo (length (c :: ws)) s = Done 0 s' /\ printed s' = printed s ++ join ws ++ [10] /\ same_line s s'.
Proof.
  intros Hok Hws. unfold kshell_echo. destruct ws as [|w0 ws0] eqn:Ews.
  - cbn [length Nat.eqb]. destruct (kprintf_run s "
" [] [10]) as (s1 & E1 & Hp1 & Hs1); [done|cbn; lia|]. exists s1. erewrite bind_done by exact E1. done.
  - rewrite <- Ews in *. destruct (exists_last (l := ws)) as (mid & w & Ew); [by rewrite Ews|].
    assert (length (c :: ws) = length mid + 2)%nat as Hlen by (rewrite Ew; cbn; rewrite length_app; cbn; lia).
    rewrite Hlen. destruct (Nat.eqb_spec (length mid + 2) 1) as [|_]; [lia|].
    rewrite Ew in Hok, Hws. apply Forall_app in Hws as [Hm [Hw _]%Forall_cons_1].
    destruct (echo_loop_run (length mid + 2 - 2) s [c] mid [w]) as (s1 & E1 & Hp1 & Hs1); [done|done|lia|].
    erewrite bind_done by exact E1.
    assert (args_ok (s_buf s1) (s_args s1) (c :: mid ++ [w])) as Hok1 by (by destruct Hs1 as (_ & -> & _ & _ & _ & ->)).
    erewrite bind_done.
    2: { eapply (arg_string_run s1 _ _ w Hok1); [|apply Hw]. replace (length mid + 2 - 1)%nat with (length (c :: mid)) by (cbn; lia).
         by apply (list_lookup_middle (c :: mid) []). }
    destruct (kprintf_run s1 _ _ _ (message_word_line w)) as (s2 & E2 & Hp2 & Hs2).
    { destruct Hw as [_ Hw]. rewrite length_app. cbn. lia. }
    erewrite bind_done by exact E2. exists s2. split; [done|]. split; [|by etransitivity].
    rewrite Hp2, Hp1, Ew, <- join_snoc. by rewrite <- !app_assoc.
Qed.
End Output.
End KShellOut.
