(* ===== verification/KShellNext.v ===== *)
(** * A round of the kernel shell

    [kshell_execute_next] from the prompt to the end of the command, over a
    system whose descriptors are counted ([Descriptors]): it returns, and
    whatever it redirected is closed again. *)

From Stdlib Require Import ZArith Lia Ascii String.
From stdpp Require Import base list gmap option.
From S2P Require Import Prelude KString Printf PrintfRef KShell KShellSpec KShellLine.
Import KString Printf PrintfRef KShell KShellSpec KShellLine.

Module KShellNext.
Local Open Scope Z_scope.

(** ** What the shell relies on

    The calls return; [do_open] gives a descriptor that was not open or an error
    below 0, [do_close] of an open descriptor succeeds, and [do_write] writes
    everything or returns an error. *)
Class Descriptors (W : Type) `{SysCalls W} := {
  open_fds : W -> gset Z;
  fds_open : forall name flags w, exists fd w', do_open name flags w = Done fd w' /\
    if fd <? 0 then open_fds w' = open_fds w else fd ∉ open_fds w /\ open_fds w' = {[fd]} ∪ open_fds w;
  fds_close : forall fd w, fd ∈ open_fds w -> exists r w', do_close fd w = Done r w' /\
    0 <= r /\ open_fds w' = open_fds w ∖ {[fd]};
  fds_write : forall fd b n w, 0 <= n -> exists r w', do_write fd b n w = Done r w' /\
    (r = n \/ r < 0) /\ open_fds w' = open_fds w;
  fds_read : forall fd n w, fd ∈ open_fds w -> exists r b w', do_read fd n w = Done (r, b) w' /\
    (r = Z.of_nat (length b) \/ r < 0 /\ b = []) /\ open_fds w' = open_fds w
}.








Section Round.
Context {W F : Type} `{Descriptors W}.
Implicit Types s : shell_state W F.
Context (call : F -> nat -> kern (shell_state W F) Z).














(** ** The line *)











End Round.
End KShellNext.
