(* ===== verification/KShellDemo.v ===== *)
(** * The kernel shell on concrete lines

    A system that prints to a log, on which the theorems are applied, and runs
    of the shell on the virtual file system that show what lines of an
    unexpected form do. *)

From Stdlib Require Import ZArith Lia Ascii String.
From stdpp Require Import base list gmap option.
From S2P Require Import Prelude KString Vnode Ramfs RamfsDemo Namev VfsSyscall Printf KShell KShellSpec KShellLine KShellCmds KShellOut KShellNext.
Import KString Vnode Ramfs RamfsDemo Namev Printf KShell KShellSpec KShellLine KShellCmds KShellOut KShellNext.

Module KShellDemo.
Local Open Scope Z_scope.

(** ** A system with a log; [open] is what opening a file returns *)
Definition logger (open : Z) : SysCalls (list Z) := {|
  KShell.do_open := fun _ _ => ret open;
  KShell.do_close := fun _ => ret 0;
  KShell.do_read := fun _ _ => ret (0, []);
  KShell.do_write := fun _ b n w => Done n (w ++ take (Z.to_nat n) b);
  KShell.do_stat := fun _ => ret (- ENOENT, None);
  KShell.do_getdent := fun _ _ => ret (0, None);
  KShell.do_chdir := fun _ => ret 0;
  KShell.do_unlink := fun _ => ret 0;
  KShell.do_link := fun _ _ => ret 0;
  KShell.do_rmdir := fun _ => ret 0;
  KShell.do_mkdir := fun _ => ret 0
|}.

#[local] Instance logger0 : SysCalls (list Z) := logger 3.
#[local] Instance logger_console : Console (list Z).
Proof.
  exists (fun w => w). intros fd t w. exists (w ++ t). cbn. by rewrite Nat2Z.id, take_app_length.
Defined.

Definition named (n : string) (f : cmd_func) : command cmd_func := Command (codes n ++ [0]) f [0].
Definition cmd_table : list (command cmd_func) := [named "help" cmd_help; named "echo" cmd_echo; named "exit" cmd_exit].

(** The shell about to execute [line], without its newline. *)
Definition shell_at (line : string) : shell_state (list Z) cmd_func :=
  State [] (Kshell 0 0 0) cmd_table (codes line ++ 0 :: replicate 8 7) (replicate redirect_size 7) (replicate redirect_size 7) None
    (replicate KSH_MAX_ARGS None).

Definition ascii_ok (line : string) : bool :=
  forallb (fun c => negb (c =? 0)) (codes line) && (length (codes line) <=? 100)%nat.

Lemma shell_at_line line : ascii_ok line = true -> at_line (shell_at line) (codes line).
Proof.
  unfold ascii_ok. rewrite andb_true_iff, Nat.leb_le. intros [H0%no_nul Hl].
  split; [by exists (replicate 8 7)|]. split; [done|]. split; [unfold redirect_size; lia|].
  cbn [shell_at s_rin s_rout s_append s_args]. by rewrite !length_replicate.
Qed.

Lemma cmd_table_ok : Forall command_ok cmd_table.
Proof.
  repeat constructor; [exists (codes "help"), []|exists (codes "echo"), []|exists (codes "exit"), []];
    (split; [done|split; [by apply no_nul|by apply chars_of]]).
Qed.

Definition call0 := call_command (W := list Z) 10 [] (fun _ => ret 0).

(** The output of [echo] is redirected, and its arguments are what is left. *)
Lemma execute_line_spec_witness : exists s1 s3 : shell_state (list Z) cmd_func,
  plan_ok s1 (Plan [] (codes "out") (Some 0)) /\ args_ok (s_buf s3) (s_args s3) [codes "echo"; codes "a"; codes "b"] /\
  execute_line call0 16 (shell_at "echo a >out  b") = (let* r := kshell_echo 3 in ret (if r <? 0 then r else 16)) s3.
Proof.
  destruct (execute_line_spec call0 (shell_at "echo a >out  b") (codes "echo a >out  b") 16 (codes "echo") [codes "a"; codes "b"]
              (Plan [] (codes "out") (Some 0))) as (s1 & _ & Hp & Hrun).
  - by apply shell_at_line.
  - reflexivity.
  - unfold KSH_MAX_ARGS. cbn. lia.
  - split; [by apply no_nul|by apply chars_of].
  - exact cmd_table_ok.
  - assert (exists s2, kshell_redirect (s_rin s1) (s_rout s1) (Some 0) s1 = Done 0 s2) as [s2 E2].
    { destruct Hp as ([r1 Hi] & [r2 Ho] & _). cbn in Hi, Ho. rewrite Hi, Ho. eexists. unfold kshell_redirect, redirect_output, sys, bind, gets, modify. cbn. reflexivity. }
    destruct (Hrun 0 s2 E2) as (s3 & _ & Hok & E). exists s1, s3. split; [done|]. split; [done|]. rewrite E. reflexivity.
Defined.

Lemma execute_line_unexpected_witness : exists s1,
  execute_line call0 9 (shell_at "echo a > ") = (kprintf "kshell: Unexpected token '%s'
" [PStr (codes "end of line")] ;; ret 9) s1.
Proof.
  destruct (execute_line_unexpected call0 (shell_at "echo a > ") (codes "echo a > ") 9 KTT_EOL) as (s1 & _ & E).
  - by apply shell_at_line.
  - reflexivity.
  - exists s1. exact E.
Defined.

Lemma done_result {S} (z : Z) (o : outcome S Z) : match o with Done r _ => r = z | _ => False end -> exists s, o = Done z s.
Proof. destruct o; [|done..]. intros ->. eauto. Qed.

(** The file of the input does not open. *)
Lemma kshell_redirect_error_witness : exists s', kshell_redirect (H := logger (-2)) (codes "f" ++ [0]) [0] None (shell_at "") = Done (-2) s' /\
  undirected s'.
Proof.
  destruct (done_result (-2) (kshell_redirect (H := logger (-2)) (codes "f" ++ [0]) [0] None (shell_at ""))) as [s' E];
    [vm_compute; reflexivity|].
  exists s'. split; [exact E|]. exact (@kshell_redirect_error (list Z) cmd_func (logger (-2)) _ _ _ _ _ _ E ltac:(lia)).
Defined.

(** ** A system with descriptors and a list of what happened *)
Inductive event := Opened (name : list Z) (fd : Z) | Closed (fd : Z) | Wrote (fd : Z) (t : list Z).
Record world := World { w_log : list event; w_fds : gset Z }.

(** A number above all descriptors. *)
Definition next_fd (X : gset Z) : Z := 1 + foldr Z.max 0 (elements X).

Lemma next_fd_new X : next_fd X ∉ X /\ 0 <= next_fd X.
Proof.
  assert (H : forall l : list Z, (forall x, x ∈ l -> x <= foldr Z.max 0 l) /\ 0 <= foldr Z.max 0 l).
  { induction l as [|y l [IH Hp]]; cbn; [split; [by intros x ?%elem_of_nil|lia]|]. split; [|lia]. intros x [->|Hx%IH]%elem_of_cons; lia. }
  unfold next_fd. destruct (H (elements X)) as [H1 H2]. split; [|lia]. intros Hin%elem_of_elements%H1. lia.
Qed.

Definition recorder (line : string) : SysCalls world := {|
  KShell.do_open := fun n _ w => let fd := next_fd (w_fds w) in Done fd (World (w_log w ++ [Opened (take (default 0%nat (strlen n)) n) fd]) ({[fd]} ∪ w_fds w));
  KShell.do_close := fun fd w => if bool_decide (fd ∈ w_fds w) then Done 0 (World (w_log w ++ [Closed fd]) (w_fds w ∖ {[fd]})) else Done (-9) w;
  KShell.do_read := fun _ _ => ret (Z.of_nat (length (codes line)) + 1, codes line ++ [10]);
  KShell.do_write := fun fd b n w => Done n (World (w_log w ++ [Wrote fd (take (Z.to_nat n) b)]) (w_fds w));
  KShell.do_stat := fun _ => ret (- ENOENT, None);
  KShell.do_getdent := fun _ _ => ret (0, None);
  KShell.do_chdir := fun _ => ret 0;
  KShell.do_unlink := fun _ => ret 0;
  KShell.do_link := fun _ _ => ret 0;
  KShell.do_rmdir := fun _ => ret 0;
  KShell.do_mkdir := fun _ => ret 0
|}.

#[local] Instance recorder0 : SysCalls world := recorder "echo a >out  b".
#[local] Instance recorder_fds : Descriptors world.
Proof.
  exists w_fds.
  - intros name flags w. destruct (next_fd_new (w_fds w)) as [H1 H2]. eexists _, _. split; [done|].
    destruct (Z.ltb_spec (next_fd (w_fds w)) 0); [lia|]. done.
  - intros fd w Hfd. cbn. rewrite bool_decide_eq_true_2 by done. by eexists _, _.
  - intros fd b n w Hn. eexists _, _. split; [done|]. split; [by left|done].
  - intros fd n w Hfd. eexists _, _, _. split; [done|]. split; [left|done]. rewrite length_app. cbn. lia.
Defined.








Definition echoing : shell_state (list Z) cmd_func :=
  set_args [Some 0%nat; Some 5%nat; Some 7%nat] (set_buf (codes "echo" ++ 0 :: codes "a" ++ 0 :: codes "b" ++ [0]) (shell_at "")).

Lemma echo_spec_witness : exists s', kshell_echo 3 echoing = Done 0 s' /\ printed s' = codes "a b" ++ [10].
Proof.
  destruct (echo_spec echoing (codes "echo") [codes "a"; codes "b"]) as (s' & E & Hp & _).
  - intros [|[|[|k]]] w Hk; try done; injection Hk as <-; eauto.
  - repeat constructor; try (by apply no_nul); cbn; lia.
  - by exists s'.
Defined.

(** ** Lines that end badly *)

(** A 129th argument is stored outside [args]. *)
Lemma too_many_args :
  kshell_get_args KSH_MAX_ARGS (set_buf (concat (replicate 129 (codes "a ")) ++ [0; 0]) (shell_at "")) = Stuck.
Proof. vm_compute. reflexivity. Qed.

(** When the read fills the buffer, the terminator after the last argument is
    stored outside [buf]. *)
Lemma full_buffer :
  kshell_get_args KSH_MAX_ARGS (set_buf (replicate (Z.to_nat KSH_BUF_SIZE) (ch "a") ++ [0]) (shell_at "")) = Stuck.
Proof. vm_compute. reflexivity. Qed.

(** Any prefix of ["exit"] ends the shell, before the table is searched. *)
Lemma exit_prefix : match execute_line call0 2 (shell_at "e") with Done r _ => r = 0 | _ => False end.
Proof. vm_compute. reflexivity. Qed.

(** ** The shell on the file system *)
#[local] Instance devs : Devs := {| bytedev_lookup := fun d => Some d; blockdev_lookup := fun _ => None |}.
#[local] Instance abi0 : Abi := {| fell_off := 0; junk_store_ok := true |}.

Section Terminal.
Context (line : string).

(** The terminal's next line; it prints anything. *)
#[local] Instance tty : VfsSyscall.CdevOps := {|
  VfsSyscall.cd_read := fun _ _ _ => ret (Z.of_nat (length (codes line)) + 1, codes line ++ [10]);
  VfsSyscall.cd_write := fun _ _ _ n => ret n
|}.

Definition booted : vst :=
  run_of (VfsSyscall.vfs_init ;;
          let* r := gets vfs_root_vn in
          vref r ;;
          modify (set_cwd r) ;;
          VfsSyscall.do_mkdir (codes "/dev" ++ [0]) ;;
          VfsSyscall.do_mknod (codes "/dev/tty0" ++ [0]) S_IFCHR 512) boot_vst.

(** The shell is created on the terminal and executes the line. *)
Definition run_line : outcome (shell_state vst cmd_func) Z :=
  (kshell_init (fun _ => Some (replicate 17 5, replicate 65 5)) ;;
   kshell_create true 0 ;;
   kshell_execute_next (call_command 10 (replicate 29 0) (fun _ => ret 0)))
  (State booted (Kshell 0 0 0) [] (replicate 1025 7) (replicate 1024 7) (replicate 1024 7) None []).

Definition line_result : option Z := match run_line with Done r _ => Some r | _ => None end.
End Terminal.

(** [mkdir] and [ls] work.  [ls] with two arguments fails its assertion; [ls] of a path
    through a file ends the shell with an error, which the first process asserts does not happen. *)
Lemma file_system_lines :
  line_result "mkdir /x /dev/y" = Some 15 /\ line_result "ls /dev" = Some 7 /\
  run_line "ls / /dev" = Panic /\ line_result "ls /dev/tty0/a" = Some (-20).
Proof. vm_compute. repeat split; reflexivity. Qed.

(** Redirecting the output to a file: [do_open] refuses [O_WRONLY | O_CREAT]
    with a positive number, the shell takes it for a descriptor, and closing it
    fails. *)
Lemma output_redirection_panics : run_line "echo a > f" = Panic /\ run_line "echo a >> f" = Panic.
Proof. vm_compute. split; reflexivity. Qed.
End KShellDemo.
